(* ===== verification/_CoqProject ===== *)
-Q . S2P
Prelude.v
Go.v
Duration.v
RelaxedTime.v
Encoding.v
Etree.v
Schema.v
C14n.v
Env.v
Http.v
Store.v
XmlTree.v
ServiceProvider.v
Reference.v
ServiceProviderSpec.v
DSig.v
DSigStores.v
DSigSpec.v
Redirect.v
RedirectSpec.v
SchemaXML.v
XmlDecode.v
XmlEncode.v
SchemaDecode.v
MetadataCodec.v
SchemaEncode.v
SchemaRoundtrip.v
MetadataRoundtrip.v
SchemaEncodeSpec.v
C14nReads.v
C14nSpec.v
C14nStable.v
SchemaTidy.v
SchemaDecodeSpec.v
SignatureDecode.v
XmlText.v
SignElements.v
SignSearch.v
SignValidate.v
C14nUnmarshal.v
ResponseForm.v
IdentityProvider.v
Assertions.v
IdpResponse.v
IdpLogout.v
SPMessages.v
Jwt.v
Middleware.v
MiddlewareDefaults.v
JwtSpec.v
IdpServer.v
IdpServerAdmin.v
IdpServerSteps.v
IdpServerSpec.v
IdpServerInv.v
IdpServerRun.v
IdpServerSessions.v
IdpServerExamples.v
XmlEnc.v
XmlEncSpec.v
IdpSpec.v
AssertionsSpec.v
IdpResponseSpec.v
IdpLogoutSpec.v
SPMessagesSpec.v
SingleSignOn.v
ResponseSigned.v
ResponseAccepted.v
SingleLogout.v
MiddlewareSpec.v
MiddlewareFlow.v
MiddlewareExamples.v
MetadataSpec.v
MetadataExamples.v
