(* ===== verification/Prelude.v ===== *)
(** * A verification of the SAML library

    The library implements both sides of SAML 2.0 web single sign-on: a service
    provider sends a user to an identity provider with an [AuthnRequest], the
    identity provider authenticates the user and answers with a signed [Response]
    that contains an [Assertion], and the service provider decides whether to
    believe it.  Single logout works the same way with a [LogoutRequest] and a
    [LogoutResponse].  Messages are XML documents with XML signatures, sent in
    forms (HTTP-POST), in queries (HTTP-Redirect) or fetched with SOAP
    (HTTP-Artifact).  The development follows the Go sources definition by
    definition, under the names of the sources.

    ** Files and sources

    Shared foundations:
    - [Prelude]: notations (scope [go_scope]: [==], [!=], [+++]), tactics
      ([bool_prop], [case_conds]), the hint database [go], lemmas on lists and
      strings;
    - [Go]: times and durations, errors, the monad [outcome] of calls that
      return, fail or panic, 64-bit wrap-around;
    - [Encoding]: base64, query escaping, hexadecimal, splitting of strings;
    - [Duration]: [src/duration.go];
    - [RelaxedTime]: [src/time.go], with the calendar and the texts of package [time];
    - [Env]: the classes that stand for packages outside the repository, and the
      interfaces [SignatureOps] and [XmlEncOps] between the packages inside it;
    - [Http]: handlers as computations [IO W A] on a state of the world and a list
      of events, the requests they read, and the rules [writes] and [quiet] to
      reason about what they write.

    XML and signatures:
    - [Etree]: elements and [src/internal/dsig/etreeutils/namespace.go];
    - [C14n]: [canonicalize.go] and [sort.go] of that directory and
      [src/internal/dsig/canonicalize.go];
    - [DSig]: [sign.go], [ecdsa.go], [validate.go], [xml_constants.go] of
      [src/internal/dsig]; it discharges the interface [SignatureOps]
      ([DSigSpec.dsig_signature]);
    - [DSigStores]: the key stores and the clock of that directory;
    - [XmlTree]: [findChildren], [elementToBytes], [unmarshalElement] and what
      they call in [src/service_provider.go];
    - [Schema], [SchemaXML]: the message types of [src/schema.go] and
      [src/metadata.go] with their [Element] methods;
    - [XmlDecode]: how [encoding/xml] reads an element into a struct; [SchemaDecode]:
      the tags of the structs of [src/schema.go] and their [UnmarshalXML] methods, and
      [SignatureDecode]: those of [src/internal/dsig/types/signature.go]; they discharge
      the interfaces [XmlOps] ([xml_ops]) and [SignatureXmlOps] ([signature_xml_ops]) of
      the other parts with a parser of documents as their only parameter;
    - [XmlEncode]: how [encoding/xml] writes a struct, and its printer; [MetadataCodec]:
      the tags of the structs of [src/metadata.go], each read and written, with the
      [UnmarshalXML] and [MarshalXML] methods; it discharges the interface [MetadataXml]
      ([metadata_xml]); [SchemaEncode]: the tags and the [MarshalXML] methods of
      [src/schema.go];
    - [MetadataRoundtrip]: the law [RoundTrip] of a type that is read back from what is
      written, with its instances for metadata, and the tactics that prove it from the
      tags of a struct; [SchemaEncodeSpec]: its instances for the messages;
    - [SchemaRoundtrip] and [SchemaDecodeSpec]: what is read of a message that was
      written; [C14nReads] and [C14nSpec]: what is read of a canonical form, and
      [C14nStable]: on what it depends;
      [SchemaTidy]: the name spaces of an assertion, which [Element] canonicalizes;
    - [XmlText]: a reader of documents that inverts the writer of the development, which
      shows that the laws assumed of the parser can hold; [SignElements], [SignSearch] and
      [SignValidate]: from the elements that signing makes through the search for them to
      their validation;
    - [Redirect]: the HTTP-Redirect binding of
      [src/identity_provider_signature.go], [src/service_provider.go] and
      [src/flate.go].

    The service provider, [src/service_provider.go]:
    - [ServiceProvider]: accepting responses, from the document to the assertion;
    - [SPMessages]: the messages it sends, artifact resolution, logout responses.

    The identity provider:
    - [IdentityProvider]: requests of [src/identity_provider.go] and their
      signatures in [src/identity_provider_signature.go];
    - [Assertions]: the enforcers, the metadata and the default assertion;
    - [IdpResponse]: responses, [ServeSSO] and [ServeIDPInitiated];
    - [IdpLogout]: [src/identity_provider_logout.go].

    Both together: [SingleSignOn], the request and the assertion of single sign-on from
    the one to the other in the form in which they are sent; [ResponseForm], the trees of
    responses and of the signatures in them, [C14nUnmarshal], how [unmarshalElement] reads
    a canonical form and an element inside it, [ResponseSigned] and [ResponseAccepted], the
    signed response from the form that the identity provider sends to the assertion that
    the service provider accepts; [SingleLogout], the signed logout request and its signed
    response, from the one to the other and back; [MetadataSpec] and [MetadataExamples], the
    metadata that the one publishes and the other reads.

    XML encryption, [src/xmlenc]:
    - [XmlEnc]: [cbc.go], [gcm.go], [pubkey.go], [digest.go], [decrypt.go] and
      [xmlenc.go]; it discharges the interfaces [XmlEncOps] ([xmlenc_ops]) and
      [EncryptOps] ([encrypt_ops]) that the two providers use.

    The server around the identity provider, [src/samlidp]:
    - [Store]: the interface [Store] with its laws, and [MemoryStore];
    - [IdpServer]: the session provider and the service provider provider, [session.go]
      and the lookups of [service.go], over the world [ServerWorld] of the store and the
      maps of the registered service providers;
    - [IdpServerAdmin]: [New], the handlers of the RESTful interface and the patterns
      that [InitializeHTTP] registers ([user.go], [service.go], [shortcut.go],
      [samlidp.go], [util.go]), and [ServeMetadata] and [Handler] of the identity provider;
    - [IdpServerSteps]: the abstract server, a step relation on users, sessions,
      services and registrations; [IdpServerSpec] shows that the handlers are sequences
      of its steps, [IdpServerInv] that its steps keep the invariants, [IdpServerRun] and
      [IdpServerSessions] what follows for every state that a server reaches, and
      [IdpServerExamples] runs a server.

    The middleware around the service provider, [src/samlsp]:
    - [Jwt]: the codecs of [session_jwt.go] and [request_tracker_jwt.go];
    - [Middleware]: [middleware.go], [error.go], the cookies of [session_cookie.go] and
      [request_tracker_cookie.go], and the interfaces of the package as records of
      operations;
    - [MiddlewareDefaults]: [new.go] and [fetch_metadata.go];
    - [MiddlewareFlow]: the flow that starts when a browser has no session;
    - [MiddlewareExamples] runs a login.

    A file with the suffix [Spec] has the properties of the file it is named
    after, and examples of them in a module [Examples]. [Reference] has the small
    instances of the classes that the examples run on.

    ** How state and operations correspond

    A struct is a record with its fields in order, a pointer an [option], a slice
    a list, a map a [gmap] or, for ordered parameters, a list.  A method that
    assigns to fields returns the new record.  An [error] is a value of the type
    [error], which keeps the format string, the printable arguments and whether
    the cause is wrapped; a dereference of nil is [Panic].  An element that Go
    reaches through parent pointers is a [Cursor], the element with its
    ancestors; a function that edits an element returns the edited one.  A
    handler is a value of [IO W A]: it reads the clock and the random source of
    the world in the order of the source, and appends an [Event] for every
    header, body, status, redirect and line of the log.

    ** What the theorems show

    - Service provider (C1, C3, C33, C39): an assertion that is accepted is read
      from content that a verified signature covers, by a certificate the configuration
      designates, and meets every condition on time, audience, issuer, recipient
      and request; [validateAssertion] accepts exactly the assertions that meet
      them. The same for logout responses.
    - Signatures (C5, C8, C40): [Validate] returns only what the digest of a reference
      covers whose [SignedInfo] verifies with a trusted certificate at the time of
      the clock; what is signed validates, and gives the canonical content; the search
      for the signature terminates.
    - Identity provider, requests (C6): which requests are trusted, and where they
      are answered.
    - Single sign-on on the wire (C4, C7): the identity provider gets and accepts the
      request that the service provider's redirect carries; and the service provider gets
      and accepts the response that the identity provider's form carries, twice signed,
      and goes on with the assertion that was made. C4 goes through every part of the way:
      the assertion, its XML form, its signature and that of the response, the document,
      the search for the signature, its validation, the decoding of what it covers
      and the conditions of the service provider.
    - XML forms (C10, C20-C24, C29): messages are decoded from what their [Element] method
      builds, up to what their tags do not name, and in full if they have nothing of that; and
      messages and metadata from the text that [encoding/xml] writes of them, indented or not,
      with [EscapeText] and what the decoder makes of it in between; the canonical form of an element decodes
      to the same message, is well formed on its own, is its own canonical form, and does
      not depend on the surroundings of the element.
    - Metadata (C9, C35): the service provider reads what the identity provider publishes,
      and trusts its certificate and uses its endpoints; the server of the identity provider
      reads what a service provider publishes exactly if its locations are URLs of the web.
    - HTTP-Redirect (C18, C19): the message that is processed is the one that was
      signed, and what one side signs the other verifies.
    - Identity provider, responses (C17, C31): every page that [ServeSSO] writes is
      justified by the request that arrived and by the session of this run, and is posted to
      the validated endpoint; encryption is never skipped.
    - Logout (C32): which logout requests are trusted.
    - Agreement of the two sides (C28, C34): the service provider decrypts what the
      identity provider encrypts; the identity provider accepts the signed logout request
      that the service provider's redirect carries, and the service provider the signed
      response to it.
    - The server of the identity provider (C11, C12, C25-C27, C36, C37): it refines the
      abstract server; in every reachable state the registrations are those of the
      stored services, and a session that the identity provider gets
      is that of a stored, unchanged user; a login works for an hour, a change of a user ends
      the user's sessions, those included that a login stores late, and a cross-site login
      is refused.
    - The middleware (C2, C13-C16, C30, C38): sessions start for accepted
      answers to the browser's own requests only; what is protected needs a valid
      session; the flow that starts without one is expected to return, and a login
      completes; where redirects lead, with what [http.Redirect] makes of a path; the two kinds of
      tokens are not mixed up; fetched metadata are bounded.

    Theorems that are no numbered claims are found in the same files, among them the
    rejection of unsigned documents ([ParseXMLResponse_needs_signature]), the
    enforcers and the other validation functions ([EnforceSubject_iff],
    [checkRequest_iff]), the choice of endpoints and ciphers ([getACSEndpoint_sound],
    [contentEncryption_spec]), the agreement of the two sides before messages are written
    ([MakeAssertion_accepted], [MakeAuthenticationRequest_accepted]), the assertion as the
    service provider reads it ([sso_assertion_arrives]), the tracking of a request
    ([tracking_roundtrip]), unique emails in every reachable state of the server
    ([reachable_emails]), sessions that end for trusted requests only
    ([ServeSLO_terminates_trusted]), error responses without an assertion
    ([MakeErrorResponse_sound]), the text of metadata as in the golden files of the tests
    ([golden_metadata], [golden_assertion]), the form that
    carries a response ([PostBinding_success]), the decoding of a signature that was made
    ([signature_roundtrip]), the termination of
    [Decrypt] ([Decrypt_terminates]), the texts of times and durations
    ([RelaxedTime_roundtrip], [Duration_roundtrip]), and the defects: [Duration_not_exact],
    [parseResponse_panics_on_empty_plaintext],
    [ValidateLogoutResponseForm_panics_without_root], [empty_plaintext_not_read] and
    [DeleteSession_other_path].

    ** Bounds

    A namespace traversal counts down from the limit of 1000 visits of
    [NewDefaultNSContext]. [search_traverse] has fuel because it visits a tree
    that changes under it; [search_fuel] is 1001, and C40 shows that more fuel
    changes nothing. [XmlEnc.Decrypt] has the depth of the element as its fuel, and
    [Decrypt_terminates] shows the same for it. The nested codes of a status are read to
    the depth at which [encoding/xml] stops, [maxUnmarshalDepth]. Nested lists of entities
    are read to the depth of the element and written to their own, [entities_read_fuel] and
    [entities_write_fuel] show that more changes nothing. Every other recursion is structural.
    [sort.Sort] in the canonicalization is an insertion sort, as it is in Go for up to twelve
    attributes; for more the list is the same if they differ in their expanded names. [Duration] computes
    with [int64] wrap-around; elsewhere times and durations are unbounded
    integers of nanoseconds, with 0 for the zero time.

    ** What is assumed

    The packages outside the repository are parameters: [xml-roundtrip-validator], [etree], [crypto], [compress/flate], [net/url]
    (except query escaping), [html/template], [encoding/json], [bcrypt], [jose] and the
    HTTP client; the classes with the suffix [Laws], [EtreeBuild] and [EtreeFind], state what they
    document, for the theorems that rely on it. Of [encoding/xml] the parser of documents is
    a parameter ([XmlParser]), and so is how it writes an element of [etree] inside a message
    or metadata, by reflection on its fields ([EtreeXml]). A theorem
    on a message as it is sent assumes of the document only that the parser reads it as
    the element that was written ([parses_as]; for C4 [documents_read], of the response, of
    the canonical form of what is signed and of the assertion in it; for C9 and C35 [parses],
    that the parser reads what the printer writes of the metadata). A validation reads the clock of [internal/dsig] once, at
    its beginning, where the source may read it for each signature. Session providers,
    enforcers, assertion makers and service provider stores are functions on the state
    of the world that do not edit the request and do not panic; a session provider may
    write a page. [http.Error] and [http.Redirect] are one event each; the location of a
    redirect is the one that [http.Redirect] sends, with its path cleaned. In a run of
    the server one handler is done before the next one starts: its locks ([idpConfigMu],
    [usersMu]) are not modelled, nor are interleavings of handlers, although the steps of
    the abstract server are single writes. For a login that stores its session while a
    handler ends the sessions of the user C25 shows that the session is refused. The pattern under which [net/http] calls
    a handler of the server is an argument. The session in the context of a request is an
    argument of the handlers behind [RequireAccount].

    ** What is not modelled

    The matching of requests to patterns in [net/http]; waiting on the clock of
    [internal/dsig]; the fuzzing entry point of [src/xmlenc]; the logger, the examples and
    the helpers of the tests. *)

From stdpp Require Import base option list gmap strings sets.
From Stdlib Require Import ZArith Lia Ascii.

Declare Scope go_scope.
Delimit Scope go_scope with go.

(** Go's [==] and [!=] on comparable values, as booleans. *)
Notation "a == b" := (bool_decide (a = b)) (at level 70, no associativity) : go_scope.
Notation "a != b" := (negb (bool_decide (a = b))) (at level 70, no associativity) : go_scope.
Notation "s +++ t" := (String.append s t) (at level 60, right associativity) : go_scope.
#[global] Open Scope go_scope.

#[global] Arguments String.append !_ _ / : assert.

(** ** Automation *)

Create HintDb go discriminated.

(** Splits boolean tests in hypotheses and goal into propositions. *)
Ltac bool_prop :=
  repeat match goal with
  | H : _ && _ = true |- _ => apply andb_true_iff in H; destruct H
  | H : _ || _ = false |- _ => apply orb_false_iff in H; destruct H
  | H : negb _ = true |- _ => apply negb_true_iff in H
  | H : negb _ = false |- _ => apply negb_false_iff in H
  | H : bool_decide _ = true |- _ => apply bool_decide_eq_true_1 in H
  | H : bool_decide _ = false |- _ => apply bool_decide_eq_false_1 in H
  | H : Is_true _ |- _ => apply Is_true_true_1 in H
  | H : (_ <? _)%Z = true |- _ => apply Z.ltb_lt in H
  | H : (_ <? _)%Z = false |- _ => apply Z.ltb_ge in H
  | H : (_ <=? _)%Z = true |- _ => apply Z.leb_le in H
  | H : (_ <=? _)%Z = false |- _ => apply Z.leb_gt in H
  end.

(** Case analysis on the innermost condition of an [if] or [match]. *)
Ltac case_cond :=
  match goal with
  | |- context [if ?b then _ else _] =>
      lazymatch b with context [if _ then _ else _] => fail | _ => destruct b eqn:? end
  | H : context [if ?b then _ else _] |- _ =>
      lazymatch b with context [if _ then _ else _] => fail | _ => destruct b eqn:? end
  end.

Ltac case_conds := repeat (case_cond; simplify_eq/=).

(** ** Lists *)

Section lists.
Context {A B : Type}.

(** The first element a Go loop [for _, x := range l { if f(x) { return x } }] returns. *)
Fixpoint first_that (f : A → bool) (l : list A) : option A :=
  match l with
  | [] => None
  | x :: l => if f x then Some x else first_that f l
  end.

Lemma first_that_Some f l x :
  first_that f l = Some x ↔
  ∃ l1 l2, l = l1 ++ x :: l2 ∧ f x = true ∧ Forall (λ y, f y = false) l1.
Proof.
  split.
  - induction l as [|y l IH]; simpl; [done|].
    destruct (f y) eqn:E; intros H; simplify_eq.
    + by exists [], l.
    + destruct (IH H) as (l1 & l2 & -> & ? & ?).
      exists (y :: l1), l2. split_and!; [done..|]. by constructor.
  - intros (l1 & l2 & -> & Hx & Hl1). induction Hl1 as [|y l1 Hy _ IH]; simpl.
    + by rewrite Hx.
    + by rewrite Hy.
Qed.

Lemma first_that_None f l :
  first_that f l = None ↔ Forall (λ y, f y = false) l.
Proof.
  induction l as [|y l IH]; simpl; [by split|].
  rewrite Forall_cons, <- IH. destruct (f y); naive_solver.
Qed.

Lemma first_that_elem f l x : first_that f l = Some x → x ∈ l ∧ f x = true.
Proof.
  intros (l1 & l2 & -> & ? & _)%first_that_Some. split; [|done]. set_solver.
Qed.

Lemma first_that_is_Some f l x :
  x ∈ l → f x = true → ∃ y, first_that f l = Some y.
Proof.
  intros Hx Hf. destruct (first_that f l) eqn:E; [by eexists|].
  rewrite first_that_None, Forall_forall in E. specialize (E x Hx). congruence.
Qed.

Lemma existsb_elem (f : A → bool) l :
  existsb f l = true ↔ ∃ x, x ∈ l ∧ f x = true.
Proof. rewrite existsb_exists. setoid_rewrite list_elem_of_In. done. Qed.

Lemma existsb_false (f : A → bool) l :
  existsb f l = false ↔ ∀ x, x ∈ l → f x = false.
Proof.
  rewrite <- not_true_iff_false, existsb_elem. split.
  - intros H x Hx. destruct (f x) eqn:E; [|done]. destruct H. eauto.
  - intros H (x & Hx & Hf). rewrite H in Hf; done.
Qed.

Lemma forallb_elem (f : A → bool) l :
  forallb f l = true ↔ ∀ x, x ∈ l → f x = true.
Proof. rewrite forallb_forall. setoid_rewrite list_elem_of_In. done. Qed.

(** The first [Some] a list of options yields. *)
Fixpoint first_some (f : A → option B) (l : list A) : option B :=
  match l with
  | [] => None
  | x :: l => match f x with Some y => Some y | None => first_some f l end
  end.

Lemma first_some_elem f l y :
  first_some f l = Some y → ∃ x, x ∈ l ∧ f x = Some y.
Proof.
  induction l as [|x l IH]; simpl; [done|]. destruct (f x) eqn:E; intros H; simplify_eq.
  - exists x. set_solver.
  - destruct (IH H) as (x' & ? & ?). exists x'. set_solver.
Qed.

Lemma first_some_None f l :
  first_some f l = None ↔ ∀ x, x ∈ l → f x = None.
Proof.
  induction l as [|x l IH]; simpl; [set_solver|].
  destruct (f x) eqn:E.
  - split; [done|]. intros H. rewrite (H x) in E by set_solver. done.
  - rewrite IH. set_solver.
Qed.
End lists.

(** ** Strings *)

Section string_facts.
#[local] Open Scope string_scope.

Lemma append_nil_r (s : string) : s +++ "" = s.
Proof. induction s as [|c s IH]; simpl; [done|by rewrite IH]. Qed.

Lemma append_assoc (s t u : string) : (s +++ t) +++ u = s +++ (t +++ u).
Proof. induction s as [|c s IH]; simpl; [done|by rewrite IH]. Qed.

Lemma append_inj_l (s t u : string) : s +++ t = s +++ u → t = u.
Proof. induction s as [|c s IH]; simpl; [done|]. intros [=]. auto. Qed.

Lemma length_append (s t : string) :
  String.length (s +++ t) = (String.length s + String.length t)%nat.
Proof. induction s as [|c s IH]; simpl; [done|by rewrite IH]. Qed.

(** Go's [strings.HasPrefix]. *)
Definition has_prefix (s p : string) : bool := String.prefix p s.

Lemma has_prefix_spec s p : has_prefix s p = true ↔ ∃ t, s = p +++ t.
Proof.
  unfold has_prefix. split.
  - revert s. induction p as [|c p IH]; intros s; simpl; [eauto|].
    destruct s as [|c' s]; simpl; [done|]. destruct (ascii_dec c c') as [->|]; [|done].
    intros (t & ->)%IH. eauto.
  - intros (t & ->). induction p as [|c p IH]; simpl; [by destruct t|].
    destruct (ascii_dec c c); [done|congruence].
Qed.

Lemma list_ascii_append s t :
  String.list_ascii_of_string (s +++ t)
  = (String.list_ascii_of_string s ++ String.list_ascii_of_string t)%list.
Proof. induction s as [|c s IH]; simpl; [done|by rewrite IH]. Qed.
End string_facts.
