(* ===== verification/Go.v ===== *)
(** * Go: the parts of the language the components share *)

From stdpp Require Import base option list gmap strings sets.
From Stdlib Require Import ZArith Lia Ascii.
From S2P Require Import Prelude.

Open Scope string_scope.

(** ** Errors *)

Definition Time := Z.
Definition Duration := Z.

(** An operand of a formatted error message. *)
Inductive arg :=
  | AStr (s : string)
  | AStrs (l : list string)
  | AInt (z : Z)
  | ATime (t : Time).

#[export] Instance arg_eq_dec : EqDecision arg.
Proof. solve_decision. Defined.

(** An [error] value: a package-level sentinel, the result of [errors.New] or
    [fmt.Errorf], an error that wraps its cause ([%w]), an error that only
    prints its cause ([%s], [%v]), and the struct types that implement
    [error]. *)
Inductive error :=
  | Sentinel (name : string)
  | Errorf (format : string) (args : list arg)
  | Wrap (format : string) (args : list arg) (cause : error)
  | Because (format : string) (args : list arg) (cause : error)
  | InvalidResponseError (PrivateErr : error) (Response : string) (Now : Time)
  | ErrBadStatus (Status : string)
  | ErrUndeclaredNSPrefix (Prefix : string)
  | Joined (first : error) (second : error).  (* the two messages with "; " between *)

#[export] Instance error_eq_dec : EqDecision error.
Proof. solve_decision. Defined.

(** [errors.Is]: the error or one of the errors it wraps is the target. *)
Fixpoint errors_Is (e target : error) : bool :=
  (e == target) ||
  match e with
  | Wrap _ _ cause => errors_Is cause target
  | _ => false
  end.

(** ** Outcomes of calls *)

(** A call returns a value, returns an error, or panics. *)
Inductive outcome (A : Type) :=
  | Ret (a : A)
  | Err (e : error)
  | Panic.
Arguments Ret {A} a.
Arguments Err {A} e.
Arguments Panic {A}.

#[export] Instance outcome_eq_dec {A} `{EqDecision A} : EqDecision (outcome A).
Proof. solve_decision. Defined.

#[export] Instance outcome_ret : MRet outcome := @Ret.
#[export] Instance outcome_bind : MBind outcome := λ A B f o,
  match o with
  | Ret a => f a
  | Err e => Err e
  | Panic => Panic
  end.

(** [if cond { return err }] *)
Definition raise_if (cond : bool) (e : error) : outcome () :=
  if cond then Err e else Ret ().

(** Dereferences a pointer; a nil pointer panics. *)
Definition deref {A} (p : option A) : outcome A :=
  match p with Some a => Ret a | None => Panic end.

(** Returns an error when the pointer or the result of a lookup is absent. *)
Definition or_err {A} (p : option A) (e : error) : outcome A :=
  match p with Some a => Ret a | None => Err e end.

(** [v, err := f(); if err != nil { return g(err) }] *)
Definition map_err {A} (g : error → error) (o : outcome A) : outcome A :=
  match o with Ret a => Ret a | Err e => Err (g e) | Panic => Panic end.

(** [for _, x := range l { if err := f(x); err != nil { return err } }] *)
Fixpoint for_each {A} (f : A → outcome ()) (l : list A) : outcome () :=
  match l with
  | [] => Ret ()
  | x :: l => f x ≫= λ _, for_each f l
  end.

(** The results of [f] on each element, stopping at the first error. *)
Fixpoint map_each {A B} (f : A → outcome B) (l : list A) : outcome (list B) :=
  match l with
  | [] => Ret []
  | x :: l => f x ≫= λ y, map_each f l ≫= λ ys, Ret (y :: ys)
  end.

Definition is_ret {A} (o : outcome A) : bool :=
  match o with Ret _ => true | _ => false end.

Section outcome_facts.
Context {A B : Type}.

Lemma ret_bind (a : A) (f : A → outcome B) : Ret a ≫= f = f a.
Proof. done. Qed.

Lemma bind_ret (o : outcome A) (f : A → outcome B) b :
  o ≫= f = Ret b ↔ ∃ a, o = Ret a ∧ f a = Ret b.
Proof. destruct o; simpl; naive_solver. Qed.

Lemma bind_panic (o : outcome A) (f : A → outcome B) :
  o ≫= f = Panic ↔ o = Panic ∨ ∃ a, o = Ret a ∧ f a = Panic.
Proof. destruct o; simpl; naive_solver. Qed.

Lemma bind_err (o : outcome A) (f : A → outcome B) e :
  o ≫= f = Err e ↔ o = Err e ∨ ∃ a, o = Ret a ∧ f a = Err e.
Proof. destruct o; simpl; naive_solver. Qed.

Lemma raise_if_bind c e (k : () → outcome B) b :
  raise_if c e ≫= k = Ret b ↔ c = false ∧ k () = Ret b.
Proof. destruct c; simpl; naive_solver. Qed.

Lemma raise_if_ret c e u : raise_if c e = Ret u ↔ c = false.
Proof. destruct c, u; simpl; naive_solver. Qed.

Lemma raise_if_panic c e : raise_if c e ≠ Panic.
Proof. by destruct c. Qed.

Lemma deref_ret (p : option A) a : deref p = Ret a ↔ p = Some a.
Proof. destruct p; simpl; naive_solver. Qed.

Lemma or_err_ret (p : option A) e a : or_err p e = Ret a ↔ p = Some a.
Proof. destruct p; simpl; naive_solver. Qed.

Lemma map_err_ret g (o : outcome A) a : map_err g o = Ret a ↔ o = Ret a.
Proof. destruct o; simpl; naive_solver. Qed.

End outcome_facts.

Section loop_facts.
Context {A B : Type}.

Lemma for_each_ret (f : A → outcome ()) l u :
  for_each f l = Ret u ↔ ∀ x, x ∈ l → f x = Ret ().
Proof.
  destruct u. induction l as [|x l IH]; simpl; [split; [set_solver|done]|].
  rewrite bind_ret. setoid_rewrite IH. split.
  - intros ([] & ? & ?) y [->|]%elem_of_cons; auto.
  - intros H. exists (). split; [apply H; set_solver|intros; apply H; set_solver].
Qed.

Lemma map_each_ret (f : A → outcome B) l ys :
  map_each f l = Ret ys ↔ Forall2 (λ x y, f x = Ret y) l ys.
Proof.
  revert ys. induction l as [|x l IH]; intros ys; simpl.
  - split; [intros [=<-]; constructor|by intros ->%Forall2_nil_inv_l].
  - rewrite bind_ret. setoid_rewrite bind_ret. setoid_rewrite IH. split.
    + intros (y & ? & ys' & ? & [=<-]). by constructor.
    + intros (y & ys' & ? & ? & ->)%Forall2_cons_inv_l. eauto 6.
Qed.
End loop_facts.

(** Turns [... = Ret _] hypotheses about monadic code into the facts about
    its steps. *)
Ltac go_inv :=
  repeat match goal with
  | H : _ ∧ _ |- _ => destruct H
  | H : ∃ _, _ |- _ => destruct H
  | u : () |- _ => destruct u
  | H : raise_if _ _ ≫= _ = Ret _ |- _ => rewrite raise_if_bind in H
  | H : raise_if _ _ = Ret _ |- _ => rewrite raise_if_ret in H
  | H : _ ≫= _ = Ret _ |- _ => rewrite bind_ret in H
  | H : deref _ = Ret _ |- _ => rewrite deref_ret in H
  | H : or_err _ _ = Ret _ |- _ => rewrite or_err_ret in H
  | H : map_err _ _ = Ret _ |- _ => rewrite map_err_ret in H
  | H : Ret _ = Ret _ |- _ => injection H as H
  | H : Err _ = Ret _ |- _ => discriminate H
  | H : Panic = Ret _ |- _ => discriminate H
  end; simplify_eq/=.

(** ** Machine integers *)

(** Two's-complement wrap-around of [int64] (and of [int] on 64-bit
    platforms, and of [time.Duration]). *)
Definition wrap64 (z : Z) : Z := ((z + 2 ^ 63) mod 2 ^ 64 - 2 ^ 63)%Z.

Definition in_int64 (z : Z) : bool := ((- 2 ^ 63 <=? z) && (z <? 2 ^ 63))%Z.

Lemma wrap64_id z : (- 2 ^ 63 <= z < 2 ^ 63)%Z → wrap64 z = z.
Proof. intros H. unfold wrap64. rewrite Z.mod_small; lia. Qed.

Lemma wrap64_range z : (- 2 ^ 63 <= wrap64 z < 2 ^ 63)%Z.
Proof. unfold wrap64. pose proof (Z.mod_pos_bound (z + 2 ^ 63) (2 ^ 64)). lia. Qed.
