(* ===== verification/Duration.v ===== *)
(** * Duration: [src/duration.go]

    [Duration] ([xsd:duration] text for a [time.Duration]) and [XSDDuration]
    (the lexical form kept as it is).  A [time.Duration] is an [int64] count of
    nanoseconds, a [Z] here with its wrap-around written out; the two regular
    expressions are the functions [durationRegexp] and [durationTimeRegexp],
    which return the submatches; [strconv.ParseFloat] and the product with
    [float64(time.Second)] are computed on the [SpecFloat] representation of
    IEEE binary64. *)

From stdpp Require Import base option list strings.
From Stdlib Require Import ZArith Lia Ascii DecimalString DecimalN DecimalFacts SpecFloat.
From S2P Require Import Prelude Go.

Open Scope string_scope.
Open Scope Z_scope.

(** ** Decimal text *)

Definition is_digit (c : ascii) : bool :=
  (48 <=? N_of_ascii c)%N && (N_of_ascii c <=? 57)%N.

Definition digit_value (c : ascii) : Z := Z.of_N (N_of_ascii c) - 48.

(** The longest prefix of digits and the rest ([\d+] or [\d*], greedy). *)
Fixpoint span_digits (s : string) : string * string :=
  match s with
  | "" => ("", "")
  | String c s' =>
      if is_digit c then let '(d, r) := span_digits s' in (String c d, r) else ("", s)
  end.

Fixpoint digits_value (acc : Z) (s : string) : Z :=
  match s with
  | "" => acc
  | String c s' => digits_value (acc * 10 + digit_value c) s'
  end.

(** [fmt.Sprintf("%d", n)] and [strconv.Itoa]. *)
Definition itoa (n : Z) : string :=
  if n <? 0 then "-" +++ NilEmpty.string_of_uint (N.to_uint (Z.to_N (- n)))
  else NilEmpty.string_of_uint (N.to_uint (Z.to_N n)).

(** [fmt.Sprintf("%09d", n)] for a non-negative [n]. *)
Fixpoint zeros (n : nat) : string :=
  match n with O => "" | S n => String "0" (zeros n) end.

Definition itoa09 (n : Z) : string :=
  zeros (9 - String.length (itoa n)) +++ itoa n.

(** [strings.TrimRight(s, "0")] *)
Fixpoint trim_right_zeros (s : string) : string :=
  match s with
  | "" => ""
  | String c s' =>
      match trim_right_zeros s' with
      | "" => if Ascii.eqb c "0" then "" else String c ""
      | t => String c t
      end
  end.

(** [strconv.Atoi] of a non-empty digit string. *)
Definition Atoi (s : string) : outcome Z :=
  let v := digits_value 0 s in
  if in_int64 v then Ret v
  else Err (Errorf "strconv.Atoi: parsing %q: value out of range" [AStr s]).

(** ** Constants *)

Definition Nanosecond : Z := 1.
Definition Millisecond : Z := 1000000.
Definition Second : Z := 1000000000.
Definition Minute : Z := 60 * Second.
Definition Hour : Z := 60 * Minute.
Definition day : Z := 24 * Hour.
Definition month : Z := 30 * day.
Definition year : Z := 365 * day.

(** ** MarshalText *)

Definition MarshalText (d : Z) : outcome (option string) :=
  if d =? 0 then Ret None
  else
    let '(d, out) := if d <? 0 then (wrap64 (d * -1), "-PT") else (d, "PT") in
    let h := d ÷ Hour in
    let m := Z.rem d Hour ÷ Minute in
    let s := Z.rem d Minute ÷ Second in
    let ns := Z.rem d Second in
    let out := if 0 <? h then out +++ itoa h +++ "H" else out in
    let out := if 0 <? m then out +++ itoa m +++ "M" else out in
    let out :=
      if (0 <? s) || (0 <? ns) then
        (out +++ itoa s +++
          (if 0 <? ns then trim_right_zeros ("." +++ itoa09 ns) else "")) +++ "S"
      else out in
    Ret (Some out).

(** ** UnmarshalText *)

(** [(?:(\d+)U)?] at the start of [s]: the submatch and the rest. *)
Definition opt_unit (u : ascii) (s : string) : string * string :=
  match span_digits s with
  | ("", _) => ("", s)
  | (d, String c r) => if Ascii.eqb c u then (d, r) else ("", s)
  | (_, "") => ("", s)
  end.

(** [.] matches every character but a newline. *)
Fixpoint no_newline (s : string) : bool :=
  match s with
  | "" => true
  | String c s' => negb (Ascii.eqb c "010") && no_newline s'
  end.

(** [^(-?)P(?:(\d+)Y)?(?:(\d+)M)?(?:(\d+)D)?(?:T(.+))?$]: the five submatches. *)
Definition durationRegexp (s : string) : option (string * string * string * string * string) :=
  let '(sign, s) :=
    match s with String "-" r => ("-", r) | _ => ("", s) end in
  match s with
  | String "P" s =>
      let '(y, s) := opt_unit "Y" s in
      let '(m, s) := opt_unit "M" s in
      let '(d, s) := opt_unit "D" s in
      match s with
      | "" => Some (sign, y, m, d, "")
      | String "T" (String c r) =>
          if no_newline (String c r) then Some (sign, y, m, d, String c r) else None
      | _ => None
      end
  | _ => None
  end.

(** [(?:(\d+(?:\.\d+)?)S)?$] *)
Definition opt_seconds (s : string) : option string :=
  match s with
  | "" => Some ""
  | _ =>
      match span_digits s with
      | ("", _) => None
      | (d, "S") => Some d
      | (d, String "." r) =>
          match span_digits r with
          | ("", _) => None
          | (f, "S") => Some (d +++ "." +++ f)
          | _ => None
          end
      | _ => None
      end
  end.

(** [^(?:(\d+)H)?(?:(\d+)M)?(?:(\d+(?:\.\d+)?)S)?$]: the three submatches. *)
Definition durationTimeRegexp (s : string) : option (string * string * string) :=
  let '(h, s) := opt_unit "H" s in
  let '(m, s) := opt_unit "M" s in
  match opt_seconds s with
  | Some sec => Some (h, m, sec)
  | None => None
  end.

(** The precision and the largest exponent of binary64. *)
Definition prec : Z := 53.
Definition emax : Z := 1024.

(** The value of [\d+(\.\d+)?] as a fraction: numerator and number of decimals. *)
Definition decimal (s : string) : Z * nat :=
  let '(d, r) := span_digits s in
  match r with
  | String "." f => (digits_value 0 (d +++ f), String.length f)
  | _ => (digits_value 0 d, 0%nat)
  end.

(** [strconv.ParseFloat(s, 64)]: the binary64 nearest to the decimal, ties to
    even; an infinite result is the error [ErrRange]. *)
Definition ParseFloat (s : string) : outcome spec_float :=
  let '(n, k) := decimal s in
  match n with
  | Zpos p =>
      match SFdiv prec emax (S754_finite false p 0)
              (S754_finite false (Z.to_pos (10 ^ Z.of_nat k)) 0) with
      | S754_infinity _ | S754_nan =>
          Err (Errorf "strconv.ParseFloat: parsing %q: value out of range" [AStr s])
      | f => Ret f
      end
  | _ => Ret (S754_zero false)
  end.

(** [int64(f)]: truncation towards zero; a value that [int64] cannot hold is
    implementation-dependent in Go, and -2^63 on amd64. *)
Definition float_to_int64 (f : spec_float) : Z :=
  match f with
  | S754_zero _ => 0
  | S754_finite sgn m e =>
      let a := if 0 <=? e then Z.shiftl (Zpos m) e else Z.shiftr (Zpos m) (- e) in
      let v := if sgn then - a else a in
      if in_int64 v then v else - 2 ^ 63
  | _ => - 2 ^ 63
  end.

(** [float64(time.Second)] *)
Definition float_Second : spec_float := binary_normalize prec emax Second 0 false.

(** [time.Duration(s * float64(time.Second))] *)
Definition seconds_to_duration (f : spec_float) : Z :=
  float_to_int64 (SFmul prec emax f float_Second).

(** One [if match[i] != "" { v, err := strconv.Atoi(match[i]); ...; out +=
    time.Duration(v) * unit }] block. *)
Definition add_unit (what text : string) (unit : Z) (sub : string) (out : Z) : outcome Z :=
  if sub == "" then Ret out
  else
    v ← map_err (Because ("invalid duration " +++ what +++ " (%s): %s") [AStr text]) (Atoi sub);
    Ret (wrap64 (out + wrap64 (v * unit))).

Definition add_seconds (text sub : string) (out : Z) : outcome Z :=
  if sub == "" then Ret out
  else
    f ← map_err (Because "invalid duration seconds (%s): %s" [AStr text]) (ParseFloat sub);
    Ret (wrap64 (out + seconds_to_duration f)).

Definition UnmarshalText (text : option string) : outcome Z :=
  match text with
  | None => Ret 0
  | Some text =>
      match durationRegexp text with
      | None => Err (Errorf "invalid duration (%s)" [AStr text])
      | Some (m1, m2, m3, m4, m5) =>
          _ ← raise_if (m2 +++ m3 +++ m4 +++ m5 == "") (Errorf "invalid duration (%s)" [AStr text]);
          let sign := if m1 == "-" then -1 else 1 in
          out ← add_unit "years" text year m2 0;
          out ← add_unit "months" text month m3 out;
          out ← add_unit "days" text day m4 out;
          out ←
            (if m5 == "" then Ret out
             else
               match durationTimeRegexp m5 with
               | None => Err (Errorf "invalid duration (%s)" [AStr text])
               | Some (t1, t2, t3) =>
                   out ← add_unit "hours" text Hour t1 out;
                   out ← add_unit "minutes" text Minute t2 out;
                   add_seconds text t3 out
               end);
          Ret (wrap64 (sign * out))
      end
  end.

(** ** XSDDuration *)

(** [MarshalXMLAttr]: the attribute's value, or no attribute. *)
Definition XSDDuration_MarshalXMLAttr (d : string) : option string :=
  if d == "" then None else Some d.

Definition XSDDuration_UnmarshalText (text : string) : outcome string :=
  _ ← UnmarshalText (Some text);
  Ret text.

(** What [json.Unmarshal] makes of the data: a string, an [int64], or neither. *)
Inductive json_value :=
  | JString (s : string)
  | JInt (n : Z)
  | JOther (e : error).

Definition XSDDuration_UnmarshalJSON (data : json_value) : outcome string :=
  match data with
  | JString text =>
      if text == "" then Ret "" else XSDDuration_UnmarshalText text
  | JInt nanoseconds =>
      out ← MarshalText nanoseconds;
      Ret (default "" out)
  | JOther e => Err e
  end.

(** ** Facts about decimal text *)

Definition digit_free_head (s : string) : bool :=
  match s with "" => true | String c _ => negb (is_digit c) end.

Lemma span_digits_head s : digit_free_head s = true → span_digits s = ("", s).
Proof. destruct s as [|c s]; simpl; [done|]. by destruct (is_digit c). Qed.

Lemma span_digits_uint u r :
  digit_free_head r = true →
  span_digits (NilEmpty.string_of_uint u +++ r) = (NilEmpty.string_of_uint u, r).
Proof.
  intros Hr. induction u; simpl; [by apply span_digits_head|..]; by rewrite IHu.
Qed.

Lemma digits_value_uint_acc u acc :
  digits_value (Zpos acc) (NilEmpty.string_of_uint u) = Zpos (Pos.of_uint_acc u acc).
Proof.
  revert acc. induction u; intros acc; simpl; [done|..]; rewrite <- IHu; f_equal;
    unfold digit_value; simpl; lia.
Qed.

Lemma digits_value_uint u :
  digits_value 0 (NilEmpty.string_of_uint u) = Z.of_N (Pos.of_uint u).
Proof.
  induction u; simpl; [done|exact IHu|..]; apply (digits_value_uint_acc u).
Qed.

Lemma no_newline_uint u r :
  no_newline r = true → no_newline (NilEmpty.string_of_uint u +++ r) = true.
Proof. intros Hr. by induction u. Qed.

Section itoa.
Context (n : Z) (Hn : 0 <= n).

Lemma itoa_pos : itoa n = NilEmpty.string_of_uint (N.to_uint (Z.to_N n)).
Proof. unfold itoa. destruct (n <? 0) eqn:E; bool_prop; [lia|done]. Qed.

Lemma digits_value_itoa : digits_value 0 (itoa n) = n.
Proof.
  rewrite itoa_pos, digits_value_uint.
  change (Pos.of_uint (N.to_uint (Z.to_N n))) with (N.of_uint (N.to_uint (Z.to_N n))).
  rewrite DecimalN.Unsigned.of_to. lia.
Qed.

Lemma span_digits_itoa r :
  digit_free_head r = true → span_digits (itoa n +++ r) = (itoa n, r).
Proof. rewrite itoa_pos. apply span_digits_uint. Qed.

Lemma no_newline_itoa r : no_newline r = true → no_newline (itoa n +++ r) = true.
Proof. rewrite itoa_pos. apply no_newline_uint. Qed.

Lemma itoa_cons : ∃ c s, itoa n = String c s.
Proof.
  destruct (itoa n) as [|c s] eqn:E; [|by eauto]. exfalso.
  rewrite itoa_pos in E.
  assert (H : N.to_uint (Z.to_N n) = Decimal.Nil).
  { destruct (N.to_uint (Z.to_N n)); by inversion E. }
  destruct (Z.to_N n); [discriminate H|].
  by apply (DecimalPos.Unsigned.to_uint_nonnil p).
Qed.

Lemma itoa_nonempty : (itoa n == "") = false.
Proof. destruct itoa_cons as (c & s & ->). done. Qed.

Lemma Atoi_itoa : n < 2 ^ 63 → Atoi (itoa n) = Ret n.
Proof.
  intros Hlt. unfold Atoi. rewrite digits_value_itoa. unfold in_int64.
  destruct (_ && _) eqn:E; [done|]. apply andb_false_iff in E. lia.
Qed.

Lemma opt_unit_itoa u r :
  is_digit u = false → opt_unit u (itoa n +++ String u r) = (itoa n, r).
Proof.
  intros Hu. unfold opt_unit. rewrite span_digits_itoa by (simpl; by rewrite Hu).
  destruct itoa_cons as (c & s & ->). by rewrite Ascii.eqb_refl.
Qed.

Lemma opt_unit_itoa_other u c r :
  is_digit c = false → Ascii.eqb c u = false →
  opt_unit u (itoa n +++ String c r) = ("", itoa n +++ String c r).
Proof.
  intros Hc Hu. unfold opt_unit. rewrite span_digits_itoa by (simpl; by rewrite Hc).
  destruct itoa_cons as (c' & s & ->). by rewrite Hu.
Qed.

Lemma opt_seconds_itoa : opt_seconds (itoa n +++ "S") = Some (itoa n).
Proof.
  unfold opt_seconds. rewrite span_digits_itoa by done.
  destruct itoa_cons as (c & s & ->). done.
Qed.
End itoa.

Lemma opt_unit_head u s : digit_free_head s = true → opt_unit u s = ("", s).
Proof. intros Hs. unfold opt_unit. by rewrite span_digits_head. Qed.

(** ** Round trip of whole seconds *)

(** The text [MarshalText] writes after ["PT"] for hours, minutes and whole
    seconds. *)
Definition hms (h m s : Z) : string :=
  (if 0 <? h then itoa h +++ "H" else "") +++
  (if 0 <? m then itoa m +++ "M" else "") +++
  (if 0 <? s then itoa s +++ "S" else "").

Lemma durationTimeRegexp_hms h m s :
  0 <= h → 0 <= m → 0 <= s →
  durationTimeRegexp (hms h m s) =
    Some (if 0 <? h then itoa h else "", if 0 <? m then itoa m else "",
          if 0 <? s then itoa s else "").
Proof.
  intros Hh Hm Hs. unfold durationTimeRegexp, hms.
  destruct (0 <? h), (0 <? m), (0 <? s); rewrite ?append_assoc, ?append_nil_r; simpl;
    repeat (first [ rewrite opt_unit_itoa by done
                  | rewrite opt_unit_itoa_other by done
                  | rewrite opt_unit_head by done
                  | rewrite opt_seconds_itoa by done ]; simpl); done.
Qed.

Lemma no_newline_hms h m s :
  0 <= h → 0 <= m → 0 <= s → no_newline (hms h m s) = true.
Proof.
  intros. unfold hms.
  destruct (0 <? h), (0 <? m), (0 <? s); rewrite ?append_assoc, ?append_nil_r; simpl;
    repeat (first [done | apply no_newline_itoa; [done|]; simpl]).
Qed.

Lemma hms_cons h m s :
  0 <= h → 0 <= m → 0 <= s → 0 < h + m + s → ∃ c r, hms h m s = String c r.
Proof.
  intros. unfold hms.
  destruct (0 <? h) eqn:?, (0 <? m) eqn:?, (0 <? s) eqn:?; bool_prop; try lia; simpl;
    match goal with |- context [itoa ?n +++ _] =>
      destruct (itoa_cons n) as (c & r & ->); [done|] end; by eauto.
Qed.

Definition whole_seconds_exact (s : nat) : bool :=
  match ParseFloat (itoa (Z.of_nat s)) with
  | Ret f => seconds_to_duration f =? Z.of_nat s * Second
  | _ => false
  end.

Lemma ParseFloat_whole s :
  0 <= s < 60 → ∃ f, ParseFloat (itoa s) = Ret f ∧ seconds_to_duration f = s * Second.
Proof.
  intros Hs.
  assert (H : forallb whole_seconds_exact (seq 0 60) = true) by by vm_compute.
  rewrite forallb_elem in H. specialize (H (Z.to_nat s)).
  unfold whole_seconds_exact in H. rewrite Z2Nat.id in H by lia.
  destruct (ParseFloat (itoa s)) as [f| |];
    [|by discriminate H; apply elem_of_seq; lia..].
  exists f. split; [done|]. apply Z.eqb_eq, H, elem_of_seq. lia.
Qed.

Lemma add_unit_opt what text unit n out :
  0 <= n → 0 < unit → 0 <= out → out + n * unit < 2 ^ 63 →
  add_unit what text unit (if 0 <? n then itoa n else "") out = Ret (out + n * unit).
Proof.
  intros Hn Hu Ho Hlt. unfold add_unit. destruct (0 <? n) eqn:E; bool_prop.
  - rewrite itoa_nonempty, Atoi_itoa by nia. simpl.
    rewrite !wrap64_id; [done|nia|rewrite wrap64_id; nia].
  - replace n with 0 by lia. simpl. f_equal. lia.
Qed.

Lemma add_seconds_opt text s out :
  0 <= s < 60 → 0 <= out → out + s * Second < 2 ^ 63 →
  add_seconds text (if 0 <? s then itoa s else "") out = Ret (out + s * Second).
Proof.
  intros Hs Ho Hlt. unfold add_seconds. destruct (0 <? s) eqn:E; bool_prop.
  - rewrite itoa_nonempty by lia.
    destruct (ParseFloat_whole s Hs) as (f & -> & Hf). simpl. rewrite Hf.
    rewrite wrap64_id; [done|unfold Second in *; lia].
  - replace s with 0 by lia. simpl. f_equal. lia.
Qed.

Definition whole_text (neg : bool) (h m s : Z) : string :=
  (if neg then "-PT" else "PT") +++ hms h m s.

Lemma durationRegexp_whole neg h m s :
  0 <= h → 0 <= m → 0 <= s → 0 < h + m + s →
  durationRegexp (whole_text neg h m s) =
    Some (if neg then "-" else "", "", "", "", hms h m s).
Proof.
  intros Hh Hm Hs Hpos. unfold whole_text.
  pose proof (no_newline_hms h m s Hh Hm Hs) as Hn.
  destruct (hms_cons h m s) as (c & r & E); [done..|]. rewrite E in *.
  transitivity (if no_newline (String c r)
    then Some (if neg then "-" else "", "", "", "", String c r) else None); [by destruct neg|].
  by rewrite Hn.
Qed.

Lemma UnmarshalText_whole neg h m s :
  0 <= h → 0 <= m < 60 → 0 <= s < 60 → 0 < h + m + s →
  h * Hour + m * Minute + s * Second < 2 ^ 63 →
  UnmarshalText (Some (whole_text neg h m s)) =
    Ret ((if neg then -1 else 1) * (h * Hour + m * Minute + s * Second)).
Proof.
  intros Hh Hm Hs Hpos Hlt. unfold Hour, Minute, Second in Hlt.
  unfold UnmarshalText. rewrite durationRegexp_whole by lia.
  rewrite durationTimeRegexp_hms by lia.
  destruct (hms_cons h m s) as (c & r & E); [lia..|]. rewrite E.
  replace ("" +++ "" +++ "" +++ String c r == "") with false by done.
  replace (String c r == "") with false by done. simpl.
  rewrite add_unit_opt by (unfold Hour, Minute, Second; lia). simpl.
  rewrite add_unit_opt by (unfold Hour, Minute, Second; lia). simpl.
  rewrite add_seconds_opt by (unfold Hour, Minute, Second; lia). simpl.
  unfold Hour, Minute, Second. destruct neg; simpl; rewrite wrap64_id; try f_equal; lia.
Qed.

Lemma MarshalText_whole d :
  d ≠ 0 → - 2 ^ 63 < d < 2 ^ 63 → Z.rem d Second = 0 →
  let a := Z.abs d in
  MarshalText d = Ret (Some (whole_text (d <? 0) (a / Hour) (a mod Hour / Minute)
                               (a mod Minute / Second))).
Proof.
  intros Hd Hr Hs a. unfold MarshalText.
  destruct (d =? 0) eqn:E; [apply Z.eqb_eq in E; lia|].
  assert (Ha : (if d <? 0 then (wrap64 (d * -1), "-PT") else (d, "PT"))
             = (a, if d <? 0 then "-PT" else "PT")).
  { unfold a. destruct (d <? 0) eqn:E'; bool_prop; [rewrite wrap64_id by lia|]; f_equal; lia. }
  rewrite Ha. cbv zeta beta iota.
  assert (Hz : Z.rem a Second = 0).
  { unfold a. rewrite <- (Z.abs_eq Second) by done. by rewrite Z.rem_abs, Hs. }
  rewrite Hz. replace (0 <? 0) with false by done. rewrite orb_false_r, append_nil_r.
  assert (Hmod : ∀ b, 0 < b → Z.rem a b = a mod b) by (intros; apply Z.rem_mod_nonneg; lia).
  rewrite !Hmod by done. rewrite !Z.quot_div_nonneg by (try apply Z.mod_pos_bound; lia || done).
  unfold whole_text, hms. do 2 f_equal.
  destruct (0 <? a / Hour), (0 <? a mod Hour / Minute), (0 <? a mod Minute / Second);
    by rewrite ?append_assoc, ?append_nil_r.
Qed.

Lemma hms_sum a :
  a mod Second = 0 →
  a / Hour * Hour + a mod Hour / Minute * Minute + a mod Minute / Second * Second = a.
Proof.
  intros Hs.
  pose proof (Z.div_mod a Hour ltac:(done)) as H1.
  pose proof (Z.div_mod (a mod Hour) Minute ltac:(done)) as H2.
  pose proof (Z.div_mod (a mod Minute) Second ltac:(done)) as H3.
  rewrite Z.mod_mod_divide in H2 by (by exists 60).
  rewrite Z.mod_mod_divide, Hs in H3 by (by exists 60). lia.
Qed.

Lemma hms_bounds a :
  0 <= a →
  0 <= a / Hour ∧ 0 <= a mod Hour / Minute < 60 ∧ 0 <= a mod Minute / Second < 60.
Proof.
  intros Ha. split_and!.
  - by apply Z.div_pos.
  - apply Z.div_pos; [|done]. by apply Z.mod_pos_bound.
  - apply Z.div_lt_upper_bound; [done|]. by apply Z.mod_pos_bound.
  - apply Z.div_pos; [|done]. by apply Z.mod_pos_bound.
  - apply Z.div_lt_upper_bound; [done|]. by apply Z.mod_pos_bound.
Qed.

(** A duration of whole seconds is read back exactly: [UnmarshalText] of
    what [MarshalText] writes is the same [time.Duration], for every [int64]
    value but the smallest one. *)
Theorem Duration_roundtrip d :
  - 2 ^ 63 < d < 2 ^ 63 → Z.rem d Second = 0 →
  MarshalText d ≫= UnmarshalText = Ret d.
Proof.
  intros Hr Hs. destruct (decide (d = 0)) as [->|Hd]; [done|].
  rewrite MarshalText_whole by done. rewrite ret_bind.
  assert (Ha : Z.abs d mod Second = 0).
  { rewrite <- Z.rem_mod_nonneg by (unfold Second; lia).
    rewrite <- (Z.abs_eq Second) by done. by rewrite Z.rem_abs, Hs. }
  pose proof (hms_sum _ Ha) as Hsum.
  destruct (hms_bounds (Z.abs d)) as (Hb1 & Hb2 & Hb3); [lia|].
  assert (0 < Z.abs d / Hour + Z.abs d mod Hour / Minute + Z.abs d mod Minute / Second).
  { unfold Hour, Minute, Second in *. lia. }
  rewrite UnmarshalText_whole by lia.
  rewrite Hsum. destruct (d <? 0) eqn:E; bool_prop; f_equal; lia.
Qed.

Lemma Duration_roundtrip_witness :
  MarshalText (-5400000000000) ≫= UnmarshalText = Ret (-5400000000000).
Proof. apply (Duration_roundtrip (-5400000000000)); [lia|reflexivity]. Defined.

(** Two durations that are not read back. The smallest [int64] is written as
    a text that [UnmarshalText] rejects, because its negation wraps around to
    itself; and a fraction of a second loses a nanosecond: 1.001 s is read back
    as 1.000999999 s, because the product of the parsed [float64] with
    [float64(time.Second)] is truncated. *)
Theorem Duration_not_exact :
  (MarshalText (- 2 ^ 63) = Ret (Some "-PT") ∧
   MarshalText (- 2 ^ 63) ≫= UnmarshalText = Err (Errorf "invalid duration (%s)" [AStr "-PT"])) ∧
  (MarshalText 1001000000 = Ret (Some "PT1.001S") ∧
   MarshalText 1001000000 ≫= UnmarshalText = Ret 1000999999).
Proof. by vm_compute. Qed.
