(* ===== verification/RelaxedTime.v ===== *)
(** * RelaxedTime: [src/time.go]

    The text of times in messages and metadata.  A [time.Time] is its instant, the
    nanoseconds since the start of the year 1, in UTC; the calendar, [Format] with the
    layout [timeFormat] and [Parse] with the three layouts that [UnmarshalText] tries
    are those of package [time], whose errors are not told apart. *)

From stdpp Require Import base option list strings.
From Stdlib Require Import ZArith Lia Ascii.
From S2P Require Import Prelude Go Duration.

Open Scope string_scope.
Open Scope Z_scope.

(** ** The calendar *)

Definition isLeap (year : Z) : bool :=
  (year mod 4 =? 0) && (negb (year mod 100 =? 0) || (year mod 400 =? 0)).

(** The days of a year before the month, from 0, when it is no leap year. *)
Definition daysBefore (month : Z) : Z :=
  nth (Z.to_nat month) [0; 31; 59; 90; 120; 151; 181; 212; 243; 273; 304; 334; 365] 0.

Definition daysIn (month year : Z) : Z :=
  if (month =? 2) && isLeap year then 29 else daysBefore month - daysBefore (month - 1).

(** The days from the start of the year 1 to that of the year. *)
Definition daysSinceEpoch (year : Z) : Z :=
  let y := year - 1 in 365 * y + y / 4 - y / 100 + y / 400.

(** [time.Date]: the days before a day of the calendar. *)
Definition days_of_date (year month day : Z) : Z :=
  daysSinceEpoch year + daysBefore (month - 1) + (if isLeap year && (3 <=? month) then 1 else 0) + day - 1.

(** [Time.Date]: the year and the day of the year, from 0, by the cycles of 400,
    100, 4 and 1 years, of which the last of 100 years and of 1 year is a day longer. *)
Definition year_day (days : Z) : Z * Z :=
  let '(n400, d) := (days / 146097, days mod 146097) in
  let n100 := Z.min (d / 36524) 3 in
  let d := d - 36524 * n100 in
  let '(n4, d) := (d / 1461, d mod 1461) in
  let n1 := Z.min (d / 365) 3 in
  (400 * n400 + 100 * n100 + 4 * n4 + n1 + 1, d - 365 * n1).

(** The month and its day. *)
Definition month_day (leap : bool) (yday : Z) : Z * Z :=
  if leap && (yday =? 59) then (2, 29)
  else
    let day := if leap && (59 <? yday) then yday - 1 else yday in
    let m := day / 31 in
    let m := if daysBefore (m + 1) <=? day then m + 1 else m in
    (m + 1, day - daysBefore m + 1).

Definition civil (days : Z) : Z * Z * Z :=
  let '(year, yday) := year_day days in
  let '(month, day) := month_day (isLeap year) yday in
  (year, month, day).

(** ** Format *)

Definition digit (d : Z) : ascii := ascii_of_N (Z.to_N (48 + d)).

(** The last digits of a number. *)
Fixpoint last_digits (width : nat) (z : Z) : string :=
  match width with
  | O => ""
  | S width => last_digits width (z / 10) +++ String (digit (z mod 10)) ""
  end.

(** [appendInt(b, z, width)]: with zeros in front up to the width. *)
Definition pad_digits (width : nat) (z : Z) : string :=
  if z <? 10 ^ Z.of_nat width then last_digits width z else itoa z.

Definition pad (width : nat) (z : Z) : string :=
  if z <? 0 then "-" +++ pad_digits width (- z) else pad_digits width z.

(** [.999]: the milliseconds, without the zeros at their end. *)
Definition milliseconds_text (ms : Z) : string :=
  match trim_right_zeros (pad 3 ms) with "" => "" | digits => "." +++ digits end.

Definition fraction_text (ns : Z) : string := milliseconds_text (ns / Millisecond).

(** [t.Format(timeFormat)] of a time in UTC. *)
Definition Time_Format (t : Time) : string :=
  let '(year, month, day) := civil (t / Duration.day) in
  let clock := t mod Duration.day in
  pad 4 year +++ "-" +++ pad 2 month +++ "-" +++ pad 2 day +++ "T" +++ pad 2 (clock / Hour) +++ ":"
    +++ pad 2 (clock mod Hour / Minute) +++ ":" +++ pad 2 (clock mod Minute / Second)
    +++ fraction_text (clock mod Second) +++ "Z".

(** The layout [RFC3339Nano], whose fraction has up to nine digits. *)
Definition nanoseconds_text (ns : Z) : string :=
  match trim_right_zeros (pad 9 ns) with "" => "" | digits => "." +++ digits end.

Definition Time_FormatNano (t : Time) : string :=
  let '(year, month, day) := civil (t / Duration.day) in
  let clock := t mod Duration.day in
  pad 4 year +++ "-" +++ pad 2 month +++ "-" +++ pad 2 day +++ "T" +++ pad 2 (clock / Hour) +++ ":"
    +++ pad 2 (clock mod Hour / Minute) +++ ":" +++ pad 2 (clock mod Minute / Second)
    +++ nanoseconds_text (clock mod Second) +++ "Z".

(** [time.Time.MarshalText], of times in UTC. *)
Definition Time_MarshalText (t : Time) : outcome string :=
  let '(year, _, _) := civil (t / Duration.day) in
  _ ← raise_if ((year <? 0) || (9999 <? year))
    (Errorf "Time.MarshalText: year outside of range [0,9999]" []);
  Ret (Time_FormatNano t).

(** ** Parse *)

Definition errBad : error := Sentinel "time.errBad".

(** [getnum]: two digits, or one if [fixed] is false. *)
Definition getnum (s : string) (fixed : bool) : outcome (Z * string) :=
  match s with
  | String a r =>
      if is_digit a then
        match r with
        | String b r' =>
            if is_digit b then Ret (digit_value a * 10 + digit_value b, r')
            else if fixed then Err errBad else Ret (digit_value a, r)
        | "" => if fixed then Err errBad else Ret (digit_value a, r)
        end
      else Err errBad
  | "" => Err errBad
  end.

(** The year of four digits. *)
Definition get_year (s : string) : outcome (Z * string) :=
  match s with
  | String a (String b (String c (String d r))) =>
      if is_digit a && is_digit b && is_digit c && is_digit d then
        Ret (digits_value 0 (String a (String b (String c (String d "")))), r)
      else Err errBad
  | _ => Err errBad
  end.

(** [skip]: a byte of the layout. *)
Definition skip (c : ascii) (s : string) : outcome string :=
  match s with String d r => if Ascii.eqb d c then Ret r else Err errBad | "" => Err errBad end.

(** A number that is less than a bound. *)
Definition number (bound : Z) (fixed : bool) (s : string) : outcome (Z * string) :=
  n ← getnum s fixed;
  _ ← raise_if (bound <=? n.1) errBad;
  Ret n.

Fixpoint first_bytes (n : nat) (s : string) : string :=
  match n, s with S n, String c s => String c (first_bytes n s) | _, _ => "" end.

(** [parseNanoseconds]: of any number of digits the first nine count. *)
Definition parseNanoseconds (digits : string) : Z :=
  let ns := first_bytes 9 digits in
  digits_value 0 ns * 10 ^ (9 - Z.of_nat (String.length ns)).

(** The fraction of a second, if there is one, whether the layout has one or not. *)
Definition fraction (s : string) : Z * string :=
  match s with
  | String c r =>
      if Ascii.eqb c "." || Ascii.eqb c "," then
        match span_digits r with
        | ("", _) => (0, s)
        | (digits, rest) => (parseNanoseconds digits, rest)
        end
      else (0, s)
  | "" => (0, s)
  end.

(** [Z07:00]: the seconds east of UTC. *)
Definition zone (s : string) : outcome (Z * string) :=
  match s with
  | String "Z" r => Ret (0, r)
  | String sign (String h1 (String h2 (String ":" (String m1 (String m2 r))))) =>
      hr ← getnum (String h1 (String h2 "")) true;
      mm ← getnum (String m1 (String m2 "")) true;
      _ ← raise_if ((24 <? hr.1) || (60 <? mm.1)) errBad;
      let offset := (hr.1 * 60 + mm.1) * 60 in
      if Ascii.eqb sign "+" then Ret (offset, r)
      else if Ascii.eqb sign "-" then Ret (- offset, r) else Err errBad
  | _ => Err errBad
  end.

(** The three layouts: whether they end with a zone. *)
Inductive layout := RFC3339 | RFC3339Nano | WithoutZone.

Definition layout_zone (l : layout) (s : string) : outcome (Z * string) :=
  match l with RFC3339 | RFC3339Nano => zone s | WithoutZone => Ret (0, s) end.

(** [time.Parse] *)
Definition time_Parse (l : layout) (value : string) : outcome Time :=
  '(year, s) ← get_year value; s ← skip "-" s;
  '(month, s) ← number 13 true s; s ← skip "-" s;
  '(day, s) ← getnum s true; s ← skip "T" s;
  '(hour, s) ← number 24 false s; s ← skip ":" s;
  '(min, s) ← number 60 true s; s ← skip ":" s;
  '(sec, s) ← number 60 true s;
  let '(ns, s) := fraction s in
  '(offset, s) ← layout_zone l s;
  _ ← raise_if (negb (s == "") || (month <? 1) || (day <? 1) || (daysIn month year <? day)) errBad;
  Ret (days_of_date year month day * Duration.day + hour * Hour + min * Minute + sec * Second + ns - offset * Second).

(** ** RelaxedTime *)

(** [t.Round(d)]: a time in the middle is rounded up. *)
Definition Time_Round (t : Time) (d : Z) : Time :=
  let r := t mod d in if r + r <? d then t - r else t + (d - r).

Definition RelaxedTime_String (t : Time) : string := Time_Format (Time_Round t Millisecond).

Definition RelaxedTime_MarshalText (t : Time) : outcome string := Ret (RelaxedTime_String t).

(** What [UnmarshalText] stores, or its error, which is that of the first layout. *)
Definition RelaxedTime_UnmarshalText (text : string) : outcome Time :=
  if text == "" then Ret 0
  else
    match time_Parse RFC3339 text with
    | Ret t => Ret (Time_Round t Millisecond)
    | Panic => Panic
    | Err err1 =>
        match time_Parse RFC3339Nano text with
        | Ret t => Ret (Time_Round t Millisecond)
        | Panic => Panic
        | Err _ =>
            match time_Parse WithoutZone text with
            | Ret t => Ret (Time_Round t Millisecond)
            | Panic => Panic
            | Err _ => Err err1
            end
        end
    end.


(** ** The calendar is one to one *)

Ltac div_lia := Z.to_euclidean_division_equations; lia.

(** The cycles of a year, and its days before. *)
Lemma isLeap_cycles a b c e : 0 <= b <= 3 → 0 <= c <= 24 → 0 <= e <= 3 →
  isLeap (400 * a + 100 * b + 4 * c + e + 1) = (e =? 3) && (negb (c =? 24) || (b =? 3)).
Proof.
  intros Hb Hc He. unfold isLeap. apply eq_true_iff_eq.
  rewrite !andb_true_iff, !orb_true_iff, !negb_true_iff, !Z.eqb_eq, !Z.eqb_neq. div_lia.
Qed.

Lemma daysSinceEpoch_cycles a b c e : 0 <= b <= 3 → 0 <= c <= 24 → 0 <= e <= 3 →
  daysSinceEpoch (400 * a + 100 * b + 4 * c + e + 1) = 146097 * a + 36524 * b + 1461 * c + 365 * e.
Proof. intros Hb Hc He. unfold daysSinceEpoch. div_lia. Qed.

Lemma year_day_spec days year yday : year_day days = (year, yday) →
  daysSinceEpoch year + yday = days ∧ 0 <= yday < 365 + (if isLeap year then 1 else 0).
Proof.
  unfold year_day. set (d0 := days mod 146097). set (b := Z.min (d0 / 36524) 3).
  set (d1 := d0 - 36524 * b). set (e := Z.min (d1 mod 1461 / 365) 3). intros [= <- <-].
  assert (Hb : 0 <= b <= 3) by (unfold b, d0; div_lia).
  assert (Hc : 0 <= d1 / 1461 <= 24) by (unfold d1, b, d0; div_lia).
  assert (He : 0 <= e <= 3) by (unfold e; div_lia).
  rewrite daysSinceEpoch_cycles, isLeap_cycles by done. split; [unfold d0, d1 in *; div_lia|].
  destruct (Z.eqb_spec e 3), (Z.eqb_spec (d1 / 1461) 24), (Z.eqb_spec b 3); simpl;
    unfold e, d1, b, d0 in *; div_lia.
Qed.

(** A check of every number below a bound. *)
Lemma all_below (f : Z → bool) n : forallb f (seqZ 0 n) = true → ∀ z, 0 <= z < n → f z = true.
Proof. intros H z Hz. eapply forallb_elem; [exact H|]. apply elem_of_seqZ. lia. Qed.

(** The month and the day of a day of the year, and back. *)
Definition month_day_ok (leap : bool) (yday : Z) : bool :=
  let '(month, day) := month_day leap yday in
  (1 <=? month) && (month <=? 12) && (1 <=? day)
  && (day <=? if (month =? 2) && leap then 29 else daysBefore month - daysBefore (month - 1))
  && (daysBefore (month - 1) + (if leap && (3 <=? month) then 1 else 0) + day - 1 =? yday).

Lemma month_day_spec leap yday : 0 <= yday < 365 + (if leap : bool then 1 else 0) → month_day_ok leap yday = true.
Proof. destruct leap; apply all_below; vm_compute; reflexivity. Qed.

Lemma civil_spec days year month day : civil days = (year, month, day) →
  days_of_date year month day = days ∧ 1 <= month <= 12 ∧ 1 <= day <= daysIn month year.
Proof.
  unfold civil. destruct (year_day days) as [y yday] eqn:Hy. apply year_day_spec in Hy as [Hd Hb].
  pose proof (month_day_spec (isLeap y) yday Hb) as Hm. unfold month_day_ok in Hm.
  destruct (month_day (isLeap y) yday) as [m d]. intros [= -> -> ->]. unfold days_of_date, daysIn.
  rewrite !andb_true_iff, !Z.leb_le, Z.eqb_eq in Hm. destruct (_ && _); lia.
Qed.

(** Dates are ordered as their days are. *)
Lemma daysSinceEpoch_mono y y' : y <= y' → daysSinceEpoch y <= daysSinceEpoch y'.
Proof. unfold daysSinceEpoch. intros H. div_lia. Qed.

Lemma civil_year days year month day : civil days = (year, month, day) →
  daysSinceEpoch 0 <= days < daysSinceEpoch 10000 → 0 <= year <= 9999.
Proof.
  unfold civil. destruct (year_day days) as [y yday] eqn:Hy. apply year_day_spec in Hy as [Hd Hb].
  destruct (month_day (isLeap y) yday) as [m d]. intros [= -> -> ->] Hr.
  split; apply Z.nlt_ge; intros Hlt.
  - pose proof (daysSinceEpoch_mono (year + 1) 0 ltac:(lia)).
    assert (daysSinceEpoch (year + 1) = daysSinceEpoch year + 365 + if isLeap year then 1 else 0); [|lia].
    clear. unfold daysSinceEpoch, isLeap.
    destruct (Z.eqb_spec (year mod 4) 0), (Z.eqb_spec (year mod 100) 0), (Z.eqb_spec (year mod 400) 0); simpl; div_lia.
  - pose proof (daysSinceEpoch_mono 10000 year ltac:(lia)). lia.
Qed.

(** ** Texts are read back *)

Lemma digit_spec d : 0 <= d < 10 → is_digit (digit d) = true ∧ digit_value (digit d) = d.
Proof.
  intros Hd. rewrite <- Z.eqb_eq, <- andb_true_iff. revert d Hd.
  apply (all_below (λ d, is_digit (digit d) && (digit_value (digit d) =? d))). reflexivity.
Qed.

Lemma pad_last width z : 0 <= z < 10 ^ Z.of_nat width → pad width z = last_digits width z.
Proof.
  intros Hz. unfold pad, pad_digits. replace (z <? 0) with false by (symmetry; lia).
  by replace (z <? 10 ^ Z.of_nat width) with true by (symmetry; lia).
Qed.

Lemma getnum_pad z fixed r : 0 <= z < 100 → getnum (pad 2 z +++ r) fixed = Ret (z, r).
Proof.
  intros Hz. rewrite pad_last by done. cbn [last_digits String.append getnum].
  destruct (digit_spec (z / 10 mod 10)) as [-> ->]; [div_lia|]. destruct (digit_spec (z mod 10)) as [-> ->]; [div_lia|].
  repeat f_equal. div_lia.
Qed.

Lemma number_pad bound z fixed r : 0 <= z < bound → bound <= 100 → number bound fixed (pad 2 z +++ r) = Ret (z, r).
Proof.
  intros Hz Hb. unfold number. rewrite getnum_pad by lia. rewrite ret_bind. simpl.
  by replace (bound <=? z) with false by (symmetry; lia).
Qed.

Lemma get_year_pad z r : 0 <= z < 10000 → get_year (pad 4 z +++ r) = Ret (z, r).
Proof.
  intros Hz. rewrite pad_last by done. cbn [last_digits String.append get_year].
  destruct (digit_spec (z / 10 / 10 / 10 mod 10)) as [-> Ha]; [div_lia|].
  destruct (digit_spec (z / 10 / 10 mod 10)) as [-> Hb]; [div_lia|].
  destruct (digit_spec (z / 10 mod 10)) as [-> Hc]; [div_lia|]. destruct (digit_spec (z mod 10)) as [-> Hd]; [div_lia|].
  cbn [andb digits_value]. rewrite Ha, Hb, Hc, Hd. repeat f_equal. div_lia.
Qed.

Definition fraction_ok (ms : Z) : bool :=
  let '(v, r) := fraction (milliseconds_text ms +++ "Z") in (v =? ms * Millisecond) && (r == "Z").

Lemma fraction_text_read ns : 0 <= ns < Second →
  fraction (fraction_text ns +++ "Z") = (ns - ns mod Millisecond, "Z").
Proof.
  intros Hns. assert (Hq : 0 <= ns / Millisecond < 1000) by (unfold Second, Millisecond in *; div_lia).
  replace (ns - ns mod Millisecond) with (ns / Millisecond * Millisecond) by (unfold Millisecond in *; div_lia).
  assert (Hok : fraction_ok (ns / Millisecond) = true)
    by (revert Hq; generalize (ns / Millisecond); apply all_below; vm_compute; reflexivity).
  unfold fraction_ok in Hok. unfold fraction_text. destruct (fraction _) as [v r].
  apply andb_true_iff in Hok as [->%Z.eqb_eq ->%bool_decide_eq_true]. done.
Qed.

(** The times of the years 0 to 9999. *)
Definition four_digit_year (t : Time) : Prop :=
  daysSinceEpoch 0 * Duration.day <= t < daysSinceEpoch 10000 * Duration.day.

(** The text of an instant with a fraction that is read as [ns] nanoseconds. *)
Definition Time_text (t : Time) (fraction : string) : string :=
  let '(year, month, day) := civil (t / Duration.day) in
  let clock := t mod Duration.day in
  pad 4 year +++ "-" +++ pad 2 month +++ "-" +++ pad 2 day +++ "T" +++ pad 2 (clock / Hour) +++ ":"
    +++ pad 2 (clock mod Hour / Minute) +++ ":" +++ pad 2 (clock mod Minute / Second) +++ fraction +++ "Z".

Lemma time_Parse_text l t text ns : l ≠ WithoutZone → four_digit_year t →
  fraction (text +++ "Z") = (ns, "Z") →
  time_Parse l (Time_text t text) = Ret (t - t mod Duration.day mod Second + ns).
Proof.
  intros Hl Ht Hf. unfold Time_text. set (clock := t mod Duration.day).
  assert (Hclock : 0 <= clock < Duration.day) by (apply Z.mod_pos_bound; done).
  destruct (civil (t / Duration.day)) as [[year month] day] eqn:Hc.
  pose proof (civil_year _ _ _ _ Hc ltac:(unfold four_digit_year, Duration.day, Hour, Minute, Second in *; div_lia)) as Hy.
  apply civil_spec in Hc as (Hdays & Hm & Hd).
  assert (Hd31 : day < 100).
  { unfold daysIn in Hd. destruct (_ && _); [lia|].
    pose proof (all_below (λ m, daysBefore m - daysBefore (m - 1) <? 100) 13 eq_refl month ltac:(lia)) as H.
    cbv beta in H. lia. }
  unfold Duration.day, Hour, Minute, Second in Hclock. unfold time_Parse.
  rewrite get_year_pad, ret_bind by lia. cbn [String.append skip Ascii.eqb Bool.eqb]. rewrite ret_bind.
  rewrite number_pad, ret_bind by lia. cbn [String.append skip Ascii.eqb Bool.eqb]. rewrite ret_bind.
  rewrite getnum_pad, ret_bind by lia. cbn [String.append skip Ascii.eqb Bool.eqb]. rewrite ret_bind.
  rewrite number_pad, ret_bind by (unfold Hour, Minute, Second; div_lia).
  cbn [String.append skip Ascii.eqb Bool.eqb]. rewrite ret_bind.
  rewrite number_pad, ret_bind by (unfold Hour, Minute, Second; div_lia).
  cbn [String.append skip Ascii.eqb Bool.eqb]. rewrite ret_bind.
  rewrite number_pad, ret_bind by (unfold Minute, Second; div_lia).
  rewrite Hf.
  replace (layout_zone l "Z") with (Ret (0, "") : outcome (Z * string)) by (by destruct l). rewrite ret_bind.
  replace (month <? 1) with false by (symmetry; lia). replace (day <? 1) with false by (symmetry; lia).
  replace (daysIn month year <? day) with false by (symmetry; lia). simpl. f_equal. rewrite Hdays.
  unfold clock, Duration.day, Hour, Minute, Second, Millisecond in *. div_lia.
Qed.

Lemma time_Parse_Format l t : l ≠ WithoutZone → four_digit_year t →
  time_Parse l (Time_Format t) = Ret (t - t mod Millisecond).
Proof.
  intros Hl Ht. change (Time_Format t) with (Time_text t (fraction_text (t mod Duration.day mod Second))).
  erewrite time_Parse_text; [|done..|apply fraction_text_read; by apply Z.mod_pos_bound].
  f_equal. unfold Duration.day, Hour, Minute, Second, Millisecond. div_lia.
Qed.

(** ** Fractions of nine digits *)

Fixpoint all_digits (s : string) : bool :=
  match s with "" => true | String c s => is_digit c && all_digits s end.

Lemma span_digits_all s r : all_digits s = true → digit_free_head r = true → span_digits (s +++ r) = (s, r).
Proof.
  intros Hs Hr. induction s as [|c s IH]; simpl in *; [by apply span_digits_head|].
  apply andb_true_iff in Hs as [-> Hs]. by rewrite IH.
Qed.

Lemma digits_value_acc s acc : digits_value acc s = acc * 10 ^ Z.of_nat (String.length s) + digits_value 0 s.
Proof.
  revert acc. induction s as [|c s IH]; intros acc; cbn [digits_value String.length]; [lia|].
  rewrite IH, (IH (0 * 10 + digit_value c)), Nat2Z.inj_succ, Z.pow_succ_r by lia. lia.
Qed.

Lemma digits_value_cons c s :
  digits_value 0 (String c s) = digit_value c * 10 ^ Z.of_nat (String.length s) + digits_value 0 s.
Proof. cbn [digits_value]. by rewrite digits_value_acc, Z.mul_0_l, Z.add_0_l. Qed.

Lemma digits_value_app s t : digits_value 0 (s +++ t) = digits_value (digits_value 0 s) t.
Proof. generalize 0. induction s as [|c s IH]; intros acc; simpl; [done|]. apply IH. Qed.

Lemma last_digits_spec width z : 0 <= z →
  all_digits (last_digits width z) = true ∧ String.length (last_digits width z) = width ∧
  digits_value 0 (last_digits width z) = z mod 10 ^ Z.of_nat width.
Proof.
  revert z. induction width as [|w IH]; intros z Hz; [simpl; rewrite Z.mod_1_r; done|]. cbn [last_digits].
  destruct (IH (z / 10)) as (Ha & Hl & Hv); [by apply Z.div_pos|].
  destruct (digit_spec (z mod 10)) as [Hd He]; [div_lia|]. split_and!.
  - revert Ha. generalize (last_digits w (z / 10)). induction s as [|c s IHs]; simpl; [by rewrite Hd|].
    intros [-> ?]%andb_true_iff. by apply IHs.
  - rewrite <- Hl at 2. generalize (last_digits w (z / 10)). induction s as [|c s IHs]; simpl; congruence.
  - rewrite digits_value_app, Hv. cbn [digits_value]. rewrite He, Nat2Z.inj_succ, Z.pow_succ_r by lia.
    rewrite (Z.rem_mul_r z 10) by lia. lia.
Qed.

(** Zeros at the end count for nothing. *)
Lemma trim_right_zeros_spec s : all_digits s = true →
  all_digits (trim_right_zeros s) = true ∧ (String.length (trim_right_zeros s) <= String.length s)%nat ∧
  digits_value 0 s
  = digits_value 0 (trim_right_zeros s) * 10 ^ Z.of_nat (String.length s - String.length (trim_right_zeros s)).
Proof.
  induction s as [|c s IH]; intros Hs; [done|]. simpl in Hs. apply andb_true_iff in Hs as [Hc Hs].
  destruct (IH Hs) as (Ha & Hl & Hv). cbn [trim_right_zeros]. rewrite (digits_value_cons c), Hv.
  destruct (trim_right_zeros s) as [|d r] eqn:Ht.
  - cbn [digits_value]. destruct (Ascii.eqb_spec c "0") as [->|]; [simpl; split_and!; [done|lia|done]|].
    cbn [all_digits String.length digits_value]. rewrite Hc. split_and!; [done|lia|].
    replace (S (String.length s) - 1)%nat with (String.length s) by lia. lia.
  - rewrite (digits_value_cons c). cbn [all_digits] in *. rewrite Hc. split_and!; [done|cbn [String.length] in *; lia|].
    rewrite Z.mul_add_distr_r, <- Z.mul_assoc, <- Z.pow_add_r by lia. f_equal.
    f_equal. f_equal. cbn [String.length] in *. lia.
Qed.

Lemma first_bytes_all n s : (String.length s <= n)%nat → first_bytes n s = s.
Proof.
  revert n. induction s as [|c s IH]; intros [|n] Hn; simpl in *; [done|done|lia|]. by rewrite IH by lia.
Qed.

Lemma nanoseconds_text_read ns : 0 <= ns < Second → fraction (nanoseconds_text ns +++ "Z") = (ns, "Z").
Proof.
  intros Hns. unfold nanoseconds_text. rewrite pad_last by done.
  destruct (last_digits_spec 9 ns) as (Ha & Hl & Hv); [lia|]. rewrite Z.mod_small in Hv by done.
  destruct (trim_right_zeros_spec _ Ha) as (Ha' & Hl' & Hv'). rewrite Hl, Hv in *.
  destruct (trim_right_zeros (last_digits 9 ns)) as [|d r] eqn:Ht; [by rewrite Hv'|].
  cbn [String.append]. unfold fraction. cbn [Ascii.eqb Bool.eqb orb].
  change (String d (r +++ "Z")) with (String d r +++ "Z"). rewrite span_digits_all by done. f_equal.
  unfold parseNanoseconds. rewrite first_bytes_all by done. rewrite Hv'. repeat f_equal. lia.
Qed.

Lemma four_digit_year_civil t : four_digit_year t →
  let '(year, _, _) := civil (t / Duration.day) in 0 <= year <= 9999.
Proof.
  intros Ht. destruct (civil (t / Duration.day)) as [[year month] day] eqn:Hc.
  apply (civil_year _ _ _ _ Hc). unfold four_digit_year, Duration.day, Hour, Minute, Second in *. div_lia.
Qed.

(** What [Time.MarshalText] writes of the years 0 to 9999 is read back exactly. *)
Lemma Time_MarshalText_read t : four_digit_year t →
  ∃ s, Time_MarshalText t = Ret s ∧ time_Parse RFC3339 s = Ret t.
Proof.
  intros Ht. exists (Time_FormatNano t). pose proof (four_digit_year_civil t Ht) as Hy. split.
  - unfold Time_MarshalText. destruct (civil _) as [[year month] day].
    replace (year <? 0) with false by (symmetry; lia). by replace (9999 <? year) with false by (symmetry; lia).
  - change (Time_FormatNano t) with (Time_text t (nanoseconds_text (t mod Duration.day mod Second))).
    erewrite time_Parse_text; [|done..|apply nanoseconds_text_read; by apply Z.mod_pos_bound]. f_equal. lia.
Qed.

(** Rounding to a multiple. *)
Lemma Time_Round_spec t d : 0 < d →
  Time_Round t d mod d = 0 ∧ - d <= 2 * (t - Time_Round t d) < d ∧ (t mod d = 0 → Time_Round t d = t).
Proof.
  intros Hd. unfold Time_Round. pose proof (Z.mod_pos_bound t d Hd). pose proof (Z.div_mod t d ltac:(lia)).
  destruct (Z.ltb_spec (t mod d + t mod d) d); (split; [|lia]).
  - replace (t - t mod d) with (t / d * d) by lia. apply Z_mod_mult.
  - replace (t + (d - t mod d)) with ((t / d + 1) * d) by lia. apply Z_mod_mult.
Qed.

Lemma UnmarshalText_Format t : four_digit_year t →
  RelaxedTime_UnmarshalText (Time_Format t) = Ret (t - t mod Millisecond).
Proof.
  intros Ht. unfold RelaxedTime_UnmarshalText. rewrite time_Parse_Format by done.
  destruct (Time_Format t == "") eqn:E.
  - apply bool_decide_eq_true in E. pose proof (time_Parse_Format RFC3339 t ltac:(done) Ht) as H. by rewrite E in H.
  - f_equal. apply Time_Round_spec; [done|]. unfold Millisecond. div_lia.
Qed.

(** Roundtrip. A time of the years 0 to 9999 that [RelaxedTime] writes is read back
    as the nearest millisecond, the later one in the middle, and a time that the
    [Element] methods format directly is read back as the millisecond that it is in:
    the text of an instant never moves it by a millisecond, and rounded times are read
    back exactly. *)
Theorem RelaxedTime_roundtrip t (Ht : four_digit_year t) (Hr : four_digit_year (Time_Round t Millisecond)) :
  RelaxedTime_MarshalText t = Ret (RelaxedTime_String t) ∧
  RelaxedTime_UnmarshalText (RelaxedTime_String t) = Ret (Time_Round t Millisecond) ∧
  - Millisecond <= 2 * (t - Time_Round t Millisecond) < Millisecond ∧
  RelaxedTime_UnmarshalText (Time_Format t) = Ret (t - t mod Millisecond) ∧
  (t mod Millisecond = 0 → Time_Round t Millisecond = t).
Proof.
  destruct (Time_Round_spec t Millisecond) as (Hm & Hb & He); [done|]. split; [done|]. split.
  - unfold RelaxedTime_String. rewrite UnmarshalText_Format by done. f_equal. lia.
  - split; [done|]. split; [by apply UnmarshalText_Format|done].
Qed.

(** 2024-02-29T12:34:56.7895Z *)
Lemma RelaxedTime_roundtrip_witness :
  let t := 63844806896789500000 in
  RelaxedTime_String t = "2024-02-29T12:34:56.79Z" ∧
  RelaxedTime_MarshalText t = Ret (RelaxedTime_String t) ∧
  RelaxedTime_UnmarshalText (RelaxedTime_String t) = Ret (Time_Round t Millisecond) ∧
  - Millisecond <= 2 * (t - Time_Round t Millisecond) < Millisecond ∧
  RelaxedTime_UnmarshalText (Time_Format t) = Ret (t - t mod Millisecond) ∧
  (t mod Millisecond = 0 → Time_Round t Millisecond = t).
Proof.
  intros t. split; [vm_compute; reflexivity|].
  apply (RelaxedTime_roundtrip t); vm_compute; split; congruence.
Defined.

(** A year of five digits is not read back. *)
Lemma RelaxedTime_not_exact :
  let t := daysSinceEpoch 10000 * Duration.day in
  RelaxedTime_String t = "10000-01-01T00:00:00Z" ∧ RelaxedTime_UnmarshalText (RelaxedTime_String t) = Err errBad.
Proof. vm_compute. done. Qed.
