(* ===== verification/Encoding.v ===== *)
(** * Encoding: base64, query escaping and hexadecimal

    The parts of [encoding/base64], [net/url], [encoding/hex] and [strings]
    that the source uses, on byte strings.  A decoding error keeps its kind and
    not the offset. *)

From stdpp Require Import base option list strings.
From Stdlib Require Import NArith ZArith Lia Ascii.
From S2P Require Import Prelude Go.

Open Scope string_scope.

(** [lia] also reasons about quotients and remainders by constants. *)
#[local] Ltac Zify.zify_post_hook ::= Z.to_euclidean_division_equations.

(** ** strings *)

(** [strings.Cut(s, sep)] for a one-byte separator: before, after, found. *)
Fixpoint Cut (sep : ascii) (s : string) : string * string * bool :=
  match s with
  | "" => ("", "", false)
  | String c s' =>
      if Ascii.eqb c sep then ("", s', true)
      else let '(a, b, f) := Cut sep s' in (String c a, b, f)
  end.

(** [strings.Split(s, sep)] for a one-byte separator. *)
Fixpoint Split (sep : ascii) (s : string) : list string :=
  match s with
  | "" => [""]
  | String c s' =>
      if Ascii.eqb c sep then "" :: Split sep s'
      else match Split sep s' with
           | [] => [String c ""]
           | x :: l => String c x :: l
           end
  end.

(** [strings.Contains(s, c)] for one byte. *)
Fixpoint has_byte (b : ascii) (s : string) : bool :=
  match s with "" => false | String c s' => Ascii.eqb c b || has_byte b s' end.

(** Every byte satisfies the test. *)
Fixpoint all_bytes (f : ascii → bool) (s : string) : bool :=
  match s with "" => true | String c s' => f c && all_bytes f s' end.

(** [strings.ReplaceAll]-style removal of the bytes that satisfy the test. *)
Fixpoint remove_bytes (f : ascii → bool) (s : string) : string :=
  match s with
  | "" => ""
  | String c s' => if f c then remove_bytes f s' else String c (remove_bytes f s')
  end.

(** The bytes [\s] matches in a regular expression. *)
Definition is_re_space (c : ascii) : bool :=
  bool_decide (N_of_ascii c ∈ [9; 10; 12; 13; 32]%N).

(** The string without the byte at its end, if it ends in it. *)
Fixpoint trim_suffix_byte (b : ascii) (s : string) : string :=
  match s with
  | "" => ""
  | String c "" => if Ascii.eqb c b then "" else s
  | String c s => String c (trim_suffix_byte b s)
  end.

Definition has_suffix_byte (b : ascii) (s : string) : bool := trim_suffix_byte b s != s.

(** The rest of the string after a prefix. *)
Fixpoint cut_prefix (prefix s : string) : option string :=
  match prefix, s with
  | "", _ => Some s
  | String c prefix, String d s => if Ascii.eqb c d then cut_prefix prefix s else None
  | _, "" => None
  end.

Fixpoint reverse_string_acc (s acc : string) : string :=
  match s with "" => acc | String c s => reverse_string_acc s (String c acc) end.

Definition reverse_string (s : string) : string := reverse_string_acc s "".

Definition bytes_of (l : list nat) : string := String.string_of_list_ascii (map ascii_of_nat l).

(** The UTF-8 encodings of the code points of [unicode.IsSpace]. *)
Definition unicode_spaces : list string :=
  map bytes_of ([[9]; [10]; [11]; [12]; [13]; [32]; [194; 133]; [194; 160]; [225; 154; 128]]
    ++ map (λ n, [226; 128; 128 + n]) (seq 0 11)
    ++ [[226; 128; 168]; [226; 128; 169]; [226; 128; 175]; [226; 129; 159]; [227; 128; 128]])%nat%list.

(** Removes the given strings from the front, as often as the fuel says. *)
Fixpoint trim_prefixes (fuel : nat) (prefixes : list string) (s : string) : string :=
  match fuel with
  | O => s
  | S fuel =>
      match first_some (λ p, cut_prefix p s) prefixes with
      | Some rest => trim_prefixes fuel prefixes rest
      | None => s
      end
  end.

(** [strings.TrimSpace]; each removal shortens the string, so its length is
    fuel enough. *)
Definition TrimSpace (s : string) : string :=
  let s := trim_prefixes (String.length s) unicode_spaces s in
  reverse_string (trim_prefixes (String.length s) (map reverse_string unicode_spaces) (reverse_string s)).

Lemma Split_nonempty sep s : Split sep s ≠ [].
Proof.
  destruct s as [|c s]; simpl; [done|]. destruct (Ascii.eqb c sep); [done|].
  by destruct (Split sep s).
Qed.

Lemma Split_append sep s t :
  has_byte sep s = false → Split sep (s +++ String sep t) = s :: Split sep t.
Proof.
  induction s as [|c s IH]; simpl; [by rewrite Ascii.eqb_refl|].
  intros [Hc Hs]%orb_false_iff. by rewrite Hc, (IH Hs).
Qed.

Lemma Split_no_sep sep s : has_byte sep s = false → Split sep s = [s].
Proof.
  induction s as [|c s IH]; simpl; [done|]. intros [Hc Hs]%orb_false_iff.
  by rewrite Hc, (IH Hs).
Qed.

Lemma Cut_append sep s t :
  has_byte sep s = false → Cut sep (s +++ String sep t) = (s, t, true).
Proof.
  induction s as [|c s IH]; simpl; [by rewrite Ascii.eqb_refl|].
  intros [Hc Hs]%orb_false_iff. by rewrite Hc, (IH Hs).
Qed.

Lemma has_byte_append b s t : has_byte b (s +++ t) = has_byte b s || has_byte b t.
Proof. induction s as [|c s IH]; simpl; [done|]. by rewrite IH, orb_assoc. Qed.

Lemma Cut_parts sep s p q f : Cut sep s = (p, q, f) → s = p +++ (if f : bool then String sep q else "").
Proof.
  revert p q f. induction s as [|c s IH]; intros p q f; simpl; [by intros [= <- <- <-]|].
  destruct (Ascii.eqb_spec c sep) as [->|]; [by intros [= <- <- <-]|].
  destruct (Cut sep s) as [[p' q'] f'] eqn:E. intros [= <- <- <-]. simpl. by rewrite (IH _ _ _ eq_refl).
Qed.

Lemma Split_sep sep s : Forall (λ x, has_byte sep x = false) (Split sep s).
Proof.
  induction s as [|c s IH]; simpl; [by repeat constructor|].
  destruct (Ascii.eqb c sep) eqn:E; [by constructor|].
  destruct (Split sep s) as [|x l]; constructor; [simpl; by rewrite E|constructor| |by inversion IH].
  simpl. rewrite E. by inversion IH.
Qed.

Lemma Split_byte b sep s : has_byte b s = false → Forall (λ x, has_byte b x = false) (Split sep s).
Proof.
  induction s as [|c s IH]; simpl; [by repeat constructor|]. intros [Hc Hs]%orb_false_iff. specialize (IH Hs).
  destruct (Ascii.eqb c sep); [by constructor|].
  destruct (Split sep s) as [|x l]; constructor; [simpl; by rewrite Hc|constructor| |by inversion IH].
  simpl. rewrite Hc. by inversion IH.
Qed.

(** ** Facts about single bytes are checked on all of them *)

Definition all_ascii : list ascii := map ascii_of_nat (seq 0 256).

Lemma for_all_ascii (f : ascii → bool) : forallb f all_ascii = true → ∀ c, f c = true.
Proof.
  intros Hf c. rewrite forallb_elem in Hf. apply Hf.
  rewrite <- (ascii_nat_embedding c). unfold all_ascii.
  apply list_elem_of_fmap_2, elem_of_seq.
  pose proof (nat_ascii_bounded c). lia.
Qed.

(** ** Hexadecimal digits *)

Definition hex_upper (n : N) : ascii :=
  ascii_of_N (if (n <? 10)%N then 48 + n else 55 + n).

Definition hex_lower (n : N) : ascii :=
  ascii_of_N (if (n <? 10)%N then 48 + n else 87 + n).

Definition unhex (c : ascii) : option N :=
  let n := N_of_ascii c in
  if ((48 <=? n) && (n <=? 57))%N then Some (n - 48)%N
  else if ((65 <=? n) && (n <=? 70))%N then Some (n - 55)%N
  else if ((97 <=? n) && (n <=? 102))%N then Some (n - 87)%N
  else None.

(** [fmt.Sprintf("%x", b)] *)
Fixpoint hex_string (s : string) : string :=
  match s with
  | "" => ""
  | String c s' =>
      let n := N_of_ascii c in
      String (hex_lower (n / 16)) (String (hex_lower (n mod 16)) (hex_string s'))
  end.

(** ** url.QueryEscape and url.QueryUnescape *)

Definition is_unreserved (c : ascii) : bool :=
  let n := N_of_ascii c in
  ((97 <=? n) && (n <=? 122) || (65 <=? n) && (n <=? 90) || (48 <=? n) && (n <=? 57) ||
   (n =? 45) || (n =? 95) || (n =? 46) || (n =? 126))%N.

Definition escape_byte (c : ascii) (rest : string) : string :=
  if is_unreserved c then String c rest
  else if Ascii.eqb c " " then String "+" rest
  else String "%" (String (hex_upper (N_of_ascii c / 16))
                     (String (hex_upper (N_of_ascii c mod 16)) rest)).

Fixpoint QueryEscape (s : string) : string :=
  match s with
  | "" => ""
  | String c s' => escape_byte c (QueryEscape s')
  end.

Definition url_EscapeError := Sentinel "url.EscapeError".

Fixpoint query_unescape (s : string) : option string :=
  match s with
  | "" => Some ""
  | String c s' =>
      if Ascii.eqb c "%" then
        match s' with
        | String h (String l r) =>
            match unhex h, unhex l with
            | Some h, Some l => String (ascii_of_N (16 * h + l)) <$> query_unescape r
            | _, _ => None
            end
        | _ => None
        end
      else if Ascii.eqb c "+" then String " " <$> query_unescape s'
      else String c <$> query_unescape s'
  end.

Definition QueryUnescape (s : string) : outcome string :=
  or_err (query_unescape s) url_EscapeError.

Lemma unhex_hex_upper_byte c :
  unhex (hex_upper (N_of_ascii c / 16)) = Some (N_of_ascii c / 16)%N ∧
  unhex (hex_upper (N_of_ascii c mod 16)) = Some (N_of_ascii c mod 16)%N.
Proof.
  assert (H : ∀ c, bool_decide (
      unhex (hex_upper (N_of_ascii c / 16)) = Some (N_of_ascii c / 16)%N ∧
      unhex (hex_upper (N_of_ascii c mod 16)) = Some (N_of_ascii c mod 16)%N) = true).
  { apply for_all_ascii. by vm_compute. }
  by specialize (H c); apply bool_decide_eq_true in H.
Qed.

Lemma unreserved_plain c :
  is_unreserved c = true → Ascii.eqb c "%" = false ∧ Ascii.eqb c "+" = false.
Proof.
  assert (H : ∀ c, implb (is_unreserved c)
    (negb (Ascii.eqb c "%") && negb (Ascii.eqb c "+")) = true).
  { apply for_all_ascii. by vm_compute. }
  intros Hc. specialize (H c). rewrite Hc in H. simpl in H. by bool_prop.
Qed.

Lemma QueryUnescape_escape s : QueryUnescape (QueryEscape s) = Ret s.
Proof.
  unfold QueryUnescape. apply or_err_ret.
  induction s as [|c s IH]; simpl; [done|]. unfold escape_byte.
  destruct (is_unreserved c) eqn:Eu.
  { destruct (unreserved_plain c Eu) as [H1 H2]. simpl. by rewrite H1, H2, IH. }
  destruct (Ascii.eqb c " ") eqn:Es.
  { apply Ascii.eqb_eq in Es as ->. simpl. by rewrite IH. }
  destruct (unhex_hex_upper_byte c) as [H1 H2].
  cbn [query_unescape Ascii.eqb Bool.eqb]. rewrite H1, H2, IH. simpl. do 2 f_equal.
  rewrite <- (ascii_N_embedding c) at 3. f_equal.
  symmetry. apply N.div_mod. done.
Qed.

(** The bytes that [QueryEscape] can produce. *)
Definition escaped_byte (c : ascii) : bool :=
  is_unreserved c || Ascii.eqb c "+" || Ascii.eqb c "%".

Lemma escaped_byte_hex c :
  escaped_byte (hex_upper (N_of_ascii c / 16)) && escaped_byte (hex_upper (N_of_ascii c mod 16)) = true.
Proof.
  revert c. apply (for_all_ascii (λ c, escaped_byte (hex_upper (N_of_ascii c / 16))
    && escaped_byte (hex_upper (N_of_ascii c mod 16)))). by vm_compute.
Qed.

Lemma QueryEscape_bytes s : all_bytes escaped_byte (QueryEscape s) = true.
Proof.
  induction s as [|c s IH]; simpl; [done|]. unfold escape_byte.
  destruct (is_unreserved c) eqn:Eu; [simpl; rewrite IH; unfold escaped_byte; by rewrite Eu|].
  destruct (Ascii.eqb c " "); [simpl; by rewrite IH|].
  pose proof (escaped_byte_hex c) as Hh. bool_prop. simpl.
  rewrite H, H0, IH. done.
Qed.

Lemma all_bytes_has_byte f b s : all_bytes f s = true → f b = false → has_byte b s = false.
Proof.
  intros Hs Hb. induction s as [|c s IH]; simpl in *; [done|]. bool_prop.
  rewrite IH by done. destruct (Ascii.eqb c b) eqn:E; [|done].
  apply Ascii.eqb_eq in E as ->. congruence.
Qed.

Lemma QueryEscape_no_byte b s : escaped_byte b = false → has_byte b (QueryEscape s) = false.
Proof. apply all_bytes_has_byte, QueryEscape_bytes. Qed.

(** ** base64.StdEncoding *)

Definition b64_char (n : N) : ascii :=
  ascii_of_N
    (if (n <? 26)%N then 65 + n
     else if (n <? 52)%N then 71 + n
     else if (n <? 62)%N then n - 4
     else if (n =? 62)%N then 43 else 47).

Definition b64_value (c : ascii) : option N :=
  let n := N_of_ascii c in
  if ((65 <=? n) && (n <=? 90))%N then Some (n - 65)%N
  else if ((97 <=? n) && (n <=? 122))%N then Some (n - 71)%N
  else if ((48 <=? n) && (n <=? 57))%N then Some (n + 4)%N
  else if (n =? 43)%N then Some 62%N
  else if (n =? 47)%N then Some 63%N
  else None.

Fixpoint base64_Encode (s : string) : string :=
  match s with
  | "" => ""
  | String a "" =>
      let v := (N_of_ascii a * 65536)%N in
      String (b64_char (v / 262144)) (String (b64_char (v / 4096 mod 64)) "==")
  | String a (String b "") =>
      let v := (N_of_ascii a * 65536 + N_of_ascii b * 256)%N in
      String (b64_char (v / 262144)) (String (b64_char (v / 4096 mod 64))
        (String (b64_char (v / 64 mod 64)) "="))
  | String a (String b (String c r)) =>
      let v := (N_of_ascii a * 65536 + N_of_ascii b * 256 + N_of_ascii c)%N in
      String (b64_char (v / 262144)) (String (b64_char (v / 4096 mod 64))
        (String (b64_char (v / 64 mod 64)) (String (b64_char (v mod 64)) (base64_Encode r))))
  end.

Definition base64_CorruptInputError := Sentinel "base64.CorruptInputError".

(** Decodes groups of four characters; padding ends the input. *)
Fixpoint b64_decode (s : string) : option string :=
  match s with
  | "" => Some ""
  | String a (String b (String c (String d r))) =>
      match b64_value a, b64_value b with
      | Some a, Some b =>
          if Ascii.eqb c "=" then
            if Ascii.eqb d "=" && (r == "") then
              Some (String (ascii_of_N ((a * 262144 + b * 4096) / 65536)) "")
            else None
          else
            match b64_value c with
            | None => None
            | Some c =>
                if Ascii.eqb d "=" then
                  if r == "" then
                    let v := (a * 262144 + b * 4096 + c * 64)%N in
                    Some (String (ascii_of_N (v / 65536)) (String (ascii_of_N (v / 256 mod 256)) ""))
                  else None
                else
                  match b64_value d with
                  | None => None
                  | Some d =>
                      let v := (a * 262144 + b * 4096 + c * 64 + d)%N in
                      (λ r, String (ascii_of_N (v / 65536)) (String (ascii_of_N (v / 256 mod 256))
                        (String (ascii_of_N (v mod 256)) r))) <$> b64_decode r
                  end
            end
      | _, _ => None
      end
  | _ => None
  end.

(** [base64.StdEncoding.DecodeString]: line ends are ignored. *)
Definition base64_Decode (s : string) : outcome string :=
  or_err (b64_decode (remove_bytes (λ c, Ascii.eqb c "010" || Ascii.eqb c "013") s))
    base64_CorruptInputError.

Definition is_newline (c : ascii) : bool := Ascii.eqb c "010" || Ascii.eqb c "013".

Definition b64_char_ok (n : N) : bool :=
  bool_decide (b64_value (b64_char n) = Some n) &&
  negb (Ascii.eqb (b64_char n) "=") && negb (is_newline (b64_char n)).

Lemma b64_char_spec n :
  (n < 64)%N →
  b64_value (b64_char n) = Some n ∧ Ascii.eqb (b64_char n) "=" = false ∧
  is_newline (b64_char n) = false.
Proof.
  intros Hn.
  assert (H : forallb (λ k, b64_char_ok (N.of_nat k)) (seq 0 64) = true) by by vm_compute.
  rewrite forallb_elem in H. specialize (H (N.to_nat n)).
  rewrite N2Nat.id in H. unfold b64_char_ok in H.
  assert (Hin : N.to_nat n ∈ seq 0 64) by (apply elem_of_seq; lia).
  specialize (H Hin). bool_prop. auto.
Qed.

Lemma byte_lt c : (N_of_ascii c < 256)%N.
Proof. pose proof (N_ascii_bounded c). lia. Qed.

(** Induction three bytes at a time. *)
Lemma string_ind3 (P : string → Prop) :
  P "" → (∀ a, P (String a "")) → (∀ a b, P (String a (String b ""))) →
  (∀ a b c s, P s → P (String a (String b (String c s)))) → ∀ s, P s.
Proof.
  intros H0 H1 H2 H3. fix IH 1. intros [|a [|b [|c s]]]; [exact H0|exact (H1 a)|exact (H2 a b)|].
  apply H3, IH.
Qed.

Lemma base64_Encode_no_newline s : remove_bytes is_newline (base64_Encode s) = base64_Encode s.
Proof.
  induction s as [|a|a b|a b c s IH] using string_ind3; cbn [base64_Encode];
    [done|..]; try (pose proof (byte_lt a)); try (pose proof (byte_lt b)); try (pose proof (byte_lt c));
    cbn [remove_bytes];
    repeat match goal with |- context [is_newline (b64_char ?n)] =>
      rewrite (proj2 (proj2 (b64_char_spec n ltac:(lia)))) end;
    rewrite ?IH; done.
Qed.

Lemma b64_decode_encode s : b64_decode (base64_Encode s) = Some s.
Proof.
  induction s as [|a|a b|a b c s IH] using string_ind3; cbn [base64_Encode];
    [done|..]; try (pose proof (byte_lt a)); try (pose proof (byte_lt b)); try (pose proof (byte_lt c));
    cbn [b64_decode];
    repeat match goal with
    | |- context [b64_value (b64_char ?n)] =>
        rewrite (proj1 (b64_char_spec n ltac:(lia)))
    | |- context [Ascii.eqb (b64_char ?n) "="] =>
        rewrite (proj1 (proj2 (b64_char_spec n ltac:(lia))))
    end; rewrite ?IH; cbn; repeat f_equal;
    match goal with |- ascii_of_N ?x = ?a =>
      transitivity (ascii_of_N (N_of_ascii a)); [f_equal; lia|apply ascii_N_embedding] end.
Qed.

Lemma base64_Decode_Encode s : base64_Decode (base64_Encode s) = Ret s.
Proof.
  unfold base64_Decode. change (λ c, Ascii.eqb c "010" || Ascii.eqb c "013") with is_newline.
  by rewrite base64_Encode_no_newline, b64_decode_encode.
Qed.

Definition b64_text (c : ascii) : bool :=
  bool_decide (is_Some (b64_value c)) || Ascii.eqb c "=".

Lemma base64_Encode_text s : all_bytes b64_text (base64_Encode s) = true.
Proof.
  assert (H : ∀ n, (n < 64)%N → b64_text (b64_char n) = true).
  { intros n Hn. unfold b64_text. by rewrite (proj1 (b64_char_spec n Hn)). }
  induction s as [|a|a b|a b c s IH] using string_ind3; cbn [base64_Encode];
    [done|..]; try (pose proof (byte_lt a)); try (pose proof (byte_lt b)); try (pose proof (byte_lt c));
    cbn [all_bytes];
    rewrite ?H by (first [apply N.Div0.div_lt_upper_bound; lia | apply N.mod_lt; lia]); done.
Qed.

(** Base64 text has no white space. *)
Lemma remove_bytes_none f g s : all_bytes f s = true → (∀ c, f c = true → g c = false) → remove_bytes g s = s.
Proof.
  intros H Hfg. induction s as [|c s IH]; simpl in *; [done|]. apply andb_true_iff in H as [Hc Hs].
  rewrite (Hfg c Hc). by rewrite IH.
Qed.

Lemma base64_Encode_no_space s : remove_bytes is_re_space (base64_Encode s) = base64_Encode s.
Proof.
  apply (remove_bytes_none b64_text); [apply base64_Encode_text|].
  intros c Hc. destruct c as [[] [] [] [] [] [] [] []]; vm_compute in *; congruence.
Qed.

(** ** url.ParseQuery *)

(** [u.Query()] and [url.ParseQuery]: the pairs that parse, in order, and
    whether all of them did. *)
Fixpoint parse_pairs (parts : list string) : list (string * string) * bool :=
  match parts with
  | [] => ([], true)
  | part :: parts =>
      let '(rest, ok) := parse_pairs parts in
      if has_byte ";" part then (rest, false)
      else if part == "" then (rest, ok)
      else
        let '(key, value, _) := Cut "=" part in
        match query_unescape key, query_unescape value with
        | Some key, Some value => ((key, value) :: rest, ok)
        | _, _ => (rest, false)
        end
  end.

(** Go cuts the query at each [&]; an empty query has no pairs. *)
Definition ParseQuery (query : string) : list (string * string) * bool :=
  parse_pairs (Split "&" query).

(** [values.Get(key)]: the first value, or the empty string. *)
Definition values_Get (values : list (string * string)) (key : string) : string :=
  match first_that (λ '(k, _), key == k) values with
  | Some (_, v) => v
  | None => ""
  end.

(** ** Trimming text without spaces *)

Section trim.
Context (ok : ascii → bool).

Lemma cut_prefix_text p s :
  (match p with String c _ => ok c | "" => true end) = false →
  all_bytes ok s = true → cut_prefix p s = None.
Proof.
  destruct p as [|c p], s as [|d s]; simpl; try done. intros Hc [Hd _]%andb_true_iff.
  destruct (Ascii.eqb_spec c d) as [->|]; congruence.
Qed.

Lemma trim_prefixes_text fuel ps s :
  forallb (λ p, negb (match p with String c _ => ok c | "" => true end)) ps = true →
  all_bytes ok s = true → trim_prefixes fuel ps s = s.
Proof.
  intros Hps Hs. destruct fuel as [|fuel]; [done|]. simpl.
  rewrite (proj2 (first_some_None _ _)); [done|]. intros p Hp.
  rewrite forallb_elem in Hps. specialize (Hps p Hp). bool_prop. by apply cut_prefix_text.
Qed.

End trim.

Lemma all_bytes_reverse f s t :
  all_bytes f (reverse_string_acc s t) = all_bytes f s && all_bytes f t.
Proof.
  revert t. induction s as [|c s IH]; intros t; simpl; [done|]. rewrite IH. simpl.
  destruct (f c), (all_bytes f s); done.
Qed.

Lemma reverse_string_acc_acc s t u :
  reverse_string_acc (reverse_string_acc s t) u = reverse_string_acc t (s +++ u).
Proof. revert t. induction s as [|c s IH]; intros t; simpl; [done|]. by rewrite IH. Qed.

Lemma reverse_string_involutive s : reverse_string (reverse_string s) = s.
Proof. unfold reverse_string. rewrite reverse_string_acc_acc. apply append_nil_r. Qed.

Lemma TrimSpace_text ok s :
  forallb (λ p, negb (match p with String c _ => ok c | "" => true end)) unicode_spaces = true →
  forallb (λ p, negb (match p with String c _ => ok c | "" => true end)) (map reverse_string unicode_spaces) = true →
  all_bytes ok s = true → TrimSpace s = s.
Proof.
  intros H1 H2 H. unfold TrimSpace.
  rewrite (trim_prefixes_text ok _ unicode_spaces) by done.
  rewrite (trim_prefixes_text ok _ (map reverse_string unicode_spaces));
    [apply reverse_string_involutive|done|].
  unfold reverse_string. rewrite all_bytes_reverse. by rewrite H.
Qed.
