(* ===== verification/Etree.v ===== *)
(** * Etree: XML elements and the namespace contexts of
    [src/internal/dsig/etreeutils/namespace.go]

    The element type of [github.com/beevik/etree] has the fields the source
    reads ([Space], [Tag], [Attr], [Child]); the functions of that package are
    the operations of the class [EtreeOps].  A parent pointer is the list of
    the ancestors of an element, the parent first.  [NSContext] is the map of
    declared prefixes; the traversal limit, a counter that all contexts copied
    from one another share, is the state of the monad [NSM]. *)

From stdpp Require Import base option list gmap strings sets.
From Stdlib Require Import ZArith Lia Ascii.
From S2P Require Import Prelude Go.

Open Scope string_scope.

(** ** Elements *)

Record Attr := mkAttr { Attr_Space : string; Attr_Key : string; Attr_Value : string }.

#[export] Instance Attr_eq_dec : EqDecision Attr.
Proof. solve_decision. Defined.

Inductive Token :=
  | TElement (e : Element)
  | TCharData (data : string)
  | TComment (data : string)
  | TOther (data : string)
with Element :=
  | mkElement (Space Tag : string) (Attrs : list Attr) (Child : list Token).

Definition Space (e : Element) := let 'mkElement s _ _ _ := e in s.
Definition Tag (e : Element) := let 'mkElement _ t _ _ := e in t.
Definition Attrs (e : Element) := let 'mkElement _ _ a _ := e in a.
Definition Child (e : Element) := let 'mkElement _ _ _ c := e in c.
Definition set_Attrs (a : list Attr) (e : Element) := mkElement (Space e) (Tag e) a (Child e).
Definition set_Child (c : list Token) (e : Element) := mkElement (Space e) (Tag e) (Attrs e) c.

Definition token_element (t : Token) : option Element :=
  match t with TElement e => Some e | _ => None end.

(** [el.ChildElements()] *)
Definition ChildElements (e : Element) : list Element := omap token_element (Child e).

(** How deep the elements are nested. *)
Fixpoint depth (e : Element) : nat :=
  S ((fix go (c : list Token) : nat :=
        match c with
        | [] => 0
        | TElement x :: c => Nat.max (depth x) (go c)
        | _ :: c => go c
        end) (Child e)).

Lemma depth_child x e : x ∈ ChildElements e → (depth x < depth e)%nat.
Proof.
  destruct e as [s t a c]. unfold ChildElements. cbn [Child depth].
  induction c as [|k c IH]; cbn; [by intros ?%elem_of_nil|].
  destruct k as [y| | |]; cbn; [|by intros H; apply IH in H..].
  intros [->|H]%elem_of_cons; [lia|]. apply IH in H. lia.
Qed.


(** Induction over the tree. *)
Definition token_all (P : Element → Prop) (k : Token) : Prop :=
  match k with TElement e => P e | _ => True end.

Section element_ind.
Context (P : Element → Prop).
Context (H : ∀ s t a c, Forall (token_all P) c → P (mkElement s t a c)).

Fixpoint element_tree_ind (e : Element) : P e :=
  match e with
  | mkElement s t a c =>
      H s t a c
        ((fix go (c : list Token) : Forall (token_all P) c :=
            match c with
            | [] => Forall_nil_2 _
            | k :: c =>
                Forall_cons_2 (token_all P) k c
                  (match k return token_all P k with
                   | TElement x => element_tree_ind x
                   | TCharData _ | TComment _ | TOther _ => I
                   end)
                  (go c)
            end) c)
  end.
End element_ind.

(** A pointer to a descendant is the path of its positions in the [Child]
    lists. *)
Fixpoint elem_at (path : list nat) (e : Element) : option Element :=
  match path with
  | [] => Some e
  | i :: path =>
      match Child e !! i with
      | Some (TElement c) => elem_at path c
      | _ => None
      end
  end.

(** Replaces the descendant at the path by its image. *)
Fixpoint update_at (path : list nat) (f : Element → Element) (e : Element) : Element :=
  match path with
  | [] => f e
  | i :: path =>
      match Child e !! i with
      | Some (TElement c) => set_Child (<[i := TElement (update_at path f c)]> (Child e)) e
      | _ => e
      end
  end.

(** [parent.RemoveChild(child)], the child given by its position. *)
Definition RemoveChildAt (i : nat) (e : Element) : Element :=
  set_Child (delete i (Child e)) e.

(** An element of a document: the element and its ancestors, the parent
    first. *)
Record Cursor := mkCursor { cur : Element; ancestors : list Element }.

Definition root_cursor (e : Element) : Cursor := mkCursor e [].

Definition child_cursor (c : Cursor) (e : Element) : Cursor :=
  mkCursor e (cur c :: ancestors c).

(** Functions and methods of package etree. *)
Class EtreeOps := {
  NewElement : string → Element;
  CreateAttr : string → string → Element → Element;
  SetText : string → Element → Element;
  AddChild : Element → Element → Element;  (* the new last child, the parent *)
  InsertChildAt : nat → Element → Element → Element;  (* the position, the new child, the parent *)
  Text : Element → string;
  FullKey : Attr → string;
  SelectAttr : string → Element → option Attr;
  RemoveAttr : string → Element → Element;
  NamespaceURI : Cursor → string;
  FindElement : string → Element → option (list nat);
  FindElements : string → Element → list Element;
  (* a document with the given root, and the root of a document *)
  WriteToBytes : Element → outcome string;
  WriteToBytes_canonical : Element → outcome string;
  ReadFromBytes : string → outcome (option Element)
}.

(** ** Namespace contexts *)

Definition defaultPrefix := "".
Definition xmlnsPrefix := "xmlns".
Definition xmlPrefix := "xml".
Definition XMLNamespace := "http://www.w3.org/XML/1998/namespace".
Definition XMLNSNamespace := "http://www.w3.org/2000/xmlns/".

Definition ErrReservedNamespace := Sentinel "etreeutils.ErrReservedNamespace".
Definition ErrInvalidDefaultNamespace := Sentinel "etreeutils.ErrInvalidDefaultNamespace".
Definition ErrTraversalHalted := Sentinel "etreeutils.ErrTraversalHalted".
Definition ErrTraversalLimit := Sentinel "etreeutils.ErrTraversalLimit".

Definition NSContext := gmap string string.

Definition default_prefixes : NSContext :=
  <[defaultPrefix := XMLNamespace]> (<[xmlPrefix := XMLNamespace]>
    (<[xmlnsPrefix := XMLNSNamespace]> ∅)).

(** The traversal limit of [NewDefaultNSContext]; [None] is the nil pointer of
    [EmptyNSContext]. *)
Definition defaultLimit : option Z := Some 1000%Z.

Definition EmptyNSContext : NSContext := ∅.

(** State: the limit, and what the handlers of a traversal keep. *)
Definition NSM (S A : Type) : Type := (option Z * S) → (option Z * S) * outcome A.

#[export] Instance NSM_ret {S} : MRet (NSM S) := λ A a s, (s, Ret a).
#[export] Instance NSM_bind {S} : MBind (NSM S) := λ A B f m s,
  match m s with
  | (s, Ret a) => f a s
  | (s, Err e) => (s, Err e)
  | (s, Panic) => (s, Panic)
  end.

Definition ns_lift {S A} (o : outcome A) : NSM S A := λ s, (s, o).

Definition CheckLimit {S} : NSM S () := λ '(limit, s),
  match limit with
  | None => ((limit, s), Panic)
  | Some n =>
      if (n <=? 0)%Z then ((limit, s), Err ErrTraversalLimit)
      else ((Some (n - 1)%Z, s), Ret ())
  end.

(** [checkSubtreeLimit]: with no limit nothing is counted. *)
Fixpoint checkSubtreeLimit {S} (el : Element) : NSM S () := λ '(limit, s),
  match limit with
  | None => ((limit, s), Ret ())
  | Some _ =>
      (CheckLimit ≫= λ _,
        (fix go (c : list Token) : NSM S () :=
           match c with
           | [] => mret ()
           | TElement child :: c => checkSubtreeLimit child ≫= λ _, go c
           | _ :: c => go c
           end) (Child el)) (limit, s)
  end.

(** The attribute [declare] returns; the map is updated by the callers. *)
Definition declare (prefix namespace : string) : Attr :=
  if prefix == defaultPrefix then mkAttr "" xmlnsPrefix namespace
  else mkAttr xmlnsPrefix prefix namespace.

Fixpoint subContext_attrs (ctx : NSContext) (attrs : list Attr) : outcome NSContext :=
  match attrs with
  | [] => Ret ctx
  | attr :: attrs =>
      if Attr_Space attr == xmlnsPrefix then
        _ ← raise_if ((Attr_Key attr == xmlPrefix) && (Attr_Value attr != XMLNamespace))
              ErrReservedNamespace;
        _ ← raise_if (Attr_Key attr == xmlnsPrefix) ErrReservedNamespace;
        subContext_attrs (<[Attr_Key attr := Attr_Value attr]> ctx) attrs
      else if (Attr_Space attr == defaultPrefix) && (Attr_Key attr == xmlnsPrefix) then
        _ ← raise_if (Attr_Value attr == XMLNSNamespace) ErrInvalidDefaultNamespace;
        subContext_attrs (<[defaultPrefix := Attr_Value attr]> ctx) attrs
      else subContext_attrs ctx attrs
  end.

Definition SubContext (ctx : NSContext) (el : Element) : outcome NSContext :=
  subContext_attrs ctx (Attrs el).

Definition LookupPrefix (ctx : NSContext) (prefix : string) : outcome string :=
  or_err (ctx !! prefix) (ErrUndeclaredNSPrefix prefix).

Definition NSIterHandler (S : Type) : Type := NSContext → Element → NSM S ().

Fixpoint NSTraverse {S} (ctx : NSContext) (el : Element) (handle : NSIterHandler S) : NSM S () :=
  CheckLimit ≫= λ _,
  ns_lift (SubContext ctx el) ≫= λ ctx,
  handle ctx el ≫= λ _,
  (fix go (c : list Token) : NSM S () :=
     match c with
     | [] => mret ()
     | TElement child :: c => NSTraverse ctx child handle ≫= λ _, go c
     | _ :: c => go c
     end) (Child el).

(** A handler that runs [handle] on the elements of the given namespace and
    tag: the closure of [NSFindIterateCtx] and [NSFindChildrenIterateCtx]. *)
Definition on_match {S} (namespace tag : string) (handle : NSIterHandler S) : NSIterHandler S :=
  λ ctx el,
    ns_lift (SubContext ctx el) ≫= λ _ctx,
    ns_lift (LookupPrefix _ctx (Space el)) ≫= λ currentNS,
    if (currentNS == namespace) && (Tag el == tag) then handle ctx el else mret ().

(** [if err != nil && err != ErrTraversalHalted { return err }; return nil] *)
Definition unless_halted {S} (m : NSM S ()) : NSM S () := λ s,
  match m s with
  | (s, Err e) => if e == ErrTraversalHalted then (s, Ret ()) else (s, Err e)
  | r => r
  end.

Definition NSFindIterateCtx {S} (ctx : NSContext) (el : Element) (namespace tag : string)
    (handle : NSIterHandler S) : NSM S () :=
  unless_halted (NSTraverse ctx el (on_match namespace tag handle)).

(** [NSFindIterate]: the default context, a fresh limit. *)
Definition NSFindIterate {S} (el : Element) (namespace tag : string)
    (handle : NSIterHandler S) (s : S) : S * outcome () :=
  let '((_, s), o) :=
    NSFindIterateCtx default_prefixes el namespace tag handle (defaultLimit, s) in (s, o).

(** The handler of [NSFindOneCtx] and [NSFindOneChildCtx]. *)
Definition find_handler : NSIterHandler (option Element) :=
  λ _ el '(limit, _), ((limit, Some el), Err ErrTraversalHalted).

(** The value of [found] when the iteration returns no error. *)
Definition found_of {S} (m : NSM (option S) ()) : NSM () (option S) := λ '(limit, _),
  match m (limit, None) with
  | ((limit, found), Ret _) => ((limit, ()), Ret found)
  | ((limit, _), Err e) => ((limit, ()), Err e)
  | ((limit, _), Panic) => ((limit, ()), Panic)
  end.

Definition NSFindOneCtx (ctx : NSContext) (el : Element) (namespace tag : string)
    : NSM () (option Element) :=
  found_of (NSFindIterateCtx ctx el namespace tag find_handler).

Definition run_default {A} (m : NSM () A) : outcome A := snd (m (defaultLimit, ())).

Definition NSFindOne (el : Element) (namespace tag : string) : outcome (option Element) :=
  run_default (NSFindOneCtx default_prefixes el namespace tag).

(** The child elements with their positions in [Child]. *)
Fixpoint child_positions (i : nat) (c : list Token) : list (nat * Element) :=
  match c with
  | [] => []
  | TElement e :: c => (i, e) :: child_positions (S i) c
  | _ :: c => child_positions (S i) c
  end.

Fixpoint iterate_children {S} (ctx : NSContext) (handle : nat → NSIterHandler S)
    (children : list (nat * Element)) : NSM S () :=
  match children with
  | [] => mret ()
  | (i, child) :: children =>
      CheckLimit ≫= λ _, handle i ctx child ≫= λ _, iterate_children ctx handle children
  end.

(** The handler also gets the position of the child. *)
Definition NSIterateChildren_pos {S} (ctx : NSContext) (el : Element)
    (handle : nat → NSIterHandler S) : NSM S () :=
  ns_lift (SubContext ctx el) ≫= λ ctx,
  iterate_children ctx handle (child_positions 0 (Child el)).

Definition NSIterateChildren {S} (ctx : NSContext) (el : Element) (handle : NSIterHandler S)
    : NSM S () :=
  NSIterateChildren_pos ctx el (λ _, handle).

Definition NSFindChildrenIterateCtx_pos {S} (ctx : NSContext) (el : Element)
    (namespace tag : string) (handle : nat → NSIterHandler S) : NSM S () :=
  unless_halted (NSIterateChildren_pos ctx el (λ i, on_match namespace tag (handle i))).

Definition NSFindChildrenIterateCtx {S} (ctx : NSContext) (el : Element)
    (namespace tag : string) (handle : NSIterHandler S) : NSM S () :=
  NSFindChildrenIterateCtx_pos ctx el namespace tag (λ _, handle).

Definition NSFindOneChildCtx (ctx : NSContext) (el : Element) (namespace tag : string)
    : NSM () (option Element) :=
  found_of (NSFindChildrenIterateCtx ctx el namespace tag find_handler).

Definition NSFindOneChild (el : Element) (namespace tag : string) : outcome (option Element) :=
  run_default (NSFindOneChildCtx default_prefixes el namespace tag).

(** [NSBuildParentContext] of an element with the given ancestors, the parent
    first. *)
Fixpoint NSBuildParentContext (ancestors : list Element) : outcome NSContext :=
  match ancestors with
  | [] => Ret default_prefixes
  | parent :: ancestors =>
      ctx ← NSBuildParentContext ancestors;
      SubContext ctx parent
  end.
