(* ===== verification/Schema.v ===== *)
(** * Schema: the messages of [src/schema.go] and the metadata of
    [src/metadata.go]

    One record per struct, with the fields of the struct, each named after the
    type and the field.  A pointer is an [option], a slice a [list], an [int] a
    [Z], a [time.Time] a [Time] (0 is the zero time).  [XMLName] fields are left
    out: the decoder fills them with a constant.  An embedded struct is a field
    named after its type. *)

From stdpp Require Import base option list strings.
From Stdlib Require Import ZArith.
From S2P Require Import Prelude Go Etree.

Open Scope string_scope.

Definition XSDDuration := string.

(** [t.IsZero()] *)
Definition IsZero (t : Time) : bool := (t =? 0)%Z.

Record Issuer := mkIssuer {
  Issuer_NameQualifier : string;
  Issuer_SPNameQualifier : string;
  Issuer_Format : string;
  Issuer_SPProvidedID : string;
  Issuer_Value : string
}.

(** The zero value of the struct. *)
Definition zero_Issuer : Issuer := mkIssuer "" "" "" "" "".

Record NameID := mkNameID {
  NameID_NameQualifier : string;
  NameID_SPNameQualifier : string;
  NameID_Format : string;
  NameID_SPProvidedID : string;
  NameID_Value : string
}.

(** The zero value of the struct. *)
Definition zero_NameID : NameID := mkNameID "" "" "" "" "".

Record NameIDPolicy := mkNameIDPolicy {
  NameIDPolicy_Format : option string;
  NameIDPolicy_SPNameQualifier : option string;
  NameIDPolicy_AllowCreate : option bool
}.

(** The zero value of the struct. *)
Definition zero_NameIDPolicy : NameIDPolicy := mkNameIDPolicy None None None.

Record RequestedAuthnContext := mkRequestedAuthnContext {
  RequestedAuthnContext_Comparison : string;
  RequestedAuthnContext_AuthnContextClassRefs : list string;
  RequestedAuthnContext_AuthnContextDeclRefs : list string
}.

(** The zero value of the struct. *)
Definition zero_RequestedAuthnContext : RequestedAuthnContext := mkRequestedAuthnContext "" [] [].

Record SubjectConfirmationData := mkSubjectConfirmationData {
  SubjectConfirmationData_NotBefore : Time;
  SubjectConfirmationData_NotOnOrAfter : Time;
  SubjectConfirmationData_Recipient : string;
  SubjectConfirmationData_InResponseTo : string;
  SubjectConfirmationData_Address : string
}.

(** The zero value of the struct. *)
Definition zero_SubjectConfirmationData : SubjectConfirmationData := mkSubjectConfirmationData 0%Z 0%Z "" "" "".

Record SubjectConfirmation := mkSubjectConfirmation {
  SubjectConfirmation_Method : string;
  SubjectConfirmation_NameID : option NameID;
  SubjectConfirmation_SubjectConfirmationData : option SubjectConfirmationData
}.

(** The zero value of the struct. *)
Definition zero_SubjectConfirmation : SubjectConfirmation := mkSubjectConfirmation "" None None.

Record Subject := mkSubject {
  Subject_NameID : option NameID;
  Subject_SubjectConfirmations : list SubjectConfirmation
}.

(** The zero value of the struct. *)
Definition zero_Subject : Subject := mkSubject None [].

Record Audience := mkAudience {
  Audience_Value : string
}.

(** The zero value of the struct. *)
Definition zero_Audience : Audience := mkAudience "".

Record AudienceRestriction := mkAudienceRestriction {
  AudienceRestriction_Audiences : list Audience
}.

(** The zero value of the struct. *)
Definition zero_AudienceRestriction : AudienceRestriction := mkAudienceRestriction [].

Record ProxyRestriction := mkProxyRestriction {
  ProxyRestriction_Count : option Z;
  ProxyRestriction_Audiences : list Audience
}.

(** The zero value of the struct. *)
Definition zero_ProxyRestriction : ProxyRestriction := mkProxyRestriction None [].

Record OneTimeUse := mkOneTimeUse {}.

Record Conditions := mkConditions {
  Conditions_NotBefore : Time;
  Conditions_NotOnOrAfter : Time;
  Conditions_AudienceRestrictions : list AudienceRestriction;
  Conditions_OneTimeUse : option OneTimeUse;
  Conditions_ProxyRestriction : option ProxyRestriction
}.

(** The zero value of the struct. *)
Definition zero_Conditions : Conditions := mkConditions 0%Z 0%Z [] None None.

Record AuthnRequest := mkAuthnRequest {
  AuthnRequest_ID : string;
  AuthnRequest_Version : string;
  AuthnRequest_IssueInstant : Time;
  AuthnRequest_Destination : string;
  AuthnRequest_Consent : string;
  AuthnRequest_Issuer : option Issuer;
  AuthnRequest_Signature : option Element;
  AuthnRequest_Subject : option Subject;
  AuthnRequest_NameIDPolicy : option NameIDPolicy;
  AuthnRequest_Conditions : option Conditions;
  AuthnRequest_RequestedAuthnContext : option RequestedAuthnContext;
  AuthnRequest_ForceAuthn : option bool;
  AuthnRequest_IsPassive : option bool;
  AuthnRequest_AssertionConsumerServiceIndex : string;
  AuthnRequest_AssertionConsumerServiceURL : string;
  AuthnRequest_ProtocolBinding : string;
  AuthnRequest_AttributeConsumingServiceIndex : string;
  AuthnRequest_ProviderName : string
}.

(** The zero value of the struct. *)
Definition zero_AuthnRequest : AuthnRequest := mkAuthnRequest "" "" 0%Z "" "" None None None None None None None None "" "" "" "" "".

Record SessionIndex := mkSessionIndex {
  SessionIndex_Value : string
}.

(** The zero value of the struct. *)
Definition zero_SessionIndex : SessionIndex := mkSessionIndex "".

Record LogoutRequest := mkLogoutRequest {
  LogoutRequest_ID : string;
  LogoutRequest_Version : string;
  LogoutRequest_IssueInstant : Time;
  LogoutRequest_NotOnOrAfter : option Time;
  LogoutRequest_Destination : string;
  LogoutRequest_Issuer : option Issuer;
  LogoutRequest_NameID : option NameID;
  LogoutRequest_Signature : option Element;
  LogoutRequest_SessionIndexes : list SessionIndex
}.

(** The zero value of the struct. *)
Definition zero_LogoutRequest : LogoutRequest := mkLogoutRequest "" "" 0%Z None "" None None None [].

Record ArtifactResolve := mkArtifactResolve {
  ArtifactResolve_ID : string;
  ArtifactResolve_Version : string;
  ArtifactResolve_IssueInstant : Time;
  ArtifactResolve_Issuer : option Issuer;
  ArtifactResolve_Signature : option Element;
  ArtifactResolve_Artifact : string
}.

(** The zero value of the struct. *)
Definition zero_ArtifactResolve : ArtifactResolve := mkArtifactResolve "" "" 0%Z None None "".

Record StatusMessage := mkStatusMessage {
  StatusMessage_Value : string
}.

(** The zero value of the struct. *)
Definition zero_StatusMessage : StatusMessage := mkStatusMessage "".

Record StatusDetail := mkStatusDetail {
  StatusDetail_Children : list Element
}.

(** The zero value of the struct. *)
Definition zero_StatusDetail : StatusDetail := mkStatusDetail [].

Inductive StatusCode :=
  | mkStatusCode (Value : string) (Sub : option StatusCode).

Definition StatusCode_Value (s : StatusCode) := let 'mkStatusCode v _ := s in v.
Definition StatusCode_StatusCode (s : StatusCode) := let 'mkStatusCode _ c := s in c.

Record Status := mkStatus {
  Status_StatusCode : StatusCode;
  Status_StatusMessage : option StatusMessage;
  Status_StatusDetail : option StatusDetail
}.

(** The zero value of the struct. *)
Definition zero_Status : Status := mkStatus (mkStatusCode "" None) None None.

Record SubjectLocality := mkSubjectLocality {
  SubjectLocality_Address : string;
  SubjectLocality_DNSName : string
}.

(** The zero value of the struct. *)
Definition zero_SubjectLocality : SubjectLocality := mkSubjectLocality "" "".

Record AuthnContextClassRef := mkAuthnContextClassRef {
  AuthnContextClassRef_Value : string
}.

(** The zero value of the struct. *)
Definition zero_AuthnContextClassRef : AuthnContextClassRef := mkAuthnContextClassRef "".

Record AuthnContext := mkAuthnContext {
  AuthnContext_AuthnContextClassRef : option AuthnContextClassRef
}.

(** The zero value of the struct. *)
Definition zero_AuthnContext : AuthnContext := mkAuthnContext None.

Record AuthnStatement := mkAuthnStatement {
  AuthnStatement_AuthnInstant : Time;
  AuthnStatement_SessionIndex : string;
  AuthnStatement_SessionNotOnOrAfter : option Time;
  AuthnStatement_SubjectLocality : option SubjectLocality;
  AuthnStatement_AuthnContext : AuthnContext
}.

(** The zero value of the struct. *)
Definition zero_AuthnStatement : AuthnStatement := mkAuthnStatement 0%Z "" None None zero_AuthnContext.

Record AttributeValue := mkAttributeValue {
  AttributeValue_Type : string;
  AttributeValue_Value : string;
  AttributeValue_NameID : option NameID
}.

(** The zero value of the struct. *)
Definition zero_AttributeValue : AttributeValue := mkAttributeValue "" "" None.

Record Attribute := mkAttribute {
  Attribute_FriendlyName : string;
  Attribute_Name : string;
  Attribute_NameFormat : string;
  Attribute_Values : list AttributeValue
}.

(** The zero value of the struct. *)
Definition zero_Attribute : Attribute := mkAttribute "" "" "" [].

Record AttributeStatement := mkAttributeStatement {
  AttributeStatement_Attributes : list Attribute
}.

(** The zero value of the struct. *)
Definition zero_AttributeStatement : AttributeStatement := mkAttributeStatement [].

Record Assertion := mkAssertion {
  Assertion_ID : string;
  Assertion_IssueInstant : Time;
  Assertion_Version : string;
  Assertion_Issuer : Issuer;
  Assertion_Signature : option Element;
  Assertion_Subject : option Subject;
  Assertion_Conditions : option Conditions;
  Assertion_AuthnStatements : list AuthnStatement;
  Assertion_AttributeStatements : list AttributeStatement
}.

(** The zero value of the struct. *)
Definition zero_Assertion : Assertion := mkAssertion "" 0%Z "" zero_Issuer None None None [] [].

Record Response := mkResponse {
  Response_ID : string;
  Response_InResponseTo : string;
  Response_Version : string;
  Response_IssueInstant : Time;
  Response_Destination : string;
  Response_Consent : string;
  Response_Issuer : option Issuer;
  Response_Signature : option Element;
  Response_Status : Status;
  Response_EncryptedAssertion : option Element;
  Response_Assertion : option Assertion
}.

(** The zero value of the struct. *)
Definition zero_Response : Response := mkResponse "" "" "" 0%Z "" "" None None zero_Status None None.

Record ArtifactResponse := mkArtifactResponse {
  ArtifactResponse_ID : string;
  ArtifactResponse_InResponseTo : string;
  ArtifactResponse_Version : string;
  ArtifactResponse_IssueInstant : Time;
  ArtifactResponse_Issuer : option Issuer;
  ArtifactResponse_Signature : option Element;
  ArtifactResponse_Status : Status;
  ArtifactResponse_Response : Response
}.

(** The zero value of the struct. *)
Definition zero_ArtifactResponse : ArtifactResponse := mkArtifactResponse "" "" "" 0%Z None None zero_Status zero_Response.

Record LogoutResponse := mkLogoutResponse {
  LogoutResponse_ID : string;
  LogoutResponse_InResponseTo : string;
  LogoutResponse_Version : string;
  LogoutResponse_IssueInstant : Time;
  LogoutResponse_Destination : string;
  LogoutResponse_Consent : string;
  LogoutResponse_Issuer : option Issuer;
  LogoutResponse_Signature : option Element;
  LogoutResponse_Status : Status
}.

(** The zero value of the struct. *)
Definition zero_LogoutResponse : LogoutResponse := mkLogoutResponse "" "" "" 0%Z "" "" None None zero_Status.

Record LocalizedName := mkLocalizedName {
  LocalizedName_Lang : string;
  LocalizedName_Value : string
}.

(** The zero value of the struct. *)
Definition zero_LocalizedName : LocalizedName := mkLocalizedName "" "".

Record LocalizedURI := mkLocalizedURI {
  LocalizedURI_Lang : string;
  LocalizedURI_Value : string
}.

(** The zero value of the struct. *)
Definition zero_LocalizedURI : LocalizedURI := mkLocalizedURI "" "".

Record Organization := mkOrganization {
  Organization_OrganizationNames : list LocalizedName;
  Organization_OrganizationDisplayNames : list LocalizedName;
  Organization_OrganizationURLs : list LocalizedURI
}.

(** The zero value of the struct. *)
Definition zero_Organization : Organization := mkOrganization [] [] [].

Record ContactPerson := mkContactPerson {
  ContactPerson_ContactType : string;
  ContactPerson_Company : string;
  ContactPerson_GivenName : string;
  ContactPerson_SurName : string;
  ContactPerson_EmailAddresses : list string;
  ContactPerson_TelephoneNumbers : list string
}.

(** The zero value of the struct. *)
Definition zero_ContactPerson : ContactPerson := mkContactPerson "" "" "" "" [] [].

Record EncryptionMethod := mkEncryptionMethod {
  EncryptionMethod_Algorithm : string
}.

(** The zero value of the struct. *)
Definition zero_EncryptionMethod : EncryptionMethod := mkEncryptionMethod "".

Record X509Certificate := mkX509Certificate {
  X509Certificate_Data : string
}.

(** The zero value of the struct. *)
Definition zero_X509Certificate : X509Certificate := mkX509Certificate "".

Record X509Data := mkX509Data {
  X509Data_X509Certificates : list X509Certificate
}.

(** The zero value of the struct. *)
Definition zero_X509Data : X509Data := mkX509Data [].

Record KeyInfo := mkKeyInfo {
  KeyInfo_X509Data : X509Data
}.

(** The zero value of the struct. *)
Definition zero_KeyInfo : KeyInfo := mkKeyInfo zero_X509Data.

Record KeyDescriptor := mkKeyDescriptor {
  KeyDescriptor_Use : string;
  KeyDescriptor_KeyInfo : KeyInfo;
  KeyDescriptor_EncryptionMethods : list EncryptionMethod
}.

(** The zero value of the struct. *)
Definition zero_KeyDescriptor : KeyDescriptor := mkKeyDescriptor "" zero_KeyInfo [].

Record RoleDescriptor := mkRoleDescriptor {
  RoleDescriptor_ID : string;
  RoleDescriptor_ValidUntil : option Time;
  RoleDescriptor_CacheDuration : XSDDuration;
  RoleDescriptor_ProtocolSupportEnumeration : string;
  RoleDescriptor_ErrorURL : string;
  RoleDescriptor_Signature : option Element;
  RoleDescriptor_KeyDescriptors : list KeyDescriptor;
  RoleDescriptor_Organization : option Organization;
  RoleDescriptor_ContactPeople : list ContactPerson
}.

(** The zero value of the struct. *)
Definition zero_RoleDescriptor : RoleDescriptor := mkRoleDescriptor "" None "" "" "" None [] None [].

Record Endpoint := mkEndpoint {
  Endpoint_Binding : string;
  Endpoint_Location : string;
  Endpoint_ResponseLocation : string
}.

(** The zero value of the struct. *)
Definition zero_Endpoint : Endpoint := mkEndpoint "" "" "".

Record IndexedEndpoint := mkIndexedEndpoint {
  IndexedEndpoint_Binding : string;
  IndexedEndpoint_Location : string;
  IndexedEndpoint_ResponseLocation : option string;
  IndexedEndpoint_Index : Z;
  IndexedEndpoint_IsDefault : option bool
}.

(** The zero value of the struct. *)
Definition zero_IndexedEndpoint : IndexedEndpoint := mkIndexedEndpoint "" "" None 0%Z None.

Record SSODescriptor := mkSSODescriptor {
  SSODescriptor_RoleDescriptor : RoleDescriptor;
  SSODescriptor_ArtifactResolutionServices : list IndexedEndpoint;
  SSODescriptor_SingleLogoutServices : list Endpoint;
  SSODescriptor_ManageNameIDServices : list Endpoint;
  SSODescriptor_NameIDFormats : list string
}.

(** The zero value of the struct. *)
Definition zero_SSODescriptor : SSODescriptor := mkSSODescriptor zero_RoleDescriptor [] [] [] [].

Record IDPSSODescriptor := mkIDPSSODescriptor {
  IDPSSODescriptor_SSODescriptor : SSODescriptor;
  IDPSSODescriptor_WantAuthnRequestsSigned : option bool;
  IDPSSODescriptor_SingleSignOnServices : list Endpoint;
  IDPSSODescriptor_ArtifactResolutionServices : list Endpoint;
  IDPSSODescriptor_NameIDMappingServices : list Endpoint;
  IDPSSODescriptor_AssertionIDRequestServices : list Endpoint;
  IDPSSODescriptor_AttributeProfiles : list string;
  IDPSSODescriptor_Attributes : list Attribute
}.

(** The zero value of the struct. *)
Definition zero_IDPSSODescriptor : IDPSSODescriptor := mkIDPSSODescriptor zero_SSODescriptor None [] [] [] [] [] [].

Record RequestedAttribute := mkRequestedAttribute {
  RequestedAttribute_Attribute : Attribute;
  RequestedAttribute_IsRequired : option bool
}.

(** The zero value of the struct. *)
Definition zero_RequestedAttribute : RequestedAttribute := mkRequestedAttribute zero_Attribute None.

Record AttributeConsumingService := mkAttributeConsumingService {
  AttributeConsumingService_Index : Z;
  AttributeConsumingService_IsDefault : option bool;
  AttributeConsumingService_ServiceNames : list LocalizedName;
  AttributeConsumingService_ServiceDescriptions : list LocalizedName;
  AttributeConsumingService_RequestedAttributes : list RequestedAttribute
}.

(** The zero value of the struct. *)
Definition zero_AttributeConsumingService : AttributeConsumingService := mkAttributeConsumingService 0%Z None [] [] [].

Record SPSSODescriptor := mkSPSSODescriptor {
  SPSSODescriptor_SSODescriptor : SSODescriptor;
  SPSSODescriptor_AuthnRequestsSigned : option bool;
  SPSSODescriptor_WantAssertionsSigned : option bool;
  SPSSODescriptor_AssertionConsumerServices : list IndexedEndpoint;
  SPSSODescriptor_AttributeConsumingServices : list AttributeConsumingService
}.

(** The zero value of the struct. *)
Definition zero_SPSSODescriptor : SPSSODescriptor := mkSPSSODescriptor zero_SSODescriptor None None [] [].

Record AuthnAuthorityDescriptor := mkAuthnAuthorityDescriptor {
  AuthnAuthorityDescriptor_RoleDescriptor : RoleDescriptor;
  AuthnAuthorityDescriptor_AuthnQueryServices : list Endpoint;
  AuthnAuthorityDescriptor_AssertionIDRequestServices : list Endpoint;
  AuthnAuthorityDescriptor_NameIDFormats : list string
}.

(** The zero value of the struct. *)
Definition zero_AuthnAuthorityDescriptor : AuthnAuthorityDescriptor := mkAuthnAuthorityDescriptor zero_RoleDescriptor [] [] [].

Record PDPDescriptor := mkPDPDescriptor {
  PDPDescriptor_RoleDescriptor : RoleDescriptor;
  PDPDescriptor_AuthzServices : list Endpoint;
  PDPDescriptor_AssertionIDRequestServices : list Endpoint;
  PDPDescriptor_NameIDFormats : list string
}.

(** The zero value of the struct. *)
Definition zero_PDPDescriptor : PDPDescriptor := mkPDPDescriptor zero_RoleDescriptor [] [] [].

Record AttributeAuthorityDescriptor := mkAttributeAuthorityDescriptor {
  AttributeAuthorityDescriptor_RoleDescriptor : RoleDescriptor;
  AttributeAuthorityDescriptor_AttributeServices : list Endpoint;
  AttributeAuthorityDescriptor_AssertionIDRequestServices : list Endpoint;
  AttributeAuthorityDescriptor_NameIDFormats : list string;
  AttributeAuthorityDescriptor_AttributeProfiles : list string;
  AttributeAuthorityDescriptor_Attributes : list Attribute
}.

(** The zero value of the struct. *)
Definition zero_AttributeAuthorityDescriptor : AttributeAuthorityDescriptor := mkAttributeAuthorityDescriptor zero_RoleDescriptor [] [] [] [] [].

Record AffiliationDescriptor := mkAffiliationDescriptor {
  AffiliationDescriptor_AffiliationOwnerID : string;
  AffiliationDescriptor_ID : string;
  AffiliationDescriptor_ValidUntil : Time;
  AffiliationDescriptor_CacheDuration : option XSDDuration;
  AffiliationDescriptor_Signature : option Element;
  AffiliationDescriptor_AffiliateMembers : list string;
  AffiliationDescriptor_KeyDescriptors : list KeyDescriptor
}.

(** The zero value of the struct. *)
Definition zero_AffiliationDescriptor : AffiliationDescriptor := mkAffiliationDescriptor "" "" 0%Z None None [] [].

Record EntityDescriptor := mkEntityDescriptor {
  EntityDescriptor_EntityID : string;
  EntityDescriptor_ID : string;
  EntityDescriptor_ValidUntil : Time;
  EntityDescriptor_CacheDuration : Duration;
  EntityDescriptor_Signature : option Element;
  EntityDescriptor_RoleDescriptors : list RoleDescriptor;
  EntityDescriptor_IDPSSODescriptors : list IDPSSODescriptor;
  EntityDescriptor_SPSSODescriptors : list SPSSODescriptor;
  EntityDescriptor_AuthnAuthorityDescriptors : list AuthnAuthorityDescriptor;
  EntityDescriptor_AttributeAuthorityDescriptors : list AttributeAuthorityDescriptor;
  EntityDescriptor_PDPDescriptors : list PDPDescriptor;
  EntityDescriptor_AffiliationDescriptor : option AffiliationDescriptor;
  EntityDescriptor_Organization : option Organization;
  EntityDescriptor_ContactPerson : option ContactPerson;
  EntityDescriptor_AdditionalMetadataLocations : list string
}.

(** The zero value of the struct. *)
Definition zero_EntityDescriptor : EntityDescriptor := mkEntityDescriptor "" "" 0%Z 0%Z None [] [] [] [] [] [] None None None [].

Inductive EntitiesDescriptor :=
  | mkEntitiesDescriptor (ID : option string) (ValidUntil : option Time)
      (CacheDuration : option Duration) (Name : option string) (Signature : option Element)
      (EntitiesDescriptors : list EntitiesDescriptor) (EntityDescriptors : list EntityDescriptor).

Definition EntitiesDescriptor_ID (m : EntitiesDescriptor) :=
  let 'mkEntitiesDescriptor x _ _ _ _ _ _ := m in x.
Definition EntitiesDescriptor_CacheDuration (m : EntitiesDescriptor) :=
  let 'mkEntitiesDescriptor _ _ d _ _ _ _ := m in d.
Definition EntitiesDescriptor_Name (m : EntitiesDescriptor) :=
  let 'mkEntitiesDescriptor _ _ _ x _ _ _ := m in x.
Definition EntitiesDescriptor_Signature (m : EntitiesDescriptor) :=
  let 'mkEntitiesDescriptor _ _ _ _ x _ _ := m in x.
Definition EntitiesDescriptor_EntitiesDescriptors (m : EntitiesDescriptor) :=
  let 'mkEntitiesDescriptor _ _ _ _ _ l _ := m in l.
Definition EntitiesDescriptor_ValidUntil (m : EntitiesDescriptor) :=
  let 'mkEntitiesDescriptor _ t _ _ _ _ _ := m in t.
Definition EntitiesDescriptor_EntityDescriptors (m : EntitiesDescriptor) :=
  let 'mkEntitiesDescriptor _ _ _ _ _ _ l := m in l.

(** The zero value of the struct. *)
Definition zero_EntitiesDescriptor : EntitiesDescriptor := mkEntitiesDescriptor None None None None None [] [].

(** ** Constants *)

Definition HTTPPostBinding := "urn:oasis:names:tc:SAML:2.0:bindings:HTTP-POST".
Definition HTTPRedirectBinding := "urn:oasis:names:tc:SAML:2.0:bindings:HTTP-Redirect".
Definition HTTPArtifactBinding := "urn:oasis:names:tc:SAML:2.0:bindings:HTTP-Artifact".
Definition SOAPBinding := "urn:oasis:names:tc:SAML:2.0:bindings:SOAP".
Definition SOAPBindingV1 := "urn:oasis:names:tc:SAML:1.0:bindings:SOAP-binding".

Definition AuthnContextComparisonExact := "exact".
Definition AuthnContextComparisonMinimum := "minimum".
Definition AuthnContextComparisonMaximum := "maximum".
Definition AuthnContextComparisonBetter := "better".

Definition StatusSuccess := "urn:oasis:names:tc:SAML:2.0:status:Success".
Definition StatusRequester := "urn:oasis:names:tc:SAML:2.0:status:Requester".
Definition StatusResponder := "urn:oasis:names:tc:SAML:2.0:status:Responder".
Definition StatusAuthnFailed := "urn:oasis:names:tc:SAML:2.0:status:AuthnFailed".
Definition StatusInvalidNameIDPolicy := "urn:oasis:names:tc:SAML:2.0:status:InvalidNameIDPolicy".
Definition StatusNoAuthnContext := "urn:oasis:names:tc:SAML:2.0:status:NoAuthnContext".
Definition StatusNoPassive := "urn:oasis:names:tc:SAML:2.0:status:NoPassive".
Definition StatusPartialLogout := "urn:oasis:names:tc:SAML:2.0:status:PartialLogout".
Definition StatusRequestDenied := "urn:oasis:names:tc:SAML:2.0:status:RequestDenied".
Definition StatusUnknownPrincipal := "urn:oasis:names:tc:SAML:2.0:status:UnknownPrincipal".
Definition StatusVersionMismatch := "urn:oasis:names:tc:SAML:2.0:status:VersionMismatch".
