(* ===== verification/C14n.v ===== *)
(** * C14n: attribute order, detaching and canonicalization

    [src/internal/dsig/etreeutils/sort.go] and [canonicalize.go], [NSDetatch]
    of [namespace.go], and the canonicalizers of
    [src/internal/dsig/canonicalize.go].  Go edits the element in place; here
    the functions return the edited element.  [sort.Sort] is the insertion
    sort that it is for up to twelve elements; for more, attributes that differ in their
    expanded names are put into the same order. *)

From stdpp Require Import base option list gmap strings sets.
From Stdlib Require Import ZArith Lia Ascii.
From S2P Require Import Prelude Go Etree.

Open Scope string_scope.

(** ** SortedAttrs *)

Definition str_lt (a b : string) : bool :=
  match String.compare a b with Lt => true | _ => false end.

Definition is_default_decl (a : Attr) : bool :=
  (Attr_Space a == defaultPrefix) && (Attr_Key a == xmlnsPrefix).

(** The value of the last attribute whose key is the given one. *)
Definition value_of_key (attrs : list Attr) (key : string) : string :=
  match first_that (λ a, key == Attr_Key a) (reverse attrs) with
  | Some a => Attr_Value a
  | None => ""
  end.

(** [a.Less(i, j)] for the attributes [x = a[i]] and [y = a[j]]. *)
Definition SortedAttrs_Less (a : list Attr) (x y : Attr) : bool :=
  if is_default_decl y then false
  else if is_default_decl x then true
  else if Attr_Space x == xmlnsPrefix then
    if Attr_Space y == xmlnsPrefix then str_lt (Attr_Key x) (Attr_Key y) else true
  else if Attr_Space y == xmlnsPrefix then false
  else if Attr_Space x == defaultPrefix then
    if Attr_Space y == defaultPrefix then str_lt (Attr_Key x) (Attr_Key y) else true
  else if Attr_Space y == defaultPrefix then false
  else if Attr_Space x == Attr_Space y then str_lt (Attr_Key x) (Attr_Key y)
  else if Attr_Key x == Attr_Key y then
    str_lt (value_of_key a (Attr_Space x)) (value_of_key a (Attr_Space y))
  else str_lt (Attr_Key x) (Attr_Key y).

(** Moves [x] to the left past the sorted prefix, given in reverse. *)
Fixpoint sort_insert (rev_prefix : list Attr) (x : Attr) (post : list Attr) : list Attr :=
  match rev_prefix with
  | [] => x :: post
  | y :: rp =>
      if SortedAttrs_Less (reverse rp ++ y :: x :: post) x y then sort_insert rp x (y :: post)
      else reverse rp ++ y :: x :: post
  end.

Fixpoint sort_from (n : nat) (attrs : list Attr) (todo : nat) : list Attr :=
  match todo with
  | O => attrs
  | S todo =>
      match attrs !! n with
      | None => attrs
      | Some x => sort_from (S n) (sort_insert (reverse (take n attrs)) x (drop (S n) attrs)) todo
      end
  end.

(** [sort.Sort(SortedAttrs(attrs))] *)
Definition SortAttrs (attrs : list Attr) : list Attr := sort_from 1 attrs (length attrs).

(** ** NSDetatch *)

Definition is_ns_decl (a : Attr) : bool :=
  (Attr_Space a == xmlnsPrefix) || is_default_decl a.

(** The declarations [NSDetatch] adds for the context. *)
Definition context_decls (ctx : NSContext) : list Attr :=
  omap (λ '(prefix, namespace),
    if (prefix == xmlnsPrefix) || (prefix == xmlPrefix) then None
    else if (prefix == defaultPrefix) && (namespace == XMLNamespace) then None
    else Some (declare prefix namespace)) (map_to_list ctx).

Definition NSDetatch {S} (ctx : NSContext) (el : Element) : NSM S Element :=
  checkSubtreeLimit el ≫= λ _,
  ns_lift (SubContext ctx el) ≫= λ ctx,
  mret (set_Attrs (SortAttrs (filter (λ a, is_ns_decl a = false) (Attrs el) ++ context_decls ctx)) el).

(** [NSSelectOneCtx] detaches the first match. *)
Definition select_handler : NSIterHandler (option Element) := λ ctx el st,
  match NSDetatch ctx el st with
  | ((limit, _), Ret d) => ((limit, Some d), Err ErrTraversalHalted)
  | ((limit, _), Err e) => ((limit, None), Err e)
  | ((limit, _), Panic) => ((limit, None), Panic)
  end.

Definition NSSelectOneCtx (ctx : NSContext) (el : Element) (namespace tag : string)
    : NSM () (option Element) :=
  found_of (NSFindIterateCtx ctx el namespace tag select_handler).

Definition NSSelectOne (el : Element) (namespace tag : string) : outcome (option Element) :=
  run_default (NSSelectOneCtx default_prefixes el namespace tag).

(** ** Exclusive canonicalization *)

(** The length of the white space rune [s] starts with, in bytes, or 0:
    [unicode.IsSpace] on UTF-8. *)
Definition space_len (s : string) : nat :=
  let byte (c : ascii) := N_of_ascii c in
  match s with
  | "" => 0
  | String a r =>
      let a := byte a in
      if bool_decide (a ∈ [9; 10; 11; 12; 13; 32]%N) then 1
      else match r with
      | "" => 0
      | String b r =>
          let b := byte b in
          if (a =? 194)%N && ((b =? 133)%N || (b =? 160)%N) then 2
          else match r with
          | "" => 0
          | String c _ =>
              let c := byte c in
              if ((a =? 225) && (b =? 154) && (c =? 128) ||
                  (a =? 226) && (b =? 128) &&
                    ((128 <=? c) && (c <=? 138) || (c =? 168) || (c =? 169) || (c =? 175)) ||
                  (a =? 226) && (b =? 129) && (c =? 159) ||
                  (a =? 227) && (b =? 128) && (c =? 128))%N then 3
              else 0
          end
      end
  end.

(** [skip] bytes of a white space rune are left to skip; [acc] is the field
    being read, reversed. *)
Fixpoint fields_from (skip : nat) (acc : list ascii) (s : string) : list string :=
  let flush := match acc with [] => [] | _ => [String.string_of_list_ascii (reverse acc)] end in
  match s with
  | "" => flush
  | String c s' =>
      match skip with
      | S skip => fields_from skip [] s'
      | O =>
          match space_len s with
          | O => fields_from 0 (c :: acc) s'
          | S skip => flush ++ fields_from skip [] s'
          end
      end
  end%list.

(** [strings.Fields] *)
Definition Fields (s : string) : list string := fields_from 0 [] s.

Definition is_comment (t : Token) : bool :=
  match t with TComment _ => true | _ => false end.

Definition remove_comments (comments : bool) (c : list Token) : list Token :=
  if comments then c else filter (λ t, is_comment t = false) c.

(** The prefixes that an element uses visibly, in the order of their first
    use: its own, those of the inclusive list that it declares, and those of its
    attributes. *)
Definition visiblyUtilizedPrefixes (inclusiveNamespaces : gset string) (el : Element)
    : gset string :=
  {[ Space el ]} ∪
  list_to_set (omap (λ attr,
    if Attr_Space attr == xmlnsPrefix then
      if bool_decide (Attr_Key attr ∈ inclusiveNamespaces) then Some (Attr_Key attr) else None
    else if is_default_decl attr then
      if bool_decide (defaultPrefix ∈ inclusiveNamespaces) then Some defaultPrefix else None
    else if Attr_Space attr != defaultPrefix then Some (Attr_Space attr) else None) (Attrs el)).

(** [for prefix := range visiblyUtilizedPrefixes { ... }]: the new [declared]
    and the declarations to append. *)
Fixpoint declare_prefixes (scope declared : NSContext) (prefixes : list string)
    : outcome (NSContext * list Attr) :=
  match prefixes with
  | [] => Ret (declared, [])
  | prefix :: prefixes =>
      if bool_decide (is_Some (declared !! prefix)) && (declared !! prefix == scope !! prefix)
      then declare_prefixes scope declared prefixes
      else
        namespace ← LookupPrefix scope prefix;
        r ← declare_prefixes scope (<[prefix := namespace]> declared) prefixes;
        Ret (r.1, declare prefix namespace :: r.2)
  end.

Fixpoint transformExcC14n (ctx declared : NSContext) (inclusiveNamespaces : gset string)
    (comments : bool) (el : Element) : outcome Element :=
  scope ← SubContext ctx el;
  r ← declare_prefixes scope declared (elements (visiblyUtilizedPrefixes inclusiveNamespaces el));
  let attrs := SortAttrs (filter (λ a, is_ns_decl a = false) (Attrs el) ++ r.2) in
  children ←
    (fix go (c : list Token) : outcome (list Token) :=
       match c with
       | [] => Ret []
       | TElement child :: c =>
           child ← transformExcC14n scope r.1 inclusiveNamespaces comments child;
           c ← go c;
           Ret (TElement child :: c)
       | TComment t :: c =>
           c ← go c;
           Ret (if comments then TComment t :: c else c)
       | t :: c =>
           c ← go c;
           Ret (t :: c)
       end) (Child el);
  Ret (mkElement (Space el) (Tag el) attrs children).

Definition TransformExcC14n (el : Element) (inclusiveNamespacesPrefixList : string)
    (comments : bool) : outcome Element :=
  transformExcC14n default_prefixes default_prefixes
    (list_to_set (Fields inclusiveNamespacesPrefixList)) comments el.

(** ** Inclusive canonicalization *)

Definition nsSpace := "xmlns".

(** The loop of [canonicalPrepInner] over the sorted attributes. *)
Fixpoint prep_attrs (seen : gmap string string) (attrs : list Attr)
    : gmap string string * list Attr :=
  match attrs with
  | [] => (seen, [])
  | attr :: attrs =>
      if (Attr_Space attr != nsSpace) &&
         negb ((Attr_Space attr == "") && (Attr_Key attr == nsSpace)) then
        let '(seen, l) := prep_attrs seen attrs in (seen, attr :: l)
      else if Attr_Space attr == nsSpace then
        let key := Attr_Space attr +++ ":" +++ Attr_Key attr in
        if seen !! key != Some (Attr_Value attr) then
          let '(seen, l) := prep_attrs (<[key := Attr_Value attr]> seen) attrs in (seen, attr :: l)
        else prep_attrs seen attrs
      else
        let uri := default "" (seen !! nsSpace) in
        if (bool_decide (seen !! nsSpace = None) && (Attr_Value attr != ""))
           || (Attr_Value attr != uri) then
          let '(seen, l) := prep_attrs (<[nsSpace := Attr_Value attr]> seen) attrs in (seen, attr :: l)
        else prep_attrs seen attrs
  end.

Fixpoint canonicalPrepInner (seenSoFar : gmap string string) (comments : bool) (el : Element)
    : Element :=
  let '(seen, attrs) := prep_attrs seenSoFar (SortAttrs (Attrs el)) in
  mkElement (Space el) (Tag el) attrs
    ((fix go (c : list Token) : list Token :=
        match c with
        | [] => []
        | TElement child :: c => TElement (canonicalPrepInner seen comments child) :: go c
        | TComment t :: c => if comments then TComment t :: go c else go c
        | t :: c => t :: go c
        end) (Child el)).

(** The [strip] argument is not used. *)
Definition canonicalPrep (el : Element) (strip comments : bool) : Element :=
  canonicalPrepInner ∅ comments el.

(** The declarations and the [xml:] attributes of the ancestors, from the
    outermost one to the parent. *)
Definition parent_attr (m : gmap string string * gmap string string) (attr : Attr)
    : gmap string string * gmap string string :=
  if (Attr_Space attr == "xmlns") &&
     ((Attr_Key attr != "xml") || (Attr_Value attr != XMLNamespace)) then
    (<[Attr_Key attr := Attr_Value attr]> m.1, m.2)
  else if (Attr_Space attr == "") && (Attr_Key attr == "xmlns") then
    (<[Attr_Key attr := Attr_Value attr]> m.1, m.2)
  else if Attr_Space attr == "xml" then (m.1, <[Attr_Key attr := Attr_Value attr]> m.2)
  else m.

Definition getParentNamespaceAndXmlAttributes (c : Cursor)
    : gmap string string * gmap string string :=
  foldl parent_attr (∅, ∅) (mjoin (map Attrs (reverse (ancestors c)))).

Section canonicalizers.
Context `{EtreeI : EtreeOps}.

Definition enhanceNamespaceAttributes (parentNamespaces parentXmlAttributes : gmap string string)
    (el : Element) : Element :=
  let el := foldl (λ el '(prefix, uri),
    if prefix == "xmlns" then CreateAttr "xmlns" uri el
    else CreateAttr ("xmlns:" +++ prefix) uri el) el (map_to_list parentNamespaces) in
  foldl (λ el '(attr, value), CreateAttr ("xml:" +++ attr) value el) el
    (map_to_list parentXmlAttributes).

Inductive Canonicalizer :=
  | NullCanonicalizer
  | c14N10ExclusiveCanonicalizer (prefixList : string) (comments : bool)
  | c14N11Canonicalizer (comments : bool)
  | c14N10RecCanonicalizer (comments : bool).

Definition CanonicalXML10ExclusiveAlgorithmId := "http://www.w3.org/2001/10/xml-exc-c14n#".
Definition CanonicalXML10ExclusiveWithCommentsAlgorithmId :=
  "http://www.w3.org/2001/10/xml-exc-c14n#WithComments".
Definition CanonicalXML11AlgorithmId := "http://www.w3.org/2006/12/xml-c14n11".
Definition CanonicalXML11WithCommentsAlgorithmId :=
  "http://www.w3.org/2006/12/xml-c14n11#WithComments".
Definition CanonicalXML10RecAlgorithmId := "http://www.w3.org/TR/2001/REC-xml-c14n-20010315".
Definition CanonicalXML10WithCommentsAlgorithmId :=
  "http://www.w3.org/TR/2001/REC-xml-c14n-20010315#WithComments".

Definition Canonicalizer_Algorithm (c : Canonicalizer) : string :=
  match c with
  | NullCanonicalizer => "NULL"
  | c14N10ExclusiveCanonicalizer _ comments =>
      if comments then CanonicalXML10ExclusiveWithCommentsAlgorithmId
      else CanonicalXML10ExclusiveAlgorithmId
  | c14N11Canonicalizer comments =>
      if comments then CanonicalXML11WithCommentsAlgorithmId else CanonicalXML11AlgorithmId
  | c14N10RecCanonicalizer comments =>
      if comments then CanonicalXML10WithCommentsAlgorithmId else CanonicalXML10RecAlgorithmId
  end.

Definition canonicalSerialize (el : Element) : outcome string := WriteToBytes_canonical el.

(** [Canonicalize]: the bytes, and the element as the call leaves it (the
    exclusive canonicalizer transforms its argument). *)
Definition Canonicalize (c : Canonicalizer) (el : Cursor) : outcome (Element * string) :=
  match c with
  | NullCanonicalizer =>
      bytes ← canonicalSerialize (canonicalPrep (cur el) false true);
      Ret (cur el, bytes)
  | c14N10ExclusiveCanonicalizer prefixList comments =>
      el ← TransformExcC14n (cur el) prefixList comments;
      bytes ← canonicalSerialize el;
      Ret (el, bytes)
  | c14N11Canonicalizer comments =>
      bytes ← canonicalSerialize (canonicalPrep (cur el) true comments);
      Ret (cur el, bytes)
  | c14N10RecCanonicalizer comments =>
      let '(parentNamespaces, parentXml) := getParentNamespaceAndXmlAttributes el in
      bytes ← canonicalSerialize (canonicalPrep
        (enhanceNamespaceAttributes parentNamespaces parentXml (cur el)) true comments);
      Ret (cur el, bytes)
  end.
End canonicalizers.
