(* ===== verification/Env.v ===== *)
(** * Env: what the components take from elsewhere

    The packages the source calls and does not contain, and the interfaces the
    components promise to one another, each a class whose methods are
    parameters of the definitions that use them:

    - [UrlOps], [X509Ops], [CryptoOps], [XmlOps], [FlateOps]: [net/url],
      [crypto/x509], the signature algorithms and hashes, [encoding/xml] with
      [xml-roundtrip-validator], and [compress/flate];
    - [SignatureOps]: what [internal/dsig] promises to the SAML packages;
    - [XmlEncOps]: what [xmlenc] promises to them. *)

From stdpp Require Import base option list strings.
From Stdlib Require Import ZArith.
From S2P Require Import Prelude Go Etree Schema.

Open Scope string_scope.

(** [url.URL]: the [User] with the [@] that ends it, or "" if it is nil. *)
Record URL := mkURL {
  URL_Scheme : string;
  URL_Opaque : string;
  URL_User : string;
  URL_Host : string;
  URL_Path : string;
  URL_RawPath : string;
  URL_RawQuery : string;
  URL_Fragment : string
}.

Definition set_RawQuery (q : string) (u : URL) : URL :=
  mkURL (URL_Scheme u) (URL_Opaque u) (URL_User u) (URL_Host u) (URL_Path u) (URL_RawPath u)
    q (URL_Fragment u).

Class UrlOps := {
  URL_String : URL → string;
  url_Parse : string → outcome URL
}.

(** [strings.EqualFold], which folds the letters of every script, and
    [url.URL.ResolveReference]. *)
Class FoldOps := { EqualFold : string → string → bool }.

Class FoldLaws `{FoldI : FoldOps} : Prop := {
  EqualFold_refl s : EqualFold s s = true;
  EqualFold_sym s t : EqualFold s t = EqualFold t s;
  EqualFold_empty s : EqualFold s "" = true → s = ""
}.

Class ResolveOps := { ResolveReference : URL → URL → URL }.

(** Public keys: an identifier and, for ECDSA, the bit sizes of the field
    ([BitSize]) and of the order of the base point ([N.BitLen()]). *)
Inductive PublicKey :=
  | RSAPublicKey (id : string)
  | ECDSAPublicKey (id : string) (BitSize N_BitLen : Z)
  | OtherPublicKey (id : string).

#[export] Instance PublicKey_eq_dec : EqDecision PublicKey.
Proof. solve_decision. Defined.

Definition is_rsa (k : PublicKey) : bool :=
  match k with RSAPublicKey _ => true | _ => false end.
Definition is_ecdsa (k : PublicKey) : bool :=
  match k with ECDSAPublicKey _ _ _ => true | _ => false end.

(** [x509.Certificate] *)
Record Certificate := mkCertificate {
  Certificate_Raw : string;
  Certificate_PublicKey : PublicKey;
  Certificate_NotBefore : Time;
  Certificate_NotAfter : Time
}.

#[export] Instance Certificate_eq_dec : EqDecision Certificate.
Proof. solve_decision. Defined.

(** [crypto.Signer]: the private key of a public key. *)
Record Signer := mkSigner { Signer_Public : PublicKey }.

Class X509Ops := {
  ParseCertificate : string → outcome Certificate;
  ParseCertificates : string → outcome (list Certificate);
  sha256_Sum256 : string → string;
  sha512_Sum512 : string → string
}.

(** [crypto.Hash], and the algorithms of [x509.Certificate.CheckSignature]. *)
Inductive Hash := SHA1 | SHA256 | SHA384 | SHA512.
Inductive PublicKeyAlgorithm := RSA | ECDSA | UnknownPublicKeyAlgorithm.

#[export] Instance Hash_eq_dec : EqDecision Hash.
Proof. solve_decision. Defined.
#[export] Instance PublicKeyAlgorithm_eq_dec : EqDecision PublicKeyAlgorithm.
Proof. solve_decision. Defined.

(** [crypto/rsa], [crypto/ecdsa], [encoding/asn1] and the hashes. *)
Class CryptoOps := {
  hash_Sum : Hash → string → string;
  rsa_VerifyPKCS1v15 : PublicKey → Hash → string → string → bool;  (* key hash digest signature *)
  ecdsa_Verify : PublicKey → string → Z → Z → bool;               (* key digest r s *)
  Signer_Sign : Signer → string → Hash → outcome string;           (* digest hash *)
  rsa_SignPKCS1v15 : Signer → Hash → string → outcome string;      (* hash digest *)
  CheckSignature : Certificate → PublicKeyAlgorithm → Hash → string → string → outcome ();
  asn1_Marshal : Z → Z → outcome string;
  asn1_Unmarshal : string → outcome (Z * Z * string)               (* r s rest *)
}.

(** [xml.Unmarshal] into each message type, and [xrv.Validate]. *)
Class XmlOps := {
  xrv_Validate : string → outcome ();
  Unmarshal_Response : string → outcome Response;
  Unmarshal_ArtifactResponse : string → outcome ArtifactResponse;
  Unmarshal_Assertion : string → outcome Assertion;
  Unmarshal_LogoutResponse : string → outcome LogoutResponse;
  Unmarshal_LogoutRequest : string → outcome LogoutRequest;
  Unmarshal_AuthnRequest : string → outcome AuthnRequest
}.

(** [xml.Unmarshal] into the two forms of metadata, [xml.MarshalIndent] whose error
    the callers ignore, and the [Encode] of an encoder. *)
Class MetadataXml := {
  Unmarshal_EntityDescriptor : string → outcome EntityDescriptor;
  Unmarshal_EntitiesDescriptor : string → outcome EntitiesDescriptor;
  MarshalIndent_EntityDescriptor : EntityDescriptor → string;
  Encode_EntityDescriptor : EntityDescriptor → outcome string
}.

(** The error of [encoding/xml] for the other form. *)
Definition unexpected_EntitiesDescriptor : error :=
  Errorf "expected element type <EntityDescriptor> but have <EntitiesDescriptor>" [].

(** [compress/flate]: the compressed form, and the reads of a decompressor
    that [io.ReadAll] makes, or makes through an [io.LimitReader] of the given
    size: the size of each buffer it offers, the bytes it gets, and how the last
    read ends ([None] for [io.EOF]). *)
Class FlateOps := {
  flate_Compress : string → string;
  flate_reads : option Z → string → list (Z * string) * option error
}.

(** [dsig.ValidationContext] as the SAML packages fill it in. *)
Record ValidationContext := mkValidationContext {
  ValidationContext_Roots : list Certificate;
  ValidationContext_IdAttribute : string;
  ValidationContext_Now : Time   (* what its clock reads *)
}.

(** What [internal/dsig] promises: [Validate] returns the content that a
    signature of one of the roots covers, or nil for content without a root. *)
Class SignatureOps := {
  ValidationContext_Validate : ValidationContext → Element → outcome (option Element)
}.

(** [http.Client]: its [Transport] and its [CheckRedirect], which is nil, the
    function that returns [http.ErrUseLastResponse] or another one. *)
Inductive CheckRedirect := DefaultRedirects | UseLastResponse | CustomRedirects (id : string).

Record HTTPClient := mkHTTPClient {
  Client_Transport : string;
  Client_CheckRedirect : CheckRedirect;
  Client_Timeout : Duration
}.

(** The key given to [xmlenc.Decrypt]. *)
Inductive DecryptionKey :=
  | SignerKey (key : option Signer)
  | BytesKey (key : string).

Class XmlEncOps := {
  xmlenc_Decrypt : DecryptionKey → Cursor → outcome string
}.

(** The block ciphers of [src/xmlenc] that encrypt content. *)
Inductive BlockCipher := AES128GCM | AES128CBC | AES192CBC | AES256CBC | TripleDES.

#[export] Instance BlockCipher_eq_dec : EqDecision BlockCipher.
Proof. solve_decision. Defined.

Definition BlockCipher_Algorithm (c : BlockCipher) : string :=
  match c with
  | AES128GCM => "http://www.w3.org/2009/xmlenc11#aes128-gcm"
  | AES128CBC => "http://www.w3.org/2001/04/xmlenc#aes128-cbc"
  | AES192CBC => "http://www.w3.org/2001/04/xmlenc#aes192-cbc"
  | AES256CBC => "http://www.w3.org/2001/04/xmlenc#aes256-cbc"
  | TripleDES => "http://www.w3.org/2001/04/xmlenc#tripledes-cbc"
  end.
