(* ===== verification/Http.v ===== *)
(** * Http: handlers and what they draw from the world

    A handler reads the clock and the random source, writes a response and logs.
    [IO W A] is a computation that passes on the state of the world, which the
    class [World] reads, and the list of what it has done, in order.  The
    functions of [net/http], [net] and [net/netip] that the source calls are
    defined here or are the methods of [NetOps]. *)

From stdpp Require Import base option list strings.
From Stdlib Require Import ZArith Lia Ascii.
From S2P Require Import Prelude Go Encoding Etree Env.

Open Scope string_scope.

(** ** The world *)

(** [TimeNow] and [RandReader] are the package variables of [src/util.go],
    [Clock] the reading of the variable of that name if it is not nil, [SystemNow]
    is [time.Now], and [ResponseWrite] is how a write of the response ends. *)
Class World (W : Type) := {
  TimeNow_ : W → W * Time;
  SystemNow : W → W * Time;
  Clock : option (W → W * Time);
  RandReader : nat → W → W * option string;
  ResponseWrite : string → W → W * outcome ()
}.

(** [http.Cookie]: a [MaxAge] of 0 and no [Expires] are no attributes. *)
Inductive SameSite := SameSiteUnset | SameSiteDefaultMode | SameSiteLaxMode | SameSiteStrictMode | SameSiteNoneMode.

Record Cookie := mkCookie {
  Cookie_Name : string;
  Cookie_Value : string;
  Cookie_Path : string;
  Cookie_Domain : string;
  Cookie_Expires : option Time;
  Cookie_MaxAge : Z;
  Cookie_Secure : bool;
  Cookie_HttpOnly : bool;
  Cookie_SameSite : SameSite
}.

#[export] Instance SameSite_eq_dec : EqDecision SameSite.
Proof. solve_decision. Defined.
#[export] Instance Cookie_eq_dec : EqDecision Cookie.
Proof. solve_decision. Defined.

(** What a handler does to its [http.ResponseWriter], and to its log. *)
Inductive Event :=
  | HeaderSet (key value : string)
  | HeaderAdd (key value : string)
  | SetCookie (cookie : Cookie)
  | WriteHeader (code : Z)
  | BodyWrite (data : string)
  | HttpError (code : Z)                       (* http.Error(w, StatusText(code), code) *)
  | HttpErrorOf (err : error) (code : Z)       (* http.Error(w, err.Error(), code) *)
  | HttpNotFound                               (* http.NotFound(w, r) *)
  | HttpRedirect (location : string) (code : Z)  (* what http.Redirect writes *)
  | LogPrintf (format : string) (args : list arg) (err : option error).

#[export] Instance Event_eq_dec : EqDecision Event.
Proof. solve_decision. Defined.

Definition St (W : Type) : Type := W * list Event.

Definition IO (W A : Type) : Type := St W → St W * outcome A.

#[export] Instance IO_ret {W} : MRet (IO W) := λ A a s, (s, Ret a).
#[export] Instance IO_bind {W} : MBind (IO W) := λ A B f m s,
  match m s with
  | (s, Ret a) => f a s
  | (s, Err e) => (s, Err e)
  | (s, Panic) => (s, Panic)
  end.

(** A call of code that gets no [http.ResponseWriter]. *)
Definition Effect (W A : Type) : Type := W → W * outcome A.

(** A computation that neither reads nor changes the state. *)
Definition lift {W A} (o : outcome A) : IO W A := λ s, (s, o).

(** [v, err := m(); if err != nil { return h(err) }; return k(v)] *)
Definition on_result {W A B} (m : IO W A) (k : A → IO W B) (h : error → IO W B) : IO W B := λ s,
  match m s with
  | (s, Ret a) => k a s
  | (s, Err e) => h e s
  | (s, Panic) => (s, Panic)
  end.

(** What the computation did and returned, in the world [w]. *)
Definition run_io {W A} (m : IO W A) (w : W) : list Event * outcome A :=
  let '((_, l), o) := m (w, []) in (l, o).

(** [defer d()] before [m]. *)
Definition deferred {W A} (d : IO W ()) (m : IO W A) : IO W A := λ s,
  let '(s, o) := m s in
  match d s with
  | (s, Panic) => (s, Panic)
  | (s, _) => (s, o)
  end.

(** [if err != nil { panic(err) }] *)
Definition must {A} (o : outcome A) : outcome A :=
  match o with Err _ => Panic | o => o end.

Section world.
Context {W : Type} `{WorldI : World W}.

Definition reads {A} (f : W → W * A) : IO W A := λ '(w, l),
  let '(w, a) := f w in ((w, l), Ret a).

Definition effect {A} (f : Effect W A) : IO W A := reads f ≫= lift.

(** A call of code that gets the response writer and returns no error; it panics
    if it returns [None]. *)
Definition handle {A} (f : St W → St W * option A) : IO W A := λ s, let '(s, a) := f s in (s, deref a).

Definition emit (e : Event) : IO W () := λ '(w, l), ((w, (l ++ [e])%list), Ret ()).

Definition TimeNow : IO W Time := reads TimeNow_.

(** The reading of the dsig clock that is set from [Clock]: a nil clock is the
    real one. *)
Definition Clock_Now : IO W Time := reads (default SystemNow Clock).

(** [now := TimeNow(); if Clock != nil { now = Clock.Now() }] *)
Definition redirect_now : IO W Time :=
  TimeNow ≫= λ now,
  match Clock with None => mret now | Some clock => reads clock end.

Definition randomBytes (n : nat) : IO W string :=
  reads (RandReader n) ≫= λ rv, lift (deref rv).

(** [fmt.Sprintf("id-%x", randomBytes(20))] *)
Definition new_id : IO W string :=
  randomBytes 20 ≫= λ rv, mret ("id-" +++ hex_string rv).

(** [w.Write(data)] *)
Definition w_Write (data : string) : IO W () :=
  emit (BodyWrite data) ≫= λ _, effect (ResponseWrite data).

Definition log (format : string) (args : list arg) (err : option error) : IO W () :=
  emit (LogPrintf format args err).

Definition http_error (code : Z) : IO W () := emit (HttpError code).

Definition setNoCacheHeaders : IO W () :=
  emit (HeaderSet "Cache-Control" "no-cache, no-store") ≫= λ _,
  emit (HeaderSet "Pragma" "no-cache").
End world.

(** ** Requests *)

(** [http.Request]: [MediaType] is the media type of the Content-Type header as
    [mime.ParseMediaType] returns it, [Body] the body, if it is not nil, [Header] the
    header fields that occur, [Cookies] what [r.Cookies()] returns, as names and values,
    [PathValues] the wildcards of the pattern that matched, and [TLS] whether the
    connection has a TLS state. *)
Record HTTPRequest := mkHTTPRequest {
  HTTPRequest_Method : string;
  HTTPRequest_URL : URL;
  HTTPRequest_MediaType : outcome string;
  HTTPRequest_Body : option string;
  HTTPRequest_RemoteAddr : string;
  HTTPRequest_Header : list (string * string);
  HTTPRequest_Cookies : list (string * string);
  HTTPRequest_PathValues : list (string * string);
  HTTPRequest_TLS : bool
}.

Definition url_Values := list (string * string).

Definition form_query (query : string) : outcome url_Values :=
  let '(values, ok) := ParseQuery query in
  if ok : bool then Ret values else Err (Sentinel "url.EscapeError").

(** The form in the body, which is an error if a form is longer than the limit. *)
Definition body_form (limit : Z) (too_large : error) (r : HTTPRequest) : outcome url_Values :=
  match HTTPRequest_Body r with
  | None => Ret []
  | Some body =>
      mediaType ← HTTPRequest_MediaType r;
      if mediaType == "application/x-www-form-urlencoded" then
        _ ← raise_if (limit <? Z.of_nat (String.length body))%Z too_large;
        form_query body
      else Ret []
  end.

(** [PostForm] of a POST after [r.Body = http.MaxBytesReader(nil, r.Body, limit)] and
    [r.ParseForm()]. *)
Definition ParseForm (limit : Z) (r : HTTPRequest) : outcome url_Values :=
  postForm ← body_form limit (Sentinel "http.MaxBytesError") r;
  _ ← form_query (URL_RawQuery (HTTPRequest_URL r));
  Ret postForm.

(** [PostForm] after [r.ParseForm()] alone, whose limit is 10 MiB. *)
Definition ParseForm_default (r : HTTPRequest) : outcome url_Values :=
  postForm ←
    (if bool_decide (HTTPRequest_Method r ∈ ["POST"; "PUT"; "PATCH"]) then
       body_form (10 * 2 ^ 20) (Errorf "http: POST too large" []) r
     else Ret []);
  _ ← form_query (URL_RawQuery (HTTPRequest_URL r));
  Ret postForm.

(** [netip.Addr] *)
Record Addr := mkAddr { Addr_bytes : string; Addr_Zone : string }.

#[export] Instance Addr_eq_dec : EqDecision Addr.
Proof. solve_decision. Defined.

Definition WithZone (zone : string) (a : Addr) : Addr := mkAddr (Addr_bytes a) zone.

Class NetOps := {
  SplitHostPort : string → outcome (string * string);
  ParseAddr : string → outcome Addr;
  Addr_String : Addr → string
}.

(** [r.Header.Get(key)] for a key in canonical form. *)
Definition Header_Get (key : string) (r : HTTPRequest) : string :=
  values_Get (HTTPRequest_Header r) key.

(** [r.PathValue(name)] *)
Definition PathValue (name : string) (r : HTTPRequest) : string :=
  values_Get (HTTPRequest_PathValues r) name.

Definition http_ErrNoCookie := Sentinel "http.ErrNoCookie".

(** [r.Cookie(name)], of which only the value is known. *)
Definition request_Cookie (name : string) (r : HTTPRequest) : outcome string :=
  if name == "" then Err http_ErrNoCookie
  else or_err (snd <$> first_that (λ c, c.1 == name) (HTTPRequest_Cookies r)) http_ErrNoCookie.

(** The [PostForm] of a POST whose form has been parsed, under any limit: if the
    form was shorter than the limit, it is this one. *)
Definition PostForm (r : HTTPRequest) : url_Values :=
  match ParseForm_default r with Ret form => form | _ => [] end.

(** ** Redirects *)

(** A step of [path.Clean] over the segments of a path; the last segment kept comes first. *)
Definition clean_step (rooted : bool) (kept : list string) (segment : string) : list string :=
  if (segment == "") || (segment == ".") then kept
  else if segment == ".." then
    match kept with
    | last :: rest => if last == ".." then ".." :: kept else rest
    | [] => if rooted then [] else [".."]
    end
  else segment :: kept.

Definition path_Clean (path : string) : string :=
  let rooted := has_prefix path "/" in
  let body := String.concat "/" (reverse (foldl (clean_step rooted) [] (Split "/" path))) in
  if rooted then "/" +++ body else if body == "" then "." else body.

(** [dir, _ := path.Split(path)] *)
Fixpoint path_dir (path : string) : string :=
  match path with
  | "" => ""
  | String c rest => if has_byte "/" path then String c (path_dir rest) else ""
  end.

(** [hexEscapeNonASCII] of [net/http] *)
Fixpoint hexEscapeNonASCII (s : string) : string :=
  match s with
  | "" => ""
  | String c rest =>
      (if (N_of_ascii c <? 128)%N then String c "" else "%" +++ hex_string (String c "")) +++ hexEscapeNonASCII rest
  end.

(** The path of a relative URL, joined to that of the request and cleaned, with its query. *)
Definition clean_target (oldpath url : string) : string :=
  let url := if has_prefix url "/" then url else path_dir (if oldpath == "" then "/" else oldpath) +++ url in
  let '(path, query, found) := Cut "?" url in
  let cleaned := path_Clean path in
  (if has_suffix_byte "/" path && negb (has_suffix_byte "/" cleaned) then cleaned +++ "/" else cleaned)
    +++ (if found then "?" +++ query else "").

(** The Location that [http.Redirect(w, r, url, code)] sets. *)
Definition redirect_location `{UrlI : UrlOps} (r : HTTPRequest) (url : string) : string :=
  hexEscapeNonASCII
    match url_Parse url with
    | Ret u =>
        if (URL_Scheme u == "") && (URL_Host u == "") then clean_target (URL_Path (HTTPRequest_URL r)) url
        else url
    | _ => url
    end.

Definition http_Redirect {W} `{UrlI : UrlOps} (r : HTTPRequest) (url : string) (code : Z) : IO W () :=
  emit (HttpRedirect (redirect_location r url) code).

(** *** Cleaned paths *)

(** What may follow the slash of a path that browsers do not take for a host. *)
Definition no_host (s : string) : Prop := has_prefix s "/" = false ∧ has_prefix s "\" = false.

Definition local_path (url : string) : Prop := ∃ rest, url = "/" +++ rest ∧ no_host rest.

Lemma no_host_first c s : no_host (String c s) ↔ c ≠ "/"%char ∧ c ≠ "\"%char.
Proof.
  unfold no_host, has_prefix. cbn [String.prefix]. destruct (ascii_dec "/" c), (ascii_dec "\" c), s; naive_solver.
Qed.

Lemma no_host_append s t : no_host s → no_host t → no_host (s +++ t).
Proof. destruct s as [|c s]; [done|]. simpl. by rewrite !no_host_first. Qed.

Lemma no_host_more s t : s ≠ "" → no_host s → no_host (s +++ t).
Proof. destruct s as [|c s]; [done|]. simpl. by rewrite !no_host_first. Qed.

Lemma no_host_hexEscape s : no_host s → no_host (hexEscapeNonASCII s).
Proof.
  destruct s as [|c s]; [done|]. simpl. rewrite no_host_first. intros H.
  destruct (N_of_ascii c <? 128)%N; simpl; rewrite no_host_first; [done|]. split; discriminate.
Qed.

(** A segment of a cleaned path. *)
Definition segment_ok (s : string) : Prop := s ≠ "" ∧ no_host s.

Lemma segment_no_host s : has_byte "/" s = false → has_byte "\" s = false → no_host s.
Proof.
  destruct s as [|c s]; [done|]. simpl. rewrite no_host_first.
  intros [H1%Ascii.eqb_neq _]%orb_false_iff [H2%Ascii.eqb_neq _]%orb_false_iff. done.
Qed.

Lemma clean_segments rooted parts kept :
  Forall (λ s, has_byte "/" s = false) parts → Forall (λ s, has_byte "\" s = false) parts →
  Forall segment_ok kept → Forall segment_ok (foldl (clean_step rooted) kept parts).
Proof.
  revert kept. induction parts as [|s parts IH]; intros kept H1 H2 Hk; [done|].
  apply Forall_cons in H1 as [Hs1 H1], H2 as [Hs2 H2]. simpl. apply IH; [done..|]. unfold clean_step.
  destruct (bool_decide (s = "")) eqn:E; [done|]. simpl. destruct (s == "."); [done|].
  assert (Hdots : segment_ok "..") by by split.
  destruct (s == ".."); [destruct kept as [|last rest]|].
  - destruct rooted; [constructor|by repeat constructor].
  - destruct (last == ".."); [by constructor|by inversion Hk].
  - constructor; [|done]. split; [by apply bool_decide_eq_false in E|by apply segment_no_host].
Qed.

Lemma concat_no_host sep l : Forall segment_ok l → no_host (String.concat sep l).
Proof.
  intros H. destruct l as [|s [|t l]]; [done| |]; apply Forall_cons in H as [[H0 Hs] _]; [done|]. by apply no_host_more.
Qed.

Lemma path_Clean_local path : has_prefix path "/" = true → has_byte "\" path = false → local_path (path_Clean path).
Proof.
  intros Hp Hb. unfold path_Clean. rewrite Hp. eexists. split; [done|]. apply concat_no_host, Forall_reverse, clean_segments;
    [apply Split_sep|by apply Split_byte|constructor].
Qed.

(** A path without a backslash leads to such a path. *)
Lemma clean_target_local oldpath url : has_prefix url "/" = true → has_byte "\" url = false →
  local_path (clean_target oldpath url).
Proof.
  intros Hp Hb. unfold clean_target. rewrite Hp. destruct (Cut "?" url) as [[path query] found] eqn:E.
  apply Cut_parts in E. subst url.
  assert (Hpath : has_prefix path "/" = true).
  { apply has_prefix_spec in Hp as [t Ht]. apply has_prefix_spec.
    destruct path as [|c path]; [by destruct found|]. injection Ht as -> _. by exists path. }
  rewrite has_byte_append in Hb. apply orb_false_iff in Hb as [Hb _].
  destruct (path_Clean_local path Hpath Hb) as (rest & -> & Hrest).
  assert (Hq : no_host (if found then "?" +++ query else "")) by (by destruct found).
  destruct (_ && _) eqn:Hs; [|exists (rest +++ (if found then "?" +++ query else "")); split; [done|by apply no_host_append]].
  exists ((rest +++ "/") +++ (if found then "?" +++ query else "")). split; [by simpl; rewrite append_assoc|].
  destruct (decide (rest = "")) as [->|Hne]; [by rewrite andb_false_r in Hs|].
  destruct rest as [|c rest]; [done|]. simpl. by rewrite no_host_first in Hrest |- *.
Qed.

(** ** The HTTP client *)

(** The request that [http.NewRequestWithContext] makes, and its headers. *)
Record ClientRequest := mkClientRequest {
  ClientRequest_Method : string;
  ClientRequest_URL : URL;
  ClientRequest_Header : list (string * string);
  ClientRequest_Body : string
}.

(** The response to it: [Response_ReadAll n] is [io.ReadAll] of its body through an
    [io.LimitReader] of [n] bytes. *)
Record ClientResponse (W : Type) := mkClientResponse {
  Response_StatusCode : Z;
  Response_StatusText : string;
  Response_ReadAll : Z → Effect W string;
  Response_Close : Effect W ()
}.
Arguments mkClientResponse {W}.
Arguments Response_StatusCode {W}.
Arguments Response_StatusText {W}.
Arguments Response_ReadAll {W}.
Arguments Response_Close {W}.

Class HttpOps (W : Type) := {
  http_DefaultClient : HTTPClient;
  Client_Do : HTTPClient → ClientRequest → Effect W (ClientResponse W)
}.

(** [http.NewRequestWithContext(ctx, method, location, bytes.NewReader(body))] with a
    valid method; an empty port is removed from the host. *)
Definition NewRequest `{UrlI : UrlOps} (method location body : string) : outcome ClientRequest :=
  u ← url_Parse location;
  let u := mkURL (URL_Scheme u) (URL_Opaque u) (URL_User u) (trim_suffix_byte ":" (URL_Host u))
             (URL_Path u) (URL_RawPath u) (URL_RawQuery u) (URL_Fragment u) in
  Ret (mkClientRequest method u [] body).

(** ** Forms and encryption *)

(** The [IdpAuthnRequestForm] of [src/identity_provider.go]. *)
Record IdpAuthnRequestForm := mkIdpAuthnRequestForm {
  Form_URL : string;
  Form_SAMLResponse : string;
  Form_RelayState : string
}.

(** What [xmlenc.OAEP()] with the given block cipher and SHA-1 digests promises:
    the element of the plaintext encrypted to the certificate's key. *)
Class EncryptOps (W : Type) := {
  OAEP_Encrypt : BlockCipher → Certificate → string → Effect W Element
}.

(** [tmpl.Execute] of the default template. *)
Class TemplateOps := {
  defaultResponseFormTemplate : IdpAuthnRequestForm → outcome string
}.

(** [tmpl.Execute] of the "saml-post-form" templates: the parameter with the
    message, the URL, the encoded message and the relay state. *)
Class PostFormOps := {
  saml_post_form : string → string → string → string → outcome string
}.

(** ** Reasoning *)

Section io_facts.
Context {W : Type}.

Lemma io_bind_ret {A B} (m : IO W A) (f : A → IO W B) s s' b :
  (m ≫= f) s = (s', Ret b) ↔ ∃ s1 a, m s = (s1, Ret a) ∧ f a s1 = (s', Ret b).
Proof.
  unfold mbind, IO_bind. destruct (m s) as [s1 [a|e|]]; naive_solver.
Qed.

Lemma on_result_ret {A B} (m : IO W A) (k : A → IO W B) h s s' b :
  on_result m k h s = (s', Ret b) ↔
  (∃ s1 a, m s = (s1, Ret a) ∧ k a s1 = (s', Ret b)) ∨
  (∃ s1 e, m s = (s1, Err e) ∧ h e s1 = (s', Ret b)).
Proof. unfold on_result. destruct (m s) as [s1 [a|e|]]; naive_solver. Qed.

Lemma lift_ret {A} (o : outcome A) (s s' : St W) a :
  lift o s = (s', Ret a) ↔ s' = s ∧ o = Ret a.
Proof. unfold lift. naive_solver. Qed.

Lemma io_lift_bind {A B} (o : outcome A) (f : A → IO W B) s s' b :
  (lift o ≫= f) s = (s', Ret b) ↔ ∃ a, o = Ret a ∧ f a s = (s', Ret b).
Proof.
  rewrite io_bind_ret. setoid_rewrite lift_ret. naive_solver.
Qed.

Lemma io_guard_bind {B} c e (f : () → IO W B) s s' b :
  (lift (raise_if c e) ≫= f) s = (s', Ret b) ↔ c = false ∧ f () s = (s', Ret b).
Proof.
  rewrite io_lift_bind. split.
  - by intros ([] & ?%raise_if_ret & ?).
  - intros [-> ?]. by exists ().
Qed.

Lemma on_result_fail_ret {A} (m : IO W A) (g : error → error) s s' a :
  on_result m mret (λ e, lift (Err (g e))) s = (s', Ret a) ↔ m s = (s', Ret a).
Proof. rewrite on_result_ret. unfold mret, IO_ret, lift. naive_solver. Qed.

(** [Q] holds of the events that [m] adds and of its outcome. *)
Definition writes {A} (m : IO W A) (Q : list Event → outcome A → Prop) : Prop :=
  ∀ s, ∃ new, (m s).1.2 = (s.2 ++ new)%list ∧ Q new (m s).2.

(** A computation that adds no events. *)
Definition quiet {A} (m : IO W A) : Prop := writes m (λ new _, new = []).

Lemma writes_run {A} (m : IO W A) Q :
  writes m Q → writes m (λ new o, Q new o ∧ ∃ s s', m s = (s', o)).
Proof.
  intros Hm s. destruct (Hm s) as (new & ? & ?). exists new. split_and!; [done..|].
  exists s, (m s).1. by destruct (m s).
Qed.

Lemma writes_weaken {A} (m : IO W A) (Q R : list Event → outcome A → Prop) :
  writes m Q → (∀ new o, Q new o → R new o) → writes m R.
Proof. intros Hm HR s. destruct (Hm s) as (new & ? & ?). eauto. Qed.

Lemma writes_ret {A} (a : A) (Q : list Event → outcome A → Prop) :
  Q [] (Ret a) → writes (mret a) Q.
Proof. intros HQ s. exists []. by rewrite app_nil_r. Qed.

Lemma writes_lift {A} (o : outcome A) (Q : list Event → outcome A → Prop) :
  Q [] o → writes (lift o) Q.
Proof. intros HQ s. exists []. by rewrite app_nil_r. Qed.

Lemma writes_emit e (Q : list Event → outcome () → Prop) : Q [e] (Ret ()) → writes (emit e) Q.
Proof. intros HQ [w l]. by exists [e]. Qed.

Lemma writes_bind {A B} (m : IO W A) (f : A → IO W B) R (Q : list Event → outcome B → Prop) :
  writes m R →
  (∀ new a, R new (Ret a) → writes (f a) (λ new' o, Q (new ++ new')%list o)) →
  (∀ new e, R new (Err e) → Q new (Err e)) →
  (∀ new, R new Panic → Q new Panic) →
  writes (m ≫= f) Q.
Proof.
  intros Hm Hret Herr Hpanic s. destruct (Hm s) as (new & Hnew & HR).
  unfold mbind, IO_bind. destruct (m s) as [s1 [a|e|]]; simpl in *; [|by exists new; auto..].
  destruct (Hret new a HR s1) as (new' & Hnew' & HQ). exists (new ++ new')%list.
  rewrite Hnew', Hnew, app_assoc. done.
Qed.

Lemma writes_on_result {A B} (m : IO W A) (k : A → IO W B) h R (Q : list Event → outcome B → Prop) :
  writes m R →
  (∀ new a, R new (Ret a) → writes (k a) (λ new' o, Q (new ++ new')%list o)) →
  (∀ new e, R new (Err e) → writes (h e) (λ new' o, Q (new ++ new')%list o)) →
  (∀ new, R new Panic → Q new Panic) →
  writes (on_result m k h) Q.
Proof.
  intros Hm Hret Herr Hpanic s. destruct (Hm s) as (new & Hnew & HR).
  unfold on_result. destruct (m s) as [s1 [a|e|]]; simpl in *; [..|by exists new; auto].
  - destruct (Hret new a HR s1) as (new' & Hnew' & HQ). exists (new ++ new')%list.
    rewrite Hnew', Hnew, app_assoc. done.
  - destruct (Herr new e HR s1) as (new' & Hnew' & HQ). exists (new ++ new')%list.
    rewrite Hnew', Hnew, app_assoc. done.
Qed.

Lemma quiet_ret {A} (a : A) : quiet (mret a).
Proof. by apply writes_ret. Qed.

Lemma quiet_lift {A} (o : outcome A) : quiet (lift o).
Proof. by apply writes_lift. Qed.

Lemma quiet_reads {A} (f : W → W * A) : quiet (reads f).
Proof. intros [w l]. exists []. unfold reads. destruct (f w). by rewrite app_nil_r. Qed.

Lemma quiet_bind {A B} (m : IO W A) (f : A → IO W B) :
  quiet m → (∀ a, quiet (f a)) → quiet (m ≫= f).
Proof. intros Hm Hf. eapply writes_bind; [exact Hm| |done|done]. intros new a ->. apply Hf. Qed.

Lemma quiet_on_result {A B} (m : IO W A) (k : A → IO W B) h :
  quiet m → (∀ a, quiet (k a)) → (∀ e, quiet (h e)) → quiet (on_result m k h).
Proof.
  intros Hm Hk Hh. eapply writes_on_result; [exact Hm|intros new a ->; apply Hk| |done].
  intros new e ->. apply Hh.
Qed.

Lemma writes_quiet_bind {A B} (m : IO W A) (f : A → IO W B) (Q : list Event → outcome B → Prop) :
  quiet m →
  (∀ a s s', m s = (s', Ret a) → writes (f a) Q) → (∀ e, Q [] (Err e)) → Q [] Panic →
  writes (m ≫= f) Q.
Proof.
  intros Hm Hf He Hp. eapply writes_bind; [apply writes_run, Hm|..].
  - intros new a [-> (s & s' & E)]. by eapply Hf.
  - by intros new e [-> _].
  - by intros new [-> _].
Qed.

Lemma writes_quiet_on_result {A B} (m : IO W A) (k : A → IO W B) h (Q : list Event → outcome B → Prop) :
  quiet m →
  (∀ a s s', m s = (s', Ret a) → writes (k a) Q) →
  (∀ e s s', m s = (s', Err e) → writes (h e) Q) → Q [] Panic →
  writes (on_result m k h) Q.
Proof.
  intros Hm Hk Hh Hp. eapply writes_on_result; [apply writes_run, Hm|..].
  - intros new a [-> (s & s' & E)]. by eapply Hk.
  - intros new e [-> (s & s' & E)]. by eapply Hh.
  - by intros new [-> _].
Qed.

Lemma writes_reads_bind {A B} (f : W → W * A) (k : A → IO W B) (Q : list Event → outcome B → Prop) :
  (∀ a, writes (k a) Q) → writes (reads f ≫= k) Q.
Proof.
  intros Hk [w l]. unfold mbind, IO_bind, reads. destruct (f w) as [w' a]. apply (Hk a (w', l)).
Qed.

Lemma writes_ret_bind {A B} (a : A) (k : A → IO W B) (Q : list Event → outcome B → Prop) :
  writes (k a) Q → writes (mret a ≫= k) Q.
Proof. done. Qed.

Lemma writes_emit_bind {B} e (k : () → IO W B) (Q : list Event → outcome B → Prop) :
  writes (k ()) (λ new o, Q (e :: new) o) → writes (emit e ≫= k) Q.
Proof.
  intros Hk. eapply (writes_bind _ _ (λ new o, new = [e] ∧ o = Ret ())); [by apply writes_emit|..].
  - by intros new [] [-> _].
  - by intros new x [_ ?].
  - by intros new [_ ?].
Qed.

Lemma quiet_effect {A} (f : Effect W A) : quiet (effect f).
Proof. apply quiet_bind; [apply quiet_reads|intros; apply quiet_lift]. Qed.

Lemma quiet_events {A} (m : IO W A) s s' o : quiet m → m s = (s', o) → s'.2 = s.2.
Proof. intros Hm E. destruct (Hm s) as (new & Hnew & ->). by rewrite E, app_nil_r in Hnew. Qed.
End io_facts.

#[export] Hint Resolve quiet_ret quiet_lift quiet_reads quiet_bind quiet_on_result quiet_effect : go.

(** Proves that a computation adds no events. *)
Ltac solve_quiet :=
  repeat first
    [ assumption
    | progress intros
    | apply quiet_ret | apply quiet_lift | apply quiet_reads | apply quiet_effect
    | apply quiet_bind | apply quiet_on_result
    | solve [auto with go]
    | match goal with
      | |- quiet (if ?b then _ else _) => destruct b
      | |- quiet (match ?x with _ => _ end) => destruct x
      | |- quiet (let '_ := ?x in _) => destruct x
      end ].

(** Turns [... = (_, Ret _)] hypotheses about handlers into facts about their
    steps. *)
Ltac io_inv :=
  repeat match goal with
  | H : _ ∧ _ |- _ => destruct H
  | H : ∃ _, _ |- _ => destruct H
  | u : () |- _ => destruct u
  | H : (_ ≫= _) _ = (_, Ret _) |- _ => rewrite io_bind_ret in H
  | H : lift _ _ = (_, Ret _) |- _ => rewrite lift_ret in H
  end; go_inv.
