(* ===== verification/Store.v ===== *)
(** * Store: [store.go] and [memory_store.go] of [src/samlidp]

    The key-value store of the identity provider server: the interface [Store],
    what it promises ([StoreLaws]), and the implementation [MemoryStore], whose
    map may be nil.  Values are stored as their JSON texts. *)

From stdpp Require Import base option list gmap strings sets.
From Stdlib Require Import ZArith Lia Ascii.
From S2P Require Import Prelude Go Encoding Etree Env Http.

Open Scope string_scope.

(** ** Interfaces *)

(** [json.Marshal], [json.Unmarshal] into the zero value, and the [Decode] of a
    decoder, which reads one value and ignores what follows; and whether a value
    has a text that is read back, as one whose strings are valid UTF-8 has. *)
Class Json (A : Type) := {
  json_Marshal : A → outcome string;
  json_Unmarshal : string → outcome A;
  json_Decode : string → outcome A;
  json_exact : A → bool;
  json_roundtrip a s : json_exact a = true → json_Marshal a = Ret s → json_Unmarshal s = Ret a
}.

Definition ErrNotFound := Sentinel "samlidp.ErrNotFound".

Class Store (W : Type) := {
  Store_Get {A : Type} `{JsonA : Json A} : string → Effect W A;
  Store_Put {A : Type} `{JsonA : Json A} : string → A → Effect W ();
  Store_Delete : string → Effect W ();
  Store_List : string → Effect W (list string)
}.

(** A failure of the store that is not the absence of a key. *)
Definition store_failure (e : error) : Prop := e ≠ ErrNotFound ∧ errors_Is e ErrNotFound = false.

(** The keys with the prefix, without it. *)
Definition keys_with {A} (prefix : string) (m : gmap string A) : list string :=
  omap (cut_prefix prefix) (map_to_list m).*1.

(** What a [Store] promises: it holds a text for each key. An operation does what
    it says or fails without an effect. *)
Class StoreLaws (W : Type) `{StoreI : Store W} := {
  contents : W → gmap string string;
  Get_law A (J : Json A) key w w' (o : outcome A) : Store_Get key w = (w', o) →
    contents w' = contents w ∧
    (o = match contents w !! key with Some s => json_Unmarshal s | None => Err ErrNotFound end ∨
     ∃ e, o = Err e ∧ store_failure e);
  Put_law A (J : Json A) key (a : A) w w' o : Store_Put key a w = (w', o) →
    match o with
    | Ret _ => ∃ s, json_Marshal a = Ret s ∧ contents w' = <[key := s]> (contents w)
    | _ => contents w' = contents w
    end;
  Delete_law key w w' o : Store_Delete key w = (w', o) →
    match o with
    | Ret _ => contents w' = delete key (contents w)
    | _ => contents w' = contents w
    end;
  List_law prefix w w' o : Store_List prefix w = (w', o) →
    contents w' = contents w ∧
    match o with
    | Ret names => names ≡ₚ keys_with prefix (contents w)
    | Err e => store_failure e
    | Panic => False
    end
}.

(** ** MemoryStore *)

(** The fields of the struct; the operations hold [mu] throughout. *)
Record MemoryStore := mkMemoryStore { MemoryStore_data : option (gmap string string) }.

(** [data[key]]; a nil map has no keys. *)
Definition memory_lookup (s : MemoryStore) (key : string) : option string :=
  MemoryStore_data s ≫= λ m, m !! key.

Definition memory_Get {A} `{JsonA : Json A} (key : string) (s : MemoryStore) : outcome A :=
  v ← or_err (memory_lookup s key) ErrNotFound;
  json_Unmarshal v.

Definition memory_Put {A} `{JsonA : Json A} (key : string) (value : A) (s : MemoryStore)
    : MemoryStore * outcome () :=
  let data := default ∅ (MemoryStore_data s) in
  match json_Marshal value with
  | Ret buf => (mkMemoryStore (Some (<[key := buf]> data)), Ret ())
  | Err e => (mkMemoryStore (Some data), Err e)
  | Panic => (mkMemoryStore (Some data), Panic)
  end.

Definition memory_Delete (key : string) (s : MemoryStore) : MemoryStore * outcome () :=
  (mkMemoryStore (delete key <$> MemoryStore_data s), Ret ()).

(** [keys] are those of the map in the order in which [range] visits them. *)
Definition memory_List (prefix : string) (keys : list string) : outcome (list string) :=
  Ret (map (λ k, default k (cut_prefix prefix k)) (filter (λ k, has_prefix k prefix = true) keys)).

Definition memory_keys (s : MemoryStore) : list string :=
  match MemoryStore_data s with Some m => (map_to_list m).*1 | None => [] end.

(** The order in which the runtime ranges over a map with the given keys. *)
Class MapRange (W : Type) := {
  map_range : list string → W → W * list string;
  map_range_perm keys w : (map_range keys w).2 ≡ₚ keys
}.

(** A world with a [MemoryStore] in it. *)
Record MemoryWorld (W : Type) := mkMemoryWorld { mw_store : MemoryStore; mw_world : W }.
Arguments mkMemoryWorld {W}.
Arguments mw_store {W}.
Arguments mw_world {W}.

Section memory.
Context {W : Type}.

(** A function on the world around the store. *)
Definition mw_lift {A} (f : W → W * A) (w : MemoryWorld W) : MemoryWorld W * A :=
  let '(w', a) := f (mw_world w) in (mkMemoryWorld (mw_store w) w', a).

(** A function on the store. *)
Definition on_store {A} (f : MemoryStore → MemoryStore * A) (w : MemoryWorld W) : MemoryWorld W * A :=
  let '(s, a) := f (mw_store w) in (mkMemoryWorld s (mw_world w), a).

#[export] Instance memory_world `{WorldI : World W} : World (MemoryWorld W) := {|
  TimeNow_ := mw_lift TimeNow_;
  SystemNow := mw_lift SystemNow;
  Clock := mw_lift <$> Clock;
  RandReader n := mw_lift (RandReader n);
  ResponseWrite s := mw_lift (ResponseWrite s)
|}.

#[export] Instance memory_store `{RangeI : MapRange W} : Store (MemoryWorld W) := {|
  Store_Get _ _ key w := (w, memory_Get key (mw_store w));
  Store_Put _ _ key a := on_store (memory_Put key a);
  Store_Delete key := on_store (memory_Delete key);
  Store_List prefix w :=
    let '(w, keys) := mw_lift (map_range (memory_keys (mw_store w))) w in
    (w, memory_List prefix keys)
|}.
End memory.

(** ** Sequences of operations *)

(** The operations on values of one type and their results. *)
Inductive store_op (A : Type) :=
  | OpGet (key : string)
  | OpPut (key : string) (value : A)
  | OpDelete (key : string)
  | OpList (prefix : string).
Arguments OpGet {A}.
Arguments OpPut {A}.
Arguments OpDelete {A}.
Arguments OpList {A}.

Inductive store_result (A : Type) :=
  | GetResult (o : outcome A)
  | UnitResult (o : outcome ())
  | ListResult (o : outcome (list string)).
Arguments GetResult {A}.
Arguments UnitResult {A}.
Arguments ListResult {A}.

Definition run_op {W A} `{StoreI : Store W} `{JsonA : Json A} (op : store_op A) (w : W)
    : W * store_result A :=
  match op with
  | OpGet key => let '(w, o) := Store_Get key w in (w, GetResult o)
  | OpPut key value => let '(w, o) := Store_Put key value w in (w, UnitResult o)
  | OpDelete key => let '(w, o) := Store_Delete key w in (w, UnitResult o)
  | OpList prefix => let '(w, o) := Store_List prefix w in (w, ListResult o)
  end.

Fixpoint run_ops {W A} `{StoreI : Store W} `{JsonA : Json A} (ops : list (store_op A)) (w : W)
    : W * list (store_result A) :=
  match ops with
  | [] => (w, [])
  | op :: ops =>
      let '(w, r) := run_op op w in
      let '(w, rs) := run_ops ops w in (w, r :: rs)
  end.

(** The specification: a finite map from keys to values. *)
Inductive map_step {A} (m : gmap string A) : store_op A → gmap string A → store_result A → Prop :=
  | map_get key : map_step m (OpGet key) m (GetResult (or_err (m !! key) ErrNotFound))
  | map_put key value : map_step m (OpPut key value) (<[key := value]> m) (UnitResult (Ret ()))
  | map_delete key : map_step m (OpDelete key) (delete key m) (UnitResult (Ret ()))
  | map_list prefix names : names ≡ₚ keys_with prefix m →
      map_step m (OpList prefix) m (ListResult (Ret names)).

Inductive map_steps {A} : gmap string A → list (store_op A) → gmap string A → list (store_result A) → Prop :=
  | map_steps_nil m : map_steps m [] m []
  | map_steps_cons m op m1 r ops m2 rs :
      map_step m op m1 r → map_steps m1 ops m2 rs → map_steps m (op :: ops) m2 (r :: rs).

(** ** MemoryStore keeps its promises *)

Lemma cut_prefix_Some p s t : cut_prefix p s = Some t ↔ s = p +++ t.
Proof.
  revert s. induction p as [|c p IH]; intros s; simpl; [naive_solver|].
  destruct s as [|d s]; [done|]. destruct (Ascii.eqb_spec c d) as [->|Hn].
  - rewrite IH. naive_solver.
  - naive_solver.
Qed.

Lemma has_prefix_cut s p : has_prefix s p = true ↔ is_Some (cut_prefix p s).
Proof.
  rewrite has_prefix_spec. split.
  - intros [t ->]. exists t. by apply cut_prefix_Some.
  - intros [t ->%cut_prefix_Some]. eauto.
Qed.

Lemma memory_List_spec prefix keys : memory_List prefix keys = Ret (omap (cut_prefix prefix) keys).
Proof.
  unfold memory_List. f_equal. induction keys as [|k keys IH]; [done|].
  rewrite filter_cons. cbn [omap list_omap].
  destruct (cut_prefix prefix k) as [t|] eqn:E; destruct (decide _) as [Hd|Hd].
  - cbn [map]. rewrite E, IH. done.
  - destruct Hd. apply has_prefix_cut. by eexists.
  - apply has_prefix_cut in Hd as [? ?]. congruence.
  - done.
Qed.

Lemma keys_with_fmap {A B} (f : A → B) prefix (m : gmap string A) :
  keys_with prefix (f <$> m) ≡ₚ keys_with prefix m.
Proof.
  unfold keys_with. apply omap_Permutation. rewrite map_to_list_fmap.
  rewrite <- list_fmap_compose. by apply Permutation_refl'.
Qed.

Section memory_laws.
Context {W : Type} `{RangeI : MapRange W}.

Definition memory_contents (w : MemoryWorld W) : gmap string string :=
  default ∅ (MemoryStore_data (mw_store w)).

Lemma memory_lookup_contents w key : memory_lookup (mw_store w) key = memory_contents w !! key.
Proof. unfold memory_lookup, memory_contents. destruct (MemoryStore_data _); [done|cbn; by rewrite lookup_empty]. Qed.

Lemma memory_Get_spec A (J : Json A) key w :
  Store_Get (A := A) key w
  = (w, match memory_contents w !! key with Some s => json_Unmarshal s | None => Err ErrNotFound end).
Proof.
  simpl. unfold memory_Get. rewrite memory_lookup_contents. by destruct (memory_contents w !! key).
Qed.

Lemma memory_Put_spec A (J : Json A) key (a : A) w w' o : Store_Put key a w = (w', o) →
  o = (_ ← json_Marshal a; Ret ()) ∧
  memory_contents w' = match json_Marshal a with Ret s => <[key := s]> (memory_contents w) | _ => memory_contents w end.
Proof.
  simpl. unfold on_store, memory_Put. destruct (json_Marshal a); intros [= <- <-]; done.
Qed.

Lemma memory_Delete_spec key w :
  ∃ w', Store_Delete key w = (w', Ret ()) ∧ memory_contents w' = delete key (memory_contents w).
Proof.
  eexists. split; [done|]. unfold memory_contents. simpl.
  destruct (MemoryStore_data _); cbn; [done|by rewrite delete_empty].
Qed.

Lemma memory_List_law prefix w w' o : Store_List prefix w = (w', o) →
  memory_contents w' = memory_contents w ∧
  ∃ names, o = Ret names ∧ names ≡ₚ keys_with prefix (memory_contents w).
Proof.
  simpl. unfold mw_lift. pose proof (map_range_perm (memory_keys (mw_store w)) (mw_world w)) as Hp.
  destruct (map_range _ _) as [v keys]. rewrite memory_List_spec. intros [= <- <-].
  split; [done|]. eexists. split; [done|]. simpl in Hp. rewrite Hp.
  unfold keys_with, memory_keys, memory_contents. by destruct (MemoryStore_data _).
Qed.

#[export] Program Instance memory_laws : StoreLaws (MemoryWorld W) := {| contents := memory_contents |}.
Next Obligation. intros A J key w w' o. rewrite memory_Get_spec. intros [= <- <-]. auto. Qed.
Next Obligation.
  intros A J key a w w' o [-> Hc]%memory_Put_spec.
  destruct (json_Marshal a) as [s| |]; cbn; [eexists; split; [done|exact Hc]|done..].
Qed.
Next Obligation.
  intros key w w' o. destruct (memory_Delete_spec key w) as (w1 & -> & Hc). by intros [= <- <-].
Qed.
Next Obligation. by intros prefix w w' o [? (names & -> & ?)]%memory_List_law. Qed.

(** ** Refinement *)

Context {A : Type} `{JsonA : Json A}.

(** The texts in the store are those of the values in the map. *)
Definition represents (w : MemoryWorld W) (m : gmap string A) : Prop :=
  json_Unmarshal <$> memory_contents w = Ret <$> m.

(** A value that is put has a text that is read back. *)
Definition storable (op : store_op A) : Prop :=
  match op with OpPut _ a => json_exact a = true ∧ ∃ s, json_Marshal a = Ret s | _ => True end.

Lemma represents_keys w m prefix : represents w m →
  keys_with prefix (memory_contents w) ≡ₚ keys_with prefix m.
Proof.
  intros H. rewrite <- (keys_with_fmap json_Unmarshal), H. apply keys_with_fmap.
Qed.

Lemma represents_lookup w m key : represents w m →
  match memory_contents w !! key with Some s => json_Unmarshal s | None => Err ErrNotFound end
  = or_err (m !! key) ErrNotFound.
Proof.
  intros H. assert (Hk := f_equal (λ n, n !! key) H). simpl in Hk. rewrite !lookup_fmap in Hk.
  destruct (memory_contents w !! key), (m !! key); by simplify_eq/=.
Qed.

(** One operation of the store is one of the specification. *)
Lemma memory_simulates op w w' r m : represents w m → storable op →
  run_op op w = (w', r) → ∃ m', map_step m op m' r ∧ represents w' m'.
Proof.
  intros Hw Hop. unfold run_op. destruct op as [key|key a|key|prefix].
  - rewrite memory_Get_spec, (represents_lookup w m) by done. intros [= <- <-].
    exists m. split; [constructor|done].
  - destruct Hop as (Hx & s & Hs). destruct (Store_Put key a w) as [w1 o] eqn:E. intros [= <- <-].
    apply memory_Put_spec in E as [-> Hc]. rewrite Hs in *. exists (<[key:=a]> m). split; [constructor|].
    unfold represents. rewrite Hc, !fmap_insert, Hw. by rewrite (json_roundtrip a s).
  - destruct (memory_Delete_spec key w) as (w1 & E & Hc). rewrite E. intros [= <- <-].
    exists (delete key m). split; [constructor|]. unfold represents. by rewrite Hc, !fmap_delete, Hw.
  - destruct (Store_List prefix w) as [w1 o] eqn:E. intros [= <- <-].
    apply memory_List_law in E as [Hc (names & -> & Hn)]. exists m.
    split; [|unfold represents; by rewrite Hc]. constructor. by rewrite Hn, (represents_keys w m).
Qed.
End memory_laws.

(** C37: refinement. Whatever operations are performed on a [MemoryStore], their
    results are those of a finite map from keys to values: what was put last
    and not deleted is read back, any other key is not found, and a listing has
    each key with the prefix once. *)
Theorem MemoryStore_refines {W A} `{RangeI : MapRange W} `{JsonA : Json A}
    (ops : list (store_op A)) (w w' : MemoryWorld W) rs (m : gmap string A)
    (Hw : represents w m) (Hops : Forall storable ops) (Hrun : run_ops ops w = (w', rs)) :
  ∃ m', map_steps m ops m' rs ∧ represents w' m'.
Proof.
  revert w m rs Hw Hrun. induction Hops as [|op ops Hop _ IH]; intros w m rs Hw Hrun; simpl in Hrun.
  - injection Hrun as <- <-. exists m. split; [constructor|done].
  - destruct (run_op op w) as [w1 r] eqn:E1. destruct (run_ops ops w1) as [w2 rs'] eqn:E2.
    injection Hrun as <- <-.
    destruct (memory_simulates _ _ _ _ _ Hw Hop E1) as (m1 & Hs1 & Hw1).
    destruct (IH _ _ _ Hw1 E2) as (m2 & Hs2 & Hw2). exists m2. split; [by econstructor|done].
Qed.
