(* ===== verification/XmlTree.v ===== *)
(** * XmlTree: finding and unmarshalling elements

    [findChildren], [findOneChild], [findChild], [elementToBytes],
    [unmarshalElement] and [stripUnusedNamespaceDeclarations] of
    [src/service_provider.go].  An element that Go reaches through pointers is a
    [Cursor]: the element with its ancestors. *)

From stdpp Require Import base option list gmap strings sets.
From Stdlib Require Import ZArith Lia.
From S2P Require Import Prelude Go Etree Env.

Open Scope string_scope.

Section xml_tree.
Context `{EtreeI : EtreeOps}.

(** The context in which the prefixes of an element resolve. *)
Definition element_context (c : Cursor) : outcome NSContext :=
  ctx ← NSBuildParentContext (ancestors c);
  SubContext ctx (cur c).

Definition matches_child (parentEl : Cursor) (childNS childTag : string) (childEl : Element)
    : outcome bool :=
  if Tag childEl != childTag then Ret false
  else
    ctx ← NSBuildParentContext (cur parentEl :: ancestors parentEl);
    ctx ← SubContext ctx childEl;
    ns ← map_err (Because "[%s]:%s cannot find prefix %s: %v"
                    [AStr childNS; AStr childTag; AStr (Space childEl)])
           (LookupPrefix ctx (Space childEl));
    Ret (ns == childNS).

Fixpoint find_children (parentEl : Cursor) (childNS childTag : string) (children : list Element)
    : outcome (list Cursor) :=
  match children with
  | [] => Ret []
  | childEl :: children =>
      m ← matches_child parentEl childNS childTag childEl;
      rv ← find_children parentEl childNS childTag children;
      Ret (if m : bool then child_cursor parentEl childEl :: rv else rv)
  end.

Definition findChildren (parentEl : Cursor) (childNS childTag : string)
    : outcome (list Cursor) :=
  find_children parentEl childNS childTag (ChildElements (cur parentEl)).

Definition findOneChild (parentEl : Cursor) (childNS childTag : string) : outcome Cursor :=
  children ← findChildren parentEl childNS childTag;
  match children with
  | [] => Err (Errorf "cannot find %s:%s element" [AStr childNS; AStr childTag])
  | [child] => Ret child
  | _ => Err (Errorf "expected exactly one %s:%s element" [AStr childNS; AStr childTag])
  end.

Definition findChild (parentEl : Cursor) (childNS childTag : string)
    : outcome (option Cursor) :=
  children ← findChildren parentEl childNS childTag;
  match children with
  | [] => Ret None
  | [child] => Ret (Some child)
  | _ => Err (Errorf "expected at most one %s:%s element" [AStr childNS; AStr childTag])
  end.

(** ** elementToBytes and unmarshalElement *)

(** One iteration of the loop of [elementToBytes] on the document's root. *)
Definition declare_used (ctx : NSContext) (root childEl : Element) : Element :=
  if Space childEl == "xml" then root
  else
    match ctx !! Space childEl with
    | None => root
    | Some uri =>
        if (Space childEl == "") && (uri == XMLNamespace) then root
        else
          let key := if Space childEl == "" then "xmlns" else "xmlns:" +++ Space childEl in
          match SelectAttr key root with
          | None => CreateAttr key uri root
          | Some _ => root
          end
    end.

Definition elementToBytes (el : Cursor) : outcome string :=
  ctx ← element_context el;
  WriteToBytes (foldl (declare_used ctx) (cur el) (cur el :: FindElements ".//*" (cur el))).

Definition elementToString (el : Cursor) : outcome string :=
  match elementToBytes el with
  | Ret buf => Ret buf
  | Err _ => Ret ""
  | Panic => Panic
  end.

Definition dsig_Namespace := "http://www.w3.org/2000/09/xmldsig#".

(** The prefixes an element's own name and attributes use. *)
Definition own_prefixes (el : Element) : gset string :=
  (if Space el == "" then ∅ else {[ Space el ]}) ∪
  list_to_set (omap (λ attr,
    if (Attr_Space attr != "") && (Attr_Space attr != "xmlns") then Some (Attr_Space attr)
    else None) (Attrs el)).

(** The loop over the declarations of [el]: removes the unused ones and
    forgets the used ones. *)
Fixpoint strip_declarations (attrs : list Attr) (used : gset string) (el : Element)
    : gset string * Element :=
  match attrs with
  | [] => (used, el)
  | attr :: attrs =>
      if Attr_Space attr != "xmlns" then strip_declarations attrs used el
      else if bool_decide (Attr_Key attr ∈ used) then
        strip_declarations attrs (used ∖ {[ Attr_Key attr ]}) el
      else strip_declarations attrs used (RemoveAttr (FullKey attr) el)
  end.

(** Returns the prefixes that the element uses but does not declare, and the
    stripped element.  Go strips the children in place before it handles
    the element's own declarations. *)
Fixpoint stripUnusedNamespaceDeclarations (ancestors : list Element) (el : Element)
    : gset string * Element :=
  let '(child_used, children) :=
    (fix go (done c : list Token) : gset string * list Token :=
       match c with
       | [] => (∅, [])
       | TElement child :: c =>
           (* the siblings before the child are stripped already *)
           let parent := set_Child (app done (TElement child :: c)) el in
           let signature := (Tag child == "Signature") &&
             (NamespaceURI (mkCursor child (parent :: ancestors)) == dsig_Namespace) in
           let '(childUsed, child) := stripUnusedNamespaceDeclarations (parent :: ancestors) child in
           let '(used, c) := go (app done [TElement child]) c in
           ((if signature then ∅ else childUsed) ∪ used, TElement child :: c)
       | t :: c =>
           let '(used, c) := go (app done [t]) c in (used, t :: c)
       end) [] (Child el) in
  strip_declarations (Attrs el) (own_prefixes el ∪ child_used) (set_Child children el).

Definition removeUnusedNamespaceDeclarations (el : Element) : Element :=
  (stripUnusedNamespaceDeclarations [] el).2.

(** [unmarshalElement(el, &v)] for the decoder of the type of [v].
    [doc.Root()] of an empty document would be nil, and is dereferenced. *)
Definition unmarshalElement {A} (Unmarshal : string → outcome A) (el : Cursor) : outcome A :=
  buf ← elementToBytes el;
  root ← ReadFromBytes buf;
  root ← deref root;
  buf ← WriteToBytes (removeUnusedNamespaceDeclarations root);
  Unmarshal buf.
End xml_tree.
