(* ===== verification/ServiceProvider.v ===== *)
(** * ServiceProvider: accepting a response

    The part of [src/service_provider.go] that decides whether a response is
    accepted: the certificates to trust, [verifySignature],
    [ParseXMLResponse], [ParseXMLArtifactResponse], [parseResponse],
    [parseAssertion], [validateAssertion] and the checks they call.  What
    [TimeNow()] and the dsig clock return are arguments.  A function that edits
    an element it does not own returns the edited element. *)

From stdpp Require Import base option list strings.
From Stdlib Require Import ZArith Lia Ascii.
From S2P Require Import Prelude Go Encoding Etree C14n Schema Env XmlTree.

Open Scope string_scope.
Open Scope Z_scope.

(** ** Times *)

Definition Time_Add (t : Time) (d : Duration) : Time := t + d.
Definition Time_Before (t u : Time) : bool := t <? u.
Definition Time_After (t u : Time) : bool := u <? t.

(** The package variables [MaxIssueDelay] and [MaxClockSkew]. *)
Class PackageVars := {
  MaxIssueDelay : Duration;
  MaxClockSkew : Duration
}.

Definition default_vars : PackageVars := {|
  MaxIssueDelay := 90 * 1000000000;
  MaxClockSkew := 180 * 1000000000
|}.

(** ** The service provider *)

Record ServiceProvider := mkServiceProvider {
  SP_EntityID : string;
  SP_Key : option Signer;
  SP_Certificate : option Certificate;
  SP_Intermediates : list Certificate;
  SP_HTTPClient : option HTTPClient;
  SP_MetadataURL : URL;
  SP_AcsURL : URL;
  SP_SloURL : URL;
  SP_IDPMetadata : option EntityDescriptor;
  SP_IDPCertificateFingerprint : option string;
  SP_IDPCertificateFingerprintAlgorithm : option string;
  SP_IDPCertificate : option string;
  SP_AuthnNameIDFormat : string;
  SP_MetadataValidDuration : Duration;
  SP_ForceAuthn : option bool;
  SP_RequestedAuthnContext : option RequestedAuthnContext;
  SP_AllowIDPInitiated : bool;
  SP_DefaultRedirectURI : string;
  SP_SignatureVerifier : option (ValidationContext → Element → outcome ());
  SP_SignatureMethod : string;
  SP_LogoutBindings : list string;
  SP_ValidateAudienceRestriction : option (Assertion → outcome ());
  SP_ValidateRequestID : option (Response → list string → outcome ())
}.

Inductive signatureRequirement := signatureRequired | signatureNotRequired.

#[export] Instance signatureRequirement_eq_dec : EqDecision signatureRequirement.
Proof. solve_decision. Defined.

Definition errSignatureElementNotPresent := Sentinel "saml.errSignatureElementNotPresent".

Definition firstSet (a b : string) : string := if a == "" then b else a.

Definition nsProtocol := "urn:oasis:names:tc:SAML:2.0:protocol".
Definition nsAssertion := "urn:oasis:names:tc:SAML:2.0:assertion".
Definition nsSoap := "http://schemas.xmlsoap.org/soap/envelope/".
Definition cmBearer := "urn:oasis:names:tc:SAML:2.0:cm:bearer".

(** The message of [errors.New(strings.Join(failures, sep))]. *)
Definition join_failures (failures : list error) : error :=
  match failures with
  | [] => Errorf "" []
  | e :: l => foldl Joined (Because "%s" [] e) l
  end.

(** ** Checks on times, names and requests *)

Section checks.
Context `{UrlI : UrlOps} `{VarsI : PackageVars}.

Definition sp_audience (sp : ServiceProvider) : string :=
  firstSet (SP_EntityID sp) (URL_String (SP_MetadataURL sp)).

Definition validateRequestID (sp : ServiceProvider) (response : Response)
    (possibleRequestIDs : list string) : outcome () :=
  match SP_ValidateRequestID sp with
  | Some f => f response possibleRequestIDs
  | None =>
      let requestIDvalid :=
        if SP_AllowIDPInitiated sp && (Response_InResponseTo response == "") then true
        else existsb (λ id, Response_InResponseTo response == id) possibleRequestIDs in
      raise_if (negb requestIDvalid)
        (Errorf "`InResponseTo` does not match any of the possible request IDs (expected %v)"
           [AStrs possibleRequestIDs])
  end.

Definition validateBearerSubjectConfirmation (sp : ServiceProvider)
    (subjectConfirmation : SubjectConfirmation) (possibleRequestIDs : list string) (now : Time)
    : outcome () :=
  match SubjectConfirmation_SubjectConfirmationData subjectConfirmation with
  | None => Err (Errorf "assertion SubjectConfirmation does not contain SubjectConfirmationData" [])
  | Some data =>
      _ ← raise_if
        ((negb (SP_AllowIDPInitiated sp) || (SubjectConfirmationData_InResponseTo data != "")) &&
         negb (bool_decide (SubjectConfirmationData_InResponseTo data ∈ possibleRequestIDs)))
        (Errorf "assertion SubjectConfirmation one of the possible request IDs (%v)"
           [AStrs possibleRequestIDs]);
      _ ← raise_if (SubjectConfirmationData_Recipient data != URL_String (SP_AcsURL sp))
        (Errorf "assertion SubjectConfirmation Recipient is not %s" [AStr (URL_String (SP_AcsURL sp))]);
      raise_if
        (Time_Before (Time_Add (SubjectConfirmationData_NotOnOrAfter data) MaxClockSkew) now)
        (Errorf "assertion SubjectConfirmationData is expired" [])
  end.

(** The loop over the subject confirmations, with the failures so far. *)
Fixpoint subject_confirmations_loop (sp : ServiceProvider) (possibleRequestIDs : list string)
    (now : Time) (failures : list error) (l : list SubjectConfirmation) : outcome () :=
  match l with
  | [] =>
      match failures with
      | [] => Err (Errorf "assertion Subject does not contain a bearer SubjectConfirmation" [])
      | _ => Err (join_failures failures)
      end
  | subjectConfirmation :: l =>
      if SubjectConfirmation_Method subjectConfirmation != cmBearer then
        subject_confirmations_loop sp possibleRequestIDs now failures l
      else
        match validateBearerSubjectConfirmation sp subjectConfirmation possibleRequestIDs now with
        | Ret _ => Ret ()
        | Panic => Panic
        | Err err =>
            subject_confirmations_loop sp possibleRequestIDs now
              (if bool_decide (err ∈ failures) then failures else (failures ++ [err])%list) l
        end
  end.

Definition validateSubjectConfirmations (sp : ServiceProvider) (assertion : Assertion)
    (possibleRequestIDs : list string) (now : Time) : outcome () :=
  match Assertion_Subject assertion with
  | None => Err (Errorf "assertion Subject does not contain a bearer SubjectConfirmation" [])
  | Some subject =>
      subject_confirmations_loop sp possibleRequestIDs now [] (Subject_SubjectConfirmations subject)
  end.

Definition validateAudienceRestriction (sp : ServiceProvider) (assertion : Assertion)
    : outcome () :=
  match SP_ValidateAudienceRestriction sp with
  | Some f => map_err (Wrap "audience restriction validation failed: %w" []) (f assertion)
  | None =>
      let missing := Errorf "assertion Conditions does not contain an AudienceRestriction" [] in
      match Assertion_Conditions assertion with
      | None => Err missing
      | Some conditions =>
          _ ← raise_if (bool_decide (Conditions_AudienceRestrictions conditions = [])) missing;
          let audience := sp_audience sp in
          for_each (λ audienceRestriction,
            raise_if
              (negb (existsb (λ a, Audience_Value a == audience)
                       (AudienceRestriction_Audiences audienceRestriction)))
              (Errorf "assertion Conditions AudienceRestriction does not contain %q" [AStr audience]))
            (Conditions_AudienceRestrictions conditions)
      end
  end.

Definition validateConditions (conditions : option Conditions) (now : Time) : outcome () :=
  match conditions with
  | None => Ret ()
  | Some conditions =>
      _ ← raise_if (Time_After (Time_Add (Conditions_NotBefore conditions) (- MaxClockSkew)) now)
        (Errorf "assertion Conditions is not yet valid" []);
      raise_if (Time_Before (Time_Add (Conditions_NotOnOrAfter conditions) MaxClockSkew) now)
        (Errorf "assertion Conditions is expired" [])
  end.

Definition validateAssertion (sp : ServiceProvider) (assertion : Assertion)
    (possibleRequestIDs : list string) (now : Time) : outcome () :=
  let expiry := Time_Add (Assertion_IssueInstant assertion) MaxIssueDelay in
  _ ← raise_if (Time_Before expiry now) (Errorf "expired on %s" [ATime expiry]);
  metadata ← deref (SP_IDPMetadata sp);
  _ ← raise_if (Issuer_Value (Assertion_Issuer assertion) != EntityDescriptor_EntityID metadata)
    (Errorf "issuer is not %q" [AStr (EntityDescriptor_EntityID metadata)]);
  _ ← validateSubjectConfirmations sp assertion possibleRequestIDs now;
  _ ← validateConditions (Assertion_Conditions assertion) now;
  validateAudienceRestriction sp assertion.
End checks.

(** ** Certificates *)

Section certificates.
Context `{X509I : X509Ops}.

(** The certificates of one key descriptor that may verify a signature. *)
Definition signing_cert_strs (keyDescriptor : KeyDescriptor) : list string :=
  let certificates := X509Data_X509Certificates (KeyInfo_X509Data (KeyDescriptor_KeyInfo keyDescriptor)) in
  if (KeyDescriptor_Use keyDescriptor == "") || (KeyDescriptor_Use keyDescriptor == "signing")
  then map X509Certificate_Data certificates else [].

Definition idp_key_descriptors (metadata : EntityDescriptor) : list KeyDescriptor :=
  mjoin (map (λ d, RoleDescriptor_KeyDescriptors
                     (SSODescriptor_RoleDescriptor (IDPSSODescriptor_SSODescriptor d)))
           (EntityDescriptor_IDPSSODescriptors metadata)).

Definition parse_cert_str (certStr : string) : outcome Certificate :=
  certBytes ← map_err (Because "cannot parse certificate: %s" [])
    (base64_Decode (remove_bytes is_re_space certStr));
  ParseCertificate certBytes.

Definition getIDPSigningCerts (sp : ServiceProvider) : outcome (list Certificate) :=
  metadata ← deref (SP_IDPMetadata sp);
  let certStrs := mjoin (map signing_cert_strs (idp_key_descriptors metadata)) in
  _ ← raise_if (bool_decide (certStrs = []))
    (Errorf "cannot find any signing certificate in the IDP SSO descriptor" []);
  map_each parse_cert_str certStrs.

Definition parseCert (x509Data : string) : outcome Certificate :=
  certBytes ← map_err (Wrap "parse cert, cannot base64 decode cert string: %w" [])
    (base64_Decode (remove_bytes is_re_space x509Data));
  map_err (Wrap "parse cert, cannot parse certificate: %w" []) (ParseCertificate certBytes).

(** Bytes in upper-case hexadecimal with colons between. *)
Fixpoint fingerprintFormat (fp : string) : string :=
  match fp with
  | "" => ""
  | String c fp' =>
      let n := N_of_ascii c in
      String (hex_upper (n / 16)) (String (hex_upper (n mod 16))
        (match fp' with "" => "" | _ => String ":" (fingerprintFormat fp') end))
  end.

Definition fingerprint (cert : Certificate) (fingerprintAlgorithm : string) : outcome string :=
  if fingerprintAlgorithm == "http://www.w3.org/2001/04/xmlenc#sha256" then
    Ret (fingerprintFormat (sha256_Sum256 (Certificate_Raw cert)))
  else if fingerprintAlgorithm == "http://www.w3.org/2001/04/xmlenc#sha512" then
    Ret (fingerprintFormat (sha512_Sum512 (Certificate_Raw cert)))
  else Err (Errorf "fingerprint, unknown algorithm: %s" [AStr fingerprintAlgorithm]).

Context `{EtreeI : EtreeOps}.

Definition getCertBasedOnFingerprint (sp : ServiceProvider) (el : Element)
    : outcome (list Certificate) :=
  x509CertEl ← or_err
    (FindElement "./Signature/KeyInfo/X509Data/X509Certificate" el ≫= λ p, elem_at p el)
    (Errorf "cannot validate signature on %s: no certificate present" [AStr (Tag el)]);
  data ←
    match Child x509CertEl with
    | [TCharData data] => Ret data
    | [_] => Err (Errorf "cannot validate signature on %s: x509 cert el first child not char data: %T" [AStr (Tag el)])
    | l => Err (Errorf "cannot validate signature on %s: x509 cert el child len != 1: %d" [AStr (Tag el); AInt (Z.of_nat (length l))])
    end;
  cert ← map_err (Wrap "cannot validate signature on %s: %w" [AStr (Tag el)]) (parseCert data);
  algorithm ← deref (SP_IDPCertificateFingerprintAlgorithm sp);
  finP ← map_err (Wrap "cannot validate signature on %s: %w" [AStr (Tag el)]) (fingerprint cert algorithm);
  expected ← deref (SP_IDPCertificateFingerprint sp);
  _ ← raise_if (expected != finP) (Errorf "cannot validate signature on %s: fingerprint mismatch" [AStr (Tag el)]);
  Ret [cert].

(** The certificates of [verifySignature]: three configurations that exclude
    one another, and an error for anything else. *)
Definition verification_certs (sp : ServiceProvider) (el : Element) : outcome (list Certificate) :=
  let set {A} (p : option A) := bool_decide (is_Some p) in
  let unset {A} (p : option A) := negb (bool_decide (is_Some p)) in
  certs ←
    (if set (SP_IDPMetadata sp) && unset (SP_IDPCertificateFingerprint sp)
        && unset (SP_IDPCertificateFingerprintAlgorithm sp) && unset (SP_IDPCertificate sp)
     then map_err (Because "cannot validate signature on %s: %v" [AStr (Tag el)]) (getIDPSigningCerts sp)
     else Ret []);
  certs ←
    (if set (SP_IDPMetadata sp) && set (SP_IDPCertificateFingerprint sp)
        && set (SP_IDPCertificateFingerprintAlgorithm sp) && unset (SP_IDPCertificate sp)
     then map_err (Because "cannot validate signature on %s: %v" [AStr (Tag el)]) (getCertBasedOnFingerprint sp el)
     else Ret certs);
  certs ←
    (if set (SP_IDPMetadata sp) && unset (SP_IDPCertificateFingerprint sp)
        && unset (SP_IDPCertificateFingerprintAlgorithm sp) && set (SP_IDPCertificate sp)
     then
       data ← deref (SP_IDPCertificate sp);
       cert ← map_err (Wrap "cannot validate signature on %s: %w" [AStr (Tag el)]) (parseCert data);
       Ret (certs ++ [cert])%list
     else Ret certs);
  _ ← raise_if (bool_decide (certs = []))
    (Errorf "cannot validate signature on %s: saml config not set up properly, specify either idp metadata url, fingerprints or actual certificate" [AStr (Tag el)]);
  Ret certs.

(** ** Verifying the signature of an element *)

(** [signatureValidationContext] removes a [KeyInfo] without a certificate
    from [el] in place. *)
Definition drop_key_info (el : Element) : Element :=
  match FindElement "./Signature/KeyInfo/X509Data/X509Certificate" el with
  | Some _ => el
  | None =>
      match FindElement "./Signature" el with
      | None => el
      | Some p =>
          match elem_at p el ≫= FindElement "KeyInfo" with
          | Some [i] => update_at p (RemoveChildAt i) el
          | _ => el
          end
      end
  end.

(** [Clock] reads [clock]. The returned element is [el] as it was edited. *)
Definition signatureValidationContext (el : Cursor) (certs : list Certificate) (clock : Time)
    : Cursor * outcome (ValidationContext * Element) :=
  let validationContext := mkValidationContext certs "ID" clock in
  let el := mkCursor (drop_key_info (cur el)) (ancestors el) in
  (el,
   ctx ← map_err (Because "cannot validate signature on %s: %v" [AStr (Tag (cur el))]) (NSBuildParentContext (ancestors el));
   ctx ← map_err (Because "cannot validate signature on %s: %v" [AStr (Tag (cur el))]) (SubContext ctx (cur el));
   detached ← map_err (Because "cannot validate signature on %s: %v" [AStr (Tag (cur el))]) (run_default (NSDetatch ctx (cur el)));
   Ret (validationContext, detached)).

Context `{SigI : SignatureOps}.

(** The element as the call leaves it, and the content to use: [el] itself
    after a [SignatureVerifier], and what the signature covers otherwise. Verified
    content that is nil is dereferenced by every caller's next step. *)
Definition verifySignature (sp : ServiceProvider) (clock : Time) (el : Cursor)
    : Cursor * outcome Cursor :=
  match findChild el dsig_Namespace "Signature" with
  | Panic => (el, Panic)
  | Err err => (el, Err err)
  | Ret None => (el, Err errSignatureElementNotPresent)
  | Ret (Some _) =>
      match verification_certs sp (cur el) with
      | Panic => (el, Panic)
      | Err err => (el, Err err)
      | Ret certs =>
          let '(el, r) := signatureValidationContext el certs clock in
          (el,
           vd ← r;
           match SP_SignatureVerifier sp with
           | Some VerifySignature =>
               _ ← VerifySignature vd.1 vd.2;
               Ret el
           | None =>
               verified ← map_err (Because "cannot validate signature on %s: %v" [AStr (Tag (cur el))])
                 (ValidationContext_Validate vd.1 vd.2);
               verified ← deref verified;
               Ret (root_cursor verified)
           end)
      end
  end.

End certificates.

(** ** Parsing responses *)

Section parsing.
Context `{UrlI : UrlOps} `{VarsI : PackageVars} `{X509I : X509Ops} `{EtreeI : EtreeOps} `{XmlI : XmlOps} `{SigI : SignatureOps} `{EncI : XmlEncOps}.

(** [doc.Root()] of the plaintext; nil for an empty document. *)
Definition decryptElement (sp : ServiceProvider) (encryptedEl : Cursor)
    : outcome (option Element) :=
  encryptedDataEl ← findOneChild encryptedEl "http://www.w3.org/2001/04/xmlenc#" "EncryptedData";
  key ←
    match FindElement "./EncryptedKey" (cur encryptedEl) ≫= λ p, elem_at p (cur encryptedEl) with
    | None => Ret (SignerKey (SP_Key sp))
    | Some keyEl =>
        key ← map_err (Because "failed to decrypt key from response: %s" [])
          (xmlenc_Decrypt (SignerKey (SP_Key sp)) (child_cursor encryptedEl keyEl));
        Ret (BytesKey key)
    end;
  plaintextEl ← xmlenc_Decrypt key encryptedDataEl;
  _ ← map_err (Because "plaintext response contains invalid XML: %s" []) (xrv_Validate plaintextEl);
  map_err (Because "cannot parse plaintext response %v" []) (ReadFromBytes plaintextEl).

(** [clock] is what the dsig clock reads. *)
Definition parseAssertion (sp : ServiceProvider) (assertionEl : Cursor)
    (possibleRequestIDs : list string) (now clock : Time) (requirement : signatureRequirement)
    : outcome Assertion :=
  assertionEl ←
    (if requirement == signatureRequired then (verifySignature sp clock assertionEl).2
     else Ret assertionEl);
  assertion ← unmarshalElement Unmarshal_Assertion assertionEl;
  _ ← validateAssertion sp assertion possibleRequestIDs now;
  Ret assertion.

Definition parseEncryptedAssertion (sp : ServiceProvider) (encryptedAssertionEl : Cursor)
    (possibleRequestIDs : list string) (now clock : Time) (requirement : signatureRequirement)
    : outcome Assertion :=
  assertionEl ← map_err (Because "failed to decrypt EncryptedAssertion: %v" [])
    (decryptElement sp encryptedAssertionEl);
  assertionEl ← deref assertionEl;
  parseAssertion sp (root_cursor assertionEl) possibleRequestIDs now clock requirement.

(** [for _, el := range els { x, err := f(el); if err != nil { errs =
    append(errs, err); continue }; assertions = append(assertions, x) }] *)
Fixpoint collect {A B} (f : A → outcome B) (els : list A) : outcome (list error * list B) :=
  match els with
  | [] => Ret ([], [])
  | el :: els =>
      match f el with
      | Panic => Panic
      | Ret x => r ← collect f els; Ret (r.1, x :: r.2)
      | Err err => r ← collect f els; Ret (err :: r.1, r.2)
      end
  end.

(** The block that checks the attributes of the response. *)
Definition validateResponseAttributes (sp : ServiceProvider) (response : Response)
    (responseHasSignature : bool) (possibleRequestIDs : list string) (now : Time)
    (currentURL : URL) : outcome () :=
  _ ← raise_if
    ((responseHasSignature || (Response_Destination response != "")) &&
     ((Response_Destination response != URL_String currentURL) &&
      (Response_Destination response != URL_String (SP_AcsURL sp))))
    (Errorf "`Destination` does not match requested URL or AcsURL (destination %q, requested %q, acs %q)"
       [AStr (Response_Destination response); AStr (URL_String currentURL); AStr (URL_String (SP_AcsURL sp))]);
  _ ← validateRequestID sp response possibleRequestIDs;
  let expiry := Time_Add (Response_IssueInstant response) MaxIssueDelay in
  _ ← raise_if (Time_Before expiry now) (Errorf "response IssueInstant expired at %s" [ATime expiry]);
  _ ←
    match Response_Issuer response with
    | None => Ret ()
    | Some issuer =>
        metadata ← deref (SP_IDPMetadata sp);
        raise_if (Issuer_Value issuer != EntityDescriptor_EntityID metadata)
          (Errorf "response Issuer does not match the IDP metadata (expected %q)"
             [AStr (EntityDescriptor_EntityID metadata)])
    end;
  let status := StatusCode_Value (Status_StatusCode (Response_Status response)) in
  raise_if (status != StatusSuccess) (ErrBadStatus status).

(** The signature of the response itself: the element to go on with, the
    error whose handling is deferred, and whether there is a signature. *)
Definition verifyResponseSignature (sp : ServiceProvider) (responseEl : Cursor) (clock : Time)
    (requirement : signatureRequirement) : outcome (Cursor * option error * bool) :=
  match requirement with
  | signatureNotRequired => Ret (responseEl, None, false)
  | signatureRequired =>
      match verifySignature sp clock responseEl with
      | (_, Panic) => Panic
      | (_, Ret verifiedEl) => Ret (verifiedEl, None, true)
      | (el, Err err) => Ret (el, Some err, err != errSignatureElementNotPresent)
      end
  end.

(** The requirement for the assertions, once the attributes are checked. *)
Definition assertionRequirement (requirement : signatureRequirement)
    (responseSignatureErr : option error) : outcome signatureRequirement :=
  match requirement with
  | signatureNotRequired => Ret signatureNotRequired
  | signatureRequired =>
      match responseSignatureErr with
      | None => Ret signatureNotRequired
      | Some err =>
          if err == errSignatureElementNotPresent then Ret signatureRequired else Err err
      end
  end.

Definition parseResponse (sp : ServiceProvider) (responseEl : Cursor)
    (possibleRequestIDs : list string) (now clock : Time) (requirement : signatureRequirement)
    (currentURL : URL) : outcome Assertion :=
  r ← verifyResponseSignature sp responseEl clock requirement;
  let '(responseEl, responseSignatureErr, responseHasSignature) := r in
  response ← map_err (Because "cannot unmarshal response: %v" [])
    (unmarshalElement Unmarshal_Response responseEl);
  _ ← validateResponseAttributes sp response responseHasSignature possibleRequestIDs now currentURL;
  requirement ← assertionRequirement requirement responseSignatureErr;
  encryptedAssertionEls ← findChildren responseEl nsAssertion "EncryptedAssertion";
  r1 ← collect (λ el, parseEncryptedAssertion sp el possibleRequestIDs now clock requirement)
    encryptedAssertionEls;
  assertionEls ← findChildren responseEl nsAssertion "Assertion";
  r2 ← collect (λ el, parseAssertion sp el possibleRequestIDs now clock requirement) assertionEls;
  match (r1.2 ++ r2.2)%list with
  | assertion :: _ => Ret assertion
  | [] =>
      match (r1.1 ++ r2.1)%list with
      | err :: _ => Err err
      | [] => Err (Errorf "expected at least one valid Assertion, none found" [])
      end
  end.

Definition ParseXMLResponse (sp : ServiceProvider) (decodedResponseXML : string)
    (possibleRequestIDs : list string) (currentURL : URL) (now clock : Time) : outcome Assertion :=
  let retErr err := InvalidResponseError err decodedResponseXML now in
  _ ← map_err (λ e, retErr (Because "invalid xml: %s" [] e)) (xrv_Validate decodedResponseXML);
  root ← map_err retErr (ReadFromBytes decodedResponseXML);
  root ← or_err root (retErr (Errorf "invalid xml: no root" []));
  map_err retErr
    (parseResponse sp (root_cursor root) possibleRequestIDs now clock signatureRequired currentURL).

(** The block that checks the attributes of the artifact response. *)
Definition validateArtifactResponseAttributes (sp : ServiceProvider)
    (artifactResponse : ArtifactResponse) (artifactRequestID : string) (now : Time) : outcome () :=
  _ ← raise_if (ArtifactResponse_InResponseTo artifactResponse != artifactRequestID)
    (Errorf "`InResponseTo` does not match the artifact request ID (expected %s)"
       [AStr artifactRequestID]);
  let expiry := Time_Add (ArtifactResponse_IssueInstant artifactResponse) MaxIssueDelay in
  _ ← raise_if (Time_Before expiry now) (Errorf "response IssueInstant expired at %s" [ATime expiry]);
  _ ←
    match ArtifactResponse_Issuer artifactResponse with
    | None => Ret ()
    | Some issuer =>
        metadata ← deref (SP_IDPMetadata sp);
        raise_if (Issuer_Value issuer != EntityDescriptor_EntityID metadata)
          (Errorf "response Issuer does not match the IDP metadata (expected %q)"
             [AStr (EntityDescriptor_EntityID metadata)])
    end;
  let status := StatusCode_Value (Status_StatusCode (ArtifactResponse_Status artifactResponse)) in
  raise_if (status != StatusSuccess) (ErrBadStatus status).

Definition parseArtifactResponse (sp : ServiceProvider) (artifactResponseEl : Cursor)
    (possibleRequestIDs : list string) (artifactRequestID : string) (now clock : Time)
    (currentURL : URL) : outcome Assertion :=
  response ← elementToString artifactResponseEl;
  let retErr err := InvalidResponseError err response now in
  map_err retErr (
    r ← verifyResponseSignature sp artifactResponseEl clock signatureRequired;
    let '(artifactResponseEl, sigErr, _) := r in
    artifactResponse ← unmarshalElement Unmarshal_ArtifactResponse artifactResponseEl;
    _ ← validateArtifactResponseAttributes sp artifactResponse artifactRequestID now;
    requirement ← assertionRequirement signatureRequired sigErr;
    responseEl ← findOneChild artifactResponseEl nsProtocol "Response";
    parseResponse sp responseEl possibleRequestIDs now clock requirement currentURL).

Definition ParseXMLArtifactResponse (sp : ServiceProvider) (soapResponseXML : string)
    (possibleRequestIDs : list string) (artifactRequestID : string) (currentURL : URL)
    (now clock : Time) : outcome Assertion :=
  let retErr err := InvalidResponseError err soapResponseXML now in
  _ ← map_err (λ e, retErr (Because "invalid xml: %s" [] e)) (xrv_Validate soapResponseXML);
  root ← map_err (λ e, retErr (Because "cannot unmarshal response: %s" [] e))
    (ReadFromBytes soapResponseXML);
  root ← or_err root (retErr (Errorf "invalid xml: no root" []));
  _ ← raise_if ((NamespaceURI (root_cursor root) != nsSoap) || (Tag root != "Envelope"))
    (retErr (Errorf "expected a SOAP Envelope" []));
  soapBodyEl ← map_err retErr (findOneChild (root_cursor root) nsSoap "Body");
  artifactResponseEl ← map_err retErr (findOneChild soapBodyEl nsProtocol "ArtifactResponse");
  parseArtifactResponse sp artifactResponseEl possibleRequestIDs artifactRequestID now clock currentURL.

(** The form of the request: [SAMLResponse] of the body. *)
Definition parseResponseHTTP (sp : ServiceProvider) (SAMLResponse : string) (reqURL : URL)
    (possibleRequestIDs : list string) (now0 now clock : Time) : outcome Assertion :=
  rawResponseBuf ← map_err (λ e, InvalidResponseError (Because "cannot parse base64: %s" [] e) "" now0)
    (base64_Decode SAMLResponse);
  ParseXMLResponse sp rawResponseBuf possibleRequestIDs reqURL now clock.
End parsing.
