(* ===== verification/Reference.v ===== *)
(** * Reference: concrete instances of the external packages

    Small executable instances of the classes of [Etree] and [Env], for the
    examples that evaluate the development on concrete inputs.  They are not a
    model of the packages: a document is written as the fields of its tree with
    their lengths, a URL as its path, a signature is the name of its key. *)

From stdpp Require Import base option list strings countable.
From Stdlib Require Import ZArith Lia Ascii.
From S2P Require Import Prelude Go Duration Encoding Etree Schema Env Http.

Open Scope string_scope.

(** ** etree *)

(** [prefix:name] as its two parts. *)
Definition split_name (s : string) : string * string :=
  let '(a, b, found) := Cut ":" s in if found : bool then (a, b) else ("", a).

Lemma split_name_plain s : has_byte ":" s = false → split_name s = ("", s).
Proof.
  intros H. unfold split_name. enough (Cut ":" s = (s, "", false)) as -> by done.
  induction s as [|c s IH]; simpl in *; [done|]. destruct (Ascii.eqb c ":"); [done|]. by rewrite IH.
Qed.

Lemma split_name_prefixed p s : has_byte ":" p = false → split_name (p +++ ":" +++ s) = (p, s).
Proof.
  intros H. unfold split_name. change (p +++ ":" +++ s) with (p +++ String ":" s). by rewrite Cut_append.
Qed.

Definition ref_FullKey (a : Attr) : string :=
  if Attr_Space a == "" then Attr_Key a else Attr_Space a +++ ":" +++ Attr_Key a.

Definition ref_RemoveAttr (key : string) (e : Element) : Element :=
  set_Attrs (filter (λ a, (Attr_Space a, Attr_Key a) ≠ split_name key) (Attrs e)) e.

Definition ref_CreateAttr (key value : string) (e : Element) : Element :=
  let '(space, k) := split_name key in
  set_Attrs (Attrs (ref_RemoveAttr key e) ++ [mkAttr space k value])%list e.

Definition ref_SelectAttr (key : string) (e : Element) : option Attr :=
  first_that (λ a, bool_decide ((Attr_Space a, Attr_Key a) = split_name key)) (Attrs e).

Fixpoint descendants (e : Element) : list Element :=
  (fix go (c : list Token) : list Element :=
     match c with
     | [] => []
     | TElement x :: c => (x :: descendants x) ++ go c
     | _ :: c => go c
     end)%list (Child e).

(** The declaration of a prefix on the element or its nearest ancestor. *)
Definition lookup_decl (prefix : string) (e : Element) : option string :=
  Attr_Value <$> first_that (λ a,
    if prefix == "" then (Attr_Space a == "") && (Attr_Key a == "xmlns")
    else (Attr_Space a == "xmlns") && (Attr_Key a == prefix)) (Attrs e).

Definition ref_NamespaceURI (c : Cursor) : string :=
  default "" (first_some (lookup_decl (Space (cur c))) (cur c :: ancestors c)).

(** The first element in document order that the steps of a path lead to. *)
Fixpoint find_steps (steps : list string) (e : Element) : option (list nat) :=
  match steps with
  | [] => Some []
  | tag :: steps =>
      if tag == "." then find_steps steps e
      else
        (fix go (i : nat) (c : list Token) : option (list nat) :=
           match c with
           | [] => None
           | TElement x :: c =>
               match (if Tag x == tag then find_steps steps x else None) with
               | Some path => Some (i :: path)
               | None => go (S i) c
               end
           | _ :: c => go (S i) c
           end) 0%nat (Child e)
  end.

(** The character data before any other content than comments. *)
Fixpoint leading_text (c : list Token) : string :=
  match c with
  | TCharData s :: c => s +++ leading_text c
  | TComment _ :: c => leading_text c
  | _ => ""
  end.

(** What follows that character data. *)
Fixpoint after_text (c : list Token) : list Token :=
  match c with
  | TCharData _ :: c | TComment _ :: c => after_text c
  | _ => c
  end.

(** ** A text form of documents *)

Definition field (s : string) : string :=
  itoa (Z.of_nat (String.length s)) +++ ":" +++ s.

Fixpoint write_element (e : Element) : string :=
  "E" +++ field (Space e) +++ field (Tag e) +++
  (fix attrs (l : list Attr) : string :=
     match l with
     | [] => "."
     | a :: l => "A" +++ field (Attr_Space a) +++ field (Attr_Key a) +++ field (Attr_Value a) +++ attrs l
     end) (Attrs e) +++
  (fix go (c : list Token) : string :=
     match c with
     | [] => "."
     | TElement x :: c => write_element x +++ go c
     | TCharData t :: c => "T" +++ field t +++ go c
     | TComment t :: c => "C" +++ field t +++ go c
     | TOther t :: c => "O" +++ field t +++ go c
     end) (Child e).

Fixpoint take_bytes (n : nat) (s : string) : string * string :=
  match n, s with
  | S n, String c s => let '(a, b) := take_bytes n s in (String c a, b)
  | _, _ => ("", s)
  end.

Definition read_field (s : string) : string * string :=
  let '(n, r) := span_digits s in
  match r with
  | String _ r => take_bytes (Z.to_nat (digits_value 0 n)) r
  | "" => ("", "")
  end.

Fixpoint read_attrs (fuel : nat) (s : string) : list Attr * string :=
  match fuel, s with
  | S fuel, String "A" r =>
      let '(a, r) := read_field r in
      let '(k, r) := read_field r in
      let '(v, r) := read_field r in
      let '(l, r) := read_attrs fuel r in (mkAttr a k v :: l, r)
  | _, String _ r => ([], r)
  | _, "" => ([], "")
  end.

Fixpoint read_tokens (fuel : nat) (s : string) : list Token * string :=
  match fuel with
  | O => ([], s)
  | S fuel =>
      match s with
      | String "E" r =>
          let '(p, r) := read_field r in
          let '(t, r) := read_field r in
          let '(a, r) := read_attrs fuel r in
          let '(c, r) := read_tokens fuel r in
          let '(l, r) := read_tokens fuel r in (TElement (mkElement p t a c) :: l, r)
      | String "T" r =>
          let '(d, r) := read_field r in
          let '(l, r) := read_tokens fuel r in (TCharData d :: l, r)
      | String "C" r =>
          let '(d, r) := read_field r in
          let '(l, r) := read_tokens fuel r in (TComment d :: l, r)
      | String "O" r =>
          let '(d, r) := read_field r in
          let '(l, r) := read_tokens fuel r in (TOther d :: l, r)
      | String _ r => ([], r)
      | "" => ([], "")
      end
  end.

Definition read_document (s : string) : option Element :=
  first_some token_element (read_tokens (S (String.length s)) s).1.

#[export] Instance ref_etree : EtreeOps := {|
  NewElement tag := mkElement (split_name tag).1 (split_name tag).2 [] [];
  CreateAttr := ref_CreateAttr;
  SetText text e := set_Child (TCharData text :: after_text (Child e)) e;
  AddChild c e := set_Child (Child e ++ [TElement c])%list e;
  InsertChildAt i c e := set_Child (take i (Child e) ++ TElement c :: drop i (Child e))%list e;
  Text e := leading_text (Child e);
  FullKey := ref_FullKey;
  SelectAttr := ref_SelectAttr;
  RemoveAttr := ref_RemoveAttr;
  NamespaceURI := ref_NamespaceURI;
  FindElement path := find_steps (Split "/" path);
  FindElements _ := descendants;
  WriteToBytes e := Ret (write_element e);
  WriteToBytes_canonical e := Ret (write_element e);
  ReadFromBytes s := Ret (read_document s)
|}.

(** ** The other packages *)

#[export] Instance ref_url : UrlOps := {|
  URL_String u := URL_Scheme u +++ ":" +++ URL_Path u +++
    (if URL_RawQuery u == "" then "" else "?" +++ URL_RawQuery u);
  url_Parse s := Ret (mkURL (split_name s).1 "" "" "" (split_name s).2 "" "" "")
|}.

Definition url_of (path : string) : URL := mkURL "https" "" "" "" path "" "" "".

#[export] Instance ref_x509 : X509Ops := {|
  ParseCertificate s := Ret (mkCertificate s (RSAPublicKey s) 0 (10 ^ 20));
  ParseCertificates s := Ret [mkCertificate s (RSAPublicKey s) 0 (10 ^ 20)];
  sha256_Sum256 s := s;
  sha512_Sum512 s := s
|}.

(** Decoders that return the given message. *)
Definition ref_xml (response : Response) (artifact : ArtifactResponse) (assertion : Assertion)
    : XmlOps := {|
  xrv_Validate _ := Ret ();
  Unmarshal_Response _ := Ret response;
  Unmarshal_ArtifactResponse _ := Ret artifact;
  Unmarshal_Assertion _ := Ret assertion;
  Unmarshal_LogoutResponse _ := Ret zero_LogoutResponse;
  Unmarshal_LogoutRequest _ := Ret zero_LogoutRequest;
  Unmarshal_AuthnRequest _ := Ret zero_AuthnRequest
|}.

(** A signature is valid if its [key] attribute names a root. *)
#[export] Instance ref_signature : SignatureOps := {|
  ValidationContext_Validate vc e :=
    match first_that (λ x, Tag x == "Signature") (ChildElements e) with
    | Some s =>
        if existsb (λ r, bool_decide (ref_SelectAttr "key" s = Some (mkAttr "" "key" (Certificate_Raw r))))
             (ValidationContext_Roots vc)
        then Ret (Some e) else Err (Sentinel "dsig.ErrInvalidSignature")
    | None => Err (Sentinel "dsig.ErrMissingSignature")
    end
|}.

(** The plaintext is the text of the element. *)
#[export] Instance ref_xmlenc : XmlEncOps := {|
  xmlenc_Decrypt _ c :=
    match Child (cur c) with
    | [TCharData s] => Ret s
    | _ => Ret ""
    end
|}.

(** A hash is the data behind twenty bytes, a signature names the key and the
    digest, and DER is two decimal numbers. *)
Definition key_id (k : PublicKey) : string :=
  match k with
  | RSAPublicKey id => "rsa" +++ id
  | ECDSAPublicKey id _ _ => "ecdsa" +++ id
  | OtherPublicKey id => "other" +++ id
  end.

Definition ref_hash (h : Hash) (s : string) : string :=
  "digest-of-20-bytes--" +++
  match h with SHA1 => "1" | SHA256 => "2" | SHA384 => "3" | SHA512 => "5" end +++ s.

Definition ref_sign (k : PublicKey) (digest : string) : string := key_id k +++ "/" +++ digest.

Definition ref_asn1_Unmarshal (s : string) : outcome (Z * Z * string) :=
  let '(r, rest) := span_digits s in
  match rest with
  | String "/" t =>
      let '(x, t) := span_digits t in
      match t with
      | String "." rest => Ret (digits_value 0 r, digits_value 0 x, rest)
      | _ => Err (Sentinel "asn1.SyntaxError")
      end
  | _ => Err (Sentinel "asn1.SyntaxError")
  end.

#[export] Instance ref_crypto : CryptoOps := {|
  hash_Sum := ref_hash;
  rsa_VerifyPKCS1v15 k h d s := bool_decide (s = ref_sign k d);
  ecdsa_Verify k d r s := bool_decide (r = 1%Z ∧ s = 1%Z);
  Signer_Sign k d h := Ret (ref_sign (Signer_Public k) d);
  rsa_SignPKCS1v15 k h d := Ret (ref_sign (Signer_Public k) d);
  CheckSignature c a h signed s :=
    if bool_decide (s = ref_sign (Certificate_PublicKey c) (ref_hash h signed)) then Ret ()
    else Err (Sentinel "rsa.ErrVerification");
  asn1_Marshal r s := Ret (itoa r +++ "/" +++ itoa s +++ ".");
  asn1_Unmarshal := ref_asn1_Unmarshal
|}.

Lemma ref_asn1 r s d :
  (0 <= r)%Z → (0 <= s)%Z → asn1_Marshal r s = Ret d → asn1_Unmarshal d = Ret (r, s, "").
Proof.
  intros Hr Hs [= <-]. simpl. unfold ref_asn1_Unmarshal.
  rewrite span_digits_itoa by done. rewrite span_digits_itoa by done.
  by rewrite !digits_value_itoa.
Qed.

#[export] Instance ref_flate : FlateOps := {|
  flate_Compress s := s;
  flate_reads limit s := ([(default 512%Z limit, s)], None)
|}.

(** ** Letters of ASCII *)

Definition lower (c : ascii) : ascii :=
  let n := N_of_ascii c in if ((65 <=? n) && (n <=? 90))%N then ascii_of_N (n + 32) else c.

Fixpoint to_lower (s : string) : string :=
  match s with "" => "" | String c s => String (lower c) (to_lower s) end.

#[export] Instance ref_fold : FoldOps := {| EqualFold s t := to_lower s == to_lower t |}.

#[export] Instance ref_fold_laws : FoldLaws.
Proof.
  split.
  - intros s. apply bool_decide_eq_true_2. done.
  - intros s t. simpl. case_bool_decide; case_bool_decide; congruence.
  - by intros [|c s].
Qed.

(** ** The world: a clock that stands still and a source of one byte *)

Fixpoint repeat_byte (n : nat) : string :=
  match n with O => "" | S n => String "042" (repeat_byte n) end.

#[export] Instance ref_world : World Time := {|
  TimeNow_ t := (t, t);
  SystemNow t := (t, t);
  Clock := None;
  RandReader n t := (t, Some (repeat_byte n));
  ResponseWrite _ t := (t, Ret ())
|}.

(** Addresses without colons, as hosts and as IP addresses. *)
#[export] Instance ref_net : NetOps := {|
  SplitHostPort s :=
    let '(host, port, found) := Cut ":" s in
    if found : bool then Ret (host, port) else Err (Sentinel "net.AddrError");
  ParseAddr s := if s == "" then Err (Sentinel "netip.parseAddrError") else Ret (mkAddr s "");
  Addr_String := Addr_bytes
|}.

(** The ciphertext is the plaintext. *)
#[export] Instance ref_encrypt : EncryptOps Time := {|
  OAEP_Encrypt c k s t := (t, Ret (mkElement "xenc" "EncryptedData" [mkAttr "xmlns" "xenc" "http://www.w3.org/2001/04/xmlenc#"] [TCharData s]))
|}.

#[export] Instance ref_template : TemplateOps := {|
  defaultResponseFormTemplate f :=
    Ret ("<form action=" +++ Form_URL f +++ "><input value=" +++ Form_SAMLResponse f +++ "><input value="
         +++ Form_RelayState f +++ ">")
|}.

(** Decoders for the requests to an identity provider. *)
Definition ref_idp_xml (request : AuthnRequest) (logout : LogoutRequest) : XmlOps := {|
  xrv_Validate _ := Ret ();
  Unmarshal_Response _ := Ret zero_Response;
  Unmarshal_ArtifactResponse _ := Ret zero_ArtifactResponse;
  Unmarshal_Assertion _ := Ret zero_Assertion;
  Unmarshal_LogoutResponse _ := Ret zero_LogoutResponse;
  Unmarshal_LogoutRequest _ := Ret logout;
  Unmarshal_AuthnRequest _ := Ret request
|}.

(** ** Texts of values *)

(** The binary digits of a number as text. *)
Fixpoint to_digits (p : positive) : string :=
  match p with
  | xH => ""
  | xO p => String "0" (to_digits p)
  | xI p => String "1" (to_digits p)
  end.

Fixpoint of_digits (s : string) : option positive :=
  match s with
  | "" => Some xH
  | String c s =>
      if Ascii.eqb c "0" then xO <$> of_digits s
      else if Ascii.eqb c "1" then xI <$> of_digits s else None
  end.

Lemma of_to_digits p : of_digits (to_digits p) = Some p.
Proof. induction p as [p IH|p IH|]; simpl; [by rewrite IH..|done]. Qed.

Definition read_text {B} `{Countable B} (s : string) : outcome B :=
  or_err (of_digits s ≫= decode) (Sentinel "json.SyntaxError").

Lemma read_text_encode {B} `{Countable B} (b : B) : read_text (to_digits (encode b)) = Ret b.
Proof. unfold read_text. rewrite of_to_digits. simpl. by rewrite decode_encode. Qed.

(** ** Metadata *)

(** The metadata of a service provider with the entity ID and one role. *)
Definition plain_metadata (entityID : string) : EntityDescriptor :=
  mkEntityDescriptor entityID "" 0 0 None [] [] [zero_SPSSODescriptor] [] [] [] None None None [].

#[export] Instance ref_metadata : MetadataXml := {|
  Unmarshal_EntityDescriptor text :=
    if text == "" then Err (Sentinel "io.EOF") else Ret (plain_metadata text);
  Unmarshal_EntitiesDescriptor _ := Err (Sentinel "io.EOF");
  MarshalIndent_EntityDescriptor := EntityDescriptor_EntityID;
  Encode_EntityDescriptor m := Ret (EntityDescriptor_EntityID m)
|}.

(** A text with apostrophes for its quotation marks. *)
Fixpoint quoted (s : string) : string :=
  match s with
  | "" => ""
  | String c r => String (if Ascii.eqb c "'" then "034" else c) (quoted r)
  end.
