(* ===== verification/ServiceProviderSpec.v ===== *)
(** * ServiceProviderSpec: what an accepted response guarantees

    The conditions of SAML on an assertion as propositions, exact
    characterisations of the validation functions, and the soundness of
    [ParseXMLResponse] and [ParseXMLArtifactResponse]: whatever they return is
    the content of a verified signature and meets all the conditions. *)

From stdpp Require Import base option list strings.
From Stdlib Require Import ZArith Lia Ascii.
From S2P Require Import Prelude Go Encoding Etree C14n Schema Env XmlTree ServiceProvider Reference.

Open Scope string_scope.
Open Scope Z_scope.

(** ** The conditions *)

Section conditions.
Context `{UrlI : UrlOps} `{VarsI : PackageVars}.

(** A bearer confirmation the service provider accepts at [now]. *)
Record bearer_ok (sp : ServiceProvider) (ids : list string) (now : Time)
    (sc : SubjectConfirmation) : Prop := {
  bearer_method : SubjectConfirmation_Method sc = cmBearer;
  bearer_data : ∃ data,
    SubjectConfirmation_SubjectConfirmationData sc = Some data ∧
    (SubjectConfirmationData_InResponseTo data ∈ ids ∨
     SP_AllowIDPInitiated sp = true ∧ SubjectConfirmationData_InResponseTo data = "") ∧
    SubjectConfirmationData_Recipient data = URL_String (SP_AcsURL sp) ∧
    now <= SubjectConfirmationData_NotOnOrAfter data + MaxClockSkew
}.

Definition conditions_ok (now : Time) (c : Conditions) : Prop :=
  Conditions_NotBefore c - MaxClockSkew <= now <= Conditions_NotOnOrAfter c + MaxClockSkew.

(** Every audience restriction, and there is one, names the provider. *)
Definition audience_ok (sp : ServiceProvider) (a : Assertion) : Prop :=
  match SP_ValidateAudienceRestriction sp with
  | Some f => f a = Ret ()
  | None =>
      ∃ c, Assertion_Conditions a = Some c ∧ Conditions_AudienceRestrictions c ≠ [] ∧
        ∀ r, r ∈ Conditions_AudienceRestrictions c →
          ∃ x, x ∈ AudienceRestriction_Audiences r ∧ Audience_Value x = sp_audience sp
  end.

Record assertion_ok (sp : ServiceProvider) (ids : list string) (now : Time) (a : Assertion)
    : Prop := {
  ok_fresh : now <= Assertion_IssueInstant a + MaxIssueDelay;
  ok_issuer : ∃ m, SP_IDPMetadata sp = Some m ∧
    Issuer_Value (Assertion_Issuer a) = EntityDescriptor_EntityID m;
  ok_subject : ∃ s sc, Assertion_Subject a = Some s ∧ sc ∈ Subject_SubjectConfirmations s ∧
    bearer_ok sp ids now sc;
  ok_conditions : ∀ c, Assertion_Conditions a = Some c → conditions_ok now c;
  ok_audience : audience_ok sp a
}.

Definition request_id_ok (sp : ServiceProvider) (r : Response) (ids : list string) : Prop :=
  match SP_ValidateRequestID sp with
  | Some f => f r ids = Ret ()
  | None => Response_InResponseTo r ∈ ids ∨
      SP_AllowIDPInitiated sp = true ∧ Response_InResponseTo r = ""
  end.

Record response_ok (sp : ServiceProvider) (signed : bool) (ids : list string) (now : Time)
    (currentURL : URL) (r : Response) : Prop := {
  ok_destination : Response_Destination r = "" ∧ signed = false ∨
    Response_Destination r = URL_String currentURL ∨
    Response_Destination r = URL_String (SP_AcsURL sp);
  ok_request_id : request_id_ok sp r ids;
  ok_response_fresh : now <= Response_IssueInstant r + MaxIssueDelay;
  ok_response_issuer : ∀ i, Response_Issuer r = Some i →
    ∃ m, SP_IDPMetadata sp = Some m ∧ Issuer_Value i = EntityDescriptor_EntityID m;
  ok_status : StatusCode_Value (Status_StatusCode (Response_Status r)) = StatusSuccess
}.

Record artifact_ok (sp : ServiceProvider) (artifactID : string) (now : Time) (r : ArtifactResponse)
    : Prop := {
  ok_answers : ArtifactResponse_InResponseTo r = artifactID;
  ok_artifact_fresh : now <= ArtifactResponse_IssueInstant r + MaxIssueDelay;
  ok_artifact_issuer : ∀ i, ArtifactResponse_Issuer r = Some i →
    ∃ m, SP_IDPMetadata sp = Some m ∧ Issuer_Value i = EntityDescriptor_EntityID m;
  ok_artifact_status : StatusCode_Value (Status_StatusCode (ArtifactResponse_Status r)) = StatusSuccess
}.

(** ** Characterisations *)

Lemma validateBearer_ret sp sc ids now u :
  SubjectConfirmation_Method sc = cmBearer →
  validateBearerSubjectConfirmation sp sc ids now = Ret u ↔ bearer_ok sp ids now sc.
Proof.
  intros Hm. unfold validateBearerSubjectConfirmation, Time_Before, Time_Add.
  destruct (SubjectConfirmation_SubjectConfirmationData sc) as [data|] eqn:E;
    [|split; [done|intros [_ (d & ? & _)]; congruence]].
  rewrite !raise_if_bind, raise_if_ret, andb_false_iff, orb_false_iff, !negb_false_iff,
    !bool_decide_eq_true, Z.ltb_ge. split.
  - intros (H1 & H2 & H3). constructor; [done|]. exists data. naive_solver.
  - intros [_ (d & Hd & H1 & H2 & H3)]. rewrite E in Hd. injection Hd as <-. naive_solver.
Qed.

Lemma subject_loop_ret sp ids now failures l u :
  subject_confirmations_loop sp ids now failures l = Ret u ↔
  ∃ sc, sc ∈ l ∧ bearer_ok sp ids now sc.
Proof.
  revert failures. induction l as [|sc l IH]; intros failures; simpl.
  { destruct failures; split; try done; intros (? & []%elem_of_nil & _). }
  assert (Hskip : ¬ bearer_ok sp ids now sc →
    (∃ x, x ∈ l ∧ bearer_ok sp ids now x) ↔ ∃ x, x ∈ sc :: l ∧ bearer_ok sp ids now x).
  { intros Hn. setoid_rewrite elem_of_cons. naive_solver. }
  destruct (bool_decide_reflect (SubjectConfirmation_Method sc = cmBearer)) as [Hm|Hm]; simpl.
  - pose proof (λ u, validateBearer_ret sp sc ids now u Hm) as Hb.
    destruct (validateBearerSubjectConfirmation sp sc ids now) as [[]|e|] eqn:E.
    + destruct u. split; [|done]. intros _. exists sc. rewrite elem_of_cons. split; [by left|].
      by apply (Hb ()).
    + rewrite IH. apply Hskip. intros Hok%(Hb ()). congruence.
    + exfalso. revert E. unfold validateBearerSubjectConfirmation.
      destruct (SubjectConfirmation_SubjectConfirmationData sc); [|done].
      repeat (let E := fresh in intros [E|([] & _ & E)]%bind_panic; [by apply raise_if_panic in E|]; revert E).
      apply raise_if_panic.
  - rewrite IH. apply Hskip. intros [? _]. congruence.
Qed.

Lemma validateSubjectConfirmations_ret sp a ids now u :
  validateSubjectConfirmations sp a ids now = Ret u ↔
  ∃ s sc, Assertion_Subject a = Some s ∧ sc ∈ Subject_SubjectConfirmations s ∧
    bearer_ok sp ids now sc.
Proof.
  unfold validateSubjectConfirmations. destruct (Assertion_Subject a) as [s|].
  - rewrite subject_loop_ret. naive_solver.
  - naive_solver.
Qed.

Lemma validateConditions_ret c now u :
  validateConditions c now = Ret u ↔ ∀ x, c = Some x → conditions_ok now x.
Proof.
  unfold validateConditions, conditions_ok, Time_After, Time_Before, Time_Add.
  destruct c as [x|]; [|destruct u; naive_solver].
  rewrite raise_if_bind, raise_if_ret, !Z.ltb_ge. split.
  - intros ? ? [= <-]. lia.
  - intros Hx. specialize (Hx x eq_refl). lia.
Qed.

Lemma validateAudienceRestriction_ret sp a u :
  validateAudienceRestriction sp a = Ret u ↔ audience_ok sp a.
Proof.
  unfold validateAudienceRestriction, audience_ok.
  destruct (SP_ValidateAudienceRestriction sp) as [f|].
  { rewrite map_err_ret. by destruct u. }
  destruct (Assertion_Conditions a) as [c|]; [|naive_solver].
  rewrite raise_if_bind, for_each_ret, bool_decide_eq_false.
  assert (Hr : ∀ r, raise_if (negb (existsb (λ a, Audience_Value a == sp_audience sp)
        (AudienceRestriction_Audiences r))) (Errorf "assertion Conditions AudienceRestriction does not contain %q" [AStr (sp_audience sp)]) = Ret ()
      ↔ ∃ x, x ∈ AudienceRestriction_Audiences r ∧ Audience_Value x = sp_audience sp).
  { intros r. rewrite raise_if_ret, negb_false_iff, existsb_elem.
    by setoid_rewrite bool_decide_eq_true. }
  setoid_rewrite Hr. naive_solver.
Qed.
End conditions.

Section characterisations.
Context `{UrlI : UrlOps} `{VarsI : PackageVars}.

Lemma validateAssertion_ret sp a ids now u :
  validateAssertion sp a ids now = Ret u ↔ assertion_ok sp ids now a.
Proof.
  unfold validateAssertion, Time_Before, Time_Add.
  rewrite raise_if_bind, bind_ret. setoid_rewrite deref_ret. setoid_rewrite raise_if_bind.
  setoid_rewrite bind_ret. setoid_rewrite validateSubjectConfirmations_ret.
  setoid_rewrite bind_ret. setoid_rewrite validateConditions_ret.
  setoid_rewrite validateAudienceRestriction_ret.
  setoid_rewrite negb_false_iff. setoid_rewrite bool_decide_eq_true. rewrite Z.ltb_ge. split.
  - intros (? & m & Hm & Hi & [] & Hs & [] & Hc & Ha). constructor; eauto.
  - intros [? (m & Hm & Hi) Hs Hc Ha]. split; [done|]. exists m. split_and!; [done..|].
    exists (). split; [done|]. exists (). done.
Qed.

Lemma validateRequestID_ret sp r ids u :
  validateRequestID sp r ids = Ret u ↔ request_id_ok sp r ids.
Proof.
  unfold validateRequestID, request_id_ok.
  destruct (SP_ValidateRequestID sp) as [f|]; [by destruct u|].
  rewrite raise_if_ret, negb_false_iff.
  destruct (SP_AllowIDPInitiated sp && (Response_InResponseTo r == "")) eqn:E.
  - split; [|done]. bool_prop. naive_solver.
  - rewrite existsb_elem. setoid_rewrite bool_decide_eq_true.
    apply andb_false_iff in E. rewrite bool_decide_eq_false in E. split.
    + intros (id & Hid & ->). by left.
    + intros [Hid|[Ha Hr]]; [by eauto|]. destruct E; congruence.
Qed.

Lemma issuer_check_ret sp (issuer : option Issuer) msg u :
  match issuer with
  | None => Ret ()
  | Some issuer =>
      metadata ← deref (SP_IDPMetadata sp);
      raise_if (Issuer_Value issuer != EntityDescriptor_EntityID metadata)
        (Errorf msg [AStr (EntityDescriptor_EntityID metadata)])
  end = Ret u ↔
  ∀ i, issuer = Some i →
    ∃ m, SP_IDPMetadata sp = Some m ∧ Issuer_Value i = EntityDescriptor_EntityID m.
Proof.
  destruct issuer as [i|]; [|destruct u; naive_solver].
  rewrite bind_ret. setoid_rewrite deref_ret. setoid_rewrite raise_if_ret.
  setoid_rewrite negb_false_iff. setoid_rewrite bool_decide_eq_true. naive_solver.
Qed.

Lemma validateResponseAttributes_ret sp r signed ids now url u :
  validateResponseAttributes sp r signed ids now url = Ret u ↔ response_ok sp signed ids now url r.
Proof.
  unfold validateResponseAttributes, Time_Before, Time_Add.
  rewrite raise_if_bind, bind_ret. setoid_rewrite validateRequestID_ret.
  setoid_rewrite raise_if_bind. setoid_rewrite bind_ret. setoid_rewrite issuer_check_ret.
  setoid_rewrite raise_if_ret. setoid_rewrite negb_false_iff. setoid_rewrite bool_decide_eq_true.
  setoid_rewrite Z.ltb_ge.
  rewrite !andb_false_iff, orb_false_iff, !negb_false_iff, !bool_decide_eq_true.
  split.
  - intros (Hd & [] & Hid & Hf & [] & Hi & Hs). constructor; naive_solver.
  - intros [Hd Hid Hf Hi Hs]. split; [naive_solver|]. exists (). do 2 (split; [done|]).
    exists (). done.
Qed.

Lemma validateArtifactResponseAttributes_ret sp r artifactID now u :
  validateArtifactResponseAttributes sp r artifactID now = Ret u ↔ artifact_ok sp artifactID now r.
Proof.
  unfold validateArtifactResponseAttributes, Time_Before, Time_Add.
  rewrite !raise_if_bind, bind_ret. setoid_rewrite issuer_check_ret.
  setoid_rewrite raise_if_ret. setoid_rewrite negb_false_iff. setoid_rewrite bool_decide_eq_true.
  rewrite Z.ltb_ge. split.
  - intros (Hr & Hf & [] & Hi & Hs). by constructor.
  - intros [Hr Hf Hi Hs]. do 2 (split; [done|]). by exists ().
Qed.
End characterisations.

(** ** Where the content comes from *)

Section soundness.
Context `{UrlI : UrlOps} `{VarsI : PackageVars} `{X509I : X509Ops} `{EtreeI : EtreeOps} `{XmlI : XmlOps} `{SigI : SignatureOps} `{EncI : XmlEncOps}.

(** [verifySignature] of [el] returned the content [el']: the provider's
    own verifier accepted the signature, or [Validate] returned the content,
    for certificates that the configuration of the provider designates. *)
Record signature_verified (sp : ServiceProvider) (clock : Time) (el el' : Cursor) : Prop := {
  verified_signature : ∃ s, findChild el dsig_Namespace "Signature" = Ret (Some s);
  verified_content : ∃ certs detached,
    verification_certs sp (cur el) = Ret certs ∧ certs ≠ [] ∧
    (signatureValidationContext el certs clock).2
      = Ret (mkValidationContext certs "ID" clock, detached) ∧
    match SP_SignatureVerifier sp with
    | Some verify => verify (mkValidationContext certs "ID" clock) detached = Ret () ∧
        el' = mkCursor (drop_key_info (cur el)) (ancestors el)
    | None => ValidationContext_Validate (mkValidationContext certs "ID" clock) detached = Ret (Some (cur el')) ∧
        ancestors el' = []
    end
}.

Lemma verification_certs_nonempty sp el certs :
  verification_certs sp el = Ret certs → certs ≠ [].
Proof.
  unfold verification_certs. intros Hc. go_inv. by bool_prop.
Qed.

Lemma signatureValidationContext_ret el certs clock vc d :
  (signatureValidationContext el certs clock).2 = Ret (vc, d) →
  vc = mkValidationContext certs "ID" clock.
Proof.
  unfold signatureValidationContext. cbn [snd]. intros Er.
  repeat (apply bind_ret in Er as (? & _ & Er)). by injection Er.
Qed.

Lemma verifySignature_ret sp clock el el' :
  (verifySignature sp clock el).2 = Ret el' → signature_verified sp clock el el'.
Proof.
  unfold verifySignature. intros Hv.
  destruct (findChild el dsig_Namespace "Signature") as [[s|]| |] eqn:Es; try done.
  destruct (verification_certs sp (cur el)) as [certs| |] eqn:Ec; try done.
  pose proof (verification_certs_nonempty _ _ _ Ec) as Hne.
  change (signatureValidationContext el certs clock) with
    (mkCursor (drop_key_info (cur el)) (ancestors el),
     (signatureValidationContext el certs clock).2) in Hv. cbv beta iota in Hv.
  apply bind_ret in Hv as ([vc d] & Er & Hv).
  pose proof (signatureValidationContext_ret _ _ _ _ _ Er) as Hvc.
  subst vc. constructor; [by eexists|]. exists certs, d. split_and!; [done..|].
  destruct (SP_SignatureVerifier sp); go_inv; done.
Qed.

(** Content that a signature covers: what a verification returned, its
    children, and what is decrypted from it. *)
Inductive trusted (sp : ServiceProvider) (clock : Time) : Cursor → Prop :=
  | trusted_verified el el' : signature_verified sp clock el el' → trusted sp clock el'
  | trusted_child p c : trusted sp clock p → cur c ∈ ChildElements (cur p) →
      ancestors c = cur p :: ancestors p → trusted sp clock c
  | trusted_decrypted p e : trusted sp clock p → decryptElement sp p = Ret (Some e) →
      trusted sp clock (root_cursor e).

Lemma find_children_elem p ns tag l cs c :
  find_children p ns tag l = Ret cs → c ∈ cs →
  ∃ e, e ∈ l ∧ c = child_cursor p e ∧ matches_child p ns tag e = Ret true.
Proof.
  revert cs. induction l as [|e l IH]; simpl; intros cs Hf Hc.
  { injection Hf as <-. by apply elem_of_nil in Hc. }
  apply bind_ret in Hf as (m & Hm & Hf). apply bind_ret in Hf as (cs' & Hcs & Hf).
  injection Hf as <-. setoid_rewrite elem_of_cons.
  destruct m; [apply elem_of_cons in Hc as [->|Hc]|]; [by eauto|..];
    destruct (IH _ Hcs Hc) as (e' & ? & ? & ?); eauto.
Qed.

Lemma findChildren_elem p ns tag cs c :
  findChildren p ns tag = Ret cs → c ∈ cs →
  cur c ∈ ChildElements (cur p) ∧ ancestors c = cur p :: ancestors p ∧ Tag (cur c) = tag.
Proof.
  intros Hf Hc. destruct (find_children_elem _ _ _ _ _ _ Hf Hc) as (e & He & -> & Hm).
  split_and!; [done..|]. unfold matches_child in Hm. simpl.
  destruct (bool_decide_reflect (Tag e = tag)); [done|by injection Hm].
Qed.

Lemma findOneChild_ret p ns tag c :
  findOneChild p ns tag = Ret c → findChildren p ns tag = Ret [c].
Proof.
  unfold findOneChild. intros (cs & Hcs & Hc)%bind_ret.
  destruct cs as [|c' [|]]; go_inv; done.
Qed.

Lemma collect_elem {A B} (f : A → outcome B) els errs xs x :
  collect f els = Ret (errs, xs) → x ∈ xs → ∃ el, el ∈ els ∧ f el = Ret x.
Proof.
  revert errs xs. induction els as [|el els IH]; simpl; intros errs xs Hc Hx.
  { injection Hc as <- <-. by apply elem_of_nil in Hx. }
  setoid_rewrite elem_of_cons.
  destruct (f el) as [y|e|] eqn:E; [..|done];
    apply bind_ret in Hc as ([errs' xs'] & Hc & [= <- <-]).
  - apply elem_of_cons in Hx as [->|Hx]; [by eauto|].
    destruct (IH _ _ Hc Hx) as (el' & ? & ?). eauto.
  - destruct (IH _ _ Hc Hx) as (el' & ? & ?). eauto.
Qed.

(** An assertion of the given element meets the conditions and its content
    is trusted. *)
Definition accepted (sp : ServiceProvider) (ids : list string) (now clock : Time) (a : Assertion)
    : Prop :=
  assertion_ok sp ids now a ∧
  ∃ el, trusted sp clock el ∧ unmarshalElement Unmarshal_Assertion el = Ret a.

(** [a] is read from [el] itself or from what the signature of [el] covers,
    and what it is read from is trusted. *)
Definition read_from (sp : ServiceProvider) (clock : Time) (el : Cursor) (a : Assertion) : Prop :=
  ∃ el', (el' = el ∨ signature_verified sp clock el el') ∧ trusted sp clock el' ∧
    unmarshalElement Unmarshal_Assertion el' = Ret a.

(** The assertions of the response [p]: its children, and the plaintexts of its
    encrypted ones. *)
Inductive assertion_of (sp : ServiceProvider) (p : Cursor) : Cursor → Prop :=
  | assertion_child c cs : findChildren p nsAssertion "Assertion" = Ret cs → c ∈ cs →
      assertion_of sp p c
  | assertion_decrypted c cs e : findChildren p nsAssertion "EncryptedAssertion" = Ret cs → c ∈ cs →
      decryptElement sp c = Ret (Some e) → assertion_of sp p (root_cursor e).

Lemma parseAssertion_ret sp el ids now clock req a :
  parseAssertion sp el ids now clock req = Ret a →
  (req = signatureNotRequired → trusted sp clock el) →
  assertion_ok sp ids now a ∧ read_from sp clock el a.
Proof.
  unfold parseAssertion. intros Hp Htr. apply bind_ret in Hp as (el' & Hel & Hp).
  apply bind_ret in Hp as (a' & Ha & Hp). apply bind_ret in Hp as (u & Hv & [= <-]).
  apply validateAssertion_ret in Hv. split; [done|]. exists el'.
  destruct req; simpl in Hel.
  - apply verifySignature_ret in Hel. split_and!; [by right|by eapply trusted_verified|done].
  - injection Hel as <-. split_and!; auto.
Qed.

Lemma parseEncryptedAssertion_ret sp el ids now clock req a :
  parseEncryptedAssertion sp el ids now clock req = Ret a →
  (req = signatureNotRequired → trusted sp clock el) →
  ∃ e, decryptElement sp el = Ret (Some e) ∧
    assertion_ok sp ids now a ∧ read_from sp clock (root_cursor e) a.
Proof.
  unfold parseEncryptedAssertion. intros Hp Htr.
  apply bind_ret in Hp as (r & Hd & Hp). rewrite map_err_ret in Hd.
  apply bind_ret in Hp as (e & He & Hp). apply deref_ret in He as ->.
  exists e. split; [done|].
  eapply parseAssertion_ret; [done|]. intros Hreq. eapply trusted_decrypted; eauto.
Qed.

(** The content [parseResponse] goes on with is trusted when it requires no
    signature of the assertions. *)
Lemma verifyResponseSignature_ret sp el clock req el' err signed req' :
  verifyResponseSignature sp el clock req = Ret (el', err, signed) →
  assertionRequirement req err = Ret req' →
  (req = signatureNotRequired → trusted sp clock el) →
  req' = signatureNotRequired → trusted sp clock el'.
Proof.
  unfold verifyResponseSignature, assertionRequirement. intros Hv Ha Htr ->.
  destruct req; [|injection Hv as <- _ _; auto].
  destruct (verifySignature sp clock el) as [el1 [el2|e|]] eqn:E; simplify_eq/=.
  - eapply trusted_verified, verifySignature_ret. by rewrite E.
  - by destruct (bool_decide (e = _)).
Qed.

(** [a] is an assertion of the response at [el]: it was read from one of the
    assertions of [el'], the content of [el] to go on with, whose own attributes
    meet the conditions. *)
Definition response_gives (sp : ServiceProvider) (ids : list string) (now clock : Time) (url : URL)
    (requirement : signatureRequirement) (el : Cursor) (a : Assertion) : Prop :=
  ∃ el' err signed r c,
    verifyResponseSignature sp el clock requirement = Ret (el', err, signed) ∧
    unmarshalElement Unmarshal_Response el' = Ret r ∧ response_ok sp signed ids now url r ∧
    assertion_of sp el' c ∧ assertion_ok sp ids now a ∧ read_from sp clock c a.

Lemma parseResponse_gives sp el ids now clock req url a :
  parseResponse sp el ids now clock req url = Ret a →
  (req = signatureNotRequired → trusted sp clock el) →
  response_gives sp ids now clock url req el a.
Proof.
  unfold parseResponse. intros Hp Htr.
  apply bind_ret in Hp as ([[el' err] signed] & Hv & Hp).
  apply bind_ret in Hp as (r & Hr & Hp). rewrite map_err_ret in Hr.
  apply bind_ret in Hp as (u & Hok & Hp). apply validateResponseAttributes_ret in Hok.
  apply bind_ret in Hp as (req' & Hreq & Hp).
  pose proof (verifyResponseSignature_ret _ _ _ _ _ _ _ _ Hv Hreq Htr) as Htr'.
  apply bind_ret in Hp as (els & Hels & Hp). apply bind_ret in Hp as ([e1 a1] & Hc1 & Hp).
  apply bind_ret in Hp as (els2 & Hels2 & Hp). apply bind_ret in Hp as ([e2 a2] & Hc2 & Hp).
  simpl in Hp.
  assert (Ha : a ∈ (a1 ++ a2)%list).
  { destruct (a1 ++ a2)%list; [by destruct (e1 ++ e2)%list|]. injection Hp as ->. left. }
  assert (Hchild : ∀ tag cs c, findChildren el' nsAssertion tag = Ret cs → c ∈ cs →
    req' = signatureNotRequired → trusted sp clock c).
  { intros tag cs c Hcs Hc Hn. destruct (findChildren_elem _ _ _ _ _ Hcs Hc) as (? & ? & _).
    eapply trusted_child; eauto. }
  exists el', err, signed, r. apply elem_of_app in Ha as [Ha|Ha].
  - destruct (collect_elem _ _ _ _ _ Hc1 Ha) as (c & Hc & Hpe).
    apply parseEncryptedAssertion_ret in Hpe as (e & He & Hpe); [|by eauto].
    exists (root_cursor e). split_and!; [done..| |apply Hpe|apply Hpe]. by eapply assertion_decrypted.
  - destruct (collect_elem _ _ _ _ _ Hc2 Ha) as (c & Hc & Hpe).
    apply parseAssertion_ret in Hpe; [|by eauto].
    exists c. split_and!; [done..| |apply Hpe|apply Hpe]. by eapply assertion_child.
Qed.

Lemma response_gives_accepted sp ids now clock url req el a :
  response_gives sp ids now clock url req el a → accepted sp ids now clock a.
Proof.
  intros (el' & err & signed & r & c & _ & _ & _ & _ & Ha & el2 & _ & Ht & Hu). split; [done|]. by exists el2.
Qed.

Lemma parseResponse_ret sp el ids now clock req url a :
  parseResponse sp el ids now clock req url = Ret a →
  (req = signatureNotRequired → trusted sp clock el) → accepted sp ids now clock a.
Proof. intros Hp Htr. by eapply response_gives_accepted, parseResponse_gives. Qed.
End soundness.

(** ** Properties *)

Section properties.
Context `{UrlI : UrlOps} `{VarsI : PackageVars} `{X509I : X509Ops} `{EtreeI : EtreeOps} `{XmlI : XmlOps} `{SigI : SignatureOps} `{EncI : XmlEncOps}.

Lemma ParseXMLResponse_gives sp xml ids url now clock a :
  ParseXMLResponse sp xml ids url now clock = Ret a →
  ∃ root, ReadFromBytes xml = Ret (Some root) ∧
    response_gives sp ids now clock url signatureRequired (root_cursor root) a.
Proof.
  unfold ParseXMLResponse. intros Hp.
  apply bind_ret in Hp as (u & _ & Hp). apply bind_ret in Hp as (o & Ho & Hp).
  apply bind_ret in Hp as (root & Hr & Hp). rewrite or_err_ret in Hr. subst o.
  rewrite map_err_ret in Ho. rewrite map_err_ret in Hp. exists root. split; [done|].
  by apply parseResponse_gives in Hp.
Qed.

Lemma ParseXMLResponse_ret sp xml ids url now clock a :
  ParseXMLResponse sp xml ids url now clock = Ret a →
  accepted sp ids now clock a ∧
  ∃ root el r err signed,
    ReadFromBytes xml = Ret (Some root) ∧
    verifyResponseSignature sp (root_cursor root) clock signatureRequired = Ret (el, err, signed) ∧
    unmarshalElement Unmarshal_Response el = Ret r ∧
    response_ok sp signed ids now url r.
Proof.
  intros (root & Hroot & Hg)%ParseXMLResponse_gives. split; [by eapply response_gives_accepted|].
  destruct Hg as (el & err & signed & r & c & ? & ? & ? & _). by exists root, el, r, err, signed.
Qed.

(** C1: soundness. An assertion that [ParseXMLResponse] returns meets every
    condition (freshness, issuer, bearer confirmation, validity window,
    audience), is the content of a signature that verified with a
    certificate the configuration designates, and came in a response that meets
    the conditions on responses: the element it was read from is the
    document's root or, if the root is signed, what the signature covers. *)
Theorem ParseXMLResponse_sound sp xml ids url now clock a :
  ParseXMLResponse sp xml ids url now clock = Ret a →
  accepted sp ids now clock a ∧
  ∃ root el r err signed,
    ReadFromBytes xml = Ret (Some root) ∧
    verifyResponseSignature sp (root_cursor root) clock signatureRequired = Ret (el, err, signed) ∧
    unmarshalElement Unmarshal_Response el = Ret r ∧
    response_ok sp signed ids now url r.
Proof. apply ParseXMLResponse_ret. Qed.

Lemma trusted_validated sp clock el :
  trusted sp clock el → SP_SignatureVerifier sp = None →
  ∃ vc e e', ValidationContext_Validate vc e = Ret e'.
Proof.
  intros Ht Hn. induction Ht as [el el' Hv| |]; [|done..].
  destruct Hv as [_ (certs & d & _ & _ & _ & Hv)]. rewrite Hn in Hv. naive_solver.
Qed.

(** No signature, no assertion. If the validator accepts nothing and the
    configuration does not override it, [ParseXMLResponse] never returns an
    assertion, whatever the document, encrypted or not. *)
Theorem ParseXMLResponse_needs_signature sp xml ids url now clock a
    (Hno : ∀ vc e e', ValidationContext_Validate vc e ≠ Ret e')
    (Hver : SP_SignatureVerifier sp = None) :
  ParseXMLResponse sp xml ids url now clock ≠ Ret a.
Proof.
  unfold ParseXMLResponse. intros Hp.
  apply bind_ret in Hp as (u & _ & Hp). apply bind_ret in Hp as (o & Ho & Hp).
  apply bind_ret in Hp as (root & Hr & Hp). rewrite map_err_ret in Hp.
  apply parseResponse_ret in Hp as [_ (el & Ht & _)]; [|done].
  destruct (trusted_validated _ _ _ Ht Hver) as (vc & e & e' & Hv). by apply Hno in Hv.
Qed.

(** [a] is an assertion of the response in the artifact response in the body of
    the envelope [root], and the artifact response meets the conditions. *)
Definition artifact_response_gives (sp : ServiceProvider) (ids : list string) (artifactID : string)
    (now clock : Time) (url : URL) (root : Element) (a : Assertion) : Prop :=
  ∃ body el0 el err signed r req c,
    NamespaceURI (root_cursor root) = nsSoap ∧ Tag root = "Envelope" ∧
    findOneChild (root_cursor root) nsSoap "Body" = Ret body ∧
    findOneChild body nsProtocol "ArtifactResponse" = Ret el0 ∧
    verifyResponseSignature sp el0 clock signatureRequired = Ret (el, err, signed) ∧
    unmarshalElement Unmarshal_ArtifactResponse el = Ret r ∧
    artifact_ok sp artifactID now r ∧
    assertionRequirement signatureRequired err = Ret req ∧
    findOneChild el nsProtocol "Response" = Ret c ∧
    response_gives sp ids now clock url req c a.

Lemma ParseXMLArtifactResponse_gives sp xml ids artifactID url now clock a :
  ParseXMLArtifactResponse sp xml ids artifactID url now clock = Ret a →
  ∃ root, ReadFromBytes xml = Ret (Some root) ∧
    artifact_response_gives sp ids artifactID now clock url root a.
Proof.
  unfold ParseXMLArtifactResponse, parseArtifactResponse. intros Hp.
  apply bind_ret in Hp as (u & _ & Hp). apply bind_ret in Hp as (o & Ho & Hp).
  apply bind_ret in Hp as (root & Hr & Hp). rewrite or_err_ret in Hr. subst o.
  rewrite map_err_ret in Ho. apply raise_if_bind in Hp as (He & Hp).
  apply bind_ret in Hp as (body & Hb & Hp). rewrite map_err_ret in Hb.
  apply bind_ret in Hp as (el0 & Hel0 & Hp). rewrite map_err_ret in Hel0.
  apply bind_ret in Hp as (str & _ & Hp). rewrite map_err_ret in Hp.
  apply bind_ret in Hp as ([[el err] signed] & Hv & Hp).
  apply bind_ret in Hp as (r & Hr & Hp). apply bind_ret in Hp as (u2 & Hok & Hp).
  apply validateArtifactResponseAttributes_ret in Hok.
  apply bind_ret in Hp as (req & Hreq & Hp). apply bind_ret in Hp as (c & Hc & Hp).
  pose proof (verifyResponseSignature_ret _ _ _ _ _ _ _ _ Hv Hreq ltac:(done)) as Htr.
  pose proof (findOneChild_ret _ _ _ _ Hc) as Hc0.
  destruct (findChildren_elem _ _ _ _ c Hc0 ltac:(left)) as (Hc1 & Hc2 & _).
  apply parseResponse_gives in Hp. 2: { intros ->. eapply trusted_child; eauto. }
  exists root. split; [done|]. bool_prop. by exists body, el0, el, err, signed, r, req, c.
Qed.

Lemma ParseXMLArtifactResponse_ret sp xml ids artifactID url now clock a :
  ParseXMLArtifactResponse sp xml ids artifactID url now clock = Ret a →
  accepted sp ids now clock a ∧
  ∃ el r, unmarshalElement Unmarshal_ArtifactResponse el = Ret r ∧
    ArtifactResponse_InResponseTo r = artifactID ∧
    now <= ArtifactResponse_IssueInstant r + MaxIssueDelay ∧
    StatusCode_Value (Status_StatusCode (ArtifactResponse_Status r)) = StatusSuccess.
Proof.
  intros (root & _ & body & el0 & el & err & signed & r & req & c & _ & _ & _ & _ & _ & Hr & Hok & _ & _ & Hg)
    %ParseXMLArtifactResponse_gives.
  split; [by eapply response_gives_accepted|]. exists el, r. split; [done|]. by destruct Hok.
Qed.

(** Soundness of the artifact binding. The artifact response answers the
    request that was sent and has the status Success, and the assertion is
    accepted as in a direct response: the signature may be the artifact
    response's, the response's or the assertion's. *)
Theorem ParseXMLArtifactResponse_sound sp xml ids artifactID url now clock a :
  ParseXMLArtifactResponse sp xml ids artifactID url now clock = Ret a →
  accepted sp ids now clock a ∧
  ∃ el r, unmarshalElement Unmarshal_ArtifactResponse el = Ret r ∧
    ArtifactResponse_InResponseTo r = artifactID ∧
    now <= ArtifactResponse_IssueInstant r + MaxIssueDelay ∧
    StatusCode_Value (Status_StatusCode (ArtifactResponse_Status r)) = StatusSuccess.
Proof. apply ParseXMLArtifactResponse_ret. Qed.

(** C39: [validateAssertion] accepts exactly the assertions that meet the
    conditions. *)
Theorem validateAssertion_iff sp a ids now :
  validateAssertion sp a ids now = Ret () ↔ assertion_ok sp ids now a.
Proof. apply validateAssertion_ret. Qed.

(** The attributes of a response are accepted exactly when they meet the
    conditions: the destination is one of the two URLs (or is absent from an
    unsigned response), the request is one that was sent, the response is
    fresh, from the configured provider if it names one, and successful. *)
Theorem validateResponseAttributes_iff sp r signed ids now url :
  validateResponseAttributes sp r signed ids now url = Ret () ↔
  response_ok sp signed ids now url r.
Proof. apply validateResponseAttributes_ret. Qed.

Lemma map_err_err {A} g (o : outcome A) e :
  map_err g o = Err e ↔ ∃ e', o = Err e' ∧ e = g e'.
Proof. destruct o; simpl; naive_solver. Qed.

(** Every error of [ParseXMLResponse] is an [InvalidResponseError] that
    carries the response and the time, as its documentation says. *)
Theorem ParseXMLResponse_error sp xml ids url now clock e :
  ParseXMLResponse sp xml ids url now clock = Err e →
  ∃ private, e = InvalidResponseError private xml now.
Proof.
  unfold ParseXMLResponse. intros Hp.
  apply bind_err in Hp as [Hp|(u & _ & Hp)]; [apply map_err_err in Hp as (? & _ & ->); by eexists|].
  apply bind_err in Hp as [Hp|(o & _ & Hp)]; [apply map_err_err in Hp as (? & _ & ->); by eexists|].
  apply bind_err in Hp as [Hp|(root & _ & Hp)]; [destruct o; simplify_eq/=; by eexists|].
  apply map_err_err in Hp as (? & _ & ->). by eexists.
Qed.

Lemma collect_panic {A B} (f : A → outcome B) els el :
  el ∈ els → f el = Panic → collect f els = Panic.
Proof.
  induction els as [|x els IH]; [by intros ?%elem_of_nil|].
  intros [->|Hel]%elem_of_cons Hf; simpl; [by rewrite Hf|].
  rewrite (IH Hel Hf). by destruct (f x).
Qed.

(** An unsigned response whose attributes are acceptable makes the call
    panic when one of its encrypted assertions decrypts to a document without
    a root element: [doc.Root()] is nil and is dereferenced before any
    signature is checked. *)
Theorem parseResponse_panics_on_empty_plaintext sp el el' r ids now clock url els c
    (Hsig : verifyResponseSignature sp el clock signatureRequired
      = Ret (el', Some errSignatureElementNotPresent, false))
    (Hr : unmarshalElement Unmarshal_Response el' = Ret r)
    (Hok : response_ok sp false ids now url r)
    (Hels : findChildren el' nsAssertion "EncryptedAssertion" = Ret els)
    (Hc : c ∈ els)
    (Hdec : decryptElement sp c = Ret None) :
  parseResponse sp el ids now clock signatureRequired url = Panic.
Proof.
  unfold parseResponse. rewrite Hsig, ret_bind, Hr. cbn [map_err]. rewrite ret_bind.
  rewrite (proj2 (validateResponseAttributes_ret _ _ _ _ _ _ ()) Hok), ret_bind.
  assert (Hreq : assertionRequirement signatureRequired (Some errSignatureElementNotPresent)
    = Ret signatureRequired) by done.
  rewrite Hreq, ret_bind, Hels, ret_bind.
  rewrite (collect_panic _ els c); [done..|].
  unfold parseEncryptedAssertion. by rewrite Hdec.
Qed.
End properties.

(** ** Witnesses *)

Module Examples.
Definition idp : EntityDescriptor :=
  let k := mkKeyDescriptor "signing" (mkKeyInfo (mkX509Data [mkX509Certificate (base64_Encode "cert")])) [] in
  let role := mkRoleDescriptor "" None "" "" "" None [k] None [] in
  let sso := mkSSODescriptor role [] [] [] [] in
  mkEntityDescriptor "idp" "" 0 0 None [] [mkIDPSSODescriptor sso None [] [] [] [] [] []] [] [] [] []
    None None None [].

Definition sp : ServiceProvider :=
  mkServiceProvider "sp" None None [] None (url_of "metadata") (url_of "acs") (url_of "slo")
    (Some idp) None None None "" 0 None None false "" None "" [] None None.

Definition assertion : Assertion :=
  mkAssertion "a1" 1000 "2.0" (mkIssuer "" "" "" "" "idp") None
    (Some (mkSubject None [mkSubjectConfirmation cmBearer None
      (Some (mkSubjectConfirmationData 0 2000 "https:acs" "req1" ""))]))
    (Some (mkConditions 900 2000 [mkAudienceRestriction [mkAudience "sp"]] None None)) [] [].

Definition response : Response :=
  mkResponse "r1" "req1" "2.0" 1000 "https:acs" "" (Some (mkIssuer "" "" "" "" "idp")) None
    (mkStatus (mkStatusCode StatusSuccess None) None None) None None.

Definition artifact : ArtifactResponse :=
  mkArtifactResponse "ar1" "art1" "2.0" 1000 None None
    (mkStatus (mkStatusCode StatusSuccess None) None None) zero_Response.

Definition signature_el : Element :=
  mkElement "ds" "Signature" [mkAttr "xmlns" "ds" dsig_Namespace; mkAttr "" "key" "cert"] [].

Definition assertion_el (signed : bool) : Element :=
  mkElement "saml" "Assertion" [mkAttr "xmlns" "saml" nsAssertion]
    (if signed then [TElement signature_el] else []).

Definition response_el (c : list Token) : Element :=
  mkElement "samlp" "Response" [mkAttr "xmlns" "samlp" nsProtocol] c.

Definition document (c : list Token) : string := write_element (response_el c).

#[local] Existing Instance default_vars.
#[local] Instance xml : XmlOps := ref_xml response artifact assertion.

Definition run (c : list Token) : outcome Assertion :=
  ParseXMLResponse sp (document c) ["req1"] (url_of "acs") 1500 1500.

Example accepts_signed_assertion : run [TElement (assertion_el true)] = Ret assertion.
Proof. by vm_compute. Qed.

Example accepts_signed_response :
  run [TElement signature_el; TElement (assertion_el false)] = Ret assertion.
Proof. by vm_compute. Qed.

Example rejects_unsigned : is_ret (run [TElement (assertion_el false)]) = false.
Proof. by vm_compute. Qed.

Lemma ParseXMLResponse_sound_witness :
  accepted sp ["req1"] 1500 1500 assertion ∧
  ∃ root el r err signed,
    ReadFromBytes (document [TElement (assertion_el true)]) = Ret (Some root) ∧
    verifyResponseSignature sp (root_cursor root) 1500 signatureRequired = Ret (el, err, signed) ∧
    unmarshalElement Unmarshal_Response el = Ret r ∧
    response_ok sp signed ["req1"] 1500 (url_of "acs") r.
Proof. apply ParseXMLResponse_sound. vm_compute. reflexivity. Defined.

(** A validator that accepts nothing. *)
Definition reject_all : SignatureOps := {|
  ValidationContext_Validate _ _ := Err (Sentinel "dsig.ErrInvalidSignature")
|}.

Lemma ParseXMLResponse_needs_signature_witness :
  ParseXMLResponse (SigI := reject_all) sp (document [TElement (assertion_el true)])
    ["req1"] (url_of "acs") 1500 1500 ≠ Ret assertion.
Proof.
  apply (ParseXMLResponse_needs_signature (SigI := reject_all)); [done|reflexivity].
Defined.

Definition soap (c : list Token) : string :=
  write_element (mkElement "s" "Envelope" [mkAttr "xmlns" "s" nsSoap]
    [TElement (mkElement "s" "Body" []
      [TElement (mkElement "samlp" "ArtifactResponse" [mkAttr "xmlns" "samlp" nsProtocol] c)])]).

Lemma ParseXMLArtifactResponse_sound_witness :
  accepted sp ["req1"] 1500 1500 assertion ∧
  ∃ el r, unmarshalElement Unmarshal_ArtifactResponse el = Ret r ∧
    ArtifactResponse_InResponseTo r = "art1" ∧
    1500 <= ArtifactResponse_IssueInstant r + MaxIssueDelay ∧
    StatusCode_Value (Status_StatusCode (ArtifactResponse_Status r)) = StatusSuccess.
Proof.
  apply (ParseXMLArtifactResponse_sound sp
    (soap [TElement (response_el [TElement (assertion_el true)])]) ["req1"] "art1" (url_of "acs")).
  vm_compute. reflexivity.
Defined.

Lemma ParseXMLResponse_error_witness :
  ∃ private, InvalidResponseError errSignatureElementNotPresent
    (document [TElement (assertion_el false)]) 1500 =
    InvalidResponseError private (document [TElement (assertion_el false)]) 1500.
Proof.
  apply (ParseXMLResponse_error sp _ ["req1"] (url_of "acs") 1500 1500).
  vm_compute. reflexivity.
Defined.

(** An encrypted assertion whose plaintext is empty. *)
Definition encrypted_el : Element :=
  mkElement "saml" "EncryptedAssertion" [mkAttr "xmlns" "saml" nsAssertion]
    [TElement (mkElement "xenc" "EncryptedData"
      [mkAttr "xmlns" "xenc" "http://www.w3.org/2001/04/xmlenc#"] [])].

Lemma parseResponse_panics_witness :
  parseResponse sp (root_cursor (response_el [TElement encrypted_el])) ["req1"] 1500 1500
    signatureRequired (url_of "acs") = Panic.
Proof.
  eapply (parseResponse_panics_on_empty_plaintext sp _
    (root_cursor (response_el [TElement encrypted_el])) response _ _ _ _
    [child_cursor (root_cursor (response_el [TElement encrypted_el])) encrypted_el]
    (child_cursor (root_cursor (response_el [TElement encrypted_el])) encrypted_el)).
  - vm_compute. reflexivity.
  - vm_compute. reflexivity.
  - apply (validateResponseAttributes_ret _ _ _ _ _ _ ()). vm_compute. reflexivity.
  - vm_compute. reflexivity.
  - left.
  - vm_compute. reflexivity.
Defined.
End Examples.
