(* ===== verification/DSig.v ===== *)
(** * DSig: [src/internal/dsig]

    [SigningContext] of [sign.go], the ECDSA signature formats of [ecdsa.go]
    and [ValidationContext] of [validate.go].  A [types.Signature] keeps the
    path of the element it was read from.  [findSignature] edits the tree while
    it traverses it, so its traversal carries the tree and visits paths. *)

From stdpp Require Import base option list gmap strings sets.
From Stdlib Require Import ZArith Lia Ascii.
From S2P Require Import Prelude Go Encoding Etree C14n Schema Env.

Open Scope string_scope.

(** ** Constants *)

Definition Namespace := "http://www.w3.org/2000/09/xmldsig#".
Definition DefaultPrefix := "ds".
Definition DefaultIdAttr := "ID".
Definition AlgorithmAttr := "Algorithm".
Definition URIAttr := "URI".
Definition EnvelopedSignatureAltorithmId := "http://www.w3.org/2000/09/xmldsig#enveloped-signature".

Definition RSASHA1SignatureMethod := "http://www.w3.org/2000/09/xmldsig#rsa-sha1".
Definition RSASHA256SignatureMethod := "http://www.w3.org/2001/04/xmldsig-more#rsa-sha256".
Definition RSASHA384SignatureMethod := "http://www.w3.org/2001/04/xmldsig-more#rsa-sha384".
Definition RSASHA512SignatureMethod := "http://www.w3.org/2001/04/xmldsig-more#rsa-sha512".
Definition ECDSASHA1SignatureMethod := "http://www.w3.org/2001/04/xmldsig-more#ecdsa-sha1".
Definition ECDSASHA256SignatureMethod := "http://www.w3.org/2001/04/xmldsig-more#ecdsa-sha256".
Definition ECDSASHA384SignatureMethod := "http://www.w3.org/2001/04/xmldsig-more#ecdsa-sha384".
Definition ECDSASHA512SignatureMethod := "http://www.w3.org/2001/04/xmldsig-more#ecdsa-sha512".

Definition digestAlgorithmIdentifiers (h : Hash) : string :=
  match h with
  | SHA1 => "http://www.w3.org/2000/09/xmldsig#sha1"
  | SHA256 => "http://www.w3.org/2001/04/xmlenc#sha256"
  | SHA384 => "http://www.w3.org/2001/04/xmldsig-more#sha384"
  | SHA512 => "http://www.w3.org/2001/04/xmlenc#sha512"
  end.

Definition all_hashes : list Hash := [SHA1; SHA256; SHA384; SHA512].

(** The map [init] builds from [digestAlgorithmIdentifiers]. *)
Definition digestAlgorithmsByIdentifier (id : string) : option Hash :=
  first_that (λ h, digestAlgorithmIdentifiers h == id) all_hashes.

Definition signatureMethodIdentifiers (algo : PublicKeyAlgorithm) (h : Hash) : option string :=
  match algo, h with
  | RSA, SHA1 => Some RSASHA1SignatureMethod
  | RSA, SHA256 => Some RSASHA256SignatureMethod
  | RSA, SHA384 => Some RSASHA384SignatureMethod
  | RSA, SHA512 => Some RSASHA512SignatureMethod
  | ECDSA, SHA1 => Some ECDSASHA1SignatureMethod
  | ECDSA, SHA256 => Some ECDSASHA256SignatureMethod
  | ECDSA, SHA384 => Some ECDSASHA384SignatureMethod
  | ECDSA, SHA512 => Some ECDSASHA512SignatureMethod
  | UnknownPublicKeyAlgorithm, _ => None
  end.

Definition signatureMethodInfos : list (PublicKeyAlgorithm * Hash) :=
  map (pair RSA) all_hashes ++ map (pair ECDSA) all_hashes.

(** The map [init] builds from [signatureMethodIdentifiers], which is also
    [x509SignatureAlgorithmByIdentifier]. *)
Definition signatureMethodsByIdentifier (id : string) : option (PublicKeyAlgorithm * Hash) :=
  first_that (λ '(a, h), bool_decide (signatureMethodIdentifiers a h = Some id)) signatureMethodInfos.

(** ** Signature types *)

Record Transform := mkTransform {
  Transform_Algorithm : string;
  Transform_InclusiveNamespaces : option string   (* its PrefixList *)
}.

Record Reference := mkReference {
  Reference_URI : string;
  Reference_DigestValue : string;
  Reference_DigestAlgo : string;
  Reference_Transforms : list Transform
}.

Record SignedInfo := mkSignedInfo {
  SignedInfo_CanonicalizationMethod : string;
  SignedInfo_SignatureMethod : string;
  SignedInfo_References : list Reference
}.

(** [el] is the path of the underlying element. *)
Record Signature := mkSignature {
  Signature_SignedInfo : option SignedInfo;
  Signature_SignatureValue : option string;
  Signature_KeyInfo : option (list string);      (* the certificates of its X509Data *)
  Signature_el : list nat
}.

(** [xml.Unmarshal] into the signature types. *)
Class SignatureXmlOps := {
  Unmarshal_SignedInfo : string → outcome SignedInfo;
  Unmarshal_Signature : string → outcome (option SignedInfo * option string * option (list string))
}.

Definition ErrMissingSignature := Sentinel "dsig.ErrMissingSignature".
Definition ErrInvalidSignature := Sentinel "dsig.ErrInvalidSignature".

(** ** ECDSA signatures *)

(** [(b + 7) / 8] for the bit length of the order. *)
Definition ecdsaFieldSize (public : PublicKey) : nat :=
  match public with
  | ECDSAPublicKey _ _ N_BitLen => Z.to_nat ((N_BitLen + 7) / 8)
  | _ => 0
  end.

(** [new(big.Int).SetBytes(s)] *)
Fixpoint SetBytes_acc (acc : Z) (s : string) : Z :=
  match s with
  | "" => acc
  | String c s => SetBytes_acc (acc * 256 + Z.of_N (N_of_ascii c))%Z s
  end.

Definition SetBytes (s : string) : Z := SetBytes_acc 0 s.

(** [x.FillBytes(make([]byte, n))]: big-endian, zero-extended. *)
Fixpoint FillBytes (n : nat) (x : Z) : string :=
  match n with
  | O => ""
  | S n => FillBytes n (x / 256) +++ String (ascii_of_N (Z.to_N (x mod 256))) ""
  end.

Fixpoint split_at (n : nat) (s : string) : string * string :=
  match n, s with
  | S n, String c s => let '(a, b) := split_at n s in (String c a, b)
  | _, _ => ("", s)
  end.

Section ecdsa.
Context `{CryptoI : CryptoOps}.

Definition value_in_range (size : nat) (x : Z) : bool :=
  (0 <? x)%Z && (x <? 2 ^ (8 * Z.of_nat size))%Z.

Definition ecdsaDERToRaw (public : PublicKey) (der : string) : outcome string :=
  u ← map_err (Wrap "invalid ECDSA signature from signer: %w" []) (asn1_Unmarshal der);
  let '(r, s, rest) := u in
  _ ← raise_if (rest != "") (Errorf "invalid ECDSA signature from signer: trailing data" []);
  let size := ecdsaFieldSize public in
  _ ← raise_if (negb (value_in_range size r) || negb (value_in_range size s))
    (Errorf "invalid ECDSA signature from signer: value out of range" []);
  Ret (FillBytes size r +++ FillBytes size s).

Definition ecdsaRawToDER (public : PublicKey) (raw : string) : outcome string :=
  let size := ecdsaFieldSize public in
  _ ← raise_if (negb (Nat.eqb (String.length raw) (2 * size)))
    (Errorf "invalid ECDSA signature length %d, expected %d"
       [AInt (Z.of_nat (String.length raw)); AInt (2 * Z.of_nat size)]);
  let '(r, s) := split_at size raw in
  asn1_Marshal (SetBytes r) (SetBytes s).

Definition checkSignature (cert : Certificate) (algorithm : PublicKeyAlgorithm * Hash)
    (signed signature : string) : outcome () :=
  signature ←
    (if is_ecdsa (Certificate_PublicKey cert) && (algorithm.1 == ECDSA)
     then ecdsaRawToDER (Certificate_PublicKey cert) signature
     else Ret signature);
  CheckSignature cert algorithm.1 algorithm.2 signed signature.

Definition DefaultECDSASignatureMethod (N_BitLen : Z) : string :=
  if (N_BitLen <=? 256)%Z then ECDSASHA256SignatureMethod
  else if (N_BitLen <=? 384)%Z then ECDSASHA384SignatureMethod
  else ECDSASHA512SignatureMethod.
End ecdsa.

(** ** Signing *)

(** [X509KeyStore], and [X509ChainStore] if it implements it. *)
Record X509KeyStore := mkX509KeyStore {
  GetKeyPair : outcome (Signer * string);
  GetChain : option (outcome (list string))
}.

Record SigningContext := mkSigningContext {
  SigningContext_Hash : Hash;
  SigningContext_KeyStore : option X509KeyStore;
  SigningContext_IdAttribute : string;
  SigningContext_Prefix : string;
  SigningContext_Canonicalizer : Canonicalizer;
  SigningContext_signer : option Signer;
  SigningContext_certs : list string
}.

Definition NewDefaultSigningContext (ks : X509KeyStore) : SigningContext :=
  mkSigningContext SHA256 (Some ks) DefaultIdAttr DefaultPrefix (c14N11Canonicalizer false) None [].

Definition NewSigningContext (signer : option Signer) (certs : list string)
    : outcome SigningContext :=
  _ ← raise_if (bool_decide (signer = None :> option Signer))
    (Errorf "signer cannot be nil for NewSigningContext" []);
  Ret (mkSigningContext SHA256 None DefaultIdAttr DefaultPrefix (c14N11Canonicalizer false) signer certs).

Section signing.
Context `{EtreeI : EtreeOps} `{CryptoI : CryptoOps}.

Definition getPublicKeyAlgorithm (ctx : SigningContext) : outcome PublicKeyAlgorithm :=
  match SigningContext_KeyStore ctx with
  | Some _ => Ret RSA
  | None =>
      signer ← deref (SigningContext_signer ctx);
      Ret match Signer_Public signer with
          | ECDSAPublicKey _ _ _ => ECDSA
          | RSAPublicKey _ => RSA
          | OtherPublicKey _ => UnknownPublicKeyAlgorithm
          end
  end.

Definition set_Hash (h : Hash) (ctx : SigningContext) : SigningContext :=
  mkSigningContext h (SigningContext_KeyStore ctx) (SigningContext_IdAttribute ctx)
    (SigningContext_Prefix ctx) (SigningContext_Canonicalizer ctx) (SigningContext_signer ctx)
    (SigningContext_certs ctx).

Definition set_Canonicalizer (c : Canonicalizer) (ctx : SigningContext) : SigningContext :=
  mkSigningContext (SigningContext_Hash ctx) (SigningContext_KeyStore ctx)
    (SigningContext_IdAttribute ctx) (SigningContext_Prefix ctx) c (SigningContext_signer ctx)
    (SigningContext_certs ctx).

Definition SetSignatureMethod (algorithmID : string) (ctx : SigningContext) : outcome SigningContext :=
  info ← or_err (signatureMethodsByIdentifier algorithmID)
    (Errorf "unknown SignatureMethod: %s" [AStr algorithmID]);
  algo ← getPublicKeyAlgorithm ctx;
  _ ← raise_if (info.1 != algo)
    (Errorf "SignatureMethod %s is incompatible with %s key" [AStr algorithmID]);
  Ret (set_Hash info.2 ctx).

(** The digest, and the element as [Canonicalize] leaves it. *)
Definition SigningContext_digest (ctx : SigningContext) (el : Cursor) : outcome (Element * string) :=
  r ← Canonicalize (SigningContext_Canonicalizer ctx) el;
  Ret (r.1, hash_Sum (SigningContext_Hash ctx) r.2).

Definition signDigest (ctx : SigningContext) (digest : string) : outcome string :=
  match SigningContext_KeyStore ctx with
  | Some ks =>
      kp ← GetKeyPair ks;
      rsa_SignPKCS1v15 kp.1 (SigningContext_Hash ctx) digest
  | None =>
      signer ← deref (SigningContext_signer ctx);
      rawSignature ← Signer_Sign signer digest (SigningContext_Hash ctx);
      if is_ecdsa (Signer_Public signer) then ecdsaDERToRaw (Signer_Public signer) rawSignature
      else Ret rawSignature
  end.

Definition getCerts (ctx : SigningContext) : outcome (list string) :=
  match SigningContext_KeyStore ctx with
  | Some ks =>
      match GetChain ks with
      | Some chain => chain
      | None => kp ← GetKeyPair ks; Ret [kp.2]
      end
  | None => Ret (SigningContext_certs ctx)
  end.

Definition GetSignatureMethodIdentifier (ctx : SigningContext) : outcome string :=
  algo ← getPublicKeyAlgorithm ctx;
  Ret (default "" (signatureMethodIdentifiers algo (SigningContext_Hash ctx))).

Definition GetDigestAlgorithmIdentifier (ctx : SigningContext) : string :=
  digestAlgorithmIdentifiers (SigningContext_Hash ctx).

(** [el.SelectAttrValue(key, "")] *)
Definition SelectAttrValue (key : string) (el : Element) : string :=
  match SelectAttr key el with Some a => Attr_Value a | None => "" end.

(** The element [createNamespacedElement] adds, with its attributes and
    children. *)
Definition createNamespacedElement (ctx : SigningContext) (tag : string)
    (attrs : list (string * string)) (children : list Element) : Element :=
  let child := NewElement tag in
  let child := mkElement (SigningContext_Prefix ctx) (Tag child) (Attrs child) (Child child) in
  let child := foldl (λ e '(k, v), CreateAttr k v e) child attrs in
  foldl (λ e c, AddChild c e) child children.

Definition text_element (ctx : SigningContext) (tag text : string) : Element :=
  SetText text (createNamespacedElement ctx tag [] []).

(** The [SignedInfo], and [el] as the digest leaves it. *)
Definition constructSignedInfo (ctx : SigningContext) (el : Cursor) (enveloped : bool)
    : outcome (Element * Element) :=
  let digestAlgorithmIdentifier := GetDigestAlgorithmIdentifier ctx in
  _ ← raise_if (digestAlgorithmIdentifier == "") (Errorf "unsupported hash mechanism" []);
  signatureMethodIdentifier ← GetSignatureMethodIdentifier ctx;
  _ ← raise_if (signatureMethodIdentifier == "") (Errorf "unsupported signature method" []);
  r ← SigningContext_digest ctx el;
  let '(el, digest) := r in
  let c14n := Canonicalizer_Algorithm (SigningContext_Canonicalizer ctx) in
  let dataId := SelectAttrValue (SigningContext_IdAttribute ctx) el in
  let transforms := createNamespacedElement ctx "Transforms" []
    ((if enveloped then [createNamespacedElement ctx "Transform" [(AlgorithmAttr, EnvelopedSignatureAltorithmId)] []] else [])
     ++ [createNamespacedElement ctx "Transform" [(AlgorithmAttr, c14n)] []])%list in
  let reference := createNamespacedElement ctx "Reference"
    [(URIAttr, if dataId == "" then "" else "#" +++ dataId)]
    [transforms;
     createNamespacedElement ctx "DigestMethod" [(AlgorithmAttr, digestAlgorithmIdentifier)] [];
     text_element ctx "DigestValue" (base64_Encode digest)] in
  let signedInfo := foldl (λ e c, AddChild c e) (mkElement (SigningContext_Prefix ctx) "SignedInfo" [] [])
    [createNamespacedElement ctx "CanonicalizationMethod" [(AlgorithmAttr, c14n)] [];
     createNamespacedElement ctx "SignatureMethod" [(AlgorithmAttr, signatureMethodIdentifier)] [];
     reference] in
  Ret (el, signedInfo).

(** The [Signature], and [el] as the digest leaves it. *)
Definition ConstructSignature (ctx : SigningContext) (el : Cursor) (enveloped : bool)
    : outcome (Element * Element) :=
  r ← constructSignedInfo ctx el enveloped;
  let '(el', signedInfo) := r in
  let xmlns := if SigningContext_Prefix ctx != "" then "xmlns:" +++ SigningContext_Prefix ctx else "xmlns" in
  let sig := CreateAttr xmlns Namespace (mkElement (SigningContext_Prefix ctx) "Signature" [] []) in
  rootNSCtx ← NSBuildParentContext (ancestors el);
  elNSCtx ← SubContext rootNSCtx el';
  sigNSCtx ← SubContext elNSCtx sig;
  detatchedSignedInfo ← run_default (NSDetatch sigNSCtx signedInfo);
  d ← SigningContext_digest ctx (root_cursor detatchedSignedInfo);
  rawSignature ← signDigest ctx d.2;
  certs ← getCerts ctx;
  let x509Data := createNamespacedElement ctx "X509Data" []
    (map (λ cert, text_element ctx "X509Certificate" (base64_Encode cert)) certs) in
  Ret (el', foldl (λ e c, AddChild c e) sig
    [signedInfo;
     text_element ctx "SignatureValue" (base64_Encode rawSignature);
     createNamespacedElement ctx "KeyInfo" [] [x509Data]]).

Definition SignEnveloped (ctx : SigningContext) (el : Cursor) : outcome Element :=
  r ← ConstructSignature ctx el true;
  Ret (set_Child (Child r.1 ++ [TElement r.2])%list r.1).

(** An empty string is refused: [Write] returns a length of 0. *)
Definition SignString (ctx : SigningContext) (content : string) : outcome string :=
  _ ← raise_if (content == "") (Errorf "zero length hash" []);
  signDigest ctx (hash_Sum (SigningContext_Hash ctx) content).
End signing.

Section validation.
Context `{EtreeI : EtreeOps} `{CryptoI : CryptoOps} `{X509I : X509Ops} `{SigXmlI : SignatureXmlOps}.

(** ** Transforms *)

(** Removes the element at the path and says whether there was one. *)
Fixpoint removeElementAtPath (el : Element) (path : list nat) : option Element :=
  match path with
  | [] => None
  | i :: path' =>
      match Child el !! i with
      | Some (TElement child) =>
          match path' with
          | [] => Some (RemoveChildAt i el)
          | _ =>
              child ← removeElementAtPath child path';
              Some (set_Child (<[i := TElement child]> (Child el)) el)
          end
      | _ => None
      end
  end.

Fixpoint transform_loop (signaturePath : list nat) (transforms : list Transform) (el : Element)
    (canonicalizer : option Canonicalizer) : outcome (Element * option Canonicalizer) :=
  match transforms with
  | [] => Ret (el, canonicalizer)
  | transform :: transforms =>
      let algo := Transform_Algorithm transform in
      let prefixList := default "" (Transform_InclusiveNamespaces transform) in
      let continue c := transform_loop signaturePath transforms el (Some c) in
      if algo == EnvelopedSignatureAltorithmId then
        el ← or_err (removeElementAtPath el signaturePath)
          (Errorf "Error applying canonicalization transform: Signature not found" []);
        transform_loop signaturePath transforms el canonicalizer
      else if algo == CanonicalXML10ExclusiveAlgorithmId then
        continue (c14N10ExclusiveCanonicalizer prefixList false)
      else if algo == CanonicalXML10ExclusiveWithCommentsAlgorithmId then
        continue (c14N10ExclusiveCanonicalizer prefixList true)
      else if algo == CanonicalXML11AlgorithmId then continue (c14N11Canonicalizer false)
      else if algo == CanonicalXML11WithCommentsAlgorithmId then continue (c14N11Canonicalizer true)
      else if algo == CanonicalXML10RecAlgorithmId then continue (c14N10RecCanonicalizer false)
      else if algo == CanonicalXML10WithCommentsAlgorithmId then continue (c14N10RecCanonicalizer true)
      else Err (Errorf ("Unknown Transform Algorithm: " +++ algo) [])
  end.

(** The path of the signature is [mapPathToElement] of its element: [nil] for
    the root itself. *)
Definition transform (el : Element) (sig : Signature) (ref : Reference)
    : outcome (Element * Canonicalizer) :=
  r ← transform_loop (Signature_el sig) (Reference_Transforms ref) el None;
  Ret (r.1, default NullCanonicalizer r.2).

(** ** Finding the signature *)

Definition count_tag (tag : string) (l : list Element) : nat :=
  length (filter (λ e, Tag e = tag) l).

Definition validateShape (signatureEl : Element) : outcome () :=
  let children := ChildElements signatureEl in
  raise_if (negb (Nat.eqb (count_tag "SignedInfo" children) 1
                  && Nat.leb (count_tag "KeyInfo" children) 1
                  && Nat.eqb (count_tag "SignatureValue" children) 1))
    ErrInvalidSignature.

(** The canonical form of a detached [SignedInfo] by its declared method. *)
Definition canonical_signed_info (c14NAlgorithm : string) (detached : Element) : outcome Element :=
  if c14NAlgorithm == CanonicalXML10ExclusiveAlgorithmId then TransformExcC14n detached "" false
  else if c14NAlgorithm == CanonicalXML10ExclusiveWithCommentsAlgorithmId then
    TransformExcC14n detached "" true
  else if (c14NAlgorithm == CanonicalXML11AlgorithmId) || (c14NAlgorithm == CanonicalXML10RecAlgorithmId)
  then Ret (canonicalPrep detached true false)
  else if (c14NAlgorithm == CanonicalXML11WithCommentsAlgorithmId)
          || (c14NAlgorithm == CanonicalXML10WithCommentsAlgorithmId)
  then Ret (canonicalPrep detached true true)
  else Err (Errorf "invalid CanonicalizationMethod on Signature: %s" [AStr c14NAlgorithm]).

(** Runs a search that keeps nothing within a traversal. *)
Definition ns_unit {S A} (m : NSM () A) : NSM S A := λ '(limit, s),
  let '((limit, _), o) := m (limit, ()) in ((limit, s), o).

(** [found = x; return ErrTraversalHalted] *)
Definition halt_with {S} (x : S) : NSM S () := λ '(limit, _), ((limit, x), Err ErrTraversalHalted).

(** Reads and changes what a traversal keeps. *)
Definition ns_get {S A} (f : S → outcome A) : NSM S A := λ '(limit, s), ((limit, s), f s).
Definition ns_modify {S} (f : S → S) : NSM S () := λ '(limit, s), ((limit, f s), Ret ()).

(** The handler for the [SignedInfo] child at position [i]: its canonical form
    is what the traversal keeps. *)
Definition signed_info_handler (i : nat) : NSIterHandler (option (nat * Element)) :=
  λ ctx signedInfo,
    NSDetatch ctx signedInfo ≫= λ detachedSignedInfo,
    ns_unit (NSFindOneChildCtx ctx detachedSignedInfo Namespace "CanonicalizationMethod") ≫= λ c14NMethod,
    ns_lift (or_err c14NMethod (Errorf "missing CanonicalizationMethod on Signature" [])) ≫= λ c14NMethod,
    ns_lift (canonical_signed_info (SelectAttrValue AlgorithmAttr c14NMethod) detachedSignedInfo)
      ≫= λ canonicalSignedInfo,
    halt_with (Some (i, canonicalSignedInfo)).

Definition references_root (idAttr : string) (ref : Reference) : bool :=
  match Reference_URI ref with
  | "" => true
  | String _ id => id == idAttr
  end.

(** What the traversal of [findSignature] keeps: the tree, which it edits, and
    the signature once found. *)
Record SearchState := mkSearchState {
  search_tree : Element;
  search_sig : option Signature
}.

Definition lift_search {A} (m : NSM (option (nat * Element)) A)
    : NSM SearchState (A * option (nat * Element)) := λ '(limit, s),
  match m (limit, None) with
  | ((limit, r), Ret a) => ((limit, s), Ret (a, r))
  | ((limit, _), Err e) => ((limit, s), Err e)
  | ((limit, _), Panic) => ((limit, s), Panic)
  end.

Definition NSUnmarshalElement {S} (ctx : NSContext) (el : Element) (path : list nat) : NSM S Signature :=
  NSDetatch ctx el ≫= λ detatched,
  ns_lift (
    data ← WriteToBytes detatched;
    r ← Unmarshal_Signature data;
    let '(signedInfo, value, keyInfo) := r in
    Ret (mkSignature signedInfo value keyInfo path)).

(** The handler for a [Signature] element, at the given path of the tree. *)
Definition signature_handler (idAttr : string) (path : list nat) (ctx : NSContext)
    (signatureEl : Element) : NSM SearchState () :=
  ns_lift (validateShape signatureEl) ≫= λ _,
  lift_search (NSFindChildrenIterateCtx_pos ctx signatureEl Namespace "SignedInfo" signed_info_handler)
    ≫= λ '(_, found),
  ns_lift (or_err found (Errorf "Missing SignedInfo" [])) ≫= λ '(i, canonicalSignedInfo),
  let signatureEl := set_Child (<[i := TElement canonicalSignedInfo]> (Child signatureEl)) signatureEl in
  ns_modify (λ s, mkSearchState (update_at path (λ _, signatureEl) (search_tree s)) (search_sig s))
    ≫= λ _,
  NSUnmarshalElement ctx signatureEl path ≫= λ _sig,
  ns_lift (deref (Signature_SignedInfo _sig)) ≫= λ signedInfo,
  if existsb (references_root idAttr) (SignedInfo_References signedInfo) then
    ns_modify (λ s, mkSearchState (search_tree s) (Some _sig)) ≫= λ _,
    ns_lift (Err ErrTraversalHalted)
  else mret ().

(** [NSTraverse] with [on_match] over the tree of the state, by paths. Each
    call uses up the limit, so a fuel above the limit is never used up. *)
Fixpoint search_traverse (fuel : nat) (idAttr : string) (ctx : NSContext) (path : list nat)
    : NSM SearchState () :=
  match fuel with
  | O => ns_lift (Err ErrTraversalLimit)
  | S fuel =>
      CheckLimit ≫= λ _,
      ns_get (λ s, deref (elem_at path (search_tree s))) ≫= λ el,
      ns_lift (SubContext ctx el) ≫= λ ctx,
      on_match Namespace "Signature" (signature_handler idAttr path) ctx el ≫= λ _,
      ns_get (λ s, deref (elem_at path (search_tree s))) ≫= λ el,
      (fix go (children : list (nat * Element)) : NSM SearchState () :=
         match children with
         | [] => mret ()
         | (i, _) :: children =>
             search_traverse fuel idAttr ctx (path ++ [i])%list ≫= λ _, go children
         end) (child_positions 0 (Child el))
  end.

Definition search_fuel : nat := 1001.

(** Returns the edited tree with the signature. *)
Definition findSignature (IdAttribute : string) (root : Element) : outcome (Element * Signature) :=
  let idAttr := SelectAttrValue IdAttribute root in
  let '((_, s), o) :=
    unless_halted (search_traverse search_fuel idAttr default_prefixes [])
      (defaultLimit, mkSearchState root None) in
  _ ← o;
  sig ← or_err (search_sig s) ErrMissingSignature;
  Ret (search_tree s, sig).

(** ** The certificate *)

Definition verifyCertificate (ctx : ValidationContext) (sig : Signature) : outcome Certificate :=
  let now := ValidationContext_Now ctx in
  let roots := ValidationContext_Roots ctx in
  untrustedCert ←
    match Signature_KeyInfo sig with
    | Some certificates =>
        match certificates with
        | [] | "" :: _ => Err (Errorf "missing X509Certificate within KeyInfo" [])
        | data :: _ =>
            certData ← map_err (λ _, Errorf "Failed to parse certificate" [])
              (base64_Decode (remove_bytes is_re_space data));
            ParseCertificate certData
        end
    | None =>
        match roots with
        | [root] => Ret root
        | _ => Err (Errorf "Missing x509 Element" [])
        end
    end;
  trustedCert ← or_err
    (first_that (λ root, Certificate_Raw root == Certificate_Raw untrustedCert) (reverse roots))
    (Errorf "Could not verify certificate against trusted certs" []);
  _ ← raise_if ((now <? Certificate_NotBefore trustedCert)%Z || (Certificate_NotAfter trustedCert <? now)%Z)
    (Errorf "Cert is not valid at this time" []);
  Ret trustedCert.

(** ** Validation *)

(** The ancestors of the element at the path, the parent first. *)
Fixpoint path_ancestors (path : list nat) (e : Element) (acc : list Element) : list Element :=
  match path with
  | [] => acc
  | i :: path =>
      match Child e !! i with
      | Some (TElement c) => path_ancestors path c (e :: acc)
      | _ => acc
      end
  end.

Definition getCanonicalSignedInfo (tree : Element) (sig : Signature) : outcome string :=
  signatureElement ← deref (elem_at (Signature_el sig) tree);
  nsCtx ← NSBuildParentContext (path_ancestors (Signature_el sig) tree []);
  signedInfo ← run_default (NSFindOneChildCtx nsCtx signatureElement Namespace "SignedInfo");
  signedInfo ← or_err signedInfo (Errorf "Missing SignedInfo" []);
  canonicalSerialize signedInfo.

Definition dsig_validateSignature (ctx : ValidationContext) (el : Element) (sig : Signature)
    (cert : Certificate) : outcome (option Element) :=
  sigInfo ← deref (Signature_SignedInfo sig);
  let signatureMethod := SignedInfo_SignatureMethod sigInfo in
  canonicalSignedInfoBytes ← map_err (λ _, Errorf "Could not obtain canonical signed info bytes" [])
    (getCanonicalSignedInfo el sig);
  algo ← or_err (signatureMethodsByIdentifier signatureMethod)
    (Errorf ("Unknown signature method: " +++ signatureMethod) []);
  value ← or_err (Signature_SignatureValue sig) (Errorf "Signature could not be verified" []);
  decodedSignature ← map_err (λ _, Errorf "Could not decode signature" []) (base64_Decode value);
  _ ← checkSignature cert algo canonicalSignedInfoBytes decodedSignature;
  signedInfo ← Unmarshal_SignedInfo canonicalSignedInfoBytes;
  let idAttr := SelectAttrValue (ValidationContext_IdAttribute ctx) el in
  ref ← or_err (first_that (references_root idAttr) (SignedInfo_References signedInfo))
    (Errorf "Missing reference" []);
  signedDigestValue ← base64_Decode (Reference_DigestValue ref);
  t ← transform el sig ref;
  r ← Canonicalize t.2 (root_cursor t.1);
  let referencedBytes := r.2 in
  hashAlgorithm ← or_err (digestAlgorithmsByIdentifier (Reference_DigestAlgo ref))
    (Errorf ("Unknown digest algorithm: " +++ Reference_DigestAlgo ref) []);
  let computedDigest := hash_Sum hashAlgorithm referencedBytes in
  _ ← raise_if (computedDigest != signedDigestValue) (Errorf "Signature could not be verified" []);
  _ ← raise_if (Nat.ltb (String.length computedDigest) 20)
    (Errorf "Computed digest is less than 20 something went wrong" []);
  ReadFromBytes referencedBytes.

(** Works on a copy of [el]; the root of the verified bytes, or nil. *)
Definition Validate (ctx : ValidationContext) (el : Element) : outcome (option Element) :=
  r ← findSignature (ValidationContext_IdAttribute ctx) el;
  let '(el, sig) := r in
  cert ← verifyCertificate ctx sig;
  dsig_validateSignature ctx el sig cert.
End validation.
