(* ===== verification/DSigStores.v ===== *)
(** * DSigStores: [keystore.go], [tls_keystore.go] and [clock.go] of [src/internal/dsig]

    The key stores that a signing context can be given, the store of trusted
    certificates, and the clock that is the real one if it is nil. *)

From stdpp Require Import base option list strings.
From Stdlib Require Import ZArith.
From S2P Require Import Prelude Go Etree Schema Env Http DSig.

Open Scope string_scope.

(** ** Key stores *)

(** [X509CertificateStore] *)
Record X509CertificateStore := mkX509CertificateStore { Certificates : outcome (list Certificate) }.

Definition MemoryX509CertificateStore (Roots : list Certificate) : X509CertificateStore :=
  mkX509CertificateStore (Ret Roots).

Definition MemoryX509KeyStore (privateKey : Signer) (cert : string) : X509KeyStore :=
  mkX509KeyStore (Ret (privateKey, cert)) None.

Definition ErrNonRSAKey : error := Sentinel "dsig.ErrNonRSAKey".
Definition ErrMissingCertificates : error := Sentinel "dsig.ErrMissingCertificates".

(** [tls.Certificate]: its private key, if it is a [crypto.Signer], and its chain. *)
Record tls_Certificate := mkTLSCertificate { PrivateKey : option Signer; Chain : list string }.

Definition TLSCertKeyStore_GetKeyPair (d : tls_Certificate) : outcome (Signer * string) :=
  match PrivateKey d with
  | Some pk =>
      if is_rsa (Signer_Public pk) then
        crt ← or_err (head (Chain d)) ErrMissingCertificates;
        Ret (pk, crt)
      else Err ErrNonRSAKey
  | None => Err ErrNonRSAKey
  end.

Definition TLSCertKeyStore_GetChain (d : tls_Certificate) : outcome (list string) := Ret (Chain d).

Definition TLSCertKeyStore (d : tls_Certificate) : X509KeyStore :=
  mkX509KeyStore (TLSCertKeyStore_GetKeyPair d) (Some (TLSCertKeyStore_GetChain d)).

Section signing.
Context `{EtreeI : EtreeOps} `{CryptoI : CryptoOps}.

(** A signature of the certificate of a TLS server is made with its RSA key, and names
    its chain, which starts with the certificate of the key. *)
Lemma TLSCertKeyStore_signs ctx d digest sig :
  SigningContext_KeyStore ctx = Some (TLSCertKeyStore d) → signDigest ctx digest = Ret sig →
  ∃ key crt rest, PrivateKey d = Some key ∧ is_rsa (Signer_Public key) = true ∧ Chain d = crt :: rest ∧
    rsa_SignPKCS1v15 key (SigningContext_Hash ctx) digest = Ret sig ∧ getCerts ctx = Ret (crt :: rest).
Proof.
  intros Hks. unfold signDigest, getCerts. rewrite Hks. simpl. unfold TLSCertKeyStore_GetKeyPair, TLSCertKeyStore_GetChain.
  destruct (PrivateKey d) as [key|]; [|done]. destruct (is_rsa _) eqn:Hr; [|done].
  destruct (Chain d) as [|crt rest]; [done|]. simpl. intros Hs. by exists key, crt, rest.
Qed.

(** A key of another kind, or no certificate, is an error and never a signature. *)
Lemma TLSCertKeyStore_refuses ctx d digest :
  SigningContext_KeyStore ctx = Some (TLSCertKeyStore d) →
  (∀ key, PrivateKey d = Some key → is_rsa (Signer_Public key) = false) ∨ Chain d = [] →
  signDigest ctx digest = Err ErrNonRSAKey ∨ signDigest ctx digest = Err ErrMissingCertificates.
Proof.
  intros Hks Hd. unfold signDigest. rewrite Hks. simpl. unfold TLSCertKeyStore_GetKeyPair.
  destruct (PrivateKey d) as [key|]; [|by left]. destruct (is_rsa _) eqn:Hr; [|by left].
  destruct Hd as [Hd| ->]; [|by right]. by rewrite Hd in Hr.
Qed.
End signing.

(** ** The clock *)

Section clock.
Context {W : Type} `{WorldI : World W}.

(** [*Clock]: a clock that is wrapped, or nil. *)
Definition DSigClock : Type := option (W → W * Time).

Definition getWrapped (c : DSigClock) : W → W * Time := default SystemNow c.
Definition DSigClock_Now (c : DSigClock) : IO W Time := reads (getWrapped c).
Definition NewRealClock : DSigClock := Some SystemNow.
Definition NewFakeClock (wrapped : W → W * Time) : DSigClock := Some wrapped.
Definition NewFakeClockAt (t : Time) : DSigClock := Some (λ w, (w, t)).

(** A nil clock reads as the real one, and a validation reads the clock of the package. *)
Lemma nil_clock_real : DSigClock_Now None = DSigClock_Now NewRealClock.
Proof. done. Qed.

Lemma Clock_Now_wrapped : Clock_Now = DSigClock_Now Clock.
Proof. done. Qed.
End clock.
