(* ===== verification/DSigSpec.v ===== *)
(** * DSigSpec: what [internal/dsig] guarantees

    [Validate] returns nothing but the bytes that a reference of a [SignedInfo]
    covers whose signature verifies with a trusted and currently valid certificate;
    its search ends within the traversal limit; and the two forms of an ECDSA
    signature convert into one another.  [dsig_signature] is the instance of
    the interface that [ServiceProvider] uses. *)

From stdpp Require Import base option list gmap strings sets.
From Stdlib Require Import ZArith Lia Ascii.
From S2P Require Import Prelude Go Encoding Etree C14n Schema Env DSig Reference.

Open Scope string_scope.

(** ** Soundness *)

Section soundness.
Context `{EtreeI : EtreeOps} `{CryptoI : CryptoOps} `{X509I : X509Ops} `{SigXmlI : SignatureXmlOps}.

(** The interface of [Env], implemented. *)
#[export] Instance dsig_signature : SignatureOps := {|
  ValidationContext_Validate := Validate
|}.

Lemma verifyCertificate_ret vc sig cert :
  verifyCertificate vc sig = Ret cert →
  cert ∈ ValidationContext_Roots vc ∧
  (Certificate_NotBefore cert <= ValidationContext_Now vc <= Certificate_NotAfter cert)%Z.
Proof.
  unfold verifyCertificate. intros Hv. apply bind_ret in Hv as (u & _ & Hv).
  apply bind_ret in Hv as (c & Hc & Hv). apply raise_if_bind in Hv as [Ht [= <-]].
  rewrite or_err_ret in Hc. apply first_that_elem in Hc as [Hc _].
  apply elem_of_reverse in Hc. rewrite reverse_involutive in Hc. bool_prop. split; [done|lia].
Qed.

(** What the content [out] of a validated element rests on. *)
Record covered (vc : ValidationContext) (el : Element) (out : option Element) : Prop := {
  covered_by : ∃ tree sig cert algo bytes value,
    findSignature (ValidationContext_IdAttribute vc) el = Ret (tree, sig) ∧
    cert ∈ ValidationContext_Roots vc ∧
    (Certificate_NotBefore cert <= ValidationContext_Now vc <= Certificate_NotAfter cert)%Z ∧
    getCanonicalSignedInfo tree sig = Ret bytes ∧
    checkSignature cert algo bytes value = Ret () ∧
    ∃ info ref data hash,
      Unmarshal_SignedInfo bytes = Ret info ∧
      ref ∈ SignedInfo_References info ∧
      references_root (SelectAttrValue (ValidationContext_IdAttribute vc) tree) ref = true ∧
      base64_Decode (Reference_DigestValue ref) = Ret (hash_Sum hash data) ∧
      (20 <= String.length (hash_Sum hash data))%nat ∧
      ReadFromBytes data = Ret out
}.

(** C5: soundness of signature validation. The content that [Validate] returns
    is read from bytes whose digest a reference to the element records, in a
    [SignedInfo] whose canonical bytes carry a signature that verifies with one of
    the roots, at a time at which that certificate is valid. *)
Theorem Validate_sound vc el out (Hv : Validate vc el = Ret out) : covered vc el out.
Proof.
  unfold Validate in Hv. apply bind_ret in Hv as ([tree sig] & Hf & Hv).
  apply bind_ret in Hv as (cert & Hc & Hv). apply verifyCertificate_ret in Hc as [Hroot Hnow].
  unfold dsig_validateSignature in Hv.
  apply bind_ret in Hv as (si & _ & Hv). apply bind_ret in Hv as (bytes & Hb & Hv).
  rewrite map_err_ret in Hb. apply bind_ret in Hv as (algo & _ & Hv).
  apply bind_ret in Hv as (v64 & _ & Hv). apply bind_ret in Hv as (value & _ & Hv).
  apply bind_ret in Hv as ([] & Hcheck & Hv). apply bind_ret in Hv as (info & Hinfo & Hv).
  apply bind_ret in Hv as (ref & Href & Hv). rewrite or_err_ret in Href.
  apply first_that_elem in Href as [Href Hroot'].
  apply bind_ret in Hv as (digest & Hdigest & Hv). apply bind_ret in Hv as (t & _ & Hv).
  apply bind_ret in Hv as (r & _ & Hv). apply bind_ret in Hv as (hash & _ & Hv).
  apply raise_if_bind in Hv as [Hd Hv]. apply raise_if_bind in Hv as [Hlen Hv].
  bool_prop. subst digest. apply Nat.ltb_ge in Hlen.
  constructor. exists tree, sig, cert, algo, bytes, value. split_and!; try done; try lia.
  exists info, ref, r.2, hash. done.
Qed.

(** ** The search ends within the limit *)

(** A step never raises the limit. *)
Definition limited {S A} (m : NSM S A) : Prop :=
  ∀ z s, ∃ z' s' o, m (Some z, s) = ((Some z', s'), o) ∧ (z' <= z)%Z.

Lemma limited_ret {S A} (a : A) : limited (mret a : NSM S A).
Proof. intros z s. eexists _, _, _. split; [reflexivity|lia]. Qed.

Lemma limited_bind {S A B} (m : NSM S A) (f : A → NSM S B) :
  limited m → (∀ a, limited (f a)) → limited (m ≫= f).
Proof.
  intros Hm Hf z s. destruct (Hm z s) as (z1 & s1 & o & E & Hz).
  unfold mbind, NSM_bind. rewrite E. destruct o as [a|e|].
  - destruct (Hf a z1 s1) as (z2 & s2 & o2 & -> & ?). eexists _, _, _. split; [done|lia].
  - eexists _, _, _. split; [done|lia].
  - eexists _, _, _. split; [done|lia].
Qed.

Lemma limited_lift {S A} (o : outcome A) : limited (ns_lift o : NSM S A).
Proof. intros z s. eexists _, _, _. split; [reflexivity|lia]. Qed.

Lemma limited_get {S A} (f : S → outcome A) : limited (ns_get f).
Proof. intros z s. eexists _, _, _. split; [reflexivity|lia]. Qed.

Lemma limited_modify {S} (f : S → S) : limited (ns_modify f).
Proof. intros z s. eexists _, _, _. split; [reflexivity|lia]. Qed.

Lemma limited_halt {S} (x : S) : limited (halt_with x).
Proof. intros z s. eexists _, _, _. split; [reflexivity|lia]. Qed.

Lemma limited_check {S} : limited (@CheckLimit S).
Proof.
  intros z s. simpl. destruct (z <=? 0)%Z; eexists _, _, _; (split; [done|lia]).
Qed.

Create HintDb limited discriminated.
#[local] Hint Resolve limited_ret limited_lift limited_get limited_modify limited_halt
  limited_check : limited.

Lemma limited_subtree {S} el : limited (@checkSubtreeLimit S el).
Proof.
  induction el as [sp t a c IH] using element_tree_ind. intros z s.
  cbn [checkSubtreeLimit]. revert z s. change (limited (CheckLimit ≫= λ _ : (),
    (fix go (c0 : list Token) : NSM S () :=
       match c0 with
       | [] => mret ()
       | TElement child :: c1 => checkSubtreeLimit child ≫= λ _, go c1
       | _ :: c1 => go c1
       end) c)).
  apply limited_bind; [auto with limited|]. intros _.
  induction IH as [|k c Hk _ IHc]; [auto with limited|].
  destruct k; [|apply IHc..]. apply limited_bind; [exact Hk|auto].
Qed.

Lemma limited_detatch {S} ctx el : limited (@NSDetatch S ctx el).
Proof.
  apply limited_bind; [apply limited_subtree|]. intros _.
  apply limited_bind; [auto with limited|]. intros ?. auto with limited.
Qed.

Lemma limited_unless_halted {S} (m : NSM S ()) : limited m → limited (unless_halted m).
Proof.
  intros Hm z s. unfold unless_halted. destruct (Hm z s) as (z1 & s1 & o & E & Hz). rewrite E.
  destruct o as [|e|]; [|destruct (bool_decide (e = _))|]; eauto 6.
Qed.

Lemma limited_children {S} ctx (h : nat → NSIterHandler S) l :
  (∀ i c e, limited (h i c e)) → limited (iterate_children ctx h l).
Proof.
  intros Hh. induction l as [|[i e] l IH]; simpl; [auto with limited|].
  apply limited_bind; [auto with limited|]. intros _. by apply limited_bind.
Qed.

Lemma limited_on_match {S} ns tag (h : NSIterHandler S) ctx el :
  limited (h ctx el) → limited (on_match ns tag h ctx el).
Proof.
  intros Hh. unfold on_match. apply limited_bind; [auto with limited|]. intros c.
  apply limited_bind; [auto with limited|]. intros ns'.
  destruct (_ && _); auto with limited.
Qed.

Lemma limited_find_children {S} ctx el ns tag (h : nat → NSIterHandler S) :
  (∀ i c e, limited (h i c e)) → limited (NSFindChildrenIterateCtx_pos ctx el ns tag h).
Proof.
  intros Hh. apply limited_unless_halted, limited_bind; [auto with limited|]. intros c.
  apply limited_children. intros. by apply limited_on_match.
Qed.

Lemma limited_find_handler ctx el : limited (find_handler ctx el).
Proof. intros z s. eexists _, _, _. split; [reflexivity|lia]. Qed.

Lemma limited_found_of {S} (m : NSM (option S) ()) : limited m → limited (found_of m).
Proof.
  intros Hm z s. unfold found_of. destruct (Hm z None) as (z1 & s1 & o & -> & Hz).
  destruct o; eauto 6.
Qed.

Lemma limited_unit {S A} (m : NSM () A) : limited m → limited (@ns_unit S A m).
Proof.
  intros Hm z s. unfold ns_unit. destruct (Hm z ()) as (z1 & [] & o & -> & Hz). eauto 6.
Qed.

Lemma limited_signed_info i ctx el : limited (signed_info_handler i ctx el).
Proof.
  unfold signed_info_handler. apply limited_bind; [apply limited_detatch|]. intros d.
  apply limited_bind.
  { apply limited_unit, limited_found_of, limited_find_children. intros. apply limited_find_handler. }
  intros m. do 2 (apply limited_bind; [auto with limited|]; intros ?). auto with limited.
Qed.

Lemma limited_signature idAttr path ctx el : limited (signature_handler idAttr path ctx el).
Proof.
  unfold signature_handler. apply limited_bind; [auto with limited|]. intros _.
  apply limited_bind.
  { intros z s. unfold lift_search.
    destruct (limited_find_children ctx el Namespace "SignedInfo" signed_info_handler
      limited_signed_info z None) as (z1 & s1 & o & -> & Hz). destruct o; eauto 6. }
  intros [_ found]. apply limited_bind; [auto with limited|]. intros [i c].
  apply limited_bind; [auto with limited|]. intros _.
  apply limited_bind.
  { apply limited_bind; [apply limited_detatch|]. intros d. auto with limited. }
  intros sig. apply limited_bind; [auto with limited|]. intros info.
  destruct (existsb _ _); [|auto with limited].
  apply limited_bind; [auto with limited|]. intros _. auto with limited.
Qed.

(** Steps that agree from the states whose limit is below [n]. *)
Definition agree {S A} (n : Z) (m1 m2 : NSM S A) : Prop :=
  ∀ z s, (z < n)%Z → m1 (Some z, s) = m2 (Some z, s).

Lemma agree_bind {S A B} n (m1 m2 : NSM S A) (f g : A → NSM S B) :
  limited m1 → agree n m1 m2 → (∀ a, agree n (f a) (g a)) → agree n (m1 ≫= f) (m2 ≫= g).
Proof.
  intros Hl Hm Hfg z s Hz. unfold mbind, NSM_bind. rewrite <- (Hm z s Hz).
  destruct (Hl z s) as (z1 & s1 & o & -> & Hz1). destruct o; [apply Hfg; lia|done..].
Qed.

(** [CheckLimit] makes room for one more call. *)
Lemma agree_check {S B} n (f g : () → NSM S B) :
  (∀ a, agree n (f a) (g a)) → agree (n + 1) (CheckLimit ≫= f) (CheckLimit ≫= g).
Proof.
  intros Hfg z s Hz. unfold mbind, NSM_bind. simpl. destruct (z <=? 0)%Z; [done|].
  apply Hfg. lia.
Qed.

Lemma limited_search fuel idAttr ctx path : limited (search_traverse fuel idAttr ctx path).
Proof.
  revert ctx path. induction fuel as [|fuel IH]; intros ctx path; [apply limited_lift|].
  cbn [search_traverse]. do 3 (apply limited_bind; [auto with limited|]; intros ?).
  apply limited_bind; [apply limited_on_match, limited_signature|]. intros _.
  apply limited_bind; [auto with limited|]. intros el'.
  induction (child_positions 0 (Child el')) as [|[i e] l IHl]; [auto with limited|].
  apply limited_bind; auto.
Qed.

Lemma search_agree fuel idAttr ctx path :
  agree (Z.of_nat fuel) (search_traverse fuel idAttr ctx path)
    (search_traverse (S fuel) idAttr ctx path).
Proof.
  revert ctx path. induction fuel as [|fuel IH]; intros ctx path.
  { intros z s Hz. cbn [search_traverse]. unfold mbind, NSM_bind. simpl.
    destruct (Z.leb_spec z 0); [done|lia]. }
  rewrite Nat2Z.inj_succ. cbn [search_traverse].
  apply agree_check. intros _.
  apply agree_bind; [auto with limited|done|]. intros el.
  apply agree_bind; [auto with limited|done|]. intros ctx'.
  apply agree_bind; [apply limited_on_match, limited_signature|done|]. intros _.
  apply agree_bind; [auto with limited|done|]. intros el'.
  induction (child_positions 0 (Child el')) as [|[i e] l IHl]; [done|].
  apply agree_bind; [apply limited_search|apply IH|auto].
Qed.

Lemma search_fuel_mono n m idAttr ctx path z s :
  (z < Z.of_nat n)%Z → (n <= m)%nat →
  search_traverse m idAttr ctx path (Some z, s) = search_traverse n idAttr ctx path (Some z, s).
Proof.
  intros Hz. induction 1 as [|m Hm IH]; [done|]. rewrite <- IH. symmetry. apply search_agree. lia.
Qed.

(** C40: the search for the signature terminates: with the limit of 1000 visits
    any fuel above it gives the same result, so the fuel chosen is never what ends
    the search. *)
Theorem search_terminates fuel idAttr s :
  (search_fuel <= fuel)%nat →
  search_traverse fuel idAttr default_prefixes [] (defaultLimit, s) =
  search_traverse search_fuel idAttr default_prefixes [] (defaultLimit, s).
Proof. intros Hf. apply search_fuel_mono; [|done]. by vm_compute. Qed.
End soundness.

(** ** ECDSA signatures *)

Lemma SetBytes_acc_app acc s c :
  SetBytes_acc acc (s +++ String c "") = (SetBytes_acc acc s * 256 + Z.of_N (N_of_ascii c))%Z.
Proof. revert acc. induction s as [|c' s IH]; intros acc; simpl; [done|apply IH]. Qed.

Lemma SetBytes_acc_bound acc s :
  (0 <= acc → 0 <= SetBytes_acc acc s < (acc + 1) * 2 ^ (8 * Z.of_nat (String.length s)))%Z.
Proof.
  revert acc. induction s as [|c s IH]; intros acc Hacc; cbn [SetBytes_acc String.length]; [simpl; lia|].
  pose proof (byte_lt c) as Hc.
  specialize (IH (acc * 256 + Z.of_N (N_of_ascii c))%Z ltac:(lia)).
  rewrite Nat2Z.inj_succ.
  replace (8 * Z.succ (Z.of_nat (String.length s)))%Z with (8 * Z.of_nat (String.length s) + 8)%Z by lia.
  rewrite Z.pow_add_r by lia. change (2 ^ 8)%Z with 256%Z. nia.
Qed.

(** Reading a string from its end. *)
Lemma string_snoc s : s = "" ∨ ∃ t c, s = t +++ String c "" ∧ String.length s = S (String.length t).
Proof.
  induction s as [|c s [->|(t & c' & -> & _)]]; [by left|right|right].
  - by exists "", c.
  - exists (String c t), c'. split; [done|]. cbn [String.append String.length].
    rewrite length_append. simpl. lia.
Qed.

Lemma FillBytes_SetBytes s : FillBytes (String.length s) (SetBytes s) = s.
Proof.
  remember (String.length s) as n eqn:Hn. revert s Hn.
  induction n as [|n IH]; intros s Hn; [by destruct s|].
  destruct (string_snoc s) as [->|(t & c & -> & Ht)]; [done|].
  rewrite Ht in Hn. injection Hn as Hn. cbn [FillBytes]. unfold SetBytes.
  rewrite SetBytes_acc_app. pose proof (byte_lt c) as Hc.
  replace ((SetBytes_acc 0 t * 256 + Z.of_N (N_of_ascii c)) / 256)%Z with (SetBytes t)
    by (unfold SetBytes; rewrite Z.div_add_l, Z.div_small by lia; lia).
  replace ((SetBytes_acc 0 t * 256 + Z.of_N (N_of_ascii c)) mod 256)%Z with (Z.of_N (N_of_ascii c))
    by (rewrite Z.add_comm, Z.mod_add, Z.mod_small by lia; lia).
  rewrite (IH t Hn), N2Z.id, ascii_N_embedding. done.
Qed.

Lemma split_at_spec n s a b :
  (n <= String.length s)%nat → split_at n s = (a, b) →
  s = a +++ b ∧ String.length a = n ∧ String.length b = (String.length s - n)%nat.
Proof.
  revert s a b. induction n as [|n IH]; intros s a b Hn; destruct s as [|c s]; simpl;
    try (intros [= <- <-]; simpl in *; split_and!; [done..|lia]); [simpl in Hn; lia|].
  destruct (split_at n s) as [a' b'] eqn:E. intros [= <- <-].
  destruct (IH s a' b') as (-> & <- & Hb); [simpl in Hn; lia|done|]. simpl. auto.
Qed.

Lemma SetBytes_range size s :
  String.length s = size → SetBytes s ≠ 0%Z → value_in_range size (SetBytes s) = true.
Proof.
  intros <- Hs. pose proof (SetBytes_acc_bound 0 s ltac:(lia)) as Hb. unfold SetBytes in *.
  unfold value_in_range. apply andb_true_iff.
  rewrite Z.add_0_l, Z.mul_1_l in Hb. rewrite !Z.ltb_lt. split; [|apply Hb].
  destruct Hb as [Hb _]. lia.
Qed.

Lemma SetBytes_nonneg s : (0 <= SetBytes s)%Z.
Proof. apply (SetBytes_acc_bound 0 s). lia. Qed.

(** Round trip of ECDSA signatures. A raw [r||s] signature of the size of
    the curve whose values are not zero is read back from the DER form it is
    converted to, given that [asn1.Unmarshal] reads back what [asn1.Marshal]
    wrote. *)
Theorem ecdsa_roundtrip `{CryptoI : CryptoOps} public raw der
    (Hasn1 : ∀ r s d, (0 <= r)%Z → (0 <= s)%Z →
      asn1_Marshal r s = Ret d → asn1_Unmarshal d = Ret (r, s, ""))
    (Hr : SetBytes (split_at (ecdsaFieldSize public) raw).1 ≠ 0%Z)
    (Hs : SetBytes (split_at (ecdsaFieldSize public) raw).2 ≠ 0%Z)
    (Hder : ecdsaRawToDER public raw = Ret der) :
  ecdsaDERToRaw public der = Ret raw.
Proof.
  unfold ecdsaRawToDER in Hder. apply raise_if_bind in Hder as [Hlen Hder].
  bool_prop. apply Nat.eqb_eq in Hlen.
  destruct (split_at (ecdsaFieldSize public) raw) as [r s] eqn:E. simpl in Hr, Hs.
  assert (Hle : (ecdsaFieldSize public <= String.length raw)%nat) by lia.
  destruct (split_at_spec _ _ _ _ Hle E) as (-> & Hlr & Hls).
  unfold ecdsaDERToRaw. rewrite (Hasn1 _ _ _ (SetBytes_nonneg r) (SetBytes_nonneg s) Hder). cbn [map_err]. rewrite ret_bind.
  assert (Hls' : String.length s = ecdsaFieldSize public) by lia.
  rewrite (SetBytes_range _ r Hlr Hr), (SetBytes_range _ s Hls' Hs).
  apply raise_if_bind. split; [done|]. apply raise_if_bind. split; [done|].
  rewrite <- Hlr at 1. rewrite <- Hls'. by rewrite !FillBytes_SetBytes.
Qed.

(** ** Examples *)

Module Examples.

(** Decoders of the signature types for the text form of documents. *)
Definition child_el (tag : string) (e : Element) : option Element :=
  first_that (λ x, Tag x == tag) (ChildElements e).

Definition text_of (e : Element) : string :=
  default "" (first_some (λ t, match t with TCharData s => Some s | _ => None end) (Child e)).

Definition algorithm_of (tag : string) (e : Element) : string :=
  match child_el tag e with Some x => SelectAttrValue "Algorithm" x | None => "" end.

Definition decode_transform (e : Element) : Transform :=
  mkTransform (SelectAttrValue "Algorithm" e) None.

Definition decode_reference (e : Element) : DSig.Reference :=
  DSig.mkReference (SelectAttrValue "URI" e)
    (match child_el "DigestValue" e with Some x => text_of x | None => "" end)
    (algorithm_of "DigestMethod" e)
    (match child_el "Transforms" e with
     | Some x => map decode_transform (ChildElements x) | None => [] end).

Definition decode_signed_info (e : Element) : SignedInfo :=
  mkSignedInfo (algorithm_of "CanonicalizationMethod" e) (algorithm_of "SignatureMethod" e)
    (map decode_reference (filter (λ x, Tag x = "Reference") (ChildElements e))).

Definition decode_signature (e : Element) : option SignedInfo * option string * option (list string) :=
  (decode_signed_info <$> child_el "SignedInfo" e,
   text_of <$> child_el "SignatureValue" e,
   (λ k, match child_el "X509Data" k with
         | Some d => map text_of (ChildElements d) | None => [] end) <$> child_el "KeyInfo" e).

#[export] Instance ref_signature_xml : SignatureXmlOps := {|
  Unmarshal_SignedInfo s :=
    match read_document s with
    | Some e => Ret (decode_signed_info e)
    | None => Err (Sentinel "xml.SyntaxError")
    end;
  Unmarshal_Signature s :=
    match read_document s with
    | Some e => Ret (decode_signature e)
    | None => Err (Sentinel "xml.SyntaxError")
    end
|}.

Definition signing_context : SigningContext :=
  set_Canonicalizer (c14N10ExclusiveCanonicalizer "" false)
    (mkSigningContext SHA256 None DefaultIdAttr DefaultPrefix (c14N11Canonicalizer false)
       (Some (mkSigner (RSAPublicKey "cert"))) ["cert"]).

Definition message : Element :=
  mkElement "p" "Response" [mkAttr "" "ID" "id1"; mkAttr "xmlns" "p" "urn:p"; mkAttr "xmlns" "q" "urn:q"]
    [TElement (mkElement "p" "Status" [] [TCharData "ok"])].

Definition signed_message : Element :=
  match SignEnveloped signing_context (root_cursor message) with Ret e => e | _ => message end.

Definition context : ValidationContext :=
  mkValidationContext [mkCertificate "cert" (RSAPublicKey "cert") 0%Z 1000%Z] "ID" 500%Z.

Definition canonical_message : Element :=
  mkElement "p" "Response" [mkAttr "xmlns" "p" "urn:p"; mkAttr "" "ID" "id1"]
    [TElement (mkElement "p" "Status" [] [TCharData "ok"])].

(** What is signed validates, and gives the canonical content. *)
Example signed_message_validates : Validate context signed_message = Ret (Some canonical_message).
Proof. by vm_compute. Qed.

(** It does not validate when the certificate has expired, or is another. *)
Example expired_certificate :
  is_ret (Validate (mkValidationContext (ValidationContext_Roots context) "ID" 1001%Z) signed_message) = false.
Proof. by vm_compute. Qed.

Lemma Validate_sound_witness : covered context signed_message (Some canonical_message).
Proof. apply Validate_sound. vm_compute. reflexivity. Defined.

Lemma search_terminates_witness :
  search_traverse 1500 "id1" default_prefixes [] (defaultLimit, mkSearchState signed_message None) =
  search_traverse search_fuel "id1" default_prefixes [] (defaultLimit, mkSearchState signed_message None).
Proof. apply search_terminates. unfold search_fuel. lia. Defined.

Lemma ecdsa_roundtrip_witness :
  ecdsaDERToRaw (ECDSAPublicKey "k" 16%Z 16%Z) "258/772." = Ret (String "001" (String "002" (String "003" (String "004" "")))).
Proof.
  apply ecdsa_roundtrip; [exact ref_asn1|by vm_compute|by vm_compute|reflexivity].
Defined.
End Examples.
