(* ===== verification/Redirect.v ===== *)
(** * Redirect: the HTTP-Redirect binding

    [redirectParameters], [verifyRedirectSignature] and [verifyDigest] of
    [src/identity_provider_signature.go], [redirectURLWithContext] of
    [src/service_provider.go] and the bounded decompression of [src/flate.go]. *)

From stdpp Require Import base option list gmap strings.
From Stdlib Require Import ZArith Lia Ascii.
From S2P Require Import Prelude Go Encoding Etree C14n Schema Env DSig.

Open Scope string_scope.

(** ** The bounded decompressor *)

Definition flateUncompressLimit : Z := 10 * 1024 * 1024.

Definition flate_limit_error : error :=
  Errorf "flate: uncompress limit exceeded (%d bytes)" [AInt flateUncompressLimit].

(** [io.ReadAll] of a [saferFlateReader] that has returned [count] bytes. *)
Fixpoint saferFlateReader_ReadAll (count : Z) (reads : list (Z * string)) (final : option error)
    : outcome string :=
  match reads with
  | [] => match final with None => Ret "" | Some e => Err e end
  | (len_p, bytes) :: reads =>
      _ ← raise_if (flateUncompressLimit <? count + len_p)%Z flate_limit_error;
      rest ← saferFlateReader_ReadAll (count + Z.of_nat (String.length bytes)) reads final;
      Ret (bytes +++ rest)
  end.

(** [io.ReadAll(newSaferFlateReader(data))], through an [io.LimitReader] if a
    limit is given. *)
Definition safer_ReadAll `{FlateI : FlateOps} (limit : option Z) (data : string) : outcome string :=
  let '(reads, final) := flate_reads limit data in saferFlateReader_ReadAll 0 reads final.

(** ** The parameters of a query *)

Definition signature_keys : list string :=
  ["SAMLRequest"; "SAMLResponse"; "RelayState"; "SigAlg"; "Signature"].

Fixpoint redirect_loop (pairs : list string) (parameters : gmap string string)
    : outcome (gmap string string) :=
  match pairs with
  | [] => Ret parameters
  | part :: pairs =>
      let '(rawKey, value, _) := Cut "=" part in
      key ← map_err (λ _, Errorf "malformed query parameter" []) (QueryUnescape rawKey);
      if bool_decide (key ∈ signature_keys) then
        _ ← raise_if (bool_decide (is_Some (parameters !! key)))
          (Errorf "repeated %s parameter" [AStr key]);
        redirect_loop pairs (<[key := value]> parameters)
      else redirect_loop pairs parameters
  end.

Definition redirectParameters (rawQuery : string) : outcome (gmap string string) :=
  redirect_loop (Split "&" rawQuery) ∅.

(** ** Signatures of queries *)

(** The hash of each accepted algorithm: the identifiers of
    [signatureMethodsByIdentifier] and their hashes. *)
Definition redirectSignatureHashes (algorithm : string) : option Hash :=
  snd <$> signatureMethodsByIdentifier algorithm.

Section signatures.
Context `{CryptoI : CryptoOps}.

Definition rsa_methods : list string :=
  [RSASHA1SignatureMethod; RSASHA256SignatureMethod; RSASHA384SignatureMethod; RSASHA512SignatureMethod].

Definition ecdsa_methods : list string :=
  [ECDSASHA1SignatureMethod; ECDSASHA256SignatureMethod; ECDSASHA384SignatureMethod; ECDSASHA512SignatureMethod].

Definition verifyDigest (certificate : Certificate) (algorithm : string) (hash : Hash)
    (digest signature : string) : bool :=
  let key := Certificate_PublicKey certificate in
  match key with
  | RSAPublicKey _ =>
      bool_decide (algorithm ∈ rsa_methods) && rsa_VerifyPKCS1v15 key hash digest signature
  | ECDSAPublicKey _ BitSize _ =>
      let size := Z.to_nat ((BitSize + 7) / 8) in
      bool_decide (algorithm ∈ ecdsa_methods) &&
      Nat.eqb (String.length signature) (2 * size) &&
      let '(r, s) := split_at size signature in ecdsa_Verify key digest (SetBytes r) (SetBytes s)
  | OtherPublicKey _ => false
  end.

(** The text that the signature of the parameters covers. *)
Definition signed_text (messageParameter : string) (parameters : gmap string string) : string :=
  messageParameter +++ "=" +++ default "" (parameters !! messageParameter) +++
  (match parameters !! "RelayState" with Some r => "&RelayState=" +++ r | None => "" end) +++
  "&SigAlg=" +++ default "" (parameters !! "SigAlg").

Definition valid_at (now : Time) (c : Certificate) : bool :=
  negb ((now <? Certificate_NotBefore c)%Z || (Certificate_NotAfter c <? now)%Z).

(** [now] is what [Clock] or [TimeNow] returns. *)
Definition verifyRedirectSignature (rawQuery messageParameter : string)
    (certificates : list Certificate) (now : Time) : outcome () :=
  parameters ← redirectParameters rawQuery;
  _ ← for_each (λ key, raise_if (negb (bool_decide (is_Some (parameters !! key))))
        (Errorf "missing %s parameter" [AStr key])) [messageParameter; "SigAlg"; "Signature"];
  let signed := signed_text messageParameter parameters in
  algorithm ← map_err (λ _, Errorf "malformed SigAlg parameter" [])
    (QueryUnescape (default "" (parameters !! "SigAlg")));
  hash ← or_err (redirectSignatureHashes algorithm) (Errorf "unsupported signature algorithm" []);
  encodedSignature ← map_err (λ _, Errorf "malformed Signature parameter" [])
    (QueryUnescape (default "" (parameters !! "Signature")));
  signature ← map_err (λ _, Errorf "malformed Signature parameter" []) (base64_Decode encodedSignature);
  let digest := hash_Sum hash signed in
  if existsb (λ c, valid_at now c && verifyDigest c algorithm hash digest signature) certificates
  then Ret ()
  else Err (Errorf "no currently valid certificate verifies the signature" []).
End signatures.

(** ** Redirect URLs *)

Section urls.
Context `{EtreeI : EtreeOps} `{CryptoI : CryptoOps} `{UrlI : UrlOps} `{FlateI : FlateOps}.

(** The query parameters of a message, without the signature. *)
Definition message_query (parameter encoded relayState : string) : string :=
  parameter +++ "=" +++ QueryEscape encoded +++
  (if relayState != "" then "&RelayState=" +++ QueryEscape relayState else "").

(** The query with the signature. *)
Definition sign_query (signingContext : SigningContext) (query : string) : outcome string :=
  method ← GetSignatureMethodIdentifier signingContext;
  let query := query +++ "&SigAlg=" +++ QueryEscape method in
  sig ← SignString signingContext query;
  Ret (query +++ "&Signature=" +++ QueryEscape (base64_Encode sig)).

Definition redirectURLWithContext (destination parameter : string) (message : Element)
    (relayState : string) (signingContext : option SigningContext) : outcome URL :=
  bytes ← WriteToBytes message;
  let encoded := base64_Encode (flate_Compress bytes) in
  rv ← url_Parse destination;
  let query := message_query parameter encoded relayState in
  query ← match signingContext with None => Ret query | Some ctx => sign_query ctx query end;
  let query := if URL_RawQuery rv != "" then URL_RawQuery rv +++ "&" +++ query else query in
  Ret (set_RawQuery query rv).
End urls.
