(* ===== verification/RedirectSpec.v ===== *)
(** * RedirectSpec: properties of the HTTP-Redirect binding

    The value of a parameter that [url.Values] returns is the decoding of the
    value that the signature covers; a URL signed by one side verifies on the
    other; and decompression is bounded. *)

From stdpp Require Import base option list gmap strings.
From Stdlib Require Import ZArith Lia Ascii.
From S2P Require Import Prelude Go Encoding Etree C14n Schema Env DSig Reference Redirect.

Open Scope string_scope.

(** ** Bounded decompression *)

Lemma saferFlateReader_bound count reads final out :
  (∀ r, r ∈ reads → Z.of_nat (String.length r.2) <= r.1)%Z →
  (0 <= count <= flateUncompressLimit)%Z →
  saferFlateReader_ReadAll count reads final = Ret out →
  (count + Z.of_nat (String.length out) <= flateUncompressLimit)%Z.
Proof.
  revert count out. induction reads as [|[len_p bytes] reads IH]; intros count out Hr Hc Ho.
  { simpl in Ho. destruct final; [done|]. injection Ho as <-. simpl. lia. }
  cbn [saferFlateReader_ReadAll] in Ho. apply raise_if_bind in Ho as [Hlim Ho].
  apply bind_ret in Ho as (rest & Hrest & [= <-]). apply Z.ltb_ge in Hlim.
  assert (Hb : (Z.of_nat (String.length bytes) <= len_p)%Z) by (apply (Hr (len_p, bytes)); left).
  rewrite length_append, Nat2Z.inj_add.
  apply IH in Hrest; [lia|intros r Hin; apply Hr; by right|lia].
Qed.

(** Whatever the reads, decompressing a message never yields more than the
    10 MB limit, given that a read returns no more bytes than its buffer
    holds. *)
Theorem safer_ReadAll_bound `{FlateI : FlateOps} limit data out
    (Hreads : ∀ r, r ∈ (flate_reads limit data).1 → (Z.of_nat (String.length r.2) <= r.1)%Z)
    (Hout : safer_ReadAll limit data = Ret out) :
  (Z.of_nat (String.length out) <= flateUncompressLimit)%Z.
Proof.
  unfold safer_ReadAll in Hout. destruct (flate_reads limit data) as [reads final]. simpl in Hreads.
  apply saferFlateReader_bound in Hout; [lia|done|unfold flateUncompressLimit; lia].
Qed.

Lemma safer_ReadAll_bound_witness :
  (Z.of_nat (String.length "message") <= flateUncompressLimit)%Z.
Proof.
  apply (safer_ReadAll_bound None "message"); [|reflexivity].
  intros r Hr. simpl in Hr. apply list_elem_of_singleton in Hr as ->. simpl. lia.
Defined.

(** ** The signed value is the processed value *)

(** A parameter once set keeps its value. *)
Lemma redirect_loop_keeps parts m m' key v :
  redirect_loop parts m = Ret m' → m !! key = Some v → m' !! key = Some v.
Proof.
  revert m. induction parts as [|part parts IH]; intros m Hl Hv; cbn [redirect_loop] in Hl.
  { by injection Hl as <-. }
  destruct (Cut "=" part) as [[rawKey value] f]. apply bind_ret in Hl as (k & _ & Hl).
  destruct (bool_decide_reflect (k ∈ signature_keys)); [|by eapply IH].
  apply raise_if_bind in Hl as [Hn Hl]. bool_prop. eapply IH; [done|].
  destruct (decide (k = key)) as [->|]; [|by rewrite lookup_insert_ne].
  destruct Hn. by eexists.
Qed.

(** Every pair [url.ParseQuery] returns for a signature key is the one the
    signature covers. *)
Lemma redirect_loop_agrees parts m m' key v :
  redirect_loop parts m = Ret m' → key ∈ signature_keys → (key, v) ∈ (parse_pairs parts).1 →
  ∃ raw, m' !! key = Some raw ∧ QueryUnescape raw = Ret v.
Proof.
  intros Hl Hkey. revert m Hl. induction parts as [|part parts IH]; intros m Hl Hin.
  { by apply elem_of_nil in Hin. }
  cbn [redirect_loop] in Hl. cbn [parse_pairs] in Hin.
  destruct (parse_pairs parts) as [rest ok] eqn:Ep. simpl in IH.
  destruct (Cut "=" part) as [[rawKey value] f] eqn:Ecut.
  apply bind_ret in Hl as (k & Hk & Hl). rewrite map_err_ret in Hk.
  unfold QueryUnescape in Hk. rewrite or_err_ret in Hk.
  assert (Hrest : (key, v) ∈ rest → ∃ raw, m' !! key = Some raw ∧ QueryUnescape raw = Ret v).
  { intros Hr. destruct (bool_decide (k ∈ signature_keys)); [|by eapply IH].
    apply raise_if_bind in Hl as [_ Hl]. by eapply IH. }
  destruct (has_byte ";" part); [by apply Hrest|].
  destruct (bool_decide (part = "")); [by apply Hrest|].
  rewrite Hk in Hin. destruct (query_unescape value) as [v'|] eqn:Ev; [|by apply Hrest].
  simpl in Hin. apply elem_of_cons in Hin as [[= -> ->]|Hin]; [|by apply Hrest].
  rewrite bool_decide_true in Hl by done. apply raise_if_bind in Hl as [_ Hl].
  exists value. split; [|unfold QueryUnescape; by rewrite Ev].
  eapply redirect_loop_keeps; [done|]. apply lookup_insert_eq.
Qed.

(** C18: no confusion between the signed and the processed message. If
    [redirectParameters] accepts a query, a value that [url.Values.Get] returns
    for a parameter that takes part in the signature is the decoding of the raw
    value that the signature is checked over, however the keys are encoded and
    whatever other parameters surround it. *)
Theorem redirectParameters_agrees q m key
    (Hq : redirectParameters q = Ret m) (Hkey : key ∈ signature_keys)
    (Hset : values_Get (ParseQuery q).1 key ≠ "") :
  ∃ raw, m !! key = Some raw ∧ QueryUnescape raw = Ret (values_Get (ParseQuery q).1 key).
Proof.
  unfold values_Get in *. destruct (first_that _ (ParseQuery q).1) as [[k v]|] eqn:E; [|done].
  apply first_that_elem in E as [Hin Hk]. bool_prop. subst k.
  by eapply redirect_loop_agrees.
Qed.

Lemma redirectParameters_agrees_witness :
  ∃ raw, ({["SAMLRequest" := "a%2Bb"; "SigAlg" := "x"]} : gmap string string) !! "SAMLRequest" = Some raw ∧
    QueryUnescape raw = Ret "a+b".
Proof.
  apply (redirectParameters_agrees "SAML%52equest=a%2Bb&other=1&SigAlg=x");
    [reflexivity|by vm_compute; constructor|done].
Defined.

(** A repeated key is refused even when it is encoded differently. *)
Example repeated_key :
  redirectParameters "SAML%52equest=forged&SAMLRequest=signed"
  = Err (Errorf "repeated %s parameter" [AStr "SAMLRequest"]).
Proof. reflexivity. Qed.

(** ** Signing and verifying *)

Lemma redirect_loop_app l1 l2 m :
  redirect_loop (l1 ++ l2) m = redirect_loop l1 m ≫= redirect_loop l2.
Proof.
  revert m. induction l1 as [|part l1 IH]; intros m; [done|]. cbn [app redirect_loop].
  destruct (Cut "=" part) as [[k v] f]. destruct (map_err _ (QueryUnescape k)); [|done..].
  rewrite !ret_bind. destruct (bool_decide (a ∈ signature_keys)); [|apply IH].
  destruct (bool_decide (is_Some (m !! a))); [done|]. apply IH.
Qed.

Lemma Split_app sep s t :
  Split sep (s +++ String sep t) = (Split sep s ++ Split sep t)%list.
Proof.
  induction s as [|c s IH]; simpl; [by rewrite Ascii.eqb_refl|].
  destruct (Ascii.eqb c sep); [by rewrite IH|]. rewrite IH.
  pose proof (Split_nonempty sep s). by destruct (Split sep s).
Qed.

(** One parameter of the signature, set for the first time. *)
Lemma redirect_loop_set key value parts m :
  key ∈ signature_keys → m !! key = None →
  redirect_loop ((key +++ String "=" value) :: parts) m = redirect_loop parts (<[key := value]> m).
Proof.
  intros Hkey Hm. cbn [redirect_loop].
  assert (Hk : has_byte "=" key = false ∧ QueryUnescape key = Ret key).
  { unfold signature_keys in Hkey. repeat (apply elem_of_cons in Hkey as [->|Hkey]; [done|]).
    by apply elem_of_nil in Hkey. }
  destruct Hk as [Hk1 Hk2]. rewrite (Cut_append _ _ _ Hk1), Hk2. cbn [map_err].
  rewrite ret_bind, bool_decide_true, Hm by done. reflexivity.
Qed.

Lemma signatureMethods_inverse algo h method :
  signatureMethodIdentifiers algo h = Some method →
  signatureMethodsByIdentifier method = Some (algo, h).
Proof. destruct algo, h; intros [= <-]; by vm_compute. Qed.

Section sign_verify.
Context `{EtreeI : EtreeOps} `{CryptoI : CryptoOps} `{UrlI : UrlOps} `{FlateI : FlateOps}.

Definition param (key value : string) : string := key +++ String "=" (QueryEscape value).

Lemma param_no_amp key value : has_byte "&" key = false → has_byte "&" (param key value) = false.
Proof.
  intros Hk. unfold param. rewrite has_byte_append, Hk. simpl. by apply QueryEscape_no_byte.
Qed.

(** The parameters of a signed query, in order. *)
Definition signed_params (parameter encoded relayState method sig : string) : list string :=
  (param parameter encoded :: (if relayState != "" then [param "RelayState" relayState] else [])
    ++ [param "SigAlg" method; param "Signature" sig])%list.

Lemma signed_query_split parameter encoded relayState method sig :
  has_byte "&" parameter = false →
  Split "&" (message_query parameter encoded relayState +++ "&SigAlg=" +++ QueryEscape method
    +++ "&Signature=" +++ QueryEscape sig)
  = signed_params parameter encoded relayState method sig.
Proof.
  intros Hp.
  assert (Hq : message_query parameter encoded relayState +++ "&SigAlg=" +++ QueryEscape method
      +++ "&Signature=" +++ QueryEscape sig
    = param parameter encoded +++
      (if relayState != "" then String "&" (param "RelayState" relayState) else "")
      +++ String "&" (param "SigAlg" method +++ String "&" (param "Signature" sig))).
  { unfold message_query, param. destruct (relayState != ""); rewrite ?append_assoc; cbn [String.append];
      rewrite ?append_assoc; cbn [String.append]; reflexivity. }
  rewrite Hq. unfold signed_params.
  assert (Htail : Split "&" (param "SigAlg" method +++ String "&" (param "Signature" sig))
    = [param "SigAlg" method; param "Signature" sig]).
  { rewrite Split_append by (by apply param_no_amp).
    by rewrite Split_no_sep by (by apply param_no_amp). }
  destruct (relayState != "").
  - cbn [String.append]. rewrite Split_append by (by apply param_no_amp).
    rewrite Split_append by (by apply param_no_amp). by rewrite Htail.
  - cbn [String.append]. rewrite Split_append by (by apply param_no_amp). by rewrite Htail.
Qed.

Definition signed_map (parameter encoded relayState method sig : string) : gmap string string :=
  let m := <[parameter := QueryEscape encoded]> ∅ in
  let m := if relayState != "" then <["RelayState" := QueryEscape relayState]> m else m in
  <["Signature" := QueryEscape sig]> (<["SigAlg" := QueryEscape method]> m).

Lemma signed_query_loop parameter encoded relayState method sig :
  parameter ∈ ["SAMLRequest"; "SAMLResponse"] →
  redirect_loop (signed_params parameter encoded relayState method sig) ∅
  = Ret (signed_map parameter encoded relayState method sig).
Proof.
  intros Hp. unfold signed_params, signed_map, param.
  assert (Hkey : parameter ∈ signature_keys ∧ parameter ∉ ["RelayState"; "SigAlg"; "Signature"]).
  { unfold signature_keys. repeat (apply elem_of_cons in Hp as [->|Hp]; [set_solver|]). set_solver. }
  assert (parameter ≠ "RelayState" ∧ parameter ≠ "SigAlg" ∧ parameter ≠ "Signature")
    as (? & ? & ?) by set_solver.
  assert ("RelayState" ∈ signature_keys ∧ "SigAlg" ∈ signature_keys ∧ "Signature" ∈ signature_keys)
    as (? & ? & ?) by (unfold signature_keys; set_solver).
  rewrite redirect_loop_set by naive_solver.
  destruct (relayState != ""); cbn [app].
  - rewrite redirect_loop_set by (by rewrite ?lookup_insert_ne).
    rewrite redirect_loop_set by (by rewrite ?lookup_insert_ne).
    by rewrite redirect_loop_set by (by rewrite ?lookup_insert_ne).
  - rewrite redirect_loop_set by (by rewrite ?lookup_insert_ne).
    by rewrite redirect_loop_set by (by rewrite ?lookup_insert_ne).
Qed.

Lemma signed_map_lookups parameter encoded relayState method sig :
  parameter ∈ ["SAMLRequest"; "SAMLResponse"] →
  let m := signed_map parameter encoded relayState method sig in
  m !! parameter = Some (QueryEscape encoded) ∧
  m !! "RelayState" = (if relayState != "" then Some (QueryEscape relayState) else None) ∧
  m !! "SigAlg" = Some (QueryEscape method) ∧ m !! "Signature" = Some (QueryEscape sig).
Proof.
  intros Hp m.
  assert (parameter ≠ "RelayState" ∧ parameter ≠ "SigAlg" ∧ parameter ≠ "Signature")
    as (? & ? & ?) by set_solver.
  unfold m, signed_map. split_and!.
  - rewrite !lookup_insert_ne by done.
    destruct (relayState != ""); rewrite ?lookup_insert_ne by done; apply lookup_insert_eq.
  - rewrite !lookup_insert_ne by done. destruct (relayState != ""); [apply lookup_insert_eq|].
    rewrite lookup_insert_ne by done. apply lookup_empty.
  - rewrite lookup_insert_ne by done. apply lookup_insert_eq.
  - apply lookup_insert_eq.
Qed.

Lemma signed_map_text parameter encoded relayState method sig :
  parameter ∈ ["SAMLRequest"; "SAMLResponse"] →
  signed_text parameter (signed_map parameter encoded relayState method sig)
  = message_query parameter encoded relayState +++ "&SigAlg=" +++ QueryEscape method.
Proof.
  intros Hp. destruct (signed_map_lookups parameter encoded relayState method sig Hp)
    as (H1 & H2 & H3 & _).
  unfold signed_text, message_query. rewrite H1, H2, H3. cbn [from_option id].
  destruct (relayState != ""); rewrite ?append_assoc; cbn [String.append];
    rewrite ?append_assoc; reflexivity.
Qed.

Lemma redirect_url_verifies destination parameter message relayState ctx method now rv u certs c
    (Hparam : parameter ∈ ["SAMLRequest"; "SAMLResponse"])
    (Hmethod : GetSignatureMethodIdentifier ctx = Ret method)
    (Hdest : url_Parse destination = Ret rv)
    (Hrv : redirectParameters (URL_RawQuery rv) = Ret ∅)
    (Hurl : redirectURLWithContext destination parameter message relayState (Some ctx) = Ret u)
    (Hc : c ∈ certs) (Hvalid : valid_at now c = true)
    (Hlaw : ∀ d sig, signDigest ctx d = Ret sig →
      verifyDigest c method (SigningContext_Hash ctx) d sig = true)
    (Hknown : method ≠ "") :
  verifyRedirectSignature (URL_RawQuery u) parameter certs now = Ret ().
Proof.
  unfold redirectURLWithContext, sign_query in Hurl. rewrite Hmethod in Hurl.
  apply bind_ret in Hurl as (bytes & _ & Hurl). rewrite Hdest, ret_bind in Hurl.
  apply bind_ret in Hurl as (query & Hquery & [= <-]). rewrite ret_bind in Hquery.
  apply bind_ret in Hquery as (sig & Hsig & [= <-]). cbn [URL_RawQuery set_RawQuery].
  set (encoded := base64_Encode (flate_Compress bytes)) in *.
  assert (Hamp : has_byte "&" parameter = false).
  { repeat (apply elem_of_cons in Hparam as [->|Hparam]; [done|]). by apply elem_of_nil in Hparam. }
  unfold verifyRedirectSignature.
  match goal with |- (redirectParameters ?q ≫= _) = _ =>
    assert (Hps : redirectParameters q
      = Ret (signed_map parameter encoded relayState method (base64_Encode sig))) end.
  { rewrite <- (signed_query_loop _ _ _ _ _ Hparam), <- (signed_query_split _ _ _ _ _ Hamp).
    rewrite !append_assoc. unfold redirectParameters in *. destruct (URL_RawQuery rv != ""); [|done].
    change ("&" +++ ?x) with (String "&" x). cbn [String.append].
    rewrite Split_app, redirect_loop_app, Hrv. done. }
  rewrite Hps, ret_bind. cbv zeta.
  pose proof (signed_map_text parameter encoded relayState method (base64_Encode sig) Hparam) as Htext.
  destruct (signed_map_lookups parameter encoded relayState method (base64_Encode sig) Hparam)
    as (Hm1 & _ & Hm2 & Hm3).
  assert (Hall : for_each (λ key, raise_if (negb (bool_decide (is_Some
      (signed_map parameter encoded relayState method (base64_Encode sig) !! key))))
      (Errorf "missing %s parameter" [AStr key])) [parameter; "SigAlg"; "Signature"] = Ret ()).
  { apply for_each_ret. intros k Hk. apply raise_if_ret, negb_false_iff, bool_decide_eq_true.
    repeat (apply elem_of_cons in Hk as [->|Hk]; [by eauto|]). by apply elem_of_nil in Hk. }
  rewrite Hall, ret_bind, Htext, Hm2, Hm3. cbn [from_option id].
  rewrite !QueryUnescape_escape. cbn [map_err]. rewrite !ret_bind.
  apply bind_ret in Hmethod as (algo & _ & Hm). injection Hm as Hm.
  destruct (signatureMethodIdentifiers algo (SigningContext_Hash ctx)) as [x|] eqn:Ex;
    [|by symmetry in Hm]. simpl in Hm. subst x.
  unfold redirectSignatureHashes. rewrite (signatureMethods_inverse _ _ _ Ex). cbn.
  rewrite base64_Decode_Encode. cbn [map_err]. rewrite ret_bind.
  unfold SignString in Hsig. apply raise_if_bind in Hsig as [_ Hsig].
  apply Hlaw in Hsig.
  match goal with |- (if ?b then _ else _) = _ => assert (b = true) as ->; [|done] end.
  apply existsb_elem. exists c. rewrite Hvalid. split; [done|]. exact Hsig.
Qed.
(** C19: what one side signs the other verifies. A URL that
    [redirectURLWithContext] signs passes [verifyRedirectSignature] for a valid
    certificate of the signer, when the destination has no signature parameters
    of its own and the algorithms verify what they sign. *)
Theorem redirect_sign_verify destination parameter message relayState ctx method now rv u certs c
    (Hparam : parameter ∈ ["SAMLRequest"; "SAMLResponse"])
    (Hmethod : GetSignatureMethodIdentifier ctx = Ret method)
    (Hdest : url_Parse destination = Ret rv)
    (Hrv : redirectParameters (URL_RawQuery rv) = Ret ∅)
    (Hurl : redirectURLWithContext destination parameter message relayState (Some ctx) = Ret u)
    (Hc : c ∈ certs) (Hvalid : valid_at now c = true)
    (Hlaw : ∀ d sig, signDigest ctx d = Ret sig →
      verifyDigest c method (SigningContext_Hash ctx) d sig = true)
    (Hknown : method ≠ "") :
  verifyRedirectSignature (URL_RawQuery u) parameter certs now = Ret ().
Proof. by apply (redirect_url_verifies destination parameter message relayState ctx method now rv u certs c). Qed.
End sign_verify.

Module Examples.
Definition signing_context : SigningContext :=
  mkSigningContext SHA256 None DefaultIdAttr DefaultPrefix (c14N11Canonicalizer false)
    (Some (mkSigner (RSAPublicKey "cert"))) ["cert"].

Definition certificate : Certificate := mkCertificate "cert" (RSAPublicKey "cert") 0%Z 1000%Z.

Definition message : Element := mkElement "samlp" "LogoutRequest" [mkAttr "" "ID" "id1"] [].

Definition signed_url : URL :=
  match redirectURLWithContext "https:slo" "SAMLRequest" message "state 1" (Some signing_context) with
  | Ret u => u
  | _ => url_of ""
  end.

Lemma redirect_sign_verify_witness :
  verifyRedirectSignature (URL_RawQuery signed_url) "SAMLRequest" [certificate] 500%Z = Ret ().
Proof.
  eapply (redirect_sign_verify "https:slo" "SAMLRequest" message "state 1" signing_context
    RSASHA256SignatureMethod 500%Z (url_of "slo") signed_url [certificate] certificate).
  - left.
  - reflexivity.
  - reflexivity.
  - reflexivity.
  - vm_compute. reflexivity.
  - left.
  - reflexivity.
  - intros d sig [= <-]. unfold verifyDigest. simpl. apply bool_decide_eq_true. reflexivity.
  - discriminate.
Defined.

(** A changed relay state is noticed. *)
Example tampered :
  is_ret (verifyRedirectSignature (URL_RawQuery signed_url +++ "&RelayState=x") "SAMLRequest"
    [certificate] 500%Z) = false.
Proof. vm_compute. reflexivity. Qed.
End Examples.
