(* ===== verification/SchemaXML.v ===== *)
(** * SchemaXML: the XML form of the messages

    The [Element] methods of [src/schema.go], in the order in which the source
    adds attributes and children, with times as
    [time.Time.Format(timeFormat)] writes them.  [Assertion.Element] canonicalizes the
    element and panics if that fails, so it and what contains it are
    outcomes. *)

From stdpp Require Import base option list strings.
From Stdlib Require Import ZArith.
From S2P Require Import Prelude Go Duration RelaxedTime Etree C14n Schema Env.

Open Scope string_scope.

(** [x |> f |> g] edits an element in steps. *)
Notation "x |> f" := (f x) (at level 56, left associativity, only parsing) : go_scope.

(** [strconv.FormatBool] *)
Definition FormatBool (b : bool) : string := if b then "true" else "false".

Definition canonicalizerPrefixList := "".

Section elements.
Context `{EtreeI : EtreeOps}.

Definition attr_set (key value : string) (el : Element) : Element :=
  if value != "" then CreateAttr key value el else el.

Definition attr_opt {A} (key : string) (format : A → string) (value : option A) (el : Element)
    : Element :=
  match value with Some v => CreateAttr key (format v) el | None => el end.

Definition attr_time (key : string) (value : Time) (el : Element) : Element :=
  if IsZero value then el else CreateAttr key (Time_Format value) el.

Definition child_opt {A} (element : A → Element) (value : option A) (el : Element) : Element :=
  match value with Some v => AddChild (element v) el | None => el end.

Definition child_each {A} (element : A → Element) (values : list A) (el : Element) : Element :=
  foldl (λ el v, AddChild (element v) el) el values.

Definition declare_saml (el : Element) : Element :=
  el |> CreateAttr "xmlns:saml" "urn:oasis:names:tc:SAML:2.0:assertion"
     |> CreateAttr "xmlns:samlp" "urn:oasis:names:tc:SAML:2.0:protocol".

Definition declare_xs (el : Element) : Element :=
  CreateAttr "xmlns:xs" "http://www.w3.org/2001/XMLSchema" el.

Definition text_el (tag text : string) : Element := SetText text (NewElement tag).

Definition RequestedAuthnContext_Element (r : RequestedAuthnContext) : Element :=
  NewElement "samlp:RequestedAuthnContext"
  |> attr_set "Comparison" (RequestedAuthnContext_Comparison r)
  |> child_each (text_el "saml:AuthnContextClassRef") (RequestedAuthnContext_AuthnContextClassRefs r)
  |> child_each (text_el "saml:AuthnContextDeclRef") (RequestedAuthnContext_AuthnContextDeclRefs r).

Definition Issuer_Element (a : Issuer) : Element :=
  NewElement "saml:Issuer"
  |> attr_set "NameQualifier" (Issuer_NameQualifier a)
  |> attr_set "SPNameQualifier" (Issuer_SPNameQualifier a)
  |> attr_set "Format" (Issuer_Format a)
  |> attr_set "SPProvidedID" (Issuer_SPProvidedID a)
  |> SetText (Issuer_Value a).

Definition NameID_Element (a : NameID) : Element :=
  let el := NewElement "saml:NameID"
    |> attr_set "NameQualifier" (NameID_NameQualifier a)
    |> attr_set "SPNameQualifier" (NameID_SPNameQualifier a)
    |> attr_set "Format" (NameID_Format a)
    |> attr_set "SPProvidedID" (NameID_SPProvidedID a) in
  if NameID_Value a != "" then SetText (NameID_Value a) el else el.

Definition NameIDPolicy_Element (a : NameIDPolicy) : Element :=
  NewElement "samlp:NameIDPolicy"
  |> attr_set "Format" (default "" (NameIDPolicy_Format a))
  |> attr_opt "SPNameQualifier" id (NameIDPolicy_SPNameQualifier a)
  |> attr_opt "AllowCreate" FormatBool (NameIDPolicy_AllowCreate a).

Definition SessionIndex_Element (s : SessionIndex) : Element :=
  let el := NewElement "samlp:SessionIndex"
    |> CreateAttr "xmlns:samlp" "urn:oasis:names:tc:SAML:2.0:protocol" in
  if SessionIndex_Value s != "" then SetText (SessionIndex_Value s) el else el.

Definition SubjectConfirmationData_Element (s : SubjectConfirmationData) : Element :=
  NewElement "saml:SubjectConfirmationData"
  |> attr_time "NotBefore" (SubjectConfirmationData_NotBefore s)
  |> attr_time "NotOnOrAfter" (SubjectConfirmationData_NotOnOrAfter s)
  |> attr_set "Recipient" (SubjectConfirmationData_Recipient s)
  |> attr_set "InResponseTo" (SubjectConfirmationData_InResponseTo s)
  |> attr_set "Address" (SubjectConfirmationData_Address s).

Definition SubjectConfirmation_Element (a : SubjectConfirmation) : Element :=
  NewElement "saml:SubjectConfirmation"
  |> CreateAttr "Method" (SubjectConfirmation_Method a)
  |> child_opt NameID_Element (SubjectConfirmation_NameID a)
  |> child_opt SubjectConfirmationData_Element (SubjectConfirmation_SubjectConfirmationData a).

Definition Subject_Element (a : Subject) : Element :=
  NewElement "saml:Subject"
  |> child_opt NameID_Element (Subject_NameID a)
  |> child_each SubjectConfirmation_Element (Subject_SubjectConfirmations a).

Definition Audience_Element (a : Audience) : Element := text_el "saml:Audience" (Audience_Value a).

Definition AudienceRestriction_Element (a : AudienceRestriction) : Element :=
  NewElement "saml:AudienceRestriction"
  |> child_each Audience_Element (AudienceRestriction_Audiences a).

Definition OneTimeUse_Element (a : OneTimeUse) : Element := NewElement "saml:OneTimeUse".

Definition ProxyRestriction_Element (a : ProxyRestriction) : Element :=
  NewElement "saml:ProxyRestriction"
  |> attr_opt "Count" itoa (ProxyRestriction_Count a)
  |> child_each Audience_Element (ProxyRestriction_Audiences a).

Definition Conditions_Element (c : Conditions) : Element :=
  NewElement "saml:Conditions"
  |> attr_time "NotBefore" (Conditions_NotBefore c)
  |> attr_time "NotOnOrAfter" (Conditions_NotOnOrAfter c)
  |> child_each AudienceRestriction_Element (Conditions_AudienceRestrictions c)
  |> child_opt OneTimeUse_Element (Conditions_OneTimeUse c)
  |> child_opt ProxyRestriction_Element (Conditions_ProxyRestriction c).

Definition SubjectLocality_Element (a : SubjectLocality) : Element :=
  NewElement "saml:SubjectLocality"
  |> attr_set "Address" (SubjectLocality_Address a)
  |> attr_set "DNSName" (SubjectLocality_DNSName a).

Definition AuthnContextClassRef_Element (a : AuthnContextClassRef) : Element :=
  text_el "saml:AuthnContextClassRef" (AuthnContextClassRef_Value a).

Definition AuthnContext_Element (a : AuthnContext) : Element :=
  NewElement "saml:AuthnContext"
  |> child_opt AuthnContextClassRef_Element (AuthnContext_AuthnContextClassRef a).

Definition AuthnStatement_Element (a : AuthnStatement) : Element :=
  NewElement "saml:AuthnStatement"
  |> CreateAttr "AuthnInstant" (Time_Format (AuthnStatement_AuthnInstant a))
  |> attr_set "SessionIndex" (AuthnStatement_SessionIndex a)
  |> attr_opt "SessionNotOnOrAfter" Time_Format (AuthnStatement_SessionNotOnOrAfter a)
  |> child_opt SubjectLocality_Element (AuthnStatement_SubjectLocality a)
  |> AddChild (AuthnContext_Element (AuthnStatement_AuthnContext a)).

Definition AttributeValue_Element (a : AttributeValue) : Element :=
  NewElement "saml:AttributeValue"
  |> CreateAttr "xmlns:xsi" "http://www.w3.org/2001/XMLSchema-instance"
  |> declare_xs
  |> attr_set "xsi:type" (AttributeValue_Type a)
  |> child_opt NameID_Element (AttributeValue_NameID a)
  |> SetText (AttributeValue_Value a).

Definition Attribute_Element (a : Attribute) : Element :=
  NewElement "saml:Attribute"
  |> attr_set "FriendlyName" (Attribute_FriendlyName a)
  |> attr_set "Name" (Attribute_Name a)
  |> attr_set "NameFormat" (Attribute_NameFormat a)
  |> child_each AttributeValue_Element (Attribute_Values a).

Definition AttributeStatement_Element (a : AttributeStatement) : Element :=
  NewElement "saml:AttributeStatement"
  |> child_each Attribute_Element (AttributeStatement_Attributes a).

Fixpoint StatusCode_Element (s : StatusCode) : Element :=
  let 'mkStatusCode value sub := s in
  let el := CreateAttr "Value" value (NewElement "samlp:StatusCode") in
  match sub with Some c => AddChild (StatusCode_Element c) el | None => el end.

Definition StatusMessage_Element (sm : StatusMessage) : Element :=
  text_el "samlp:StatusMessage" (StatusMessage_Value sm).

Definition StatusDetail_Element (sm : StatusDetail) : Element :=
  NewElement "samlp:StatusDetail" |> child_each id (StatusDetail_Children sm).

Definition Status_Element (s : Status) : Element :=
  NewElement "samlp:Status"
  |> AddChild (StatusCode_Element (Status_StatusCode s))
  |> child_opt StatusMessage_Element (Status_StatusMessage s)
  |> child_opt StatusDetail_Element (Status_StatusDetail s).

Definition AuthnRequest_Element (r : AuthnRequest) : Element :=
  NewElement "samlp:AuthnRequest"
  |> declare_saml
  |> CreateAttr "ID" (AuthnRequest_ID r)
  |> CreateAttr "Version" (AuthnRequest_Version r)
  |> CreateAttr "IssueInstant" (Time_Format (AuthnRequest_IssueInstant r))
  |> attr_set "Destination" (AuthnRequest_Destination r)
  |> attr_set "Consent" (AuthnRequest_Consent r)
  |> child_opt Issuer_Element (AuthnRequest_Issuer r)
  |> child_opt id (AuthnRequest_Signature r)
  |> child_opt Subject_Element (AuthnRequest_Subject r)
  |> child_opt NameIDPolicy_Element (AuthnRequest_NameIDPolicy r)
  |> child_opt Conditions_Element (AuthnRequest_Conditions r)
  |> child_opt RequestedAuthnContext_Element (AuthnRequest_RequestedAuthnContext r)
  |> attr_opt "ForceAuthn" FormatBool (AuthnRequest_ForceAuthn r)
  |> attr_opt "IsPassive" FormatBool (AuthnRequest_IsPassive r)
  |> attr_set "AssertionConsumerServiceIndex" (AuthnRequest_AssertionConsumerServiceIndex r)
  |> attr_set "AssertionConsumerServiceURL" (AuthnRequest_AssertionConsumerServiceURL r)
  |> attr_set "ProtocolBinding" (AuthnRequest_ProtocolBinding r)
  |> attr_set "AttributeConsumingServiceIndex" (AuthnRequest_AttributeConsumingServiceIndex r)
  |> attr_set "ProviderName" (AuthnRequest_ProviderName r).

Definition LogoutRequest_Element (r : LogoutRequest) : Element :=
  NewElement "samlp:LogoutRequest"
  |> declare_saml
  |> CreateAttr "ID" (LogoutRequest_ID r)
  |> CreateAttr "Version" (LogoutRequest_Version r)
  |> CreateAttr "IssueInstant" (Time_Format (LogoutRequest_IssueInstant r))
  |> attr_opt "NotOnOrAfter" Time_Format (LogoutRequest_NotOnOrAfter r)
  |> attr_set "Destination" (LogoutRequest_Destination r)
  |> child_opt Issuer_Element (LogoutRequest_Issuer r)
  |> child_opt id (LogoutRequest_Signature r)
  |> child_opt NameID_Element (LogoutRequest_NameID r)
  |> child_each SessionIndex_Element (LogoutRequest_SessionIndexes r).

Definition LogoutResponse_Element (r : LogoutResponse) : Element :=
  NewElement "samlp:LogoutResponse"
  |> declare_saml
  |> CreateAttr "ID" (LogoutResponse_ID r)
  |> attr_set "InResponseTo" (LogoutResponse_InResponseTo r)
  |> CreateAttr "Version" (LogoutResponse_Version r)
  |> CreateAttr "IssueInstant" (Time_Format (LogoutResponse_IssueInstant r))
  |> attr_set "Destination" (LogoutResponse_Destination r)
  |> attr_set "Consent" (LogoutResponse_Consent r)
  |> child_opt Issuer_Element (LogoutResponse_Issuer r)
  |> child_opt id (LogoutResponse_Signature r)
  |> AddChild (Status_Element (LogoutResponse_Status r)).

Definition ArtifactResolve_Element (r : ArtifactResolve) : Element :=
  NewElement "samlp:ArtifactResolve"
  |> declare_saml |> declare_xs
  |> CreateAttr "ID" (ArtifactResolve_ID r)
  |> CreateAttr "Version" (ArtifactResolve_Version r)
  |> CreateAttr "IssueInstant" (Time_Format (ArtifactResolve_IssueInstant r))
  |> child_opt Issuer_Element (ArtifactResolve_Issuer r)
  |> child_opt id (ArtifactResolve_Signature r)
  |> AddChild (text_el "samlp:Artifact" (ArtifactResolve_Artifact r)).

Definition ArtifactResolve_SoapRequest (r : ArtifactResolve) : Element :=
  NewElement "soapenv:Envelope"
  |> CreateAttr "xmlns:soapenv" "http://schemas.xmlsoap.org/soap/envelope/"
  |> CreateAttr "xmlns:xsi" "http://www.w3.org/2001/XMLSchema-instance"
  |> AddChild (NewElement "soapenv:Body" |> AddChild (ArtifactResolve_Element r)).

Definition Assertion_Element (a : Assertion) : outcome Element :=
  let el := NewElement "saml:Assertion"
    |> CreateAttr "xmlns:saml" "urn:oasis:names:tc:SAML:2.0:assertion"
    |> CreateAttr "Version" "2.0"
    |> CreateAttr "ID" (Assertion_ID a)
    |> CreateAttr "IssueInstant" (Time_Format (Assertion_IssueInstant a))
    |> AddChild (Issuer_Element (Assertion_Issuer a))
    |> child_opt id (Assertion_Signature a)
    |> child_opt Subject_Element (Assertion_Subject a)
    |> child_opt Conditions_Element (Assertion_Conditions a)
    |> child_each AuthnStatement_Element (Assertion_AuthnStatements a)
    |> child_each AttributeStatement_Element (Assertion_AttributeStatements a) in
  match TransformExcC14n el canonicalizerPrefixList false with
  | Ret el => Ret (if bool_decide (Assertion_AttributeStatements a = []) then el else declare_xs el)
  | _ => Panic
  end.

Definition Response_Element (r : Response) : outcome Element :=
  let el := NewElement "samlp:Response"
    |> declare_saml |> declare_xs
    |> CreateAttr "ID" (Response_ID r)
    |> attr_set "InResponseTo" (Response_InResponseTo r)
    |> CreateAttr "Version" (Response_Version r)
    |> CreateAttr "IssueInstant" (Time_Format (Response_IssueInstant r))
    |> attr_set "Destination" (Response_Destination r)
    |> attr_set "Consent" (Response_Consent r)
    |> child_opt Issuer_Element (Response_Issuer r)
    |> child_opt id (Response_Signature r)
    |> AddChild (Status_Element (Response_Status r))
    |> child_opt id (Response_EncryptedAssertion r) in
  match Response_Assertion r with
  | None => Ret el
  | Some a => e ← Assertion_Element a; Ret (AddChild e el)
  end.

Definition ArtifactResponse_Element (r : ArtifactResponse) : outcome Element :=
  let el := NewElement "samlp:ArtifactResponse"
    |> declare_saml |> declare_xs
    |> CreateAttr "ID" (ArtifactResponse_ID r)
    |> attr_set "InResponseTo" (ArtifactResponse_InResponseTo r)
    |> CreateAttr "Version" (ArtifactResponse_Version r)
    |> CreateAttr "IssueInstant" (Time_Format (ArtifactResponse_IssueInstant r))
    |> child_opt Issuer_Element (ArtifactResponse_Issuer r)
    |> child_opt id (ArtifactResponse_Signature r)
    |> AddChild (Status_Element (ArtifactResponse_Status r)) in
  e ← Response_Element (ArtifactResponse_Response r);
  Ret (AddChild e el).
End elements.

(** ** Endpoint locations of the metadata *)

Section endpoints.
Context `{UrlI : UrlOps}.

(** [checkEndpointLocation] of [src/metadata.go]. *)
Definition checkEndpointLocation (binding location : string) : outcome string :=
  if bool_decide (binding ∈ [HTTPPostBinding; HTTPRedirectBinding; HTTPArtifactBinding; SOAPBinding; SOAPBindingV1])
  then
    locationURL ← map_err (Wrap "invalid url %q: %w" [AStr location]) (url_Parse location);
    _ ← raise_if (negb (bool_decide (URL_Scheme locationURL ∈ ["http"; "https"])))
      (Errorf "invalid url scheme %q for binding %q" [AStr (URL_Scheme locationURL); AStr binding]);
    Ret location
  else Ret "".

(** What [UnmarshalXML] makes of a decoded endpoint. *)
Definition Endpoint_UnmarshalXML (m : Endpoint) : outcome Endpoint :=
  location ← checkEndpointLocation (Endpoint_Binding m) (Endpoint_Location m);
  responseLocation ←
    (if Endpoint_ResponseLocation m != "" then
       checkEndpointLocation (Endpoint_Binding m) (Endpoint_ResponseLocation m)
     else Ret "");
  Ret (mkEndpoint (Endpoint_Binding m) location responseLocation).

Definition IndexedEndpoint_UnmarshalXML (m : IndexedEndpoint) : outcome IndexedEndpoint :=
  location ← checkEndpointLocation (IndexedEndpoint_Binding m) (IndexedEndpoint_Location m);
  responseLocation ←
    match IndexedEndpoint_ResponseLocation m with
    | None => Ret None
    | Some l =>
        l ← checkEndpointLocation (IndexedEndpoint_Binding m) l;
        Ret (if l != "" then Some l else None)
    end;
  Ret (mkIndexedEndpoint (IndexedEndpoint_Binding m) location responseLocation
         (IndexedEndpoint_Index m) (IndexedEndpoint_IsDefault m)).
End endpoints.
