(* ===== verification/XmlDecode.v ===== *)
(** * XmlDecode: how [encoding/xml] reads a struct

    The part of package [encoding/xml] that the types of [src/schema.go] are read
    with: name spaces as a decoder translates them, and [unmarshal] of a struct,
    a pointer, a slice, a string, a bool and an int.  The tags of a struct are a
    list of fields in the order of [getTypeInfo].  A decoder gets an element as the
    tree of its raw tokens, with the declarations in scope. *)

From stdpp Require Import base option list gmap strings sets.
From Stdlib Require Import ZArith Lia Ascii.
From S2P Require Import Prelude Go Duration RelaxedTime Encoding Etree.

Open Scope string_scope.

(** ** Assignments to fields *)

(** A record written out with its fields, and the function that replaces one of them. *)
Class Eta (R : Type) := eta : R → R.
Class Setter {R F : Type} (proj : R → F) := set : F → R → R.
Arguments set {R F} proj {_}.

Ltac solve_setter proj :=
  is_const proj;
  lazymatch type of proj with
  | ?R → ?F =>
      let e := constr:(_ : Eta R) in
      let e := eval red in e in
      lazymatch eval pattern proj in e with
      | ?f _ =>
          let s := constr:(λ (x : F) (r : R), f (λ _, x) r) in
          let s := eval cbv beta in s in exact s
      end
  end.

#[export] Hint Extern 0 (Setter ?proj) => solve_setter proj : typeclass_instances.

(** [for _, x := range l { if err := f(x, &v); err != nil { return err } }] *)
Fixpoint fold_each {A B} (f : A → B → outcome B) (l : list A) (v : B) : outcome B :=
  match l with
  | [] => Ret v
  | x :: l => v ← f x v; fold_each f l v
  end.

(** ** Name spaces *)

(** The declarations of a start tag. *)
Definition xml_declare (ns : NSContext) (a : Attr) : NSContext :=
  if Attr_Space a =? "xmlns" then <[Attr_Key a := Attr_Value a]> ns
  else if (Attr_Space a =? "") && (Attr_Key a =? "xmlns") then <["" := Attr_Value a]> ns
  else ns.

Definition xml_scope (ns : NSContext) (el : Element) : NSContext :=
  foldl xml_declare ns (Attrs el).

(** [Decoder.translate]: the name space of a name; the default name space is for
    elements only.  [DefaultSpace] of the decoder is empty. *)
Definition translate (ns : NSContext) (isElementName : bool) (space local : string) : string :=
  if space =? xmlnsPrefix then space
  else if (space =? "") && negb isElementName then space
  else if negb (space =? xmlPrefix) && (space =? "") && (local =? xmlnsPrefix) then space
  else
    let space := if space =? xmlPrefix then XMLNamespace else space in
    default space (ns !! space).

Definition attr_space (ns : NSContext) (a : Attr) : string := translate ns false (Attr_Space a) (Attr_Key a).
Definition element_space (ns : NSContext) (el : Element) : string := translate ns true (Space el) (Tag el).

(** ** Structs *)

(** A field of a struct: its mode, the name space of its tag (empty for any), its
    name, and the assignment of what is read.  The assignment of an element gets
    the declarations in scope around the element. *)
Inductive Field (A : Type) : Type :=
  | FAttr (xmlns name : string) (assign : string → A → outcome A)
  | FElement (xmlns name : string) (assign : NSContext → Element → A → outcome A)
  | FCharData (assign : string → A → A).
Arguments FAttr {A}.
Arguments FElement {A}.
Arguments FCharData {A}.

(** The name of the [XMLName] field of a struct. *)
Record XMLName := mkXMLName { XMLName_Space : string; XMLName_Local : string }.

Section unmarshal.
Context {A : Type}.

(** The check of the element's name against the [XMLName] field. *)
Definition expect_name (xmlname : option XMLName) (ns : NSContext) (el : Element) : outcome () :=
  match xmlname with
  | None => Ret ()
  | Some n =>
      _ ← raise_if (negb (XMLName_Local n =? "") && negb (XMLName_Local n =? Tag el))
            (Errorf ("expected element type <" +++ XMLName_Local n +++ "> but have <" +++ Tag el +++ ">") []);
      raise_if (negb (XMLName_Space n =? "") && negb (XMLName_Space n =? element_space ns el))
        (if element_space ns el =? "" then
           Errorf ("expected element <" +++ XMLName_Local n +++ "> in name space " +++ XMLName_Space n
                   +++ " but have no name space") []
         else
           Errorf ("expected element <" +++ XMLName_Local n +++ "> in name space " +++ XMLName_Space n
                   +++ " but have " +++ element_space ns el) [])
  end.

(** An attribute is assigned to every field of its name. *)
Definition assign_attr (ns : NSContext) (a : Attr) (f : Field A) (v : A) : outcome A :=
  match f with
  | FAttr xmlns name assign =>
      if (Attr_Key a =? name) && ((xmlns =? "") || (xmlns =? attr_space ns a))
      then assign (Attr_Value a) v else Ret v
  | _ => Ret v
  end.

Definition read_attr (fields : list (Field A)) (ns : NSContext) (a : Attr) (v : A) : outcome A :=
  fold_each (assign_attr ns a) fields v.

(** [unmarshalPath]: a child element is assigned to the first field of its name, and
    skipped if there is none. *)
Fixpoint unmarshalPath (fields : list (Field A)) (ns : NSContext) (el : Element) (v : A) : outcome A :=
  match fields with
  | [] => Ret v
  | FElement xmlns name assign :: fields =>
      if (name =? Tag el) && ((xmlns =? "") || (xmlns =? element_space (xml_scope ns el) el))
      then assign ns el v else unmarshalPath fields ns el v
  | _ :: fields => unmarshalPath fields ns el v
  end.

Definition read_child (fields : list (Field A)) (ns : NSContext) (t : Token) (v : A) : outcome A :=
  match t with TElement el => unmarshalPath fields ns el v | _ => Ret v end.

(** The character data directly under an element. *)
Definition token_text (t : Token) : string := match t with TCharData s => s | _ => "" end.
Fixpoint char_data (c : list Token) : string :=
  match c with [] => "" | t :: c => token_text t +++ char_data c end.

(** The character data is assigned to the first field that takes it. *)
Fixpoint assign_chardata (fields : list (Field A)) (data : string) (v : A) : A :=
  match fields with
  | [] => v
  | FCharData assign :: _ => assign data v
  | _ :: fields => assign_chardata fields data v
  end.

(** [Decoder.unmarshal] of a struct. *)
Definition unmarshal_struct (xmlname : option XMLName) (fields : list (Field A))
    (ns : NSContext) (el : Element) (v : A) : outcome A :=
  let ns := xml_scope ns el in
  _ ← expect_name xmlname ns el;
  v ← fold_each (read_attr fields ns) (Attrs el) v;
  v ← fold_each (read_child fields ns) (Child el) v;
  Ret (assign_chardata fields (char_data (Child el)) v).
End unmarshal.

(** ** Values of attributes and elements *)

(** [strconv.ParseBool] *)
Definition ParseBool (s : string) : outcome bool :=
  if bool_decide (s ∈ ["1"; "t"; "T"; "true"; "TRUE"; "True"]) then Ret true
  else if bool_decide (s ∈ ["0"; "f"; "F"; "false"; "FALSE"; "False"]) then Ret false
  else Err (Errorf "strconv.ParseBool: parsing %q: invalid syntax" [AStr s]).

(** [strconv.ParseInt(s, 10, 64)] *)
Definition ParseInt (s : string) : outcome Z :=
  let '(negative, digits) :=
    match s with
    | String "+" s => (false, s)
    | String "-" s => (true, s)
    | _ => (false, s)
    end in
  let syntax := Errorf "strconv.ParseInt: parsing %q: invalid syntax" [AStr s] in
  let '(number, rest) := span_digits digits in
  _ ← raise_if ((number == "") || (rest != "")) syntax;
  let z := if negative then (- digits_value 0 number)%Z else digits_value 0 number in
  if in_int64 z then Ret z
  else Err (Errorf "strconv.ParseInt: parsing %q: value out of range" [AStr s]).

(** [copyValue] of the kinds that occur. *)
Definition copy_string (s : string) : outcome string := Ret s.
Definition copy_bool (s : string) : outcome bool := if s == "" then Ret false else ParseBool (TrimSpace s).
Definition copy_int (s : string) : outcome Z := if s == "" then Ret 0%Z else ParseInt (TrimSpace s).

(** [time.Time.UnmarshalText], whose strict checks are disabled. *)
Definition Time_UnmarshalText (s : string) : outcome Time := time_Parse RFC3339 s.

(** A nil pointer is allocated before what it points to is read. *)
Definition to_pointer {F} (read : string → outcome F) (s : string) : outcome (option F) :=
  x ← read s; Ret (Some x).

(** An attribute, or a child element, that is read into a field. *)
Definition attr_ns {A F} (xmlns name : string) (proj : A → F) `{!Setter proj}
    (read : string → outcome F) : Field A :=
  FAttr xmlns name (λ s v, x ← read s; Ret (set proj x v)).

Definition attr {A F} (name : string) (proj : A → F) `{!Setter proj} (read : string → outcome F) : Field A :=
  attr_ns "" name proj read.

Definition Reader (F : Type) : Type := NSContext → Element → F → outcome F.

Definition child {A F} (xmlns name : string) (proj : A → F) `{!Setter proj} (read : Reader F) : Field A :=
  FElement xmlns name (λ ns el v, x ← read ns el (proj v); Ret (set proj x v)).

Definition chardata {A} (proj : A → string) `{!Setter proj} : Field A := FCharData (set proj).

(** A string, bool or int element: its character data. *)
Definition simple {F} (copy : string → outcome F) : Reader F := λ _ el _, copy (char_data (Child el)).

Definition pointer {F} (zero : F) (read : Reader F) : Reader (option F) := λ ns el v,
  x ← read ns el (default zero v); Ret (Some x).

(** A slice grows by one element, which starts as the zero value. *)
Definition slice {F} (zero : F) (read : Reader F) : Reader (list F) := λ ns el l,
  x ← read ns el zero; Ret (l ++ [x])%list.

(** [maxUnmarshalDepth]: how deep [unmarshal] calls itself. *)
Definition maxUnmarshalDepth : nat := Z.to_nat 10000.
Definition errUnmarshalDepth : error := Errorf "exceeded max depth" [].

(** [xml.Unmarshal]: the decoder takes the first element of the input, here the tree
    of its tokens that a parser returns, and reads it into the zero value. *)
Definition xml_Unmarshal {A} (Parse : string → outcome Element) (read : Reader A) (zero : A)
    (data : string) : outcome A :=
  el ← Parse data; read ∅ el zero.
