(* ===== verification/XmlEncode.v ===== *)
(** * XmlEncode: how [encoding/xml] writes a struct

    The part of package [encoding/xml] that writes the metadata of [src/metadata.go]:
    [marshalValue] of a struct gives an element, as the tree of its raw tokens, from a list of
    fields in the order of [getTypeInfo]; the printer gives its text, with [Indent] or without.
    [laid_out] is the element that the text with its indentation stands for, and [printed] the
    one that a decoder gets from the text, in which [EscapeText] has replaced what is not a
    character of XML.  A tag of a struct
    says how its field is read and how it is written; the class [XmlType] is the choice that
    reflection makes from the type of a field. *)

From stdpp Require Import base option list strings.
From Stdlib Require Import ZArith Lia Ascii.
From S2P Require Import Prelude Go Duration RelaxedTime Encoding Etree Schema SchemaXML XmlDecode.

Open Scope string_scope.

(** ** Elements *)

(** [writeStart]: the name space of an element is declared as the default. *)
Definition start_attrs (space : string) : list Attr :=
  if space == "" then [] else [mkAttr "" "xmlns" space].

Definition text_tokens (s : string) : list Token := if s == "" then [] else [TCharData s].

(** [createAttrPrefix]: the prefix of the name space of an attribute is the last part of
    its path, and never starts with xml.  None of the name spaces of metadata is in use
    further out. *)
Fixpoint last_part (s : string) : string :=
  match s with
  | "" => ""
  | String c r => if has_byte "/" r then last_part r else if Ascii.eqb c "/" then r else s
  end.

Definition either (a b c : ascii) : bool := Ascii.eqb a c || Ascii.eqb b c.
Definition starts_xml (s : string) : bool :=
  match s with
  | String a (String b (String c _)) => either "x" "X" a && either "m" "M" b && either "l" "L" c
  | _ => false
  end.

Definition attr_prefix (url : string) : string :=
  let prefix := last_part url in
  if starts_xml prefix then "_" +++ prefix else prefix.

Definition marshal_attr (space name value : string) : list Attr :=
  if space == "" then [mkAttr "" name value]
  else if space == XMLNamespace then [mkAttr xmlPrefix name value]
  else [mkAttr "xmlns" (attr_prefix space) space; mkAttr (attr_prefix space) name value].

(** ** Structs *)

(** A field of a struct: what it adds to the attributes, the child elements or the text. *)
Inductive OutField (A : Type) : Type :=
  | OAttr (f : A → outcome (list Attr))
  | OElement (f : A → outcome (list Element))
  | OCharData (f : A → string).
Arguments OAttr {A}.
Arguments OElement {A}.
Arguments OCharData {A}.

Section marshal.
Context {A : Type}.

Fixpoint out_attrs (fields : list (OutField A)) (v : A) : outcome (list Attr) :=
  match fields with
  | [] => Ret []
  | OAttr f :: fields => attrs ← f v; rest ← out_attrs fields v; Ret (attrs ++ rest)%list
  | _ :: fields => out_attrs fields v
  end.

(** [marshalStruct] *)
Fixpoint out_tokens (fields : list (OutField A)) (v : A) : outcome (list Token) :=
  match fields with
  | [] => Ret []
  | OElement f :: fields => els ← f v; rest ← out_tokens fields v; Ret (map TElement els ++ rest)%list
  | OCharData f :: fields => rest ← out_tokens fields v; Ret (text_tokens (f v) ++ rest)%list
  | OAttr _ :: fields => out_tokens fields v
  end.

(** [marshalValue] of a struct: its name is that of its [XMLName] field or, where there is
    none, that of the field of the enclosing struct. *)
Definition marshal_struct (xmlname : option XMLName) (fields : list (OutField A))
    (space local : string) (v : A) : outcome Element :=
  let '(space, local) := match xmlname with Some n => (XMLName_Space n, XMLName_Local n) | None => (space, local) end in
  attrs ← out_attrs fields v;
  c ← out_tokens fields v;
  Ret (mkElement "" local (start_attrs space ++ attrs) c).
End marshal.

(** ** Tags *)

(** How the values of a type are attributes: how they are read, what is written, nothing
    included, and the value of a field that no attribute sets. *)
Record AttrKind (F : Type) := mkAttrKind {
  attr_zero : F;
  attr_read : string → outcome F;
  attr_write : F → outcome (option string)
}.
Arguments mkAttrKind {F}.
Arguments attr_zero {F}.
Arguments attr_read {F}.
Arguments attr_write {F}.

(** How the values of a type are elements of a name space and a name. *)
Definition Writer (F : Type) : Type := string → string → F → outcome Element.

Class XmlType (F : Type) := {
  xml_zero : F;
  xml_name : option XMLName;
  xml_read : Reader F;
  xml_write : Writer F
}.

(** A field with its tag. *)
Record Tagged (A : Type) := mkTagged { tag_in : Field A; tag_out : OutField A }.
Arguments mkTagged {A}.
Arguments tag_in {A}.
Arguments tag_out {A}.

(** A struct is written by its tags; the fields are those of the tags too, unless a method
    of the struct reads others. *)
Definition struct_codec {A} (xmlname : option XMLName) (fields : list (Field A)) (tags : list (Tagged A)) (zero : A)
    : XmlType A := {|
  xml_zero := zero;
  xml_name := xmlname;
  xml_read := unmarshal_struct xmlname fields;
  xml_write := marshal_struct xmlname (map tag_out tags)
|}.

Definition struct_type {A} (xmlname : option XMLName) (tags : list (Tagged A)) (zero : A) : XmlType A :=
  struct_codec xmlname (map tag_in tags) tags zero.

(** The fields of an embedded struct are those of the struct around it. *)
#[export] Instance id_setter {A} : Setter (@id A) := λ x _, x.
#[export] Instance compose_setter {A B C} (p : B → C) (r : A → B) `{!Setter p} `{!Setter r} : Setter (p ∘ r) :=
  λ x v, set r (set p x (r v)) v.

Section tags.
Context {A : Type}.

(** [marshalAttr] *)
Definition tag_attr_ns {F} (space name : string) (proj : A → F) `{!Setter proj} (k : AttrKind F) : Tagged A :=
  mkTagged (attr_ns space name proj (attr_read k))
    (OAttr (λ v, t ← attr_write k (proj v); Ret match t with Some s => marshal_attr space name s | None => [] end)).

Definition tag_attr {F} (name : string) (proj : A → F) `{!Setter proj} (k : AttrKind F) : Tagged A :=
  tag_attr_ns "" name proj k.

Definition tag_chardata (proj : A → string) `{!Setter proj} : Tagged A :=
  mkTagged (chardata proj) (OCharData proj).

(** A value, a pointer to one and a slice of them. *)
Definition tag_value {F} `{!XmlType F} (space name : string) (proj : A → F) `{!Setter proj} : Tagged A :=
  mkTagged (child space name proj xml_read)
    (OElement (λ v, e ← xml_write space name (proj v); Ret [e])).

Definition tag_pointer {F} `{!XmlType F} (space name : string) (proj : A → option F) `{!Setter proj} : Tagged A :=
  mkTagged (child space name proj (pointer xml_zero xml_read))
    (OElement (λ v, match proj v with Some x => e ← xml_write space name x; Ret [e] | None => Ret [] end)).

Definition tag_slice {F} `{!XmlType F} (space name : string) (proj : A → list F) `{!Setter proj} : Tagged A :=
  mkTagged (child space name proj (slice xml_zero xml_read))
    (OElement (λ v, map_each (xml_write space name) (proj v))).
End tags.

(** ** Values *)

Definition nonempty (s : string) : option string := if s == "" then None else Some s.

(** A string; one that is left out if it is empty; a bool and an int; a pointer. *)
Definition string_attr : AttrKind string := mkAttrKind "" copy_string (λ s, Ret (Some s)).
Definition omitempty_attr : AttrKind string := mkAttrKind "" copy_string (λ s, Ret (nonempty s)).
Definition bool_attr : AttrKind bool := mkAttrKind false copy_bool (λ b, Ret (Some (FormatBool b))).
Definition int_attr : AttrKind Z := mkAttrKind 0%Z copy_int (λ z, Ret (Some (itoa z))).
Definition pointer_attr {F} (k : AttrKind F) : AttrKind (option F) :=
  mkAttrKind None (to_pointer (attr_read k))
    (λ o, match o with Some x => attr_write k x | None => Ret None end).

(** A string element. *)
#[export] Instance string_xml : XmlType string := {|
  xml_zero := "";
  xml_name := None;
  xml_read := simple copy_string;
  xml_write space local s := Ret (mkElement "" local (start_attrs space) (text_tokens s))
|}.

(** ** Text *)

(** [utf8.DecodeRune] at the lead byte [n]: whether the next bytes complete a rune. *)
Definition byte_within (lo hi : N) (c : ascii) : bool := let n := N_of_ascii c in ((lo <=? n) && (n <=? hi))%N.
Definition rune2 (n : N) (b : ascii) : bool := ((194 <=? n) && (n <=? 223))%N && byte_within 128 191 b.
Definition rune3 (n : N) (b c : ascii) : bool :=
  ((224 <=? n) && (n <=? 239))%N &&
  byte_within (if (n =? 224)%N then 160 else 128) (if (n =? 237)%N then 159 else 191) b && byte_within 128 191 c.
Definition rune4 (n : N) (b c d : ascii) : bool :=
  ((240 <=? n) && (n <=? 244))%N &&
  byte_within (if (n =? 240)%N then 144 else 128) (if (n =? 244)%N then 143 else 191) b && byte_within 128 191 c && byte_within 128 191 d.

Definition escFFFD : string :=
  String (ascii_of_N 239) (String (ascii_of_N 191) (String (ascii_of_N 189) "")).

Definition escape_byte (c : ascii) : string :=
  match N_of_ascii c with
  | 34%N => "&#34;" | 39%N => "&#39;" | 38%N => "&amp;" | 60%N => "&lt;" | 62%N => "&gt;"
  | 9%N => "&#x9;" | 10%N => "&#xA;" | 13%N => "&#xD;"
  | n => if (n <? 32)%N then escFFFD else String c ""
  end.

(** [EscapeText]: U+FFFE and U+FFFF are no characters of XML. *)
Fixpoint EscapeText (s : string) : string :=
  match s with
  | "" => ""
  | String a r =>
      let n := N_of_ascii a in
      if (n <? 128)%N then escape_byte a +++ EscapeText r
      else
        match r with
        | String b r2 =>
            if rune2 n b then String a (String b (EscapeText r2))
            else
              match r2 with
              | String c r3 =>
                  if rune3 n b c then
                    (if (n =? 239)%N && byte_within 191 191 b && byte_within 190 191 c then escFFFD
                     else String a (String b (String c ""))) +++ EscapeText r3
                  else
                    match r3 with
                    | String d r4 =>
                        if rune4 n b c d then String a (String b (String c (String d (EscapeText r4))))
                        else escFFFD +++ EscapeText r
                    | "" => escFFFD +++ EscapeText r
                    end
              | "" => escFFFD +++ EscapeText r
              end
        | "" => escFFFD +++ EscapeText r
        end
  end.

(** The depth of an element in a printer that indents, by two spaces. *)
Definition printer := option nat.
Definition deeper : printer → printer := fmap S.

Fixpoint indentation (depth : nat) : string := match depth with O => "" | S depth => "  " +++ indentation depth end.
Definition line_feed : string := String "010" "".

(** [writeIndent] *)
Definition writeIndent (l : printer) : string := match l with Some depth => line_feed +++ indentation depth | None => "" end.

Definition dquote : string := String (ascii_of_N 34) "".
Definition write_name (space local : string) : string := if space == "" then local else space +++ ":" +++ local.
Definition write_attr (a : Attr) : string :=
  " " +++ write_name (Attr_Space a) (Attr_Key a) +++ "=" +++ dquote +++ EscapeText (Attr_Value a) +++ dquote.

Definition has_elements (c : list Token) : bool :=
  existsb (λ t, match t with TElement _ => true | _ => false end) c.

Fixpoint write_xml (l : printer) (e : Element) : string :=
  "<" +++ Tag e +++ String.concat "" (map write_attr (Attrs e)) +++ ">" +++
  (fix go (c : list Token) : string :=
     match c with
     | [] => ""
     | TElement x :: c => writeIndent (deeper l) +++ write_xml (deeper l) x +++ go c
     | TCharData s :: c => EscapeText s +++ go c
     | _ :: c => go c
     end) (Child e) +++
  (if has_elements (Child e) then writeIndent l else "") +++ "</" +++ Tag e +++ ">".

(** The element with its indentation as character data. *)
Definition lay_out (f : Element → Element) (text : string) : list Token → list Token :=
  fix go c :=
    match c with
    | [] => []
    | TElement x :: c => text_tokens text ++ TElement (f x) :: go c
    | t :: c => t :: go c
    end%list.

Fixpoint laid_out (l : printer) (e : Element) : Element :=
  set_Child
    (lay_out (laid_out (deeper l)) (writeIndent (deeper l)) (Child e) ++
     (if has_elements (Child e) then text_tokens (writeIndent l) else []))%list e.

(** ** Text that is read *)

(** A rune in UTF-8: [utf8.EncodeRune]; a rune that is not valid is U+FFFD. *)
Definition continuation (n : N) : ascii := ascii_of_N (128 + n mod 64).
Definition EncodeRune (n : N) : string :=
  if (n <? 128)%N then String (ascii_of_N n) ""
  else if (n <? 2048)%N then String (ascii_of_N (192 + n / 64)) (String (continuation n) "")
  else if ((55296 <=? n) && (n <=? 57343) || (1114111 <? n))%N then escFFFD
  else if (n <? 65536)%N then
    String (ascii_of_N (224 + n / 4096)) (String (continuation (n / 64)) (String (continuation n) ""))
  else String (ascii_of_N (240 + n / 262144)) (String (continuation (n / 4096))
    (String (continuation (n / 64)) (String (continuation n) ""))).

Definition digit_value (base : N) (c : ascii) : option N :=
  let n := N_of_ascii c in
  let d := (if byte_within 48 57 c then n - 48 else if byte_within 97 102 c then n - 87
            else if byte_within 65 70 c then n - 55 else base)%N in
  if (d <? base)%N then Some d else None.

Fixpoint parse_digits (base : N) (s : string) (n : N) : option N :=
  match s with
  | "" => Some n
  | String c r => d ← digit_value base c; parse_digits base r (base * n + d)%N
  end.

Definition rune_reference (base : N) (digits : string) : option string :=
  n ← parse_digits base digits 0; if (n <=? 1114111)%N then Some (EncodeRune n) else None.

(** The text of the reference [&name;]. *)
Definition reference (name : string) : option string :=
  match name with
  | String "#" "" | "#x" => None
  | String "#" (String "x" digits) => rune_reference 16 digits
  | String "#" digits => rune_reference 10 digits
  | "lt" => Some "<" | "gt" => Some ">" | "amp" => Some "&" | "apos" => Some "'" | "quot" => Some dquote
  | _ => None
  end.

(** [Decoder.text] replaces references, and every end of a line by a line feed; [name] is the
    part of a reference that is read.  A reference that is not known is an error. *)
Fixpoint expand (name : option string) (s : string) : option string :=
  match s, name with
  | "", None => Some ""
  | "", Some _ => None
  | String c r, Some name =>
      if Ascii.eqb c ";" then t ← reference name; String.append t <$> expand None r
      else expand (Some (name +++ String c "")) r
  | String c r, None =>
      if Ascii.eqb c "&" then expand (Some "") r
      else if Ascii.eqb c "013" then
        match r with String "010" r2 => String.append line_feed <$> expand None r2 | _ => String.append line_feed <$> expand None r end
      else String c <$> expand None r
  end.

(** Valid UTF-8, of the characters of XML: [isInCharacterRange]. *)
Definition xml_byte (c : ascii) : bool :=
  let n := N_of_ascii c in ((32 <=? n) && (n <? 128) || (n =? 9) || (n =? 10) || (n =? 13))%N.

Definition noncharacter (n : N) (b c : ascii) : bool := (n =? 239)%N && byte_within 191 191 b && byte_within 190 191 c.

Fixpoint xml_text (s : string) : bool :=
  match s with
  | "" => true
  | String a r =>
      let n := N_of_ascii a in
      if (n <? 128)%N then xml_byte a && xml_text r
      else
        match r with
        | "" => false
        | String b r2 =>
            if rune2 n b then xml_text r2
            else
              match r2 with
              | "" => false
              | String c r3 =>
                  if rune3 n b c then negb (noncharacter n b c) && xml_text r3
                  else match r3 with "" => false | String d r4 => rune4 n b c d && xml_text r4 end
              end
        end
  end.

(** What the decoder reads of the text between two tags, or between the quotes of an attribute. *)
Definition text_read (s : string) : option string :=
  t ← expand None s; if xml_text t then Some t else None.

Definition printed_attr (a : Attr) : option Attr :=
  mkAttr (Attr_Space a) (Attr_Key a) <$> text_read (EscapeText (Attr_Value a)).

(** The element that the decoder gets from the text of an element: its texts and the values
    of its attributes go through [EscapeText] and [Decoder.text]. *)
Fixpoint as_read (e : Element) : option Element :=
  a ← mapM printed_attr (Attrs e);
  c ← (fix go (c : list Token) : option (list Token) :=
     match c with
     | [] => Some []
     | TElement x :: c => x ← as_read x; cons (TElement x) <$> go c
     | TCharData s :: c => s ← text_read (EscapeText s); cons (TCharData s) <$> go c
     | _ :: c => go c
     end) (Child e);
  Some (mkElement (Space e) (Tag e) a c).

Definition printed (l : printer) (e : Element) : option Element := laid_out l <$> as_read e.

(** All that is printed of the element are characters of XML. *)
Fixpoint printable (e : Element) : bool :=
  forallb (λ a, xml_text (Attr_Value a)) (Attrs e) &&
  (fix go (c : list Token) : bool :=
     match c with
     | [] => true
     | TElement x :: c => printable x && go c
     | TCharData s :: c => xml_text s && go c
     | _ :: c => false
     end) (Child e).

(** [xml.MarshalIndent(v, prefix, indent)] with an empty prefix and two spaces, and the
    [Encode] of an encoder. *)
Definition MarshalIndent (e : outcome Element) : outcome string := e ← e; Ret (write_xml (Some 0%nat) e).
Definition Encode (e : outcome Element) : outcome string := e ← e; Ret (write_xml None e).
