(* ===== verification/SchemaDecode.v ===== *)
(** * SchemaDecode: reading the messages of [src/schema.go]

    For each struct its tags, as a list of fields, and the function that
    [encoding/xml] reads it with: the [UnmarshalXML] method of the type or, where
    there is none, the function that its tags give.  The auxiliary struct of an
    [UnmarshalXML] method has the fields of the type with some of its times replaced by
    [RelaxedTime], which come first and are zero at the beginning.  [Unmarshal_*] are
    the calls of [xml.Unmarshal]; they discharge the interface [XmlOps]. *)

From stdpp Require Import base option list gmap strings sets.
From Stdlib Require Import ZArith Lia Ascii.
From S2P Require Import Prelude Go Duration RelaxedTime Etree Schema Env XmlDecode.

Open Scope string_scope.

Definition protocol_space := "urn:oasis:names:tc:SAML:2.0:protocol".
Definition assertion_space := "urn:oasis:names:tc:SAML:2.0:assertion".
Definition protocol_name (local : string) : option XMLName := Some (mkXMLName protocol_space local).
Definition assertion_name (local : string) : option XMLName := Some (mkXMLName assertion_space local).

#[export] Instance eta_RequestedAuthnContext : Eta RequestedAuthnContext := λ r,
  mkRequestedAuthnContext (RequestedAuthnContext_Comparison r) (RequestedAuthnContext_AuthnContextClassRefs r)
    (RequestedAuthnContext_AuthnContextDeclRefs r).
#[export] Instance eta_Issuer : Eta Issuer := λ r,
  mkIssuer (Issuer_NameQualifier r) (Issuer_SPNameQualifier r) (Issuer_Format r) (Issuer_SPProvidedID r)
    (Issuer_Value r).
#[export] Instance eta_NameID : Eta NameID := λ r,
  mkNameID (NameID_NameQualifier r) (NameID_SPNameQualifier r) (NameID_Format r) (NameID_SPProvidedID r)
    (NameID_Value r).
#[export] Instance eta_NameIDPolicy : Eta NameIDPolicy := λ r,
  mkNameIDPolicy (NameIDPolicy_Format r) (NameIDPolicy_SPNameQualifier r) (NameIDPolicy_AllowCreate r).
#[export] Instance eta_StatusCode : Eta StatusCode := λ r, mkStatusCode (StatusCode_Value r) (StatusCode_StatusCode r).
#[export] Instance eta_SessionIndex : Eta SessionIndex := λ r, mkSessionIndex (SessionIndex_Value r).
#[export] Instance eta_SubjectConfirmationData : Eta SubjectConfirmationData := λ r,
  mkSubjectConfirmationData (SubjectConfirmationData_NotBefore r) (SubjectConfirmationData_NotOnOrAfter r)
    (SubjectConfirmationData_Recipient r) (SubjectConfirmationData_InResponseTo r)
    (SubjectConfirmationData_Address r).
#[export] Instance eta_SubjectConfirmation : Eta SubjectConfirmation := λ r,
  mkSubjectConfirmation (SubjectConfirmation_Method r) (SubjectConfirmation_NameID r)
    (SubjectConfirmation_SubjectConfirmationData r).
#[export] Instance eta_Subject : Eta Subject := λ r, mkSubject (Subject_NameID r) (Subject_SubjectConfirmations r).
#[export] Instance eta_Audience : Eta Audience := λ r, mkAudience (Audience_Value r).
#[export] Instance eta_AudienceRestriction : Eta AudienceRestriction := λ r,
  mkAudienceRestriction (AudienceRestriction_Audiences r).
#[export] Instance eta_ProxyRestriction : Eta ProxyRestriction := λ r,
  mkProxyRestriction (ProxyRestriction_Count r) (ProxyRestriction_Audiences r).
#[export] Instance eta_Conditions : Eta Conditions := λ r,
  mkConditions (Conditions_NotBefore r) (Conditions_NotOnOrAfter r) (Conditions_AudienceRestrictions r)
    (Conditions_OneTimeUse r) (Conditions_ProxyRestriction r).
#[export] Instance eta_SubjectLocality : Eta SubjectLocality := λ r,
  mkSubjectLocality (SubjectLocality_Address r) (SubjectLocality_DNSName r).
#[export] Instance eta_AuthnContextClassRef : Eta AuthnContextClassRef := λ r,
  mkAuthnContextClassRef (AuthnContextClassRef_Value r).
#[export] Instance eta_AuthnContext : Eta AuthnContext := λ r, mkAuthnContext (AuthnContext_AuthnContextClassRef r).
#[export] Instance eta_AuthnStatement : Eta AuthnStatement := λ r,
  mkAuthnStatement (AuthnStatement_AuthnInstant r) (AuthnStatement_SessionIndex r)
    (AuthnStatement_SessionNotOnOrAfter r) (AuthnStatement_SubjectLocality r) (AuthnStatement_AuthnContext r).
#[export] Instance eta_AttributeValue : Eta AttributeValue := λ r,
  mkAttributeValue (AttributeValue_Type r) (AttributeValue_Value r) (AttributeValue_NameID r).
#[export] Instance eta_Attribute : Eta Attribute := λ r,
  mkAttribute (Attribute_FriendlyName r) (Attribute_Name r) (Attribute_NameFormat r) (Attribute_Values r).
#[export] Instance eta_AttributeStatement : Eta AttributeStatement := λ r,
  mkAttributeStatement (AttributeStatement_Attributes r).
#[export] Instance eta_StatusMessage : Eta StatusMessage := λ r, mkStatusMessage (StatusMessage_Value r).
#[export] Instance eta_StatusDetail : Eta StatusDetail := λ r, mkStatusDetail (StatusDetail_Children r).
#[export] Instance eta_Status : Eta Status := λ r,
  mkStatus (Status_StatusCode r) (Status_StatusMessage r) (Status_StatusDetail r).
#[export] Instance eta_AuthnRequest : Eta AuthnRequest := λ r,
  mkAuthnRequest (AuthnRequest_ID r) (AuthnRequest_Version r) (AuthnRequest_IssueInstant r)
    (AuthnRequest_Destination r) (AuthnRequest_Consent r) (AuthnRequest_Issuer r) (AuthnRequest_Signature r)
    (AuthnRequest_Subject r) (AuthnRequest_NameIDPolicy r) (AuthnRequest_Conditions r)
    (AuthnRequest_RequestedAuthnContext r) (AuthnRequest_ForceAuthn r) (AuthnRequest_IsPassive r)
    (AuthnRequest_AssertionConsumerServiceIndex r) (AuthnRequest_AssertionConsumerServiceURL r)
    (AuthnRequest_ProtocolBinding r) (AuthnRequest_AttributeConsumingServiceIndex r)
    (AuthnRequest_ProviderName r).
#[export] Instance eta_LogoutRequest : Eta LogoutRequest := λ r,
  mkLogoutRequest (LogoutRequest_ID r) (LogoutRequest_Version r) (LogoutRequest_IssueInstant r)
    (LogoutRequest_NotOnOrAfter r) (LogoutRequest_Destination r) (LogoutRequest_Issuer r)
    (LogoutRequest_NameID r) (LogoutRequest_Signature r) (LogoutRequest_SessionIndexes r).
#[export] Instance eta_LogoutResponse : Eta LogoutResponse := λ r,
  mkLogoutResponse (LogoutResponse_ID r) (LogoutResponse_InResponseTo r) (LogoutResponse_Version r)
    (LogoutResponse_IssueInstant r) (LogoutResponse_Destination r) (LogoutResponse_Consent r)
    (LogoutResponse_Issuer r) (LogoutResponse_Signature r) (LogoutResponse_Status r).
#[export] Instance eta_ArtifactResolve : Eta ArtifactResolve := λ r,
  mkArtifactResolve (ArtifactResolve_ID r) (ArtifactResolve_Version r) (ArtifactResolve_IssueInstant r)
    (ArtifactResolve_Issuer r) (ArtifactResolve_Signature r) (ArtifactResolve_Artifact r).
#[export] Instance eta_Assertion : Eta Assertion := λ r,
  mkAssertion (Assertion_ID r) (Assertion_IssueInstant r) (Assertion_Version r) (Assertion_Issuer r)
    (Assertion_Signature r) (Assertion_Subject r) (Assertion_Conditions r) (Assertion_AuthnStatements r)
    (Assertion_AttributeStatements r).
#[export] Instance eta_Response : Eta Response := λ r,
  mkResponse (Response_ID r) (Response_InResponseTo r) (Response_Version r) (Response_IssueInstant r)
    (Response_Destination r) (Response_Consent r) (Response_Issuer r) (Response_Signature r) (Response_Status r)
    (Response_EncryptedAssertion r) (Response_Assertion r).
#[export] Instance eta_ArtifactResponse : Eta ArtifactResponse := λ r,
  mkArtifactResponse (ArtifactResponse_ID r) (ArtifactResponse_InResponseTo r) (ArtifactResponse_Version r)
    (ArtifactResponse_IssueInstant r) (ArtifactResponse_Issuer r) (ArtifactResponse_Signature r)
    (ArtifactResponse_Status r) (ArtifactResponse_Response r).

(** ** [etree.Element] as a struct

    Its exported fields have no tags, so they are read from child elements of
    their names.  An element of the slice [Child] has an interface type: it stays nil,
    which is written [TOther ""] here. *)

#[export] Instance eta_Attr : Eta Attr := λ a, mkAttr (Attr_Space a) (Attr_Key a) (Attr_Value a).
#[export] Instance eta_Element : Eta Element := λ e, mkElement (Space e) (Tag e) (Attrs e) (Child e).

Definition zero_Attr : Attr := mkAttr "" "" "".
Definition zero_Element : Element := mkElement "" "" [] [].

Definition Attr_fields : list (Field Attr) :=
  [child "" "Space" Attr_Space (simple copy_string);
   child "" "Key" Attr_Key (simple copy_string);
   child "" "Value" Attr_Value (simple copy_string)].

Definition Element_fields : list (Field Element) :=
  [child "" "Space" Space (simple copy_string);
   child "" "Tag" Tag (simple copy_string);
   child "" "Attr" Attrs (slice zero_Attr (unmarshal_struct None Attr_fields));
   child "" "Child" Child (λ _ _ c, Ret (c ++ [TOther ""])%list)].

Definition Element_Unmarshal : Reader Element := unmarshal_struct None Element_fields.

(** ** Names and parts of messages *)

Definition Issuer_fields : list (Field Issuer) :=
  [attr "NameQualifier" Issuer_NameQualifier copy_string;
   attr "SPNameQualifier" Issuer_SPNameQualifier copy_string;
   attr "Format" Issuer_Format copy_string;
   attr "SPProvidedID" Issuer_SPProvidedID copy_string;
   chardata Issuer_Value].

Definition Issuer_Unmarshal : Reader Issuer := unmarshal_struct (assertion_name "Issuer") Issuer_fields.

Definition NameID_fields : list (Field NameID) :=
  [attr "NameQualifier" NameID_NameQualifier copy_string;
   attr "SPNameQualifier" NameID_SPNameQualifier copy_string;
   attr "Format" NameID_Format copy_string;
   attr "SPProvidedID" NameID_SPProvidedID copy_string;
   chardata NameID_Value].

Definition NameID_Unmarshal : Reader NameID := unmarshal_struct None NameID_fields.

Definition NameIDPolicy_fields : list (Field NameIDPolicy) :=
  [attr "Format" NameIDPolicy_Format (to_pointer copy_string);
   attr "SPNameQualifier" NameIDPolicy_SPNameQualifier (to_pointer copy_string);
   attr "AllowCreate" NameIDPolicy_AllowCreate (to_pointer copy_bool)].

Definition NameIDPolicy_Unmarshal : Reader NameIDPolicy :=
  unmarshal_struct (protocol_name "NameIDPolicy") NameIDPolicy_fields.

Definition RequestedAuthnContext_fields : list (Field RequestedAuthnContext) :=
  [attr "Comparison" RequestedAuthnContext_Comparison copy_string;
   child assertion_space "AuthnContextClassRef" RequestedAuthnContext_AuthnContextClassRefs
     (slice "" (simple copy_string));
   child assertion_space "AuthnContextDeclRef" RequestedAuthnContext_AuthnContextDeclRefs
     (slice "" (simple copy_string))].

Definition RequestedAuthnContext_Unmarshal : Reader RequestedAuthnContext :=
  unmarshal_struct (protocol_name "RequestedAuthnContext") RequestedAuthnContext_fields.

Definition SessionIndex_fields : list (Field SessionIndex) := [chardata SessionIndex_Value].

Definition SessionIndex_Unmarshal : Reader SessionIndex := unmarshal_struct None SessionIndex_fields.

Definition SubjectConfirmationData_fields : list (Field SubjectConfirmationData) :=
  [attr "NotOnOrAfter" SubjectConfirmationData_NotOnOrAfter RelaxedTime_UnmarshalText;
   attr "NotBefore" SubjectConfirmationData_NotBefore Time_UnmarshalText;
   attr "Recipient" SubjectConfirmationData_Recipient copy_string;
   attr "InResponseTo" SubjectConfirmationData_InResponseTo copy_string;
   attr "Address" SubjectConfirmationData_Address copy_string].

Definition SubjectConfirmationData_UnmarshalXML : Reader SubjectConfirmationData := λ ns el s,
  unmarshal_struct None SubjectConfirmationData_fields ns el
    (set SubjectConfirmationData_NotOnOrAfter 0%Z s).

Definition SubjectConfirmation_fields : list (Field SubjectConfirmation) :=
  [attr "Method" SubjectConfirmation_Method copy_string;
   child "" "NameID" SubjectConfirmation_NameID (pointer zero_NameID NameID_Unmarshal);
   child "" "SubjectConfirmationData" SubjectConfirmation_SubjectConfirmationData
     (pointer zero_SubjectConfirmationData SubjectConfirmationData_UnmarshalXML)].

Definition SubjectConfirmation_Unmarshal : Reader SubjectConfirmation :=
  unmarshal_struct None SubjectConfirmation_fields.

Definition Subject_fields : list (Field Subject) :=
  [child "" "NameID" Subject_NameID (pointer zero_NameID NameID_Unmarshal);
   child "" "SubjectConfirmation" Subject_SubjectConfirmations
     (slice zero_SubjectConfirmation SubjectConfirmation_Unmarshal)].

Definition Subject_Unmarshal : Reader Subject := unmarshal_struct (assertion_name "Subject") Subject_fields.

Definition Audience_fields : list (Field Audience) := [chardata Audience_Value].

Definition Audience_Unmarshal : Reader Audience := unmarshal_struct None Audience_fields.

Definition AudienceRestriction_fields : list (Field AudienceRestriction) :=
  [child "" "Audience" AudienceRestriction_Audiences (slice zero_Audience Audience_Unmarshal)].

Definition AudienceRestriction_Unmarshal : Reader AudienceRestriction :=
  unmarshal_struct None AudienceRestriction_fields.

Definition OneTimeUse_Unmarshal : Reader OneTimeUse := unmarshal_struct None [].

(** Neither field has a tag: both are child elements of the names of the fields. *)
Definition ProxyRestriction_fields : list (Field ProxyRestriction) :=
  [child "" "Count" ProxyRestriction_Count (pointer 0%Z (simple copy_int));
   child "" "Audiences" ProxyRestriction_Audiences (slice zero_Audience Audience_Unmarshal)].

Definition ProxyRestriction_Unmarshal : Reader ProxyRestriction :=
  unmarshal_struct None ProxyRestriction_fields.

Definition Conditions_fields : list (Field Conditions) :=
  [attr "NotBefore" Conditions_NotBefore RelaxedTime_UnmarshalText;
   attr "NotOnOrAfter" Conditions_NotOnOrAfter RelaxedTime_UnmarshalText;
   child "" "AudienceRestriction" Conditions_AudienceRestrictions
     (slice zero_AudienceRestriction AudienceRestriction_Unmarshal);
   child "" "OneTimeUse" Conditions_OneTimeUse (pointer mkOneTimeUse OneTimeUse_Unmarshal);
   child "" "ProxyRestriction" Conditions_ProxyRestriction
     (pointer zero_ProxyRestriction ProxyRestriction_Unmarshal)].

Definition Conditions_UnmarshalXML : Reader Conditions := λ ns el c,
  unmarshal_struct None Conditions_fields ns el
    (set Conditions_NotOnOrAfter 0%Z (set Conditions_NotBefore 0%Z c)).

Definition SubjectLocality_fields : list (Field SubjectLocality) :=
  [attr "Address" SubjectLocality_Address copy_string;
   attr "DNSName" SubjectLocality_DNSName copy_string].

Definition SubjectLocality_Unmarshal : Reader SubjectLocality := unmarshal_struct None SubjectLocality_fields.

Definition AuthnContextClassRef_fields : list (Field AuthnContextClassRef) :=
  [chardata AuthnContextClassRef_Value].

Definition AuthnContextClassRef_Unmarshal : Reader AuthnContextClassRef :=
  unmarshal_struct None AuthnContextClassRef_fields.

Definition AuthnContext_fields : list (Field AuthnContext) :=
  [child "" "AuthnContextClassRef" AuthnContext_AuthnContextClassRef
     (pointer zero_AuthnContextClassRef AuthnContextClassRef_Unmarshal)].

Definition AuthnContext_Unmarshal : Reader AuthnContext := unmarshal_struct None AuthnContext_fields.

Definition AuthnStatement_fields : list (Field AuthnStatement) :=
  [attr "AuthnInstant" AuthnStatement_AuthnInstant RelaxedTime_UnmarshalText;
   attr "SessionNotOnOrAfter" AuthnStatement_SessionNotOnOrAfter (to_pointer RelaxedTime_UnmarshalText);
   attr "SessionIndex" AuthnStatement_SessionIndex copy_string;
   child "" "SubjectLocality" AuthnStatement_SubjectLocality
     (pointer zero_SubjectLocality SubjectLocality_Unmarshal);
   child "" "AuthnContext" AuthnStatement_AuthnContext AuthnContext_Unmarshal].

Definition AuthnStatement_UnmarshalXML : Reader AuthnStatement := λ ns el a,
  unmarshal_struct None AuthnStatement_fields ns el
    (set AuthnStatement_SessionNotOnOrAfter None (set AuthnStatement_AuthnInstant 0%Z a)).

Definition AttributeValue_fields : list (Field AttributeValue) :=
  [attr_ns "http://www.w3.org/2001/XMLSchema-instance" "type" AttributeValue_Type copy_string;
   chardata AttributeValue_Value;
   child "" "NameID" AttributeValue_NameID (pointer zero_NameID NameID_Unmarshal)].

Definition AttributeValue_Unmarshal : Reader AttributeValue := unmarshal_struct None AttributeValue_fields.

Definition Attribute_fields : list (Field Attribute) :=
  [attr "FriendlyName" Attribute_FriendlyName copy_string;
   attr "Name" Attribute_Name copy_string;
   attr "NameFormat" Attribute_NameFormat copy_string;
   child "" "AttributeValue" Attribute_Values (slice zero_AttributeValue AttributeValue_Unmarshal)].

Definition Attribute_Unmarshal : Reader Attribute := unmarshal_struct None Attribute_fields.

Definition AttributeStatement_fields : list (Field AttributeStatement) :=
  [child "" "Attribute" AttributeStatement_Attributes (slice zero_Attribute Attribute_Unmarshal)].

Definition AttributeStatement_Unmarshal : Reader AttributeStatement :=
  unmarshal_struct None AttributeStatement_fields.

(** ** Status *)

Definition StatusCode_fields (read : Reader StatusCode) : list (Field StatusCode) :=
  [attr "Value" StatusCode_Value copy_string;
   child protocol_space "StatusCode" StatusCode_StatusCode (pointer (mkStatusCode "" None) read)].

(** How deep the codes of a status are nested. *)
Fixpoint StatusCode_depth (s : StatusCode) : nat :=
  let 'mkStatusCode _ sub := s in
  match sub with Some c => S (StatusCode_depth c) | None => 1 end.

(** The type contains itself: [budget] is how much deeper [unmarshal] may go. *)
Fixpoint StatusCode_Unmarshal (budget : nat) : Reader StatusCode :=
  match budget with
  | O => λ _ _ _, Err errUnmarshalDepth
  | S budget =>
      unmarshal_struct (protocol_name "StatusCode") (StatusCode_fields (StatusCode_Unmarshal budget))
  end.

Definition StatusMessage_fields : list (Field StatusMessage) := [chardata StatusMessage_Value].

Definition StatusMessage_Unmarshal : Reader StatusMessage :=
  unmarshal_struct (protocol_name "StatusMessage") StatusMessage_fields.

Definition StatusDetail_fields : list (Field StatusDetail) :=
  [child "" "Children" StatusDetail_Children
     (slice zero_Element Element_Unmarshal)].

Definition StatusDetail_Unmarshal : Reader StatusDetail := unmarshal_struct None StatusDetail_fields.

(** A status is at depth 1 of a message, its code at depth 2. *)
Definition Status_fields : list (Field Status) :=
  [child protocol_space "StatusCode" Status_StatusCode (StatusCode_Unmarshal (maxUnmarshalDepth - 2));
   child protocol_space "StatusMessage" Status_StatusMessage
     (pointer zero_StatusMessage StatusMessage_Unmarshal);
   child "" "StatusDetail" Status_StatusDetail (pointer zero_StatusDetail StatusDetail_Unmarshal)].

Definition Status_Unmarshal : Reader Status := unmarshal_struct (protocol_name "Status") Status_fields.

(** ** Messages *)

Definition AuthnRequest_fields : list (Field AuthnRequest) :=
  [attr "IssueInstant" AuthnRequest_IssueInstant RelaxedTime_UnmarshalText;
   attr "ID" AuthnRequest_ID copy_string;
   attr "Version" AuthnRequest_Version copy_string;
   attr "Destination" AuthnRequest_Destination copy_string;
   attr "Consent" AuthnRequest_Consent copy_string;
   child assertion_space "Issuer" AuthnRequest_Issuer (pointer zero_Issuer Issuer_Unmarshal);
   child "" "Signature" AuthnRequest_Signature (pointer zero_Element Element_Unmarshal);
   child assertion_space "Subject" AuthnRequest_Subject (pointer zero_Subject Subject_Unmarshal);
   child protocol_space "NameIDPolicy" AuthnRequest_NameIDPolicy
     (pointer zero_NameIDPolicy NameIDPolicy_Unmarshal);
   child "" "Conditions" AuthnRequest_Conditions (pointer zero_Conditions Conditions_UnmarshalXML);
   child protocol_space "RequestedAuthnContext" AuthnRequest_RequestedAuthnContext
     (pointer zero_RequestedAuthnContext RequestedAuthnContext_Unmarshal);
   attr "ForceAuthn" AuthnRequest_ForceAuthn (to_pointer copy_bool);
   attr "IsPassive" AuthnRequest_IsPassive (to_pointer copy_bool);
   attr "AssertionConsumerServiceIndex" AuthnRequest_AssertionConsumerServiceIndex copy_string;
   attr "AssertionConsumerServiceURL" AuthnRequest_AssertionConsumerServiceURL copy_string;
   attr "ProtocolBinding" AuthnRequest_ProtocolBinding copy_string;
   attr "AttributeConsumingServiceIndex" AuthnRequest_AttributeConsumingServiceIndex copy_string;
   attr "ProviderName" AuthnRequest_ProviderName copy_string].

Definition AuthnRequest_UnmarshalXML : Reader AuthnRequest := λ ns el r,
  unmarshal_struct (protocol_name "AuthnRequest") AuthnRequest_fields ns el
    (set AuthnRequest_IssueInstant 0%Z r).

Definition LogoutRequest_fields : list (Field LogoutRequest) :=
  [attr "IssueInstant" LogoutRequest_IssueInstant RelaxedTime_UnmarshalText;
   attr "NotOnOrAfter" LogoutRequest_NotOnOrAfter (to_pointer RelaxedTime_UnmarshalText);
   attr "ID" LogoutRequest_ID copy_string;
   attr "Version" LogoutRequest_Version copy_string;
   attr "Destination" LogoutRequest_Destination copy_string;
   child assertion_space "Issuer" LogoutRequest_Issuer (pointer zero_Issuer Issuer_Unmarshal);
   child "" "NameID" LogoutRequest_NameID (pointer zero_NameID NameID_Unmarshal);
   child "" "Signature" LogoutRequest_Signature (pointer zero_Element Element_Unmarshal);
   child protocol_space "SessionIndex" LogoutRequest_SessionIndexes
     (slice zero_SessionIndex SessionIndex_Unmarshal)].

Definition LogoutRequest_UnmarshalXML : Reader LogoutRequest := λ ns el r,
  unmarshal_struct (protocol_name "LogoutRequest") LogoutRequest_fields ns el
    (set LogoutRequest_NotOnOrAfter None (set LogoutRequest_IssueInstant 0%Z r)).

Definition LogoutResponse_fields : list (Field LogoutResponse) :=
  [attr "IssueInstant" LogoutResponse_IssueInstant RelaxedTime_UnmarshalText;
   attr "ID" LogoutResponse_ID copy_string;
   attr "InResponseTo" LogoutResponse_InResponseTo copy_string;
   attr "Version" LogoutResponse_Version copy_string;
   attr "Destination" LogoutResponse_Destination copy_string;
   attr "Consent" LogoutResponse_Consent copy_string;
   child assertion_space "Issuer" LogoutResponse_Issuer (pointer zero_Issuer Issuer_Unmarshal);
   child "" "Signature" LogoutResponse_Signature (pointer zero_Element Element_Unmarshal);
   child protocol_space "Status" LogoutResponse_Status Status_Unmarshal].

Definition LogoutResponse_UnmarshalXML : Reader LogoutResponse := λ ns el r,
  unmarshal_struct (protocol_name "LogoutResponse") LogoutResponse_fields ns el
    (set LogoutResponse_IssueInstant 0%Z r).

Definition ArtifactResolve_fields : list (Field ArtifactResolve) :=
  [attr "IssueInstant" ArtifactResolve_IssueInstant RelaxedTime_UnmarshalText;
   attr "ID" ArtifactResolve_ID copy_string;
   attr "Version" ArtifactResolve_Version copy_string;
   child assertion_space "Issuer" ArtifactResolve_Issuer (pointer zero_Issuer Issuer_Unmarshal);
   child "" "Signature" ArtifactResolve_Signature (pointer zero_Element Element_Unmarshal);
   child protocol_space "Artifact" ArtifactResolve_Artifact (simple copy_string)].

Definition ArtifactResolve_UnmarshalXML : Reader ArtifactResolve := λ ns el r,
  unmarshal_struct (protocol_name "ArtifactResolve") ArtifactResolve_fields ns el
    (set ArtifactResolve_IssueInstant 0%Z r).

Definition Assertion_fields : list (Field Assertion) :=
  [attr "IssueInstant" Assertion_IssueInstant RelaxedTime_UnmarshalText;
   attr "ID" Assertion_ID copy_string;
   attr "Version" Assertion_Version copy_string;
   child assertion_space "Issuer" Assertion_Issuer Issuer_Unmarshal;
   child "" "Signature" Assertion_Signature (pointer zero_Element Element_Unmarshal);
   child assertion_space "Subject" Assertion_Subject (pointer zero_Subject Subject_Unmarshal);
   child "" "Conditions" Assertion_Conditions (pointer zero_Conditions Conditions_UnmarshalXML);
   child "" "AuthnStatement" Assertion_AuthnStatements
     (slice zero_AuthnStatement AuthnStatement_UnmarshalXML);
   child "" "AttributeStatement" Assertion_AttributeStatements
     (slice zero_AttributeStatement AttributeStatement_Unmarshal)].

Definition Assertion_UnmarshalXML : Reader Assertion := λ ns el a,
  unmarshal_struct (assertion_name "Assertion") Assertion_fields ns el
    (set Assertion_IssueInstant 0%Z a).

Definition Response_fields : list (Field Response) :=
  [attr "IssueInstant" Response_IssueInstant RelaxedTime_UnmarshalText;
   attr "ID" Response_ID copy_string;
   attr "InResponseTo" Response_InResponseTo copy_string;
   attr "Version" Response_Version copy_string;
   attr "Destination" Response_Destination copy_string;
   attr "Consent" Response_Consent copy_string;
   child assertion_space "Issuer" Response_Issuer (pointer zero_Issuer Issuer_Unmarshal);
   child "" "Signature" Response_Signature (pointer zero_Element Element_Unmarshal);
   child protocol_space "Status" Response_Status Status_Unmarshal;
   child assertion_space "EncryptedAssertion" Response_EncryptedAssertion
     (pointer zero_Element Element_Unmarshal);
   child assertion_space "Assertion" Response_Assertion (pointer zero_Assertion Assertion_UnmarshalXML)].

Definition Response_UnmarshalXML : Reader Response := λ ns el r,
  unmarshal_struct (protocol_name "Response") Response_fields ns el
    (set Response_IssueInstant 0%Z r).

Definition ArtifactResponse_fields : list (Field ArtifactResponse) :=
  [attr "IssueInstant" ArtifactResponse_IssueInstant RelaxedTime_UnmarshalText;
   attr "ID" ArtifactResponse_ID copy_string;
   attr "InResponseTo" ArtifactResponse_InResponseTo copy_string;
   attr "Version" ArtifactResponse_Version copy_string;
   child assertion_space "Issuer" ArtifactResponse_Issuer (pointer zero_Issuer Issuer_Unmarshal);
   child "" "Signature" ArtifactResponse_Signature (pointer zero_Element Element_Unmarshal);
   child protocol_space "Status" ArtifactResponse_Status Status_Unmarshal;
   child protocol_space "Response" ArtifactResponse_Response Response_UnmarshalXML].

Definition ArtifactResponse_UnmarshalXML : Reader ArtifactResponse := λ ns el r,
  unmarshal_struct (protocol_name "ArtifactResponse") ArtifactResponse_fields ns el
    (set ArtifactResponse_IssueInstant 0%Z r).

(** ** [xml.Unmarshal]

    The parser of [encoding/xml], and [xml-roundtrip-validator], remain parameters: the
    tree of the raw tokens of the first element of a document.  An error in the text is
    returned before an error in the values. *)

Class XmlParser := {
  xml_Parse : string → outcome Element;
  roundtrip_Validate : string → outcome ()
}.

#[export] Instance xml_ops `{XmlP : XmlParser} : XmlOps := {|
  xrv_Validate := roundtrip_Validate;
  Unmarshal_Response := xml_Unmarshal xml_Parse Response_UnmarshalXML zero_Response;
  Unmarshal_ArtifactResponse := xml_Unmarshal xml_Parse ArtifactResponse_UnmarshalXML zero_ArtifactResponse;
  Unmarshal_Assertion := xml_Unmarshal xml_Parse Assertion_UnmarshalXML zero_Assertion;
  Unmarshal_LogoutResponse := xml_Unmarshal xml_Parse LogoutResponse_UnmarshalXML zero_LogoutResponse;
  Unmarshal_LogoutRequest := xml_Unmarshal xml_Parse LogoutRequest_UnmarshalXML zero_LogoutRequest;
  Unmarshal_AuthnRequest := xml_Unmarshal xml_Parse AuthnRequest_UnmarshalXML zero_AuthnRequest
|}.
