(* ===== verification/MetadataCodec.v ===== *)
(** * MetadataCodec: the XML form of [src/metadata.go]

    For each struct its tags, by which [encoding/xml] reads and writes it, and the
    [UnmarshalXML] and [MarshalXML] methods of the types that have them.  An embedded struct
    gives its tags to the struct around it.  The interface [MetadataXml] is discharged up to
    the parser of [encoding/xml]. *)

From stdpp Require Import base option list gmap strings.
From Stdlib Require Import ZArith Lia Ascii.
From S2P Require Import Prelude Go Duration RelaxedTime Etree Schema Env SchemaXML XmlDecode XmlEncode SchemaDecode.

Open Scope string_scope.

#[export] Instance eta_LocalizedName : Eta LocalizedName := λ r,
  mkLocalizedName (LocalizedName_Lang r) (LocalizedName_Value r).
#[export] Instance eta_LocalizedURI : Eta LocalizedURI := λ r,
  mkLocalizedURI (LocalizedURI_Lang r) (LocalizedURI_Value r).
#[export] Instance eta_Organization : Eta Organization := λ r,
  mkOrganization (Organization_OrganizationNames r) (Organization_OrganizationDisplayNames r)
    (Organization_OrganizationURLs r).
#[export] Instance eta_ContactPerson : Eta ContactPerson := λ r,
  mkContactPerson (ContactPerson_ContactType r) (ContactPerson_Company r) (ContactPerson_GivenName r)
    (ContactPerson_SurName r) (ContactPerson_EmailAddresses r) (ContactPerson_TelephoneNumbers r).
#[export] Instance eta_EncryptionMethod : Eta EncryptionMethod := λ r,
  mkEncryptionMethod (EncryptionMethod_Algorithm r).
#[export] Instance eta_X509Certificate : Eta X509Certificate := λ r, mkX509Certificate (X509Certificate_Data r).
#[export] Instance eta_X509Data : Eta X509Data := λ r, mkX509Data (X509Data_X509Certificates r).
#[export] Instance eta_KeyInfo : Eta KeyInfo := λ r, mkKeyInfo (KeyInfo_X509Data r).
#[export] Instance eta_KeyDescriptor : Eta KeyDescriptor := λ r,
  mkKeyDescriptor (KeyDescriptor_Use r) (KeyDescriptor_KeyInfo r) (KeyDescriptor_EncryptionMethods r).
#[export] Instance eta_RoleDescriptor : Eta RoleDescriptor := λ r,
  mkRoleDescriptor (RoleDescriptor_ID r) (RoleDescriptor_ValidUntil r) (RoleDescriptor_CacheDuration r)
    (RoleDescriptor_ProtocolSupportEnumeration r) (RoleDescriptor_ErrorURL r) (RoleDescriptor_Signature r)
    (RoleDescriptor_KeyDescriptors r) (RoleDescriptor_Organization r) (RoleDescriptor_ContactPeople r).
#[export] Instance eta_Endpoint : Eta Endpoint := λ r,
  mkEndpoint (Endpoint_Binding r) (Endpoint_Location r) (Endpoint_ResponseLocation r).
#[export] Instance eta_IndexedEndpoint : Eta IndexedEndpoint := λ r,
  mkIndexedEndpoint (IndexedEndpoint_Binding r) (IndexedEndpoint_Location r)
    (IndexedEndpoint_ResponseLocation r) (IndexedEndpoint_Index r) (IndexedEndpoint_IsDefault r).
#[export] Instance eta_SSODescriptor : Eta SSODescriptor := λ r,
  mkSSODescriptor (SSODescriptor_RoleDescriptor r) (SSODescriptor_ArtifactResolutionServices r)
    (SSODescriptor_SingleLogoutServices r) (SSODescriptor_ManageNameIDServices r)
    (SSODescriptor_NameIDFormats r).
#[export] Instance eta_IDPSSODescriptor : Eta IDPSSODescriptor := λ r,
  mkIDPSSODescriptor (IDPSSODescriptor_SSODescriptor r) (IDPSSODescriptor_WantAuthnRequestsSigned r)
    (IDPSSODescriptor_SingleSignOnServices r) (IDPSSODescriptor_ArtifactResolutionServices r)
    (IDPSSODescriptor_NameIDMappingServices r) (IDPSSODescriptor_AssertionIDRequestServices r)
    (IDPSSODescriptor_AttributeProfiles r) (IDPSSODescriptor_Attributes r).
#[export] Instance eta_RequestedAttribute : Eta RequestedAttribute := λ r,
  mkRequestedAttribute (RequestedAttribute_Attribute r) (RequestedAttribute_IsRequired r).
#[export] Instance eta_AttributeConsumingService : Eta AttributeConsumingService := λ r,
  mkAttributeConsumingService (AttributeConsumingService_Index r) (AttributeConsumingService_IsDefault r)
    (AttributeConsumingService_ServiceNames r) (AttributeConsumingService_ServiceDescriptions r)
    (AttributeConsumingService_RequestedAttributes r).
#[export] Instance eta_SPSSODescriptor : Eta SPSSODescriptor := λ r,
  mkSPSSODescriptor (SPSSODescriptor_SSODescriptor r) (SPSSODescriptor_AuthnRequestsSigned r)
    (SPSSODescriptor_WantAssertionsSigned r) (SPSSODescriptor_AssertionConsumerServices r)
    (SPSSODescriptor_AttributeConsumingServices r).
#[export] Instance eta_AuthnAuthorityDescriptor : Eta AuthnAuthorityDescriptor := λ r,
  mkAuthnAuthorityDescriptor (AuthnAuthorityDescriptor_RoleDescriptor r)
    (AuthnAuthorityDescriptor_AuthnQueryServices r) (AuthnAuthorityDescriptor_AssertionIDRequestServices r)
    (AuthnAuthorityDescriptor_NameIDFormats r).
#[export] Instance eta_PDPDescriptor : Eta PDPDescriptor := λ r,
  mkPDPDescriptor (PDPDescriptor_RoleDescriptor r) (PDPDescriptor_AuthzServices r)
    (PDPDescriptor_AssertionIDRequestServices r) (PDPDescriptor_NameIDFormats r).
#[export] Instance eta_AttributeAuthorityDescriptor : Eta AttributeAuthorityDescriptor := λ r,
  mkAttributeAuthorityDescriptor (AttributeAuthorityDescriptor_RoleDescriptor r)
    (AttributeAuthorityDescriptor_AttributeServices r)
    (AttributeAuthorityDescriptor_AssertionIDRequestServices r) (AttributeAuthorityDescriptor_NameIDFormats r)
    (AttributeAuthorityDescriptor_AttributeProfiles r) (AttributeAuthorityDescriptor_Attributes r).
#[export] Instance eta_AffiliationDescriptor : Eta AffiliationDescriptor := λ r,
  mkAffiliationDescriptor (AffiliationDescriptor_AffiliationOwnerID r) (AffiliationDescriptor_ID r)
    (AffiliationDescriptor_ValidUntil r) (AffiliationDescriptor_CacheDuration r)
    (AffiliationDescriptor_Signature r) (AffiliationDescriptor_AffiliateMembers r)
    (AffiliationDescriptor_KeyDescriptors r).
#[export] Instance eta_EntityDescriptor : Eta EntityDescriptor := λ r,
  mkEntityDescriptor (EntityDescriptor_EntityID r) (EntityDescriptor_ID r) (EntityDescriptor_ValidUntil r)
    (EntityDescriptor_CacheDuration r) (EntityDescriptor_Signature r) (EntityDescriptor_RoleDescriptors r)
    (EntityDescriptor_IDPSSODescriptors r) (EntityDescriptor_SPSSODescriptors r)
    (EntityDescriptor_AuthnAuthorityDescriptors r) (EntityDescriptor_AttributeAuthorityDescriptors r)
    (EntityDescriptor_PDPDescriptors r) (EntityDescriptor_AffiliationDescriptor r)
    (EntityDescriptor_Organization r) (EntityDescriptor_ContactPerson r)
    (EntityDescriptor_AdditionalMetadataLocations r).
#[export] Instance eta_EntitiesDescriptor : Eta EntitiesDescriptor := λ r,
  mkEntitiesDescriptor (EntitiesDescriptor_ID r) (EntitiesDescriptor_ValidUntil r) (EntitiesDescriptor_CacheDuration r)
    (EntitiesDescriptor_Name r) (EntitiesDescriptor_Signature r) (EntitiesDescriptor_EntitiesDescriptors r)
    (EntitiesDescriptor_EntityDescriptors r).

Definition metadata_space := "urn:oasis:names:tc:SAML:2.0:metadata".
Definition dsig_space := "http://www.w3.org/2000/09/xmldsig#".
Definition metadata_name (local : string) : option XMLName := Some (mkXMLName metadata_space local).
Definition dsig_name (local : string) : option XMLName := Some (mkXMLName dsig_space local).

(** ** Times and durations *)

Definition time_attr : AttrKind Time :=
  mkAttrKind 0%Z Time_UnmarshalText (λ t, s ← Time_MarshalText t; Ret (Some s)).

(** The auxiliary structs have a [RelaxedTime] and a [Duration] for a time and a duration.
    A duration that is zero has an empty text, and is left out if it is not behind a
    pointer. *)
Definition relaxed_attr : AttrKind Time :=
  mkAttrKind 0%Z RelaxedTime_UnmarshalText (λ t, s ← RelaxedTime_MarshalText t; Ret (Some s)).
Definition duration_attr : AttrKind Duration :=
  mkAttrKind 0%Z (λ s, UnmarshalText (Some s)) (λ d, s ← MarshalText d; Ret (Some (default "" s))).
Definition omitempty_duration_attr : AttrKind Duration :=
  mkAttrKind 0%Z (attr_read duration_attr) (λ d, if (d =? 0)%Z then Ret None else attr_write duration_attr d).

Definition XSDDuration_attr : AttrKind XSDDuration :=
  mkAttrKind "" XSDDuration_UnmarshalText (λ d, Ret (XSDDuration_MarshalXMLAttr d)).

(** ** Names, contacts and keys *)

(** The value [xml:lang] of a name. *)
Definition LocalizedName_tags : list (Tagged LocalizedName) :=
  [tag_attr_ns XMLNamespace "lang" LocalizedName_Lang string_attr;
   tag_chardata LocalizedName_Value].
#[export] Instance LocalizedName_xml : XmlType LocalizedName := struct_type None LocalizedName_tags zero_LocalizedName.

Definition LocalizedURI_tags : list (Tagged LocalizedURI) :=
  [tag_attr_ns XMLNamespace "lang" LocalizedURI_Lang string_attr;
   tag_chardata LocalizedURI_Value].
#[export] Instance LocalizedURI_xml : XmlType LocalizedURI := struct_type None LocalizedURI_tags zero_LocalizedURI.

Definition Organization_tags : list (Tagged Organization) :=
  [tag_slice "" "OrganizationName" Organization_OrganizationNames;
   tag_slice "" "OrganizationDisplayName" Organization_OrganizationDisplayNames;
   tag_slice "" "OrganizationURL" Organization_OrganizationURLs].
#[export] Instance Organization_xml : XmlType Organization := struct_type None Organization_tags zero_Organization.

Definition ContactPerson_tags : list (Tagged ContactPerson) :=
  [tag_attr "contactType" ContactPerson_ContactType string_attr;
   tag_value "" "Company" ContactPerson_Company;
   tag_value "" "GivenName" ContactPerson_GivenName;
   tag_value "" "SurName" ContactPerson_SurName;
   tag_slice "" "EmailAddress" ContactPerson_EmailAddresses;
   tag_slice "" "TelephoneNumber" ContactPerson_TelephoneNumbers].
#[export] Instance ContactPerson_xml : XmlType ContactPerson := struct_type None ContactPerson_tags zero_ContactPerson.

Definition EncryptionMethod_tags : list (Tagged EncryptionMethod) :=
  [tag_attr "Algorithm" EncryptionMethod_Algorithm string_attr].
#[export] Instance EncryptionMethod_xml : XmlType EncryptionMethod :=
  struct_type None EncryptionMethod_tags zero_EncryptionMethod.

Definition X509Certificate_tags : list (Tagged X509Certificate) := [tag_chardata X509Certificate_Data].
#[export] Instance X509Certificate_xml : XmlType X509Certificate :=
  struct_type (dsig_name "X509Certificate") X509Certificate_tags zero_X509Certificate.

Definition X509Data_tags : list (Tagged X509Data) := [tag_slice "" "X509Certificate" X509Data_X509Certificates].
#[export] Instance X509Data_xml : XmlType X509Data := struct_type (dsig_name "X509Data") X509Data_tags zero_X509Data.

Definition KeyInfo_tags : list (Tagged KeyInfo) := [tag_value "" "X509Data" KeyInfo_X509Data].
#[export] Instance KeyInfo_xml : XmlType KeyInfo := struct_type (dsig_name "KeyInfo") KeyInfo_tags zero_KeyInfo.

Definition KeyDescriptor_tags : list (Tagged KeyDescriptor) :=
  [tag_attr "use" KeyDescriptor_Use string_attr;
   tag_value dsig_space "KeyInfo" KeyDescriptor_KeyInfo;
   tag_slice "" "EncryptionMethod" KeyDescriptor_EncryptionMethods].
#[export] Instance KeyDescriptor_xml : XmlType KeyDescriptor := struct_type None KeyDescriptor_tags zero_KeyDescriptor.

(** ** Attributes *)

Definition NameID_tags : list (Tagged NameID) :=
  [tag_attr "NameQualifier" NameID_NameQualifier string_attr;
   tag_attr "SPNameQualifier" NameID_SPNameQualifier string_attr;
   tag_attr "Format" NameID_Format string_attr;
   tag_attr "SPProvidedID" NameID_SPProvidedID string_attr;
   tag_chardata NameID_Value].
#[export] Instance NameID_xml : XmlType NameID := struct_type None NameID_tags zero_NameID.

Definition AttributeValue_tags : list (Tagged AttributeValue) :=
  [tag_attr_ns "http://www.w3.org/2001/XMLSchema-instance" "type" AttributeValue_Type string_attr;
   tag_chardata AttributeValue_Value;
   tag_pointer "" "NameID" AttributeValue_NameID].
#[export] Instance AttributeValue_xml : XmlType AttributeValue :=
  struct_type None AttributeValue_tags zero_AttributeValue.

Definition Attribute_tags {A} (r : A → Attribute) `{!Setter r} : list (Tagged A) :=
  [tag_attr "FriendlyName" (Attribute_FriendlyName ∘ r) string_attr;
   tag_attr "Name" (Attribute_Name ∘ r) string_attr;
   tag_attr "NameFormat" (Attribute_NameFormat ∘ r) string_attr;
   tag_slice "" "AttributeValue" (Attribute_Values ∘ r)].
#[export] Instance Attribute_xml : XmlType Attribute := struct_type None (Attribute_tags id) zero_Attribute.

Definition RequestedAttribute_tags : list (Tagged RequestedAttribute) :=
  (Attribute_tags RequestedAttribute_Attribute ++
   [tag_attr "isRequired" RequestedAttribute_IsRequired (pointer_attr bool_attr)])%list.
#[export] Instance RequestedAttribute_xml : XmlType RequestedAttribute :=
  struct_type None RequestedAttribute_tags zero_RequestedAttribute.

Definition AttributeConsumingService_tags : list (Tagged AttributeConsumingService) :=
  [tag_attr "index" AttributeConsumingService_Index int_attr;
   tag_attr "isDefault" AttributeConsumingService_IsDefault (pointer_attr bool_attr);
   tag_slice "" "ServiceName" AttributeConsumingService_ServiceNames;
   tag_slice "" "ServiceDescription" AttributeConsumingService_ServiceDescriptions;
   tag_slice "" "RequestedAttribute" AttributeConsumingService_RequestedAttributes].
#[export] Instance AttributeConsumingService_xml : XmlType AttributeConsumingService :=
  struct_type None AttributeConsumingService_tags zero_AttributeConsumingService.

(** How [encoding/xml] writes the exported fields of an [etree.Element], by reflection. *)
Class EtreeXml := { marshal_etree : Writer Element }.

#[export] Instance Element_xml `{EtreeX : EtreeXml} : XmlType Element := {|
  xml_zero := zero_Element;
  xml_name := None;
  xml_read := Element_Unmarshal;
  xml_write := marshal_etree
|}.

(** ** Endpoints *)

Section metadata.
Context `{UrlI : UrlOps} `{EtreeX : EtreeXml}.

Definition Endpoint_tags : list (Tagged Endpoint) :=
  [tag_attr "Binding" Endpoint_Binding string_attr;
   tag_attr "Location" Endpoint_Location string_attr;
   tag_attr "ResponseLocation" Endpoint_ResponseLocation omitempty_attr].

(** [UnmarshalXML] reads the struct and then checks its locations. *)
#[export] Instance Endpoint_xml : XmlType Endpoint := {|
  xml_zero := zero_Endpoint;
  xml_name := None;
  xml_read ns el m := m ← unmarshal_struct None (map tag_in Endpoint_tags) ns el m; Endpoint_UnmarshalXML m;
  xml_write := marshal_struct None (map tag_out Endpoint_tags)
|}.

Definition IndexedEndpoint_tags : list (Tagged IndexedEndpoint) :=
  [tag_attr "Binding" IndexedEndpoint_Binding string_attr;
   tag_attr "Location" IndexedEndpoint_Location string_attr;
   tag_attr "ResponseLocation" IndexedEndpoint_ResponseLocation (pointer_attr string_attr);
   tag_attr "index" IndexedEndpoint_Index int_attr;
   tag_attr "isDefault" IndexedEndpoint_IsDefault (pointer_attr bool_attr)].

#[export] Instance IndexedEndpoint_xml : XmlType IndexedEndpoint := {|
  xml_zero := zero_IndexedEndpoint;
  xml_name := None;
  xml_read ns el m :=
    m ← unmarshal_struct None (map tag_in IndexedEndpoint_tags) ns el m; IndexedEndpoint_UnmarshalXML m;
  xml_write := marshal_struct None (map tag_out IndexedEndpoint_tags)
|}.

(** ** Roles *)

Definition RoleDescriptor_tags {A} (r : A → RoleDescriptor) `{!Setter r} : list (Tagged A) :=
  [tag_attr "ID" (RoleDescriptor_ID ∘ r) omitempty_attr;
   tag_attr "validUntil" (RoleDescriptor_ValidUntil ∘ r) (pointer_attr time_attr);
   tag_attr "cacheDuration" (RoleDescriptor_CacheDuration ∘ r) XSDDuration_attr;
   tag_attr "protocolSupportEnumeration" (RoleDescriptor_ProtocolSupportEnumeration ∘ r) string_attr;
   tag_attr "errorURL" (RoleDescriptor_ErrorURL ∘ r) omitempty_attr;
   tag_pointer "" "Signature" (RoleDescriptor_Signature ∘ r);
   tag_slice "" "KeyDescriptor" (RoleDescriptor_KeyDescriptors ∘ r);
   tag_pointer "" "Organization" (RoleDescriptor_Organization ∘ r);
   tag_slice "" "ContactPerson" (RoleDescriptor_ContactPeople ∘ r)].
#[export] Instance RoleDescriptor_xml : XmlType RoleDescriptor :=
  struct_type None (RoleDescriptor_tags id) zero_RoleDescriptor.

(** The fields of [SSODescriptor] but its artifact resolution services, which an
    [IDPSSODescriptor] has a field of its own for: of two fields with the same tag the one
    that is not embedded counts. *)
Definition SSODescriptor_tags_rest {A} (r : A → SSODescriptor) `{!Setter r} : list (Tagged A) :=
  [tag_slice "" "SingleLogoutService" (SSODescriptor_SingleLogoutServices ∘ r);
   tag_slice "" "ManageNameIDService" (SSODescriptor_ManageNameIDServices ∘ r);
   tag_slice "" "NameIDFormat" (SSODescriptor_NameIDFormats ∘ r)].

Definition IDPSSODescriptor_tags : list (Tagged IDPSSODescriptor) :=
  (RoleDescriptor_tags (SSODescriptor_RoleDescriptor ∘ IDPSSODescriptor_SSODescriptor) ++
   SSODescriptor_tags_rest IDPSSODescriptor_SSODescriptor ++
   [tag_attr "WantAuthnRequestsSigned" IDPSSODescriptor_WantAuthnRequestsSigned (pointer_attr bool_attr);
    tag_slice "" "SingleSignOnService" IDPSSODescriptor_SingleSignOnServices;
    tag_slice "" "ArtifactResolutionService" IDPSSODescriptor_ArtifactResolutionServices;
    tag_slice "" "NameIDMappingService" IDPSSODescriptor_NameIDMappingServices;
    tag_slice "" "AssertionIDRequestService" IDPSSODescriptor_AssertionIDRequestServices;
    tag_slice "" "AttributeProfile" IDPSSODescriptor_AttributeProfiles;
    tag_slice "" "Attribute" IDPSSODescriptor_Attributes])%list.
#[export] Instance IDPSSODescriptor_xml : XmlType IDPSSODescriptor :=
  struct_type (metadata_name "IDPSSODescriptor") IDPSSODescriptor_tags zero_IDPSSODescriptor.

Definition SPSSODescriptor_tags : list (Tagged SPSSODescriptor) :=
  (RoleDescriptor_tags (SSODescriptor_RoleDescriptor ∘ SPSSODescriptor_SSODescriptor) ++
   [tag_slice "" "ArtifactResolutionService" (SSODescriptor_ArtifactResolutionServices ∘ SPSSODescriptor_SSODescriptor)] ++
   SSODescriptor_tags_rest SPSSODescriptor_SSODescriptor ++
   [tag_attr "AuthnRequestsSigned" SPSSODescriptor_AuthnRequestsSigned (pointer_attr bool_attr);
    tag_attr "WantAssertionsSigned" SPSSODescriptor_WantAssertionsSigned (pointer_attr bool_attr);
    tag_slice "" "AssertionConsumerService" SPSSODescriptor_AssertionConsumerServices;
    tag_slice "" "AttributeConsumingService" SPSSODescriptor_AttributeConsumingServices])%list.
#[export] Instance SPSSODescriptor_xml : XmlType SPSSODescriptor :=
  struct_type (metadata_name "SPSSODescriptor") SPSSODescriptor_tags zero_SPSSODescriptor.

Definition AuthnAuthorityDescriptor_tags : list (Tagged AuthnAuthorityDescriptor) :=
  (RoleDescriptor_tags AuthnAuthorityDescriptor_RoleDescriptor ++
   [tag_slice "" "AuthnQueryService" AuthnAuthorityDescriptor_AuthnQueryServices;
    tag_slice "" "AssertionIDRequestService" AuthnAuthorityDescriptor_AssertionIDRequestServices;
    tag_slice "" "NameIDFormat" AuthnAuthorityDescriptor_NameIDFormats])%list.
#[export] Instance AuthnAuthorityDescriptor_xml : XmlType AuthnAuthorityDescriptor :=
  struct_type None AuthnAuthorityDescriptor_tags zero_AuthnAuthorityDescriptor.

Definition PDPDescriptor_tags : list (Tagged PDPDescriptor) :=
  (RoleDescriptor_tags PDPDescriptor_RoleDescriptor ++
   [tag_slice "" "AuthzService" PDPDescriptor_AuthzServices;
    tag_slice "" "AssertionIDRequestService" PDPDescriptor_AssertionIDRequestServices;
    tag_slice "" "NameIDFormat" PDPDescriptor_NameIDFormats])%list.
#[export] Instance PDPDescriptor_xml : XmlType PDPDescriptor := struct_type None PDPDescriptor_tags zero_PDPDescriptor.

Definition AttributeAuthorityDescriptor_tags : list (Tagged AttributeAuthorityDescriptor) :=
  (RoleDescriptor_tags AttributeAuthorityDescriptor_RoleDescriptor ++
   [tag_slice "" "AttributeService" AttributeAuthorityDescriptor_AttributeServices;
    tag_slice "" "AssertionIDRequestService" AttributeAuthorityDescriptor_AssertionIDRequestServices;
    tag_slice "" "NameIDFormat" AttributeAuthorityDescriptor_NameIDFormats;
    tag_slice "" "AttributeProfile" AttributeAuthorityDescriptor_AttributeProfiles;
    tag_slice "" "Attribute" AttributeAuthorityDescriptor_Attributes])%list.
#[export] Instance AttributeAuthorityDescriptor_xml : XmlType AttributeAuthorityDescriptor :=
  struct_type None AttributeAuthorityDescriptor_tags zero_AttributeAuthorityDescriptor.

Definition AffiliationDescriptor_tags : list (Tagged AffiliationDescriptor) :=
  [tag_attr "affiliationOwnerID" AffiliationDescriptor_AffiliationOwnerID string_attr;
   tag_attr "ID" AffiliationDescriptor_ID string_attr;
   tag_attr "validUntil" AffiliationDescriptor_ValidUntil time_attr;
   tag_attr "cacheDuration" AffiliationDescriptor_CacheDuration (pointer_attr XSDDuration_attr);
   tag_pointer "" "Signature" AffiliationDescriptor_Signature;
   tag_slice "" "AffiliateMember" AffiliationDescriptor_AffiliateMembers;
   tag_slice "" "KeyDescriptor" AffiliationDescriptor_KeyDescriptors].
#[export] Instance AffiliationDescriptor_xml : XmlType AffiliationDescriptor :=
  struct_type None AffiliationDescriptor_tags zero_AffiliationDescriptor.

(** ** Entities *)

(** The fields of the auxiliary struct come first. *)
Definition EntityDescriptor_tags : list (Tagged EntityDescriptor) :=
  [tag_attr "validUntil" EntityDescriptor_ValidUntil relaxed_attr;
   tag_attr "cacheDuration" EntityDescriptor_CacheDuration omitempty_duration_attr;
   tag_attr "entityID" EntityDescriptor_EntityID string_attr;
   tag_attr "ID" EntityDescriptor_ID omitempty_attr;
   tag_pointer "" "Signature" EntityDescriptor_Signature;
   tag_slice "" "RoleDescriptor" EntityDescriptor_RoleDescriptors;
   tag_slice "" "IDPSSODescriptor" EntityDescriptor_IDPSSODescriptors;
   tag_slice "" "SPSSODescriptor" EntityDescriptor_SPSSODescriptors;
   tag_slice "" "AuthnAuthorityDescriptor" EntityDescriptor_AuthnAuthorityDescriptors;
   tag_slice "" "AttributeAuthorityDescriptor" EntityDescriptor_AttributeAuthorityDescriptors;
   tag_slice "" "PDPDescriptor" EntityDescriptor_PDPDescriptors;
   tag_pointer "" "AffiliationDescriptor" EntityDescriptor_AffiliationDescriptor;
   tag_pointer "" "Organization" EntityDescriptor_Organization;
   tag_pointer "" "ContactPerson" EntityDescriptor_ContactPerson;
   tag_slice "" "AdditionalMetadataLocation" EntityDescriptor_AdditionalMetadataLocations].

Definition EntityDescriptor_UnmarshalXML : Reader EntityDescriptor := λ ns el m,
  unmarshal_struct (metadata_name "EntityDescriptor") (map tag_in EntityDescriptor_tags) ns el
    (set EntityDescriptor_CacheDuration 0%Z (set EntityDescriptor_ValidUntil 0%Z m)).

Definition EntityDescriptor_MarshalXML : Writer EntityDescriptor :=
  marshal_struct (metadata_name "EntityDescriptor") (map tag_out EntityDescriptor_tags).

#[export] Instance EntityDescriptor_xml : XmlType EntityDescriptor := {|
  xml_zero := zero_EntityDescriptor;
  xml_name := metadata_name "EntityDescriptor";
  xml_read := EntityDescriptor_UnmarshalXML;
  xml_write := EntityDescriptor_MarshalXML
|}.

(** A nil time or duration of the auxiliary struct leaves the field as it was. *)
Definition EntitiesDescriptor_tags `{!XmlType EntitiesDescriptor} : list (Tagged EntitiesDescriptor) :=
  [tag_attr "validUntil" EntitiesDescriptor_ValidUntil (pointer_attr relaxed_attr);
   tag_attr "cacheDuration" EntitiesDescriptor_CacheDuration (pointer_attr duration_attr);
   tag_attr "ID" EntitiesDescriptor_ID (pointer_attr string_attr);
   tag_attr "Name" EntitiesDescriptor_Name (pointer_attr string_attr);
   tag_pointer "" "Signature" EntitiesDescriptor_Signature;
   tag_slice metadata_space "EntitiesDescriptor" EntitiesDescriptor_EntitiesDescriptors;
   tag_slice metadata_space "EntityDescriptor" EntitiesDescriptor_EntityDescriptors].

Definition EntitiesDescriptor_type (read : Reader EntitiesDescriptor) (write : Writer EntitiesDescriptor)
    : XmlType EntitiesDescriptor := {|
  xml_zero := zero_EntitiesDescriptor;
  xml_name := metadata_name "EntitiesDescriptor";
  xml_read := read;
  xml_write := write
|}.

(** The type contains itself: [fuel] is how deep it is read and written.  A call of
    [DecodeElement] starts to count the depth anew, so [encoding/xml] has no bound on it. *)
Fixpoint EntitiesDescriptor_read (fuel : nat) : Reader EntitiesDescriptor :=
  match fuel with
  | O => λ _ _ _, Err errUnmarshalDepth
  | S fuel =>
      let _ := EntitiesDescriptor_type (EntitiesDescriptor_read fuel) (λ _ _ _, Panic) in
      unmarshal_struct (metadata_name "EntitiesDescriptor") (map tag_in EntitiesDescriptor_tags)
  end.

Fixpoint EntitiesDescriptor_write (fuel : nat) : Writer EntitiesDescriptor :=
  match fuel with
  | O => λ _ _ _, Panic
  | S fuel =>
      let _ := EntitiesDescriptor_type (λ _ _ _, Panic) (EntitiesDescriptor_write fuel) in
      marshal_struct (metadata_name "EntitiesDescriptor") (map tag_out EntitiesDescriptor_tags)
  end.

Fixpoint entities_depth (m : EntitiesDescriptor) : nat :=
  let 'mkEntitiesDescriptor _ _ _ _ _ l _ := m in S (foldr (λ x n, Nat.max (entities_depth x) n) 0%nat l).

(** The depth of an element is fuel enough to read it, that of a value to write it. *)
Definition EntitiesDescriptor_UnmarshalXML : Reader EntitiesDescriptor := λ ns el m,
  EntitiesDescriptor_read (depth el) ns el m.

Definition EntitiesDescriptor_MarshalXML : Writer EntitiesDescriptor := λ space local m,
  EntitiesDescriptor_write (entities_depth m) space local m.
End metadata.

(** ** The interface *)

Definition metadata_xml `{XmlP : XmlParser} `{UrlI : UrlOps} `{EtreeX : EtreeXml} : MetadataXml := {|
  Unmarshal_EntityDescriptor := xml_Unmarshal xml_Parse EntityDescriptor_UnmarshalXML zero_EntityDescriptor;
  Unmarshal_EntitiesDescriptor := xml_Unmarshal xml_Parse EntitiesDescriptor_UnmarshalXML zero_EntitiesDescriptor;
  MarshalIndent_EntityDescriptor m :=
    match MarshalIndent (EntityDescriptor_MarshalXML "" "EntityDescriptor" m) with Ret buf => buf | _ => "" end;
  Encode_EntityDescriptor m := Encode (EntityDescriptor_MarshalXML "" "EntityDescriptor" m)
|}.
