(* ===== verification/SchemaEncode.v ===== *)
(** * SchemaEncode: writing the messages of [src/schema.go] with [encoding/xml]

    For each struct its tags, which say how [encoding/xml] reads and writes it, and the
    [MarshalXML] methods of the messages.  What the tags say of reading is what [SchemaDecode]
    has: the instances of [XmlType] take their readers from there.  The program writes messages
    with their [Element] methods instead, in the module [SchemaXML]. *)

From stdpp Require Import base option list gmap strings.
From Stdlib Require Import ZArith Lia Ascii.
From S2P Require Import Prelude Go Duration RelaxedTime Etree Schema Env XmlDecode XmlEncode SchemaDecode MetadataCodec.

Open Scope string_scope.

(** ** Values *)

(** An int as the text of an element. *)
#[export] Instance int_xml : XmlType Z := {|
  xml_zero := 0%Z;
  xml_name := None;
  xml_read := simple copy_int;
  xml_write space local z := Ret (mkElement "" local (start_attrs space) (text_tokens (itoa z)))
|}.

(** A pointer to a value with a method [MarshalText] of its own, whose tag does not say
    [omitempty]: the method is called through the pointer, also if it is nil. *)
Definition marshaler_attr {F} (k : AttrKind F) : AttrKind (option F) :=
  mkAttrKind None (to_pointer (attr_read k)) (λ o, match o with Some x => attr_write k x | None => Panic end).

(** ** Names and parts of messages *)

Definition Issuer_tags : list (Tagged Issuer) :=
  [tag_attr "NameQualifier" Issuer_NameQualifier string_attr;
   tag_attr "SPNameQualifier" Issuer_SPNameQualifier string_attr;
   tag_attr "Format" Issuer_Format string_attr;
   tag_attr "SPProvidedID" Issuer_SPProvidedID string_attr;
   tag_chardata Issuer_Value].
#[export] Instance Issuer_xml : XmlType Issuer := struct_type (assertion_name "Issuer") Issuer_tags zero_Issuer.

Definition NameIDPolicy_tags : list (Tagged NameIDPolicy) :=
  [tag_attr "Format" NameIDPolicy_Format (pointer_attr string_attr);
   tag_attr "SPNameQualifier" NameIDPolicy_SPNameQualifier (pointer_attr string_attr);
   tag_attr "AllowCreate" NameIDPolicy_AllowCreate (pointer_attr bool_attr)].
#[export] Instance NameIDPolicy_xml : XmlType NameIDPolicy :=
  struct_type (protocol_name "NameIDPolicy") NameIDPolicy_tags zero_NameIDPolicy.

Definition RequestedAuthnContext_tags : list (Tagged RequestedAuthnContext) :=
  [tag_attr "Comparison" RequestedAuthnContext_Comparison omitempty_attr;
   tag_slice assertion_space "AuthnContextClassRef" RequestedAuthnContext_AuthnContextClassRefs;
   tag_slice assertion_space "AuthnContextDeclRef" RequestedAuthnContext_AuthnContextDeclRefs].
#[export] Instance RequestedAuthnContext_xml : XmlType RequestedAuthnContext :=
  struct_type (protocol_name "RequestedAuthnContext") RequestedAuthnContext_tags zero_RequestedAuthnContext.

Definition SessionIndex_tags : list (Tagged SessionIndex) := [tag_chardata SessionIndex_Value].
#[export] Instance SessionIndex_xml : XmlType SessionIndex := struct_type None SessionIndex_tags zero_SessionIndex.

(** The auxiliary structs have their [RelaxedTime] fields first. *)
Definition SubjectConfirmationData_tags : list (Tagged SubjectConfirmationData) :=
  [tag_attr "NotOnOrAfter" SubjectConfirmationData_NotOnOrAfter relaxed_attr;
   tag_attr "NotBefore" SubjectConfirmationData_NotBefore time_attr;
   tag_attr "Recipient" SubjectConfirmationData_Recipient string_attr;
   tag_attr "InResponseTo" SubjectConfirmationData_InResponseTo string_attr;
   tag_attr "Address" SubjectConfirmationData_Address string_attr].

Definition SubjectConfirmationData_MarshalXML : Writer SubjectConfirmationData :=
  marshal_struct None (map tag_out SubjectConfirmationData_tags).

#[export] Instance SubjectConfirmationData_xml : XmlType SubjectConfirmationData := {|
  xml_zero := zero_SubjectConfirmationData;
  xml_name := None;
  xml_read := SubjectConfirmationData_UnmarshalXML;
  xml_write := SubjectConfirmationData_MarshalXML
|}.

Definition SubjectConfirmation_tags : list (Tagged SubjectConfirmation) :=
  [tag_attr "Method" SubjectConfirmation_Method string_attr;
   tag_pointer "" "NameID" SubjectConfirmation_NameID;
   tag_pointer "" "SubjectConfirmationData" SubjectConfirmation_SubjectConfirmationData].
#[export] Instance SubjectConfirmation_xml : XmlType SubjectConfirmation :=
  struct_type None SubjectConfirmation_tags zero_SubjectConfirmation.

Definition Subject_tags : list (Tagged Subject) :=
  [tag_pointer "" "NameID" Subject_NameID;
   tag_slice "" "SubjectConfirmation" Subject_SubjectConfirmations].
#[export] Instance Subject_xml : XmlType Subject := struct_type (assertion_name "Subject") Subject_tags zero_Subject.

(** ** Conditions and statements *)

Definition Audience_tags : list (Tagged Audience) := [tag_chardata Audience_Value].
#[export] Instance Audience_xml : XmlType Audience := struct_type None Audience_tags zero_Audience.

Definition AudienceRestriction_tags : list (Tagged AudienceRestriction) :=
  [tag_slice "" "Audience" AudienceRestriction_Audiences].
#[export] Instance AudienceRestriction_xml : XmlType AudienceRestriction :=
  struct_type None AudienceRestriction_tags zero_AudienceRestriction.

#[export] Instance OneTimeUse_xml : XmlType OneTimeUse := struct_type None [] mkOneTimeUse.

(** Neither field has a tag. *)
Definition ProxyRestriction_tags : list (Tagged ProxyRestriction) :=
  [tag_pointer "" "Count" ProxyRestriction_Count;
   tag_slice "" "Audiences" ProxyRestriction_Audiences].
#[export] Instance ProxyRestriction_xml : XmlType ProxyRestriction :=
  struct_type None ProxyRestriction_tags zero_ProxyRestriction.

Definition Conditions_tags : list (Tagged Conditions) :=
  [tag_attr "NotBefore" Conditions_NotBefore relaxed_attr;
   tag_attr "NotOnOrAfter" Conditions_NotOnOrAfter relaxed_attr;
   tag_slice "" "AudienceRestriction" Conditions_AudienceRestrictions;
   tag_pointer "" "OneTimeUse" Conditions_OneTimeUse;
   tag_pointer "" "ProxyRestriction" Conditions_ProxyRestriction].

Definition Conditions_MarshalXML : Writer Conditions := marshal_struct None (map tag_out Conditions_tags).

#[export] Instance Conditions_xml : XmlType Conditions := {|
  xml_zero := zero_Conditions;
  xml_name := None;
  xml_read := Conditions_UnmarshalXML;
  xml_write := Conditions_MarshalXML
|}.

Definition SubjectLocality_tags : list (Tagged SubjectLocality) :=
  [tag_attr "Address" SubjectLocality_Address string_attr;
   tag_attr "DNSName" SubjectLocality_DNSName string_attr].
#[export] Instance SubjectLocality_xml : XmlType SubjectLocality :=
  struct_type None SubjectLocality_tags zero_SubjectLocality.

Definition AuthnContextClassRef_tags : list (Tagged AuthnContextClassRef) :=
  [tag_chardata AuthnContextClassRef_Value].
#[export] Instance AuthnContextClassRef_xml : XmlType AuthnContextClassRef :=
  struct_type None AuthnContextClassRef_tags zero_AuthnContextClassRef.

Definition AuthnContext_tags : list (Tagged AuthnContext) :=
  [tag_pointer "" "AuthnContextClassRef" AuthnContext_AuthnContextClassRef].
#[export] Instance AuthnContext_xml : XmlType AuthnContext := struct_type None AuthnContext_tags zero_AuthnContext.

Definition AuthnStatement_tags : list (Tagged AuthnStatement) :=
  [tag_attr "AuthnInstant" AuthnStatement_AuthnInstant relaxed_attr;
   tag_attr "SessionNotOnOrAfter" AuthnStatement_SessionNotOnOrAfter (pointer_attr relaxed_attr);
   tag_attr "SessionIndex" AuthnStatement_SessionIndex string_attr;
   tag_pointer "" "SubjectLocality" AuthnStatement_SubjectLocality;
   tag_value "" "AuthnContext" AuthnStatement_AuthnContext].

Definition AuthnStatement_MarshalXML : Writer AuthnStatement :=
  marshal_struct None (map tag_out AuthnStatement_tags).

#[export] Instance AuthnStatement_xml : XmlType AuthnStatement := {|
  xml_zero := zero_AuthnStatement;
  xml_name := None;
  xml_read := AuthnStatement_UnmarshalXML;
  xml_write := AuthnStatement_MarshalXML
|}.

Definition AttributeStatement_tags : list (Tagged AttributeStatement) :=
  [tag_slice "" "Attribute" AttributeStatement_Attributes].
#[export] Instance AttributeStatement_xml : XmlType AttributeStatement :=
  struct_type None AttributeStatement_tags zero_AttributeStatement.

(** ** Status *)

Definition StatusMessage_tags : list (Tagged StatusMessage) := [tag_chardata StatusMessage_Value].
#[export] Instance StatusMessage_xml : XmlType StatusMessage :=
  struct_type (protocol_name "StatusMessage") StatusMessage_tags zero_StatusMessage.

Definition StatusCode_type (read : Reader StatusCode) (write : Writer StatusCode) : XmlType StatusCode := {|
  xml_zero := mkStatusCode "" None;
  xml_name := protocol_name "StatusCode";
  xml_read := read;
  xml_write := write
|}.

Definition StatusCode_tags `{!XmlType StatusCode} : list (Tagged StatusCode) :=
  [tag_attr "Value" StatusCode_Value string_attr;
   tag_pointer protocol_space "StatusCode" StatusCode_StatusCode].

(** The type contains itself: a code is written to the depth that it has. *)
Fixpoint StatusCode_write (depth : nat) : Writer StatusCode :=
  match depth with
  | O => λ _ _ _, Panic
  | S depth =>
      let _ := StatusCode_type (λ _ _ _, Panic) (StatusCode_write depth) in
      marshal_struct (protocol_name "StatusCode") (map tag_out StatusCode_tags)
  end.

#[export] Instance StatusCode_xml : XmlType StatusCode :=
  StatusCode_type (StatusCode_Unmarshal (maxUnmarshalDepth - 2))
    (λ space local s, StatusCode_write (StatusCode_depth s) space local s).

Section messages.
Context `{EtreeX : EtreeXml}.

Definition StatusDetail_tags : list (Tagged StatusDetail) := [tag_slice "" "Children" StatusDetail_Children].
#[export] Instance StatusDetail_xml : XmlType StatusDetail := struct_type None StatusDetail_tags zero_StatusDetail.

Definition Status_tags : list (Tagged Status) :=
  [tag_value protocol_space "StatusCode" Status_StatusCode;
   tag_pointer protocol_space "StatusMessage" Status_StatusMessage;
   tag_pointer "" "StatusDetail" Status_StatusDetail].
#[export] Instance Status_xml : XmlType Status := struct_type (protocol_name "Status") Status_tags zero_Status.

(** ** Messages *)

Definition AuthnRequest_tags : list (Tagged AuthnRequest) :=
  [tag_attr "IssueInstant" AuthnRequest_IssueInstant relaxed_attr;
   tag_attr "ID" AuthnRequest_ID string_attr;
   tag_attr "Version" AuthnRequest_Version string_attr;
   tag_attr "Destination" AuthnRequest_Destination string_attr;
   tag_attr "Consent" AuthnRequest_Consent string_attr;
   tag_pointer assertion_space "Issuer" AuthnRequest_Issuer;
   tag_pointer "" "Signature" AuthnRequest_Signature;
   tag_pointer assertion_space "Subject" AuthnRequest_Subject;
   tag_pointer protocol_space "NameIDPolicy" AuthnRequest_NameIDPolicy;
   tag_pointer "" "Conditions" AuthnRequest_Conditions;
   tag_pointer protocol_space "RequestedAuthnContext" AuthnRequest_RequestedAuthnContext;
   tag_attr "ForceAuthn" AuthnRequest_ForceAuthn (pointer_attr bool_attr);
   tag_attr "IsPassive" AuthnRequest_IsPassive (pointer_attr bool_attr);
   tag_attr "AssertionConsumerServiceIndex" AuthnRequest_AssertionConsumerServiceIndex string_attr;
   tag_attr "AssertionConsumerServiceURL" AuthnRequest_AssertionConsumerServiceURL string_attr;
   tag_attr "ProtocolBinding" AuthnRequest_ProtocolBinding string_attr;
   tag_attr "AttributeConsumingServiceIndex" AuthnRequest_AttributeConsumingServiceIndex string_attr;
   tag_attr "ProviderName" AuthnRequest_ProviderName string_attr].

Definition AuthnRequest_MarshalXML : Writer AuthnRequest :=
  marshal_struct (protocol_name "AuthnRequest") (map tag_out AuthnRequest_tags).

#[export] Instance AuthnRequest_xml : XmlType AuthnRequest := {|
  xml_zero := zero_AuthnRequest;
  xml_name := protocol_name "AuthnRequest";
  xml_read := AuthnRequest_UnmarshalXML;
  xml_write := AuthnRequest_MarshalXML
|}.

Definition LogoutRequest_tags : list (Tagged LogoutRequest) :=
  [tag_attr "IssueInstant" LogoutRequest_IssueInstant relaxed_attr;
   tag_attr "NotOnOrAfter" LogoutRequest_NotOnOrAfter (marshaler_attr relaxed_attr);
   tag_attr "ID" LogoutRequest_ID string_attr;
   tag_attr "Version" LogoutRequest_Version string_attr;
   tag_attr "Destination" LogoutRequest_Destination string_attr;
   tag_pointer assertion_space "Issuer" LogoutRequest_Issuer;
   tag_pointer "" "NameID" LogoutRequest_NameID;
   tag_pointer "" "Signature" LogoutRequest_Signature;
   tag_slice protocol_space "SessionIndex" LogoutRequest_SessionIndexes].

Definition LogoutRequest_MarshalXML : Writer LogoutRequest :=
  marshal_struct (protocol_name "LogoutRequest") (map tag_out LogoutRequest_tags).

#[export] Instance LogoutRequest_xml : XmlType LogoutRequest := {|
  xml_zero := zero_LogoutRequest;
  xml_name := protocol_name "LogoutRequest";
  xml_read := LogoutRequest_UnmarshalXML;
  xml_write := LogoutRequest_MarshalXML
|}.

Definition LogoutResponse_tags : list (Tagged LogoutResponse) :=
  [tag_attr "IssueInstant" LogoutResponse_IssueInstant relaxed_attr;
   tag_attr "ID" LogoutResponse_ID string_attr;
   tag_attr "InResponseTo" LogoutResponse_InResponseTo string_attr;
   tag_attr "Version" LogoutResponse_Version string_attr;
   tag_attr "Destination" LogoutResponse_Destination string_attr;
   tag_attr "Consent" LogoutResponse_Consent string_attr;
   tag_pointer assertion_space "Issuer" LogoutResponse_Issuer;
   tag_pointer "" "Signature" LogoutResponse_Signature;
   tag_value protocol_space "Status" LogoutResponse_Status].

Definition LogoutResponse_MarshalXML : Writer LogoutResponse :=
  marshal_struct (protocol_name "LogoutResponse") (map tag_out LogoutResponse_tags).

#[export] Instance LogoutResponse_xml : XmlType LogoutResponse := {|
  xml_zero := zero_LogoutResponse;
  xml_name := protocol_name "LogoutResponse";
  xml_read := LogoutResponse_UnmarshalXML;
  xml_write := LogoutResponse_MarshalXML
|}.

Definition ArtifactResolve_tags : list (Tagged ArtifactResolve) :=
  [tag_attr "IssueInstant" ArtifactResolve_IssueInstant relaxed_attr;
   tag_attr "ID" ArtifactResolve_ID string_attr;
   tag_attr "Version" ArtifactResolve_Version string_attr;
   tag_pointer assertion_space "Issuer" ArtifactResolve_Issuer;
   tag_pointer "" "Signature" ArtifactResolve_Signature;
   tag_value protocol_space "Artifact" ArtifactResolve_Artifact].

Definition ArtifactResolve_MarshalXML : Writer ArtifactResolve :=
  marshal_struct (protocol_name "ArtifactResolve") (map tag_out ArtifactResolve_tags).

#[export] Instance ArtifactResolve_xml : XmlType ArtifactResolve := {|
  xml_zero := zero_ArtifactResolve;
  xml_name := protocol_name "ArtifactResolve";
  xml_read := ArtifactResolve_UnmarshalXML;
  xml_write := ArtifactResolve_MarshalXML
|}.

(** [Assertion] has no [MarshalXML] method: its time is written in full, after its ID, and
    read as the [RelaxedTime] of its [UnmarshalXML] method. *)
Definition relaxed_time_attr : AttrKind Time := mkAttrKind 0%Z RelaxedTime_UnmarshalText (attr_write time_attr).

Definition Assertion_tags : list (Tagged Assertion) :=
  [tag_attr "ID" Assertion_ID string_attr;
   tag_attr "IssueInstant" Assertion_IssueInstant relaxed_time_attr;
   tag_attr "Version" Assertion_Version string_attr;
   tag_value assertion_space "Issuer" Assertion_Issuer;
   tag_pointer "" "Signature" Assertion_Signature;
   tag_pointer assertion_space "Subject" Assertion_Subject;
   tag_pointer "" "Conditions" Assertion_Conditions;
   tag_slice "" "AuthnStatement" Assertion_AuthnStatements;
   tag_slice "" "AttributeStatement" Assertion_AttributeStatements].

#[export] Instance Assertion_xml : XmlType Assertion := {|
  xml_zero := zero_Assertion;
  xml_name := assertion_name "Assertion";
  xml_read := Assertion_UnmarshalXML;
  xml_write := marshal_struct (assertion_name "Assertion") (map tag_out Assertion_tags)
|}.

Definition Response_tags : list (Tagged Response) :=
  [tag_attr "IssueInstant" Response_IssueInstant relaxed_attr;
   tag_attr "ID" Response_ID string_attr;
   tag_attr "InResponseTo" Response_InResponseTo string_attr;
   tag_attr "Version" Response_Version string_attr;
   tag_attr "Destination" Response_Destination string_attr;
   tag_attr "Consent" Response_Consent string_attr;
   tag_pointer assertion_space "Issuer" Response_Issuer;
   tag_pointer "" "Signature" Response_Signature;
   tag_value protocol_space "Status" Response_Status;
   tag_pointer assertion_space "EncryptedAssertion" Response_EncryptedAssertion;
   tag_pointer assertion_space "Assertion" Response_Assertion].

Definition Response_MarshalXML : Writer Response :=
  marshal_struct (protocol_name "Response") (map tag_out Response_tags).

#[export] Instance Response_xml : XmlType Response := {|
  xml_zero := zero_Response;
  xml_name := protocol_name "Response";
  xml_read := Response_UnmarshalXML;
  xml_write := Response_MarshalXML
|}.

Definition ArtifactResponse_tags : list (Tagged ArtifactResponse) :=
  [tag_attr "IssueInstant" ArtifactResponse_IssueInstant relaxed_attr;
   tag_attr "ID" ArtifactResponse_ID string_attr;
   tag_attr "InResponseTo" ArtifactResponse_InResponseTo string_attr;
   tag_attr "Version" ArtifactResponse_Version string_attr;
   tag_pointer assertion_space "Issuer" ArtifactResponse_Issuer;
   tag_pointer "" "Signature" ArtifactResponse_Signature;
   tag_value protocol_space "Status" ArtifactResponse_Status;
   tag_value protocol_space "Response" ArtifactResponse_Response].

Definition ArtifactResponse_MarshalXML : Writer ArtifactResponse :=
  marshal_struct (protocol_name "ArtifactResponse") (map tag_out ArtifactResponse_tags).

#[export] Instance ArtifactResponse_xml : XmlType ArtifactResponse := {|
  xml_zero := zero_ArtifactResponse;
  xml_name := protocol_name "ArtifactResponse";
  xml_read := ArtifactResponse_UnmarshalXML;
  xml_write := ArtifactResponse_MarshalXML
|}.
End messages.
