(* ===== verification/SchemaRoundtrip.v ===== *)
(** * SchemaRoundtrip: a message that is written is read back

    What [UnmarshalXML] reads from what [Element] builds, for the messages of
    [src/schema.go]: the message, with its times in milliseconds and without what the
    tags of the structs do not name.  [built] describes an element in the
    course of its construction. *)

From stdpp Require Import base option list gmap strings sets.
From Stdlib Require Import ZArith Lia Ascii.
From S2P Require Import Prelude Go Duration RelaxedTime Encoding Etree C14n Schema Env Reference.
From S2P Require Import SchemaXML XmlDecode SchemaDecode.

Open Scope string_scope.

#[local] Arguments RelaxedTime_UnmarshalText : simpl never.
#[local] Arguments Time_Format : simpl never.
#[local] Arguments time_Parse : simpl never.

(** ** What [etree] documents of building elements *)

Class EtreeBuild `{EtreeI : EtreeOps} : Prop := {
  NewElement_split tag : NewElement tag = mkElement (split_name tag).1 (split_name tag).2 [] [];
  CreateAttr_new key value e :
    (∀ a, a ∈ Attrs e → (Attr_Space a, Attr_Key a) ≠ split_name key) →
    CreateAttr key value e
    = set_Attrs (Attrs e ++ [mkAttr (split_name key).1 (split_name key).2 value])%list e;
  SetText_only text e : (∀ t, t ∈ Child e → token_text t = "") → ∃ c,
    SetText text e = set_Child c e ∧ char_data c = text ∧ omap token_element c = ChildElements e;
  AddChild_last c e : AddChild c e = set_Child (Child e ++ [TElement c])%list e
}.

(** ** Elements in the course of their construction *)

Section built.
Context `{EtreeI : EtreeOps} `{EtreeB : !EtreeBuild}.

(** An element by its name, its attributes, its child elements and its text. *)
Record built (space tag : string) (attrs : list Attr) (els : list Element) (text : string)
    (e : Element) : Prop := mkBuilt {
  built_Space : Space e = space;
  built_Tag : Tag e = tag;
  built_Attrs : Attrs e = attrs;
  built_els : ChildElements e = els;
  built_text : char_data (Child e) = text
}.

(** The attributes of an optional value. *)
Definition attr_of (key value : string) : list Attr := [mkAttr (split_name key).1 (split_name key).2 value].
Definition attrs_text (key value : string) : list Attr := if value != "" then attr_of key value else [].
Definition attrs_opt {A} (key : string) (format : A → string) (value : option A) : list Attr :=
  match value with Some v => attr_of key (format v) | None => [] end.
Definition attrs_time (key : string) (value : Time) : list Attr :=
  if IsZero value then [] else attr_of key (Time_Format value).

Definition els_opt {A} (element : A → Element) (value : option A) : list Element :=
  match value with Some v => [element v] | None => [] end.

(** No attribute has the name. *)
Definition fresh (key : string) (attrs : list Attr) : Prop :=
  ∀ a, a ∈ attrs → (Attr_Space a, Attr_Key a) ≠ split_name key.

Lemma fresh_nil key : fresh key [].
Proof. intros a Ha. by apply not_elem_of_nil in Ha. Qed.

Lemma fresh_app key l1 l2 : fresh key l1 → fresh key l2 → fresh key (l1 ++ l2)%list.
Proof. intros H1 H2 a [Ha|Ha]%elem_of_app; [by apply H1|by apply H2]. Qed.

Lemma fresh_of key key' v : split_name key' ≠ split_name key → fresh key (attr_of key' v).
Proof.
  intros H a ->%list_elem_of_singleton. simpl. by destruct (split_name key').
Qed.

Lemma fresh_text key key' v : split_name key' ≠ split_name key → fresh key (attrs_text key' v).
Proof. intros H. unfold attrs_text. case_match; [by apply fresh_of|apply fresh_nil]. Qed.

Lemma fresh_opt {A} key key' (f : A → string) v : split_name key' ≠ split_name key → fresh key (attrs_opt key' f v).
Proof. intros H. unfold attrs_opt. case_match; [by apply fresh_of|apply fresh_nil]. Qed.

Lemma fresh_time key key' v : split_name key' ≠ split_name key → fresh key (attrs_time key' v).
Proof. intros H. unfold attrs_time. case_match; [apply fresh_nil|by apply fresh_of]. Qed.

Lemma char_data_app c1 c2 : char_data (c1 ++ c2)%list = char_data c1 +++ char_data c2.
Proof. induction c1 as [|t c1 IH]; simpl; [done|]. by rewrite IH, append_assoc. Qed.

Lemma char_data_empty c : char_data c = "" → ∀ t, t ∈ c → token_text t = "".
Proof.
  induction c as [|x c IH]; simpl; intros H t; [by intros ?%not_elem_of_nil|].
  destruct (token_text x) eqn:Ht; [|done]. intros [->|?]%elem_of_cons; [done|]. by apply IH.
Qed.

Lemma built_new tag s t : split_name tag = (s, t) → built s t [] [] "" (NewElement tag).
Proof. intros H. rewrite NewElement_split, H. by split. Qed.

Lemma built_eq s t a l x e s' t' a' l' x' : built s t a l x e →
  s = s' → t = t' → a = a' → l = l' → x = x' → built s' t' a' l' x' e.
Proof. by intros H <- <- <- <- <-. Qed.

Lemma built_attr key v s t a l x e : built s t a l x e → fresh key a →
  built s t (a ++ attr_of key v)%list l x (CreateAttr key v e).
Proof. intros [] Hk. rewrite CreateAttr_new by (by subst). split; by subst. Qed.

Lemma built_attr_set key v s t a l x e : built s t a l x e → fresh key a →
  built s t (a ++ attrs_text key v)%list l x (attr_set key v e).
Proof.
  intros He Hk. unfold attr_set, attrs_text. case_match; [by apply built_attr|]. by rewrite app_nil_r.
Qed.

Lemma built_attr_opt {A} key (f : A → string) v s t a l x e : built s t a l x e → fresh key a →
  built s t (a ++ attrs_opt key f v)%list l x (attr_opt key f v e).
Proof.
  intros He Hk. unfold attr_opt, attrs_opt. case_match; [by apply built_attr|]. by rewrite app_nil_r.
Qed.

Lemma built_attr_time key v s t a l x e : built s t a l x e → fresh key a →
  built s t (a ++ attrs_time key v)%list l x (attr_time key v e).
Proof.
  intros He Hk. unfold attr_time, attrs_time. case_match; [by rewrite app_nil_r|]. by apply built_attr.
Qed.

Lemma built_child c s t a l x e : built s t a l x e → built s t a (l ++ [c])%list x (AddChild c e).
Proof.
  intros [? ? ? Hl Hx]. rewrite AddChild_last. unfold ChildElements in Hl. split; simpl; [done..| |].
  - unfold ChildElements. simpl. by rewrite omap_app, Hl.
  - by rewrite char_data_app, append_nil_r.
Qed.

Lemma built_child_opt {A} (f : A → Element) v s t a l x e : built s t a l x e →
  built s t a (l ++ els_opt f v)%list x (child_opt f v e).
Proof. intros He. destruct v; simpl; [by apply built_child|]. by rewrite app_nil_r. Qed.

Lemma built_child_each {A} (f : A → Element) vs s t a l x e : built s t a l x e →
  built s t a (l ++ map f vs)%list x (child_each f vs e).
Proof.
  unfold child_each. revert e l. induction vs as [|v vs IH]; intros e l He; simpl; [by rewrite app_nil_r|].
  replace (l ++ f v :: map f vs)%list with ((l ++ [f v]) ++ map f vs)%list by by rewrite <- app_assoc.
  apply IH. by apply built_child.
Qed.

Lemma built_SetText v s t a l e : built s t a l "" e → built s t a l v (SetText v e).
Proof.
  intros [? ? ? Hl Hx]. destruct (SetText_only v e) as (c & -> & Hc & Ho); [by apply char_data_empty|].
  split; simpl; [done..| |done]. unfold ChildElements in *. simpl. by rewrite Ho.
Qed.

Lemma built_text_set v s t a l e : built s t a l "" e →
  built s t a l v (if v != "" then SetText v e else e).
Proof. intros He. case_match; [by apply built_SetText|]. bool_prop. by subst. Qed.
End built.

(** ** Reading what was built *)

Lemma fold_each_app {A B} (f : A → B → outcome B) l1 l2 v :
  fold_each f (l1 ++ l2) v = (v ← fold_each f l1 v; fold_each f l2 v).
Proof.
  revert v. induction l1 as [|x l1 IH]; intros v; simpl; [done|].
  destruct (f x v); simpl; [apply IH|done..].
Qed.

Lemma fold_each_step {A B} (f : A → B → outcome B) l1 l2 v w r :
  fold_each f l1 v = Ret w → fold_each f l2 w = r → fold_each f (l1 ++ l2) v = r.
Proof. intros H1 H2. by rewrite fold_each_app, H1. Qed.

Lemma read_children {A} (F : list (Field A)) ns c v :
  fold_each (read_child F ns) c v = fold_each (unmarshalPath F ns) (omap token_element c) v.
Proof.
  revert v. induction c as [|[] c IH]; intros v; simpl; [done| |apply IH..].
  destruct (unmarshalPath F ns e v); simpl; [apply IH|done..].
Qed.

(** The names of the attributes satisfy a condition. *)
Definition names_ok (P : string → string → bool) (attrs : list Attr) : Prop :=
  Forall (λ a, P (Attr_Space a) (Attr_Key a) = true) attrs.

Section names_ok.
Context (P : string → string → bool).
Definition name_ok (key : string) : bool := P (split_name key).1 (split_name key).2.

Lemma names_nil : names_ok P [].
Proof. constructor. Qed.

Lemma names_app l1 l2 : names_ok P l1 → names_ok P l2 → names_ok P (l1 ++ l2)%list.
Proof. intros. by apply Forall_app. Qed.

Lemma names_of key v : name_ok key = true → names_ok P (attr_of key v).
Proof. intros H. by repeat constructor. Qed.

Lemma names_text key v : name_ok key = true → names_ok P (attrs_text key v).
Proof. intros H. unfold attrs_text. case_match; [by apply names_of|constructor]. Qed.

Lemma names_opt {A} key (f : A → string) v : name_ok key = true → names_ok P (attrs_opt key f v).
Proof. intros H. unfold attrs_opt. case_match; [by apply names_of|constructor]. Qed.

Lemma names_time key v : name_ok key = true → names_ok P (attrs_time key v).
Proof. intros H. unfold attrs_time. case_match; [constructor|by apply names_of]. Qed.
End names_ok.

(** Attributes that declare nothing. *)
Definition plain_name (space key : string) : bool :=
  negb (space =? "xmlns") && negb ((space =? "") && (key =? "xmlns")).
Definition plain : list Attr → Prop := names_ok plain_name.

Lemma plain_scope ns l : plain l → foldl xml_declare ns l = ns.
Proof.
  intros H. induction H as [|a l Ha _ IH]; [done|]. simpl. unfold xml_declare at 2. unfold plain_name in Ha.
  bool_prop. by rewrite H, H0.
Qed.

Lemma scope_app ns ns1 l1 l2 : foldl xml_declare ns l1 = ns1 → plain l2 → foldl xml_declare ns (l1 ++ l2)%list = ns1.
Proof. intros <- H. rewrite foldl_app. by apply plain_scope. Qed.

(** What a reader makes of an element: its name and the value. *)
Definition reads {F} (read : Reader F) (zero : F) (ns : NSContext) (e : Element)
    (space tag : string) (value : F) : Prop :=
  Tag e = tag ∧ element_space (xml_scope ns e) e = space ∧ read ns e zero = Ret value.

Definition expects (n : option XMLName) (space tag : string) : Prop :=
  match n with None => True | Some n => n = mkXMLName space tag end.

Lemma reads_struct {A} n (F : list (Field A)) ns ns' e s t a l x space v va vl :
  built s t a l x e → foldl xml_declare ns a = ns' → translate ns' true s t = space →
  expects n space t →
  fold_each (read_attr F ns') a v = Ret va →
  fold_each (unmarshalPath F ns') l va = Ret vl →
  reads (unmarshal_struct n F) v ns e space t (assign_chardata F x vl).
Proof.
  intros [Hs Ht Ha Hl Hx] Hns Hspace Hn Hva Hvl. unfold reads, element_space, xml_scope.
  split_and!; [done|by rewrite Ha, Hns, Hs, Ht|].
  unfold unmarshal_struct, xml_scope. rewrite Ha, Hns.
  assert (He : expect_name n ns' e = Ret ()).
  { destruct n as [n|]; [|done]. simpl in Hn. subst n. unfold expect_name, element_space. simpl.
    rewrite Hs, Ht, Hspace, !String.eqb_refl, !andb_false_r. done. }
  rewrite He. simpl. rewrite Hva. simpl. rewrite read_children.
  unfold ChildElements in Hl. rewrite Hl, Hvl. simpl. by rewrite Hx.
Qed.

(** ** Reading attributes *)

Section read_attrs.
Context {A : Type} (F : list (Field A)) (ns : NSContext).

Lemma read_of key v a a' :
  read_attr F ns (mkAttr (split_name key).1 (split_name key).2 v) a = Ret a' →
  fold_each (read_attr F ns) (attr_of key v) a = Ret a'.
Proof. intros H. simpl. by rewrite H. Qed.

Lemma read_text (proj : A → string) `{!Setter proj} key v a :
  (∀ x, read_attr F ns (mkAttr (split_name key).1 (split_name key).2 x) a = Ret (set proj x a)) →
  set proj "" a = a →
  fold_each (read_attr F ns) (attrs_text key v) a = Ret (set proj v a).
Proof.
  intros H H0. unfold attrs_text. case_match; [by apply read_of|]. bool_prop. subst. simpl. by rewrite H0.
Qed.

Lemma read_opt {B C} (proj : A → option C) `{!Setter proj} key (f : B → string) (h : B → C) o a :
  (∀ x, o = Some x →
    read_attr F ns (mkAttr (split_name key).1 (split_name key).2 (f x)) a = Ret (set proj (Some (h x)) a)) →
  set proj None a = a →
  fold_each (read_attr F ns) (attrs_opt key f o) a = Ret (set proj (h <$> o) a).
Proof.
  intros H H0. unfold attrs_opt. destruct o; [apply read_of; by apply H|]. simpl. by rewrite H0.
Qed.
End read_attrs.

(** A time as it is read back: the millisecond that it is in. *)
Definition Time_read (t : Time) : Time := (t - t mod Millisecond)%Z.
#[global] Arguments Time_read : simpl never.

Lemma read_time {A} (F : list (Field A)) ns (proj : A → Time) `{!Setter proj} key t a :
  read_attr F ns (mkAttr (split_name key).1 (split_name key).2 (Time_Format t)) a
  = Ret (set proj (Time_read t) a) →
  set proj 0%Z a = a →
  fold_each (read_attr F ns) (attrs_time key t) a = Ret (set proj (Time_read t) a).
Proof.
  intros H H0. unfold attrs_time, IsZero. destruct (Z.eqb_spec t 0) as [->|]; [|by apply read_of].
  simpl. change (Time_read 0) with 0%Z. by rewrite H0.
Qed.

(** ** Reading child elements *)

Section read_els.
Context {A : Type} (F : list (Field A)) (ns : NSContext).

(** The assignment of the first field of a name. *)
Fixpoint find_field (fields : list (Field A)) (space tag : string) : option (NSContext → Element → A → outcome A) :=
  match fields with
  | [] => None
  | FElement xmlns name assign :: fields =>
      if (name =? tag) && ((xmlns =? "") || (xmlns =? space)) then Some assign else find_field fields space tag
  | _ :: fields => find_field fields space tag
  end.

Lemma unmarshalPath_find e a :
  unmarshalPath F ns e a
  = match find_field F (element_space (xml_scope ns e) e) (Tag e) with
    | Some assign => assign ns e a
    | None => Ret a
    end.
Proof. induction F as [|[] fs IH]; simpl; [done..| |done]. by destruct (_ && _). Qed.

Lemma read_value {C} (proj : A → C) `{!Setter proj} read zero e space tag y a :
  reads read zero ns e space tag y → proj a = zero →
  find_field F space tag = Some (λ ns el v, x ← read ns el (proj v); Ret (set proj x v)) →
  unmarshalPath F ns e a = Ret (set proj y a).
Proof. intros (Ht & Hs & H) H0 Hf. by rewrite unmarshalPath_find, Ht, Hs, Hf, H0, H. Qed.

Lemma read_pointer {C} (proj : A → option C) `{!Setter proj} read zero e space tag y a :
  reads read zero ns e space tag y → proj a = None →
  find_field F space tag = Some (λ ns el v, x ← pointer zero read ns el (proj v); Ret (set proj x v)) →
  unmarshalPath F ns e a = Ret (set proj (Some y) a).
Proof. intros (Ht & Hs & H) H0 Hf. rewrite unmarshalPath_find, Ht, Hs, Hf, H0. unfold pointer. simpl. by rewrite H. Qed.

Lemma read_els_opt {B C} (proj : A → option C) `{!Setter proj} (f : B → Element) (h : B → C) o a :
  (∀ x, o = Some x → unmarshalPath F ns (f x) a = Ret (set proj (Some (h x)) a)) →
  set proj None a = a →
  fold_each (unmarshalPath F ns) (els_opt f o) a = Ret (set proj (h <$> o) a).
Proof. intros H H0. destruct o; simpl; [by rewrite (H _ eq_refl)|]. by rewrite H0. Qed.

(** An optional child whose field is a pointer. *)
Lemma read_optional {B C} (proj : A → option C) `{!Setter proj} read zero space tag (f : B → Element)
    (h : B → C) o a :
  (∀ x, o = Some x → reads read zero ns (f x) space tag (h x)) →
  find_field F space tag = Some (λ ns el v, x ← pointer zero read ns el (proj v); Ret (set proj x v)) →
  proj a = None → set proj None a = a →
  fold_each (unmarshalPath F ns) (els_opt f o) a = Ret (set proj (h <$> o) a).
Proof. intros H Hf H0 H1. apply read_els_opt; [|done]. intros x Hx. by eapply read_pointer; [apply H| |]. Qed.

(** A child that is always there. *)
Lemma read_single {C} (proj : A → C) `{!Setter proj} read zero e space tag y a :
  reads read zero ns e space tag y → proj a = zero →
  find_field F space tag = Some (λ ns el v, x ← read ns el (proj v); Ret (set proj x v)) →
  fold_each (unmarshalPath F ns) [e] a = Ret (set proj y a).
Proof. intros H H0 Hf. simpl. by erewrite read_value. Qed.

(** Children whose field is a slice. *)
Lemma read_each {B C} (proj : A → list C) `{!Setter proj} read zero space tag (f : B → Element)
    (h : B → C) l a :
  (∀ x, x ∈ l → reads read zero ns (f x) space tag (h x)) →
  find_field F space tag = Some (λ ns el v, x ← slice zero read ns el (proj v); Ret (set proj x v)) →
  (∀ y, proj (set proj y a) = y) → (∀ y z, set proj z (set proj y a) = set proj z a) → set proj [] a = a →
  fold_each (unmarshalPath F ns) (map f l) a = Ret (set proj (map h l) a).
Proof.
  intros H Hf Hget Hset H0. rewrite <- H0 at 1.
  enough (∀ acc, fold_each (unmarshalPath F ns) (map f l) (set proj acc a) = Ret (set proj (acc ++ map h l)%list a))
    by naive_solver.
  induction l as [|x l IH]; intros acc; simpl; [by rewrite app_nil_r|].
  destruct (H x ltac:(set_solver)) as (Ht & Hs & Hr).
  rewrite unmarshalPath_find, Ht, Hs, Hf, Hget. unfold slice at 1. rewrite Hr. simpl.
  rewrite Hset. rewrite (IH ltac:(set_solver)). by rewrite <- app_assoc.
Qed.
End read_els.

(** ** Automation *)

Lemma reads_eq {F} (read : Reader F) zero ns e space tag x y :
  reads read zero ns e space tag x → x = y → reads read zero ns e space tag y.
Proof. by intros ? <-. Qed.

Ltac fresh_tac :=
  repeat first [apply fresh_app | apply fresh_nil
    | apply fresh_of; done | apply fresh_text; done | apply fresh_opt; done | apply fresh_time; done].

Ltac names_tac :=
  repeat first [apply names_app | apply names_nil
    | apply names_of; done | apply names_text; done | apply names_opt; done | apply names_time; done].

(** How an element was built. *)
Ltac build :=
  lazymatch goal with
  | |- built _ _ _ _ _ (NewElement _) => apply built_new; reflexivity
  | |- built _ _ _ _ _ (CreateAttr _ _ _) => eapply built_attr; [build|fresh_tac]
  | |- built _ _ _ _ _ (attr_set _ _ _) => eapply built_attr_set; [build|fresh_tac]
  | |- built _ _ _ _ _ (attr_opt _ _ _ _) => eapply built_attr_opt; [build|fresh_tac]
  | |- built _ _ _ _ _ (attr_time _ _ _) => eapply built_attr_time; [build|fresh_tac]
  | |- built _ _ _ _ _ (AddChild _ _) => eapply built_child; build
  | |- built _ _ _ _ _ (child_opt _ _ _) => eapply built_child_opt; build
  | |- built _ _ _ _ _ (child_each _ _ _) => eapply built_child_each; build
  | |- built _ _ _ _ _ (SetText _ _) => eapply built_SetText; build
  | |- built _ _ _ _ _ (if _ then SetText _ _ else _) => eapply built_text_set; build
  end.

(** The next group of attributes or children, in the order in which they were built. *)
Ltac groups := rewrite <- ?app_assoc, ?app_nil_l.
(** The value read so far is written out, since an assignment copies it into every field. *)
Ltac write_out :=
  lazymatch goal with
  | |- fold_each ?f ?l ?v = ?r => let w := eval cbv beta delta [set] in v in let w := eval simpl in w in change (fold_each f l w = r)
  end.
Ltac group tac :=
  lazymatch goal with
  | |- fold_each _ (_ ++ _)%list _ = _ => eapply fold_each_step; [tac|write_out]
  | |- _ => tac
  end.
Tactic Notation "text" constr(p) :=
  group ltac:(apply (read_text _ _ p); [intros; reflexivity|reflexivity]).

(** A time that is always written, and one that is written unless it is zero. *)
Ltac read_the_time :=
  unfold read_attr; simpl; unfold to_pointer, Time_UnmarshalText;
  first [rewrite UnmarshalText_Format by auto|rewrite time_Parse_Format by auto]; reflexivity.
Tactic Notation "instant" := group ltac:(apply read_of; read_the_time).
Tactic Notation "moment" constr(p) := group ltac:(apply (read_time _ _ p); [read_the_time|reflexivity]).
Tactic Notation "required" := group ltac:(apply read_of; reflexivity).
Tactic Notation "each" constr(p) uconstr(h) "by" tactic3(t) :=
  group ltac:(eapply (read_each _ _ p _ _ _ _ _ h); [intros; t|reflexivity..]).
Tactic Notation "optional" constr(p) uconstr(h) "by" tactic3(t) :=
  group ltac:(eapply (read_optional _ _ p _ _ _ _ _ h); [intros; t|reflexivity..]).
Tactic Notation "single" constr(p) "by" tactic3(t) :=
  group ltac:(eapply (read_single _ _ p); [t|reflexivity..]).

(** ** The parts of messages *)

(** The prefixes that the [Element] methods use: those of an assertion, and those of
    any message. *)
Definition saml_scope (ns : NSContext) : Prop := ns !! "saml" = Some assertion_space.
Definition protocol_scope (ns : NSContext) : Prop :=
  saml_scope ns ∧ ns !! "samlp" = Some protocol_space.

Lemma protocol_saml ns : protocol_scope ns → saml_scope ns.
Proof. by intros []. Qed.

Lemma translate_saml ns tag : saml_scope ns → translate ns true "saml" tag = assertion_space.
Proof. intros H. unfold translate. simpl. by rewrite H. Qed.

Lemma translate_samlp ns tag : protocol_scope ns → translate ns true "samlp" tag = protocol_space.
Proof. intros [_ H]. unfold translate. simpl. by rewrite H. Qed.

(** An element whose attributes declare nothing: what is left are its attributes, its
    children and the value. *)
Ltac plain_struct :=
  eapply reads_eq; [eapply reads_struct;
    [build|apply plain_scope; names_tac|first [by apply translate_saml|by apply translate_samlp]|done|groups|groups]|].

Section parts.
Context `{EtreeI : EtreeOps} `{EtreeB : !EtreeBuild}.

Lemma Issuer_reads ns x : saml_scope ns →
  reads Issuer_Unmarshal zero_Issuer ns (Issuer_Element x) assertion_space "Issuer" x.
Proof.
  intros Hns. unfold Issuer_Element. plain_struct.
  - text Issuer_NameQualifier. text Issuer_SPNameQualifier. text Issuer_Format. text Issuer_SPProvidedID.
  - done.
  - by destruct x.
Qed.

Lemma NameID_reads ns x : saml_scope ns →
  reads NameID_Unmarshal zero_NameID ns (NameID_Element x) assertion_space "NameID" x.
Proof.
  intros Hns. unfold NameID_Element. plain_struct.
  - text NameID_NameQualifier. text NameID_SPNameQualifier. text NameID_Format. text NameID_SPProvidedID.
  - done.
  - by destruct x.
Qed.

(** An element with text only. *)
Lemma text_el_built tag v s t : split_name tag = (s, t) → built s t [] [] v (text_el tag v).
Proof. intros H. unfold text_el. apply built_SetText. by apply built_new. Qed.

Lemma text_el_reads ns tag v s t space :
  split_name tag = (s, t) → translate ns true s t = space →
  reads (simple copy_string) "" ns (text_el tag v) space t v.
Proof.
  intros H Hspace. destruct (text_el_built tag v s t H) as [Hs Ht Ha _ Hx]. unfold reads, element_space, xml_scope.
  rewrite Ha. simpl. rewrite Hs, Ht. split_and!; [done..|]. unfold simple. by rewrite Hx.
Qed.

Lemma RequestedAuthnContext_reads ns x : protocol_scope ns →
  reads RequestedAuthnContext_Unmarshal zero_RequestedAuthnContext ns (RequestedAuthnContext_Element x)
    protocol_space "RequestedAuthnContext" x.
Proof.
  intros Hns. pose proof (protocol_saml _ Hns). unfold RequestedAuthnContext_Element. plain_struct.
  - text RequestedAuthnContext_Comparison.
  - each RequestedAuthnContext_AuthnContextClassRefs id by
      (apply (text_el_reads _ _ _ "saml" "AuthnContextClassRef"); [done|by apply translate_saml]).
    each RequestedAuthnContext_AuthnContextDeclRefs id by
      (apply (text_el_reads _ _ _ "saml" "AuthnContextDeclRef"); [done|by apply translate_saml]).
  - rewrite !map_id. by destruct x.
Qed.

(** A format that is empty is not written. *)
Definition NameIDPolicy_read (x : NameIDPolicy) : NameIDPolicy :=
  mkNameIDPolicy (NameIDPolicy_Format x ≫= λ f, if f != "" then Some f else None)
    (NameIDPolicy_SPNameQualifier x) (NameIDPolicy_AllowCreate x).

Lemma copy_bool_FormatBool b : copy_bool (FormatBool b) = Ret b.
Proof. by destruct b; vm_compute. Qed.

Lemma NameIDPolicy_reads ns x : protocol_scope ns →
  reads NameIDPolicy_Unmarshal zero_NameIDPolicy ns (NameIDPolicy_Element x)
    protocol_space "NameIDPolicy" (NameIDPolicy_read x).
Proof.
  intros Hns. unfold NameIDPolicy_Element. plain_struct.
  - group ltac:(instantiate (1 := set NameIDPolicy_Format (NameIDPolicy_Format (NameIDPolicy_read x)) zero_NameIDPolicy)).
    { unfold attrs_text, NameIDPolicy_read. destruct (NameIDPolicy_Format x) as [f|]; simpl; [|done].
      by destruct (f != ""). }
    group ltac:(apply (read_opt _ _ NameIDPolicy_SPNameQualifier _ _ id); [intros; reflexivity|reflexivity]).
    group ltac:(apply (read_opt _ _ NameIDPolicy_AllowCreate _ _ id); [|reflexivity]).
    intros b _. unfold read_attr. simpl. unfold to_pointer. by rewrite copy_bool_FormatBool.
  - done.
  - unfold NameIDPolicy_read. destruct x as [f q c]. simpl. by rewrite !option_fmap_id.
Qed.

Lemma lookup_declared ns prefix uri :
  xml_declare ns (mkAttr "xmlns" prefix uri) !! prefix = Some uri.
Proof. apply lookup_insert_eq. Qed.

Lemma lookup_other ns prefix uri prefix' : prefix ≠ prefix' →
  xml_declare ns (mkAttr "xmlns" prefix uri) !! prefix' = ns !! prefix'.
Proof. apply lookup_insert_ne. Qed.

Lemma SessionIndex_reads ns x : protocol_scope ns →
  reads SessionIndex_Unmarshal zero_SessionIndex ns (SessionIndex_Element x) protocol_space "SessionIndex" x.
Proof.
  intros Hns. unfold SessionIndex_Element. eapply reads_eq; [eapply reads_struct; [build|reflexivity| |done|..]|].
  - change (foldl _ _ _) with (xml_declare ns (mkAttr "xmlns" "samlp" protocol_space)).
    apply translate_samlp. split; [unfold saml_scope; rewrite lookup_other by done; apply Hns|apply lookup_declared].
  - done.
  - done.
  - by destruct x.
Qed.

(** What is left of the times of a confirmation, and of a confirmation. *)
Definition SubjectConfirmationData_read (x : SubjectConfirmationData) : SubjectConfirmationData :=
  mkSubjectConfirmationData (Time_read (SubjectConfirmationData_NotBefore x))
    (Time_read (SubjectConfirmationData_NotOnOrAfter x)) (SubjectConfirmationData_Recipient x)
    (SubjectConfirmationData_InResponseTo x) (SubjectConfirmationData_Address x).

Definition SubjectConfirmation_read (x : SubjectConfirmation) : SubjectConfirmation :=
  mkSubjectConfirmation (SubjectConfirmation_Method x) (SubjectConfirmation_NameID x)
    (SubjectConfirmationData_read <$> SubjectConfirmation_SubjectConfirmationData x).

Definition Subject_read (x : Subject) : Subject :=
  mkSubject (Subject_NameID x) (map SubjectConfirmation_read (Subject_SubjectConfirmations x)).

(** The times that are formatted. *)
Definition SubjectConfirmation_times (x : SubjectConfirmation) : list Time :=
  match SubjectConfirmation_SubjectConfirmationData x with
  | Some d => [SubjectConfirmationData_NotBefore d; SubjectConfirmationData_NotOnOrAfter d]
  | None => []
  end.

Definition Subject_times (x : Subject) : list Time :=
  concat (map SubjectConfirmation_times (Subject_SubjectConfirmations x)).

Lemma SubjectConfirmationData_reads ns x : saml_scope ns →
  four_digit_year (SubjectConfirmationData_NotBefore x) → four_digit_year (SubjectConfirmationData_NotOnOrAfter x) →
  reads SubjectConfirmationData_UnmarshalXML zero_SubjectConfirmationData ns (SubjectConfirmationData_Element x)
    assertion_space "SubjectConfirmationData" (SubjectConfirmationData_read x).
Proof.
  intros Hns Hb Ha. unfold SubjectConfirmationData_Element.
  plain_struct.
  - moment SubjectConfirmationData_NotBefore. moment SubjectConfirmationData_NotOnOrAfter.
    text SubjectConfirmationData_Recipient. text SubjectConfirmationData_InResponseTo.
    text SubjectConfirmationData_Address.
  - done.
  - by destruct x.
Qed.

Lemma SubjectConfirmation_reads ns x : saml_scope ns → Forall four_digit_year (SubjectConfirmation_times x) →
  reads SubjectConfirmation_Unmarshal zero_SubjectConfirmation ns (SubjectConfirmation_Element x)
    assertion_space "SubjectConfirmation" (SubjectConfirmation_read x).
Proof.
  intros Hns Ht. unfold SubjectConfirmation_Element. plain_struct.
  - required.
  - optional SubjectConfirmation_NameID id by (by apply NameID_reads).
    optional SubjectConfirmation_SubjectConfirmationData SubjectConfirmationData_read by
      (unfold SubjectConfirmation_times in Ht; case_match; simplify_eq; rewrite !Forall_cons in Ht;
       destruct_and!; by apply SubjectConfirmationData_reads).
  - unfold SubjectConfirmation_read. destruct x. simpl. by rewrite option_fmap_id.
Qed.

Lemma Forall_concat {A B} (P : B → Prop) (f : A → list B) l x :
  Forall P (concat (map f l)) → x ∈ l → Forall P (f x).
Proof.
  induction l as [|y l IH]; simpl; [by intros _ ?%not_elem_of_nil|].
  rewrite Forall_app. intros [Hy Hl] [->|Hx]%elem_of_cons; auto.
Qed.

Lemma Subject_reads ns x : saml_scope ns → Forall four_digit_year (Subject_times x) →
  reads Subject_Unmarshal zero_Subject ns (Subject_Element x) assertion_space "Subject" (Subject_read x).
Proof.
  intros Hns Ht. unfold Subject_Element. plain_struct.
  - done.
  - optional Subject_NameID id by (by apply NameID_reads).
    each Subject_SubjectConfirmations SubjectConfirmation_read by
      (apply SubjectConfirmation_reads; [done|by eapply Forall_concat]).
  - unfold Subject_read. destruct x. simpl. by rewrite option_fmap_id.
Qed.

Lemma Audience_reads ns x : saml_scope ns →
  reads Audience_Unmarshal zero_Audience ns (Audience_Element x) assertion_space "Audience" x.
Proof. intros Hns. unfold Audience_Element, text_el. plain_struct; [done|done|by destruct x]. Qed.

Lemma AudienceRestriction_reads ns x : saml_scope ns →
  reads AudienceRestriction_Unmarshal zero_AudienceRestriction ns (AudienceRestriction_Element x)
    assertion_space "AudienceRestriction" x.
Proof.
  intros Hns. unfold AudienceRestriction_Element. plain_struct.
  - done.
  - each AudienceRestriction_Audiences id by (by apply Audience_reads).
  - destruct x. simpl. by rewrite map_id.
Qed.

Lemma OneTimeUse_reads ns x : saml_scope ns →
  reads OneTimeUse_Unmarshal mkOneTimeUse ns (OneTimeUse_Element x) assertion_space "OneTimeUse" x.
Proof. intros Hns. unfold OneTimeUse_Element. plain_struct; [done|done|by destruct x]. Qed.

(** Nothing that is written of a proxy restriction is read. *)
Lemma ProxyRestriction_reads ns x : saml_scope ns →
  reads ProxyRestriction_Unmarshal zero_ProxyRestriction ns (ProxyRestriction_Element x)
    assertion_space "ProxyRestriction" zero_ProxyRestriction.
Proof.
  intros Hns. unfold ProxyRestriction_Element. plain_struct.
  - instantiate (1 := zero_ProxyRestriction). by destruct (ProxyRestriction_Count x).
  - instantiate (1 := zero_ProxyRestriction).
    induction (ProxyRestriction_Audiences x) as [|a l IH]; [done|]. cbn [map fold_each].
    destruct (Audience_reads ns a Hns) as (Ht & Hs & _). by rewrite unmarshalPath_find, Ht, Hs.
  - done.
Qed.

Definition Conditions_read (x : Conditions) : Conditions :=
  mkConditions (Time_read (Conditions_NotBefore x)) (Time_read (Conditions_NotOnOrAfter x))
    (Conditions_AudienceRestrictions x) (Conditions_OneTimeUse x)
    ((λ _, zero_ProxyRestriction) <$> Conditions_ProxyRestriction x).

Definition Conditions_times (x : Conditions) : list Time :=
  [Conditions_NotBefore x; Conditions_NotOnOrAfter x].

Lemma Conditions_reads ns x : saml_scope ns → Forall four_digit_year (Conditions_times x) →
  reads Conditions_UnmarshalXML zero_Conditions ns (Conditions_Element x) assertion_space "Conditions"
    (Conditions_read x).
Proof.
  intros Hns Ht. unfold Conditions_times in Ht. rewrite !Forall_cons in Ht. destruct_and!.
  unfold Conditions_Element. plain_struct.
  - moment Conditions_NotBefore. moment Conditions_NotOnOrAfter.
  - each Conditions_AudienceRestrictions id by (by apply AudienceRestriction_reads).
    optional Conditions_OneTimeUse id by (by apply OneTimeUse_reads).
    optional Conditions_ProxyRestriction (λ _, zero_ProxyRestriction) by (by apply ProxyRestriction_reads).
  - destruct x. unfold Conditions_read. simpl. by rewrite map_id, option_fmap_id.
Qed.

Lemma SubjectLocality_reads ns x : saml_scope ns →
  reads SubjectLocality_Unmarshal zero_SubjectLocality ns (SubjectLocality_Element x)
    assertion_space "SubjectLocality" x.
Proof.
  intros Hns. unfold SubjectLocality_Element. plain_struct.
  - text SubjectLocality_Address. text SubjectLocality_DNSName.
  - done.
  - by destruct x.
Qed.

Lemma AuthnContextClassRef_reads ns x : saml_scope ns →
  reads AuthnContextClassRef_Unmarshal zero_AuthnContextClassRef ns (AuthnContextClassRef_Element x)
    assertion_space "AuthnContextClassRef" x.
Proof. intros Hns. unfold AuthnContextClassRef_Element, text_el. plain_struct; [done|done|by destruct x]. Qed.

Lemma AuthnContext_reads ns x : saml_scope ns →
  reads AuthnContext_Unmarshal zero_AuthnContext ns (AuthnContext_Element x) assertion_space "AuthnContext" x.
Proof.
  intros Hns. unfold AuthnContext_Element. plain_struct.
  - done.
  - optional AuthnContext_AuthnContextClassRef id by (by apply AuthnContextClassRef_reads).
  - destruct x. simpl. by rewrite option_fmap_id.
Qed.

Definition AuthnStatement_read (x : AuthnStatement) : AuthnStatement :=
  mkAuthnStatement (Time_read (AuthnStatement_AuthnInstant x)) (AuthnStatement_SessionIndex x)
    (Time_read <$> AuthnStatement_SessionNotOnOrAfter x) (AuthnStatement_SubjectLocality x)
    (AuthnStatement_AuthnContext x).

Definition AuthnStatement_times (x : AuthnStatement) : list Time :=
  AuthnStatement_AuthnInstant x :: option_list (AuthnStatement_SessionNotOnOrAfter x).

Lemma AuthnStatement_reads ns x : saml_scope ns → Forall four_digit_year (AuthnStatement_times x) →
  reads AuthnStatement_UnmarshalXML zero_AuthnStatement ns (AuthnStatement_Element x)
    assertion_space "AuthnStatement" (AuthnStatement_read x).
Proof.
  intros Hns Ht. unfold AuthnStatement_times in Ht. rewrite Forall_cons in Ht. destruct Ht as [Hi Ho].
  unfold AuthnStatement_Element. plain_struct.
  - instant. text AuthnStatement_SessionIndex.
    group ltac:(apply (read_opt _ _ AuthnStatement_SessionNotOnOrAfter _ _ Time_read);
      [intros t Hs; rewrite Hs in Ho; apply Forall_inv in Ho; simpl in Ho; read_the_time|reflexivity]).
  - optional AuthnStatement_SubjectLocality id by (by apply SubjectLocality_reads).
    single AuthnStatement_AuthnContext by (by apply AuthnContext_reads).
  - destruct x. unfold AuthnStatement_read. simpl. by rewrite option_fmap_id.
Qed.

Definition xsi_space := "http://www.w3.org/2001/XMLSchema-instance".

(** The declarations of an attribute value. *)
Definition value_scope (ns : NSContext) : NSContext :=
  xml_declare (xml_declare ns (mkAttr "xmlns" "xsi" xsi_space)) (mkAttr "xmlns" "xs" "http://www.w3.org/2001/XMLSchema").

Lemma value_scope_saml ns : saml_scope ns → saml_scope (value_scope ns).
Proof. intros H. unfold value_scope, saml_scope. by rewrite !lookup_other by done. Qed.

Lemma xsi_type ns value : attr_space (value_scope ns) (mkAttr "xsi" "type" value) = xsi_space.
Proof.
  unfold attr_space, translate. cbn -[lookup value_scope]. unfold value_scope.
  rewrite lookup_other by done. by rewrite lookup_declared.
Qed.

Lemma AttributeValue_reads ns x : saml_scope ns →
  reads AttributeValue_Unmarshal zero_AttributeValue ns (AttributeValue_Element x)
    assertion_space "AttributeValue" x.
Proof.
  intros Hns. pose proof (value_scope_saml _ Hns) as Hvs.
  unfold AttributeValue_Element, declare_xs.
  eapply reads_eq; [eapply (reads_struct _ _ _ (value_scope ns)); [build|..]|].
  - by apply scope_app; [|names_tac].
  - by apply translate_saml.
  - done.
  - groups. required. required.
    group ltac:(apply (read_text _ _ AttributeValue_Type); [intros t|reflexivity]).
    unfold read_attr. cbn [fold_each AttributeValue_fields attr_ns assign_attr chardata child].
    change (split_name "xsi:type").1 with "xsi". change (split_name "xsi:type").2 with "type".
    by rewrite xsi_type.
  - groups. optional AttributeValue_NameID id by (by apply NameID_reads).
  - destruct x. simpl. by rewrite option_fmap_id.
Qed.

Lemma Attribute_reads ns x : saml_scope ns →
  reads Attribute_Unmarshal zero_Attribute ns (Attribute_Element x) assertion_space "Attribute" x.
Proof.
  intros Hns. unfold Attribute_Element. plain_struct.
  - text Attribute_FriendlyName. text Attribute_Name. text Attribute_NameFormat.
  - each Attribute_Values id by (by apply AttributeValue_reads).
  - destruct x. simpl. by rewrite map_id.
Qed.

Lemma AttributeStatement_reads ns x : saml_scope ns →
  reads AttributeStatement_Unmarshal zero_AttributeStatement ns (AttributeStatement_Element x)
    assertion_space "AttributeStatement" x.
Proof.
  intros Hns. unfold AttributeStatement_Element. plain_struct.
  - done.
  - each AttributeStatement_Attributes id by (by apply Attribute_reads).
  - destruct x. simpl. by rewrite map_id.
Qed.

(** ** Status *)

Lemma StatusCode_reads budget ns s : protocol_scope ns → (StatusCode_depth s <= budget)%nat →
  reads (StatusCode_Unmarshal budget) (mkStatusCode "" None) ns (StatusCode_Element s)
    protocol_space "StatusCode" s.
Proof.
  revert ns s. induction budget as [|budget IH]; intros ns [value [c|]] Hns Hd; simpl in Hd; [lia..| |].
  - destruct (IH ns c Hns ltac:(lia)) as (Ht & Hs & Hr). cbn [StatusCode_Element StatusCode_Unmarshal]. plain_struct.
    + required.
    + cbn [fold_each]. rewrite unmarshalPath_find, Ht, Hs. simpl. unfold pointer. simpl. rewrite Hr. reflexivity.
    + done.
  - cbn [StatusCode_Element StatusCode_Unmarshal]. plain_struct; [required|done|done].
Qed.

Lemma StatusMessage_reads ns x : protocol_scope ns →
  reads StatusMessage_Unmarshal zero_StatusMessage ns (StatusMessage_Element x) protocol_space "StatusMessage" x.
Proof. intros Hns. unfold StatusMessage_Element, text_el. plain_struct; [done|done|by destruct x]. Qed.

(** The details have no child of the name of the field. *)
Definition StatusDetail_unread (x : StatusDetail) : Prop :=
  Forall (λ e, Tag e ≠ "Children") (StatusDetail_Children x).

Lemma StatusDetail_reads ns x : protocol_scope ns → StatusDetail_unread x →
  reads StatusDetail_Unmarshal zero_StatusDetail ns (StatusDetail_Element x) protocol_space "StatusDetail"
    zero_StatusDetail.
Proof.
  intros Hns Hx. unfold StatusDetail_Element. plain_struct.
  - done.
  - unfold StatusDetail_unread in Hx. induction Hx as [|e l He _ IH]; [done|].
    cbn [map fold_each]. rewrite unmarshalPath_find.
    enough (H : ∀ space, find_field StatusDetail_fields space (Tag e) = None) by (rewrite H; exact IH).
    intros space. unfold StatusDetail_fields, child. cbn [find_field].
    by rewrite (proj2 (String.eqb_neq "Children" (Tag e))) by congruence.
  - done.
Qed.

Definition Status_read (x : Status) : Status :=
  mkStatus (Status_StatusCode x) (Status_StatusMessage x) ((λ _, zero_StatusDetail) <$> Status_StatusDetail x).

(** A status whose code is not nested deeper than the decoder goes. *)
Definition Status_writable (x : Status) : Prop :=
  (StatusCode_depth (Status_StatusCode x) <= maxUnmarshalDepth - 2)%nat ∧
  ∀ d, Status_StatusDetail x = Some d → StatusDetail_unread d.

Lemma Status_reads ns x : protocol_scope ns → Status_writable x →
  reads Status_Unmarshal zero_Status ns (Status_Element x) protocol_space "Status" (Status_read x).
Proof.
  intros Hns [Hd Hu]. unfold Status_Element. plain_struct.
  - done.
  - single Status_StatusCode by (by apply StatusCode_reads).
    optional Status_StatusMessage id by (by apply StatusMessage_reads).
    optional Status_StatusDetail (λ _, zero_StatusDetail) by (by apply StatusDetail_reads; auto).
  - unfold Status_read. destruct x. simpl. by rewrite option_fmap_id.
Qed.

(** ** Signatures and encrypted assertions *)

(** An element with no child of the name of a field of [etree.Element]. *)
Definition opaque (e : Element) : Prop :=
  Forall (λ c, Tag c ∉ ["Space"; "Tag"; "Attr"; "Child"]) (ChildElements e).

Lemma Element_reads ns e : opaque e → Element_Unmarshal ns e zero_Element = Ret zero_Element.
Proof.
  intros He. unfold Element_Unmarshal, unmarshal_struct. cbn [expect_name]. rewrite ret_bind.
  assert (Ha : ∀ l v, fold_each (read_attr Element_fields (xml_scope ns e)) l v = Ret v).
  { induction l as [|a l IH]; intros v; [done|]. simpl. by rewrite IH. }
  rewrite Ha, ret_bind, read_children. unfold opaque, ChildElements in He.
  induction He as [|c l Hc _ IH]; [done|]. cbn [fold_each]. rewrite unmarshalPath_find.
  enough (H : ∀ space, find_field Element_fields space (Tag c) = None) by (rewrite H; exact IH).
  intros space. unfold Element_fields, child. cbn [find_field].
  assert (Hn : ∀ s, s ∈ ["Space"; "Tag"; "Attr"; "Child"] → (s =? Tag c) = false).
  { intros s Hs. apply String.eqb_neq. by intros ->. }
  by rewrite !Hn by set_solver.
Qed.

(** The signature of a message is an element of that name. *)
Definition signature_ok (signature : option Element) : Prop :=
  ∀ e, signature = Some e → Tag e = "Signature" ∧ opaque e.

Lemma signature_reads ns e : Tag e = "Signature" ∧ opaque e →
  reads Element_Unmarshal zero_Element ns e (element_space (xml_scope ns e) e) "Signature" zero_Element.
Proof. intros [Ht Ho]. split_and!; [done..|by apply Element_reads]. Qed.

Lemma read_signature {A} (F : list (Field A)) ns (proj : A → option Element) `{!Setter proj} o a :
  signature_ok o →
  (∀ space, find_field F space "Signature"
    = Some (λ ns el v, x ← pointer zero_Element Element_Unmarshal ns el (proj v); Ret (set proj x v))) →
  proj a = None → set proj None a = a →
  fold_each (unmarshalPath F ns) (els_opt id o) a = Ret (set proj ((λ _, zero_Element) <$> o) a).
Proof.
  intros Ho Hf H0 H1. apply read_els_opt; [|done]. intros e He.
  eapply read_pointer; [apply signature_reads; by apply Ho|done|apply Hf].
Qed.
End parts.

(** ** The laws hold of the reference instance *)

Lemma char_data_blank c : (∀ t, t ∈ c → token_text t = "") → char_data c = "".
Proof.
  induction c as [|t c IH]; intros H; simpl; [done|]. rewrite IH by (intros; apply H; by right).
  by rewrite (H t) by left.
Qed.

Lemma after_text_suffix c : ∃ l, c = (l ++ after_text c)%list ∧ omap token_element l = [].
Proof.
  induction c as [|t c (l & Hl & He)]; [by exists []|].
  destruct t; simpl; [by exists []| | |by exists []]; eexists (_ :: l); simpl; by rewrite <- Hl.
Qed.

#[export] Instance ref_etree_build : EtreeBuild.
Proof.
  split; try done.
  - intros key value e H. simpl. unfold ref_CreateAttr, ref_RemoveAttr.
    destruct (split_name key) as [space k]. cbn [Attrs set_Attrs].
    enough (filter (λ a, (Attr_Space a, Attr_Key a) ≠ (space, k)) (Attrs e) = Attrs e) as -> by by destruct e.
    revert H. induction (Attrs e) as [|a l IH]; intros H; [done|]. rewrite filter_cons_True by (apply H; by left).
    rewrite IH; [done|]. intros b Hb. apply H. by right.
  - intros text e H. eexists. split; [reflexivity|]. destruct (after_text_suffix (Child e)) as (l & Hl & He).
    simpl. rewrite char_data_blank, append_nil_r.
    + split; [done|]. unfold ChildElements. rewrite Hl at 2. by rewrite omap_app, He.
    + intros t Ht. apply H. rewrite Hl. set_solver.
Qed.
