(* ===== verification/MetadataRoundtrip.v ===== *)
(** * MetadataRoundtrip: a struct that is written by its tags is read back

    The law [RoundTrip] of a type: what [xml_write] makes of a value that satisfies [rt_ok] is
    read as the value again, with the indentation of a printer or without.  [struct_rt] proves
    it for a struct from its tags, [attrs_rt] and [els_rt] describe how far it is read. *)

From stdpp Require Import base option list gmap strings.
From Stdlib Require Import ZArith Lia Ascii.
From S2P Require Import Prelude Go Duration RelaxedTime Encoding Etree Schema Env SchemaXML XmlDecode XmlEncode SchemaDecode.
From S2P Require Import SchemaRoundtrip MetadataCodec.

Open Scope string_scope.

(** ** Text *)

Lemma expand_plain a s : Ascii.eqb a "&" = false → Ascii.eqb a "013" = false →
  expand None (String a s) = String a <$> expand None s.
Proof. cbn [expand]. by intros -> ->. Qed.

Lemma expand_high a s : (N_of_ascii a <? 128)%N = false → expand None (String a s) = String a <$> expand None s.
Proof. intros H. apply expand_plain; destruct (Ascii.eqb_spec a "&"), (Ascii.eqb_spec a "013"); by subst. Qed.

Lemma expand_escape_byte a s : xml_byte a = true →
  expand None (escape_byte a +++ s) = String a <$> expand None s.
Proof. destruct a as [[] [] [] [] [] [] [] []]; intros H; first [done|reflexivity|by destruct (expand None s)]. Qed.

(** The bytes after the first one of a rune. *)
Lemma byte_within_high lo hi b : (128 <= lo)%N → byte_within lo hi b = true → (N_of_ascii b <? 128)%N = false.
Proof. unfold byte_within. intros Hlo. rewrite andb_true_iff, !N.leb_le. intros [? ?]. apply N.ltb_ge. lia. Qed.

Ltac rune_tac :=
  repeat lazymatch goal with H : _ && _ = true |- _ => apply andb_true_iff in H as [? ?] end;
  repeat match goal with
  | H : byte_within _ _ _ = true |- _ => apply byte_within_high in H; [|by repeat case_match]
  end.

Lemma EscapeText_expand s : xml_text s = true → expand None (EscapeText s) = Some s.
Proof.
  remember (String.length s) as n eqn:Hn. revert s Hn.
  induction (lt_wf n) as [n _ IH]. intros [|a r] -> H; [done|].
  cbn [xml_text EscapeText] in *. destruct (N_of_ascii a <? 128)%N eqn:Ha.
  { apply andb_true_iff in H as [Hb H]. rewrite expand_escape_byte by done.
    by rewrite (IH (String.length r)) by (done || simpl; lia). }
  destruct r as [|b r]; [done|]. destruct (rune2 _ b) eqn:H2.
  { unfold rune2 in H2. rune_tac. rewrite !expand_high by done. by rewrite (IH (String.length r)) by (done || simpl; lia). }
  destruct r as [|c r]; [done|]. destruct (rune3 _ b c) eqn:H3.
  { unfold noncharacter in H. apply andb_true_iff in H as [Hc H]. apply negb_true_iff in Hc. rewrite Hc. cbn [String.append].
    unfold rune3 in H3. rune_tac. rewrite !expand_high by done. by rewrite (IH (String.length r)) by (done || simpl; lia). }
  destruct r as [|d r]; [done|]. apply andb_true_iff in H as [H4 H]. rewrite H4.
  unfold rune4 in H4. rune_tac. rewrite !expand_high by done. by rewrite (IH (String.length r)) by (done || simpl; lia).
Qed.

(** A text of characters of XML is read as it was. *)
Lemma EscapeText_read s : xml_text s = true → text_read (EscapeText s) = Some s.
Proof. intros H. unfold text_read. rewrite EscapeText_expand by done. simpl. by rewrite H. Qed.

Lemma printed_attr_printable a : xml_text (Attr_Value a) = true → printed_attr a = Some a.
Proof. intros H. unfold printed_attr. rewrite EscapeText_read by done. by destruct a. Qed.

Lemma printable_as_read e : printable e = true → as_read e = Some e.
Proof.
  induction e as [s t a c IH] using element_tree_ind. cbn [printable as_read Space Tag Attrs Child].
  intros [Ha Hc]%andb_true_iff.
  assert (Hm : mapM printed_attr a = Some a).
  { clear -Ha. induction a as [|x a IH]; [done|]. cbn [forallb] in Ha. apply andb_true_iff in Ha as [Hx Ha].
    cbn [mapM]. rewrite printed_attr_printable by done. simpl. by rewrite IH. }
  rewrite Hm. cbn [mbind option_bind].
  match goal with |- (?go c ≫= _) = _ => assert (Hg : go c = Some c); [|by rewrite Hg] end.
  clear -Hc IH. induction IH as [|[x|x|x|x] c Hx IH IHc]; [done| | |done..]; apply andb_true_iff in Hc as [Hp Hc].
  - simpl in Hx. rewrite Hx by done. simpl. by rewrite IHc.
  - rewrite EscapeText_read by done. simpl. by rewrite IHc.
Qed.

Lemma printed_printable l e : printable e = true → printed l e = Some (laid_out l e).
Proof. intros H. unfold printed. by rewrite printable_as_read. Qed.

(** ** Indentation *)

Lemma has_elements_omap c : has_elements c = negb (bool_decide (omap token_element c = [])).
Proof. induction c as [|[] c IH]; simpl; done. Qed.

Lemma text_tokens_els s : omap token_element (text_tokens s) = [].
Proof. unfold text_tokens. by case_match. Qed.

Lemma lay_out_els f text c : omap token_element (lay_out f text c) = map f (omap token_element c).
Proof.
  induction c as [|[] c IH]; cbn; [done| |done..]. by rewrite omap_app, text_tokens_els, <- IH.
Qed.

Lemma lay_out_plain f text c : omap token_element c = [] → lay_out f text c = c.
Proof. induction c as [|[] c IH]; cbn; intros H; [done..| | |]; f_equal; by apply IH. Qed.

Lemma laid_out_els l e : ChildElements (laid_out l e) = map (laid_out (deeper l)) (ChildElements e).
Proof.
  destruct e as [s t a c]. unfold ChildElements. cbn [Child laid_out set_Child]. rewrite omap_app, lay_out_els.
  case_match; [by rewrite text_tokens_els, app_nil_r|by rewrite app_nil_r].
Qed.

Lemma laid_out_plain l e : ChildElements e = [] → laid_out l e = e.
Proof.
  destruct e as [s t a c]. unfold ChildElements. cbn [Child laid_out set_Child]. intros H.
  rewrite has_elements_omap, bool_decide_eq_true_2, lay_out_plain by done. by rewrite app_nil_r.
Qed.

Lemma laid_out_scope l e ns : xml_scope ns (laid_out l e) = xml_scope ns e.
Proof. by destruct e. Qed.

Lemma laid_out_space l e ns : element_space ns (laid_out l e) = element_space ns e.
Proof. by destruct e. Qed.

Lemma laid_out_Tag l e : Tag (laid_out l e) = Tag e.
Proof. by destruct e. Qed.

Lemma laid_out_Attrs l e : Attrs (laid_out l e) = Attrs e.
Proof. by destruct e. Qed.

Lemma char_data_text s : char_data (text_tokens s) = s.
Proof. unfold text_tokens. case_bool_decide; subst; simpl; [done|]. by rewrite append_nil_r. Qed.

(** ** The law *)

(** No prefix is the URI of the prefix xml. *)
Definition scope_ok (ns : NSContext) : Prop := ns !! XMLNamespace = None.

(** The decoder gets an element from the text of [e], with the indentation of a printer or
    without, and reads it as [m], if all texts of [e] are of characters of XML. *)
Definition reads_back {M} (read : Reader M) (zero m : M) (e : Element) : Prop :=
  printable e = true → ∀ l, ∃ e', printed l e = Some e' ∧ ∀ ns, scope_ok ns → read ns e' zero = Ret m.

Lemma laid_out_reads_back {M} (read : Reader M) (zero m : M) e :
  (∀ ns l, scope_ok ns → read ns (laid_out l e) zero = Ret m) → reads_back read zero m e.
Proof. intros H Hp l. exists (laid_out l e). split; [by apply printed_printable|]. intros ns Hns. by apply H. Qed.

Definition named (n : option XMLName) (local : string) : Prop :=
  (local =? "xmlns") = false ∧ match n with None => True | Some n => XMLName_Local n = local end.
Definition name_space (n : option XMLName) (space : string) : string :=
  match n with None => space | Some n => XMLName_Space n end.

Record writes_back {F} `{XmlT : !XmlType F} (space local : string) (x : F) (e : Element) : Prop := {
  wb_write : xml_write space local x = Ret e;
  wb_tag : Tag e = local;
  wb_space ns : name_space xml_name space ≠ "" → element_space (xml_scope ns e) e = name_space xml_name space;
  wb_read ns l : scope_ok ns → xml_read ns (laid_out l e) xml_zero = Ret x
}.

Class RoundTrip (F : Type) `{XmlT : !XmlType F} := {
  rt_ok : F → Prop;
  rt space local x : named xml_name local → rt_ok x → ∃ e, writes_back space local x e
}.

Class AttrLaw {F} (k : AttrKind F) := {
  attr_ok : F → Prop;
  attr_law x : attr_ok x → ∃ o, attr_write k x = Ret o ∧
    match o with Some s => attr_read k s = Ret x | None => x = attr_zero k end
}.

(** ** Attributes *)

#[export] Program Instance string_attr_law : AttrLaw string_attr := {| attr_ok _ := True |}.
Next Obligation. intros x _. by eexists. Qed.

#[export] Program Instance omitempty_attr_law : AttrLaw omitempty_attr := {| attr_ok _ := True |}.
Next Obligation.
  intros x _. eexists. split; [done|]. unfold nonempty. by case_bool_decide.
Qed.

#[export] Program Instance bool_attr_law : AttrLaw bool_attr := {| attr_ok _ := True |}.
Next Obligation. intros x _. eexists. split; [done|]. apply copy_bool_FormatBool. Qed.

(** A pointer is set again if its value has a text. *)
#[export] Program Instance pointer_attr_law {F} (k : AttrKind F) `{L : !AttrLaw k} : AttrLaw (pointer_attr k) := {|
  attr_ok o := ∀ x, o = Some x → attr_ok x ∧ ∃ s, attr_write k x = Ret (Some s)
|}.
Next Obligation.
  intros F k L [x|] H; simpl; [|by exists None]. destruct (H x eq_refl) as (Hx & s & Hs).
  exists (Some s). split; [done|]. destruct (attr_law x Hx) as (o & Ho & Hr). rewrite Hs in Ho. injection Ho as <-.
  unfold to_pointer. by rewrite Hr.
Qed.

Lemma itoa_digits n : (0 <= n)%Z → all_bytes is_digit (itoa n) = true.
Proof. intros H. rewrite itoa_pos by done. by induction (N.to_uint (Z.to_N n)). Qed.

Lemma sign_of_digits {A} c (plus minus other : A) : is_digit c = true →
  match c with "+"%char => plus | "-"%char => minus | _ => other end = other.
Proof. by destruct c as [[] [] [] [] [] [] [] []]. Qed.

Lemma copy_int_itoa n : (0 <= n < 2 ^ 63)%Z → copy_int (itoa n) = Ret n.
Proof.
  intros Hn. unfold copy_int. rewrite itoa_nonempty by lia.
  rewrite (TrimSpace_text is_digit (itoa n)); [|by vm_compute|by vm_compute|apply itoa_digits; lia].
  pose proof (itoa_digits n ltac:(lia)) as Hd. pose proof (span_digits_itoa n ltac:(lia) "" eq_refl) as Hs.
  pose proof (digits_value_itoa n ltac:(lia)) as Hv. rewrite append_nil_r in Hs. pose proof (itoa_nonempty n ltac:(lia)) as H0.
  unfold ParseInt. destruct (itoa n) as [|c s] eqn:E; [done|]. simpl in Hd. apply andb_true_iff in Hd as [Hc _].
  rewrite <- E in Hs, Hv, H0 |- *.
  rewrite sign_of_digits by done.
  rewrite Hs, H0. simpl. rewrite Hv. replace (in_int64 n) with true; [done|]. unfold in_int64. symmetry. lia.
Qed.

#[export] Program Instance int_attr_law : AttrLaw int_attr := {| attr_ok z := (0 <= z < 2 ^ 63)%Z |}.
Next Obligation.
  intros z Hz. eexists. split; [done|]. by apply copy_int_itoa.
Qed.

#[export] Program Instance time_attr_law : AttrLaw time_attr := {| attr_ok := four_digit_year |}.
Next Obligation.
  intros t (s & Hs & Hr)%Time_MarshalText_read. exists (Some s). simpl. by rewrite Hs.
Qed.

Definition whole_milliseconds (t : Time) : Prop := four_digit_year t ∧ (t mod Millisecond = 0)%Z.
Definition whole_seconds (d : Duration) : Prop := (- 2 ^ 63 < d < 2 ^ 63)%Z ∧ (Z.rem d Second = 0)%Z.

#[export] Program Instance relaxed_attr_law : AttrLaw relaxed_attr := {| attr_ok := whole_milliseconds |}.
Next Obligation.
  intros t [Ht Hm]. eexists. split; [done|]. simpl. unfold RelaxedTime_String.
  destruct (Time_Round_spec t Millisecond) as (_ & _ & He); [done|]. rewrite He by done.
  rewrite UnmarshalText_Format by done. f_equal. lia.
Qed.

#[export] Program Instance duration_attr_law : AttrLaw duration_attr := {|
  attr_ok d := whole_seconds d ∧ d ≠ 0%Z
|}.
Next Obligation.
  intros d [[Hd Hs] H0]. pose proof (Duration_roundtrip d Hd Hs) as H. simpl.
  destruct (MarshalText d) as [[s|]|e|] eqn:Hm; simpl in *; [|by injection H as <-|done..].
  by exists (Some s).
Qed.

#[export] Program Instance omitempty_duration_attr_law : AttrLaw omitempty_duration_attr := {|
  attr_ok := whole_seconds
|}.
Next Obligation.
  intros d Hd. unfold omitempty_duration_attr. cbn [attr_write attr_read attr_zero].
  destruct (Z.eqb_spec d 0) as [->|Hn]; [by exists None|]. by apply (attr_law (AttrLaw := duration_attr_law)).
Qed.

#[export] Program Instance XSDDuration_attr_law : AttrLaw XSDDuration_attr := {|
  attr_ok d := d = "" ∨ ∃ z, UnmarshalText (Some d) = Ret z
|}.
Next Obligation.
  intros d Hd. eexists. split; [done|]. simpl. unfold XSDDuration_MarshalXMLAttr. case_bool_decide as E; [done|].
  destruct Hd as [?|[z Hz]]; [done|]. unfold XSDDuration_UnmarshalText. by rewrite Hz.
Qed.

(** ** Structs *)

Section struct.
Context {A : Type} (F : list (Field A)) (x : A).

(** The attributes that some tags write are read from [a] into [b]. *)
Definition attrs_rt (tags : list (Tagged A)) (a b : A) : Prop :=
  ∃ attrs, out_attrs (map tag_out tags) x = Ret attrs ∧ plain attrs ∧
    ∀ ns, scope_ok ns → fold_each (read_attr F ns) attrs a = Ret b.

(** The tokens that some tags write: only text if [text] is given. *)
Definition els_rt (tags : list (Tagged A)) (a b : A) (text : option string) : Prop :=
  ∃ c, out_tokens (map tag_out tags) x = Ret c ∧
    (∀ t, text = Some t → omap token_element c = [] ∧ char_data c = t) ∧
    ∀ ns l, scope_ok ns → fold_each (unmarshalPath F ns) (map (laid_out l) (omap token_element c)) a = Ret b.

Lemma attrs_rt_nil a : attrs_rt [] a a.
Proof. exists []. split_and!; [done|constructor|done]. Qed.

Lemma els_rt_nil a text : text = Some "" ∨ text = None → els_rt [] a a text.
Proof. intros Ht. exists []. split_and!; [done|intros t ->; naive_solver|done]. Qed.

(** The fields of a name that an attribute is assigned to. *)
Fixpoint attr_assigns (fields : list (Field A)) (space name : string) : list (string → A → outcome A) :=
  match fields with
  | [] => []
  | FAttr xmlns n assign :: fields =>
      if (name =? n) && ((xmlns =? "") || (xmlns =? space)) then assign :: attr_assigns fields space name
      else attr_assigns fields space name
  | _ :: fields => attr_assigns fields space name
  end.

Lemma read_attr_assigns ns at' a :
  read_attr F ns at' a
  = fold_each (λ assign, assign (Attr_Value at')) (attr_assigns F (attr_space ns at') (Attr_Key at')) a.
Proof.
  unfold read_attr. revert a. induction F as [|[xmlns n assign| |] fs IH]; intros a; simpl; [done| |apply IH..].
  destruct (_ && _); simpl; [|apply IH]. destruct (assign (Attr_Value at') a); simpl; [apply IH|done..].
Qed.

(** The name of an attribute that declares nothing: of no name space, or of that of xml. *)
Definition plain_tag (space name : string) : Prop :=
  space = "" ∧ (name =? "xmlns") = false ∨ space = XMLNamespace.

Lemma plain_tag_attr space name s : plain_tag space name →
  marshal_attr space name s = [mkAttr (if space == "" then "" else xmlPrefix) name s] ∧
  plain (marshal_attr space name s).
Proof.
  intros [[-> Hn]| ->]; unfold marshal_attr; simpl; (split; [done|]); repeat constructor.
  unfold plain_name. simpl. by rewrite Hn.
Qed.

Lemma plain_tag_space space name s ns : plain_tag space name → scope_ok ns →
  attr_space ns (mkAttr (if space == "" then "" else xmlPrefix) name s) = space.
Proof.
  intros [[-> _]| ->] Hns; [done|]. unfold attr_space, translate. simpl. by rewrite Hns.
Qed.

Lemma attrs_rt_tag {C} space (proj : A → C) `{!Setter proj} name k `{!AttrLaw k} tags a b :
  attr_ok (proj x) → plain_tag space name →
  attr_assigns F space name = [λ s v, y ← attr_read k s; Ret (set proj y v)] →
  set proj (attr_zero k) a = a →
  attrs_rt tags (set proj (proj x) a) b →
  attrs_rt (tag_attr_ns space name proj k :: tags) a b.
Proof.
  intros Hok Hname HF H0 (attrs & Ha & Hp & Hr). destruct (attr_law _ Hok) as (o & Ho & Hread).
  exists (match o with Some s => marshal_attr space name s ++ attrs | None => attrs end)%list.
  simpl. rewrite Ho. simpl. rewrite Ha. split_and!.
  - by destruct o.
  - destruct o; [|done]. apply names_app; [|done]. by apply plain_tag_attr.
  - intros ns Hns. destruct o as [s|]; [|rewrite <- (Hr ns Hns); congruence].
    eapply fold_each_step; [|by apply Hr]. destruct (plain_tag_attr space name s Hname) as [-> _]. simpl.
    rewrite read_attr_assigns. cbn [Attr_Key]. rewrite plain_tag_space, HF by done. simpl. by rewrite Hread.
Qed.

Lemma attrs_rt_skip f tags a b :
  match tag_out f with OAttr _ => False | _ => True end → attrs_rt tags a b → attrs_rt (f :: tags) a b.
Proof. intros Hf (attrs & Ha & Hr). exists attrs. simpl. by destruct (tag_out f). Qed.

Lemma els_rt_skip f tags a b text :
  match tag_out f with OAttr _ => True | _ => False end → els_rt tags a b text → els_rt (f :: tags) a b text.
Proof. intros Hf (c & Hc & Hr). exists c. simpl. by destruct (tag_out f). Qed.

Lemma els_rt_chardata (proj : A → string) `{!Setter proj} tags a b text :
  els_rt tags a b (Some text) → els_rt (tag_chardata proj :: tags) a b (Some (proj x +++ text)).
Proof.
  intros (c & Hc & Ht & Hr). exists (text_tokens (proj x) ++ c)%list. simpl. rewrite Hc.
  rewrite omap_app, text_tokens_els. split_and!; [done| |done]. intros t [= <-].
  destruct (Ht text eq_refl) as [-> <-]. by rewrite char_data_app, char_data_text.
Qed.

(** Elements that a tag writes before the tokens of the others. *)
Lemma els_rt_elements (f : A → outcome (list Element)) field els tags a a' b text :
  f x = Ret els →
  (∀ ns l, scope_ok ns → fold_each (unmarshalPath F ns) (map (laid_out l) els) a = Ret a') →
  (els = [] ∨ text = None) →
  els_rt tags a' b text → els_rt (mkTagged field (OElement f) :: tags) a b text.
Proof.
  intros Hf Hread Hels (c & Hc & Ht & Hr). exists (map TElement els ++ c)%list. simpl. rewrite Hf. simpl. rewrite Hc.
  assert (Ho : omap token_element (map TElement els) = els) 
    by (clear; induction els as [|e l IH]; [done|by cbn; f_equal; apply IH]).
  rewrite omap_app, Ho. split_and!; [done| |].
  - intros t ->. destruct Hels as [->|]; [by apply Ht|done].
  - intros ns l Hns. rewrite map_app. eapply fold_each_step; [by apply Hread|by apply Hr].
Qed.

Section element.
Context {C : Type} `{R : RoundTrip C} (space name : string) (Hn : named xml_name name).

(** The elements of a name are read by a reader of the type, whatever their name space. *)
Definition read_by (assign : NSContext → Element → A → outcome A) : Prop :=
  ∀ sp, (name_space xml_name space ≠ "" → sp = name_space xml_name space) → find_field F sp name = Some assign.

Lemma read_by_path assign y e ns l a : read_by assign → writes_back space name y e → scope_ok ns →
  unmarshalPath F ns (laid_out l e) a = assign ns (laid_out l e) a.
Proof.
  intros Ha [_ Ht Hs _] Hns. rewrite unmarshalPath_find, laid_out_Tag, Ht, laid_out_scope, laid_out_space.
  by rewrite (Ha _ (Hs ns)).
Qed.

Lemma els_rt_value (proj : A → C) `{!Setter proj} tags a b :
  rt_ok (proj x) → read_by (λ ns el v, y ← xml_read ns el (proj v); Ret (set proj y v)) →
  proj a = xml_zero → els_rt tags (set proj (proj x) a) b None →
  els_rt (tag_value space name proj :: tags) a b None.
Proof.
  intros Hok HF H0 Hrest. destruct (rt space name (proj x) Hn Hok) as [e He].
  eapply els_rt_elements; [simpl; by rewrite (wb_write _ _ _ _ He)| |by right|exact Hrest].
  intros ns l Hns. simpl. rewrite (read_by_path _ _ _ _ _ _ HF He Hns). rewrite H0, (wb_read _ _ _ _ He) by done. done.
Qed.

Lemma els_rt_pointer (proj : A → option C) `{!Setter proj} tags a b text :
  (∀ y, proj x = Some y → rt_ok y) →
  read_by (λ ns el v, y ← pointer xml_zero xml_read ns el (proj v); Ret (set proj y v)) →
  proj a = None → set proj None a = a → (proj x = None ∨ text = None) →
  els_rt tags (set proj (proj x) a) b text →
  els_rt (tag_pointer space name proj :: tags) a b text.
Proof.
  intros Hok HF H0 Hset Htext Hrest. destruct (proj x) as [y|] eqn:Hy.
  - destruct (rt space name y Hn (Hok y eq_refl)) as [e He].
    eapply els_rt_elements; [simpl; by rewrite Hy, (wb_write _ _ _ _ He)| |right; naive_solver|exact Hrest].
    intros ns l Hns. simpl. rewrite (read_by_path _ _ _ _ _ _ HF He Hns). unfold pointer. rewrite H0. simpl.
    by rewrite (wb_read _ _ _ _ He).
  - eapply els_rt_elements; [simpl; by rewrite Hy| |by left|exact Hrest]. simpl. by rewrite Hset.
Qed.

Lemma els_rt_slice (proj : A → list C) `{!Setter proj} tags a b :
  Forall rt_ok (proj x) →
  read_by (λ ns el v, y ← slice xml_zero xml_read ns el (proj v); Ret (set proj y v)) →
  (∀ y, proj (set proj y a) = y) → (∀ y z, set proj z (set proj y a) = set proj z a) → set proj [] a = a →
  els_rt tags (set proj (proj x) a) b None →
  els_rt (tag_slice space name proj :: tags) a b None.
Proof.
  intros Hok HF Hget Hset H0 Hrest.
  assert (∃ els, map_each (xml_write space name) (proj x) = Ret els ∧ Forall2 (writes_back space name) (proj x) els)
    as (els & Hw & Hels).
  { revert Hok. generalize (proj x) as l. intros l Hok. clear -Hok Hn. induction Hok as [|y l Hy _ (els & H1 & H2)].
    - exists []. split; [done|constructor].
    - destruct (rt space name y Hn Hy) as [e He]. exists (e :: els). simpl. rewrite (wb_write _ _ _ _ He). simpl.
      rewrite H1. split; [done|by constructor]. }
  eapply els_rt_elements; [exact Hw| |by right|exact Hrest]. intros ns l Hns. rewrite <- H0 at 1. clear Hrest Hw Hok.
  enough (∀ acc, fold_each (unmarshalPath F ns) (map (laid_out l) els) (set proj acc a)
                 = Ret (set proj (acc ++ proj x)%list a)) by naive_solver.
  induction Hels as [|y e ys els He _ IH]; intros acc; simpl; [by rewrite app_nil_r|].
  rewrite (read_by_path _ _ _ _ _ _ HF He Hns). rewrite Hget. unfold slice at 1. rewrite (wb_read _ _ _ _ He) by done. simpl.
  rewrite Hset, IH. by rewrite <- app_assoc.
Qed.
End element.
End struct.

(** The default name space that a start tag declares. *)
Lemma start_scope sp attrs ns : plain attrs →
  foldl xml_declare ns (start_attrs sp ++ attrs) = if sp == "" then ns else <["" := sp]> ns.
Proof. intros H. apply scope_app; [|done]. unfold start_attrs. by destruct (bool_decide _). Qed.

Lemma start_space sp attrs local els c ns : plain attrs → (local =? "xmlns") = false → sp ≠ "" →
  element_space (foldl xml_declare ns (start_attrs sp ++ attrs)) (mkElement "" local els c) = sp.
Proof.
  intros Ha Hl Hsp. rewrite start_scope, bool_decide_eq_false_2 by done.
  unfold element_space, translate. cbn [Space Tag String.eqb andb negb orb xmlnsPrefix xmlPrefix Ascii.eqb Bool.eqb].
  change xmlnsPrefix with "xmlns". rewrite Hl. by rewrite (lookup_insert_eq (M := gmap string) ns).
Qed.

(** A struct is read back if its attributes, then its elements and then its text give the
    value again. *)
Lemma struct_rt {A} n (F : list (Field A)) (tags : list (Tagged A)) zero space local x va vl text :
  named n local → attr_assigns F "" "xmlns" = [] →
  attrs_rt F x tags zero va →
  els_rt F x tags va vl text →
  match text with
  | Some t => assign_chardata F t vl = x
  | None => ∀ t, assign_chardata F t vl = x
  end →
  ∃ e, writes_back (XmlT := struct_codec n F tags zero) space local x e.
Proof.
  intros [Hlocal Hn] Hxmlns (attrs & Ha & Hp & Hva) (c & Hc & Htext & Hvl) Hx.
  set (sp := name_space n space). exists (mkElement "" local (start_attrs sp ++ attrs) c).
  split.
  - simpl. unfold marshal_struct.
    replace (match n with Some n => _ | None => _ end) with (sp, local) by (unfold sp; destruct n; simpl in *; by subst).
    by rewrite Ha, Hc.
  - done.
  - intros ns Hsp. simpl in Hsp. by apply start_space.
  - intros ns l Hns. cbn [xml_read xml_zero struct_codec]. unfold unmarshal_struct. rewrite laid_out_scope, laid_out_Attrs. unfold xml_scope.
    cbn [Attrs]. set (ns' := foldl xml_declare ns (start_attrs sp ++ attrs)).
    assert (Hns' : scope_ok ns').
    { unfold ns'. rewrite start_scope; [|eassumption..]. destruct (bool_decide (sp = "")); [done|].
      etrans; [by apply (lookup_insert_ne (M := gmap string))|done]. }
    assert (He : expect_name n ns' (laid_out l (mkElement "" local (start_attrs sp ++ attrs) c)) = Ret ()).
    { destruct n as [n|]; [|done]. unfold expect_name. rewrite laid_out_space, laid_out_Tag. cbn [Tag].
      simpl in Hn. rewrite Hn, String.eqb_refl, andb_false_r. simpl.
      destruct (String.eqb_spec (XMLName_Space n) "") as [|Hsp]; [done|]. simpl.
      unfold ns'. rewrite start_space by done. unfold sp. simpl. by rewrite String.eqb_refl. }
    rewrite He, ret_bind. rewrite (fold_each_step _ (start_attrs sp) attrs zero zero (Ret va)); [| |by apply Hva].
    2: { unfold start_attrs. destruct (bool_decide (sp = "")); [done|]. cbn [fold_each]. rewrite read_attr_assigns.
         change (attr_space _ _) with "". cbn [Attr_Key]. by rewrite Hxmlns. }
    rewrite ret_bind, read_children. fold (ChildElements (laid_out l (mkElement "" local (start_attrs sp ++ attrs) c))).
    rewrite laid_out_els. unfold ChildElements. cbn [Child]. rewrite Hvl, ret_bind by done. f_equal.
    destruct text as [t|]; [|by apply Hx]. destruct (Htext t eq_refl) as [Hc0 Ht].
    rewrite laid_out_plain by done. cbn [Child]. by rewrite Ht.
Qed.

(** ** Automation *)

(** The value read so far is written out, since an assignment copies it into every field. *)
Ltac rt_write_out :=
  lazymatch goal with
  | |- attrs_rt ?F ?x ?tags ?v ?b =>
      let w := eval cbv beta delta [set compose_setter id_setter compose id] in v in
      let w := eval simpl in w in change (attrs_rt F x tags w b)
  | |- els_rt ?F ?x ?tags ?v ?b ?t =>
      let w := eval cbv beta delta [set compose_setter id_setter compose id] in v in
      let w := eval simpl in w in change (els_rt F x tags w b t)
  end.

Ltac rt_read_by :=
  let H := fresh in intros ? H; first [reflexivity | rewrite (H ltac:(done)); reflexivity].

Ltac attrs_tac ok :=
  lazymatch goal with
  | |- attrs_rt ?F ?x ?tags ?a ?b =>
      let t := eval hnf in tags in
      lazymatch t with
      | [] => apply attrs_rt_nil
      | ?f :: ?fs =>
          change (attrs_rt F x (f :: fs) a b);
          first
            [ apply attrs_rt_skip; [exact I|attrs_tac ok]
            | eapply attrs_rt_tag;
                [ok | first [left; split; reflexivity | right; reflexivity] | reflexivity | reflexivity
                | rt_write_out; attrs_tac ok] ]
      end
  end.

Ltac els_tac ok :=
  lazymatch goal with
  | |- els_rt ?F ?x ?tags ?a ?b ?text =>
      let t := eval hnf in tags in
      lazymatch t with
      | [] => apply els_rt_nil; (left; reflexivity) || (right; reflexivity)
      | ?f :: ?fs =>
          change (els_rt F x (f :: fs) a b text);
          first
            [ apply els_rt_skip; [exact I|els_tac ok]
            | eapply els_rt_chardata; els_tac ok
            | eapply els_rt_value; [by split|ok|rt_read_by|reflexivity|rt_write_out; els_tac ok]
            | eapply els_rt_pointer;
                [by split|ok|rt_read_by|reflexivity|reflexivity|right; reflexivity|rt_write_out; els_tac ok]
            | eapply els_rt_slice;
                [by split|ok|rt_read_by|intros; reflexivity|intros; reflexivity|reflexivity
                |rt_write_out; els_tac ok] ]
      end
  end.

(** What the conditions of a value say of its parts. *)
Ltac rt_solve :=
  first [exact I | assumption | by (intros; exact I) | by (apply Forall_forall; intros; exact I)
    | by (intros ? ?; split; [done|eexists]) | naive_solver].

(** A struct whose text is that of one field, and one that has elements. *)
Ltac text_struct_tac ok :=
  eapply (struct_rt _ _ _ _ _ _ _ _ _ (Some _));
    [eassumption | reflexivity | attrs_tac ok | els_tac ok | cbv beta iota].
Ltac struct_tac ok :=
  eapply (struct_rt _ _ _ _ _ _ _ _ _ None);
    [eassumption | reflexivity | attrs_tac ok | els_tac ok | intros; cbv beta iota].

(** ** Strings *)

Lemma string_written space local s : (local =? "xmlns") = false →
  writes_back space local s (mkElement "" local (start_attrs space) (text_tokens s)).
Proof.
  intros Hlocal. split; [done|done| |].
  - intros ns Hsp. unfold xml_scope. cbn [Attrs]. rewrite <- (app_nil_r (start_attrs space)).
    apply start_space; [constructor|done..].
  - intros ns l _. rewrite laid_out_plain by apply text_tokens_els. change (copy_string (char_data (text_tokens s)) = Ret s). by rewrite char_data_text.
Qed.

#[export] Program Instance string_rt : RoundTrip string := {| rt_ok _ := True |}.
Next Obligation. intros space local s [Hlocal _] _. eexists. by apply string_written. Qed.

(** ** The structs of metadata *)

#[export] Program Instance LocalizedName_rt : RoundTrip LocalizedName := {| rt_ok _ := True |}.
Next Obligation. intros space local x Hn _. text_struct_tac rt_solve. destruct x. simpl. by rewrite append_nil_r. Qed.

#[export] Program Instance LocalizedURI_rt : RoundTrip LocalizedURI := {| rt_ok _ := True |}.
Next Obligation. intros space local x Hn _. text_struct_tac rt_solve. destruct x. simpl. by rewrite append_nil_r. Qed.

#[export] Program Instance Organization_rt : RoundTrip Organization := {| rt_ok _ := True |}.
Next Obligation. intros space local x Hn _. struct_tac rt_solve. by destruct x. Qed.

#[export] Program Instance ContactPerson_rt : RoundTrip ContactPerson := {| rt_ok _ := True |}.
Next Obligation. intros space local x Hn _. struct_tac rt_solve. by destruct x. Qed.

#[export] Program Instance EncryptionMethod_rt : RoundTrip EncryptionMethod := {| rt_ok _ := True |}.
Next Obligation. intros space local x Hn _. struct_tac rt_solve. by destruct x. Qed.

#[export] Program Instance X509Certificate_rt : RoundTrip X509Certificate := {| rt_ok _ := True |}.
Next Obligation. intros space local x Hn _. text_struct_tac rt_solve. destruct x. simpl. by rewrite append_nil_r. Qed.

#[export] Program Instance X509Data_rt : RoundTrip X509Data := {| rt_ok _ := True |}.
Next Obligation. intros space local x Hn _. struct_tac rt_solve. by destruct x. Qed.

#[export] Program Instance KeyInfo_rt : RoundTrip KeyInfo := {| rt_ok _ := True |}.
Next Obligation. intros space local x Hn _. struct_tac rt_solve. by destruct x. Qed.

#[export] Program Instance KeyDescriptor_rt : RoundTrip KeyDescriptor := {| rt_ok _ := True |}.
Next Obligation. intros space local x Hn _. struct_tac rt_solve. by destruct x. Qed.

#[export] Program Instance NameID_rt : RoundTrip NameID := {| rt_ok _ := True |}.
Next Obligation. intros space local x Hn _. text_struct_tac rt_solve. destruct x. simpl. by rewrite append_nil_r. Qed.

(** ** Attributes

    The attribute xsi:type declares its prefix, which is that of [createAttrPrefix].  An
    indented value with a [NameID] gets the indentation as part of its text. *)
Definition value_attrs (type : string) : list Attr :=
  [mkAttr "xmlns" "_XMLSchema-instance" xsi_space; mkAttr "_XMLSchema-instance" "type" type].

Definition xsi_scope (space : string) (ns : NSContext) : NSContext :=
  xml_declare (foldl xml_declare ns (start_attrs space)) (mkAttr "xmlns" "_XMLSchema-instance" xsi_space).

Lemma value_attrs_scope space type ns :
  foldl xml_declare ns (start_attrs space ++ value_attrs type) = xsi_scope space ns.
Proof. by rewrite foldl_app. Qed.

Lemma xsi_scope_type space type ns :
  attr_space (xsi_scope space ns) (mkAttr "_XMLSchema-instance" "type" type) = xsi_space.
Proof. unfold attr_space, translate. cbn -[lookup xsi_scope]. unfold xsi_scope. by rewrite lookup_declared. Qed.

Lemma AttributeValue_written space local x : (local =? "xmlns") = false → AttributeValue_NameID x = None →
  writes_back space local x
    (mkElement "" local (start_attrs space ++ value_attrs (AttributeValue_Type x)) (text_tokens (AttributeValue_Value x))).
Proof.
  intros Hlocal Hx. split.
  - simpl. unfold marshal_struct. simpl. rewrite Hx. simpl. by rewrite app_nil_r.
  - done.
  - intros ns Hsp. simpl in Hsp. unfold xml_scope. cbn [Attrs]. rewrite value_attrs_scope. unfold xsi_scope.
    unfold element_space, translate. cbn [Space Tag String.eqb andb negb orb xmlnsPrefix xmlPrefix Ascii.eqb Bool.eqb].
    change xmlnsPrefix with "xmlns". rewrite Hlocal, lookup_other by done.
    unfold start_attrs. rewrite bool_decide_eq_false_2 by done.
    change (default "" (<["" := space]> ns !! "") = space). by rewrite (lookup_insert_eq (M := gmap string) ns).
  - intros ns l _. rewrite laid_out_plain by apply text_tokens_els. cbn [xml_read struct_type struct_codec AttributeValue_xml].
    unfold unmarshal_struct, xml_scope. cbn [Attrs]. rewrite value_attrs_scope.
    change (expect_name None (xsi_scope space ns) _) with (Ret () : outcome ()). rewrite ret_bind.
    rewrite (fold_each_step _ (start_attrs space) _ _ zero_AttributeValue
               (Ret (mkAttributeValue (AttributeValue_Type x) "" None))); [|unfold start_attrs; by case_match|].
    2: { unfold value_attrs. apply (fold_each_step _ [_] [_] _ zero_AttributeValue); [reflexivity|].
         cbn [fold_each]. rewrite read_attr_assigns, xsi_scope_type. reflexivity. }
    rewrite ret_bind, read_children. cbn [Child]. rewrite text_tokens_els. simpl. rewrite char_data_text.
    destruct x as [t v o]. simpl in *. by rewrite Hx.
Qed.

#[export] Program Instance AttributeValue_rt : RoundTrip AttributeValue := {|
  rt_ok x := AttributeValue_NameID x = None
|}.
Next Obligation. intros space local x [Hlocal _] Hx. eexists. by apply AttributeValue_written. Qed.

#[export] Program Instance Attribute_rt : RoundTrip Attribute := {|
  rt_ok x := Forall rt_ok (Attribute_Values x)
|}.
Next Obligation. intros space local x Hn Hx. struct_tac rt_solve. by destruct x. Qed.

#[export] Program Instance RequestedAttribute_rt : RoundTrip RequestedAttribute := {|
  rt_ok x := rt_ok (RequestedAttribute_Attribute x)
|}.
Next Obligation. intros space local x Hn Hx. struct_tac rt_solve. by destruct x as [[]]. Qed.

#[export] Program Instance AttributeConsumingService_rt : RoundTrip AttributeConsumingService := {|
  rt_ok x := (0 <= AttributeConsumingService_Index x < 2 ^ 63)%Z ∧
             Forall rt_ok (AttributeConsumingService_RequestedAttributes x)
|}.
Next Obligation. intros space local x Hn [Hi Hx]. struct_tac rt_solve. by destruct x. Qed.

(** ** Endpoints and roles *)

Section metadata_rt.
Context `{UrlI : UrlOps} `{EtreeX : EtreeXml}.

(** A signature is not read back: the fields of its element are not in its XML form. *)
#[export] Program Instance Element_rt : RoundTrip Element := {| rt_ok _ := False |}.
Next Obligation. done. Qed.

(** An endpoint whose locations pass the check unchanged. *)
#[export] Program Instance Endpoint_rt : RoundTrip Endpoint := {| rt_ok x := Endpoint_UnmarshalXML x = Ret x |}.
Next Obligation.
  intros space local x Hn Hx.
  assert (∃ e, writes_back (XmlT := struct_type None Endpoint_tags zero_Endpoint) space local x e) as [e [Hw Ht Hs Hr]].
  { struct_tac rt_solve. by destruct x. }
  exists e. split; [done..|]. intros ns l Hns. specialize (Hr ns l Hns). simpl in Hr |- *. by rewrite Hr.
Qed.

#[export] Program Instance IndexedEndpoint_rt : RoundTrip IndexedEndpoint := {|
  rt_ok x := (0 <= IndexedEndpoint_Index x < 2 ^ 63)%Z ∧ IndexedEndpoint_UnmarshalXML x = Ret x
|}.
Next Obligation.
  intros space local x Hn [Hi Hx].
  assert (∃ e, writes_back (XmlT := struct_type None IndexedEndpoint_tags zero_IndexedEndpoint) space local x e)
    as [e [Hw Ht Hs Hr]].
  { struct_tac rt_solve. by destruct x. }
  exists e. split; [done..|]. intros ns l Hns. specialize (Hr ns l Hns). simpl in Hr |- *. by rewrite Hr.
Qed.

Lemma time_pointer_ok (o : option Time) : (∀ t, o = Some t → four_digit_year t) → attr_ok (k := pointer_attr time_attr) o.
Proof.
  intros H t Ht. split; [by apply H|]. destruct (Time_MarshalText_read t (H t Ht)) as (s & Hs & _).
  exists s. simpl. by rewrite Hs.
Qed.

(** What is read back of a role: times of the years 0 to 9999, durations that are empty or
    valid, and no signature. *)
Record role_ok (r : RoleDescriptor) : Prop := {
  role_ValidUntil t : RoleDescriptor_ValidUntil r = Some t → four_digit_year t;
  role_CacheDuration : RoleDescriptor_CacheDuration r = "" ∨ ∃ z, UnmarshalText (Some (RoleDescriptor_CacheDuration r)) = Ret z;
  role_Signature x : RoleDescriptor_Signature r = Some x → False
}.

Ltac role_solve :=
  first
    [ apply time_pointer_ok; eassumption
    | rt_solve ].

#[export] Program Instance RoleDescriptor_rt : RoundTrip RoleDescriptor := {| rt_ok := role_ok |}.
Next Obligation.
  intros space local x Hn [Ht Hd Hs]. struct_tac role_solve. by destruct x.
Qed.

#[export] Program Instance SPSSODescriptor_rt : RoundTrip SPSSODescriptor := {|
  rt_ok x :=
    let s := SPSSODescriptor_SSODescriptor x in
    role_ok (SSODescriptor_RoleDescriptor s) ∧
    Forall rt_ok (SSODescriptor_ArtifactResolutionServices s) ∧
    Forall rt_ok (SSODescriptor_SingleLogoutServices s) ∧
    Forall rt_ok (SSODescriptor_ManageNameIDServices s) ∧
    Forall rt_ok (SPSSODescriptor_AssertionConsumerServices x) ∧
    Forall rt_ok (SPSSODescriptor_AttributeConsumingServices x)
|}.
Next Obligation.
  intros space local x Hn ([Ht Hd Hs] & Ha & Hl & Hm & Hc & Hat). struct_tac role_solve. by destruct x as [[[]]].
Qed.
#[export] Program Instance IDPSSODescriptor_rt : RoundTrip IDPSSODescriptor := {|
  rt_ok x :=
    let s := IDPSSODescriptor_SSODescriptor x in
    role_ok (SSODescriptor_RoleDescriptor s) ∧
    SSODescriptor_ArtifactResolutionServices s = [] ∧
    Forall rt_ok (SSODescriptor_SingleLogoutServices s) ∧
    Forall rt_ok (SSODescriptor_ManageNameIDServices s) ∧
    Forall rt_ok (IDPSSODescriptor_SingleSignOnServices x) ∧
    Forall rt_ok (IDPSSODescriptor_ArtifactResolutionServices x) ∧
    Forall rt_ok (IDPSSODescriptor_NameIDMappingServices x) ∧
    Forall rt_ok (IDPSSODescriptor_AssertionIDRequestServices x) ∧
    Forall rt_ok (IDPSSODescriptor_Attributes x)
|}.
Next Obligation.
  intros space local x Hn ([Ht Hd Hs] & H0 & Hl & Hm & Hso & Ha & Hi & Hr & Hat). struct_tac role_solve.
  destruct x as [[[]]]. simpl in *. by subst.
Qed.

#[export] Program Instance AuthnAuthorityDescriptor_rt : RoundTrip AuthnAuthorityDescriptor := {|
  rt_ok x :=
    role_ok (AuthnAuthorityDescriptor_RoleDescriptor x) ∧
    Forall rt_ok (AuthnAuthorityDescriptor_AuthnQueryServices x) ∧
    Forall rt_ok (AuthnAuthorityDescriptor_AssertionIDRequestServices x)
|}.
Next Obligation. intros space local x Hn ([Ht Hd Hs] & Ha & Hi). struct_tac role_solve. by destruct x as [[]]. Qed.

#[export] Program Instance PDPDescriptor_rt : RoundTrip PDPDescriptor := {|
  rt_ok x :=
    role_ok (PDPDescriptor_RoleDescriptor x) ∧
    Forall rt_ok (PDPDescriptor_AuthzServices x) ∧
    Forall rt_ok (PDPDescriptor_AssertionIDRequestServices x)
|}.
Next Obligation. intros space local x Hn ([Ht Hd Hs] & Ha & Hi). struct_tac role_solve. by destruct x as [[]]. Qed.

#[export] Program Instance AttributeAuthorityDescriptor_rt : RoundTrip AttributeAuthorityDescriptor := {|
  rt_ok x :=
    role_ok (AttributeAuthorityDescriptor_RoleDescriptor x) ∧
    Forall rt_ok (AttributeAuthorityDescriptor_AttributeServices x) ∧
    Forall rt_ok (AttributeAuthorityDescriptor_AssertionIDRequestServices x) ∧
    Forall rt_ok (AttributeAuthorityDescriptor_Attributes x)
|}.
Next Obligation. intros space local x Hn ([Ht Hd Hs] & Ha & Hi & Hat). struct_tac role_solve. by destruct x as [[]]. Qed.

(** A duration behind a pointer is read back if it is not empty, which is written as nothing. *)
#[export] Program Instance AffiliationDescriptor_rt : RoundTrip AffiliationDescriptor := {|
  rt_ok x :=
    four_digit_year (AffiliationDescriptor_ValidUntil x) ∧
    attr_ok (k := pointer_attr XSDDuration_attr) (AffiliationDescriptor_CacheDuration x) ∧
    AffiliationDescriptor_Signature x = None
|}.
Next Obligation.
  intros space local x Hn (Ht & Hd & Hs). struct_tac ltac:(first [exact Hd|rt_solve]). by destruct x.
Qed.

(** ** Entities *)

(** Structs are compared by their tags before they are written or read. *)
#[local] Strategy 1000 [marshal_struct unmarshal_struct].

Record entity_ok (m : EntityDescriptor) : Prop := {
  entity_ValidUntil : whole_milliseconds (EntityDescriptor_ValidUntil m);
  entity_CacheDuration : whole_seconds (EntityDescriptor_CacheDuration m);
  entity_Signature x : EntityDescriptor_Signature m = Some x → False;
  entity_roles : Forall rt_ok (EntityDescriptor_RoleDescriptors m);
  entity_idps : Forall rt_ok (EntityDescriptor_IDPSSODescriptors m);
  entity_sps : Forall rt_ok (EntityDescriptor_SPSSODescriptors m);
  entity_authorities : Forall rt_ok (EntityDescriptor_AuthnAuthorityDescriptors m);
  entity_attributes : Forall rt_ok (EntityDescriptor_AttributeAuthorityDescriptors m);
  entity_pdps : Forall rt_ok (EntityDescriptor_PDPDescriptors m);
  entity_affiliation x : EntityDescriptor_AffiliationDescriptor m = Some x → rt_ok x
}.

#[export] Program Instance EntityDescriptor_rt : RoundTrip EntityDescriptor := {| rt_ok := entity_ok |}.
Next Obligation.
  intros space local x Hn [Ht Hd Hs Hr Hi Hp Ha Hat Hpd Haf].
  assert (∃ e, writes_back (XmlT := struct_type (metadata_name "EntityDescriptor") EntityDescriptor_tags zero_EntityDescriptor)
                 space local x e) as [e [Hw Htag Hsp Hread]].
  { struct_tac rt_solve. by destruct x. }
  assert (H1 : EntityDescriptor_MarshalXML space local x = Ret e) by exact Hw.
  assert (H2 : ∀ ns l, scope_ok ns → EntityDescriptor_UnmarshalXML ns (laid_out l e) zero_EntityDescriptor = Ret x)
    by exact Hread.
  exists e. split; [exact H1|exact Htag|exact Hsp|exact H2].
Qed.

(** The descriptors that are read back, at every depth.  A duration that is zero is written
    as an empty text, which is not read. *)
Fixpoint entities_ok (m : EntitiesDescriptor) : Prop :=
  let 'mkEntitiesDescriptor _ validUntil cacheDuration _ signature l entities := m in
  (∀ t, validUntil = Some t → whole_milliseconds t) ∧
  (∀ d, cacheDuration = Some d → whole_seconds d ∧ d ≠ 0%Z) ∧
  signature = None ∧ foldr (λ x P, entities_ok x ∧ P) True l ∧ Forall entity_ok entities.

Lemma entities_within l n : (foldr (λ x n, Nat.max (entities_depth x) n) 0%nat l <= n)%nat →
  foldr (λ x P, entities_ok x ∧ P) True l → Forall (λ m, (entities_depth m <= n)%nat ∧ entities_ok m) l.
Proof. induction l as [|m l IH]; simpl; intros Hn H; constructor; [split; [lia|tauto]|apply IH; [lia|tauto]]. Qed.

Lemma duration_written d : whole_seconds d → d ≠ 0%Z → ∃ s, attr_write duration_attr d = Ret (Some s).
Proof.
  intros H1 H2. destruct (attr_law (k := duration_attr) d) as (o & Ho & _); [done|]. simpl in Ho |- *.
  destruct (MarshalText d); simpl in *; [by eexists|done..].
Qed.

Lemma relaxed_pointer_ok (o : option Time) :
  (∀ t, o = Some t → whole_milliseconds t) → attr_ok (k := pointer_attr relaxed_attr) o.
Proof. intros H t Ht. split; [by apply H|]. by eexists. Qed.

Lemma duration_pointer_ok (o : option Duration) :
  (∀ d, o = Some d → whole_seconds d ∧ d ≠ 0%Z) → attr_ok (k := pointer_attr duration_attr) o.
Proof. intros H d Hd. destruct (H d Hd). split; [done|]. by apply duration_written. Qed.

Definition entities_type (n : nat) : XmlType EntitiesDescriptor :=
  EntitiesDescriptor_type (EntitiesDescriptor_read n) (EntitiesDescriptor_write n).

Lemma entities_rt n space local m : named (metadata_name "EntitiesDescriptor") local →
  (entities_depth m <= n)%nat → entities_ok m → ∃ e, writes_back (XmlT := entities_type n) space local m e.
Proof.
  revert space local m. induction n as [|n IH]; intros space local m Hn Hd Hok; [destruct m; simpl in Hd; lia|].
  pose (R := @Build_RoundTrip EntitiesDescriptor (entities_type n)
               (λ m, (entities_depth m <= n)%nat ∧ entities_ok m)
               (λ space local m Hn H, IH space local m Hn (proj1 H) (proj2 H))).
  assert (∃ e, writes_back (XmlT := struct_type (metadata_name "EntitiesDescriptor")
                 (EntitiesDescriptor_tags (XmlType0 := entities_type n)) zero_EntitiesDescriptor) space local m e)
    as [e [Hw Htag Hsp Hread]].
  { destruct m as [id vu cd name sig l entities]. simpl in Hd. destruct Hok as (Hvu & Hcd & -> & Hl & He).
    apply le_S_n in Hd. pose proof (entities_within l n Hd Hl) as Hall.
    apply relaxed_pointer_ok in Hvu. apply duration_pointer_ok in Hcd.
    struct_tac ltac:(first [exact Hall|exact He|exact Hvu|exact Hcd|rt_solve]). done. }
  assert (H1 : EntitiesDescriptor_write (S n) space local m = Ret e) by exact Hw.
  assert (H2 : ∀ ns l, scope_ok ns → EntitiesDescriptor_read (S n) ns (laid_out l e) zero_EntitiesDescriptor = Ret m)
    by exact Hread.
  exists e. split; [exact H1|exact Htag|exact Hsp|exact H2].
Qed.

(** *** Fuel *)

Lemma map_each_ext {A B} (f g : A → outcome B) l : (∀ x, x ∈ l → f x = g x) → map_each f l = map_each g l.
Proof.
  induction l as [|x l IH]; intros H; simpl; [done|]. rewrite (H x) by set_solver.
  destruct (g x); simpl; [rewrite IH by set_solver|done..]. done.
Qed.

Lemma entities_depth_elem l x n : (foldr (λ x n, Nat.max (entities_depth x) n) 0%nat l <= n)%nat →
  x ∈ l → (entities_depth x <= n)%nat.
Proof. induction l; simpl; intros Hn; [by intros ?%not_elem_of_nil|]. intros [->|H]%elem_of_cons; [lia|]. apply IHl; [lia|done]. Qed.

Lemma entities_max l n : (∀ x, x ∈ l → (entities_depth x <= n)%nat) →
  (foldr (λ x n, Nat.max (entities_depth x) n) 0%nat l <= n)%nat.
Proof. induction l as [|x l IH]; simpl; intros H; [lia|]. specialize (IH ltac:(set_solver)). specialize (H x ltac:(set_solver)). lia. Qed.

Lemma entities_write_fuel n n' space local m : (entities_depth m <= n)%nat → (entities_depth m <= n')%nat →
  EntitiesDescriptor_write n space local m = EntitiesDescriptor_write n' space local m.
Proof.
  revert n' space local m. induction n as [|n IH]; intros [|n'] space local m; [by destruct m; simpl; lia..|].
  destruct m as [id vu cd name sig l entities]. simpl entities_depth. intros H1%le_S_n H2%le_S_n.
  assert (He : map_each (EntitiesDescriptor_write n metadata_space "EntitiesDescriptor") l
               = map_each (EntitiesDescriptor_write n' metadata_space "EntitiesDescriptor") l).
  { apply map_each_ext. intros x Hx. apply IH; by eapply entities_depth_elem. }
  cbn [EntitiesDescriptor_write]. unfold marshal_struct.
  cbn [map tag_out EntitiesDescriptor_tags tag_pointer tag_slice tag_attr tag_attr_ns out_attrs out_tokens xml_write
       EntitiesDescriptor_EntitiesDescriptors EntitiesDescriptor_type].
  by rewrite He.
Qed.

(** A descriptor is written with its depth. *)
Lemma entities_written_depth n space local m e lay : EntitiesDescriptor_write n space local m = Ret e →
  (entities_depth m <= depth (laid_out lay e))%nat.
Proof.
  revert space local m e lay. induction n as [|n IH]; intros space local m e lay; [done|].
  destruct m as [id vu cd name sig l entities]. cbn [EntitiesDescriptor_write]. unfold marshal_struct.
  cbn [map tag_out EntitiesDescriptor_tags tag_pointer tag_slice tag_attr tag_attr_ns out_attrs out_tokens xml_write
       EntitiesDescriptor_EntitiesDescriptors EntitiesDescriptor_type metadata_name XMLName_Space XMLName_Local].
  intros (attrs & _ & (c & Hc & [= <-])%bind_ret)%bind_ret.
  apply bind_ret in Hc as (sigs & _ & (rest & Hrest & [= <-])%bind_ret).
  apply bind_ret in Hrest as (els & Hels & (rest' & _ & [= <-])%bind_ret).
  set (E := mkElement _ _ _ _).
  assert (HD : ∃ D, depth (laid_out lay E) = S D) by (destruct (laid_out lay E); by eexists). destruct HD as [D HD].
  rewrite HD. apply le_n_S, entities_max. intros x Hx. apply map_each_ret in Hels.
  apply list_elem_of_lookup in Hx as [i Hi]. destruct (Forall2_lookup_l _ _ _ _ _ Hels Hi) as (e & Hei & He).
  specialize (IH _ _ _ _ (deeper lay) He).
  assert (Hc : laid_out (deeper lay) e ∈ ChildElements (laid_out lay E)).
  { rewrite laid_out_els. apply list_elem_of_fmap. exists e. split; [done|]. unfold ChildElements, E. cbn [Child].
    rewrite !omap_app. apply elem_of_app. right. apply elem_of_app. left.
    apply list_elem_of_omap. exists (TElement e). split; [|done]. apply list_elem_of_fmap. exists e.
    split; [done|]. by eapply list_elem_of_lookup_2. }
  apply depth_child in Hc. lia.
Qed.

Lemma fold_each_ext {A B} (f g : A → B → outcome B) l v :
  (∀ x v, x ∈ l → f x v = g x v) → fold_each f l v = fold_each g l v.
Proof.
  revert v. induction l as [|x l IH]; intros v H; simpl; [done|]. rewrite (H x) by set_solver.
  destruct (g x v); simpl; [apply IH; set_solver|done..].
Qed.

Lemma unmarshal_struct_ext {A} n (F G : list (Field A)) ns el v :
  (∀ ns at' v, read_attr F ns at' v = read_attr G ns at' v) →
  (∀ x v, x ∈ ChildElements el → unmarshalPath F (xml_scope ns el) x v = unmarshalPath G (xml_scope ns el) x v) →
  (∀ s v, assign_chardata F s v = assign_chardata G s v) →
  unmarshal_struct n F ns el v = unmarshal_struct n G ns el v.
Proof.
  intros Ha Hp Hc. unfold unmarshal_struct. destruct (expect_name n _ el); simpl; [|done..].
  rewrite (fold_each_ext (read_attr F _) (read_attr G (xml_scope ns el))) by auto.
  destruct (fold_each (read_attr G _) _ _); simpl; [|done..]. rewrite !read_children.
  rewrite (fold_each_ext _ (unmarshalPath G (xml_scope ns el))) by auto.
  destruct (fold_each _ _ _); simpl; [by rewrite Hc|done..].
Qed.

(** The result does not depend on the fuel from the depth of the element on. *)
Lemma entities_read_fuel n n' ns el m : (depth el <= n)%nat → (depth el <= n')%nat →
  EntitiesDescriptor_read n ns el m = EntitiesDescriptor_read n' ns el m.
Proof.
  revert n' ns el m. induction n as [|n IH]; intros [|n'] ns el m H1 H2; [by destruct el; simpl in *; lia..|].
  cbn [EntitiesDescriptor_read]. apply unmarshal_struct_ext; [done| |done]. intros x v Hx%depth_child.
  specialize (IH n' (xml_scope ns el) x zero_EntitiesDescriptor ltac:(lia) ltac:(lia)).
  cbn [map tag_in EntitiesDescriptor_tags tag_pointer tag_slice tag_attr tag_attr_ns unmarshalPath child attr_ns
       EntitiesDescriptor_type xml_read xml_zero].
  unfold slice. cbv beta. by rewrite IH.
Qed.

Lemma entities_roundtrip m : entities_ok m → ∃ e,
  EntitiesDescriptor_MarshalXML "" "EntitiesDescriptor" m = Ret e ∧
  ∀ ns l, scope_ok ns → EntitiesDescriptor_UnmarshalXML ns (laid_out l e) zero_EntitiesDescriptor = Ret m.
Proof.
  intros Hok. destruct (entities_rt (entities_depth m) "" "EntitiesDescriptor" m) as [e [He _ _ _]]; [by split|done..|].
  exists e. split; [exact He|]. intros ns l Hns. unfold EntitiesDescriptor_UnmarshalXML. set (n := depth (laid_out l e)).
  assert (Hd : (entities_depth m <= n)%nat) by exact (entities_written_depth _ _ _ _ _ l He).
  destruct (entities_rt n "" "EntitiesDescriptor" m) as [e' [He' _ _ Hr]]; [by split|done..|].
  assert (e' = e) as ->; [|by apply (Hr ns l)].
  assert (Ret e' = Ret e) as [= ->]; [|done]. rewrite <- He, <- He'. by apply entities_write_fuel.
Qed.
End metadata_rt.
