(* ===== verification/SchemaEncodeSpec.v ===== *)
(** * SchemaEncodeSpec: messages that [encoding/xml] writes

    The law [RoundTrip] for the types of [src/schema.go]: what their [MarshalXML] methods, or
    their tags, write is read by their [UnmarshalXML] methods as the same message. *)

From stdpp Require Import base option list gmap strings.
From Stdlib Require Import ZArith Lia Ascii.
From S2P Require Import Prelude Go Duration RelaxedTime Encoding Etree Schema Env SchemaXML XmlDecode XmlEncode SchemaDecode.
From S2P Require Import MetadataCodec SchemaEncode SchemaRoundtrip MetadataRoundtrip Reference.

Open Scope string_scope.

(** ** Attributes *)

#[export] Program Instance marshaler_attr_law {F} (k : AttrKind F) `{L : !AttrLaw k} : AttrLaw (marshaler_attr k) := {|
  attr_ok o := ∃ x s, o = Some x ∧ attr_ok x ∧ attr_write k x = Ret (Some s)
|}.
Next Obligation.
  intros F k L o (x & s & -> & Hx & Hs). exists (Some s). split; [done|].
  destruct (attr_law x Hx) as (o & Ho & Hr). rewrite Hs in Ho. injection Ho as <-. simpl. unfold to_pointer. by rewrite Hr.
Qed.

#[export] Program Instance relaxed_time_attr_law : AttrLaw relaxed_time_attr := {| attr_ok := whole_milliseconds |}.
Next Obligation.
  intros t [Ht Hm]. destruct (Time_MarshalText_read t Ht) as (s & Hs & Hr). exists (Some s). simpl. rewrite Hs. split; [done|].
  unfold RelaxedTime_UnmarshalText. rewrite Hr. case_bool_decide as E; [by subst|].
  destruct (Time_Round_spec t Millisecond) as (_ & _ & He); [done|]. by rewrite He.
Qed.

#[export] Program Instance int_rt : RoundTrip Z := {| rt_ok z := (0 <= z < 2 ^ 63)%Z |}.
Next Obligation.
  intros space local z [Hlocal _] Hz. destruct (string_written space local (itoa z) Hlocal) as [_ Ht Hs _].
  eexists. split; [done|exact Ht|exact Hs|]. intros ns l _. rewrite laid_out_plain by apply text_tokens_els.
  change (copy_int (char_data (text_tokens (itoa z))) = Ret z). rewrite char_data_text. by apply copy_int_itoa.
Qed.

(** A struct with methods: it is written by its tags and read into fields by [UnmarshalXML]. *)
Ltac method_tac n fields tags zero ok :=
  lazymatch goal with
  | |- ∃ e, writes_back ?space ?local ?x e =>
      let e := fresh "e" in let Hw := fresh in let Ht := fresh in let Hs := fresh in let Hr := fresh in
      assert (∃ e, writes_back (XmlT := struct_codec n fields tags zero) space local x e) as [e [Hw Ht Hs Hr]];
      [struct_tac ok; by destruct x|exists e; split; [exact Hw|exact Ht|exact Hs|exact Hr]]
  end.

(** ** Names and parts of messages *)

#[export] Program Instance Issuer_rt : RoundTrip Issuer := {| rt_ok _ := True |}.
Next Obligation. intros space local x Hn _. text_struct_tac rt_solve. destruct x. simpl. by rewrite append_nil_r. Qed.

#[export] Program Instance NameIDPolicy_rt : RoundTrip NameIDPolicy := {| rt_ok _ := True |}.
Next Obligation. intros space local x Hn _. struct_tac rt_solve. by destruct x. Qed.

#[export] Program Instance RequestedAuthnContext_rt : RoundTrip RequestedAuthnContext := {| rt_ok _ := True |}.
Next Obligation. intros space local x Hn _. struct_tac rt_solve. by destruct x. Qed.

#[export] Program Instance SessionIndex_rt : RoundTrip SessionIndex := {| rt_ok _ := True |}.
Next Obligation. intros space local x Hn _. text_struct_tac rt_solve. destruct x. simpl. by rewrite append_nil_r. Qed.

#[export] Program Instance SubjectConfirmationData_rt : RoundTrip SubjectConfirmationData := {|
  rt_ok x := whole_milliseconds (SubjectConfirmationData_NotOnOrAfter x) ∧ four_digit_year (SubjectConfirmationData_NotBefore x)
|}.
Next Obligation.
  intros space local x Hn [Ht Hb].
  method_tac (None : option XMLName) SubjectConfirmationData_fields SubjectConfirmationData_tags zero_SubjectConfirmationData rt_solve.
Qed.

#[export] Program Instance SubjectConfirmation_rt : RoundTrip SubjectConfirmation := {|
  rt_ok x := ∀ d, SubjectConfirmation_SubjectConfirmationData x = Some d → rt_ok d
|}.
Next Obligation. intros space local x Hn Hd. struct_tac rt_solve. by destruct x. Qed.

#[export] Program Instance Subject_rt : RoundTrip Subject := {|
  rt_ok x := Forall rt_ok (Subject_SubjectConfirmations x)
|}.
Next Obligation. intros space local x Hn Hc. struct_tac rt_solve. by destruct x. Qed.

(** ** Conditions and statements *)

#[export] Program Instance Audience_rt : RoundTrip Audience := {| rt_ok _ := True |}.
Next Obligation. intros space local x Hn _. text_struct_tac rt_solve. destruct x. simpl. by rewrite append_nil_r. Qed.

#[export] Program Instance AudienceRestriction_rt : RoundTrip AudienceRestriction := {| rt_ok _ := True |}.
Next Obligation. intros space local x Hn _. struct_tac rt_solve. by destruct x. Qed.

#[export] Program Instance OneTimeUse_rt : RoundTrip OneTimeUse := {| rt_ok _ := True |}.
Next Obligation. intros space local x Hn _. struct_tac rt_solve. by destruct x. Qed.

#[export] Program Instance ProxyRestriction_rt : RoundTrip ProxyRestriction := {|
  rt_ok x := ∀ n, ProxyRestriction_Count x = Some n → (0 <= n < 2 ^ 63)%Z
|}.
Next Obligation. intros space local x Hn Hc. struct_tac rt_solve. by destruct x. Qed.

#[export] Program Instance Conditions_rt : RoundTrip Conditions := {|
  rt_ok x := whole_milliseconds (Conditions_NotBefore x) ∧ whole_milliseconds (Conditions_NotOnOrAfter x) ∧
    ∀ p, Conditions_ProxyRestriction x = Some p → rt_ok p
|}.
Next Obligation.
  intros space local x Hn (Hb & Ht & Hp).
  method_tac (None : option XMLName) Conditions_fields Conditions_tags zero_Conditions rt_solve.
Qed.

#[export] Program Instance SubjectLocality_rt : RoundTrip SubjectLocality := {| rt_ok _ := True |}.
Next Obligation. intros space local x Hn _. struct_tac rt_solve. by destruct x. Qed.

#[export] Program Instance AuthnContextClassRef_rt : RoundTrip AuthnContextClassRef := {| rt_ok _ := True |}.
Next Obligation. intros space local x Hn _. text_struct_tac rt_solve. destruct x. simpl. by rewrite append_nil_r. Qed.

#[export] Program Instance AuthnContext_rt : RoundTrip AuthnContext := {| rt_ok _ := True |}.
Next Obligation. intros space local x Hn _. struct_tac rt_solve. by destruct x. Qed.

#[export] Program Instance AuthnStatement_rt : RoundTrip AuthnStatement := {|
  rt_ok x := whole_milliseconds (AuthnStatement_AuthnInstant x) ∧
    ∀ t, AuthnStatement_SessionNotOnOrAfter x = Some t → whole_milliseconds t
|}.
Next Obligation.
  intros space local x Hn [Ht Hs%relaxed_pointer_ok].
  method_tac (None : option XMLName) AuthnStatement_fields AuthnStatement_tags zero_AuthnStatement
    ltac:(first [exact Hs|rt_solve]).
Qed.

#[export] Program Instance AttributeStatement_rt : RoundTrip AttributeStatement := {|
  rt_ok x := Forall rt_ok (AttributeStatement_Attributes x)
|}.
Next Obligation. intros space local x Hn Ha. struct_tac rt_solve. by destruct x. Qed.

(** ** Status *)

#[export] Program Instance StatusMessage_rt : RoundTrip StatusMessage := {| rt_ok _ := True |}.
Next Obligation. intros space local x Hn _. text_struct_tac rt_solve. destruct x. simpl. by rewrite append_nil_r. Qed.

(** A code that is read to a depth and written to a depth that it does not exceed. *)
Lemma StatusCode_writes_back n d space local s : named (protocol_name "StatusCode") local →
  (StatusCode_depth s <= n)%nat → (StatusCode_depth s <= d)%nat →
  ∃ e, writes_back (XmlT := StatusCode_type (StatusCode_Unmarshal n) (StatusCode_write d)) space local s e.
Proof.
  revert d space local s. induction n as [|n IH]; intros d space local s Hname Hn Hd; [destruct s as [v [c|]]; simpl in Hn; lia|].
  destruct d as [|d]; [destruct s as [v [c|]]; simpl in Hd; lia|].
  pose (R := @Build_RoundTrip StatusCode (StatusCode_type (StatusCode_Unmarshal n) (StatusCode_write d))
               (λ s, (StatusCode_depth s <= n)%nat ∧ (StatusCode_depth s <= d)%nat)
               (λ space local s Hname H, IH d space local s Hname (proj1 H) (proj2 H))).
  assert (Hsub : ∀ c, StatusCode_StatusCode s = Some c → (StatusCode_depth c <= n)%nat ∧ (StatusCode_depth c <= d)%nat)
    by (destruct s as [v [c|]]; simpl in *; intros ? [= <-]; lia).
  assert (∃ e, writes_back (XmlT := struct_codec (protocol_name "StatusCode") (StatusCode_fields (StatusCode_Unmarshal n))
                 (StatusCode_tags (XmlType0 := StatusCode_type (StatusCode_Unmarshal n) (StatusCode_write d)))
                 (mkStatusCode "" None)) space local s e) as [e [Hw Ht Hs Hr]].
  { struct_tac ltac:(first [exact Hsub|rt_solve]). by destruct s. }
  exists e. split; [exact Hw|exact Ht|exact Hs|exact Hr].
Qed.

#[export] Program Instance StatusCode_rt : RoundTrip StatusCode := {|
  rt_ok s := (StatusCode_depth s <= maxUnmarshalDepth - 2)%nat
|}.
Next Obligation.
  intros space local s Hname Hs. destruct (StatusCode_writes_back (maxUnmarshalDepth - 2) (StatusCode_depth s) space local s)
    as [e [Hw Ht Hsp Hr]]; [done..|]. exists e. split; [exact Hw|exact Ht|exact Hsp|exact Hr].
Qed.

Section messages.
Context `{EtreeX : EtreeXml}.

(** ** Messages

    A signature, an encrypted assertion and the details of a status are not read back: their
    elements are written by their fields. *)
Record status_ok (s : Status) : Prop := {
  status_code : (StatusCode_depth (Status_StatusCode s) <= maxUnmarshalDepth - 2)%nat;
  status_detail d : Status_StatusDetail s = Some d → StatusDetail_Children d = []
}.

#[export] Program Instance StatusDetail_rt : RoundTrip StatusDetail := {| rt_ok x := StatusDetail_Children x = [] |}.
Next Obligation.
  intros space local [c] Hn Hc. simpl in Hc. subst. struct_tac ltac:(first [by constructor|rt_solve]). done.
Qed.

#[export] Program Instance Status_rt : RoundTrip Status := {| rt_ok := status_ok |}.
Next Obligation. intros space local x Hn [Hc Hd]. struct_tac rt_solve. by destruct x. Qed.

Record authn_request_ok (r : AuthnRequest) : Prop := {
  authn_request_IssueInstant : whole_milliseconds (AuthnRequest_IssueInstant r);
  authn_request_Signature x : AuthnRequest_Signature r = Some x → False;
  authn_request_Subject x : AuthnRequest_Subject r = Some x → rt_ok x;
  authn_request_Conditions x : AuthnRequest_Conditions r = Some x → rt_ok x
}.

#[export] Program Instance AuthnRequest_rt : RoundTrip AuthnRequest := {| rt_ok := authn_request_ok |}.
Next Obligation.
  intros space local x Hn [Ht Hs Hsu Hc].
  method_tac (protocol_name "AuthnRequest") AuthnRequest_fields AuthnRequest_tags zero_AuthnRequest rt_solve.
Qed.

Record logout_request_ok (r : LogoutRequest) : Prop := {
  logout_request_IssueInstant : whole_milliseconds (LogoutRequest_IssueInstant r);
  logout_request_NotOnOrAfter : ∃ t, LogoutRequest_NotOnOrAfter r = Some t ∧ whole_milliseconds t;
  logout_request_Signature x : LogoutRequest_Signature r = Some x → False
}.

Lemma marshaler_pointer_ok (o : option Time) :
  (∃ t, o = Some t ∧ whole_milliseconds t) → attr_ok (k := marshaler_attr relaxed_attr) o.
Proof. intros (t & -> & Ht). by exists t, (RelaxedTime_String t). Qed.

#[export] Program Instance LogoutRequest_rt : RoundTrip LogoutRequest := {| rt_ok := logout_request_ok |}.
Next Obligation.
  intros space local x Hn [Ht Hna%marshaler_pointer_ok Hs].
  method_tac (protocol_name "LogoutRequest") LogoutRequest_fields LogoutRequest_tags zero_LogoutRequest
    ltac:(first [exact Hna|rt_solve]).
Qed.

Record logout_response_ok (r : LogoutResponse) : Prop := {
  logout_response_IssueInstant : whole_milliseconds (LogoutResponse_IssueInstant r);
  logout_response_Signature x : LogoutResponse_Signature r = Some x → False;
  logout_response_Status : status_ok (LogoutResponse_Status r)
}.

#[export] Program Instance LogoutResponse_rt : RoundTrip LogoutResponse := {| rt_ok := logout_response_ok |}.
Next Obligation.
  intros space local x Hn [Ht Hs Hst].
  method_tac (protocol_name "LogoutResponse") LogoutResponse_fields LogoutResponse_tags zero_LogoutResponse rt_solve.
Qed.

Record artifact_resolve_ok (r : ArtifactResolve) : Prop := {
  artifact_resolve_IssueInstant : whole_milliseconds (ArtifactResolve_IssueInstant r);
  artifact_resolve_Signature x : ArtifactResolve_Signature r = Some x → False
}.

#[export] Program Instance ArtifactResolve_rt : RoundTrip ArtifactResolve := {| rt_ok := artifact_resolve_ok |}.
Next Obligation.
  intros space local x Hn [Ht Hs].
  method_tac (protocol_name "ArtifactResolve") ArtifactResolve_fields ArtifactResolve_tags zero_ArtifactResolve rt_solve.
Qed.

Record assertion_ok (a : Assertion) : Prop := {
  assertion_IssueInstant : whole_milliseconds (Assertion_IssueInstant a);
  assertion_Signature x : Assertion_Signature a = Some x → False;
  assertion_Subject x : Assertion_Subject a = Some x → rt_ok x;
  assertion_Conditions x : Assertion_Conditions a = Some x → rt_ok x;
  assertion_AuthnStatements : Forall rt_ok (Assertion_AuthnStatements a);
  assertion_AttributeStatements : Forall rt_ok (Assertion_AttributeStatements a)
}.

#[export] Program Instance Assertion_rt : RoundTrip Assertion := {| rt_ok := assertion_ok |}.
Next Obligation.
  intros space local x Hn [Ht Hs Hsu Hc Hau Hat].
  method_tac (assertion_name "Assertion") Assertion_fields Assertion_tags zero_Assertion rt_solve.
Qed.

Record response_ok (r : Response) : Prop := {
  response_IssueInstant : whole_milliseconds (Response_IssueInstant r);
  response_Signature x : Response_Signature r = Some x → False;
  response_Status : status_ok (Response_Status r);
  response_EncryptedAssertion x : Response_EncryptedAssertion r = Some x → False;
  response_Assertion x : Response_Assertion r = Some x → assertion_ok x
}.

#[export] Program Instance Response_rt : RoundTrip Response := {| rt_ok := response_ok |}.
Next Obligation.
  intros space local x Hn [Ht Hs Hst He Ha].
  method_tac (protocol_name "Response") Response_fields Response_tags zero_Response rt_solve.
Qed.

Record artifact_response_ok (r : ArtifactResponse) : Prop := {
  artifact_response_IssueInstant : whole_milliseconds (ArtifactResponse_IssueInstant r);
  artifact_response_Signature x : ArtifactResponse_Signature r = Some x → False;
  artifact_response_Status : status_ok (ArtifactResponse_Status r);
  artifact_response_Response : response_ok (ArtifactResponse_Response r)
}.

#[export] Program Instance ArtifactResponse_rt : RoundTrip ArtifactResponse := {| rt_ok := artifact_response_ok |}.
Next Obligation.
  intros space local x Hn [Ht Hs Hst Hr].
  method_tac (protocol_name "ArtifactResponse") ArtifactResponse_fields ArtifactResponse_tags zero_ArtifactResponse rt_solve.
Qed.

(** A message of a type is written, and read back from the text that is printed. *)
Definition marshals {M} (write : Writer M) (read : Reader M) (zero : M) (local : string) (m : M) : Prop :=
  ∃ e, write "" local m = Ret e ∧ reads_back read zero m e.

Lemma rt_marshals {M} `{RoundTrip M} local m : named xml_name local → rt_ok m → marshals xml_write xml_read xml_zero local m.
Proof.
  intros Hn Hm. destruct (rt "" local m Hn Hm) as [e [Hw _ _ Hr]]. exists e. split; [exact Hw|].
  by apply laid_out_reads_back.
Qed.

(** C22: roundtrip. [encoding/xml] writes an element of a message with its [MarshalXML] methods,
    and its [UnmarshalXML] methods read what a decoder gets from the text of this element, with
    the indentation of a printer or without, as the same message.  This is for messages whose
    texts and attributes are valid UTF-8 of the characters of XML ([EscapeText] replaces the
    others by U+FFFD), whose times are whole milliseconds of the years 0 to 9999 (the [NotBefore]
    of a subject's confirmation only needs such a year), that have no signature and no encrypted assertion, whose status is not deeper than the decoder goes and has no details,
    whose attribute values have no [NameID] (an indented one would add to the text of the value),
    and whose proxy restrictions have a [Count] from 0 to 2^63 - 1; a logout request needs a
    [NotOnOrAfter].  Unlike the [Element] methods this keeps the limits of a proxy restriction. *)
Theorem messages_marshal_roundtrip :
  (∀ m, authn_request_ok m → marshals AuthnRequest_MarshalXML AuthnRequest_UnmarshalXML zero_AuthnRequest "AuthnRequest" m) ∧
  (∀ m, logout_request_ok m →
    marshals LogoutRequest_MarshalXML LogoutRequest_UnmarshalXML zero_LogoutRequest "LogoutRequest" m) ∧
  (∀ m, logout_response_ok m →
    marshals LogoutResponse_MarshalXML LogoutResponse_UnmarshalXML zero_LogoutResponse "LogoutResponse" m) ∧
  (∀ m, artifact_resolve_ok m →
    marshals ArtifactResolve_MarshalXML ArtifactResolve_UnmarshalXML zero_ArtifactResolve "ArtifactResolve" m) ∧
  (∀ m, response_ok m → marshals Response_MarshalXML Response_UnmarshalXML zero_Response "Response" m) ∧
  (∀ m, artifact_response_ok m →
    marshals ArtifactResponse_MarshalXML ArtifactResponse_UnmarshalXML zero_ArtifactResponse "ArtifactResponse" m).
Proof.
  split_and!; intros m Hm.
  - exact (rt_marshals (M := AuthnRequest) "AuthnRequest" m (conj eq_refl eq_refl) Hm).
  - exact (rt_marshals (M := LogoutRequest) "LogoutRequest" m (conj eq_refl eq_refl) Hm).
  - exact (rt_marshals (M := LogoutResponse) "LogoutResponse" m (conj eq_refl eq_refl) Hm).
  - exact (rt_marshals (M := ArtifactResolve) "ArtifactResolve" m (conj eq_refl eq_refl) Hm).
  - exact (rt_marshals (M := Response) "Response" m (conj eq_refl eq_refl) Hm).
  - exact (rt_marshals (M := ArtifactResponse) "ArtifactResponse" m (conj eq_refl eq_refl) Hm).
Qed.
End messages.

(** ** Examples *)

Module Examples.

(** The fields of an element of [etree], by their names. *)
Definition text_field (name text : string) : Element := mkElement "" name [] (text_tokens text).

Definition attr_field (a : Attr) : Element :=
  mkElement "" "Attr" []
    (map TElement [text_field "Space" (Attr_Space a); text_field "Key" (Attr_Key a); text_field "Value" (Attr_Value a)]).

Fixpoint reflected (local : string) (e : Element) : Element :=
  mkElement "" local []
    (map TElement ([text_field "Space" (Space e); text_field "Tag" (Tag e)] ++ map attr_field (Attrs e)) ++
     (fix go (c : list Token) : list Token :=
        match c with
        | [] => []
        | TElement x :: c => TElement (reflected "Child" x) :: go c
        | (TCharData s | TComment s) :: c => TElement (mkElement "" "Child" [] [TElement (text_field "Data" s)]) :: go c
        | TOther _ :: c => go c
        end) (Child e))%list.

#[local] Instance reflection : EtreeXml := {| marshal_etree _ local e := Ret (reflected local e) |}.

(** The request of [TestMakeArtifactResolveRequest]. *)
Definition artifact_resolve : ArtifactResolve :=
  mkArtifactResolve "id-00020406080a0c0e10121416181a1c1e20222426" "2.0" (63584531829000 * Millisecond)%Z
    (Some (mkIssuer "" "" "urn:oasis:names:tc:SAML:2.0:nameid-format:entity" "" "https://example.com/saml2/metadata"))
    None "artifactId".

Example golden_artifact_resolve :
  Encode (ArtifactResolve_MarshalXML "" "ArtifactResolve" artifact_resolve) = Ret (quoted (
"<ArtifactResolve xmlns='urn:oasis:names:tc:SAML:2.0:protocol' IssueInstant='2015-12-01T01:57:09Z' ID='id-00020406080a0c0e10121416181a1c1e20222426' Version='2.0'>" +++
"<Issuer xmlns='urn:oasis:names:tc:SAML:2.0:assertion' NameQualifier='' SPNameQualifier='' Format='urn:oasis:names:tc:SAML:2.0:nameid-format:entity' SPProvidedID=''>https://example.com/saml2/metadata" +++
"</Issuer><Artifact xmlns='urn:oasis:names:tc:SAML:2.0:protocol'>artifactId</Artifact></ArtifactResolve>")).
Proof. vm_compute. reflexivity. Qed.

(** The assertion of [TestParseXMLArtifactResponse], whose signature was read as an empty
    element. *)
Definition attribute (friendly name type value : string) : Attribute :=
  mkAttribute friendly name "urn:oasis:names:tc:SAML:2.0:attrname-format:uri" [mkAttributeValue type value None].

Definition assertion : Assertion :=
  mkAssertion "_03f4bc22f17328b5f4851c46587f1957" (63764792839945 * Millisecond)%Z "2.0" (mkIssuer "" "" "" "" "https://samltest.id/saml/idp")
    (Some zero_Element)
    (Some (mkSubject
       (Some (mkNameID "https://samltest.id/saml/idp" "http://localhost:8000/saml/metadata"
                "urn:oasis:names:tc:SAML:2.0:nameid-format:transient" ""
                ("AAdzZWNyZXQxmdGfdGiCl5GfFqdXr4fFg22uNwB1bPW0DpwXVsA8ZTM9Mm4WZbdwL2HGSb16cikyIjqU" +++
                 "eddVshrsVM6DMD/iVagheXMVMIp8Y1JOQsPr6eLL4K7B9u5BIoE6FduV3W60g77uBwM2")))
       [mkSubjectConfirmation "urn:oasis:names:tc:SAML:2.0:cm:bearer" None
          (Some (mkSubjectConfirmationData 0 (63764793139948 * Millisecond)%Z "http://localhost:8000/saml/acs"
                   "id-f3c7bc7d626a4ededa6028b718e5252c6e770b94" "84.82.58.171"))]))
    (Some (mkConditions (63764792839945 * Millisecond)%Z (63764793139945 * Millisecond)%Z
       [mkAudienceRestriction [mkAudience "http://localhost:8000/saml/metadata"]] None None))
    [mkAuthnStatement (63764792839941 * Millisecond)%Z "_4638b693d6e85350fff04b4dafa56ff9" None
       (Some (mkSubjectLocality "84.82.58.171" ""))
       (mkAuthnContext (Some (mkAuthnContextClassRef "urn:oasis:names:tc:SAML:2.0:ac:classes:PasswordProtectedTransport")))]
    [mkAttributeStatement
       [attribute "eduPersonEntitlement" "urn:oid:1.3.6.1.4.1.5923.1.1.1.7" "" "urn:mace:dir:entitlement:common-lib-terms";
        attribute "uid" "urn:oid:0.9.2342.19200300.100.1.1" "" "rick";
        attribute "" "urn:oasis:names:tc:SAML:attribute:subject-id" "xsd:string" "rsanchez@samltest.id";
        attribute "role" "https://samltest.id/attributes/role" "xsd:string" "manager@samltest.id";
        attribute "telephoneNumber" "urn:oid:2.5.4.20" "" "+1-555-555-5515";
        attribute "mail" "urn:oid:0.9.2342.19200300.100.1.3" "" "rsanchez@samltest.id";
        attribute "sn" "urn:oid:2.5.4.4" "" "Sanchez";
        attribute "displayName" "urn:oid:2.16.840.1.113730.3.1.241" "" "Rick Sanchez";
        attribute "givenName" "urn:oid:2.5.4.42" "" "Rick"]].

Example golden_assertion :
  Encode (xml_write "" "Assertion" assertion) = Ret (quoted (
"<Assertion xmlns='urn:oasis:names:tc:SAML:2.0:assertion' ID='_03f4bc22f17328b5f4851c46587f1957' IssueInstant='2021-08-17T10:27:19.945Z' Version='2.0'>" +++
"<Issuer xmlns='urn:oasis:names:tc:SAML:2.0:assertion' NameQualifier='' SPNameQualifier='' Format='' SPProvidedID=''>https://samltest.id/saml/idp" +++
"</Issuer><Signature><Space></Space><Tag></Tag></Signature><Subject xmlns='urn:oasis:names:tc:SAML:2.0:assertion'>" +++
"<NameID NameQualifier='https://samltest.id/saml/idp' SPNameQualifier='http://localhost:8000/saml/metadata' Format='urn:oasis:names:tc:SAML:2.0:nameid-format:transient' SPProvidedID=''>AAdzZWNyZXQxmdGfdGiCl5GfFqdXr4fFg22uNwB1bPW0DpwXVsA8ZTM9Mm4WZbdwL2HGSb16cikyIjqUeddVshrsVM6DMD/iVagheXMVMIp8Y1JOQsPr6eLL4K7B9u5BIoE6FduV3W60g77uBwM2" +++
"</NameID><SubjectConfirmation Method='urn:oasis:names:tc:SAML:2.0:cm:bearer'>" +++
"<SubjectConfirmationData NotOnOrAfter='2021-08-17T10:32:19.948Z' NotBefore='0001-01-01T00:00:00Z' Recipient='http://localhost:8000/saml/acs' InResponseTo='id-f3c7bc7d626a4ededa6028b718e5252c6e770b94' Address='84.82.58.171'>" +++
"</SubjectConfirmationData></SubjectConfirmation></Subject>" +++
"<Conditions NotBefore='2021-08-17T10:27:19.945Z' NotOnOrAfter='2021-08-17T10:32:19.945Z'><AudienceRestriction>" +++
"<Audience>http://localhost:8000/saml/metadata</Audience></AudienceRestriction></Conditions>" +++
"<AuthnStatement AuthnInstant='2021-08-17T10:27:19.941Z' SessionIndex='_4638b693d6e85350fff04b4dafa56ff9'>" +++
"<SubjectLocality Address='84.82.58.171' DNSName=''></SubjectLocality><AuthnContext>" +++
"<AuthnContextClassRef>urn:oasis:names:tc:SAML:2.0:ac:classes:PasswordProtectedTransport</AuthnContextClassRef>" +++
"</AuthnContext></AuthnStatement><AttributeStatement>" +++
"<Attribute FriendlyName='eduPersonEntitlement' Name='urn:oid:1.3.6.1.4.1.5923.1.1.1.7' NameFormat='urn:oasis:names:tc:SAML:2.0:attrname-format:uri'>" +++
"<AttributeValue xmlns:_XMLSchema-instance='http://www.w3.org/2001/XMLSchema-instance' _XMLSchema-instance:type=''>urn:mace:dir:entitlement:common-lib-terms" +++
"</AttributeValue></Attribute>" +++
"<Attribute FriendlyName='uid' Name='urn:oid:0.9.2342.19200300.100.1.1' NameFormat='urn:oasis:names:tc:SAML:2.0:attrname-format:uri'>" +++
"<AttributeValue xmlns:_XMLSchema-instance='http://www.w3.org/2001/XMLSchema-instance' _XMLSchema-instance:type=''>rick" +++
"</AttributeValue></Attribute>" +++
"<Attribute FriendlyName='' Name='urn:oasis:names:tc:SAML:attribute:subject-id' NameFormat='urn:oasis:names:tc:SAML:2.0:attrname-format:uri'>" +++
"<AttributeValue xmlns:_XMLSchema-instance='http://www.w3.org/2001/XMLSchema-instance' _XMLSchema-instance:type='xsd:string'>rsanchez@samltest.id" +++
"</AttributeValue></Attribute>" +++
"<Attribute FriendlyName='role' Name='https://samltest.id/attributes/role' NameFormat='urn:oasis:names:tc:SAML:2.0:attrname-format:uri'>" +++
"<AttributeValue xmlns:_XMLSchema-instance='http://www.w3.org/2001/XMLSchema-instance' _XMLSchema-instance:type='xsd:string'>manager@samltest.id" +++
"</AttributeValue></Attribute>" +++
"<Attribute FriendlyName='telephoneNumber' Name='urn:oid:2.5.4.20' NameFormat='urn:oasis:names:tc:SAML:2.0:attrname-format:uri'>" +++
"<AttributeValue xmlns:_XMLSchema-instance='http://www.w3.org/2001/XMLSchema-instance' _XMLSchema-instance:type=''>+1-555-555-5515" +++
"</AttributeValue></Attribute>" +++
"<Attribute FriendlyName='mail' Name='urn:oid:0.9.2342.19200300.100.1.3' NameFormat='urn:oasis:names:tc:SAML:2.0:attrname-format:uri'>" +++
"<AttributeValue xmlns:_XMLSchema-instance='http://www.w3.org/2001/XMLSchema-instance' _XMLSchema-instance:type=''>rsanchez@samltest.id" +++
"</AttributeValue></Attribute>" +++
"<Attribute FriendlyName='sn' Name='urn:oid:2.5.4.4' NameFormat='urn:oasis:names:tc:SAML:2.0:attrname-format:uri'>" +++
"<AttributeValue xmlns:_XMLSchema-instance='http://www.w3.org/2001/XMLSchema-instance' _XMLSchema-instance:type=''>Sanchez" +++
"</AttributeValue></Attribute>" +++
"<Attribute FriendlyName='displayName' Name='urn:oid:2.16.840.1.113730.3.1.241' NameFormat='urn:oasis:names:tc:SAML:2.0:attrname-format:uri'>" +++
"<AttributeValue xmlns:_XMLSchema-instance='http://www.w3.org/2001/XMLSchema-instance' _XMLSchema-instance:type=''>Rick Sanchez" +++
"</AttributeValue></Attribute>" +++
"<Attribute FriendlyName='givenName' Name='urn:oid:2.5.4.42' NameFormat='urn:oasis:names:tc:SAML:2.0:attrname-format:uri'>" +++
"<AttributeValue xmlns:_XMLSchema-instance='http://www.w3.org/2001/XMLSchema-instance' _XMLSchema-instance:type=''>Rick" +++
"</AttributeValue></Attribute></AttributeStatement></Assertion>")).
Proof. vm_compute. reflexivity. Qed.

(** A response with an assertion whose use is limited by a proxy restriction. *)
Definition limited : Assertion :=
  set Assertion_Signature None
    (set Assertion_Conditions
       (Some (mkConditions (63764792839945 * Millisecond)%Z (63764793139945 * Millisecond)%Z [] (Some mkOneTimeUse)
          (Some (mkProxyRestriction (Some 1%Z) [mkAudience "http://localhost:8000/saml/metadata"])))) assertion).

Definition response : Response :=
  mkResponse "id" "request" "2.0" (63764792839945 * Millisecond)%Z "http://localhost:8000/saml/acs" "" (Some (Assertion_Issuer assertion)) None
    (mkStatus (mkStatusCode "Responder" (Some (mkStatusCode "AuthnFailed" None))) (Some (mkStatusMessage "no")) None)
    None (Some limited).

Lemma limited_is_ok : assertion_ok limited.
Proof.
  split; [by vm_compute|discriminate| | | |].
  - intros x [= <-]. repeat constructor; injection H as <-; by vm_compute.
  - intros x [= <-]. split_and!; [by vm_compute..|]. intros p [= <-]. simpl. intros n [= <-]. by vm_compute.
  - constructor; [|constructor]. split; [by vm_compute|discriminate].
  - constructor; [|constructor]. simpl. repeat constructor.
Qed.

Lemma response_is_ok : response_ok response.
Proof.
  split; [by vm_compute|discriminate| |discriminate|intros x [= <-]; exact limited_is_ok].
  split; [|discriminate]. apply Nat.leb_le. by vm_compute.
Qed.

Definition prints (e : outcome Element) : bool := match e with Ret e => printable e | _ => false end.

(** A byte that is not valid UTF-8 is printed as U+FFFD, and read as that. *)
Example invalid_byte_replaced : text_read (EscapeText ("a" +++ String "255" "b")) = Some ("a" +++ escFFFD +++ "b").
Proof. vm_compute. reflexivity. Qed.

Lemma messages_marshal_roundtrip_witness :
  prints (Response_MarshalXML "" "Response" response) = true ∧
  prints (ArtifactResolve_MarshalXML "" "ArtifactResolve" artifact_resolve) = true ∧
  marshals Response_MarshalXML Response_UnmarshalXML zero_Response "Response" response ∧
  marshals ArtifactResolve_MarshalXML ArtifactResolve_UnmarshalXML zero_ArtifactResolve "ArtifactResolve" artifact_resolve.
Proof.
  split; [vm_compute; reflexivity|]. split; [vm_compute; reflexivity|].
  destruct messages_marshal_roundtrip as (_ & _ & _ & Hresolve & Hresponse & _). split.
  - apply Hresponse. exact response_is_ok.
  - apply Hresolve. split; [by vm_compute|discriminate].
Defined.

(** A logout request without [NotOnOrAfter] cannot be written. *)
Example unlimited_logout_panics : LogoutRequest_MarshalXML "" "LogoutRequest" zero_LogoutRequest = Panic.
Proof. reflexivity. Qed.
End Examples.
