(* ===== verification/C14nReads.v ===== *)
(** * C14nReads: what a canonicalization leaves of what is read

    A signature covers the canonical form of an element, and the messages are read
    from elements.  Two elements read the same ([same_reading]) when their names
    resolve to the same name spaces, the attributes that declare nothing are the same up
    to order, and so are the text and the children; every reader of [SchemaDecode]
    [respects] this, and [TransformExcC14n] keeps it. *)

From stdpp Require Import base option list gmap strings sets.
From Stdlib Require Import ZArith Lia Ascii.
From S2P Require Import Prelude Go Etree C14n Schema XmlDecode SchemaDecode SchemaRoundtrip.

Open Scope string_scope.

(** ** Elements that read the same *)

(** The names of the attributes of all messages. *)
Definition saml_attrs : list string :=
  ["NameQualifier"; "SPNameQualifier"; "Format"; "SPProvidedID"; "AllowCreate"; "Comparison"; "NotOnOrAfter";
   "NotBefore"; "Recipient"; "InResponseTo"; "Address"; "Method"; "DNSName"; "AuthnInstant";
   "SessionNotOnOrAfter"; "SessionIndex"; "type"; "FriendlyName"; "Name"; "NameFormat"; "Value";
   "IssueInstant"; "ID"; "Version"; "Destination"; "Consent"; "ForceAuthn"; "IsPassive";
   "AssertionConsumerServiceIndex"; "AssertionConsumerServiceURL"; "ProtocolBinding";
   "AttributeConsumingServiceIndex"; "ProviderName"].

(** The attributes that declare no name space. *)
Definition own_attrs (e : Element) : list Attr := filter (λ a, is_ns_decl a = false) (Attrs e).

(** An attribute as a decoder sees it: its name space, its name and its value. *)
Definition resolved (ns : NSContext) (a : Attr) : string * string * string :=
  (attr_space ns a, Attr_Key a, Attr_Value a).

(** No attribute of a message is read from a declaration. *)
Definition decls_unread (e : Element) : Prop :=
  ∀ a, a ∈ Attrs e → is_ns_decl a = true → Attr_Key a ∉ saml_attrs.

Inductive same_reading (ns1 : NSContext) (e1 : Element) (ns2 : NSContext) (e2 : Element) : Prop :=
  | SameReading :
      Tag e1 = Tag e2 →
      element_space (xml_scope ns1 e1) e1 = element_space (xml_scope ns2 e2) e2 →
      map (resolved (xml_scope ns1 e1)) (own_attrs e1) ≡ₚ map (resolved (xml_scope ns2 e2)) (own_attrs e2) →
      NoDup (map Attr_Key (own_attrs e1)) →
      decls_unread e1 → decls_unread e2 →
      char_data (Child e1) = char_data (Child e2) →
      Forall2 (λ c1 c2, same_reading (xml_scope ns1 e1) c1 (xml_scope ns2 e2) c2)
        (ChildElements e1) (ChildElements e2) →
      same_reading ns1 e1 ns2 e2.

(** What is read from an element is read from every element that reads the same. *)
Definition respects {A} (read : Reader A) : Prop :=
  ∀ ns1 e1 ns2 e2 v w, same_reading ns1 e1 ns2 e2 → read ns1 e1 v = Ret w → read ns2 e2 v = Ret w.

(** ** Reading attributes in another order *)

Definition commute {A} (f g : A → outcome A) : Prop :=
  ∀ v w1 w, f v = Ret w1 → g w1 = Ret w → ∃ w2, g v = Ret w2 ∧ f w2 = Ret w.

Lemma commute_fold_r {A B} (f : A → outcome A) (g : B → A → outcome A) l :
  (∀ x, x ∈ l → commute f (g x)) → commute f (fold_each g l).
Proof.
  induction l as [|x l IH]; intros H v w1 w Hf Hg; simpl in *; [simplify_eq; eauto|].
  apply bind_ret in Hg as (w2 & Hg & Hl).
  destruct (H x ltac:(set_solver) v w1 w2 Hf Hg) as (w3 & H3 & H4).
  destruct (IH ltac:(set_solver) w3 w2 w H4 Hl) as (w4 & H5 & H6).
  exists w4. by rewrite H3.
Qed.

Lemma commute_fold_l {A B} (f : B → A → outcome A) (g : A → outcome A) l :
  (∀ x, x ∈ l → commute (f x) g) → commute (fold_each f l) g.
Proof.
  induction l as [|x l IH]; intros H v w1 w Hf Hg; simpl in *; [simplify_eq; eauto|].
  apply bind_ret in Hf as (w2 & Hf & Hl).
  destruct (IH ltac:(set_solver) w2 w1 w Hl Hg) as (w3 & H3 & H4).
  destruct (H x ltac:(set_solver) v w2 w3 Hf H3) as (w4 & H5 & H6).
  exists w4. split; [done|]. simpl. by rewrite H6.
Qed.

Lemma fold_each_perm {A B K} (key : B → K) (f : B → A → outcome A) l1 l2 :
  l1 ≡ₚ l2 → NoDup (map key l1) → (∀ x y, key x ≠ key y → commute (f x) (f y)) →
  ∀ v w, fold_each f l1 v = Ret w → fold_each f l2 v = Ret w.
Proof.
  intros Hp Hnd Hc. induction Hp as [|x l1 l2 Hp IH|x y l|l1 l2 l3 H12 IH1 H23 IH2]; intros v w Hr; [done|..].
  - simpl in *. apply NoDup_cons in Hnd as [_ Hnd]. apply bind_ret in Hr as (v1 & -> & Hr). simpl. auto.
  - simpl in Hr. apply bind_ret in Hr as (v1 & Hy & Hr). apply bind_ret in Hr as (v2 & Hx & Hr).
    assert (Hxy : key y ≠ key x) by (simpl in Hnd; apply NoDup_cons in Hnd as [Hnd _]; set_solver).
    destruct (Hc y x Hxy v v1 v2 Hy Hx) as (w2 & H1 & H2). simpl. by rewrite H1; simpl; rewrite H2.
  - apply IH2; [|by apply IH1]. by rewrite <- H12.
Qed.

(** The fields of a struct, each with an attribute name of a message, whose assignments
    commute, and with readers of its children that respect. *)
Definition fields_commute {A} (f g : Field A) : Prop :=
  match f, g with
  | FAttr _ n read, FAttr _ n' read' => n ≠ n' → ∀ s s', commute (read s) (read' s')
  | _, _ => True
  end.

Definition field_respects {A} (f : Field A) : Prop :=
  match f with
  | FAttr _ n _ => n ∈ saml_attrs
  | FElement _ _ read => respects read
  | FCharData _ => True
  end.

Definition fields_ok {A} (F : list (Field A)) : Prop :=
  Forall field_respects F ∧ Forall (λ f, Forall (fields_commute f) F) F.

Section fields.
Context {A : Type} (F : list (Field A)).

(** [read_attr] on what the decoder sees of an attribute. *)
Definition assign_resolved (t : string * string * string) (f : Field A) (v : A) : outcome A :=
  match f with
  | FAttr xmlns name assign =>
      if (t.1.2 =? name) && ((xmlns =? "") || (xmlns =? t.1.1)) then assign t.2 v else Ret v
  | _ => Ret v
  end.

Lemma read_attr_resolved ns a v : read_attr F ns a v = fold_each (assign_resolved (resolved ns a)) F v.
Proof. done. Qed.

Lemma read_attr_unread ns a v : Forall field_respects F → Attr_Key a ∉ saml_attrs → read_attr F ns a v = Ret v.
Proof.
  intros HF Ha. unfold read_attr. induction HF as [|f fs Hf _ IH]; [done|]. simpl.
  enough (H : assign_attr ns a f v = Ret v) by (rewrite H; exact IH).
  destruct f as [x n read| |]; [|done..]. cbn [assign_attr].
  destruct (String.eqb_spec (Attr_Key a) n) as [E|]; [|done]. destruct Ha. rewrite E. exact Hf.
Qed.

(** The declarations are not read. *)
Lemma read_own ns e v : Forall field_respects F → decls_unread e →
  fold_each (read_attr F ns) (Attrs e) v
  = fold_each (λ t, fold_each (assign_resolved t) F) (map (resolved ns) (own_attrs e)) v.
Proof.
  intros HF He. unfold own_attrs, decls_unread in *. revert v.
  induction (Attrs e) as [|a l IH]; intros v; [done|]. rewrite filter_cons. cbn [fold_each].
  destruct (decide (is_ns_decl a = false)) as [Ha|Ha]; cbn [map fold_each].
  - rewrite read_attr_resolved. destruct (fold_each _ F v); simpl; [|done..]. apply IH.
    intros b Hb. apply He. by right.
  - rewrite read_attr_unread; [|done|apply He; [by left|by apply not_false_iff_true]].
    rewrite ret_bind. apply IH. intros b Hb. apply He. by right.
Qed.

Lemma resolved_commute t t' : Forall (λ f, Forall (fields_commute f) F) F → t.1.2 ≠ t'.1.2 →
  commute (fold_each (assign_resolved t) F) (fold_each (assign_resolved t') F).
Proof.
  intros HF Ht. apply commute_fold_l. intros f Hf. apply commute_fold_r. intros g Hg.
  rewrite Forall_forall in HF. specialize (HF f Hf). rewrite Forall_forall in HF. specialize (HF g Hg).
  intros v w1 w H1 H2. destruct f, g; simpl in *; simplify_eq; eauto.
  - destruct (String.eqb_spec t.1.2 name); simpl in *; [|simplify_eq; eauto].
    destruct (String.eqb_spec t'.1.2 name0); simpl in *; [|simplify_eq; eauto].
    repeat case_match; simplify_eq; eauto. eapply HF; [congruence|done..].
Qed.

Lemma children_respect ns1 ns2 l1 l2 v w : Forall field_respects F →
  Forall2 (λ c1 c2, same_reading ns1 c1 ns2 c2) l1 l2 →
  fold_each (unmarshalPath F ns1) l1 v = Ret w → fold_each (unmarshalPath F ns2) l2 v = Ret w.
Proof.
  intros HF Hl. revert v. induction Hl as [|c1 c2 l1 l2 Hc _ IH]; intros v; simpl; [done|].
  intros (v' & Hv & Hr)%bind_ret. assert (H : unmarshalPath F ns2 c2 v = Ret v'); [|rewrite H; simpl; auto].
  clear IH Hr. destruct Hc as [Ht Hs Ha Hnd Hd1 Hd2 Hx Hc]. pose proof (SameReading _ _ _ _ Ht Hs Ha Hnd Hd1 Hd2 Hx Hc) as Hsame.
  induction HF as [|f fs Hf _ IH]; simpl in *; [done|]. destruct f; auto.
  rewrite <- Ht, <- Hs. case_match; [|auto]. by eapply Hf.
Qed.
End fields.

(** ** Readers *)

Lemma respects_struct {A} n (F : list (Field A)) : fields_ok F → respects (unmarshal_struct n F).
Proof.
  intros [HF Hc] ns1 e1 ns2 e2 v w [Ht Hs Ha Hnd Hd1 Hd2 Hx Hch]. unfold unmarshal_struct.
  set (D1 := xml_scope ns1 e1) in *. set (D2 := xml_scope ns2 e2) in *.
  assert (He : expect_name n D2 e2 = expect_name n D1 e1) by (unfold expect_name; by rewrite Ht, Hs).
  rewrite He. intros (u & -> & H)%bind_ret. rewrite ret_bind.
  rewrite !read_own in * by done. apply bind_ret in H as (va & Hva & H).
  assert (Hvb : fold_each (λ t, fold_each (assign_resolved t) F) (map (resolved D2) (own_attrs e2)) v = Ret va).
  { eapply (fold_each_perm (λ t : string * string * string, t.1.2)); [exact Ha| |intros; by apply resolved_commute|done].
    by rewrite map_map. }
  rewrite Hvb, ret_bind. rewrite read_children in *.
  apply bind_ret in H as (vl & Hvl & H). eapply (children_respect F D1 D2) in Hvl; [|done|exact Hch].
  unfold ChildElements in Hvl. rewrite Hvl, ret_bind. by rewrite <- Hx.
Qed.

Lemma respects_constant {A} (f : A → outcome A) : respects (λ _ _, f).
Proof. by intros ns1 e1 ns2 e2 v w _ H. Qed.

Lemma respects_simple {F} (copy : string → outcome F) : respects (simple copy).
Proof. intros ns1 e1 ns2 e2 v w [_ _ _ _ _ _ Hx _]. unfold simple. by rewrite Hx. Qed.

Lemma respects_bind {A B} (read : Reader A) (get : B → A) (put : A → B → outcome B) :
  respects read → respects (λ ns e v, x ← read ns e (get v); put x v).
Proof.
  intros H ns1 e1 ns2 e2 v w Hsame (x & Hx & Hr)%bind_ret. by rewrite (H _ _ _ _ _ _ Hsame Hx).
Qed.

Lemma respects_pointer {F} (zero : F) read : respects read → respects (pointer zero read).
Proof. intros H. by apply (respects_bind read (default zero) (λ x _, Ret (Some x))). Qed.

Lemma respects_slice {F} (zero : F) read : respects read → respects (slice zero read).
Proof. intros H. by apply (respects_bind read (λ _, zero) (λ x l, Ret (l ++ [x])%list)). Qed.

Lemma child_respects {A F} xmlns name (proj : A → F) `{!Setter proj} read :
  respects read → field_respects (child xmlns name proj read).
Proof. intros H. by apply (respects_bind read proj (λ x v, Ret (set proj x v))). Qed.

Lemma respects_pre {A} (f : A → A) (read : Reader A) : respects read → respects (λ ns e v, read ns e (f v)).
Proof. intros H ns1 e1 ns2 e2 v w Hs Hr. by eapply H. Qed.

(** Assignments to different fields commute. *)
Lemma attrs_commute {A F G} x y n n' (p : A → F) `{!Setter p} (q : A → G) `{!Setter q} read read' :
  (∀ a b v, set q b (set p a v) = set p a (set q b v)) →
  fields_commute (attr_ns x n p read) (attr_ns y n' q read').
Proof.
  intros H _ s s' v w1 w. intros (a & Ha & [= <-])%bind_ret (b & Hb & [= <-])%bind_ret.
  rewrite Ha, Hb. eexists. split; [done|]. simpl. by rewrite H.
Qed.

Lemma attrs_same {A F} x y n (p : A → F) `{!Setter p} (q : A → F) `{!Setter q} read read' :
  fields_commute (attr_ns x n p read) (attr_ns y n q read').
Proof. by intros []. Qed.

Create HintDb reading discriminated.

(** [fields_ok] of a list of fields: the readers of the children are known to respect. *)
Ltac saml_attr n :=
  change (n ∈ saml_attrs); apply (bool_decide_eq_true_1 (n ∈ saml_attrs)); vm_compute; reflexivity.
Ltac respect_field :=
  lazymatch goal with
  | |- field_respects (child _ _ _ _) => apply child_respects; solve [eauto 10 with reading]
  | |- field_respects (chardata _) => exact I
  | |- field_respects (attr ?n _ _) => saml_attr n
  | |- field_respects (attr_ns _ ?n _ _) => saml_attr n
  end.
Ltac commute_fields :=
  first [exact I|apply attrs_same|apply attrs_commute; intros; reflexivity].
Ltac each_field := repeat first [apply Forall_nil_2|apply Forall_cons_2].
Ltac fields_tac := split; [each_field; respect_field|each_field; commute_fields].

#[export] Hint Resolve respects_pointer respects_slice respects_simple : reading.

(** The readers of all types of [SchemaDecode]. *)
Ltac reader := repeat apply respects_pre; apply respects_struct; fields_tac.

Lemma Attr_respects : respects (unmarshal_struct None Attr_fields).
Proof. reader. Qed.
#[export] Hint Resolve Attr_respects respects_constant : reading.

Lemma Element_respects : respects Element_Unmarshal.
Proof. reader. Qed.
Lemma Issuer_respects : respects Issuer_Unmarshal.
Proof. reader. Qed.
Lemma NameID_respects : respects NameID_Unmarshal.
Proof. reader. Qed.
Lemma NameIDPolicy_respects : respects NameIDPolicy_Unmarshal.
Proof. reader. Qed.
Lemma RequestedAuthnContext_respects : respects RequestedAuthnContext_Unmarshal.
Proof. reader. Qed.
Lemma SessionIndex_respects : respects SessionIndex_Unmarshal.
Proof. reader. Qed.
#[export] Hint Resolve Element_respects Issuer_respects NameID_respects NameIDPolicy_respects RequestedAuthnContext_respects SessionIndex_respects : reading.

Lemma SubjectConfirmationData_respects : respects SubjectConfirmationData_UnmarshalXML.
Proof. apply (respects_pre _ (unmarshal_struct None SubjectConfirmationData_fields)), respects_struct. fields_tac. Qed.
#[export] Hint Resolve SubjectConfirmationData_respects : reading.

Lemma SubjectConfirmation_respects : respects SubjectConfirmation_Unmarshal.
Proof. reader. Qed.
#[export] Hint Resolve SubjectConfirmation_respects : reading.

Lemma Subject_respects : respects Subject_Unmarshal.
Proof. reader. Qed.
Lemma Audience_respects : respects Audience_Unmarshal.
Proof. reader. Qed.
#[export] Hint Resolve Subject_respects Audience_respects : reading.

Lemma AudienceRestriction_respects : respects AudienceRestriction_Unmarshal.
Proof. reader. Qed.
Lemma OneTimeUse_respects : respects OneTimeUse_Unmarshal.
Proof. reader. Qed.
Lemma ProxyRestriction_respects : respects ProxyRestriction_Unmarshal.
Proof. reader. Qed.
#[export] Hint Resolve AudienceRestriction_respects OneTimeUse_respects ProxyRestriction_respects : reading.

Lemma Conditions_respects : respects Conditions_UnmarshalXML.
Proof. apply (respects_pre _ (unmarshal_struct None Conditions_fields)), respects_struct. fields_tac. Qed.
Lemma SubjectLocality_respects : respects SubjectLocality_Unmarshal.
Proof. reader. Qed.
Lemma AuthnContextClassRef_respects : respects AuthnContextClassRef_Unmarshal.
Proof. reader. Qed.
#[export] Hint Resolve Conditions_respects SubjectLocality_respects AuthnContextClassRef_respects : reading.

Lemma AuthnContext_respects : respects AuthnContext_Unmarshal.
Proof. reader. Qed.
#[export] Hint Resolve AuthnContext_respects : reading.

Lemma AuthnStatement_respects : respects AuthnStatement_UnmarshalXML.
Proof. apply (respects_pre _ (unmarshal_struct None AuthnStatement_fields)), respects_struct. fields_tac. Qed.
Lemma AttributeValue_respects : respects AttributeValue_Unmarshal.
Proof. reader. Qed.
#[export] Hint Resolve AuthnStatement_respects AttributeValue_respects : reading.

Lemma Attribute_respects : respects Attribute_Unmarshal.
Proof. reader. Qed.
#[export] Hint Resolve Attribute_respects : reading.

Lemma AttributeStatement_respects : respects AttributeStatement_Unmarshal.
Proof. reader. Qed.
#[export] Hint Resolve AttributeStatement_respects : reading.

Lemma StatusCode_respects budget : respects (StatusCode_Unmarshal budget).
Proof.
  induction budget as [|budget IH]; [apply respects_constant|]. apply respects_struct. split.
  - apply Forall_cons_2; [saml_attr "Value"|apply Forall_cons_2; [|apply Forall_nil_2]].
    intros ns1 e1 ns2 e2 [value sub] w Hs (c & Hc & Hw)%bind_ret.
    apply bind_ret. exists c. split; [exact (respects_pointer _ _ IH _ _ _ _ _ _ Hs Hc)|done].
  - each_field; try exact I. by intros [].
Qed.
#[export] Hint Resolve StatusCode_respects : reading.

Lemma StatusMessage_respects : respects StatusMessage_Unmarshal.
Proof. reader. Qed.
Lemma StatusDetail_respects : respects StatusDetail_Unmarshal.
Proof. reader. Qed.
#[export] Hint Resolve StatusMessage_respects StatusDetail_respects : reading.

Lemma Status_respects : respects Status_Unmarshal.
Proof. reader. Qed.
#[export] Hint Resolve Status_respects : reading.

Lemma AuthnRequest_respects : respects AuthnRequest_UnmarshalXML.
Proof.
  apply (respects_pre _ (unmarshal_struct (protocol_name "AuthnRequest") AuthnRequest_fields)), respects_struct. fields_tac.
Qed.
Lemma LogoutRequest_respects : respects LogoutRequest_UnmarshalXML.
Proof.
  apply (respects_pre _ (unmarshal_struct (protocol_name "LogoutRequest") LogoutRequest_fields)), respects_struct. fields_tac.
Qed.
Lemma LogoutResponse_respects : respects LogoutResponse_UnmarshalXML.
Proof.
  apply (respects_pre _ (unmarshal_struct (protocol_name "LogoutResponse") LogoutResponse_fields)), respects_struct. fields_tac.
Qed.
Lemma Assertion_respects : respects Assertion_UnmarshalXML.
Proof.
  apply (respects_pre _ (unmarshal_struct (assertion_name "Assertion") Assertion_fields)), respects_struct. fields_tac.
Qed.
#[export] Hint Resolve Assertion_respects : reading.

Lemma Response_respects : respects Response_UnmarshalXML.
Proof.
  apply (respects_pre _ (unmarshal_struct (protocol_name "Response") Response_fields)), respects_struct. fields_tac.
Qed.
#[export] Hint Resolve Response_respects : reading.

Lemma ArtifactResponse_respects : respects ArtifactResponse_UnmarshalXML.
Proof.
  apply (respects_pre _ (unmarshal_struct (protocol_name "ArtifactResponse") ArtifactResponse_fields)), respects_struct. fields_tac.
Qed.
