(* ===== verification/C14nSpec.v ===== *)
(** * C14nSpec: exclusive canonicalization keeps what is read

    [SortAttrs] permutes, [declare_prefixes] declares the prefixes in use, and so
    the canonical form of an element reads the same as the element
    ([TransformExcC14n_same]); an element whose prefixes are all declared has a canonical
    form ([TransformExcC14n_returns]). *)

From stdpp Require Import base option list gmap strings sets.
From Stdlib Require Import ZArith Lia Ascii.
From S2P Require Import Prelude Go Etree C14n Schema XmlDecode SchemaDecode SchemaRoundtrip C14nReads.

Open Scope string_scope.

(** ** Sorting *)

Lemma sort_insert_perm rp x post : sort_insert rp x post ≡ₚ rp ++ x :: post.
Proof.
  revert post. induction rp as [|y rp IH]; intros post; simpl; [done|]. case_match.
  - rewrite IH. rewrite <- Permutation_middle. symmetry. rewrite <- Permutation_middle.
    rewrite <- Permutation_middle. apply Permutation_swap.
  - rewrite reverse_Permutation. rewrite <- !Permutation_middle. done.
Qed.

Lemma sort_from_perm n attrs todo : sort_from n attrs todo ≡ₚ attrs.
Proof.
  revert n attrs. induction todo as [|todo IH]; intros n attrs; simpl; [done|].
  destruct (attrs !! n) as [x|] eqn:Hx; [|done]. rewrite IH, sort_insert_perm, reverse_Permutation.
  by rewrite (take_drop_middle _ _ _ Hx).
Qed.

Lemma SortAttrs_perm attrs : SortAttrs attrs ≡ₚ attrs.
Proof. apply sort_from_perm. Qed.

(** ** Declarations *)

Lemma ns_insert_eq (ns : NSContext) p u : <[p := u]> ns !! p = Some u.
Proof. apply lookup_insert_eq. Qed.

Lemma ns_insert_ne (ns : NSContext) p q u : p ≠ q → <[p := u]> ns !! q = ns !! q.
Proof. apply lookup_insert_ne. Qed.

(** The prefix and the name space that an attribute declares. *)
Definition decl_of (a : Attr) : option (string * string) :=
  if Attr_Space a =? "xmlns" then Some (Attr_Key a, Attr_Value a)
  else if (Attr_Space a =? "") && (Attr_Key a =? "xmlns") then Some ("", Attr_Value a)
  else None.

Lemma xml_declare_decl ns a :
  xml_declare ns a = match decl_of a with Some (p, u) => <[p := u]> ns | None => ns end.
Proof. unfold xml_declare, decl_of. by repeat case_match. Qed.

Lemma is_ns_decl_of a : is_ns_decl a = match decl_of a with Some _ => true | None => false end.
Proof.
  unfold is_ns_decl, is_default_decl, decl_of, xmlnsPrefix, defaultPrefix.
  destruct (String.eqb_spec (Attr_Space a) "xmlns") as [->|?]; [done|].
  rewrite (bool_decide_false (Attr_Space a = "xmlns")) by done. simpl.
  destruct (String.eqb_spec (Attr_Space a) "") as [->|?]; simpl.
  - by destruct (String.eqb_spec (Attr_Key a) "xmlns") as [->|?]; case_bool_decide.
  - by rewrite bool_decide_false by done.
Qed.

Lemma decl_of_declare p u : decl_of (declare p u) = Some (p, u).
Proof. unfold declare, decl_of, defaultPrefix. case_bool_decide; by subst. Qed.

(** The declarations of a list in a scope: none, or all the same. *)
Lemma declare_none l ns p : (∀ a u, a ∈ l → decl_of a ≠ Some (p, u)) → foldl xml_declare ns l !! p = ns !! p.
Proof.
  revert ns. induction l as [|a l IH]; intros ns H; simpl; [done|]. rewrite IH by (intros; apply H; by right).
  rewrite xml_declare_decl. destruct (decl_of a) as [[q u]|] eqn:E; [|done].
  apply ns_insert_ne. intros ->. by apply (H a u); [left|].
Qed.

Lemma declare_some l ns p u a : a ∈ l → decl_of a = Some (p, u) →
  (∀ b v, b ∈ l → decl_of b = Some (p, v) → v = u) → foldl xml_declare ns l !! p = Some u.
Proof.
  intros Ha Hd Hu. induction l as [|b l IH] using rev_ind; [by apply not_elem_of_nil in Ha|].
  rewrite foldl_app. simpl. rewrite xml_declare_decl.
  destruct (decl_of b) as [[q v]|] eqn:E; [destruct (decide (q = p)) as [->|]|].
  - rewrite ns_insert_eq. f_equal. apply (Hu b); [|done]. apply elem_of_app. right. by left.
  - rewrite ns_insert_ne by done. apply elem_of_app in Ha as [Ha|Ha%list_elem_of_singleton]; [|congruence].
    apply IH; [done|]. intros c w Hc. apply Hu. apply elem_of_app. by left.
  - apply elem_of_app in Ha as [Ha|Ha%list_elem_of_singleton]; [|congruence].
    apply IH; [done|]. intros c w Hc. apply Hu. apply elem_of_app. by left.
Qed.

(** [SubContext] adds the declarations that a decoder adds. *)
Lemma SubContext_scope ctx e scope : SubContext ctx e = Ret scope → scope = xml_scope ctx e.
Proof.
  unfold SubContext, xml_scope. revert ctx. induction (Attrs e) as [|a l IH]; intros ctx; simpl; [by intros [= ->]|].
  unfold xml_declare at 2, xmlnsPrefix, defaultPrefix.
  destruct (String.eqb_spec (Attr_Space a) "xmlns") as [Hs|Hs].
  - rewrite bool_decide_true by done. intros H. go_inv. by apply IH.
  - rewrite bool_decide_false by done.
    destruct (String.eqb_spec (Attr_Space a) "") as [H1|H1]; simpl.
    + rewrite bool_decide_true by done. destruct (String.eqb_spec (Attr_Key a) "xmlns") as [H2|H2]; simpl.
      * rewrite bool_decide_true by done. intros H. simpl in H. go_inv. by apply IH.
      * rewrite bool_decide_false by done. apply IH.
    + rewrite bool_decide_false by done. apply IH.
Qed.

(** What [declare_prefixes] declares. *)
Lemma declare_prefixes_spec scope declared ps d new :
  declare_prefixes scope declared ps = Ret (d, new) →
  (∀ p, p ∈ ps → d !! p = scope !! p ∧ is_Some (scope !! p)) ∧
  (∀ p, p ∉ ps → d !! p = declared !! p) ∧
  (∀ a, a ∈ new → ∃ p u, a = declare p u ∧ p ∈ ps ∧ scope !! p = Some u ∧ declared !! p ≠ scope !! p) ∧
  (∀ p, p ∈ ps → declared !! p = scope !! p ∨ ∃ u, scope !! p = Some u ∧ declare p u ∈ new).
Proof.
  revert declared d new. induction ps as [|q ps IH]; intros declared d new; simpl.
  { intros [= <- <-]. split_and!; [|done|..]; intros ? ?%not_elem_of_nil; done. }
  case_match eqn:E.
  - bool_prop. intros (H1 & H2 & H3 & H4)%IH. split_and!.
    + intros p [->|Hp]%elem_of_cons; [|by apply H1].
      destruct (decide (q ∈ ps)) as [Hq|Hq]; [by apply H1|]. rewrite H2, <- H0 by done. done.
    + intros p [Hpq Hp]%not_elem_of_cons. by apply H2.
    + intros a (p & u & ? & Hp & ? & ?)%H3. exists p, u. split_and!; [done|by right|done..].
    + intros p [->|Hp]%elem_of_cons; [by left|by apply H4].
  - intros (u & Hu & H)%bind_ret. apply bind_ret in H as ([d' new'] & H & [= <- <-]).
    apply or_err_ret in Hu. apply IH in H as (H1 & H2 & H3 & H4). split_and!.
    + intros p [->|Hp]%elem_of_cons; [|by apply H1].
      destruct (decide (q ∈ ps)) as [Hq|Hq]; [by apply H1|]. simpl. rewrite H2, ns_insert_eq by done. by rewrite Hu.
    + intros p [Hpq Hp]%not_elem_of_cons. simpl. by rewrite H2, ns_insert_ne by done.
    + intros a [->|Ha]%elem_of_cons.
      * exists q, u. split_and!; [done|by left|done|]. intros Hq. rewrite Hq, Hu in E.
        by rewrite !bool_decide_true in E by (done || by eexists).
      * apply H3 in Ha as (p & v & ? & Hp & Hv & Hne). exists p, v. split_and!; [done|by right|done|].
        intros Hq. apply Hne. destruct (decide (p = q)) as [->|]; [by rewrite ns_insert_eq|].
        by rewrite ns_insert_ne by done.
    + intros p [->|Hp]%elem_of_cons; [right; exists u; split; [done|by left]|].
      destruct (H4 p Hp) as [Hq|(v & Hv & Hin)]; [|right; exists v; split; [done|by right]].
      destruct (decide (p = q)) as [->|]; [right; exists u; split; [done|by left]|].
      left. by rewrite ns_insert_ne in Hq by done.
Qed.

(** ** The scopes of a decoder and of a canonicalizer *)

(** A canonicalizer starts with the default prefixes, a decoder with none; the prefix
    [xml] is translated without a lookup. *)
Definition declared_default (o : option string) : option string :=
  if bool_decide (o = Some XMLNamespace) then None else o.

Record scopes (D S : NSContext) : Prop := {
  scopes_prefix p u : p ≠ "" → p ≠ "xml" → p ≠ "xmlns" → S !! p = Some u → D !! p = Some u;
  scopes_default : D !! "" = declared_default (S !! "");
  scopes_url : D !! XMLNamespace = None;
  scopes_url' : S !! XMLNamespace = None
}.

Lemma scopes_start D : D !! "" = None → D !! XMLNamespace = None → scopes D default_prefixes.
Proof.
  intros H0 Hu. split; [|done..]. intros p u H1 H2 H3. unfold default_prefixes, defaultPrefix, xmlPrefix, xmlnsPrefix.
  by rewrite !ns_insert_ne by congruence.
Qed.

Lemma translate_scopes D1 S1 D2 S2 b p u local : scopes D1 S1 → scopes D2 S2 →
  S1 !! p = Some u → S2 !! p = Some u → translate D1 b p local = translate D2 b p local.
Proof.
  intros [H1 E1 U1 _] [H2 E2 U2 _] HS1 HS2. unfold translate, xmlnsPrefix, xmlPrefix.
  destruct (String.eqb_spec p "xmlns") as [|Hxmlns]; [done|].
  destruct ((p =? "") && negb b); [done|]. case_match; [done|].
  destruct (String.eqb_spec p "xml") as [->|Hxml]; [by rewrite U1, U2|].
  destruct (decide (p = "")) as [->|Hne]; [by rewrite E1, E2, HS1, HS2|].
  by rewrite (H1 p u), (H2 p u) by done.
Qed.

(** A declaration that binds a prefix that is no name of an attribute, and not the default
    name space to that of [xml]. *)
Definition clean_decl (a : Attr) : bool :=
  match decl_of a with
  | None => true
  | Some (p, u) =>
      bool_decide (p ∉ saml_attrs) && (p != XMLNamespace) && negb ((p == "") && (u == XMLNamespace))
        && negb ((p == "") && (u == XMLNSNamespace))
  end.

Definition unread_prefixes (S : NSContext) : Prop := ∀ p, is_Some (S !! p) → p ∉ saml_attrs.

Lemma declare_scopes D S l : scopes D S → forallb clean_decl l = true →
  scopes (foldl xml_declare D l) (foldl xml_declare S l).
Proof.
  revert D S. induction l as [|a l IH]; intros D S HDS; simpl; [done|]. intros [Ha Hl]%andb_true_iff.
  apply IH; [|done]. rewrite !xml_declare_decl. unfold clean_decl in Ha.
  destruct (decl_of a) as [[p u]|]; [|done]. destruct HDS as [H1 H2 H3 H4]. bool_prop. split.
  - intros q v Hq1 Hq2 Hq3. destruct (decide (p = q)) as [->|]; [by rewrite !ns_insert_eq|].
    rewrite !ns_insert_ne by done. by apply H1.
  - destruct (decide (p = "")) as [->|]; [|by rewrite !ns_insert_ne by done].
    rewrite !ns_insert_eq. unfold declared_default. rewrite bool_decide_false; [done|].
    intros [= ->]. rewrite !bool_decide_true in * by done. done.
  - by rewrite ns_insert_ne by done.
  - by rewrite ns_insert_ne by done.
Qed.

Lemma declare_unread S l : unread_prefixes S → forallb clean_decl l = true →
  unread_prefixes (foldl xml_declare S l).
Proof.
  revert S. induction l as [|a l IH]; intros S HS; simpl; [done|]. intros [Ha Hl]%andb_true_iff.
  apply IH; [|done]. rewrite xml_declare_decl. unfold clean_decl in Ha.
  destruct (decl_of a) as [[p u]|]; [|done]. bool_prop. intros q Hq.
  destruct (decide (p = q)) as [->|]; [done|]. rewrite ns_insert_ne in Hq by done. by apply HS.
Qed.

(** The default name space is never bound to that of [xml]. *)
Lemma declare_default S l : forallb clean_decl l = true →
  foldl xml_declare S l !! "" = Some XMLNamespace → S !! "" = Some XMLNamespace.
Proof.
  revert S. induction l as [|a l IH]; intros S; simpl; [done|]. intros [Ha Hl]%andb_true_iff H.
  apply IH in H; [|done]. rewrite xml_declare_decl in H. unfold clean_decl in Ha.
  destruct (decl_of a) as [[p u]|]; [|done]. bool_prop.
  destruct (decide (p = "")) as [->|]; [|by rewrite ns_insert_ne in H by done].
  rewrite ns_insert_eq in H. by simplify_eq.
Qed.

(** The state of the canonicalizer, and the decoders of the element and of its canonical
    form. *)
Record related (D1 S D2 Dc : NSContext) : Prop := {
  related_element : scopes D1 S;
  related_canonical : scopes D2 Dc;
  related_default : S !! "" = Some XMLNamespace → Dc !! "" = Some XMLNamespace;
  related_unread : unread_prefixes S
}.

(** The declarations that are left in the canonical form put it in the scope that the
    canonicalizer remembers. *)
Lemma canonical_scopes S D2 Dc ps d new own l :
  scopes D2 Dc → (S !! "" = Some XMLNamespace → Dc !! "" = Some XMLNamespace) → S !! XMLNamespace = None →
  declare_prefixes S Dc ps = Ret (d, new) → l ≡ₚ (own ++ new)%list → Forall (λ a, is_ns_decl a = false) own →
  scopes (foldl xml_declare D2 l) d.
Proof.
  intros [H1 H2 H3 H4] Hdef Hurl (P1 & P2 & P3 & P4)%declare_prefixes_spec Hl Hown.
  assert (Hdecl : ∀ a p u, a ∈ l → decl_of a = Some (p, u) → S !! p = Some u ∧ p ∈ ps ∧ Dc !! p ≠ S !! p).
  { intros a p u Ha Hd. rewrite Hl in Ha. apply elem_of_app in Ha as [Ha|Ha].
    - rewrite Forall_forall in Hown. apply Hown in Ha. by rewrite is_ns_decl_of, Hd in Ha.
    - apply P3 in Ha as (q & v & -> & Hq & Hv & Hne). rewrite decl_of_declare in Hd. by simplify_eq. }
  assert (Hlook : ∀ p, foldl xml_declare D2 l !! p = (if decide (p ∈ ps ∧ Dc !! p ≠ S !! p) then S !! p else D2 !! p)).
  { intros p. case_decide as Hp.
    - destruct Hp as [Hp Hne]. destruct (P4 p Hp) as [|(u & Hu & Hin)]; [done|]. rewrite Hu.
      eapply (declare_some _ _ _ _ (declare p u)); [rewrite Hl; apply elem_of_app; by right|apply decl_of_declare|].
      intros b v Hb Hdb. apply Hdecl in Hdb as [Hv _]; [|done]. congruence.
    - apply declare_none. intros a u Ha Hd. apply Hdecl in Hd as (_ & ? & ?); auto. }
  assert (Hd : ∀ p, d !! p = if decide (p ∈ ps ∧ Dc !! p ≠ S !! p) then S !! p else Dc !! p).
  { intros p. case_decide as Hp; [by apply P1, Hp|]. destruct (decide (p ∈ ps)) as [Hin|Hin]; [|by apply P2].
    destruct (P1 p Hin) as [-> _]. destruct (decide (Dc !! p = S !! p)); [done|]. by destruct Hp. }
  split.
  - intros p u Hp1 Hp2 Hp3. rewrite Hlook, Hd. case_decide; [done|]. by apply H1.
  - rewrite Hlook, Hd. case_decide as Hp; [|done]. unfold declared_default.
    rewrite bool_decide_false; [done|]. intros HS. destruct Hp as [_ Hne]. apply Hne. rewrite HS. by apply Hdef.
  - rewrite Hlook. by case_decide.
  - rewrite Hd. by case_decide.
Qed.

(** ** The canonical form reads the same *)

(** Elements whose attributes have distinct names, with clean declarations. *)
Fixpoint readable (e : Element) : bool :=
  bool_decide (NoDup (map Attr_Key (own_attrs e))) && forallb clean_decl (Attrs e) &&
  (fix go (c : list Token) : bool :=
     match c with
     | [] => true
     | TElement x :: c => readable x && go c
     | _ :: c => go c
     end) (Child e).

(** The loop over the children. *)
Section children.
Context (transform : Element → outcome Element) (comments : bool).

Fixpoint c14n_children (c : list Token) : outcome (list Token) :=
  match c with
  | [] => Ret []
  | TElement child :: c =>
      child ← transform child;
      c ← c14n_children c;
      Ret (TElement child :: c)
  | TComment t :: c =>
      c ← c14n_children c;
      Ret (if comments then TComment t :: c else c)
  | t :: c =>
      c ← c14n_children c;
      Ret (t :: c)
  end.
End children.

Lemma transformExcC14n_eq ctx declared incl comments el :
  transformExcC14n ctx declared incl comments el
  = (scope ← SubContext ctx el;
     r ← declare_prefixes scope declared (elements (visiblyUtilizedPrefixes incl el));
     children ← c14n_children (transformExcC14n scope r.1 incl comments) comments (Child el);
     Ret (mkElement (Space el) (Tag el) (SortAttrs (own_attrs el ++ r.2)) children)).
Proof. by destruct el. Qed.

Lemma readable_children e : readable e = true → ∀ c, c ∈ ChildElements e → readable c = true.
Proof.
  intros H. destruct e as [s t a c]. unfold ChildElements. simpl in *. apply andb_true_iff in H as [_ H].
  induction c as [|[x| | |] c IH]; simpl in *; [by intros ? ?%not_elem_of_nil| |auto..].
  apply andb_true_iff in H as [Hx Hc]. intros y [->|Hy]%elem_of_cons; auto.
Qed.

Lemma c14n_children_spec f comments c c' : c14n_children f comments c = Ret c' →
  char_data c' = char_data c ∧
  Forall2 (λ x y, f x = Ret y) (omap token_element c) (omap token_element c').
Proof.
  revert c'. induction c as [|t c IH]; intros c'; simpl; [intros [= <-]; split; [done|constructor]|].
  destruct t as [x|s|s|s]; intros H; go_inv;
    match goal with H : c14n_children _ _ _ = Ret _ |- _ => apply IH in H as [Hx Hc] end; simpl.
  - split; [done|by constructor].
  - by rewrite Hx.
  - by destruct comments.
  - done.
Qed.

Lemma visible_space incl e : Space e ∈ elements (visiblyUtilizedPrefixes incl e).
Proof. apply elem_of_elements. unfold visiblyUtilizedPrefixes. set_solver. Qed.

Lemma visible_attr incl e a : a ∈ own_attrs e → Attr_Space a ≠ "" →
  Attr_Space a ∈ elements (visiblyUtilizedPrefixes incl e).
Proof.
  intros [Ha Hin]%list_elem_of_filter Hne. apply elem_of_elements. unfold visiblyUtilizedPrefixes.
  apply elem_of_union. right. apply elem_of_list_to_set. apply list_elem_of_omap. exists a. split; [done|].
  unfold is_ns_decl in Ha. apply orb_false_iff in Ha as [Hx Hd]. rewrite Hx, Hd. by rewrite bool_decide_false.
Qed.

Lemma own_perm e new l : l ≡ₚ (own_attrs e ++ new)%list → Forall (λ a, is_ns_decl a = true) new →
  filter (λ a, is_ns_decl a = false) l ≡ₚ own_attrs e.
Proof.
  intros -> Hnew. rewrite filter_app. unfold own_attrs at 1. rewrite list_filter_filter_l by done.
  assert (H : filter (λ a, is_ns_decl a = false) new = []).
  { induction Hnew as [|a new Ha _ IH]; [done|]. by rewrite filter_cons_False by congruence. }
  by rewrite H, app_nil_r.
Qed.

Lemma own_attrs_plain e : Forall (λ a, is_ns_decl a = false) (own_attrs e).
Proof. apply Forall_forall. by intros a [? _]%list_elem_of_filter. Qed.

Lemma declared_decls scope declared ps d new : declare_prefixes scope declared ps = Ret (d, new) →
  Forall (λ a, is_ns_decl a = true) new.
Proof.
  intros (_ & _ & H & _)%declare_prefixes_spec. apply Forall_forall. intros a (p & u & -> & _)%H.
  by rewrite is_ns_decl_of, decl_of_declare.
Qed.

Lemma clean_unread e : forallb clean_decl (Attrs e) = true → decls_unread e.
Proof.
  intros H a Ha Hd. rewrite forallb_elem in H. specialize (H a Ha). unfold clean_decl, decl_of in H.
  rewrite is_ns_decl_of in Hd. unfold decl_of in Hd.
  destruct (Attr_Space a =? "xmlns"); [by bool_prop|].
  destruct (String.eqb_spec (Attr_Key a) "xmlns") as [->|]; [|by rewrite andb_false_r in Hd].
  apply (bool_decide_eq_true_1 ("xmlns" ∉ saml_attrs)). by vm_compute.
Qed.

Lemma emitted_unread scope declared ps d new own l :
  declare_prefixes scope declared ps = Ret (d, new) → unread_prefixes scope →
  l ≡ₚ (own ++ new)%list → Forall (λ a, is_ns_decl a = false) own →
  ∀ a, a ∈ l → is_ns_decl a = true → Attr_Key a ∉ saml_attrs.
Proof.
  intros (_ & _ & H & _)%declare_prefixes_spec HS Hl Hown a Ha Hd. rewrite Hl in Ha.
  apply elem_of_app in Ha as [Ha|Ha]; [rewrite Forall_forall in Hown; apply Hown in Ha; congruence|].
  apply H in Ha as (p & u & -> & _ & Hu & _). unfold declare, defaultPrefix, xmlnsPrefix.
  case_bool_decide; simpl; [|by apply HS].
  apply (bool_decide_eq_true_1 ("xmlns" ∉ saml_attrs)). by vm_compute.
Qed.

(** The attributes of the canonical form resolve as before. *)
Lemma resolved_same D1 S D2 d e incl :
  scopes D1 S → scopes D2 d →
  (∀ p, p ∈ elements (visiblyUtilizedPrefixes incl e) → d !! p = S !! p ∧ is_Some (S !! p)) →
  map (resolved D1) (own_attrs e) = map (resolved D2) (own_attrs e).
Proof.
  intros H1 H2 Hp. apply map_ext_in. intros a Ha%list_elem_of_In. unfold resolved, attr_space. do 2 f_equal.
  destruct (decide (Attr_Space a = "")) as [->|Hne]; [done|].
  destruct (Hp _ (visible_attr incl e a Ha Hne)) as [Hd [u Hu]].
  apply (translate_scopes _ S _ d _ _ u); [done..|congruence].
Qed.

(** One step of the transformation: the element without its children, and the states
    in which the children are transformed. *)
Lemma transformExcC14n_step incl comments e D1 S D2 Dc e' :
  related D1 S D2 Dc → forallb clean_decl (Attrs e) = true → transformExcC14n S Dc incl comments e = Ret e' →
  ∃ d, related (xml_scope D1 e) (xml_scope S e) (xml_scope D2 e') d ∧
    Space e' = Space e ∧ Tag e' = Tag e ∧ own_attrs e' ≡ₚ own_attrs e ∧ decls_unread e' ∧
    (∀ p, p ∈ elements (visiblyUtilizedPrefixes incl e) → d !! p = xml_scope S e !! p ∧ is_Some (xml_scope S e !! p)) ∧
    (∀ p, p ∉ elements (visiblyUtilizedPrefixes incl e) → d !! p = Dc !! p) ∧
    c14n_children (transformExcC14n (xml_scope S e) d incl comments) comments (Child e) = Ret (Child e').
Proof.
  intros [H1 H2 Hdef Hun] Hclean Ht. rewrite transformExcC14n_eq in Ht.
  apply bind_ret in Ht as (scope & Hscope & Ht). apply SubContext_scope in Hscope as ->.
  apply bind_ret in Ht as ([d new] & Hd & Ht). apply bind_ret in Ht as (c' & Hc' & [= <-]).
  cbn [fst snd] in *. pose proof (SortAttrs_perm (own_attrs e ++ new)) as Hperm.
  pose proof (declare_scopes D1 S _ H1 Hclean) as Hs1. pose proof (declare_unread S _ Hun Hclean) as Hun'.
  assert (Hdef' : xml_scope S e !! "" = Some XMLNamespace → Dc !! "" = Some XMLNamespace).
  { intros HS. apply Hdef. by apply (declare_default S (Attrs e)). }
  pose proof (canonical_scopes _ D2 _ _ _ _ _ _ H2 Hdef' (scopes_url' _ _ Hs1) Hd Hperm (own_attrs_plain e)) as Hs2.
  pose proof (declare_prefixes_spec _ _ _ _ _ Hd) as (P1 & P2 & _).
  exists d. split_and!; [|done|done| | |done|done|done].
  - split; [exact Hs1|exact Hs2| |exact Hun'].
    intros HS. destruct (decide ("" ∈ elements (visiblyUtilizedPrefixes incl e))) as [Hp|Hp].
    + destruct (P1 "" Hp) as [-> _]. exact HS.
    + rewrite P2 by done. by apply Hdef'.
  - apply (own_perm e new); [done|]. by eapply declared_decls.
  - exact (emitted_unread _ _ _ _ _ _ _ Hd Hun' Hperm (own_attrs_plain e)).
Qed.

(** What a canonical form declares are prefixes that the element uses. *)
Lemma transformed_decls incl comments e S Dc e' a p u :
  transformExcC14n S Dc incl comments e = Ret e' → a ∈ Attrs e' → decl_of a = Some (p, u) →
  p ∈ elements (visiblyUtilizedPrefixes incl e).
Proof.
  rewrite transformExcC14n_eq. intros (scope & _ & H)%bind_ret Ha Hd.
  apply bind_ret in H as ([d new] & Hp & H). apply bind_ret in H as (c' & _ & [= <-]).
  cbn [Attrs snd] in Ha. rewrite SortAttrs_perm in Ha. apply elem_of_app in Ha as [[Ha _]%list_elem_of_filter|Ha].
  - by rewrite is_ns_decl_of, Hd in Ha.
  - apply declare_prefixes_spec in Hp as (_ & _ & H & _). apply H in Ha as (q & v & -> & Hq & _).
    rewrite decl_of_declare in Hd. by simplify_eq.
Qed.

Lemma readable_inv e : readable e = true →
  NoDup (map Attr_Key (own_attrs e)) ∧ forallb clean_decl (Attrs e) = true ∧
  ∀ c, c ∈ ChildElements e → readable c = true.
Proof.
  intros H. pose proof (readable_children e H) as Hc. destruct e as [s t a c].
  cbn [readable] in H. apply andb_true_iff in H as [H _]. by bool_prop.
Qed.

(** An element with the name and the attributes of the canonical form and, in a scope
    related to that of the canonicalizer, children that read the same. *)
Lemma step_same incl e e' D1 D2 S d :
  related (xml_scope D1 e) S (xml_scope D2 e') d → readable e = true →
  Space e' = Space e → Tag e' = Tag e → own_attrs e' ≡ₚ own_attrs e → decls_unread e' →
  (∀ p, p ∈ elements (visiblyUtilizedPrefixes incl e) → d !! p = S !! p ∧ is_Some (S !! p)) →
  char_data (Child e') = char_data (Child e) →
  Forall2 (λ x y, same_reading (xml_scope D1 e) x (xml_scope D2 e') y) (ChildElements e) (ChildElements e') →
  same_reading D1 e D2 e'.
Proof.
  intros Hrel (Hnd & Hclean & _)%readable_inv Hs Htag Ha Hun Hp Hx Hc.
  pose proof (related_element _ _ _ _ Hrel) as Hs1. pose proof (related_canonical _ _ _ _ Hrel) as Hs2.
  constructor; [done| | |done|by apply clean_unread|done|done|done].
  - unfold element_space. rewrite Hs, Htag. destruct (Hp _ (visible_space incl e)) as [Hd [u Hu]].
    apply (translate_scopes _ S _ d _ _ u); [done..|congruence].
  - rewrite (resolved_same _ _ _ _ e incl Hs1 Hs2 Hp). by apply Permutation_map.
Qed.

(** The canonical form of a readable element reads the same. *)
Definition transforms_same incl comments (e : Element) : Prop := ∀ D1 S D2 Dc e',
  related D1 S D2 Dc → readable e = true → transformExcC14n S Dc incl comments e = Ret e' →
  same_reading D1 e D2 e'.

Lemma children_same incl comments D1 S D2 d c c' :
  related D1 S D2 d → (∀ x, x ∈ omap token_element c → readable x = true) →
  Forall (token_all (transforms_same incl comments)) c →
  c14n_children (transformExcC14n S d incl comments) comments c = Ret c' →
  Forall2 (λ x y, same_reading D1 x D2 y) (omap token_element c) (omap token_element c').
Proof.
  intros Hrel Hr Hall [_ Hc]%c14n_children_spec.
  assert (H : Forall (λ x, ∀ y, transformExcC14n S d incl comments x = Ret y → same_reading D1 x D2 y)
    (omap token_element c)).
  { apply Forall_forall. intros x Hin y Hy. pose proof (Hr x Hin) as Hrx.
    apply list_elem_of_omap in Hin as (k & Hk & Hkx).
    rewrite Forall_forall in Hall. specialize (Hall k Hk). destruct k; simplify_eq/=. by eapply Hall. }
  revert H. clear -Hc. intros H. induction Hc; [constructor|]. inversion_clear H. constructor; auto.
Qed.

Lemma transformExcC14n_same incl comments e : transforms_same incl comments e.
Proof.
  induction e as [sp t a c IH] using element_tree_ind. intros D1 S D2 Dc e' Hrel Hr Ht.
  pose proof (readable_inv _ Hr) as (_ & Hclean & Hrc).
  destruct (transformExcC14n_step _ _ _ _ _ _ _ _ Hrel Hclean Ht) as (d & Hrel' & Hs & Htag & Ha & Hun & Hp & _ & Hc).
  eapply step_same; [exact Hrel'|done..| |].
  - by apply c14n_children_spec in Hc as [-> _].
  - by apply (children_same incl comments _ _ _ d _ _ Hrel' Hrc IH Hc).
Qed.

(** ** Elements with a canonical form *)

(** The prefixes that an element uses are declared, and its declarations are none that
    name spaces reserve. *)
Fixpoint well_namespaced (ctx : NSContext) (e : Element) : bool :=
  match SubContext ctx e with
  | Ret scope =>
      forallb (λ p, bool_decide (is_Some (scope !! p))) (elements (visiblyUtilizedPrefixes ∅ e)) &&
      (fix go (c : list Token) : bool :=
         match c with
         | [] => true
         | TElement x :: c => well_namespaced scope x && go c
         | _ :: c => go c
         end) (Child e)
  | _ => false
  end.

Lemma declare_prefixes_returns scope declared ps : (∀ p, p ∈ ps → is_Some (scope !! p)) →
  ∃ r, declare_prefixes scope declared ps = Ret r.
Proof.
  revert declared. induction ps as [|p ps IH]; intros declared H; simpl; [by eexists|].
  case_match; [apply IH; intros; apply H; by right|].
  destruct (H p ltac:(by left)) as [u Hu]. unfold LookupPrefix. rewrite Hu. simpl.
  destruct (IH (<[p := u]> declared)) as [r ->]; [intros; apply H; by right|]. simpl. by eexists.
Qed.

(** The prefixes of the inclusive list count if the element declares them. *)
Lemma visible_incl incl e p : p ∈ elements (visiblyUtilizedPrefixes incl e) →
  p ∈ elements (visiblyUtilizedPrefixes ∅ e) ∨ ∃ a u, a ∈ Attrs e ∧ decl_of a = Some (p, u).
Proof.
  rewrite !elem_of_elements. unfold visiblyUtilizedPrefixes. rewrite !elem_of_union, !elem_of_list_to_set.
  intros [H|H]; [by left; left|]. apply list_elem_of_omap in H as (a & Ha & Hp).
  destruct (decl_of a) as [[q u]|] eqn:Hd.
  - right. exists a, u. split; [done|]. rewrite Hd. enough (q = p) as -> by done.
    unfold decl_of, is_default_decl, xmlnsPrefix, defaultPrefix in *.
    destruct (String.eqb_spec (Attr_Space a) "xmlns") as [Hs|Hs].
    + rewrite bool_decide_true in Hp by done. case_match; congruence.
    + rewrite (bool_decide_false (Attr_Space a = "xmlns")) in Hp by done.
      destruct (String.eqb_spec (Attr_Space a) "") as [H1|H1]; [|done].
      destruct (String.eqb_spec (Attr_Key a) "xmlns") as [H2|H2]; [|done]. simpl in Hd.
      rewrite !bool_decide_true in Hp by done. simpl in Hp. case_match; congruence.
  - left. right. apply list_elem_of_omap. exists a. split; [done|].
    pose proof (is_ns_decl_of a) as Hn. rewrite Hd in Hn. apply orb_false_iff in Hn as [H1 H2].
    by rewrite H1, H2 in *.
Qed.

Lemma declare_is_Some l ns p :
  is_Some (ns !! p) ∨ (∃ a u, a ∈ l ∧ decl_of a = Some (p, u)) → is_Some (foldl xml_declare ns l !! p).
Proof.
  revert ns. induction l as [|b l IH]; intros ns H; simpl.
  { destruct H as [H|(a & _ & []%not_elem_of_nil & _)]; done. }
  apply IH. rewrite xml_declare_decl. destruct H as [H|(a & u & [->|Ha]%elem_of_cons & Hd)].
  - left. destruct (decl_of b) as [[q v]|]; [|done].
    destruct (decide (q = p)) as [->|]; [rewrite ns_insert_eq; by eexists|by rewrite ns_insert_ne].
  - left. rewrite Hd, ns_insert_eq. by eexists.
  - right. by exists a, u.
Qed.

Lemma transformExcC14n_returns incl comments e : ∀ ctx declared, well_namespaced ctx e = true →
  ∃ e', transformExcC14n ctx declared incl comments e = Ret e'.
Proof.
  induction e as [sp t a c IH] using element_tree_ind. intros ctx declared Hw.
  rewrite transformExcC14n_eq. cbn [well_namespaced] in Hw.
  destruct (SubContext ctx _) as [scope| |] eqn:Hscope; [|done..].
  apply andb_true_iff in Hw as [Hp Hc]. rewrite ret_bind.
  destruct (declare_prefixes_returns scope declared (elements (visiblyUtilizedPrefixes incl (mkElement sp t a c))))
    as [r Hr].
  { intros p [Hin|Hin]%visible_incl; [rewrite forallb_elem in Hp; specialize (Hp p Hin); by bool_prop|].
    apply SubContext_scope in Hscope as ->. apply declare_is_Some. by right. }
  rewrite Hr, ret_bind. cbn [Child] in *.
  enough (∃ c', c14n_children (transformExcC14n scope r.1 incl comments) comments c = Ret c') as [c' ->]
    by (rewrite ret_bind; by eexists).
  clear Hr Hp Hscope. induction IH as [|k c Hk _ IH]; [by eexists|]. destruct k as [x| | |]; simpl in *.
  - apply andb_true_iff in Hc as [Hx Hc]. destruct (Hk scope r.1 Hx) as [y ->], (IH Hc) as [c' ->]. by eexists.
  - destruct (IH Hc) as [c' ->]. by eexists.
  - destruct (IH Hc) as [c' ->]. by eexists.
  - destruct (IH Hc) as [c' ->]. by eexists.
Qed.

Lemma related_start D : D !! "" = None → D !! XMLNamespace = None →
  related ∅ default_prefixes D default_prefixes.
Proof.
  intros H0 H1. split; [by apply scopes_start..|done|]. intros p [u Hu]. unfold default_prefixes in Hu.
  assert (Hp : p ∈ ["xmlns"; "xml"; ""]).
  { unfold defaultPrefix, xmlPrefix, xmlnsPrefix in Hu.
    destruct (decide (p = "")) as [->|]; [set_solver|]. rewrite ns_insert_ne in Hu by done.
    destruct (decide (p = "xml")) as [->|]; [set_solver|]. rewrite ns_insert_ne in Hu by done.
    destruct (decide (p = "xmlns")) as [->|]; [set_solver|]. by rewrite ns_insert_ne in Hu by done. }
  assert (Hall : forallb (λ p, bool_decide (p ∉ saml_attrs)) ["xmlns"; "xml"; ""] = true) by by vm_compute.
  rewrite forallb_elem in Hall. specialize (Hall p Hp). by bool_prop.
Qed.

(** A declaration may be added to the canonical form, of a prefix that it does not use at
    its root. *)
Definition fresh_prefix (prefix : string) : bool :=
  bool_decide (prefix ∉ saml_attrs) && bool_decide (prefix ∉ [""; "xml"; "xmlns"; XMLNamespace]).

Lemma transformed_declared incl comments e D2 e' prefix uri :
  readable e = true → transformExcC14n default_prefixes default_prefixes incl comments e = Ret e' →
  D2 !! "" = None → D2 !! XMLNamespace = None → fresh_prefix prefix = true →
  prefix ∉ elements (visiblyUtilizedPrefixes incl e) →
  same_reading ∅ e D2 (set_Attrs (Attrs e' ++ [mkAttr "xmlns" prefix uri])%list e').
Proof.
  intros Hr Ht H0 Hu Hf Hp. unfold fresh_prefix in Hf. bool_prop. rewrite !not_elem_of_cons in H1. destruct_and!.
  pose proof (readable_inv _ Hr) as (_ & Hclean & Hrc).
  destruct (transformExcC14n_step _ _ _ _ _ _ _ _ (related_start D2 H0 Hu) Hclean Ht)
    as (d & [Hs1 Hs2 Hdef Hun] & Hs & Htag & Ha & Hund & Hvis & Hinv & Hc).
  set (e'' := set_Attrs _ e').
  assert (Hscope : xml_scope D2 e'' = <[prefix := uri]> (xml_scope D2 e')).
  { unfold e'', xml_scope. simpl. by rewrite foldl_app. }
  assert (Hrel : related (xml_scope ∅ e) (xml_scope default_prefixes e) (xml_scope D2 e'') d).
  { split; [done| |done|done]. rewrite Hscope. destruct Hs2 as [S1 S2 S3 S4]. split; [|by rewrite ns_insert_ne by done..|done].
    intros p u ? ? ? Hd. destruct (decide (prefix = p)) as [->|]; [|rewrite ns_insert_ne by done; by apply S1].
    rewrite Hinv in Hd by done. unfold default_prefixes, defaultPrefix, xmlPrefix, xmlnsPrefix in Hd.
    by rewrite !ns_insert_ne in Hd by done. }
  eapply (step_same incl _ _ _ _ _ d); [exact Hrel|done|done|done| | |done| |].
  - unfold own_attrs, e''. simpl. rewrite filter_app, filter_cons_False by done. by rewrite app_nil_r.
  - intros a Hin Hd. simpl in Hin. apply elem_of_app in Hin as [Hin|Hin%list_elem_of_singleton]; [by apply Hund|].
    subst a. done.
  - apply c14n_children_spec in Hc as [Hx _]. exact Hx.
  - apply (children_same incl comments _ (xml_scope default_prefixes e) _ d); [exact Hrel|done| |exact Hc].
    apply Forall_forall. intros [] _; simpl; [apply transformExcC14n_same|done..].
Qed.

(** ** A canonical form declares what it uses *)

(** The prefixes that name spaces reserve, in a scope. *)
Record reserved (S : NSContext) : Prop := {
  reserved_xmlns : S !! xmlnsPrefix = Some XMLNSNamespace;
  reserved_xml : S !! xmlPrefix = Some XMLNamespace;
  reserved_default : S !! defaultPrefix ≠ Some XMLNSNamespace
}.

(** What a declaration may bind. *)
Definition proper_binding (p u : string) : bool :=
  negb ((p == xmlPrefix) && (u != XMLNamespace)) && (p != xmlnsPrefix) &&
  negb ((p == defaultPrefix) && (u == XMLNSNamespace)).

Lemma reserved_default_prefixes : reserved default_prefixes.
Proof. by split; vm_compute. Qed.

Lemma reserved_insert S p u : reserved S → proper_binding p u = true → reserved (<[p := u]> S).
Proof.
  intros [H1 H2 H3] Hp. unfold proper_binding in Hp. split.
  - rewrite ns_insert_ne; [done|]. intros ->. rewrite !bool_decide_true in Hp by done. by rewrite andb_false_r in Hp.
  - destruct (decide (p = xmlPrefix)) as [->|]; [|by rewrite ns_insert_ne].
    rewrite ns_insert_eq. rewrite bool_decide_true in Hp by done. simpl in Hp. by bool_prop; subst.
  - destruct (decide (p = defaultPrefix)) as [->|]; [|by rewrite ns_insert_ne].
    rewrite ns_insert_eq. intros [= ->]. rewrite !(bool_decide_true (_ = _)) in Hp by done.
    by rewrite andb_false_r in Hp.
Qed.

Definition proper_decl (a : Attr) : bool :=
  match decl_of a with Some (p, u) => proper_binding p u | None => true end.

Lemma reserved_declared S l : reserved S → forallb proper_decl l = true → reserved (foldl xml_declare S l).
Proof.
  revert S. induction l as [|a l IH]; intros S HS; simpl; [done|]. intros [Ha Hl]%andb_true_iff.
  apply IH; [|done]. rewrite xml_declare_decl. unfold proper_decl in Ha.
  destruct (decl_of a) as [[p u]|]; [|done]. by apply reserved_insert.
Qed.

(** [SubContext] accepts the proper declarations and, if the default name space is not
    bound to a reserved one by [xmlns:=], no others. *)
Lemma subContext_proper ctx l scope :
  subContext_attrs ctx l = Ret scope → forallb clean_decl l = true → forallb proper_decl l = true.
Proof.
  revert ctx. induction l as [|a l IH]; intros ctx; simpl; [done|]. intros H [Hc Hl]%andb_true_iff.
  unfold clean_decl, decl_of in Hc. unfold proper_decl at 1, decl_of. unfold proper_binding, xmlnsPrefix, defaultPrefix, xmlPrefix in *.
  destruct (String.eqb_spec (Attr_Space a) "xmlns") as [Hs|Hs].
  - rewrite bool_decide_true in H by done. go_inv. apply andb_true_iff in Hc as [_ Hc].
    erewrite IH by done. rewrite Hc. simpl. bool_prop.
    rewrite !(bool_decide_false (Attr_Key a = "xmlns")) by done.
    repeat case_bool_decide; subst; try done; tauto.
  - rewrite bool_decide_false in H by done. destruct (String.eqb_spec (Attr_Space a) "") as [H1|H1]; simpl in *.
    + rewrite bool_decide_true in H by done. destruct (String.eqb_spec (Attr_Key a) "xmlns") as [H2|H2]; simpl in *.
      * rewrite bool_decide_true in H by done. simpl in H. go_inv. erewrite IH by done.
        apply andb_true_iff in Hc as [_ Hc]. by rewrite Hc.
      * rewrite bool_decide_false in H by done. exact (IH _ H Hl).
    + rewrite bool_decide_false in H by done. exact (IH _ H Hl).
Qed.

Lemma subContext_returns ctx l : forallb proper_decl l = true → subContext_attrs ctx l = Ret (foldl xml_declare ctx l).
Proof.
  revert ctx. induction l as [|a l IH]; intros ctx; simpl; [done|]. intros [Ha Hl]%andb_true_iff.
  specialize (λ ctx, IH ctx Hl). unfold xml_declare at 2. unfold proper_decl, decl_of in Ha.
  unfold proper_binding, xmlnsPrefix, defaultPrefix, xmlPrefix in *.
  destruct (String.eqb_spec (Attr_Space a) "xmlns") as [Hs|Hs].
  - rewrite bool_decide_true by done. apply andb_true_iff in Ha as [[Hx Hn]%andb_true_iff _].
    rewrite negb_true_iff in Hx, Hn. rewrite Hx, Hn. apply IH.
  - rewrite bool_decide_false by done. destruct (String.eqb_spec (Attr_Space a) "") as [H1|H1]; simpl in *.
    + rewrite bool_decide_true by done. destruct (String.eqb_spec (Attr_Key a) "xmlns") as [H2|H2]; simpl in *.
      * rewrite bool_decide_true by done. simpl in *. rewrite negb_true_iff in Ha. rewrite Ha. apply IH.
      * rewrite bool_decide_false by done. apply IH.
    + rewrite bool_decide_false by done. apply IH.
Qed.

(** The declarations of the canonical form make its scope the one that the canonicalizer
    remembers as declared. *)
Lemma canonical_scope S Dc ps d new own l :
  reserved S → reserved Dc → declare_prefixes S Dc ps = Ret (d, new) → l ≡ₚ (own ++ new)%list →
  Forall (λ a, is_ns_decl a = false) own → subContext_attrs Dc l = Ret d ∧ reserved d.
Proof.
  intros [A1 A2 A3] [B1 B2 B3] (P1 & P2 & P3 & P4)%declare_prefixes_spec Hl Hown.
  assert (Hdecl : ∀ a p u, a ∈ l → decl_of a = Some (p, u) → S !! p = Some u ∧ p ∈ ps ∧ Dc !! p ≠ S !! p).
  { intros a p u Ha Hd. rewrite Hl in Ha. apply elem_of_app in Ha as [Ha|Ha].
    - rewrite Forall_forall in Hown. apply Hown in Ha. by rewrite is_ns_decl_of, Hd in Ha.
    - apply P3 in Ha as (q & v & -> & Hq & Hv & Hne). rewrite decl_of_declare in Hd. by simplify_eq. }
  assert (Hproper : forallb proper_decl l = true).
  { apply forallb_elem. intros a Ha. unfold proper_decl. destruct (decl_of a) as [[p u]|] eqn:Hd; [|done].
    destruct (Hdecl a p u Ha Hd) as (Hu & _ & Hne). unfold proper_binding.
    rewrite (bool_decide_false (p = xmlPrefix)), (bool_decide_false (p = xmlnsPrefix)) by congruence. simpl.
    destruct (decide (p = defaultPrefix)) as [->|]; [|by rewrite bool_decide_false].
    rewrite (bool_decide_false (u = XMLNSNamespace)) by congruence. by rewrite andb_false_r. }
  enough (foldl xml_declare Dc l = d) as <- by (split; [by apply subContext_returns|by apply reserved_declared]).
  enough (H : ∀ p, foldl xml_declare Dc l !! p = d !! p) by exact (map_eq _ _ H).
  intros p. destruct (decide (p ∈ ps)) as [Hp|Hp].
  - destruct (P1 p Hp) as [-> [u Hu]]. rewrite Hu. destruct (P4 p Hp) as [Heq|(v & Hv & Hin)].
    + rewrite declare_none; [congruence|]. intros a v Ha Hd. by destruct (Hdecl a p v Ha Hd) as (_ & _ & ?).
    + simplify_eq. apply (declare_some _ _ _ _ (declare p u)); [rewrite Hl; set_solver|apply decl_of_declare|].
      intros b w Hb Hd. destruct (Hdecl b p w Hb Hd) as (? & _). congruence.
  - rewrite P2 by done. apply declare_none. intros a v Ha Hd. by destruct (Hdecl a p v Ha Hd) as (_ & ? & _).
Qed.

Lemma transformExcC14n_scope incl comments e S Dc e' :
  reserved S → reserved Dc → readable e = true → transformExcC14n S Dc incl comments e = Ret e' →
  ∃ scope d, reserved scope ∧ reserved d ∧ SubContext Dc e' = Ret d ∧
    (∀ p, p ∈ elements (visiblyUtilizedPrefixes ∅ e') → is_Some (d !! p)) ∧
    c14n_children (transformExcC14n scope d incl comments) comments (Child e) = Ret (Child e').
Proof.
  intros HS HD (_ & Hclean & _)%readable_inv. rewrite transformExcC14n_eq.
  intros (scope & Hscope & H)%bind_ret. apply bind_ret in H as ([d new] & Hd & H).
  apply bind_ret in H as (c' & Hc & [= <-]). exists scope, d. cbn [fst snd] in *.
  pose proof (subContext_proper _ _ _ Hscope Hclean) as Hp.
  assert (HS' : reserved scope) by (apply SubContext_scope in Hscope as ->; by apply reserved_declared).
  pose proof (SortAttrs_perm (own_attrs e ++ new)) as Hl.
  destruct (canonical_scope _ _ _ _ _ _ _ HS' HD Hd Hl (own_attrs_plain e)) as [Hsub HD'].
  split_and!; [done..| |done]. intros p Hin. pose proof (declare_prefixes_spec _ _ _ _ _ Hd) as (P1 & _).
  enough (p ∈ elements (visiblyUtilizedPrefixes incl e)) as Hvis by (by destruct (P1 p Hvis) as [-> ?]).
  rewrite elem_of_elements in Hin. unfold visiblyUtilizedPrefixes in Hin. cbn [Space Attrs] in Hin.
  apply elem_of_union in Hin as [->%elem_of_singleton|Hin%elem_of_list_to_set]; [apply visible_space|].
  apply list_elem_of_omap in Hin as (a & Ha & Hp'). rewrite !(bool_decide_false (_ ∈ ∅)) in Hp' by set_solver.
  destruct (is_ns_decl a) eqn:Hdecl; unfold is_ns_decl in Hdecl.
  - destruct (Attr_Space a == xmlnsPrefix); [done|]. simpl in Hdecl. by rewrite Hdecl in Hp'.
  - apply orb_false_iff in Hdecl as [H1 H2]. rewrite H1, H2 in Hp'. case_match eqn:Hne; [|done].
    bool_prop. simplify_eq. apply visible_attr; [|done]. rewrite Hl in Ha. apply elem_of_app in Ha as [|Ha]; [done|].
    pose proof (declared_decls _ _ _ _ _ Hd) as Hnew. rewrite Forall_forall in Hnew. apply Hnew in Ha.
    unfold is_ns_decl in Ha. rewrite H2, orb_false_r in Ha. bool_prop. done.
Qed.

(** So the canonical form is well formed at every depth. *)
Lemma transformExcC14n_well_namespaced incl comments e : ∀ S Dc e',
  reserved S → reserved Dc → readable e = true → transformExcC14n S Dc incl comments e = Ret e' →
  well_namespaced Dc e' = true.
Proof.
  induction e as [sp t a c IH] using element_tree_ind. intros S Dc [sp' t' a' c'] HS HD Hr Ht.
  destruct (transformExcC14n_scope _ _ _ _ _ _ HS HD Hr Ht) as (scope & d & HS' & HD' & Hsub & Hvis & Hc).
  apply readable_inv in Hr as (_ & _ & Hr). unfold ChildElements in Hr. cbn [well_namespaced Child] in *.
  rewrite Hsub. apply andb_true_iff. split.
  { apply forallb_elem. intros p Hp. by apply bool_decide_eq_true, Hvis. }
  clear Hsub Hvis Ht. revert c' Hc. induction IH as [|k c Hk _ IH]; intros c'; simpl; [by intros [= <-]|].
  destruct k as [x|s|s|s]; simpl in Hr.
  - intros (y & Hy & H)%bind_ret. apply bind_ret in H as (l & Hl & [= <-]).
    rewrite (Hk scope d y HS' HD') by (done || (apply Hr; by left)). simpl. apply IH; [|done].
    intros z Hz. apply Hr. by right.
  - intros (l & Hl & [= <-])%bind_ret. by apply IH.
  - intros (l & Hl & [= <-])%bind_ret. destruct comments; by apply IH.
  - intros (l & Hl & [= <-])%bind_ret. by apply IH.
Qed.

(** ** Symmetry *)

Lemma same_reading_sym e1 : ∀ ns1 ns2 e2, same_reading ns1 e1 ns2 e2 → same_reading ns2 e2 ns1 e1.
Proof.
  induction e1 as [s t a c IH] using element_tree_ind. intros ns1 ns2 e2 [Ht Hs Ha Hnd Hd1 Hd2 Hx Hc].
  assert (Hk : map Attr_Key (own_attrs e2) ≡ₚ map Attr_Key (own_attrs (mkElement s t a c))).
  { apply (Permutation_map (λ t : string * string * string, t.1.2)) in Ha. by rewrite !map_map in Ha. }
  constructor; [done|done|done|by rewrite Hk|done|done|done|].
  unfold ChildElements in *. simpl in Hc.
  assert (Hall : Forall (λ x, ∀ ns1 ns2 y, same_reading ns1 x ns2 y → same_reading ns2 y ns1 x) (omap token_element c)).
  { apply Forall_forall. intros x Hin. apply list_elem_of_omap in Hin as (k & Hk' & Hkx).
    rewrite Forall_forall in IH. specialize (IH k Hk'). destruct k; simplify_eq/=. exact IH. }
  clear IH Ha Hnd Hd1 Hk Hx Hs Ht. simpl. revert Hall. induction Hc; intros Hall; [constructor|].
  inversion_clear Hall. constructor; auto.
Qed.

Lemma respects_iff {A} (read : Reader A) ns1 e1 ns2 e2 v w : respects read → same_reading ns1 e1 ns2 e2 →
  read ns1 e1 v = Ret w ↔ read ns2 e2 v = Ret w.
Proof. intros H Hs. split; apply H; [done|by apply same_reading_sym]. Qed.

(** C10: equivalence. The canonical form of an element reads as the same message: each of
    the six messages that are read from XML is read from the canonical form exactly when it
    is read from the element, if the names of its attributes are distinct and no
    declaration takes the name of an attribute of a message. *)
Theorem canonical_form_reads_same e prefixes comments e'
    (Hreadable : readable e = true) (Hcanonical : TransformExcC14n e prefixes comments = Ret e') :
  (∀ r, Response_UnmarshalXML ∅ e zero_Response = Ret r ↔ Response_UnmarshalXML ∅ e' zero_Response = Ret r) ∧
  (∀ a, Assertion_UnmarshalXML ∅ e zero_Assertion = Ret a ↔ Assertion_UnmarshalXML ∅ e' zero_Assertion = Ret a) ∧
  (∀ r, ArtifactResponse_UnmarshalXML ∅ e zero_ArtifactResponse = Ret r ↔
        ArtifactResponse_UnmarshalXML ∅ e' zero_ArtifactResponse = Ret r) ∧
  (∀ r, AuthnRequest_UnmarshalXML ∅ e zero_AuthnRequest = Ret r ↔
        AuthnRequest_UnmarshalXML ∅ e' zero_AuthnRequest = Ret r) ∧
  (∀ r, LogoutRequest_UnmarshalXML ∅ e zero_LogoutRequest = Ret r ↔
        LogoutRequest_UnmarshalXML ∅ e' zero_LogoutRequest = Ret r) ∧
  (∀ r, LogoutResponse_UnmarshalXML ∅ e zero_LogoutResponse = Ret r ↔
        LogoutResponse_UnmarshalXML ∅ e' zero_LogoutResponse = Ret r).
Proof.
  pose proof (transformExcC14n_same _ _ _ _ _ _ _ _ (related_start ∅ eq_refl eq_refl) Hreadable Hcanonical) as Hs.
  split_and!; intros; by apply respects_iff; [auto using Response_respects, Assertion_respects,
    ArtifactResponse_respects, AuthnRequest_respects, LogoutRequest_respects, LogoutResponse_respects|].
Qed.

(** C23: well-formedness of canonical forms. An element in which the prefixes that are used
    are declared, and none is bound against the recommendation on name spaces, has an
    exclusive canonical form, whatever the list of inclusive prefixes; and every
    canonical form is again such an element on its own: at every depth it declares each
    prefix that it uses, whatever was declared around it. *)
Theorem canonical_form_well_formed e prefixes comments (Hreadable : readable e = true) :
  (well_namespaced default_prefixes e = true → ∃ e', TransformExcC14n e prefixes comments = Ret e') ∧
  ∀ e', TransformExcC14n e prefixes comments = Ret e' → well_namespaced default_prefixes e' = true.
Proof.
  split; [by apply transformExcC14n_returns|]. intros e'.
  by apply transformExcC14n_well_namespaced; [apply reserved_default_prefixes..|].
Qed.

Module Examples.

(** A logout request with declarations that it does not use where they stand. *)
Definition request : Element :=
  mkElement "samlp" "LogoutRequest"
    [mkAttr "xmlns" "saml" assertion_space; mkAttr "" "Version" "2.0"; mkAttr "" "ID" "id-1";
     mkAttr "xmlns" "samlp" protocol_space; mkAttr "" "IssueInstant" "2024-01-02T03:04:05Z";
     mkAttr "xmlns" "unused" "urn:unused"]
    [TComment "issuer"; TElement (mkElement "saml" "Issuer" [] [TCharData "sp"]);
     TElement (mkElement "saml" "NameID" [mkAttr "" "Format" "f"] [TCharData "alice"])].

(** Its canonical form: sorted, without the comment, declarations where they are used. *)
Definition canonical : Element :=
  mkElement "samlp" "LogoutRequest"
    [mkAttr "xmlns" "samlp" protocol_space; mkAttr "" "ID" "id-1";
     mkAttr "" "IssueInstant" "2024-01-02T03:04:05Z"; mkAttr "" "Version" "2.0"]
    [TElement (mkElement "saml" "Issuer" [mkAttr "xmlns" "saml" assertion_space] [TCharData "sp"]);
     TElement (mkElement "saml" "NameID" [mkAttr "xmlns" "saml" assertion_space; mkAttr "" "Format" "f"]
       [TCharData "alice"])].

Example request_canonical : TransformExcC14n request "" false = Ret canonical.
Proof. by vm_compute. Qed.

Lemma canonical_form_reads_same_witness :
  TransformExcC14n request "" false = Ret canonical ∧
  (∃ r, LogoutRequest_UnmarshalXML ∅ request zero_LogoutRequest = Ret r ∧
        LogoutRequest_UnmarshalXML ∅ canonical zero_LogoutRequest = Ret r).
Proof.
  split; [by vm_compute|].
  destruct (canonical_form_reads_same request "" false canonical ltac:(by vm_compute) ltac:(by vm_compute))
    as (_ & _ & _ & _ & H & _).
  eexists. split; [vm_compute; reflexivity|]. apply H. vm_compute. reflexivity.
Defined.

Lemma canonical_form_well_formed_witness :
  TransformExcC14n request "" false = Ret canonical ∧ well_namespaced default_prefixes canonical = true.
Proof.
  split; [by vm_compute|].
  apply (canonical_form_well_formed request "" false ltac:(by vm_compute)). by vm_compute.
Defined.
End Examples.
