(* ===== verification/C14nStable.v ===== *)
(** * C14nStable: a canonical form is its own canonical form

    Attributes of distinct names have one sorted order ([SortAttrs_unique]), so what
    [TransformExcC14n] makes of an element depends on the declarations around it
    only through the prefixes in use: it is the same where more is in scope
    ([transformExcC14n_scope_mono]), for the detached element ([TransformExcC14n_detached])
    and for the canonical form itself ([transformExcC14n_again]). *)

From stdpp Require Import base option list gmap strings sets sorting.
From Stdlib Require Import ZArith Lia Ascii.
From S2P Require Import Prelude Go Etree C14n Schema XmlDecode SchemaDecode SchemaRoundtrip C14nReads C14nSpec.

Open Scope string_scope.

(** ** The order of attributes *)

Lemma str_compare_refl s : String.compare s s = Eq.
Proof. induction s as [|c s IH]; simpl; [done|]. unfold Ascii.compare. by rewrite N.compare_refl. Qed.

Lemma str_lt_irrefl s : str_lt s s = false.
Proof. unfold str_lt. by rewrite str_compare_refl. Qed.

Lemma ascii_compare_trans a b c : Ascii.compare a b = Lt → Ascii.compare b c = Lt → Ascii.compare a c = Lt.
Proof. unfold Ascii.compare. rewrite !N.compare_lt_iff. lia. Qed.

Lemma str_lt_trans s t u : str_lt s t = true → str_lt t u = true → str_lt s u = true.
Proof.
  unfold str_lt. revert t u. induction s as [|a s IH]; intros [|b t] [|c u]; simpl; try done.
  destruct (Ascii.compare a b) eqn:Hab; [|intros _|done].
  - apply Ascii.compare_eq_iff in Hab as ->. destruct (Ascii.compare b c); [apply IH|done..].
  - destruct (Ascii.compare b c) eqn:Hbc; [|intros _|done].
    + apply Ascii.compare_eq_iff in Hbc as ->. by rewrite Hab.
    + by rewrite (ascii_compare_trans a b c).
Qed.

Lemma str_lt_total s t : str_lt s t = false → str_lt t s = false → s = t.
Proof.
  unfold str_lt. rewrite (String.compare_antisym s t).
  destruct (String.compare t s) eqn:E; simpl; [|done..]. by apply String.compare_eq_iff in E as ->.
Qed.

Lemma str_lt_asym s t : str_lt s t = true → str_lt t s = false.
Proof.
  intros H. apply not_true_iff_false. intros H'. pose proof (str_lt_trans _ _ _ H H') as Hs.
  by rewrite str_lt_irrefl in Hs.
Qed.

(** The default declaration, the other declarations, the attributes without and those
    with a prefix. *)
Definition attr_rank (a : Attr) : nat :=
  if is_default_decl a then 0
  else if Attr_Space a == xmlnsPrefix then 1
  else if Attr_Space a == defaultPrefix then 2 else 3.

Definition attr_lt (x y : Attr) : bool :=
  Nat.ltb (attr_rank x) (attr_rank y) || (Nat.eqb (attr_rank x) (attr_rank y) && str_lt (Attr_Key x) (Attr_Key y)).

Definition attr_le (x y : Attr) : Prop := attr_lt y x = false.

Lemma attr_lt_spec x y : attr_lt x y = true ↔
  (attr_rank x < attr_rank y)%nat ∨ (attr_rank x = attr_rank y ∧ str_lt (Attr_Key x) (Attr_Key y) = true).
Proof. unfold attr_lt. by rewrite orb_true_iff, andb_true_iff, Nat.ltb_lt, Nat.eqb_eq. Qed.

Lemma attr_le_spec x y : attr_le x y ↔
  (attr_rank x < attr_rank y)%nat ∨ (attr_rank x = attr_rank y ∧ str_lt (Attr_Key y) (Attr_Key x) = false).
Proof.
  unfold attr_le, attr_lt. rewrite orb_false_iff, andb_false_iff, Nat.ltb_ge, Nat.eqb_neq.
  destruct (Nat.eq_dec (attr_rank x) (attr_rank y)); split; intros H; [right|..]; [|split; [lia|]|left; lia|split; [|left]; lia].
  - split; [done|]. destruct H as [_ [?|?]]; [lia|done].
  - destruct H as [?|[_ ?]]; [lia|by right].
Qed.

Lemma attr_lt_le x y : attr_lt x y = true → attr_le x y.
Proof. rewrite attr_lt_spec, attr_le_spec. intros [?|[? ?]]; [by left|right; split; [done|by apply str_lt_asym]]. Qed.

#[export] Instance attr_le_trans : Transitive attr_le.
Proof.
  intros x y z. rewrite !attr_le_spec. intros [H1|[H1 K1]] [H2|[H2 K2]]; [left; lia..|].
  right. split; [lia|]. apply not_true_iff_false. intros H.
  destruct (str_lt (Attr_Key y) (Attr_Key z)) eqn:Hyz; [by rewrite (str_lt_trans _ _ _ Hyz H) in K1|].
  by rewrite <- (str_lt_total _ _ Hyz K2), K1 in H.
Qed.

(** Of attributes with a prefix, no two have the same key. *)
Definition distinct (l : list Attr) : Prop :=
  ∀ x y, x ∈ l → y ∈ l → attr_rank x = attr_rank y → Attr_Key x = Attr_Key y → x = y.

#[export] Instance distinct_proper : Proper ((≡ₚ) ==> iff) distinct.
Proof. intros l l' H. unfold distinct. by setoid_rewrite H. Qed.

Lemma rank_default x : is_default_decl x = true → attr_rank x = 0%nat.
Proof. unfold attr_rank. by intros ->. Qed.

(** On them [Less] is that order. *)
Lemma Less_attr_lt a l x y : distinct l → x ∈ l → y ∈ l → SortedAttrs_Less a x y = attr_lt x y.
Proof.
  intros Hd Hx Hy. unfold SortedAttrs_Less, attr_lt.
  destruct (is_default_decl y) eqn:Dy.
  { rewrite (rank_default y Dy). destruct (is_default_decl x) eqn:Dx.
    - rewrite (rank_default x Dx). unfold is_default_decl in *. bool_prop.
      rewrite H0, H2. by rewrite str_lt_irrefl.
    - unfold attr_rank. rewrite Dx. by destruct (Attr_Space x == xmlnsPrefix), (Attr_Space x == defaultPrefix). }
  destruct (is_default_decl x) eqn:Dx.
  { rewrite (rank_default x Dx). unfold attr_rank. rewrite Dy. by destruct (Attr_Space y == xmlnsPrefix), (Attr_Space y == defaultPrefix). }
  assert (H3 : attr_rank x = 3%nat → attr_rank y = 3%nat → Attr_Key x = Attr_Key y → x = y)
    by (intros H1 H2; apply Hd; congruence).
  unfold attr_rank in *. rewrite Dx, Dy in *.
  destruct (Attr_Space x == xmlnsPrefix), (Attr_Space y == xmlnsPrefix), (Attr_Space x == defaultPrefix),
    (Attr_Space y == defaultPrefix); try done. simpl.
  case_bool_decide; [done|]. case_bool_decide as Hk; [|done]. specialize (H3 eq_refl eq_refl Hk). by subst.
Qed.

(** ** Sorting sorts *)

Lemma sort_insert_sorted l rp x moved rest : distinct l → x ∈ l → (∀ y, y ∈ rp → y ∈ l) →
  StronglySorted attr_le (reverse rp ++ moved)%list → (∀ y, y ∈ moved → attr_lt x y = true) →
  ∃ l', sort_insert rp x (moved ++ rest) = (l' ++ rest)%list ∧ StronglySorted attr_le l' ∧
    length l' = S (length rp + length moved).
Proof.
  intros Hd Hx. revert moved. induction rp as [|y rp IH]; intros moved Hl Hs Hm.
  - exists (x :: moved). split_and!; [done| |done]. apply StronglySorted_cons. split; [|exact Hs].
    apply Forall_forall. intros y Hy. by apply attr_lt_le, Hm.
  - rewrite reverse_cons, <- app_assoc in Hs. cbn [sort_insert].
    rewrite (Less_attr_lt _ l) by (done || apply Hl; by left). destruct (attr_lt x y) eqn:Hxy.
    + destruct (IH (y :: moved)) as (l' & E & Hl' & Hlen); [intros; apply Hl; by right|done| |].
      * by intros z [->|Hz]%elem_of_cons; [|apply Hm].
      * exists l'. split_and!; [exact E|done|]. simpl in *. lia.
    + exists (reverse rp ++ y :: x :: moved)%list. split_and!.
      * by rewrite <- !app_assoc.
      * change (y :: x :: moved) with ([y; x] ++ moved)%list. rewrite app_assoc.
        apply StronglySorted_app in Hs as (H1 & H2 & H3). apply StronglySorted_cons in H3 as [H3 H4].
        rewrite Forall_forall in H3. apply StronglySorted_app. split_and!.
        -- intros a b [Ha|Ha]%elem_of_app Hb; [apply H1; [done|by right]|].
           apply elem_of_cons in Ha as [->|Ha%list_elem_of_singleton]; [by apply H3|subst a; by apply attr_lt_le, Hm].
        -- apply StronglySorted_app. split_and!; [|done|].
           ++ intros a b Ha [->|Hb%list_elem_of_singleton]%elem_of_cons; [apply H1; [done|by left]|subst b].
              transitivity y; [apply H1; [done|by left]|exact Hxy].
           ++ apply StronglySorted_cons. split; [by apply Forall_singleton|]. apply StronglySorted_cons. by split; [|constructor].
        -- done.
      * rewrite length_app, length_reverse. simpl. lia.
Qed.

Lemma sort_from_sorted n attrs todo : distinct attrs → (length attrs <= n + todo)%nat →
  StronglySorted attr_le (take n attrs) → StronglySorted attr_le (sort_from n attrs todo).
Proof.
  revert n attrs. induction todo as [|todo IH]; intros n attrs Hd Hlen Hs; simpl.
  { by rewrite take_ge in Hs by lia. }
  destruct (attrs !! n) as [x|] eqn:Hx; [|apply lookup_ge_None in Hx; by rewrite take_ge in Hs].
  destruct (sort_insert_sorted attrs (reverse (take n attrs)) x [] (drop (S n) attrs) Hd) as (l' & E & Hl' & Hn).
  - by eapply list_elem_of_lookup_2.
  - intros y Hy. rewrite reverse_Permutation in Hy. apply elem_of_take in Hy as (i & Hi & _). by eapply list_elem_of_lookup_2.
  - by rewrite reverse_involutive, app_nil_r.
  - by intros y ?%elem_of_nil.
  - simpl in E. rewrite E. apply lookup_lt_Some in Hx as Hn'.
    rewrite length_reverse, length_take, Nat.min_l in Hn by lia. simpl in Hn.
    pose proof (sort_insert_perm (reverse (take n attrs)) x (drop (S n) attrs)) as Hp. rewrite E in Hp.
    rewrite reverse_Permutation, take_drop_middle in Hp by done. apply IH.
    + by rewrite Hp.
    + rewrite Hp. lia.
    + by rewrite take_app_length' by lia.
Qed.

(** There is one order of attributes of distinct names. *)
Lemma SortAttrs_unique l l' : distinct l → l ≡ₚ l' → SortAttrs l = SortAttrs l'.
Proof.
  intros Hd Hp. pose proof Hd as Hd'. rewrite Hp in Hd'.
  assert (Hs : ∀ l, distinct l → StronglySorted attr_le (SortAttrs l)).
  { clear. intros l Hd. unfold SortAttrs. apply sort_from_sorted; [done|simpl; lia|]. destruct l; simpl; [constructor|].
    rewrite take_0. repeat constructor. }
  apply (StronglySorted_unique_strong attr_le); [|by apply Hs..|].
  - intros x y. rewrite (SortAttrs_perm l), (SortAttrs_perm l'), <- Hp. intros Hx Hy.
    rewrite !attr_le_spec. intros [?|[Hr H1]] [?|[? H2]]; [lia..|].
    apply Hd; [done..|]. symmetry. by apply str_lt_total.
  - by rewrite !SortAttrs_perm.
Qed.

(** ** Declarations in a larger scope *)

(** Two ways to declare the prefixes in use: what is declared is the same, if the scopes
    agree on the prefixes and the lists differ in those that need no declaration. *)
Lemma declare_prefixes_NoDup scope declared ps d new :
  declare_prefixes scope declared ps = Ret (d, new) → NoDup new.
Proof.
  revert declared d new.
  induction ps as [|p ps IH]; intros declared d new; simpl; [intros [= <- <-]; constructor|].
  case_match; [apply IH|]. intros (u & Hu & Hr)%bind_ret. apply bind_ret in Hr as ([d' new'] & Hr & [= <- <-]).
  apply NoDup_cons. split; [|by eapply IH]. intros Hin. apply or_err_ret in Hu.
  apply declare_prefixes_spec in Hr as (_ & _ & P3 & _). apply P3 in Hin as (q & v & Hq & _ & Hv & Hne).
  apply (f_equal decl_of) in Hq. rewrite !decl_of_declare in Hq. simplify_eq. by rewrite ns_insert_eq in Hne.
Qed.

Lemma declare_prefixes_agree scope scope' declared ps ps' d new :
  declare_prefixes scope declared ps = Ret (d, new) →
  (∀ p, p ∈ ps → scope' !! p = scope !! p) → (∀ p, p ∈ ps' → p ∈ ps) →
  (∀ p, p ∈ ps → declared !! p ≠ scope !! p → p ∈ ps') →
  ∃ new', declare_prefixes scope' declared ps' = Ret (d, new') ∧ new' ≡ₚ new.
Proof.
  intros H Hs Hps Hps'. pose proof (declare_prefixes_NoDup _ _ _ _ _ H) as Hnd.
  apply declare_prefixes_spec in H as (P1 & P2 & P3 & P4).
  destruct (declare_prefixes_returns scope' declared ps') as [[d' new'] H'].
  { intros p Hp%Hps. rewrite Hs by done. by apply P1. }
  pose proof (declare_prefixes_NoDup _ _ _ _ _ H') as Hnd'.
  apply declare_prefixes_spec in H' as Hspec. destruct Hspec as (Q1 & Q2 & Q3 & Q4). exists new'.
  assert (d' = d) as ->.
  { enough (Heq : ∀ p, d' !! p = d !! p) by exact (map_eq _ _ Heq).
    intros p. destruct (decide (p ∈ ps')) as [Hp|Hp].
    - destruct (Q1 p Hp) as [-> _]. pose proof (Hps p Hp) as Hp'. rewrite Hs by done. by destruct (P1 p Hp') as [-> _].
    - rewrite Q2 by done. destruct (decide (p ∈ ps)) as [Hq|Hq]; [|by rewrite P2].
      destruct (P1 p Hq) as [-> _]. destruct (decide (declared !! p = scope !! p)) as [|Hne]; [done|].
      destruct Hp. by apply Hps'. }
  split; [done|]. apply NoDup_Permutation; [done..|]. intros a. split.
  - intros (p & u & -> & Hp & Hu & Hne)%Q3. pose proof (Hps p Hp) as Hp'. rewrite Hs in * by done.
    destruct (P4 p Hp') as [|(v & Hv & Hin)]; [done|]. by simplify_eq.
  - intros (p & u & -> & Hp & Hu & Hne)%P3. pose proof (Hps' p Hp Hne) as Hp'.
    destruct (Q4 p Hp') as [Heq|(v & Hv & Hin)]; rewrite Hs in * by done; [done|]. by simplify_eq.
Qed.

(** The attributes of a canonical form have distinct names. *)
Lemma canonical_distinct e scope declared ps d new : NoDup (map Attr_Key (own_attrs e)) →
  declare_prefixes scope declared ps = Ret (d, new) → distinct (own_attrs e ++ new)%list.
Proof.
  intros Hnd (_ & _ & P3 & _)%declare_prefixes_spec.
  assert (Hown : ∀ x, x ∈ own_attrs e → (2 <= attr_rank x)%nat).
  { intros x [Hx _]%list_elem_of_filter. unfold is_ns_decl in Hx. apply orb_false_iff in Hx as [H1 H2].
    unfold attr_rank. rewrite H1, H2. case_match; lia. }
  assert (Hnew : ∀ x, x ∈ new → ∃ p u, x = declare p u ∧ scope !! p = Some u ∧ (attr_rank x < 2)%nat ∧
    p = if Nat.eqb (attr_rank x) 0 then "" else Attr_Key x).
  { intros x (p & u & -> & _ & Hu & _)%P3. exists p, u. split_and!; [done..| |]; unfold declare, attr_rank, is_default_decl, defaultPrefix;
      destruct (bool_decide_reflect (p = "")) as [->|]; simpl; repeat case_match; try lia; done. }
  intros x y [Hx|Hx]%elem_of_app [Hy|Hy]%elem_of_app Hr Hk.
  - clear -Hnd Hx Hy Hk. induction (own_attrs e) as [|a l IH]; [by apply not_elem_of_nil in Hx|].
    simpl in Hnd. apply NoDup_cons in Hnd as [Ha Hnd]. rewrite list_elem_of_In, in_map_iff in Ha.
    apply elem_of_cons in Hx as [->|Hx], Hy as [->|Hy]; [done|destruct Ha..|auto].
    + exists y. by rewrite <- list_elem_of_In.
    + exists x. by rewrite <- list_elem_of_In.
  - apply Hown in Hx. apply Hnew in Hy as (? & ? & _ & _ & ? & _). lia.
  - apply Hown in Hy. apply Hnew in Hx as (? & ? & _ & _ & ? & _). lia.
  - apply Hnew in Hx as (p & u & -> & Hu & _ & Hp). apply Hnew in Hy as (q & v & -> & Hv & _ & Hq).
    rewrite Hr, Hk in Hp. assert (p = q) as -> by congruence. congruence.
Qed.

(** A context with more declarations. *)
Definition extends (S S1 : NSContext) : Prop := ∀ p u, S !! p = Some u → S1 !! p = Some u.

Lemma extends_insert S S1 p u : extends S S1 → extends (<[p := u]> S) (<[p := u]> S1).
Proof.
  intros H q v. destruct (decide (p = q)) as [->|]; [by rewrite !ns_insert_eq|].
  rewrite !ns_insert_ne by done. apply H.
Qed.

Lemma subContext_extends l : ∀ S S1 T, subContext_attrs S l = Ret T → extends S S1 →
  ∃ T1, subContext_attrs S1 l = Ret T1 ∧ extends T T1.
Proof.
  induction l as [|a l IH]; intros S S1 T; simpl; [intros [= <-]; eauto|]. intros H HS.
  repeat case_match; [..|by eapply IH].
  - apply raise_if_bind in H as [-> H]. apply raise_if_bind in H as [-> H]. simpl.
    eapply IH; [exact H|by apply extends_insert].
  - apply raise_if_bind in H as [-> H]. simpl. eapply IH; [exact H|by apply extends_insert].
Qed.

Lemma extends_lookup S S1 p : extends S S1 → is_Some (S !! p) → S1 !! p = S !! p.
Proof. intros H [u Hu]. rewrite Hu. by apply H. Qed.

(** The prefixes that an element uses. *)
Lemma visible_inv incl e p : p ∈ elements (visiblyUtilizedPrefixes incl e) ↔
  p = Space e ∨ (∃ a, a ∈ own_attrs e ∧ Attr_Space a ≠ "" ∧ p = Attr_Space a) ∨
  (p ∈ incl ∧ ∃ a u, a ∈ Attrs e ∧ decl_of a = Some (p, u)).
Proof.
  split.
  - rewrite elem_of_elements. unfold visiblyUtilizedPrefixes. rewrite elem_of_union, elem_of_singleton, elem_of_list_to_set.
    intros [->|Hp]; [by left|]. apply list_elem_of_omap in Hp as (a & Ha & Hp). right.
    destruct (Attr_Space a == xmlnsPrefix) eqn:Hx.
    + case_bool_decide; [|done]. simplify_eq. right. split; [done|]. exists a, (Attr_Value a). split; [done|].
      bool_prop. unfold decl_of. by rewrite Hx.
    + destruct (is_default_decl a) eqn:Hd.
      * case_bool_decide; [|done]. simplify_eq. right. split; [done|]. exists a, (Attr_Value a). split; [done|].
        unfold is_default_decl in Hd. bool_prop. unfold decl_of. by rewrite H0, H1.
      * case_match eqn:Hn; [|done]. bool_prop. simplify_eq. left. exists a. split_and!; [|done..].
        apply list_elem_of_filter. split; [|done]. unfold is_ns_decl. rewrite Hd, orb_false_r. by apply bool_decide_eq_false.
  - intros [->|[(a & Ha & Hn & ->)|(Hp & a & u & Ha & Hd)]]; [apply visible_space|by apply visible_attr|].
    rewrite elem_of_elements. unfold visiblyUtilizedPrefixes. apply elem_of_union. right.
    apply elem_of_list_to_set, list_elem_of_omap. exists a. split; [done|].
    unfold decl_of in Hd. unfold is_default_decl, xmlnsPrefix, defaultPrefix.
    destruct (String.eqb_spec (Attr_Space a) "xmlns") as [->|Hs].
    + simplify_eq. rewrite bool_decide_true by done. by rewrite bool_decide_true.
    + rewrite (bool_decide_false (Attr_Space a = "xmlns")) by done. case_match eqn:Hx; [|done].
      apply andb_true_iff in Hx as [->%String.eqb_eq ->%String.eqb_eq]. simplify_eq.
      rewrite !(bool_decide_true (_ = _)) by done. simpl. by rewrite bool_decide_true.
Qed.

(** One step of the transformation, and the other elements and scopes for which it gives
    the same. *)
Record c14n_step (incl : gset string) (comments : bool) (S Dc : NSContext) (e e' : Element)
    (scope d : NSContext) : Prop := {
  step_scope : SubContext S e = Ret scope;
  step_Space : Space e' = Space e;
  step_Tag : Tag e' = Tag e;
  step_own : own_attrs e' ≡ₚ own_attrs e;
  step_visible p : p ∈ elements (visiblyUtilizedPrefixes incl e) → d !! p = scope !! p ∧ is_Some (scope !! p);
  step_declared p : p ∈ elements (visiblyUtilizedPrefixes incl e) → Dc !! p ≠ scope !! p →
    ∃ a u, a ∈ Attrs e' ∧ decl_of a = Some (p, u);
  step_children : c14n_children (transformExcC14n scope d incl comments) comments (Child e) = Ret (Child e');
  step_form : reserved S → reserved Dc → forallb clean_decl (Attrs e) = true →
    reserved scope ∧ reserved d ∧ SubContext Dc e' = Ret d;
  step_agree S1 e1 scope1 : Space e1 = Space e → Tag e1 = Tag e → own_attrs e1 ≡ₚ own_attrs e →
    SubContext S1 e1 = Ret scope1 →
    (∀ p, p ∈ elements (visiblyUtilizedPrefixes incl e) → scope1 !! p = scope !! p) →
    (∀ p, p ∈ elements (visiblyUtilizedPrefixes incl e1) → p ∈ elements (visiblyUtilizedPrefixes incl e)) →
    (∀ p, p ∈ elements (visiblyUtilizedPrefixes incl e) → Dc !! p ≠ scope !! p →
       p ∈ elements (visiblyUtilizedPrefixes incl e1)) →
    c14n_children (transformExcC14n scope1 d incl comments) comments (Child e1) = Ret (Child e') →
    transformExcC14n S1 Dc incl comments e1 = Ret e'
}.

Lemma transformExcC14n_step_agree incl comments S Dc e e' : NoDup (map Attr_Key (own_attrs e)) →
  transformExcC14n S Dc incl comments e = Ret e' → ∃ scope d, c14n_step incl comments S Dc e e' scope d.
Proof.
  intros Hnd. rewrite transformExcC14n_eq. intros (scope & Hscope & H)%bind_ret.
  apply bind_ret in H as ([d new] & Hd & H). apply bind_ret in H as (c' & Hc & [= <-]). cbn [fst snd] in *.
  exists scope, d. pose proof (declare_prefixes_spec _ _ _ _ _ Hd) as (P1 & P2 & P3 & P4).
  pose proof (canonical_distinct _ _ _ _ _ _ Hnd Hd) as Hdist. split; [done..| |done| |done| |].
  - apply (own_perm e new); [apply SortAttrs_perm|]. by eapply declared_decls.
  - intros p Hp Hne. destruct (P4 p Hp) as [|(u & Hu & Hin)]; [done|]. exists (declare p u), u.
    split; [|apply decl_of_declare]. cbn [Attrs]. rewrite SortAttrs_perm. set_solver.
  - intros HS HD Hclean. assert (HS' : reserved scope).
    { pose proof (subContext_proper _ _ _ Hscope Hclean) as Hp. apply SubContext_scope in Hscope as ->.
      by apply reserved_declared. }
    destruct (canonical_scope _ _ _ _ _ (own_attrs e) (SortAttrs (own_attrs e ++ new)) HS' HD Hd) as [Hsub HD'];
      [apply SortAttrs_perm|apply own_attrs_plain|done].
  - intros S1 e1 scope1 Hs Ht Ho Hscope1 Hag Hsub Hsup Hc1. rewrite transformExcC14n_eq, Hscope1, ret_bind.
    destruct (declare_prefixes_agree scope scope1 Dc _ _ d new Hd Hag Hsub Hsup) as (new' & -> & Hnew).
    rewrite ret_bind. cbn [fst snd Child] in *. rewrite Hc1, ret_bind, Hs, Ht.
    rewrite <- (SortAttrs_unique (own_attrs e ++ new) (own_attrs e1 ++ new')); [done|done|]. by rewrite Ho, Hnew.
Qed.

(** The children are those of another loop. *)
Lemma c14n_children_mono f g comments c c' :
  (∀ x y, TElement x ∈ c → f x = Ret y → g x = Ret y) →
  c14n_children f comments c = Ret c' → c14n_children g comments c = Ret c'.
Proof.
  revert c'. induction c as [|k c IH]; intros c' Hfg; [done|].
  specialize (λ c', IH c' ltac:(intros x y Hx; apply Hfg; by right)).
  destruct k as [x|s|s|s]; simpl; [|intros (l & Hl & Hr)%bind_ret; by rewrite (IH _ Hl) ..].
  intros (y & Hy & H)%bind_ret. apply bind_ret in H as (l & Hl & Hr).
  rewrite (Hfg x y ltac:(by left) Hy), ret_bind. by rewrite (IH _ Hl).
Qed.

Lemma c14n_children_again f g comments c c' :
  (∀ x y, TElement x ∈ c → f x = Ret y → g y = Ret y) →
  c14n_children f comments c = Ret c' → c14n_children g comments c' = Ret c'.
Proof.
  revert c'. induction c as [|k c IH]; intros c' Hfg; simpl; [by intros [= <-]|].
  specialize (λ c', IH c' ltac:(intros x y Hx; apply Hfg; by right)).
  destruct k as [x|s|s|s].
  - intros (y & Hy & H)%bind_ret. apply bind_ret in H as (l & Hl & [= <-]). simpl.
    by rewrite (Hfg x y ltac:(by left) Hy), ret_bind, (IH _ Hl).
  - intros (l & Hl & [= <-])%bind_ret. simpl. by rewrite (IH _ Hl).
  - intros (l & Hl & [= <-])%bind_ret. destruct comments; simpl; by rewrite (IH _ Hl).
  - intros (l & Hl & [= <-])%bind_ret. simpl. by rewrite (IH _ Hl).
Qed.

Lemma child_readable e x : readable e = true → TElement x ∈ Child e → readable x = true.
Proof.
  intros (_ & _ & H)%readable_inv Hx. apply H. apply list_elem_of_omap. by exists (TElement x).
Qed.

(** More may be in scope around the element. *)
Lemma transformExcC14n_scope_mono incl comments e : ∀ S S1 Dc e', readable e = true → extends S S1 →
  transformExcC14n S Dc incl comments e = Ret e' → transformExcC14n S1 Dc incl comments e = Ret e'.
Proof.
  induction e as [sp t a c IH] using element_tree_ind. intros S S1 Dc e' Hr HS Ht.
  pose proof (readable_inv _ Hr) as (Hnd & _ & _).
  destruct (transformExcC14n_step_agree _ _ _ _ _ _ Hnd Ht) as (scope & d & []).
  destruct (subContext_extends _ _ _ _ step_scope0 HS) as (scope1 & Hs1 & Hext).
  eapply (step_agree0 S1 _ scope1); [done..| |done|done|].
  - intros p Hp. apply extends_lookup; [done|]. by apply step_visible0.
  - eapply c14n_children_mono; [|exact step_children0]. intros x y Hx. rewrite Forall_forall in IH.
    apply (IH (TElement x) Hx); [|done]. by apply (child_readable _ x Hr).
Qed.

(** A canonical form is left as it is. *)
Lemma transformExcC14n_again incl comments e : ∀ S Dc S1 e', readable e = true → reserved S → reserved Dc →
  extends Dc S1 → transformExcC14n S Dc incl comments e = Ret e' →
  transformExcC14n S1 Dc incl comments e' = Ret e'.
Proof.
  induction e as [sp t a c IH] using element_tree_ind. intros S Dc S1 e' Hr HS HD HS1 Ht.
  pose proof (readable_inv _ Hr) as (Hnd & _ & _).
  destruct (transformExcC14n_step_agree _ _ _ _ _ _ Hnd Ht) as (scope & d & []).
  destruct (step_form0 HS HD) as (HS' & HD' & Hsub); [by apply (readable_inv _ Hr)|].
  destruct (subContext_extends _ _ _ _ Hsub HS1) as (scope1 & Hs1 & Hext).
  assert (Hag : ∀ p, p ∈ elements (visiblyUtilizedPrefixes incl (mkElement sp t a c)) → scope1 !! p = scope !! p).
  { intros p Hp. destruct (step_visible0 p Hp) as [Heq Hsome]. rewrite <- Heq in *. by apply extends_lookup. }
  eapply (step_agree0 S1 _ scope1); [done..|exact Hag| | |].
  - intros p. rewrite !visible_inv. intros [->|[(b & Hb & Hne & ->)|(Hp & b & u & Hb & Hd)]].
    + by left.
    + right; left. exists b. by rewrite <- step_own0.
    + rewrite <- visible_inv. by eapply transformed_decls.
  - intros p Hp Hne. destruct (step_declared0 p Hp Hne) as (b & u & Hb & Hd). rewrite visible_inv in *.
    destruct Hp as [->|[(b' & Hb' & Hne' & ->)|(Hp & _)]].
    + by left.
    + right; left. exists b'. by rewrite step_own0.
    + right; right. eauto.
  - eapply c14n_children_again; [|exact step_children0]. intros x y Hx Hy. rewrite Forall_forall in IH.
    apply (IH (TElement x) Hx scope d); [by apply (child_readable _ x Hr)|done..].
Qed.

(** The declarations around an element, added to it. *)
Lemma context_decls_elem ctx a : a ∈ context_decls ctx ↔ ∃ p u, a = declare p u ∧ ctx !! p = Some u ∧
  p ∉ [xmlnsPrefix; xmlPrefix] ∧ ¬ (p = defaultPrefix ∧ u = XMLNamespace).
Proof.
  unfold context_decls. rewrite list_elem_of_omap. split.
  - intros ([p u] & Hin & H). apply elem_of_map_to_list in Hin. exists p, u. rewrite !not_elem_of_cons.
    case_match eqn:E1; [done|]. case_match eqn:E2; [done|]. simplify_eq. bool_prop. apply andb_false_iff in E2.
    split_and!; [done..|apply not_elem_of_nil|]. intros [-> ->]. rewrite !bool_decide_true in E2 by done. naive_solver.
  - intros (p & u & -> & Hp & Hne & Hnd). exists (p, u). split; [by apply elem_of_map_to_list|].
    rewrite !not_elem_of_cons in Hne. destruct Hne as (H1 & H2 & _). rewrite !(bool_decide_false (p = _)) by done.
    simpl. case_match eqn:E; [|done]. bool_prop. tauto.
Qed.

Lemma detached_perm ctx e : SortAttrs (own_attrs e ++ context_decls ctx) ≡ₚ (own_attrs e ++ context_decls ctx)%list.
Proof. apply SortAttrs_perm. Qed.

Definition detached (ctx : NSContext) (e : Element) : Element :=
  set_Attrs (SortAttrs (own_attrs e ++ context_decls ctx)) e.

Lemma context_decls_decls ctx : Forall (λ a, is_ns_decl a = true) (context_decls ctx).
Proof.
  apply Forall_forall. intros a (p & u & -> & _)%context_decls_elem. by rewrite is_ns_decl_of, decl_of_declare.
Qed.

Lemma detached_own ctx e : own_attrs (detached ctx e) ≡ₚ own_attrs e.
Proof. apply (own_perm e (context_decls ctx)); [apply detached_perm|apply context_decls_decls]. Qed.

(** A detached element is in the scope that it was in. *)
Lemma detached_scope ctx e : reserved ctx → ∃ scope, SubContext default_prefixes (detached ctx e) = Ret scope ∧
  ∀ p u, ctx !! p = Some u → scope !! p = Some u.
Proof.
  intros [R1 R2 R3]. set (l := SortAttrs (own_attrs e ++ context_decls ctx)).
  assert (Hl : ∀ a p u, a ∈ l → decl_of a = Some (p, u) → a ∈ context_decls ctx ∧ a = declare p u ∧ ctx !! p = Some u ∧
    p ∉ [xmlnsPrefix; xmlPrefix] ∧ ¬ (p = defaultPrefix ∧ u = XMLNamespace)).
  { intros a p u Ha Hd. unfold l in Ha. rewrite SortAttrs_perm in Ha. apply elem_of_app in Ha as [Ha|Ha].
    - pose proof (own_attrs_plain e) as Hp. rewrite Forall_forall in Hp. apply Hp in Ha.
      by rewrite is_ns_decl_of, Hd in Ha.
    - split; [done|]. apply context_decls_elem in Ha as (q & v & -> & H). rewrite decl_of_declare in Hd. by simplify_eq. }
  exists (foldl xml_declare default_prefixes l). split.
  - apply subContext_returns. apply forallb_elem. intros a Ha. unfold proper_decl. destruct (decl_of a) as [[p u]|] eqn:Hd; [|done].
    destruct (Hl a p u Ha Hd) as (_ & _ & Hp & Hn & _). rewrite !not_elem_of_cons in Hn. destruct Hn as (H1 & H2 & _).
    unfold proper_binding. rewrite !(bool_decide_false (p = _)) by done. simpl.
    destruct (bool_decide_reflect (p = defaultPrefix)) as [->|]; [|done]. rewrite bool_decide_false; [done|]. congruence.
  - intros p u Hp. destruct (decide (p = xmlnsPrefix)) as [->|Hx]; [|destruct (decide (p = xmlPrefix)) as [->|Hx']].
    1,2: rewrite declare_none; [rewrite Hp in *; simplify_eq; by vm_compute|];
      intros a v Ha Hd; destruct (Hl _ _ _ Ha Hd) as (_ & _ & _ & Hn & _); set_solver.
    destruct (decide (p = defaultPrefix ∧ u = XMLNamespace)) as [[-> ->]|Hdef].
    + rewrite declare_none; [by vm_compute|]. intros a v Ha Hd. destruct (Hl _ _ _ Ha Hd) as (_ & _ & Hv & _ & Hn).
      rewrite Hp in Hv. simplify_eq. by destruct Hn.
    + apply (declare_some _ _ _ _ (declare p u)); [|apply decl_of_declare|].
      * unfold l. rewrite SortAttrs_perm. apply elem_of_app. right. apply context_decls_elem. exists p, u.
        rewrite !not_elem_of_cons. split_and!; [done..|apply not_elem_of_nil|done].
      * intros b v Hb Hd. destruct (Hl _ _ _ Hb Hd) as (_ & _ & Hv & _). congruence.
Qed.

(** Detaching an element from its document does not change its canonical form. *)
Lemma TransformExcC14n_detached comments e e' ctx ctx' : readable e = true →
  TransformExcC14n e "" comments = Ret e' → extends default_prefixes ctx → SubContext ctx e = Ret ctx' → reserved ctx' →
  TransformExcC14n (detached ctx' e) "" comments = Ret e'.
Proof.
  intros Hr Ht Hext Hctx Hres. pose proof (readable_inv _ Hr) as (Hnd & _ & _).
  destruct (transformExcC14n_step_agree _ _ _ _ _ _ Hnd Ht) as (scope & d & []).
  destruct (subContext_extends _ _ _ _ step_scope0 Hext) as (ctx1 & Hctx1 & Hs).
  assert (ctx1 = ctx') as -> by (unfold SubContext in Hctx; congruence).
  destruct (detached_scope ctx' e Hres) as (scope1 & Hs1 & Hs2).
  assert (Hscopes : extends scope scope1) by (intros p u Hu; by apply Hs2, Hs).
  assert (Hvis : ∀ p, p ∈ elements (visiblyUtilizedPrefixes ∅ (detached ctx' e)) ↔ p ∈ elements (visiblyUtilizedPrefixes ∅ e)).
  { intros p. rewrite !visible_inv. setoid_rewrite detached_own.
    split; intros [?|[?|[Hp _]]]; auto; by apply not_elem_of_empty in Hp. }
  apply (step_agree0 default_prefixes _ scope1); [done|done|apply detached_own|done|..].
  - intros p Hp. apply extends_lookup; [done|]. by apply step_visible0.
  - intros p. apply Hvis.
  - intros p Hp _. by apply Hvis.
  - eapply c14n_children_mono; [|exact step_children0]. intros x y Hx.
    apply transformExcC14n_scope_mono; [|done]. by apply (child_readable e).
Qed.

(** C24: Canonical forms are stable. What [TransformExcC14n] makes of an element it leaves as
    it is, and it is the canonical form also of the element that [NSDetatch] takes out of a
    document, with all declarations in scope there added to it. *)
Theorem canonical_form_stable e comments prefixes e' :
  readable e = true → TransformExcC14n e prefixes comments = Ret e' →
  TransformExcC14n e' prefixes comments = Ret e' ∧
  ∀ ctx d, prefixes = "" → extends default_prefixes ctx → reserved ctx → run_default (NSDetatch ctx e) = Ret d →
    TransformExcC14n d "" comments = Ret e'.
Proof.
  intros Hr Ht. split.
  - apply (transformExcC14n_again _ _ e default_prefixes _ _ _ Hr); [apply reserved_default_prefixes..|by intros p u|exact Ht].
  - intros ctx d -> Hext Hres Hd. unfold run_default, NSDetatch in Hd.
    unfold mbind, NSM_bind in Hd. destruct (checkSubtreeLimit _ _) as [st [|e1|]]; [|done..].
    unfold ns_lift in Hd. destruct (SubContext ctx e) as [ctx'| |] eqn:Hctx; [|done..]. simpl in Hd. injection Hd as <-.
    eapply TransformExcC14n_detached; [done..|].
    pose proof (readable_inv _ Hr) as (_ & Hclean & _).
    pose proof (subContext_proper _ _ _ Hctx Hclean). apply SubContext_scope in Hctx as ->. by apply reserved_declared.
Qed.

Module Examples.
Import C14nSpec.Examples.

Definition soap_space : string := "http://schemas.xmlsoap.org/soap/envelope/".

(** The declarations around the request in the document that it is taken from. *)
Definition surroundings : NSContext := <["soap" := soap_space]> default_prefixes.

(** The request is taken out with the declarations of its surroundings, and this does not
    change its canonical form. *)
Lemma canonical_form_stable_witness :
  TransformExcC14n canonical "" false = Ret canonical ∧
  ∃ d, run_default (NSDetatch surroundings request) = Ret d ∧ declare "soap" soap_space ∈ Attrs d ∧
    TransformExcC14n d "" false = Ret canonical.
Proof.
  destruct (canonical_form_stable request false "" canonical ltac:(by vm_compute) ltac:(by vm_compute)) as [Hc Hd].
  split; [exact Hc|]. eexists. split; [vm_compute; reflexivity|]. split; [do 2 right; left|].
  apply (Hd surroundings); [done|..].
  - intros p u Hp. unfold surroundings. rewrite ns_insert_ne; [done|]. intros <-. by vm_compute in Hp.
  - apply reserved_insert; [apply reserved_default_prefixes|by vm_compute].
  - vm_compute. reflexivity.
Defined.
End Examples.
