(* ===== verification/SchemaTidy.v ===== *)
(** * SchemaTidy: the elements of a message are well formed

    Every element that an [Element] method builds uses declared prefixes only and has
    attributes of distinct names ([tidy]), so that it has a canonical form and the
    canonical form reads the same. *)

From stdpp Require Import base option list gmap strings sets.
From Stdlib Require Import ZArith Lia Ascii.
From S2P Require Import Prelude Go Duration RelaxedTime Encoding Etree C14n Schema Env Reference.
From S2P Require Import SchemaXML XmlDecode SchemaDecode SchemaRoundtrip C14nReads C14nSpec.

Open Scope string_scope.

Definition tidy (ctx : NSContext) (e : Element) : Prop := readable e = true ∧ well_namespaced ctx e = true.

Lemma readable_els e :
  readable e = bool_decide (NoDup (map Attr_Key (own_attrs e))) && forallb clean_decl (Attrs e)
               && forallb readable (ChildElements e).
Proof.
  destruct e as [s t a c]. cbn [readable]. f_equal. unfold ChildElements. simpl.
  induction c as [|[] c IH]; simpl; [done| |done..]. by rewrite IH.
Qed.

Lemma well_namespaced_els ctx e :
  well_namespaced ctx e
  = match SubContext ctx e with
    | Ret scope =>
        forallb (λ p, bool_decide (is_Some (scope !! p))) (elements (visiblyUtilizedPrefixes ∅ e))
        && forallb (well_namespaced scope) (ChildElements e)
    | _ => false
    end.
Proof.
  destruct e as [s t a c]. cbn [well_namespaced]. destruct (SubContext _ _) as [scope| |]; [|done..]. f_equal.
  unfold ChildElements. simpl. induction c as [|[] c IH]; simpl; [done| |done..]. by rewrite IH.
Qed.

(** The element from its parts. *)
Lemma tidy_scope ctx ctx' e : SubContext ctx e = Ret ctx' →
  forallb clean_decl (Attrs e) = true → NoDup (map Attr_Key (own_attrs e)) →
  (∀ p, p ∈ visiblyUtilizedPrefixes ∅ e → is_Some (ctx' !! p)) → Forall (tidy ctx') (ChildElements e) → tidy ctx e.
Proof.
  intros Hs Hc Hn Hv Hl. unfold tidy. rewrite readable_els, well_namespaced_els, Hs, Hc.
  rewrite bool_decide_true by done. simpl. rewrite Forall_forall in Hl. split.
  - apply forallb_elem. intros x Hx. by apply Hl.
  - apply andb_true_iff. split; apply forallb_elem; intros x Hx; [|by apply Hl].
    apply bool_decide_eq_true, Hv. by apply elem_of_elements.
Qed.

(** Attributes without a prefix. *)
Definition unprefixed_name (space key : string) : bool := (space =? "") && negb (key =? "xmlns").
Definition unprefixed : list Attr → Prop := names_ok unprefixed_name.

Lemma unprefixed_attr a : unprefixed_name (Attr_Space a) (Attr_Key a) = true →
  Attr_Space a = "" ∧ Attr_Key a ≠ "xmlns" ∧ decl_of a = None.
Proof.
  unfold unprefixed_name, decl_of. destruct (String.eqb_spec (Attr_Space a) "") as [->|]; [|done]. simpl.
  by destruct (String.eqb_spec (Attr_Key a) "xmlns").
Qed.

Lemma unprefixed_own l : unprefixed l → filter (λ a, is_ns_decl a = false) l = l.
Proof.
  intros H. induction H as [|a l Ha _ IH]; [done|]. apply unprefixed_attr in Ha as (_ & _ & Hd).
  rewrite filter_cons_True by (by rewrite is_ns_decl_of, Hd). by rewrite IH.
Qed.

Lemma unprefixed_clean l : unprefixed l → forallb clean_decl l = true.
Proof.
  intros H. apply forallb_elem. intros a Ha. unfold unprefixed, names_ok in H. rewrite Forall_forall in H.
  apply H, unprefixed_attr in Ha as (_ & _ & Hd). unfold clean_decl. by rewrite Hd.
Qed.

Lemma unprefixed_visible incl s t l c p : unprefixed l →
  p ∈ visiblyUtilizedPrefixes incl (mkElement s t l c) → p = s.
Proof.
  intros H. unfold visiblyUtilizedPrefixes. simpl. intros [Hp|Hp]%elem_of_union; [set_solver|].
  apply elem_of_list_to_set, list_elem_of_omap in Hp as (a & Ha & Hp).
  unfold unprefixed, names_ok in H. rewrite Forall_forall in H. apply H, unprefixed_attr in Ha as (Hs & Hk & _).
  unfold is_default_decl, xmlnsPrefix, defaultPrefix in Hp. rewrite Hs in Hp.
  by rewrite (bool_decide_false (Attr_Key a = "xmlns")) in Hp by done.
Qed.

Lemma unprefixed_SubContext ctx s t l c : unprefixed l → SubContext ctx (mkElement s t l c) = Ret ctx.
Proof.
  unfold SubContext. simpl. intros H. induction H as [|a l Ha _ IH]; [done|]. simpl.
  apply unprefixed_attr in Ha as (-> & Hk & _). unfold xmlnsPrefix, defaultPrefix. simpl.
  by rewrite (bool_decide_false (Attr_Key a = "xmlns")) by done.
Qed.

(** The names of optional attributes, all of them at most. *)
Lemma keys_app l1 l2 k1 k2 : map Attr_Key l1 `sublist_of` k1 → map Attr_Key l2 `sublist_of` k2 →
  map Attr_Key (l1 ++ l2)%list `sublist_of` (k1 ++ k2)%list.
Proof. intros. rewrite map_app. by apply sublist_app. Qed.

Lemma keys_of key v : map Attr_Key (attr_of key v) `sublist_of` [(split_name key).2].
Proof. done. Qed.

Lemma keys_text key v : map Attr_Key (attrs_text key v) `sublist_of` [(split_name key).2].
Proof. unfold attrs_text. case_match; [done|apply sublist_nil_l]. Qed.

Lemma keys_opt {A} key (f : A → string) v : map Attr_Key (attrs_opt key f v) `sublist_of` [(split_name key).2].
Proof. unfold attrs_opt. case_match; [done|apply sublist_nil_l]. Qed.

Lemma keys_time key v : map Attr_Key (attrs_time key v) `sublist_of` [(split_name key).2].
Proof. unfold attrs_time. case_match; [apply sublist_nil_l|done]. Qed.

Lemma keys_nodup l k : map Attr_Key l `sublist_of` k → bool_decide (NoDup k) = true → NoDup (map Attr_Key l).
Proof. intros H Hk. bool_prop. by eapply sublist_NoDup. Qed.

Ltac keys_tac :=
  eapply keys_nodup;
  [repeat first [eapply keys_app|apply sublist_nil|apply keys_of|apply keys_text|apply keys_opt|apply keys_time]
  |vm_compute; reflexivity].

Section tidy.
Context `{EtreeI : EtreeOps} `{EtreeB : !EtreeBuild}.

(** An element without declarations. *)
Lemma tidy_built ctx e s t a l x : built s t a l x e →
  unprefixed a → NoDup (map Attr_Key a) → is_Some (ctx !! s) → Forall (tidy ctx) l → tidy ctx e.
Proof.
  intros [Hs _ Ha Hl _] Hu Hn Hp Hc. destruct e as [s' t' a' c]. simpl in *. subst.
  apply (tidy_scope ctx ctx); [by apply unprefixed_SubContext|by apply unprefixed_clean| | |done].
  - unfold own_attrs. simpl. by rewrite unprefixed_own.
  - by intros p ->%unprefixed_visible.
Qed.

Lemma tidy_opt {A} ctx (f : A → Element) o : (∀ x, o = Some x → tidy ctx (f x)) → Forall (tidy ctx) (els_opt f o).
Proof. intros H. destruct o; [apply Forall_singleton; by apply H|constructor]. Qed.

Lemma tidy_each {A} ctx (f : A → Element) l : (∀ x, x ∈ l → tidy ctx (f x)) → Forall (tidy ctx) (map f l).
Proof. intros H. apply Forall_map, Forall_forall. exact H. Qed.

Lemma tidy_one ctx e : tidy ctx e → Forall (tidy ctx) [e].
Proof. apply Forall_singleton. Qed.

Ltac els_tac t :=
  repeat first [apply Forall_app_2|apply Forall_nil_2|apply tidy_opt; intros; t|apply tidy_each; intros; t|apply tidy_one; t].
Ltac tidy_tac t :=
  eapply tidy_built; [build|names_tac|keys_tac|done|els_tac t].

Section saml.
Context (ctx : NSContext) (Hsaml : is_Some (ctx !! "saml")).

Lemma Issuer_tidy x : tidy ctx (Issuer_Element x).
Proof. unfold Issuer_Element. tidy_tac done. Qed.

Lemma NameID_tidy x : tidy ctx (NameID_Element x).
Proof. unfold NameID_Element. tidy_tac done. Qed.

Lemma SubjectConfirmationData_tidy x : tidy ctx (SubjectConfirmationData_Element x).
Proof. unfold SubjectConfirmationData_Element. tidy_tac done. Qed.

Lemma SubjectConfirmation_tidy x : tidy ctx (SubjectConfirmation_Element x).
Proof.
  unfold SubjectConfirmation_Element.
  tidy_tac ltac:(first [apply NameID_tidy|apply SubjectConfirmationData_tidy]).
Qed.

Lemma Subject_tidy x : tidy ctx (Subject_Element x).
Proof. unfold Subject_Element. tidy_tac ltac:(first [apply NameID_tidy|apply SubjectConfirmation_tidy]). Qed.

Lemma Audience_tidy x : tidy ctx (Audience_Element x).
Proof. unfold Audience_Element, text_el. tidy_tac done. Qed.

Lemma AudienceRestriction_tidy x : tidy ctx (AudienceRestriction_Element x).
Proof. unfold AudienceRestriction_Element. tidy_tac ltac:(apply Audience_tidy). Qed.

Lemma OneTimeUse_tidy x : tidy ctx (OneTimeUse_Element x).
Proof. unfold OneTimeUse_Element. tidy_tac done. Qed.

Lemma ProxyRestriction_tidy x : tidy ctx (ProxyRestriction_Element x).
Proof. unfold ProxyRestriction_Element. tidy_tac ltac:(apply Audience_tidy). Qed.

Lemma Conditions_tidy x : tidy ctx (Conditions_Element x).
Proof.
  unfold Conditions_Element.
  tidy_tac ltac:(first [apply AudienceRestriction_tidy|apply OneTimeUse_tidy|apply ProxyRestriction_tidy]).
Qed.

Lemma SubjectLocality_tidy x : tidy ctx (SubjectLocality_Element x).
Proof. unfold SubjectLocality_Element. tidy_tac done. Qed.

Lemma AuthnContextClassRef_tidy x : tidy ctx (AuthnContextClassRef_Element x).
Proof. unfold AuthnContextClassRef_Element, text_el. tidy_tac done. Qed.

Lemma AuthnContext_tidy x : tidy ctx (AuthnContext_Element x).
Proof. unfold AuthnContext_Element. tidy_tac ltac:(apply AuthnContextClassRef_tidy). Qed.

Lemma AuthnStatement_tidy x : tidy ctx (AuthnStatement_Element x).
Proof.
  unfold AuthnStatement_Element. tidy_tac ltac:(first [apply SubjectLocality_tidy|apply AuthnContext_tidy]).
Qed.
End saml.

(** ** Attributes, whose values declare the prefixes of their types *)

Definition value_decls : list Attr :=
  [mkAttr "xmlns" "xsi" xsi_space; mkAttr "xmlns" "xs" "http://www.w3.org/2001/XMLSchema"].

Lemma AttributeValue_tidy ctx x : is_Some (ctx !! "saml") → tidy ctx (AttributeValue_Element x).
Proof.
  intros [u Hu].
  assert (Hb : built "saml" "AttributeValue" (value_decls ++ attrs_text "xsi:type" (AttributeValue_Type x))
    (els_opt NameID_Element (AttributeValue_NameID x)) (AttributeValue_Value x) (AttributeValue_Element x)).
  { unfold AttributeValue_Element, declare_xs. eapply built_eq; [build|done..]. }
  destruct Hb as [Hs Ht Ha Hl _]. destruct (AttributeValue_Element x) as [s t a c]. simpl in *. subst s t a.
  assert (Hlook : value_scope ctx !! "saml" = Some u).
  { unfold value_scope. by rewrite !lookup_other by done. }
  assert (Htype : ∃ l, attrs_text "xsi:type" (AttributeValue_Type x) = l ∧
    (l = [] ∨ l = [mkAttr "xsi" "type" (AttributeValue_Type x)])).
  { unfold attrs_text. case_match; eauto. }
  destruct Htype as (l & -> & Htype).
  apply (tidy_scope ctx (value_scope ctx)).
  - by destruct Htype as [->| ->].
  - by destruct Htype as [->| ->]; vm_compute.
  - destruct Htype as [->| ->]; unfold own_attrs; simpl; repeat constructor; set_solver.
  - intros p. unfold visiblyUtilizedPrefixes. intros [Hp|Hp]%elem_of_union.
    + apply elem_of_singleton in Hp as ->. by eexists.
    + assert (p = "xsi") as -> by (destruct Htype as [->| ->]; simpl in Hp; set_solver).
      unfold value_scope. rewrite lookup_other, lookup_declared by done. by eexists.
  - change (Forall (tidy (value_scope ctx)) (omap token_element c)).
    change (omap token_element c = els_opt NameID_Element (AttributeValue_NameID x)) in Hl. rewrite Hl. apply tidy_opt. intros n _. apply NameID_tidy. by eexists.
Qed.

Lemma Attribute_tidy ctx x : is_Some (ctx !! "saml") → tidy ctx (Attribute_Element x).
Proof. intros. unfold Attribute_Element. tidy_tac ltac:(by apply AttributeValue_tidy). Qed.

Lemma AttributeStatement_tidy ctx x : is_Some (ctx !! "saml") → tidy ctx (AttributeStatement_Element x).
Proof. intros. unfold AttributeStatement_Element. tidy_tac ltac:(by apply Attribute_tidy). Qed.

(** ** Assertions *)

(** The element that [Assertion.Element] canonicalizes. *)
Definition assertion_el (a : Assertion) : Element :=
  NewElement "saml:Assertion"
    |> CreateAttr "xmlns:saml" "urn:oasis:names:tc:SAML:2.0:assertion"
    |> CreateAttr "Version" "2.0"
    |> CreateAttr "ID" (Assertion_ID a)
    |> CreateAttr "IssueInstant" (Time_Format (Assertion_IssueInstant a))
    |> AddChild (Issuer_Element (Assertion_Issuer a))
    |> child_opt id (Assertion_Signature a)
    |> child_opt Subject_Element (Assertion_Subject a)
    |> child_opt Conditions_Element (Assertion_Conditions a)
    |> child_each AuthnStatement_Element (Assertion_AuthnStatements a)
    |> child_each AttributeStatement_Element (Assertion_AttributeStatements a).

(** The scope of the canonicalizer in an assertion. *)
Definition assertion_scope : NSContext := <["saml" := assertion_space]> default_prefixes.

Definition assertion_decls (a : Assertion) : list Attr :=
  [mkAttr "xmlns" "saml" assertion_space; mkAttr "" "Version" "2.0"; mkAttr "" "ID" (Assertion_ID a);
   mkAttr "" "IssueInstant" (Time_Format (Assertion_IssueInstant a))].

Definition assertion_els (a : Assertion) : list Element :=
  (Issuer_Element (Assertion_Issuer a) :: els_opt id (Assertion_Signature a) ++
   els_opt Subject_Element (Assertion_Subject a) ++ els_opt Conditions_Element (Assertion_Conditions a) ++
   map AuthnStatement_Element (Assertion_AuthnStatements a) ++
   map AttributeStatement_Element (Assertion_AttributeStatements a))%list.

Lemma assertion_el_built a :
  built "saml" "Assertion" (assertion_decls a) (assertion_els a) "" (assertion_el a).
Proof.
  unfold assertion_el. eapply built_eq; [build|done..| |done]. groups. done.
Qed.

Lemma assertion_el_tidy a : (∀ e, Assertion_Signature a = Some e → tidy assertion_scope e) →
  tidy default_prefixes (assertion_el a).
Proof.
  intros Hsig. destruct (assertion_el_built a) as [Hs Ht Ha Hl _].
  destruct (assertion_el a) as [s t attrs c]. simpl in *. subst s t attrs.
  assert (Hsaml : is_Some (assertion_scope !! "saml")) by (unfold assertion_scope; rewrite ns_insert_eq; by eexists).
  apply (tidy_scope default_prefixes assertion_scope).
  - done.
  - by vm_compute.
  - apply (bool_decide_eq_true_1 (NoDup ["Version"; "ID"; "IssueInstant"])). by vm_compute.
  - intros p. unfold visiblyUtilizedPrefixes. intros [Hp|Hp]%elem_of_union.
    + by apply elem_of_singleton in Hp as ->.
    + simpl in Hp. set_solver.
  - rewrite Hl. unfold assertion_els. apply Forall_cons_2; [by apply Issuer_tidy|].
    els_tac ltac:(first [by apply Hsig|by apply Subject_tidy|by apply Conditions_tidy
      |by apply AuthnStatement_tidy|by apply AttributeStatement_tidy]).
Qed.
End tidy.
