(* ===== verification/SchemaDecodeSpec.v ===== *)
(** * SchemaDecodeSpec: the messages round trip

    What each [UnmarshalXML] of a message reads from what its [Element] builds, and what
    is lost on the way. *)

From stdpp Require Import base option list gmap strings sets.
From Stdlib Require Import ZArith Lia Ascii.
From S2P Require Import Prelude Go Duration RelaxedTime Encoding Etree C14n Schema Env Reference.
From S2P Require Import SchemaXML XmlDecode SchemaDecode SchemaRoundtrip C14nReads C14nSpec.
From S2P Require Import SchemaTidy.

Open Scope string_scope.

#[local] Arguments RelaxedTime_UnmarshalText : simpl never.
#[local] Arguments Time_Format : simpl never.
#[local] Arguments time_Parse : simpl never.

Tactic Notation "signature" constr(p) :=
  group ltac:(apply (read_signature _ _ p); [by auto|intros; reflexivity|reflexivity..]).

Tactic Notation "flag" constr(p) :=
  group ltac:(apply (read_opt _ _ p _ _ id); [intros; unfold read_attr; simpl; unfold to_pointer;
    rewrite copy_bool_FormatBool; reflexivity|reflexivity]).

(** The root of a message declares the prefixes, and apart from [xs] nothing else. *)
Definition tame_name (space key : string) : bool := plain_name space key || ((space =? "xmlns") && (key =? "xs")).
Definition tame : list Attr → Prop := names_ok tame_name.

Lemma tame_scope ns l prefix : tame l → prefix ≠ "xs" → foldl xml_declare ns l !! prefix = ns !! prefix.
Proof.
  intros Hl Hp. revert ns. induction Hl as [|[s k v] l Ha _ IH]; intros ns; [done|]. simpl. rewrite IH.
  unfold tame_name, plain_name in Ha. simpl in Ha. unfold xml_declare. simpl.
  destruct (s =? "xmlns"); simpl in Ha.
  - destruct (String.eqb_spec k "xs") as [->|]; [|done]. by apply ns_insert_ne.
  - by destruct ((s =? "") && (k =? "xmlns")).
Qed.

Lemma message_scope ns l : tame l →
  let ns' := foldl xml_declare ns
    (attr_of "xmlns:saml" assertion_space ++ attr_of "xmlns:samlp" protocol_space ++ l)%list in
  protocol_scope ns' ∧ ∀ p, p ∉ ["saml"; "samlp"; "xs"] → ns' !! p = ns !! p.
Proof.
  intros H. cbv zeta. rewrite !foldl_app.
  change (foldl xml_declare (foldl xml_declare ns (attr_of "xmlns:saml" assertion_space))
    (attr_of "xmlns:samlp" protocol_space)) with
    (xml_declare (xml_declare ns (mkAttr "xmlns" "saml" assertion_space)) (mkAttr "xmlns" "samlp" protocol_space)).
  split; [split|].
  - unfold saml_scope. rewrite tame_scope, lookup_other, lookup_declared by done. done.
  - rewrite tame_scope, lookup_declared by done. done.
  - intros p Hp. rewrite !not_elem_of_cons in Hp. destruct Hp as (H1 & H2 & H3 & _).
    by rewrite tame_scope, !lookup_other by congruence.
Qed.

Lemma reads_message {A} n (F : list (Field A)) ns e t a l els x v va vl :
  built "samlp" t a els x e →
  a = (attr_of "xmlns:saml" assertion_space ++ attr_of "xmlns:samlp" protocol_space ++ l)%list →
  tame l → expects n protocol_space t →
  (∀ ns, protocol_scope ns → fold_each (read_attr F ns) a v = Ret va) →
  (∀ ns', protocol_scope ns' → (∀ p, p ∉ ["saml"; "samlp"; "xs"] → ns' !! p = ns !! p) →
     fold_each (unmarshalPath F ns') els va = Ret vl) →
  reads (unmarshal_struct n F) v ns e protocol_space t (assign_chardata F x vl).
Proof.
  intros He Ha Hl Hn Hva Hvl. destruct (message_scope ns l Hl) as [Hns Hsame]. rewrite <- Ha in Hns, Hsame.
  eapply reads_struct; eauto. by apply translate_samlp.
Qed.

Ltac message_struct Hns :=
  eapply reads_eq; [eapply reads_message;
    [build|groups; reflexivity|names_tac|done|intros ns' Hns; groups|intros ns' Hns Hsame; groups]|].

Section messages.
Context `{EtreeI : EtreeOps} `{EtreeB : !EtreeBuild}.

(** ** Requests *)

Definition AuthnRequest_read (r : AuthnRequest) : AuthnRequest :=
  mkAuthnRequest (AuthnRequest_ID r) (AuthnRequest_Version r) (Time_read (AuthnRequest_IssueInstant r))
    (AuthnRequest_Destination r) (AuthnRequest_Consent r) (AuthnRequest_Issuer r)
    ((λ _, zero_Element) <$> AuthnRequest_Signature r) (Subject_read <$> AuthnRequest_Subject r)
    (NameIDPolicy_read <$> AuthnRequest_NameIDPolicy r) (Conditions_read <$> AuthnRequest_Conditions r)
    (AuthnRequest_RequestedAuthnContext r) (AuthnRequest_ForceAuthn r) (AuthnRequest_IsPassive r)
    (AuthnRequest_AssertionConsumerServiceIndex r) (AuthnRequest_AssertionConsumerServiceURL r)
    (AuthnRequest_ProtocolBinding r) (AuthnRequest_AttributeConsumingServiceIndex r)
    (AuthnRequest_ProviderName r).

Record AuthnRequest_writable (r : AuthnRequest) : Prop := {
  request_instant : four_digit_year (AuthnRequest_IssueInstant r);
  request_signature : signature_ok (AuthnRequest_Signature r);
  request_subject s : AuthnRequest_Subject r = Some s → Forall four_digit_year (Subject_times s);
  request_conditions c : AuthnRequest_Conditions r = Some c → Forall four_digit_year (Conditions_times c)
}.

Lemma AuthnRequest_reads ns r : AuthnRequest_writable r →
  reads AuthnRequest_UnmarshalXML zero_AuthnRequest ns (AuthnRequest_Element r)
    protocol_space "AuthnRequest" (AuthnRequest_read r).
Proof.
  intros [Ht Hsig Hsub Hcond]. unfold AuthnRequest_Element, declare_saml. message_struct Hns.
  - required. required. required. required. instant.
    text AuthnRequest_Destination. text AuthnRequest_Consent.
    flag AuthnRequest_ForceAuthn. flag AuthnRequest_IsPassive.
    text AuthnRequest_AssertionConsumerServiceIndex. text AuthnRequest_AssertionConsumerServiceURL.
    text AuthnRequest_ProtocolBinding. text AuthnRequest_AttributeConsumingServiceIndex.
    text AuthnRequest_ProviderName.
  - pose proof (protocol_saml _ Hns).
    optional AuthnRequest_Issuer id by (by apply Issuer_reads).
    signature AuthnRequest_Signature.
    optional AuthnRequest_Subject Subject_read by (by apply Subject_reads; auto).
    optional AuthnRequest_NameIDPolicy NameIDPolicy_read by (by apply NameIDPolicy_reads).
    optional AuthnRequest_Conditions Conditions_read by (by apply Conditions_reads; auto).
    optional AuthnRequest_RequestedAuthnContext id by (by apply RequestedAuthnContext_reads).
  - unfold AuthnRequest_read. destruct r. simpl. by rewrite !option_fmap_id.
Qed.

Definition LogoutRequest_read (r : LogoutRequest) : LogoutRequest :=
  mkLogoutRequest (LogoutRequest_ID r) (LogoutRequest_Version r) (Time_read (LogoutRequest_IssueInstant r))
    (Time_read <$> LogoutRequest_NotOnOrAfter r) (LogoutRequest_Destination r) (LogoutRequest_Issuer r)
    (LogoutRequest_NameID r) ((λ _, zero_Element) <$> LogoutRequest_Signature r)
    (LogoutRequest_SessionIndexes r).

Record LogoutRequest_writable (r : LogoutRequest) : Prop := {
  logout_instant : four_digit_year (LogoutRequest_IssueInstant r);
  logout_end t : LogoutRequest_NotOnOrAfter r = Some t → four_digit_year t;
  logout_signature : signature_ok (LogoutRequest_Signature r)
}.

Lemma LogoutRequest_reads ns r : LogoutRequest_writable r →
  reads LogoutRequest_UnmarshalXML zero_LogoutRequest ns (LogoutRequest_Element r)
    protocol_space "LogoutRequest" (LogoutRequest_read r).
Proof.
  intros [Ht Hend Hsig]. unfold LogoutRequest_Element, declare_saml. message_struct Hns.
  - required. required. required. required. instant.
    group ltac:(apply (read_opt _ _ LogoutRequest_NotOnOrAfter _ _ Time_read);
      [intros t Hs; apply Hend in Hs; read_the_time|reflexivity]).
    text LogoutRequest_Destination.
  - pose proof (protocol_saml _ Hns).
    optional LogoutRequest_Issuer id by (by apply Issuer_reads).
    signature LogoutRequest_Signature.
    optional LogoutRequest_NameID id by (by apply NameID_reads).
    each LogoutRequest_SessionIndexes id by (by apply SessionIndex_reads).
  - unfold LogoutRequest_read. destruct r. simpl. by rewrite !option_fmap_id, map_id.
Qed.

(** ** Responses to logout requests, and requests for artifacts *)

Definition LogoutResponse_read (r : LogoutResponse) : LogoutResponse :=
  mkLogoutResponse (LogoutResponse_ID r) (LogoutResponse_InResponseTo r) (LogoutResponse_Version r)
    (Time_read (LogoutResponse_IssueInstant r)) (LogoutResponse_Destination r) (LogoutResponse_Consent r)
    (LogoutResponse_Issuer r) ((λ _, zero_Element) <$> LogoutResponse_Signature r)
    (Status_read (LogoutResponse_Status r)).

Record LogoutResponse_writable (r : LogoutResponse) : Prop := {
  logout_response_instant : four_digit_year (LogoutResponse_IssueInstant r);
  logout_response_signature : signature_ok (LogoutResponse_Signature r);
  logout_response_status : Status_writable (LogoutResponse_Status r)
}.

Lemma LogoutResponse_reads ns r : LogoutResponse_writable r →
  reads LogoutResponse_UnmarshalXML zero_LogoutResponse ns (LogoutResponse_Element r)
    protocol_space "LogoutResponse" (LogoutResponse_read r).
Proof.
  intros [Ht Hsig Hst]. unfold LogoutResponse_Element, declare_saml. message_struct Hns.
  - required. required. required. text LogoutResponse_InResponseTo. required. instant.
    text LogoutResponse_Destination. text LogoutResponse_Consent.
  - pose proof (protocol_saml _ Hns).
    optional LogoutResponse_Issuer id by (by apply Issuer_reads).
    signature LogoutResponse_Signature.
    single LogoutResponse_Status by (by apply Status_reads).
  - unfold LogoutResponse_read. destruct r. simpl. by rewrite !option_fmap_id.
Qed.

Definition ArtifactResolve_read (r : ArtifactResolve) : ArtifactResolve :=
  mkArtifactResolve (ArtifactResolve_ID r) (ArtifactResolve_Version r)
    (Time_read (ArtifactResolve_IssueInstant r)) (ArtifactResolve_Issuer r)
    ((λ _, zero_Element) <$> ArtifactResolve_Signature r) (ArtifactResolve_Artifact r).

Lemma ArtifactResolve_reads ns r :
  four_digit_year (ArtifactResolve_IssueInstant r) → signature_ok (ArtifactResolve_Signature r) →
  reads ArtifactResolve_UnmarshalXML zero_ArtifactResolve ns (ArtifactResolve_Element r)
    protocol_space "ArtifactResolve" (ArtifactResolve_read r).
Proof.
  intros Ht Hsig. unfold ArtifactResolve_Element, declare_saml, declare_xs. message_struct Hns.
  - required. required. required. required. required. instant.
  - pose proof (protocol_saml _ Hns).
    optional ArtifactResolve_Issuer id by (by apply Issuer_reads).
    signature ArtifactResolve_Signature.
    single ArtifactResolve_Artifact by
      (apply (text_el_reads _ _ _ "samlp" "Artifact"); [done|by apply translate_samlp]).
  - unfold ArtifactResolve_read. destruct r. simpl. by rewrite !option_fmap_id.
Qed.

(** ** Assertions *)

Definition Assertion_read (a : Assertion) : Assertion :=
  mkAssertion (Assertion_ID a) (Time_read (Assertion_IssueInstant a)) "2.0" (Assertion_Issuer a)
    ((λ _, zero_Element) <$> Assertion_Signature a) (Subject_read <$> Assertion_Subject a)
    (Conditions_read <$> Assertion_Conditions a) (map AuthnStatement_read (Assertion_AuthnStatements a))
    (Assertion_AttributeStatements a).

Record Assertion_writable (a : Assertion) : Prop := {
  assertion_instant : four_digit_year (Assertion_IssueInstant a);
  assertion_signature : signature_ok (Assertion_Signature a);
  assertion_tidy e : Assertion_Signature a = Some e → tidy assertion_scope e;
  assertion_subject s : Assertion_Subject a = Some s → Forall four_digit_year (Subject_times s);
  assertion_conditions c : Assertion_Conditions a = Some c → Forall four_digit_year (Conditions_times c);
  assertion_statements s : s ∈ Assertion_AuthnStatements a → Forall four_digit_year (AuthnStatement_times s)
}.

(** Before the canonicalization. *)
Lemma assertion_el_reads ns a : Assertion_writable a →
  reads Assertion_UnmarshalXML zero_Assertion ns (assertion_el a) assertion_space "Assertion" (Assertion_read a).
Proof.
  intros [Ht Hsig _ Hsub Hcond Hst].
  assert (Hns : saml_scope (xml_declare ns (mkAttr "xmlns" "saml" assertion_space))) by apply lookup_declared.
  eapply reads_eq; [eapply (reads_struct _ _ _ (xml_declare ns (mkAttr "xmlns" "saml" assertion_space)));
    [apply assertion_el_built|reflexivity|by apply translate_saml|done|..]|].
  - change (assertion_decls a) with (attr_of "xmlns:saml" assertion_space ++ attr_of "Version" "2.0" ++
      attr_of "ID" (Assertion_ID a) ++ attr_of "IssueInstant" (Time_Format (Assertion_IssueInstant a)))%list.
    required. required. required. instant.
  - unfold assertion_els. change (?x :: ?l) with ([x] ++ l)%list.
    single Assertion_Issuer by (by apply Issuer_reads).
    signature Assertion_Signature.
    optional Assertion_Subject Subject_read by (by apply Subject_reads; auto).
    optional Assertion_Conditions Conditions_read by (by apply Conditions_reads; auto).
    each Assertion_AuthnStatements AuthnStatement_read by (by apply AuthnStatement_reads; auto).
    each Assertion_AttributeStatements id by (by apply AttributeStatement_reads).
  - unfold Assertion_read. destruct a. simpl. by rewrite map_id.
Qed.

Lemma Assertion_Element_eq a :
  Assertion_Element a
  = match TransformExcC14n (assertion_el a) "" false with
    | Ret el => Ret (if bool_decide (Assertion_AttributeStatements a = []) then el else declare_xs el)
    | _ => Panic
    end.
Proof. done. Qed.

(** An assertion whose signature uses declared prefixes has an XML form. *)
Lemma Assertion_Element_returns a : Assertion_writable a → ∃ el, Assertion_Element a = Ret el.
Proof.
  intros Ha. destruct (assertion_el_tidy a (assertion_tidy a Ha)) as [_ Hw].
  destruct (transformExcC14n_returns ∅ false (assertion_el a) default_prefixes default_prefixes Hw) as [e' He].
  rewrite Assertion_Element_eq. unfold TransformExcC14n.
  change (list_to_set (Fields "")) with (∅ : gset string). rewrite He. by eexists.
Qed.

(** A scope that binds neither the default name space nor the name of that of [xml]. *)
Definition plain_scope_ok (ns : NSContext) : Prop := ns !! "" = None ∧ ns !! XMLNamespace = None.

(** The XML form of an assertion reads like the element before the canonicalization. *)
Lemma Assertion_Element_same ns a el : Assertion_writable a → plain_scope_ok ns → Assertion_Element a = Ret el →
  same_reading ∅ (assertion_el a) ns el.
Proof.
  intros Ha [H0 Hu]. rewrite Assertion_Element_eq.
  destruct (assertion_el_tidy a (assertion_tidy a Ha)) as [Hr _].
  destruct (TransformExcC14n (assertion_el a) "" false) as [e'| |] eqn:He; [|done..]. intros [= <-].
  unfold TransformExcC14n in He. change (list_to_set (Fields "")) with (∅ : gset string) in He.
  pose proof (related_start ns H0 Hu) as Hrel.
  case_bool_decide; [by apply (transformExcC14n_same _ _ _ _ _ _ _ _ Hrel Hr He)|].
  assert (Hvis : "xs" ∉ elements (visiblyUtilizedPrefixes ∅ (assertion_el a))).
  { rewrite elem_of_elements. destruct (assertion_el_built a) as [Hs _ Hattrs _ _].
    unfold visiblyUtilizedPrefixes. rewrite Hs, Hattrs. simpl. set_solver. }
  unfold declare_xs. rewrite CreateAttr_new.
  - apply (transformed_declared _ _ _ _ _ "xs" _ Hr He H0 Hu); [by vm_compute|exact Hvis].
  - intros b Hb Hxs. apply Hvis. eapply (transformed_decls _ _ _ _ _ _ b "xs" (Attr_Value b)); [exact He|done|].
    change (split_name "xmlns:xs") with ("xmlns", "xs") in Hxs. injection Hxs as Hs Hk.
    unfold decl_of. by rewrite Hs, Hk.
Qed.

Lemma Assertion_reads ns a el : Assertion_writable a → plain_scope_ok ns → Assertion_Element a = Ret el →
  reads Assertion_UnmarshalXML zero_Assertion ns el assertion_space "Assertion" (Assertion_read a).
Proof.
  intros Ha Hns He. pose proof (Assertion_Element_same ns a el Ha Hns He) as Hs.
  destruct (assertion_el_reads ∅ a Ha) as (Ht & Hsp & Hr).
  pose proof (Assertion_respects _ _ _ _ _ _ Hs Hr) as Hr'. destruct Hs. split_and!; congruence.
Qed.

(** ** Responses *)

Definition Response_read (r : Response) : Response :=
  mkResponse (Response_ID r) (Response_InResponseTo r) (Response_Version r)
    (Time_read (Response_IssueInstant r)) (Response_Destination r) (Response_Consent r) (Response_Issuer r)
    ((λ _, zero_Element) <$> Response_Signature r) (Status_read (Response_Status r))
    ((λ _, zero_Element) <$> Response_EncryptedAssertion r) (Assertion_read <$> Response_Assertion r).

(** An encrypted assertion has that name. *)
Definition encrypted_ok (encrypted : option Element) : Prop := ∀ e, encrypted = Some e →
  Tag e = "EncryptedAssertion" ∧ opaque e ∧
  ∀ ns, saml_scope ns → element_space (xml_scope ns e) e = assertion_space.

Record Response_writable (r : Response) : Prop := {
  response_instant : four_digit_year (Response_IssueInstant r);
  response_signature : signature_ok (Response_Signature r);
  response_status : Status_writable (Response_Status r);
  response_encrypted : encrypted_ok (Response_EncryptedAssertion r);
  response_assertion a : Response_Assertion r = Some a → Assertion_writable a
}.

Lemma encrypted_reads ns o e : encrypted_ok o → o = Some e → saml_scope ns →
  reads Element_Unmarshal zero_Element ns e assertion_space "EncryptedAssertion" zero_Element.
Proof. intros H (Ht & Ho & Hs)%H Hns. split_and!; [done|by apply Hs|by apply Element_reads]. Qed.

(** The elements of a response, with the XML form of its assertion. *)
Lemma Response_Element_built r el : Response_Element r = Ret el → ∃ assertion els,
  match Response_Assertion r with
  | None => assertion = None
  | Some a => ∃ e, assertion = Some e ∧ Assertion_Element a = Ret e
  end ∧
  els = (els_opt Issuer_Element (Response_Issuer r) ++ els_opt id (Response_Signature r) ++
         [Status_Element (Response_Status r)] ++ els_opt id (Response_EncryptedAssertion r) ++
         els_opt id assertion)%list ∧
  built "samlp" "Response"
    (attr_of "xmlns:saml" assertion_space ++ attr_of "xmlns:samlp" protocol_space ++
     attr_of "xmlns:xs" "http://www.w3.org/2001/XMLSchema" ++
     attr_of "ID" (Response_ID r) ++ attrs_text "InResponseTo" (Response_InResponseTo r) ++
     attr_of "Version" (Response_Version r) ++ attr_of "IssueInstant" (Time_Format (Response_IssueInstant r)) ++
     attrs_text "Destination" (Response_Destination r) ++ attrs_text "Consent" (Response_Consent r))%list
    els "" el.
Proof.
  unfold Response_Element, declare_saml, declare_xs. intros H.
  destruct (Response_Assertion r) as [a|]; [apply bind_ret in H as (e & He & H)|]; injection H as <-.
  - exists (Some e). eexists. split; [by exists e|]. split; [reflexivity|]. eapply built_eq; [build|done|done|by groups| |done].
    by groups.
  - exists None. eexists. split; [done|]. split; [reflexivity|]. eapply built_eq; [build|done|done|by groups| |done].
    groups. cbn [els_opt]. by rewrite app_nil_r.
Qed.

(** The scope of a message in which an assertion may follow. *)
Lemma message_scope_ok ns ns' : plain_scope_ok ns →
  (∀ p, p ∉ ["saml"; "samlp"; "xs"] → ns' !! p = ns !! p) → plain_scope_ok ns'.
Proof.
  intros [H0 Hu] Hsame. split; rewrite Hsame; [done|set_solver|done|].
  apply (bool_decide_eq_true_1 (XMLNamespace ∉ ["saml"; "samlp"; "xs"])). by vm_compute.
Qed.

Lemma Response_reads ns r el : Response_writable r → plain_scope_ok ns → Response_Element r = Ret el →
  reads Response_UnmarshalXML zero_Response ns el protocol_space "Response" (Response_read r).
Proof.
  intros [Ht Hsig Hst Henc Ha] Hok Hel. apply Response_Element_built in Hel as (assertion & els & Hass & -> & Hb).
  eapply reads_eq; [eapply reads_message; [exact Hb|reflexivity|names_tac|done|
    intros ns' Hns; groups|intros ns' Hns Hsame; groups]|].
  - required. required. required. required. text Response_InResponseTo. required. instant.
    text Response_Destination. text Response_Consent.
  - pose proof (protocol_saml _ Hns).
    optional Response_Issuer id by (by apply Issuer_reads).
    signature Response_Signature.
    single Response_Status by (by apply Status_reads).
    optional Response_EncryptedAssertion (λ _, zero_Element) by (by eapply encrypted_reads).
    pose proof (message_scope_ok _ _ Hok Hsame) as Hns0.
    lazymatch goal with |- fold_each _ _ ?v = _ =>
      instantiate (1 := set Response_Assertion (Assertion_read <$> Response_Assertion r) v) end.
    destruct (Response_Assertion r) as [a|] eqn:E; [destruct Hass as (e & -> & He)|subst assertion; reflexivity].
    cbn [els_opt fold_each].
    erewrite (read_pointer _ _ Response_Assertion); [reflexivity|by eapply Assertion_reads; eauto|done|done].
  - unfold Response_read. destruct r. simpl. by rewrite !option_fmap_id.
Qed.

Definition ArtifactResponse_read (r : ArtifactResponse) : ArtifactResponse :=
  mkArtifactResponse (ArtifactResponse_ID r) (ArtifactResponse_InResponseTo r) (ArtifactResponse_Version r)
    (Time_read (ArtifactResponse_IssueInstant r)) (ArtifactResponse_Issuer r)
    ((λ _, zero_Element) <$> ArtifactResponse_Signature r) (Status_read (ArtifactResponse_Status r))
    (Response_read (ArtifactResponse_Response r)).

Record ArtifactResponse_writable (r : ArtifactResponse) : Prop := {
  artifact_instant : four_digit_year (ArtifactResponse_IssueInstant r);
  artifact_signature : signature_ok (ArtifactResponse_Signature r);
  artifact_status : Status_writable (ArtifactResponse_Status r);
  artifact_response : Response_writable (ArtifactResponse_Response r)
}.

Lemma ArtifactResponse_reads ns r el : ArtifactResponse_writable r → plain_scope_ok ns →
  ArtifactResponse_Element r = Ret el →
  reads ArtifactResponse_UnmarshalXML zero_ArtifactResponse ns el protocol_space "ArtifactResponse"
    (ArtifactResponse_read r).
Proof.
  intros [Ht Hsig Hst Hr] Hok. unfold ArtifactResponse_Element, declare_saml, declare_xs.
  intros (e & He & [= <-])%bind_ret. message_struct Hns.
  - required. required. required. required. text ArtifactResponse_InResponseTo. required. instant.
  - pose proof (protocol_saml _ Hns). pose proof (message_scope_ok _ _ Hok Hsame).
    optional ArtifactResponse_Issuer id by (by apply Issuer_reads).
    signature ArtifactResponse_Signature.
    single ArtifactResponse_Status by (by apply Status_reads).
    single ArtifactResponse_Response by (by apply Response_reads).
  - unfold ArtifactResponse_read. destruct r. simpl. by rewrite !option_fmap_id.
Qed.

Lemma Response_Element_returns r : Response_writable r → ∃ el, Response_Element r = Ret el.
Proof.
  intros Hr. unfold Response_Element. destruct (Response_Assertion r) as [a|] eqn:E; [|by eexists].
  destruct (Assertion_Element_returns a (response_assertion r Hr a E)) as [e ->]. by eexists.
Qed.

(** The document is parsed as an element that reads as the message. *)
Lemma Unmarshal_reads {A} Parse (read : Reader A) zero doc el space tag v :
  reads read zero ∅ el space tag v → Parse doc = Ret el → xml_Unmarshal Parse read zero doc = Ret v.
Proof. intros (_ & _ & Hr) Hp. unfold xml_Unmarshal. by rewrite Hp, ret_bind. Qed.

(** ** What is read back in full *)

Definition in_milliseconds (t : Time) : Prop := (t mod Millisecond = 0)%Z.

Lemma Time_read_exact t : in_milliseconds t → Time_read t = t.
Proof. unfold in_milliseconds, Time_read. lia. Qed.

Lemma Times_read_exact (o : option Time) : Forall in_milliseconds (option_list o) → Time_read <$> o = o.
Proof. destruct o as [t|]; [|done]. simpl. rewrite Forall_cons. intros [H _]. by rewrite Time_read_exact. Qed.

Lemma SubjectConfirmation_read_exact x :
  Forall in_milliseconds (SubjectConfirmation_times x) → SubjectConfirmation_read x = x.
Proof.
  destruct x as [m n [[b t r i a]|]]; [|done]. unfold SubjectConfirmation_times. simpl.
  rewrite !Forall_cons. intros (Hb & Ht & _). unfold SubjectConfirmation_read, SubjectConfirmationData_read. simpl.
  by rewrite !Time_read_exact.
Qed.

Lemma Subject_read_exact x : Forall in_milliseconds (Subject_times x) → Subject_read x = x.
Proof.
  destruct x as [n l]. unfold Subject_times, Subject_read. cbn [Subject_NameID Subject_SubjectConfirmations].
  intros H. f_equal. induction l as [|x l IH]; [done|]. cbn [map] in *. rewrite concat_cons in H.
  apply Forall_app in H as [Ht H]. by rewrite IH, SubjectConfirmation_read_exact.
Qed.

(** Nothing of these messages is lost: times are whole milliseconds, there is no signature, no
    encrypted assertion, no detail of a status, no proxy restriction and no policy with an empty
    format, and the version of an assertion is the one that is written. *)
Record Conditions_complete (c : Conditions) : Prop := {
  conditions_times : Forall in_milliseconds (Conditions_times c);
  conditions_proxy : Conditions_ProxyRestriction c = None
}.

Record AuthnRequest_complete (r : AuthnRequest) : Prop := {
  request_milliseconds : in_milliseconds (AuthnRequest_IssueInstant r);
  request_unsigned : AuthnRequest_Signature r = None;
  request_subject_times s : AuthnRequest_Subject r = Some s → Forall in_milliseconds (Subject_times s);
  request_format p : AuthnRequest_NameIDPolicy r = Some p → NameIDPolicy_Format p ≠ Some "";
  request_conditions_complete c : AuthnRequest_Conditions r = Some c → Conditions_complete c
}.

Record LogoutRequest_complete (r : LogoutRequest) : Prop := {
  logout_milliseconds : Forall in_milliseconds (LogoutRequest_IssueInstant r :: option_list (LogoutRequest_NotOnOrAfter r));
  logout_unsigned : LogoutRequest_Signature r = None
}.

Record LogoutResponse_complete (r : LogoutResponse) : Prop := {
  logout_response_milliseconds : in_milliseconds (LogoutResponse_IssueInstant r);
  logout_response_unsigned : LogoutResponse_Signature r = None;
  logout_response_detail : Status_StatusDetail (LogoutResponse_Status r) = None
}.

Record Assertion_complete (a : Assertion) : Prop := {
  assertion_milliseconds : in_milliseconds (Assertion_IssueInstant a);
  assertion_version : Assertion_Version a = "2.0";
  assertion_unsigned : Assertion_Signature a = None;
  assertion_subject_times s : Assertion_Subject a = Some s → Forall in_milliseconds (Subject_times s);
  assertion_conditions_complete c : Assertion_Conditions a = Some c → Conditions_complete c;
  assertion_statement_times s : s ∈ Assertion_AuthnStatements a → Forall in_milliseconds (AuthnStatement_times s)
}.

Record Response_complete (r : Response) : Prop := {
  response_milliseconds : in_milliseconds (Response_IssueInstant r);
  response_unsigned : Response_Signature r = None;
  response_detail : Status_StatusDetail (Response_Status r) = None;
  response_unencrypted : Response_EncryptedAssertion r = None;
  response_assertion_complete a : Response_Assertion r = Some a → Assertion_complete a
}.

Lemma Conditions_read_exact c : Conditions_complete c → Conditions_read c = c.
Proof.
  destruct c as [b t l o p]. intros [Ht Hp]. unfold Conditions_times in Ht. simpl in Ht, Hp.
  rewrite !Forall_cons in Ht. destruct Ht as (Hb & Hn & _).
  unfold Conditions_read. simpl. by rewrite !Time_read_exact, Hp.
Qed.

Lemma Status_read_exact s : Status_StatusDetail s = None → Status_read s = s.
Proof. destruct s. unfold Status_read. simpl. by intros ->. Qed.

Lemma fmap_exact {A} (f : A → A) (o : option A) : (∀ x, o = Some x → f x = x) → f <$> o = o.
Proof. destruct o as [x|]; [|done]. intros H. simpl. by rewrite (H x). Qed.

Lemma NameIDPolicy_read_exact p : NameIDPolicy_Format p ≠ Some "" → NameIDPolicy_read p = p.
Proof.
  destruct p as [[f|] q c]; [|done]. unfold NameIDPolicy_read. simpl. intros H.
  case_bool_decide; subst; [by destruct H|done].
Qed.

Lemma AuthnRequest_read_exact r : AuthnRequest_complete r → AuthnRequest_read r = r.
Proof.
  intros [Ht Hs Hsu Hp Hc]. destruct r. simpl in *. subst. unfold AuthnRequest_read. simpl.
  rewrite Time_read_exact by done. f_equal; apply fmap_exact; eauto using Subject_read_exact,
    NameIDPolicy_read_exact, Conditions_read_exact.
Qed.

Lemma LogoutRequest_read_exact r : LogoutRequest_complete r → LogoutRequest_read r = r.
Proof.
  intros [[Ht Hn]%Forall_cons Hs]. destruct r. simpl in *. subst. unfold LogoutRequest_read. simpl.
  by rewrite Time_read_exact, Times_read_exact.
Qed.

Lemma LogoutResponse_read_exact r : LogoutResponse_complete r → LogoutResponse_read r = r.
Proof.
  intros [Ht Hs Hd]. destruct r. simpl in *. subst. unfold LogoutResponse_read. simpl.
  by rewrite Time_read_exact, Status_read_exact.
Qed.

Lemma AuthnStatement_read_exact s : Forall in_milliseconds (AuthnStatement_times s) → AuthnStatement_read s = s.
Proof.
  destruct s. unfold AuthnStatement_times, AuthnStatement_read. simpl. intros [Ht Hs]%Forall_cons.
  by rewrite Time_read_exact, Times_read_exact.
Qed.

Lemma Assertion_read_exact a : Assertion_complete a → Assertion_read a = a.
Proof.
  intros [Ht Hv Hs Hsu Hc Hst]. destruct a as [i t v n g su c l b]. simpl in *. subst. unfold Assertion_read. simpl.
  rewrite Time_read_exact by done. f_equal; [apply fmap_exact; eauto using Subject_read_exact|
    apply fmap_exact; eauto using Conditions_read_exact|].
  induction l as [|x l IH]; [done|]. cbn [map]. rewrite IH, AuthnStatement_read_exact; [done|apply Hst; by left|].
  intros y Hy. apply Hst. by right.
Qed.

Lemma Response_read_exact r : Response_complete r → Response_read r = r.
Proof.
  intros [Ht Hs Hd He Ha]. destruct r. simpl in *. subst. unfold Response_read. simpl.
  rewrite Time_read_exact, Status_read_exact by done. f_equal. apply fmap_exact; eauto using Assertion_read_exact.
Qed.

(** ** The round trips *)

Context `{XmlP : XmlParser}.

(** C29: roundtrip. Requests and logout responses. A document that the parser reads as what
    [Element] builds from a message is decoded to the message with its identifiers, addresses,
    names and indices, but for what [AuthnRequest_read] and the like say: a time is cut to its
    millisecond, a signature is read as an empty element, the conditions lose the limits of a proxy
    restriction, a name ID policy with an empty format gets none, and a status loses the content
    of its details.  A message that has none of these is decoded to itself. *)
Theorem requests_roundtrip doc :
  (∀ r, AuthnRequest_writable r → xml_Parse doc = Ret (AuthnRequest_Element r) →
     Unmarshal_AuthnRequest doc = Ret (AuthnRequest_read r) ∧
     (AuthnRequest_complete r → AuthnRequest_read r = r)) ∧
  (∀ r, LogoutRequest_writable r → xml_Parse doc = Ret (LogoutRequest_Element r) →
     Unmarshal_LogoutRequest doc = Ret (LogoutRequest_read r) ∧
     (LogoutRequest_complete r → LogoutRequest_read r = r)) ∧
  (∀ r, LogoutResponse_writable r → xml_Parse doc = Ret (LogoutResponse_Element r) →
     Unmarshal_LogoutResponse doc = Ret (LogoutResponse_read r) ∧
     (LogoutResponse_complete r → LogoutResponse_read r = r)).
Proof.
  split_and!; intros r Hr Hp; (split; [eapply Unmarshal_reads; [|exact Hp]|]).
  - by apply AuthnRequest_reads.
  - apply AuthnRequest_read_exact.
  - by apply LogoutRequest_reads.
  - apply LogoutRequest_read_exact.
  - by apply LogoutResponse_reads.
  - apply LogoutResponse_read_exact.
Qed.

Lemma plain_empty_scope : plain_scope_ok ∅.
Proof. by split. Qed.

(** C20: roundtrip. Responses and assertions. [Element] never panics on a response whose
    signatures use declared prefixes, the assertion in it included, which [Element] puts into
    canonical form; and a document that the parser reads as that element is decoded to the response
    with the subject, the conditions, the statements and the attributes of its assertion, but for
    what [Response_read] says: a time is cut to its millisecond, a signature and an encrypted
    assertion are read as an empty element, a proxy restriction and the details of a status as empty
    ones, and the version of an assertion as 2.0.  A response that has none of these, and whose
    assertion has that version, is decoded to itself. *)
Theorem responses_roundtrip :
  (∀ a, Assertion_writable a → ∃ el, Assertion_Element a = Ret el ∧
     (∀ doc, xml_Parse doc = Ret el → Unmarshal_Assertion doc = Ret (Assertion_read a)) ∧
     (Assertion_complete a → Assertion_read a = a)) ∧
  (∀ r, Response_writable r → ∃ el, Response_Element r = Ret el ∧
     (∀ doc, xml_Parse doc = Ret el → Unmarshal_Response doc = Ret (Response_read r)) ∧
     (Response_complete r → Response_read r = r)) ∧
  (∀ r, ArtifactResponse_writable r → ∃ el, ArtifactResponse_Element r = Ret el ∧
     ∀ doc, xml_Parse doc = Ret el → Unmarshal_ArtifactResponse doc = Ret (ArtifactResponse_read r)).
Proof.
  split_and!; intros r Hr.
  - destruct (Assertion_Element_returns r Hr) as [el He]. exists el.
    split_and!; [done|intros doc|apply Assertion_read_exact].
    apply (Unmarshal_reads _ _ _ _ _ _ _ _ (Assertion_reads ∅ r el Hr plain_empty_scope He)).
  - destruct (Response_Element_returns r Hr) as [el He]. exists el.
    split_and!; [done|intros doc|apply Response_read_exact].
    apply (Unmarshal_reads _ _ _ _ _ _ _ _ (Response_reads ∅ r el Hr plain_empty_scope He)).
  - destruct (Response_Element_returns _ (artifact_response r Hr)) as [e He].
    assert (H : ∃ el, ArtifactResponse_Element r = Ret el) by (unfold ArtifactResponse_Element; rewrite He; by eexists).
    destruct H as [el Hel]. exists el. split; [done|]. intros doc.
    apply (Unmarshal_reads _ _ _ _ _ _ _ _ (ArtifactResponse_reads ∅ r el Hr plain_empty_scope Hel)).
Qed.
End messages.

Module Examples.

#[local] Instance ref_parser : XmlParser := {|
  xml_Parse s := or_err (read_document s) (Sentinel "io.EOF");
  roundtrip_Validate _ := Ret ()
|}.

Definition sig : Element :=
  mkElement "ds" "Signature" [mkAttr "xmlns" "ds" "http://www.w3.org/2000/09/xmldsig#"]
    [TElement (mkElement "ds" "SignatureValue" [] [TCharData "c2ln"])].

(** 2001-09-09T01:46:40.123456789Z *)
Definition instant : Time := 1000000000123456789.

Definition issuer : Issuer := mkIssuer "" "" "entity" "" "https://sp".

Definition request : AuthnRequest :=
  mkAuthnRequest "id-1" "2.0" instant "https://idp/sso" "" (Some issuer) (Some sig)
    (Some (mkSubject (Some (mkNameID "" "" "f" "" "alice")) []))
    (Some (mkNameIDPolicy (Some "f") None (Some true)))
    (Some (mkConditions instant instant [] None None))
    (Some (mkRequestedAuthnContext "exact" ["password"; "totp"] [])) (Some true) (Some false) "" "https://sp/acs" "post" "" "".

Definition assertion : Assertion :=
  mkAssertion "id-2" instant "2.0" (mkIssuer "" "" "" "" "https://idp") (Some sig)
    (Some (mkSubject (Some (mkNameID "" "" "f" "" "alice"))
       [mkSubjectConfirmation "bearer" None (Some (mkSubjectConfirmationData 0 instant "https://sp/acs" "id-1" ""))]))
    (Some (mkConditions instant instant [mkAudienceRestriction [mkAudience "https://sp"]] (Some mkOneTimeUse) None))
    [mkAuthnStatement instant "s1" (Some instant) (Some (mkSubjectLocality "192.0.2.1" ""))
       (mkAuthnContext (Some (mkAuthnContextClassRef "password")))]
    [mkAttributeStatement [mkAttribute "uid" "urn:uid" "uri" [mkAttributeValue "xs:string" "alice" None]]].

Definition response : Response :=
  mkResponse "id-3" "id-1" "2.0" instant "https://sp/acs" "" (Some issuer) (Some sig)
    (mkStatus (mkStatusCode "success" None) None None) None (Some assertion).

Definition response_el : Element := match Response_Element response with Ret e => e | _ => NewElement "" end.

Lemma instant_year : four_digit_year instant.
Proof. unfold four_digit_year. by vm_compute. Qed.

Lemma sig_ok : signature_ok (Some sig).
Proof. intros e [= <-]. split; [done|]. repeat constructor. simpl. set_solver. Qed.

Lemma request_writable : AuthnRequest_writable request.
Proof.
  split; [apply instant_year|apply sig_ok|intros s [= <-]; constructor|intros c [= <-]].
  repeat constructor; apply instant_year.
Qed.

Lemma assertion_ok : Assertion_writable assertion.
Proof.
  split; [apply instant_year|apply sig_ok|intros e [= <-]; split; by vm_compute|..].
  - intros s [= <-]. repeat constructor; try apply instant_year; by vm_compute.
  - intros c [= <-]. repeat constructor; apply instant_year.
  - intros s ->%list_elem_of_singleton. repeat constructor; apply instant_year.
Qed.

Lemma response_ok : Response_writable response.
Proof.
  split; [apply instant_year|apply sig_ok|split; [vm_compute; lia|done]|done|].
  intros a [= <-]. apply assertion_ok.
Qed.

(** A response of which nothing is lost. *)
Definition plain_response : Response :=
  mkResponse "id-3" "id-1" "2.0" 0 "https://sp/acs" "" (Some issuer) None
    (mkStatus (mkStatusCode "success" None) None None) None
    (Some (mkAssertion "id-2" 0 "2.0" (mkIssuer "" "" "" "" "https://idp") None
       (Some (mkSubject (Some (mkNameID "" "" "f" "" "alice")) [])) (Some (mkConditions 0 0 [] None None)) []
       [mkAttributeStatement [mkAttribute "uid" "urn:uid" "uri" [mkAttributeValue "xs:string" "alice" None]]])).

Lemma plain_year : four_digit_year 0.
Proof. unfold four_digit_year. by vm_compute. Qed.

Lemma plain_writable : Response_writable plain_response.
Proof.
  split; [apply plain_year|done|split; [vm_compute; lia|done]|done|]. intros a [= <-].
  split; [apply plain_year|done|done|intros s [= <-]; constructor|intros c [= <-]; repeat constructor; apply plain_year|].
  intros s ?%elem_of_nil. done.
Qed.

Lemma plain_complete : Response_complete plain_response.
Proof.
  split; [done..|]. intros a [= <-].
  split; [done|done|done|intros s [= <-]; constructor|intros c [= <-]; split; [repeat constructor|done]|].
  intros s ?%elem_of_nil. done.
Qed.

Lemma requests_roundtrip_witness :
  Unmarshal_AuthnRequest (write_element (AuthnRequest_Element request)) = Ret (AuthnRequest_read request) ∧
  AuthnRequest_Signature (AuthnRequest_read request) = Some zero_Element ∧
  AuthnRequest_IssueInstant (AuthnRequest_read request) = 1000000000123000000%Z.
Proof.
  split; [|by vm_compute].
  apply (requests_roundtrip (write_element (AuthnRequest_Element request))); [apply request_writable|].
  by vm_compute.
Defined.

Lemma responses_roundtrip_witness :
  Response_Element response = Ret response_el ∧
  Unmarshal_Response (write_element response_el) = Ret (Response_read response) ∧
  Response_read plain_response = plain_response.
Proof.
  destruct responses_roundtrip as (_ & H & _). destruct (H response response_ok) as (el & He & Hd & _).
  assert (Hel : Response_Element response = Ret response_el) by (vm_compute; reflexivity).
  split; [exact Hel|]. split; [apply Hd; rewrite <- He, Hel; by vm_compute|].
  destruct (H plain_response plain_writable) as (_ & _ & _ & Hp). apply Hp, plain_complete.
Defined.
End Examples.
