(* ===== verification/SignatureDecode.v ===== *)
(** * SignatureDecode: reading the elements of a signature

    The structs of [src/internal/dsig/types/signature.go] as [encoding/xml] reads them.
    A struct with one field besides its name is the value of that field here, as in
    the types of [DSig]. *)

From stdpp Require Import base option list gmap strings sets.
From Stdlib Require Import ZArith Lia Ascii.
From S2P Require Import Prelude Go Encoding Etree C14n Schema Env DSig DSigSpec XmlDecode Reference SchemaXML.
From S2P Require Import SchemaDecode SchemaRoundtrip.

Open Scope string_scope.

(** ** The structs *)

Definition dsig_name (local : string) : option XMLName := Some (mkXMLName Namespace local).
Definition exc_c14n_space := "http://www.w3.org/2001/10/xml-exc-c14n#".

(** A struct whose only field is an attribute, or its character data. *)
Definition attribute_only (key : string) : list (Field string) := [FAttr "" key (λ s _, copy_string s)].
Definition chardata_only : list (Field string) := [FCharData (λ s _, s)].

Definition InclusiveNamespaces_Unmarshal : Reader string :=
  unmarshal_struct (Some (mkXMLName exc_c14n_space "InclusiveNamespaces")) (attribute_only "PrefixList").

#[export] Instance eta_Transform : Eta Transform := λ t,
  mkTransform (Transform_Algorithm t) (Transform_InclusiveNamespaces t).
#[export] Instance eta_Reference : Eta DSig.Reference := λ r,
  mkReference (Reference_URI r) (Reference_DigestValue r) (Reference_DigestAlgo r) (Reference_Transforms r).
#[export] Instance eta_SignedInfo : Eta SignedInfo := λ s,
  mkSignedInfo (SignedInfo_CanonicalizationMethod s) (SignedInfo_SignatureMethod s) (SignedInfo_References s).

Definition zero_Transform : Transform := mkTransform "" None.
Definition zero_Reference : DSig.Reference := mkReference "" "" "" [].
Definition zero_SignedInfo : SignedInfo := mkSignedInfo "" "" [].

Definition Transform_fields : list (Field Transform) :=
  [attr "Algorithm" Transform_Algorithm copy_string;
   child "" "InclusiveNamespaces" Transform_InclusiveNamespaces (pointer "" InclusiveNamespaces_Unmarshal)].

Definition Transform_Unmarshal : Reader Transform := unmarshal_struct (dsig_name "Transform") Transform_fields.

Definition Transforms_fields : list (Field (list Transform)) :=
  [FElement "" "Transform" (slice zero_Transform Transform_Unmarshal)].

Definition Transforms_Unmarshal : Reader (list Transform) := unmarshal_struct (dsig_name "Transforms") Transforms_fields.

Definition DigestMethod_Unmarshal : Reader string :=
  unmarshal_struct (dsig_name "DigestMethod") (attribute_only "Algorithm").

Definition Reference_fields : list (Field DSig.Reference) :=
  [attr "URI" Reference_URI copy_string;
   child "" "DigestValue" Reference_DigestValue (simple copy_string);
   child "" "DigestMethod" Reference_DigestAlgo DigestMethod_Unmarshal;
   child "" "Transforms" Reference_Transforms Transforms_Unmarshal].

Definition Reference_Unmarshal : Reader DSig.Reference := unmarshal_struct (dsig_name "Reference") Reference_fields.

Definition CanonicalizationMethod_Unmarshal : Reader string :=
  unmarshal_struct (dsig_name "CanonicalizationMethod") (attribute_only "Algorithm").

Definition SignatureMethod_Unmarshal : Reader string :=
  unmarshal_struct (dsig_name "SignatureMethod") (attribute_only "Algorithm").

Definition SignedInfo_fields : list (Field SignedInfo) :=
  [child "" "CanonicalizationMethod" SignedInfo_CanonicalizationMethod CanonicalizationMethod_Unmarshal;
   child "" "SignatureMethod" SignedInfo_SignatureMethod SignatureMethod_Unmarshal;
   child "" "Reference" SignedInfo_References (slice zero_Reference Reference_Unmarshal)].

Definition SignedInfo_Unmarshal : Reader SignedInfo := unmarshal_struct (dsig_name "SignedInfo") SignedInfo_fields.

Definition SignatureValue_Unmarshal : Reader string := unmarshal_struct (dsig_name "SignatureValue") chardata_only.
Definition X509Certificate_Unmarshal : Reader string := unmarshal_struct (dsig_name "X509Certificate") chardata_only.

Definition X509Data_fields : list (Field (list string)) :=
  [FElement "" "X509Certificate" (slice "" X509Certificate_Unmarshal)].

Definition X509Data_Unmarshal : Reader (list string) := unmarshal_struct (dsig_name "X509Data") X509Data_fields.

Definition KeyInfo_fields : list (Field (list string)) := [FElement "" "X509Data" X509Data_Unmarshal].

Definition KeyInfo_Unmarshal : Reader (list string) := unmarshal_struct (dsig_name "KeyInfo") KeyInfo_fields.

(** What is read of a [Signature]: its [SignedInfo], [SignatureValue] and [KeyInfo]. *)
Record SignatureContent := mkSignatureContent {
  Content_SignedInfo : option SignedInfo;
  Content_SignatureValue : option string;
  Content_KeyInfo : option (list string)
}.

#[export] Instance eta_SignatureContent : Eta SignatureContent := λ c,
  mkSignatureContent (Content_SignedInfo c) (Content_SignatureValue c) (Content_KeyInfo c).

Definition zero_SignatureContent : SignatureContent := mkSignatureContent None None None.

Definition Signature_fields : list (Field SignatureContent) :=
  [child "" "SignedInfo" Content_SignedInfo (pointer zero_SignedInfo SignedInfo_Unmarshal);
   child "" "SignatureValue" Content_SignatureValue (pointer "" SignatureValue_Unmarshal);
   child "" "KeyInfo" Content_KeyInfo (pointer [] KeyInfo_Unmarshal)].

Definition Signature_Unmarshal : Reader SignatureContent :=
  unmarshal_struct (dsig_name "Signature") Signature_fields.

(** The calls of [xml.Unmarshal] discharge the interface of [DSig]. *)
#[export] Instance signature_xml_ops `{XmlP : XmlParser} : SignatureXmlOps := {|
  Unmarshal_SignedInfo := xml_Unmarshal xml_Parse SignedInfo_Unmarshal zero_SignedInfo;
  Unmarshal_Signature data :=
    c ← xml_Unmarshal xml_Parse Signature_Unmarshal zero_SignatureContent data;
    Ret (Content_SignedInfo c, Content_SignatureValue c, Content_KeyInfo c)
|}.

(** ** A signature that is made is read back *)

Section roundtrip.
Context `{EtreeI : EtreeOps} `{EtreeB : !EtreeBuild}.
Context (ctx : SigningContext).

(** The prefix of the signature is bound to the name space of signatures. *)
Definition sig_scope (ns : NSContext) : Prop := ns !! SigningContext_Prefix ctx = Some Namespace.

(** The prefix is one that may be declared. *)
Definition prefix_ok : Prop :=
  has_byte ":" (SigningContext_Prefix ctx) = false ∧ SigningContext_Prefix ctx ∉ ["xmlns"; "xml"].

Lemma translate_sig ns tag : prefix_ok → sig_scope ns → tag ≠ "xmlns" →
  translate ns true (SigningContext_Prefix ctx) tag = Namespace.
Proof.
  intros [_ Hp] Hns Ht. rewrite !not_elem_of_cons in Hp. destruct Hp as (H1 & H2 & _).
  unfold translate, xmlnsPrefix, xmlPrefix. apply String.eqb_neq in H1, H2, Ht.
  by rewrite H1, H2, Ht, !andb_false_r, Hns.
Qed.

Definition keys_of (attrs : list (string * string)) : list Attr := flat_map (λ '(k, v), attr_of k v) attrs.

Lemma created_built tag attrs children : split_name tag = ("", tag) → NoDup (map (split_name ∘ fst) attrs) →
  built (SigningContext_Prefix ctx) tag (keys_of attrs) children "" (createNamespacedElement ctx tag attrs children).
Proof.
  intros Ht Hnd. unfold createNamespacedElement.
  assert (H0 : built (SigningContext_Prefix ctx) tag [] [] ""
    (mkElement (SigningContext_Prefix ctx) (Tag (NewElement tag)) (Attrs (NewElement tag)) (Child (NewElement tag)))).
  { rewrite NewElement_split, Ht. by split. }
  assert (H1 : built (SigningContext_Prefix ctx) tag (keys_of attrs) [] "" (foldl (λ e '(k, v), CreateAttr k v e)
    (mkElement (SigningContext_Prefix ctx) (Tag (NewElement tag)) (Attrs (NewElement tag)) (Child (NewElement tag))) attrs)).
  { revert H0. generalize (mkElement (SigningContext_Prefix ctx) (Tag (NewElement tag)) (Attrs (NewElement tag)) (Child (NewElement tag))).
    induction attrs as [|[k v] l IH] using rev_ind; intros e He; [done|].
    rewrite map_app in Hnd. apply NoDup_app in Hnd as (Hl & Hk & _). rewrite foldl_app. unfold keys_of. rewrite flat_map_app.
    cbn [flat_map foldl]. rewrite app_nil_r. apply built_attr; [by apply IH|].
    intros a Ha. unfold keys_of in Ha. apply list_elem_of_In, in_flat_map in Ha as ([k' v'] & Hin & Ha).
    apply list_elem_of_In, list_elem_of_singleton in Ha as ->. intros Heq. apply (Hk (split_name k)); [|simpl; by left].
    apply list_elem_of_In, in_map_iff. exists (k', v'). split; [|done]. simpl in *. by destruct (split_name k'). }
  clear H0. revert H1. generalize (foldl (λ e '(k, v), CreateAttr k v e)
    (mkElement (SigningContext_Prefix ctx) (Tag (NewElement tag)) (Attrs (NewElement tag)) (Child (NewElement tag))) attrs).
  intros e He. change children with ([] ++ children)%list at 1. revert e He. generalize (@nil Element).
  induction children as [|c l IH]; intros l0 e He; simpl; [by rewrite app_nil_r|].
  replace (l0 ++ c :: l)%list with ((l0 ++ [c]) ++ l)%list by by rewrite <- app_assoc. apply IH. by apply built_child.
Qed.

(** Elements of the signature in the scope of its declaration. *)
Context (Hprefix : prefix_ok).

Lemma created_reads {A} (F : list (Field A)) ns tag attrs children v va vl :
  sig_scope ns → split_name tag = ("", tag) → tag ≠ "xmlns" → NoDup (map (split_name ∘ fst) attrs) →
  plain (keys_of attrs) →
  fold_each (read_attr F ns) (keys_of attrs) v = Ret va → fold_each (unmarshalPath F ns) children va = Ret vl →
  reads (unmarshal_struct (dsig_name tag) F) v ns (createNamespacedElement ctx tag attrs children) Namespace tag
    (assign_chardata F "" vl).
Proof.
  intros Hns Ht Hx Hnd Hp Hva Hvl. eapply (reads_struct _ _ _ ns); [by apply created_built|by apply plain_scope| |done..].
  by apply translate_sig.
Qed.

Lemma text_element_built tag text : split_name tag = ("", tag) →
  built (SigningContext_Prefix ctx) tag [] [] text (text_element ctx tag text).
Proof. intros Ht. unfold text_element. apply built_SetText. apply (created_built tag [] []); [done|constructor]. Qed.

Lemma text_element_reads ns tag text : sig_scope ns → split_name tag = ("", tag) → tag ≠ "xmlns" →
  reads (unmarshal_struct (dsig_name tag) chardata_only) "" ns (text_element ctx tag text) Namespace tag text ∧
  reads (simple copy_string) "" ns (text_element ctx tag text) Namespace tag text.
Proof.
  intros Hns Ht Hx. pose proof (text_element_built tag text Ht) as Hb. split.
  - apply (reads_struct _ chardata_only ns ns _ _ _ _ _ _ _ "" "" "" Hb); [done|by apply translate_sig|done..].
  - destruct Hb as [Hs Htag Ha _ Hc]. unfold reads, element_space, xml_scope. rewrite Ha. simpl. rewrite Hs, Htag.
    split_and!; [done|by apply translate_sig|]. unfold simple. by rewrite Hc.
Qed.

(** An element with its [Algorithm] only. *)
Lemma algorithm_reads ns tag v : sig_scope ns → split_name tag = ("", tag) → tag ≠ "xmlns" →
  reads (unmarshal_struct (dsig_name tag) (attribute_only AlgorithmAttr)) "" ns
    (createNamespacedElement ctx tag [(AlgorithmAttr, v)] []) Namespace tag v.
Proof.
  intros Hns Ht Hx. apply (created_reads (attribute_only AlgorithmAttr) ns tag _ _ "" v v);
    [done..|apply NoDup_singleton|by repeat constructor|reflexivity|reflexivity].
Qed.

Definition made_transform (algorithm : string) : Element :=
  createNamespacedElement ctx "Transform" [(AlgorithmAttr, algorithm)] [].

Lemma Transform_reads ns v : sig_scope ns →
  reads Transform_Unmarshal zero_Transform ns (made_transform v) Namespace "Transform" (mkTransform v None).
Proof.
  intros Hns. apply (created_reads Transform_fields ns "Transform" _ _ zero_Transform (mkTransform v None) (mkTransform v None));
    [done..|apply NoDup_singleton|by repeat constructor|reflexivity|reflexivity].
Qed.

Lemma slice_reads {A B} (read : Reader B) zero tag (f : A → Element) (h : A → B) ns l : 
  (∀ x, x ∈ l → reads read zero ns (f x) Namespace tag (h x)) →
  fold_each (unmarshalPath [FElement "" tag (slice zero read)] ns) (map f l) [] = Ret (map h l).
Proof.
  intros H. enough (Hacc : ∀ acc, fold_each (unmarshalPath [FElement "" tag (slice zero read)] ns) (map f l) acc
    = Ret (acc ++ map h l)%list) by apply Hacc.
  induction l as [|x l IH]; intros acc; simpl; [by rewrite app_nil_r|].
  destruct (H x ltac:(by left)) as (Ht & _ & Hr). rewrite Ht, String.eqb_refl. simpl.
  assert (Hs : slice zero read ns (f x) acc = Ret (acc ++ [h x])%list) by (unfold slice; by rewrite Hr).
  rewrite Hs, ret_bind, IH by (intros; apply H; by right). by rewrite <- app_assoc.
Qed.

Lemma Transforms_reads ns l : sig_scope ns →
  reads Transforms_Unmarshal [] ns (createNamespacedElement ctx "Transforms" [] (map made_transform l))
    Namespace "Transforms" (map (λ a, mkTransform a None) l).
Proof.
  intros Hns. apply (created_reads Transforms_fields ns "Transforms" [] _ [] [] (map (λ a, mkTransform a None) l));
    [done..|constructor|constructor|done|]. apply slice_reads. intros. by apply Transform_reads.
Qed.

Lemma X509Data_reads ns certs : sig_scope ns →
  reads X509Data_Unmarshal [] ns (createNamespacedElement ctx "X509Data" [] (map (text_element ctx "X509Certificate") certs))
    Namespace "X509Data" certs.
Proof.
  intros Hns. apply (created_reads X509Data_fields ns "X509Data" [] _ [] [] certs); [done..|constructor|constructor|done|].
  rewrite <- (map_id certs) at 2. apply slice_reads. intros. by apply text_element_reads.
Qed.

Lemma KeyInfo_reads ns certs : sig_scope ns →
  reads KeyInfo_Unmarshal [] ns (createNamespacedElement ctx "KeyInfo" []
    [createNamespacedElement ctx "X509Data" [] (map (text_element ctx "X509Certificate") certs)])
    Namespace "KeyInfo" certs.
Proof.
  intros Hns. apply (created_reads KeyInfo_fields ns "KeyInfo" [] _ [] [] certs); [done..|constructor|constructor|done|].
  destruct (X509Data_reads ns certs Hns) as (Ht & _ & Hr). simpl. rewrite Ht. simpl. by rewrite Hr.
Qed.

(** The [Reference] of [constructSignedInfo]. *)
Definition made_reference (uri digestMethod digestValue : string) (transforms : list string) : Element :=
  createNamespacedElement ctx "Reference" [(URIAttr, uri)]
    [createNamespacedElement ctx "Transforms" [] (map made_transform transforms);
     createNamespacedElement ctx "DigestMethod" [(AlgorithmAttr, digestMethod)] [];
     text_element ctx "DigestValue" digestValue].

Lemma Reference_reads ns uri method value transforms : sig_scope ns →
  reads Reference_Unmarshal zero_Reference ns (made_reference uri method value transforms) Namespace "Reference"
    (mkReference uri value method (map (λ a, mkTransform a None) transforms)).
Proof.
  intros Hns. eapply reads_eq; [eapply (created_reads Reference_fields ns "Reference");
    [done..|apply NoDup_singleton|by repeat constructor|reflexivity|]|].
  - change (?x :: ?y :: ?l) with ([x] ++ [y] ++ l)%list.
    single Reference_Transforms by (by apply Transforms_reads).
    single Reference_DigestAlgo by (by apply (algorithm_reads ns "DigestMethod")).
    single Reference_DigestValue by (by apply text_element_reads).
  - done.
Qed.

(** The [SignedInfo]. *)
Definition made_signed_info (c14n method : string) (reference : Element) : Element :=
  foldl (λ e c, AddChild c e) (mkElement (SigningContext_Prefix ctx) "SignedInfo" [] [])
    [createNamespacedElement ctx "CanonicalizationMethod" [(AlgorithmAttr, c14n)] [];
     createNamespacedElement ctx "SignatureMethod" [(AlgorithmAttr, method)] [];
     reference].

Lemma SignedInfo_reads ns c14n method reference r : sig_scope ns →
  reads Reference_Unmarshal zero_Reference ns reference Namespace "Reference" r →
  reads SignedInfo_Unmarshal zero_SignedInfo ns (made_signed_info c14n method reference) Namespace "SignedInfo"
    (mkSignedInfo c14n method [r]).
Proof.
  intros Hns Hr.
  assert (Hb : built (SigningContext_Prefix ctx) "SignedInfo" []
    [createNamespacedElement ctx "CanonicalizationMethod" [(AlgorithmAttr, c14n)] [];
     createNamespacedElement ctx "SignatureMethod" [(AlgorithmAttr, method)] []; reference] ""
    (made_signed_info c14n method reference)).
  { unfold made_signed_info. do 3 (change (?x :: ?l) with ([x] ++ l)%list).
    cbn [foldl app]. eapply built_eq; [do 3 apply built_child; by split|done..]. }
  eapply reads_eq; [eapply (reads_struct _ SignedInfo_fields ns ns _ _ _ _ _ _ _ zero_SignedInfo _ _ Hb);
    [done|by apply translate_sig|done|reflexivity|]|].
  - change (?x :: ?y :: ?l) with ([x] ++ [y] ++ l)%list.
    single SignedInfo_CanonicalizationMethod by (by apply (algorithm_reads ns "CanonicalizationMethod")).
    single SignedInfo_SignatureMethod by (by apply (algorithm_reads ns "SignatureMethod")).
    apply (read_each _ _ SignedInfo_References Reference_Unmarshal zero_Reference Namespace "Reference" id (λ _, r) [reference]);
      [by intros x ->%list_elem_of_singleton|reflexivity..].
  - done.
Qed.

(** The declaration of the prefix. *)
Definition xmlns_key : string :=
  if SigningContext_Prefix ctx != "" then "xmlns:" +++ SigningContext_Prefix ctx else "xmlns".

(** The [Signature] around them. *)
Definition made_signature (signedInfo : Element) (value : string) (certs : list string) : Element :=
  foldl (λ e c, AddChild c e)
    (CreateAttr xmlns_key Namespace (mkElement (SigningContext_Prefix ctx) "Signature" [] []))
    [signedInfo;
     text_element ctx "SignatureValue" value;
     createNamespacedElement ctx "KeyInfo" []
       [createNamespacedElement ctx "X509Data" [] (map (text_element ctx "X509Certificate") certs)]].

Lemma declares_prefix ns : sig_scope (foldl xml_declare ns (attr_of xmlns_key Namespace)).
Proof.
  unfold sig_scope, attr_of, xmlns_key. destruct Hprefix as [Hc _].
  destruct (bool_decide_reflect (SigningContext_Prefix ctx = "")) as [->|Hne]; [apply lookup_insert_eq|].
  cbn [negb]. change ("xmlns:" +++ SigningContext_Prefix ctx) with ("xmlns" +++ ":" +++ SigningContext_Prefix ctx).
  rewrite split_name_prefixed by done. apply lookup_insert_eq.
Qed.

Lemma Signature_reads ns signedInfo value certs s :
  (∀ ns, sig_scope ns → reads SignedInfo_Unmarshal zero_SignedInfo ns signedInfo Namespace "SignedInfo" s) →
  reads Signature_Unmarshal zero_SignatureContent ns (made_signature signedInfo value certs) Namespace "Signature"
    (mkSignatureContent (Some s) (Some value) (Some certs)).
Proof.
  intros Hsi. pose proof (declares_prefix ns) as Hns.
  assert (Hb : built (SigningContext_Prefix ctx) "Signature" (attr_of xmlns_key Namespace)
    [signedInfo; text_element ctx "SignatureValue" value;
     createNamespacedElement ctx "KeyInfo" []
       [createNamespacedElement ctx "X509Data" [] (map (text_element ctx "X509Certificate") certs)]] ""
    (made_signature signedInfo value certs)).
  { unfold made_signature. cbn [foldl]. eapply built_eq;
      [do 3 apply built_child; apply (built_attr _ _ _ _ []); [by split|apply fresh_nil]|done..]. }
  eapply reads_eq; [eapply (reads_struct _ Signature_fields ns _ _ _ _ _ _ _ _ zero_SignatureContent _ _ Hb);
    [reflexivity|by apply translate_sig|done| |]|].
  - apply read_of. reflexivity.
  - change [?x; ?y; ?z] with (els_opt id (Some x) ++ els_opt id (Some y) ++ els_opt id (Some z))%list.
    group ltac:(apply (read_optional _ _ Content_SignedInfo SignedInfo_Unmarshal zero_SignedInfo Namespace "SignedInfo" id (λ _, s));
      [intros x [= <-]; by apply Hsi|reflexivity..]).
    group ltac:(apply (read_optional _ _ Content_SignatureValue SignatureValue_Unmarshal "" Namespace "SignatureValue" id (λ _, value));
      [intros x [= <-]; by apply text_element_reads|reflexivity..]).
    group ltac:(apply (read_optional _ _ Content_KeyInfo KeyInfo_Unmarshal [] Namespace "KeyInfo" id (λ _, certs));
      [intros x [= <-]; by apply KeyInfo_reads|reflexivity..]).
  - done.
Qed.
End roundtrip.

Section signatures.
Context `{EtreeI : EtreeOps} `{EtreeB : !EtreeBuild} `{CryptoI : CryptoOps} `{XmlP : XmlParser}.

(** The [SignedInfo] of a signature that [ConstructSignature] makes over [el]. *)
Definition signed_info_of (ctx : SigningContext) (method digest : string) (el : Element) (enveloped : bool) : SignedInfo :=
  let c14n := Canonicalizer_Algorithm (SigningContext_Canonicalizer ctx) in
  let dataId := SelectAttrValue (SigningContext_IdAttribute ctx) el in
  mkSignedInfo c14n method
    [mkReference (if dataId == "" then "" else "#" +++ dataId) (base64_Encode digest) (GetDigestAlgorithmIdentifier ctx)
       (map (λ a, mkTransform a None) ((if enveloped then [EnvelopedSignatureAltorithmId] else []) ++ [c14n]))].

Lemma constructSignedInfo_made ctx el enveloped el' signedInfo :
  constructSignedInfo ctx el enveloped = Ret (el', signedInfo) → ∃ method digest,
    GetSignatureMethodIdentifier ctx = Ret method ∧ SigningContext_digest ctx el = Ret (el', digest) ∧
    ∀ ns, prefix_ok ctx → sig_scope ctx ns →
      reads SignedInfo_Unmarshal zero_SignedInfo ns signedInfo Namespace "SignedInfo"
        (signed_info_of ctx method digest el' enveloped).
Proof.
  unfold constructSignedInfo. intros H. apply raise_if_bind in H as [_ H].
  apply bind_ret in H as (method & Hm & H). apply raise_if_bind in H as [_ H].
  apply bind_ret in H as ([e digest] & Hd & H). injection H as <- <-.
  exists method, digest. split_and!; [done..|]. intros ns Hp Hns.
  apply (SignedInfo_reads ctx Hp ns); [done|].
  set (c14n := Canonicalizer_Algorithm _).
  replace ((if enveloped then [createNamespacedElement ctx "Transform" [(AlgorithmAttr, EnvelopedSignatureAltorithmId)] []] else [])
     ++ [createNamespacedElement ctx "Transform" [(AlgorithmAttr, c14n)] []])%list
    with (map (made_transform ctx) ((if enveloped then [EnvelopedSignatureAltorithmId] else []) ++ [c14n])%list)
    by (by destruct enveloped).
  by apply (Reference_reads ctx Hp ns).
Qed.

(** Signatures round trip. Whatever document the parser reads as the [Signature] that
    [ConstructSignature] makes is decoded to its content: one reference to the element by its
    ID with its digest and the transforms to apply, the algorithms, the signature value and
    the certificates of the signing context. *)
Theorem signature_roundtrip ctx el enveloped el' sig doc
    (Hmade : ConstructSignature ctx el enveloped = Ret (el', sig))
    (Hprefix : prefix_ok ctx) (Hdoc : xml_Parse doc = Ret sig) :
  ∃ method digest raw certs,
    GetSignatureMethodIdentifier ctx = Ret method ∧ SigningContext_digest ctx el = Ret (el', digest) ∧
    getCerts ctx = Ret certs ∧ (∃ content, signDigest ctx content = Ret raw) ∧
    Unmarshal_Signature doc
    = Ret (Some (signed_info_of ctx method digest el' enveloped), Some (base64_Encode raw),
           Some (map base64_Encode certs)).
Proof.
  unfold ConstructSignature in Hmade. apply bind_ret in Hmade as ([e signedInfo] & Hsi & H).
  apply constructSignedInfo_made in Hsi as (method & digest & Hm & Hd & Hreads).
  apply bind_ret in H as (c1 & _ & H). apply bind_ret in H as (c2 & _ & H).
  apply bind_ret in H as (c3 & _ & H). apply bind_ret in H as (detached & _ & H).
  apply bind_ret in H as (d & _ & H). apply bind_ret in H as (raw & Hraw & H).
  apply bind_ret in H as (certs & Hcerts & H). injection H as <- <-.
  exists method, digest, raw, certs. split_and!; [done..|by eexists|].
  destruct (Signature_reads ctx Hprefix ∅ signedInfo (base64_Encode raw) (map base64_Encode certs)
    (signed_info_of ctx method digest e enveloped)) as (_ & _ & Hr); [by intros; apply Hreads|].
  unfold Unmarshal_Signature, signature_xml_ops, xml_Unmarshal. rewrite Hdoc, ret_bind.
  unfold made_signature, xmlns_key in Hr. rewrite map_map in Hr.
  apply bind_ret. eexists. split; [exact Hr|done].
Qed.
End signatures.

Module Examples.

#[local] Instance ref_parser : XmlParser := {|
  xml_Parse s := or_err (read_document s) (Sentinel "io.EOF");
  roundtrip_Validate _ := Ret ()
|}.

Definition ctx : SigningContext := DSigSpec.Examples.signing_context.
Definition message : Element := DSigSpec.Examples.message.

Definition made : Element * Element :=
  match ConstructSignature ctx (root_cursor message) true with Ret r => r | _ => (message, message) end.

Definition document : string := write_element made.2.

Lemma ctx_prefix : prefix_ok ctx.
Proof. split; [done|]. apply (bool_decide_eq_true_1 ("ds" ∉ ["xmlns"; "xml"])). by vm_compute. Qed.

Lemma signature_roundtrip_witness :
  ∃ method digest raw certs,
    GetSignatureMethodIdentifier ctx = Ret method ∧ SigningContext_digest ctx (root_cursor message) = Ret (made.1, digest) ∧
    getCerts ctx = Ret certs ∧ (∃ content, signDigest ctx content = Ret raw) ∧
    Unmarshal_Signature document
    = Ret (Some (signed_info_of ctx method digest made.1 true), Some (base64_Encode raw), Some (map base64_Encode certs)).
Proof.
  apply (signature_roundtrip ctx (root_cursor message) true made.1 made.2 document).
  - vm_compute. reflexivity.
  - exact ctx_prefix.
  - vm_compute. reflexivity.
Defined.
End Examples.
