(* ===== verification/XmlText.v ===== *)
(** * XmlText: elements that are written and read back

    What [etree] and [encoding/xml] promise together, for the elements whose text says
    all there is to say: names of letters and digits, values of printable ASCII, no two
    texts next to one another ([plain_tree]).  The parser reads such an element back from
    what [etree] writes of it, in the usual and in the canonical form. *)

From stdpp Require Import base option list gmap strings sets.
From Stdlib Require Import ZArith Lia Ascii.
From S2P Require Import Prelude Go Duration Encoding Etree C14n Schema Env Reference XmlDecode SchemaDecode.

Open Scope string_scope.

(** ** Elements whose text says all *)

Definition name_start (c : ascii) : bool :=
  let n := N_of_ascii c in
  ((65 <=? n) && (n <=? 90) || (97 <=? n) && (n <=? 122) || (n =? 95))%N.

Definition name_byte (c : ascii) : bool :=
  let n := N_of_ascii c in name_start c || ((48 <=? n) && (n <=? 57) || (n =? 45) || (n =? 46))%N.

(** A name without a colon. *)
Definition plain_xml_name (s : string) : bool :=
  match s with "" => false | String c s => name_start c && all_bytes name_byte s end.

Definition printable (c : ascii) : bool := let n := N_of_ascii c in ((32 <=? n) && (n <? 127))%N.

Definition plain_text (s : string) : bool := all_bytes printable s.

Definition plain_prefix (s : string) : bool := (s == "") || plain_xml_name s.

Definition plain_attr (a : Attr) : bool :=
  plain_prefix (Attr_Space a) && plain_xml_name (Attr_Key a) && plain_text (Attr_Value a).

(** Texts that are not empty and not next to one another. *)
Fixpoint texts_apart (c : list Token) : bool :=
  match c with
  | TCharData s :: c =>
      (s != "") && plain_text s && (match c with TCharData _ :: _ => false | _ => true end) && texts_apart c
  | TElement _ :: c => texts_apart c
  | [] => true
  | _ => false
  end.

Fixpoint plain_tree (e : Element) : bool :=
  plain_prefix (Space e) && plain_xml_name (Tag e) && forallb plain_attr (Attrs e) &&
  bool_decide (NoDup (map (λ a, (Attr_Space a, Attr_Key a)) (Attrs e))) && texts_apart (Child e) &&
  (fix go (c : list Token) : bool :=
     match c with
     | [] => true
     | TElement x :: c => plain_tree x && go c
     | _ :: c => go c
     end) (Child e).

(** ** What the packages promise *)

Class XmlTextLaws `{EtreeI : EtreeOps} `{XmlP : XmlParser} : Prop := {
  write_plain e : plain_tree e = true → ∃ doc, WriteToBytes e = Ret doc ∧ xml_Parse doc = Ret e;
  write_canonical_plain e doc : plain_tree e = true → WriteToBytes_canonical e = Ret doc → xml_Parse doc = Ret e;
  (* an attribute is found by its name, if no other attribute has it *)
  SelectAttr_named a e : has_byte ":" (Attr_Key a) = false → Attr_Space a = "" → a ∈ Attrs e →
    (∀ b, b ∈ Attrs e → Attr_Key b = Attr_Key a → b = a) → SelectAttr (Attr_Key a) e = Some a;
  SetText_empty text e : text ≠ "" → Child e = [] → SetText text e = set_Child [TCharData text] e
}.

Lemma plain_tree_els e : plain_tree e =
  plain_prefix (Space e) && plain_xml_name (Tag e) && forallb plain_attr (Attrs e) &&
  bool_decide (NoDup (map (λ a, (Attr_Space a, Attr_Key a)) (Attrs e))) && texts_apart (Child e) &&
  forallb plain_tree (ChildElements e).
Proof.
  destruct e as [s t a c]. cbn [plain_tree]. f_equal. unfold ChildElements. simpl.
  induction c as [|[] c IH]; simpl; [done| |done..]. by rewrite IH.
Qed.

(** ** The reference instance *)

Lemma take_bytes_append s t : take_bytes (String.length s) (s +++ t) = (s, t).
Proof. induction s as [|c s IH]; simpl; [by destruct t|]. by rewrite IH. Qed.

Lemma read_field_field s t : read_field (field s +++ t) = (s, t).
Proof.
  unfold field, read_field. rewrite append_assoc. change (":" +++ s) with (String ":" s).
  cbn [String.append]. rewrite span_digits_itoa by (done || lia). cbn [fst snd].
  rewrite digits_value_itoa by lia. by rewrite Nat2Z.id, take_bytes_append.
Qed.

(** The parts of [write_element]. *)
Fixpoint write_attrs (l : list Attr) : string :=
  match l with
  | [] => "."
  | a :: l => "A" +++ field (Attr_Space a) +++ field (Attr_Key a) +++ field (Attr_Value a) +++ write_attrs l
  end.

Fixpoint write_tokens (c : list Token) : string :=
  match c with
  | [] => "."
  | TElement x :: c => write_element x +++ write_tokens c
  | TCharData t :: c => "T" +++ field t +++ write_tokens c
  | TComment t :: c => "C" +++ field t +++ write_tokens c
  | TOther t :: c => "O" +++ field t +++ write_tokens c
  end.

Lemma write_element_eq e : write_element e
  = "E" +++ field (Space e) +++ field (Tag e) +++ write_attrs (Attrs e) +++ write_tokens (Child e).
Proof. destruct e as [s t a c]. reflexivity. Qed.

Lemma read_attrs_write l fuel rest : (length l <= fuel)%nat → read_attrs fuel (write_attrs l +++ rest) = (l, rest).
Proof.
  revert fuel. induction l as [|a l IH]; intros fuel Hf; [by destruct fuel|].
  destruct fuel as [|fuel]; [simpl in Hf; lia|]. cbn [write_attrs]. cbn [String.append read_attrs].
  rewrite !append_assoc, !read_field_field. cbv beta iota. rewrite IH by (simpl in Hf; lia). by destruct a.
Qed.

Lemma length_field s : (1 <= String.length (field s))%nat.
Proof. unfold field. rewrite length_append. simpl. lia. Qed.

Lemma length_write_attrs l : (length l < String.length (write_attrs l))%nat.
Proof.
  induction l as [|a l IH]; [simpl; lia|]. cbn [write_attrs]. rewrite !length_append. simpl. lia.
Qed.

(** What is written before [rest] is read, and [rest] is left. *)
Definition element_read (e : Element) : Prop := ∀ fuel rest l r,
  (String.length (write_element e) <= S fuel)%nat → read_tokens fuel rest = (l, r) →
  read_tokens (S fuel) (write_element e +++ rest) = (TElement e :: l, r).

Lemma write_tokens_read c : Forall (token_all element_read) c → ∀ fuel rest,
  (String.length (write_tokens c) <= fuel)%nat → read_tokens fuel (write_tokens c +++ rest) = (c, rest).
Proof.
  induction 1 as [|k c Hk _ IH]; intros fuel rest Hf.
  { destruct fuel; [simpl in Hf; lia|done]. }
  destruct fuel as [|fuel]; [destruct k; simpl in Hf; rewrite ?write_element_eq in Hf; simpl in Hf; lia|].
  destruct k as [x|t|t|t]; cbn [write_tokens] in *; rewrite ?length_append in Hf; rewrite append_assoc.
  - apply (Hk fuel); [lia|]. apply IH. rewrite write_element_eq in Hf. simpl in Hf. lia.
  - cbn [String.append read_tokens]. rewrite append_assoc, read_field_field. cbv beta iota. rewrite IH; [done|simpl in Hf; lia].
  - cbn [String.append read_tokens]. rewrite append_assoc, read_field_field. cbv beta iota. rewrite IH; [done|simpl in Hf; lia].
  - cbn [String.append read_tokens]. rewrite append_assoc, read_field_field. cbv beta iota. rewrite IH; [done|simpl in Hf; lia].
Qed.

Lemma write_element_read e : element_read e.
Proof.
  induction e as [s t a c IH] using element_tree_ind. intros fuel rest l r Hf Hr.
  rewrite write_element_eq in *. cbn [Space Tag Attrs Child] in *. rewrite !length_append in Hf.
  pose proof (length_write_attrs a). cbn [String.append read_tokens]. rewrite !append_assoc, !read_field_field. cbv beta iota.
  simpl in Hf.
  rewrite read_attrs_write by lia. cbv beta iota. rewrite (write_tokens_read c IH) by lia. cbv beta iota. by rewrite Hr.
Qed.

Lemma read_document_write e : read_document (write_element e) = Some e.
Proof.
  unfold read_document. pose proof (write_element_read e (String.length (write_element e)) "" [] "") as H.
  rewrite append_nil_r in H. rewrite H; [done|lia|]. by destruct (String.length _).
Qed.

#[export] Instance ref_xml_parser : XmlParser := {|
  xml_Parse s := or_err (read_document s) (Sentinel "io.EOF");
  roundtrip_Validate _ := Ret ()
|}.

#[export] Instance ref_xml_text_laws : XmlTextLaws.
Proof.
  split.
  - intros e _. exists (write_element e). split; [done|]. simpl. by rewrite read_document_write.
  - intros e doc _ [= <-]. simpl. by rewrite read_document_write.
  - intros a e Hk Hs Ha Hu. simpl. unfold ref_SelectAttr. rewrite split_name_plain by done.
    destruct (first_that_is_Some (λ b, bool_decide ((Attr_Space b, Attr_Key b) = ("", Attr_Key a))) (Attrs e) a Ha) as [b Hb].
    { apply bool_decide_eq_true_2. by rewrite Hs. }
    rewrite Hb. apply first_that_elem in Hb as [Hin Hb]. apply bool_decide_eq_true_1 in Hb.
    f_equal. apply Hu; [done|]. by simplify_eq.
  - intros text e _ Hc. simpl. by rewrite Hc.
Qed.
