(* ===== verification/SignElements.v ===== *)
(** * SignElements: the elements that [ConstructSignature] makes

    Their exact form ([signature_of]), that they are written and read back
    ([neat]), what is read of them, and their canonical forms: the [SignedInfo], detached
    from wherever it stands, is canonicalized to itself with the declaration of its
    prefix ([bare_detached_c14n]). *)

From stdpp Require Import base option list gmap strings sets.
From Stdlib Require Import ZArith Lia Ascii.
From S2P Require Import Prelude Go Encoding Etree C14n Schema Env DSig DSigSpec Redirect RedirectSpec XmlDecode Reference.
From S2P Require Import SchemaXML SchemaDecode SchemaRoundtrip C14nReads C14nSpec C14nStable SchemaTidy XmlText SignatureDecode.

Open Scope string_scope.

(** ** Elements of a signature *)

Definition lone (l : list Attr) : bool :=
  match l with [] => true | [a] => unprefixed_name (Attr_Space a) (Attr_Key a) | _ => false end.

(** Elements of one prefix, with at most one attribute, which has none, and without
    comments. *)
Fixpoint bare_tree (p : string) (e : Element) : bool :=
  (Space e == p) &&
  lone (Attrs e) &&
  (fix go (c : list Token) : bool :=
     match c with
     | [] => true
     | TElement x :: c => bare_tree p x && go c
     | TComment _ :: _ => false
     | _ :: c => go c
     end) (Child e).

(** The number of elements of a tree: the visits that a traversal makes. *)
Fixpoint el_count (e : Element) : nat :=
  S ((fix go (c : list Token) : nat :=
        match c with
        | [] => 0
        | TElement x :: c => el_count x + go c
        | _ :: c => go c
        end) (Child e)).

Fixpoint els_count (c : list Token) : nat :=
  match c with [] => 0 | TElement x :: c => el_count x + els_count c | _ :: c => els_count c end.

Lemma el_count_eq e : el_count e = S (els_count (Child e)).
Proof. destruct e as [s t a c]. simpl. f_equal. Qed.

Lemma bare_unprefixed p e : bare_tree p e = true → Space e = p ∧ unprefixed (Attrs e).
Proof.
  destruct e as [s t a c]. cbn [bare_tree Space Attrs]. intros [[Hs Ha]%andb_true_iff _]%andb_true_iff.
  bool_prop. split; [done|]. destruct a as [|a [|]]; [constructor| |done]. by constructor; [|constructor].
Qed.

Lemma bare_SubContext p e ns : bare_tree p e = true → SubContext ns e = Ret ns.
Proof. intros [_ H]%bare_unprefixed. destruct e as [s t a c]. by apply unprefixed_SubContext. Qed.

Lemma bare_child p e x : bare_tree p e = true → TElement x ∈ Child e → bare_tree p x = true.
Proof.
  destruct e as [s t a c]. cbn [bare_tree Child]. intros [_ Hc]%andb_true_iff Hx.
  induction c as [|k c IH]; [by apply not_elem_of_nil in Hx|].
  destruct k as [y|y|y|y]; [apply andb_true_iff in Hc as [Hy Hc]| |done|]; apply elem_of_cons in Hx as [Hx|Hx];
    by simplify_eq || auto.
Qed.

(** The canonical form of an element whose prefix is declared around it. *)
Lemma bare_visible p e : bare_tree p e = true → visiblyUtilizedPrefixes ∅ e = {[p]}.
Proof.
  intros [Hs Ha]%bare_unprefixed. unfold visiblyUtilizedPrefixes. rewrite Hs.
  enough (H : ∀ f, (∀ a, unprefixed_name (Attr_Space a) (Attr_Key a) = true → f a = None) → omap f (Attrs e) = ([] : list string)).
  { rewrite H; [by rewrite list_to_set_nil, (right_id_L ∅ (∪))|]. intros a (H1 & H2 & _)%unprefixed_attr.
    unfold is_default_decl, xmlnsPrefix, defaultPrefix. rewrite H1. by rewrite (bool_decide_false (Attr_Key a = "xmlns")). }
  intros f Hf. induction Ha as [|a l Hx _ IH]; simpl; [done|]. by rewrite Hf.
Qed.

Lemma bare_sorted p e : bare_tree p e = true → SortAttrs (own_attrs e ++ []) = Attrs e.
Proof.
  intros H. pose proof (bare_unprefixed _ _ H) as [_ Ha]. unfold own_attrs. rewrite (unprefixed_own _ Ha), app_nil_r.
  destruct e as [s t [|a [|]] c]; cbn [Attrs] in *; [done..|]. cbn [bare_tree Attrs] in H. by rewrite !andb_false_r in H.
Qed.

Lemma bare_children p f comments e : bare_tree p e = true → (∀ x, TElement x ∈ Child e → f x = Ret x) →
  c14n_children f comments (Child e) = Ret (Child e).
Proof.
  destruct e as [s t a c]. cbn [bare_tree Child]. intros [_ Hc]%andb_true_iff Hf.
  induction c as [|k c IH]; [done|]. specialize (λ Hc, IH Hc ltac:(intros y Hy; apply Hf; by right)).
  destruct k as [y|y|y|y]; simpl; [apply andb_true_iff in Hc as [Hy Hc]| |done|].
  - by rewrite (Hf y) by (by left); rewrite ret_bind, (IH Hc).
  - by rewrite (IH Hc).
  - by rewrite (IH Hc).
Qed.

Lemma bare_c14n p comments u e : ∀ S Dc, bare_tree p e = true → S !! p = Some u → Dc !! p = Some u →
  transformExcC14n S Dc ∅ comments e = Ret e.
Proof.
  induction e as [s t a c IH] using element_tree_ind. intros S Dc H HS HD.
  rewrite transformExcC14n_eq, (bare_SubContext p) by done. rewrite ret_bind, (bare_visible p) by done.
  rewrite elements_singleton. cbn [declare_prefixes]. rewrite HS, HD.
  rewrite !bool_decide_true by (done || by eexists). cbn [andb]. rewrite ret_bind. cbn [fst snd].
  rewrite (bare_children p); [|done|]; [by rewrite ret_bind, (bare_sorted p)|].
  intros x Hx. rewrite Forall_forall in IH. apply (IH (TElement x) Hx); [|done..]. by apply (bare_child p _ x H).
Qed.

(** The canonical form of a detached one declares the prefix. *)
Lemma bare_detached_c14n p comments u ctx e : bare_tree p e = true → Attrs e = [] → reserved ctx →
  ctx !! p = Some u → default_prefixes !! p ≠ Some u →
  TransformExcC14n (detached ctx e) "" comments = Ret (set_Attrs [declare p u] e).
Proof.
  intros H Ha Hres Hp Hne. destruct (detached_scope ctx e Hres) as (scope & Hs & Hall).
  unfold TransformExcC14n. change (list_to_set (Fields "")) with (∅ : gset string).
  rewrite transformExcC14n_eq, Hs, ret_bind. pose proof (bare_unprefixed _ _ H) as [Hsp _].
  assert (Hown : own_attrs (detached ctx e) = []).
  { apply Permutation_nil. rewrite detached_own. unfold own_attrs. by rewrite Ha. }
  assert (Hv : visiblyUtilizedPrefixes ∅ (detached ctx e) = {[p]}).
  { apply set_eq. intros q. rewrite <- elem_of_elements, visible_inv, Hown. change (Space (detached ctx e)) with (Space e).
    rewrite Hsp, elem_of_singleton. split; [|by left].
    intros [?|[(? & Hx & _)|[Hx _]]]; [done|by apply not_elem_of_nil in Hx|by apply not_elem_of_empty in Hx]. }
  rewrite Hv, elements_singleton. cbn [declare_prefixes]. rewrite (Hall p u Hp).
  rewrite (bool_decide_false (default_prefixes !! p = Some u)) by done. rewrite andb_false_r.
  unfold LookupPrefix. rewrite (Hall p u Hp). cbn [or_err mbind outcome_bind]. cbn [fst snd]. rewrite Hown.
  change (Child (detached ctx e)) with (Child e). rewrite (bare_children p); [|done|].
  - rewrite ret_bind. by destruct e.
  - intros x Hx. apply (bare_c14n p comments u); [by apply (bare_child p e)|by apply Hall|]. apply ns_insert_eq.
Qed.

(** ** What [ConstructSignature] makes *)

Lemma b64_printable c : b64_text c = true → printable c = true.
Proof. intros H. destruct c as [[] [] [] [] [] [] [] []]; vm_compute in *; congruence. Qed.

Section made.
Context `{EtreeI : EtreeOps} `{EtreeB : !EtreeBuild} `{XmlP : XmlParser} `{XmlT : !XmlTextLaws} `{CryptoI : CryptoOps}.
Context (ctx : SigningContext) (Hprefix : prefix_ok ctx) (Hplain : plain_prefix (SigningContext_Prefix ctx) = true).

Notation p := (SigningContext_Prefix ctx).

Lemma created_eq tag attrs children : split_name tag = ("", tag) → NoDup (map (split_name ∘ fst) attrs) →
  createNamespacedElement ctx tag attrs children = mkElement p tag (keys_of attrs) (map TElement children).
Proof.
  intros Ht Hnd. unfold createNamespacedElement. rewrite NewElement_split, Ht. cbn [fst snd Tag Attrs Child].
  assert (Hattrs : foldl (λ e '(k, v), CreateAttr k v e) (mkElement p tag [] []) attrs = mkElement p tag (keys_of attrs) []).
  { induction attrs as [|[k v] l IH] using rev_ind; [done|]. rewrite map_app in Hnd.
    apply NoDup_app in Hnd as (Hl & Hk & _). rewrite foldl_app, IH by done. cbn [foldl].
    rewrite CreateAttr_new; [unfold keys_of; by rewrite flat_map_app|].
    intros a Ha. unfold keys_of in Ha. apply list_elem_of_In, in_flat_map in Ha as ([k' v'] & Hin & Ha).
    apply list_elem_of_In, list_elem_of_singleton in Ha as ->. intros Heq. apply (Hk (split_name k)); [|simpl; by left].
    apply list_elem_of_In, in_map_iff. exists (k', v'). split; [|done]. simpl in *. by destruct (split_name k'). }
  rewrite Hattrs. change (map TElement children) with ([] ++ map TElement children)%list. generalize (@nil Token).
  clear Hattrs. induction children as [|c l IH]; intros l0; simpl; [by rewrite app_nil_r|].
  rewrite AddChild_last. unfold set_Child. cbn [Child Space Tag Attrs]. rewrite IH. by rewrite <- app_assoc.
Qed.

Lemma text_element_eq tag text : split_name tag = ("", tag) → text ≠ "" →
  text_element ctx tag text = mkElement p tag [] [TCharData text].
Proof.
  intros Ht Hn. unfold text_element. rewrite (created_eq tag [] []) by (done || constructor).
  by rewrite SetText_empty.
Qed.

(** Elements that are bare and plain. *)
Definition neat (e : Element) : Prop := bare_tree p e = true ∧ plain_tree e = true.

Lemma neat_created tag attrs children : split_name tag = ("", tag) → plain_xml_name tag = true →
  match attrs with
  | [] => True
  | [(k, v)] => split_name k = ("", k) ∧ k ≠ "xmlns" ∧ plain_xml_name k = true ∧ plain_text v = true
  | _ => False
  end → Forall neat children → neat (createNamespacedElement ctx tag attrs children).
Proof.
  intros Ht Hpt Ha Hc. rewrite created_eq; [|done|].
  2: { destruct attrs as [|[k v] [|]]; [constructor|apply NoDup_singleton|done]. }
  assert (Hattrs : lone (keys_of attrs) = true ∧
    forallb plain_attr (keys_of attrs) = true ∧ NoDup (map (λ a, (Attr_Space a, Attr_Key a)) (keys_of attrs))).
  { destruct attrs as [|[k v] [|]]; [split_and!; [done..|constructor]| |done].
    destruct Ha as (Hk & Hx & Hpk & Hpv). unfold keys_of, attr_of. simpl. rewrite Hk. cbn [fst snd Attr_Space Attr_Key].
    split_and!; [|unfold plain_attr; simpl; by rewrite Hpk, Hpv|apply NoDup_singleton].
    unfold unprefixed_name. by destruct (String.eqb_spec k "xmlns"). }
  destruct Hattrs as (H1 & H2 & H3). split.
  - cbn [bare_tree]. rewrite bool_decide_true by done. cbn [Attrs Child]. rewrite H1. cbn [andb].
    induction Hc as [|x l [Hx _] _ IH]; [done|]. simpl. by rewrite Hx, IH.
  - rewrite plain_tree_els. cbn [Space Tag Attrs Child]. rewrite Hplain, Hpt, H2, bool_decide_true by done. cbn [andb].
    unfold ChildElements. cbn [Child]. induction Hc as [|x l [_ Hx] _ IH]; [done|]. simpl. rewrite Hx. exact IH.
Qed.

Lemma neat_text tag text : split_name tag = ("", tag) → plain_xml_name tag = true → text ≠ "" → plain_text text = true →
  neat (text_element ctx tag text).
Proof.
  intros Ht Hpt Hn Hx. rewrite text_element_eq by done. split.
  - simpl. by rewrite bool_decide_true.
  - rewrite plain_tree_els. cbn [Space Tag Attrs Child map forallb texts_apart ChildElements].
    rewrite Hplain, Hpt, Hx, bool_decide_true by constructor. by rewrite bool_decide_false.
Qed.

Lemma plain_text_append s t : plain_text (s +++ t) = plain_text s && plain_text t.
Proof. unfold plain_text. induction s as [|c s IH]; simpl; [done|]. by rewrite IH, andb_assoc. Qed.

Lemma plain_base64 s : plain_text (base64_Encode s) = true.
Proof.
  unfold plain_text. pose proof (base64_Encode_text s) as H. induction (base64_Encode s) as [|c t IH]; [done|].
  simpl in *. apply andb_true_iff in H as [Hc Ht]. rewrite IH by done. by rewrite b64_printable.
Qed.

Lemma base64_nonempty s : s ≠ "" → base64_Encode s ≠ "".
Proof. by destruct s as [|a [|b [|c s]]]. Qed.

(** The content of a signature. *)
Definition key_info (certs : list string) : Element :=
  createNamespacedElement ctx "KeyInfo" []
    [createNamespacedElement ctx "X509Data" [] (map (λ cert, text_element ctx "X509Certificate" (base64_Encode cert)) certs)].

Definition signature_of (signedInfo : Element) (raw : string) (certs : list string) : Element :=
  mkElement p "Signature" [declare p Namespace]
    [TElement signedInfo; TElement (text_element ctx "SignatureValue" (base64_Encode raw)); TElement (key_info certs)].

Lemma attr_of_xmlns : attr_of (xmlns_key ctx) Namespace = [declare p Namespace].
Proof.
  unfold attr_of, xmlns_key, declare, defaultPrefix. destruct Hprefix as [Hc _].
  destruct (bool_decide_reflect (p = "")) as [E|Hne]; [done|].
  cbn [negb]. change ("xmlns:" +++ p) with ("xmlns" +++ ":" +++ p).
  by rewrite split_name_prefixed.
Qed.

Lemma made_signature_eq signedInfo raw certs :
  foldl (λ e c, AddChild c e) (CreateAttr (xmlns_key ctx) Namespace (mkElement p "Signature" [] []))
    [signedInfo; text_element ctx "SignatureValue" (base64_Encode raw); key_info certs]
  = signature_of signedInfo raw certs.
Proof.
  rewrite CreateAttr_new by (intros a Ha; by apply not_elem_of_nil in Ha). pose proof attr_of_xmlns as E. unfold attr_of in E.
  cbn [foldl]. rewrite !AddChild_last. cbn [set_Child set_Attrs Attrs Space Tag Child app]. by rewrite E.
Qed.

Lemma key_info_neat certs : (∀ c, c ∈ certs → c ≠ "") → neat (key_info certs).
Proof.
  intros H. apply neat_created; [done..|]. apply Forall_singleton. apply neat_created; [done..|].
  apply Forall_forall. intros x Hx. apply list_elem_of_In, in_map_iff in Hx as (c & <- & Hc%list_elem_of_In).
  apply neat_text; [done..|by apply base64_nonempty, H|apply plain_base64].
Qed.

Lemma value_neat raw : raw ≠ "" → neat (text_element ctx "SignatureValue" (base64_Encode raw)).
Proof. intros. apply neat_text; [done..|by apply base64_nonempty|apply plain_base64]. Qed.

(** The [SignedInfo] over an element with the given ID. *)
Definition signed_info (c14n method digestMethod ident digest : string) : Element :=
  made_signed_info ctx c14n method
    (made_reference ctx (if ident == "" then "" else "#" +++ ident) digestMethod (base64_Encode digest)
       [EnvelopedSignatureAltorithmId; c14n]).

Lemma signed_info_eq c14n method digestMethod ident digest :
  signed_info c14n method digestMethod ident digest
  = createNamespacedElement ctx "SignedInfo" []
      [createNamespacedElement ctx "CanonicalizationMethod" [(AlgorithmAttr, c14n)] [];
       createNamespacedElement ctx "SignatureMethod" [(AlgorithmAttr, method)] [];
       made_reference ctx (if ident == "" then "" else "#" +++ ident) digestMethod (base64_Encode digest)
         [EnvelopedSignatureAltorithmId; c14n]].
Proof.
  rewrite (created_eq "SignedInfo") by (done || constructor). unfold signed_info, made_signed_info.
  cbn [foldl]. rewrite !AddChild_last. done.
Qed.

Lemma signed_info_neat c14n method digestMethod ident digest :
  plain_text c14n = true → plain_text method = true → plain_text digestMethod = true → plain_text ident = true →
  digest ≠ "" → neat (signed_info c14n method digestMethod ident digest).
Proof.
  intros H1 H2 H3 H4 Hd. rewrite signed_info_eq. apply neat_created; [done..|].
  assert (Halg : ∀ tag v, split_name tag = ("", tag) → plain_xml_name tag = true → plain_text v = true →
    neat (createNamespacedElement ctx tag [(AlgorithmAttr, v)] [])) by (intros; by apply neat_created).
  repeat apply Forall_cons_2; [by apply Halg..| |apply Forall_nil_2]. unfold made_reference. apply neat_created; [done..| |].
  - split_and!; [done..|]. case_bool_decide; [done|]. by rewrite plain_text_append, H4.
  - repeat apply Forall_cons_2; [|by apply Halg| |apply Forall_nil_2].
    + apply neat_created; [done..|]. repeat apply Forall_cons_2; [by apply Halg..|apply Forall_nil_2].
    + apply neat_text; [done..|by apply base64_nonempty|apply plain_base64].
Qed.

(** ** What is read of it *)

Lemma declare_plain : plain_attr (declare p Namespace) = true.
Proof.
  unfold plain_attr, declare, defaultPrefix. pose proof Hplain as H. unfold plain_prefix in H.
  destruct (bool_decide_reflect (p = "")) as [|Hp]; [done|]. simpl in H. cbn [Attr_Space Attr_Key Attr_Value]. by rewrite H.
Qed.

Lemma neat_declared e : neat e → plain_tree (set_Attrs [declare p Namespace] e) = true.
Proof.
  intros [_ H]. rewrite plain_tree_els in *. destruct e as [s t a c]. cbn [set_Attrs Space Tag Attrs Child forallb map] in *.
  bool_prop. rewrite declare_plain, bool_decide_true by apply NoDup_singleton. by repeat (apply andb_true_iff; split).
Qed.

Lemma declares ns l : declare p Namespace ∈ l → (∀ b v, b ∈ l → decl_of b = Some (p, v) → v = Namespace) →
  sig_scope ctx (foldl xml_declare ns l).
Proof. intros Hin Hu. apply (declare_some _ _ _ _ (declare p Namespace)); [done|apply decl_of_declare|done]. Qed.

Lemma declares_one ns : sig_scope ctx (foldl xml_declare ns [declare p Namespace]).
Proof.
  apply declares; [by left|]. intros b v ->%list_elem_of_singleton. rewrite decl_of_declare. by intros [= <-].
Qed.

Definition read_signed_info (c14n method digestMethod ident digest : string) : SignedInfo :=
  mkSignedInfo c14n method
    [mkReference (if ident == "" then "" else "#" +++ ident) (base64_Encode digest) digestMethod
       (map (λ a, mkTransform a None) [EnvelopedSignatureAltorithmId; c14n])].

Lemma signed_info_reads ns c14n method digestMethod ident digest :
  reads SignedInfo_Unmarshal zero_SignedInfo ns
    (set_Attrs [declare p Namespace] (signed_info c14n method digestMethod ident digest))
    Namespace "SignedInfo" (read_signed_info c14n method digestMethod ident digest).
Proof.
  pose proof (declares_one ns) as Hns. set (ns' := foldl xml_declare ns [declare p Namespace]) in *.
  rewrite signed_info_eq, (created_eq "SignedInfo") by (done || constructor).
  eapply reads_eq; [eapply (reads_struct _ SignedInfo_fields ns ns' _ p "SignedInfo" [declare p Namespace]
    [createNamespacedElement ctx "CanonicalizationMethod" [(AlgorithmAttr, c14n)] [];
     createNamespacedElement ctx "SignatureMethod" [(AlgorithmAttr, method)] [];
     made_reference ctx (if ident == "" then "" else "#" +++ ident) digestMethod (base64_Encode digest)
         [EnvelopedSignatureAltorithmId; c14n]] "" _ zero_SignedInfo zero_SignedInfo);
    [by split|done|by apply translate_sig|done|reflexivity|]|].
  - change (?x :: ?y :: ?l) with ([x] ++ [y] ++ l)%list.
    single SignedInfo_CanonicalizationMethod by (by apply (algorithm_reads ctx Hprefix ns' "CanonicalizationMethod")).
    single SignedInfo_SignatureMethod by (by apply (algorithm_reads ctx Hprefix ns' "SignatureMethod")).
    apply (read_each _ _ SignedInfo_References Reference_Unmarshal zero_Reference Namespace "Reference" id
      (λ _, mkReference (if ident == "" then "" else "#" +++ ident) (base64_Encode digest) digestMethod
         (map (λ a, mkTransform a None) [EnvelopedSignatureAltorithmId; c14n])) [_]);
      [intros x ->%list_elem_of_singleton; by apply (Reference_reads ctx Hprefix ns')|reflexivity..].
  - done.
Qed.

Lemma made_signature_reads ns l c14n method digestMethod ident digest raw certs :
  declare p Namespace ∈ l → (∀ b v, b ∈ l → decl_of b = Some (p, v) → v = Namespace) →
  reads Signature_Unmarshal zero_SignatureContent ns
    (mkElement p "Signature" l
      [TElement (set_Attrs [declare p Namespace] (signed_info c14n method digestMethod ident digest));
       TElement (text_element ctx "SignatureValue" (base64_Encode raw)); TElement (key_info certs)])
    Namespace "Signature"
    (mkSignatureContent (Some (read_signed_info c14n method digestMethod ident digest)) (Some (base64_Encode raw))
       (Some (map base64_Encode certs))).
Proof.
  intros Hin Hu. pose proof (declares ns l Hin Hu) as Hns. set (ns' := foldl xml_declare ns l) in *.
  eapply reads_eq; [eapply (reads_struct _ Signature_fields ns ns' _ p "Signature" l
    (els_opt id (Some (set_Attrs [declare p Namespace] (signed_info c14n method digestMethod ident digest))) ++
     els_opt id (Some (text_element ctx "SignatureValue" (base64_Encode raw))) ++ els_opt id (Some (key_info certs)))%list "" _
    zero_SignatureContent zero_SignatureContent); [split; reflexivity|done|by apply translate_sig|done| |]|].
  - clear. induction l as [|a l IH]; [done|]. exact IH.
  - group ltac:(apply (read_optional _ _ Content_SignedInfo SignedInfo_Unmarshal zero_SignedInfo Namespace "SignedInfo" id
      (λ _, read_signed_info c14n method digestMethod ident digest)); [intros x [= <-]; apply signed_info_reads|reflexivity..]).
    group ltac:(apply (read_optional _ _ Content_SignatureValue SignatureValue_Unmarshal "" Namespace "SignatureValue" id
      (λ _, base64_Encode raw)); [intros x [= <-]; by apply text_element_reads|reflexivity..]).
    group ltac:(apply (read_optional _ _ Content_KeyInfo KeyInfo_Unmarshal [] Namespace "KeyInfo" id
      (λ _, map base64_Encode certs)); [intros x [= <-]; unfold key_info; rewrite <- map_map; by apply KeyInfo_reads|reflexivity..]).
  - done.
Qed.
End made.

(** [NSDetatch] within the limit. *)
Lemma run_detach_inv ctx e d : run_default (NSDetatch ctx e) = Ret d → ∃ ctx', SubContext ctx e = Ret ctx' ∧ d = detached ctx' e.
Proof.
  unfold run_default, NSDetatch, mbind, NSM_bind. destruct (checkSubtreeLimit _ _) as [st [|e1|]]; [|done..].
  unfold ns_lift. destruct (SubContext ctx e) as [ctx'| |]; [|done..]. intros [= <-]. by exists ctx'.
Qed.

Lemma proper_ds ctx : prefix_ok ctx → proper_binding (SigningContext_Prefix ctx) Namespace = true.
Proof.
  intros [_ Hp]. rewrite !not_elem_of_cons in Hp. destruct Hp as (H1 & H2 & _). unfold proper_binding, xmlPrefix, xmlnsPrefix.
  rewrite (bool_decide_false (SigningContext_Prefix ctx = "xml")), (bool_decide_false (SigningContext_Prefix ctx = "xmlns")) by done.
  change (Namespace == XMLNSNamespace) with false. by rewrite andb_false_r.
Qed.

Lemma declare_SubContext ctx ns t c : prefix_ok ctx →
  SubContext ns (mkElement (SigningContext_Prefix ctx) t [declare (SigningContext_Prefix ctx) Namespace] c)
  = Ret (<[SigningContext_Prefix ctx := Namespace]> ns).
Proof.
  intros Hp. unfold SubContext. cbn [Attrs]. rewrite subContext_returns; cbn [foldl forallb].
  - by rewrite xml_declare_decl, decl_of_declare.
  - unfold proper_decl. rewrite decl_of_declare. by rewrite proper_ds.
Qed.

Section signed.
Context `{EtreeI : EtreeOps} `{EtreeB : !EtreeBuild} `{XmlP : XmlParser} `{XmlT : !XmlTextLaws} `{CryptoI : CryptoOps}.
Context (ctx : SigningContext) (comments : bool).

Notation p := (SigningContext_Prefix ctx).
Notation h := (SigningContext_Hash ctx).

(** A context that canonicalizes exclusively, with a prefix that may be declared, and a
    hash of at least 20 bytes. *)
Record exclusive_signer : Prop := {
  signer_prefix : prefix_ok ctx;
  signer_plain : plain_prefix p = true;
  signer_c14n : SigningContext_Canonicalizer ctx = c14N10ExclusiveCanonicalizer "" comments;
  signer_hash s : (20 <= String.length (hash_Sum h s))%nat
}.

Context (Hctx : exclusive_signer).

Definition c14n_id : string := Canonicalizer_Algorithm (SigningContext_Canonicalizer ctx).

Lemma c14n_id_plain : plain_text c14n_id = true.
Proof. unfold c14n_id. rewrite (signer_c14n Hctx). by destruct comments. Qed.

Lemma method_plain algo method : signatureMethodIdentifiers algo h = Some method → plain_text method = true.
Proof. destruct algo, h; intros [= <-]; by vm_compute. Qed.

Lemma digest_method_plain : plain_text (GetDigestAlgorithmIdentifier ctx) = true.
Proof. unfold GetDigestAlgorithmIdentifier. by destruct h. Qed.

Lemma hash_nonempty s : hash_Sum h s ≠ "".
Proof. intros E. pose proof (signer_hash Hctx s) as H. rewrite E in H. simpl in H. lia. Qed.

(** The parts of a signature over the canonical form [e']. *)
Record signature_parts (e' sig : Element) (ident method content info raw : string) (certs : list string)
    (algo : PublicKeyAlgorithm) : Prop := {
  parts_method : signatureMethodIdentifiers algo h = Some method;
  parts_content : WriteToBytes_canonical e' = Ret content;
  parts_info : WriteToBytes_canonical (set_Attrs [declare p Namespace]
    (signed_info ctx c14n_id method (GetDigestAlgorithmIdentifier ctx) ident (hash_Sum h content))) = Ret info;
  parts_raw : signDigest ctx (hash_Sum h info) = Ret raw;
  parts_certs : getCerts ctx = Ret certs;
  parts_sig : sig = signature_of ctx
    (signed_info ctx c14n_id method (GetDigestAlgorithmIdentifier ctx) ident (hash_Sum h content)) raw certs
}.

(** The [SignedInfo] of a signature is bare whatever its texts are. *)
Lemma signed_info_bare method ident digest : digest ≠ "" →
  bare_tree p (signed_info ctx c14n_id method (GetDigestAlgorithmIdentifier ctx) ident digest) = true ∧
  Attrs (signed_info ctx c14n_id method (GetDigestAlgorithmIdentifier ctx) ident digest) = [].
Proof.
  intros Hd. rewrite signed_info_eq. unfold made_reference.
  rewrite (text_element_eq ctx) by (done || by apply base64_nonempty).
  unfold made_transform. cbn [map]. repeat rewrite created_eq by (done || apply NoDup_singleton || constructor).
  split; [|done]. cbn. by rewrite !bool_decide_true.
Qed.

Lemma ConstructSignature_made e e' sig : readable e = true →
  ConstructSignature ctx (root_cursor e) true = Ret (e', sig) →
  TransformExcC14n e "" comments = Ret e' ∧ ∃ method content info raw certs algo,
    signature_parts e' sig (SelectAttrValue (SigningContext_IdAttribute ctx) e') method content info raw certs algo.
Proof.
  intros Hr H. unfold ConstructSignature in H. apply bind_ret in H as ([x signedInfo] & Hsi & H).
  unfold constructSignedInfo in Hsi. apply raise_if_bind in Hsi as [_ Hsi].
  apply bind_ret in Hsi as (method & Hm & Hsi). apply raise_if_bind in Hsi as [Hne Hsi]. apply bool_decide_eq_false_1 in Hne.
  apply bind_ret in Hsi as ([x' digest] & Hd & Hsi). injection Hsi as <- Hsi.
  unfold SigningContext_digest in Hd. apply bind_ret in Hd as ([x1 content] & Hc & [= -> <-]).
  rewrite (signer_c14n Hctx) in Hc. cbn [Canonicalize root_cursor cur] in Hc.
  apply bind_ret in Hc as (x1 & Ht & Hc). apply bind_ret in Hc as (content' & Hw & [= -> ->]).
  set (ident := SelectAttrValue (SigningContext_IdAttribute ctx) x') in *.
  assert (Es : signedInfo = signed_info ctx c14n_id method (GetDigestAlgorithmIdentifier ctx) ident (hash_Sum h content)) by (by subst signedInfo).
  clear Hsi. cbn [ancestors root_cursor NSBuildParentContext] in H. rewrite ret_bind in H.
  apply bind_ret in H as (elctx & Hel & H). apply bind_ret in H as (sigctx & Hsig & H).
  apply bind_ret in H as (D & HD & H). apply bind_ret in H as ([C digest] & HC & H).
  apply bind_ret in H as (raw & Hraw & H). apply bind_ret in H as (certs & Hcerts & H). injection H as -> <-.
  split; [exact Ht|]. apply bind_ret in Hm as (algo & Ha & Hm). injection Hm as Hm.
  destruct (signatureMethodIdentifiers algo h) as [m|] eqn:Em; simpl in Hm; [subst m|done].
  assert (Hres : reserved elctx).
  { destruct (transformExcC14n_step_agree _ _ _ _ _ _ (proj1 (readable_inv _ Hr)) Ht) as (scope & d & Hstep).
    destruct (step_form _ _ _ _ _ _ _ _ Hstep reserved_default_prefixes reserved_default_prefixes) as (_ & Hd & Hs);
      [by apply (readable_inv _ Hr)|]. congruence. }
  destruct (signed_info_bare method ident (hash_Sum h content) (hash_nonempty _)) as [Hbare Hattrs].
  rewrite <- Es in Hbare, Hattrs. pose proof (signer_prefix Hctx) as Hp.
  assert (Hsigctx : sigctx = <[p := Namespace]> elctx).
  { change (if p != "" then "xmlns:" +++ p else "xmlns") with (xmlns_key ctx) in Hsig.
    rewrite CreateAttr_new in Hsig by (intros a Hin; by apply not_elem_of_nil in Hin).
    pose proof (attr_of_xmlns ctx Hp) as E. unfold attr_of in E. cbn [set_Attrs Attrs app] in Hsig. rewrite E in Hsig.
    cbn [Space Tag Child] in Hsig. unfold set_Attrs in Hsig. cbn [Space Tag Child] in Hsig. rewrite declare_SubContext in Hsig by done. by injection Hsig as <-. }
  apply run_detach_inv in HD as (sictx & Hsictx & ->). rewrite (bare_SubContext p) in Hsictx by done. injection Hsictx as <-.
  unfold SigningContext_digest in HC. apply bind_ret in HC as ([C' info] & HC & [= -> <-]).
  rewrite (signer_c14n Hctx) in HC. cbn [Canonicalize root_cursor cur] in HC.
  rewrite (bare_detached_c14n p comments Namespace) in HC; [|done|done| | |].
  - rewrite ret_bind in HC. apply bind_ret in HC as (info' & Hinfo & [= <- ->]). rewrite Es in Hinfo.
    exists method, content, info, raw, certs, algo. split; [done..|]. cbn [snd] in Hraw.
    rewrite <- (made_signature_eq ctx Hp). by rewrite Es.
  - rewrite Hsigctx. apply reserved_insert; [done|]. by apply proper_ds.
  - rewrite Hsigctx. apply ns_insert_eq.
  - destruct Hp as [_ Hp]. rewrite !not_elem_of_cons in Hp. destruct Hp as (H1 & H2 & _).
    destruct (decide (p = "")) as [->|Hp0]; [done|]. unfold default_prefixes, defaultPrefix, xmlPrefix, xmlnsPrefix.
    by rewrite !ns_insert_ne by done.
Qed.
End signed.
