(* ===== verification/SignSearch.v ===== *)
(** * SignSearch: the search of [findSignature] for a signature that was made

    The traversal passes over elements without signatures, at a visit each
    ([search_passes_all]), and the handler for a signature that was made halts it
    with the content of the signature and the canonical [SignedInfo] in the tree
    ([signature_found]). *)

From stdpp Require Import base option list gmap strings sets.
From Stdlib Require Import ZArith Lia Ascii.
From S2P Require Import Prelude Go Encoding Etree C14n Schema Env DSig DSigSpec Redirect RedirectSpec XmlDecode Reference.
From S2P Require Import SchemaXML SchemaDecode SchemaRoundtrip C14nReads C14nSpec C14nStable SchemaTidy XmlText SignatureDecode.
From S2P Require Import SignElements.

Open Scope string_scope.

(** ** Searching for the signature *)

(** No element is called [Signature]. *)
Fixpoint no_signature (e : Element) : bool :=
  (Tag e != "Signature") &&
  (fix go (c : list Token) : bool :=
     match c with
     | [] => true
     | TElement x :: c => no_signature x && go c
     | _ :: c => go c
     end) (Child e).

Lemma no_signature_child e x : no_signature e = true → TElement x ∈ Child e → no_signature x = true.
Proof.
  destruct e as [s t a c]. cbn [no_signature Child]. intros [_ H]%andb_true_iff Hx.
  induction c as [|k c IH]; [by apply not_elem_of_nil in Hx|].
  destruct k as [y|y|y|y]; [apply andb_true_iff in H as [Hy H]|..]; apply elem_of_cons in Hx as [Hx|Hx];
    by simplify_eq || auto.
Qed.

Lemma well_namespaced_child ns e scope x : well_namespaced ns e = true → SubContext ns e = Ret scope →
  TElement x ∈ Child e → well_namespaced scope x = true.
Proof.
  rewrite well_namespaced_els. intros H Hs Hx. rewrite Hs in H. apply andb_true_iff in H as [_ H].
  rewrite forallb_elem in H. apply H. apply list_elem_of_omap. by exists (TElement x).
Qed.

Lemma elem_at_app path i e x y : elem_at path e = Some x → Child x !! i = Some (TElement y) →
  elem_at (path ++ [i])%list e = Some y.
Proof.
  revert e. induction path as [|j path IH]; intros e; simpl.
  - intros [= ->] H. by rewrite H.
  - destruct (Child e !! j) as [[c| | |]|]; [apply IH|done..].
Qed.

Lemma child_positions_lookup k c i x : (i, x) ∈ child_positions k c → ∃ j, i = (k + j)%nat ∧ c !! j = Some (TElement x).
Proof.
  revert k. induction c as [|t c IH]; intros k; simpl; [by intros ?%not_elem_of_nil|].
  assert (Hc : (i, x) ∈ child_positions (S k) c → ∃ j, i = (k + j)%nat ∧ (t :: c) !! j = Some (TElement x)).
  { intros (j & -> & H)%IH. exists (S j). split; [lia|done]. }
  destruct t as [y|y|y|y]; [intros [[= -> ->]|H]%elem_of_cons; [exists 0%nat; split; [lia|done]|auto]|auto..].
Qed.

Lemma child_positions_app k c1 c2 :
  child_positions k (c1 ++ c2) = (child_positions k c1 ++ child_positions (k + length c1) c2)%list.
Proof.
  revert k. induction c1 as [|t c1 IH]; intros k; simpl; [by rewrite Nat.add_0_r|].
  destruct t; rewrite IH, Nat.add_succ_r; done.
Qed.

(** A second pass over the declarations of an element. *)
Lemma SubContext_twice ns e scope : SubContext ns e = Ret scope → ∃ scope', SubContext scope e = Ret scope' ∧
  ∀ p, is_Some (scope !! p) → is_Some (scope' !! p).
Proof.
  unfold SubContext. assert (H : ∀ l S T S1, subContext_attrs S l = Ret T → ∃ T1, subContext_attrs S1 l = Ret T1).
  { clear. induction l as [|a l IH]; intros S T S1; simpl; [eauto|]. intros H. repeat case_match; [..|by eapply IH].
    - apply raise_if_bind in H as [-> H]. apply raise_if_bind in H as [-> H]. by eapply IH.
    - apply raise_if_bind in H as [-> H]. by eapply IH. }
  intros Hs. destruct (H _ _ _ scope Hs) as [T1 H1]. exists T1. split; [done|]. intros p Hp.
  apply (SubContext_scope scope e) in H1 as ->. apply declare_is_Some. by left.
Qed.

Lemma on_match_other {S} namespace tag (handle : NSIterHandler S) ns e scope st :
  SubContext ns e = Ret scope → is_Some (scope !! Space e) → Tag e ≠ tag →
  on_match namespace tag handle scope e st = (st, Ret ()).
Proof.
  intros Hs Hp Ht. destruct (SubContext_twice _ _ _ Hs) as (scope' & Hs' & Hall). unfold on_match, mbind, NSM_bind, ns_lift.
  rewrite Hs'. unfold LookupPrefix. destruct (Hall _ Hp) as [u ->]. cbn [or_err].
  by rewrite (bool_decide_false (Tag e = tag)), andb_false_r.
Qed.

Section children.
Context {S : Type} (visit : nat → NSM S ()).

Fixpoint visit_children (children : list (nat * Element)) : NSM S () :=
  match children with
  | [] => mret ()
  | (i, _) :: children => visit i ≫= λ _, visit_children children
  end.

Lemma visit_children_app l1 l2 st st' : visit_children l1 st = (st', Ret ()) →
  visit_children (l1 ++ l2) st = visit_children l2 st'.
Proof.
  revert st. induction l1 as [|[i x] l1 IH]; intros st; simpl; [by intros [= ->]|].
  unfold mbind, NSM_bind. destruct (visit i st) as [st1 [[]| |]]; [apply IH|done..].
Qed.
End children.

Section search.
Context `{EtreeI : EtreeOps} `{SigXmlI : SignatureXmlOps}.

Lemma search_traverse_eq fuel idAttr ns path : search_traverse (S fuel) idAttr ns path
  = (CheckLimit ≫= λ _,
     ns_get (λ s, deref (elem_at path (search_tree s))) ≫= λ el,
     ns_lift (SubContext ns el) ≫= λ ns,
     on_match Namespace "Signature" (signature_handler idAttr path) ns el ≫= λ _,
     ns_get (λ s, deref (elem_at path (search_tree s))) ≫= λ el,
     visit_children (λ i, search_traverse fuel idAttr ns (path ++ [i])%list) (child_positions 0 (Child el))).
Proof. reflexivity. Qed.

(** The first steps at an element of another name. *)
Lemma search_traverse_other fuel idAttr ns path e scope z s :
  elem_at path (search_tree s) = Some e → SubContext ns e = Ret scope → is_Some (scope !! Space e) →
  Tag e ≠ "Signature" → (0 < z)%Z →
  search_traverse (S fuel) idAttr ns path (Some z, s)
  = visit_children (λ i, search_traverse fuel idAttr scope (path ++ [i])%list) (child_positions 0 (Child e)) (Some (z - 1)%Z, s).
Proof.
  intros He Hs Hp Ht Hz. rewrite search_traverse_eq. unfold mbind, NSM_bind, CheckLimit, ns_get, ns_lift.
  rewrite (proj2 (Z.leb_gt z 0)) by done. rewrite He. cbn [deref]. rewrite Hs.
  rewrite (on_match_other _ _ _ ns e scope) by done. by rewrite He.
Qed.

(** A traversal without signatures. *)
Definition search_passes (e : Element) : Prop := ∀ fuel idAttr ns path z s,
  elem_at path (search_tree s) = Some e → well_namespaced ns e = true → no_signature e = true →
  (Z.of_nat (el_count e) <= z < Z.of_nat fuel)%Z →
  search_traverse fuel idAttr ns path (Some z, s) = ((Some (z - Z.of_nat (el_count e))%Z, s), Ret ()).

Lemma search_children_pass fuel idAttr scope path e s pre k :
  elem_at path (search_tree s) = Some e → Forall (token_all search_passes) pre →
  (∀ i, (i < length pre)%nat → Child e !! (k + i)%nat = pre !! i) →
  (∀ x, TElement x ∈ pre → well_namespaced scope x = true ∧ no_signature x = true) →
  ∀ z, (Z.of_nat (els_count pre) <= z < Z.of_nat fuel)%Z →
  visit_children (λ i, search_traverse fuel idAttr scope (path ++ [i])%list) (child_positions k pre) (Some z, s)
  = ((Some (z - Z.of_nat (els_count pre))%Z, s), Ret ()).
Proof.
  intros He Hall. revert k. induction Hall as [|t pre Ht _ IH]; intros k Hk Hw z Hz; simpl.
  { by rewrite Z.sub_0_r. }
  assert (Htail : ∀ z, (Z.of_nat (els_count pre) <= z < Z.of_nat fuel)%Z →
    visit_children (λ i, search_traverse fuel idAttr scope (path ++ [i])%list) (child_positions (S k) pre) (Some z, s)
    = ((Some (z - Z.of_nat (els_count pre))%Z, s), Ret ())).
  { apply IH; [|intros x Hx; apply Hw; by right]. intros i Hi. specialize (Hk (S i) ltac:(simpl; lia)).
    by rewrite Nat.add_succ_r in Hk. }
  destruct t as [x|x|x|x]; simpl in *; [|by apply Htail..].
  destruct (Hw x ltac:(by left)) as [Hx1 Hx2]. specialize (Hk 0%nat ltac:(lia)). rewrite Nat.add_0_r in Hk.
  unfold mbind, NSM_bind. rewrite (Ht fuel); [|by eapply elem_at_app|done|done|lia].
  rewrite Htail by lia. by rewrite Nat2Z.inj_add, Z.sub_add_distr.
Qed.

Lemma search_passes_all e : search_passes e.
Proof.
  induction e as [sp t a c IH] using element_tree_ind. intros fuel idAttr ns path z s He Hw Hn Hz.
  pose proof Hw as Hw'. rewrite well_namespaced_els in Hw'. destruct (SubContext ns _) as [scope| |] eqn:Hs; [|done..].
  apply andb_true_iff in Hw' as [Hp _]. rewrite forallb_elem in Hp.
  assert (Ht : t ≠ "Signature") by (cbn [no_signature Tag] in Hn; by bool_prop).
  rewrite el_count_eq in *. cbn [Child] in *. destruct fuel as [|fuel]; [lia|].
  rewrite (search_traverse_other fuel idAttr ns path (mkElement sp t a c) scope); [|done..| |done|lia].
  - rewrite (search_children_pass fuel idAttr scope path (mkElement sp t a c) s c 0); [|done|done|done| |lia]; [by rewrite Nat2Z.inj_succ, <- Z.sub_add_distr, Z.add_1_l|].
    intros x Hx. split; [by eapply (well_namespaced_child ns)|by eapply (no_signature_child (mkElement sp t a c))].
  - specialize (Hp sp (visible_space ∅ (mkElement sp t a c))). by bool_prop.
Qed.
End search.

(** ** The handler for the signature *)

Lemma checkSubtreeLimit_within {S} e : ∀ z (s : S), (Z.of_nat (el_count e) <= z)%Z →
  checkSubtreeLimit e (Some z, s) = ((Some (z - Z.of_nat (el_count e))%Z, s), Ret ()).
Proof.
  induction e as [sp t a c IH] using element_tree_ind. intros z s Hz. rewrite el_count_eq in *. cbn [Child] in *.
  cbn [checkSubtreeLimit]. unfold mbind at 1, NSM_bind, CheckLimit. rewrite (proj2 (Z.leb_gt z 0)) by lia. cbn [Child].
  rewrite Nat2Z.inj_succ, <- Z.add_1_l, Z.sub_add_distr. assert (Hz' : (Z.of_nat (els_count c) <= z - 1)%Z) by lia.
  clear Hz. revert Hz'. generalize (z - 1)%Z. induction IH as [|k c Hk _ IHc]; intros y Hy; simpl; [by rewrite Z.sub_0_r|].
  destruct k as [x|x|x|x]; simpl in *; [|by apply IHc..].
  unfold mbind, NSM_bind. rewrite Hk by lia. rewrite IHc by lia. by rewrite Nat2Z.inj_add, Z.sub_add_distr.
Qed.

Lemma NSDetatch_within {S} ns e ns' z (s : S) : SubContext ns e = Ret ns' → (Z.of_nat (el_count e) <= z)%Z →
  NSDetatch ns e (Some z, s) = ((Some (z - Z.of_nat (el_count e))%Z, s), Ret (detached ns' e)).
Proof.
  intros Hs Hz. unfold NSDetatch, mbind, NSM_bind. rewrite checkSubtreeLimit_within by done. unfold ns_lift. by rewrite Hs.
Qed.

Lemma on_match_this {S} namespace tag (handle : NSIterHandler S) ns e ns' st :
  SubContext ns e = Ret ns' → ns' !! Space e = Some namespace → Tag e = tag →
  on_match namespace tag handle ns e st = handle ns e st.
Proof.
  intros Hs Hp Ht. unfold on_match, mbind, NSM_bind, ns_lift, LookupPrefix. rewrite Hs, Hp. cbn [or_err].
  by rewrite !bool_decide_true.
Qed.

(** Finding the first child. *)
Lemma find_first_child {S} ns e ns' x c namespace tag (handle : nat → NSIterHandler S) ns'' z s :
  SubContext ns e = Ret ns' → Child e = TElement x :: c → SubContext ns' x = Ret ns'' →
  ns'' !! Space x = Some namespace → Tag x = tag → (0 < z)%Z →
  NSFindChildrenIterateCtx_pos ns e namespace tag handle (Some z, s)
  = unless_halted (handle 0%nat ns' x ≫= λ _,
      iterate_children ns' (λ i, on_match namespace tag (handle i)) (child_positions 1 c)) (Some (z - 1)%Z, s).
Proof.
  intros Hs Hc Hx Hp Ht Hz. unfold NSFindChildrenIterateCtx_pos, unless_halted, NSIterateChildren_pos.
  unfold mbind at 1, NSM_bind, ns_lift. rewrite Hs, Hc. cbn [child_positions iterate_children].
  unfold mbind at 1 2, NSM_bind, CheckLimit. rewrite (proj2 (Z.leb_gt z 0)) by done.
  rewrite (on_match_this namespace tag _ ns' x ns'') by done. done.
Qed.

Lemma ns_insert_id (ns : NSContext) q u : ns !! q = Some u → <[q := u]> ns = ns.
Proof.
  intros H. enough (Heq : ∀ r, <[q := u]> ns !! r = ns !! r) by exact (map_eq _ _ Heq).
  intros r. destruct (decide (q = r)) as [->|]; [by rewrite ns_insert_eq|by rewrite ns_insert_ne].
Qed.

(** What is declared in a context, as attributes. *)
Definition plain_ctx (ns : NSContext) : Prop :=
  ∀ q u, ns !! q = Some u → plain_prefix q = true ∧ plain_text u = true.

Lemma declare_inj q u r v : declare q u = declare r v → q = r ∧ u = v.
Proof. intros H%(f_equal decl_of). rewrite !decl_of_declare in H. by simplify_eq. Qed.

Lemma context_decls_names ns : NoDup (map (λ a, (Attr_Space a, Attr_Key a)) (context_decls ns)).
Proof.
  unfold context_decls. generalize (NoDup_fst_map_to_list (M := gmap string) ns).
  change (@map_to_list string string NSContext _ ns) with (@map_to_list string string (gmap string string) _ ns).
  generalize (map_to_list (M := gmap string string) ns). intros l H. induction l as [|[q u] l IH]; [constructor|].
  apply NoDup_cons in H as [Hq H]. cbn [omap list_omap]. case_match eqn:E; [|by apply IH]. case_match; [done|]. case_match; [done|].
  simplify_eq. cbn [map]. apply NoDup_cons. split; [|by apply IH]. intros Hin. apply Hq.
  apply list_elem_of_In, in_map_iff in Hin as (a & Ha & Hin%list_elem_of_In).
  injection Ha as Ha1 Ha2.
  apply list_elem_of_omap in Hin as ([r v] & Hr & Hra). do 2 (case_match; [done|]). injection Hra as <-.
  enough (q = r) as -> by (apply list_elem_of_fmap; by exists (r, v)).
  unfold declare, defaultPrefix in Ha1, Ha2.
  destruct (bool_decide_reflect (q = "")) as [->|], (bool_decide_reflect (r = "")) as [->|]; simpl in *; congruence.
Qed.

Lemma context_decls_plain ns : plain_ctx ns → forallb plain_attr (context_decls ns) = true.
Proof.
  intros H. apply forallb_elem. intros a (q & u & -> & Hq & _)%context_decls_elem. destruct (H q u Hq) as [H1 H2].
  unfold plain_attr, declare, defaultPrefix, plain_prefix in *. destruct (bool_decide_reflect (q = "")) as [->|Hne].
  - cbn. exact H2.
  - simpl in H1. cbn [Attr_Space Attr_Key Attr_Value]. by rewrite H1, H2.
Qed.

(** The detached signature declares its prefix. *)
Lemma detached_attrs ns e : own_attrs e = [] → Attrs (detached ns e) ≡ₚ context_decls ns.
Proof. intros H. unfold detached. cbn [set_Attrs Attrs]. by rewrite detached_perm, H. Qed.

Lemma detached_plain ns e : plain_ctx ns → own_attrs e = [] → plain_prefix (Space e) = true → plain_xml_name (Tag e) = true →
  texts_apart (Child e) = true → forallb plain_tree (ChildElements e) = true → plain_tree (detached ns e) = true.
Proof.
  intros Hns Ho H1 H2 H3 H4. rewrite plain_tree_els. pose proof (detached_attrs ns e Ho) as Hp.
  change (Space (detached ns e)) with (Space e). change (Tag (detached ns e)) with (Tag e).
  change (Child (detached ns e)) with (Child e). change (ChildElements (detached ns e)) with (ChildElements e).
  rewrite H1, H2, H3, H4. rewrite bool_decide_true by (rewrite Hp; apply context_decls_names).
  enough (forallb plain_attr (Attrs (detached ns e)) = true) as -> by done.
  apply forallb_elem. intros a. rewrite Hp. intros Ha. pose proof (context_decls_plain ns Hns) as H.
  rewrite forallb_elem in H. by apply H.
Qed.

Section handler.
Context `{EtreeI : EtreeOps} `{EtreeB : !EtreeBuild} `{XmlP : XmlParser} `{XmlT : !XmlTextLaws} `{CryptoI : CryptoOps}.
Context (ctx : SigningContext) (comments : bool) (Hctx : exclusive_signer ctx comments).

Notation p := (SigningContext_Prefix ctx).
Notation h := (SigningContext_Hash ctx).

(** A signature with plain and non-empty texts. *)
Context (method ident digest raw : string) (certs : list string).
Context (Hmethod : plain_text method = true) (Hident : plain_text ident = true) (Hdigest : digest ≠ "") (Hraw : raw ≠ "").
Context (Hcerts : ∀ c, c ∈ certs → c ≠ "").

Definition the_info : Element := signed_info ctx (c14n_id ctx) method (GetDigestAlgorithmIdentifier ctx) ident digest.
Definition the_sig : Element := signature_of ctx the_info raw certs.
Definition the_canonical_info : Element := set_Attrs [declare p Namespace] the_info.

(** The signature with its canonical [SignedInfo]. *)
Definition the_edited_sig : Element := signature_of ctx the_canonical_info raw certs.

Lemma the_info_neat : neat ctx the_info.
Proof.
  apply signed_info_neat; [apply (signer_plain ctx comments Hctx)|by eapply c14n_id_plain|done|apply digest_method_plain|done..].
Qed.

Lemma the_info_shape : ∃ c, the_info = mkElement p "SignedInfo" []
  (TElement (createNamespacedElement ctx "CanonicalizationMethod" [(AlgorithmAttr, c14n_id ctx)] []) :: c).
Proof. unfold the_info. rewrite signed_info_eq, created_eq by (done || constructor). by eexists. Qed.

(** A context in which the prefix of the signature has its meaning. *)
Context (ns : NSContext) (Hns : sig_scope ctx ns) (Hreserved : reserved ns) (Hplain : plain_ctx ns).

Lemma declared_in_context : declare p Namespace ∈ context_decls ns.
Proof.
  apply context_decls_elem. exists p, Namespace. split_and!; [done..|apply (signer_prefix _ _ Hctx)|by intros [_ ?]].
Qed.

Lemma declared_once l : l ≡ₚ context_decls ns → ∀ b v, b ∈ l → decl_of b = Some (p, v) → v = Namespace.
Proof.
  intros Hl b v Hb Hd. rewrite Hl in Hb. apply context_decls_elem in Hb as (q & u & -> & Hq & _).
  rewrite decl_of_declare in Hd. simplify_eq. unfold sig_scope in Hns. congruence.
Qed.

Lemma sig_SubContext c t : SubContext ns (mkElement p t [declare p Namespace] c) = Ret ns.
Proof. rewrite declare_SubContext by apply Hctx. by rewrite ns_insert_id. Qed.

(** The algorithm of the canonicalization. *)
Lemma method_found z : (0 < z)%Z → ∃ z' m,
  NSFindOneChildCtx ns (detached ns the_info) Namespace "CanonicalizationMethod" (Some z, ()) = ((Some z', ()), Ret (Some m)) ∧
  z' = (z - 1)%Z ∧ SelectAttrValue AlgorithmAttr m = c14n_id ctx.
Proof.
  intros Hz. destruct the_info_shape as [c Ec]. pose proof the_info_neat as [Hb _].
  set (m := createNamespacedElement ctx "CanonicalizationMethod" [(AlgorithmAttr, c14n_id ctx)] []) in *.
  assert (Hm : m = mkElement p "CanonicalizationMethod" [mkAttr "" AlgorithmAttr (c14n_id ctx)] []).
  { unfold m. by rewrite created_eq by (done || apply NoDup_singleton). }
  assert (Hmb : bare_tree p m = true) by (apply (bare_child p the_info); [done|rewrite Ec; by left]).
  destruct (detached_scope ns the_info Hreserved) as (scope0 & Hs0 & _).
  destruct (SubContext_twice _ _ _ Hs0) as (scope1 & _ & _).
  assert (Hscope : ∃ scope, SubContext ns (detached ns the_info) = Ret scope ∧ scope !! p = Some Namespace).
  { pose proof (detached_attrs ns the_info) as Hd. unfold own_attrs in Hd. rewrite Ec in Hd at 1. specialize (Hd eq_refl).
    exists (xml_scope ns (detached ns the_info)). split.
    - unfold SubContext, xml_scope. apply subContext_returns. apply forallb_elem. intros a Ha. rewrite Hd in Ha.
      apply context_decls_elem in Ha as (q & u & -> & Hq & Hn & _). unfold proper_decl. rewrite decl_of_declare.
      rewrite !not_elem_of_cons in Hn. destruct Hn as (H1 & H2 & _). unfold proper_binding.
      rewrite (bool_decide_false (q = xmlPrefix)), (bool_decide_false (q = xmlnsPrefix)) by done. simpl.
      destruct (bool_decide_reflect (q = defaultPrefix)) as [->|]; [|done].
      rewrite bool_decide_false; [done|]. destruct Hreserved. congruence.
    - apply (declares ctx); [rewrite Hd; apply declared_in_context|by apply declared_once]. }
  destruct Hscope as (scope & Hs & Hp). exists (z - 1)%Z, m. split_and!; [|done|].
  - unfold NSFindOneChildCtx, found_of, NSFindChildrenIterateCtx.
    rewrite (find_first_child ns (detached ns the_info) scope m c Namespace "CanonicalizationMethod" (λ _, find_handler) scope);
      [done|done|by rewrite Ec|by apply (bare_SubContext p)|by rewrite Hm|by rewrite Hm|done].
  - rewrite Hm. unfold SelectAttrValue. rewrite (SelectAttr_named (mkAttr "" AlgorithmAttr (c14n_id ctx))); [done..|by left|].
    by intros b ->%list_elem_of_singleton.
Qed.

Lemma default_not_ds : default_prefixes !! p ≠ Some Namespace.
Proof.
  destruct (signer_prefix _ _ Hctx) as [_ Hp]. rewrite !not_elem_of_cons in Hp. destruct Hp as (H1 & H2 & _).
  destruct (decide (p = "")) as [->|Hp0]; [done|]. unfold default_prefixes, defaultPrefix, xmlPrefix, xmlnsPrefix.
  by rewrite !ns_insert_ne by done.
Qed.

Lemma info_canonical : canonical_signed_info (c14n_id ctx) (detached ns the_info) = Ret the_canonical_info.
Proof.
  assert (H : TransformExcC14n (detached ns the_info) "" comments = Ret the_canonical_info).
  { destruct the_info_shape as [c Ec]. apply bare_detached_c14n; [by apply the_info_neat|by rewrite Ec|done|done|].
    apply default_not_ds. }
  unfold c14n_id. rewrite (signer_c14n _ _ Hctx). by destruct comments.
Qed.

(** The handler for the [SignedInfo] finds its canonical form. *)
Lemma info_found z : (Z.of_nat (el_count the_info) + 1 < z)%Z → ∃ z',
  NSFindChildrenIterateCtx_pos ns the_sig Namespace "SignedInfo" signed_info_handler (Some z, None)
  = ((Some z', Some (0%nat, the_canonical_info)), Ret ()) ∧ z' = (z - 2 - Z.of_nat (el_count the_info))%Z.
Proof.
  intros Hz. destruct the_info_shape as [c Ec]. pose proof the_info_neat as [Hb _]. eexists. split.
  - unfold the_sig, signature_of.
    rewrite (find_first_child ns _ ns the_info [TElement (text_element ctx "SignatureValue" (base64_Encode raw));
      TElement (key_info ctx certs)] Namespace "SignedInfo" signed_info_handler ns);
      [|apply sig_SubContext|reflexivity|by apply (bare_SubContext p)|by rewrite Ec|by rewrite Ec|lia].
    unfold unless_halted. unfold mbind at 1, NSM_bind. unfold signed_info_handler at 1.
    unfold mbind at 1, NSM_bind. rewrite (NSDetatch_within ns the_info ns) by (by apply (bare_SubContext p) || lia).
    destruct (method_found (z - 1 - Z.of_nat (el_count the_info))) as (z' & m & Hm & -> & Ha); [lia|].
    unfold mbind at 1, NSM_bind, ns_unit. rewrite Hm. unfold mbind at 1 2, NSM_bind, ns_lift. cbn [or_err].
    rewrite Ha, info_canonical. unfold halt_with. by rewrite bool_decide_true.
  - lia.
Qed.

Lemma sig_shape : validateShape the_sig = Ret ().
Proof.
  unfold validateShape, the_sig, signature_of, ChildElements. cbn [Child omap list_omap token_element].
  destruct the_info_shape as [c ->]. rewrite text_element_eq by (done || by apply base64_nonempty).
  unfold key_info. by rewrite (created_eq ctx "KeyInfo") by (done || constructor).
Qed.

(** What is read of the edited signature. *)
Definition the_signature (path : list nat) : Signature :=
  mkSignature (Some (read_signed_info (c14n_id ctx) method (GetDigestAlgorithmIdentifier ctx) ident digest))
    (Some (base64_Encode raw)) (Some (map base64_Encode certs)) path.

Lemma edited_plain : plain_tree (detached ns the_edited_sig) = true.
Proof.
  destruct the_info_shape as [c Ec].
  assert (Hv : plain_tree (text_element ctx "SignatureValue" (base64_Encode raw)) = true)
    by (apply value_neat; [apply Hctx|done]).
  assert (Hk : plain_tree (key_info ctx certs) = true) by (apply key_info_neat; [apply Hctx|done]).
  assert (Hi : plain_tree the_canonical_info = true) by (apply neat_declared; [apply Hctx|apply the_info_neat]).
  apply detached_plain; [done| |apply Hctx|done| |].
  - unfold own_attrs, the_edited_sig, signature_of. cbn [Attrs]. rewrite filter_cons_False; [done|].
    by rewrite is_ns_decl_of, decl_of_declare.
  - done.
  - unfold the_edited_sig, signature_of, ChildElements. cbn [Child omap list_omap token_element forallb].
    by rewrite Hi, Hv, Hk.
Qed.

Lemma edited_unmarshal path z (s : SearchState) : (Z.of_nat (el_count the_edited_sig) <= z)%Z →
  NSUnmarshalElement ns the_edited_sig path (Some z, s)
  = ((Some (z - Z.of_nat (el_count the_edited_sig))%Z, s), Ret (the_signature path)).
Proof.
  intros Hz. unfold NSUnmarshalElement, mbind at 1, NSM_bind.
  rewrite (NSDetatch_within ns the_edited_sig ns) by (done || apply sig_SubContext). unfold ns_lift. do 2 f_equal.
  destruct (write_plain _ edited_plain) as (doc & -> & Hdoc). rewrite ret_bind.
  unfold Unmarshal_Signature, signature_xml_ops, xml_Unmarshal. rewrite Hdoc, ret_bind.
  assert (Hd : Attrs (detached ns the_edited_sig) ≡ₚ context_decls ns).
  { apply detached_attrs. unfold own_attrs, the_edited_sig, signature_of. cbn [Attrs].
    by rewrite filter_cons_False by by rewrite is_ns_decl_of, decl_of_declare. }
  destruct (made_signature_reads ctx (signer_prefix _ _ Hctx) ∅ (Attrs (detached ns the_edited_sig)) (c14n_id ctx) method
    (GetDigestAlgorithmIdentifier ctx) ident digest raw certs) as (_ & _ & Hr).
  - rewrite Hd. apply declared_in_context.
  - by apply declared_once.
  - change (Signature_Unmarshal ∅ (detached ns the_edited_sig) zero_SignatureContent
      = Ret (mkSignatureContent (Signature_SignedInfo (the_signature path)) (Signature_SignatureValue (the_signature path))
          (Signature_KeyInfo (the_signature path)))) in Hr. by rewrite Hr.
Qed.

(** The handler halts the search with the signature, and the canonical [SignedInfo] in the
    tree. *)
Lemma signature_found path z s :
  (Z.of_nat (el_count the_info + el_count the_edited_sig) + 2 <= z)%Z → ∃ z',
  signature_handler ident path ns the_sig (Some z, s)
  = ((Some z', mkSearchState (update_at path (λ _, the_edited_sig) (search_tree s)) (Some (the_signature path))),
     Err ErrTraversalHalted).
Proof.
  intros Hz. destruct (info_found z) as (z1 & Hf & ->); [lia|]. eexists.
  unfold signature_handler. unfold mbind at 1, NSM_bind, ns_lift at 1. rewrite sig_shape.
  unfold mbind at 1, NSM_bind, lift_search. rewrite Hf. cbn [or_err]. unfold mbind at 1, NSM_bind, ns_lift at 1.
  unfold mbind at 1, NSM_bind, ns_modify at 1.
  change (set_Child (<[0%nat := TElement the_canonical_info]> (Child the_sig)) the_sig) with the_edited_sig.
  unfold mbind at 1, NSM_bind. rewrite edited_unmarshal by lia. unfold mbind at 1, NSM_bind, ns_lift at 1.
  cbn [the_signature Signature_SignedInfo deref read_signed_info SignedInfo_References existsb].
  assert (Hroot : references_root ident (mkReference (if ident == "" then "" else "#" +++ ident) (base64_Encode digest)
    (GetDigestAlgorithmIdentifier ctx) (map (λ a, mkTransform a None) [EnvelopedSignatureAltorithmId; c14n_id ctx])) = true).
  { unfold references_root. cbn [Reference_URI]. case_bool_decide; [done|]. cbn [String.append]. by rewrite bool_decide_true. }
  rewrite Hroot. reflexivity.
Qed.
End handler.
