(* ===== verification/SignValidate.v ===== *)
(** * SignValidate: what is signed validates

    The [Signature] that [ConstructSignature] makes over an element, put among the
    children of any element with the same canonical form, is found, decoded and
    verified by [Validate] for a certificate of the signing key, and what [Validate]
    returns is read from the canonical bytes that were signed. *)

From stdpp Require Import base option list gmap strings sets.
From Stdlib Require Import ZArith Lia Ascii.
From S2P Require Import Prelude Go Encoding Etree C14n Schema Env DSig DSigSpec Redirect RedirectSpec XmlDecode Reference.
From S2P Require Import SchemaXML SchemaDecode SchemaRoundtrip C14nReads C14nSpec C14nStable SchemaTidy XmlText SignatureDecode.
From S2P Require Import SignElements SignSearch.

Open Scope string_scope.

(** ** Validation *)

Section document.
Context `{EtreeI : EtreeOps} `{EtreeB : !EtreeBuild} `{XmlP : XmlParser} `{XmlT : !XmlTextLaws} `{CryptoI : CryptoOps} `{X509I : X509Ops}.
Context (ctx : SigningContext) (comments : bool) (Hctx : exclusive_signer ctx comments).

Notation p := (SigningContext_Prefix ctx).
Notation h := (SigningContext_Hash ctx).

(** A document: its root with a place among its children. *)
Context (sp tg : string) (attrs : list Attr) (pre post : list Token).

Definition doc_with (sig : Element) : Element := mkElement sp tg attrs (pre ++ TElement sig :: post).
Definition doc_without : Element := mkElement sp tg attrs (pre ++ post).

(** The search meets no other signature before the place, and the root declares plain
    names. *)
Record searchable (ns1 : NSContext) : Prop := {
  search_root : tg ≠ "Signature";
  search_before x : TElement x ∈ pre → no_signature x = true;
  search_namespaced : well_namespaced default_prefixes doc_without = true;
  search_scope : ∀ c, SubContext default_prefixes (mkElement sp tg attrs c) = Ret ns1;
  search_reserved : reserved ns1;
  search_plain : plain_ctx ns1
}.

Context (ns1 : NSContext) (Hdoc : searchable ns1).
Context (method ident digest raw : string) (certs : list string).
Context (Hmethod : plain_text method = true) (Hident : plain_text ident = true) (Hdigest : digest ≠ "") (Hraw : raw ≠ "").
Context (Hcerts : ∀ c, c ∈ certs → c ≠ "").

Notation info := (the_info ctx method ident digest).
Notation sig := (the_sig ctx method ident digest raw certs).
Notation edited := (the_edited_sig ctx method ident digest raw certs).
Notation ns2 := (<[p := Namespace]> ns1).

(** The visits of the search. *)
Definition search_cost : Z := Z.of_nat (els_count pre + el_count info + el_count edited) + 4.

Lemma sig_scope_ns2 : sig_scope ctx ns2.
Proof. apply ns_insert_eq. Qed.

Lemma ns2_reserved : reserved ns2.
Proof. apply reserved_insert; [apply (search_reserved _ Hdoc)|apply proper_ds, Hctx]. Qed.

Lemma ns2_plain : plain_ctx ns2.
Proof.
  intros q u. destruct (decide (p = q)) as [<-|Hne].
  - rewrite ns_insert_eq. intros [= <-]. split; [apply (signer_plain _ _ Hctx)|done].
  - rewrite ns_insert_ne by done. apply (search_plain _ Hdoc).
Qed.

Lemma place_lookup x : Child (doc_with x) !! length pre = Some (TElement x).
Proof. cbn [doc_with Child]. by rewrite lookup_app_r, Nat.sub_diag by done. Qed.

Lemma root_namespaced : is_Some (ns1 !! sp) ∧ ∀ x, TElement x ∈ pre → well_namespaced ns1 x = true.
Proof.
  pose proof (search_namespaced _ Hdoc) as H. pose proof (search_scope _ Hdoc (pre ++ post)%list) as Hs. split.
  - rewrite well_namespaced_els in H. unfold doc_without in H. rewrite Hs in H. apply andb_true_iff in H as [H _].
    rewrite forallb_elem in H. specialize (H sp (visible_space ∅ (mkElement sp tg attrs (pre ++ post)))). by bool_prop.
  - intros x Hx. apply (well_namespaced_child default_prefixes doc_without ns1 x H Hs). apply elem_of_app. by left.
Qed.

Lemma findSignature_found idAttribute : (∀ c, SelectAttrValue idAttribute (mkElement sp tg attrs c) = ident) →
  (search_cost <= 1000)%Z →
  findSignature idAttribute (doc_with sig)
  = Ret (doc_with edited, the_signature ctx method ident digest raw certs [length pre]).
Proof.
  intros Hid Hcost. unfold search_cost in Hcost. unfold findSignature. unfold doc_with at 1. rewrite Hid.
  destruct root_namespaced as [Hroot Hpre]. unfold unless_halted, defaultLimit, search_fuel.
  rewrite (search_traverse_other 1000 ident default_prefixes [] (doc_with sig) ns1);
    [|done|apply (search_scope _ Hdoc)|done|apply (search_root _ Hdoc)|done].
  cbn [doc_with Child]. rewrite child_positions_app. erewrite visit_children_app.
  2: { apply (search_children_pass 1000 ident ns1 [] (doc_with sig)); [done| | | |lia].
    - apply Forall_forall. intros [x| | |] _; [apply search_passes_all|done..].
    - intros i Hi. cbn [doc_with Child]. by rewrite lookup_app_l.
    - intros x Hx. split; [by apply Hpre|by apply (search_before _ Hdoc)]. }
  cbn [child_positions visit_children]. unfold mbind at 1, NSM_bind. cbn [app]. rewrite Nat.add_0_l.
  rewrite search_traverse_eq. unfold mbind at 1, NSM_bind, CheckLimit. rewrite (proj2 (Z.leb_gt _ 0)) by lia.
  unfold mbind at 1, NSM_bind, ns_get at 1. cbn [search_tree].
  assert (Hat : elem_at [length pre] (doc_with sig) = Some sig) by (cbn [elem_at]; by rewrite place_lookup).
  rewrite Hat. cbn [deref]. unfold mbind at 1, NSM_bind, ns_lift at 1.
  unfold the_sig, signature_of. rewrite declare_SubContext by apply Hctx. fold (signature_of ctx info raw certs). fold sig.
  unfold mbind at 1, NSM_bind.
  rewrite (on_match_this Namespace "Signature" _ ns2 sig ns2);
    [|apply (sig_SubContext _ comments); [done|apply sig_scope_ns2]|apply sig_scope_ns2|done].
  destruct (signature_found ctx comments Hctx method ident digest raw certs Hmethod Hident Hdigest Hraw Hcerts ns2
    sig_scope_ns2 ns2_reserved ns2_plain [length pre] (1000 - 1 - Z.of_nat (els_count pre) - 1)
    (mkSearchState (doc_with sig) None)) as [z' ->]; [lia|].
  rewrite bool_decide_true by done. cbn [mbind outcome_bind search_sig or_err search_tree]. do 2 f_equal.
  cbn [update_at]. rewrite place_lookup. unfold set_Child. cbn [doc_with Child Space Tag Attrs].
  by rewrite insert_app_r_alt, Nat.sub_diag.
Qed.

Lemma canonical_info_found content_info : WriteToBytes_canonical (the_canonical_info ctx method ident digest) = Ret content_info →
  getCanonicalSignedInfo (doc_with edited) (the_signature ctx method ident digest raw certs [length pre]) = Ret content_info.
Proof.
  intros Hw. unfold getCanonicalSignedInfo. cbn [the_signature Signature_el elem_at path_ancestors]. rewrite place_lookup.
  cbn [deref NSBuildParentContext]. rewrite !ret_bind. unfold doc_with at 1. rewrite (search_scope _ Hdoc), ret_bind.
  destruct (the_info_shape ctx method ident digest) as [c Ec].
  unfold run_default, NSFindOneChildCtx, found_of, NSFindChildrenIterateCtx, defaultLimit.
  rewrite (find_first_child ns1 edited ns2 (the_canonical_info ctx method ident digest)
    [TElement (text_element ctx "SignatureValue" (base64_Encode raw)); TElement (key_info ctx certs)]
    Namespace "SignedInfo" (λ _, find_handler) ns2);
    [|apply declare_SubContext, Hctx|done| | | |done].
  - exact Hw.
  - unfold the_canonical_info. rewrite Ec. apply (sig_SubContext _ comments); [done|apply sig_scope_ns2].
  - unfold the_canonical_info. rewrite Ec. apply sig_scope_ns2.
  - unfold the_canonical_info. by rewrite Ec.
Qed.

(** Removing the signature again. *)
Lemma transform_removes : transform (doc_with edited) (the_signature ctx method ident digest raw certs [length pre])
  (mkReference (if ident == "" then "" else "#" +++ ident) (base64_Encode digest) (GetDigestAlgorithmIdentifier ctx)
     (map (λ a, mkTransform a None) [EnvelopedSignatureAltorithmId; c14n_id ctx]))
  = Ret (doc_without, c14N10ExclusiveCanonicalizer "" comments).
Proof.
  unfold transform. cbn [Reference_Transforms map transform_loop Transform_Algorithm Transform_InclusiveNamespaces].
  rewrite bool_decide_true by done. cbn [the_signature Signature_el removeElementAtPath]. rewrite place_lookup. cbn [or_err].
  rewrite ret_bind. unfold RemoveChildAt, set_Child. cbn [doc_with Space Tag Attrs Child].
  rewrite delete_middle. unfold c14n_id. rewrite (signer_c14n _ _ Hctx). by destruct comments.
Qed.

Lemma digest_method_found : digestAlgorithmsByIdentifier (GetDigestAlgorithmIdentifier ctx) = Some h.
Proof. unfold GetDigestAlgorithmIdentifier. by destruct h. Qed.

(** The certificate of the signature. *)
Record trusted_certificate (vc : ValidationContext) (cert : Certificate) : Prop := {
  trusted_raw : ∃ certs', certs = (Certificate_Raw cert :: certs')%list;
  trusted_parses : ParseCertificate (Certificate_Raw cert) = Ret cert;
  trusted_root : cert ∈ ValidationContext_Roots vc;
  trusted_only r : r ∈ ValidationContext_Roots vc → Certificate_Raw r = Certificate_Raw cert → r = cert;
  trusted_now : (Certificate_NotBefore cert <= ValidationContext_Now vc <= Certificate_NotAfter cert)%Z
}.

Lemma verifyCertificate_trusted vc cert path : trusted_certificate vc cert →
  verifyCertificate vc (the_signature ctx method ident digest raw certs path) = Ret cert.
Proof.
  intros [[certs' Ec] Hparse Hin Honly Hnow]. unfold verifyCertificate. cbn [the_signature Signature_KeyInfo].
  rewrite Ec. cbn [map]. assert (Hne : base64_Encode (Certificate_Raw cert) ≠ "").
  { apply base64_nonempty, Hcerts. rewrite Ec. by left. }
  destruct (base64_Encode (Certificate_Raw cert)) as [|b s] eqn:Eb; [done|].
  rewrite <- Eb, base64_Encode_no_space, base64_Decode_Encode. cbn [map_err]. rewrite ret_bind, Hparse, ret_bind.
  destruct (first_that_is_Some (λ root, Certificate_Raw root == Certificate_Raw cert) (reverse (ValidationContext_Roots vc)) cert)
    as [r Hr]; [by rewrite reverse_Permutation|by apply bool_decide_eq_true_2|].
  rewrite Hr. cbn [or_err]. rewrite ret_bind. apply first_that_elem in Hr as [Hr Heq].
  rewrite reverse_Permutation in Hr. bool_prop. rewrite (Honly r Hr Heq).
  rewrite (proj2 (Z.ltb_ge _ _)), (proj2 (Z.ltb_ge _ _)) by lia. done.
Qed.

(** The whole validation: the content comes from the canonical bytes that were signed. *)
Lemma Validate_found vc cert e' content content_info algo :
  (∀ c, SelectAttrValue (ValidationContext_IdAttribute vc) (mkElement sp tg attrs c) = ident) →
  (search_cost <= 1000)%Z → trusted_certificate vc cert →
  TransformExcC14n doc_without "" comments = Ret e' →
  WriteToBytes_canonical e' = Ret content → digest = hash_Sum h content →
  signatureMethodIdentifiers algo h = Some method →
  WriteToBytes_canonical (the_canonical_info ctx method ident digest) = Ret content_info →
  checkSignature cert (algo, h) content_info raw = Ret () →
  Validate vc (doc_with sig) = ReadFromBytes content.
Proof.
  intros Hid Hcost Hcert Ht Hw Hd Hm Hinfo Hcheck. unfold Validate. rewrite findSignature_found by done.
  rewrite ret_bind. cbv beta iota. rewrite (verifyCertificate_trusted vc cert) by done. rewrite ret_bind.
  unfold dsig_validateSignature. cbn [the_signature Signature_SignedInfo Signature_SignatureValue deref].
  rewrite ret_bind. cbv zeta. fold (the_signature ctx method ident digest raw certs [length pre]).
  rewrite (canonical_info_found content_info) by done. cbn [map_err]. rewrite ret_bind.
  cbn [read_signed_info SignedInfo_SignatureMethod]. rewrite (signatureMethods_inverse algo h method Hm). cbn [or_err].
  rewrite !ret_bind, base64_Decode_Encode. cbn [map_err]. rewrite ret_bind, Hcheck, ret_bind.
  assert (Hread : Unmarshal_SignedInfo content_info
    = Ret (read_signed_info (c14n_id ctx) method (GetDigestAlgorithmIdentifier ctx) ident digest)).
  { unfold Unmarshal_SignedInfo, signature_xml_ops, xml_Unmarshal.
    rewrite (write_canonical_plain _ _ (neat_declared ctx (signer_plain _ _ Hctx) _ (the_info_neat ctx comments Hctx method ident digest Hmethod Hident Hdigest)) Hinfo), ret_bind.
    apply (signed_info_reads ctx (signer_prefix _ _ Hctx)). }
  rewrite Hread, ret_bind. rewrite (Hid (pre ++ TElement edited :: post)%list : SelectAttrValue _ (doc_with edited) = ident). cbn [read_signed_info SignedInfo_References first_that].
  match goal with |- context [references_root ident ?r] => assert (Hroot : references_root ident r = true) end.
  { unfold references_root. cbn [Reference_URI]. case_bool_decide; [done|]. cbn [String.append]. by rewrite bool_decide_true. }
  rewrite Hroot. cbn [or_err]. rewrite ret_bind. cbn [Reference_DigestValue]. rewrite base64_Decode_Encode, ret_bind.
  rewrite transform_removes, ret_bind. cbn [fst snd Canonicalize root_cursor cur]. rewrite Ht, ret_bind.
  unfold canonicalSerialize. rewrite Hw, !ret_bind. cbn [snd Reference_DigestAlgo]. rewrite digest_method_found. cbn [or_err].
  rewrite ret_bind, <- Hd, bool_decide_true by done. cbn [negb].
  assert (Hlen : Nat.ltb (String.length digest) 20 = false); [|by rewrite Hlen]. apply Nat.ltb_ge. rewrite Hd. apply (signer_hash _ _ Hctx).
Qed.
End document.

(** ** Elements to sign *)

Definition plain_decls (e : Element) : Prop :=
  ∀ a q u, a ∈ Attrs e → decl_of a = Some (q, u) → plain_prefix q = true ∧ plain_text u = true.

Record signable (id : string) (e : Element) : Prop := {
  signable_readable : readable e = true;
  signable_id : mkAttr "" "ID" id ∈ Attrs e;
  signable_plain : plain_text id = true;
  signable_decls : plain_decls e;
  signable_name : Tag e ≠ "Signature"
}.

Lemma plain_default : plain_ctx default_prefixes.
Proof.
  intros q u. unfold default_prefixes, defaultPrefix, xmlPrefix, xmlnsPrefix.
  destruct (decide (q = "")) as [->|H1]; [rewrite ns_insert_eq; by intros [= <-]|]. rewrite ns_insert_ne by done.
  destruct (decide (q = "xml")) as [->|H2]; [rewrite ns_insert_eq; by intros [= <-]|]. rewrite ns_insert_ne by done.
  destruct (decide (q = "xmlns")) as [->|H3]; [rewrite ns_insert_eq; by intros [= <-]|]. by rewrite ns_insert_ne by done.
Qed.

Lemma plain_declared ns e ns' : plain_ctx ns → plain_decls e → SubContext ns e = Ret ns' → plain_ctx ns'.
Proof.
  intros Hns He ->%SubContext_scope. unfold xml_scope, plain_decls in *. revert ns Hns He.
  induction (Attrs e) as [|a l IH]; intros ns Hns He; [done|]. cbn [foldl].
  apply IH; [|intros b q u Hb; apply He; by right]. rewrite xml_declare_decl.
  destruct (decl_of a) as [[q u]|] eqn:Ha; [|done]. intros r v. destruct (decide (q = r)) as [<-|Hne].
  - rewrite ns_insert_eq. intros [= <-]. apply (He a); [by left|done].
  - rewrite ns_insert_ne by done. apply Hns.
Qed.

(** The declarations of the canonical form are among those of the element. *)
Lemma canonical_plain_decls incl comments S Dc e e' : readable e = true → plain_ctx S → plain_decls e →
  transformExcC14n S Dc incl comments e = Ret e' → plain_decls e'.
Proof.
  rewrite transformExcC14n_eq. intros Hr HS He (scope & Hscope & H)%bind_ret a q u Ha Hd.
  pose proof (plain_declared _ _ _ HS He Hscope) as Hplain.
  apply bind_ret in H as ([d new] & Hp & H). apply bind_ret in H as (c' & _ & [= <-]).
  cbn [Attrs snd] in Ha. rewrite SortAttrs_perm in Ha. apply elem_of_app in Ha as [[Ha _]%list_elem_of_filter|Ha].
  - by rewrite is_ns_decl_of, Hd in Ha.
  - apply declare_prefixes_spec in Hp as (_ & _ & H & _). apply H in Ha as (r & v & -> & _ & Hv & _).
    rewrite decl_of_declare in Hd. simplify_eq. by apply Hplain.
Qed.

Lemma c14n_children_elements f comments c c' : c14n_children f comments c = Ret c' →
  ∀ y, TElement y ∈ c' → ∃ x, TElement x ∈ c ∧ f x = Ret y.
Proof.
  revert c'. induction c as [|k c IH]; intros c'; simpl; [intros [= <-] y Hy; by apply not_elem_of_nil in Hy|].
  assert (Hc : ∀ l, c14n_children f comments c = Ret l → ∀ y, TElement y ∈ l → ∃ x, TElement x ∈ k :: c ∧ f x = Ret y).
  { intros l Hl y Hy. destruct (IH l Hl y Hy) as (x & Hx & Hf). exists x. split; [by right|done]. }
  destruct k as [x|s|s|s].
  - intros (x' & Hx & H)%bind_ret. apply bind_ret in H as (l & Hl & [= <-]). intros y [[= ->]|Hy]%elem_of_cons; [|by apply (Hc l)].
    exists x. split; [by left|done].
  - intros (l & Hl & [= <-])%bind_ret y [Hy|Hy]%elem_of_cons; [done|by apply (Hc l)].
  - intros (l & Hl & [= <-])%bind_ret y Hy. apply (Hc l Hl). destruct comments; [|done].
    by apply elem_of_cons in Hy as [Hy|Hy].
  - intros (l & Hl & [= <-])%bind_ret y [Hy|Hy]%elem_of_cons; [done|by apply (Hc l)].
Qed.

Lemma no_signature_els e : Tag e ≠ "Signature" → (∀ x, TElement x ∈ Child e → no_signature x = true) → no_signature e = true.
Proof.
  destruct e as [s t a c]. cbn [no_signature Tag Child]. intros Ht Hc. rewrite bool_decide_false by done. cbn [negb andb].
  induction c as [|k c IH]; [done|]. assert (IH' := IH ltac:(intros x Hx; apply Hc; by right)).
  destruct k as [x|x|x|x]; [|done..]. by rewrite (Hc x) by by left.
Qed.

Lemma canonical_no_signature incl comments e : ∀ S Dc e', no_signature e = true →
  transformExcC14n S Dc incl comments e = Ret e' → no_signature e' = true.
Proof.
  induction e as [s t a c IH] using element_tree_ind. intros S Dc e' Hn Ht. rewrite transformExcC14n_eq in Ht.
  apply bind_ret in Ht as (scope & _ & Ht). apply bind_ret in Ht as ([d new] & _ & Ht).
  apply bind_ret in Ht as (c' & Hc & [= <-]). apply no_signature_els.
  - cbn [no_signature Tag] in *. by bool_prop.
  - cbn [Child fst] in *. intros y Hy. destruct (c14n_children_elements _ _ _ _ Hc y Hy) as (x & Hx & Hf).
    rewrite Forall_forall in IH. apply (IH (TElement x) Hx scope d); [by eapply (no_signature_child (mkElement s t a c))|done].
Qed.

Lemma c14n_children_count f comments c c' : (∀ x y, TElement x ∈ c → f x = Ret y → el_count y = el_count x) →
  c14n_children f comments c = Ret c' → els_count c' = els_count c.
Proof.
  revert c'. induction c as [|k c IH]; intros c' Hf; simpl; [by intros [= <-]|].
  specialize (λ c', IH c' ltac:(intros x y Hx; apply Hf; by right)). destruct k as [x|s|s|s].
  - intros (y & Hy & H)%bind_ret. apply bind_ret in H as (l & Hl & [= <-]). simpl.
    by rewrite (IH l Hl), (Hf x y) by (done || by left).
  - intros (l & Hl & [= <-])%bind_ret. exact (IH l Hl).
  - intros (l & Hl & [= <-])%bind_ret. destruct comments; exact (IH l Hl).
  - intros (l & Hl & [= <-])%bind_ret. exact (IH l Hl).
Qed.

Lemma canonical_count incl comments e : ∀ S Dc e',
  transformExcC14n S Dc incl comments e = Ret e' → el_count e' = el_count e.
Proof.
  induction e as [s t a c IH] using element_tree_ind. intros S Dc e' Ht. rewrite transformExcC14n_eq in Ht.
  apply bind_ret in Ht as (scope & _ & Ht). apply bind_ret in Ht as ([d new] & _ & Ht).
  apply bind_ret in Ht as (c' & Hc & [= <-]). rewrite !el_count_eq. cbn [Child fst] in *. f_equal.
  eapply c14n_children_count; [|exact Hc]. intros x y Hx Hf. rewrite Forall_forall in IH. exact (IH (TElement x) Hx _ _ _ Hf).
Qed.

(** The prefixes of an element with a canonical form are declared. *)
Lemma transformed_well_namespaced incl comments e : ∀ S Dc e',
  transformExcC14n S Dc incl comments e = Ret e' → well_namespaced S e = true.
Proof.
  induction e as [s t a c IH] using element_tree_ind. intros S Dc e' Ht. rewrite transformExcC14n_eq in Ht.
  apply bind_ret in Ht as (scope & Hs & Ht). apply bind_ret in Ht as ([d new] & Hd & Ht).
  apply bind_ret in Ht as (c' & Hc & _). rewrite well_namespaced_els, Hs. apply andb_true_iff. split.
  - apply forallb_elem. intros q Hq. apply bool_decide_eq_true. apply declare_prefixes_spec in Hd as (P1 & _).
    apply P1. rewrite visible_inv in *. destruct Hq as [?|[?|[Hq _]]]; [auto..|by apply not_elem_of_empty in Hq].
  - apply c14n_children_spec in Hc as [_ Hc]. apply forallb_elem. intros x Hx.
    change (x ∈ omap token_element c) in Hx.
    apply list_elem_of_lookup in Hx as (i & Hi). destruct (Forall2_lookup_l _ _ _ _ _ Hc Hi) as (y & _ & Hxy).
    assert (Hin : TElement x ∈ c).
    { apply list_elem_of_lookup_2 in Hi. apply list_elem_of_omap in Hi as (k & Hk & Ek). by destruct k; simplify_eq/=. }
    rewrite Forall_forall in IH. exact (IH (TElement x) Hin _ _ _ Hxy).
Qed.

(** A canonical form is readable again. *)
Lemma transformed_decl_values incl comments e S Dc e' scope a q u : SubContext S e = Ret scope →
  transformExcC14n S Dc incl comments e = Ret e' → a ∈ Attrs e' → decl_of a = Some (q, u) →
  scope !! q = Some u ∧ Dc !! q ≠ scope !! q.
Proof.
  rewrite transformExcC14n_eq. intros Hs H Ha Hd. rewrite Hs, ret_bind in H.
  apply bind_ret in H as ([d new] & Hp & H). apply bind_ret in H as (c' & _ & [= <-]).
  cbn [Attrs snd] in Ha. rewrite SortAttrs_perm in Ha. apply elem_of_app in Ha as [[Ha _]%list_elem_of_filter|Ha].
  - by rewrite is_ns_decl_of, Hd in Ha.
  - apply declare_prefixes_spec in Hp as (_ & _ & H & _). apply H in Ha as (r & v & -> & _ & Hv & Hne).
    rewrite decl_of_declare in Hd. by simplify_eq.
Qed.

Lemma canonical_readable incl comments e : ∀ D1 S D2 Dc e', related D1 S D2 Dc → reserved S → readable e = true →
  transformExcC14n S Dc incl comments e = Ret e' → readable e' = true.
Proof.
  induction e as [sp t a c IH] using element_tree_ind. intros D1 S D2 Dc e' Hrel HS Hr Ht.
  pose proof (readable_inv _ Hr) as (Hnd & Hclean & _).
  destruct (transformExcC14n_step _ _ _ _ _ _ _ _ Hrel Hclean Ht) as (d & Hrel' & _ & _ & Ho & _ & _ & _ & Hc).
  assert (Hscope : ∃ scope, SubContext S (mkElement sp t a c) = Ret scope)
    by (rewrite transformExcC14n_eq in Ht; apply bind_ret in Ht as (scope & ? & _); eauto).
  destruct Hscope as [scope Hscope]. pose proof (subContext_proper _ _ _ Hscope Hclean) as Hproper.
  pose proof (SubContext_scope _ _ _ Hscope) as Escope. rewrite <- Escope in *.
  assert (HS' : reserved scope) by (rewrite Escope; by apply reserved_declared).
  rewrite readable_els, bool_decide_true by (by rewrite Ho). apply andb_true_iff. split.
  - apply forallb_elem. intros b Hb. unfold clean_decl. destruct (decl_of b) as [[q u]|] eqn:Hd; [|done].
    destruct (transformed_decl_values _ _ _ _ _ _ _ _ _ _ Hscope Ht Hb Hd) as [Hq Hne].
    destruct Hrel' as [[_ _ _ Hurl] _ Hdef Hun]. rewrite (bool_decide_true (q ∉ saml_attrs)) by (apply Hun; by eexists).
    rewrite (bool_decide_false (q = XMLNamespace)) by (intros ->; congruence). cbn [andb negb].
    destruct (bool_decide_reflect (q = "")) as [->|]; [|done]. cbn [andb].
    rewrite (bool_decide_false (u = XMLNSNamespace)) by (intros ->; by destruct HS').
    rewrite (bool_decide_false (u = XMLNamespace)); [done|]. intros ->. apply Hne. rewrite Hq.
    apply (related_default _ _ _ _ Hrel). apply (declare_default S a Hclean). rewrite Escope in Hq. exact Hq.
  - apply forallb_elem. intros y Hy. change (y ∈ omap token_element (Child e')) in Hy.
    apply list_elem_of_omap in Hy as (k & Hk & Ek). destruct k as [x| | |]; [|done..]. injection Ek as ->.
    destruct (c14n_children_elements _ _ _ _ Hc y Hk) as (x & Hx & Hf).
    rewrite Forall_forall in IH. apply (IH (TElement x) Hx _ _ _ _ _ Hrel' HS'); [|exact Hf].
    by apply (child_readable (mkElement sp t a c)).
Qed.

Lemma canonical_signable id comments e e' : signable id e → TransformExcC14n e "" comments = Ret e' → signable id e'.
Proof.
  intros [Hr Hid Hp Hd Hn] Ht.
  pose proof (related_start ∅ eq_refl eq_refl) as Hrel. pose proof (readable_inv _ Hr) as (_ & Hclean & _).
  destruct (transformExcC14n_step _ _ _ _ _ _ _ _ Hrel Hclean Ht) as (d & _ & _ & Htag & Ho & _).
  split; [|..|done| |by rewrite Htag].
  - by eapply canonical_readable; [exact Hrel|apply reserved_default_prefixes| |exact Ht].
  - assert (H : mkAttr "" "ID" id ∈ own_attrs e') by (rewrite Ho; by apply list_elem_of_filter).
    apply list_elem_of_filter in H as [_ H]. exact H.
  - by eapply canonical_plain_decls; [exact Hr|apply plain_default| |exact Ht].
Qed.

Section accepted.
Context `{EtreeI : EtreeOps} `{EtreeB : !EtreeBuild} `{XmlP : XmlParser} `{XmlT : !XmlTextLaws} `{CryptoI : CryptoOps} `{X509I : X509Ops}.

Lemma signable_selected id sp tg attrs c c' : signable id (mkElement sp tg attrs c) →
  SelectAttrValue "ID" (mkElement sp tg attrs c') = id.
Proof.
  intros [Hr Hid _ _ _]. pose proof (readable_inv _ Hr) as (Hnd & Hclean & _). pose proof (clean_unread _ Hclean) as Hun.
  unfold decls_unread, own_attrs in *. cbn [Attrs] in *.
  unfold SelectAttrValue. change "ID" with (Attr_Key (mkAttr "" "ID" id)). rewrite SelectAttr_named; [done..|].
  cbn [Attrs Attr_Key]. intros b Hb Hk. destruct (is_ns_decl b) eqn:Hd.
  - exfalso. apply (Hun b Hb Hd). rewrite Hk. apply (bool_decide_eq_true_1 ("ID" ∈ saml_attrs)). by vm_compute.
  - assert (H1 : b ∈ filter (λ a, is_ns_decl a = false) attrs) by (by apply list_elem_of_filter).
    assert (H2 : mkAttr "" "ID" id ∈ filter (λ a, is_ns_decl a = false) attrs) by (by apply list_elem_of_filter).
    apply list_elem_of_lookup in H1 as [i Hi]. apply list_elem_of_lookup in H2 as [j Hj].
    assert (i = j) as ->; [|congruence]. apply (NoDup_lookup _ i j (Attr_Key b) Hnd); rewrite list_lookup_fmap.
    + by rewrite Hi.
    + by rewrite Hj, Hk.
Qed.

(** A certificate of the signing key: it verifies what the context signs. *)
Definition verifies (ctx : SigningContext) (cert : Certificate) : Prop := ∀ algo method data raw,
  signatureMethodIdentifiers algo (SigningContext_Hash ctx) = Some method →
  signDigest ctx (hash_Sum (SigningContext_Hash ctx) data) = Ret raw →
  raw ≠ "" ∧ checkSignature cert (algo, SigningContext_Hash ctx) data raw = Ret ().

(** The certificate that a signature names, among the roots of the validation, at a time
    at which it is valid. *)
Record signer_of (ctx : SigningContext) (vc : ValidationContext) (cert : Certificate) : Prop := {
  signer_id : SigningContext_IdAttribute ctx = "ID" ∧ ValidationContext_IdAttribute vc = "ID";
  signer_certs certs : getCerts ctx = Ret certs → trusted_certificate certs vc cert ∧ ∀ c, c ∈ certs → c ≠ "";
  signer_verifies : verifies ctx cert
}.

Definition certs_count (ctx : SigningContext) : nat :=
  match getCerts ctx with Ret certs => length certs | _ => 0 end.

Lemma key_info_count ctx certs : (∀ c, c ∈ certs → c ≠ "") → el_count (key_info ctx certs) = (2 + length certs)%nat.
Proof.
  intros Hc. unfold key_info. do 2 rewrite (created_eq ctx _ []) by (done || constructor). rewrite el_count_eq. cbn [Child map els_count].
  rewrite el_count_eq. cbn [Child]. enough (H : els_count (map TElement (map (λ cert, text_element ctx "X509Certificate" (base64_Encode cert)) certs)) = length certs) by lia.
  induction certs as [|c certs IH]; [done|]. cbn [map els_count]. rewrite IH by (intros; apply Hc; by right).
  rewrite text_element_eq by (done || by apply base64_nonempty, Hc; left). done.
Qed.

Lemma the_info_count ctx method ident digest : digest ≠ "" → el_count (the_info ctx method ident digest) = 9%nat.
Proof.
  intros Hd. unfold the_info. rewrite signed_info_eq. unfold made_reference, made_transform. cbn [map].
  rewrite (text_element_eq ctx) by (done || by apply base64_nonempty).
  repeat rewrite created_eq by (done || apply NoDup_singleton || constructor). done.
Qed.

Lemma signature_accepted ctx comments vc cert id e e' sig sp tg attrs pre post :
  exclusive_signer ctx comments → signer_of ctx vc cert → signable id e →
  ConstructSignature ctx (root_cursor e) true = Ret (e', sig) →
  signable id (mkElement sp tg attrs (pre ++ post)) →
  TransformExcC14n (mkElement sp tg attrs (pre ++ post)) "" comments = Ret e' →
  (∀ x, TElement x ∈ pre → no_signature x = true) →
  (els_count pre + certs_count ctx <= 970)%nat →
  ∃ content, WriteToBytes_canonical e' = Ret content ∧
    Validate vc (mkElement sp tg attrs (pre ++ TElement sig :: post)) = ReadFromBytes content.
Proof.
  intros Hctx [[Hid1 Hid2] Hcerts Hver] He Hmake HD Ht Hpre Hcount.
  destruct (ConstructSignature_made ctx comments Hctx e e' sig (signable_readable _ _ He) Hmake)
    as (Hte & method & content & info & raw & certs & algo & [Hm Hcontent Hinfo Hraw Hc ->]).
  destruct (Hcerts certs Hc) as [Htrusted Hne]. unfold certs_count in Hcount. rewrite Hc in Hcount.
  destruct (Hver algo method info raw Hm Hraw) as [Hraw' Hcheck].
  pose proof (hash_nonempty ctx comments Hctx content) as Hdigest.
  assert (Hident : SelectAttrValue (SigningContext_IdAttribute ctx) e' = id).
  { rewrite Hid1. pose proof (canonical_signable id comments e e' He Hte) as He'. destruct e' as [s1 t1 a1 c1].
    by apply (signable_selected id s1 t1 a1 c1). }
  exists content. split; [done|]. rewrite Hident in *. pose proof HD as [HDr HDid HDp HDd HDn].
  pose proof (readable_inv _ HDr) as (_ & Hclean & _).
  assert (Hscope : ∃ ns1, SubContext default_prefixes (mkElement sp tg attrs (pre ++ post)) = Ret ns1).
  { unfold TransformExcC14n in Ht. rewrite transformExcC14n_eq in Ht. apply bind_ret in Ht as (scope & ? & _). eauto. }
  destruct Hscope as [ns1 Hns1]. pose proof (subContext_proper _ _ _ Hns1 Hclean) as Hproper.
  assert (Hs : searchable sp tg attrs pre post ns1).
  { split; [done|done|by eapply transformed_well_namespaced|done| |].
    - apply SubContext_scope in Hns1 as ->. by apply reserved_declared, Hproper; apply reserved_default_prefixes.
    - by eapply plain_declared; [apply plain_default| |exact Hns1]. }
  eapply (Validate_found ctx comments Hctx sp tg attrs pre post ns1 Hs method id (hash_Sum (SigningContext_Hash ctx) content) raw certs);
    try done.
  - by eapply method_plain.
  - intros c. rewrite Hid2. by apply (signable_selected id sp tg attrs (pre ++ post)).
  - unfold search_cost. rewrite the_info_count by done. unfold the_edited_sig, signature_of. rewrite el_count_eq. cbn [Child els_count].
    rewrite key_info_count by done. rewrite (text_element_eq ctx) by (done || by apply base64_nonempty).
    assert (Hci : el_count (the_canonical_info ctx method id (hash_Sum (SigningContext_Hash ctx) content)) = 9%nat).
    { unfold the_canonical_info. rewrite el_count_eq. pose proof (the_info_count ctx method id (hash_Sum (SigningContext_Hash ctx) content) Hdigest) as H9.
      by rewrite el_count_eq in H9. }
    rewrite Hci. simpl (el_count (mkElement _ _ _ _)). lia.
Qed.

(** C8: What is signed validates. A signature that [SignEnveloped] adds to an element is
    accepted by [Validate] with the certificate of the key, at a time at which it is
    valid; and what [Validate] returns is read from the canonical bytes of the element that
    was signed. *)
Theorem sign_then_validate ctx comments vc cert id e signed
    (Hctx : exclusive_signer ctx comments) (Hcert : signer_of ctx vc cert) (He : signable id e)
    (Hnested : no_signature e = true) (Hsize : (el_count e + certs_count ctx <= 970)%nat)
    (Hsigned : SignEnveloped ctx (root_cursor e) = Ret signed) :
  ∃ e' content, TransformExcC14n e "" comments = Ret e' ∧ WriteToBytes_canonical e' = Ret content ∧
    Validate vc signed = ReadFromBytes content.
Proof.
  unfold SignEnveloped in Hsigned. apply bind_ret in Hsigned as ([e' sig] & Hmake & [= <-]).
  pose proof (ConstructSignature_made ctx comments Hctx e e' sig (signable_readable _ _ He) Hmake) as [Ht _].
  pose proof (canonical_signable id comments e e' He Ht) as He'.
  pose proof (canonical_count _ _ _ _ _ _ Ht) as Hc. pose proof (canonical_no_signature _ _ _ _ _ _ Hnested Ht) as Hn.
  assert (Hagain : TransformExcC14n e' "" comments = Ret e').
  { apply (transformExcC14n_again _ _ e default_prefixes _ _ _ (signable_readable _ _ He)); [apply reserved_default_prefixes..|by intros q u|exact Ht]. }
  destruct e' as [s1 t1 a1 c1].
  destruct (signature_accepted ctx comments vc cert id e (mkElement s1 t1 a1 c1) sig s1 t1 a1 c1 [] Hctx Hcert He Hmake)
    as (content & Hw & Hv).
  - by rewrite app_nil_r.
  - by rewrite app_nil_r.
  - intros x Hx. by apply (no_signature_child (mkElement s1 t1 a1 c1)).
  - rewrite (el_count_eq (mkElement _ _ _ _)) in Hc. simpl in Hc. lia.
  - exists (mkElement s1 t1 a1 c1), content. split_and!; [done..|exact Hv].
Qed.
End accepted.

Module Examples.

Definition ctx : SigningContext := DSigSpec.Examples.signing_context.
Definition cert : Certificate := mkCertificate "cert" (RSAPublicKey "cert") 0%Z (10 ^ 20)%Z.
Definition vc : ValidationContext := mkValidationContext [cert] "ID" 500%Z.
Definition message : Element := DSigSpec.Examples.message.
Definition signed : Element := DSigSpec.Examples.signed_message.

Lemma ctx_exclusive : exclusive_signer ctx false.
Proof.
  split; [exact SignatureDecode.Examples.ctx_prefix|done|done|].
  intros s. change (hash_Sum _ s) with (ref_hash SHA256 s). unfold ref_hash. rewrite length_append. simpl. lia.
Qed.

Lemma cert_signer : signer_of ctx vc cert.
Proof.
  split; [done| |].
  - intros certs [= <-]. split; [|by intros c ->%list_elem_of_singleton].
    split; [by eexists|done|by left|by intros r ->%list_elem_of_singleton|]. split; vm_compute; discriminate.
  - intros algo method data raw _ [= <-]. split; [done|]. unfold checkSignature. cbn.
    by rewrite bool_decide_true.
Qed.

Lemma message_signable : signable "id1" message.
Proof.
  split; [by vm_compute|by left|done| |done]. intros a q u Ha Hd.
  repeat (apply elem_of_cons in Ha as [->|Ha]; [vm_compute in Hd; simplify_eq; try (split; reflexivity)|]).
  by apply not_elem_of_nil in Ha.
Qed.

Lemma sign_then_validate_witness :
  ∃ e' content, TransformExcC14n message "" false = Ret e' ∧ WriteToBytes_canonical e' = Ret content ∧
    Validate vc signed = ReadFromBytes content.
Proof.
  apply (sign_then_validate ctx false vc cert "id1" message signed ctx_exclusive cert_signer message_signable).
  - vm_compute. reflexivity.
  - vm_compute. repeat constructor.
  - vm_compute. reflexivity.
Defined.
End Examples.
