(* ===== verification/C14nUnmarshal.v ===== *)
(** * C14nUnmarshal: [unmarshalElement] of a canonical form

    A canonical form declares the prefixes it uses where it uses them, so
    [elementToBytes] adds no declaration to it, [removeUnusedNamespaceDeclarations]
    removes none, and [unmarshalElement] decodes the bytes that [etree] writes for it.
    An element inside a canonical form is a canonical form itself if it does not use the
    prefixes that are declared around it. *)

From stdpp Require Import base option list gmap strings sets sorting.
From Stdlib Require Import ZArith Lia Ascii.
From S2P Require Import Prelude Go Encoding Etree C14n Schema Env XmlTree XmlDecode SchemaDecode Reference.
From S2P Require Import SchemaRoundtrip C14nReads C14nSpec C14nStable XmlText SignValidate.

Open Scope string_scope.

(** ** What [etree] documents of finding elements and attributes *)

(** A chain of child elements with the given tags. *)
Fixpoint has_path (tags : list string) (e : Element) : Prop :=
  match tags with
  | [] => True
  | tag :: tags => ∃ x, TElement x ∈ Child e ∧ Tag x = tag ∧ has_path tags x
  end.

Fixpoint path_string (tags : list string) : string :=
  match tags with [] => "" | tag :: tags => "/" +++ tag +++ path_string tags end.

Class EtreeFind `{EtreeI : EtreeOps} : Prop := {
  FindElements_all e x : x ∈ FindElements ".//*" e → x ∈ descendants e;
  FindElement_path tags e : Forall (λ tag, plain_xml_name tag = true) tags → has_path tags e →
    is_Some (FindElement ("." +++ path_string tags) e);
  SelectAttr_prefixed p u e : has_byte ":" p = false → mkAttr "xmlns" p u ∈ Attrs e →
    is_Some (SelectAttr ("xmlns:" +++ p) e)
}.

(** ** The prefixes that occur in an element *)

Fixpoint prefixes_in (l : list string) (e : Element) : bool :=
  bool_decide (Space e ∈ l) &&
  forallb (λ a, is_ns_decl a || bool_decide (Attr_Space a ∈ "" :: l)) (Attrs e) &&
  (fix go (c : list Token) : bool :=
     match c with
     | [] => true
     | TElement x :: c => prefixes_in l x && go c
     | _ :: c => go c
     end) (Child e).

Lemma prefixes_in_inv l e : prefixes_in l e = true ↔
  Space e ∈ l ∧ (∀ a, a ∈ own_attrs e → Attr_Space a ∈ "" :: l) ∧
  ∀ x, TElement x ∈ Child e → prefixes_in l x = true.
Proof.
  assert (Ha : forallb (λ a, is_ns_decl a || bool_decide (Attr_Space a ∈ "" :: l)) (Attrs e) = true ↔
    ∀ a, a ∈ own_attrs e → Attr_Space a ∈ "" :: l).
  { rewrite forallb_elem. unfold own_attrs. split.
    - intros H a [Hd Hin]%list_elem_of_filter. specialize (H a Hin). rewrite Hd in H. by apply bool_decide_eq_true_1 in H.
    - intros H a Hin. destruct (is_ns_decl a) eqn:Hd; [done|]. simpl. apply bool_decide_eq_true, H. by apply list_elem_of_filter. }
  rewrite <- Ha. destruct e as [s t a c]. cbn [prefixes_in Space Attrs Child]. rewrite !andb_true_iff, bool_decide_eq_true.
  assert (Hc : (fix go (c : list Token) : bool :=
     match c with [] => true | TElement x :: c => prefixes_in l x && go c | _ :: c => go c end) c = true ↔
     ∀ x, TElement x ∈ c → prefixes_in l x = true).
  { clear. induction c as [|k c IH]; [split; [by intros _ x ?%not_elem_of_nil|done]|].
    destruct k as [x| | |]; [rewrite andb_true_iff, IH|rewrite IH..].
    1: { split; [intros [Hx Hc] y [[= ->]|Hy]%elem_of_cons; [done|by apply Hc]|].
      intros H. split; [|intros y Hy]; apply H; [by left|by right]. }
    all: split; [intros Hc y [Hy|Hy]%elem_of_cons; [done|by apply Hc]|intros H y Hy; apply H; by right]. }
  rewrite Hc. naive_solver.
Qed.

Lemma prefixes_in_child l e x : prefixes_in l e = true → TElement x ∈ Child e → prefixes_in l x = true.
Proof. intros (_ & _ & H)%prefixes_in_inv. apply H. Qed.

Lemma prefixes_in_descendant l e : ∀ x, prefixes_in l e = true → x ∈ descendants e → Space x ∈ l.
Proof.
  induction e as [s t a c IH] using element_tree_ind. intros x Hp Hx.
  assert (Hc : ∀ y, TElement y ∈ c → prefixes_in l y = true) by (intros y; by apply (prefixes_in_child l (mkElement s t a c))).
  clear Hp. cbn [descendants Child] in Hx. induction c as [|k c IHc]; [by apply not_elem_of_nil in Hx|].
  apply Forall_cons in IH as [Hk IH]. assert (IH' := IHc IH). clear IHc.
  destruct k as [y| | |]; [|apply IH'; [done|intros z Hz; apply Hc; by right]..].
  apply elem_of_cons in Hx as [->|Hx]; [by apply (prefixes_in_inv l y), Hc; left|].
  apply elem_of_app in Hx as [Hx|Hx]; [apply Hk; [apply Hc; by left|done]|].
  apply IH'; [done|]. intros z Hz. apply Hc. by right.
Qed.

(** Canonicalization keeps the prefixes of elements and attributes. *)
Lemma prefixes_in_c14n l incl comments e : ∀ S Dc e', prefixes_in l e = true →
  transformExcC14n S Dc incl comments e = Ret e' → prefixes_in l e' = true.
Proof.
  induction e as [s t a c IH] using element_tree_ind. intros S Dc e' (Hs & Ha & Hc)%prefixes_in_inv Ht.
  rewrite transformExcC14n_eq in Ht. apply bind_ret in Ht as (scope & _ & Ht).
  apply bind_ret in Ht as ([d new] & Hd & Ht). apply bind_ret in Ht as (c' & Hc' & [= <-]). cbn [fst snd Child] in *.
  apply prefixes_in_inv. cbn [Space Child]. split_and!; [done| |].
  - intros b Hb. apply Ha. erewrite <- (own_perm (mkElement s t a c) new); [exact Hb| |by eapply declared_decls].
    apply SortAttrs_perm.
  - intros y Hy. destruct (c14n_children_elements _ _ _ _ Hc' y Hy) as (x & Hx & Hf).
    rewrite Forall_forall in IH. by apply (IH (TElement x) Hx scope d); [apply Hc|].
Qed.

Lemma prefixes_in_visible l e p : prefixes_in l e = true → p ∈ elements (visiblyUtilizedPrefixes ∅ e) → p ∈ l.
Proof.
  intros (Hs & Ha & _)%prefixes_in_inv. rewrite visible_inv. intros [->|[(a & Hin & Hne & ->)|[Hp _]]]; [done| |].
  - specialize (Ha a Hin). apply elem_of_cons in Ha as [?|?]; [done|done].
  - by apply not_elem_of_empty in Hp.
Qed.

(** ** What is declared around an element that does not use it *)

Definition agree_on (l : list string) (S S1 : NSContext) : Prop := ∀ p, p ∈ l → S !! p = S1 !! p.

Lemma declare_prefixes_other l scope Dc Dc1 ps d new : (∀ p, p ∈ ps → p ∈ l) → agree_on l Dc Dc1 →
  declare_prefixes scope Dc ps = Ret (d, new) → ∃ d1, declare_prefixes scope Dc1 ps = Ret (d1, new) ∧ agree_on l d d1.
Proof.
  revert Dc Dc1 d new. induction ps as [|p ps IH]; intros Dc Dc1 d new Hps Hag.
  { intros [= <- <-]. by exists Dc1. }
  assert (Hps' : ∀ q, q ∈ ps → q ∈ l) by (intros q Hq; apply Hps; by right).
  cbn [declare_prefixes]. rewrite <- (Hag p) by (apply Hps; by left).
  destruct (bool_decide (is_Some (Dc !! p)) && (Dc !! p == scope !! p)).
  { intros H. by eapply IH. }
  intros (u & Hu & H)%bind_ret. apply bind_ret in H as ([d' new'] & H & [= <- <-]).
  destruct (IH (<[p := u]> Dc) (<[p := u]> Dc1) d' new') as (d1 & H1 & Hd1); [done| |done|].
  - intros q Hq. destruct (decide (p = q)) as [<-|Hne]; [by rewrite !ns_insert_eq|].
    rewrite !ns_insert_ne by done. by apply Hag.
  - exists d1. rewrite Hu, ret_bind, H1. done.
Qed.

Lemma transformExcC14n_other l comments e : ∀ S Dc Dc1 e', prefixes_in l e = true → agree_on l Dc Dc1 →
  transformExcC14n S Dc ∅ comments e = Ret e' → transformExcC14n S Dc1 ∅ comments e = Ret e'.
Proof.
  induction e as [s t a c IH] using element_tree_ind. intros S Dc Dc1 e' Hp Hag Ht. rewrite transformExcC14n_eq in *.
  apply bind_ret in Ht as (scope & Hs & Ht). apply bind_ret in Ht as ([d new] & Hd & Ht).
  apply bind_ret in Ht as (c' & Hc' & [= <-]). rewrite Hs, ret_bind.
  destruct (λ H, declare_prefixes_other l scope Dc Dc1 _ d new H Hag Hd) as (d1 & Hd' & Hd1).
  { intros p. by apply (prefixes_in_visible l (mkElement s t a c)). }
  rewrite Hd'.
  rewrite ret_bind. cbn [fst snd Child] in *. erewrite c14n_children_mono; [|..|exact Hc']; [done|].
  intros x y Hx Hy. rewrite Forall_forall in IH. apply (IH (TElement x) Hx scope d); [|done..].
  by eapply (prefixes_in_child l (mkElement s t a c)).
Qed.

(** The canonical form of a child, taken out of the canonical form of its parent, is the one
    that the child has in a scope of fewer declarations. *)
Lemma transformExcC14n_outside l comments e S Dc S1 Dc1 e' e1 : prefixes_in l e = true → readable e = true →
  agree_on l Dc Dc1 → extends S1 S → transformExcC14n S1 Dc1 ∅ comments e = Ret e1 →
  transformExcC14n S Dc ∅ comments e = Ret e' → e' = e1.
Proof.
  intros Hp Hr Hag Hext H1 H. apply (transformExcC14n_scope_mono _ _ _ _ S) in H1; [|done..].
  pose proof (transformExcC14n_other l _ _ _ _ Dc1 _ Hp Hag H). congruence.
Qed.

(** ** Declarations that are used where they are made *)

Definition prefix_decls (l : list Attr) : list Attr := filter (λ a, Attr_Space a = "xmlns") l.

Record uses_own_decls (e : Element) : Prop := {
  decl_names : NoDup (map Attr_Key (prefix_decls (Attrs e)));
  decl_used a : a ∈ Attrs e → Attr_Space a = "xmlns" → Attr_Key a ∈ own_prefixes e
}.

Inductive decls_used : Element → Prop :=
  | decls_used_intro e : uses_own_decls e → (∀ x, TElement x ∈ Child e → decls_used x) → decls_used e.

Lemma own_prefixes_visible e p : p ∈ elements (visiblyUtilizedPrefixes ∅ e) → p ≠ "" → p ∈ own_prefixes e.
Proof.
  rewrite visible_inv. intros [->|[(a & Ha & Hne & ->)|[Hp _]]] Hn; unfold own_prefixes; [| |by apply not_elem_of_empty in Hp].
  - rewrite bool_decide_false by done. apply elem_of_union. left. by apply elem_of_singleton.
  - apply elem_of_union. right. apply elem_of_list_to_set, list_elem_of_omap. exists a.
    unfold own_attrs in Ha. apply list_elem_of_filter in Ha as [Hd Ha]. split; [done|].
    rewrite is_ns_decl_of in Hd. unfold decl_of in Hd. rewrite !(bool_decide_false (Attr_Space a = _)); [done| |done].
    intros Hx. by rewrite Hx in Hd.
Qed.

Lemma own_prefixes_same e e' : Space e' = Space e → own_attrs e' ≡ₚ own_attrs e → own_prefixes e' = own_prefixes e.
Proof.
  assert (H : ∀ x, own_prefixes x = (if Space x == "" then ∅ else {[ Space x ]}) ∪
    list_to_set (omap (λ attr, if Attr_Space attr != "" then Some (Attr_Space attr) else None) (own_attrs x))).
  { intros x. unfold own_prefixes, own_attrs. f_equal. induction (Attrs x) as [|a l IH]; [done|].
    rewrite filter_cons. cbn [omap list_omap]. destruct (decide (is_ns_decl a = false)) as [Hd|Hd].
    - rewrite is_ns_decl_of in Hd. unfold decl_of in Hd. cbn [omap list_omap].
      assert (Hx : Attr_Space a ≠ "xmlns") by (intros Hx; by rewrite Hx in Hd).
      rewrite (bool_decide_false (Attr_Space a = "xmlns")) by done. cbn [negb]. rewrite andb_true_r.
      destruct (Attr_Space a != ""); cbn [list_to_set]; by rewrite IH.
    - rewrite not_false_iff_true in Hd. unfold is_ns_decl, is_default_decl, xmlnsPrefix, defaultPrefix in Hd.
      destruct (bool_decide_reflect (Attr_Space a = "xmlns")) as [Hx|Hx]; [by rewrite andb_false_r|].
      cbn [orb] in Hd. apply andb_true_iff in Hd as [Hd _]. rewrite Hd. cbn [negb andb]. exact IH. }
  intros Hs Ho. rewrite !H, Hs. f_equal. by rewrite Ho.
Qed.

Lemma declare_prefixes_list scope Dc ps d new : declare_prefixes scope Dc ps = Ret (d, new) →
  ∃ l, new = map (λ q, declare q.1 q.2) l ∧ map fst l `sublist_of` ps.
Proof.
  revert Dc d new. induction ps as [|p ps IH]; intros Dc d new; cbn [declare_prefixes]; [intros [= <- <-]; by exists []|].
  destruct (_ && _).
  - intros (l & -> & H)%IH. exists l. split; [done|by apply sublist_cons].
  - intros (u & _ & H)%bind_ret. apply bind_ret in H as ([d' new'] & H & [= <- <-]).
    apply IH in H as (l & -> & H). exists ((p, u) :: l). split; [done|by apply sublist_skip].
Qed.

Lemma prefix_decls_names l : NoDup (map fst l) → NoDup (map Attr_Key (prefix_decls (map (λ q, declare q.1 q.2) l))).
Proof.
  intros Hl. apply (sublist_NoDup _ (map fst l)); [done|]. clear Hl. unfold prefix_decls. induction l as [|[p u] l IH]; [done|].
  cbn [map fst snd]. destruct (decide (p = "")) as [->|Hp].
  - rewrite filter_cons_False by done. by apply sublist_cons.
  - assert (Hd : declare p u = mkAttr "xmlns" p u) by (unfold declare; by rewrite bool_decide_false).
    rewrite Hd, filter_cons_True by done. by apply sublist_skip.
Qed.

Lemma own_no_decls e : prefix_decls (own_attrs e) = [].
Proof.
  unfold prefix_decls. induction (own_attrs_plain e) as [|b l Hb _ IH]; [done|].
  rewrite filter_cons_False; [exact IH|]. intros Hx. rewrite is_ns_decl_of in Hb. unfold decl_of in Hb. by rewrite Hx in Hb.
Qed.

Lemma canonical_decls_used comments e : ∀ S Dc e',
  transformExcC14n S Dc ∅ comments e = Ret e' → decls_used e'.
Proof.
  induction e as [s t a c IH] using element_tree_ind. intros S Dc e' Ht. pose proof Ht as Hdecls.
  rewrite transformExcC14n_eq in Ht. apply bind_ret in Ht as (scope & _ & Ht).
  apply bind_ret in Ht as ([d new] & Hd & Ht). apply bind_ret in Ht as (c' & Hc' & He'). cbn [fst snd] in *.
  injection He' as He'. pose proof (SortAttrs_perm (own_attrs (mkElement s t a c) ++ new)) as Hperm.
  constructor.
  - subst e'. split.
    + cbn [Attrs]. unfold prefix_decls. rewrite Hperm, filter_app.
      apply declare_prefixes_list in Hd as (l & -> & Hl). replace (filter _ (own_attrs _)) with (@nil Attr).
      * apply prefix_decls_names. eapply sublist_NoDup; [|exact Hl]. apply NoDup_elements.
      * symmetry. apply own_no_decls.
    + intros b Hb Hx.
      assert (Hdb : decl_of b = Some (Attr_Key b, Attr_Value b)) by (unfold decl_of; by rewrite Hx).
      pose proof (transformed_decls _ _ _ _ _ _ _ _ _ Hdecls Hb Hdb) as Hv.
      rewrite (own_prefixes_same (mkElement s t a c)); [apply own_prefixes_visible; [done|]|done|].
      * intros Hk. cbn [Attrs] in Hb. rewrite Hperm in Hb. apply elem_of_app in Hb as [Hb|Hb].
        { apply list_elem_of_filter in Hb as [Hb _]. rewrite is_ns_decl_of, Hdb in Hb. done. }
        apply declare_prefixes_spec in Hd as (_ & _ & H & _). apply H in Hb as (p & u & -> & _).
        rewrite decl_of_declare in Hdb. injection Hdb as Hp _. rewrite Hk in Hp. subst p.
        unfold declare in Hx. by rewrite bool_decide_true in Hx by done.
      * cbn [Attrs]. unfold own_attrs at 1. cbn [Attrs]. eapply (own_perm _ new); [done|]. by eapply declared_decls.
  - subst e'. cbn [Child] in *. intros y Hy. destruct (c14n_children_elements _ _ _ _ Hc' y Hy) as (x & Hx & Hf).
    rewrite Forall_forall in IH. exact (IH (TElement x) Hx _ _ _ Hf).
Qed.

(** ** [removeUnusedNamespaceDeclarations] *)

Section unmarshal.
Context `{EtreeI : EtreeOps}.

Lemma strip_declarations_keeps attrs : ∀ used e, NoDup (map Attr_Key (prefix_decls attrs)) →
  (∀ a, a ∈ attrs → Attr_Space a = "xmlns" → Attr_Key a ∈ used) → (strip_declarations attrs used e).2 = e.
Proof.
  induction attrs as [|a attrs IH]; intros used e Hn Hu; [done|]. cbn [strip_declarations].
  assert (Hu' : ∀ b, b ∈ attrs → Attr_Space b = "xmlns" → Attr_Key b ∈ used) by (intros b Hb; apply Hu; by right).
  unfold prefix_decls in Hn. destruct (bool_decide_reflect (Attr_Space a = "xmlns")) as [Hx|Hx].
  - rewrite filter_cons_True in Hn by done. cbn [map] in Hn. apply NoDup_cons in Hn as [Hni Hn].
    cbn [negb]. rewrite bool_decide_true by (apply Hu; [by left|done]). apply IH; [done|].
    intros b Hb Hbx. apply elem_of_difference. split; [by apply Hu'|]. intros Heq%elem_of_singleton. apply Hni.
    apply list_elem_of_In, in_map_iff. exists b. split; [done|]. apply list_elem_of_In. by apply list_elem_of_filter.
  - rewrite filter_cons_False in Hn by done. by apply IH.
Qed.

Section children.
Context (strip : list Element → Element → gset string * Element) (ancestors : list Element) (el : Element).

(** The loop over the children. *)
Fixpoint strip_children (done c : list Token) : gset string * list Token :=
  match c with
  | [] => (∅, [])
  | TElement child :: c =>
      let parent := set_Child (app done (TElement child :: c)) el in
      let signature := (Tag child == "Signature") &&
        (NamespaceURI (mkCursor child (parent :: ancestors)) == dsig_Namespace) in
      let '(childUsed, child) := strip (parent :: ancestors) child in
      let '(used, c) := strip_children (app done [TElement child]) c in
      ((if signature then ∅ else childUsed) ∪ used, TElement child :: c)
  | t :: c =>
      let '(used, c) := strip_children (app done [t]) c in (used, t :: c)
  end.

Lemma strip_children_keeps c : ∀ done, (∀ x anc, TElement x ∈ c → (strip anc x).2 = x) → (strip_children done c).2 = c.
Proof.
  induction c as [|k c IH]; intros dn Hs; [done|].
  assert (IH' := λ d, IH d (λ x anc Hx, Hs x anc (list_elem_of_further _ _ _ Hx))).
  destruct k as [x|t|t|t]; cbn [strip_children];
    [|specialize (IH' (app dn [TCharData t]))|specialize (IH' (app dn [TComment t]))|specialize (IH' (app dn [TOther t]))];
    [|destruct (strip_children _ c) as [used c']; cbn [snd] in *; by subst c'..].
  specialize (Hs x (set_Child (app dn (TElement x :: c)) el :: ancestors) ltac:(by left)).
  destruct (strip _ x) as [childUsed x']. cbn [snd] in Hs. subst x'.
  specialize (IH' (app dn [TElement x])). destruct (strip_children _ c) as [used c']. cbn [snd] in *. by subst c'.
Qed.
End children.

Lemma stripUnused_eq anc e : stripUnusedNamespaceDeclarations anc e
  = let '(child_used, children) := strip_children stripUnusedNamespaceDeclarations anc e [] (Child e) in
    strip_declarations (Attrs e) (own_prefixes e ∪ child_used) (set_Child children e).
Proof. by destruct e. Qed.

Lemma stripUnused_keeps e : ∀ anc, decls_used e → (stripUnusedNamespaceDeclarations anc e).2 = e.
Proof.
  induction e as [s t a c IH] using element_tree_ind. intros anc Hu. inversion Hu as [e' [Hn Hd] Hc E]. subst e'.
  rewrite stripUnused_eq. cbn [Child Attrs] in *.
  assert (Hk : (strip_children stripUnusedNamespaceDeclarations anc (mkElement s t a c) [] c).2 = c).
  { apply strip_children_keeps. intros x anc' Hx. rewrite Forall_forall in IH. apply (IH (TElement x) Hx). by apply Hc. }
  destruct (strip_children _ _ _ _ _) as [used c']. cbn [snd] in Hk. subst c'.
  apply strip_declarations_keeps; [done|]. intros b Hb Hx. apply elem_of_union. left. by apply Hd.
Qed.

Lemma removeUnused_keeps e : decls_used e → removeUnusedNamespaceDeclarations e = e.
Proof. apply stripUnused_keeps. Qed.

(** ** [elementToBytes] *)

Context `{EtreeF : !EtreeFind}.

(** Every prefix that is declared around the element is not used in it or declared by it. *)
Definition self_contained (l : list string) (ctx : NSContext) (e : Element) : Prop :=
  ∀ p u, p ∈ l → ctx !! p = Some u → has_byte ":" p = false ∧ p ≠ "" ∧ ∃ v, mkAttr "xmlns" p v ∈ Attrs e.

Lemma declare_used_keeps l ctx e x : self_contained l ctx e → Space x ∈ l → declare_used ctx e x = e.
Proof.
  intros Hl Hx. unfold declare_used. destruct (Space x == "xml"); [done|].
  destruct (ctx !! Space x) as [u|] eqn:Hu; [|done]. destruct (Hl _ _ Hx Hu) as (Hc & Hne & v & Hv).
  rewrite (bool_decide_false (Space x = "")) by done. cbn [andb].
  by destruct (SelectAttr_prefixed _ _ _ Hc Hv) as [b ->].
Qed.

Lemma elementToBytes_keeps l c ctx : element_context c = Ret ctx → prefixes_in l (cur c) = true →
  self_contained l ctx (cur c) → elementToBytes c = WriteToBytes (cur c).
Proof.
  intros Hctx Hp Hl. unfold elementToBytes. rewrite Hctx, ret_bind. f_equal.
  assert (H : Forall (λ x, Space x ∈ l) (cur c :: FindElements ".//*" (cur c))).
  { apply Forall_cons. split; [by apply prefixes_in_inv in Hp as [? _]|]. apply Forall_forall. intros x Hx.
    apply FindElements_all in Hx. by apply (prefixes_in_descendant l (cur c)). }
  induction H as [|x xs Hx _ IH]; [done|]. cbn [foldl]. by rewrite (declare_used_keeps l).
Qed.

(** The document that is written is read as the element. *)
Record reads_back `{XmlP : XmlParser} (e : Element) : Prop := {
  reads_back_xml doc : WriteToBytes e = Ret doc → xml_Parse doc = Ret e;
  reads_back_etree doc : WriteToBytes e = Ret doc → ReadFromBytes doc = Ret (Some e);
  reads_back_writes : ∃ doc, WriteToBytes e = Ret doc
}.

Lemma unmarshalElement_canonical `{XmlP : XmlParser} {A} (read : Reader A) zero l c ctx v :
  element_context c = Ret ctx → prefixes_in l (cur c) = true → self_contained l ctx (cur c) →
  decls_used (cur c) → reads_back (cur c) → read ∅ (cur c) zero = Ret v →
  unmarshalElement (xml_Unmarshal xml_Parse read zero) c = Ret v.
Proof.
  intros Hctx Hp Hl Hd [Hx He [doc Hw]] Hv. unfold unmarshalElement. rewrite (elementToBytes_keeps l c ctx) by done.
  rewrite Hw, ret_bind, (He _ Hw), ret_bind. cbn [deref]. rewrite ret_bind, removeUnused_keeps by done.
  rewrite Hw, ret_bind. unfold xml_Unmarshal. by rewrite (Hx _ Hw), ret_bind.
Qed.

(** A canonical form, at its place or taken out of it: the declarations around it are of
    prefixes that do not occur in it. *)
Lemma canonical_proper D1 S D2 Dc comments e e' : related D1 S D2 Dc → reserved S → reserved Dc → readable e = true →
  transformExcC14n S Dc ∅ comments e = Ret e' → forallb proper_decl (Attrs e') = true.
Proof.
  intros Hrel HS HD Hr Ht. pose proof (canonical_readable _ _ _ _ _ _ _ _ Hrel HS Hr Ht) as (_ & Hc & _)%readable_inv.
  pose proof (readable_inv _ Hr) as (Hnd & Hcl & _). destruct (transformExcC14n_step_agree _ _ _ _ _ _ Hnd Ht) as (scope & d & Hstep).
  destruct (step_form _ _ _ _ _ _ _ _ Hstep HS HD Hcl) as (_ & _ & Hs). exact (subContext_proper _ _ _ Hs Hc).
Qed.

Lemma scope_new e ns p u : ns !! p = None → xml_scope ns e !! p = Some u → ∃ a v, a ∈ Attrs e ∧ decl_of a = Some (p, v).
Proof.
  unfold xml_scope. induction (Attrs e) as [|b l IH] using rev_ind; [simpl; congruence|]. rewrite foldl_app. cbn [foldl].
  rewrite xml_declare_decl. intros Hn. destruct (decl_of b) as [[q v]|] eqn:Hb; [destruct (decide (q = p)) as [->|Hne]|].
  - intros _. exists b, v. split; [apply elem_of_app; right; by left|done].
  - rewrite ns_insert_ne by done. intros (a & w & Ha & Hd)%IH; [|done]. exists a, w. split; [apply elem_of_app; by left|done].
  - intros (a & w & Ha & Hd)%IH; [|done]. exists a, w. split; [apply elem_of_app; by left|done].
Qed.

Definition outside (l : list string) (ns : NSContext) : Prop := ∀ p, p ∈ l → has_byte ":" p = false ∧ p ≠ "" ∧ ns !! p = None.

Lemma self_contained_scope l ns e : outside l ns → self_contained l (xml_scope ns e) e.
Proof.
  intros Hl p u Hp Hu. destruct (Hl p Hp) as (Hc & Hne & Hn). split; [done|]. split; [done|].
  destruct (scope_new _ _ _ _ Hn Hu) as (a & v & Ha & Hd). exists v. unfold decl_of in Hd. destruct a as [sp k w]. cbn in *.
  destruct (String.eqb_spec sp "xmlns") as [->|Hs]; [by simplify_eq|]. case_match; simplify_eq.
Qed.

Lemma unmarshalElement_transformed `{XmlP : XmlParser} {A} (read : Reader A) zero l c ctx D1 S D2 Dc e v :
  related D1 S D2 Dc → reserved S → reserved Dc → readable e = true → prefixes_in l e = true →
  transformExcC14n S Dc ∅ false e = Ret (cur c) →
  NSBuildParentContext (ancestors c) = Ret ctx → outside l ctx →
  reads_back (cur c) → read ∅ (cur c) zero = Ret v →
  unmarshalElement (xml_Unmarshal xml_Parse read zero) c = Ret v.
Proof.
  intros Hrel HS HD Hr Hp Ht Hctx Hl Hback Hv.
  assert (Hscope : SubContext ctx (cur c) = Ret (xml_scope ctx (cur c))).
  { apply subContext_returns. by eapply canonical_proper. }
  eapply unmarshalElement_canonical; [| | | |done|done].
  - unfold element_context. rewrite Hctx, ret_bind. exact Hscope.
  - by eapply prefixes_in_c14n.
  - by apply self_contained_scope.
  - by eapply canonical_decls_used.
Qed.
End unmarshal.
