(* ===== verification/ResponseForm.v ===== *)
(** * ResponseForm: the elements of a response

    The exact tree that [Response.Element] builds ([Response_Element_shape]), with a
    signature and an assertion among its children; the prefixes that the elements of a
    response use ([prefixes_in]), that they have a canonical form, and the same of the
    [Signature] that [ConstructSignature] makes ([made_signature]). *)

From stdpp Require Import base option list gmap strings sets.
From Stdlib Require Import ZArith Lia Ascii.
From S2P Require Import Prelude Go Duration RelaxedTime Encoding Etree C14n Schema SchemaXML Env XmlTree.
From S2P Require Import XmlDecode SchemaDecode SchemaRoundtrip C14nReads C14nSpec C14nStable SchemaTidy SchemaDecodeSpec Reference.
From S2P Require Import DSig DSigSpec Redirect RedirectSpec XmlText SignatureDecode SignElements SignSearch SignValidate C14nUnmarshal.

Open Scope string_scope.

(** ** Elements without text *)

Section only.
Context `{EtreeI : EtreeOps} `{EtreeB : !EtreeBuild}.

Definition only_elements (e : Element) : Prop := Child e = map TElement (ChildElements e).

Lemma only_new tag : only_elements (NewElement tag).
Proof. unfold only_elements. by rewrite NewElement_split. Qed.

Lemma only_attr key v s t a l x e : built s t a l x e → fresh key a → only_elements e → only_elements (CreateAttr key v e).
Proof. intros [] Hk. unfold only_elements. rewrite CreateAttr_new by by subst. intros H. exact H. Qed.

Lemma only_attr_set key v s t a l x e : built s t a l x e → fresh key a → only_elements e → only_elements (attr_set key v e).
Proof. intros. unfold attr_set. case_match; [by eapply only_attr|done]. Qed.

Lemma only_child c e : only_elements e → only_elements (AddChild c e).
Proof.
  unfold only_elements, ChildElements. rewrite AddChild_last. cbn [set_Child Child]. intros H.
  rewrite omap_app, map_app. by rewrite <- H.
Qed.

Lemma only_child_opt {A} (f : A → Element) v e : only_elements e → only_elements (child_opt f v e).
Proof. destruct v; [apply only_child|done]. Qed.

Lemma only_shape s t a l x e : built s t a l x e → only_elements e → e = mkElement s t a (map TElement l).
Proof. intros [Hs Ht Ha Hl _] Ho. unfold only_elements in Ho. rewrite Hl in Ho. clear Hl. destruct e. simpl in *. by subst. Qed.
End only.

Ltac only_tac :=
  lazymatch goal with
  | |- only_elements (NewElement _) => apply only_new
  | |- only_elements (CreateAttr _ _ _) => eapply only_attr; [build|fresh_tac|only_tac]
  | |- only_elements (attr_set _ _ _) => eapply only_attr_set; [build|fresh_tac|only_tac]
  | |- only_elements (AddChild _ _) => apply only_child; only_tac
  | |- only_elements (child_opt _ _ _) => apply only_child_opt; only_tac
  end.

(** ** The tree of a response *)

Section shape.
Context `{EtreeI : EtreeOps} `{EtreeB : !EtreeBuild}.

Definition response_attrs (r : Response) : list Attr :=
  (attr_of "xmlns:saml" assertion_space ++ attr_of "xmlns:samlp" protocol_space ++
   attr_of "xmlns:xs" "http://www.w3.org/2001/XMLSchema" ++
   attr_of "ID" (Response_ID r) ++ attrs_text "InResponseTo" (Response_InResponseTo r) ++
   attr_of "Version" (Response_Version r) ++ attr_of "IssueInstant" (Time_Format (Response_IssueInstant r)) ++
   attrs_text "Destination" (Response_Destination r) ++ attrs_text "Consent" (Response_Consent r))%list.

Definition response_el (r : Response) (els : list Element) : Element :=
  mkElement "samlp" "Response" (response_attrs r) (map TElement els).

(** The elements of a response that is not written with its assertion. *)
Definition response_els (r : Response) : list Element :=
  (els_opt Issuer_Element (Response_Issuer r) ++ els_opt id (Response_Signature r) ++
   [Status_Element (Response_Status r)])%list.

Lemma Response_Element_shape r : Response_EncryptedAssertion r = None → Response_Assertion r = None →
  Response_Element r = Ret (response_el r (response_els r)).
Proof.
  intros He Ha. unfold Response_Element. rewrite Ha, He. f_equal. cbn [child_opt]. unfold declare_saml, declare_xs.
  eapply only_shape; [eapply built_eq; [build|done|done| | |reflexivity]|only_tac]; by groups.
Qed.

(** The same response with an assertion. *)
Definition with_assertion (a : Assertion) (r : Response) : Response :=
  mkResponse (Response_ID r) (Response_InResponseTo r) (Response_Version r) (Response_IssueInstant r)
    (Response_Destination r) (Response_Consent r) (Response_Issuer r) (Response_Signature r) (Response_Status r)
    (Response_EncryptedAssertion r) (Some a).

Lemma with_assertion_Element r a e : Response_EncryptedAssertion r = None → Response_Assertion r = None →
  Assertion_Element a = Ret e →
  Response_Element (with_assertion a r) = Ret (response_el r (response_els r ++ [e])%list).
Proof.
  intros He Ha Hae. pose proof (Response_Element_shape r He Ha) as Hs. unfold Response_Element in *.
  rewrite Ha in Hs. cbn [with_assertion Response_Assertion Response_ID Response_InResponseTo Response_Version
    Response_IssueInstant Response_Destination Response_Consent Response_Issuer Response_Signature Response_Status
    Response_EncryptedAssertion]. rewrite Hae, ret_bind. injection Hs as ->. rewrite AddChild_last.
  unfold response_el, set_Child. cbn [Child Space Tag Attrs]. by rewrite map_app.
Qed.
End shape.

(** ** The prefixes of the elements *)

Section prefixes.
Context `{EtreeI : EtreeOps} `{EtreeB : !EtreeBuild}.

Lemma child_elements e x : TElement x ∈ Child e ↔ x ∈ ChildElements e.
Proof.
  unfold ChildElements. rewrite list_elem_of_omap. split; [intros H; by exists (TElement x)|].
  intros (k & Hk & Ek). by destruct k; simplify_eq/=.
Qed.

Lemma prefixes_built l s t a els x e : built s t a els x e → s ∈ l → unprefixed a →
  Forall (λ c, prefixes_in l c = true) els → prefixes_in l e = true.
Proof.
  intros [Hs Ht Ha Hl _] Hin Hu Hc. apply prefixes_in_inv. split_and!; [by rewrite Hs| |].
  - unfold own_attrs. rewrite Ha, (unprefixed_own _ Hu). intros b Hb. unfold unprefixed, names_ok in Hu.
    rewrite Forall_forall in Hu. apply Hu, unprefixed_attr in Hb as (-> & _). by left.
  - intros c Hin'%child_elements. rewrite Hl in Hin'. rewrite Forall_forall in Hc. by apply Hc.
Qed.

Lemma prefixes_opt {A} l (f : A → Element) o : (∀ x, o = Some x → prefixes_in l (f x) = true) →
  Forall (λ c, prefixes_in l c = true) (els_opt f o).
Proof. intros H. destruct o; [apply Forall_singleton; by apply H|constructor]. Qed.

Lemma prefixes_each {A} l (f : A → Element) xs : (∀ x, x ∈ xs → prefixes_in l (f x) = true) →
  Forall (λ c, prefixes_in l c = true) (map f xs).
Proof. intros H. apply Forall_map, Forall_forall. exact H. Qed.

Lemma prefixes_one l e : prefixes_in l e = true → Forall (λ c, prefixes_in l c = true) [e].
Proof. by intros H; apply Forall_singleton. Qed.

Ltac prefix_els_tac t :=
  repeat first [apply Forall_app_2|apply Forall_nil_2|apply prefixes_opt; intros; t|apply prefixes_each; intros; t
    |apply prefixes_one; t].
Ltac prefix_tac t := eapply prefixes_built; [build|done|names_tac|prefix_els_tac t].

Section saml.
Context (l : list string) (Hsaml : "saml" ∈ l).

Lemma Issuer_prefixes x : prefixes_in l (Issuer_Element x) = true.
Proof. unfold Issuer_Element. prefix_tac done. Qed.

Lemma NameID_prefixes x : prefixes_in l (NameID_Element x) = true.
Proof. unfold NameID_Element. prefix_tac done. Qed.

Lemma SubjectConfirmationData_prefixes x : prefixes_in l (SubjectConfirmationData_Element x) = true.
Proof. unfold SubjectConfirmationData_Element. prefix_tac done. Qed.

Lemma SubjectConfirmation_prefixes x : prefixes_in l (SubjectConfirmation_Element x) = true.
Proof.
  unfold SubjectConfirmation_Element.
  prefix_tac ltac:(first [apply NameID_prefixes|apply SubjectConfirmationData_prefixes]).
Qed.

Lemma Subject_prefixes x : prefixes_in l (Subject_Element x) = true.
Proof. unfold Subject_Element. prefix_tac ltac:(first [apply NameID_prefixes|apply SubjectConfirmation_prefixes]). Qed.

Lemma Audience_prefixes x : prefixes_in l (Audience_Element x) = true.
Proof. unfold Audience_Element, text_el. prefix_tac done. Qed.

Lemma AudienceRestriction_prefixes x : prefixes_in l (AudienceRestriction_Element x) = true.
Proof. unfold AudienceRestriction_Element. prefix_tac ltac:(apply Audience_prefixes). Qed.

Lemma OneTimeUse_prefixes x : prefixes_in l (OneTimeUse_Element x) = true.
Proof. unfold OneTimeUse_Element. prefix_tac done. Qed.

Lemma ProxyRestriction_prefixes x : prefixes_in l (ProxyRestriction_Element x) = true.
Proof. unfold ProxyRestriction_Element. prefix_tac ltac:(apply Audience_prefixes). Qed.

Lemma Conditions_prefixes x : prefixes_in l (Conditions_Element x) = true.
Proof.
  unfold Conditions_Element.
  prefix_tac ltac:(first [apply AudienceRestriction_prefixes|apply OneTimeUse_prefixes|apply ProxyRestriction_prefixes]).
Qed.

Lemma SubjectLocality_prefixes x : prefixes_in l (SubjectLocality_Element x) = true.
Proof. unfold SubjectLocality_Element. prefix_tac done. Qed.

Lemma AuthnContextClassRef_prefixes x : prefixes_in l (AuthnContextClassRef_Element x) = true.
Proof. unfold AuthnContextClassRef_Element, text_el. prefix_tac done. Qed.

Lemma AuthnContext_prefixes x : prefixes_in l (AuthnContext_Element x) = true.
Proof. unfold AuthnContext_Element. prefix_tac ltac:(apply AuthnContextClassRef_prefixes). Qed.

Lemma AuthnStatement_prefixes x : prefixes_in l (AuthnStatement_Element x) = true.
Proof.
  unfold AuthnStatement_Element. prefix_tac ltac:(first [apply SubjectLocality_prefixes|apply AuthnContext_prefixes]).
Qed.

Lemma AttributeValue_prefixes x : "xsi" ∈ l → prefixes_in l (AttributeValue_Element x) = true.
Proof.
  intros Hxsi.
  assert (Hb : built "saml" "AttributeValue" (value_decls ++ attrs_text "xsi:type" (AttributeValue_Type x))
    (els_opt NameID_Element (AttributeValue_NameID x)) (AttributeValue_Value x) (AttributeValue_Element x)).
  { unfold AttributeValue_Element, declare_xs. eapply built_eq; [build|done..]. }
  destruct Hb as [Hs Ht Ha Hl _]. apply prefixes_in_inv. split_and!; [by rewrite Hs| |].
  - unfold own_attrs. rewrite Ha. unfold attrs_text. intros b [Hd Hb]%list_elem_of_filter.
    apply elem_of_app in Hb as [Hb|Hb].
    + repeat (apply elem_of_cons in Hb as [->|Hb]; [done|]). by apply not_elem_of_nil in Hb.
    + case_match; [|by apply not_elem_of_nil in Hb]. apply list_elem_of_singleton in Hb as ->. by right.
  - intros c Hin%child_elements. rewrite Hl in Hin. destruct (AttributeValue_NameID x); simpl in Hin;
      [apply list_elem_of_singleton in Hin as ->; apply NameID_prefixes|by apply not_elem_of_nil in Hin].
Qed.

Lemma Attribute_prefixes x : "xsi" ∈ l → prefixes_in l (Attribute_Element x) = true.
Proof. intros. unfold Attribute_Element. prefix_tac ltac:(by apply AttributeValue_prefixes). Qed.

Lemma AttributeStatement_prefixes x : "xsi" ∈ l → prefixes_in l (AttributeStatement_Element x) = true.
Proof. intros. unfold AttributeStatement_Element. prefix_tac ltac:(by apply Attribute_prefixes). Qed.

Lemma assertion_el_prefixes a : "xsi" ∈ l → (∀ e, Assertion_Signature a = Some e → prefixes_in l e = true) →
  prefixes_in l (assertion_el a) = true.
Proof.
  intros Hxsi Hsig. destruct (assertion_el_built a) as [Hs Ht Ha Hl _]. apply prefixes_in_inv. split_and!; [by rewrite Hs| |].
  - unfold own_attrs. rewrite Ha. intros b Hb. cbn in Hb. repeat (apply elem_of_cons in Hb as [->|Hb]; [by left|]).
    by apply not_elem_of_nil in Hb.
  - intros c Hin%child_elements. rewrite Hl in Hin.
    assert (H : Forall (λ c, prefixes_in l c = true) (assertion_els a)); [|rewrite Forall_forall in H; by apply H].
    unfold assertion_els. apply Forall_cons_2; [by apply Issuer_prefixes|].
    prefix_els_tac ltac:(first [by apply Hsig|by apply Subject_prefixes|by apply Conditions_prefixes
      |by apply AuthnStatement_prefixes|by apply AttributeStatement_prefixes]).
Qed.

(** Another declaration. *)
Lemma declare_xs_prefixes e : fresh "xmlns:xs" (Attrs e) → prefixes_in l e = true → prefixes_in l (declare_xs e) = true.
Proof.
  intros Hf (Hs & Ha & Hc)%prefixes_in_inv. unfold declare_xs. rewrite CreateAttr_new by exact Hf.
  apply prefixes_in_inv. split_and!; [done| |done]. intros b Hb. apply Ha. unfold own_attrs in *. cbn [Attrs set_Attrs] in Hb.
  rewrite filter_app in Hb. apply elem_of_app in Hb as [Hb|Hb]; [done|]. by apply list_elem_of_filter in Hb as [? ->%list_elem_of_singleton].
Qed.
End saml.

(** ** Statuses *)

Section samlp.
Context (l : list string) (Hsamlp : "samlp" ∈ l).

Definition plain_status (s : Status) : Prop := Status_StatusDetail s = None.

Lemma StatusCode_prefixes : ∀ x, prefixes_in l (StatusCode_Element x) = true.
Proof.
  fix IH 1. intros [value [sub|]]; cbn [StatusCode_Element].
  - prefix_tac ltac:(apply IH).
  - prefix_tac done.
Qed.

Lemma Status_prefixes s : plain_status s → prefixes_in l (Status_Element s) = true.
Proof.
  unfold plain_status. intros Hd. unfold Status_Element. rewrite Hd. cbn [child_opt]. unfold StatusMessage_Element, text_el.
  prefix_tac ltac:(first [apply StatusCode_prefixes|prefix_tac done]).
Qed.
End samlp.
End prefixes.

(** ** Elements with a canonical form *)

Section readable.
Context `{EtreeI : EtreeOps} `{EtreeB : !EtreeBuild}.

Lemma readable_intro e : NoDup (map Attr_Key (own_attrs e)) → forallb clean_decl (Attrs e) = true →
  (∀ x, TElement x ∈ Child e → readable x = true) → readable e = true.
Proof.
  intros Hn Hc Hl. rewrite readable_els, Hc, bool_decide_true by done. apply forallb_elem. intros x Hx. by apply Hl, child_elements.
Qed.

Lemma readable_built s t a els x e : built s t a els x e → unprefixed a → NoDup (map Attr_Key a) →
  Forall (λ c, readable c = true) els → readable e = true.
Proof.
  intros [_ _ Ha Hl _] Hu Hn Hc. apply readable_intro.
  - unfold own_attrs. by rewrite Ha, (unprefixed_own _ Hu).
  - rewrite Ha. by apply unprefixed_clean.
  - intros c Hin%child_elements. rewrite Hl in Hin. rewrite Forall_forall in Hc. by apply Hc.
Qed.

Lemma StatusCode_readable : ∀ x, readable (StatusCode_Element x) = true.
Proof.
  fix IH 1. intros [value [sub|]]; cbn [StatusCode_Element];
    (eapply readable_built; [build|names_tac|apply NoDup_singleton|]); [by apply Forall_singleton|constructor].
Qed.

Lemma Status_readable s : plain_status s → readable (Status_Element s) = true.
Proof.
  unfold plain_status. intros Hd. unfold Status_Element. rewrite Hd. cbn [child_opt].
  eapply readable_built; [build|names_tac|constructor|]. repeat apply Forall_app_2; [constructor| |].
  - apply Forall_singleton, StatusCode_readable.
  - destruct (Status_StatusMessage s) as [m|]; [|constructor]. apply Forall_singleton. unfold StatusMessage_Element, text_el.
    eapply readable_built; [build|names_tac|constructor..].
Qed.

(** The XML form of an assertion is a canonical form, and declares [xs] perhaps. *)
Lemma Assertion_Element_canonical a el : Assertion_Element a = Ret el → ∃ e',
  TransformExcC14n (assertion_el a) "" false = Ret e' ∧ (el = e' ∨ el = declare_xs e' ∧ fresh "xmlns:xs" (Attrs e')).
Proof.
  rewrite Assertion_Element_eq. destruct (TransformExcC14n (assertion_el a) "" false) as [e'| |] eqn:He; [|done..].
  intros [= <-]. exists e'. split; [done|]. case_bool_decide; [by left|]. right. split; [done|].
  assert (Hvis : "xs" ∉ elements (visiblyUtilizedPrefixes ∅ (assertion_el a))).
  { rewrite elem_of_elements. destruct (assertion_el_built a) as [Hs _ Hattrs _ _].
    unfold visiblyUtilizedPrefixes. rewrite Hs, Hattrs. simpl. set_solver. }
  intros b Hb Hxs. apply Hvis. eapply (transformed_decls _ _ _ _ _ _ b "xs" (Attr_Value b)); [exact He|done|].
  change (split_name "xmlns:xs") with ("xmlns", "xs") in Hxs. injection Hxs as Hs Hk. unfold decl_of. by rewrite Hs, Hk.
Qed.

Lemma Assertion_Element_readable a el : (∀ e, Assertion_Signature a = Some e → tidy assertion_scope e) →
  Assertion_Element a = Ret el → readable el = true.
Proof.
  intros Hsig (e' & He & Hel)%Assertion_Element_canonical. destruct (assertion_el_tidy a Hsig) as [Hr _].
  assert (Hr' : readable e' = true).
  { eapply canonical_readable; [apply (related_start ∅); reflexivity|apply reserved_default_prefixes|exact Hr|exact He]. }
  destruct Hel as [->|[-> Hf]]; [done|]. apply readable_inv in Hr' as (Hn & Hc & Hl). unfold declare_xs.
  rewrite CreateAttr_new by exact Hf. apply readable_intro; cbn [set_Attrs Attrs Child].
  - unfold own_attrs in *. cbn [set_Attrs Attrs]. rewrite filter_app. change (filter _ [_]) with (@nil Attr). by rewrite app_nil_r.
  - rewrite forallb_app, Hc. by vm_compute.
  - intros x Hx. by apply Hl, child_elements.
Qed.

Lemma Assertion_Element_prefixes l a el : "saml" ∈ l → "xsi" ∈ l →
  (∀ e, Assertion_Signature a = Some e → prefixes_in l e = true) →
  Assertion_Element a = Ret el → prefixes_in l el = true.
Proof.
  intros Hs Hx Hsig (e' & He & Hel)%Assertion_Element_canonical.
  assert (Hp : prefixes_in l e' = true) by (eapply prefixes_in_c14n; [by apply (assertion_el_prefixes l)|exact He]).
  destruct Hel as [->|[-> Hf]]; [done|by apply declare_xs_prefixes].
Qed.
End readable.

(** ** The signature that is made *)

Section bare.
Context (p : string).

Lemma bare_readable e : bare_tree p e = true → readable e = true.
Proof.
  induction e as [s t a c IH] using element_tree_ind. intros Hb. pose proof (bare_unprefixed _ _ Hb) as [_ Ha].
  apply readable_intro.
  - unfold own_attrs. rewrite (unprefixed_own _ Ha). cbn [Attrs] in *. destruct a as [|b [|]]; [constructor|apply NoDup_singleton|].
    cbn [bare_tree lone] in Hb. by rewrite andb_false_r in Hb.
  - by apply unprefixed_clean.
  - intros x Hx. rewrite Forall_forall in IH. apply (IH (TElement x) Hx). by apply (bare_child p (mkElement s t a c)).
Qed.

Lemma bare_prefixes l e : p ∈ l → bare_tree p e = true → prefixes_in l e = true.
Proof.
  intros Hp. induction e as [s t a c IH] using element_tree_ind. intros Hb. pose proof (bare_unprefixed _ _ Hb) as [Hs Ha].
  apply prefixes_in_inv. split_and!; [by rewrite Hs| |].
  - unfold own_attrs. rewrite (unprefixed_own _ Ha). intros b Hin. unfold unprefixed, names_ok in Ha.
    rewrite Forall_forall in Ha. apply Ha, unprefixed_attr in Hin as (-> & _). by left.
  - intros x Hx. rewrite Forall_forall in IH. apply (IH (TElement x) Hx). by apply (bare_child p (mkElement s t a c)).
Qed.

Lemma bare_namespaced e : ∀ ns, is_Some (ns !! p) → bare_tree p e = true → well_namespaced ns e = true.
Proof.
  induction e as [s t a c IH] using element_tree_ind. intros ns Hp Hb.
  rewrite well_namespaced_els, (bare_SubContext p) by done. apply andb_true_iff. split.
  - rewrite (bare_visible p) by done. rewrite elements_singleton. cbn [forallb]. by rewrite bool_decide_true.
  - apply forallb_elem. intros x Hx%child_elements. rewrite Forall_forall in IH. apply (IH (TElement x) Hx); [done|].
    by apply (bare_child p (mkElement s t a c)).
Qed.
End bare.

Section made_signature.
Context `{EtreeI : EtreeOps} `{EtreeB : !EtreeBuild} `{XmlP : XmlParser} `{XmlT : !XmlTextLaws} `{CryptoI : CryptoOps} `{X509I : X509Ops}.
Context (ctx : SigningContext) (comments : bool) (Hctx : exclusive_signer ctx comments).

Notation p := (SigningContext_Prefix ctx).

(** A declared prefix, the elements of a signature with that prefix only, a certificate. *)
Record made_signature (sig : Element) : Prop := {
  made_Space : Space sig = p;
  made_Tag : Tag sig = "Signature";
  made_Attrs : Attrs sig = [declare p Namespace];
  made_bare x : TElement x ∈ Child sig → bare_tree p x = true;
  made_opaque : opaque sig;
  made_path : has_path ["KeyInfo"; "X509Data"; "X509Certificate"] sig;
  made_count : el_count sig = (13 + certs_count ctx)%nat
}.

Lemma key_info_path certs : certs ≠ [] → (∀ c, c ∈ certs → c ≠ "") →
  Tag (key_info ctx certs) = "KeyInfo" ∧ has_path ["X509Data"; "X509Certificate"] (key_info ctx certs).
Proof.
  intros Hn Hc. unfold key_info. do 2 rewrite (created_eq ctx _ []) by (done || constructor). split; [done|].
  eexists. split; [by left|]. split; [done|]. destruct certs as [|c certs]; [done|].
  exists (text_element ctx "X509Certificate" (base64_Encode c)). cbn [Child map]. split; [by left|]. split; [|done].
  by rewrite text_element_eq by (done || by apply base64_nonempty, Hc; left).
Qed.

Lemma ConstructSignature_signature vc cert e e' sig : signer_of ctx vc cert → readable e = true →
  ConstructSignature ctx (root_cursor e) true = Ret (e', sig) → made_signature sig.
Proof.
  intros [_ Hcerts Hver] Hr Hmake.
  destruct (ConstructSignature_made ctx comments Hctx e e' sig Hr Hmake)
    as (_ & method & content & info & raw & certs & algo & [Hm _ _ Hraw Hc ->]).
  destruct (Hcerts certs Hc) as [[[certs' Ec] _ _ _ _] Hne]. destruct (Hver algo method info raw Hm Hraw) as [Hraw' _].
  destruct (signed_info_bare ctx method (SelectAttrValue (SigningContext_IdAttribute ctx) e') (hash_Sum (SigningContext_Hash ctx) content)
    (hash_nonempty ctx comments Hctx _)) as [Hbare _].
  assert (Htag : ∀ c14n m d i x, Tag (signed_info ctx c14n m d i x) = "SignedInfo").
  { intros. rewrite signed_info_eq. by rewrite (created_eq ctx _ []) by (done || constructor). }
  destruct (key_info_path certs) as [Hk Hpath]; [by rewrite Ec|done|].
  assert (Hv : Tag (text_element ctx "SignatureValue" (base64_Encode raw)) = "SignatureValue").
  { by rewrite text_element_eq by (done || by apply base64_nonempty). }
  split; [done..| | | |].
  - cbn [signature_of Child]. intros x Hx. apply elem_of_cons in Hx as [[= ->]|Hx]; [done|].
    apply elem_of_cons in Hx as [[= ->]|Hx]; [by apply value_neat; [apply Hctx|]|].
    apply list_elem_of_singleton in Hx as [= ->]. by apply key_info_neat; [apply Hctx|].
  - unfold opaque, signature_of, ChildElements. cbn [Child omap list_omap token_element].
    repeat apply Forall_cons_2; [rewrite Htag|rewrite Hv|rewrite Hk|apply Forall_nil_2]; set_solver.
  - exists (key_info ctx certs). cbn [signature_of Child]. split; [do 2 right; by left|done].
  - unfold certs_count. rewrite Hc. unfold signature_of. rewrite el_count_eq. cbn [Child els_count].
    rewrite key_info_count by done. rewrite (text_element_eq ctx) by (done || by apply base64_nonempty).
    pose proof (the_info_count ctx method (SelectAttrValue (SigningContext_IdAttribute ctx) e') (hash_Sum (SigningContext_Hash ctx) content)
      (hash_nonempty ctx comments Hctx _)) as Hi. unfold the_info in Hi. rewrite Hi. simpl (el_count (mkElement _ _ _ _)). lia.
Qed.

Section facts.
Context (sig : Element) (Hsig : made_signature sig) (Hds : p = "ds").

Lemma made_scope ns : SubContext ns sig = Ret (<[p := Namespace]> ns).
Proof.
  destruct Hsig as [Hs _ Ha _ _ _ _]. destruct sig as [s t a c]. cbn in Hs, Ha. subst s a. apply declare_SubContext, Hctx.
Qed.

Lemma made_own : own_attrs sig = [].
Proof.
  unfold own_attrs. rewrite (made_Attrs _ Hsig).
  by rewrite filter_cons_False by (by rewrite is_ns_decl_of, decl_of_declare).
Qed.

Lemma made_readable : readable sig = true.
Proof.
  apply readable_intro.
  - rewrite made_own. constructor.
  - rewrite (made_Attrs _ Hsig). cbn [forallb]. rewrite andb_true_r. unfold clean_decl. rewrite decl_of_declare.
    rewrite Hds. by vm_compute.
  - intros x Hx. eapply bare_readable. by apply (made_bare _ Hsig).
Qed.

Lemma made_prefixes l : "ds" ∈ l → prefixes_in l sig = true.
Proof.
  intros Hl. apply prefixes_in_inv. rewrite (made_Space _ Hsig), made_own, Hds. split_and!; [done| |].
  - by intros b ?%not_elem_of_nil.
  - intros x Hx. apply (bare_prefixes "ds"); [done|]. rewrite <- Hds. by apply (made_bare _ Hsig).
Qed.

Lemma made_tidy ns : tidy ns sig.
Proof.
  split; [apply made_readable|]. rewrite well_namespaced_els, made_scope. apply andb_true_iff. split.
  - apply forallb_elem. intros q. rewrite visible_inv, (made_Space _ Hsig), made_own.
    intros [->|[(b & Hb & _)|[Hq _]]]; [|by apply not_elem_of_nil in Hb|by apply not_elem_of_empty in Hq].
    apply bool_decide_eq_true. rewrite ns_insert_eq. by eexists.
  - apply forallb_elem. intros x Hx%child_elements. apply (bare_namespaced p); [rewrite ns_insert_eq; by eexists|].
    by apply (made_bare _ Hsig).
Qed.

Lemma made_signature_ok : signature_ok (Some sig).
Proof. intros e [= <-]. split; [apply (made_Tag _ Hsig)|apply (made_opaque _ Hsig)]. Qed.
End facts.
End made_signature.
