(* ===== verification/IdentityProvider.v ===== *)
(** * IdentityProvider: authentication requests

    The types of [src/identity_provider.go] and its handling of a request up to
    the point where it is trusted: reading it from HTTP, [Validate], the
    signature of [src/identity_provider_signature.go] and the selection of the
    assertion consumer service.  The [IDP] field of a request is the argument
    [idp] of its methods.  A method that assigns fields of the request returns
    the new request; what an error leaves in a request is not returned, as no
    caller looks at it. *)

From stdpp Require Import base option list gmap strings.
From Stdlib Require Import ZArith Lia Ascii.
From S2P Require Import Prelude Go Duration Encoding Etree C14n Schema Env XmlTree ServiceProvider.
From S2P Require Import DSig Redirect Http.

Open Scope string_scope.
Open Scope Z_scope.

Definition maxAuthnRequestSize : Z := 16 * 1024.
Definition maxAuthnRequestBodySize : Z := 128 * 1024.
Definition maxAuthnRequestIDLength : Z := 256.

Definition os_ErrNotExist := Sentinel "os.ErrNotExist".

(** ** Data *)

Record Session := mkSession {
  Session_ID : string;
  Session_CreateTime : Time;
  Session_ExpireTime : Time;
  Session_Index : string;
  Session_NameID : string;
  Session_NameIDFormat : string;
  Session_SubjectID : string;
  Session_Groups : list string;
  Session_UserName : string;
  Session_UserEmail : string;
  Session_UserCommonName : string;
  Session_UserSurname : string;
  Session_UserGivenName : string;
  Session_UserScopedAffiliation : string;
  Session_EduPersonPrincipalName : string;
  Session_CustomAttributes : list Attribute;
  Session_AuthnContextClassRef : string;
  Session_ClientAddress : string
}.

(** [IdpAuthnRequest], without [IDP]. *)
Record IdpAuthnRequest := mkIdpAuthnRequest {
  Req_HTTPRequest : HTTPRequest;
  Req_RelayState : string;
  Req_RequestBuffer : string;
  Req_Request : AuthnRequest;
  Req_ServiceProviderMetadata : option EntityDescriptor;
  Req_SPSSODescriptor : option SPSSODescriptor;
  Req_ACSEndpoint : option IndexedEndpoint;
  Req_Assertion : option Assertion;
  Req_AssertionEl : option Element;
  Req_ResponseEl : option Element;
  Req_Now : Time;
  Req_RedirectQuery : string
}.

(** [req.f = v] *)
Definition set_Request (v : AuthnRequest) (r : IdpAuthnRequest) : IdpAuthnRequest :=
  let 'mkIdpAuthnRequest h rs b _ md d acs a ae re now q := r in
  mkIdpAuthnRequest h rs b v md d acs a ae re now q.
Definition set_Metadata (v : option EntityDescriptor) (r : IdpAuthnRequest) : IdpAuthnRequest :=
  let 'mkIdpAuthnRequest h rs b rq _ d acs a ae re now q := r in
  mkIdpAuthnRequest h rs b rq v d acs a ae re now q.
Definition set_ACS (v : SPSSODescriptor * IndexedEndpoint) (r : IdpAuthnRequest) : IdpAuthnRequest :=
  let 'mkIdpAuthnRequest h rs b rq md _ _ a ae re now q := r in
  mkIdpAuthnRequest h rs b rq md (Some v.1) (Some v.2) a ae re now q.
Definition set_Assertion (v : Assertion) (r : IdpAuthnRequest) : IdpAuthnRequest :=
  let 'mkIdpAuthnRequest h rs b rq md d acs _ ae re now q := r in
  mkIdpAuthnRequest h rs b rq md d acs (Some v) ae re now q.
Definition set_AssertionEl (v : Element) (r : IdpAuthnRequest) : IdpAuthnRequest :=
  let 'mkIdpAuthnRequest h rs b rq md d acs a _ re now q := r in
  mkIdpAuthnRequest h rs b rq md d acs a (Some v) re now q.
Definition set_ResponseEl (v : option Element) (r : IdpAuthnRequest) : IdpAuthnRequest :=
  let 'mkIdpAuthnRequest h rs b rq md d acs a ae _ now q := r in
  mkIdpAuthnRequest h rs b rq md d acs a ae v now q.

(** [IdpLogoutRequest], without [IDP]. *)
Record IdpLogoutRequest := mkIdpLogoutRequest {
  Logout_HTTPRequest : HTTPRequest;
  Logout_RelayState : string;
  Logout_RequestBuffer : string;
  Logout_Request : LogoutRequest;
  Logout_ServiceProviderMetadata : option EntityDescriptor;
  Logout_SLOEndpoint : option Endpoint;
  Logout_Now : Time;
  Logout_RedirectQuery : string;
  Logout_binding : string
}.

(** The interfaces the application implements. They get the request and
    return what their documentation says; they do not change it, except that an
    [AssertionMaker] assigns its [Assertion]. An optional interface that a
    [SessionProvider] may implement is an [option]. Only [GetSession],
    [GetForcedSession] and [TerminateSession] get the response writer. *)
Record SessionProvider (W : Type) := mkSessionProvider {
  GetSession : HTTPRequest → IdpAuthnRequest → St W → St W * option (option Session);
  GetPassiveSession : option (HTTPRequest → IdpAuthnRequest → W → W * option (option Session));
  GetForcedSession : option (HTTPRequest → IdpAuthnRequest → St W → St W * option (option Session));
  TerminateSession : option (HTTPRequest → IdpLogoutRequest → IO W ())
}.
Arguments GetSession {W} _ _ _ _.
Arguments GetPassiveSession {W} _.
Arguments GetForcedSession {W} _.
Arguments TerminateSession {W} _.

Definition Enforcer (W : Type) : Type := IdpAuthnRequest → Session → Effect W ().

Record IdentityProvider (W : Type) := mkIdentityProvider {
  IDP_Key : option Signer;             (* if it is a crypto.Signer *)
  IDP_Signer : option Signer;
  IDP_Certificate : option Certificate;
  IDP_Intermediates : list Certificate;
  IDP_MaxAuthnRequestAge : Duration;
  IDP_MetadataURL : URL;
  IDP_SSOURL : URL;
  IDP_LoginURL : URL;
  IDP_LogoutURL : URL;
  IDP_ServiceProviderProvider : HTTPRequest → string → Effect W (option EntityDescriptor);
  IDP_SessionProvider : SessionProvider W;
  IDP_AssertionMaker : option (IdpAuthnRequest → Session → Effect W Assertion);
  IDP_SignatureMethod : string;
  IDP_ValidDuration : option Duration;
  IDP_ResponseFormTemplate : option (IdpAuthnRequestForm → outcome string);
  IDP_WantAuthnRequestsSigned : bool;
  IDP_NameIDPolicyEnforcer : option (Enforcer W);
  IDP_AuthnContextEnforcer : option (Enforcer W);
  IDP_SubjectEnforcer : option (Enforcer W)
}.
Arguments IDP_Key {W} _.
Arguments IDP_Signer {W} _.
Arguments IDP_Certificate {W} _.
Arguments IDP_Intermediates {W} _.
Arguments IDP_MaxAuthnRequestAge {W} _.
Arguments IDP_MetadataURL {W} _.
Arguments IDP_SSOURL {W} _.
Arguments IDP_LoginURL {W} _.
Arguments IDP_LogoutURL {W} _.
Arguments IDP_ServiceProviderProvider {W} _ _ _.
Arguments IDP_SessionProvider {W} _.
Arguments IDP_AssertionMaker {W} _.
Arguments IDP_SignatureMethod {W} _.
Arguments IDP_ValidDuration {W} _.
Arguments IDP_ResponseFormTemplate {W} _.
Arguments IDP_WantAuthnRequestsSigned {W} _.
Arguments IDP_NameIDPolicyEnforcer {W} _.
Arguments IDP_AuthnContextEnforcer {W} _.
Arguments IDP_SubjectEnforcer {W} _.

(** ** Reading a request *)

Definition checkAuthnRequestSize (buf : string) : outcome () :=
  raise_if (maxAuthnRequestSize <? Z.of_nat (String.length buf))
    (Errorf "request exceeds the limit of %d bytes" [AInt maxAuthnRequestSize]).

(** [values.Has(key)] *)
Definition values_Has (values : url_Values) (key : string) : bool :=
  existsb (λ '(k, _), k == key) values.

Definition readRedirectRequest `{FlateI : FlateOps} (rawQuery : string)
    : outcome (string * string * string) :=
  let values := (ParseQuery rawQuery).1 in
  compressedRequest ← map_err (Because "cannot decode request: %s" [])
    (base64_Decode (values_Get values "SAMLRequest"));
  buf ← map_err (Because "cannot decompress request: %s" [])
    (safer_ReadAll (Some (maxAuthnRequestSize + 1)) compressedRequest);
  _ ← checkAuthnRequestSize buf;
  let relayState := values_Get values "RelayState" in
  let signedQuery := if values_Has values "Signature" || values_Has values "SigAlg"
                     then rawQuery else "" in
  Ret (buf, relayState, signedQuery).

Definition RedirectQueryFormField := "SAMLRedirectQuery".

(** A request of which nothing but the HTTP request and the time is known. *)
Definition empty_request (r : HTTPRequest) (relayState buffer redirectQuery : string) (now : Time)
    : IdpAuthnRequest :=
  mkIdpAuthnRequest r relayState buffer zero_AuthnRequest None None None None None None now redirectQuery.

Definition readRedirectQuery `{FlateI : FlateOps} (r : HTTPRequest) (now : Time) (rawQuery : string)
    : outcome IdpAuthnRequest :=
  b ← readRedirectRequest rawQuery;
  let '(buf, relayState, signedQuery) := b in
  Ret (empty_request r relayState buf signedQuery now).

(** The form of the POST binding: the message and the relay state. *)
Definition read_form (postForm : url_Values) : outcome (string * string) :=
  buf ← base64_Decode (values_Get postForm "SAMLRequest");
  Ret (buf, values_Get postForm "RelayState").

Definition NewIdpAuthnRequest {W} `{WorldI : World W} `{FlateI : FlateOps} (r : HTTPRequest)
    : IO W IdpAuthnRequest :=
  now ← TimeNow;
  lift (
    if HTTPRequest_Method r == "GET" then
      readRedirectQuery r now (URL_RawQuery (HTTPRequest_URL r))
    else if HTTPRequest_Method r == "POST" then
      postForm ← ParseForm maxAuthnRequestBodySize r;
      let rawQuery := values_Get postForm RedirectQueryFormField in
      if rawQuery != "" then readRedirectQuery r now rawQuery
      else
        b ← read_form postForm;
        Ret (empty_request r b.2 b.1 "" now)
    else Err (Errorf "method not allowed" [])).

(** ** The content of a request *)

Definition is_id_byte (c : ascii) : bool :=
  let n := Z.of_N (N_of_ascii c) in
  (97 <=? n) && (n <=? 122) || (65 <=? n) && (n <=? 90) || (48 <=? n) && (n <=? 57)
  || Ascii.eqb c "_" || Ascii.eqb c "-" || Ascii.eqb c ".".

Definition isValidAuthnRequestID (id : string) : bool :=
  if (id == "") || (maxAuthnRequestIDLength <? Z.of_nat (String.length id)) then false
  else all_bytes is_id_byte id.

(** [issuer == nil || issuer.Value == ""] *)
Definition no_issuer (issuer : option Issuer) : bool :=
  match issuer with None => true | Some i => Issuer_Value i == "" end.

Section requests.
Context {W : Type} `{UrlI : UrlOps} `{VarsI : PackageVars} `{X509I : X509Ops} `{EtreeI : EtreeOps} `{XmlI : XmlOps} `{SigI : SignatureOps} `{CryptoI : CryptoOps} `{WorldI : World W}.

Definition checkRequest (idp : IdentityProvider W) (request : AuthnRequest) (now : Time) : outcome () :=
  let ssoURL := URL_String (IDP_SSOURL idp) in
  _ ← raise_if ((IDP_WantAuthnRequestsSigned idp || (AuthnRequest_Destination request != ""))
                && (AuthnRequest_Destination request != ssoURL))
    (Errorf "expected destination to be %q, not %q" [AStr ssoURL; AStr (AuthnRequest_Destination request)]);
  let maxAge := if IDP_MaxAuthnRequestAge idp =? 0 then MaxIssueDelay else IDP_MaxAuthnRequestAge idp in
  let expiry := Time_Add (AuthnRequest_IssueInstant request) maxAge in
  _ ← raise_if (Time_Before expiry now) (Errorf "request expired at %s" [ATime expiry]);
  _ ← raise_if (Time_After (AuthnRequest_IssueInstant request) (Time_Add now MaxClockSkew))
    (Errorf "request issued in the future at %s" [ATime (AuthnRequest_IssueInstant request)]);
  _ ← raise_if (AuthnRequest_Version request != "2.0")
    (Errorf "expected SAML request version 2.0 got %v" [AStr (AuthnRequest_Version request)]);
  _ ← raise_if (negb (isValidAuthnRequestID (AuthnRequest_ID request))) (Errorf "invalid request ID" []);
  raise_if (no_issuer (AuthnRequest_Issuer request)) (Errorf "request has no issuer" []).

(** ** Signatures *)

Definition sp_signing_cert_strs (keyDescriptor : KeyDescriptor) : list string :=
  if (KeyDescriptor_Use keyDescriptor != "signing") && (KeyDescriptor_Use keyDescriptor != "") then []
  else map X509Certificate_Data
         (X509Data_X509Certificates (KeyInfo_X509Data (KeyDescriptor_KeyInfo keyDescriptor))).

Definition sp_key_descriptors (d : SPSSODescriptor) : list KeyDescriptor :=
  RoleDescriptor_KeyDescriptors (SSODescriptor_RoleDescriptor (SPSSODescriptor_SSODescriptor d)).

(** [whitespaceRemover] *)
Definition is_whitespace (c : ascii) : bool :=
  Ascii.eqb c " " || Ascii.eqb c "009" || Ascii.eqb c "013" || Ascii.eqb c "010".

(** The first certificate of the data, if there is one. *)
Definition parse_sp_cert (data : string) : outcome (option Certificate) :=
  der ← map_err (Wrap "cannot decode service provider certificate: %w" [])
    (base64_Decode (remove_bytes is_whitespace data));
  parsed ← map_err (Wrap "cannot parse service provider certificate: %w" []) (ParseCertificates der);
  Ret (head parsed).

Definition serviceProviderSigningCertificates (metadata : EntityDescriptor)
    : outcome (list Certificate) :=
  parsed ← map_each parse_sp_cert
    (flat_map (λ d, flat_map sp_signing_cert_strs (sp_key_descriptors d))
       (EntityDescriptor_SPSSODescriptors metadata));
  Ret (omap (λ c, c) (parsed : list (option Certificate))).

Definition serviceProviderSignsAuthnRequests (metadata : EntityDescriptor) : bool :=
  existsb (λ d, bool_decide (SPSSODescriptor_AuthnRequestsSigned d = Some true))
    (EntityDescriptor_SPSSODescriptors metadata).

(** The loop of [verifyEnvelopedSignature]: [err] is that of the last
    certificate. The element is edited in place. *)
Fixpoint verify_with (el : Cursor) (certificates : list Certificate) (err : option error)
    : IO W (option Element) :=
  match certificates with
  | [] => lift match err with None => Ret None | Some e => Err e end
  | certificate :: certificates =>
      clock ← Clock_Now;
      let '(el, r) := signatureValidationContext el [certificate] clock in
      vd ← lift r;
      match ValidationContext_Validate vd.1 vd.2 with
      | Ret verified => mret verified
      | Err e => verify_with el certificates (Some e)
      | Panic => lift Panic
      end
  end.

Definition verifyEnvelopedSignature (el : Cursor) (certificates : list Certificate)
    : IO W (option Element) :=
  verify_with el certificates None.

Definition useVerifiedRequest (idp : IdentityProvider W) (req : IdpAuthnRequest) (verified : option Element)
    : outcome IdpAuthnRequest :=
  issuer ← deref (AuthnRequest_Issuer (Req_Request req));
  verified ← deref verified;
  request ← unmarshalElement Unmarshal_AuthnRequest (root_cursor verified);
  _ ← checkRequest idp request (Req_Now req);
  issuer' ← deref (AuthnRequest_Issuer request);
  _ ← raise_if (Issuer_Value issuer' != Issuer_Value issuer)
    (Errorf "signed request has a different issuer" []);
  Ret (set_Request request req).

Definition verifyAuthnRequestSignature (idp : IdentityProvider W) (req : IdpAuthnRequest)
    : IO W IdpAuthnRequest :=
  root ← lift (ReadFromBytes (Req_RequestBuffer req));
  root ← lift (or_err root (Errorf "request has no root element" []));
  signatureEl ← lift (findChild (root_cursor root) dsig_Namespace "Signature");
  let signed := bool_decide (is_Some signatureEl) in
  if (Req_RedirectQuery req == "") && negb signed then
    lift (_ ← raise_if (IDP_WantAuthnRequestsSigned idp) (Errorf "request is not signed" []);
          metadata ← deref (Req_ServiceProviderMetadata req);
          _ ← raise_if (serviceProviderSignsAuthnRequests metadata) (Errorf "request is not signed" []);
          Ret req)
  else
    metadata ← lift (deref (Req_ServiceProviderMetadata req));
    certificates ← lift (serviceProviderSigningCertificates metadata);
    _ ← lift (raise_if (bool_decide (certificates = []))
      (Errorf "request is signed but the service provider has no signing certificate" []));
    _ ← (if Req_RedirectQuery req != "" then
           now ← redirect_now;
           lift (map_err (Wrap "invalid request signature: %w" [])
             (verifyRedirectSignature (Req_RedirectQuery req) "SAMLRequest" certificates now))
         else mret ());
    req ← (if signed then
             on_result (verifyEnvelopedSignature (root_cursor root) certificates)
               (λ verified, lift (useVerifiedRequest idp req verified))
               (λ err, lift (Err (Wrap "invalid request signature: %w" [] err)))
           else mret req);
    lift (_ ← raise_if (AuthnRequest_Destination (Req_Request req) == "")
                (Errorf "signed request has no destination" []);
          Ret req).

(** ** The assertion consumer service *)

(** The endpoints in the order of the two nested loops. *)
Definition acs_endpoints (metadata : EntityDescriptor) : list (SPSSODescriptor * IndexedEndpoint) :=
  flat_map (λ d, map (pair d) (SPSSODescriptor_AssertionConsumerServices d))
    (EntityDescriptor_SPSSODescriptors metadata).

Definition preference (endpoint : IndexedEndpoint) : Z :=
  match IndexedEndpoint_IsDefault endpoint with
  | None => 2
  | Some true => 3
  | Some false => 1
  end.

Definition is_post (endpoint : IndexedEndpoint) : bool :=
  IndexedEndpoint_Binding endpoint == HTTPPostBinding.

(** The loop of [useDefaultACSEndpoint]: the best preference so far and what has
    it. *)
Fixpoint default_loop (l : list (SPSSODescriptor * IndexedEndpoint)) (best : Z)
    (chosen : option (SPSSODescriptor * IndexedEndpoint))
    : option (SPSSODescriptor * IndexedEndpoint) :=
  match l with
  | [] => chosen
  | (d, endpoint) :: l =>
      if is_post endpoint && (best <? preference endpoint) then
        default_loop l (preference endpoint) (Some (d, endpoint))
      else default_loop l best chosen
  end.

Definition useDefaultACSEndpoint (req : IdpAuthnRequest) : outcome IdpAuthnRequest :=
  metadata ← deref (Req_ServiceProviderMetadata req);
  chosen ← or_err (default_loop (acs_endpoints metadata) 0 None) os_ErrNotExist;
  Ret (set_ACS chosen req).

(** The two criteria, in order of preference. *)
Definition acs_matches (index location : string) : list (IndexedEndpoint → bool) :=
  [λ endpoint, (index != "") && (itoa (IndexedEndpoint_Index endpoint) == index);
   λ endpoint, (location != "") && (IndexedEndpoint_Location endpoint == location)].

Definition getACSEndpoint (req : IdpAuthnRequest) : outcome IdpAuthnRequest :=
  let index := AuthnRequest_AssertionConsumerServiceIndex (Req_Request req) in
  let location := AuthnRequest_AssertionConsumerServiceURL (Req_Request req) in
  if (index != "") || (location != "") then
    metadata ← deref (Req_ServiceProviderMetadata req);
    chosen ← or_err
      (first_some (λ matches, first_that (λ '(_, endpoint), is_post endpoint && matches endpoint)
                     (acs_endpoints metadata))
         (acs_matches index location))
      os_ErrNotExist;
    Ret (set_ACS chosen req)
  else useDefaultACSEndpoint req.

(** ** Validate *)

Definition Validate (idp : IdentityProvider W) (req : IdpAuthnRequest) : IO W IdpAuthnRequest :=
  _ ← lift (checkAuthnRequestSize (Req_RequestBuffer req));
  _ ← lift (xrv_Validate (Req_RequestBuffer req));
  request ← lift (Unmarshal_AuthnRequest (Req_RequestBuffer req));
  let req := set_Request request req in
  _ ← lift (checkRequest idp request (Req_Now req));
  issuer ← lift (deref (AuthnRequest_Issuer request));
  let serviceProviderID := Issuer_Value issuer in
  serviceProvider ←
    on_result (effect (IDP_ServiceProviderProvider idp (Req_HTTPRequest req) serviceProviderID)) mret
      (λ err, lift (Err (
        if err == os_ErrNotExist then
          Errorf "cannot handle request from unknown service provider %s" [AStr serviceProviderID]
        else Because "cannot find service provider %s: %v" [AStr serviceProviderID] err)));
  let req := set_Metadata serviceProvider req in
  req ← verifyAuthnRequestSignature idp req;
  lift (map_err (Because "cannot find assertion consumer service: %v" []) (getACSEndpoint req)).
End requests.
