(* ===== verification/Assertions.v ===== *)
(** * Assertions: what the identity provider asserts

    [DefaultAssertionMaker], the default enforcers of the constraints of a
    request ([DefaultSubjectEnforcer], [DefaultNameIDPolicyEnforcer],
    [DefaultAuthnContextEnforcer]), [IdentityProvider.Metadata] and
    [clientAddress], of [src/identity_provider.go]. *)

From stdpp Require Import base option list gmap strings.
From Stdlib Require Import ZArith Lia Ascii.
From S2P Require Import Prelude Go Duration Encoding Etree Schema Env ServiceProvider Http IdentityProvider.

Open Scope string_scope.
Open Scope Z_scope.

Definition defaultAuthnContextClassRef :=
  "urn:oasis:names:tc:SAML:2.0:ac:classes:PasswordProtectedTransport".
Definition bearerSubjectConfirmationMethod := "urn:oasis:names:tc:SAML:2.0:cm:bearer".
Definition UnspecifiedNameIDFormat := "urn:oasis:names:tc:SAML:1.1:nameid-format:unspecified".
Definition TransientNameIDFormat := "urn:oasis:names:tc:SAML:2.0:nameid-format:transient".
Definition EmailAddressNameIDFormat := "urn:oasis:names:tc:SAML:1.1:nameid-format:emailAddress".
Definition PersistentNameIDFormat := "urn:oasis:names:tc:SAML:2.0:nameid-format:persistent".
Definition unspecifiedNameIDFormat := "urn:oasis:names:tc:SAML:2.0:nameid-format:unspecified".
Definition encryptedNameIDFormat := "urn:oasis:names:tc:SAML:2.0:nameid-format:encrypted".
Definition entityNameIDFormat := "urn:oasis:names:tc:SAML:2.0:nameid-format:entity".
Definition DefaultValidDuration : Duration := 48 * 3600 * 1000000000.

#[export] Instance NameID_eq_dec : EqDecision NameID.
Proof. solve_decision. Defined.

(** [case "", string(UnspecifiedNameIDFormat), unspecifiedNameIDFormat:] *)
Definition open_format (format : string) : bool :=
  bool_decide (format ∈ [""; UnspecifiedNameIDFormat; unspecifiedNameIDFormat]).

(** ** Authentication contexts *)

Record DefaultAuthnContextEnforcer := mkDefaultAuthnContextEnforcer {
  Strength : gmap string Z
}.

(** [cmp.Compare] *)
Definition Compare (a b : Z) : Z := if a <? b then -1 else if b <? a then 1 else 0.

Definition compare (e : DefaultAuthnContextEnforcer) (a b : string) : Z :=
  match Strength e !! a, Strength e !! b with
  | Some strengthA, Some strengthB => Compare strengthA strengthB
  | _, _ => 0
  end.

(** The function [satisfies], or [None] for an unknown comparison. *)
Definition satisfies (e : DefaultAuthnContextEnforcer) (comparison : string)
    : option (string → string → bool) :=
  if (comparison == "") || (comparison == AuthnContextComparisonExact) then
    Some (λ asserted class, asserted == class)
  else if comparison == AuthnContextComparisonMinimum then
    Some (λ asserted class, (asserted == class) || (0 <? compare e asserted class))
  else if comparison == AuthnContextComparisonMaximum then
    Some (λ asserted class, (asserted == class) || (compare e asserted class <? 0))
  else if comparison == AuthnContextComparisonBetter then
    Some (λ asserted class, 0 <? compare e asserted class)
  else None.

(** [req.Assertion] and its statements, which the enforcers test first. *)
Definition authn_statements (req : IdpAuthnRequest) : list AuthnStatement :=
  match Req_Assertion req with None => [] | Some a => Assertion_AuthnStatements a end.

Definition check_statement (satisfies : string → string → bool) (requested : RequestedAuthnContext)
    (statement : AuthnStatement) : outcome () :=
  classRef ← or_err (AuthnContext_AuthnContextClassRef (AuthnStatement_AuthnContext statement))
    (Errorf "an AuthnStatement has no AuthnContextClassRef" []);
  let asserted := AuthnContextClassRef_Value classRef in
  raise_if
    (negb (existsb (satisfies asserted) (RequestedAuthnContext_AuthnContextClassRefs requested)))
    (Errorf "the asserted class %q doesn't satisfy the %q comparison"
       [AStr asserted; AStr (RequestedAuthnContext_Comparison requested)]).

Definition EnforceAuthnContext (e : DefaultAuthnContextEnforcer) (req : IdpAuthnRequest)
    : outcome () :=
  requested ← deref (AuthnRequest_RequestedAuthnContext (Req_Request req));
  _ ← raise_if (negb (bool_decide (RequestedAuthnContext_AuthnContextDeclRefs requested = [])))
    (Errorf "the request requires an AuthnContextDeclRef, which is not supported" []);
  satisfies ← or_err (satisfies e (RequestedAuthnContext_Comparison requested))
    (Errorf "unknown comparison %q" [AStr (RequestedAuthnContext_Comparison requested)]);
  _ ← raise_if (bool_decide (length (authn_statements req) = 0%nat))
    (Errorf "assertion has no AuthnStatement" []);
  for_each (check_statement satisfies requested) (authn_statements req).

(** ** Subjects *)

(** The name identifier of the assertion. *)
Definition asserted_subject (req : IdpAuthnRequest) : option Subject :=
  Req_Assertion req ≫= Assertion_Subject.
Definition asserted_name_id (req : IdpAuthnRequest) : option NameID :=
  asserted_subject req ≫= Subject_NameID.

Definition sameNameID (requested asserted : option NameID) : bool :=
  match requested with
  | None => true
  | Some r => match asserted with None => false | Some a => r == a end
  end.

Section subjects.
Context `{NetI : NetOps}.

Definition sameAddress (a b : string) : bool :=
  match ParseAddr a, ParseAddr b with
  | Ret x, Ret y => x == y
  | _, _ => false
  end.

Definition satisfiesConfirmationData (requested asserted : option SubjectConfirmationData) : bool :=
  match requested, asserted with
  | None, _ => true
  | Some _, None => false
  | Some r, Some a =>
      let same (x y : string) := (x == "") || (x == y) in
      same (SubjectConfirmationData_Recipient r) (SubjectConfirmationData_Recipient a) &&
      same (SubjectConfirmationData_InResponseTo r) (SubjectConfirmationData_InResponseTo a) &&
      negb ((SubjectConfirmationData_Address r != "") &&
            negb (sameAddress (SubjectConfirmationData_Address r) (SubjectConfirmationData_Address a))) &&
      negb (negb (IsZero (SubjectConfirmationData_NotBefore r)) &&
            Time_Before (SubjectConfirmationData_NotBefore a) (SubjectConfirmationData_NotBefore r)) &&
      negb (negb (IsZero (SubjectConfirmationData_NotOnOrAfter r)) &&
            (IsZero (SubjectConfirmationData_NotOnOrAfter a) ||
             Time_After (SubjectConfirmationData_NotOnOrAfter a) (SubjectConfirmationData_NotOnOrAfter r)))
  end.

Definition confirmsSubject (requested asserted : list SubjectConfirmation) : bool :=
  if bool_decide (length requested = 0%nat) then true
  else existsb (λ want,
    (SubjectConfirmation_Method want == bearerSubjectConfirmationMethod) &&
    existsb (λ have,
      (SubjectConfirmation_Method have == SubjectConfirmation_Method want) &&
      sameNameID (SubjectConfirmation_NameID want) (SubjectConfirmation_NameID have) &&
      satisfiesConfirmationData (SubjectConfirmation_SubjectConfirmationData want)
        (SubjectConfirmation_SubjectConfirmationData have)) asserted) requested.

(** One iteration of the loop over the qualifiers. *)
Definition check_qualifier (q : string * string * string) : outcome () :=
  let '(name, requested, asserted) := q in
  raise_if ((requested != "") && (requested != asserted))
    (Errorf "the NameID %s is %q and the request names %q" [AStr name; AStr asserted; AStr requested]).

Definition EnforceSubject (req : IdpAuthnRequest) : outcome () :=
  subject ← deref (AuthnRequest_Subject (Req_Request req));
  let noNameID := Errorf "the request Subject has no NameID" [] in
  requested ← or_err (Subject_NameID subject) noNameID;
  _ ← raise_if (NameID_Value requested == "") noNameID;
  asserted ← or_err (asserted_name_id req) (Errorf "assertion has no NameID" []);
  _ ← raise_if (NameID_Value asserted != NameID_Value requested)
    (Errorf "the assertion is for another principal than the request names" []);
  _ ← raise_if (negb (open_format (NameID_Format requested))
                && (NameID_Format asserted != NameID_Format requested))
    (Errorf "the NameID format is %q and the request names %q"
       [AStr (NameID_Format asserted); AStr (NameID_Format requested)]);
  _ ← for_each check_qualifier
    [("NameQualifier", NameID_NameQualifier requested, NameID_NameQualifier asserted);
     ("SPNameQualifier", NameID_SPNameQualifier requested, NameID_SPNameQualifier asserted);
     ("SPProvidedID", NameID_SPProvidedID requested, NameID_SPProvidedID asserted)];
  assertedSubject ← deref (asserted_subject req);
  raise_if (negb (confirmsSubject (Subject_SubjectConfirmations subject)
                    (Subject_SubjectConfirmations assertedSubject)))
    (Errorf "the assertion can't be confirmed in a manner the request accepts" []).
End subjects.

(** ** Name identifier policies *)

Definition EnforceNameIDPolicy (req : IdpAuthnRequest) : outcome () :=
  policy ← deref (AuthnRequest_NameIDPolicy (Req_Request req));
  nameID ← or_err (asserted_name_id req) (Errorf "assertion has no NameID" []);
  _ ← match NameIDPolicy_Format policy with
      | None => Ret ()
      | Some format =>
          if open_format format then Ret ()
          else if format == encryptedNameIDFormat then
            Err (Errorf "the request requires an EncryptedID, which is not supported" [])
          else raise_if (NameID_Format nameID != format)
            (Errorf "the NameID format is %q and the request requires %q"
               [AStr (NameID_Format nameID); AStr format])
      end;
  match NameIDPolicy_SPNameQualifier policy with
  | None => Ret ()
  | Some q =>
      raise_if (NameID_SPNameQualifier nameID != q)
        (Errorf "the NameID SPNameQualifier is %q and the request requires %q"
           [AStr (NameID_SPNameQualifier nameID); AStr q])
  end.

(** ** Metadata *)

Definition cert_key_descriptor (use certStr : string) (methods : list EncryptionMethod) : KeyDescriptor :=
  mkKeyDescriptor use (mkKeyInfo (mkX509Data [mkX509Certificate certStr])) methods.

(** An [EntityDescriptor] with the given fields and zero values elsewhere. *)
Definition entity (entityID : string) (validUntil : Time) (cacheDuration : Duration)
    (idps : list IDPSSODescriptor) (sps : list SPSSODescriptor) : EntityDescriptor :=
  mkEntityDescriptor entityID "" validUntil cacheDuration None [] idps sps [] [] [] None None None [].

Definition role (protocols : string) (keyDescriptors : list KeyDescriptor) (validUntil : option Time)
    : RoleDescriptor :=
  mkRoleDescriptor "" validUntil "" protocols "" None keyDescriptors None [].

Section metadata.
Context {W : Type} `{UrlI : UrlOps} `{VarsI : PackageVars} `{NetI : NetOps} `{WorldI : World W}.

Definition Metadata (idp : IdentityProvider W) : IO W EntityDescriptor :=
  certificate ← lift (deref (IDP_Certificate idp));
  let certStr := base64_Encode (Certificate_Raw certificate) in
  let validDuration := default DefaultValidDuration (IDP_ValidDuration idp) in
  let keyDescriptors := (cert_key_descriptor "signing" certStr [] ::
    if is_rsa (Certificate_PublicKey certificate) then
      [cert_key_descriptor "encryption" certStr
         [mkEncryptionMethod "http://www.w3.org/2001/04/xmlenc#aes128-cbc";
          mkEncryptionMethod "http://www.w3.org/2001/04/xmlenc#aes192-cbc";
          mkEncryptionMethod "http://www.w3.org/2001/04/xmlenc#aes256-cbc";
          mkEncryptionMethod "http://www.w3.org/2001/04/xmlenc#rsa-oaep-mgf1p"]]
    else [])%list in
  let endpoints location := [mkEndpoint HTTPRedirectBinding location ""; mkEndpoint HTTPPostBinding location ""] in
  let logoutURL := URL_String (IDP_LogoutURL idp) in
  now ← TimeNow;
  mret (entity (URL_String (IDP_MetadataURL idp)) (Time_Add now validDuration) validDuration
    [mkIDPSSODescriptor
       (mkSSODescriptor (role "urn:oasis:names:tc:SAML:2.0:protocol" keyDescriptors None) []
          (if logoutURL != "" then endpoints logoutURL else []) []
          [TransientNameIDFormat])
       (if IDP_WantAuthnRequestsSigned idp then Some true else None)
       (endpoints (URL_String (IDP_SSOURL idp))) [] [] [] [] []] []).

(** ** The default assertion *)

Definition clientAddress (r : HTTPRequest) (session : Session) : string :=
  let address :=
    if Session_ClientAddress session == "" then
      match SplitHostPort (HTTPRequest_RemoteAddr r) with
      | Ret (host, _) => host
      | _ => HTTPRequest_RemoteAddr r
      end
    else Session_ClientAddress session in
  match ParseAddr address with
  | Ret ip => Addr_String (WithZone "" ip)
  | _ => ""
  end.

(** The attribute consuming service to serve: the first with [isDefault] true,
    else the first, else an empty one. *)
Definition attribute_service (d : SPSSODescriptor) : AttributeConsumingService :=
  let services := SPSSODescriptor_AttributeConsumingServices d in
  match first_that (λ acs, bool_decide (AttributeConsumingService_IsDefault acs = Some true)) services with
  | Some acs => acs
  | None => default zero_AttributeConsumingService (head services)
  end.

Definition xs_string (value : string) : AttributeValue := mkAttributeValue "xs:string" value None.

Definition is_alnum (c : ascii) : bool :=
  let n := Z.of_N (N_of_ascii c) in
  (97 <=? n) && (n <=? 122) || (65 <=? n) && (n <=? 90) || (48 <=? n) && (n <=? 57).

(** The value of a requested attribute of the given name, once its other bytes
    are removed. *)
Definition requested_value (session : Session) (attrName : string) : option string :=
  if bool_decide (attrName ∈ ["email"; "emailaddress"]) then Some (Session_UserEmail session)
  else if bool_decide (attrName ∈ ["name"; "fullname"; "cn"; "commonname"]) then
    Some (Session_UserCommonName session)
  else if bool_decide (attrName ∈ ["givenname"; "firstname"]) then Some (Session_UserGivenName session)
  else if bool_decide (attrName ∈ ["surname"; "lastname"; "familyname"]) then
    Some (Session_UserSurname session)
  else if bool_decide (attrName ∈ ["uid"; "user"; "userid"]) then Some (Session_UserName session)
  else None.

Definition requested_attribute (session : Session) (r : RequestedAttribute) : option Attribute :=
  let a := RequestedAttribute_Attribute r in
  if (Attribute_NameFormat a == "urn:oasis:names:tc:SAML:2.0:attrname-format:basic")
     || (Attribute_NameFormat a == "urn:oasis:names:tc:SAML:2.0:attrname-format:unspecified")
  then
    value ← requested_value session (remove_bytes (λ c, negb (is_alnum c)) (Attribute_Name a));
    Some (mkAttribute (Attribute_FriendlyName a) (Attribute_Name a) (Attribute_NameFormat a) [xs_string value])
  else None.

Definition uri_format := "urn:oasis:names:tc:SAML:2.0:attrname-format:uri".

(** The attribute of a session field, unless the field is empty. *)
Definition field_attribute (friendlyName name value : string) : list Attribute :=
  if value != "" then [mkAttribute friendlyName name uri_format [xs_string value]] else [].

Definition attributes (d : SPSSODescriptor) (session : Session) : list Attribute :=
  (omap (requested_attribute session) (AttributeConsumingService_RequestedAttributes (attribute_service d))
   ++ field_attribute "uid" "urn:oid:0.9.2342.19200300.100.1.1" (Session_UserName session)
   ++ field_attribute "mail" "urn:oid:0.9.2342.19200300.100.1.3" (Session_UserEmail session)
   ++ field_attribute "eduPersonPrincipalName" "urn:oid:1.3.6.1.4.1.5923.1.1.1.6"
        (if Session_EduPersonPrincipalName session == "" then Session_UserEmail session
         else Session_EduPersonPrincipalName session)
   ++ field_attribute "sn" "urn:oid:2.5.4.4" (Session_UserSurname session)
   ++ field_attribute "givenName" "urn:oid:2.5.4.42" (Session_UserGivenName session)
   ++ field_attribute "cn" "urn:oid:2.5.4.3" (Session_UserCommonName session)
   ++ field_attribute "scopedAffiliation" "urn:oid:1.3.6.1.4.1.5923.1.1.1.9"
        (Session_UserScopedAffiliation session)
   ++ Session_CustomAttributes session
   ++ (if bool_decide (length (Session_Groups session) = 0%nat) then []
       else [mkAttribute "eduPersonAffiliation" "urn:oid:1.3.6.1.4.1.5923.1.1.1.1" uri_format
               (map xs_string (Session_Groups session))])
   ++ field_attribute "" "urn:oasis:names:tc:SAML:attribute:subject-id" (Session_SubjectID session))%list.

(** The assertion that [MakeAssertion] assigns to [req.Assertion]. *)
Definition MakeAssertion (idp : IdentityProvider W) (req : IdpAuthnRequest) (session : Session)
    : IO W Assertion :=
  _ ← lift (raise_if (Session_NameID session == "") (Errorf "the session has no NameID" []));
  descriptor ← lift (deref (Req_SPSSODescriptor req));
  let attributes := attributes descriptor session in
  let notBefore := Time_Add (Req_Now req) (- MaxClockSkew) in
  let notOnOrAfterAfter := Time_Add (Req_Now req) MaxIssueDelay in
  let nameIDFormat :=
    if Session_NameIDFormat session != "" then Session_NameIDFormat session else TransientNameIDFormat in
  let address := clientAddress (Req_HTTPRequest req) session in
  id ← new_id;
  issueInstant ← TimeNow;
  issuer ← Metadata idp;
  nameQualifier ← Metadata idp;
  sp ← lift (deref (Req_ServiceProviderMetadata req));
  acs ← lift (deref (Req_ACSEndpoint req));
  let spEntityID := EntityDescriptor_EntityID sp in
  mret (mkAssertion id issueInstant "2.0"
    (mkIssuer "" "" entityNameIDFormat "" (EntityDescriptor_EntityID issuer)) None
    (Some (mkSubject
       (Some (mkNameID (EntityDescriptor_EntityID nameQualifier) spEntityID nameIDFormat ""
                (Session_NameID session)))
       [mkSubjectConfirmation bearerSubjectConfirmationMethod None
          (Some (mkSubjectConfirmationData 0 (Time_Add (Req_Now req) MaxIssueDelay)
                   (IndexedEndpoint_Location acs) (AuthnRequest_ID (Req_Request req)) address))]))
    (Some (mkConditions notBefore notOnOrAfterAfter
             [mkAudienceRestriction [mkAudience spEntityID]] None None))
    [mkAuthnStatement (Session_CreateTime session) (Session_Index session) None
       (Some (mkSubjectLocality address ""))
       (mkAuthnContext (Some (mkAuthnContextClassRef
          (if Session_AuthnContextClassRef session != "" then Session_AuthnContextClassRef session
           else defaultAuthnContextClassRef))))]
    (if bool_decide (length attributes = 0%nat) then []
     else [mkAttributeStatement attributes])).
End metadata.
