(* ===== verification/IdpResponse.v ===== *)
(** * IdpResponse: responses of the identity provider

    Signing, encrypting and delivering the response to an authentication
    request, and the handlers [ServeSSO] and [ServeIDPInitiated], of
    [src/identity_provider.go]. *)

From stdpp Require Import base option list gmap strings.
From Stdlib Require Import ZArith Lia Ascii.
From S2P Require Import Prelude Go Duration Encoding Etree C14n Schema SchemaXML Env XmlTree ServiceProvider.
From S2P Require Import DSig Redirect Http IdentityProvider Assertions.

Open Scope string_scope.
Open Scope Z_scope.

(** ** Content encryption *)

Definition contentEncryptionMethods : list BlockCipher := [AES128GCM; AES128CBC; AES192CBC; AES256CBC].

Definition firstCertificateData (keyDescriptor : KeyDescriptor) : string :=
  default "" (first_that (λ data, data != "")
    (map X509Certificate_Data
       (X509Data_X509Certificates (KeyInfo_X509Data (KeyDescriptor_KeyInfo keyDescriptor))))).

(** The methods with the given [req.SPSSODescriptor]. *)
Definition spEncryptionKeyDescriptor (d : SPSSODescriptor) : option KeyDescriptor :=
  first_some (λ use,
    first_that (λ k, (KeyDescriptor_Use k == use) && (firstCertificateData k != ""))
      (sp_key_descriptors d))
    ["encryption"; ""].

Definition contentEncryption (d : SPSSODescriptor) : BlockCipher :=
  match spEncryptionKeyDescriptor d with
  | None => AES128CBC
  | Some k =>
      default AES128CBC (first_some (λ m,
        first_that (λ c, BlockCipher_Algorithm c == EncryptionMethod_Algorithm m)
          contentEncryptionMethods)
        (KeyDescriptor_EncryptionMethods k))
  end.

Definition serviceProviderAcceptsEncryption (d : SPSSODescriptor) (metadata : option EntityDescriptor)
    : bool :=
  existsb (λ descriptor, existsb (λ k, KeyDescriptor_Use k != "signing") (sp_key_descriptors descriptor))
    (d :: match metadata with None => [] | Some m => EntityDescriptor_SPSSODescriptors m end).

Section response.
Context {W : Type} `{UrlI : UrlOps} `{VarsI : PackageVars} `{X509I : X509Ops} `{EtreeI : EtreeOps} `{XmlI : XmlOps} `{SigI : SignatureOps} `{CryptoI : CryptoOps} `{FlateI : FlateOps} `{NetI : NetOps} `{WorldI : World W} `{EncI : EncryptOps W} `{TmplI : TemplateOps}.

Definition getSPEncryptionCert (req : IdpAuthnRequest) : outcome Certificate :=
  descriptor ← deref (Req_SPSSODescriptor req);
  let certStr :=
    match spEncryptionKeyDescriptor descriptor with
    | Some k => firstCertificateData k
    | None => ""
    end in
  if certStr == "" then
    if serviceProviderAcceptsEncryption descriptor (Req_ServiceProviderMetadata req) then
      Err (Errorf "service provider metadata allows encryption but has no usable certificate in the selected descriptor" [])
    else Err os_ErrNotExist
  else
    certBytes ← map_err (Because "cannot decode certificate base64: %v" [])
      (base64_Decode (remove_bytes is_re_space certStr));
    map_err (Because "cannot parse certificate: %v" []) (ParseCertificate certBytes).

(** ** Signing *)

Definition signingContext (idp : IdentityProvider W) : outcome SigningContext :=
  certificate ← deref (IDP_Certificate idp);
  let certificates := Certificate_Raw certificate :: map Certificate_Raw (IDP_Intermediates idp) in
  signer ←
    match IDP_Signer idp with
    | Some signer => Ret signer
    | None => or_err (IDP_Key idp)
        (Errorf "identity provider key of type %T does not implement crypto.Signer" [])
    end;
  context ← NewSigningContext (Some signer) certificates;
  let signatureMethod :=
    if IDP_SignatureMethod idp == "" then
      match Signer_Public signer with
      | ECDSAPublicKey _ _ N_BitLen => DefaultECDSASignatureMethod N_BitLen
      | _ => RSASHA256SignatureMethod
      end
    else IDP_SignatureMethod idp in
  SetSignatureMethod signatureMethod
    (set_Canonicalizer (c14N10ExclusiveCanonicalizer canonicalizerPrefixList false) context).

(** [a.Signature = s] *)
Definition set_Assertion_Signature (s : Element) (a : Assertion) : Assertion :=
  mkAssertion (Assertion_ID a) (Assertion_IssueInstant a) (Assertion_Version a) (Assertion_Issuer a)
    (Some s) (Assertion_Subject a) (Assertion_Conditions a) (Assertion_AuthnStatements a)
    (Assertion_AttributeStatements a).

Definition set_Response_Signature (s : Element) (r : Response) : Response :=
  mkResponse (Response_ID r) (Response_InResponseTo r) (Response_Version r) (Response_IssueInstant r)
    (Response_Destination r) (Response_Consent r) (Response_Issuer r) (Some s) (Response_Status r)
    (Response_EncryptedAssertion r) (Response_Assertion r).

(** The last child, which must be an element. *)
Definition last_child_element (el : Element) : outcome Element :=
  deref (last (Child el) ≫= token_element).

Definition MakeAssertionEl (idp : IdentityProvider W) (req : IdpAuthnRequest) : IO W IdpAuthnRequest :=
  signingContext ← lift (signingContext idp);
  assertion ← lift (deref (Req_Assertion req));
  assertionEl ← lift (Assertion_Element assertion);
  signedAssertionEl ← lift (SignEnveloped signingContext (root_cursor assertionEl));
  sigEl ← lift (last_child_element signedAssertionEl);
  let assertion := set_Assertion_Signature sigEl assertion in
  let req := set_Assertion assertion req in
  signedAssertionEl ← lift (Assertion_Element assertion);
  match getSPEncryptionCert req with
  | Panic => lift Panic
  | Err err =>
      if err == os_ErrNotExist then mret (set_AssertionEl signedAssertionEl req) else lift (Err err)
  | Ret certBuf =>
      descriptor ← lift (deref (Req_SPSSODescriptor req));
      signedAssertionBuf ← lift (WriteToBytes signedAssertionEl);
      encryptedDataEl ← effect (OAEP_Encrypt (contentEncryption descriptor) certBuf signedAssertionBuf);
      let encryptedDataEl := CreateAttr "Type" "http://www.w3.org/2001/04/xmlenc#Element" encryptedDataEl in
      mret (set_AssertionEl (AddChild encryptedDataEl (NewElement "saml:EncryptedAssertion")) req)
  end.

Definition newResponse (idp : IdentityProvider W) (req : IdpAuthnRequest) (status : Status)
    : IO W Response :=
  acs ← lift (deref (Req_ACSEndpoint req));
  id ← new_id;
  mret (mkResponse id (AuthnRequest_ID (Req_Request req)) "2.0" (Req_Now req)
    (IndexedEndpoint_Location acs) ""
    (Some (mkIssuer "" "" entityNameIDFormat "" (URL_String (IDP_MetadataURL idp))))
    None status None None).

(** Adds the assertion, if there is one. *)
Definition add_assertion (assertionEl : option Element) (el : Element) : Element :=
  match assertionEl with Some a => AddChild a el | None => el end.

Definition signResponse (idp : IdentityProvider W) (response : Response) (assertionEl : option Element)
    : outcome Element :=
  responseEl ← Response_Element response;
  signingContext ← signingContext idp;
  signedResponseEl ← SignEnveloped signingContext (root_cursor (add_assertion assertionEl responseEl));
  signature ← deref (last (ChildElements signedResponseEl));
  responseEl ← Response_Element (set_Response_Signature signature response);
  Ret (add_assertion assertionEl responseEl).

Definition success_status : Status := mkStatus (mkStatusCode StatusSuccess None) None None.

Definition MakeResponse (idp : IdentityProvider W) (req : IdpAuthnRequest) : IO W IdpAuthnRequest :=
  req ← match Req_AssertionEl req with
        | Some _ => mret req
        | None => MakeAssertionEl idp req
        end;
  response ← newResponse idp req success_status;
  responseEl ← lift (signResponse idp response (Req_AssertionEl req));
  mret (set_ResponseEl (Some responseEl) req).

Definition error_status (topLevelStatus secondLevelStatus message : string) : Status :=
  mkStatus
    (mkStatusCode topLevelStatus
       (if secondLevelStatus != "" then Some (mkStatusCode secondLevelStatus None) else None))
    (if message != "" then Some (mkStatusMessage message) else None) None.

Definition MakeErrorResponse (idp : IdentityProvider W) (req : IdpAuthnRequest)
    (topLevelStatus secondLevelStatus message : string) : IO W IdpAuthnRequest :=
  let req := set_ResponseEl None req in
  _ ← lift (raise_if (negb (bool_decide (is_Some (Req_ACSEndpoint req))))
    (Errorf "cannot make an error response without a validated assertion consumer service" []));
  _ ← lift (raise_if (negb (bool_decide (topLevelStatus ∈ [StatusRequester; StatusResponder; StatusVersionMismatch])))
    (Errorf "invalid top-level status %q for an error response" [AStr topLevelStatus]));
  response ← newResponse idp req (error_status topLevelStatus secondLevelStatus message);
  responseEl ← lift (signResponse idp response None);
  mret (set_ResponseEl (Some responseEl) req).

(** ** Delivery *)

Definition PostBinding (idp : IdentityProvider W) (req : IdpAuthnRequest) : IO W IdpAuthnRequestForm :=
  req ← match Req_ResponseEl req with
        | Some _ => mret req
        | None => MakeResponse idp req
        end;
  responseEl ← lift (deref (Req_ResponseEl req));
  responseBuf ← lift (WriteToBytes responseEl);
  acs ← lift (deref (Req_ACSEndpoint req));
  _ ← (if IndexedEndpoint_Binding acs != HTTPPostBinding then
         sp ← lift (deref (Req_ServiceProviderMetadata req));
         lift (Err (Errorf "%s: unsupported binding %s"
           [AStr (EntityDescriptor_EntityID sp); AStr (IndexedEndpoint_Binding acs)]))
       else mret ());
  mret (mkIdpAuthnRequestForm (IndexedEndpoint_Location acs) (base64_Encode responseBuf)
          (Req_RelayState req)).

Definition response_template (idp : IdentityProvider W) : IdpAuthnRequestForm → outcome string :=
  default defaultResponseFormTemplate (IDP_ResponseFormTemplate idp).

Definition WriteResponse (idp : IdentityProvider W) (req : IdpAuthnRequest) : IO W () :=
  form ← PostBinding idp req;
  buf ← lift (response_template idp form);
  _ ← setNoCacheHeaders;
  w_Write buf.

Definition WriteErrorResponse (idp : IdentityProvider W) (req : IdpAuthnRequest)
    (topLevelStatus secondLevelStatus message : string) : IO W () :=
  req ← MakeErrorResponse idp req topLevelStatus secondLevelStatus message;
  WriteResponse idp req.

(** [if err := m; err != nil { log; http.Error(500) }] *)
Definition or_internal_error (m : IO W ()) : IO W () :=
  on_result m mret (λ err, _ ← log "failed to write response: %s" [] (Some err); http_error 500).

Definition writeErrorStatus (idp : IdentityProvider W) (req : IdpAuthnRequest) (secondLevelStatus : string)
    : IO W () :=
  or_internal_error (WriteErrorResponse idp req StatusResponder secondLevelStatus "").

(** ** Handlers *)

(** [b != nil && *b] *)
Definition is_true (b : option bool) : bool := bool_decide (b = Some true).

Definition getSession (idp : IdentityProvider W) (r : HTTPRequest) (req : IdpAuthnRequest)
    : IO W (option Session) :=
  let provider := IDP_SessionProvider idp in
  if is_true (AuthnRequest_IsPassive (Req_Request req)) then
    session ← match GetPassiveSession provider with
              | Some get => reads (get r req) ≫= λ session, lift (deref session)
              | None => mret None
              end;
    _ ← match session with
        | None => writeErrorStatus idp req StatusNoPassive
        | Some _ => mret ()
        end;
    mret session
  else if is_true (AuthnRequest_ForceAuthn (Req_Request req)) then
    match GetForcedSession provider with
    | None => _ ← writeErrorStatus idp req StatusAuthnFailed; mret None
    | Some get => handle (get r req)
    end
  else handle (GetSession provider r req).

(** [assertionMaker.MakeAssertion(req, session)] with the default. *)
Definition make_assertion (idp : IdentityProvider W) (req : IdpAuthnRequest) (session : Session)
    : IO W IdpAuthnRequest :=
  assertion ← match IDP_AssertionMaker idp with
              | None => MakeAssertion idp req session
              | Some maker => effect (maker req session)
              end;
  mret (set_Assertion assertion req).

(** One of the blocks of [ServeSSO] that asks an enforcer, if the request sets
    the constraint: whether the handler returns here, having sent an error
    response. *)
Definition refused (idp : IdentityProvider W) (req : IdpAuthnRequest) (session : Session)
    (constraint : bool) (enforcer : Enforcer W) (message topLevelStatus secondLevelStatus : string)
    : IO W bool :=
  if constraint then
    on_result (effect (enforcer req session)) (λ _, mret false) (λ err,
      _ ← log message [] (Some err);
      _ ← or_internal_error (WriteErrorResponse idp req topLevelStatus secondLevelStatus "");
      mret true)
  else mret false.

Definition subject_enforcer (idp : IdentityProvider W) : Enforcer W :=
  default (λ req _ w, (w, EnforceSubject req)) (IDP_SubjectEnforcer idp).
Definition name_id_policy_enforcer (idp : IdentityProvider W) : Enforcer W :=
  default (λ req _ w, (w, EnforceNameIDPolicy req)) (IDP_NameIDPolicyEnforcer idp).
Definition authn_context_enforcer (idp : IdentityProvider W) : Enforcer W :=
  default (λ req _ w, (w, EnforceAuthnContext (mkDefaultAuthnContextEnforcer ∅) req))
    (IDP_AuthnContextEnforcer idp).

(** [if err := m; err != nil { log; http.Error(code); return }] *)
Definition or_http_error {A} (m : IO W A) (message : string) (args : list arg) (code : Z)
    (k : A → IO W ()) : IO W () :=
  on_result m k (λ err, _ ← log message args (Some err); http_error code).

(** [if c { return }; k] *)
Definition unless (c : bool) (k : IO W ()) : IO W () := if c then mret () else k.

Definition ServeSSO (idp : IdentityProvider W) (r : HTTPRequest) : IO W () :=
  or_http_error (NewIdpAuthnRequest r) "failed to parse request: %s" [] 400 (λ req,
  or_http_error (Validate idp req) "failed to validate request: %s" [] 400 (λ req,
  session ← getSession idp r req;
  match session with
  | None => mret ()
  | Some session =>
      or_http_error (make_assertion idp req session) "failed to make assertion: %s" [] 500 (λ req,
      let request := Req_Request req in
      returned ← refused idp req session (bool_decide (is_Some (AuthnRequest_Subject request)))
        (subject_enforcer idp) "cannot match the request subject: %s"
        StatusResponder StatusAuthnFailed;
      unless returned (
      returned ← refused idp req session (bool_decide (is_Some (AuthnRequest_NameIDPolicy request)))
        (name_id_policy_enforcer idp) "cannot satisfy name id policy: %s"
        StatusRequester StatusInvalidNameIDPolicy;
      unless returned (
      returned ← refused idp req session
        (bool_decide (is_Some (AuthnRequest_RequestedAuthnContext request)))
        (authn_context_enforcer idp) "cannot satisfy requested authn context: %s"
        StatusResponder StatusNoAuthnContext;
      unless returned (or_internal_error (WriteResponse idp req)))))
  end)).

Definition ServeIDPInitiated (idp : IdentityProvider W) (r : HTTPRequest)
    (serviceProviderID relayState : string) : IO W () :=
  now ← TimeNow;
  let req := empty_request r relayState "" "" now in
  session ← handle (GetSession (IDP_SessionProvider idp) r req);
  match session with
  | None => mret ()
  | Some session =>
      on_result (effect (IDP_ServiceProviderProvider idp r serviceProviderID))
        (λ metadata,
          on_result (lift (useDefaultACSEndpoint (set_Metadata metadata req)))
            (λ req,
              or_http_error (make_assertion idp req session) "failed to make assertion: %s" [] 500 (λ req,
              or_internal_error (WriteResponse idp req)))
            (λ _,
              _ ← log "saml metadata does not contain an Assertion Customer Service url" [] None;
              http_error 500))
        (λ err,
          if err == os_ErrNotExist then
            _ ← log "cannot find service provider: %s" [AStr serviceProviderID] None;
            http_error 404
          else
            _ ← log "cannot find service provider %s: %v" [AStr serviceProviderID] (Some err);
            http_error 500)
  end.
End response.
