(* ===== verification/IdpLogout.v ===== *)
(** * IdpLogout: logout requests from service providers

    [src/identity_provider_logout.go]: reading and validating a [LogoutRequest],
    choosing the endpoint for the response, and [ServeSLO]. *)

From stdpp Require Import base option list gmap strings.
From Stdlib Require Import ZArith Lia Ascii.
From S2P Require Import Prelude Go Duration Encoding Etree C14n Schema SchemaXML Env XmlTree ServiceProvider.
From S2P Require Import DSig Redirect Http IdentityProvider Assertions IdpResponse.

Open Scope string_scope.
Open Scope Z_scope.

Definition ErrPartialLogout := Sentinel "saml.ErrPartialLogout".

(** [req.f = v] *)
Definition set_Logout_Request (v : LogoutRequest) (r : IdpLogoutRequest) : IdpLogoutRequest :=
  let 'mkIdpLogoutRequest h rs b _ md e now q bi := r in mkIdpLogoutRequest h rs b v md e now q bi.
Definition set_Logout_Metadata (v : option EntityDescriptor) (r : IdpLogoutRequest) : IdpLogoutRequest :=
  let 'mkIdpLogoutRequest h rs b rq _ e now q bi := r in mkIdpLogoutRequest h rs b rq v e now q bi.
Definition set_SLOEndpoint (v : Endpoint) (r : IdpLogoutRequest) : IdpLogoutRequest :=
  let 'mkIdpLogoutRequest h rs b rq md _ now q bi := r in mkIdpLogoutRequest h rs b rq md (Some v) now q bi.

Definition empty_logout_request (r : HTTPRequest) (relayState buffer redirectQuery binding : string)
    (now : Time) : IdpLogoutRequest :=
  mkIdpLogoutRequest r relayState buffer zero_LogoutRequest None None now redirectQuery binding.

Section logout.
Context {W : Type} `{UrlI : UrlOps} `{VarsI : PackageVars} `{X509I : X509Ops} `{EtreeI : EtreeOps} `{XmlI : XmlOps} `{SigI : SignatureOps} `{CryptoI : CryptoOps} `{FlateI : FlateOps} `{WorldI : World W} `{TmplI : TemplateOps}.

Definition NewIdpLogoutRequest (r : HTTPRequest) : IO W IdpLogoutRequest :=
  now ← TimeNow;
  lift (
    if HTTPRequest_Method r == "GET" then
      b ← readRedirectRequest (URL_RawQuery (HTTPRequest_URL r));
      let '(buf, relayState, signedQuery) := b in
      Ret (empty_logout_request r relayState buf signedQuery HTTPRedirectBinding now)
    else if HTTPRequest_Method r == "POST" then
      postForm ← ParseForm maxAuthnRequestBodySize r;
      b ← read_form postForm;
      Ret (empty_logout_request r b.2 b.1 "" HTTPPostBinding now)
    else Err (Errorf "method not allowed" [])).

Definition logout_checkRequest (idp : IdentityProvider W) (request : LogoutRequest) (now : Time)
    : outcome () :=
  let logoutURL := URL_String (IDP_LogoutURL idp) in
  _ ← raise_if (LogoutRequest_Destination request != logoutURL)
    (Errorf "expected destination to be %q, not %q" [AStr logoutURL; AStr (LogoutRequest_Destination request)]);
  let expiry := Time_Add (LogoutRequest_IssueInstant request) MaxIssueDelay in
  _ ← raise_if (Time_Before expiry now) (Errorf "request expired at %s" [ATime expiry]);
  _ ← raise_if (Time_After (LogoutRequest_IssueInstant request) (Time_Add now MaxClockSkew))
    (Errorf "request issued in the future at %s" [ATime (LogoutRequest_IssueInstant request)]);
  _ ← match LogoutRequest_NotOnOrAfter request with
      | None => Ret ()
      | Some t => raise_if (negb (Time_Before now t)) (Errorf "request expired at %s" [ATime t])
      end;
  _ ← raise_if (LogoutRequest_Version request != "2.0")
    (Errorf "expected SAML request version 2.0 got %v" [AStr (LogoutRequest_Version request)]);
  _ ← raise_if (negb (isValidAuthnRequestID (LogoutRequest_ID request))) (Errorf "invalid request ID" []);
  raise_if (no_issuer (LogoutRequest_Issuer request)) (Errorf "request has no issuer" []).

(** The last part of [verifySignature]: the content that an embedded signature
    covers replaces the request. *)
Definition use_verified_logout (idp : IdentityProvider W) (req : IdpLogoutRequest)
    (verified : option Element) : outcome IdpLogoutRequest :=
  issuer ← deref (LogoutRequest_Issuer (Logout_Request req));
  verified ← deref verified;
  request ← unmarshalElement Unmarshal_LogoutRequest (root_cursor verified);
  _ ← logout_checkRequest idp request (Logout_Now req);
  issuer' ← deref (LogoutRequest_Issuer request);
  _ ← raise_if (Issuer_Value issuer' != Issuer_Value issuer)
    (Errorf "signed request has a different issuer" []);
  Ret (set_Logout_Request request req).

Definition logout_verifySignature (idp : IdentityProvider W) (req : IdpLogoutRequest)
    : IO W IdpLogoutRequest :=
  root ← lift (ReadFromBytes (Logout_RequestBuffer req));
  root ← lift (or_err root (Errorf "request has no root element" []));
  signatureEl ← lift (findChild (root_cursor root) dsig_Namespace "Signature");
  let signed := bool_decide (is_Some signatureEl) in
  _ ← lift (raise_if ((Logout_RedirectQuery req == "") && negb signed) (Errorf "request is not signed" []));
  metadata ← lift (deref (Logout_ServiceProviderMetadata req));
  certificates ← lift (serviceProviderSigningCertificates metadata);
  _ ← lift (raise_if (bool_decide (certificates = []))
    (Errorf "request is signed but the service provider has no signing certificate" []));
  _ ← (if Logout_RedirectQuery req != "" then
         now ← redirect_now;
         lift (map_err (Wrap "invalid request signature: %w" [])
           (verifyRedirectSignature (Logout_RedirectQuery req) "SAMLRequest" certificates now))
       else mret ());
  if signed then
    on_result (verifyEnvelopedSignature (root_cursor root) certificates)
      (λ verified, lift (use_verified_logout idp req verified))
      (λ err, lift (Err (Wrap "invalid request signature: %w" [] err)))
  else mret req.

(** The endpoints in the order of the two inner loops. *)
Definition slo_endpoints (metadata : EntityDescriptor) : list Endpoint :=
  flat_map (λ d, SSODescriptor_SingleLogoutServices (SPSSODescriptor_SSODescriptor d))
    (EntityDescriptor_SPSSODescriptors metadata).

Definition getSLOEndpoint (req : IdpLogoutRequest) : outcome IdpLogoutRequest :=
  metadata ← deref (Logout_ServiceProviderMetadata req);
  endpoint ← or_err
    (first_some (λ binding, first_that (λ e, Endpoint_Binding e == binding) (slo_endpoints metadata))
       [Logout_binding req; HTTPRedirectBinding; HTTPPostBinding])
    (Errorf "service provider %s has no SingleLogoutService with a supported binding"
       [AStr (EntityDescriptor_EntityID metadata)]);
  Ret (set_SLOEndpoint endpoint req).

(** [req.Request.NameID == nil || req.Request.NameID.Value == ""] *)
Definition no_name_id (nameID : option NameID) : bool :=
  match nameID with None => true | Some n => NameID_Value n == "" end.

Definition logout_Validate (idp : IdentityProvider W) (req : IdpLogoutRequest) : IO W IdpLogoutRequest :=
  _ ← lift (checkAuthnRequestSize (Logout_RequestBuffer req));
  _ ← lift (xrv_Validate (Logout_RequestBuffer req));
  request ← lift (Unmarshal_LogoutRequest (Logout_RequestBuffer req));
  let req := set_Logout_Request request req in
  _ ← lift (logout_checkRequest idp request (Logout_Now req));
  issuer ← lift (deref (LogoutRequest_Issuer request));
  let serviceProviderID := Issuer_Value issuer in
  serviceProvider ←
    on_result (effect (IDP_ServiceProviderProvider idp (Logout_HTTPRequest req) serviceProviderID)) mret
      (λ err, lift (Err (
        if errors_Is err os_ErrNotExist then
          Errorf "cannot handle request from unknown service provider %s" [AStr serviceProviderID]
        else Because "cannot find service provider %s: %v" [AStr serviceProviderID] err)));
  let req := set_Logout_Metadata serviceProvider req in
  req ← logout_verifySignature idp req;
  lift (
    _ ← raise_if (no_name_id (LogoutRequest_NameID (Logout_Request req)))
      (Errorf "request has no NameID" []);
    getSLOEndpoint req).

(** ** The response *)

Definition responseLocation (endpoint : Endpoint) : string :=
  if Endpoint_ResponseLocation endpoint != "" then Endpoint_ResponseLocation endpoint
  else Endpoint_Location endpoint.

Definition logout_MakeResponse (idp : IdentityProvider W) (req : IdpLogoutRequest) (status : Status)
    : IO W LogoutResponse :=
  id ← new_id;
  endpoint ← lift (deref (Logout_SLOEndpoint req));
  mret (mkLogoutResponse id (LogoutRequest_ID (Logout_Request req)) "2.0" (Logout_Now req)
    (responseLocation endpoint) ""
    (Some (mkIssuer "" "" entityNameIDFormat "" (URL_String (IDP_MetadataURL idp)))) None status).

Definition set_LogoutResponse_Signature (s : Element) (r : LogoutResponse) : LogoutResponse :=
  mkLogoutResponse (LogoutResponse_ID r) (LogoutResponse_InResponseTo r) (LogoutResponse_Version r)
    (LogoutResponse_IssueInstant r) (LogoutResponse_Destination r) (LogoutResponse_Consent r)
    (LogoutResponse_Issuer r) (Some s) (LogoutResponse_Status r).

Definition logout_WriteResponse (idp : IdentityProvider W) (req : IdpLogoutRequest) (status : Status)
    : IO W () :=
  response ← logout_MakeResponse idp req status;
  signingContext ← lift (signingContext idp);
  _ ← setNoCacheHeaders;
  endpoint ← lift (deref (Logout_SLOEndpoint req));
  if Endpoint_Binding endpoint == HTTPRedirectBinding then
    u ← lift (redirectURLWithContext (LogoutResponse_Destination response) "SAMLResponse"
                (LogoutResponse_Element response) (Logout_RelayState req) (Some signingContext));
    http_Redirect (Logout_HTTPRequest req) (URL_String u) 302
  else if Endpoint_Binding endpoint == HTTPPostBinding then
    signedEl ← lift (SignEnveloped signingContext (root_cursor (LogoutResponse_Element response)));
    signature ← lift (deref (last (ChildElements signedEl)));
    let response := set_LogoutResponse_Signature signature response in
    buf ← lift (WriteToBytes (LogoutResponse_Element response));
    let form := mkIdpAuthnRequestForm (LogoutResponse_Destination response) (base64_Encode buf)
                  (Logout_RelayState req) in
    body ← lift (response_template idp form);
    w_Write body
  else lift (Err (Errorf "unsupported binding %s" [AStr (Endpoint_Binding endpoint)])).

(** The status that the result of terminating the session calls for. *)
Definition terminate_session (idp : IdentityProvider W) (r : HTTPRequest) (req : IdpLogoutRequest)
    : IO W Status :=
  match TerminateSession (IDP_SessionProvider idp) with
  | None =>
      _ ← log "cannot terminate session: the session provider does not implement LogoutSessionProvider" [] None;
      mret (error_status StatusResponder "" "")
  | Some terminate =>
      on_result (terminate r req) (λ _, mret success_status) (λ err,
        if errors_Is err ErrPartialLogout then mret (error_status StatusSuccess StatusPartialLogout "")
        else
          _ ← log "cannot terminate session: %s" [] (Some err);
          mret (error_status StatusResponder "" ""))
  end.

Definition ServeSLO (idp : IdentityProvider W) (r : HTTPRequest) : IO W () :=
  or_http_error (NewIdpLogoutRequest r) "failed to parse logout request: %s" [] 400 (λ req,
  or_http_error (logout_Validate idp req) "failed to validate logout request: %s" [] 400 (λ req,
  status ← terminate_session idp r req;
  or_http_error (logout_WriteResponse idp req status) "failed to write logout response: %s" [] 500 mret)).
End logout.
