(* ===== verification/SPMessages.v ===== *)
(** * SPMessages: what the service provider sends, and what it does with answers

    The rest of [src/service_provider.go]: its metadata, the requests and
    responses it makes and signs, artifact resolution over HTTP, and the
    validation of logout responses. *)

From stdpp Require Import base option list gmap strings.
From Stdlib Require Import ZArith Lia Ascii.
From S2P Require Import Prelude Go Duration Encoding Etree C14n Schema SchemaXML Env XmlTree ServiceProvider.
From S2P Require Import DSig Redirect Http Assertions IdpResponse IdpLogout.

Open Scope string_scope.
Open Scope Z_scope.

(** The package variables of artifact resolution. *)
Definition maxArtifactResponseSize : Z := 10 * 1024 * 1024.
Definition defaultArtifactResolutionTimeout : Duration := 30 * 1000000000.

(** [req.Signature = sigEl] *)
Definition set_ArtifactResolve_Signature (s : Element) (r : ArtifactResolve) : ArtifactResolve :=
  let 'mkArtifactResolve id v t i _ a := r in mkArtifactResolve id v t i (Some s) a.
Definition set_AuthnRequest_Signature (s : Element) (r : AuthnRequest) : AuthnRequest :=
  let 'mkAuthnRequest id v t d c i _ su n co ra f p ix u b ax pn := r in
  mkAuthnRequest id v t d c i (Some s) su n co ra f p ix u b ax pn.
Definition set_LogoutRequest_Signature (s : option Element) (r : LogoutRequest) : LogoutRequest :=
  let 'mkLogoutRequest id v t e d i n _ x := r in mkLogoutRequest id v t e d i n s x.
Definition unsign_LogoutResponse (r : LogoutResponse) : LogoutResponse :=
  let 'mkLogoutResponse id i v t d c issuer _ st := r in mkLogoutResponse id i v t d c issuer None st.

(** ** Configuration *)

Section configuration.
Context {W : Type} `{UrlI : UrlOps} `{WorldI : World W}.

Implicit Types sp : ServiceProvider.

(** The issuer of every message. *)
Definition sp_issuer sp : Issuer := mkIssuer "" "" entityNameIDFormat "" (sp_audience sp).

Definition sp_metadata_at sp (now : Time) : EntityDescriptor :=
  let validDuration :=
    if 0 <? SP_MetadataValidDuration sp then SP_MetadataValidDuration sp else DefaultValidDuration in
  let authnRequestsSigned := SP_SignatureMethod sp != "" in
  let validUntil := Time_Add now validDuration in
  let keyDescriptors :=
    match SP_Certificate sp with
    | None => []
    | Some certificate =>
        let certBytes := foldl (λ acc i, acc +++ Certificate_Raw i) (Certificate_Raw certificate)
                           (SP_Intermediates sp) in
        let certStr := base64_Encode certBytes in
        ((if is_rsa (Certificate_PublicKey certificate) then
            [cert_key_descriptor "encryption" certStr
               [mkEncryptionMethod "http://www.w3.org/2009/xmlenc11#aes128-gcm";
                mkEncryptionMethod "http://www.w3.org/2001/04/xmlenc#aes128-cbc";
                mkEncryptionMethod "http://www.w3.org/2001/04/xmlenc#aes192-cbc";
                mkEncryptionMethod "http://www.w3.org/2001/04/xmlenc#aes256-cbc";
                mkEncryptionMethod "http://www.w3.org/2001/04/xmlenc#rsa-oaep-mgf1p"]]
          else []) ++
         (if SP_SignatureMethod sp != "" then [cert_key_descriptor "signing" certStr []] else []))%list
    end in
  let slo := URL_String (SP_SloURL sp) in
  let acs := URL_String (SP_AcsURL sp) in
  entity (sp_audience sp) validUntil 0 []
    [mkSPSSODescriptor
       (mkSSODescriptor (role nsProtocol keyDescriptors (Some validUntil)) []
          (map (λ binding, mkEndpoint binding slo slo) (SP_LogoutBindings sp)) []
          [SP_AuthnNameIDFormat sp])
       (Some authnRequestsSigned) (Some true)
       [mkIndexedEndpoint HTTPPostBinding acs None 1 None;
        mkIndexedEndpoint HTTPArtifactBinding acs None 2 None] []].

Definition sp_Metadata sp : IO W EntityDescriptor :=
  now ← TimeNow; mret (sp_metadata_at sp now).

(** The location of the first endpoint with the binding, or "". *)
Definition binding_location (services : IDPSSODescriptor → list Endpoint) sp (binding : string)
    : outcome string :=
  metadata ← deref (SP_IDPMetadata sp);
  Ret match first_that (λ e, Endpoint_Binding e == binding)
              (flat_map services (EntityDescriptor_IDPSSODescriptors metadata)) with
      | Some e => Endpoint_Location e
      | None => ""
      end.

Definition GetSSOBindingLocation := binding_location IDPSSODescriptor_SingleSignOnServices.
Definition GetArtifactBindingLocation := binding_location IDPSSODescriptor_ArtifactResolutionServices.
Definition GetSLOBindingLocation :=
  binding_location (λ d, SSODescriptor_SingleLogoutServices (IDPSSODescriptor_SSODescriptor d)).

Definition nameIDFormat sp : string :=
  let format := SP_AuthnNameIDFormat sp in
  if format == "" then TransientNameIDFormat
  else if format == UnspecifiedNameIDFormat then ""
  else format.
End configuration.

(** ** Making messages *)

Section messages.
Context {W : Type} `{UrlI : UrlOps} `{EtreeI : EtreeOps} `{XmlI : XmlOps} `{CryptoI : CryptoOps} `{FlateI : FlateOps} `{WorldI : World W} `{FormI : PostFormOps}.

Implicit Types sp : ServiceProvider.

Definition is_rsa_key (signer : option Signer) : bool :=
  match signer with Some s => is_rsa (Signer_Public s) | None => false end.
Definition is_ecdsa_key (signer : option Signer) : bool :=
  match signer with Some s => is_ecdsa (Signer_Public s) | None => false end.

Definition GetSigningContext sp : outcome SigningContext :=
  certificate ← deref (SP_Certificate sp);
  let chain := [Certificate_Raw certificate] in
  let method := SP_SignatureMethod sp in
  _ ←
    (if bool_decide (method ∈ rsa_methods) then
       raise_if (negb (is_rsa_key (SP_Key sp)))
         (Errorf "signature method %s requires an RSA key, not %T" [AStr method])
     else if bool_decide (method ∈ ecdsa_methods) then
       raise_if (negb (is_ecdsa_key (SP_Key sp)))
         (Errorf "signature method %s requires an ECDSA key, not %T" [AStr method])
     else Err (Errorf "invalid signing method %s" [AStr method]));
  signingContext ← NewSigningContext (SP_Key sp) chain;
  SetSignatureMethod method
    (set_Canonicalizer (c14N10ExclusiveCanonicalizer canonicalizerPrefixList false) signingContext).

(** The [Signature] that each of the [Sign] methods adds to its message. *)
Definition sign_message sp (el : Element) : outcome Element :=
  signingContext ← GetSigningContext sp;
  signedRequestEl ← SignEnveloped signingContext (root_cursor el);
  last_child_element signedRequestEl.

Definition SignArtifactResolve sp (req : ArtifactResolve) : outcome ArtifactResolve :=
  sigEl ← sign_message sp (ArtifactResolve_Element req);
  Ret (set_ArtifactResolve_Signature sigEl req).

Definition SignAuthnRequest sp (req : AuthnRequest) : outcome AuthnRequest :=
  sigEl ← sign_message sp (AuthnRequest_Element req);
  Ret (set_AuthnRequest_Signature sigEl req).

Definition SignLogoutRequest sp (req : LogoutRequest) : outcome LogoutRequest :=
  sigEl ← sign_message sp (LogoutRequest_Element req);
  Ret (set_LogoutRequest_Signature (Some sigEl) req).

Definition SignLogoutResponse sp (resp : LogoutResponse) : outcome LogoutResponse :=
  sigEl ← sign_message sp (LogoutResponse_Element resp);
  Ret (set_LogoutResponse_Signature sigEl resp).

Definition MakeArtifactResolveRequest sp (artifactID : string) : IO W ArtifactResolve :=
  id ← new_id;
  issueInstant ← TimeNow;
  let req := mkArtifactResolve id "2.0" issueInstant (Some (sp_issuer sp)) None artifactID in
  if SP_SignatureMethod sp != "" then lift (SignArtifactResolve sp req) else mret req.

Definition MakeAuthenticationRequest sp (idpURL binding resultBinding : string) : IO W AuthnRequest :=
  id ← new_id;
  issueInstant ← TimeNow;
  let policy := mkNameIDPolicy (Some (nameIDFormat sp)) None (Some true) in
  let req := mkAuthnRequest id "2.0" issueInstant idpURL "" (Some (sp_issuer sp)) None None (Some policy)
               None (SP_RequestedAuthnContext sp) (SP_ForceAuthn sp) None ""
               (URL_String (SP_AcsURL sp)) resultBinding "" "" in
  if (SP_SignatureMethod sp != "") && (binding == HTTPPostBinding)
  then lift (SignAuthnRequest sp req) else mret req.

Definition MakeLogoutRequest sp (idpURL nameID : string) : IO W LogoutRequest :=
  id ← new_id;
  issueInstant ← TimeNow;
  idpMetadata ← lift (deref (SP_IDPMetadata sp));
  metadata ← sp_Metadata sp;
  let req := mkLogoutRequest id "2.0" issueInstant None idpURL (Some (sp_issuer sp))
               (Some (mkNameID (EntityDescriptor_EntityID idpMetadata) (EntityDescriptor_EntityID metadata)
                        (nameIDFormat sp) "" nameID)) None [] in
  if SP_SignatureMethod sp != "" then lift (SignLogoutRequest sp req) else mret req.

Definition MakeLogoutResponse sp (idpURL logoutRequestID : string) : IO W LogoutResponse :=
  id ← new_id;
  issueInstant ← TimeNow;
  let response := mkLogoutResponse id logoutRequestID "2.0" issueInstant idpURL ""
                    (Some (sp_issuer sp)) None (mkStatus (mkStatusCode StatusSuccess None) None None) in
  if SP_SignatureMethod sp != "" then lift (SignLogoutResponse sp response) else mret response.

(** ** Delivering them *)

Definition redirectURL (destination parameter : string) (message : Element) (relayState : string)
    (sp : option ServiceProvider) : outcome URL :=
  signingContext ←
    match sp with
    | None => Ret None
    | Some sp =>
        if SP_SignatureMethod sp != "" then
          context ← GetSigningContext sp; Ret (Some context)
        else Ret None
    end;
  redirectURLWithContext destination parameter message relayState signingContext.

Definition AuthnRequest_Redirect (r : AuthnRequest) (relayState : string) (sp : option ServiceProvider)
    : outcome URL :=
  redirectURL (AuthnRequest_Destination r) "SAMLRequest" (AuthnRequest_Element r) relayState sp.

Definition LogoutRequest_Redirect (r : LogoutRequest) (relayState : string) (sp : option ServiceProvider)
    : outcome URL :=
  redirectURL (LogoutRequest_Destination r) "SAMLRequest"
    (LogoutRequest_Element (set_LogoutRequest_Signature None r)) relayState sp.

Definition LogoutResponse_Redirect (r : LogoutResponse) (relayState : string) (sp : option ServiceProvider)
    : outcome URL :=
  redirectURL (LogoutResponse_Destination r) "SAMLResponse"
    (LogoutResponse_Element (unsign_LogoutResponse r)) relayState sp.

Definition LogoutRequest_Bytes (r : LogoutRequest) : outcome string := WriteToBytes (LogoutRequest_Element r).

(** Writing to a [bytes.Buffer] does not fail. *)
Definition LogoutRequest_Deflate (r : LogoutRequest) : outcome string :=
  buf ← LogoutRequest_Bytes r;
  Ret (flate_Compress buf).

Definition NameIDFormat_Element (n : string) : Element := SetText n (NewElement "").

(** The form of the three [Post] methods, which panic when they cannot write it. *)
Definition post_message (parameter destination : string) (message : Element) (relayState : string)
    : outcome string :=
  reqBuf ← must (WriteToBytes message);
  must (saml_post_form parameter destination (base64_Encode reqBuf) relayState).

Definition AuthnRequest_Post (r : AuthnRequest) (relayState : string) : outcome string :=
  post_message "SAMLRequest" (AuthnRequest_Destination r) (AuthnRequest_Element r) relayState.
Definition LogoutRequest_Post (r : LogoutRequest) (relayState : string) : outcome string :=
  post_message "SAMLRequest" (LogoutRequest_Destination r) (LogoutRequest_Element r) relayState.
Definition LogoutResponse_Post (r : LogoutResponse) (relayState : string) : outcome string :=
  post_message "SAMLResponse" (LogoutResponse_Destination r) (LogoutResponse_Element r) relayState.

Definition MakeRedirectAuthenticationRequest sp (relayState : string) : IO W URL :=
  location ← lift (GetSSOBindingLocation sp HTTPRedirectBinding);
  req ← MakeAuthenticationRequest sp location HTTPRedirectBinding HTTPPostBinding;
  lift (AuthnRequest_Redirect req relayState (Some sp)).

Definition MakePostAuthenticationRequest sp (relayState : string) : IO W string :=
  location ← lift (GetSSOBindingLocation sp HTTPPostBinding);
  req ← MakeAuthenticationRequest sp location HTTPPostBinding HTTPPostBinding;
  lift (AuthnRequest_Post req relayState).

Definition MakeRedirectLogoutRequest sp (nameID relayState : string) : IO W URL :=
  location ← lift (GetSLOBindingLocation sp HTTPRedirectBinding);
  req ← MakeLogoutRequest sp location nameID;
  lift (LogoutRequest_Redirect req relayState (Some sp)).

Definition MakePostLogoutRequest sp (nameID relayState : string) : IO W string :=
  location ← lift (GetSLOBindingLocation sp HTTPPostBinding);
  req ← MakeLogoutRequest sp location nameID;
  lift (LogoutRequest_Post req relayState).

Definition MakeRedirectLogoutResponse sp (logoutRequestID relayState : string) : IO W URL :=
  location ← lift (GetSLOBindingLocation sp HTTPRedirectBinding);
  resp ← MakeLogoutResponse sp location logoutRequestID;
  lift (LogoutResponse_Redirect resp relayState (Some sp)).

Definition MakePostLogoutResponse sp (logoutRequestID relayState : string) : IO W string :=
  location ← lift (GetSLOBindingLocation sp HTTPPostBinding);
  resp ← MakeLogoutResponse sp location logoutRequestID;
  lift (LogoutResponse_Post resp relayState).
End messages.

(** ** Attributes of an assertion *)

Record AssertionAttribute := mkAssertionAttribute {
  AssertionAttribute_FriendlyName : string;
  AssertionAttribute_Name : string;
  AssertionAttribute_Value : string
}.

Definition AssertionAttributes_Get (aa : list AssertionAttribute) (name : string)
    : option AssertionAttribute :=
  first_that (λ attr, (AssertionAttribute_Name attr == name)
                      || (AssertionAttribute_FriendlyName attr == name)) aa.

(** ** Artifact resolution *)

Section artifacts.
Context {W : Type} `{UrlI : UrlOps} `{VarsI : PackageVars} `{X509I : X509Ops} `{EtreeI : EtreeOps} `{XmlI : XmlOps} `{SigI : SignatureOps} `{EncI : XmlEncOps} `{CryptoI : CryptoOps} `{WorldI : World W} `{HttpI : HttpOps W}.

Implicit Types sp : ServiceProvider.

Definition artifact_client sp : HTTPClient :=
  let httpClient := http_DefaultClient in
  let httpClient :=
    if Client_Timeout httpClient =? 0 then
      mkHTTPClient (Client_Transport httpClient) (Client_CheckRedirect httpClient)
        defaultArtifactResolutionTimeout
    else httpClient in
  let httpClient := default httpClient (SP_HTTPClient sp) in
  mkHTTPClient (Client_Transport httpClient) UseLastResponse (Client_Timeout httpClient).

(** [h] is applied to the errors of [m]. *)
Definition map_io_err {A} (h : error → error) (m : IO W A) : IO W A :=
  on_result m mret (λ e, lift (Err (h e))).

(** The body of the response, if it can be used. *)
Definition artifact_body (response : ClientResponse W) : IO W string :=
  _ ← lift (raise_if (negb (Response_StatusCode response =? 200))
        (Errorf "Error during artifact resolution: HTTP status %d (%s)"
           [AInt (Response_StatusCode response); AStr (Response_StatusText response)]));
  responseBody ← map_io_err (Because "Error during artifact resolution: %s" [])
    (effect (Response_ReadAll response (maxArtifactResponseSize + 1)));
  _ ← lift (raise_if (maxArtifactResponseSize <? Z.of_nat (String.length responseBody))
        (Errorf "Error during artifact resolution: response too large, the limit is %d bytes"
           [AInt maxArtifactResponseSize]));
  mret responseBody.

Definition close_body (response : ClientResponse W) : IO W () :=
  on_result (effect (Response_Close response)) mret (λ err,
    log "Error while closing response body during artifact resolution: %v" [] (Some err)).

Definition handleArtifactRequest sp (artifactID : string) (possibleRequestIDs : list string)
    : IO W Assertion :=
  retNow ← TimeNow;
  let retErr err := InvalidResponseError err "" retNow in
  artifactResolveRequest ←
    map_io_err (λ err, retErr (Because "cannot generate artifact resolution request: %s" [] err))
      (MakeArtifactResolveRequest sp artifactID);
  requestBody ← lift (map_err retErr
    (elementToBytes (root_cursor (ArtifactResolve_SoapRequest artifactResolveRequest))));
  location ← lift (GetArtifactBindingLocation sp SOAPBinding);
  req ← lift (map_err retErr (NewRequest "POST" location requestBody));
  let req := mkClientRequest (ClientRequest_Method req) (ClientRequest_URL req)
               [("Content-Type", "text/xml")] (ClientRequest_Body req) in
  response ← map_io_err (λ err, retErr (Because "cannot resolve artifact: %s" [] err))
    (effect (Client_Do (artifact_client sp) req));
  deferred (close_body response) (
    responseBody ← map_io_err retErr (artifact_body response);
    now ← TimeNow;
    clock ← Clock_Now;
    lift (ParseXMLArtifactResponse sp responseBody possibleRequestIDs
            (ArtifactResolve_ID artifactResolveRequest) (ClientRequest_URL req) now clock)).

(** [Form] and [PostForm] are those of the request, whose form is parsed. *)
Definition ParseResponse sp (Form PostForm : url_Values) (reqURL : URL)
    (possibleRequestIDs : list string) : IO W Assertion :=
  let artifactID := values_Get Form "SAMLart" in
  if artifactID != "" then handleArtifactRequest sp artifactID possibleRequestIDs
  else
    now0 ← TimeNow;
    now ← TimeNow;
    clock ← Clock_Now;
    lift (parseResponseHTTP sp (values_Get PostForm "SAMLResponse") reqURL possibleRequestIDs
            now0 now clock).
End artifacts.

(** ** Logout responses *)

Section logout_responses.
Context {W : Type} `{UrlI : UrlOps} `{VarsI : PackageVars} `{X509I : X509Ops} `{EtreeI : EtreeOps} `{XmlI : XmlOps} `{SigI : SignatureOps} `{CryptoI : CryptoOps} `{FlateI : FlateOps} `{WorldI : World W}.

Implicit Types sp : ServiceProvider.

(** The metadata is needed for the comparison or else for the error. *)
Definition validateLogoutResponse sp (resp : LogoutResponse) (possibleRequestIDs : list string)
    : IO W () :=
  let sloURL := URL_String (SP_SloURL sp) in
  _ ← lift (raise_if (LogoutResponse_Destination resp != sloURL)
        (Errorf "`Destination` does not match SloURL (expected %q)" [AStr sloURL]));
  now ← TimeNow;
  lift (
    let expiry := Time_Add (LogoutResponse_IssueInstant resp) MaxIssueDelay in
    _ ← raise_if (Time_Before expiry now) (Errorf "issueInstant expired at %s" [ATime expiry]);
    metadata ← deref (SP_IDPMetadata sp);
    let entityID := EntityDescriptor_EntityID metadata in
    _ ← raise_if
          match LogoutResponse_Issuer resp with
          | None => true
          | Some issuer => Issuer_Value issuer != entityID
          end
          (Errorf "issuer does not match the IDP metadata (expected %q)" [AStr entityID]);
    let InResponseTo := LogoutResponse_InResponseTo resp in
    _ ← raise_if ((InResponseTo == "") || negb (bool_decide (InResponseTo ∈ possibleRequestIDs)))
          (Errorf "`InResponseTo` does not match any of the possible request IDs (expected %v)"
             [AStrs possibleRequestIDs]);
    raise_if (StatusCode_Value (Status_StatusCode (LogoutResponse_Status resp)) != StatusSuccess)
      (Errorf "status code was not %s" [AStr StatusSuccess])).

(** [matching] of the loop over the certificates. *)
Fixpoint matching_fingerprint (algorithm expected : string) (certificates : list Certificate)
    : outcome (list Certificate) :=
  match certificates with
  | [] => Ret []
  | certificate :: certificates =>
      value ← map_err (Wrap "cannot validate signature: %w" []) (fingerprint certificate algorithm);
      matching ← matching_fingerprint algorithm expected certificates;
      Ret (if value == expected then certificate :: matching else matching)
  end.

Definition redirectSigningCertificates sp : outcome (list Certificate) :=
  match SP_IDPMetadata sp, SP_IDPCertificate sp, SP_IDPCertificateFingerprint sp,
        SP_IDPCertificateFingerprintAlgorithm sp with
  | None, _, _, _ =>
      Err (Errorf "cannot validate signature: identity provider metadata is not set" [])
  | Some _, Some data, None, None =>
      certificate ← map_err (Wrap "cannot validate signature: %w" []) (parseCert data);
      Ret [certificate]
  | Some _, None, None, None => getIDPSigningCerts sp
  | Some _, None, Some expected, Some algorithm =>
      certificates ← getIDPSigningCerts sp;
      matching ← matching_fingerprint algorithm expected certificates;
      _ ← raise_if (bool_decide (matching = []))
        (Errorf "cannot validate signature: fingerprint mismatch" []);
      Ret matching
  | _, _, _, _ =>
      Err (Errorf "cannot validate signature: saml config not set up properly, specify either idp metadata url, fingerprints or actual certificate" [])
  end.

(** [doc.Root()] of the message: a document without a root makes the next step
    panic. *)
Definition validateLogoutDocument sp (document : string) (verified : bool)
    (retErr : error → error) (possibleRequestIDs : list string) : IO W () :=
  root ← lift (map_err retErr (ReadFromBytes document));
  root ← lift (deref root);
  verifiedEl ←
    (if verified then mret (root_cursor root)
     else
       clock ← Clock_Now;
       lift (map_err retErr (verifySignature sp clock (root_cursor root)).2));
  resp ← lift (map_err retErr (unmarshalElement Unmarshal_LogoutResponse verifiedEl));
  validateLogoutResponse sp resp possibleRequestIDs.

Definition ValidateLogoutResponseForm sp (postFormData : string) (possibleRequestIDs : list string)
    : IO W () :=
  now ← TimeNow;
  rawResponseBuf ← lift (map_err
    (λ e, InvalidResponseError (Because "unable to parse base64: %s" [] e) "" now)
    (base64_Decode postFormData));
  _ ← lift (map_err (Because "response contains invalid XML: %s" []) (xrv_Validate rawResponseBuf));
  validateLogoutDocument sp rawResponseBuf false
    (λ e, InvalidResponseError e rawResponseBuf now) possibleRequestIDs.

Definition ValidateLogoutResponseRedirect sp (u : URL) (possibleRequestIDs : list string) : IO W () :=
  now ← TimeNow;
  let retErr err := InvalidResponseError err "" now in
  parameters ← lift (map_err retErr (redirectParameters (URL_RawQuery u)));
  let signedInQuery :=
    bool_decide (is_Some (parameters !! "Signature")) || bool_decide (is_Some (parameters !! "SigAlg")) in
  _ ← (if signedInQuery then
         certificates ← lift (map_err retErr (redirectSigningCertificates sp));
         clock ← redirect_now;
         lift (map_err retErr (verifyRedirectSignature (URL_RawQuery u) "SAMLResponse" certificates clock))
       else mret ());
  queryParameterData ← lift (map_err (λ e, retErr (Because "unable to parse SAMLResponse: %s" [] e))
    (QueryUnescape (default "" (parameters !! "SAMLResponse"))));
  rawResponseBuf ← lift (map_err (λ e, retErr (Because "unable to parse base64: %s" [] e))
    (base64_Decode queryParameterData));
  let retErr err := InvalidResponseError err rawResponseBuf now in
  gr ← lift (map_err retErr (safer_ReadAll None rawResponseBuf));
  _ ← lift (xrv_Validate gr);
  validateLogoutDocument sp gr signedInQuery retErr possibleRequestIDs.

Definition ValidateLogoutResponseRequest sp (req : HTTPRequest) (possibleRequestIDs : list string)
    : IO W () :=
  match redirectParameters (URL_RawQuery (HTTPRequest_URL req)) with
  | Panic => lift Panic
  | Err err =>
      now ← TimeNow; lift (Err (InvalidResponseError err "" now))
  | Ret parameters =>
      if default "" (parameters !! "SAMLResponse") != "" then
        ValidateLogoutResponseRedirect sp (HTTPRequest_URL req) possibleRequestIDs
      else
        postForm ← lift (map_err (Because "unable to parse form: %v" []) (ParseForm_default req));
        ValidateLogoutResponseForm sp (values_Get postForm "SAMLResponse") possibleRequestIDs
  end.
End logout_responses.
