(* ===== verification/Jwt.v ===== *)
(** * Jwt: [session_jwt.go] and [request_tracker_jwt.go] of [src/samlsp]

    The claims of sessions and of tracked requests, their JSON objects, and the two
    codecs, which sign and verify them with one key.  The packages [jose] and
    [jose/jwt] are the methods of [JwtOps]; [JwtLaws] is what they document. *)

From stdpp Require Import base option list gmap strings.
From Stdlib Require Import ZArith Lia Ascii.
From S2P Require Import Prelude Go Encoding Etree Schema Env Http XmlTree ServiceProvider.

Open Scope string_scope.

(** ** JSON *)

Inductive json :=
  | JNull
  | JBool (b : bool)
  | JNumber (z : Z)
  | JString (s : string)
  | JArray (l : list json)
  | JObject (fields : list (string * json)).

(** The value of a field, whose name is compared with its case. *)
Definition json_field (key : string) (fields : list (string * json)) : option json :=
  snd <$> first_that (λ f, f.1 == key) fields.

Definition json_type_error : error := Sentinel "json.UnmarshalTypeError".

(** A field of a struct with the given Go type: without the field, or with a null, it
    keeps its zero value. *)
Definition string_field (key : string) (fields : list (string * json)) : outcome string :=
  match json_field key fields with
  | None | Some JNull => Ret ""
  | Some (JString s) => Ret s
  | Some _ => Err json_type_error
  end.

Definition bool_field (key : string) (fields : list (string * json)) : outcome bool :=
  match json_field key fields with
  | None | Some JNull => Ret false
  | Some (JBool b) => Ret b
  | Some _ => Err json_type_error
  end.

Definition json_string (j : json) : outcome string :=
  match j with JString s => Ret s | JNull => Ret "" | _ => Err json_type_error end.

Definition json_strings (j : json) : outcome (list string) :=
  match j with
  | JNull => Ret []
  | JArray l => map_each json_string l
  | _ => Err json_type_error
  end.

(** [map[string][]string], which may be nil *)
Definition Attributes := option (gmap string (list string)).

Definition attributes_json (a : Attributes) : json :=
  match a with
  | None => JNull
  | Some m => JObject ((λ '(k, l), (k, JArray (map JString l))) <$> map_to_list m)
  end.

Definition attributes_field (key : string) (fields : list (string * json)) : outcome Attributes :=
  match json_field key fields with
  | None | Some JNull => Ret None
  | Some (JObject entries) =>
      l ← map_each (λ '(k, j), v ← json_strings j; Ret (k, v)) entries;
      Ret (Some (list_to_map l))
  | Some _ => Err json_type_error
  end.

(** ** jose and jose/jwt *)

Inductive SignatureAlgorithm := RS256 | ES256 | ES384 | ES512.

(** [jwt.Claims]; dates are in seconds. *)
Record jwt_Claims := mkClaims {
  Claims_Issuer : string;
  Claims_Subject : string;
  Claims_Audience : list string;
  Claims_Expiry : option Z;
  Claims_NotBefore : option Z;
  Claims_IssuedAt : option Z;
  Claims_ID : string
}.

(** [jwt.Expected] with an issuer, a list [AnyAudience] and a time. *)
Record jwt_Expected := mkExpected { Expected_Issuer : string; Expected_AnyAudience : list string; Expected_Time : Time }.

Class JwtOps := {
  JSONWebToken : Type;
  jwt_Serialize : SignatureAlgorithm → option Signer → json → outcome string;
      (* jwt.Signed(signer).Claims(claims).Serialize() of the signer of a key *)
  jwt_ParseSigned : string → list SignatureAlgorithm → outcome JSONWebToken;
  token_Claims : JSONWebToken → PublicKey → outcome json;           (* the payload, once it is verified *)
  Claims_fields : jwt_Claims → list (string * json);
  Claims_of_fields : list (string * json) → outcome jwt_Claims;
  NewNumericDate : Time → option Z;
  ValidateWithLeeway : jwt_Claims → jwt_Expected → Duration → outcome ();
  jwt_exact : json → bool             (* whether the text of the value is read back: its strings are valid UTF-8 *)
}.

(** The JSON names of the fields of [jwt.Claims]. *)
Definition registered_claims : list string := ["iss"; "sub"; "aud"; "exp"; "nbf"; "iat"; "jti"].

(** [time.Unix(n, 0)]; the zero time is in the year 1. *)
Definition time_Unix (n : Z) : Time := ((62135596800 + n) * 10 ^ 9)%Z.

(** What the packages document: a token that was signed with a key is parsed if its
    algorithm is one of those given, and verifies with the public key; claims are
    the registered fields of the payload; a numeric date is in whole seconds; and
    the validation compares what is expected with what is claimed. *)
Class JwtLaws `{JwtI : JwtOps} : Prop := {
  Serialize_verifies alg key payload s : jwt_Serialize alg (Some key) payload = Ret s → jwt_exact payload = true →
    ∃ token, jwt_ParseSigned s [alg] = Ret token ∧ token_Claims token (Signer_Public key) = Ret payload;
  Claims_fields_registered c f : f ∈ Claims_fields c → f.1 ∈ registered_claims;
  Claims_roundtrip c fields : (∀ f, f ∈ fields → f.1 ∉ registered_claims) →
    Claims_of_fields (Claims_fields c ++ fields) = Ret c;
  NewNumericDate_seconds t n : NewNumericDate t = Some n → (time_Unix n <= t < time_Unix (n + 1))%Z;
  ValidateWithLeeway_iff c issuer audience now :
    ValidateWithLeeway c (mkExpected issuer [audience] now) 0%Z = Ret () ↔
    (issuer = "" ∨ Claims_Issuer c = issuer) ∧ audience ∈ Claims_Audience c ∧
    (∀ n, Claims_NotBefore c = Some n → (time_Unix n <= now)%Z) ∧
    (∀ n, Claims_Expiry c = Some n → (now <= time_Unix n)%Z) ∧
    (∀ n, Claims_IssuedAt c = Some n → (time_Unix n <= now)%Z)
}.

(** ** Claims of sessions and of tracked requests *)

Record JWTSessionClaims := mkSessionClaims {
  SessionClaims_Claims : jwt_Claims;
  SessionClaims_Attributes : Attributes;
  SessionClaims_SAMLSession : bool
}.

(** [TrackedRequest] of [request_tracker.go] *)
Record TrackedRequest := mkTrackedRequest {
  TrackedRequest_Index : string;
  TrackedRequest_SAMLRequestID : string;
  TrackedRequest_URI : string
}.

Record JWTTrackedRequestClaims := mkTrackedRequestClaims {
  TrackedRequestClaims_Claims : jwt_Claims;
  TrackedRequestClaims_TrackedRequest : TrackedRequest;
  TrackedRequestClaims_SAMLAuthnRequest : bool
}.

(** The fields of both codecs. *)
Record JWTCodec := mkJWTCodec {
  Codec_SigningMethod : SignatureAlgorithm;
  Codec_Audience : string;
  Codec_Issuer : string;
  Codec_MaxAge : Duration;
  Codec_Key : option Signer
}.

Definition GetAttributes (c : JWTSessionClaims) : Attributes := SessionClaims_Attributes c.

Definition Attributes_Get (a : Attributes) (key : string) : string :=
  match a with
  | None => ""
  | Some m => match m !! key with Some (v :: _) => v | _ => "" end
  end.

(** [attributes[key] = append(attributes[key], value)] *)
Definition append_attribute (m : gmap string (list string)) (key value : string) : gmap string (list string) :=
  <[key := (default [] (m !! key) ++ [value])%list]> m.

Definition claimNameSessionIndex := "SessionIndex".

Definition claimName (attr : Attribute) : string :=
  if Attribute_FriendlyName attr == "" then Attribute_Name attr else Attribute_FriendlyName attr.

(** The loops of [New] over the attributes and the authentication statements. *)
Definition session_attributes (assertion : Assertion) : gmap string (list string) :=
  let m := foldl (λ m statement,
    foldl (λ m attr,
      foldl (λ m value, append_attribute m (claimName attr) (AttributeValue_Value value)) m (Attribute_Values attr))
      m (AttributeStatement_Attributes statement)) ∅ (Assertion_AttributeStatements assertion) in
  foldl (λ m statement, append_attribute m claimNameSessionIndex (AuthnStatement_SessionIndex statement))
    m (Assertion_AuthnStatements assertion).

Section codecs.
Context {W : Type} `{WorldI : World W} `{JwtI : JwtOps}.

(** [encoding/json] of the two structs, whose embedded structs are flattened, as
    [jose] does it. *)
Definition session_claims_json (c : JWTSessionClaims) : json :=
  JObject (Claims_fields (SessionClaims_Claims c) ++
    [("attr", attributes_json (SessionClaims_Attributes c)); ("saml-session", JBool (SessionClaims_SAMLSession c))]).

Definition session_claims_of (fields : list (string * json)) : outcome JWTSessionClaims :=
  claims ← Claims_of_fields fields;
  attributes ← attributes_field "attr" fields;
  session ← bool_field "saml-session" fields;
  Ret (mkSessionClaims claims attributes session).

Definition tracked_claims_json (c : JWTTrackedRequestClaims) : json :=
  let request := TrackedRequestClaims_TrackedRequest c in
  JObject (Claims_fields (TrackedRequestClaims_Claims c) ++
    [("id", JString (TrackedRequest_SAMLRequestID request)); ("uri", JString (TrackedRequest_URI request));
     ("saml-authn-request", JBool (TrackedRequestClaims_SAMLAuthnRequest c))]).

Definition tracked_claims_of (fields : list (string * json)) : outcome JWTTrackedRequestClaims :=
  claims ← Claims_of_fields fields;
  id ← string_field "id" fields;
  uri ← string_field "uri" fields;
  authn ← bool_field "saml-authn-request" fields;
  Ret (mkTrackedRequestClaims claims (mkTrackedRequest "" id uri) authn).

Definition signJWT (alg : SignatureAlgorithm) (key : option Signer) (claims : json) : outcome string :=
  jwt_Serialize alg key claims.

(** [read] decodes the fields of the payload and [claims_of] are the embedded claims. *)
Definition verifyJWT {A} (signed : string) (alg : SignatureAlgorithm) (key : option Signer) (audience issuer : string)
    (read : list (string * json) → outcome A) (claims_of : A → jwt_Claims) : IO W A :=
  token ← lift (jwt_ParseSigned signed [alg]);
  key ← lift (deref key);
  payload ← lift (token_Claims token (Signer_Public key));
  dest ← lift match payload with JObject fields => read fields | _ => Err json_type_error end;
  now ← TimeNow;
  _ ← lift (ValidateWithLeeway (claims_of dest) (mkExpected issuer [audience] now) 0%Z);
  mret dest.

(** ** JWTSessionCodec *)

Definition JWTSessionCodec_New (c : JWTCodec) (assertion : Assertion) : IO W JWTSessionClaims :=
  now ← TimeNow;
  let subject := match Assertion_Subject assertion with
                 | Some sub => match Subject_NameID sub with Some nameID => NameID_Value nameID | None => "" end
                 | None => ""
                 end in
  let claims := mkClaims (Codec_Issuer c) subject [Codec_Audience c]
                  (NewNumericDate (Time_Add now (Codec_MaxAge c))) (NewNumericDate now) (NewNumericDate now) "" in
  mret (mkSessionClaims claims (Some (session_attributes assertion)) true).

Definition JWTSessionCodec_Encode (c : JWTCodec) (claims : JWTSessionClaims) : outcome string :=
  signJWT (Codec_SigningMethod c) (Codec_Key c) (session_claims_json claims).

Definition JWTSessionCodec_Decode (c : JWTCodec) (signed : string) : IO W JWTSessionClaims :=
  claims ← verifyJWT signed (Codec_SigningMethod c) (Codec_Key c) (Codec_Audience c) (Codec_Issuer c)
             session_claims_of SessionClaims_Claims;
  _ ← lift (raise_if (negb (SessionClaims_SAMLSession claims)) (Errorf "expected saml-session" []));
  mret claims.

(** ** JWTTrackedRequestCodec *)

Definition JWTTrackedRequestCodec_Encode (c : JWTCodec) (value : TrackedRequest) : IO W string :=
  now ← TimeNow;
  let claims := mkTrackedRequestClaims
    (mkClaims (Codec_Issuer c) (TrackedRequest_Index value) [Codec_Audience c]
       (NewNumericDate (Time_Add now (Codec_MaxAge c))) (NewNumericDate now) (NewNumericDate now) "")
    value true in
  lift (signJWT (Codec_SigningMethod c) (Codec_Key c) (tracked_claims_json claims)).

Definition JWTTrackedRequestCodec_Decode (c : JWTCodec) (signed : string) : IO W TrackedRequest :=
  claims ← verifyJWT signed (Codec_SigningMethod c) (Codec_Key c) (Codec_Audience c) (Codec_Issuer c)
             tracked_claims_of TrackedRequestClaims_Claims;
  _ ← lift (raise_if (negb (TrackedRequestClaims_SAMLAuthnRequest claims)) (Errorf "expected saml-authn-request" []));
  let request := TrackedRequestClaims_TrackedRequest claims in
  mret (mkTrackedRequest (Claims_Subject (TrackedRequestClaims_Claims claims))
          (TrackedRequest_SAMLRequestID request) (TrackedRequest_URI request)).
End codecs.
