(* ===== verification/Middleware.v ===== *)
(** * Middleware: [src/samlsp]

    The middleware that protects a web application: cookies with signed tokens track
    the authentication requests in progress and the sessions, [ServeHTTP] answers
    at the metadata and assertion consumer service URLs, and [RequireAccount]
    starts the flow.  Each interface of the package is a record of operations, the
    implementations of the package are values of it. *)

From stdpp Require Import base option list gmap strings.
From Stdlib Require Import ZArith Lia Ascii SpecFloat.
From S2P Require Import Prelude Go Duration Encoding Etree Schema Env Http Store XmlTree ServiceProvider.
From S2P Require Import DSig Redirect SPMessages Jwt.

Open Scope string_scope.

(** ** Standard library *)

(** [base64.RawURLEncoding.EncodeToString]: the URL alphabet without padding. *)
Fixpoint raw_url (s : string) : string :=
  match s with
  | "" => ""
  | String c s =>
      if Ascii.eqb c "=" then raw_url s
      else String (if Ascii.eqb c "+" then "-" else if Ascii.eqb c "/" then "_" else c)%char (raw_url s)
  end.

Definition RawURLEncode (s : string) : string := raw_url (base64_Encode s).

(** [int(d.Seconds())] *)
Definition float_of_Z (n : Z) : spec_float := binary_normalize prec emax n 0 false.

Definition Duration_Seconds (d : Duration) : Z :=
  float_to_int64 (SFadd prec emax (float_of_Z (Z.quot d Second))
    (SFdiv prec emax (float_of_Z (Z.rem d Second)) (float_of_Z (10 ^ 9)))).

(** [u.Hostname()]: the host without a port, and without square brackets. *)
Definition is_digit_byte (c : ascii) : bool := let n := N_of_ascii c in ((48 <=? n) && (n <=? 57))%N.

(** The host without the last colon and the digits that follow it. *)
Fixpoint drop_port (s : string) : string :=
  match s with
  | "" => ""
  | String c s' => if Ascii.eqb c ":" && all_bytes is_digit_byte s' then "" else String c (drop_port s')
  end.

Definition URL_Hostname (u : URL) : string :=
  let host := drop_port (URL_Host u) in
  match cut_prefix "[" host with
  | Some inner => if trim_suffix_byte "]" inner == inner then host else trim_suffix_byte "]" inner
  | None => host
  end.

(** [strings.ContainsFunc(s, unicode.IsControl)]: U+0000 to U+001F and U+007F are the
    bytes, U+0080 to U+009F those bytes after C2, which only starts a sequence. *)
Fixpoint has_control (s : string) : bool :=
  match s with
  | "" => false
  | String c s' =>
      let n := N_of_ascii c in
      (n <? 32)%N || (n =? 127)%N
      || ((n =? 194)%N && match s' with
                          | String d _ => let m := N_of_ascii d in ((128 <=? m) && (m <=? 159))%N
                          | "" => false
                          end)
      || has_control s'
  end.

Definition values_Has (values : url_Values) (key : string) : bool :=
  bool_decide (is_Some (first_that (λ v, v.1 == key) values)).

(** [error.Error] and [strconv.Quote]. *)
Class TextOps := {
  error_Error : error → string;
  strconv_Quote : string → string
}.

(** ** error.go *)

Definition maxLoggedValueSize : nat := 4096.

Section errors.
Context {W : Type} `{TextI : TextOps}.

Definition logValue (value : string) : string :=
  if (maxLoggedValueSize <? String.length value)%nat then
    strconv_Quote (String.substring 0 maxLoggedValueSize value)
      +++ " (truncated from " +++ itoa (Z.of_nat (String.length value)) +++ " bytes)"
  else strconv_Quote value.

(** [fmt.Sprint(err)] *)
Definition sprint_error (err : option error) : string :=
  match err with Some err => error_Error err | None => "<nil>" end.

Definition DefaultOnError (_ : HTTPRequest) (err : option error) : IO W () :=
  _ ← match err with
      | Some (InvalidResponseError private response now) =>
          log "WARNING: received invalid saml response: %s (now: %s) %s"
            [AStr (logValue response); ATime now; AStr (logValue (sprint_error (Some private)))] None
      | _ => log "ERROR: %s" [AStr (logValue (sprint_error err))] None
      end;
  http_error 403.
End errors.

(** ** Interfaces *)

Record TrackedRequestCodec (W : Type) := mkTrackedRequestCodec {
  TrackedRequest_Encode : TrackedRequest → IO W string;
  TrackedRequest_Decode : string → IO W TrackedRequest
}.
Arguments mkTrackedRequestCodec {W}.
Arguments TrackedRequest_Encode {W}.
Arguments TrackedRequest_Decode {W}.

Record RequestTracker (W : Type) := mkRequestTracker {
  TrackRequest : HTTPRequest → string → IO W string;
  StopTrackingRequest : HTTPRequest → string → IO W ();
  GetTrackedRequests : HTTPRequest → IO W (list TrackedRequest);
  GetTrackedRequest : HTTPRequest → string → IO W TrackedRequest
}.
Arguments mkRequestTracker {W}.
Arguments TrackRequest {W}.
Arguments StopTrackingRequest {W}.
Arguments GetTrackedRequests {W}.
Arguments GetTrackedRequest {W}.

(** [SessionCodec] and [SessionProvider] for sessions of the type [S]; [GetSession]
    returns a session, if it is not nil, and an error, if it is not nil. *)
Record SessionCodec (W S : Type) := mkSessionCodec {
  Codec_New : Assertion → IO W S;
  Codec_Encode : S → IO W string;
  Codec_Decode : string → IO W S
}.
Arguments mkSessionCodec {W S}.
Arguments Codec_New {W S}.
Arguments Codec_Encode {W S}.
Arguments Codec_Decode {W S}.

Record WebSessionProvider (W S : Type) := mkWebSessionProvider {
  CreateSession : HTTPRequest → Assertion → IO W ();
  DeleteSession : HTTPRequest → IO W ();
  Provider_GetSession : HTTPRequest → IO W (option S * option error)
}.
Arguments mkWebSessionProvider {W S}.
Arguments CreateSession {W S}.
Arguments DeleteSession {W S}.
Arguments Provider_GetSession {W S}.

Definition ErrNoSession : error := Sentinel "samlsp.ErrNoSession".

(** ** request_tracker_cookie.go *)

Record CookieRequestTracker (W : Type) := mkCookieRequestTracker {
  Tracker_ServiceProvider : ServiceProvider;
  Tracker_NamePrefix : string;
  Tracker_Codec : TrackedRequestCodec W;
  Tracker_MaxAge : Duration;
  Tracker_RelayStateFunc : option (HTTPRequest → IO W string);
  Tracker_SameSite : SameSite
}.
Arguments mkCookieRequestTracker {W}.
Arguments Tracker_ServiceProvider {W}.
Arguments Tracker_NamePrefix {W}.
Arguments Tracker_Codec {W}.
Arguments Tracker_MaxAge {W}.
Arguments Tracker_RelayStateFunc {W}.
Arguments Tracker_SameSite {W}.

Section tracker.
Context {W : Type} `{UrlI : UrlOps} `{WorldI : World W}.

(** The cookie that [r.Cookie(name)] returns: a name and a value. *)
Definition sent_cookie (name value : string) : Cookie := mkCookie name value "" "" None 0 false false SameSiteUnset.

(** [time.Unix(1, 0)] *)
Definition past_time : Time := time_Unix 1.

Definition cookie_TrackRequest (t : CookieRequestTracker W) (r : HTTPRequest) (samlRequestID : string) : IO W string :=
  bytes ← randomBytes 42;
  relayState ← match Tracker_RelayStateFunc t with Some f => f r | None => mret "" end;
  let index := if relayState != "" then relayState else RawURLEncode bytes in
  let acs := SP_AcsURL (Tracker_ServiceProvider t) in
  signed ← TrackedRequest_Encode (Tracker_Codec t)
             (mkTrackedRequest index samlRequestID (URL_String (HTTPRequest_URL r)));
  _ ← emit (SetCookie (mkCookie (Tracker_NamePrefix t +++ index) signed (URL_Path acs) "" None
              (Duration_Seconds (Tracker_MaxAge t)) (URL_Scheme acs == "https") true (Tracker_SameSite t)));
  mret index.

Definition cookie_StopTrackingRequest (t : CookieRequestTracker W) (r : HTTPRequest) (index : string) : IO W () :=
  _ ← lift (request_Cookie (Tracker_NamePrefix t +++ index) r);
  let acs := SP_AcsURL (Tracker_ServiceProvider t) in
  emit (SetCookie (mkCookie (Tracker_NamePrefix t +++ index) "" (URL_Path acs) (URL_Hostname acs) (Some past_time)
          0 false false SameSiteUnset)).

(** The loop of [GetTrackedRequests] over the cookies. *)
Fixpoint tracked_requests (t : CookieRequestTracker W) (cookies : list (string * string)) : IO W (list TrackedRequest) :=
  match cookies with
  | [] => mret []
  | (name, value) :: cookies =>
      match cut_prefix (Tracker_NamePrefix t) name with
      | None => tracked_requests t cookies
      | Some index =>
          on_result (TrackedRequest_Decode (Tracker_Codec t) value)
            (λ request,
              if index != TrackedRequest_Index request then tracked_requests t cookies
              else rest ← tracked_requests t cookies; mret (request :: rest))
            (λ _, tracked_requests t cookies)
      end
  end.

Definition cookie_GetTrackedRequests (t : CookieRequestTracker W) (r : HTTPRequest) : IO W (list TrackedRequest) :=
  tracked_requests t (HTTPRequest_Cookies r).

Definition cookie_GetTrackedRequest (t : CookieRequestTracker W) (r : HTTPRequest) (index : string) : IO W TrackedRequest :=
  value ← lift (request_Cookie (Tracker_NamePrefix t +++ index) r);
  request ← TrackedRequest_Decode (Tracker_Codec t) value;
  _ ← lift (raise_if (TrackedRequest_Index request != index)
        (Errorf "expected index %q, got %q" [AStr index; AStr (TrackedRequest_Index request)]));
  mret request.

Definition cookie_tracker (t : CookieRequestTracker W) : RequestTracker W :=
  mkRequestTracker (cookie_TrackRequest t) (cookie_StopTrackingRequest t) (cookie_GetTrackedRequests t)
    (cookie_GetTrackedRequest t).
End tracker.

(** ** session_cookie.go *)

Record CookieSessionProvider (W S : Type) := mkCookieSessionProvider {
  Provider_Name : string;
  Provider_Domain : string;
  Provider_HTTPOnly : bool;
  Provider_Secure : bool;
  Provider_SameSite : SameSite;
  Provider_MaxAge : Duration;
  Provider_Path : string;
  Provider_Codec : SessionCodec W S
}.
Arguments mkCookieSessionProvider {W S}.
Arguments Provider_Name {W S}.
Arguments Provider_Domain {W S}.
Arguments Provider_HTTPOnly {W S}.
Arguments Provider_Secure {W S}.
Arguments Provider_SameSite {W S}.
Arguments Provider_MaxAge {W S}.
Arguments Provider_Path {W S}.
Arguments Provider_Codec {W S}.

Section session.
Context {W S : Type} `{UrlI : UrlOps} `{NetI : NetOps}.

(** The domain without a port. *)
Definition cookie_domain (domain : string) : string :=
  match SplitHostPort domain with Ret (domain, _) => domain | _ => domain end.

Definition cookie_CreateSession (c : CookieSessionProvider W S) (r : HTTPRequest) (assertion : Assertion) : IO W () :=
  session ← Codec_New (Provider_Codec c) assertion;
  value ← Codec_Encode (Provider_Codec c) session;
  let path := if Provider_Path c == "" then "/" else Provider_Path c in
  emit (SetCookie (mkCookie (Provider_Name c) value path (cookie_domain (Provider_Domain c)) None
    (Duration_Seconds (Provider_MaxAge c)) (Provider_Secure c || (URL_Scheme (HTTPRequest_URL r) == "https"))
    (Provider_HTTPOnly c) (Provider_SameSite c))).

Definition cookie_DeleteSession (c : CookieSessionProvider W S) (r : HTTPRequest) : IO W () :=
  match request_Cookie (Provider_Name c) r with
  | Ret _ =>
      emit (SetCookie (mkCookie (Provider_Name c) "" "/" (cookie_domain (Provider_Domain c)) (Some past_time)
              0 false false SameSiteUnset))
  | Err err => if err == http_ErrNoCookie then mret () else lift (Err err)
  | Panic => lift Panic
  end.

Definition cookie_GetSession (c : CookieSessionProvider W S) (r : HTTPRequest) : IO W (option S * option error) :=
  match request_Cookie (Provider_Name c) r with
  | Ret value =>
      on_result (Codec_Decode (Provider_Codec c) value) (λ session, mret (Some session, None))
        (λ _, mret (None, Some ErrNoSession))
  | Err err => mret (None, Some (if err == http_ErrNoCookie then ErrNoSession else err))
  | Panic => lift Panic
  end.

Definition cookie_provider (c : CookieSessionProvider W S) : WebSessionProvider W S :=
  mkWebSessionProvider (cookie_CreateSession c) (cookie_DeleteSession c) (cookie_GetSession c).
End session.

(** ** middleware.go *)

Record Middleware (W S : Type) := mkMiddleware {
  M_ServiceProvider : ServiceProvider;
  M_OnError : HTTPRequest → option error → IO W ();
  M_Binding : string;
  M_ResponseBinding : string;
  M_RequestTracker : RequestTracker W;
  M_Session : WebSessionProvider W S;
  M_AssertionHandler : Assertion → IO W ()
}.
Arguments mkMiddleware {W S}.
Arguments M_ServiceProvider {W S}.
Arguments M_OnError {W S}.
Arguments M_Binding {W S}.
Arguments M_ResponseBinding {W S}.
Arguments M_RequestTracker {W S}.
Arguments M_Session {W S}.
Arguments M_AssertionHandler {W S}.

(** [http.Handler], with the session in the context of the request. *)
Definition Handler (W S : Type) : Type := option S → HTTPRequest → IO W ().

Section middleware.
Context {W S : Type}.
Context `{UrlI : UrlOps} `{VarsI : PackageVars} `{EtreeI : EtreeOps} `{X509I : X509Ops} `{XmlI : XmlOps}.
Context `{SigI : SignatureOps} `{EncI : XmlEncOps} `{CryptoI : CryptoOps} `{FlateI : FlateOps} `{FormI : PostFormOps}.
Context `{MetadataI : MetadataXml} `{WorldI : World W} `{HttpI : HttpOps W} `{FoldI : FoldOps}.

Implicit Types m : Middleware W S.

(** [if err := c(); err != nil { m.OnError(w, r, err); return }] *)
Definition or_OnError {A} m (r : HTTPRequest) (c : IO W A) (k : A → IO W ()) : IO W () :=
  on_result c k (λ err, M_OnError m r (Some err)).

(** [if err := c(); err != nil { http.Error(w, err.Error(), 500); return }] *)
Definition or_error_500 {A} (c : IO W A) (k : A → IO W ()) : IO W () :=
  on_result c k (λ err, emit (HttpErrorOf err 500)).

Definition middleware_ServeMetadata m : IO W () :=
  metadata ← sp_Metadata (M_ServiceProvider m);
  let buf := MarshalIndent_EntityDescriptor metadata in
  _ ← emit (HeaderSet "Content-Type" "application/samlmetadata+xml");
  or_error_500 (w_Write buf) mret.

(** [r.URL.Query()] *)
Definition url_Query (u : URL) : url_Values := (ParseQuery (URL_RawQuery u)).1.

(** [r.Form] after [r.ParseForm()] *)
Definition request_Form (r : HTTPRequest) : url_Values := (PostForm r ++ url_Query (HTTPRequest_URL r))%list.

Definition relayState (r : HTTPRequest) : string :=
  if values_Has (PostForm r) "SAMLResponse" || values_Has (PostForm r) "SAMLart"
  then values_Get (PostForm r) "RelayState"
  else values_Get (url_Query (HTTPRequest_URL r)) "RelayState".

Definition isLocalRedirect m (uri : string) : bool :=
  if has_control uri then false
  else if has_prefix uri "/" then negb (has_prefix uri "//") && negb (has_prefix uri "/\")
  else
    match url_Parse uri with
    | Ret u =>
        let acs := SP_AcsURL (M_ServiceProvider m) in
        (URL_User u == "") && EqualFold (URL_Scheme u) (URL_Scheme acs) && EqualFold (URL_Host u) (URL_Host acs)
    | _ => false
    end.

(** The end of [CreateSessionFromAssertion]. *)
Definition finish_session m (r : HTTPRequest) (assertion : Assertion) (redirectURI : string) : IO W () :=
  or_OnError m r (CreateSession (M_Session m) r assertion) (λ _, http_Redirect r redirectURI 302).

Definition CreateSessionFromAssertion m (r : HTTPRequest) (assertion : Assertion) (redirectURI : string) : IO W () :=
  let index := relayState r in
  if index != "" then
    on_result (GetTrackedRequest (M_RequestTracker m) r index)
      (λ request,
        or_OnError m r (StopTrackingRequest (M_RequestTracker m) r index) (λ _,
        finish_session m r assertion
          (if isLocalRedirect m (TrackedRequest_URI request) then TrackedRequest_URI request else redirectURI)))
      (λ err,
        if (err == http_ErrNoCookie) && SP_AllowIDPInitiated (M_ServiceProvider m) then
          finish_session m r assertion (if isLocalRedirect m index then index else redirectURI)
        else M_OnError m r (Some err))
  else finish_session m r assertion redirectURI.

(** The identifiers of the requests that a response may answer. *)
Definition possible_request_ids m (requests : list TrackedRequest) : list string :=
  ((if SP_AllowIDPInitiated (M_ServiceProvider m) then [""] else []) ++ map TrackedRequest_SAMLRequestID requests)%list.

Definition ServeACS m (r : HTTPRequest) : IO W () :=
  or_OnError m r (lift (ParseForm_default r)) (λ _,
  requests ← GetTrackedRequests (M_RequestTracker m) r;
  or_OnError m r
    (ParseResponse (M_ServiceProvider m) (request_Form r) (PostForm r) (HTTPRequest_URL r)
       (possible_request_ids m requests)) (λ assertion,
  or_OnError m r (M_AssertionHandler m assertion) (λ _,
  CreateSessionFromAssertion m r assertion (SP_DefaultRedirectURI (M_ServiceProvider m))))).

Definition ServeHTTP m (r : HTTPRequest) : IO W () :=
  let path := URL_Path (HTTPRequest_URL r) in
  if path == URL_Path (SP_MetadataURL (M_ServiceProvider m)) then middleware_ServeMetadata m
  else if path == URL_Path (SP_AcsURL (M_ServiceProvider m)) then ServeACS m r
  else emit HttpNotFound.

(** The binding of the request and its location at the identity provider. *)
Definition start_binding m : outcome (string * string) :=
  let sp := M_ServiceProvider m in
  if M_Binding m != "" then
    location ← GetSSOBindingLocation sp (M_Binding m); Ret (M_Binding m, location)
  else
    location ← GetSSOBindingLocation sp HTTPRedirectBinding;
    if location == "" then
      location ← GetSSOBindingLocation sp HTTPPostBinding; Ret (HTTPPostBinding, location)
    else Ret (HTTPRedirectBinding, location).

Definition post_policy : string :=
  "default-src; script-src 'sha256-AjPdJSbZmeWHnEc5ykvJFay8FTWeTeRbs9dutfZ0HqE='; reflected-xss block; referrer no-referrer;".

(** The request is sent to the identity provider. *)
Definition send_request m (binding : string) (authReq : AuthnRequest) (index : string) : IO W () :=
  if binding == HTTPRedirectBinding then
    or_error_500 (lift (AuthnRequest_Redirect authReq index (Some (M_ServiceProvider m)))) (λ redirectURL,
    _ ← emit (HeaderAdd "Location" (URL_String redirectURL));
    emit (WriteHeader 302))
  else if binding == HTTPPostBinding then
    _ ← emit (HeaderAdd "Content-Security-Policy" post_policy);
    _ ← emit (HeaderAdd "Content-type" "text/html");
    form ← lift (AuthnRequest_Post authReq index);
    or_error_500 (w_Write ("<!DOCTYPE html><html><body>" +++ form +++ "</body></html>")) mret
  else lift Panic.

Definition HandleStartAuthFlow m (r : HTTPRequest) : IO W () :=
  if URL_Path (HTTPRequest_URL r) == URL_Path (SP_AcsURL (M_ServiceProvider m)) then lift Panic
  else
    binding ← lift (start_binding m);
    or_error_500 (MakeAuthenticationRequest (M_ServiceProvider m) binding.2 binding.1 (M_ResponseBinding m)) (λ authReq,
    or_error_500 (TrackRequest (M_RequestTracker m) r (AuthnRequest_ID authReq)) (λ index,
    send_request m binding.1 authReq index)).

Definition RequireAccount m (handler : Handler W S) : Handler W S := λ _ r,
  result ← Provider_GetSession (M_Session m) r;
  match result with
  | (Some session, _) => handler (Some session) r
  | (None, Some err) =>
      if err == ErrNoSession then HandleStartAuthFlow m r else M_OnError m r (Some err)
  | (None, None) => M_OnError m r None
  end.
End middleware.

(** [GetAttributes] is the method of a session, if it has one. *)
Definition RequireAttribute {W S} (GetAttributes : S → option Attributes) (name value : string)
    (handler : Handler W S) : Handler W S := λ session r,
  match session with
  | Some s =>
      attributes ← lift (deref (GetAttributes s));
      if bool_decide (value ∈ default [] (default ∅ attributes !! name)) then handler session r
      else http_error 403
  | None => http_error 403
  end.

(** [AttributeFromContext] *)
Definition AttributeFromContext {S} (GetAttributes : S → option Attributes) (session : option S) (name : string) : string :=
  match session ≫= GetAttributes with Some attributes => Attributes_Get attributes name | None => "" end.
