(* ===== verification/MiddlewareDefaults.v ===== *)
(** * MiddlewareDefaults: [new.go] and [fetch_metadata.go] of [src/samlsp]

    The middleware that [New] makes from its options, with signed cookies for tracked
    requests and sessions, and how the metadata of an identity provider is
    fetched and parsed. *)

From stdpp Require Import base option list gmap strings.
From Stdlib Require Import ZArith Lia Ascii.
From S2P Require Import Prelude Go Duration Encoding Etree Schema Env Http Store XmlTree ServiceProvider.
From S2P Require Import DSig Redirect SPMessages Jwt Middleware.

Open Scope string_scope.

(** ** new.go *)

Record MiddlewareOptions (W : Type) := mkMiddlewareOptions {
  Opt_EntityID : string;
  Opt_URL : URL;
  Opt_Key : option Signer;
  Opt_Certificate : option Certificate;
  Opt_Intermediates : list Certificate;
  Opt_HTTPClient : option HTTPClient;
  Opt_AllowIDPInitiated : bool;
  Opt_DefaultRedirectURI : string;
  Opt_IDPMetadata : option EntityDescriptor;
  Opt_SignRequest : bool;
  Opt_UseArtifactResponse : bool;
  Opt_ForceAuthn : bool;
  Opt_RequestedAuthnContext : option RequestedAuthnContext;
  Opt_CookieSameSite : SameSite;
  Opt_CookieName : string;
  Opt_RelayStateFunc : option (HTTPRequest → IO W string);
  Opt_LogoutBindings : list string
}.
Arguments mkMiddlewareOptions {W}.
Arguments Opt_EntityID {W}.
Arguments Opt_URL {W}.
Arguments Opt_Key {W}.
Arguments Opt_Certificate {W}.
Arguments Opt_Intermediates {W}.
Arguments Opt_HTTPClient {W}.
Arguments Opt_AllowIDPInitiated {W}.
Arguments Opt_DefaultRedirectURI {W}.
Arguments Opt_IDPMetadata {W}.
Arguments Opt_SignRequest {W}.
Arguments Opt_UseArtifactResponse {W}.
Arguments Opt_ForceAuthn {W}.
Arguments Opt_RequestedAuthnContext {W}.
Arguments Opt_CookieSameSite {W}.
Arguments Opt_CookieName {W}.
Arguments Opt_RelayStateFunc {W}.
Arguments Opt_LogoutBindings {W}.

Definition defaultSessionCookieName := "token".
Definition defaultSessionMaxAge : Duration := 3600 * 10 ^ 9.

Section defaults.
Context {W : Type} `{UrlI : UrlOps} `{ResolveI : ResolveOps} `{VarsI : PackageVars} `{NetI : NetOps} `{WorldI : World W}.
Context `{JwtI : JwtOps} `{TextI : TextOps}.

Implicit Types opts : MiddlewareOptions W.

Definition getDefaultSigningMethod (signer : option Signer) : SignatureAlgorithm :=
  match signer with
  | Some s =>
      match Signer_Public s with
      | ECDSAPublicKey _ BitSize _ =>
          if (BitSize =? 384)%Z then ES384 else if (BitSize =? 521)%Z then ES512 else ES256
      | _ => RS256
      end
  | None => RS256
  end.

(** A key of another type makes it panic. *)
Definition defaultSigningMethodForKey (key : option Signer) : outcome string :=
  match key with
  | None => Ret ""
  | Some s =>
      match Signer_Public s with
      | RSAPublicKey _ => Ret RSASHA256SignatureMethod
      | ECDSAPublicKey _ _ N_BitLen => Ret (DefaultECDSASignatureMethod N_BitLen)
      | OtherPublicKey _ => Panic
      end
  end.

Definition DefaultSessionCodec opts : JWTCodec :=
  mkJWTCodec (getDefaultSigningMethod (Opt_Key opts)) (URL_String (Opt_URL opts)) (URL_String (Opt_URL opts))
    defaultSessionMaxAge (Opt_Key opts).

Definition jwt_session_codec (c : JWTCodec) : SessionCodec W JWTSessionClaims :=
  mkSessionCodec (JWTSessionCodec_New c) (λ claims, lift (JWTSessionCodec_Encode c claims)) (JWTSessionCodec_Decode c).

Definition DefaultSessionProvider opts : CookieSessionProvider W JWTSessionClaims :=
  let cookieName := if Opt_CookieName opts == "" then defaultSessionCookieName else Opt_CookieName opts in
  mkCookieSessionProvider cookieName (URL_Host (Opt_URL opts)) true (URL_Scheme (Opt_URL opts) == "https")
    (Opt_CookieSameSite opts) defaultSessionMaxAge "" (jwt_session_codec (DefaultSessionCodec opts)).

Definition DefaultTrackedRequestCodec opts : JWTCodec :=
  mkJWTCodec (getDefaultSigningMethod (Opt_Key opts)) (URL_String (Opt_URL opts)) (URL_String (Opt_URL opts))
    MaxIssueDelay (Opt_Key opts).

Definition jwt_tracked_codec (c : JWTCodec) : TrackedRequestCodec W :=
  mkTrackedRequestCodec (JWTTrackedRequestCodec_Encode c) (JWTTrackedRequestCodec_Decode c).

Definition DefaultRequestTracker opts (serviceProvider : ServiceProvider) : CookieRequestTracker W :=
  mkCookieRequestTracker serviceProvider "saml_" (jwt_tracked_codec (DefaultTrackedRequestCodec opts)) MaxIssueDelay
    (Opt_RelayStateFunc opts) (Opt_CookieSameSite opts).

Definition path_reference (path : string) : URL := mkURL "" "" "" "" path "" "" "".

Definition DefaultServiceProvider opts : outcome ServiceProvider :=
  signatureMethod ← defaultSigningMethodForKey (Opt_Key opts);
  Ret (mkServiceProvider (Opt_EntityID opts) (Opt_Key opts) (Opt_Certificate opts) (Opt_Intermediates opts)
    (Opt_HTTPClient opts)
    (ResolveReference (Opt_URL opts) (path_reference "saml/metadata"))
    (ResolveReference (Opt_URL opts) (path_reference "saml/acs"))
    (ResolveReference (Opt_URL opts) (path_reference "saml/slo"))
    (Opt_IDPMetadata opts) None None None "" 0%Z
    (if Opt_ForceAuthn opts then Some true else None) (Opt_RequestedAuthnContext opts) (Opt_AllowIDPInitiated opts)
    (if Opt_DefaultRedirectURI opts == "" then "/" else Opt_DefaultRedirectURI opts) None
    (if Opt_SignRequest opts then signatureMethod else "")
    (if bool_decide (Opt_LogoutBindings opts = []) then [HTTPPostBinding] else Opt_LogoutBindings opts) None None).

Definition NopAssertionHandler (_ : Assertion) : IO W () := mret ().

Definition middleware_New opts : outcome (Middleware W JWTSessionClaims) :=
  serviceProvider ← DefaultServiceProvider opts;
  Ret (mkMiddleware serviceProvider DefaultOnError ""
    (if Opt_UseArtifactResponse opts then HTTPArtifactBinding else HTTPPostBinding)
    (cookie_tracker (DefaultRequestTracker opts serviceProvider)) (cookie_provider (DefaultSessionProvider opts))
    NopAssertionHandler).
End defaults.

(** ** fetch_metadata.go *)

Definition maxMetadataSize : Z := 256 * 1024 * 1024.
Definition defaultFetchMetadataTimeout : Duration := 30 * 10 ^ 9.

Section fetch.
Context {W : Type} `{UrlI : UrlOps} `{XmlI : XmlOps} `{MetadataI : MetadataXml} `{WorldI : World W} `{HttpI : HttpOps W}.

Definition ParseMetadata (data : string) : outcome EntityDescriptor :=
  _ ← xrv_Validate data;
  match Unmarshal_EntityDescriptor data with
  | Ret entity => Ret entity
  | Err err =>
      if err == unexpected_EntitiesDescriptor then
        entities ← Unmarshal_EntitiesDescriptor data;
        or_err (first_that (λ e, (0 <? length (EntityDescriptor_IDPSSODescriptors e))%nat)
                  (EntitiesDescriptor_EntityDescriptors entities))
          (Errorf "no entity found with IDPSSODescriptor" [])
      else Err err
  | Panic => Panic
  end.

(** The body of the response, if it can be used. *)
Definition metadata_body (resp : ClientResponse W) : IO W string :=
  _ ← lift (raise_if (400 <=? Response_StatusCode resp)%Z
        (Errorf "failed to fetch metadata: unexpected status code %d" [AInt (Response_StatusCode resp)]));
  data ← effect (Response_ReadAll resp (maxMetadataSize + 1)%Z);
  _ ← lift (raise_if (maxMetadataSize <? Z.of_nat (String.length data))%Z
        (Errorf "failed to fetch metadata: too large, the limit is %d bytes" [AInt maxMetadataSize]));
  mret data.

Definition close_metadata (resp : ClientResponse W) : IO W () :=
  on_result (effect (Response_Close resp)) mret (λ err,
    log "Error while closing response body during fetch metadata: %v" [] (Some err)).

(** The context of the request is not modelled. *)
Definition FetchMetadata (httpClient : option HTTPClient) (metadataURL : URL) : IO W EntityDescriptor :=
  let httpClient := default (mkHTTPClient "" DefaultRedirects defaultFetchMetadataTimeout) httpClient in
  req ← lift (NewRequest "GET" (URL_String metadataURL) "");
  resp ← effect (Client_Do httpClient req);
  deferred (close_metadata resp) (
    data ← metadata_body resp;
    lift (ParseMetadata data)).
End fetch.
