(* ===== verification/JwtSpec.v ===== *)
(** * JwtSpec: what the tokens of [src/samlsp] guarantee

    A token of a session, or of a tracked request, is read back until it expires;
    neither is accepted for the other; and what is accepted was verified with the
    key. *)

From stdpp Require Import base option list gmap strings.
From Stdlib Require Import ZArith Lia Ascii.
From S2P Require Import Prelude Go Encoding Etree Schema Env Http XmlTree ServiceProvider Jwt.

Open Scope string_scope.

(** ** Fields *)

Lemma json_field_app key l l' :
  (∀ f, f ∈ l → f.1 ≠ key) → json_field key (l ++ l') = json_field key l'.
Proof.
  intros Hl. unfold json_field. f_equal. induction l as [|f l IH]; [done|]. simpl.
  rewrite bool_decide_false by (apply Hl; set_solver). apply IH. set_solver.
Qed.

Section fields.
Context `{JwtL : JwtLaws}.

(** The field of a payload that is not one of the registered claims. *)
Lemma payload_field key c fields :
  key ∉ registered_claims → json_field key (Claims_fields c ++ fields) = json_field key fields.
Proof. intros Hk. apply json_field_app. intros f Hf <-. by apply Hk, (Claims_fields_registered c). Qed.

Lemma json_strings_array l : json_strings (JArray (map JString l)) = Ret l.
Proof. simpl. induction l as [|s l IH]; [done|]. simpl. by rewrite IH. Qed.

Lemma attributes_roundtrip key a fields :
  json_field key fields = Some (attributes_json a) → attributes_field key fields = Ret a.
Proof.
  unfold attributes_field. intros ->. destruct a as [m|]; [|done]. simpl.
  assert (H : ∀ l : list (string * list string), map_each (λ '(k, j), v ← json_strings j; Ret (k, v))
    ((λ '(k, l), (k, JArray (map JString l))) <$> l) = Ret l).
  { induction l as [|[k v] l IH]; [done|]. rewrite fmap_cons. cbn [map_each]. by rewrite json_strings_array, !ret_bind, IH. }
  rewrite H. simpl. by rewrite list_to_map_to_list.
Qed.

Lemma session_claims_roundtrip c fields :
  session_claims_json c = JObject fields → session_claims_of fields = Ret c.
Proof.
  intros [= <-]. unfold session_claims_of, bool_field.
  rewrite Claims_roundtrip by (intros f; rewrite !elem_of_cons, elem_of_nil; intros [->|[->|[]]]; vm_compute; set_solver).
  rewrite (attributes_roundtrip _ (SessionClaims_Attributes c)) by (rewrite payload_field; [done|set_solver]).
  rewrite payload_field by set_solver. by destruct c.
Qed.

Lemma tracked_claims_roundtrip c r b fields :
  tracked_claims_json (mkTrackedRequestClaims c r b) = JObject fields →
  tracked_claims_of fields
  = Ret (mkTrackedRequestClaims c (mkTrackedRequest "" (TrackedRequest_SAMLRequestID r) (TrackedRequest_URI r)) b).
Proof.
  intros [= <-]. unfold tracked_claims_of, bool_field, string_field.
  rewrite Claims_roundtrip by (intros f; rewrite !elem_of_cons, elem_of_nil; intros [->|[->|[->|[]]]]; vm_compute; set_solver).
  by rewrite !payload_field by set_solver.
Qed.

(** Without the field that marks a session, or a tracked request, it is none. *)
Lemma session_claims_unmarked c r b fields claims :
  tracked_claims_json (mkTrackedRequestClaims c r b) = JObject fields → session_claims_of fields = Ret claims →
  SessionClaims_SAMLSession claims = false.
Proof.
  intros [= <-] H. unfold session_claims_of in H. apply bind_ret in H as (c' & _ & H).
  apply bind_ret in H as (a & _ & H). apply bind_ret in H as (marked & Hm & [= <-]).
  unfold bool_field in Hm. rewrite payload_field in Hm by set_solver. by injection Hm as <-.
Qed.

Lemma tracked_claims_unmarked claims fields tracked :
  session_claims_json claims = JObject fields → tracked_claims_of fields = Ret tracked →
  TrackedRequestClaims_SAMLAuthnRequest tracked = false.
Proof.
  intros [= <-] H. unfold tracked_claims_of in H. apply bind_ret in H as (c' & _ & H).
  apply bind_ret in H as (id & _ & H). apply bind_ret in H as (uri & _ & H).
  apply bind_ret in H as (marked & Hm & [= <-]).
  unfold bool_field in Hm. rewrite payload_field in Hm by set_solver. by injection Hm as <-.
Qed.
End fields.

(** ** Verification *)

Section tokens.
Context {W : Type} `{WorldI : World W} `{JwtL : JwtLaws}.

(** The token has the payload, verified with the public key of the codec. *)
Definition verified_payload (c : JWTCodec) (signed : string) (fields : list (string * json)) : Prop :=
  ∃ token key, jwt_ParseSigned signed [Codec_SigningMethod c] = Ret token ∧ Codec_Key c = Some key ∧
    token_Claims token (Signer_Public key) = Ret (JObject fields).

(** The claims are those of the codec and hold at the time. *)
Definition current_claims (c : JWTCodec) (claims : jwt_Claims) (now : Time) : Prop :=
  (Codec_Issuer c = "" ∨ Claims_Issuer claims = Codec_Issuer c) ∧ Codec_Audience c ∈ Claims_Audience claims ∧
  (∀ n, Claims_NotBefore claims = Some n → (time_Unix n <= now)%Z) ∧
  (∀ n, Claims_Expiry claims = Some n → (now <= time_Unix n)%Z) ∧
  (∀ n, Claims_IssuedAt claims = Some n → (time_Unix n <= now)%Z).

Lemma verifyJWT_ret {A} c signed (read : list (string * json) → outcome A) claims_of st st' a :
  verifyJWT signed (Codec_SigningMethod c) (Codec_Key c) (Codec_Audience c) (Codec_Issuer c) read claims_of st = (st', Ret a) →
  ∃ fields, verified_payload c signed fields ∧ read fields = Ret a ∧ current_claims c (claims_of a) (TimeNow_ st.1).2.
Proof.
  unfold verifyJWT. intros (token & Ht & H)%io_lift_bind. apply io_lift_bind in H as (key & Hk & H).
  apply deref_ret in Hk. apply io_lift_bind in H as (payload & Hp & H). apply io_lift_bind in H as (dest & Hd & H).
  apply io_bind_ret in H as (s1 & now & Hnow & H). apply io_lift_bind in H as ([] & Hv & [= _ ->]).
  destruct payload as [| | | | |fields]; try done. exists fields. split_and!; [by exists token, key|done|].
  apply ValidateWithLeeway_iff in Hv. destruct st as [w ev]. unfold TimeNow, reads in Hnow. simpl.
  destruct (TimeNow_ w) as [w1 t]. by injection Hnow as _ <-.
Qed.

Lemma verifyJWT_works {A} c signed (read : list (string * json) → outcome A) claims_of st fields a :
  verified_payload c signed fields → read fields = Ret a → current_claims c (claims_of a) (TimeNow_ st.1).2 →
  ∃ st', st'.2 = st.2 ∧
  verifyJWT signed (Codec_SigningMethod c) (Codec_Key c) (Codec_Audience c) (Codec_Issuer c) read claims_of st = (st', Ret a).
Proof.
  intros (token & key & Ht & Hk & Hp) Hr Hv%ValidateWithLeeway_iff. destruct st as [w ev].
  unfold verifyJWT, TimeNow, reads, mbind, IO_bind, lift. rewrite Ht, Hk. simpl. rewrite Hp, Hr.
  simpl in Hv. destruct (TimeNow_ w) as [w1 t]. simpl in *. rewrite Hv. by exists (w1, ev).
Qed.

(** What a codec signs, every codec with its key and algorithm verifies. *)
Lemma signed_payload c c' fields token : Codec_Key c ≠ None → Codec_Key c' = Codec_Key c →
  Codec_SigningMethod c' = Codec_SigningMethod c → jwt_exact (JObject fields) = true →
  signJWT (Codec_SigningMethod c) (Codec_Key c) (JObject fields) = Ret token → verified_payload c' token fields.
Proof.
  intros Hk Hk' Hs Hx H. unfold signJWT in H. destruct (Codec_Key c) as [key|] eqn:E; [|done].
  destruct (Serialize_verifies _ _ _ _ H Hx) as (t & Ht & Hc). exists t, key. by rewrite Hs.
Qed.

Lemma verified_payload_agree c signed f f' : verified_payload c signed f → verified_payload c signed f' → f = f'.
Proof. intros (t & k & ? & ? & ?) (t' & k' & ? & ? & ?). congruence. Qed.

Lemma issued_claims_current c now subject later :
  (now <= later)%Z → (later + 10 ^ 9 <= Time_Add now (Codec_MaxAge c))%Z →
  current_claims c (mkClaims (Codec_Issuer c) subject [Codec_Audience c]
    (NewNumericDate (Time_Add now (Codec_MaxAge c))) (NewNumericDate now) (NewNumericDate now) "") later.
Proof.
  intros Hl He. split_and!; simpl; [by right|by left|..]; intros n [H1 H2]%NewNumericDate_seconds;
    unfold time_Unix, Time in *; lia.
Qed.

(** ** The two kinds of tokens *)

Lemma SessionDecode_ret c signed st st' claims :
  JWTSessionCodec_Decode c signed st = (st', Ret claims) →
  ∃ fields, verified_payload c signed fields ∧ session_claims_of fields = Ret claims ∧
    current_claims c (SessionClaims_Claims claims) (TimeNow_ st.1).2 ∧ SessionClaims_SAMLSession claims = true.
Proof.
  intros (s1 & a & Hv & H)%io_bind_ret. apply io_guard_bind in H as [Hm [= _ ->]].
  apply verifyJWT_ret in Hv as (fields & ? & ? & ?). exists fields. split_and!; try done. by apply negb_false_iff in Hm.
Qed.

Lemma TrackedDecode_ret c signed st st' request :
  JWTTrackedRequestCodec_Decode c signed st = (st', Ret request) →
  ∃ fields claims, verified_payload c signed fields ∧ tracked_claims_of fields = Ret claims ∧
    current_claims c (TrackedRequestClaims_Claims claims) (TimeNow_ st.1).2 ∧
    TrackedRequestClaims_SAMLAuthnRequest claims = true ∧
    request = mkTrackedRequest (Claims_Subject (TrackedRequestClaims_Claims claims))
      (TrackedRequest_SAMLRequestID (TrackedRequestClaims_TrackedRequest claims))
      (TrackedRequest_URI (TrackedRequestClaims_TrackedRequest claims)).
Proof.
  intros (s1 & a & Hv & H)%io_bind_ret. apply io_guard_bind in H as [Hm [= _ <-]].
  apply verifyJWT_ret in Hv as (fields & ? & ? & ?). exists fields, a. split_and!; try done. by apply negb_false_iff in Hm.
Qed.
(** What [Encode] of a tracked request signs. *)
Lemma TrackedEncode_ret c request st st' token :
  JWTTrackedRequestCodec_Encode c request st = (st', Ret token) →
  let now := (TimeNow_ st.1).2 in
  signJWT (Codec_SigningMethod c) (Codec_Key c) (tracked_claims_json (mkTrackedRequestClaims
    (mkClaims (Codec_Issuer c) (TrackedRequest_Index request) [Codec_Audience c]
       (NewNumericDate (Time_Add now (Codec_MaxAge c))) (NewNumericDate now) (NewNumericDate now) "") request true))
  = Ret token.
Proof.
  intros (s1 & now & Hnow & H)%io_bind_ret. apply lift_ret in H as [_ H]. destruct st as [w ev].
  unfold TimeNow, reads in Hnow. simpl. destruct (TimeNow_ w) as [w1 t]. by injection Hnow as _ <-.
Qed.

(** The payload of the token of a tracked request is read back, as it is if its strings
    are valid UTF-8. *)
Definition encodable (c : JWTCodec) (request : TrackedRequest) : Prop :=
  ∀ expiry notBefore issuedAt, jwt_exact (tracked_claims_json (mkTrackedRequestClaims
    (mkClaims (Codec_Issuer c) (TrackedRequest_Index request) [Codec_Audience c] expiry notBefore issuedAt "")
    request true)) = true.

(** C30: safety. The two kinds of tokens are not mixed up: the value of the cookie of a
    tracked request is never accepted as a session, and that of a session never as
    a tracked request, whatever the key, the audience, the issuer and the time. *)
Theorem tokens_not_confused c c' request claims st st1 tracked session
    (Hkey : Codec_Key c ≠ None) (Hkey' : Codec_Key c' = Codec_Key c)
    (Halg : Codec_SigningMethod c' = Codec_SigningMethod c)
    (Hrequest : encodable c request) (Hclaims : jwt_exact (session_claims_json claims) = true)
    (Htracked : JWTTrackedRequestCodec_Encode c request st = (st1, Ret tracked))
    (Hsession : JWTSessionCodec_Encode c claims = Ret session) :
  (∀ s s' a, JWTSessionCodec_Decode c' tracked s ≠ (s', Ret a)) ∧
  (∀ s s' a, JWTTrackedRequestCodec_Decode c' session s ≠ (s', Ret a)).
Proof.
  apply TrackedEncode_ret in Htracked. split; intros s s' a Hd.
  - apply SessionDecode_ret in Hd as (fields & Hv & Hf & _ & Hm).
    pose proof (signed_payload c c' _ _ Hkey Hkey' Halg (Hrequest _ _ _) Htracked) as Hv'.
    rewrite (verified_payload_agree _ _ _ _ Hv Hv') in Hf. eapply session_claims_unmarked in Hf; [congruence|done].
  - apply TrackedDecode_ret in Hd as (fields & t & Hv & Hf & _ & Hm & _).
    pose proof (signed_payload c c' _ _ Hkey Hkey' Halg Hclaims Hsession) as Hv'.
    rewrite (verified_payload_agree _ _ _ _ Hv Hv') in Hf. eapply tracked_claims_unmarked in Hf; [congruence|done].
Qed.

Lemma session_token_works c assertion st st1 claims token later :
  Codec_Key c ≠ None → jwt_exact (session_claims_json claims) = true →
  JWTSessionCodec_New c assertion st = (st1, Ret claims) → JWTSessionCodec_Encode c claims = Ret token →
  ((TimeNow_ st.1).2 <= (TimeNow_ later.1).2)%Z →
  ((TimeNow_ later.1).2 + 10 ^ 9 <= Time_Add (TimeNow_ st.1).2 (Codec_MaxAge c))%Z →
  ∃ st', JWTSessionCodec_Decode c token later = (st', Ret claims) ∧ st'.2 = later.2.
Proof.
  intros Hkey Hx Hnew Henc Hl He. pose proof (signed_payload c c _ _ Hkey eq_refl eq_refl Hx Henc) as Hv.
  apply io_bind_ret in Hnew as (s1 & now & Hnow & [= _ Hc]).
  assert (Ht : now = (TimeNow_ st.1).2).
  { destruct st as [w ev]. unfold TimeNow, reads in Hnow. simpl. destruct (TimeNow_ w). by injection Hnow as _ <-. }
  rewrite <- Ht in *.
  destruct (verifyJWT_works c token session_claims_of SessionClaims_Claims later _ claims Hv) as (st' & Hev & Hw).
  - by apply session_claims_roundtrip.
  - rewrite <- Hc. by apply issued_claims_current.
  - exists st'. split; [|done]. unfold JWTSessionCodec_Decode, mbind, IO_bind. rewrite Hw, <- Hc. done.
Qed.

Lemma tracked_token_works c request st st1 token later :
  Codec_Key c ≠ None → encodable c request →
  JWTTrackedRequestCodec_Encode c request st = (st1, Ret token) →
  ((TimeNow_ st.1).2 <= (TimeNow_ later.1).2)%Z →
  ((TimeNow_ later.1).2 + 10 ^ 9 <= Time_Add (TimeNow_ st.1).2 (Codec_MaxAge c))%Z →
  ∃ st', JWTTrackedRequestCodec_Decode c token later = (st', Ret request) ∧ st'.2 = later.2.
Proof.
  intros Hkey Hx Henc%TrackedEncode_ret Hl He.
  pose proof (signed_payload c c _ _ Hkey eq_refl eq_refl (Hx _ _ _) Henc) as Hv.
  destruct (verifyJWT_works c token tracked_claims_of TrackedRequestClaims_Claims later _ _ Hv
    (tracked_claims_roundtrip _ _ _ _ eq_refl)) as (st' & Hev & Hw).
  - by apply issued_claims_current.
  - exists st'. split; [|done]. unfold JWTTrackedRequestCodec_Decode, mbind, IO_bind. rewrite Hw. by destruct request.
Qed.

(** A session of an assertion is read back from its token, with all
    attributes, from the moment it is made until a second before its age is
    reached; and so is a tracked request from its own. *)
Theorem tokens_roundtrip c assertion claims request st s1 s2 session tracked later
    (Hkey : Codec_Key c ≠ None)
    (Hclaims : jwt_exact (session_claims_json claims) = true) (Hrequest : encodable c request)
    (Hnew : JWTSessionCodec_New c assertion st = (s1, Ret claims))
    (Hsession : JWTSessionCodec_Encode c claims = Ret session)
    (Htracked : JWTTrackedRequestCodec_Encode c request st = (s2, Ret tracked))
    (Hlater : ((TimeNow_ st.1).2 <= (TimeNow_ later.1).2)%Z)
    (Hexpiry : ((TimeNow_ later.1).2 + 10 ^ 9 <= Time_Add (TimeNow_ st.1).2 (Codec_MaxAge c))%Z) :
  (∃ st', JWTSessionCodec_Decode c session later = (st', Ret claims)) ∧
  (∃ st', JWTTrackedRequestCodec_Decode c tracked later = (st', Ret request)).
Proof.
  split.
  - edestruct (session_token_works c assertion) as (st' & ? & _); [done..|]. by exists st'.
  - edestruct (tracked_token_works c request) as (st' & ? & _); [done..|]. by exists st'.
Qed.

(** ** Attributes *)

(** The claims that an assertion makes, in order. *)
Definition attribute_claims (a : Assertion) : list (string * string) :=
  (flat_map (λ statement, flat_map (λ attr, map (λ value, (claimName attr, AttributeValue_Value value))
       (Attribute_Values attr)) (AttributeStatement_Attributes statement)) (Assertion_AttributeStatements a)
   ++ map (λ statement, (claimNameSessionIndex, AuthnStatement_SessionIndex statement)) (Assertion_AuthnStatements a))%list.

Definition append_claim (m : gmap string (list string)) (c : string * string) := append_attribute m c.1 c.2.

Lemma foldl_flat_map {A B C} (f : C → B → C) (g : A → list B) l c :
  foldl f c (flat_map g l) = foldl (λ c x, foldl f c (g x)) c l.
Proof. revert c. induction l as [|x l IH]; intros c; [done|]. simpl. by rewrite foldl_app, IH. Qed.

Lemma foldl_map {A B C} (f : C → B → C) (g : A → B) l c : foldl f c (map g l) = foldl (λ c x, f c (g x)) c l.
Proof. revert c. induction l as [|x l IH]; intros c; [done|]. simpl. apply IH. Qed.

Lemma foldl_ext_eq {A C} (f g : C → A → C) l c : (∀ c x, f c x = g c x) → foldl f c l = foldl g c l.
Proof. intros H. revert c. induction l as [|x l IH]; intros c; [done|]. simpl. by rewrite H, IH. Qed.

Lemma session_attributes_claims a : session_attributes a = foldl append_claim ∅ (attribute_claims a).
Proof.
  unfold session_attributes, attribute_claims. rewrite foldl_app, foldl_map, foldl_flat_map. f_equal.
  apply foldl_ext_eq. intros m statement. rewrite foldl_flat_map. apply foldl_ext_eq. intros m' attr.
  by rewrite foldl_map.
Qed.

Lemma foldl_append_lookup l m key :
  default [] (foldl append_claim m l !! key) = (default [] (m !! key) ++ map snd (filter (λ c, c.1 = key) l))%list.
Proof.
  revert m. induction l as [|[k v] l IH]; intros m; [by rewrite app_nil_r|]. cbn [foldl]. rewrite IH.
  unfold append_claim, append_attribute. simpl. rewrite filter_cons. case_decide as Hk; simpl in *.
  - subst k. rewrite lookup_insert_eq. simpl. by rewrite <- app_assoc.
  - by rewrite lookup_insert_ne.
Qed.

(** Equivalence. The attributes of a session are those of its assertion: under
    each name, the values of the attributes with this friendly name, or this name
    if they have none, in the order of the assertion; and the session indexes. *)
Theorem session_attributes_spec a key :
  default [] (session_attributes a !! key) = map snd (filter (λ c, c.1 = key) (attribute_claims a)).
Proof. by rewrite session_attributes_claims, foldl_append_lookup, lookup_empty. Qed.
End tokens.
