(* ===== verification/IdpServer.v ===== *)
(** * IdpServer: the sessions of [src/samlidp]

    The server of [samlidp.go] around an identity provider: its data, the sessions of
    [session.go], which it provides to the identity provider, and the current
    metadata of [service.go].  The maps of registered service providers and the
    store are parts of the state; [service.go], [user.go] and [shortcut.go] are in
    [IdpServerAdmin]. *)

From stdpp Require Import base option list gmap strings.
From Stdlib Require Import ZArith Lia Ascii.
From S2P Require Import Prelude Go Duration Encoding Etree Schema Env Http Store XmlTree ServiceProvider.
From S2P Require Import DSig Redirect IdentityProvider Assertions IdpResponse.

Open Scope string_scope.

(** ** Data *)

Record User := mkUser {
  User_Name : string;
  User_PlaintextPassword : option string;
  User_HashedPassword : string;
  User_Groups : list string;
  User_Email : string;
  User_CommonName : string;
  User_Surname : string;
  User_GivenName : string;
  User_ScopedAffiliation : string;
  User_Revision : string
}.

Record Service := mkService { Service_Name : string; Service_Metadata : EntityDescriptor }.

Record Shortcut := mkShortcut {
  Shortcut_Name : string;
  Shortcut_ServiceProviderID : string;
  Shortcut_RelayState : option string;
  Shortcut_URISuffixAsRelayState : bool
}.

(** The embedded [saml.Session] is the field [stored_Session]. *)
Record storedSession := mkStoredSession { stored_Session : Session; stored_UserRevision : string }.

(** The data of the login form template. *)
Record LoginForm := mkLoginForm {
  LoginForm_Toast : string;
  LoginForm_URL : string;
  LoginForm_SAMLRequest : string;
  LoginForm_RelayState : string;
  LoginForm_RedirectQuery : string
}.

(** The fields of [Server] and of its [IDP] that do not change. A nil logger is the
    default one. *)
Record Server := mkServer {
  Server_Key : option Signer;
  Server_Signer : option Signer;
  Server_Certificate : option Certificate;
  Server_MetadataURL : URL;
  Server_SSOURL : URL;
  Server_LoginURL : URL;
  Server_LogoutURL : URL;
  Server_LoginFormTemplate : option (LoginForm → outcome string);
  Server_AdminAuthorizer : option (HTTPRequest → bool)
}.

(** The state of a server: its maps, and the world with its store. *)
Record ServerWorld (W : Type) := mkServerWorld {
  serviceProviders : gmap string EntityDescriptor;
  serviceIDs : gmap string string;
  server_world : W
}.
Arguments mkServerWorld {W}.
Arguments serviceProviders {W}.
Arguments serviceIDs {W}.
Arguments server_world {W}.

Definition sw_lift {W A} (f : W → W * A) (w : ServerWorld W) : ServerWorld W * A :=
  let '(w', a) := f (server_world w) in (mkServerWorld (serviceProviders w) (serviceIDs w) w', a).

#[export] Instance server_world_world {W} `{WorldI : World W} : World (ServerWorld W) := {|
  TimeNow_ := sw_lift TimeNow_;
  SystemNow := sw_lift SystemNow;
  Clock := sw_lift <$> Clock;
  RandReader n := sw_lift (RandReader n);
  ResponseWrite s := sw_lift (ResponseWrite s)
|}.

#[export] Instance server_world_store {W} `{StoreI : Store W} : Store (ServerWorld W) := {|
  Store_Get _ _ key := sw_lift (Store_Get key);
  Store_Put _ _ key a := sw_lift (Store_Put key a);
  Store_Delete key := sw_lift (Store_Delete key);
  Store_List prefix := sw_lift (Store_List prefix)
|}.

#[export] Instance server_world_encrypt {W} `{EncI : EncryptOps W} : EncryptOps (ServerWorld W) := {|
  OAEP_Encrypt c cert plaintext := sw_lift (OAEP_Encrypt c cert plaintext)
|}.

(** [bcrypt], [rand.Text], the [EscapedPath] of a URL, and the
    [Execute] of the default login form template. *)
Class ServerOps (W : Type) := {
  CompareHashAndPassword : string → string → outcome ();
  GenerateFromPassword : string → Effect W string;
  rand_Text : W → W * string;
  EscapedPath : URL → string;
  defaultLoginFormTemplate : LoginForm → outcome string
}.

#[export] Instance server_world_ops {W} `{OpsI : ServerOps W} : ServerOps (ServerWorld W) := {|
  CompareHashAndPassword := CompareHashAndPassword;
  GenerateFromPassword password := sw_lift (GenerateFromPassword password);
  rand_Text := sw_lift rand_Text;
  EscapedPath := EscapedPath;
  defaultLoginFormTemplate := defaultLoginFormTemplate
|}.

(** The JSON forms of what is stored and listed. *)
Class ServerJson := {
  User_json :: Json User;
  Service_json :: Json Service;
  Shortcut_json :: Json Shortcut;
  storedSession_json :: Json storedSession;
  Session_json :: Json Session;
  names_json : string → list string → outcome string
}.

Definition sessionMaxAge : Duration := 3600 * 10 ^ 9.

(** ** URLs *)

(** [url.PathEscape] *)
Definition is_path_byte (c : ascii) : bool :=
  is_unreserved c || existsb (Ascii.eqb c) ["$"; "&"; "+"; "="; ":"; "@"]%char.

Fixpoint PathEscape (s : string) : string :=
  match s with
  | "" => ""
  | String c s =>
      if is_path_byte c then String c (PathEscape s)
      else
        let n := N_of_ascii c in
        String "%" (String (hex_upper (n / 16)) (String (hex_upper (n mod 16)) (PathEscape s)))
  end.

(** One step of the loop of [loginFormURL]. *)
Definition add_segment (u : URL) (segment : string) : URL :=
  if segment == "" then u
  else mkURL (URL_Scheme u) (URL_Opaque u) (URL_User u) (URL_Host u)
         (URL_Path u +++ "/" +++ segment) (URL_RawPath u +++ "/" +++ PathEscape segment)
         (URL_RawQuery u) (URL_Fragment u).

Definition set_RawPath (p : string) (u : URL) : URL :=
  mkURL (URL_Scheme u) (URL_Opaque u) (URL_User u) (URL_Host u) (URL_Path u) p
    (URL_RawQuery u) (URL_Fragment u).

Section server.
Context {W0 : Type}.
Context `{UrlI : UrlOps} `{VarsI : PackageVars} `{EtreeI : EtreeOps} `{X509I : X509Ops} `{XmlI : XmlOps}.
Context `{SigI : SignatureOps} `{CryptoI : CryptoOps} `{FlateI : FlateOps} `{NetI : NetOps} `{TemplateI : TemplateOps}.
Context `{WorldI : World W0} `{StoreI : Store W0} `{OpsI : ServerOps W0} `{FoldI : FoldOps} `{JsonI : ServerJson}.
Notation W := (ServerWorld W0).

Definition loginFormURL (s : Server) (req : IdpAuthnRequest) : string :=
  if Req_RequestBuffer req != "" then URL_String (Server_SSOURL s)
  else
    let shortcut := PathValue "shortcut" (Req_HTTPRequest req) in
    if shortcut != "" then
      let u := set_RawPath (EscapedPath (Server_LoginURL s)) (Server_LoginURL s) in
      URL_String (add_segment (add_segment u shortcut) (PathValue "suffix" (Req_HTTPRequest req)))
    else URL_String (Server_LoginURL s).

(** ** Sessions *)

Definition hasCredentials (r : HTTPRequest) : bool :=
  (HTTPRequest_Method r == "POST") && (values_Get (PostForm r) "user" != "").

(** A template or a writer that fails makes it panic. *)
Definition sendLoginForm (s : Server) (req : IdpAuthnRequest) (toast : string) : IO W () :=
  let tmpl := default defaultLoginFormTemplate (Server_LoginFormTemplate s) in
  let data := mkLoginForm toast (loginFormURL s req) (base64_Encode (Req_RequestBuffer req))
                (Req_RelayState req) (Req_RedirectQuery req) in
  body ← lift (must (tmpl data));
  on_result (w_Write body) mret (λ _, lift Panic).

Definition checkLoginOrigin (s : Server) (r : HTTPRequest) : outcome () :=
  let site := Header_Get "Sec-Fetch-Site" r in
  if (site == "same-origin") || (site == "none") then Ret ()
  else if site != "" then Err (Errorf "Sec-Fetch-Site is %q" [AStr site])
  else
    let origin := Header_Get "Origin" r in
    if origin == "" then Ret ()
    else
      let want := URL_Scheme (Server_SSOURL s) +++ "://" +++ URL_Host (Server_SSOURL s) in
      raise_if (negb (EqualFold origin want)) (Errorf "origin %q is not %q" [AStr origin; AStr want]).

Definition sessionCookie (s : Server) (r : HTTPRequest) (value : string) (maxAge : Z) : Cookie :=
  mkCookie "session" value "/" "" None maxAge
    (HTTPRequest_TLS r || (URL_Scheme (Server_SSOURL s) == "https")) true SameSiteLaxMode.

(** The session of the user: the identifiers and times, then the user's data. *)
Definition user_session (user : User) (id : string) (create expire : Time) (index : string) : Session :=
  mkSession id create expire index (User_Email user) "" "" (User_Groups user) (User_Name user)
    (User_Email user) (User_CommonName user) (User_Surname user) (User_GivenName user)
    (User_ScopedAffiliation user) "" [] "" "".

(** The first part of [authenticate], which only reads: the user whose credentials
    are in the request, or [None] with the response sent. *)
Definition authenticate_user (s : Server) (r : HTTPRequest) (req : IdpAuthnRequest) : IO W (option User) :=
  let name := values_Get (PostForm r) "user" in
  on_result (lift (checkLoginOrigin s r))
    (λ _,
      on_result (effect (Store_Get (A := User) ("/users/" +++ name)))
        (λ user,
          on_result (lift (CompareHashAndPassword (User_HashedPassword user) (values_Get (PostForm r) "password")))
            (λ _, mret (Some user))
            (λ _,
              _ ← log "ERROR: Invalid password for user '%s'" [AStr name] None;
              _ ← sendLoginForm s req "Invalid username or password";
              mret None))
        (λ _,
          _ ← log "ERROR: User '%s' doesn't exists" [AStr name] None;
          _ ← sendLoginForm s req "Invalid username or password";
          mret None))
    (λ err,
      _ ← log "ERROR: refused credentials from another origin: %s" [] (Some err);
      _ ← http_error 403;
      mret None).

(** The rest of it: a session of the user as it was read. *)
Definition start_session (s : Server) (r : HTTPRequest) (user : User) : IO W (option Session) :=
  idBytes ← randomBytes 32;
  create ← TimeNow;
  now ← TimeNow;
  indexBytes ← randomBytes 32;
  let session := user_session user (base64_Encode idBytes) create (Time_Add now sessionMaxAge)
                   (hex_string indexBytes) in
  let stored := mkStoredSession session (User_Revision user) in
  on_result (effect (Store_Put ("/sessions/" +++ Session_ID session) stored))
    (λ _,
      _ ← emit (SetCookie (sessionCookie s r (Session_ID session) (sessionMaxAge / 10 ^ 9)));
      _ ← log "User '%s' authenticated successfully" [AStr (values_Get (PostForm r) "user")] None;
      mret (Some session))
    (λ _, _ ← http_error 500; mret None).

Definition authenticate (s : Server) (r : HTTPRequest) (req : IdpAuthnRequest) : IO W (option Session) :=
  user ← authenticate_user s r req;
  match user with
  | Some user => start_session s r user
  | None => mret None
  end.

Definition existingSession (r : HTTPRequest) : IO W (option Session) :=
  match request_Cookie "session" r with
  | Ret value =>
      on_result (effect (Store_Get (A := storedSession) ("/sessions/" +++ value)))
        (λ stored,
          now ← TimeNow;
          if Time_After now (Session_ExpireTime (stored_Session stored)) then mret None
          else
            on_result (effect (Store_Get (A := User) ("/users/" +++ Session_UserName (stored_Session stored))))
              (λ user,
                if User_Revision user != stored_UserRevision stored then mret None
                else mret (Some (stored_Session stored)))
              (λ err, if errors_Is err ErrNotFound then mret None else lift (Err err)))
        (λ err, if err == ErrNotFound then mret None else lift (Err err))
  | _ => mret None
  end.

(** The three methods of [Server] that the identity provider calls for a session. *)
Definition server_GetSession (s : Server) (r : HTTPRequest) (req : IdpAuthnRequest) : IO W (option Session) :=
  if hasCredentials r then authenticate s r req
  else
    on_result (existingSession r)
      (λ session,
        match session with
        | Some session => mret (Some session)
        | None => _ ← sendLoginForm s req ""; mret None
        end)
      (λ _, _ ← http_error 500; mret None).

Definition server_GetPassiveSession (r : HTTPRequest) (req : IdpAuthnRequest) : IO W (option Session) :=
  if is_true (AuthnRequest_ForceAuthn (Req_Request req)) then mret None
  else
    on_result (existingSession r) mret
      (λ err, _ ← log "ERROR: cannot read session: %s" [] (Some err); mret None).

Definition server_GetForcedSession (s : Server) (r : HTTPRequest) (req : IdpAuthnRequest) : IO W (option Session) :=
  if hasCredentials r then authenticate s r req
  else _ ← sendLoginForm s req ""; mret None.

Definition names_index (session : Session) (indexes : list SessionIndex) : bool :=
  existsb (λ i, SessionIndex_Value i == Session_Index session) indexes.

Definition server_TerminateSession (s : Server) (r : HTTPRequest) (req : IdpLogoutRequest) : IO W () :=
  _ ← lift (raise_if (negb (is_ret (request_Cookie "session" r)) && (HTTPRequest_Method r == "POST"))
        (Errorf "the session cookie is not sent with a cross-site POST" []));
  session ← existingSession r;
  match session with
  | None => mret ()
  | Some session =>
      nameID ← lift (deref (LogoutRequest_NameID (Logout_Request req)));
      _ ← lift (raise_if (Session_NameID session != NameID_Value nameID)
            (Errorf "the session belongs to another principal" []));
      let indexes := LogoutRequest_SessionIndexes (Logout_Request req) in
      _ ← lift (raise_if (negb (bool_decide (indexes = [])) && negb (names_index session indexes))
            (Errorf "the session index of the session is not in the request" []));
      _ ← effect (Store_Delete ("/sessions/" +++ Session_ID session));
      emit (SetCookie (sessionCookie s r "" (-1)))
  end.

(** ** Current metadata *)

Definition metadata_expired (now validUntil : Time) : bool :=
  negb (IsZero validUntil) && negb (Time_Before now validUntil).

Definition set_SPSSODescriptors (l : list SPSSODescriptor) (m : EntityDescriptor) : EntityDescriptor :=
  let 'mkEntityDescriptor a b c d e f g _ i j k l' m' n o := m in
  mkEntityDescriptor a b c d e f g l i j k l' m' n o.

Definition SPSSODescriptor_ValidUntil (d : SPSSODescriptor) : option Time :=
  RoleDescriptor_ValidUntil (SSODescriptor_RoleDescriptor (SPSSODescriptor_SSODescriptor d)).

Definition currentMetadata (metadata : EntityDescriptor) (now : Time) : option EntityDescriptor :=
  if metadata_expired now (EntityDescriptor_ValidUntil metadata) then None
  else
    let current := filter (λ d,
      match SPSSODescriptor_ValidUntil d with Some t => metadata_expired now t | None => false end = false)
      (EntityDescriptor_SPSSODescriptors metadata) in
    if bool_decide (length current = 0%nat) then None
    else Some (set_SPSSODescriptors current metadata).

Definition server_GetServiceProvider (serviceProviderID : string) : IO W (option EntityDescriptor) :=
  providers ← reads (λ w, (w, serviceProviders w));
  rv ← lift (or_err (providers !! serviceProviderID) os_ErrNotExist);
  now ← TimeNow;
  match currentMetadata rv now with
  | Some current => mret (Some current)
  | None =>
      _ ← log "ERROR: the metadata of service provider %q has expired" [AStr serviceProviderID] None;
      lift (Err os_ErrNotExist)
  end.

(** ** The identity provider of the server *)

(** A method without an error result. *)
Definition as_handler {A} (m : IO W A) : St W → St W * option A := λ s,
  let '(s, o) := m s in (s, match o with Ret a => Some a | _ => None end).

(** A method that gets no response writer; what it logs is not recorded. *)
Definition without_writer {A} (m : IO W A) : Effect W A := λ w,
  let '((w, _), o) := m (w, []) in (w, o).

Definition maxLoginDuration : Duration := 5 * 60 * 10 ^ 9.

Definition server_IDP (s : Server) : IdentityProvider W :=
  mkIdentityProvider W (Server_Key s) (Server_Signer s) (Server_Certificate s) [] maxLoginDuration
    (Server_MetadataURL s) (Server_SSOURL s) (Server_LoginURL s) (Server_LogoutURL s)
    (λ _ id, without_writer (server_GetServiceProvider id))
    (mkSessionProvider W (λ r req, as_handler (server_GetSession s r req))
      (Some (λ r req w, let '(w, o) := without_writer (server_GetPassiveSession r req) w in
                        (w, match o with Ret a => Some a | _ => None end)))
      (Some (λ r req, as_handler (server_GetForcedSession s r req)))
      (Some (server_TerminateSession s)))
    None "" None None false None None None.
End server.
