(* ===== verification/IdpServerAdmin.v ===== *)
(** * IdpServerAdmin: the RESTful interfaces of [src/samlidp]

    The handlers of [user.go], [service.go], [shortcut.go] and [session.go] that an
    administrator uses, the flows that start at the server, the patterns of
    [InitializeHTTP] and [New].  A handler that holds a lock to its end is one
    step; [HandlePutUser] holds [usersMu] from the first store operation on. *)

From stdpp Require Import base option list gmap strings sorting.
From Stdlib Require Import ZArith Lia Ascii.
From S2P Require Import Prelude Go Duration Encoding Etree Schema Env Http Store XmlTree ServiceProvider.
From S2P Require Import DSig Redirect IdentityProvider Assertions IdpResponse IdpLogout IdpServer.

Open Scope string_scope.

(** [slices.Sort] of strings *)
Definition string_le (a b : string) : Prop := String.leb a b = true.

#[export] Instance string_le_dec : RelDecision string_le.
Proof. unfold string_le. solve_decision. Defined.

Definition slices_Sort (names : list string) : list string := merge_sort string_le names.

Definition newline_byte : string := String "010" "".

(** [Options] *)
Record Options := mkOptions {
  Options_URL : URL;
  Options_Key : option Signer;
  Options_Signer : option Signer;
  Options_Certificate : option Certificate;
  Options_LoginFormTemplate : option (LoginForm → outcome string);
  Options_AdminAuthorizer : option (HTTPRequest → bool)
}.

(** The patterns of [InitializeHTTP] for the RESTful interfaces. *)
Inductive AdminRoute :=
  | GET_services | GET_service | PUT_service | POST_service | DELETE_service
  | GET_users | GET_user | PUT_user | DELETE_user
  | GET_sessions | GET_session | DELETE_session
  | GET_shortcuts | GET_shortcut | PUT_shortcut | DELETE_shortcut.

(** All of its patterns. *)
Inductive Route :=
  | GET_metadata | Any_sso | Any_logout | Any_login | Any_shortcut | Any_shortcut_suffix
  | Admin (route : AdminRoute).

Definition route_pattern (route : Route) : string :=
  match route with
  | GET_metadata => "GET /metadata"
  | Any_sso => "/sso"
  | Any_logout => "/logout"
  | Any_login => "/login"
  | Any_shortcut => "/login/{shortcut}"
  | Any_shortcut_suffix => "/login/{shortcut}/{suffix}"
  | Admin GET_services => "GET /services/"
  | Admin GET_service => "GET /services/{id}"
  | Admin PUT_service => "PUT /services/{id}"
  | Admin POST_service => "POST /services/{id}"
  | Admin DELETE_service => "DELETE /services/{id}"
  | Admin GET_users => "GET /users/"
  | Admin GET_user => "GET /users/{id}"
  | Admin PUT_user => "PUT /users/{id}"
  | Admin DELETE_user => "DELETE /users/{id}"
  | Admin GET_sessions => "GET /sessions/"
  | Admin GET_session => "GET /sessions/{id}"
  | Admin DELETE_session => "DELETE /sessions/{id}"
  | Admin GET_shortcuts => "GET /shortcuts/"
  | Admin GET_shortcut => "GET /shortcuts/{id}"
  | Admin PUT_shortcut => "PUT /shortcuts/{id}"
  | Admin DELETE_shortcut => "DELETE /shortcuts/{id}"
  end.

Section admin.
Context {W0 : Type}.
Context `{UrlI : UrlOps} `{VarsI : PackageVars} `{EtreeI : EtreeOps} `{X509I : X509Ops} `{XmlI : XmlOps}.
Context `{SigI : SignatureOps} `{CryptoI : CryptoOps} `{FlateI : FlateOps} `{NetI : NetOps} `{TemplateI : TemplateOps}.
Context `{MetadataI : MetadataXml} `{WorldI : World W0} `{StoreI : Store W0} `{OpsI : ServerOps W0} `{FoldI : FoldOps} `{JsonI : ServerJson}.
Context `{EncI : EncryptOps W0}.
Notation W := (ServerWorld W0).

(** [if err := m; err != nil { http.Error(code); return }] *)
Definition or_status {A} (m : IO W A) (code : Z) (k : A → IO W ()) : IO W () :=
  on_result m k (λ _, http_error code).

(** The same after [s.logger.Printf("ERROR: %s", err)]. *)
Definition or_logged {A} (m : IO W A) (code : Z) (k : A → IO W ()) : IO W () :=
  or_http_error m "ERROR: %s" [] code k.

(** [json.NewEncoder(w).Encode(value)] *)
Definition encode_text (text : outcome string) : IO W () :=
  buf ← lift text; w_Write (buf +++ newline_byte).

Definition encode_json {A} `{JsonA : Json A} (value : A) : IO W () := encode_text (json_Marshal value).

(** [json.NewDecoder(r.Body).Decode(&value)] *)
Definition decode_body {A} `{JsonA : Json A} (r : HTTPRequest) : outcome A :=
  json_Decode (default "" (HTTPRequest_Body r)).

Definition store_Get {A} `{JsonA : Json A} (key : string) : IO W A := effect (Store_Get key).

(** A change of the maps of the server. *)
Definition modify_server (f : W → W) : IO W () := reads (λ w, (f w, ())).

Definition path_id (r : HTTPRequest) : string := PathValue "id" r.

(** ** user.go *)

Definition HandleListUsers : IO W () :=
  or_logged (effect (Store_List "/users/")) 500 (λ users,
  or_logged (encode_text (names_json "users" users)) 500 mret).

Definition HandleGetUser (r : HTTPRequest) : IO W () :=
  or_logged (store_Get (A := User) ("/users/" +++ path_id r)) 500 (λ user,
  let user := mkUser (User_Name user) (User_PlaintextPassword user) "" (User_Groups user) (User_Email user)
    (User_CommonName user) (User_Surname user) (User_GivenName user) (User_ScopedAffiliation user) "" in
  or_logged (encode_json user) 500 mret).

(** The loop of [endUserSessions]. *)
Fixpoint end_sessions (name : string) (ids : list string) : IO W () :=
  match ids with
  | [] => mret ()
  | id :: ids =>
      on_result (store_Get (A := Session) ("/sessions/" +++ id))
        (λ session,
          if Session_UserName session != name then end_sessions name ids
          else
            on_result (effect (Store_Delete ("/sessions/" +++ id)))
              (λ _, end_sessions name ids)
              (λ err, if errors_Is err ErrNotFound then end_sessions name ids else lift (Err err)))
        (λ err, if errors_Is err ErrNotFound then end_sessions name ids else lift (Err err))
  end.

Definition endUserSessions (name : string) : IO W () :=
  ids ← effect (Store_List "/sessions/");
  end_sessions name ids.

(** The loop of [emailOwner]. *)
Fixpoint find_owner (email except : string) (names : list string) : IO W string :=
  match names with
  | [] => mret ""
  | name :: names =>
      if name == except then find_owner email except names
      else
        on_result (store_Get (A := User) ("/users/" +++ name))
          (λ other, if EqualFold (User_Email other) email then mret name else find_owner email except names)
          (λ err, if errors_Is err ErrNotFound then find_owner email except names else lift (Err err))
  end.

Definition emailOwner (email except : string) : IO W string :=
  names ← effect (Store_List "/users/");
  find_owner email except names.

(** The loop of [checkUserEmails], over the sorted names. *)
Fixpoint check_emails (emails : list (string * string)) (names : list string) : IO W () :=
  match names with
  | [] => mret ()
  | name :: names =>
      user ← store_Get (A := User) ("/users/" +++ name);
      if User_Email user == "" then check_emails emails names
      else
        match first_that (λ other, EqualFold other.2 (User_Email user)) emails with
        | Some other =>
            lift (Err (Errorf
              "users %q and %q have the same email, which is their NameID: change one of them in the store"
              [AStr other.1; AStr name]))
        | None => check_emails (emails ++ [(name, User_Email user)]) names
        end
  end%list.

Definition checkUserEmails : IO W () :=
  names ← effect (Store_List "/users/");
  check_emails [] (slices_Sort names).

(** The hashed password to store: of the new password, or else of the stored user,
    or else what the request has. *)
Definition hashed_password (user : User) (id : string) : IO W string :=
  match User_PlaintextPassword user with
  | Some password => effect (GenerateFromPassword password)
  | None =>
      on_result (store_Get (A := User) ("/users/" +++ id))
        (λ existing, mret (User_HashedPassword existing))
        (λ err, if err == ErrNotFound then mret (User_HashedPassword user) else lift (Err err))
  end.

(** The user as it is stored. *)
Definition stored_user (user : User) (id hashed revision : string) : User :=
  mkUser id None hashed (User_Groups user) (User_Email user) (User_CommonName user) (User_Surname user)
    (User_GivenName user) (User_ScopedAffiliation user) revision.

(** [if user.Email != ""]: whose email it is already, or "". *)
Definition email_conflict (email id : string) : IO W string :=
  if email == "" then mret "" else emailOwner email id.

(** [HandlePutUser] from the revision on. *)
Definition store_user (user : User) (id hashed : string) : IO W () :=
  revision ← reads rand_Text;
  or_logged (effect (Store_Put ("/users/" +++ id) (stored_user user id hashed revision))) 500 (λ _,
  or_http_error (endUserSessions id) "ERROR: cannot end the sessions of the user: %s" [] 500 (λ _,
  emit (WriteHeader 204))).

Definition HandlePutUser (r : HTTPRequest) : IO W () :=
  or_logged (lift (decode_body (A := User) r)) 400 (λ user,
  let id := path_id r in
  or_logged (email_conflict (User_Email user) id) 500 (λ owner,
  if owner != "" then
    _ ← log "ERROR: the email of user %q is already the email of user %q" [AStr id; AStr owner] None;
    http_error 409
  else
    or_logged (hashed_password user id) 500 (λ hashed, store_user user id hashed))).

Definition HandleDeleteUser (r : HTTPRequest) : IO W () :=
  or_logged (effect (Store_Delete ("/users/" +++ path_id r))) 500 (λ _,
  or_http_error (endUserSessions (path_id r)) "ERROR: cannot end the sessions of the user: %s" [] 500 (λ _,
  emit (WriteHeader 204))).

(** ** service.go and util.go *)

(** The first service provider of a group, with the earlier expiry of the two. *)
Definition set_ValidUntil (t : Time) (m : EntityDescriptor) : EntityDescriptor :=
  let 'mkEntityDescriptor a b _ d e f g h i j k l m' n o := m in
  mkEntityDescriptor a b t d e f g h i j k l m' n o.

Definition group_member (entities : EntitiesDescriptor) : outcome EntityDescriptor :=
  e ← or_err (first_that (λ e, (0 <? length (EntityDescriptor_SPSSODescriptors e))%nat)
                (EntitiesDescriptor_EntityDescriptors entities))
        (Errorf "metadata contained no service provider metadata" []);
  match EntitiesDescriptor_ValidUntil entities with
  | Some t =>
      if negb (IsZero t) &&
         (IsZero (EntityDescriptor_ValidUntil e) || Time_Before t (EntityDescriptor_ValidUntil e))
      then Ret (set_ValidUntil t e) else Ret e
  | None => Ret e
  end.

Definition getSPMetadata (data : string) : outcome EntityDescriptor :=
  _ ← xrv_Validate data;
  match Unmarshal_EntityDescriptor data with
  | Ret spMetadata => Ret spMetadata
  | Err err =>
      if err == unexpected_EntitiesDescriptor then
        entities ← Unmarshal_EntitiesDescriptor data;
        group_member entities
      else Err err
  | Panic => Panic
  end.

Definition HandleListServices : IO W () :=
  or_logged (effect (Store_List "/services/")) 500 (λ services,
  or_logged (encode_text (names_json "services" services)) 500 mret).

Definition HandleGetService (r : HTTPRequest) : IO W () :=
  or_logged (store_Get (A := Service) ("/services/" +++ path_id r)) 500 (λ service,
  or_logged (buf ← lift (Encode_EntityDescriptor (Service_Metadata service)); w_Write buf) 500 mret).

(** The first use that is not one of a key descriptor. *)
Definition unrecognized_use (metadata : EntityDescriptor) : option string :=
  first_that (λ use, negb (bool_decide (use ∈ [""; "encryption"; "signing"])))
    (flat_map (λ d, map KeyDescriptor_Use (sp_key_descriptors d)) (EntityDescriptor_SPSSODescriptors metadata)).

Definition deregisterServiceProvider (id entityID : string) (w : W) : W :=
  if default "" (serviceIDs w !! entityID) != id then w
  else mkServerWorld (delete entityID (serviceProviders w)) (delete entityID (serviceIDs w)) (server_world w).

Definition registerServiceProvider (id : string) (metadata : EntityDescriptor) (w : W) : W :=
  let entityID := EntityDescriptor_EntityID metadata in
  mkServerWorld (<[entityID := metadata]> (serviceProviders w)) (<[entityID := id]> (serviceIDs w)) (server_world w).

(** The previous record of a service, if there is one. *)
Definition previous_service (id : string) : IO W (option Service) :=
  on_result (store_Get ("/services/" +++ id)) (λ previous, mret (Some previous))
    (λ err, if errors_Is err ErrNotFound then mret None else lift (Err err)).

(** The changes of the maps at the end of [HandlePutService]. *)
Definition reregister (id : string) (metadata : EntityDescriptor) (previous : option Service) (w : W) : W :=
  registerServiceProvider id metadata
    match previous with
    | Some previous => deregisterServiceProvider id (EntityDescriptor_EntityID (Service_Metadata previous)) w
    | None => w
    end.

(** [HandlePutService] once the previous record is known. *)
Definition store_service (id : string) (metadata : EntityDescriptor) (previous : option Service) : IO W () :=
  or_logged (effect (Store_Put ("/services/" +++ id) (mkService "" metadata))) 500 (λ _,
  _ ← modify_server (reregister id metadata previous);
  emit (WriteHeader 204)).

(** [HandlePutService] from the lock on. *)
Definition put_service (id : string) (metadata : EntityDescriptor) : IO W () :=
  let entityID := EntityDescriptor_EntityID metadata in
  maps ← reads (λ w, (w, (serviceProviders w, serviceIDs w)));
  if bool_decide (is_Some (maps.1 !! entityID)) && (default "" (maps.2 !! entityID) != id) then
    _ ← log "ERROR: entity ID %q is already registered by another service" [AStr entityID] None;
    http_error 409
  else or_logged (previous_service id) 500 (store_service id metadata).

Definition HandlePutService (r : HTTPRequest) : IO W () :=
  let id := path_id r in
  or_logged (lift (getSPMetadata (default "" (HTTPRequest_Body r)))) 400 (λ metadata,
  match unrecognized_use metadata with
  | Some use =>
      _ ← log "ERROR: metadata has a key descriptor with an unrecognized use %q" [AStr use] None;
      http_error 400
  | None =>
      now ← TimeNow;
      if bool_decide (currentMetadata metadata now = None) then
        _ ← log "ERROR: the metadata has expired" [] None;
        http_error 400
      else put_service id metadata
  end).

Definition HandleDeleteService (r : HTTPRequest) : IO W () :=
  let id := path_id r in
  or_logged (store_Get (A := Service) ("/services/" +++ id)) 500 (λ service,
  or_logged (effect (Store_Delete ("/services/" +++ id))) 500 (λ _,
  _ ← modify_server (deregisterServiceProvider id (EntityDescriptor_EntityID (Service_Metadata service)));
  emit (WriteHeader 204))).

(** The loop of [initializeServices], over the sorted names. *)
Fixpoint initialize_services (names : list string) : IO W () :=
  match names with
  | [] => mret ()
  | name :: names =>
      service ← store_Get (A := Service) ("/services/" +++ name);
      let entityID := EntityDescriptor_EntityID (Service_Metadata service) in
      ids ← reads (λ w, (w, serviceIDs w));
      match ids !! entityID with
      | Some other =>
          lift (Err (Errorf "services %q and %q both register entity ID %q: remove one of them from the store"
            [AStr other; AStr name; AStr entityID]))
      | None =>
          _ ← modify_server (registerServiceProvider name (Service_Metadata service));
          initialize_services names
      end
  end.

Definition initializeServices : IO W () :=
  serviceNames ← effect (Store_List "/services/");
  initialize_services (slices_Sort serviceNames).

(** ** session.go *)

(** [&saml.IdpAuthnRequest{IDP: &s.IDP}]: without an HTTP request there are no path
    values. *)
Definition login_request : IdpAuthnRequest :=
  empty_request (mkHTTPRequest "" (mkURL "" "" "" "" "" "" "" "") (Err (Sentinel "mime.ErrNoMediaType")) None ""
    [] [] [] false) "" "" "" 0%Z.

Definition HandleLogin (s : Server) (r : HTTPRequest) : IO W () :=
  or_status (lift (ParseForm_default r)) 400 (λ _,
  session ← handle (as_handler (server_GetSession s r login_request));
  match session with
  | None => mret ()
  | Some session => or_status (encode_json session) 500 mret
  end).

Definition HandleListSessions : IO W () :=
  or_status (effect (Store_List "/sessions/")) 500 (λ sessions,
  or_status (encode_text (names_json "sessions" sessions)) 500 mret).

Definition HandleGetSession (r : HTTPRequest) : IO W () :=
  or_status (store_Get (A := Session) ("/sessions/" +++ path_id r)) 500 (λ session,
  or_status (encode_json session) 500 mret).

Definition HandleDeleteSession (r : HTTPRequest) : IO W () :=
  or_status (effect (Store_Delete ("/sessions/" +++ path_id r))) 500 (λ _, emit (WriteHeader 204)).

(** ** shortcut.go *)

Definition HandleListShortcuts : IO W () :=
  or_status (effect (Store_List "/shortcuts/")) 500 (λ shortcuts,
  or_status (encode_text (names_json "shortcuts" shortcuts)) 500 mret).

Definition HandleGetShortcut (r : HTTPRequest) : IO W () :=
  or_status (store_Get (A := Shortcut) ("/shortcuts/" +++ path_id r)) 500 (λ shortcut,
  or_status (encode_json shortcut) 500 mret).

Definition HandlePutShortcut (r : HTTPRequest) : IO W () :=
  or_status (lift (decode_body (A := Shortcut) r)) 400 (λ shortcut,
  let shortcut := mkShortcut (path_id r) (Shortcut_ServiceProviderID shortcut) (Shortcut_RelayState shortcut)
                    (Shortcut_URISuffixAsRelayState shortcut) in
  or_status (effect (Store_Put ("/shortcuts/" +++ path_id r) shortcut)) 500 (λ _, emit (WriteHeader 204))).

Definition HandleDeleteShortcut (r : HTTPRequest) : IO W () :=
  or_status (effect (Store_Delete ("/shortcuts/" +++ path_id r))) 500 (λ _, emit (WriteHeader 204)).

Definition isDotSegment (segment : string) : bool := (segment == ".") || (segment == "..").

Definition shortcut_relayState (shortcut : Shortcut) (suffix : string) : string :=
  match Shortcut_RelayState shortcut with
  | Some relayState => relayState
  | None =>
      if Shortcut_URISuffixAsRelayState shortcut && (suffix != "") then "/" +++ suffix else ""
  end.

Definition HandleIDPInitiated (s : Server) (r : HTTPRequest) : IO W () :=
  let suffix := PathValue "suffix" r in
  if isDotSegment (PathValue "shortcut" r) || isDotSegment suffix then http_error 400
  else
    or_status (lift (if HTTPRequest_Method r == "POST" then ParseForm_default r else Ret [])) 400 (λ _,
    or_logged (store_Get (A := Shortcut) ("/shortcuts/" +++ PathValue "shortcut" r)) 500 (λ shortcut,
    ServeIDPInitiated (server_IDP s) r (Shortcut_ServiceProviderID shortcut)
      (shortcut_relayState shortcut suffix))).

(** ** samlidp.go *)

(** [IDP.ServeMetadata] *)
Definition ServeMetadata (idp : IdentityProvider W) : IO W () :=
  metadata ← Metadata idp;
  let buf := MarshalIndent_EntityDescriptor metadata in
  _ ← emit (HeaderSet "Content-Type" "application/samlmetadata+xml");
  or_logged (w_Write buf) 500 mret.

(** [mux.HandleFunc], which panics for an empty pattern and for one that is registered. *)
Definition HandleFunc (pattern : string) (handler : HTTPRequest → IO W ())
    (mux : list (string * (HTTPRequest → IO W ()))) : outcome (list (string * (HTTPRequest → IO W ()))) :=
  if (pattern == "") || existsb (λ '(p, _), p == pattern) mux then Panic
  else Ret (mux ++ [(pattern, handler)])%list.

(** [IDP.Handler]: the patterns that the mux serves, with their handlers. *)
Definition IDP_Handler (idp : IdentityProvider W) : outcome (list (string * (HTTPRequest → IO W ()))) :=
  mux ← HandleFunc (URL_Path (IDP_MetadataURL idp)) (λ _, ServeMetadata idp) [];
  mux ← HandleFunc (URL_Path (IDP_SSOURL idp)) (ServeSSO idp) mux;
  if URL_String (IDP_LogoutURL idp) != "" then
    HandleFunc (URL_Path (IDP_LogoutURL idp)) (ServeSLO idp) mux
  else Ret mux.

Definition admin_handler (route : AdminRoute) (r : HTTPRequest) : IO W () :=
  match route with
  | GET_services => HandleListServices
  | GET_service => HandleGetService r
  | PUT_service | POST_service => HandlePutService r
  | DELETE_service => HandleDeleteService r
  | GET_users => HandleListUsers
  | GET_user => HandleGetUser r
  | PUT_user => HandlePutUser r
  | DELETE_user => HandleDeleteUser r
  | GET_sessions => HandleListSessions
  | GET_session => HandleGetSession r
  | DELETE_session => HandleDeleteSession r
  | GET_shortcuts => HandleListShortcuts
  | GET_shortcut => HandleGetShortcut r
  | PUT_shortcut => HandlePutShortcut r
  | DELETE_shortcut => HandleDeleteShortcut r
  end.

(** What the mux of [InitializeHTTP] serves for a request that matches a pattern. *)
Definition server_handler (s : Server) (route : Route) (r : HTTPRequest) : IO W () :=
  match route with
  | GET_metadata => ServeMetadata (server_IDP s)
  | Any_sso => ServeSSO (server_IDP s) r
  | Any_logout => ServeSLO (server_IDP s) r
  | Any_login => HandleLogin s r
  | Any_shortcut | Any_shortcut_suffix => HandleIDPInitiated s r
  | Admin route =>
      match Server_AdminAuthorizer s with
      | Some authorizer => if authorizer r then admin_handler route r else http_error 403
      | None => http_error 403
      end
  end.

(** [opts.URL] with another path. *)
Definition extend_path (suffix : string) (u : URL) : URL :=
  mkURL (URL_Scheme u) (URL_Opaque u) (URL_User u) (URL_Host u) (trim_suffix_byte "/" (URL_Path u) +++ suffix)
    (URL_RawPath u) (URL_RawQuery u) (URL_Fragment u).

Definition New (opts : Options) : IO W Server :=
  let s := mkServer (Options_Key opts) (Options_Signer opts) (Options_Certificate opts)
    (extend_path "/metadata" (Options_URL opts)) (extend_path "/sso" (Options_URL opts))
    (extend_path "/login" (Options_URL opts)) (extend_path "/logout" (Options_URL opts))
    (Options_LoginFormTemplate opts) (Options_AdminAuthorizer opts) in
  _ ← modify_server (λ w, mkServerWorld ∅ ∅ (server_world w));
  _ ← initializeServices;
  _ ← checkUserEmails;
  mret s.
End admin.
