(* ===== verification/IdpServerSteps.v ===== *)
(** * IdpServerSteps: the state of [src/samlidp] as a transition system

    The state of a server, seen from outside, is the contents of its store, its
    registered service providers and the logins in progress.  [server_step] is
    what may happen to it, one write at a time; every handler only makes such
    steps ([refines]), so that what every step keeps, the server keeps. *)

From stdpp Require Import base option list gmap strings sets sorting relations.
From Stdlib Require Import ZArith Lia Ascii.
From S2P Require Import Prelude Go Duration Encoding Etree Schema Env Http Store XmlTree ServiceProvider.
From S2P Require Import DSig Redirect IdentityProvider Assertions IdpResponse IdpLogout IdpServer IdpServerAdmin.

Open Scope string_scope.

(** ** The abstract state *)

Record server_state := mkState {
  st_contents : gmap string string;
  st_providers : gmap string EntityDescriptor;
  st_ids : gmap string string;
  st_revisions : gset string;      (* every revision that was drawn *)
  st_logins : list User            (* the users of the logins in progress *)
}.

(** What the rest of the world promises: it leaves the store alone, and a revision is
    drawn once. *)
Class ServerLaws (W : Type) `{WorldI : World W} `{StoreL : StoreLaws W} `{OpsI : ServerOps W} `{EncI : EncryptOps W} := {
  revisions : W → gset string;
  TimeNow_keeps w : contents (TimeNow_ w).1 = contents w ∧ revisions (TimeNow_ w).1 = revisions w;
  SystemNow_keeps w : contents (SystemNow w).1 = contents w ∧ revisions (SystemNow w).1 = revisions w;
  Clock_keeps c w : Clock = Some c → contents (c w).1 = contents w ∧ revisions (c w).1 = revisions w;
  RandReader_keeps n w : contents (RandReader n w).1 = contents w ∧ revisions (RandReader n w).1 = revisions w;
  ResponseWrite_keeps s w : contents (ResponseWrite s w).1 = contents w ∧ revisions (ResponseWrite s w).1 = revisions w;
  Generate_keeps p w : contents (GenerateFromPassword p w).1 = contents w ∧
    revisions (GenerateFromPassword p w).1 = revisions w;
  OAEP_keeps c cert p w : contents (OAEP_Encrypt c cert p w).1 = contents w ∧
    revisions (OAEP_Encrypt c cert p w).1 = revisions w;
  Get_revisions A (J : Json A) key w : revisions (Store_Get (A := A) key w).1 = revisions w;
  Put_revisions A (J : Json A) key (a : A) w : revisions (Store_Put key a w).1 = revisions w;
  Delete_revisions key w : revisions (Store_Delete key w).1 = revisions w;
  List_revisions prefix w : revisions (Store_List prefix w).1 = revisions w;
  rand_Text_fresh w w' t : rand_Text w = (w', t) →
    contents w' = contents w ∧ t ∉ revisions w ∧ revisions w' = {[t]} ∪ revisions w
}.

(** What [encoding/json] promises: the strings of a decoded value are valid UTF-8,
    and a text is read back if its strings are. [utf8] tells the strings that are. *)
Class ServerJsonLaws (W : Type) `{OpsI : ServerOps W} `{JsonI : ServerJson} `{MetadataI : MetadataXml} `{XmlI : XmlOps} := {
  utf8 : string → bool;
  User_decoded text (user : User) : json_Unmarshal text = Ret user → json_exact user = true;
  User_put body (user : User) id hashed w w' t :
    json_Decode body = Ret user → utf8 id = true → rand_Text w = (w', t) →
    json_exact (stored_user user id hashed t) = true;
  storedSession_exact (user : User) id create expire index : json_exact user = true →
    json_exact (mkStoredSession (user_session user (base64_Encode id) create expire (hex_string index))
      (User_Revision user)) = true;
  Service_exact data metadata : getSPMetadata data = Ret metadata →
    json_exact (mkService "" metadata) = true
}.

Section spec.
Context {W0 : Type}.
Context `{UrlI : UrlOps} `{VarsI : PackageVars} `{EtreeI : EtreeOps} `{X509I : X509Ops} `{XmlI : XmlOps}.
Context `{SigI : SignatureOps} `{CryptoI : CryptoOps} `{FlateI : FlateOps} `{NetI : NetOps} `{TemplateI : TemplateOps}.
Context `{MetadataI : MetadataXml} `{WorldI : World W0} `{StoreL : StoreLaws W0} `{OpsI : ServerOps W0} `{FoldI : FoldOps} `{JsonI : ServerJson}.
Context `{EncI : EncryptOps W0} `{ServerL : !ServerLaws W0}.
Notation W := (ServerWorld W0).

Definition abstract (w : W) (logins : list User) : server_state :=
  mkState (contents (server_world w)) (serviceProviders w) (serviceIDs w) (revisions (server_world w)) logins.

(** The value stored under a key. *)
Definition stored {A} `{JsonA : Json A} (c : gmap string string) (key : string) (a : A) : Prop :=
  ∃ text, c !! key = Some text ∧ json_Unmarshal text = Ret a.

(** ** Steps *)

(** The email is nobody's but the user's, unless there is a user without a name. *)
Definition email_free (c : gmap string string) (email id : string) : Prop :=
  email = "" ∨ is_Some (c !! "/users/") ∨ ∀ name other, name ≠ id → stored c ("/users/" +++ name) other → EqualFold (User_Email other) email = false.

Inductive server_step : server_state → server_state → Prop :=
  | step_login c p i rs l name password user :
      stored c ("/users/" +++ name) user →
      CompareHashAndPassword (User_HashedPassword user) password = Ret () →
      server_step (mkState c p i rs l) (mkState c p i rs (user :: l))
  | step_start c p i rs l user id create expire index text :
      user ∈ l →
      json_exact (mkStoredSession (user_session user id create expire index) (User_Revision user)) = true →
      json_Marshal (mkStoredSession (user_session user id create expire index) (User_Revision user)) = Ret text →
      server_step (mkState c p i rs l) (mkState (<["/sessions/" +++ id := text]> c) p i rs l)
  | step_end_session c p i rs l id :
      server_step (mkState c p i rs l) (mkState (delete ("/sessions/" +++ id) c) p i rs l)
  | step_draw c p i rs l t :
      server_step (mkState c p i rs l) (mkState c p i ({[t]} ∪ rs) l)
  | step_put_user c p i rs l body user id hashed t text :
      id ≠ "" → json_exact (stored_user user id hashed t) = true →
      json_Decode body = Ret user → email_free c (User_Email user) id → t ∉ rs →
      json_Marshal (stored_user user id hashed t) = Ret text →
      server_step (mkState c p i rs l) (mkState (<["/users/" +++ id := text]> c) p i ({[t]} ∪ rs) l)
  | step_delete_user c p i rs l id :
      server_step (mkState c p i rs l) (mkState (delete ("/users/" +++ id) c) p i rs l)
  | step_put_shortcut c p i rs l id text :
      server_step (mkState c p i rs l) (mkState (<["/shortcuts/" +++ id := text]> c) p i rs l)
  | step_delete_shortcut c p i rs l id :
      server_step (mkState c p i rs l) (mkState (delete ("/shortcuts/" +++ id) c) p i rs l)
  | step_put_service (w w' : W) l data id metadata previous text :
      getSPMetadata data = Ret metadata → json_exact (mkService "" metadata) = true →
      (serviceProviders w !! EntityDescriptor_EntityID metadata = None ∨
       default "" (serviceIDs w !! EntityDescriptor_EntityID metadata) = id) →
      match previous with
      | Some svc => stored (contents (server_world w)) ("/services/" +++ id) svc
      | None => ∀ svc : Service, ¬ stored (contents (server_world w)) ("/services/" +++ id) svc
      end →
      json_Marshal (mkService "" metadata) = Ret text →
      w' = reregister id metadata previous w →
      server_step (abstract w l)
        (mkState (<["/services/" +++ id := text]> (contents (server_world w)))
           (serviceProviders w') (serviceIDs w') (revisions (server_world w)) l)
  | step_delete_service (w w' : W) l id svc :
      stored (contents (server_world w)) ("/services/" +++ id) svc →
      w' = deregisterServiceProvider id (EntityDescriptor_EntityID (Service_Metadata svc)) w →
      server_step (abstract w l)
        (mkState (delete ("/services/" +++ id) (contents (server_world w)))
           (serviceProviders w') (serviceIDs w') (revisions (server_world w)) l).

(** ** What leaves the state alone *)

(** [f] changes nothing that [abstract] shows. *)
Definition steady {A} (f : W → W * A) : Prop := ∀ w l, abstract (f w).1 l = abstract w l.

Definition keeps {A} (m : IO W A) : Prop := ∀ s l, abstract (m s).1.1 l = abstract s.1 l.

Lemma steady_lift {A} (f : W0 → W0 * A) :
  (∀ w, contents (f w).1 = contents w ∧ revisions (f w).1 = revisions w) → steady (sw_lift f).
Proof.
  intros H w l. unfold sw_lift. specialize (H (server_world w)).
  destruct (f (server_world w)) as [w' a]. simpl in *. destruct H as [Hc Hr].
  unfold abstract. simpl. by rewrite Hc, Hr.
Qed.

Lemma keeps_ret {A} (a : A) : keeps (mret a).
Proof. done. Qed.
Lemma keeps_lift {A} (o : outcome A) : keeps (lift o).
Proof. done. Qed.
Lemma keeps_emit e : keeps (emit e).
Proof. by intros [w l]. Qed.
Lemma keeps_reads {A} (f : W → W * A) : steady f → keeps (reads f).
Proof. intros Hf [w ev] l. specialize (Hf w l). unfold reads. simpl in *. by destruct (f w). Qed.

Lemma keeps_bind {A B} (m : IO W A) (k : A → IO W B) : keeps m → (∀ a, keeps (k a)) → keeps (m ≫= k).
Proof.
  intros Hm Hk s l. specialize (Hm s l). unfold mbind, IO_bind.
  destruct (m s) as [s1 [a|e|]]; simpl in *; [|done..]. by rewrite Hk.
Qed.

Lemma keeps_on_result {A B} (m : IO W A) (k : A → IO W B) h :
  keeps m → (∀ a, keeps (k a)) → (∀ e, keeps (h e)) → keeps (on_result m k h).
Proof.
  intros Hm Hk Hh s l. specialize (Hm s l). unfold on_result.
  destruct (m s) as [s1 [a|e|]]; simpl in *; [by rewrite Hk|by rewrite Hh|done].
Qed.

Lemma keeps_effect {A} (f : Effect W A) : steady f → keeps (effect f).
Proof. intros Hf. apply keeps_bind; [by apply keeps_reads|intros; apply keeps_lift]. Qed.

Lemma steady_TimeNow : steady TimeNow_.
Proof. apply steady_lift, TimeNow_keeps. Qed.
Lemma steady_RandReader n : steady (RandReader n).
Proof. apply steady_lift. intros w. apply RandReader_keeps. Qed.
Lemma steady_ResponseWrite s : steady (ResponseWrite s).
Proof. apply steady_lift. intros w. apply ResponseWrite_keeps. Qed.
Lemma steady_Clock_Now : steady (default SystemNow Clock).
Proof.
  simpl. destruct Clock as [c|] eqn:E; simpl; apply steady_lift.
  - intros w. by apply Clock_keeps.
  - apply SystemNow_keeps.
Qed.
Lemma steady_Get {A} (J : Json A) key : steady (Store_Get (A := A) key).
Proof.
  apply (steady_lift (Store_Get key)). intros w. split; [|apply Get_revisions].
  destruct (Store_Get key w) as [w' o] eqn:E. by apply Get_law in E as [? _].
Qed.
Lemma steady_List prefix : steady (Store_List prefix).
Proof.
  apply (steady_lift (Store_List prefix)). intros w. split; [|apply List_revisions].
  destruct (Store_List prefix w) as [w' o] eqn:E. by apply List_law in E as [? _].
Qed.
Lemma steady_Generate p : steady (GenerateFromPassword p).
Proof. apply steady_lift. intros w. apply Generate_keeps. Qed.

Lemma steady_OAEP c cert p : steady (OAEP_Encrypt c cert p).
Proof. apply steady_lift. intros w. apply OAEP_keeps. Qed.

(** ** Refinement *)

(** The computation makes steps only, if the logins of [us] are in progress. *)
Definition refines {A} (us : list User) (m : IO W A) : Prop :=
  ∀ s l, us ⊆ l → ∃ l', l ⊆ l' ∧ rtc server_step (abstract s.1 l) (abstract (m s).1.1 l').

Lemma refines_keeps {A} us (m : IO W A) : keeps m → refines us m.
Proof. intros H s l _. exists l. by rewrite H. Qed.

Lemma refines_bind {A B} us (m : IO W A) (k : A → IO W B) :
  refines us m → (∀ a, refines us (k a)) → refines us (m ≫= k).
Proof.
  intros Hm Hk s l Hl. destruct (Hm s l Hl) as (l1 & Hl1 & H1). unfold mbind, IO_bind.
  destruct (m s) as [s1 [a|e|]]; simpl in *; [|by exists l1..].
  destruct (Hk a s1 l1) as (l2 & Hl2 & H2); [by etrans|]. exists l2. split; by etrans.
Qed.

Lemma refines_on_result {A B} us (m : IO W A) (k : A → IO W B) h :
  refines us m → (∀ a, refines us (k a)) → (∀ e, refines us (h e)) → refines us (on_result m k h).
Proof.
  intros Hm Hk Hh s l Hl. destruct (Hm s l Hl) as (l1 & Hl1 & H1). unfold on_result.
  destruct (m s) as [s1 [a|e|]]; simpl in *; [| |by exists l1].
  - destruct (Hk a s1 l1) as (l2 & Hl2 & H2); [by etrans|]. exists l2. split; by etrans.
  - destruct (Hh e s1 l1) as (l2 & Hl2 & H2); [by etrans|]. exists l2. split; by etrans.
Qed.

(** One write of the store, and what it is when it succeeds. *)
Lemma refines_write us (f : W0 → W0 * outcome ()) :
  (∀ w, revisions (f w).1 = revisions w) →
  (∀ w w' o, f w = (w', o) →
     contents w' = contents w ∨
     ∀ p i rs l, us ⊆ l → server_step (mkState (contents w) p i rs l) (mkState (contents w') p i rs l)) →
  refines us (effect (sw_lift f)).
Proof.
  intros Hr Hf [w ev] l Hl. exists l. split; [done|].
  unfold effect, reads, sw_lift, mbind, IO_bind. simpl.
  specialize (Hr (server_world w)). destruct (f (server_world w)) as [w' o] eqn:E. simpl in *.
  unfold lift. destruct (Hf _ _ _ E) as [Hc|Hstep].
  - unfold abstract. simpl. by rewrite Hc, Hr.
  - unfold abstract. simpl. rewrite Hr. by apply rtc_once, Hstep.
Qed.

Lemma refines_Delete us key :
  (∀ c p i rs l, server_step (mkState c p i rs l) (mkState (delete key c) p i rs l)) →
  refines us (effect (Store_Delete key)).
Proof.
  intros Hstep. apply (refines_write us (Store_Delete key)); [apply Delete_revisions|].
  intros w w' o H%Delete_law. destruct o; [right; intros; rewrite H; apply Hstep|by left..].
Qed.

Lemma refines_Put {A} us (J : Json A) key (a : A) :
  (∀ c p i rs l text, us ⊆ l → json_Marshal a = Ret text →
     server_step (mkState c p i rs l) (mkState (<[key := text]> c) p i rs l)) →
  refines us (effect (Store_Put key a)).
Proof.
  intros Hstep. apply (refines_write us (Store_Put key a)); [apply Put_revisions|].
  intros w w' o H%Put_law. destruct o; [|by left..].
  destruct H as (text & Hm & H). right. intros. rewrite H. by apply Hstep.
Qed.
End spec.

Create HintDb keeps discriminated.

(** Proves that a computation leaves the abstract state alone. *)
Ltac solve_keeps :=
  repeat first
    [ assumption
    | match goal with |- ∀ _, _ => intro end
    | apply keeps_ret | apply keeps_lift | apply keeps_emit
    | apply keeps_reads, steady_TimeNow | apply keeps_reads, steady_RandReader
    | apply keeps_reads, steady_Clock_Now
    | apply keeps_effect, steady_ResponseWrite | apply keeps_effect, steady_Get
    | apply keeps_effect, steady_List | apply keeps_effect, steady_Generate
    | apply keeps_effect, steady_OAEP
    | solve [auto with keeps]
    | apply keeps_effect; solve [auto with keeps]
    | apply keeps_bind | apply keeps_on_result
    | match goal with
      | |- keeps (if ?b then _ else _) => destruct b
      | |- keeps (match ?x with _ => _ end) => destruct x
      | |- keeps (let '_ := ?x in _) => destruct x
      end ].

Section keeps.
Context {W0 : Type}.
Context `{UrlI : UrlOps} `{VarsI : PackageVars} `{EtreeI : EtreeOps} `{X509I : X509Ops} `{XmlI : XmlOps}.
Context `{SigI : SignatureOps} `{CryptoI : CryptoOps} `{FlateI : FlateOps} `{NetI : NetOps} `{TemplateI : TemplateOps}.
Context `{MetadataI : MetadataXml} `{WorldI : World W0} `{StoreL : StoreLaws W0} `{OpsI : ServerOps W0} `{FoldI : FoldOps} `{JsonI : ServerJson}.
Context `{EncI : EncryptOps W0} `{ServerL : !ServerLaws W0}.
Notation W := (ServerWorld W0).

Lemma keeps_sendLoginForm s req toast : keeps (sendLoginForm s req toast).
Proof. unfold sendLoginForm, w_Write. solve_keeps. Qed.
#[local] Hint Resolve keeps_sendLoginForm : keeps.

Lemma keeps_existingSession r : keeps (existingSession r).
Proof. unfold existingSession, TimeNow. solve_keeps. Qed.

Lemma keeps_authenticate_user s r req : keeps (authenticate_user s r req).
Proof. unfold authenticate_user, log, http_error. solve_keeps. Qed.

Lemma keeps_log message args e : keeps (log message args e).
Proof. apply keeps_emit. Qed.
Lemma keeps_http_error code : keeps (http_error code).
Proof. apply keeps_emit. Qed.
#[local] Hint Resolve keeps_existingSession keeps_authenticate_user keeps_log keeps_http_error : keeps.

Lemma keeps_GetServiceProvider id : keeps (server_GetServiceProvider id).
Proof. unfold server_GetServiceProvider, TimeNow. solve_keeps. apply keeps_reads. by intros w l. Qed.

Lemma steady_without_writer {A} (m : IO W A) : keeps m → steady (without_writer m).
Proof.
  intros H w l. specialize (H (w, []) l). unfold without_writer. by destruct (m (w, [])) as [[w' ev] o].
Qed.

(** ** The identity provider *)

Section idp.
Context (s : Server).

Lemma steady_provider r id : steady (IDP_ServiceProviderProvider (server_IDP s) r id).
Proof. apply steady_without_writer, keeps_GetServiceProvider. Qed.

#[local] Hint Resolve steady_provider : keeps.

Lemma keeps_verify_with el certs err : keeps (W0 := W0) (verify_with el certs err).
Proof.
  revert el err. induction certs as [|c certs IH]; intros el err; cbn [verify_with]; [solve_keeps|].
  unfold Clock_Now. solve_keeps.
Qed.

Lemma keeps_verifyEnvelopedSignature el certs : keeps (W0 := W0) (verifyEnvelopedSignature el certs).
Proof. apply keeps_verify_with. Qed.
#[local] Hint Resolve keeps_verifyEnvelopedSignature : keeps.

Lemma keeps_redirect_now : keeps (W0 := W0) redirect_now.
Proof.
  unfold redirect_now, TimeNow. apply keeps_bind; [solve_keeps|intros now]. simpl.
  destruct Clock as [c|] eqn:E; simpl; [|solve_keeps].
  apply keeps_reads, steady_lift. intros w. by apply Clock_keeps.
Qed.

Lemma keeps_NewIdpAuthnRequest r : keeps (W0 := W0) (NewIdpAuthnRequest r).
Proof. unfold NewIdpAuthnRequest, TimeNow. solve_keeps. Qed.

Lemma keeps_NewIdpLogoutRequest r : keeps (W0 := W0) (NewIdpLogoutRequest r).
Proof. unfold NewIdpLogoutRequest, TimeNow. solve_keeps. Qed.

Lemma keeps_new_id : keeps (W0 := W0) new_id.
Proof. unfold new_id, randomBytes. solve_keeps. Qed.
#[local] Hint Resolve keeps_redirect_now keeps_NewIdpAuthnRequest keeps_NewIdpLogoutRequest keeps_new_id : keeps.

Lemma keeps_verifyAuthnRequestSignature idp req : keeps (W0 := W0) (verifyAuthnRequestSignature idp req).
Proof. unfold verifyAuthnRequestSignature. solve_keeps. Qed.

Lemma keeps_Validate req : keeps (Validate (server_IDP s) req).
Proof.
  pose proof keeps_verifyAuthnRequestSignature. unfold Validate. solve_keeps.
Qed.

Lemma keeps_newResponse idp req status : keeps (W0 := W0) (newResponse idp req status).
Proof. unfold newResponse. solve_keeps. Qed.
#[local] Hint Resolve keeps_newResponse : keeps.

Lemma keeps_WriteResponse idp req : keeps (W0 := W0) (WriteResponse idp req).
Proof.
  unfold WriteResponse, PostBinding, MakeResponse, MakeAssertionEl, setNoCacheHeaders, w_Write. solve_keeps.
Qed.
#[local] Hint Resolve keeps_WriteResponse : keeps.

Lemma keeps_WriteErrorResponse idp req top second message :
  keeps (W0 := W0) (WriteErrorResponse idp req top second message).
Proof. unfold WriteErrorResponse, MakeErrorResponse. solve_keeps. Qed.
#[local] Hint Resolve keeps_WriteErrorResponse : keeps.

Lemma keeps_make_assertion req session : keeps (make_assertion (server_IDP s) req session).
Proof. unfold make_assertion, MakeAssertion. simpl. unfold TimeNow. solve_keeps. Qed.

Lemma keeps_refused req session constraint enforcer message top second :
  (∀ req session, steady (enforcer req session)) →
  keeps (W0 := W0) (refused (server_IDP s) req session constraint enforcer message top second).
Proof.
  intros H. unfold refused, or_internal_error. solve_keeps.
Qed.

Lemma keeps_logout_Validate req : keeps (logout_Validate (server_IDP s) req).
Proof.
  unfold logout_Validate. solve_keeps.
Qed.

Lemma keeps_logout_WriteResponse idp req status : keeps (W0 := W0) (logout_WriteResponse idp req status).
Proof. unfold logout_WriteResponse, w_Write. solve_keeps. Qed.

Lemma keeps_ServeMetadata idp : keeps (W0 := W0) (ServeMetadata idp).
Proof. unfold ServeMetadata, Metadata, or_logged, or_http_error, w_Write, TimeNow. solve_keeps. Qed.
End idp.

End keeps.

#[export] Hint Resolve keeps_sendLoginForm keeps_existingSession keeps_authenticate_user keeps_log
  keeps_http_error keeps_GetServiceProvider steady_provider keeps_verifyEnvelopedSignature
  keeps_redirect_now keeps_NewIdpAuthnRequest keeps_NewIdpLogoutRequest keeps_new_id keeps_Validate
  keeps_newResponse keeps_WriteResponse keeps_WriteErrorResponse keeps_make_assertion keeps_refused
  keeps_logout_Validate keeps_logout_WriteResponse keeps_ServeMetadata : keeps.
