(* ===== verification/IdpServerSpec.v ===== *)
(** * IdpServerSpec: what the handlers of [src/samlidp] do to its state

    Every handler refines the transition system of [IdpServerSteps]; invariants of
    that system are therefore invariants of the server. *)

From stdpp Require Import base option list gmap strings sets sorting relations.
From Stdlib Require Import ZArith Lia Ascii.
From S2P Require Import Prelude Go Duration Encoding Etree Schema Env Http Store XmlTree ServiceProvider.
From S2P Require Import DSig Redirect IdentityProvider Assertions IdpResponse IdpLogout IdpServer IdpServerAdmin.
From S2P Require Import IdpServerSteps.

Open Scope string_scope.

Section keeps.
Context {W0 : Type}.
Context `{UrlI : UrlOps} `{VarsI : PackageVars} `{EtreeI : EtreeOps} `{X509I : X509Ops} `{XmlI : XmlOps}.
Context `{SigI : SignatureOps} `{CryptoI : CryptoOps} `{FlateI : FlateOps} `{NetI : NetOps} `{TemplateI : TemplateOps}.
Context `{MetadataI : MetadataXml} `{WorldI : World W0} `{StoreL : StoreLaws W0} `{OpsI : ServerOps W0} `{FoldI : FoldOps} `{JsonI : ServerJson}.
Context `{EncI : EncryptOps W0} `{ServerL : !ServerLaws W0} `{JsonL : !ServerJsonLaws W0}.
Notation W := (ServerWorld W0).

(** ** Sessions *)

Lemma refines_handler {A} us (m : IO W A) : refines us m → refines us (handle (as_handler m)).
Proof.
  intros H s l Hl. destruct (H s l Hl) as (l' & Hl' & Hr). exists l'. split; [done|].
  unfold handle, as_handler. by destruct (m s) as [s' o].
Qed.

(** A read of the store, as it fits what is stored. *)
Lemma store_Get_result {A} (J : Json A) key s s' o :
  effect (Store_Get (A := A) key) s = (s', o) →
  contents (server_world s'.1) = contents (server_world s.1) ∧
  (∀ a, o = Ret a → stored (contents (server_world s.1)) key a) ∧
  ∀ a, stored (contents (server_world s.1)) key a → o = Ret a ∨ ∃ e, o = Err e ∧ errors_Is e ErrNotFound = false.
Proof.
  destruct s as [w ev]. unfold effect, reads, mbind, IO_bind, lift. simpl. unfold sw_lift.
  destruct (Store_Get key (server_world w)) as [w' o'] eqn:E. intros [= <- <-].
  apply Get_law in E as [Hc Ho]. split; [done|]. split.
  - intros a ->. destruct Ho as [Ho|(e & ? & _)]; [|done]. simpl.
    destruct (contents (server_world w) !! key) as [text|] eqn:Ek; [by exists text|done].
  - intros a (text & Hk & Hu). rewrite Hk in Ho.
    destruct Ho as [->|(e & -> & _ & ?)]; [by left|right; eauto].
Qed.

(** A read of the store that returns a value: what is stored. *)
Lemma store_Get_ret {A} (J : Json A) key s s' (a : A) :
  effect (Store_Get key) s = (s', Ret a) →
  stored (contents (server_world s.1)) key a ∧ ∀ l, abstract s'.1 l = abstract s.1 l.
Proof.
  intros H. split; [by apply (store_Get_result J) in H as (_ & H & _); apply H|].
  intros l. pose proof (keeps_effect _ (steady_Get J key) s l) as Hk. by rewrite H in Hk.
Qed.

Lemma authenticate_user_ret s r req st st' user :
  authenticate_user s r req st = (st', Ret (Some user)) →
  checkLoginOrigin s r = Ret () ∧
  stored (contents (server_world st.1)) ("/users/" +++ values_Get (PostForm r) "user") user ∧
  CompareHashAndPassword (User_HashedPassword user) (values_Get (PostForm r) "password") = Ret ().
Proof.
  assert (Hno : ∀ (m : IO W ()) x x', (_ ← m; mret None : IO W (option User)) x ≠ (x', Ret (Some user))).
  { intros m x x'. unfold mbind, IO_bind. by destruct (m x) as [? [| |]]. }
  assert (Hno2 : ∀ (m n : IO W ()) x x',
    (_ ← m; _ ← n; mret None : IO W (option User)) x ≠ (x', Ret (Some user))).
  { intros m n x x'. unfold mbind, IO_bind. destruct (m x) as [? [| |]]; try done.
    by destruct (n _) as [? [| |]]. }
  unfold authenticate_user. intros H.
  apply on_result_ret in H as [(s1 & [] & Ho & H)|(s1 & e & _ & H)]; [|by apply Hno2 in H].
  apply lift_ret in Ho as [-> Ho]. split; [done|].
  apply on_result_ret in H as [(s2 & u & Hget & H)|(s2 & e & _ & H)]; [|by apply Hno2 in H].
  apply on_result_ret in H as [(s3 & [] & Hcmp & H)|(s3 & e & _ & H)]; [|by apply Hno2 in H].
  apply lift_ret in Hcmp as [-> Hcmp]. injection H as _ ->.
  apply store_Get_ret in Hget as [Hst _]. done.
Qed.

Lemma refines_start_session s r user : json_exact user = true → refines [user] (start_session s r user).
Proof.
  intros Hx. unfold start_session, randomBytes, TimeNow, log.
  do 4 (apply refines_bind; [apply refines_keeps; solve_keeps|intros]). apply refines_on_result.
  - apply refines_Put. intros c p i rs l text Hl Hm. eapply step_start; [|by apply storedSession_exact|exact Hm]. set_solver.
  - intros []. apply refines_keeps. solve_keeps.
  - intros e. apply refines_keeps. solve_keeps.
Qed.

Lemma refines_authenticate s r req : refines [] (authenticate s r req).
Proof.
  unfold authenticate. intros st l _. unfold mbind, IO_bind.
  pose proof (keeps_authenticate_user s r req st l) as Hk.
  destruct (authenticate_user s r req st) as [st1 [[user|]|e|]] eqn:E; simpl in Hk;
    [|by exists l; split; [done|]; simpl; rewrite Hk..].
  apply authenticate_user_ret in E as (_ & Hst & Hcmp).
  assert (Hx : json_exact user = true) by (destruct Hst as (text & _ & Hu); by eapply User_decoded).
  destruct (refines_start_session s r user Hx st1 (user :: l)) as (l' & Hl' & Hr); [set_solver|].
  exists l'. split; [set_solver|]. eapply rtc_l; [|exact Hr].
  injection Hk as Hc Hp Hi Hrs. unfold abstract. rewrite Hc, Hp, Hi, Hrs. by eapply step_login.
Qed.

Lemma refines_GetSession s r req : refines [] (server_GetSession s r req).
Proof.
  unfold server_GetSession. destruct (hasCredentials r); [apply refines_authenticate|].
  apply refines_keeps. solve_keeps.
Qed.

Lemma refines_GetForcedSession s r req : refines [] (server_GetForcedSession s r req).
Proof.
  unfold server_GetForcedSession. destruct (hasCredentials r); [apply refines_authenticate|].
  apply refines_keeps. solve_keeps.
Qed.

Lemma keeps_GetPassiveSession r req : keeps (server_GetPassiveSession r req).
Proof. unfold server_GetPassiveSession. solve_keeps. Qed.

Lemma refines_TerminateSession s r req : refines [] (server_TerminateSession s r req).
Proof.
  unfold server_TerminateSession. apply refines_bind; [apply refines_keeps; solve_keeps|intros []].
  apply refines_bind; [apply refines_keeps; solve_keeps|intros [session|]]; [|apply refines_keeps; solve_keeps].
  do 3 (apply refines_bind; [apply refines_keeps; solve_keeps|intros]).
  apply refines_bind; [apply refines_Delete; intros; apply step_end_session|intros []]. apply refines_keeps. solve_keeps.
Qed.

(** ** Users *)

Lemma refines_or_logged {A} us (m : IO W A) code (k : A → IO W ()) :
  refines us m → (∀ a, refines us (k a)) → refines us (or_logged m code k).
Proof.
  intros Hm Hk. apply refines_on_result; [done..|]. intros e. apply refines_keeps. solve_keeps.
Qed.

Lemma refines_or_status {A} us (m : IO W A) code (k : A → IO W ()) :
  refines us m → (∀ a, refines us (k a)) → refines us (or_status m code k).
Proof.
  intros Hm Hk. apply refines_on_result; [done..|]. intros e. apply refines_keeps. solve_keeps.
Qed.

Lemma refines_end_sessions us name ids : refines us (end_sessions name ids).
Proof.
  induction ids as [|id ids IH]; cbn [end_sessions]; [apply refines_keeps; solve_keeps|].
  apply refines_on_result.
  - apply refines_keeps. unfold store_Get. solve_keeps.
  - intros session. destruct (_ != _); [done|]. apply refines_on_result.
    + apply refines_Delete. intros. apply step_end_session.
    + done.
    + intros e. destruct (errors_Is e ErrNotFound); [done|]. apply refines_keeps. solve_keeps.
  - intros e. destruct (errors_Is e ErrNotFound); [done|]. apply refines_keeps. solve_keeps.
Qed.

Lemma refines_endUserSessions us name : refines us (endUserSessions name).
Proof.
  unfold endUserSessions. apply refines_bind; [apply refines_keeps; solve_keeps|].
  intros ids. apply refines_end_sessions.
Qed.

Lemma keeps_find_owner email except names : keeps (find_owner email except names).
Proof.
  induction names as [|name names IH]; cbn [find_owner]; [solve_keeps|].
  unfold store_Get. destruct (name == except); [done|].
  apply keeps_on_result; [solve_keeps|..]; intros; case_match; solve [done|solve_keeps].
Qed.

Lemma keeps_email_conflict email id : keeps (email_conflict email id).
Proof. unfold email_conflict, emailOwner. pose proof keeps_find_owner. solve_keeps. Qed.

Lemma find_owner_none email except names s s' :
  contents (server_world s.1) !! "/users/" = None →
  find_owner email except names s = (s', Ret "") →
  ∀ name other, name ∈ names → name ≠ except →
    stored (contents (server_world s.1)) ("/users/" +++ name) other → EqualFold (User_Email other) email = false.
Proof.
  revert s. induction names as [|x names IH]; intros s Hnone; cbn [find_owner]; [by intros _ ? ? ?%elem_of_nil|].
  case_bool_decide as Hx.
  { intros H name other [->|Hin]%elem_of_cons Hex; [done|]. by apply (IH _ Hnone H). }
  unfold store_Get, on_result. destruct (effect _ s) as [s1 o] eqn:E.
  apply store_Get_result in E as (Hc & Hret & Ho). intros H name other Hin Hex Hst.
  rewrite <- Hc in Hnone. destruct o as [u|e|]; [| |done].
  - destruct (EqualFold (User_Email u) email) eqn:Ef.
    + injection H as _ ->. destruct (Hret u eq_refl) as (text & Hk & _). rewrite Hc in Hnone.
      simpl in Hk. by rewrite Hnone in Hk.
    + apply elem_of_cons in Hin as [<-|Hin].
      * destruct (Ho _ Hst) as [[= ->]|(? & ? & _)]; done.
      * apply (IH _ Hnone H name); [done..|]. by rewrite Hc.
  - destruct (errors_Is e ErrNotFound) eqn:He; [|done]. apply elem_of_cons in Hin as [<-|Hin].
    + destruct (Ho _ Hst) as [?|(? & [= ->] & ?)]; congruence.
    + apply (IH _ Hnone H name); [done..|]. by rewrite Hc.
Qed.

Lemma email_conflict_none email id s s' :
  email_conflict email id s = (s', Ret "") → email_free (contents (server_world s.1)) email id.
Proof.
  unfold email_conflict. case_bool_decide as He; [by left|]. intros H. right.
  destruct (contents (server_world s.1) !! "/users/") eqn:Hnone; [by left; eexists|right].
  intros name other Hid Hst.
  unfold emailOwner in H. apply io_bind_ret in H as (s1 & names & Hl & H).
  assert (Hkeep : contents (server_world s1.1) = contents (server_world s.1)).
  { pose proof (keeps_effect _ (steady_List "/users/") s []) as Hk. rewrite Hl in Hk. by injection Hk. }
  rewrite <- Hkeep in Hnone. apply (find_owner_none email id names s1 s' Hnone H name); [|done|by rewrite Hkeep].
  clear Hnone.
  destruct s as [w ev]. unfold effect, reads, mbind, IO_bind, lift in Hl. simpl in Hl. unfold sw_lift in Hl.
  destruct (Store_List "/users/" (server_world w)) as [w' o] eqn:E. injection Hl as _ ->.
  apply List_law in E as [_ ->]. simpl in Hst. destruct Hst as (text & Hk & _).
  unfold keys_with. apply list_elem_of_omap. exists ("/users/" +++ name).
  split; [|by apply cut_prefix_Some]. apply list_elem_of_fmap.
  exists ("/users/" +++ name, text). split; [done|]. by apply elem_of_map_to_list.
Qed.

(** A computation that refines from the states of some abstract condition on. *)
Lemma refines_step_then us (m : IO W ()) s l l1 a1 :
  refines us m → us ⊆ l1 → rtc server_step a1 (abstract s.1 l1) → l ⊆ l1 →
  ∃ l', l ⊆ l' ∧ rtc server_step a1 (abstract (m s).1.1 l').
Proof.
  intros Hm Hus Hr Hl. destruct (Hm s l1 Hus) as (l2 & Hl2 & Hr2). exists l2. split; by etrans.
Qed.

Lemma keeps_hashed_password user id : keeps (hashed_password user id).
Proof. unfold hashed_password, store_Get. solve_keeps. Qed.

Lemma store_user_refines body user id hashed s l :
  id ≠ "" → utf8 id = true →
  json_Decode body = Ret user → email_free (contents (server_world s.1)) (User_Email user) id →
  ∃ l', l ⊆ l' ∧ rtc server_step (abstract s.1 l) (abstract (store_user user id hashed s).1.1 l').
Proof.
  intros Hid Hutf Hdec Hfree. destruct s as [w ev]. unfold store_user. remember ("/users/" +++ id) as key eqn:Hkey.
  unfold reads, mbind, IO_bind. simpl. unfold sw_lift.
  destruct (rand_Text (server_world w)) as [w1 t] eqn:Et.
  pose proof (User_put body user id hashed _ _ t Hdec Hutf Et) as Hx.
  apply rand_Text_fresh in Et as (Hc & Hfresh & Hrev). unfold or_logged, or_http_error, on_result.
  unfold effect, reads, mbind, IO_bind. simpl. unfold sw_lift. simpl.
  destruct (Store_Put _ _ w1) as [w2 o] eqn:Ep. pose proof (Put_revisions _ _ key
    (stored_user user id hashed t) w1) as Hr2. rewrite Ep in Hr2. simpl in Hr2.
  apply Put_law in Ep. unfold lift.
  assert (Hdraw : server_step (abstract w l)
    (mkState (contents (server_world w)) (serviceProviders w) (serviceIDs w) (revisions w1) l)).
  { rewrite Hrev. apply step_draw. }
  destruct o as [[]|e|].
  - destruct Ep as (text & Hm & Hc2).
    set (s2 := (mkServerWorld (serviceProviders w) (serviceIDs w) w2, ev)).
    assert (Hstep : server_step (abstract w l) (abstract s2.1 l)).
    { unfold abstract, s2. simpl. rewrite Hc2, Hr2, Hrev, Hc, Hkey. by eapply step_put_user. }
    apply (refines_step_then [] (or_http_error (endUserSessions id)
      "ERROR: cannot end the sessions of the user: %s" [] 500 (λ _, emit (WriteHeader 204))) s2 l l);
      [|set_solver|by apply rtc_once|done].
    apply refines_on_result; [apply refines_endUserSessions|..]; intros; apply refines_keeps; solve_keeps.
  - exists l. split; [done|]. simpl. apply rtc_once. unfold abstract at 2. simpl. by rewrite Ep, Hr2, Hc.
  - exists l. split; [done|]. simpl. apply rtc_once. unfold abstract at 2. simpl. by rewrite Ep, Hr2, Hc.
Qed.

Lemma refines_HandlePutUser r : path_id r ≠ "" → utf8 (path_id r) = true → refines [] (HandlePutUser r).
Proof.
  intros Hid Hutf. unfold HandlePutUser, or_logged, or_http_error.
  intros s l _. unfold on_result at 1. unfold lift at 1.
  destruct (decode_body r) as [user|e|] eqn:Hdec; [|exists l; split; [done|simpl; by destruct s]..].
  unfold on_result at 1. pose proof (keeps_email_conflict (User_Email user) (path_id r) s l) as Hk.
  destruct (email_conflict (User_Email user) (path_id r) s) as [s1 [owner|e|]] eqn:Ec; simpl in Hk.
  2, 3: exists l; split; [done|]; simpl; rewrite <- Hk; by destruct s1.
  case_bool_decide as Ho; cbn [negb].
  2: { exists l. split; [done|]. rewrite <- Hk. simpl. by destruct s1. }
  subst owner. apply email_conflict_none in Ec.
  assert (Hc1 : contents (server_world s1.1) = contents (server_world s.1)) by (by injection Hk).
  unfold on_result at 1. pose proof (keeps_hashed_password user (path_id r) s1 l) as Hk2.
  destruct (hashed_password user (path_id r) s1) as [s2 [hashed|e|]] eqn:Eh; simpl in Hk2.
  2, 3: exists l; split; [done|]; simpl; rewrite <- Hk, <- Hk2; by destruct s2.
  rewrite <- Hk, <- Hk2. apply (store_user_refines (default "" (HTTPRequest_Body r))); [done..|].
  assert (Hc2 : contents (server_world s2.1) = contents (server_world s1.1)) by (by injection Hk2).
  by rewrite Hc2, Hc1.
Qed.

Lemma refines_HandleDeleteUser r : refines [] (HandleDeleteUser r).
Proof.
  unfold HandleDeleteUser. apply refines_or_logged; [apply refines_Delete; intros; apply step_delete_user|intros _].
  apply refines_on_result; [apply refines_endUserSessions|..]; intros; apply refines_keeps; solve_keeps.
Qed.

(** ** Sessions and shortcuts *)

Lemma refines_HandleDeleteSession r : refines [] (HandleDeleteSession r).
Proof.
  unfold HandleDeleteSession. apply refines_or_status; [apply refines_Delete; intros; apply step_end_session|].
  intros _. apply refines_keeps. solve_keeps.
Qed.

Lemma refines_HandleDeleteShortcut r : refines [] (HandleDeleteShortcut r).
Proof.
  unfold HandleDeleteShortcut. apply refines_or_status; [apply refines_Delete; intros; apply step_delete_shortcut|].
  intros _. apply refines_keeps. solve_keeps.
Qed.

Lemma refines_HandlePutShortcut r : refines [] (HandlePutShortcut r).
Proof.
  unfold HandlePutShortcut. apply refines_or_status; [apply refines_keeps; solve_keeps|intros shortcut].
  cbv zeta. apply refines_or_status; [apply refines_Put; intros; apply step_put_shortcut|].
  intros _. apply refines_keeps. solve_keeps.
Qed.

(** ** Services *)

Lemma previous_service_spec id s s' previous :
  previous_service id s = (s', Ret previous) →
  (∀ l, abstract s'.1 l = abstract s.1 l) ∧
  match previous with
  | Some svc => stored (contents (server_world s.1)) ("/services/" +++ id) svc
  | None => ∀ svc : Service, ¬ stored (contents (server_world s.1)) ("/services/" +++ id) svc
  end.
Proof.
  intros H. assert (Hk : keeps (previous_service id)) by (unfold previous_service, store_Get; solve_keeps).
  split; [intros l; specialize (Hk s l); by rewrite H in Hk|].
  unfold previous_service, store_Get in H.
  apply on_result_ret in H as [(s1 & svc & Hg & [= _ <-])|(s1 & e & Hg & H)].
  - apply (store_Get_result Service_json) in Hg as (_ & Hg & _). by apply Hg.
  - destruct (errors_Is e ErrNotFound) eqn:He; [|done]. injection H as _ <-.
    intros svc Hst. apply (store_Get_result Service_json) in Hg as (_ & _ & Hg).
    destruct (Hg svc Hst) as [?|(? & [= ->] & ?)]; congruence.
Qed.

(** What the maps become does not depend on the rest of the state. *)
Definition same_maps (w v : W) : Prop := serviceProviders w = serviceProviders v ∧ serviceIDs w = serviceIDs v.

Lemma same_maps_register id m w v : same_maps w v →
  same_maps (registerServiceProvider id m w) (registerServiceProvider id m v).
Proof. intros [Hp Hi]. unfold same_maps, registerServiceProvider. simpl. by rewrite Hp, Hi. Qed.

Lemma same_maps_deregister id e w v : same_maps w v →
  same_maps (deregisterServiceProvider id e w) (deregisterServiceProvider id e v).
Proof.
  intros [Hp Hi]. unfold same_maps, deregisterServiceProvider. rewrite Hi.
  destruct (_ != _); [done|]. simpl. by rewrite Hp.
Qed.

Lemma same_maps_reregister id m previous w v : same_maps w v →
  same_maps (reregister id m previous w) (reregister id m previous v).
Proof.
  intros H. apply same_maps_register. destruct previous; [by apply same_maps_deregister|done].
Qed.

Lemma reregister_world id m previous (w : W) : server_world (reregister id m previous w) = server_world w.
Proof. unfold reregister. destruct previous; [|done]. simpl. unfold deregisterServiceProvider. by case_match. Qed.

Lemma modify_server_bind {B} (f : W → W) (k : () → IO W B) w ev :
  (modify_server f ≫= k) (w, ev) = k () (f w, ev).
Proof. done. Qed.

Lemma store_service_refines data id metadata previous s l :
  getSPMetadata data = Ret metadata → json_exact (mkService "" metadata) = true →
  (serviceProviders s.1 !! EntityDescriptor_EntityID metadata = None ∨
   default "" (serviceIDs s.1 !! EntityDescriptor_EntityID metadata) = id) →
  match previous with
  | Some svc => stored (contents (server_world s.1)) ("/services/" +++ id) svc
  | None => ∀ svc : Service, ¬ stored (contents (server_world s.1)) ("/services/" +++ id) svc
  end →
  rtc server_step (abstract s.1 l) (abstract (store_service id metadata previous s).1.1 l).
Proof.
  intros Hdata Hx Hguard Hprev. destruct s as [w ev]. unfold store_service.
  remember ("/services/" +++ id) as key eqn:Hkey.
  unfold or_logged, or_http_error, on_result, effect, reads, mbind, IO_bind. simpl. unfold sw_lift, lift.
  destruct (Store_Put _ _ (server_world w)) as [w1 o] eqn:Ep.
  pose proof (Put_revisions _ _ key (mkService "" metadata) (server_world w)) as Hr. rewrite Ep in Hr.
  simpl in Hr. apply Put_law in Ep. destruct o as [[]|e|]; simpl.
  - destruct Ep as (text & Hm & Hc). apply rtc_once.
    pose proof (same_maps_reregister id metadata previous (mkServerWorld (serviceProviders w) (serviceIDs w) w1) w
      (conj eq_refl eq_refl)) as [Hp Hi].
    unfold abstract at 2. rewrite reregister_world, Hp, Hi. simpl. rewrite Hc, Hr, Hkey in *.
    by apply (step_put_service w (reregister id metadata previous w) l data id metadata previous text).
  - unfold abstract. simpl. by rewrite Ep, Hr.
  - unfold abstract. simpl. by rewrite Ep, Hr.
Qed.

Lemma put_service_refines data id metadata : getSPMetadata data = Ret metadata →
  refines [] (put_service id metadata).
Proof.
  intros Hdata [w ev] l _. unfold put_service, reads, mbind, IO_bind. cbv beta iota zeta.
  match goal with |- context [if ?b then _ else _] => destruct b eqn:Hcond end; [by exists l|].
  assert (Hguard : serviceProviders w !! EntityDescriptor_EntityID metadata = None ∨
    default "" (serviceIDs w !! EntityDescriptor_EntityID metadata) = id).
  { cbn [fst snd] in Hcond. apply andb_false_iff in Hcond as [H|H]; bool_prop; [left|by right].
    destruct (serviceProviders w !! _); [|done]. destruct H. by eexists. }
  clear Hcond. unfold or_logged, or_http_error, on_result at 1.
  assert (Hkeep : keeps (previous_service id)) by (unfold previous_service, store_Get; solve_keeps).
  specialize (Hkeep (w, ev) l).
  destruct (previous_service id (w, ev)) as [s1 [previous|e|]] eqn:Ep; simpl in Hkeep; exists l; (split; [done|]).
  2, 3: simpl; rewrite <- Hkeep; by destruct s1.
  apply previous_service_spec in Ep as [_ Hprev]. simpl in *. rewrite <- Hkeep.
  injection Hkeep as Hc Hp Hi _. apply (store_service_refines data); [done|by eapply Service_exact|by rewrite Hp, Hi|].
  by destruct previous; rewrite Hc.
Qed.

Lemma refines_HandlePutService r : refines [] (HandlePutService r).
Proof.
  unfold HandlePutService, or_logged, or_http_error. intros s l Hl. unfold on_result at 1, lift at 1.
  destruct (getSPMetadata _) as [metadata|e|] eqn:Hdata; [|exists l; split; [done|]; simpl; by destruct s..].
  destruct (unrecognized_use metadata); [exists l; split; [done|]; simpl; by destruct s|].
  assert (H : refines [] (now ← TimeNow;
      if bool_decide (currentMetadata metadata now = None) then
        _ ← log "ERROR: the metadata has expired" [] None; http_error 400
      else put_service (path_id r) metadata)); [|by apply H].
  apply refines_bind; [apply refines_keeps; unfold TimeNow; solve_keeps|]. intros now.
  case_bool_decide; [apply refines_keeps; solve_keeps|by apply (put_service_refines _ _ _ Hdata)].
Qed.

Lemma refines_HandleDeleteService r : refines [] (HandleDeleteService r).
Proof.
  unfold HandleDeleteService, or_logged, or_http_error, store_Get. intros s l _. unfold on_result at 1.
  destruct (effect _ s) as [s1 [svc|e|]] eqn:Eg.
  2, 3: exists l; split; [done|]; pose proof (keeps_effect _ (steady_Get Service_json ("/services/" +++ path_id r)) s l) as Hk;
    rewrite Eg in Hk; simpl in *; rewrite <- Hk; by destruct s1.
  apply store_Get_ret in Eg as [Hst Hk]. rewrite <- (Hk l). specialize (Hk l). injection Hk as Hc _ _ _.
  rewrite <- Hc in Hst. destruct s1 as [w ev]. exists l. split; [done|].
  remember ("/services/" +++ path_id r) as key eqn:Hkey.
  unfold on_result, effect, reads, mbind, IO_bind. simpl. unfold sw_lift, lift.
  destruct (Store_Delete key (server_world w)) as [w1 o] eqn:Ed.
  pose proof (Delete_revisions key (server_world w)) as Hr. rewrite Ed in Hr. simpl in Hr.
  apply Delete_law in Ed. destruct o as [[]|e|]; simpl in *.
  - apply rtc_once. unfold abstract at 2.
    pose proof (same_maps_deregister (path_id r) (EntityDescriptor_EntityID (Service_Metadata svc))
      (mkServerWorld (serviceProviders w) (serviceIDs w) w1) w (conj eq_refl eq_refl)) as [Hp Hi].
    rewrite Hp, Hi.
    replace (server_world (deregisterServiceProvider _ _ _)) with w1
      by (unfold deregisterServiceProvider; by case_match).
    rewrite Ed, Hr, Hkey in *. by apply (step_delete_service w (deregisterServiceProvider (path_id r)
      (EntityDescriptor_EntityID (Service_Metadata svc)) w) l (path_id r) svc).
  - unfold abstract. simpl. by rewrite Ed, Hr.
  - unfold abstract. simpl. by rewrite Ed, Hr.
Qed.

(** ** The handlers of the identity provider *)

Lemma refines_or_http_error {A} us (m : IO W A) message args code (k : A → IO W ()) :
  keeps m → (∀ a, refines us (k a)) → refines us (or_http_error m message args code k).
Proof.
  intros Hm Hk. apply refines_on_result; [by apply refines_keeps|done|].
  intros e. apply refines_keeps. solve_keeps.
Qed.

Lemma refines_getSession s r req : refines [] (getSession (server_IDP s) r req).
Proof.
  unfold getSession. destruct (is_true _); [|destruct (is_true _)].
  - apply refines_keeps. unfold writeErrorStatus, or_internal_error. simpl.
    assert (H : keeps (reads (λ w : W,
        let '(w0, o) := without_writer (server_GetPassiveSession r req) w in
        (w0, match o with Ret a => Some a | _ => None end)) ≫= (λ session, lift (deref session)))).
    { apply keeps_bind; [apply keeps_reads|solve_keeps]. intros w l.
      pose proof (steady_without_writer _ (keeps_GetPassiveSession r req) w l) as Hs.
      by destruct (without_writer _ w). }
    solve_keeps.
  - apply refines_handler, refines_GetForcedSession.
  - apply refines_handler, refines_GetSession.
Qed.

Lemma steady_default_enforcers s req session :
  steady (subject_enforcer (server_IDP s) req session) ∧
  steady (name_id_policy_enforcer (server_IDP s) req session) ∧
  steady (authn_context_enforcer (server_IDP s) req session).
Proof. done. Qed.

Lemma refines_ServeSSO s r : refines [] (ServeSSO (server_IDP s) r).
Proof.
  unfold ServeSSO. apply refines_or_http_error; [solve_keeps|intros req].
  apply refines_or_http_error; [solve_keeps|intros req'].
  apply refines_bind; [apply refines_getSession|intros [session|]]; [|apply refines_keeps; solve_keeps].
  apply refines_keeps. unfold or_http_error, unless, or_internal_error.
  pose proof (steady_default_enforcers s) as He.
  assert (H : ∀ req session c m t u,
    keeps (refused (server_IDP s) req session c (subject_enforcer (server_IDP s)) m t u) ∧
    keeps (refused (server_IDP s) req session c (name_id_policy_enforcer (server_IDP s)) m t u) ∧
    keeps (refused (server_IDP s) req session c (authn_context_enforcer (server_IDP s)) m t u)).
  { intros. split_and!; apply keeps_refused; intros; apply He. }
  solve_keeps; apply H.
Qed.

Lemma refines_ServeIDPInitiated s r id relayState : refines [] (ServeIDPInitiated (server_IDP s) r id relayState).
Proof.
  unfold ServeIDPInitiated. apply refines_bind; [apply refines_keeps; unfold TimeNow; solve_keeps|intros now].
  apply refines_bind; [apply refines_handler, refines_GetSession|intros [session|]];
    [|apply refines_keeps; solve_keeps].
  apply refines_keeps. unfold or_http_error, or_internal_error. solve_keeps.
Qed.

Lemma refines_ServeSLO s r : refines [] (ServeSLO (server_IDP s) r).
Proof.
  unfold ServeSLO. apply refines_or_http_error; [solve_keeps|intros req].
  apply refines_or_http_error; [solve_keeps|intros req'].
  apply refines_bind.
  - unfold terminate_session. simpl. apply refines_on_result; [apply refines_TerminateSession|..];
      intros; apply refines_keeps; solve_keeps.
  - intros status. apply refines_keeps. unfold or_http_error. solve_keeps.
Qed.

Lemma refines_HandleLogin s r : refines [] (HandleLogin s r).
Proof.
  unfold HandleLogin. apply refines_or_status; [apply refines_keeps; solve_keeps|intros form].
  apply refines_bind; [apply refines_handler, refines_GetSession|intros [session|]];
    apply refines_keeps; unfold or_status, encode_json, encode_text, w_Write; solve_keeps.
Qed.

Lemma refines_HandleIDPInitiated s r : refines [] (HandleIDPInitiated s r).
Proof.
  unfold HandleIDPInitiated. cbv zeta. destruct (_ || _); [apply refines_keeps; solve_keeps|].
  apply refines_or_status; [apply refines_keeps; solve_keeps|intros form].
  apply refines_or_logged; [apply refines_keeps; unfold store_Get; solve_keeps|].
  intros shortcut. apply refines_ServeIDPInitiated.
Qed.

(** ** Refinement *)

(** The request matches the pattern: the identifier in its path is not empty; and
    that of a user is valid UTF-8. *)
Definition matches (route : Route) (r : HTTPRequest) : Prop :=
  route = Admin PUT_user → path_id r ≠ "" ∧ utf8 (path_id r) = true.

Lemma refines_admin route r : matches (Admin route) r → refines [] (admin_handler route r).
Proof.
  intros Hm. destruct route; cbn [admin_handler];
    first [ apply refines_HandlePutService | apply refines_HandleDeleteService
          | by apply refines_HandlePutUser; apply Hm
          | apply refines_HandleDeleteUser | apply refines_HandleDeleteSession | apply refines_HandlePutShortcut
          | apply refines_HandleDeleteShortcut
          | apply refines_keeps; unfold HandleListServices, HandleGetService, HandleListUsers, HandleGetUser,
              HandleListSessions, HandleGetSession, HandleListShortcuts, HandleGetShortcut, or_logged, or_status,
              or_http_error, store_Get, encode_json, encode_text, w_Write; solve_keeps ].
Qed.

Lemma refines_server_handler s route r : matches route r → refines [] (server_handler s route r).
Proof.
  intros Hm. destruct route as [| | | | | |route]; cbn [server_handler].
  - apply refines_keeps. solve_keeps.
  - apply refines_ServeSSO.
  - apply refines_ServeSLO.
  - apply refines_HandleLogin.
  - apply refines_HandleIDPInitiated.
  - apply refines_HandleIDPInitiated.
  - destruct (Server_AdminAuthorizer s) as [authorizer|]; [destruct (authorizer r)|];
      [by apply refines_admin|apply refines_keeps; solve_keeps..].
Qed.

(** C12: refinement. Whatever request arrives under whatever pattern of the server, and
    however the call ends, what it does to the store, to the registered service
    providers and to the logins in progress is a sequence of steps of
    [server_step]: a user is only stored under an email that is free and with a
    new revision, a session only for a user whose password was given, a service
    provider only under an entity ID that no other service has. *)
Theorem server_handler_refines s route r w ev w' ev' o l
    (Hmatch : matches route r)
    (Hrun : server_handler s route r (w, ev) = ((w', ev'), o)) :
  ∃ l', l ⊆ l' ∧ rtc server_step (abstract w l) (abstract w' l').
Proof.
  destruct (refines_server_handler s route r Hmatch (w, ev) l) as (l' & Hl' & H); [set_solver|].
  rewrite Hrun in H. by exists l'.
Qed.
End keeps.
