(* ===== verification/IdpServerInv.v ===== *)
(** * IdpServerInv: invariants of [src/samlidp]

    Three invariants of the transition system of [IdpServerSteps]: the registered
    service providers are the stored ones, no two users have the same email, and no
    session asserts what its user no longer is.  [New] establishes the first two, and
    they hold in every state that requests, in any interleaving of logins, reach. *)

From stdpp Require Import base option list gmap strings sets sorting relations.
From Stdlib Require Import ZArith Lia Ascii.
From S2P Require Import Prelude Go Duration Encoding Etree Schema Env Http Store XmlTree ServiceProvider.
From S2P Require Import DSig Redirect IdentityProvider Assertions IdpResponse IdpLogout IdpServer IdpServerAdmin.
From S2P Require Import IdpServerSteps IdpServerSpec.

Open Scope string_scope.

(** The fields of a state that is written out. *)
Ltac st_simpl := cbn [st_contents st_providers st_ids st_revisions st_logins] in *.

Section invariants.
Context {W0 : Type}.
Context `{UrlI : UrlOps} `{VarsI : PackageVars} `{EtreeI : EtreeOps} `{X509I : X509Ops} `{XmlI : XmlOps}.
Context `{SigI : SignatureOps} `{CryptoI : CryptoOps} `{FlateI : FlateOps} `{NetI : NetOps} `{TemplateI : TemplateOps}.
Context `{MetadataI : MetadataXml} `{WorldI : World W0} `{StoreL : StoreLaws W0} `{OpsI : ServerOps W0} `{FoldI : FoldOps} `{JsonI : ServerJson}.
Context `{EncI : EncryptOps W0} `{ServerL : !ServerLaws W0} `{JsonL : !ServerJsonLaws W0} `{FoldL : !FoldLaws}.
Notation W := (ServerWorld W0).

(** ** What is stored under a key *)

Section stored.
Context {A : Type} {J : Json A}.

Lemma stored_agree c key (a b : A) : stored c key a → stored c key b → a = b.
Proof. intros (s & Hs & Ha) (t & Ht & Hb). congruence. Qed.

Lemma stored_insert_ne c key key' text (a : A) : key ≠ key' →
  stored (<[key' := text]> c) key a ↔ stored c key a.
Proof. intros H. unfold stored. by rewrite lookup_insert_ne. Qed.

Lemma stored_delete_ne c key key' (a : A) : key ≠ key' → stored (delete key' c) key a ↔ stored c key a.
Proof. intros H. unfold stored. by rewrite lookup_delete_ne. Qed.

Lemma stored_delete c key key' (a : A) : stored (delete key' c) key a → key ≠ key' ∧ stored c key a.
Proof.
  intros (t & Ht & Hu). apply lookup_delete_Some in Ht as [? ?]. split; [done|]. by exists t.
Qed.

Lemma stored_insert_exact c key text (a b : A) : json_exact a = true → json_Marshal a = Ret text →
  stored (<[key := text]> c) key b ↔ b = a.
Proof.
  intros Hx Hm. unfold stored. rewrite lookup_insert_eq. pose proof (json_roundtrip a text Hx Hm) as Hr.
  split; [intros (t & [= <-] & Hu); congruence|intros ->; by exists text].
Qed.
End stored.

Lemma key_inj p a b : p +++ a = p +++ b → a = b.
Proof. apply append_inj_l. Qed.

(** ** No two users have the same email *)

Definition emails_unique (c : gmap string string) : Prop :=
  c !! "/users/" = None ∧
  ∀ n1 n2 (u1 u2 : User), stored c ("/users/" +++ n1) u1 → stored c ("/users/" +++ n2) u2 →
    User_Email u1 ≠ "" → EqualFold (User_Email u1) (User_Email u2) = true → n1 = n2.

Lemma emails_unique_users c c' :
  (∀ n, c' !! ("/users/" +++ n) = c !! ("/users/" +++ n)) → emails_unique c → emails_unique c'.
Proof.
  intros Heq [Hnone Hu]. split; [exact (eq_trans (Heq "") Hnone)|].
  intros n1 n2 u1 u2 (t1 & H1 & D1) (t2 & H2 & D2). rewrite Heq in H1, H2.
  apply (Hu n1 n2 u1 u2); [by exists t1|by exists t2].
Qed.

Lemma emails_unique_delete c id : emails_unique c → emails_unique (delete ("/users/" +++ id) c).
Proof.
  intros [Hnone Hu]. split.
  - destruct (decide ("/users/" +++ id = "/users/")) as [->|Hn];
      [apply lookup_delete_eq|by rewrite lookup_delete_ne].
  - intros n1 n2 u1 u2 [_ H1]%stored_delete [_ H2]%stored_delete. by apply (Hu n1 n2 u1 u2).
Qed.

Lemma emails_unique_put c user id text :
  id ≠ "" → json_exact user = true → json_Marshal user = Ret text → email_free c (User_Email user) id →
  emails_unique c → emails_unique (<["/users/" +++ id := text]> c).
Proof.
  intros Hid Hx Hm Hfree [Hnone Hu]. split.
  { rewrite lookup_insert_ne; [done|]. intros H. apply Hid. by apply (key_inj "/users/" id ""). }
  assert (Hother : ∀ n u, n ≠ id → stored c ("/users/" +++ n) u → User_Email user ≠ "" →
    EqualFold (User_Email u) (User_Email user) = false).
  { intros n u Hn Hst He. destruct Hfree as [?|[[t Ht]|Hfree]]; [done|congruence|by apply (Hfree n)]. }
  assert (Hin : ∀ n (u : User), stored (<["/users/" +++ id := text]> c) ("/users/" +++ n) u →
    n = id ∧ u = user ∨ n ≠ id ∧ stored c ("/users/" +++ n) u).
  { intros n u Hst. destruct (decide (n = id)) as [->|Hn].
    - left. split; [done|]. by apply (stored_insert_exact c ("/users/" +++ id) text user u).
    - right. split; [done|]. apply stored_insert_ne in Hst; [done|]. intros ?%key_inj. done. }
  intros n1 n2 u1 u2 [[-> ->]|[Hn1 H1]]%Hin [[-> ->]|[Hn2 H2]]%Hin He Hf; [done|..].
  - rewrite EqualFold_sym, (Hother n2) in Hf; done.
  - destruct (decide (User_Email user = "")) as [Heq|Hne].
    + rewrite Heq in Hf. by apply EqualFold_empty in Hf.
    + rewrite (Hother n1) in Hf; done.
  - by apply (Hu n1 n2 u1 u2).
Qed.

Lemma emails_unique_step st st' :
  server_step st st' → emails_unique (st_contents st) → emails_unique (st_contents st').
Proof.
  intros Hstep Hu. destruct Hstep; simpl in *; try done.
  all: try (eapply emails_unique_users; [|exact Hu]; intros n; simpl;
    by rewrite ?lookup_insert_ne, ?lookup_delete_ne by done).
  - by apply (emails_unique_put _ (stored_user user id hashed t)).
  - by apply emails_unique_delete.
Qed.

(** ** The registered service providers are the stored ones *)

(** The services of [names] are registered, each under its entity ID and its own
    identifier, and nothing else is. *)
Record registered (names : string → Prop) (c : gmap string string) (providers : gmap string EntityDescriptor)
    (ids : gmap string string) : Prop := {
  registered_stored e metadata : providers !! e = Some metadata →
    ∃ id svc, names id ∧ ids !! e = Some id ∧ stored c ("/services/" +++ id) svc ∧
      Service_Metadata svc = metadata ∧ EntityDescriptor_EntityID metadata = e;
  stored_registered id svc : names id → stored c ("/services/" +++ id) svc →
    let metadata := Service_Metadata svc in
    providers !! EntityDescriptor_EntityID metadata = Some metadata ∧
    ids !! EntityDescriptor_EntityID metadata = Some id;
  registered_ids e id : ids !! e = Some id → is_Some (providers !! e)
}.

Definition registry_ok (st : server_state) : Prop :=
  registered (λ _, True) (st_contents st) (st_providers st) (st_ids st).

Lemma registered_services names c c' p i :
  (∀ n, c' !! ("/services/" +++ n) = c !! ("/services/" +++ n)) →
  registered names c p i → registered names c' p i.
Proof.
  intros Heq [H1 H2 H3].
  assert (Hst : ∀ n (svc : Service), stored c' ("/services/" +++ n) svc ↔ stored c ("/services/" +++ n) svc).
  { intros n svc. unfold stored. by rewrite Heq. }
  split; [|intros id svc Hn Hs; apply (H2 id svc); [done|by apply Hst]|done].
  intros e m Hm. destruct (H1 e m Hm) as (id & svc & ? & ? & ? & ? & ?). exists id, svc.
  split_and!; [done..|by apply Hst|done|done].
Qed.

(** Deregistering the previous record of a service leaves what is not the service's. *)
Lemma deregister_lookup (w : W) id (svc : Service) e :
  registry_ok (abstract w []) → stored (contents (server_world w)) ("/services/" +++ id) svc →
  let w' := deregisterServiceProvider id (EntityDescriptor_EntityID (Service_Metadata svc)) w in
  serviceProviders w' !! e = (if decide (serviceIDs w !! e = Some id) then None else serviceProviders w !! e) ∧
  serviceIDs w' !! e = (if decide (serviceIDs w !! e = Some id) then None else serviceIDs w !! e).
Proof.
  intros [H1 H2 H3] Hst. simpl in *. destruct (H2 id svc I Hst) as [Hp Hi].
  unfold deregisterServiceProvider. rewrite Hi. simpl. rewrite bool_decide_true by done. simpl.
  destruct (decide (e = EntityDescriptor_EntityID (Service_Metadata svc))) as [->|Hne].
  - by rewrite !lookup_delete_eq, !decide_True by done.
  - assert (serviceIDs w !! e ≠ Some id).
    { intros He. destruct (H3 _ _ He) as [m Hm]. destruct (H1 _ _ Hm) as (id' & svc' & _ & Hi' & Hst' & Hm' & He').
      rewrite He in Hi'. injection Hi' as <-. apply Hne. rewrite (stored_agree _ _ _ _ Hst Hst'). congruence. }
    rewrite !lookup_delete_ne, !decide_False by done. done.
Qed.

(** Without a readable record the service has nothing registered. *)
Lemma unregistered (w : W) id e :
  registry_ok (abstract w []) →
  (∀ svc : Service, ¬ stored (contents (server_world w)) ("/services/" +++ id) svc) →
  serviceIDs w !! e ≠ Some id.
Proof.
  intros [H1 H2 H3] Hno He. simpl in *. destruct (H3 _ _ He) as [m Hm].
  destruct (H1 _ _ Hm) as (id' & svc' & _ & Hi' & Hst' & _). rewrite He in Hi'. injection Hi' as <-.
  by destruct (Hno svc').
Qed.

(** The maps after the previous record of the service [id] is deregistered. *)
Definition without_id (w v : W) (id : string) : Prop :=
  ∀ e, serviceProviders v !! e = (if decide (serviceIDs w !! e = Some id) then None else serviceProviders w !! e) ∧
       serviceIDs v !! e = (if decide (serviceIDs w !! e = Some id) then None else serviceIDs w !! e).

Lemma registry_put w v id metadata text :
  registry_ok (abstract w []) → without_id w v id →
  (serviceProviders w !! EntityDescriptor_EntityID metadata = None ∨
   default "" (serviceIDs w !! EntityDescriptor_EntityID metadata) = id) →
  json_exact (mkService "" metadata) = true → json_Marshal (mkService "" metadata) = Ret text →
  registered (λ _, True) (<["/services/" +++ id := text]> (contents (server_world w)))
    (serviceProviders (registerServiceProvider id metadata v)) (serviceIDs (registerServiceProvider id metadata v)).
Proof.
  intros [H1 H2 H3] Hv Hguard Hx Hm. simpl in *.
  set (c := contents (server_world w)) in *. set (e0 := EntityDescriptor_EntityID metadata) in *.
  assert (Hnew : ∀ svc, stored (<["/services/" +++ id:=text]> c) ("/services/" +++ id) svc ↔ svc = mkService "" metadata)
    by (intros svc; by apply stored_insert_exact).
  assert (Hold : ∀ n (svc : Service), n ≠ id →
    stored (<["/services/" +++ id:=text]> c) ("/services/" +++ n) svc ↔ stored c ("/services/" +++ n) svc)
    by (intros n svc Hn; apply stored_insert_ne; intros ?%key_inj; done).
  split; simpl.
  - intros e m [[<- <-]|[Hne He]]%lookup_insert_Some.
    + exists id, (mkService "" metadata). rewrite lookup_insert_eq. split_and!; [done..|by apply Hnew|done|done].
    + rewrite (proj1 (Hv e)) in He. destruct (decide _) as [|Hid]; [done|].
      destruct (H1 e m He) as (id' & svc & _ & Hi & Hst & Hmd & Heid). exists id', svc.
      assert (id' ≠ id) by (intros ->; done).
      rewrite lookup_insert_ne, (proj2 (Hv e)), decide_False by done. split_and!; [done..|by apply Hold|done|done].
  - intros n svc _ Hst. destruct (decide (n = id)) as [->|Hn].
    + apply Hnew in Hst as ->. simpl. by rewrite !lookup_insert_eq.
    + apply Hold in Hst; [|done]. destruct (H2 n svc I Hst) as [Hp Hi].
      assert (Hne : e0 ≠ EntityDescriptor_EntityID (Service_Metadata svc)).
      { intros Heq. rewrite Heq in Hguard. rewrite Hp, Hi in Hguard. by destruct Hguard as [?|?]. }
      rewrite !lookup_insert_ne by done. rewrite (proj1 (Hv _)), (proj2 (Hv _)), Hi.
      rewrite !decide_False by congruence. done.
  - intros e n [[<- <-]|[Hne He]]%lookup_insert_Some; [by rewrite lookup_insert_eq|].
    rewrite lookup_insert_ne by done. rewrite (proj1 (Hv e)). rewrite (proj2 (Hv e)) in He.
    destruct (decide _); [done|]. by eapply H3.
Qed.

Lemma registry_delete w v id : registry_ok (abstract w []) → without_id w v id →
  registered (λ _, True) (delete ("/services/" +++ id) (contents (server_world w)))
    (serviceProviders v) (serviceIDs v).
Proof.
  intros [H1 H2 H3] Hv. simpl in *. split.
  - intros e m He. rewrite (proj1 (Hv e)) in He. destruct (decide _) as [|Hid]; [done|].
    destruct (H1 e m He) as (id' & svc & _ & Hi & Hst & Hmd & Heid). exists id', svc.
    rewrite (proj2 (Hv e)), decide_False by done. split_and!; [done..| |done|done].
    apply stored_delete_ne; [|done]. intros <-%(key_inj "/services/"). done.
  - intros n svc _ [Hn Hst]%stored_delete. destruct (H2 n svc I Hst) as [Hp Hi]. simpl in *.
    rewrite (proj1 (Hv _)), (proj2 (Hv _)), Hi. rewrite !decide_False by (intros [= ->]; done). done.
  - intros e n He. rewrite (proj1 (Hv e)). rewrite (proj2 (Hv e)) in He.
    destruct (decide _); [done|]. by eapply H3.
Qed.

Lemma registry_step st st' : server_step st st' → registry_ok st → registry_ok st'.
Proof.
  intros Hstep Hr. destruct Hstep as [| | | | | | | |w w' l data id metadata previous text _ Hx Hguard Hprev Hm ->
    |w w' l id svc Hst ->]; unfold registry_ok in *; simpl in *; try done.
  1-6: eapply registered_services; [|exact Hr]; intros n; simpl;
    by rewrite ?lookup_insert_ne, ?lookup_delete_ne by done.
  - apply registry_put; [done| |done..]. intros e. destruct previous as [svc|].
    + by apply deregister_lookup.
    + pose proof (unregistered w id e Hr Hprev). by rewrite !decide_False.
  - apply (registry_delete w); [done|]. intros e. by apply deregister_lookup.
Qed.

(** ** A session asserts what its user is *)

(** The session has the data of the user. *)
Definition session_of (user : User) (x : Session) : Prop :=
  x = user_session user (Session_ID x) (Session_CreateTime x) (Session_ExpireTime x) (Session_Index x).

(** Stored users have the name that they are stored under and a revision that was
    drawn; a session, or a login in progress, whose revision the stored user has is
    a session, or a login, of that very user. *)
Record sessions_ok (st : server_state) : Prop := {
  users_named name user : stored (st_contents st) ("/users/" +++ name) user →
    User_Name user = name ∧ User_Revision user ∈ st_revisions st;
  sessions_of_users id (x : storedSession) user : stored (st_contents st) ("/sessions/" +++ id) x →
    stored (st_contents st) ("/users/" +++ Session_UserName (stored_Session x)) user →
    User_Revision user = stored_UserRevision x → session_of user (stored_Session x);
  sessions_revision id (x : storedSession) : stored (st_contents st) ("/sessions/" +++ id) x →
    stored_UserRevision x ∈ st_revisions st;
  logins_of_users p user : p ∈ st_logins st → stored (st_contents st) ("/users/" +++ User_Name p) user →
    User_Revision user = User_Revision p → user = p;
  logins_revision p : p ∈ st_logins st → User_Revision p ∈ st_revisions st
}.

(** Fewer users, sessions and logins keep the invariant. *)
Lemma sessions_ok_fewer c c' p p' i i' rs rs' l l' :
  (∀ n (u : User), stored c' ("/users/" +++ n) u → stored c ("/users/" +++ n) u) →
  (∀ n (x : storedSession), stored c' ("/sessions/" +++ n) x → stored c ("/sessions/" +++ n) x) →
  rs ⊆ rs' → l' ⊆ l → sessions_ok (mkState c p i rs l) → sessions_ok (mkState c' p' i' rs' l').
Proof.
  intros Hu Hs Hr Hl [H1 H2 H3 H4 H5]. st_simpl. split; st_simpl.
  - intros n u Hst. destruct (H1 n u (Hu _ _ Hst)) as [? ?]. set_solver.
  - intros n x u Hx Hst. apply (H2 n x u); auto.
  - intros n x Hx. by eapply Hr, H3, Hs.
  - intros q u Hq Hst. apply (H4 q u); auto.
  - intros q Hq. auto.
Qed.

Lemma stored_other {A} {J : Json A} c c' pre (a : A) n :
  c' !! (pre +++ n) = c !! (pre +++ n) → stored c' (pre +++ n) a → stored c (pre +++ n) a.
Proof. unfold stored. by intros ->. Qed.

Lemma sessions_ok_login c p i rs l name user : stored c ("/users/" +++ name) user →
  sessions_ok (mkState c p i rs l) → sessions_ok (mkState c p i rs (user :: l)).
Proof.
  intros Hu [H1 H2 H3 H4 H5]. simpl in *. destruct (H1 _ _ Hu) as [Hn Hr]. split; st_simpl; [done..| |].
  - intros q u [->|Hq]%elem_of_cons Hst Hrev; [|by apply H4]. rewrite Hn in Hst. by eapply stored_agree.
  - intros q [->|Hq]%elem_of_cons; [done|auto].
Qed.

Lemma sessions_ok_start c p i rs l user id create expire index text :
  user ∈ l →
  json_exact (mkStoredSession (user_session user id create expire index) (User_Revision user)) = true →
  json_Marshal (mkStoredSession (user_session user id create expire index) (User_Revision user)) = Ret text →
  sessions_ok (mkState c p i rs l) → sessions_ok (mkState (<["/sessions/" +++ id := text]> c) p i rs l).
Proof.
  intros Hl Hx Hm [H1 H2 H3 H4 H5]. simpl in *.
  assert (Hu : ∀ n (u : User), stored (<["/sessions/" +++ id := text]> c) ("/users/" +++ n) u →
    stored c ("/users/" +++ n) u) by (intros n u; apply stored_other; by rewrite lookup_insert_ne).
  assert (Hs : ∀ n (x : storedSession), stored (<["/sessions/" +++ id := text]> c) ("/sessions/" +++ n) x →
    x = mkStoredSession (user_session user id create expire index) (User_Revision user) ∨
    stored c ("/sessions/" +++ n) x).
  { intros n x Hst. destruct (decide (n = id)) as [->|Hn].
    - left. by apply (stored_insert_exact _ _ _ _ _ Hx Hm) in Hst.
    - right. apply stored_insert_ne in Hst; [done|]. intros ?%(key_inj "/sessions/"). done. }
  split; st_simpl; [by intros n u Hst%Hu; apply H1| | |by intros q u Hq Hst%Hu; apply H4|done].
  - intros n x u [->|Hst]%Hs Hst'%Hu Hrev; [|by apply (H2 n)]. simpl in *. by rewrite (H4 _ _ Hl Hst' Hrev).
  - intros n x [->|Hst]%Hs; [simpl; auto|exact (H3 _ _ Hst)].
Qed.

Lemma sessions_ok_put c p i rs l user id hashed t text :
  json_exact (stored_user user id hashed t) = true → t ∉ rs →
  json_Marshal (stored_user user id hashed t) = Ret text →
  sessions_ok (mkState c p i rs l) →
  sessions_ok (mkState (<["/users/" +++ id := text]> c) p i ({[t]} ∪ rs) l).
Proof.
  intros Hx Ht Hm [H1 H2 H3 H4 H5]. simpl in *.
  assert (Hu : ∀ n (u : User), stored (<["/users/" +++ id := text]> c) ("/users/" +++ n) u →
    n = id ∧ u = stored_user user id hashed t ∨ stored c ("/users/" +++ n) u).
  { intros n u Hst. destruct (decide (n = id)) as [->|Hn].
    - left. split; [done|]. by apply (stored_insert_exact _ _ _ _ _ Hx Hm) in Hst.
    - right. apply stored_insert_ne in Hst; [done|]. intros ?%(key_inj "/users/"). done. }
  assert (Hs : ∀ n (x : storedSession), stored (<["/users/" +++ id := text]> c) ("/sessions/" +++ n) x →
    stored c ("/sessions/" +++ n) x) by (intros n x; apply stored_other; by rewrite lookup_insert_ne).
  split; st_simpl.
  - intros n u [[-> ->]|Hst]%Hu; [set_solver|]. destruct (H1 _ _ Hst). set_solver.
  - intros n x u Hst%Hs [[_ ->]|Hst']%Hu Hrev; [|by apply (H2 n)]. simpl in Hrev. destruct Ht.
    rewrite Hrev. exact (H3 _ _ Hst).
  - intros n x Hst%Hs. apply H3 in Hst. set_solver.
  - intros q u Hq [[_ ->]|Hst]%Hu Hrev; [|by apply H4]. simpl in Hrev. destruct Ht. rewrite Hrev. auto.
  - intros q Hq. specialize (H5 q Hq). set_solver.
Qed.

Lemma sessions_ok_step st st' : server_step st st' → sessions_ok st → sessions_ok st'.
Proof.
  intros Hstep Hok. destruct Hstep.
  - by eapply sessions_ok_login.
  - by apply (sessions_ok_start c p i rs l user id create expire index).
  - eapply sessions_ok_fewer; [..|exact Hok]; [| |done|done]; intros n x;
      [apply stored_other; by rewrite lookup_delete_ne|by intros [_ ?]%stored_delete].
  - eapply sessions_ok_fewer; [..|exact Hok]; [done|done|set_solver|done].
  - by apply (sessions_ok_put c p i rs l user id hashed t).
  - eapply sessions_ok_fewer; [..|exact Hok]; [| |done|done]; intros n x;
      [by intros [_ ?]%stored_delete|apply stored_other; by rewrite lookup_delete_ne].
  - eapply sessions_ok_fewer; [..|exact Hok]; [| |done|done]; intros n x; apply stored_other;
      by rewrite lookup_insert_ne.
  - eapply sessions_ok_fewer; [..|exact Hok]; [| |done|done]; intros n x; apply stored_other;
      by rewrite lookup_delete_ne.
  - eapply sessions_ok_fewer; [..|exact Hok]; [| |done|done]; intros n x; apply stored_other;
      by rewrite lookup_insert_ne.
  - eapply sessions_ok_fewer; [..|exact Hok]; [| |done|done]; intros n x; apply stored_other;
      by rewrite lookup_delete_ne.
Qed.
End invariants.
