(* ===== verification/IdpServerRun.v ===== *)
(** * IdpServerRun: every state that a server of [src/samlidp] reaches

    A server starts with [New], on an empty store or on the one of an earlier
    server, and then serves requests.  A login reads the user and checks the
    password before it stores the session, and other requests may come in between;
    so do they before the sessions of a changed user are ended.  [reachable] are
    the states of all such runs, and the invariants of [IdpServerInv] hold in
    them. *)

From stdpp Require Import base option list gmap strings sets sorting relations.
From Stdlib Require Import ZArith Lia Ascii.
From S2P Require Import Prelude Go Duration Encoding Etree Schema Env Http Store XmlTree ServiceProvider.
From S2P Require Import DSig Redirect IdentityProvider Assertions IdpResponse IdpLogout IdpServer IdpServerAdmin.
From S2P Require Import IdpServerSteps IdpServerSpec IdpServerInv.

Open Scope string_scope.

Section run.
Context {W0 : Type}.
Context `{UrlI : UrlOps} `{VarsI : PackageVars} `{EtreeI : EtreeOps} `{X509I : X509Ops} `{XmlI : XmlOps}.
Context `{SigI : SignatureOps} `{CryptoI : CryptoOps} `{FlateI : FlateOps} `{NetI : NetOps} `{TemplateI : TemplateOps}.
Context `{MetadataI : MetadataXml} `{WorldI : World W0} `{StoreL : StoreLaws W0} `{OpsI : ServerOps W0} `{FoldI : FoldOps} `{JsonI : ServerJson}.
Context `{EncI : EncryptOps W0} `{ServerL : !ServerLaws W0} `{JsonL : !ServerJsonLaws W0} `{FoldL : !FoldLaws}.
Notation W := (ServerWorld W0).

(** ** Runs *)

(** What happens to a server between two of its states; the list has the users of the
    logins in progress. *)
Inductive server_event (s : Server) : W * list User → W * list User → Prop :=
  | event_request route r w ev w' ev' o l :
      matches route r → server_handler s route r (w, ev) = ((w', ev'), o) →
      server_event s (w, l) (w', l)
  | event_credentials r req w ev w' ev' user l :
      authenticate_user s r req (w, ev) = ((w', ev'), Ret (Some user)) →
      server_event s (w, l) (w', user :: l)
  | event_session r user w ev w' ev' o l :
      user ∈ l → start_session s r user (w, ev) = ((w', ev'), o) →
      server_event s (w, l) (w', l)
  | event_end_sessions name ids w ev w' ev' o l :
      end_sessions name ids (w, ev) = ((w', ev'), o) → server_event s (w, l) (w', l)
  | event_elsewhere w w' l :
      abstract w' l = abstract w l → server_event s (w, l) (w', l).

Inductive reachable : Server → W → list User → Prop :=
  | reachable_first opts s w ev w' ev' :
      contents (server_world w) = ∅ → New opts (w, ev) = ((w', ev'), Ret s) → reachable s w' []
  | reachable_restart opts s s' w l ev w' ev' :
      reachable s w l → New opts (w, ev) = ((w', ev'), Ret s') → reachable s' w' []
  | reachable_event s w l w' l' :
      reachable s w l → server_event s (w, l) (w', l') → reachable s w' l'.

(** ** Events make steps *)

(** The logins in progress are of users that were read from the store. *)
Definition logins_exact (l : list User) : Prop := Forall (λ u, json_exact u = true) l.

Lemma event_steps s w l w' l' : server_event s (w, l) (w', l') → logins_exact l →
  logins_exact l' ∧ ∃ l'', l' ⊆ l'' ∧ rtc server_step (abstract w l) (abstract w' l'').
Proof.
  intros Hev Hx. inversion Hev; subst; clear Hev.
  - split; [done|]. match goal with Hm : matches _ _, H : server_handler _ _ _ _ = _ |- _ =>
      destruct (refines_server_handler s _ _ Hm (w, ev) l') as (l'' & Hl & Hr); [set_solver|]; rewrite H in Hr end.
    by exists l''.
  - match goal with H : authenticate_user _ _ _ _ = _ |- _ =>
      pose proof (keeps_authenticate_user s r req (w, ev) l) as Hk; rewrite H in Hk; simpl in Hk;
      apply authenticate_user_ret in H as (_ & Hst & Hcmp) end.
    split.
    + constructor; [|done]. destruct Hst as (text & _ & Hu). by eapply User_decoded.
    + exists (user :: l). split; [done|]. apply rtc_once. injection Hk as Hc Hp Hi Hr.
      unfold abstract. rewrite Hc, Hp, Hi, Hr. by eapply step_login.
  - split; [done|]. match goal with H : start_session _ _ _ _ = _, Hu : user ∈ l' |- _ =>
      destruct (refines_start_session s r user (proj1 (Forall_forall _ _) Hx _ Hu) (w, ev) l')
        as (l'' & Hl & Hr); [set_solver|]; rewrite H in Hr end.
    by exists l''.
  - split; [done|]. match goal with H : end_sessions _ _ _ = _ |- _ =>
      destruct (refines_end_sessions [] name ids (w, ev) l') as (l'' & Hl & Hr); [set_solver|]; rewrite H in Hr end.
    by exists l''.
  - split; [done|]. exists l'. split; [done|]. match goal with H : abstract _ _ = _ |- _ => by rewrite H end.
Qed.

(** ** [New] *)

Lemma registered_add names c p i name (svc : Service) :
  registered names c p i → stored c ("/services/" +++ name) svc →
  i !! EntityDescriptor_EntityID (Service_Metadata svc) = None →
  registered (λ n, n = name ∨ names n) c
    (<[EntityDescriptor_EntityID (Service_Metadata svc) := Service_Metadata svc]> p)
    (<[EntityDescriptor_EntityID (Service_Metadata svc) := name]> i).
Proof.
  intros [H1 H2 H3] Hst Hno. split.
  - intros e m [[<- <-]|[Hne He]]%lookup_insert_Some.
    + exists name, svc. rewrite lookup_insert_eq. split_and!; auto.
    + destruct (H1 e m He) as (id & svc' & Hn & Hi & ? & ? & ?). exists id, svc'.
      rewrite lookup_insert_ne by done. split_and!; auto.
  - intros id svc' [->|Hn] Hst'; cbv zeta.
    + rewrite (stored_agree _ _ _ _ Hst' Hst), !lookup_insert_eq. done.
    + destruct (H2 id svc' Hn Hst') as [Hp Hi]. rewrite !lookup_insert_ne by congruence. done.
  - intros e id [[<- <-]|[Hne He]]%lookup_insert_Some; [by rewrite lookup_insert_eq|].
    rewrite lookup_insert_ne by done. by eapply H3.
Qed.

Lemma registered_names names names' c p i :
  (∀ n, names n ↔ names' n) → registered names c p i → registered names' c p i.
Proof.
  intros Hn [H1 H2 H3]. split; [|intros id svc Hin; apply H2; by apply Hn|done].
  intros e m He. destruct (H1 e m He) as (id & svc & Hin & ?). exists id, svc. split; [by apply Hn|done].
Qed.

Lemma initialize_services_registered names s s' known :
  registered known (contents (server_world s.1)) (serviceProviders s.1) (serviceIDs s.1) →
  initialize_services names s = (s', Ret ()) →
  contents (server_world s'.1) = contents (server_world s.1) ∧
  revisions (server_world s'.1) = revisions (server_world s.1) ∧
  registered (λ n, n ∈ names ∨ known n) (contents (server_world s'.1)) (serviceProviders s'.1) (serviceIDs s'.1).
Proof.
  revert s known. induction names as [|name names IH]; intros s known Hr; cbn [initialize_services].
  { intros [= ->]. split_and!; [done..|]. eapply registered_names; [|exact Hr]. set_solver. }
  unfold store_Get. intros (s1 & svc & Hget & H)%io_bind_ret.
  apply store_Get_ret in Hget as [Hst Hk]. specialize (Hk []). injection Hk as Hc Hp Hi Hrev.
  cbv zeta in H. apply io_bind_ret in H as (s2 & ids & Hids & H).
  destruct s1 as [w1 ev1]. injection Hids as <- <-.
  destruct (serviceIDs w1 !! _) eqn:Eid; [done|]. rewrite modify_server_bind in H. cbn [fst] in *.
  apply (IH _ (λ n, n = name ∨ known n)) in H as (Hc' & Hrev' & Hreg).
  - cbn in Hc', Hrev'. split_and!; [by rewrite Hc'|by rewrite Hrev'|].
    eapply registered_names; [|exact Hreg]. set_solver.
  - cbn. rewrite Hc. apply registered_add; [by rewrite Hp, Hi|done|done].
Qed.

Lemma effect_List_ret prefix s s' names : effect (Store_List prefix) s = (s', Ret names) →
  (∀ l, abstract s'.1 l = abstract s.1 l) ∧ names ≡ₚ keys_with prefix (contents (server_world s.1)).
Proof.
  intros H. split; [intros l; pose proof (keeps_effect _ (steady_List prefix) s l) as Hk; by rewrite H in Hk|].
  destruct s as [w ev]. unfold effect, reads, mbind, IO_bind, lift in H. simpl in H. unfold sw_lift in H.
  destruct (Store_List prefix (server_world w)) as [w' o] eqn:E. injection H as _ ->.
  by apply List_law in E as [_ ?].
Qed.

Lemma stored_key {A} {J : Json A} prefix n c (a : A) : stored c (prefix +++ n) a → n ∈ keys_with prefix c.
Proof.
  intros (text & Hk & _). unfold keys_with. apply list_elem_of_omap. exists (prefix +++ n).
  split; [|by apply cut_prefix_Some]. apply list_elem_of_fmap. exists (prefix +++ n, text).
  split; [done|]. by apply elem_of_map_to_list.
Qed.

Lemma elem_of_sort n names : n ∈ slices_Sort names ↔ n ∈ names.
Proof. unfold slices_Sort. by rewrite (merge_sort_Permutation string_le names). Qed.

Lemma initializeServices_registry s s' :
  serviceProviders s.1 = ∅ → serviceIDs s.1 = ∅ → initializeServices s = (s', Ret ()) →
  contents (server_world s'.1) = contents (server_world s.1) ∧
  revisions (server_world s'.1) = revisions (server_world s.1) ∧ registry_ok (abstract s'.1 []).
Proof.
  intros Hp Hi (s1 & names & Hl & H)%io_bind_ret.
  apply effect_List_ret in Hl as [Hk Hn]. specialize (Hk []). injection Hk as Hc Hp' Hi' Hr.
  apply (initialize_services_registered _ _ _ (λ _, False)) in H as (Hc' & Hr' & Hreg).
  - split_and!; [congruence..|]. destruct Hreg as [H1 H2 H3]. split; [|intros id svc _ Hst; apply H2; [|done]|done].
    + intros e m He. destruct (H1 e m He) as (id & svc & _ & ?). by exists id, svc.
    + left. rewrite elem_of_sort, Hn. apply (stored_key _ _ _ svc). simpl in Hst. by rewrite Hc', Hc in Hst.
  - rewrite Hp', Hi', Hp, Hi. split; [intros e m|intros id svc []|intros e id]; by rewrite lookup_empty.
Qed.

(** No two of the sorted names have the same email. *)
Lemma check_emails_unique names emails s s' :
  check_emails emails names s = (s', Ret ()) →
  (∀ l, abstract s'.1 l = abstract s.1 l) ∧
  (∀ o n (u : User), o ∈ emails → n ∈ names → stored (contents (server_world s.1)) ("/users/" +++ n) u →
    User_Email u ≠ "" → EqualFold o.2 (User_Email u) = false) ∧
  (∀ n1 n2 (u1 u2 : User), n1 ∈ names → n2 ∈ names →
    stored (contents (server_world s.1)) ("/users/" +++ n1) u1 →
    stored (contents (server_world s.1)) ("/users/" +++ n2) u2 →
    User_Email u1 ≠ "" → User_Email u2 ≠ "" → EqualFold (User_Email u1) (User_Email u2) = true → n1 = n2).
Proof.
  revert emails s. induction names as [|name names IH]; intros emails s; cbn [check_emails].
  { intros [= ->]. split_and!; [done|set_solver..]. }
  unfold store_Get. intros (s1 & user & Hget & H)%io_bind_ret.
  apply store_Get_ret in Hget as [Hst Hk].
  assert (Hc : contents (server_world s1.1) = contents (server_world s.1)) by (specialize (Hk []); by injection Hk).
  assert (Hu : ∀ u, stored (contents (server_world s.1)) ("/users/" +++ name) u → u = user)
    by (intros u Hu; by eapply stored_agree).
  case_bool_decide as He; [|destruct (first_that _ emails) as [|] eqn:Ef; [done|]];
    apply IH in H as (Hk' & Ho & Hp); rewrite Hc in Ho, Hp; (split; [intros l; by rewrite Hk', Hk|]); split.
  - intros o n u Hin [->|Hn]%elem_of_cons Hs Hne; [by rewrite (Hu _ Hs) in Hne|by apply (Ho o n)].
  - intros n1 n2 u1 u2 [->|H1]%elem_of_cons [->|H2]%elem_of_cons Hs1 Hs2 Hn1 Hn2 Hf; [done|..|by apply (Hp n1 n2 u1 u2)].
    + by rewrite (Hu _ Hs1) in Hn1.
    + by rewrite (Hu _ Hs2) in Hn2.
  - intros o n u Hin [->|Hn]%elem_of_cons Hs Hne; [|apply (Ho o n); [set_solver|done..]].
    rewrite (Hu _ Hs). rewrite first_that_None, Forall_forall in Ef. by apply Ef.
  - assert (Hnew : ∀ n (u : User), n ∈ names → stored (contents (server_world s.1)) ("/users/" +++ n) u →
      User_Email u ≠ "" → EqualFold (User_Email user) (User_Email u) = false)
      by (intros n u Hn Hs Hne; apply (Ho (name, User_Email user) n u); [set_solver|done..]).
    intros n1 n2 u1 u2 [->|H1]%elem_of_cons [->|H2]%elem_of_cons Hs1 Hs2 Hn1 Hn2 Hf; [done|..|by apply (Hp n1 n2 u1 u2)].
    + rewrite (Hu _ Hs1), (Hnew n2 u2) in Hf by done. done.
    + rewrite EqualFold_sym, (Hu _ Hs2), (Hnew n1 u1) in Hf by done. done.
Qed.

Lemma checkUserEmails_unique s s' :
  checkUserEmails s = (s', Ret ()) →
  (∀ l, abstract s'.1 l = abstract s.1 l) ∧
  (contents (server_world s.1) !! "/users/" = None → emails_unique (contents (server_world s'.1))).
Proof.
  intros (s1 & names & Hl & H)%io_bind_ret.
  apply effect_List_ret in Hl as [Hk Hn]. apply check_emails_unique in H as (Hk' & _ & Hp).
  split; [intros l; by rewrite Hk', Hk|].
  assert (Hc : contents (server_world s1.1) = contents (server_world s.1)) by (specialize (Hk []); by injection Hk).
  assert (Hc' : contents (server_world s'.1) = contents (server_world s1.1)) by (specialize (Hk' []); by injection Hk').
  intros Hnone. rewrite Hc'. split; [by rewrite Hc|]. intros n1 n2 u1 u2 H1 H2 Hne Hf.
  assert (Hin : ∀ n (u : User), stored (contents (server_world s1.1)) ("/users/" +++ n) u → n ∈ slices_Sort names).
  { intros n u Hs. rewrite elem_of_sort, Hn. rewrite Hc in Hs. exact (stored_key _ _ _ _ Hs). }
  apply (Hp n1 n2 u1 u2); [exact (Hin _ _ H1)|exact (Hin _ _ H2)|done..| |done].
  intros He. rewrite He in Hf. by apply EqualFold_empty in Hf.
Qed.

Lemma New_ok opts s w ev w' ev' : New opts (w, ev) = ((w', ev'), Ret s) →
  contents (server_world w') = contents (server_world w) ∧
  revisions (server_world w') = revisions (server_world w) ∧ registry_ok (abstract w' []) ∧
  (contents (server_world w) !! "/users/" = None → emails_unique (contents (server_world w'))).
Proof.
  unfold New. cbv zeta. rewrite modify_server_bind.
  intros (s1 & [] & Hi & (s2 & [] & Hc & H)%io_bind_ret)%io_bind_ret. injection H as -> _.
  apply initializeServices_registry in Hi as (Hc1 & Hr1 & Hreg); [|done..].
  apply checkUserEmails_unique in Hc as [Hk He]. pose proof (Hk []) as Hk0. injection Hk0 as Hc2 _ _ Hr2.
  cbn [fst server_world] in *. split_and!; [congruence..| |by rewrite <- Hc1].
  unfold registry_ok in *. by rewrite Hk.
Qed.
(** ** The invariants hold *)

Definition server_ok (st : server_state) : Prop :=
  registry_ok st ∧ emails_unique (st_contents st) ∧ sessions_ok st.

Lemma server_ok_steps st st' : rtc server_step st st' → server_ok st → server_ok st'.
Proof.
  induction 1 as [|st1 st2 st3 Hstep _ IH]; [done|]. intros (Hr & He & Hs). apply IH. split_and!.
  - by eapply registry_step.
  - by eapply emails_unique_step.
  - by eapply sessions_ok_step.
Qed.

(** Fewer logins in progress keep it. *)
Lemma server_ok_fewer w l l' : l' ⊆ l → server_ok (abstract w l) → server_ok (abstract w l').
Proof. intros Hl (Hr & He & Hs). split_and!; [done..|]. by eapply sessions_ok_fewer. Qed.

Lemma server_ok_New opts s w ev w' ev' :
  New opts (w, ev) = ((w', ev'), Ret s) → contents (server_world w) !! "/users/" = None →
  sessions_ok (abstract w []) → server_ok (abstract w' []).
Proof.
  intros (Hc & Hrev & Hr & He)%New_ok Hnone Hs. split_and!; [done|by apply He|].
  eapply sessions_ok_fewer; [..|exact Hs]; [by rewrite Hc|by rewrite Hc|by rewrite Hrev|done].
Qed.

Lemma sessions_ok_empty w : contents (server_world w) = ∅ → sessions_ok (abstract w []).
Proof.
  intros Hc. unfold abstract. rewrite Hc.
  split; st_simpl; [intros n u (? & H & _)|intros n x u (? & H & _)|intros n x (? & H & _)|intros ? ? ?%elem_of_nil
    |intros ? ?%elem_of_nil]; done.
Qed.

Lemma reachable_ok s w l : reachable s w l → logins_exact l ∧ server_ok (abstract w l).
Proof.
  induction 1 as [opts s w ev w' ev' Hc Hnew|opts s s' w l ev w' ev' _ [Hx Hok] Hnew|s w l w' l' _ [Hx Hok] Hev].
  - split; [constructor|]. eapply server_ok_New; [done|by rewrite Hc|by apply sessions_ok_empty].
  - split; [constructor|]. eapply server_ok_New; [done|apply Hok|].
    eapply sessions_ok_fewer; [..|apply Hok]; [done..|set_solver].
  - destruct (event_steps _ _ _ _ _ Hev Hx) as (Hx' & l'' & Hl & Hr). split; [done|].
    eapply server_ok_fewer; [exact Hl|]. by eapply server_ok_steps.
Qed.

(** C27: invariant. In every state that a server reaches, the service providers that
    it knows are the services in its store: each is registered under the entity ID
    of the metadata that is stored for it, no two services have one entity ID, and
    after a deletion nothing of the service is left. *)
Theorem reachable_registry s w l (Hreach : reachable s w l) :
  (∀ entityID metadata, serviceProviders w !! entityID = Some metadata ↔
     EntityDescriptor_EntityID metadata = entityID ∧
     ∃ id svc, stored (contents (server_world w)) ("/services/" +++ id) svc ∧ Service_Metadata svc = metadata) ∧
  ∀ id1 id2 svc1 svc2, stored (contents (server_world w)) ("/services/" +++ id1) svc1 →
    stored (contents (server_world w)) ("/services/" +++ id2) svc2 →
    EntityDescriptor_EntityID (Service_Metadata svc1) = EntityDescriptor_EntityID (Service_Metadata svc2) →
    id1 = id2.
Proof.
  apply reachable_ok in Hreach as (_ & [H1 H2 _] & _). split.
  - intros e m. split.
    + intros He. destruct (H1 e m He) as (id & svc & _ & _ & ? & ? & ?). eauto.
    + intros (<- & id & svc & Hst & <-). by apply (H2 id svc).
  - intros id1 id2 svc1 svc2 Hs1 Hs2 He. destruct (H2 id1 svc1 I Hs1) as [_ Hi1].
    destruct (H2 id2 svc2 I Hs2) as [_ Hi2]. simpl in *. congruence.
Qed.

(** Invariant. In every state that a server reaches, no two stored users have the same
    email, which is the NameID of their assertions, in any casing, and each user
    is stored under its name. *)
Theorem reachable_emails s w l (Hreach : reachable s w l) :
  (∀ name user, stored (contents (server_world w)) ("/users/" +++ name) user → User_Name user = name) ∧
  ∀ name1 name2 user1 user2,
    stored (contents (server_world w)) ("/users/" +++ name1) user1 →
    stored (contents (server_world w)) ("/users/" +++ name2) user2 →
    User_Email user1 ≠ "" → EqualFold (User_Email user1) (User_Email user2) = true → name1 = name2.
Proof.
  apply reachable_ok in Hreach as (_ & _ & [_ He] & [Hn _ _ _ _]). split; [|exact He].
  intros name user Hst. by apply (Hn name user).
Qed.

(** ** Sessions that a server has *)

(** A session that is not over. *)
Lemma existingSession_ret r s s' x :
  existingSession r s = (s', Ret (Some x)) →
  ∃ value (y : storedSession) user now,
    request_Cookie "session" r = Ret value ∧ x = stored_Session y ∧
    stored (contents (server_world s.1)) ("/sessions/" +++ value) y ∧
    stored (contents (server_world s.1)) ("/users/" +++ Session_UserName x) user ∧
    User_Revision user = stored_UserRevision y ∧
    (∃ v v', TimeNow_ v = (v', now) ∧ abstract v [] = abstract s.1 []) ∧
    Time_After now (Session_ExpireTime x) = false.
Proof.
  unfold existingSession. destruct (request_Cookie "session" r) as [value| |]; [|done..].
  intros [(s1 & y & Hy & H)|(s1 & e & _ & H)]%on_result_ret; [|by case_bool_decide].
  apply store_Get_ret in Hy as [Hy Hk1].
  apply io_bind_ret in H as (s2 & now & Hnow & H). unfold TimeNow, reads in Hnow. destruct s1 as [w1 ev1].
  destruct (TimeNow_ w1) as [w2 t] eqn:Et. injection Hnow as <- <-.
  pose proof (steady_TimeNow w1 []) as Hk2. rewrite Et in Hk2.
  destruct (Time_After t _) eqn:Ha; [done|].
  apply on_result_ret in H as [(s3 & user & Hu & H)|(s3 & e & _ & H)]; [|by destruct (errors_Is e ErrNotFound)].
  apply store_Get_ret in Hu as [Hu _]. case_bool_decide as Hrev; [|done]. cbn [negb] in H. injection H as _ <-.
  exists value, y, user, t. specialize (Hk1 []). cbn [fst] in *.
  assert (Hc : contents (server_world w2) = contents (server_world s.1)).
  { transitivity (contents (server_world w1)); [by injection Hk2|by injection Hk1]. }
  rewrite Hc in Hu. split_and!; [done..| |done]. by exists w1, w2.
Qed.

Lemma start_session_ret s r user st st' x :
  start_session s r user st = (st', Ret (Some x)) → session_of user x.
Proof.
  unfold start_session. intros H. do 4 apply io_bind_ret in H as (? & ? & _ & H). cbv zeta in H.
  apply on_result_ret in H as [(? & [] & _ & H)|(? & ? & _ & H)].
  - apply io_bind_ret in H as (? & [] & _ & H). apply io_bind_ret in H as (? & [] & _ & H). by injection H as _ <-.
  - by apply io_bind_ret in H as (? & [] & _ & H).
Qed.

Lemma authenticate_ret s r req st st' x :
  authenticate s r req st = (st', Ret (Some x)) →
  ∃ user, checkLoginOrigin s r = Ret () ∧
    stored (contents (server_world st.1)) ("/users/" +++ values_Get (PostForm r) "user") user ∧
    CompareHashAndPassword (User_HashedPassword user) (values_Get (PostForm r) "password") = Ret () ∧
    session_of user x.
Proof.
  intros (s1 & [user|] & Ha & H)%io_bind_ret; [|done]. exists user.
  apply authenticate_user_ret in Ha as (? & ? & ?). split_and!; [done..|]. by eapply start_session_ret.
Qed.
(** The credentials of a user that the request has. *)
Definition credentials_of (s : Server) (r : HTTPRequest) (user : User) : Prop :=
  hasCredentials r = true ∧ checkLoginOrigin s r = Ret () ∧ values_Get (PostForm r) "user" = User_Name user ∧
  CompareHashAndPassword (User_HashedPassword user) (values_Get (PostForm r) "password") = Ret ().

(** The session that the cookie of the request names, which is in the store and not
    over when the clock is read. *)
Definition cookie_session (w : W) (r : HTTPRequest) (x : Session) : Prop :=
  ∃ value (y : storedSession) now, request_Cookie "session" r = Ret value ∧
    stored (contents (server_world w)) ("/sessions/" +++ value) y ∧ x = stored_Session y ∧
    (∃ v v', TimeNow_ v = (v', now) ∧ abstract v [] = abstract w []) ∧
    Time_After now (Session_ExpireTime x) = false.

Definition current_session (s : Server) (w : W) (r : HTTPRequest) (forced : bool) (x : Session) : Prop :=
  ∃ user, stored (contents (server_world w)) ("/users/" +++ Session_UserName x) user ∧ session_of user x ∧
    (credentials_of s r user ∨ forced = false ∧ cookie_session w r x).

Lemma existingSession_current s w r ev st' x :
  sessions_ok (abstract w []) → existingSession r (w, ev) = (st', Ret (Some x)) →
  current_session s w r false x.
Proof.
  intros [_ H2 _ _ _] (value & y & user & now & Hv & -> & Hy & Hu & Hrev & Hnow & Ha)%existingSession_ret.
  exists user. split_and!; [done|by eapply H2|]. right. split; [done|]. by exists value, y, now.
Qed.

Lemma authenticate_current s w r req ev st' x :
  sessions_ok (abstract w []) → hasCredentials r = true →
  authenticate s r req (w, ev) = (st', Ret (Some x)) → current_session s w r true x.
Proof.
  intros [H1 _ _ _ _] Hc (user & Ho & Hst & Hcmp & Hof)%authenticate_ret. destruct (H1 _ _ Hst) as [Hn _].
  assert (Hname : Session_UserName x = User_Name user) by (by rewrite Hof).
  exists user. rewrite Hname, Hn. split_and!; [done..|]. left. unfold credentials_of. by rewrite Hn.
Qed.

Lemma current_session_unforced s w r forced x : current_session s w r forced x → current_session s w r false x.
Proof. intros (user & ? & ? & [?|[_ ?]]); exists user; auto. Qed.

Lemma no_session_ret (m : IO W ()) st st' (x : Session) : (_ ← m; mret None : IO W (option Session)) st ≠ (st', Ret (Some x)).
Proof. unfold mbind, IO_bind. by destruct (m st) as [? [| |]]. Qed.

Lemma GetForcedSession_current s w r req ev st' x :
  sessions_ok (abstract w []) → server_GetForcedSession s r req (w, ev) = (st', Ret (Some x)) →
  current_session s w r true x.
Proof.
  intros Hok H. unfold server_GetForcedSession in H. destruct (hasCredentials r) eqn:Hc.
  - by eapply authenticate_current.
  - by apply no_session_ret in H.
Qed.

Lemma GetSession_current s w r req ev st' x :
  sessions_ok (abstract w []) → server_GetSession s r req (w, ev) = (st', Ret (Some x)) →
  current_session s w r false x.
Proof.
  intros Hok H. unfold server_GetSession in H. destruct (hasCredentials r) eqn:Hc.
  { by eapply current_session_unforced, authenticate_current. }
  apply on_result_ret in H as [(s1 & [y|] & Hy & H)|(s1 & e & _ & H)]; [|by apply no_session_ret in H..].
  injection H as _ ->. by eapply existingSession_current.
Qed.

Lemma GetPassiveSession_current s w r req ev st' x :
  sessions_ok (abstract w []) → server_GetPassiveSession r req (w, ev) = (st', Ret (Some x)) →
  is_true (AuthnRequest_ForceAuthn (Req_Request req)) = false ∧ current_session s w r false x.
Proof.
  intros Hok H. unfold server_GetPassiveSession in H. destruct (is_true _); [done|]. split; [done|].
  apply on_result_ret in H as [(s1 & y & Hy & H)|(s1 & e & _ & H)]; [|by apply no_session_ret in H].
  injection H as _ ->. by eapply existingSession_current.
Qed.

Lemma handled_ret {A} (m : IO W A) st st' a : handle (as_handler m) st = (st', Ret a) → m st = (st', Ret a).
Proof. unfold handle, as_handler. destruct (m st) as [? [| |]]; simpl; naive_solver. Qed.

Lemma without_writer_ret {A} (m : IO W A) st st' a :
  (reads (λ w, let '(w, o) := without_writer m w in (w, match o with Ret a => Some a | _ => None end))
     ≫= λ x, lift (deref x)) st = (st', Ret a) →
  ∃ ev w, m (st.1, []) = ((w, ev), Ret a).
Proof.
  destruct st as [w ev]. unfold without_writer, reads, mbind, IO_bind. simpl.
  destruct (m (w, [])) as [[w1 ev1] [b| |]]; simpl; intros [_ [= ->]]%lift_ret; by eexists _, _.
Qed.

(** C11: invariant. Whatever has happened since a server started, a session that its
    identity provider gets for an authentication request has the name, email,
    groups and other data of the user that is stored at that moment, so that no
    assertion tells what a deleted or changed user was; and either the request
    itself has that user's password, from the server's own origin, or, unless
    the request forces authentication, its cookie names an unexpired session. *)
Theorem reachable_sessions s w l r req ev st' session
    (Hreach : reachable s w l)
    (Hrun : getSession (server_IDP s) r req (w, ev) = (st', Ret (Some session))) :
  current_session s w r (is_true (AuthnRequest_ForceAuthn (Req_Request req))) session.
Proof.
  apply reachable_ok in Hreach as (_ & _ & _ & Hok).
  assert (Hok' : sessions_ok (abstract w [])) by (eapply sessions_ok_fewer; [..|exact Hok]; [done..|set_solver]).
  unfold getSession in Hrun. destruct (is_true (AuthnRequest_IsPassive _)).
  - apply io_bind_ret in Hrun as (s1 & x & Hx & H). apply without_writer_ret in Hx as (ev' & w' & Hx).
    apply io_bind_ret in H as (s2 & [] & _ & [= _ ->]).
    by apply (GetPassiveSession_current s) in Hx as [-> ?].
  - destruct (is_true (AuthnRequest_ForceAuthn _)); apply handled_ret in Hrun.
    + by eapply GetForcedSession_current.
    + by eapply GetSession_current.
Qed.

(** ** Logins across sites *)

(** A browser tells where a form was posted from. *)
Definition posted_cross_site (s : Server) (r : HTTPRequest) : Prop :=
  let site := Header_Get "Sec-Fetch-Site" r in
  let origin := Header_Get "Origin" r in
  site ∈ ["cross-site"; "same-site"] ∨
  site = "" ∧ origin ≠ "" ∧
    EqualFold origin (URL_Scheme (Server_SSOURL s) +++ "://" +++ URL_Host (Server_SSOURL s)) = false.

Lemma checkLoginOrigin_refuses s r : posted_cross_site s r → ∃ e, checkLoginOrigin s r = Err e.
Proof.
  unfold checkLoginOrigin. intros [Hs|(Hs & Ho & Hf)].
  - rewrite !elem_of_cons, elem_of_nil in Hs.
    destruct Hs as [Hs|[Hs|[]]]; rewrite Hs; simpl; by eexists.
  - cbv zeta. rewrite Hs. rewrite (bool_decide_false (Header_Get "Origin" r = "")) by done. rewrite Hf. by eexists.
Qed.

(** C36: safety. Credentials that another site makes a browser post start no session:
    the identity provider gets none for the request, answers 403 and leaves the
    store alone, whether the password is right or not. *)
Theorem cross_site_login_refused s r req w ev
    (Hcred : hasCredentials r = true) (Hcross : posted_cross_site s r) :
  ∃ st err, server_GetSession s r req (w, ev) = (st, Ret None) ∧
    server_GetForcedSession s r req (w, ev) = (st, Ret None) ∧
    st = (w, ev ++ [LogPrintf "ERROR: refused credentials from another origin: %s" [] (Some err); HttpError 403])%list.
Proof.
  destruct (checkLoginOrigin_refuses s r Hcross) as [err He]. eexists _, err.
  unfold server_GetSession, server_GetForcedSession, authenticate, authenticate_user. rewrite Hcred, He.
  unfold on_result, lift, log, http_error, emit, mbind, IO_bind. simpl. rewrite <- app_assoc. done.
Qed.

(** ** The RESTful interfaces *)

(** Without an authorizer, or when it refuses the request, no request to the
    RESTful interfaces does anything: the answer is 403 and nothing else happens. *)
Theorem admin_refused s route r w ev
    (Hauth : from_option (λ authorizer, authorizer r) false (Server_AdminAuthorizer s) = false) :
  server_handler s (Admin route) r (w, ev) = ((w, (ev ++ [HttpError 403])%list), Ret ()).
Proof.
  cbn [server_handler]. destruct (Server_AdminAuthorizer s) as [f|]; [|done]. simpl in Hauth. by rewrite Hauth.
Qed.
End run.
