(* ===== verification/IdpServerSessions.v ===== *)
(** * IdpServerSessions: logins, service providers and the end of sessions

    What single operations of [src/samlidp] achieve: a login with the right
    password gives a session that later requests get by its cookie, a change of a
    user ends the user's sessions, and the metadata that the identity provider
    uses is that of a stored service and has not expired. *)

From stdpp Require Import base option list gmap strings sets sorting relations.
From Stdlib Require Import ZArith Lia Ascii.
From S2P Require Import Prelude Go Duration Encoding Etree Schema Env Http Store XmlTree ServiceProvider.
From S2P Require Import DSig Redirect IdentityProvider Assertions IdpResponse IdpLogout IdpServer IdpServerAdmin.
From S2P Require Import IdpServerSteps IdpServerSpec IdpServerInv IdpServerRun.

Open Scope string_scope.

(** A store and a random source that do not fail, as the [MemoryStore] and the one of
    [crypto/rand] do not; and sessions have a JSON text. *)
Class LoginWorks (W : Type) `{WorldI : World W} `{StoreL : StoreLaws W} `{JsonI : ServerJson} : Prop := {
  Get_works A (J : Json A) key (a : A) w : stored (contents w) key a → (Store_Get (A := A) key w).2 = Ret a;
  Put_works A (J : Json A) key (a : A) w : is_ret (json_Marshal a) = true → (Store_Put key a w).2 = Ret ();
  RandReader_works n w : is_Some (RandReader n w).2;
  storedSession_text (x : storedSession) : json_exact x = true → is_ret (json_Marshal x) = true
}.

(** A store that cannot find a key to delete has nothing under it; and the text of a
    session with its revision is also read as that of the session. *)
Class EndSessionsLaws (W : Type) `{StoreL : StoreLaws W} `{JsonI : ServerJson} : Prop := {
  Delete_missing key w w' e : Store_Delete key w = (w', Err e) → errors_Is e ErrNotFound = true →
    contents w !! key = None;
  Session_of_stored text (x : storedSession) : json_Unmarshal text = Ret x →
    json_Unmarshal (A := Session) text = Ret (stored_Session x)
}.

Section sessions.
Context {W0 : Type}.
Context `{UrlI : UrlOps} `{VarsI : PackageVars} `{EtreeI : EtreeOps} `{X509I : X509Ops} `{XmlI : XmlOps}.
Context `{SigI : SignatureOps} `{CryptoI : CryptoOps} `{FlateI : FlateOps} `{NetI : NetOps} `{TemplateI : TemplateOps}.
Context `{MetadataI : MetadataXml} `{WorldI : World W0} `{StoreL : StoreLaws W0} `{OpsI : ServerOps W0} `{FoldI : FoldOps} `{JsonI : ServerJson}.
Context `{EncI : EncryptOps W0} `{ServerL : !ServerLaws W0} `{JsonL : !ServerJsonLaws W0} `{FoldL : !FoldLaws}.
Notation W := (ServerWorld W0).

(** ** Logins *)

Section login.
Context `{WorksL : !LoginWorks W0}.

Lemma store_Get_works {A} (J : Json A) key (a : A) st :
  stored (contents (server_world st.1)) key a → ∃ st', effect (Store_Get key) st = (st', Ret a) ∧
    st'.2 = st.2 ∧ ∀ l, abstract st'.1 l = abstract st.1 l.
Proof.
  intros Hst. pose proof (keeps_effect _ (steady_Get J key) st) as Hk. destruct st as [w ev].
  unfold effect, reads, mbind, IO_bind, lift in *. simpl in *. unfold sw_lift in *.
  pose proof (Get_works A J key a (server_world w) Hst) as Hg.
  destruct (Store_Get key (server_world w)) as [w' o]. simpl in *. subst o. by eexists.
Qed.

Lemma effect_run {A} (f : Effect W A) st st' a : effect f st = (st', Ret a) → f st.1 = (st'.1, Ret a).
Proof.
  destruct st as [w ev]. unfold effect, reads, mbind, IO_bind, lift. simpl.
  destruct (f w) as [w' o]. by intros [= <- ->].
Qed.

Lemma randomBytes_works n (st : St W) : ∃ st' b, randomBytes n st = (st', Ret b) ∧ st'.2 = st.2 ∧
  ∀ l, abstract st'.1 l = abstract st.1 l.
Proof.
  pose proof (keeps_reads _ (steady_RandReader (W0 := W0) n) st) as Hk. destruct st as [w ev].
  unfold randomBytes, reads, mbind, IO_bind, lift in *. simpl in *. unfold sw_lift in *.
  destruct (RandReader_works n (server_world w)) as [b Hb].
  destruct (RandReader n (server_world w)) as [w' o]. simpl in *. subst o. by eexists _, b.
Qed.

Lemma TimeNow_works (st : St W) : ∃ st' t, TimeNow st = (st', Ret t) ∧ st'.2 = st.2 ∧
  ∀ l, abstract st'.1 l = abstract st.1 l.
Proof.
  pose proof (keeps_reads _ (steady_TimeNow (W0 := W0)) st) as Hk. destruct st as [w ev].
  unfold TimeNow, reads in *. simpl in *. destruct (sw_lift _ w) as [w' t]. by eexists _, t.
Qed.

Lemma store_Put_works {A} (J : Json A) key (a : A) (st : St W) : is_ret (json_Marshal a) = true →
  ∃ st' text, effect (Store_Put key a) st = (st', Ret ()) ∧ st'.2 = st.2 ∧ json_Marshal a = Ret text ∧
    contents (server_world st'.1) = <[key := text]> (contents (server_world st.1)).
Proof.
  intros Hm. destruct st as [w ev]. unfold effect, reads, mbind, IO_bind, lift. simpl. unfold sw_lift.
  pose proof (Put_works A J key a (server_world w) Hm) as Hp.
  destruct (Store_Put key a (server_world w)) as [w' o] eqn:E. simpl in Hp. subst o.
  apply Put_law in E as (text & Ht & Hc). eexists _, text. split_and!; [done..|exact Hc].
Qed.

Lemma start_session_works s r user (st : St W) : json_exact user = true →
  ∃ st' x, start_session s r user st = (st', Ret (Some x)) ∧ session_of user x ∧
    SetCookie (sessionCookie s r (Session_ID x) 3600) ∈ st'.2 ∧
    stored (contents (server_world st'.1)) ("/sessions/" +++ Session_ID x) (mkStoredSession x (User_Revision user)) ∧
    ∀ name, contents (server_world st'.1) !! ("/users/" +++ name) = contents (server_world st.1) !! ("/users/" +++ name).
Proof.
  intros Hx. unfold start_session, mbind, IO_bind.
  destruct (randomBytes_works 32 st) as (s1 & id & -> & _ & Hk1).
  destruct (TimeNow_works s1) as (s2 & create & -> & _ & Hk2).
  destruct (TimeNow_works s2) as (s3 & now & -> & _ & Hk3).
  destruct (randomBytes_works 32 s3) as (s4 & index & -> & _ & Hk4). cbv zeta.
  set (x := user_session user (base64_Encode id) create (Time_Add now sessionMaxAge) (hex_string index)).
  assert (Hxx : json_exact (mkStoredSession x (User_Revision user)) = true) by by apply storedSession_exact.
  destruct (store_Put_works _ ("/sessions/" +++ Session_ID x) (mkStoredSession x (User_Revision user)) s4)
    as (s5 & text & Hput & _ & Hm & Hc); [by apply storedSession_text|].
  unfold on_result. rewrite Hput. destruct s5 as [w5 ev5]. eexists (w5, _), x. cbn [fst snd emit log] in *.
  split_and!; [done|done|set_solver|..].
  - rewrite Hc. by apply (stored_insert_exact _ _ _ _ _ Hxx Hm).
  - intros name. rewrite Hc, lookup_insert_ne by done.
    specialize (Hk1 []); specialize (Hk2 []); specialize (Hk3 []); specialize (Hk4 []).
    injection Hk1 as H1 _ _ _. injection Hk2 as H2 _ _ _. injection Hk3 as H3 _ _ _. injection Hk4 as H4 _ _ _.
    by rewrite H4, H3, H2, H1.
Qed.

(** The times of the session that a login starts in [w]: its creation, and the reading that its
    expiry is counted from. *)
Definition login_times (w : W) : Time * Time :=
  let '(w2, create) := TimeNow_ (RandReader 32 w).1 in (create, (TimeNow_ w2).2).

Lemma start_session_times s r user (st st' : St W) x : start_session s r user st = (st', Ret (Some x)) →
  Session_CreateTime x = (login_times st.1).1 ∧
  Session_ExpireTime x = Time_Add (login_times st.1).2 sessionMaxAge.
Proof.
  unfold start_session, randomBytes, TimeNow, login_times. intros H.
  apply io_bind_ret in H as (s1 & id & Hid & H). apply io_bind_ret in Hid as (s1' & o & Ho & Hid).
  apply lift_ret in Hid as [-> _]. apply io_bind_ret in H as (s2 & create & Hcreate & H).
  apply io_bind_ret in H as (s3 & now & Hnow & H). apply io_bind_ret in H as (s4 & index & _ & H). cbv zeta in H.
  destruct st as [w ev], s1' as [w1 ev1], s2 as [w2 ev2]. unfold reads in Ho, Hcreate, Hnow. cbn [fst].
  destruct (RandReader 32 w) as [w1' o']. injection Ho as -> -> _. cbn [fst].
  destruct (TimeNow_ w1) as [w2' c]. injection Hcreate as -> _ ->.
  destruct (TimeNow_ w2) as [w3' n]. injection Hnow as _ ->. cbn [fst snd].
  apply on_result_ret in H as [(s5 & [] & _ & H)|(s5 & e & _ & H)].
  - do 2 (apply io_bind_ret in H as (? & ? & _ & H)). injection H as _ <-. done.
  - by apply io_bind_ret in H as (? & ? & _ & [= _ ?]).
Qed.

Lemma authenticate_works s r req (st : St W) user :
  checkLoginOrigin s r = Ret () →
  stored (contents (server_world st.1)) ("/users/" +++ values_Get (PostForm r) "user") user →
  CompareHashAndPassword (User_HashedPassword user) (values_Get (PostForm r) "password") = Ret () →
  ∃ st', authenticate_user s r req st = (st', Ret (Some user)) ∧ (∀ l, abstract st'.1 l = abstract st.1 l) ∧
    st'.1 = (Store_Get (A := User) ("/users/" +++ values_Get (PostForm r) "user") st.1).1.
Proof.
  intros Ho Hst Hcmp. destruct (store_Get_works _ _ user st Hst) as (st' & Hg & _ & Hk).
  exists st'. split_and!; [|done|by rewrite (effect_run _ _ _ _ Hg)]. unfold authenticate_user, on_result, lift. by rewrite Ho, Hg, Hcmp.
Qed.

(** The clock as [existingSession] reads it, after the session. *)
Definition session_clock (w : W) (value : string) : Time :=
  (TimeNow_ (Store_Get (A := storedSession) ("/sessions/" +++ value) w).1).2.

Lemma existingSession_works r (st : St W) value (x : Session) user :
  request_Cookie "session" r = Ret value →
  stored (contents (server_world st.1)) ("/sessions/" +++ value) (mkStoredSession x (User_Revision user)) →
  stored (contents (server_world st.1)) ("/users/" +++ Session_UserName x) user →
  Time_After (session_clock st.1 value) (Session_ExpireTime x) = false →
  ∃ st', existingSession r st = (st', Ret (Some x)).
Proof.
  intros Hv Hx Hu Ht. unfold existingSession, mbind, IO_bind, on_result. rewrite Hv.
  destruct (store_Get_works _ _ _ st Hx) as (s1 & Hg & _ & Hk1). rewrite Hg. cbn [stored_Session stored_UserRevision].
  destruct (TimeNow_works s1) as (s2 & now & Hn & _ & Hk2). rewrite Hn.
  assert (Hnow : Time_After now (Session_ExpireTime x) = false).
  { unfold session_clock in Ht. apply effect_run in Hg. rewrite Hg in Ht. unfold TimeNow, reads in Hn.
    destruct s1 as [w1 ev1]. cbn [fst] in *. destruct (TimeNow_ w1) as [w2 t]. by injection Hn as _ <-. }
  rewrite Hnow. destruct (store_Get_works User_json ("/users/" +++ Session_UserName x) user s2) as (s3 & -> & _ & _).
  { specialize (Hk1 []); specialize (Hk2 []). injection Hk1 as H1 _ _ _. injection Hk2 as H2 _ _ _. by rewrite H2, H1. }
  rewrite bool_decide_true by done. by eexists.
Qed.

(** Every request with the cookie of the session gets it while the session and the user
    stay in the store as they are in [w'] and the clock does not pass the expiry. *)
Definition served_by_cookie (w' : W) (user : User) (session : Session) : Prop :=
  ∀ r (w : W) ev,
    (∀ key, key ∈ ["/sessions/" +++ Session_ID session; "/users/" +++ User_Name user] →
      contents (server_world w) !! key = contents (server_world w') !! key) →
    request_Cookie "session" r = Ret (Session_ID session) →
    Time_After (session_clock w (Session_ID session)) (Session_ExpireTime session) = false →
    ∃ st, existingSession r (w, ev) = (st, Ret (Some session)).

(** C26: liveness. A login with the right password succeeds, if the store and the random
    source work: the request gets a session with the data of the user, which expires
    [sessionMaxAge], an hour, after the clock reading of the login, and a cookie is set for as
    long; and while the session and the user stay in the store as they are and the clock
    does not pass that time, every request with that cookie gets this session. *)
Theorem login_establishes_session s l r req w ev (user : User) (Hreach : reachable s w l)
    (Hcred : hasCredentials r = true) (Horigin : checkLoginOrigin s r = Ret ())
    (Huser : stored (contents (server_world w)) ("/users/" +++ values_Get (PostForm r) "user") user)
    (Hpassword : CompareHashAndPassword (User_HashedPassword user) (values_Get (PostForm r) "password") = Ret ()) :
  let times := login_times (Store_Get (A := User) ("/users/" +++ values_Get (PostForm r) "user") w).1 in
  ∃ w' ev' session, server_GetSession s r req (w, ev) = ((w', ev'), Ret (Some session)) ∧
    session_of user session ∧ Session_CreateTime session = times.1 ∧
    Session_ExpireTime session = times.2 + sessionMaxAge ∧
    SetCookie (sessionCookie s r (Session_ID session) 3600) ∈ ev' ∧
    served_by_cookie w' user session.
Proof.
  apply reachable_ok in Hreach as (_ & _ & _ & [Hnamed _ _ _ _]).
  assert (Hx : json_exact user = true) by (destruct Huser as (text & _ & Hu); by eapply User_decoded).
  destruct (authenticate_works s r req (w, ev) user Horigin Huser Hpassword) as (s1 & Ha & Hk & Hs1).
  destruct (start_session_works s r user s1 Hx) as ([w' ev'] & x & Hs & Hof & Hcookie & Hst & Hkept).
  destruct (start_session_times _ _ _ _ _ _ Hs) as [Hcreate Hexpire]. rewrite Hs1 in Hcreate, Hexpire.
  exists w', ev', x. split.
  { unfold server_GetSession. rewrite Hcred. unfold authenticate, mbind, IO_bind. by rewrite Ha. }
  split_and!; [done..|]. intros r2 w2 ev2 Hsame Hv Ht.
  assert (Hname : User_Name user = values_Get (PostForm r) "user") by by apply Hnamed.
  eapply (existingSession_works r2 (w2, ev2) (Session_ID x) x user); [done| |..|done].
  - unfold stored in *. rewrite Hsame; [exact Hst|set_solver].
  - assert (Hun : Session_UserName x = User_Name user) by by rewrite Hof. rewrite Hun.
    unfold stored. cbn [fst]. rewrite Hsame by set_solver. cbn [fst] in Hkept. rewrite Hkept.
    specialize (Hk []). injection Hk as Hc _ _ _. rewrite Hc, Hname. exact Huser.
Qed.
End login.

(** ** The end of sessions *)

Section end_sessions.
Context `{EndL : !EndSessionsLaws W0}.

(** No session of the user is stored under an identifier of the list. *)
Definition ended (c : gmap string string) (name : string) (ids : list string) : Prop :=
  ∀ id (x : storedSession), id ∈ ids → stored c ("/sessions/" +++ id) x → Session_UserName (stored_Session x) ≠ name.

Lemma effect_Delete_ret key st st' : effect (Store_Delete (W := W) key) st = (st', Ret ()) →
  contents (server_world st'.1) = delete key (contents (server_world st.1)).
Proof.
  intros H%effect_run. simpl in H. unfold sw_lift in H.
  destruct (Store_Delete key (server_world st.1)) as [w' o] eqn:E. injection H as <- ->. by apply Delete_law in E.
Qed.

Lemma effect_Delete_err key st st' e : effect (Store_Delete (W := W) key) st = (st', Err e) →
  contents (server_world st'.1) = contents (server_world st.1) ∧
  (errors_Is e ErrNotFound = true → contents (server_world st.1) !! key = None).
Proof.
  destruct st as [w ev]. unfold effect, reads, mbind, IO_bind, lift. simpl. unfold sw_lift.
  destruct (Store_Delete key (server_world w)) as [w' o] eqn:E. intros [= <- ->].
  split; [by apply Delete_law in E|by apply (Delete_missing _ _ _ _ E)].
Qed.

(** What is stored, is stored in the earlier store. *)
Definition fewer (c c' : gmap string string) : Prop := ∀ key text, c' !! key = Some text → c !! key = Some text.

Lemma fewer_stored {A} {J : Json A} c c' key (a : A) : fewer c c' → stored c' key a → stored c key a.
Proof. intros H (t & Ht & Hu). exists t. by auto. Qed.

(** A session that the user does not have. *)
Lemma end_sessions_ended name ids st st' :
  end_sessions name ids st = (st', Ret ()) →
  fewer (contents (server_world st.1)) (contents (server_world st'.1)) ∧
  ended (contents (server_world st'.1)) name ids.
Proof.
  revert st. induction ids as [|id ids IH]; intros st; cbn [end_sessions].
  { intros [= ->]. split; [by intros ? ?|by intros ? ? ?%elem_of_nil]. }
  (* the rest of the loop, when nothing of the user is stored under [id] *)
  assert (Hrest : ∀ s1, fewer (contents (server_world st.1)) (contents (server_world s1.1)) →
    ended (contents (server_world s1.1)) name [id] → end_sessions name ids s1 = (st', Ret ()) →
    fewer (contents (server_world st.1)) (contents (server_world st'.1)) ∧
    ended (contents (server_world st'.1)) name (id :: ids)).
  { intros s1 Hf Hid [Hf' He]%IH. split; [intros ? ?; auto|]. intros i x [->|Hi]%elem_of_cons Hst; [|by eapply He].
    apply (Hid id x); [set_solver|by eapply fewer_stored]. }
  unfold store_Get, on_result at 1. destruct (effect (Store_Get _) st) as [s1 o] eqn:Eg.
  apply store_Get_result in Eg as (Hc & _ & Hget).
  assert (Hread : ∀ x : storedSession, stored (contents (server_world s1.1)) ("/sessions/" +++ id) x →
    o = Ret (stored_Session x) ∨ ∃ e, o = Err e ∧ errors_Is e ErrNotFound = false).
  { intros x (text & Ht & Hu). apply Hget. exists text. rewrite <- Hc. split; [done|]. by apply Session_of_stored. }
  assert (Hf1 : fewer (contents (server_world st.1)) (contents (server_world s1.1))) by (intros ? ?; by rewrite Hc).
  destruct o as [session|e|]; [| |done].
  - case_bool_decide as Hn; cbn [negb].
    + intros [(s2 & [] & Hd & H)|(s2 & e & Hd & H)]%on_result_ret.
      * apply effect_Delete_ret in Hd. apply (Hrest s2); [|by intros i x ->%list_elem_of_singleton; rewrite Hd; intros [? _]%stored_delete|done].
        intros key text. rewrite Hd. intros [_ Hk]%lookup_delete_Some. by apply Hf1.
      * apply effect_Delete_err in Hd as [Hd Hno]. destruct (errors_Is e ErrNotFound) eqn:He; [|done].
        apply (Hrest s2); [intros ? ?; rewrite Hd; apply Hf1| |done].
        intros i x ->%list_elem_of_singleton (text & Ht & _). rewrite Hd, Hno in Ht; done.
    + apply Hrest; [done|]. intros i x ->%list_elem_of_singleton Hst.
      destruct (Hread x Hst) as [[= ->]|(? & ? & _)]; [done|by simplify_eq].
  - destruct (errors_Is e ErrNotFound) eqn:He; [|done]. apply Hrest; [done|].
    intros i x ->%list_elem_of_singleton Hst. destruct (Hread x Hst) as [?|(? & [= ->] & ?)]; congruence.
Qed.

Lemma endUserSessions_ended name st st' : endUserSessions name st = (st', Ret ()) →
  fewer (contents (server_world st.1)) (contents (server_world st'.1)) ∧
  ∀ id (x : storedSession), stored (contents (server_world st'.1)) ("/sessions/" +++ id) x →
    Session_UserName (stored_Session x) ≠ name.
Proof.
  intros (s1 & ids & Hl & [Hf He]%end_sessions_ended)%io_bind_ret.
  apply effect_List_ret in Hl as [Hk Hids]. specialize (Hk []). injection Hk as Hc _ _ _. rewrite Hc in Hf.
  split; [done|]. intros id x Hst. apply (He id x); [rewrite Hids|done].
  apply (stored_key _ _ _ x). by eapply fewer_stored.
Qed.

(** ** The answer 204 *)

(** The computation does not answer 204. *)
Definition no_204 {A} (m : IO W A) : Prop := ∀ st, WriteHeader 204 ∈ (m st).1.2 → WriteHeader 204 ∈ st.2.

(** From a state in which the revisions [R] were drawn, it only does so in a state of [P]. *)
Definition only_204 {A} (R : gset string) (m : IO W A) (P : W → Prop) : Prop :=
  ∀ st, revisions (server_world st.1) = R →
    WriteHeader 204 ∈ (m st).1.2 → WriteHeader 204 ∉ st.2 → P (m st).1.1.

Lemma or_http_error_run {A} (m : IO W A) message args code k st s1 o : m st = (s1, o) →
  or_http_error m message args code k st =
    match o with Ret a => k a s1 | Err e => (_ ← log message args (Some e); http_error code) s1
    | Panic => (s1, Panic) end.
Proof. unfold or_http_error, on_result. intros ->. by destruct o. Qed.

Lemma quiet_no_204 {A} (m : IO W A) : quiet m → no_204 m.
Proof. intros Hm st. destruct (Hm st) as (new & -> & ->). by rewrite app_nil_r. Qed.

Lemma no_204_refusal message args err code : no_204 (_ ← log message args err; http_error code).
Proof. intros [w ev]. simpl. set_solver. Qed.

Lemma only_204_refusal R message args err code P : only_204 R (_ ← log message args err; http_error code) P.
Proof. intros st _ H Hno. by apply no_204_refusal in H. Qed.

Lemma only_204_on_result {A} R (m : IO W A) (k : A → IO W ()) h P : quiet m → keeps m →
  (∀ a s s', m s = (s', Ret a) → only_204 R (k a) P) → (∀ e, only_204 R (h e) P) →
  only_204 R (on_result m k h) P.
Proof.
  intros Hq Hm Hk Hh st Hr. unfold on_result. pose proof (quiet_no_204 _ Hq st) as Hno. specialize (Hm st []).
  destruct (m st) as [s1 [a|e|]] eqn:E; simpl in *; injection Hm as _ _ _ Hm.
  - intros H Hnot. apply (Hk a st s1 E); [congruence|done|auto].
  - intros H Hnot. apply Hh; [congruence|done|auto].
  - intros H Hnot. destruct Hnot. auto.
Qed.

Lemma quiet_end_sessions name ids : quiet (end_sessions name ids).
Proof. induction ids as [|id ids IH]; cbn [end_sessions]; unfold store_Get; solve_quiet. Qed.

(** What the sessions of a user are ended with. *)
Definition no_sessions_of (name : string) (w : W) : Prop :=
  ∀ id (x : storedSession), stored (contents (server_world w)) ("/sessions/" +++ id) x →
    Session_UserName (stored_Session x) ≠ name.

(** The user is gone, or has a revision that was not drawn before. *)
Definition new_revision (R : gset string) (name : string) (w : W) : Prop :=
  ∀ user, stored (contents (server_world w)) ("/users/" +++ name) user → User_Revision user ∉ R.

Definition user_changed (R : gset string) (name : string) (w : W) : Prop :=
  no_sessions_of name w ∧ new_revision R name w.

(** The end of both handlers, once the user is changed. *)
Lemma end_of_change R name st :
  new_revision R name st.1 →
  let run := or_http_error (endUserSessions name) "ERROR: cannot end the sessions of the user: %s" [] 500
    (λ _, emit (WriteHeader 204)) st in
  WriteHeader 204 ∈ run.1.2 → WriteHeader 204 ∉ st.2 → user_changed R name run.1.1.
Proof.
  intros Hnew. assert (Hq : quiet (endUserSessions name)).
  { unfold endUserSessions. pose proof (quiet_end_sessions name). solve_quiet. }
  unfold or_http_error, on_result. pose proof (quiet_no_204 _ Hq st) as Hno.
  destruct (endUserSessions name st) as [[w ev] [[]|e|]] eqn:E; simpl in *; [|set_solver..].
  intros _ _. apply endUserSessions_ended in E as [Hf Hs]. split; [exact Hs|].
  intros user Hu. apply Hnew. by eapply fewer_stored.
Qed.

Lemma only_204_store_user R body user id hashed : utf8 id = true → json_Decode body = Ret user →
  only_204 R (store_user user id hashed) (user_changed R id).
Proof.
  intros Hid Hbody [w ev] <-. destruct (rand_Text (server_world w)) as [w1 t] eqn:Et.
  pose proof (User_put body user id hashed _ _ t Hbody Hid Et) as Hx.
  set (s1 := (mkServerWorld (serviceProviders w) (serviceIDs w) w1, ev)).
  assert (Heq : store_user user id hashed (w, ev) = or_logged (effect (Store_Put ("/users/" +++ id)
      (stored_user user id hashed t))) 500 (λ _, or_http_error (endUserSessions id)
      "ERROR: cannot end the sessions of the user: %s" [] 500 (λ _, emit (WriteHeader 204))) s1).
  { unfold store_user, mbind at 1, IO_bind at 1, reads. simpl. unfold sw_lift. by rewrite Et. }
  rewrite Heq. clear Heq. apply rand_Text_fresh in Et as (_ & Hfresh & _).
  destruct (effect (Store_Put ("/users/" +++ id) (stored_user user id hashed t)) s1) as [s2 o] eqn:Ep.
  pose proof (quiet_events _ s1 s2 o (quiet_effect _) Ep) as Hev.
  unfold or_logged. rewrite (or_http_error_run _ _ _ _ _ _ _ _ Ep). destruct o as [[]|e|].
  - intros H Hno. apply end_of_change; [|exact H|by rewrite Hev].
    apply effect_run in Ep. simpl in Ep. unfold sw_lift in Ep. simpl in Ep.
    destruct (Store_Put _ _ w1) as [w2 o] eqn:Hp. injection Ep as <- ->. apply Put_law in Hp as (text & Hm & Hc).
    intros u. simpl. rewrite Hc, (stored_insert_exact _ _ _ (stored_user user id hashed t) u Hx Hm). by intros ->.
  - intros H Hno. apply no_204_refusal in H. by rewrite Hev in H.
  - intros H Hno. cbn [fst snd] in H. by rewrite Hev in H.
Qed.

Lemma only_204_PutUser R r : utf8 (path_id r) = true → only_204 R (HandlePutUser r) (user_changed R (path_id r)).
Proof.
  intros Hid. assert (Hfind : ∀ email except names, quiet (W := W) (find_owner email except names)).
  { intros email except names. induction names; cbn [find_owner]; unfold store_Get; solve_quiet. }
  unfold HandlePutUser, or_logged, or_http_error.
  apply only_204_on_result; [apply quiet_lift|apply keeps_lift|intros user s s' [= _ Hdec]|intros; apply only_204_refusal].
  apply only_204_on_result; [|apply keeps_email_conflict|intros owner _ _ _|intros; apply only_204_refusal].
  { unfold email_conflict, emailOwner. solve_quiet. }
  destruct (owner != ""); [apply only_204_refusal|].
  apply only_204_on_result; [|apply keeps_hashed_password|intros hashed _ _ _|intros; apply only_204_refusal].
  { unfold hashed_password, store_Get. solve_quiet. }
  by apply (only_204_store_user R (default "" (HTTPRequest_Body r))).
Qed.

Lemma only_204_DeleteUser R r : only_204 R (HandleDeleteUser r) (user_changed R (path_id r)).
Proof.
  intros s1 _. unfold HandleDeleteUser, or_logged.
  destruct (effect (Store_Delete ("/users/" +++ path_id r)) s1) as [s2 o] eqn:Ed.
  pose proof (quiet_events _ s1 s2 o (quiet_effect _) Ed) as Hev.
  rewrite (or_http_error_run _ _ _ _ _ _ _ _ Ed). destruct o as [[]|e|].
  - intros H Hno. apply end_of_change; [|exact H|by rewrite Hev].
    apply effect_Delete_ret in Ed. intros u. rewrite Ed. by intros [? _]%stored_delete.
  - intros H Hno. apply no_204_refusal in H. by rewrite Hev in H.
  - intros H Hno. cbn [fst snd] in H. by rewrite Hev in H.
Qed.

(** The revisions that a session can have which is of before the change: that of the stored user,
    of a stored session, or of a user that a login in progress has read. *)
Definition earlier_revision (w : W) (l : list User) (name revision : string) : Prop :=
  (∃ user, stored (contents (server_world w)) ("/users/" +++ name) user ∧ revision = User_Revision user) ∨
  (∃ id (x : storedSession), stored (contents (server_world w)) ("/sessions/" +++ id) x ∧
    revision = stored_UserRevision x) ∨
  (∃ user, user ∈ l ∧ revision = User_Revision user).

(** In every world in which the record of the user is still as the change left it, whatever else
    was stored in the meantime, a session of the user with such a revision is given to no request. *)
Definition earlier_sessions_refused (name : string) (earlier : string → Prop) (w' : W) : Prop :=
  ∀ (w2 : W) r ev st id (x : storedSession) session,
    request_Cookie "session" r = Ret id →
    stored (contents (server_world w2)) ("/sessions/" +++ id) x →
    Session_UserName (stored_Session x) = name → earlier (stored_UserRevision x) →
    contents (server_world w2) !! ("/users/" +++ name) = contents (server_world w') !! ("/users/" +++ name) →
    existingSession r (w2, ev) ≠ (st, Ret (Some session)).

(** C25: safety. When the server answers that it has changed or deleted a user, the sessions that
    the user had are over. The handler runs here as one step, and then no session of the user is
    left in the store. In the program a login that has read the user before can store a session
    while the handler removes the others, or after it; the second part is about these: a session
    with the revision that the user, a session or a login in progress had before the handler is
    refused in every later world, whatever it holds, in which the user is as the handler left it. *)
Theorem user_change_ends_sessions s l route r w w' ev' o (Hreach : reachable s w l)
    (Hroute : route ∈ [PUT_user; DELETE_user]) (Hmatch : matches (Admin route) r)
    (Hrun : admin_handler route r (w, []) = ((w', ev'), o)) (Hdone : WriteHeader 204 ∈ ev') :
  no_sessions_of (path_id r) w' ∧
  earlier_sessions_refused (path_id r) (earlier_revision w l (path_id r)) w'.
Proof.
  apply reachable_ok in Hreach as (_ & _ & _ & [Hnamed _ Hsessions _ Hlogins]). simpl in Hnamed, Hsessions, Hlogins.
  assert (H : only_204 (revisions (server_world w)) (admin_handler route r)
    (user_changed (revisions (server_world w)) (path_id r))).
  { rewrite !elem_of_cons, elem_of_nil in Hroute. destruct Hroute as [->|[->|[]]]; cbn [admin_handler];
      [apply only_204_PutUser, Hmatch; done|apply only_204_DeleteUser]. }
  specialize (H (w, []) eq_refl). rewrite Hrun in H. destruct H as [Hno Hnew]; [done|apply not_elem_of_nil|].
  cbn [fst] in Hno, Hnew. split; [done|].
  intros w2 r2 ev st id x session Hv Hx Hname Hrev Hsame
    (value & y & u & now & Hv' & -> & Hy & Hu & Hr & _)%existingSession_ret.
  rewrite Hv in Hv'. injection Hv' as <-. pose proof (stored_agree _ _ _ _ Hy Hx) as ->.
  apply (Hnew u).
  - rewrite Hname in Hu. unfold stored in *. cbn [fst] in Hu. by rewrite <- Hsame.
  - rewrite Hr. destruct Hrev as [(user & Hst & ->)|[(i & y & Hst & ->)|(user & Hl & ->)]];
      [exact (proj2 (Hnamed _ _ Hst))|exact (Hsessions _ _ Hst)|exact (Hlogins _ Hl)].
Qed.
End end_sessions.

(** ** The metadata of service providers *)

(** What is not expired at a time: the metadata, and each service provider role. *)
Definition unexpired (m : EntityDescriptor) (now : Time) : Prop :=
  metadata_expired now (EntityDescriptor_ValidUntil m) = false ∧
  ∀ d t, d ∈ EntityDescriptor_SPSSODescriptors m → SPSSODescriptor_ValidUntil d = Some t →
    metadata_expired now t = false.

(** [m] is [metadata] with some of its service provider roles. *)
Definition restricts (m metadata : EntityDescriptor) : Prop :=
  ∃ l, sublist l (EntityDescriptor_SPSSODescriptors metadata) ∧ l ≠ [] ∧ m = set_SPSSODescriptors l metadata.

Lemma set_SPSSODescriptors_fields l m :
  EntityDescriptor_EntityID (set_SPSSODescriptors l m) = EntityDescriptor_EntityID m ∧
  EntityDescriptor_ValidUntil (set_SPSSODescriptors l m) = EntityDescriptor_ValidUntil m ∧
  EntityDescriptor_SPSSODescriptors (set_SPSSODescriptors l m) = l.
Proof. by destruct m. Qed.

Lemma currentMetadata_Some metadata now m : currentMetadata metadata now = Some m →
  unexpired m now ∧ restricts m metadata.
Proof.
  unfold currentMetadata. destruct (metadata_expired now _) eqn:He; [done|].
  set (l := filter _ _). case_bool_decide as Hl; [done|]. intros [= <-].
  destruct (set_SPSSODescriptors_fields l metadata) as (Hid & Hv & Hd). split.
  - split; [by rewrite Hv|]. intros d t. rewrite Hd. intros [Hf _]%list_elem_of_filter Ht. by rewrite Ht in Hf.
  - exists l. split_and!; [apply sublist_filter|by intros ->|done].
Qed.

(** Safety. The metadata that the identity provider of a server gets for an entity ID
    is, in every reachable state, what is stored under that entity ID in some
    service, less the roles that have expired; neither it nor a role that it has
    left is expired when the clock is read, and it has one. *)
Theorem reachable_provider s w l entityID w' ev ev' m
    (Hreach : reachable s w l)
    (Hrun : server_GetServiceProvider entityID (w, ev) = ((w', ev'), Ret (Some m))) :
  EntityDescriptor_EntityID m = entityID ∧
  (∃ id svc, stored (contents (server_world w)) ("/services/" +++ id) svc ∧ restricts m (Service_Metadata svc)) ∧
  unexpired m (TimeNow_ w).2.
Proof.
  apply reachable_ok in Hreach as (_ & [H1 _ _] & _). unfold server_GetServiceProvider in Hrun.
  apply io_bind_ret in Hrun as (s1 & providers & Hp & H). injection Hp as <- <-.
  apply io_lift_bind in H as (rv & Hrv & H). destruct (serviceProviders w !! entityID) as [md|] eqn:Em; [|done].
  injection Hrv as ->. destruct (H1 _ _ Em) as (id & svc & _ & _ & Hst & Hmd & Hid).
  apply io_bind_ret in H as (s2 & now & Hnow & H). unfold TimeNow, reads in Hnow.
  destruct (TimeNow_ w) as [w2 t] eqn:Et. injection Hnow as <- <-.
  destruct (currentMetadata rv t) as [current|] eqn:Ec; [|by apply io_bind_ret in H as (? & [] & _ & ?)].
  injection H as _ _ ->. apply currentMetadata_Some in Ec as [Hun Hre]. split_and!.
  - destruct Hre as (? & _ & _ & ->). rewrite (proj1 (set_SPSSODescriptors_fields _ _)). exact Hid.
  - exists id, svc. split; [done|]. by rewrite Hmd.
  - done.
Qed.
End sessions.
