(* ===== verification/IdpServerExamples.v ===== *)
(** * IdpServerExamples: a server of [src/samlidp] that runs

    A concrete world for [IdpServer]: a [MemoryStore], a clock that stands still, and
    texts of values that stand for JSON.  The theorems about the server are
    applied to the states that it reaches here. *)

From stdpp Require Import base option list gmap strings sets sorting relations countable.
From Stdlib Require Import ZArith Lia Ascii.
From S2P Require Import Prelude Go Duration Encoding Etree Schema Env Http Store XmlTree ServiceProvider Reference.
From S2P Require Import DSig Redirect IdentityProvider Assertions IdpResponse IdpLogout IdpServer IdpServerAdmin.
From S2P Require Import IdpServerSteps IdpServerSpec IdpServerInv IdpServerRun IdpServerSessions.

Open Scope string_scope.

(** ** Texts of values *)

(** The texts of [A] are those of a countable type. *)
Definition text_json {A B} `{Countable B} (to : A → B) (from : B → A) (exact : A → bool)
    (Hexact : ∀ a, exact a = true → from (to a) = a) : Json A.
Proof.
  refine {|
    json_Marshal a := Ret (to_digits (encode (to a)));
    json_Unmarshal s := (b ← read_text s; Ret (from b));
    json_Decode s := (b ← read_text s; Ret (from b));
    json_exact := exact
  |}.
  intros a s Hx [= <-]. rewrite read_text_encode. simpl. by rewrite Hexact.
Defined.

Definition user_fields (u : User) : list string * (option string * list string) :=
  ([User_Name u; User_HashedPassword u; User_Email u; User_CommonName u; User_Surname u; User_GivenName u;
    User_ScopedAffiliation u; User_Revision u], (User_PlaintextPassword u, User_Groups u)).

Definition of_user_fields (f : list string * (option string * list string)) : User :=
  match f with
  | ([name; hashed; email; common; sur; given; scoped; revision], (plain, groups)) =>
      mkUser name plain hashed groups email common sur given scoped revision
  | _ => mkUser "" None "" [] "" "" "" "" "" ""
  end.

Definition session_fields (x : storedSession) : list string * (list string * (Z * Z)) :=
  let s := stored_Session x in
  ([Session_ID s; Session_Index s; Session_NameID s; Session_NameIDFormat s; Session_SubjectID s; Session_UserName s;
    Session_UserEmail s; Session_UserCommonName s; Session_UserSurname s; Session_UserGivenName s;
    Session_UserScopedAffiliation s; Session_EduPersonPrincipalName s; Session_AuthnContextClassRef s;
    Session_ClientAddress s; stored_UserRevision x], (Session_Groups s, (Session_CreateTime s, Session_ExpireTime s))).

Definition of_session_fields (f : list string * (list string * (Z * Z))) : storedSession :=
  match f with
  | ([id; index; nameID; format; subject; user; email; common; sur; given; scoped; edu; context; address; revision],
     (groups, (create, expire))) =>
      mkStoredSession (mkSession id create expire index nameID format subject groups user email common sur given
        scoped edu [] context address) revision
  | _ => mkStoredSession (mkSession "" 0 0 "" "" "" "" [] "" "" "" "" "" "" "" [] "" "") ""
  end.

Definition no_attributes (s : Session) : bool := bool_decide (length (Session_CustomAttributes s) = 0%nat).

Lemma of_session_fields_eq x : no_attributes (stored_Session x) = true → of_session_fields (session_fields x) = x.
Proof.
  destruct x as [[] ?]. unfold no_attributes. simpl. intros H%bool_decide_eq_true.
  by rewrite (nil_length_inv _ H).
Qed.

Definition is_plain (svc : Service) : bool :=
  match svc with
  | mkService "" (mkEntityDescriptor _ "" 0%Z 0%Z None [] []
      [mkSPSSODescriptor (mkSSODescriptor (mkRoleDescriptor "" None "" "" "" None [] None []) [] [] [] []) None None [] []]
      [] [] [] None None None []) => true
  | _ => false
  end.

Lemma is_plain_eq svc : is_plain svc = true →
  mkService "" (plain_metadata (EntityDescriptor_EntityID (Service_Metadata svc))) = svc.
Proof. unfold is_plain. by repeat case_match. Qed.

#[export] Instance ref_json : ServerJson.
Proof.
  refine {|
    User_json := text_json user_fields of_user_fields (λ _, true) _;
    Service_json := text_json (λ svc, EntityDescriptor_EntityID (Service_Metadata svc))
                      (λ id, mkService "" (plain_metadata id)) is_plain is_plain_eq;
    Shortcut_json := text_json
      (λ s, (Shortcut_Name s, (Shortcut_ServiceProviderID s, (Shortcut_RelayState s, Shortcut_URISuffixAsRelayState s))))
      (λ '(n, (id, (r, b))), mkShortcut n id r b) (λ _, true) _;
    storedSession_json := text_json session_fields of_session_fields (λ x, no_attributes (stored_Session x))
                            of_session_fields_eq;
    Session_json := text_json (λ s, session_fields (mkStoredSession s "")) (λ f, stored_Session (of_session_fields f))
                      no_attributes _;
    names_json field names := Ret (String.concat "," (field :: names))
  |}.
  - by intros [].
  - by intros [].
  - intros s Hs. by rewrite of_session_fields_eq.
Defined.

(** ** The world *)

(** The time and the number of revisions that were drawn. *)
Definition Base : Type := Time * nat.

Fixpoint revision_text (n : nat) : string :=
  match n with O => "r" | S n => String "r" (revision_text n) end.

Lemma revision_text_inj m n : revision_text m = revision_text n → m = n.
Proof.
  revert n. induction m as [|m IH]; intros [|n] H; [done|by destruct n|by destruct m|]. injection H as H. auto.
Qed.

#[export] Instance base_world : World Base := {|
  TimeNow_ w := (w, w.1);
  SystemNow w := (w, w.1);
  Clock := None;
  RandReader n w := (w, Some (repeat_byte n));
  ResponseWrite _ w := (w, Ret ())
|}.

#[export] Instance base_range : MapRange Base := {| map_range keys w := (w, keys); map_range_perm keys w := reflexivity keys |}.

Notation TestW := (MemoryWorld Base).

#[export] Instance ref_server_ops : ServerOps TestW := {|
  CompareHashAndPassword hashed password :=
    if hashed == "#" +++ password then Ret () else Err (Sentinel "bcrypt.ErrMismatchedHashAndPassword");
  GenerateFromPassword password w := (w, Ret ("#" +++ password));
  rand_Text := mw_lift (λ '(t, n), ((t, S n), revision_text n));
  EscapedPath := URL_Path;
  defaultLoginFormTemplate form := Ret ("login: " +++ LoginForm_URL form)
|}.

#[export] Instance ref_server_encrypt : EncryptOps TestW := {|
  OAEP_Encrypt c k s w := (w, Err (Sentinel "no encryption"))
|}.

#[export] Program Instance ref_server_laws : ServerLaws TestW := {|
  revisions w := list_to_set (map revision_text (seq 0 (mw_world w).2))
|}.
Solve Obligations with (by intros).
Next Obligation. intros A J key a w. simpl. unfold on_store, memory_Put. by destruct (json_Marshal a). Qed.
Next Obligation.
  intros [store [now n]] w' t. simpl. unfold mw_lift. simpl. intros [= <- <-].
  cbn [mw_world snd]. split_and!; [done| |].
  - rewrite elem_of_list_to_set, list_elem_of_fmap. intros (m & Hm%revision_text_inj & Hin%elem_of_seq). lia.
  - rewrite seq_S, map_app, list_to_set_app_L. simpl. set_solver.
Qed.

#[export] Instance ref_server_xml : XmlOps := ref_idp_xml zero_AuthnRequest zero_LogoutRequest.
#[export] Instance ref_server_vars : PackageVars := default_vars.

#[export] Program Instance ref_json_laws : ServerJsonLaws TestW := {| utf8 _ := true |}.
Solve Obligations with (by intros).
Next Obligation.
  intros data metadata. unfold getSPMetadata. simpl. destruct (data == ""); simpl; [done|].
  by intros [= <-].
Qed.

#[export] Instance ref_login_works : LoginWorks TestW.
Proof.
  split.
  - intros A J key a w (text & Hk & Hu). rewrite memory_Get_spec. simpl in Hk. by rewrite Hk.
  - intros A J key a w Hm. simpl. unfold on_store, memory_Put. by destruct (json_Marshal a).
  - intros n w. simpl. by eexists.
  - done.
Qed.

#[export] Instance ref_end_sessions : EndSessionsLaws TestW.
Proof.
  split; [done|]. intros text x. simpl.
  destruct (read_text text) as [f| |]; simpl; [|done..]. by intros [= <-].
Qed.

(** ** A run *)

Module Examples.

Definition options : Options :=
  mkOptions (mkURL "https" "" "" "idp.example.com" "" "" "" "") None None None None (Some (λ _, true)).

Definition request (method query body : string) (cookies values : list (string * string)) : HTTPRequest :=
  mkHTTPRequest method (mkURL "https" "" "" "idp.example.com" "" "" query "")
    (Ret "application/x-www-form-urlencoded") (Some body) "" [] cookies values true.

(** A step: what the handler leaves of the world. *)
Definition after {A} (m : IO (ServerWorld TestW) A) (w : ServerWorld TestW) : ServerWorld TestW := (m (w, [])).1.1.

Definition w0 : ServerWorld TestW := mkServerWorld ∅ ∅ (mkMemoryWorld (mkMemoryStore None) (1000, 0%nat)).
Definition server : Server :=
  match (New options (w0, [])).2 with Ret s => s | _ => mkServer None None None (mkURL "" "" "" "" "" "" "" "")
    (mkURL "" "" "" "" "" "" "" "") (mkURL "" "" "" "" "" "" "" "") (mkURL "" "" "" "" "" "" "" "") None None end.
Definition w1 := after (New options) w0.

Definition alice_body : string :=
  to_digits (encode (user_fields (mkUser "" (Some "secret") "" ["staff"] "alice@example.com" "Alice" "" "" "" ""))).
Definition put_alice := request "PUT" "" alice_body [] [("id", "alice")].
Definition w2 := after (server_handler server (Admin PUT_user) put_alice) w1.

Definition sp_id := "https://sp.example.com/metadata".
Definition put_sp := request "PUT" "" sp_id [] [("id", "sp")].
Definition w3 := after (server_handler server (Admin PUT_service) put_sp) w2.

Definition login := request "POST" "" "user=alice&password=secret" [] [].
Definition w4 := after (server_handler server Any_login login) w3.

Example put_alice_ok : (server_handler server (Admin PUT_user) put_alice (w1, [])).1.2 = [WriteHeader 204].
Proof. vm_compute. reflexivity. Qed.
Example put_sp_ok : (server_handler server (Admin PUT_service) put_sp (w2, [])).1.2 = [WriteHeader 204].
Proof. vm_compute. reflexivity. Qed.
Example login_ok : existsb (λ e, match e with SetCookie _ => true | _ => false end)
  (server_handler server Any_login login (w3, [])).1.2 = true.
Proof. vm_compute. reflexivity. Qed.

(** ** Its states are reachable *)

Lemma run_eq {A} (m : IO (ServerWorld TestW) A) w ev : m (w, ev) = (((m (w, ev)).1.1, (m (w, ev)).1.2), (m (w, ev)).2).
Proof. by destruct (m (w, ev)) as [[? ?] ?]. Qed.

Lemma ret_eq {S A} (p : S * outcome A) a : p.2 = Ret a → p = (p.1, Ret a).
Proof. destruct p. by intros [= ->]. Qed.

Lemma reachable_request s w route r : reachable s w [] → matches route r →
  reachable s (after (server_handler s route r) w) [].
Proof. intros Hr Hm. eapply reachable_event; [exact Hr|]. eapply event_request; [exact Hm|apply run_eq]. Qed.

Lemma new_ret : (New options (w0, [])).2 = Ret server.
Proof. vm_compute. reflexivity. Qed.

Lemma reachable_w1 : reachable server w1 [].
Proof.
  apply (reachable_first options server w0 [] w1 (New options (w0, [])).1.2); [done|].
  rewrite <- new_ret. apply run_eq.
Qed.

Lemma reachable_w2 : reachable server w2 [].
Proof. refine (reachable_request server w1 (Admin PUT_user) put_alice reachable_w1 _). intros _. split; [discriminate|reflexivity]. Qed.

Lemma reachable_w3 : reachable server w3 [].
Proof. refine (reachable_request server w2 (Admin PUT_service) put_sp reachable_w2 _). intros H. discriminate H. Qed.

Lemma reachable_w4 : reachable server w4 [].
Proof. refine (reachable_request server w3 Any_login login reachable_w3 _). intros H. discriminate H. Qed.

(** ** The theorems at these states *)

Lemma server_handler_refines_witness :
  ∃ l', [] ⊆ l' ∧ rtc (server_step (W0 := TestW)) (abstract w3 []) (abstract w4 l').
Proof.
  refine (server_handler_refines server Any_login login w3 [] w4
    (server_handler server Any_login login (w3, [])).1.2 (server_handler server Any_login login (w3, [])).2 [] _ _).
  - intros H. discriminate H.
  - exact (run_eq (server_handler server Any_login login) w3 []).
Defined.

Definition shortcut_ops : list (store_op Shortcut) :=
  [OpPut "/a" (mkShortcut "a" "sp" None true); OpGet "/a"; OpList "/"; OpDelete "/a"; OpGet "/a"].

Lemma MemoryStore_refines_witness :
  ∃ m', map_steps (∅ : gmap string Shortcut) shortcut_ops m' (run_ops shortcut_ops (server_world w0)).2 ∧
    represents (run_ops shortcut_ops (server_world w0)).1 m'.
Proof.
  refine (MemoryStore_refines shortcut_ops (server_world w0) _ _ ∅ _ _ _).
  - vm_compute. reflexivity.
  - repeat constructor. by eexists.
  - apply surjective_pairing.
Defined.

Lemma reachable_registry_witness :
  serviceProviders w4 !! sp_id = Some (plain_metadata sp_id) ↔
  EntityDescriptor_EntityID (plain_metadata sp_id) = sp_id ∧
  ∃ id svc, stored (contents (server_world w4)) ("/services/" +++ id) svc ∧ Service_Metadata svc = plain_metadata sp_id.
Proof. apply (reachable_registry server w4 [] reachable_w4). Defined.

Lemma reachable_emails_witness :
  (∀ name user, stored (contents (server_world w4)) ("/users/" +++ name) user → User_Name user = name) ∧
  ∀ name1 name2 user1 user2,
    stored (contents (server_world w4)) ("/users/" +++ name1) user1 →
    stored (contents (server_world w4)) ("/users/" +++ name2) user2 →
    User_Email user1 ≠ "" → EqualFold (User_Email user1) (User_Email user2) = true → name1 = name2.
Proof. exact (reachable_emails server w4 [] reachable_w4). Defined.

(** The cookie of the session that the login started. *)
Definition session_id : string := base64_Encode (repeat_byte 32).
Definition later := request "GET" "" "" [("session", session_id)] [].

Definition alice_session : Session :=
  match (existingSession later (w4, [])).2 with Ret (Some x) => x | _ => mkSession "" 0 0 "" "" "" "" [] "" "" "" "" "" "" "" [] "" "" end.

Lemma reachable_sessions_witness :
  Session_UserName alice_session = "alice" ∧ current_session server w4 later false alice_session.
Proof.
  split; [vm_compute; reflexivity|].
  refine (reachable_sessions server w4 [] later login_request [] _ alice_session reachable_w4 _).
  apply ret_eq. vm_compute. reflexivity.
Defined.

Definition cross_login : HTTPRequest :=
  mkHTTPRequest "POST" (mkURL "https" "" "" "idp.example.com" "" "" "" "") (Ret "application/x-www-form-urlencoded")
    (Some "user=alice&password=secret") "" [("Origin", "https://evil.example.com")] [] [] true.

Lemma cross_site_login_refused_witness :
  ∃ st err, server_GetSession server cross_login login_request (w3, []) = (st, Ret None) ∧
    server_GetForcedSession server cross_login login_request (w3, []) = (st, Ret None) ∧
    st = (w3, [] ++ [LogPrintf "ERROR: refused credentials from another origin: %s" [] (Some err); HttpError 403])%list.
Proof.
  apply (cross_site_login_refused server cross_login login_request w3 []).
  - vm_compute. reflexivity.
  - right. split_and!; [done|done|vm_compute; reflexivity].
Defined.

Lemma admin_refused_witness :
  let closed := mkServer None None None (mkURL "" "" "" "" "" "" "" "") (mkURL "" "" "" "" "" "" "" "")
    (mkURL "" "" "" "" "" "" "" "") (mkURL "" "" "" "" "" "" "" "") None None in
  server_handler closed (Admin GET_users) later (w3, []) = ((w3, ([] ++ [HttpError 403])%list), Ret ()).
Proof. apply (admin_refused _ GET_users later w3 []). reflexivity. Defined.

Definition alice : User :=
  match (effect (Store_Get (A := User) "/users/alice") (w3, [])).2 with Ret u => u | _ => mkUser "" None "" [] "" "" "" "" "" "" end.

Lemma alice_stored : stored (contents (server_world w3)) ("/users/" +++ values_Get (PostForm login) "user") alice.
Proof.
  exists (default "" (contents (server_world w3) !! "/users/alice")).
  split; [vm_compute; reflexivity|]. vm_compute. reflexivity.
Qed.

Lemma login_establishes_session_witness :
  User_Email alice = "alice@example.com" ∧
  let times := login_times (Store_Get (A := User) "/users/alice" w3).1 in
  ∃ w' ev' session, server_GetSession server login login_request (w3, []) = ((w', ev'), Ret (Some session)) ∧
    session_of alice session ∧ Session_CreateTime session = times.1 ∧
    Session_ExpireTime session = times.2 + sessionMaxAge ∧ SetCookie (sessionCookie server login (Session_ID session) 3600) ∈ ev' ∧
    served_by_cookie w' alice session.
Proof.
  split; [vm_compute; reflexivity|].
  refine (login_establishes_session server [] login login_request w3 [] alice reachable_w3 _ _ alice_stored _).
  - vm_compute. reflexivity.
  - vm_compute. reflexivity.
  - vm_compute. reflexivity.
Defined.

Definition delete_alice := request "DELETE" "" "" [] [("id", "alice")].

Lemma user_change_ends_sessions_witness :
  let w' := after (admin_handler DELETE_user delete_alice) w4 in
  no_sessions_of "alice" w' ∧ earlier_sessions_refused "alice" (earlier_revision w4 [] "alice") w'.
Proof.
  apply (user_change_ends_sessions server [] DELETE_user delete_alice w4
    (after (admin_handler DELETE_user delete_alice) w4) (admin_handler DELETE_user delete_alice (w4, [])).1.2
    (admin_handler DELETE_user delete_alice (w4, [])).2 reachable_w4).
  - set_solver.
  - intros H. discriminate H.
  - apply (run_eq (admin_handler DELETE_user delete_alice) w4 []).
  - vm_compute. by left.
Defined.

Lemma reachable_provider_witness :
  EntityDescriptor_EntityID (plain_metadata sp_id) = sp_id ∧
  (∃ id svc, stored (contents (server_world w4)) ("/services/" +++ id) svc ∧
     restricts (plain_metadata sp_id) (Service_Metadata svc)) ∧
  unexpired (plain_metadata sp_id) (TimeNow_ w4).2.
Proof.
  refine (reachable_provider server w4 [] sp_id (server_GetServiceProvider sp_id (w4, [])).1.1 []
    (server_GetServiceProvider sp_id (w4, [])).1.2 (plain_metadata sp_id) reachable_w4 _).
  assert (H : (server_GetServiceProvider sp_id (w4, [])).2 = Ret (Some (plain_metadata sp_id))) by (vm_compute; reflexivity).
  rewrite <- H. apply (run_eq (server_GetServiceProvider sp_id) w4 []).
Defined.
End Examples.
