(* ===== verification/XmlEnc.v ===== *)
(** * XmlEnc: [src/xmlenc]

    XML encryption: the block ciphers of [cbc.go] and [gcm.go], key transport of
    [pubkey.go], the digests of [digest.go] and [Decrypt] of [decrypt.go], which
    calls itself for an encrypted key.  CBC mode is computed from the block
    transform of a cipher; the transforms, GCM and RSA are methods of
    [CipherOps]. *)

From stdpp Require Import base option list gmap strings.
From Stdlib Require Import ZArith Lia Ascii.
From S2P Require Import Prelude Go Encoding Etree Schema Env Http DSig.

Open Scope string_scope.

Definition xencNamespace := "http://www.w3.org/2001/04/xmlenc#".

(** ** Ciphers and digests *)

(** [aes.NewCipher] and [des.NewTripleDESCipher] *)
Inductive Cipher := AES | DES3.

(** [NewCipher] refuses keys of a wrong length. *)
Definition NewCipher (c : Cipher) (key : string) : outcome () :=
  let n := String.length key in
  match c with
  | AES => raise_if (negb (bool_decide (n ∈ [16; 24; 32]%nat))) (Errorf "aes.KeySizeError" [AInt (Z.of_nat n)])
  | DES3 => raise_if (n != 24%nat) (Errorf "des.KeySizeError" [AInt (Z.of_nat n)])
  end.

Definition BlockSize (c : Cipher) : nat := match c with AES => 16 | DES3 => 8 end.

Record CBC := mkCBC { CBC_keySize : nat; CBC_algorithm : string; CBC_cipher : Cipher }.
Record GCM := mkGCM { GCM_keySize : nat; GCM_algorithm : string; GCM_cipher : Cipher }.

(** The values of the type [BlockCipher]. *)
Definition BlockCipher_value (c : BlockCipher) : CBC + GCM :=
  match c with
  | AES128GCM => inr (mkGCM 16 "http://www.w3.org/2009/xmlenc11#aes128-gcm" AES)
  | AES128CBC => inl (mkCBC 16 "http://www.w3.org/2001/04/xmlenc#aes128-cbc" AES)
  | AES192CBC => inl (mkCBC 24 "http://www.w3.org/2001/04/xmlenc#aes192-cbc" AES)
  | AES256CBC => inl (mkCBC 32 "http://www.w3.org/2001/04/xmlenc#aes256-cbc" AES)
  | TripleDES => inl (mkCBC 24 "http://www.w3.org/2001/04/xmlenc#tripledes-cbc" DES3)
  end.

Definition BlockCipher_KeySize (c : BlockCipher) : nat :=
  match BlockCipher_value c with inl e => CBC_keySize e | inr e => GCM_keySize e end.

Definition gcm_NonceSize : nat := 12.
Definition gcm_Overhead : nat := 16.

Inductive DigestHash := digest_sha1 | digest_sha256 | digest_sha512 | digest_ripemd160.

Record digestMethod := mkDigestMethod { digestMethod_algorithm : string; digestMethod_hash : DigestHash }.

Definition xmlenc_SHA1 := mkDigestMethod "http://www.w3.org/2000/09/xmldsig#sha1" digest_sha1.
Definition xmlenc_SHA256 := mkDigestMethod "http://www.w3.org/2001/04/xmlenc#sha256" digest_sha256.
Definition xmlenc_SHA512 := mkDigestMethod "http://www.w3.org/2001/04/xmlenc#sha512" digest_sha512.
Definition RIPEMD160 := mkDigestMethod "http://www.w3.org/2001/04/xmlenc#ripemd160" digest_ripemd160.
Definition LegacySHA256 := mkDigestMethod "http://www.w3.org/2000/09/xmldsig#sha256" digest_sha256.
Definition LegacySHA512 := mkDigestMethod "http://www.w3.org/2000/09/xmldsig#sha512" digest_sha512.

Definition RegisterDigestMethod (dm : digestMethod) (m : gmap string digestMethod) : gmap string digestMethod :=
  <[digestMethod_algorithm dm := dm]> m.

Definition digestMethods : gmap string digestMethod :=
  foldl (λ m dm, RegisterDigestMethod dm m) ∅
    [xmlenc_SHA1; xmlenc_SHA256; xmlenc_SHA512; RIPEMD160; LegacySHA256; LegacySHA512].

(** The two pairs of functions [keyEncrypter] and [keyDecrypter]. *)
Inductive KeyTransport := TransportOAEP | TransportPKCS1v15.

Record RSA := mkRSA {
  RSA_BlockCipher : BlockCipher;
  RSA_DigestMethod : option digestMethod;
  RSA_algorithm : string;
  RSA_transport : KeyTransport
}.

Definition OAEP : RSA :=
  mkRSA AES256CBC (Some xmlenc_SHA256) "http://www.w3.org/2001/04/xmlenc#rsa-oaep-mgf1p" TransportOAEP.
Definition OAEP_SHA256 : RSA :=
  mkRSA AES256CBC (Some xmlenc_SHA256) "http://www.w3.org/2009/xmlenc11#rsa-oaep" TransportOAEP.
Definition OAEP_SHA512 : RSA :=
  mkRSA AES256CBC (Some xmlenc_SHA512) "http://www.w3.org/2009/xmlenc11#rsa-oaep" TransportOAEP.
Definition PKCS1v15 : RSA :=
  mkRSA AES256CBC None "http://www.w3.org/2001/04/xmlenc#rsa-1_5" TransportPKCS1v15.

(** [Decrypter] and the map [decrypters]. *)
Inductive Decrypter := BlockDecrypter (c : BlockCipher) | RSADecrypter (e : RSA).

Definition Decrypter_Algorithm (d : Decrypter) : string :=
  match d with BlockDecrypter c => BlockCipher_Algorithm c | RSADecrypter e => RSA_algorithm e end.

Definition RegisterDecrypter (d : Decrypter) (m : gmap string Decrypter) : gmap string Decrypter :=
  <[Decrypter_Algorithm d := d]> m.

Definition default_decrypters : gmap string Decrypter :=
  foldl (λ m d, RegisterDecrypter d m) ∅
    [BlockDecrypter AES128CBC; BlockDecrypter AES192CBC; BlockDecrypter AES256CBC;
     BlockDecrypter TripleDES; BlockDecrypter AES128GCM; RSADecrypter OAEP].

(** ** Errors *)

Definition ErrAlgorithmNotImplemented (a : string) : error :=
  Errorf "algorithm is not implemented: %s" [AStr a].
Definition ErrCannotFindRequiredElement (e : string) : error :=
  Errorf "cannot find required element: %s" [AStr e].
Definition ErrIncorrectKeyLength (n : nat) : error :=
  Errorf "expected key to be %d bytes" [AInt (Z.of_nat n)].
Definition ErrIncorrectKeyType (t : string) : error := Errorf "expected key to be %s" [AStr t].

(** ** Padding and CBC mode *)

Fixpoint zero_bytes (n : nat) : string :=
  match n with O => "" | S n => String "000" (zero_bytes n) end.

Definition appendPadding (buf : string) (blockSize : nat) : string :=
  let paddingBytes := (blockSize - String.length buf mod blockSize)%nat in
  buf +++ zero_bytes (paddingBytes - 1) +++ String (ascii_of_nat paddingBytes) "".

(** [buf[len(buf)-1]] *)
Fixpoint last_byte (s : string) : option ascii :=
  match s with
  | "" => None
  | String c "" => Some c
  | String _ s => last_byte s
  end.

Definition stripPadding (buf : string) : outcome string :=
  match last_byte buf with
  | None => Err (Errorf "buffer is too short for padding" [])
  | Some c =>
      let paddingBytes := nat_of_ascii c in
      let n := String.length buf in
      _ ← raise_if (n - 1 <? paddingBytes)%nat (Errorf "buffer is too short for padding" []);
      _ ← raise_if (paddingBytes <? 1)%nat (Errorf "padding must be at least one byte" []);
      Ret (split_at (n - paddingBytes) buf).1
  end.

Definition byte_xor (a b : ascii) : ascii :=
  match a, b with
  | Ascii a0 a1 a2 a3 a4 a5 a6 a7, Ascii b0 b1 b2 b3 b4 b5 b6 b7 =>
      Ascii (xorb a0 b0) (xorb a1 b1) (xorb a2 b2) (xorb a3 b3)
        (xorb a4 b4) (xorb a5 b5) (xorb a6 b6) (xorb a7 b7)
  end.

Fixpoint xor_bytes (s t : string) : string :=
  match s, t with
  | String a s, String b t => String (byte_xor a b) (xor_bytes s t)
  | _, _ => ""
  end.

(** [n] blocks of the given size, after the block [iv]. *)
Fixpoint cbc_encrypt (transform : string → string) (size n : nat) (iv s : string) : string :=
  match n with
  | O => ""
  | S n =>
      let '(block, rest) := split_at size s in
      let c := transform (xor_bytes block iv) in
      c +++ cbc_encrypt transform size n c rest
  end.

Fixpoint cbc_decrypt (transform : string → string) (size n : nat) (iv s : string) : string :=
  match n with
  | O => ""
  | S n =>
      let '(block, rest) := split_at size s in
      xor_bytes (transform block) iv +++ cbc_decrypt transform size n block rest
  end.

(** [NewCBCEncrypter(block, iv)] or [NewCBCDecrypter] and [CryptBlocks], which
    panic unless there is one block of [iv] and whole blocks of input. *)
Definition CryptBlocks (mode : nat → string → string → string) (size : nat) (iv s : string) : outcome string :=
  if (String.length iv != size) || (String.length s mod size != 0)%nat then Panic
  else Ret (mode (String.length s / size)%nat iv s).

(** [crypto/aes], [crypto/des], [crypto/cipher], [crypto/rsa], [encoding/pem]; the
    reads of [RandReader] into a buffer of the given length, by [Read] and by
    [io.ReadFull]; and whether the dynamic type of a signer is
    [*rsa.PrivateKey]. *)
Class CipherOps (W : Type) := {
  block_Encrypt : Cipher → string → string → string;   (* key block *)
  block_Decrypt : Cipher → string → string → string;
  gcm_Seal : string → string → string → string;       (* key nonce plaintext *)
  gcm_Open : string → string → string → outcome string;
  rsa_EncryptOAEP : DigestHash → PublicKey → string → Effect W string;
  rsa_DecryptOAEP : DigestHash → Signer → string → outcome string;
  rsa_EncryptPKCS1v15 : PublicKey → string → Effect W string;
  rsa_DecryptPKCS1v15 : Signer → string → outcome string;
  pem_Decode : string → option string;
  RandReader_Read : nat → Effect W string;
  RandReader_ReadFull : nat → Effect W string;
  is_rsa_PrivateKey : Signer → bool
}.

(** A buffer of [n] bytes after a read of the given bytes. *)
Definition fill (n : nat) (s : string) : string := (split_at n (s +++ zero_bytes n)).1.

Section xmlenc.
Context {W : Type} `{EtreeI : EtreeOps} `{X509I : X509Ops} `{CipherI : CipherOps W}.

Definition read_random (n : nat) : IO W string :=
  s ← effect (RandReader_Read n); mret (fill n s).

(** [el.FindElement(path)] *)
Definition find (path : string) (el : Element) : option Element :=
  p ← FindElement path el; elem_at p el.

(** ** Encryption *)

(** The elements that [CBC.Encrypt], [GCM.Encrypt] and [RSA.Encrypt] write alike. *)
Definition encryption_method (algorithm : string) : Element :=
  CreateAttr "xmlns:xenc" xencNamespace (CreateAttr "Algorithm" algorithm (NewElement "xenc:EncryptionMethod")).

Definition cipher_data (ciphertext : string) : Element :=
  AddChild (SetText (base64_Encode ciphertext) (NewElement "xenc:CipherValue"))
    (CreateAttr "xmlns:xenc" xencNamespace (NewElement "xenc:CipherData")).

Definition encrypted_data (id algorithm ciphertext : string) : Element :=
  let el := CreateAttr "Id" id (CreateAttr "xmlns:xenc" xencNamespace (NewElement "xenc:EncryptedData")) in
  AddChild (cipher_data ciphertext) (AddChild (encryption_method algorithm) el).

Definition CBC_Encrypt (e : CBC) (key plaintext : string) : IO W Element :=
  _ ← lift (raise_if (String.length key != CBC_keySize e) (ErrIncorrectKeyLength (CBC_keySize e)));
  _ ← lift (NewCipher (CBC_cipher e) key);
  randBuf ← read_random 16;
  let size := BlockSize (CBC_cipher e) in
  let plaintext := appendPadding plaintext size in
  iv ← read_random size;
  ciphertext ← lift (CryptBlocks (cbc_encrypt (block_Encrypt (CBC_cipher e) key) size) size iv plaintext);
  mret (encrypted_data ("_" +++ hex_string randBuf) (CBC_algorithm e) (iv +++ ciphertext)).

Definition GCM_Encrypt (e : GCM) (key plaintext : string) (nonce : option string) : IO W Element :=
  _ ← lift (raise_if (String.length key != GCM_keySize e) (ErrIncorrectKeyLength (GCM_keySize e)));
  _ ← lift (NewCipher (GCM_cipher e) key);
  randBuf ← read_random 16;
  nonce ←
    match nonce with
    | Some nonce => mret nonce
    | None => s ← effect (RandReader_ReadFull gcm_NonceSize); mret (fill gcm_NonceSize s)
    end;
  _ ← lift (raise_if (String.length nonce != gcm_NonceSize)
        (Errorf "nonce must be %d bytes" [AInt (Z.of_nat gcm_NonceSize)]));
  mret (encrypted_data ("_" +++ hex_string randBuf) (GCM_algorithm e) (nonce +++ gcm_Seal key nonce plaintext)).

Definition BlockCipher_Encrypt (c : BlockCipher) (key plaintext : string) (nonce : option string)
    : IO W Element :=
  match BlockCipher_value c with
  | inl e => CBC_Encrypt e key plaintext
  | inr e => GCM_Encrypt e key plaintext nonce
  end.

Definition keyEncrypter (e : RSA) (pubKey : PublicKey) (plaintext : string) : IO W string :=
  match RSA_transport e with
  | TransportPKCS1v15 => effect (rsa_EncryptPKCS1v15 pubKey plaintext)
  | TransportOAEP =>
      dm ← lift (deref (RSA_DigestMethod e));
      effect (rsa_EncryptOAEP (digestMethod_hash dm) pubKey plaintext)
  end.

(** The [EncryptedKey] of the [KeyInfo]. *)
Definition encrypted_key (e : RSA) (cert : Certificate) (id ciphertext : string) : Element :=
  let method := encryption_method (RSA_algorithm e) in
  let method :=
    match RSA_DigestMethod e with
    | None => method
    | Some dm =>
        AddChild (CreateAttr "xmlns:ds" "http://www.w3.org/2000/09/xmldsig#"
          (CreateAttr "Algorithm" (digestMethod_algorithm dm) (NewElement "ds:DigestMethod"))) method
    end in
  let x509Data := AddChild (SetText (base64_Encode (Certificate_Raw cert)) (NewElement "ds:X509Certificate"))
                    (NewElement "ds:X509Data") in
  let el := CreateAttr "xmlns:xenc" xencNamespace (CreateAttr "Id" id (NewElement "xenc:EncryptedKey")) in
  AddChild (cipher_data ciphertext)
    (AddChild (AddChild x509Data (NewElement "ds:KeyInfo")) (AddChild method el)).

Definition key_info (encryptedKey : Element) : Element :=
  AddChild encryptedKey
    (CreateAttr "xmlns:ds" "http://www.w3.org/2000/09/xmldsig#" (NewElement "ds:KeyInfo")).

Definition RSA_Encrypt (e : RSA) (cert : Certificate) (plaintext : string) (nonce : option string)
    : IO W Element :=
  _ ← lift (raise_if (negb (is_rsa (Certificate_PublicKey cert)))
        (ErrIncorrectKeyType "x.509 certificate with an RSA public key"));
  key ← read_random (BlockCipher_KeySize (RSA_BlockCipher e));
  randBuf ← read_random 16;
  buf ← keyEncrypter e (Certificate_PublicKey cert) key;
  let keyInfoEl := key_info (encrypted_key e cert ("_" +++ hex_string randBuf) buf) in
  encryptedDataEl ← BlockCipher_Encrypt (RSA_BlockCipher e) key plaintext nonce;
  index ← lift (deref (FindElement "./CipherData" encryptedDataEl ≫= last));
  mret (InsertChildAt index keyInfoEl encryptedDataEl).

(** ** Decryption *)

Definition getCiphertext (encryptedKey : Element) : outcome string :=
  ciphertextEl ← or_err (find "./CipherData/CipherValue" encryptedKey)
    (Errorf "cannot find CipherData element containing a CipherValue element" []);
  base64_Decode (TrimSpace (Text ciphertextEl)).

Definition newline : string := String "010" "".

Definition validateRSAKeyIfPresent (key : DecryptionKey) (encryptedKey : Element) : outcome Signer :=
  rsaKey ← or_err
    match key with
    | SignerKey (Some signer) => if is_rsa_PrivateKey signer then Some signer else None
    | _ => None
    end (Errorf "expected key to be a *rsa.PrivateKey" []);
  match find "./KeyInfo/X509Data/X509Certificate" encryptedKey with
  | None => Ret rsaKey
  | Some el =>
      certPEM ← or_err (pem_Decode ("-----BEGIN CERTIFICATE-----" +++ newline +++ Text el +++ newline
                                    +++ "-----END CERTIFICATE-----" +++ newline))
        (Errorf "invalid certificate" []);
      cert ← ParseCertificate certPEM;
      _ ← raise_if (negb (is_rsa (Certificate_PublicKey cert)))
        (Errorf "expected certificate to be an *rsa.PublicKey" []);
      _ ← raise_if (Signer_Public rsaKey != Certificate_PublicKey cert)
        (Errorf "certificate does not match provided key" []);
      Ret rsaKey
  end.

Definition keyDecrypter (e : RSA) (privKey : Signer) (ciphertext : string) : outcome string :=
  match RSA_transport e with
  | TransportPKCS1v15 => rsa_DecryptPKCS1v15 privKey ciphertext
  | TransportOAEP =>
      dm ← deref (RSA_DigestMethod e);
      rsa_DecryptOAEP (digestMethod_hash dm) privKey ciphertext
  end.

Definition RSA_Decrypt (e : RSA) (key : DecryptionKey) (ciphertextEl : Element) : outcome string :=
  rsaKey ← validateRSAKeyIfPresent key ciphertextEl;
  ciphertext ← getCiphertext ciphertextEl;
  dm ←
    match find "./EncryptionMethod/DigestMethod" ciphertextEl with
    | None => Ret xmlenc_SHA1
    | Some digestMethodEl =>
        let hashAlgorithmStr := SelectAttrValue "Algorithm" digestMethodEl in
        or_err (digestMethods !! hashAlgorithmStr) (ErrAlgorithmNotImplemented hashAlgorithmStr)
    end;
  keyDecrypter (mkRSA (RSA_BlockCipher e) (Some dm) (RSA_algorithm e) (RSA_transport e)) rsaKey ciphertext.

(** The first lines of both [Decrypt] methods: the key, decrypted if it is in the
    element. [decrypt] is [Decrypt]. *)
Definition content_key (decrypt : DecryptionKey → Element → outcome string) (keySize : nat)
    (key : DecryptionKey) (ciphertextEl : Element) : outcome string :=
  key ←
    match find "./KeyInfo/EncryptedKey" ciphertextEl with
    | Some encryptedKeyEl => key ← decrypt key encryptedKeyEl; Ret (BytesKey key)
    | None => Ret key
    end;
  keyBuf ← or_err (match key with BytesKey s => Some s | SignerKey _ => None end) (ErrIncorrectKeyType "[]byte");
  _ ← raise_if (String.length keyBuf != keySize) (ErrIncorrectKeyLength keySize);
  Ret keyBuf.

Definition CBC_Decrypt (decrypt : DecryptionKey → Element → outcome string) (e : CBC)
    (key : DecryptionKey) (ciphertextEl : Element) : outcome string :=
  keyBuf ← content_key decrypt (CBC_keySize e) key ciphertextEl;
  _ ← NewCipher (CBC_cipher e) keyBuf;
  ciphertext ← getCiphertext ciphertextEl;
  let size := BlockSize (CBC_cipher e) in
  _ ← raise_if (String.length ciphertext <? size)%nat (Errorf "ciphertext too short" []);
  _ ← raise_if (String.length ciphertext mod size != 0)%nat
        (Errorf "ciphertext is not a whole number of blocks" []);
  let '(iv, ciphertext) := split_at size ciphertext in
  plaintext ← CryptBlocks (cbc_decrypt (block_Decrypt (CBC_cipher e) keyBuf) size) size iv ciphertext;
  stripPadding plaintext.

Definition GCM_Decrypt (decrypt : DecryptionKey → Element → outcome string) (e : GCM)
    (key : DecryptionKey) (ciphertextEl : Element) : outcome string :=
  keyBuf ← content_key decrypt (GCM_keySize e) key ciphertextEl;
  _ ← NewCipher (GCM_cipher e) keyBuf;
  ciphertext ← getCiphertext ciphertextEl;
  _ ← raise_if (String.length ciphertext <? gcm_NonceSize + gcm_Overhead)%nat (Errorf "ciphertext too short" []);
  let '(nonce, text) := split_at gcm_NonceSize ciphertext in
  gcm_Open keyBuf nonce text.

(** [Decrypt]. It descends into the element at each call of itself, so a fuel
    above the depth of the element is enough. *)
Fixpoint Decrypt (decrypters : gmap string Decrypter) (fuel : nat) (key : DecryptionKey)
    (ciphertextEl : Element) : outcome string :=
  match fuel with
  | O => Panic
  | S fuel =>
      encryptionMethodEl ← or_err (find "./EncryptionMethod" ciphertextEl)
        (ErrCannotFindRequiredElement "EncryptionMethod");
      let algorithm := SelectAttrValue "Algorithm" encryptionMethodEl in
      decrypter ← or_err (decrypters !! algorithm) (ErrAlgorithmNotImplemented algorithm);
      match decrypter with
      | RSADecrypter e => RSA_Decrypt e key ciphertextEl
      | BlockDecrypter c =>
          match BlockCipher_value c with
          | inl e => CBC_Decrypt (Decrypt decrypters fuel) e key ciphertextEl
          | inr e => GCM_Decrypt (Decrypt decrypters fuel) e key ciphertextEl
          end
      end
  end.
End xmlenc.

(** ** The interfaces *)

Definition xmlenc_ops {W} `{EtreeI : EtreeOps} `{X509I : X509Ops} `{CipherI : CipherOps W} : XmlEncOps := {|
  xmlenc_Decrypt key c := Decrypt default_decrypters (S (depth (cur c))) key (cur c)
|}.

(** [OAEP()] with the given [BlockCipher] and [DigestMethod] [SHA1]. *)
Definition encrypt_ops {W} `{EtreeI : EtreeOps} `{CipherI : CipherOps W} : EncryptOps W := {|
  OAEP_Encrypt c cert plaintext w :=
    let e := mkRSA c (Some xmlenc_SHA1) (RSA_algorithm OAEP) (RSA_transport OAEP) in
    let '((w, _), o) := RSA_Encrypt e cert plaintext None (w, []) in (w, o)
|}.
