(* ===== verification/XmlEncSpec.v ===== *)
(** * XmlEncSpec: what [XmlEnc] promises

    CBC mode and its padding are read back, and so is the element that
    [RSA.Encrypt] makes; decryption does not panic; the recursion of [Decrypt]
    needs no more fuel than the depth of the element.  What the source relies on
    of the ciphers and of [etree] are the laws [CipherLaws] and [EtreeLaws]. *)

From stdpp Require Import base option list gmap strings.
From Stdlib Require Import ZArith Lia Ascii.
From S2P Require Import Prelude Go Encoding Etree Schema Env Http XmlTree ServiceProvider DSig XmlEnc Reference.

Open Scope string_scope.

(** ** Blocks and padding *)

Lemma split_at_append a b : split_at (String.length a) (a +++ b) = (a, b).
Proof. induction a as [|c a IH]; simpl; [by destruct b|by rewrite IH]. Qed.

Lemma split_at_append' n a b : String.length a = n → split_at n (a +++ b) = (a, b).
Proof. intros <-. apply split_at_append. Qed.

Lemma split_at_full s n : (n <= String.length s)%nat →
  ∃ a b, s = a +++ b ∧ String.length a = n ∧ split_at n s = (a, b).
Proof.
  revert s. induction n as [|n IH]; intros s Hn.
  - exists "", s. by destruct s.
  - destruct s as [|c s]; simpl in Hn; [lia|].
    destruct (IH s) as (a & b & -> & <- & E); [lia|]. exists (String c a), b.
    split_and!; [done..|]. simpl. by rewrite E.
Qed.

Lemma length_split_at n s :
  String.length (split_at n s).1 = (n `min` String.length s)%nat ∧
  String.length (split_at n s).2 = (String.length s - n)%nat.
Proof.
  revert s. induction n as [|n IH]; intros [|c s]; simpl; try by split.
  specialize (IH s). destruct (split_at n s) as [a b]. simpl in *. lia.
Qed.

Lemma length_xor_bytes s t :
  String.length (xor_bytes s t) = (String.length s `min` String.length t)%nat.
Proof.
  revert t. induction s as [|a s IH]; intros [|b t]; simpl; try done. by rewrite IH.
Qed.

Lemma byte_xor_involutive a b : byte_xor (byte_xor a b) b = a.
Proof. destruct a, b. simpl. by rewrite !xorb_assoc, !xorb_nilpotent, !xorb_false_r. Qed.

Lemma xor_bytes_involutive s t :
  (String.length s <= String.length t)%nat → xor_bytes (xor_bytes s t) t = s.
Proof.
  revert t. induction s as [|a s IH]; intros [|b t]; simpl; intros H; [done..|lia|].
  rewrite byte_xor_involutive, IH; [done|lia].
Qed.

Section cbc.
Context (E D : string → string) (size : nat).
Context (HE : ∀ b, String.length b = size → String.length (E b) = size ∧ D (E b) = b).

Lemma length_cbc_encrypt n iv s :
  String.length iv = size → String.length s = (n * size)%nat →
  String.length (cbc_encrypt E size n iv s) = (n * size)%nat.
Proof.
  revert iv s. induction n as [|n IH]; intros iv s Hiv Hs; simpl; [done|].
  destruct (split_at_full s size) as (a & b & -> & Ha & Hsp); [simpl in Hs; lia|].
  rewrite Hsp. rewrite length_append in *. simpl in Hs.
  destruct (HE (xor_bytes a iv)) as [Hl _]; [rewrite length_xor_bytes; lia|].
  rewrite Hl, IH; [done|done|lia].
Qed.

Lemma cbc_encrypt_decrypt n iv s :
  String.length iv = size → String.length s = (n * size)%nat →
  cbc_decrypt D size n iv (cbc_encrypt E size n iv s) = s.
Proof.
  revert iv s. induction n as [|n IH]; intros iv s Hiv Hs; simpl.
  - by destruct s.
  - destruct (split_at_full s size) as (a & b & -> & Ha & Hsp); [simpl in Hs; lia|].
    rewrite Hsp. rewrite length_append in Hs. simpl in Hs.
    destruct (HE (xor_bytes a iv)) as [Hl Hd]; [rewrite length_xor_bytes; lia|].
    rewrite (split_at_append' _ _ _ Hl), Hd, xor_bytes_involutive by lia.
    rewrite IH; [done|done|lia].
Qed.

Lemma length_cbc_decrypt n iv s :
  (∀ b, String.length b = size → String.length (D b) = size) →
  String.length iv = size → String.length s = (n * size)%nat →
  String.length (cbc_decrypt D size n iv s) = (n * size)%nat.
Proof.
  intros HD. revert iv s. induction n as [|n IH]; intros iv s Hiv Hs; simpl; [done|].
  destruct (split_at_full s size) as (a & b & -> & Ha & Hsp); [simpl in Hs; lia|].
  rewrite Hsp, length_append in *. simpl in Hs. rewrite length_xor_bytes, HD by done.
  rewrite IH; lia.
Qed.
End cbc.

Lemma length_zero_bytes n : String.length (zero_bytes n) = n.
Proof. induction n; simpl; congruence. Qed.

Lemma length_fill n s : String.length (fill n s) = n.
Proof.
  unfold fill. rewrite (proj1 (length_split_at _ _)), length_append, length_zero_bytes. lia.
Qed.

Lemma last_byte_append s c : last_byte (s +++ String c "") = Some c.
Proof. induction s as [|d s IH]; simpl; [done|]. rewrite IH. by destruct s. Qed.

Definition padding_length (buf : string) (size : nat) : nat := (size - String.length buf mod size)%nat.

Lemma padding_length_range buf size : (0 < size)%nat → (1 <= padding_length buf size <= size)%nat.
Proof.
  intros H. unfold padding_length. pose proof (Nat.mod_upper_bound (String.length buf) size). lia.
Qed.

Lemma length_appendPadding buf size : (0 < size)%nat →
  String.length (appendPadding buf size) = (String.length buf + padding_length buf size)%nat.
Proof.
  intros H. pose proof (padding_length_range buf size H). unfold appendPadding, padding_length in *.
  rewrite !length_append, length_zero_bytes. simpl. lia.
Qed.

Lemma appendPadding_blocks buf size : (0 < size)%nat →
  String.length (appendPadding buf size) = (S (String.length buf / size) * size)%nat.
Proof.
  intros H. rewrite length_appendPadding by done. unfold padding_length.
  pose proof (Nat.div_mod_eq (String.length buf) size) as Hd.
  pose proof (Nat.mod_upper_bound (String.length buf) size ltac:(lia)).
  rewrite Nat.mul_succ_l, (Nat.mul_comm _ size).
  set (q := (size * _)%nat) in *. clearbody q. lia.
Qed.

(** What [stripPadding] makes of any buffer that [appendPadding] returns. *)
Lemma stripPadding_append buf size : (0 < size < 256)%nat →
  stripPadding (appendPadding buf size)
  = if buf == "" then Err (Errorf "buffer is too short for padding" []) else Ret buf.
Proof.
  intros H. pose proof (padding_length_range buf size ltac:(lia)) as Hp.
  pose proof (length_appendPadding buf size ltac:(lia)) as Hl.
  unfold stripPadding. rewrite Hl.
  replace (appendPadding buf size)
    with (buf +++ zero_bytes (padding_length buf size - 1) +++ String (ascii_of_nat (padding_length buf size)) "")
    by done.
  rewrite <- append_assoc, last_byte_append, nat_ascii_embedding by lia.
  destruct buf as [|c buf]; [cbn [String.length Nat.add]|].
  - rewrite (proj2 (Nat.ltb_lt (padding_length "" size - 1) (padding_length "" size))) by lia. done.
  - rewrite bool_decide_false by done.
    rewrite (proj2 (Nat.ltb_ge _ _)) by (cbn [String.length]; lia). simpl raise_if. rewrite ret_bind.
    rewrite (proj2 (Nat.ltb_ge _ _)) by lia. simpl raise_if. rewrite ret_bind.
    rewrite append_assoc, (split_at_append' _ (String c buf)); [done|lia].
Qed.

(** ** What the source relies on *)

(** The paths that [src/xmlenc] gives to [FindElement]. *)
Definition xmlenc_paths : list string :=
  ["./EncryptionMethod"; "./CipherData"; "./CipherData/CipherValue"; "./KeyInfo/EncryptedKey";
   "./KeyInfo/X509Data/X509Certificate"; "./EncryptionMethod/DigestMethod"].

(** What [etree] documents of the functions that [src/xmlenc] calls. *)
Class EtreeLaws `{EtreeI : EtreeOps} : Prop := {
  NewElement_law space tag : has_byte ":" space = false →
    NewElement (space +++ ":" +++ tag) = mkElement space tag [] [];
  CreateAttr_law key value e : ∃ attrs, CreateAttr key value e = set_Attrs attrs e;
  SelectAttr_same key value e : has_byte ":" key = false →
    Attr_Value <$> SelectAttr key (CreateAttr key value e) = Some value;
  SelectAttr_other space key value key' e : has_byte ":" space = false → space ≠ "" →
    has_byte ":" key' = false → key ≠ key' →
    SelectAttr key' (CreateAttr (space +++ ":" +++ key) value e) = SelectAttr key' e;
  SetText_law text e : ∃ data, SetText text e = set_Child data e;
  Text_law text e : Text (SetText text e) = text;
  AddChild_law c e : AddChild c e = set_Child (Child e ++ [TElement c])%list e;
  InsertChildAt_law i c e : (i <= length (Child e))%nat →
    InsertChildAt i c e = set_Child (take i (Child e) ++ TElement c :: drop i (Child e))%list e;
  SelectAttr_children key c e : SelectAttr key (set_Child c e) = SelectAttr key e;
  FindElement_law path e : path ∈ xmlenc_paths →
    FindElement path e = find_steps (Split "/" path) e
}.

(** What the packages [crypto/...] and [encoding/pem] document. *)
Class CipherLaws {W : Type} `{CipherI : CipherOps W} : Prop := {
  block_law c key b : NewCipher c key = Ret () → String.length b = BlockSize c →
    String.length (block_Encrypt c key b) = BlockSize c ∧
    block_Decrypt c key (block_Encrypt c key b) = b;
  gcm_law key nonce text : NewCipher AES key = Ret () → String.length nonce = gcm_NonceSize →
    String.length (gcm_Seal key nonce text) = (String.length text + gcm_Overhead)%nat ∧
    gcm_Open key nonce (gcm_Seal key nonce text) = Ret text;
  oaep_law h key text w w' c : is_rsa_PrivateKey key = true →
    rsa_EncryptOAEP h (Signer_Public key) text w = (w', Ret c) → rsa_DecryptOAEP h key c = Ret text;
  pem_law der :
    pem_Decode ("-----BEGIN CERTIFICATE-----" +++ newline +++ base64_Encode der +++ newline
                +++ "-----END CERTIFICATE-----" +++ newline) = Some der
}.

(** None of the calls that a decryption makes panics. *)
Class CipherTotal {W : Type} `{X509I : X509Ops} `{CipherI : CipherOps W} : Prop := {
  gcm_Open_total key nonce text : gcm_Open key nonce text ≠ Panic;
  rsa_DecryptOAEP_total h key text : rsa_DecryptOAEP h key text ≠ Panic;
  rsa_DecryptPKCS1v15_total key text : rsa_DecryptPKCS1v15 key text ≠ Panic;
  ParseCertificate_total der : ParseCertificate der ≠ Panic
}.

Lemma TrimSpace_base64 s : TrimSpace (base64_Encode s) = base64_Encode s.
Proof. apply (TrimSpace_text b64_text); [by vm_compute..|apply base64_Encode_text]. Qed.

(** ** The elements *)

Section laws.
Context {W : Type} `{EtreeI : EtreeOps} `{X509I : X509Ops} `{CipherI : CipherOps W}.
Context `{EtreeL : !EtreeLaws} `{CipherL : !CipherLaws}.

(** An element up to its attributes. *)
Definition shape (space tag : string) (children : list Token) (e : Element) : Prop :=
  ∃ attrs, e = mkElement space tag attrs children.

Lemma shape_NewElement space tag : has_byte ":" space = false →
  shape space tag [] (NewElement (space +++ ":" +++ tag)).
Proof. intros H. rewrite NewElement_law by done. by eexists. Qed.

Lemma Tag_NewElement space tag : has_byte ":" space = false →
  Tag (NewElement (space +++ ":" +++ tag)) = tag.
Proof. intros H. by rewrite NewElement_law. Qed.

Lemma shape_CreateAttr k v s t c e : shape s t c e → shape s t c (CreateAttr k v e).
Proof. intros [a ->]. destruct (CreateAttr_law k v (mkElement s t a c)) as [a' ->]. by exists a'. Qed.

Lemma shape_AddChild x s t c e : shape s t c e → shape s t (c ++ [TElement x])%list (AddChild x e).
Proof. intros [a ->]. rewrite AddChild_law. by exists a. Qed.

Lemma shape_set_Attrs s t c e a : shape s t c e → shape s t c (set_Attrs a e).
Proof. intros [b ->]. by exists a. Qed.

Lemma shape_Tag s t c e : shape s t c e → Tag e = t.
Proof. by intros [a ->]. Qed.

Lemma Tag_SetText text e : Tag (SetText text e) = Tag e.
Proof. by destruct (SetText_law text e) as [d ->]. Qed.

(** [CreateElement] of a name and its [Algorithm] and namespace attributes. *)
Lemma Algorithm_attribute space value namespace e :
  space ≠ "Algorithm" →
  SelectAttrValue "Algorithm" (CreateAttr ("xmlns" +++ ":" +++ space) namespace
    (CreateAttr "Algorithm" value e)) = value.
Proof.
  intros Hspace. unfold SelectAttrValue. rewrite SelectAttr_other by done.
  pose proof (SelectAttr_same "Algorithm" value e eq_refl).
  by destruct (SelectAttr _ _); simplify_eq/=.
Qed.

Lemma SelectAttrValue_AddChild key c e : SelectAttrValue key (AddChild c e) = SelectAttrValue key e.
Proof. unfold SelectAttrValue. by rewrite AddChild_law, SelectAttr_children. Qed.

Lemma encryption_method_spec algorithm :
  shape "xenc" "EncryptionMethod" [] (encryption_method algorithm) ∧
  SelectAttrValue "Algorithm" (encryption_method algorithm) = algorithm.
Proof.
  split.
  - do 2 apply shape_CreateAttr. by apply (shape_NewElement "xenc" "EncryptionMethod").
  - by apply (Algorithm_attribute "xenc").
Qed.

(** The [CipherData] of a ciphertext. *)
Definition is_cipher_data (ciphertext : string) (e : Element) : Prop :=
  ∃ v, shape "xenc" "CipherData" [TElement v] e ∧ Tag v = "CipherValue" ∧ Text v = base64_Encode ciphertext.

Lemma cipher_data_spec ciphertext : is_cipher_data ciphertext (cipher_data ciphertext).
Proof.
  eexists. split_and!; [| |apply Text_law].
  - apply (shape_AddChild _ _ _ []), shape_CreateAttr, (shape_NewElement "xenc" "CipherData"). done.
  - rewrite Tag_SetText. exact (Tag_NewElement "xenc" "CipherValue" eq_refl).
Qed.

Lemma encrypted_data_spec id algorithm ciphertext :
  shape "xenc" "EncryptedData"
    [TElement (encryption_method algorithm); TElement (cipher_data ciphertext)]
    (encrypted_data id algorithm ciphertext).
Proof.
  apply (shape_AddChild _ _ _ [_]), (shape_AddChild _ _ _ []). do 2 apply shape_CreateAttr.
  by apply (shape_NewElement "xenc" "EncryptedData").
Qed.

(** The first child with the tag from which the other steps lead somewhere. *)
Fixpoint find_child (tag : string) (steps : list string) (i : nat) (c : list Token) : option (list nat) :=
  match c with
  | [] => None
  | TElement x :: c =>
      match (if Tag x == tag then find_steps steps x else None) with
      | Some path => Some (i :: path)
      | None => find_child tag steps (S i) c
      end
  | _ :: c => find_child tag steps (S i) c
  end.

Lemma find_steps_cons tag steps e : tag ≠ "." →
  find_steps (tag :: steps) e = find_child tag steps 0 (Child e).
Proof.
  intros H. cbn [find_steps]. rewrite bool_decide_false by done.
  generalize 0%nat. induction (Child e) as [|k c IH]; intros i; [done|].
  destruct k as [x| | |]; cbn [find_child]; [|apply IH..].
  destruct (if Tag x == tag then _ else _); [done|apply IH].
Qed.

(** The first element in document order that the steps lead to. *)
Fixpoint search (steps : list string) (e : Element) : option Element :=
  match steps with
  | [] => Some e
  | tag :: steps => first_some (λ x, if Tag x == tag then search steps x else None) (ChildElements e)
  end.

Definition found (e : Element) (path : option (list nat)) (result : option Element) : Prop :=
  match path with
  | Some p => is_Some result ∧ elem_at p e = result
  | None => result = None
  end.

Lemma find_child_found tag steps before c e : Child e = (before ++ c)%list →
  (∀ x, found x (find_steps steps x) (search steps x)) →
  found e (find_child tag steps (length before) c)
    (first_some (λ x, if Tag x == tag then search steps x else None) (omap token_element c)).
Proof.
  intros He H. revert before He. induction c as [|k c IH]; intros before He; [done|].
  assert (IH' : found e (find_child tag steps (S (length before)) c)
    (first_some (λ x, if Tag x == tag then search steps x else None) (omap token_element c))).
  { replace (S (length before)) with (length (before ++ [k])) by (rewrite length_app; simpl; lia).
    apply IH. by rewrite He, <- app_assoc. }
  destruct k as [x| | |]; try exact IH'.
  cbn [find_child]. change (omap token_element (TElement x :: c)) with (x :: omap token_element c).
  cbn [first_some]. destruct (bool_decide (Tag x = tag)); [|exact IH'].
  specialize (H x). destruct (find_steps steps x) as [p|]; simpl in H.
  - destruct H as [[y Hy] Hp]. rewrite Hy in *. split; [done|]. cbn [elem_at].
    by rewrite He, list_lookup_middle.
  - rewrite H. exact IH'.
Qed.

Lemma find_steps_found steps e : Forall (λ tag, tag ≠ ".") steps →
  found e (find_steps steps e) (search steps e).
Proof.
  intros Hs. revert e. induction Hs as [|tag steps Ht _ IH]; intros e; [done|].
  rewrite find_steps_cons by done. cbn [search]. by apply (find_child_found _ _ []).
Qed.

Lemma find_search path steps e : path ∈ xmlenc_paths → Split "/" path = "." :: steps →
  Forall (λ tag, tag ≠ ".") steps → find path e = search steps e.
Proof.
  intros H Hsplit Hs. unfold find. rewrite FindElement_law, Hsplit by done.
  change (find_steps ("." :: steps) e) with (find_steps steps e).
  pose proof (find_steps_found steps e Hs) as Hf. destruct (find_steps steps e) as [p|]; simpl in *.
  - by destruct Hf as [_ ->].
  - done.
Qed.

Lemma find_EncryptionMethod e : find "./EncryptionMethod" e = search ["EncryptionMethod"] e.
Proof. apply find_search; [by repeat constructor|done|by repeat constructor]. Qed.
Lemma find_CipherValue e : find "./CipherData/CipherValue" e = search ["CipherData"; "CipherValue"] e.
Proof. apply find_search; [by repeat constructor|done|by repeat constructor]. Qed.
Lemma find_EncryptedKey e : find "./KeyInfo/EncryptedKey" e = search ["KeyInfo"; "EncryptedKey"] e.
Proof. apply find_search; [by repeat constructor|done|by repeat constructor]. Qed.
Lemma find_X509Certificate e :
  find "./KeyInfo/X509Data/X509Certificate" e = search ["KeyInfo"; "X509Data"; "X509Certificate"] e.
Proof. apply find_search; [by repeat constructor|done|by repeat constructor]. Qed.
Lemma find_DigestMethod e :
  find "./EncryptionMethod/DigestMethod" e = search ["EncryptionMethod"; "DigestMethod"] e.
Proof. apply find_search; [by repeat constructor|done|by repeat constructor]. Qed.

(** One step of a search: to the next child, or into it. *)
Lemma search_next space tag attrs x children t steps : Tag x ≠ t →
  search (t :: steps) (mkElement space tag attrs (TElement x :: children))
  = search (t :: steps) (mkElement space tag attrs children).
Proof. intros H. cbn. by rewrite bool_decide_false. Qed.

Lemma search_into space tag attrs x children t steps y : Tag x = t → search steps x = Some y →
  search (t :: steps) (mkElement space tag attrs (TElement x :: children)) = Some y.
Proof. intros Ht Hy. cbn. by rewrite bool_decide_true, Hy. Qed.

Lemma search_into' space tag attrs x children t steps e y : e = mkElement space tag attrs (TElement x :: children) →
  Tag x = t → search steps x = Some y → search (t :: steps) e = Some y.
Proof. intros ->. apply search_into. Qed.

Lemma search_nothing space tag attrs t steps : search (t :: steps) (mkElement space tag attrs []) = None.
Proof. done. Qed.

(** The ciphertext of an element whose first [CipherData] is given. *)
Lemma getCiphertext_spec ciphertext cd el :
  is_cipher_data ciphertext cd →
  (∀ steps y, search steps cd = Some y → search ("CipherData" :: steps) el = Some y) →
  getCiphertext el = Ret ciphertext.
Proof.
  intros (v & [b ->] & Hv & Htext) Hfirst. unfold getCiphertext. rewrite find_CipherValue.
  rewrite (Hfirst _ v) by by apply search_into.
  cbn [or_err]. rewrite ret_bind, Htext, TrimSpace_base64. apply base64_Decode_Encode.
Qed.

Lemma Tag_cipher_data ciphertext : Tag (cipher_data ciphertext) = "CipherData".
Proof. by destruct (cipher_data_spec ciphertext) as (v & [a ->] & _). Qed.

Lemma Tag_encryption_method algorithm : Tag (encryption_method algorithm) = "EncryptionMethod".
Proof. by destruct (encryption_method_spec algorithm) as [[a ->] _]. Qed.

Lemma NewCipher_length c key : NewCipher c key = Ret () → String.length key ≠ 0%nat.
Proof. destruct c; unfold NewCipher; intros H%raise_if_ret E; rewrite E in H; by vm_compute in H. Qed.

Lemma BlockSize_range c : (0 < BlockSize c < 256)%nat.
Proof. destruct c; simpl; lia. Qed.

(** The plaintext behind [iv] and the blocks that [CBC.Encrypt] makes of it. *)
Lemma CryptBlocks_roundtrip c key iv plaintext ciphertext :
  NewCipher c key = Ret () → String.length iv = BlockSize c →
  CryptBlocks (cbc_encrypt (block_Encrypt c key) (BlockSize c)) (BlockSize c) iv
    (appendPadding plaintext (BlockSize c)) = Ret ciphertext →
  (String.length ciphertext mod BlockSize c = 0)%nat ∧
  CryptBlocks (cbc_decrypt (block_Decrypt c key) (BlockSize c)) (BlockSize c) iv ciphertext
  = Ret (appendPadding plaintext (BlockSize c)).
Proof.
  intros Hkey Hiv. pose proof (BlockSize_range c) as Hsize.
  pose proof (appendPadding_blocks plaintext (BlockSize c) ltac:(lia)) as Hlen.
  revert Hlen. generalize (S (String.length plaintext / BlockSize c)). intros n Hlen.
  unfold CryptBlocks. rewrite Hlen, Nat.Div0.mod_mul, Nat.div_mul by lia.
  rewrite !(bool_decide_true (String.length iv = _)) by done. cbn [negb orb].
  rewrite (bool_decide_true (0 = 0)%nat) by done. cbn [negb orb]. intros [= <-].
  rewrite (length_cbc_encrypt _ (block_Decrypt c key)) by (auto using block_law).
  rewrite Nat.Div0.mod_mul, Nat.div_mul by lia. split; [done|].
  rewrite bool_decide_true by done. cbn [negb].
  by rewrite cbc_encrypt_decrypt by (auto using block_law).
Qed.

(** [e] accepts the key, and its blocks hold what it encrypts. *)
Lemma CBC_Decrypt_spec decrypt e key keyBuf el iv ciphertext plaintext :
  content_key decrypt (CBC_keySize e) key el = Ret keyBuf →
  NewCipher (CBC_cipher e) keyBuf = Ret () → String.length iv = BlockSize (CBC_cipher e) →
  CryptBlocks (cbc_encrypt (block_Encrypt (CBC_cipher e) keyBuf) (BlockSize (CBC_cipher e)))
    (BlockSize (CBC_cipher e)) iv (appendPadding plaintext (BlockSize (CBC_cipher e))) = Ret ciphertext →
  getCiphertext el = Ret (iv +++ ciphertext) →
  CBC_Decrypt decrypt e key el
  = if plaintext == "" then Err (Errorf "buffer is too short for padding" []) else Ret plaintext.
Proof.
  intros Hck Hnc Hiv Hcb Hct. unfold CBC_Decrypt. rewrite Hck, ret_bind, Hnc, ret_bind, Hct, ret_bind.
  pose proof (BlockSize_range (CBC_cipher e)) as Hsize.
  destruct (CryptBlocks_roundtrip _ _ _ _ _ Hnc Hiv Hcb) as [Hmod Hdec].
  rewrite length_append, Hiv.
  rewrite (proj2 (Nat.ltb_ge _ _)) by lia. cbn [raise_if]. rewrite ret_bind.
  replace (BlockSize (CBC_cipher e) + String.length ciphertext)%nat
    with (String.length ciphertext + 1 * BlockSize (CBC_cipher e))%nat by lia.
  rewrite Nat.Div0.mod_add, Hmod. rewrite bool_decide_true by done. cbn [negb raise_if].
  rewrite ret_bind, (split_at_append' _ _ _ Hiv), Hdec, ret_bind.
  by rewrite stripPadding_append by lia.
Qed.

Lemma GCM_Decrypt_spec decrypt e key keyBuf el nonce plaintext :
  GCM_cipher e = AES →
  content_key decrypt (GCM_keySize e) key el = Ret keyBuf →
  NewCipher AES keyBuf = Ret () → String.length nonce = gcm_NonceSize →
  getCiphertext el = Ret (nonce +++ gcm_Seal keyBuf nonce plaintext) →
  GCM_Decrypt decrypt e key el = Ret plaintext.
Proof.
  intros He Hck Hnc Hn Hct. unfold GCM_Decrypt. rewrite Hck, ret_bind, He, Hnc, ret_bind, Hct, ret_bind.
  destruct (gcm_law keyBuf nonce plaintext Hnc Hn) as [Hl Hopen].
  rewrite length_append, Hn, Hl. rewrite (proj2 (Nat.ltb_ge _ _)) by lia. cbn [raise_if].
  by rewrite ret_bind, (split_at_append' _ _ _ Hn), Hopen.
Qed.

(** ** Key transport *)

(** [e] is [OAEP()] with a block cipher and a registered digest. *)
Definition oaep_like (e : RSA) (dm : digestMethod) : Prop :=
  RSA_algorithm e = RSA_algorithm OAEP ∧ RSA_transport e = TransportOAEP ∧
  RSA_DigestMethod e = Some dm ∧ digestMethods !! digestMethod_algorithm dm = Some dm.

(** [key] is the private key of the certificate. *)
Definition key_of (key : Signer) (cert : Certificate) : Prop :=
  is_rsa_PrivateKey key = true ∧ Signer_Public key = Certificate_PublicKey cert ∧
  ParseCertificate (Certificate_Raw cert) = Ret cert.

Lemma encrypted_key_spec e dm cert id ciphertext : oaep_like e dm →
  ∃ method ki cert_el xd dmel,
    shape "xenc" "EncryptedKey" [TElement method; TElement ki; TElement (cipher_data ciphertext)]
      (encrypted_key e cert id ciphertext) ∧
    shape "xenc" "EncryptionMethod" [TElement dmel] method ∧
    SelectAttrValue "Algorithm" method = RSA_algorithm e ∧
    Tag dmel = "DigestMethod" ∧ SelectAttrValue "Algorithm" dmel = digestMethod_algorithm dm ∧
    shape "ds" "KeyInfo" [TElement xd] ki ∧ shape "ds" "X509Data" [TElement cert_el] xd ∧
    Tag cert_el = "X509Certificate" ∧ Text cert_el = base64_Encode (Certificate_Raw cert).
Proof.
  intros (_ & _ & Hdm & _). unfold encrypted_key. rewrite Hdm.
  do 5 eexists. split_and!.
  - apply (shape_AddChild _ _ _ [_; _]), (shape_AddChild _ _ _ [_]), (shape_AddChild _ _ _ []).
    do 2 apply shape_CreateAttr. by apply (shape_NewElement "xenc" "EncryptedKey").
  - apply (shape_AddChild _ _ _ []), encryption_method_spec.
  - rewrite SelectAttrValue_AddChild. apply encryption_method_spec.
  - apply (shape_Tag "ds" "DigestMethod" []). do 2 apply shape_CreateAttr.
    by apply (shape_NewElement "ds" "DigestMethod").
  - by apply (Algorithm_attribute "ds").
  - apply (shape_AddChild _ _ _ []), (shape_NewElement "ds" "KeyInfo"). done.
  - apply (shape_AddChild _ _ _ []), (shape_NewElement "ds" "X509Data"). done.
  - rewrite Tag_SetText. exact (Tag_NewElement "ds" "X509Certificate" eq_refl).
  - apply Text_law.
Qed.


Lemma RSA_Decrypt_spec e e' dm cert key id ciphertext :
  oaep_like e dm → key_of key cert → RSA_transport e' = TransportOAEP →
  is_rsa (Certificate_PublicKey cert) = true →
  RSA_Decrypt e' (SignerKey (Some key)) (encrypted_key e cert id ciphertext)
  = rsa_DecryptOAEP (digestMethod_hash dm) key ciphertext.
Proof.
  intros He (Hrsa & Hpub & Hcert) He' Hpk.
  destruct (encrypted_key_spec e dm cert id ciphertext He)
    as (method & ki & cert_el & xd & dmel & [a ->] & [b ->] & Halg & Hdt & Hda & [c ->] & [d ->] & Hct & Htext).
  destruct He as (_ & _ & _ & Hreg).
  unfold RSA_Decrypt, validateRSAKeyIfPresent. rewrite Hrsa, find_X509Certificate.
  rewrite search_next by done. rewrite (search_into _ _ _ _ _ _ _ cert_el) by
    (try apply search_into; try apply search_into; done).
  cbn [or_err]. rewrite ret_bind, Htext, pem_law. cbn [or_err].
  rewrite ret_bind, Hcert, ret_bind, Hpk, Hpub. cbn [negb raise_if]. rewrite ret_bind.
  rewrite bool_decide_true by done. cbn [negb raise_if]. rewrite !ret_bind.
  rewrite (getCiphertext_spec ciphertext (cipher_data ciphertext)); [|apply cipher_data_spec|].
  - rewrite ret_bind, find_DigestMethod.
    rewrite (search_into _ _ _ _ _ _ _ dmel) by (try apply search_into; done).
    rewrite Hda, Hreg. cbn [or_err]. rewrite ret_bind. unfold keyDecrypter.
    cbn [RSA_transport RSA_DigestMethod]. by rewrite He'.
  - intros steps y Hy. rewrite !search_next by done. by rewrite (search_into _ _ _ _ _ _ _ y)
      by (by rewrite ?Tag_cipher_data).
Qed.

(** ** Round trip *)

(** The [Decrypt] of the block cipher. *)
Definition block_cipher_Decrypt (decrypt : DecryptionKey → Element → outcome string) (c : BlockCipher)
    (key : DecryptionKey) (el : Element) : outcome string :=
  match BlockCipher_value c with
  | inl e => CBC_Decrypt decrypt e key el
  | inr e => GCM_Decrypt decrypt e key el
  end.

Definition is_cbc (c : BlockCipher) : bool :=
  match BlockCipher_value c with inl _ => true | inr _ => false end.

(** What is read back of a plaintext: all but the padding of nothing. *)
Definition read_back (c : BlockCipher) (plaintext : string) : outcome string :=
  if is_cbc c && (plaintext == "") then Err (Errorf "buffer is too short for padding" [])
  else Ret plaintext.

Lemma CBC_Encrypt_inv e key plaintext s s' el :
  CBC_Encrypt e key plaintext s = (s', Ret el) →
  ∃ id iv ciphertext, el = encrypted_data id (CBC_algorithm e) (iv +++ ciphertext) ∧
    NewCipher (CBC_cipher e) key = Ret () ∧ String.length iv = BlockSize (CBC_cipher e) ∧
    CryptBlocks (cbc_encrypt (block_Encrypt (CBC_cipher e) key) (BlockSize (CBC_cipher e)))
      (BlockSize (CBC_cipher e)) iv (appendPadding plaintext (BlockSize (CBC_cipher e))) = Ret ciphertext.
Proof.
  unfold CBC_Encrypt. intros H. apply io_guard_bind in H as [_ H].
  apply io_lift_bind in H as ([] & Hnc & H). apply io_bind_ret in H as (s1 & rb & _ & H).
  apply io_bind_ret in H as (s2 & iv & Hiv & H).
  apply io_lift_bind in H as (ct & Hct & H). unfold mret, IO_ret in H. injection H as _ <-.
  eexists _, iv, ct. split_and!; [done..| |done].
  unfold read_random in Hiv. apply io_bind_ret in Hiv as (s3 & b & _ & Hiv).
  injection Hiv as _ <-. apply length_fill.
Qed.

Lemma GCM_Encrypt_inv e key plaintext nonce s s' el :
  GCM_Encrypt e key plaintext nonce s = (s', Ret el) →
  ∃ id nonce', el = encrypted_data id (GCM_algorithm e) (nonce' +++ gcm_Seal key nonce' plaintext) ∧
    NewCipher (GCM_cipher e) key = Ret () ∧ String.length nonce' = gcm_NonceSize.
Proof.
  unfold GCM_Encrypt. intros H. apply io_guard_bind in H as [_ H].
  apply io_lift_bind in H as ([] & Hnc & H). apply io_bind_ret in H as (s1 & rb & _ & H).
  apply io_bind_ret in H as (s2 & n & _ & H).
  apply io_guard_bind in H as [Hn H]. unfold mret, IO_ret in H. injection H as _ <-.
  eexists _, n. split_and!; [done..|]. by bool_prop.
Qed.

Lemma BlockCipher_Encrypt_inv c key plaintext nonce s s' el :
  BlockCipher_Encrypt c key plaintext nonce s = (s', Ret el) →
  ∃ id text, el = encrypted_data id (BlockCipher_Algorithm c) text ∧
    ∀ decrypt k el', content_key decrypt (BlockCipher_KeySize c) k el' = Ret key →
      getCiphertext el' = Ret text → block_cipher_Decrypt decrypt c k el' = read_back c plaintext.
Proof.
  unfold BlockCipher_Encrypt, block_cipher_Decrypt, read_back, is_cbc, BlockCipher_KeySize.
  assert (Ha : BlockCipher_Algorithm c
    = match BlockCipher_value c with inl e => CBC_algorithm e | inr e => GCM_algorithm e end) by (by destruct c).
  assert (Hg : match BlockCipher_value c with inl e => True | inr e => GCM_cipher e = AES end) by (by destruct c).
  rewrite Ha. destruct (BlockCipher_value c) as [e|e]; intros H; clear Ha.
  - destruct (CBC_Encrypt_inv _ _ _ _ _ _ H) as (id & iv & ct & -> & Hnc & Hiv & Hct).
    exists id, (iv +++ ct). split; [done|]. intros decrypt k el' Hck Hget. by eapply CBC_Decrypt_spec.
  - destruct (GCM_Encrypt_inv _ _ _ _ _ _ _ H) as (id & n & -> & Hnc & Hn).
    eexists id, _. split; [done|]. intros decrypt k el' Hck Hget. rewrite Hg in Hnc.
    by eapply GCM_Decrypt_spec.
Qed.

Lemma key_info_spec el : shape "ds" "KeyInfo" [TElement el] (key_info el).
Proof. apply (shape_AddChild _ _ _ []), shape_CreateAttr, (shape_NewElement "ds" "KeyInfo"). done. Qed.

(** The element of [RSA.Encrypt]: its key and its content. *)
Lemma RSA_Encrypt_inv e dm cert plaintext nonce s s' el : oaep_like e dm →
  RSA_Encrypt e cert plaintext nonce s = (s', Ret el) →
  is_rsa (Certificate_PublicKey cert) = true ∧
  ∃ key id buf text w w', 
    shape "xenc" "EncryptedData"
      [TElement (encryption_method (BlockCipher_Algorithm (RSA_BlockCipher e)));
       TElement (key_info (encrypted_key e cert id buf)); TElement (cipher_data text)] el ∧
    String.length key = BlockCipher_KeySize (RSA_BlockCipher e) ∧
    rsa_EncryptOAEP (digestMethod_hash dm) (Certificate_PublicKey cert) key w = (w', Ret buf) ∧
    ∀ decrypt k el', content_key decrypt (BlockCipher_KeySize (RSA_BlockCipher e)) k el' = Ret key →
      getCiphertext el' = Ret text →
      block_cipher_Decrypt decrypt (RSA_BlockCipher e) k el' = read_back (RSA_BlockCipher e) plaintext.
Proof.
  intros (_ & Ht & Hdm & _) H. unfold RSA_Encrypt in H. apply io_guard_bind in H as [Hrsa H]. bool_prop.
  split; [done|]. apply io_bind_ret in H as (s1 & key & Hkey & H).
  apply io_bind_ret in H as (s2 & rb & _ & H). apply io_bind_ret in H as (s3 & buf & Hbuf & H).
  cbv zeta in H. set (ki := key_info _) in H.
  apply io_bind_ret in H as (s4 & ed & Hed & H). apply io_lift_bind in H as (index & Hindex & H).
  injection H as _ <-.
  destruct (BlockCipher_Encrypt_inv _ _ _ _ _ _ _ Hed) as (id & text & -> & Hdec).
  unfold keyEncrypter in Hbuf. rewrite Ht, Hdm in Hbuf.
  apply io_lift_bind in Hbuf as (? & [= <-] & Hbuf).
  unfold effect, reads in Hbuf. apply io_bind_ret in Hbuf as (s5 & o & Ho & Hbuf).
  apply lift_ret in Hbuf as [_ ->]. destruct s2 as [w l].
  destruct (rsa_EncryptOAEP _ _ key w) as [w' o] eqn:Eo. injection Ho as _ ->.
  exists key, ("_" +++ hex_string rb), buf, text, w, w'. split_and!; [| |done|done].
  - destruct (encrypted_data_spec id (BlockCipher_Algorithm (RSA_BlockCipher e)) text) as [a Ea].
    rewrite Ea in *. rewrite FindElement_law in Hindex by (by repeat constructor).
    change (Split "/" _) with ["."; "CipherData"] in Hindex.
    change (find_steps ("." :: ?l) ?e) with (find_steps l e) in Hindex.
    rewrite find_steps_cons in Hindex by done. cbn [Child find_child] in Hindex.
    rewrite Tag_encryption_method, Tag_cipher_data, bool_decide_false, bool_decide_true in Hindex by done.
    injection Hindex as <-. rewrite InsertChildAt_law by (simpl; lia). by eexists.
  - unfold read_random in Hkey. apply io_bind_ret in Hkey as (s6 & b & _ & Hkey).
    injection Hkey as _ <-. apply length_fill.
Qed.

Lemma default_decrypters_block c : default_decrypters !! BlockCipher_Algorithm c = Some (BlockDecrypter c).
Proof. destruct c; by vm_compute. Qed.

Lemma Decrypt_step decrypters fuel key el :
  Decrypt decrypters (S fuel) key el =
  (encryptionMethodEl ← or_err (find "./EncryptionMethod" el)
     (ErrCannotFindRequiredElement "EncryptionMethod");
   let algorithm := SelectAttrValue "Algorithm" encryptionMethodEl in
   decrypter ← or_err (decrypters !! algorithm) (ErrAlgorithmNotImplemented algorithm);
   match decrypter with
   | RSADecrypter e => RSA_Decrypt e key el
   | BlockDecrypter c => block_cipher_Decrypt (Decrypt decrypters fuel) c key el
   end).
Proof. done. Qed.

Lemma Decrypt_encrypted_key e dm cert key id buf fuel :
  oaep_like e dm → key_of key cert → is_rsa (Certificate_PublicKey cert) = true →
  Decrypt default_decrypters (S fuel) (SignerKey (Some key)) (encrypted_key e cert id buf)
  = rsa_DecryptOAEP (digestMethod_hash dm) key buf.
Proof.
  intros He Hkey Hrsa. rewrite Decrypt_step, find_EncryptionMethod.
  destruct (encrypted_key_spec e dm cert id buf He) as (method & ki & ? & ? & ? & [b Hek] & Hm & Halg & _).
  rewrite (search_into' _ _ _ _ _ _ _ _ method Hek) by (by rewrite ?(shape_Tag _ _ _ _ Hm)).
  cbn [or_err]. rewrite ret_bind, Halg, (proj1 He).
  assert (Hd : default_decrypters !! RSA_algorithm OAEP = Some (RSADecrypter OAEP)) by by vm_compute.
  rewrite Hd. cbn [or_err]. rewrite ret_bind. by apply RSA_Decrypt_spec.
Qed.

Lemma RSA_Encrypt_Decrypt_ret e dm cert key plaintext nonce s s' el attrs fuel
    (He : oaep_like e dm) (Hkey : key_of key cert)
    (Henc : RSA_Encrypt e cert plaintext nonce s = (s', Ret el)) :
  Decrypt default_decrypters (S (S fuel)) (SignerKey (Some key)) (set_Attrs attrs el)
  = read_back (RSA_BlockCipher e) plaintext.
Proof.
  destruct (RSA_Encrypt_inv _ _ _ _ _ _ _ _ He Henc)
    as (Hrsa & ckey & id & buf & text & w & w' & [a ->] & Hlen & Hbuf & Hdec).
  change (set_Attrs attrs (mkElement ?s ?t _ ?c)) with (mkElement s t attrs c).
  set (c := RSA_BlockCipher e) in *. set (ek := encrypted_key e cert id buf) in *.
  destruct (key_info_spec ek) as [b Hki]. rewrite Hki.
  rewrite Decrypt_step, find_EncryptionMethod.
  rewrite (search_into _ _ _ _ _ _ _ (encryption_method (BlockCipher_Algorithm c)))
    by (rewrite ?Tag_encryption_method; done).
  cbn [or_err]. rewrite ret_bind, (proj2 (encryption_method_spec _)), default_decrypters_block.
  cbn [or_err]. rewrite ret_bind. apply Hdec.
  - unfold content_key. rewrite find_EncryptedKey, search_next by by rewrite Tag_encryption_method.
    rewrite (search_into _ _ _ _ _ _ _ ek); [|done|].
    + unfold ek. rewrite (Decrypt_encrypted_key e dm) by done.
      destruct Hkey as (Hpriv & Hpub & _). rewrite <- Hpub in Hbuf.
      rewrite (oaep_law _ _ _ _ _ _ Hpriv Hbuf), !ret_bind. cbn [or_err]. rewrite ret_bind.
      by rewrite Hlen, bool_decide_true.
    + apply search_into; [|done].
      destruct (encrypted_key_spec e dm cert id buf He) as (? & ? & ? & ? & ? & Hek & _).
      by apply (shape_Tag _ _ _ _ Hek).
  - apply (getCiphertext_spec text (cipher_data text)); [apply cipher_data_spec|].
    intros steps y Hy. rewrite !search_next by (by rewrite ?Tag_encryption_method).
    by apply search_into; [apply Tag_cipher_data|].
Qed.

(** What [RSA.Encrypt] encrypts to a certificate, under any of the block ciphers
    and a registered digest, [Decrypt] reads back with the private key of the
    certificate, whatever the attributes of the element have become; but a CBC
    cipher does not read back an empty plaintext. *)
Theorem RSA_Encrypt_Decrypt e dm cert key plaintext nonce s s' el attrs fuel
    (He : oaep_like e dm) (Hkey : key_of key cert)
    (Henc : RSA_Encrypt e cert plaintext nonce s = (s', Ret el)) :
  Decrypt default_decrypters (S (S fuel)) (SignerKey (Some key)) (set_Attrs attrs el)
  = read_back (RSA_BlockCipher e) plaintext.
Proof. by apply (RSA_Encrypt_Decrypt_ret e dm cert key plaintext nonce s s'). Qed.

(** An empty plaintext is padded with a whole block, which [stripPadding] refuses. *)
Lemma empty_plaintext_not_read e dm cert key nonce s s' el :
  oaep_like e dm → key_of key cert → is_cbc (RSA_BlockCipher e) = true →
  RSA_Encrypt e cert "" nonce s = (s', Ret el) →
  Decrypt default_decrypters 2 (SignerKey (Some key)) el
  = Err (Errorf "buffer is too short for padding" []).
Proof.
  intros He Hkey Hc Henc.
  pose proof (RSA_Encrypt_Decrypt_ret e dm cert key "" nonce s s' el (Attrs el) 0 He Hkey Henc) as H.
  replace (set_Attrs (Attrs el) el) with el in H by (by destruct el).
  rewrite H. unfold read_back. by rewrite Hc.
Qed.

(** ** Termination *)

Lemma search_depth steps e y : search steps e = Some y → (depth y + length steps <= depth e)%nat.
Proof.
  revert e. induction steps as [|t steps IH]; intros e; cbn [search length].
  - intros [= ->]. lia.
  - intros (x & Hx & H)%first_some_elem. destruct (bool_decide _); [|done].
    apply depth_child in Hx. apply IH in H. lia.
Qed.

Lemma block_cipher_Decrypt_ext decrypt decrypt' c key el :
  (∀ k x, (depth x < depth el)%nat → decrypt k x = decrypt' k x) →
  block_cipher_Decrypt decrypt c key el = block_cipher_Decrypt decrypt' c key el.
Proof.
  intros H. unfold block_cipher_Decrypt, CBC_Decrypt, GCM_Decrypt, content_key.
  rewrite find_EncryptedKey. destruct (search _ el) as [x|] eqn:E; [|done].
  apply search_depth in E. simpl in E. rewrite (H key x) by lia. done.
Qed.

Lemma Decrypt_enough decrypters n m key el : (depth el <= n)%nat → (depth el <= m)%nat →
  Decrypt decrypters (S n) key el = Decrypt decrypters (S m) key el.
Proof.
  revert m key el. induction n as [|n IH]; intros m key el Hn Hm; [destruct el; simpl in Hn; lia|].
  destruct m as [|m]; [destruct el; simpl in Hm; lia|]. rewrite !(Decrypt_step _ (S _)).
  destruct (or_err _ _) as [method| |]; [|done..]. rewrite !ret_bind. cbv zeta.
  destruct (or_err _ _) as [[c|e]| |]; [|done..]. rewrite !ret_bind.
  apply block_cipher_Decrypt_ext. intros k x Hx. apply IH; lia.
Qed.
End laws.

Section total.
Context {W : Type} `{EtreeI : EtreeOps} `{X509I : X509Ops} `{CipherI : CipherOps W}.
Context `{EtreeL : !EtreeLaws} `{TotalL : !CipherTotal}.

Lemma bind_total {A B} (o : outcome A) (f : A → outcome B) :
  o ≠ Panic → (∀ a, o = Ret a → f a ≠ Panic) → o ≫= f ≠ Panic.
Proof. destruct o; simpl; auto. Qed.

Lemma or_err_total {A} (p : option A) e : or_err p e ≠ Panic.
Proof. by destruct p. Qed.

Lemma NewCipher_total c key : NewCipher c key ≠ Panic.
Proof. destruct c; apply raise_if_panic. Qed.

Lemma getCiphertext_total el : getCiphertext el ≠ Panic.
Proof. apply bind_total; [apply or_err_total|]. intros x _. apply or_err_total. Qed.

Lemma stripPadding_total buf : stripPadding buf ≠ Panic.
Proof.
  unfold stripPadding. destruct (last_byte buf); [|done].
  apply bind_total; [apply raise_if_panic|]. intros [] _.
  apply bind_total; [apply raise_if_panic|done].
Qed.

Lemma RSA_Decrypt_total e key el : RSA_Decrypt e key el ≠ Panic.
Proof.
  unfold RSA_Decrypt. apply bind_total.
  - unfold validateRSAKeyIfPresent. apply bind_total; [apply or_err_total|]. intros k _.
    destruct (find _ el); [|done]. apply bind_total; [apply or_err_total|]. intros der _.
    apply bind_total; [apply ParseCertificate_total|]. intros c _.
    do 2 (apply bind_total; [apply raise_if_panic|]; intros [] _). done.
  - intros k _. apply bind_total; [apply getCiphertext_total|]. intros text _.
    apply bind_total; [destruct (find _ el); [apply or_err_total|done]|]. intros dm _.
    unfold keyDecrypter. cbn [RSA_transport RSA_DigestMethod deref].
    destruct (RSA_transport e); [apply rsa_DecryptOAEP_total|apply rsa_DecryptPKCS1v15_total].
Qed.

Lemma content_key_total decrypt n key el :
  (∀ k x, (depth x < depth el)%nat → decrypt k x ≠ Panic) → content_key decrypt n key el ≠ Panic.
Proof.
  intros H. apply bind_total.
  - rewrite find_EncryptedKey. destruct (search _ el) as [x|] eqn:E; [|done].
    apply search_depth in E. simpl in E. apply bind_total; [apply H; lia|done].
  - intros k _. apply bind_total; [apply or_err_total|]. intros buf _.
    by apply bind_total; [apply raise_if_panic|].
Qed.

Lemma CBC_Decrypt_total decrypt e key el :
  (∀ k x, (depth x < depth el)%nat → decrypt k x ≠ Panic) → CBC_Decrypt decrypt e key el ≠ Panic.
Proof.
  intros H. unfold CBC_Decrypt. apply bind_total; [by apply content_key_total|]. intros buf _.
  apply bind_total; [apply NewCipher_total|]. intros [] _.
  apply bind_total; [apply getCiphertext_total|]. intros text _. cbv zeta.
  apply bind_total; [apply raise_if_panic|]. intros [] Hshort%raise_if_ret.
  apply bind_total; [apply raise_if_panic|]. intros [] Hmod%raise_if_ret.
  set (size := BlockSize (CBC_cipher e)) in *. apply Nat.ltb_ge in Hshort. bool_prop.
  pose proof (length_split_at size text) as Hl. destruct (split_at size text) as [iv rest].
  simpl in Hl. destruct Hl as [Hiv Hrest].
  apply bind_total; [|intros p _; apply stripPadding_total].
  unfold CryptBlocks. rewrite (bool_decide_true (String.length iv = size)) by lia.
  assert (Hr : (String.length rest mod size = 0)%nat).
  { rewrite Hrest. pose proof (BlockSize_range (CBC_cipher e)) as Hs. fold size in Hs.
    rewrite <- (Nat.Div0.mod_add (String.length text - size) 1 size).
    by replace (String.length text - size + 1 * size)%nat with (String.length text) by lia. }
  rewrite Hr. by rewrite bool_decide_true.
Qed.

Lemma GCM_Decrypt_total decrypt e key el :
  (∀ k x, (depth x < depth el)%nat → decrypt k x ≠ Panic) → GCM_Decrypt decrypt e key el ≠ Panic.
Proof.
  intros H. unfold GCM_Decrypt. apply bind_total; [by apply content_key_total|]. intros buf _.
  apply bind_total; [apply NewCipher_total|]. intros [] _.
  apply bind_total; [apply getCiphertext_total|]. intros text _.
  apply bind_total; [apply raise_if_panic|]. intros [] _.
  destruct (split_at _ text) as [nonce rest]. apply gcm_Open_total.
Qed.

(** [Decrypt] calls itself no deeper than the element is and never panics: with
    any fuel from the depth on it gives the same value or error, whatever the
    element, the key and the registered decrypters are. *)
Theorem Decrypt_terminates decrypters key el n (Hn : (depth el <= n)%nat) :
  Decrypt decrypters (S n) key el = Decrypt decrypters (S (depth el)) key el ∧
  Decrypt decrypters (S n) key el ≠ Panic.
Proof.
  split; [by apply Decrypt_enough|]. revert key el Hn.
  induction n as [|n IH]; intros key el Hn; [destruct el; simpl in Hn; lia|].
  rewrite Decrypt_step. apply bind_total; [apply or_err_total|]. intros method _. cbv zeta.
  apply bind_total; [apply or_err_total|]. intros [c|e] _; [|apply RSA_Decrypt_total].
  assert (H : ∀ k x, (depth x < depth el)%nat → Decrypt decrypters (S n) k x ≠ Panic)
    by (intros k x Hx; apply IH; lia).
  unfold block_cipher_Decrypt.
  destruct (BlockCipher_value c); [by apply CBC_Decrypt_total|by apply GCM_Decrypt_total].
Qed.
End total.

(** ** The two sides *)

Section sides.
Context {W : Type} `{UrlI : UrlOps} `{VarsI : PackageVars} `{EtreeI : EtreeOps} `{X509I : X509Ops} `{XmlI : XmlOps} `{SigI : SignatureOps} `{CipherI : CipherOps W}.
Context `{EtreeL : !EtreeLaws} `{CipherL : !CipherLaws}.

(** C28: an assertion that the identity provider encrypts to the certificate of a
    service provider, under any content encryption algorithm, is the document that
    the service provider decrypts. *)
Theorem OAEP_Encrypt_decryptElement c cert key plaintext w w' enc sp encryptedEl data attrs
    (Hkey : key_of key cert) (Hsp : SP_Key sp = Some key) (Hplain : plaintext ≠ "")
    (Henc : OAEP_Encrypt (EncryptOps := encrypt_ops) c cert plaintext w = (w', Ret enc))
    (Hdata : findOneChild encryptedEl "http://www.w3.org/2001/04/xmlenc#" "EncryptedData" = Ret data)
    (Hcur : cur data = set_Attrs attrs enc)
    (Hbeside : FindElement "./EncryptedKey" (cur encryptedEl) = None) :
  decryptElement (EncI := xmlenc_ops) sp encryptedEl =
  (_ ← map_err (Because "plaintext response contains invalid XML: %s" []) (xrv_Validate plaintext);
   map_err (Because "cannot parse plaintext response %v" []) (ReadFromBytes plaintext)).
Proof.
  unfold decryptElement. rewrite Hdata, ret_bind, Hbeside. cbn [mbind option_bind]. rewrite ret_bind, Hsp.
  cbn [xmlenc_Decrypt xmlenc_ops]. rewrite Hcur.
  cbn [OAEP_Encrypt encrypt_ops] in Henc. set (e := mkRSA c _ _ _) in Henc.
  destruct (RSA_Encrypt e cert plaintext None (w, [])) as [[w1 l] o] eqn:E. injection Henc as _ ->.
  assert (Hd : ∃ n, depth (set_Attrs attrs enc) = S n) by (by eexists).
  destruct Hd as [n ->].
  rewrite (RSA_Encrypt_Decrypt_ret e xmlenc_SHA1 cert key plaintext None (w, []) (w1, l)); [|done..].
  unfold read_back. rewrite (bool_decide_false (plaintext = "")), andb_false_r by done. done.
Qed.
End sides.

(** ** Examples *)

Module Examples.

Lemma cut_prefix_append p s : cut_prefix p (p +++ s) = Some s.
Proof. induction p as [|c p IH]; simpl; [by destruct s|]. by rewrite Ascii.eqb_refl. Qed.

(** A block cipher that adds the key to a block, GCM with a tag of zeros, and
    RSA with the name of the key. *)
#[export] Instance ref_cipher : CipherOps Time := {|
  block_Encrypt _ key b := xor_bytes b key;
  block_Decrypt _ key b := xor_bytes b key;
  gcm_Seal _ _ text := text +++ zero_bytes gcm_Overhead;
  gcm_Open _ _ text := Ret (split_at (String.length text - gcm_Overhead) text).1;
  rsa_EncryptOAEP _ k text w := (w, Ret (key_id k +++ text));
  rsa_DecryptOAEP _ key text :=
    or_err (cut_prefix (key_id (Signer_Public key)) text) (Sentinel "rsa.ErrDecryption");
  rsa_EncryptPKCS1v15 k text w := (w, Ret (key_id k +++ text));
  rsa_DecryptPKCS1v15 key text :=
    or_err (cut_prefix (key_id (Signer_Public key)) text) (Sentinel "rsa.ErrDecryption");
  pem_Decode s := match Split "010" s with [_; data; _; _] => b64_decode data | _ => None end;
  RandReader_Read n w := (w, Ret (repeat_byte n));
  RandReader_ReadFull n w := (w, Ret (repeat_byte n));
  is_rsa_PrivateKey key := is_rsa (Signer_Public key)
|}.

#[export] Instance ref_cipher_laws : CipherLaws.
Proof.
  split.
  - intros c key b Hkey Hb. simpl.
    assert (Hlen : (String.length b <= String.length key)%nat).
    { rewrite Hb. destruct c; unfold NewCipher in Hkey; apply raise_if_ret in Hkey; bool_prop; simpl; [|lia].
      set_solver by lia. }
    rewrite length_xor_bytes. split; [lia|]. by apply xor_bytes_involutive.
  - intros key nonce text _ _. cbn [gcm_Seal gcm_Open ref_cipher]. rewrite length_append, length_zero_bytes. split; [done|].
    replace (String.length text + gcm_Overhead - gcm_Overhead)%nat with (String.length text) by lia.
    by rewrite split_at_append.
  - intros h key text w w' c _ [= _ <-]. simpl. by rewrite cut_prefix_append.
  - intros der. simpl.
    assert (Hn : has_byte "010" (base64_Encode der) = false).
    { apply (all_bytes_has_byte b64_text); [apply base64_Encode_text|done]. }
    unfold newline. rewrite Split_append by done. apply b64_decode_encode.
Qed.

#[export] Instance ref_cipher_total : CipherTotal.
Proof. by split; intros; simpl; try destruct (cut_prefix _ _). Qed.

Lemma ref_SelectAttr_same key value e : has_byte ":" key = false →
  Attr_Value <$> ref_SelectAttr key (ref_CreateAttr key value e) = Some value.
Proof.
  intros H%split_name_plain. unfold ref_CreateAttr, ref_SelectAttr, ref_RemoveAttr. rewrite H. cbn [Attrs set_Attrs].
  destruct (first_that_is_Some (λ a, bool_decide ((Attr_Space a, Attr_Key a) = ("", key)))
    (filter (λ a, (Attr_Space a, Attr_Key a) ≠ ("", key)) (Attrs e) ++ [mkAttr "" key value])%list (mkAttr "" key value))
    as [a Ha]; [set_solver|by apply bool_decide_eq_true|].
  rewrite Ha. apply first_that_elem in Ha as [Hin Hk]. bool_prop.
  apply elem_of_app in Hin as [[? _]%list_elem_of_filter|Hin]; [done|].
  by apply list_elem_of_singleton in Hin as ->.
Qed.

Lemma ref_SelectAttr_other space key value key' e :
  has_byte ":" space = false → space ≠ "" → has_byte ":" key' = false →
  ref_SelectAttr key' (ref_CreateAttr (space +++ ":" +++ key) value e) = ref_SelectAttr key' e.
Proof.
  intros Hs Hne Hk%split_name_plain. unfold ref_CreateAttr, ref_SelectAttr, ref_RemoveAttr.
  rewrite split_name_prefixed, Hk by done. cbn [Attrs set_Attrs].
  induction (Attrs e) as [|a l IH].
  - cbn. by rewrite bool_decide_false by congruence.
  - rewrite filter_cons. cbn [first_that app].
    destruct (decide _) as [Hd|Hd]; cbn [first_that app].
    + destruct (bool_decide _); [done|]. exact IH.
    + apply dec_stable in Hd. by rewrite (bool_decide_false (_ = ("", key'))) by congruence.
Qed.

#[export] Instance ref_etree_laws : EtreeLaws.
Proof.
  split; try done.
  - intros space tag H. unfold NewElement, ref_etree. by rewrite split_name_prefixed.
  - intros key value e. simpl. unfold ref_CreateAttr. destruct (split_name key). eexists. by destruct e.
  - apply ref_SelectAttr_same.
  - intros. by apply ref_SelectAttr_other.
  - intros text e. by eexists.
  - intros text e. simpl.
    assert (H : leading_text (after_text (Child e)) = "") by (induction (Child e) as [|[] c IH]; done).
    rewrite H. apply append_nil_r.
Qed.

(** A key pair, its certificate, and two encrypted documents. *)
Definition a_key : Signer := mkSigner (RSAPublicKey "k").
Definition a_cert : Certificate := mkCertificate "k" (RSAPublicKey "k") 0 (10 ^ 20).

Definition encrypted (c : BlockCipher) (plaintext : string) : Element :=
  match OAEP_Encrypt (EncryptOps := encrypt_ops) c a_cert plaintext 0%Z with
  | (_, Ret el) => el
  | _ => NewElement "none"
  end.

Definition oaep_sha512 : RSA := mkRSA AES256CBC (Some xmlenc_SHA512) (RSA_algorithm OAEP) TransportOAEP.

Definition sha512_encrypted : Element :=
  match (RSA_Encrypt oaep_sha512 a_cert "<Assertion/>" None (0%Z, [])).2 with
  | Ret el => el
  | _ => NewElement "none"
  end.

Lemma RSA_Encrypt_Decrypt_witness :
  Decrypt default_decrypters 2 (SignerKey (Some a_key)) (set_Attrs [] sha512_encrypted) = Ret "<Assertion/>".
Proof.
  apply (RSA_Encrypt_Decrypt oaep_sha512 xmlenc_SHA512 a_cert a_key "<Assertion/>" None (0%Z, []) (0%Z, [])).
  - split_and!; [done..|by vm_compute].
  - done.
  - vm_compute. reflexivity.
Defined.

Definition encrypted_assertion (plaintext : string) : Cursor :=
  root_cursor (mkElement "saml" "EncryptedAssertion"
    [mkAttr "xmlns" "saml" "urn:oasis:names:tc:SAML:2.0:assertion"]
    [TElement (set_Attrs (Attrs (encrypted AES128GCM plaintext)) (encrypted AES128GCM plaintext))]).

Definition an_sp : ServiceProvider :=
  mkServiceProvider "sp" (Some a_key) None [] None (url_of "metadata") (url_of "acs") (url_of "slo")
    None None None None "" 0%Z None None false "" None "" [] None None.

#[local] Existing Instance default_vars.
#[local] Instance an_xml : XmlOps := ref_xml zero_Response zero_ArtifactResponse zero_Assertion.

Lemma OAEP_Encrypt_decryptElement_witness :
  ∃ el, decryptElement (EncI := xmlenc_ops) an_sp (encrypted_assertion "E0:9:Assertion..") = Ret (Some el).
Proof.
  eexists. etransitivity.
  - eapply (OAEP_Encrypt_decryptElement AES128GCM a_cert a_key "E0:9:Assertion.." 0%Z 0%Z
      (encrypted AES128GCM "E0:9:Assertion..") an_sp (encrypted_assertion "E0:9:Assertion.."));
      [done..|vm_compute; reflexivity|vm_compute; reflexivity|vm_compute; reflexivity|vm_compute; reflexivity].
  - vm_compute. reflexivity.
Defined.

Lemma Decrypt_terminates_witness :
  (depth sha512_encrypted <= 7)%nat ∧
  Decrypt default_decrypters 8 (SignerKey (Some a_key)) sha512_encrypted ≠ Panic.
Proof.
  assert (H : (depth sha512_encrypted <= 7)%nat) by (vm_compute; lia).
  split; [exact H|]. apply (Decrypt_terminates default_decrypters (SignerKey (Some a_key)) sha512_encrypted 7 H).
Defined.
End Examples.
