(* ===== verification/IdpSpec.v ===== *)
(** * IdpSpec: which requests the identity provider trusts

    The conditions on an authentication request as propositions, and what
    [Validate] guarantees: the request is well formed, fresh and meant for this
    provider, its signature was verified whenever one is present or required,
    and the response goes to an HTTP-POST endpoint of the service provider's
    metadata. *)

From stdpp Require Import base option list gmap strings.
From Stdlib Require Import ZArith Lia Ascii.
From S2P Require Import Prelude Go Duration Encoding Etree C14n Schema Env XmlTree ServiceProvider.
From S2P Require Import Reference ServiceProviderSpec DSig Redirect RedirectSpec Http IdentityProvider Assertions.

Open Scope string_scope.
Open Scope Z_scope.

(** ** Identifiers *)

Definition id_char (c : ascii) : Prop :=
  c ∈ String.list_ascii_of_string
        "abcdefghijklmnopqrstuvwxyzABCDEFGHIJKLMNOPQRSTUVWXYZ0123456789_-.".

#[export] Instance id_char_dec c : Decision (id_char c).
Proof. unfold id_char. apply _. Defined.

Lemma is_id_byte_spec c : is_id_byte c = true ↔ id_char c.
Proof.
  rewrite <- (bool_decide_eq_true (id_char c)).
  assert (H : Bool.eqb (is_id_byte c) (bool_decide (id_char c)) = true).
  { revert c. apply for_all_ascii. by vm_compute. }
  apply Bool.eqb_prop in H. by rewrite H.
Qed.

Lemma all_bytes_spec f s :
  all_bytes f s = true ↔ ∀ c, c ∈ String.list_ascii_of_string s → f c = true.
Proof.
  induction s as [|c s IH]; simpl; [set_solver|].
  rewrite andb_true_iff, IH. setoid_rewrite elem_of_cons. naive_solver.
Qed.

Definition valid_id (id : string) : Prop :=
  id ≠ "" ∧ Z.of_nat (String.length id) <= maxAuthnRequestIDLength ∧
  ∀ c, c ∈ String.list_ascii_of_string id → id_char c.

Lemma isValidAuthnRequestID_spec id : isValidAuthnRequestID id = true ↔ valid_id id.
Proof.
  unfold isValidAuthnRequestID, valid_id.
  destruct (bool_decide_reflect (id = "")) as [->|Hne]; simpl; [naive_solver|].
  destruct (Z.ltb_spec maxAuthnRequestIDLength (Z.of_nat (String.length id))); [naive_solver lia|].
  rewrite all_bytes_spec. setoid_rewrite is_id_byte_spec. naive_solver.
Qed.

(** A request ID is accepted exactly when it is not empty, at most 256 bytes
    long and made of ASCII letters, digits, '_', '-' and '.'. *)
Theorem isValidAuthnRequestID_iff id : isValidAuthnRequestID id = true ↔ valid_id id.
Proof. by apply isValidAuthnRequestID_spec. Qed.

(** ** Conditions on the content *)

Section conditions.
Context {W : Type} `{UrlI : UrlOps} `{VarsI : PackageVars}.

Definition max_age (idp : IdentityProvider W) : Duration :=
  if decide (IDP_MaxAuthnRequestAge idp = 0) then MaxIssueDelay else IDP_MaxAuthnRequestAge idp.

Record request_ok (idp : IdentityProvider W) (now : Time) (r : AuthnRequest) : Prop := {
  rok_destination : AuthnRequest_Destination r = URL_String (IDP_SSOURL idp) ∨
    AuthnRequest_Destination r = "" ∧ IDP_WantAuthnRequestsSigned idp = false;
  rok_fresh : AuthnRequest_IssueInstant r <= now + MaxClockSkew ∧
    now <= AuthnRequest_IssueInstant r + max_age idp;
  rok_version : AuthnRequest_Version r = "2.0";
  rok_id : valid_id (AuthnRequest_ID r);
  rok_issuer : ∃ i, AuthnRequest_Issuer r = Some i ∧ Issuer_Value i ≠ ""
}.

Lemma no_issuer_false o : no_issuer o = false ↔ ∃ i, o = Some i ∧ Issuer_Value i ≠ "".
Proof.
  destruct o as [i|]; simpl; [rewrite bool_decide_eq_false|]; naive_solver.
Qed.

Lemma checkRequest_ret (idp : IdentityProvider W) r now :
  checkRequest idp r now = Ret () ↔ request_ok idp now r.
Proof.
  unfold checkRequest, Time_Before, Time_After, Time_Add.
  assert (Hage : (if IDP_MaxAuthnRequestAge idp =? 0 then MaxIssueDelay else IDP_MaxAuthnRequestAge idp)
    = max_age idp).
  { unfold max_age. destruct (decide _) as [->|Hn]; [done|].
    by rewrite (proj2 (Z.eqb_neq _ _) Hn). }
  rewrite Hage, !raise_if_bind, raise_if_ret, no_issuer_false, andb_false_iff, orb_false_iff,
    !Z.ltb_ge, !negb_false_iff, isValidAuthnRequestID_spec, !bool_decide_eq_true.
  split.
  - intros (? & ? & ? & ? & ? & ?). constructor; naive_solver lia.
  - intros [? [? ?] ? ? ?]. naive_solver lia.
Qed.

(** [checkRequest] accepts exactly the requests that meet the
    conditions. *)
Theorem checkRequest_iff (idp : IdentityProvider W) r now :
  checkRequest idp r now = Ret () ↔ request_ok idp now r.
Proof. by apply checkRequest_ret. Qed.
End conditions.

(** ** The assertion consumer service *)

(** The endpoint that SAML metadata §2.2.3 selects: none before it is as good,
    and none after it is better. *)
Definition default_choice (l : list (SPSSODescriptor * IndexedEndpoint))
    (x : SPSSODescriptor * IndexedEndpoint) : Prop :=
  ∃ l1 l2, l = (l1 ++ x :: l2)%list ∧ is_post x.2 = true ∧
    (∀ y, y ∈ l1 → is_post y.2 = true → preference y.2 < preference x.2) ∧
    (∀ y, y ∈ l2 → is_post y.2 = true → preference y.2 <= preference x.2).

Lemma preference_range e : 1 <= preference e <= 3.
Proof. unfold preference. destruct (IndexedEndpoint_IsDefault e) as [[]|]; lia. Qed.

Lemma default_loop_spec l best chosen :
  (∃ x, default_loop l best chosen = Some x ∧ best < preference x.2 ∧ default_choice l x) ∨
  (default_loop l best chosen = chosen ∧
   ∀ y, y ∈ l → is_post y.2 = true → preference y.2 <= best).
Proof.
  revert best chosen. induction l as [|[d e] l IH]; intros best chosen; simpl.
  { right. split; [done|]. intros y []%elem_of_nil. }
  destruct (is_post e) eqn:Ep; simpl; [destruct (Z.ltb_spec best (preference e)) as [Hlt|Hge]|].
  - left. destruct (IH (preference e) (Some (d, e))) as [(x & -> & Hx & Hc)|[-> Hall]].
    + exists x. split_and!; [done|lia|]. destruct Hc as (l1 & l2 & -> & Hp & H1 & H2).
      exists ((d, e) :: l1), l2. split_and!; [done|done| |done].
      intros y [->|Hy]%elem_of_cons; simpl; [lia|auto].
    + exists (d, e). split_and!; [done..|]. exists [], l. split_and!; [done..| |done].
      intros y []%elem_of_nil.
  - destruct (IH best chosen) as [(x & -> & Hx & Hc)|[-> Hall]]; [left|right].
    + exists x. split_and!; [done..|]. destruct Hc as (l1 & l2 & -> & Hp & H1 & H2).
      exists ((d, e) :: l1), l2. split_and!; [done|done| |done].
      intros y [->|Hy]%elem_of_cons; simpl; [lia|auto].
    + split; [done|]. intros y [->|Hy]%elem_of_cons; simpl; [lia|auto].
  - destruct (IH best chosen) as [(x & -> & Hx & Hc)|[-> Hall]]; [left|right].
    + exists x. split_and!; [done..|]. destruct Hc as (l1 & l2 & -> & Hp & H1 & H2).
      exists ((d, e) :: l1), l2. split_and!; [done|done| |done].
      intros y [->|Hy]%elem_of_cons; simpl; [congruence|auto].
    + split; [done|]. intros y [->|Hy]%elem_of_cons; simpl; [congruence|auto].
Qed.

Lemma default_choice_elem l x : default_choice l x → x ∈ l ∧ is_post x.2 = true.
Proof. intros (l1 & l2 & -> & Hp & _). split; [set_solver|done]. Qed.

Lemma useDefaultACSEndpoint_ret req metadata
    (Hm : Req_ServiceProviderMetadata req = Some metadata) :
  (∃ x, default_choice (acs_endpoints metadata) x ∧ useDefaultACSEndpoint req = Ret (set_ACS x req)) ∨
  (useDefaultACSEndpoint req = Err os_ErrNotExist ∧
   ∀ y, y ∈ acs_endpoints metadata → is_post y.2 = false).
Proof.
  unfold useDefaultACSEndpoint. rewrite Hm. cbn [deref]. rewrite ret_bind.
  destruct (default_loop_spec (acs_endpoints metadata) 0 None) as [(x & -> & _ & Hc)|[-> Hall]].
  - left. by exists x.
  - right. split; [done|]. intros y Hy. destruct (is_post y.2) eqn:E; [|done].
    specialize (Hall y Hy E). pose proof (preference_range y.2). lia.
Qed.

(** With no endpoint requested, the response goes to the first HTTP-POST
    endpoint whose [isDefault] is true, else to the first that does not set it to
    false, else to the first; there is an error exactly when the metadata
    has no HTTP-POST endpoint. *)
Theorem useDefaultACSEndpoint_spec req metadata
    (Hm : Req_ServiceProviderMetadata req = Some metadata) :
  (∃ x, default_choice (acs_endpoints metadata) x ∧ useDefaultACSEndpoint req = Ret (set_ACS x req)) ∨
  (useDefaultACSEndpoint req = Err os_ErrNotExist ∧
   ∀ y, y ∈ acs_endpoints metadata → is_post y.2 = false).
Proof. by apply useDefaultACSEndpoint_ret. Qed.

Definition index_matches (index : string) (e : IndexedEndpoint) : Prop :=
  index ≠ "" ∧ itoa (IndexedEndpoint_Index e) = index.
Definition location_matches (location : string) (e : IndexedEndpoint) : Prop :=
  location ≠ "" ∧ IndexedEndpoint_Location e = location.

(** The endpoint that a request designates: by index if one matches, else by
    location; by default if it designates none. *)
Definition acs_choice (request : AuthnRequest) (l : list (SPSSODescriptor * IndexedEndpoint))
    (x : SPSSODescriptor * IndexedEndpoint) : Prop :=
  let index := AuthnRequest_AssertionConsumerServiceIndex request in
  let location := AuthnRequest_AssertionConsumerServiceURL request in
  x ∈ l ∧ is_post x.2 = true ∧
  (index_matches index x.2 ∨
   location_matches location x.2 ∧ (∀ y, y ∈ l → is_post y.2 = true → ¬ index_matches index y.2) ∨
   index = "" ∧ location = "" ∧ default_choice l x).

Lemma matching_elem (f : IndexedEndpoint → bool) l (x : SPSSODescriptor * IndexedEndpoint) :
  first_that (λ '(_, e), is_post e && f e) l = Some x →
  x ∈ l ∧ is_post x.2 = true ∧ f x.2 = true.
Proof.
  intros [Hx Hf]%first_that_elem. destruct x as [d e]. bool_prop. done.
Qed.

Lemma acs_matches_choice index location (l : list (SPSSODescriptor * IndexedEndpoint)) x :
  first_some (λ matches, first_that (λ '(_, e), is_post e && matches e) l)
    (acs_matches index location) = Some x →
  x ∈ l ∧ is_post x.2 = true ∧
  (index_matches index x.2 ∨
   location_matches location x.2 ∧ ∀ y, y ∈ l → is_post y.2 = true → ¬ index_matches index y.2).
Proof.
  unfold acs_matches, index_matches, location_matches. cbn [first_some].
  destruct (first_that _ l) as [y|] eqn:E1.
  { intros [= ->]. apply matching_elem in E1 as (? & ? & ?). bool_prop. tauto. }
  destruct (first_that _ l) as [y|] eqn:E2 in |- *; [|done]. intros [= ->].
  apply matching_elem in E2 as (? & ? & ?). bool_prop.
  split_and!; [done..|]. right. split; [done|]. intros [dy ey] Hy Hp [? ?].
  rewrite first_that_None, Forall_forall in E1. specialize (E1 (dy, ey) Hy). simpl in *.
  rewrite Hp in E1. cbn [andb] in E1. apply andb_false_iff in E1.
  rewrite negb_false_iff, bool_decide_eq_true, bool_decide_eq_false in E1. naive_solver.
Qed.

Lemma getACSEndpoint_ret req req'
    (Hreq : getACSEndpoint req = Ret req') :
  ∃ metadata x, Req_ServiceProviderMetadata req = Some metadata ∧ req' = set_ACS x req ∧
    acs_choice (Req_Request req) (acs_endpoints metadata) x.
Proof.
  unfold getACSEndpoint in Hreq. destruct (_ || _) eqn:Ed in Hreq.
  - apply bind_ret in Hreq as (m & Hm & Hreq). rewrite deref_ret in Hm.
    apply bind_ret in Hreq as (x & Hx & [= <-]). rewrite or_err_ret in Hx.
    exists m, x. apply acs_matches_choice in Hx. unfold acs_choice. naive_solver.
  - apply orb_false_iff in Ed as [Hi Hl]. bool_prop.
    destruct (Req_ServiceProviderMetadata req) as [m|] eqn:Hm;
      [|unfold useDefaultACSEndpoint in Hreq; by rewrite Hm in Hreq].
    destruct (useDefaultACSEndpoint_ret req m Hm) as [(x & Hc & E)|[E _]];
      rewrite E in Hreq; [|done]. injection Hreq as <-.
    exists m, x. destruct (default_choice_elem _ _ Hc). unfold acs_choice. naive_solver.
Qed.

(** Wherever the request asks the response to be sent, it is sent to an
    endpoint of the service provider's own metadata with the HTTP-POST
    binding: the one the request designates. *)
Theorem getACSEndpoint_sound req req'
    (Hreq : getACSEndpoint req = Ret req') :
  ∃ metadata x, Req_ServiceProviderMetadata req = Some metadata ∧ req' = set_ACS x req ∧
    acs_choice (Req_Request req) (acs_endpoints metadata) x.
Proof. by apply getACSEndpoint_ret. Qed.

(** ** Signatures *)

Section validate.
Context {W : Type} `{UrlI : UrlOps} `{VarsI : PackageVars} `{X509I : X509Ops} `{EtreeI : EtreeOps} `{XmlI : XmlOps} `{SigI : SignatureOps} `{CryptoI : CryptoOps} `{WorldI : World W}.

(** [el] after some attempts at verifying it, each of which may edit it. *)
Definition attempts (n : nat) (el : Cursor) : Cursor :=
  mkCursor (Nat.iter n drop_key_info (cur el)) (ancestors el).

(** The validator returned [content] for [el] with one of the certificates as its
    only root. *)
Definition verified_by (certs : list Certificate) (el : Cursor) (content : option Element) : Prop :=
  ∃ n cert clock detached, cert ∈ certs ∧
    (signatureValidationContext (attempts n el) [cert] clock).2
      = Ret (mkValidationContext [cert] "ID" clock, detached) ∧
    ValidationContext_Validate (mkValidationContext [cert] "ID" clock) detached = Ret content.

Lemma attempts_edited n el certs clock :
  (signatureValidationContext (attempts n el) certs clock).1 = attempts (S n) el.
Proof. done. Qed.

Lemma verify_with_ret el n certs err s s' content :
  verify_with (W := W) (attempts n el) certs err s = (s', Ret content) →
  certs ≠ [] ∨ err ≠ None → verified_by certs el content.
Proof.
  revert n err s. induction certs as [|cert certs IH]; intros n err s Hv Hne; cbn [verify_with] in Hv.
  { apply lift_ret in Hv as [_ Hv]. destruct err; naive_solver. }
  apply io_bind_ret in Hv as (s1 & clock & _ & Hv).
  destruct (signatureValidationContext (attempts n el) [cert] clock) as [el1 r] eqn:Er.
  assert (Hel1 : el1 = attempts (S n) el).
  { rewrite <- (attempts_edited n el [cert] clock). by rewrite Er. }
  apply io_bind_ret in Hv as (s2 & [vc d] & Hr & Hv). apply lift_ret in Hr as [-> ->].
  assert (vc = mkValidationContext [cert] "ID" clock) as ->.
  { eapply signatureValidationContext_ret. by rewrite Er. }
  cbn [fst snd] in Hv. destruct (ValidationContext_Validate _ d) as [v|e|] eqn:Ev.
  - assert (v = content) as -> by (unfold mret, IO_ret in Hv; congruence).
    exists n, cert, clock, d. rewrite Er. split_and!; [left|done..].
  - subst el1. apply IH in Hv; [|by right]. destruct Hv as (m & c & t & x & Hc & ?).
    exists m, c, t, x. split; [by right|done].
  - by apply lift_ret in Hv as [_ ?].
Qed.

(** Where the content of a trusted request comes from. *)
Inductive request_origin (idp : IdentityProvider W) (req : IdpAuthnRequest)
    (metadata : EntityDescriptor) (request : AuthnRequest) : Prop :=
  | origin_unsigned root :
      ReadFromBytes (Req_RequestBuffer req) = Ret (Some root) →
      findChild (root_cursor root) dsig_Namespace "Signature" = Ret None →
      Req_RedirectQuery req = "" →
      IDP_WantAuthnRequestsSigned idp = false →
      serviceProviderSignsAuthnRequests metadata = false →
      Unmarshal_AuthnRequest (Req_RequestBuffer req) = Ret request →
      request_origin idp req metadata request
  | origin_signed root signature certs :
      ReadFromBytes (Req_RequestBuffer req) = Ret (Some root) →
      findChild (root_cursor root) dsig_Namespace "Signature" = Ret signature →
      serviceProviderSigningCertificates metadata = Ret certs →
      Req_RedirectQuery req ≠ "" ∨ signature ≠ None →
      (Req_RedirectQuery req ≠ "" → ∃ now,
        verifyRedirectSignature (Req_RedirectQuery req) "SAMLRequest" certs now = Ret ()) →
      match signature with
      | None => Unmarshal_AuthnRequest (Req_RequestBuffer req) = Ret request
      | Some _ => ∃ content, verified_by certs (root_cursor root) (Some content) ∧
          unmarshalElement Unmarshal_AuthnRequest (root_cursor content) = Ret request
      end →
      AuthnRequest_Destination request ≠ "" →
      request_origin idp req metadata request.

Lemma useVerifiedRequest_ret (idp : IdentityProvider W) req content req' :
  useVerifiedRequest idp req content = Ret req' →
  ∃ e request i i', content = Some e ∧
    unmarshalElement Unmarshal_AuthnRequest (root_cursor e) = Ret request ∧
    req' = set_Request request req ∧ request_ok idp (Req_Now req) request ∧
    AuthnRequest_Issuer (Req_Request req) = Some i ∧ AuthnRequest_Issuer request = Some i' ∧
    Issuer_Value i' = Issuer_Value i.
Proof.
  unfold useVerifiedRequest. intros Hu. apply bind_ret in Hu as (i & Hi & Hu).
  apply bind_ret in Hu as (e & He & Hu). apply bind_ret in Hu as (request & Hr & Hu).
  apply bind_ret in Hu as ([] & Hc & Hu). apply bind_ret in Hu as (i' & Hi' & Hu).
  apply raise_if_bind in Hu as [Heq [= <-]]. rewrite !deref_ret in *.
  apply checkRequest_ret in Hc. bool_prop. exists e, request, i, i'. done.
Qed.

Lemma set_Request_fields v r :
  Req_Request (set_Request v r) = v ∧ Req_RequestBuffer (set_Request v r) = Req_RequestBuffer r ∧
  Req_RedirectQuery (set_Request v r) = Req_RedirectQuery r ∧
  Req_ServiceProviderMetadata (set_Request v r) = Req_ServiceProviderMetadata r ∧
  Req_Now (set_Request v r) = Req_Now r ∧ Req_HTTPRequest (set_Request v r) = Req_HTTPRequest r.
Proof. by destruct r. Qed.

Lemma set_Metadata_fields sp request r :
  let r' := set_Metadata sp (set_Request request r) in
  Req_Request r' = request ∧ Req_RequestBuffer r' = Req_RequestBuffer r ∧
  Req_Now r' = Req_Now r ∧ Req_RedirectQuery r' = Req_RedirectQuery r ∧
  Req_ServiceProviderMetadata r' = sp.
Proof. by destruct r. Qed.

Lemma set_ACS_fields x r :
  Req_Request (set_ACS x r) = Req_Request r ∧
  Req_ServiceProviderMetadata (set_ACS x r) = Req_ServiceProviderMetadata r ∧
  Req_SPSSODescriptor (set_ACS x r) = Some x.1 ∧ Req_ACSEndpoint (set_ACS x r) = Some x.2.
Proof. by destruct r. Qed.

Lemma set_Request_same r : set_Request (Req_Request r) r = r.
Proof. by destruct r. Qed.

(** The signature of the query is checked if there is a query. *)
Lemma query_signature_ret q certs (g : error → error) s s' u :
  (if q != "" then
     now ← redirect_now; lift (map_err g (verifyRedirectSignature q "SAMLRequest" certs now))
   else mret ()) s = (s', Ret u) →
  q ≠ "" → ∃ now, verifyRedirectSignature q "SAMLRequest" certs now = Ret ().
Proof.
  intros Hq Hn. rewrite (bool_decide_eq_false_2 (_ = "")) in Hq by done. cbn [negb] in Hq.
  apply io_bind_ret in Hq as (s1 & now & _ & Hq). apply lift_ret in Hq as [_ Hq].
  rewrite map_err_ret in Hq. exists now. by destruct u.
Qed.

Lemma some_signature q (signature : option Cursor) :
  (q == "") && negb (bool_decide (is_Some signature)) = false → q ≠ "" ∨ signature ≠ None.
Proof.
  intros [Hq|Hs]%andb_false_iff; bool_prop; [by left|right]. destruct signature; [done|]. by destruct Hs.
Qed.

Lemma no_signature q (signature : option Cursor) :
  (q == "") && negb (bool_decide (is_Some signature)) = true → q = "" ∧ signature = None.
Proof.
  intros H. bool_prop. split; [done|]. destruct signature; [|done]. exfalso. eauto.
Qed.

(** What [verifyAuthnRequestSignature] returns: the request, with the content
    that a signature covers if there is one. *)
Lemma verifyAuthnRequestSignature_ret (idp : IdentityProvider W) req metadata i s s' req' :
  Req_ServiceProviderMetadata req = Some metadata →
  Unmarshal_AuthnRequest (Req_RequestBuffer req) = Ret (Req_Request req) →
  request_ok idp (Req_Now req) (Req_Request req) →
  AuthnRequest_Issuer (Req_Request req) = Some i →
  verifyAuthnRequestSignature idp req s = (s', Ret req') →
  ∃ request i', req' = set_Request request req ∧ request_ok idp (Req_Now req) request ∧
    AuthnRequest_Issuer request = Some i' ∧ Issuer_Value i' = Issuer_Value i ∧
    request_origin idp req metadata request.
Proof.
  intros Hm Hu Hok Hi Hv. unfold verifyAuthnRequestSignature in Hv.
  apply io_lift_bind in Hv as (o & Ho & Hv).
  apply io_lift_bind in Hv as (root & Hr & Hv).
  rewrite or_err_ret in Hr. subst o.
  apply io_lift_bind in Hv as (signature & Hs & Hv).
  destruct (_ && _) eqn:Eb in Hv.
  - apply lift_ret in Hv as [-> Hv]. rewrite Hm in Hv. cbn [deref] in Hv.
    apply raise_if_bind in Hv as [Hw Hv]. rewrite ret_bind in Hv.
    apply raise_if_bind in Hv as [Hd [= <-]].
    apply no_signature in Eb as [? ->].
    exists (Req_Request req), i. rewrite set_Request_same.
    split_and!; [done..|]. eapply origin_unsigned; eauto.
  - apply io_bind_ret in Hv as (s4 & m & Hm' & Hv). apply lift_ret in Hm' as [-> Hm'].
    rewrite deref_ret in Hm'. rewrite Hm in Hm'. injection Hm' as <-.
    apply io_lift_bind in Hv as (certs & Hc & Hv).
    apply io_guard_bind in Hv as [Hne Hv]. bool_prop.
    apply io_bind_ret in Hv as (s7 & u' & Hq & Hv).
    pose proof (query_signature_ret _ _ _ _ _ _ Hq) as Hquery. apply some_signature in Eb.
    apply io_bind_ret in Hv as (s8 & req1 & Hreq1 & Hv). apply lift_ret in Hv as [_ Hv].
    apply raise_if_bind in Hv as [Hdest [= <-]]. bool_prop.
    destruct signature as [sig|].
    + rewrite (bool_decide_eq_true_2 (is_Some _)) in Hreq1 by (by eexists).
      apply on_result_ret in Hreq1 as [(s9 & content & Hvf & Hreq1)|(s9 & e & _ & Hreq1)];
        apply lift_ret in Hreq1 as [_ Hreq1]; [|done].
      apply (verify_with_ret (root_cursor root) 0) in Hvf; [|by left].
      apply useVerifiedRequest_ret in Hreq1
        as (e & request & i1 & i2 & -> & Hun & -> & Hok' & Hi1 & Hi2 & Heq).
      rewrite (proj1 (set_Request_fields request req)) in Hdest.
      exists request, i2. split_and!; [done..|congruence|].
      apply (origin_signed _ _ _ _ root (Some sig) certs); try done. by exists e.
    + rewrite (bool_decide_eq_false_2 (is_Some _)) in Hreq1 by (by intros [? ?]).
      assert (req1 = req) as -> by (unfold mret, IO_ret in Hreq1; congruence).
      exists (Req_Request req), i. rewrite set_Request_same.
      split_and!; [done..|]. by apply (origin_signed _ _ _ _ root None certs).
Qed.

Lemma verifyAuthnRequestSignature_metadata (idp : IdentityProvider W) req s s' req' :
  verifyAuthnRequestSignature idp req s = (s', Ret req') →
  ∃ metadata, Req_ServiceProviderMetadata req = Some metadata.
Proof.
  unfold verifyAuthnRequestSignature. intros Hv. do 3 (apply io_bind_ret in Hv as (? & ? & _ & Hv)).
  destruct (_ && _) in Hv.
  - apply lift_ret in Hv as [_ Hv]. apply raise_if_bind in Hv as [_ Hv].
    apply bind_ret in Hv as (metadata & Hm & _). rewrite deref_ret in Hm. eauto.
  - apply io_lift_bind in Hv as (metadata & Hm & _). rewrite deref_ret in Hm. eauto.
Qed.
End validate.

(** ** Validate *)

Section properties.
Context {W : Type} `{UrlI : UrlOps} `{VarsI : PackageVars} `{X509I : X509Ops} `{EtreeI : EtreeOps} `{XmlI : XmlOps} `{SigI : SignatureOps} `{CryptoI : CryptoOps} `{FlateI : FlateOps} `{WorldI : World W}.

(** A request that the identity provider may answer. *)
Record request_trusted (idp : IdentityProvider W) (req req' : IdpAuthnRequest) : Prop := {
  trusted_size : Z.of_nat (String.length (Req_RequestBuffer req)) <= maxAuthnRequestSize;
  trusted_ok : request_ok idp (Req_Now req) (Req_Request req');
  trusted_provider : ∃ metadata issuer s s' x,
    AuthnRequest_Issuer (Req_Request req') = Some issuer ∧
    effect (IDP_ServiceProviderProvider idp (Req_HTTPRequest req) (Issuer_Value issuer)) s
      = (s', Ret (Some metadata)) ∧
    Req_ServiceProviderMetadata req' = Some metadata ∧
    request_origin idp req metadata (Req_Request req') ∧
    acs_choice (Req_Request req') (acs_endpoints metadata) x ∧
    Req_SPSSODescriptor req' = Some x.1 ∧ Req_ACSEndpoint req' = Some x.2;
  (* the rest of the request is as it was received *)
  trusted_rest : Req_RelayState req' = Req_RelayState req ∧ Req_Now req' = Req_Now req ∧
    Req_Assertion req' = Req_Assertion req ∧ Req_AssertionEl req' = Req_AssertionEl req ∧
    Req_ResponseEl req' = Req_ResponseEl req
}.

Lemma Validate_ret (idp : IdentityProvider W) req s s' req'
    (Hv : Validate idp req s = (s', Ret req')) : request_trusted idp req req'.
Proof.
  unfold Validate in Hv.
  apply io_guard_bind in Hv as [Hsize Hv]. bool_prop.
  apply io_lift_bind in Hv as (u2 & _ & Hv).
  apply io_lift_bind in Hv as (request & Hu & Hv).
  apply io_lift_bind in Hv as (u3 & Hc & Hv).
  destruct (set_Request_fields request req) as (E1 & E2 & E3 & E4 & E5 & E6).
  rewrite E5 in Hc. destruct u3. apply checkRequest_ret in Hc.
  apply io_lift_bind in Hv as (issuer & Hi & Hv).
  rewrite deref_ret in Hi. rewrite E6 in Hv.
  apply io_bind_ret in Hv as (s6 & sp & Hsp & Hv).
  apply on_result_fail_ret in Hsp.
  apply io_bind_ret in Hv as (s8 & req1 & Hsig & Hv). apply lift_ret in Hv as [-> Hacs].
  rewrite map_err_ret in Hacs.
  apply getACSEndpoint_ret in Hacs as (metadata & x & Hm1 & -> & Hchoice).
  destruct (set_Metadata_fields sp request req) as (F1 & F2 & F3 & F4 & F5).
  set (req2 := set_Metadata sp (set_Request request req)) in *.
  destruct (verifyAuthnRequestSignature_metadata _ _ _ _ _ Hsig) as [md Hmd].
  rewrite F5 in Hmd. rewrite Hmd in F5, Hsp.
  apply (verifyAuthnRequestSignature_ret idp req2 md issuer) in Hsig;
    rewrite ?F1, ?F2, ?F3; [|done..].
  destruct Hsig as (rq & i' & -> & Hok & Hi' & Heq & Horigin).
  destruct (set_Request_fields rq req2) as (G1 & G2 & G3 & G4 & _). rewrite G1 in Hchoice.
  rewrite G4, F5 in Hm1. injection Hm1 as <-.
  destruct (set_ACS_fields x (set_Request rq req2)) as (H1 & H2 & H3 & H4). rewrite F3 in Hok.
  constructor; rewrite ?H1, ?G1; [done..| |by subst req2; destruct req].
  exists md, i'. eexists _, _, x. rewrite ?H2, ?H3, ?H4, ?G4, ?F5, ?Heq.
  split_and!; [done|exact Hsp|done| |done..].
  destruct Horigin as [root ? ? ? ? ? ?|root signature certs ? ? ? ? ? ? ?];
    rewrite ?F2, ?F4 in *; [by eapply origin_unsigned|by eapply origin_signed].
Qed.

(** C6: soundness of [Validate]. A request it accepts is at most 16 KiB long,
    well formed, fresh and addressed to this provider; its issuer is a service
    provider whose metadata was found; its content is unsigned only if neither
    side requires a signature, and otherwise every signature on it verified
    with a signing certificate of that provider, an embedded one covering the very
    content that is used; and the endpoint for the response is an HTTP-POST
    endpoint of that provider. *)
Theorem Validate_request_sound (idp : IdentityProvider W) req s s' req'
    (Hv : Validate idp req s = (s', Ret req')) : request_trusted idp req req'.
Proof. by apply (Validate_ret idp req s s' req'). Qed.
End properties.

(** ** Witnesses *)

Module Examples.
#[export] Existing Instance default_vars.

Definition sp_endpoints : list IndexedEndpoint :=
  [mkIndexedEndpoint HTTPArtifactBinding "https:artifact" None 0 (Some true);
   mkIndexedEndpoint HTTPPostBinding "https:acs1" None 1 None;
   mkIndexedEndpoint HTTPPostBinding "https:acs2" None 2 (Some true)].

(** A service provider with a signing certificate, and with an encryption
    certificate if [encryption] is set. *)
Definition sp_descriptor (signs encryption : bool) : SPSSODescriptor :=
  let keys := (cert_key_descriptor "signing" (base64_Encode "cert") []
    :: if encryption then
         [cert_key_descriptor "encryption" (base64_Encode "cert")
            [mkEncryptionMethod "unknown"; mkEncryptionMethod "http://www.w3.org/2001/04/xmlenc#aes256-cbc"]]
       else [])%list in
  mkSPSSODescriptor (mkSSODescriptor (role "" keys None) [] [] [] []) (Some signs) None sp_endpoints [].

Definition sp_metadata (signs encryption : bool) : EntityDescriptor :=
  entity "sp" 0 0 [] [sp_descriptor signs encryption].

Definition session : Session :=
  mkSession "s1" 900 5000 "i1" "alice" "" "" ["staff"] "alice" "alice@example.com" "" "" "" "" "" [] "" "".

Definition certificate : Certificate := mkCertificate "idpcert" (RSAPublicKey "k") 0 (10 ^ 20).

Definition the_idp (metadata : EntityDescriptor) (wantSigned : bool) : IdentityProvider Time :=
  mkIdentityProvider Time (Some (mkSigner (RSAPublicKey "k"))) None (Some certificate) [] 0
    (url_of "metadata") (url_of "sso") (url_of "login") (url_of "slo")
    (λ _ id t, (t, if id == "sp" then Ret (Some metadata) else Err os_ErrNotExist))
    (mkSessionProvider Time (λ _ _ s, (s, Some (Some session))) None None (Some (λ _ _, mret ())))
    None "" None None wantSigned None None None.

Definition authn_request : AuthnRequest :=
  mkAuthnRequest "req1" "2.0" 1000 "https:sso" "" (Some (mkIssuer "" "" "" "" "sp")) None None None None
    None None None "" "" "" "" "".

Definition request_el (signed : bool) : Element :=
  mkElement "samlp" "AuthnRequest" [mkAttr "xmlns" "samlp" nsProtocol]
    (if signed then [TElement (mkElement "ds" "Signature"
       [mkAttr "xmlns" "ds" dsig_Namespace; mkAttr "" "key" "cert"] [])] else []).

Definition http_request (signed : bool) : HTTPRequest :=
  mkHTTPRequest "POST" (url_of "sso") (Ret "application/x-www-form-urlencoded")
    (Some ("SAMLRequest=" +++ QueryEscape (base64_Encode (write_element (request_el signed)))))
    "192.0.2.1:4711" [] [] [] false.

Definition received (signed : bool) : IdpAuthnRequest :=
  empty_request (http_request signed) "" (write_element (request_el signed)) "" 1100.

(** The request as [Validate] leaves it: the endpoint is the second. *)
Definition accepted (signed : bool) (metadata : EntityDescriptor) : IdpAuthnRequest :=
  set_ACS (sp_descriptor signed false, mkIndexedEndpoint HTTPPostBinding "https:acs2" None 2 (Some true))
    (set_Metadata (Some metadata) (set_Request authn_request (received signed))).

#[export] Instance xml : XmlOps := ref_idp_xml authn_request zero_LogoutRequest.

Example reads_request signed :
  NewIdpAuthnRequest (http_request signed) (1100, []) = ((1100, []), Ret (received signed)).
Proof. destruct signed; by vm_compute. Qed.

(** A service provider that signs its requests must sign this one. *)
Example refuses_unsigned :
  (Validate (the_idp (sp_metadata true false) false) (received false) (1100, [])).2
  = Err (Errorf "request is not signed" []).
Proof. by vm_compute. Qed.

Lemma Validate_request_sound_witness :
  request_trusted (the_idp (sp_metadata true false) true) (received true)
    (accepted true (sp_metadata true false)).
Proof.
  apply (Validate_request_sound _ _ (1100, []) (1100, [])). vm_compute. reflexivity.
Defined.

Lemma useDefaultACSEndpoint_spec_witness :
  let req := set_Metadata (Some (sp_metadata true false)) (received true) in
  (∃ x, default_choice (acs_endpoints (sp_metadata true false)) x ∧
    useDefaultACSEndpoint req = Ret (set_ACS x req)) ∨
  (useDefaultACSEndpoint req = Err os_ErrNotExist ∧
   ∀ y, y ∈ acs_endpoints (sp_metadata true false) → is_post y.2 = false).
Proof. apply useDefaultACSEndpoint_spec. reflexivity. Defined.

Lemma getACSEndpoint_sound_witness :
  ∃ metadata x, Some (sp_metadata true false) = Some metadata ∧
    accepted true (sp_metadata true false)
    = set_ACS x (set_Metadata (Some (sp_metadata true false)) (set_Request authn_request (received true))) ∧
    acs_choice authn_request (acs_endpoints metadata) x.
Proof.
  apply (getACSEndpoint_sound
    (set_Metadata (Some (sp_metadata true false)) (set_Request authn_request (received true)))).
  vm_compute. reflexivity.
Defined.
End Examples.
