(* ===== verification/AssertionsSpec.v ===== *)
(** * AssertionsSpec: the enforcers, and assertions that service providers accept

    Exact characterisations of the three default enforcers, and the agreement
    of the two sides: the assertion that [DefaultAssertionMaker] makes for a
    service provider is one that [ServiceProvider.validateAssertion] accepts. *)

From stdpp Require Import base option list gmap strings.
From Stdlib Require Import ZArith Lia Ascii.
From S2P Require Import Prelude Go Duration Encoding Etree Schema Env Http ServiceProvider Reference.
From S2P Require Import ServiceProviderSpec IdentityProvider Assertions IdpSpec.

Open Scope string_scope.
Open Scope Z_scope.

(** ** Authentication contexts *)

(** Both classes are ranked and the first is the stronger. *)
Definition stronger (e : DefaultAuthnContextEnforcer) (a b : string) : Prop :=
  ∃ x y, Strength e !! a = Some x ∧ Strength e !! b = Some y ∧ y < x.

Lemma compare_pos e a b : 0 < compare e a b ↔ stronger e a b.
Proof.
  unfold compare, stronger, Compare. split.
  - destruct (Strength e !! a) as [x|], (Strength e !! b) as [y|]; try lia.
    destruct (Z.ltb_spec x y); [lia|]. destruct (Z.ltb_spec y x); [|lia]. eauto.
  - intros (x & y & -> & -> & ?). destruct (Z.ltb_spec x y); [lia|].
    destruct (Z.ltb_spec y x); lia.
Qed.

Lemma compare_neg e a b : compare e a b < 0 ↔ stronger e b a.
Proof.
  unfold compare, stronger, Compare. split.
  - destruct (Strength e !! a) as [x|], (Strength e !! b) as [y|]; try lia.
    destruct (Z.ltb_spec x y); [eauto|]. destruct (Z.ltb_spec y x); lia.
  - intros (x & y & -> & -> & ?). destruct (Z.ltb_spec y x); lia.
Qed.

(** SAMLCore §3.3.2.2.1: the asserted class satisfies the requested one. *)
Inductive context_satisfied (e : DefaultAuthnContextEnforcer) (comparison asserted class : string)
    : Prop :=
  | satisfied_exact : comparison = "" ∨ comparison = AuthnContextComparisonExact →
      asserted = class → context_satisfied e comparison asserted class
  | satisfied_minimum : comparison = AuthnContextComparisonMinimum →
      asserted = class ∨ stronger e asserted class → context_satisfied e comparison asserted class
  | satisfied_maximum : comparison = AuthnContextComparisonMaximum →
      asserted = class ∨ stronger e class asserted → context_satisfied e comparison asserted class
  | satisfied_better : comparison = AuthnContextComparisonBetter →
      stronger e asserted class → context_satisfied e comparison asserted class.

Lemma satisfies_spec e comparison asserted class :
  context_satisfied e comparison asserted class ↔
  ∃ f, satisfies e comparison = Some f ∧ f asserted class = true.
Proof.
  unfold satisfies. split.
  - intros [[->| ->] ->| -> H| -> H| -> H]; simpl; eexists; (split; [reflexivity|]); simpl;
      rewrite ?orb_true_iff, ?bool_decide_eq_true, ?Z.ltb_lt, ?compare_pos, ?compare_neg; done.
  - intros (f & Hf & Ht).
    destruct (_ || _) eqn:E1 in Hf; [|destruct (bool_decide_reflect (comparison = AuthnContextComparisonMinimum));
      [|destruct (bool_decide_reflect (comparison = AuthnContextComparisonMaximum));
      [|destruct (bool_decide_reflect (comparison = AuthnContextComparisonBetter)); [|done]]]];
      injection Hf as <-;
      rewrite ?orb_true_iff, ?bool_decide_eq_true, ?Z.ltb_lt, ?compare_pos, ?compare_neg in Ht.
    + apply orb_true_iff in E1. rewrite !bool_decide_eq_true in E1. by apply satisfied_exact.
    + by apply satisfied_minimum.
    + by apply satisfied_maximum.
    + by apply satisfied_better.
Qed.

(** The authentication context of an assertion is accepted exactly when no
    declaration is requested, there is a statement, and every statement asserts a
    class that satisfies one of the requested classes under the comparison. *)
Theorem EnforceAuthnContext_iff e req requested
    (Hr : AuthnRequest_RequestedAuthnContext (Req_Request req) = Some requested) :
  EnforceAuthnContext e req = Ret () ↔
  RequestedAuthnContext_AuthnContextDeclRefs requested = [] ∧
  authn_statements req ≠ [] ∧
  ∀ statement, statement ∈ authn_statements req →
    ∃ ref class, AuthnContext_AuthnContextClassRef (AuthnStatement_AuthnContext statement) = Some ref ∧
      class ∈ RequestedAuthnContext_AuthnContextClassRefs requested ∧
      context_satisfied e (RequestedAuthnContext_Comparison requested)
        (AuthnContextClassRef_Value ref) class.
Proof.
  unfold EnforceAuthnContext. rewrite Hr. cbn [deref]. rewrite ret_bind, raise_if_bind, bind_ret.
  setoid_rewrite or_err_ret. setoid_rewrite raise_if_bind. setoid_rewrite for_each_ret.
  rewrite negb_false_iff, bool_decide_eq_true. setoid_rewrite bool_decide_eq_false.
  setoid_rewrite length_zero_iff_nil.
  setoid_rewrite satisfies_spec. unfold check_statement. setoid_rewrite bind_ret.
  setoid_rewrite or_err_ret. setoid_rewrite raise_if_ret. setoid_rewrite negb_false_iff.
  setoid_rewrite existsb_elem. split.
  - intros (? & f & Hf & Hne & Hall). split_and!; [done..|]. intros st Hst.
    destruct (Hall st Hst) as (ref & ? & class & ? & ?). exists ref, class. eauto.
  - intros (? & Hne & Hall). split; [done|].
    destruct (authn_statements req) as [|st l] eqn:E; [done|].
    destruct (Hall st ltac:(left)) as (ref & class & ? & ? & f & Hf & ?).
    exists f. split_and!; [done..|]. intros st' Hst'.
    destruct (Hall st' Hst') as (ref' & class' & ? & ? & f' & Hf' & ?).
    assert (f' = f) as -> by congruence. eauto.
Qed.

(** ** Name identifier policies *)

(** The name identifier of an assertion is accepted exactly when it exists, has the
    format of the policy unless that leaves the format open, and has its
    qualifier if it gives one; the encrypted format is never accepted. *)
Theorem EnforceNameIDPolicy_iff req policy
    (Hp : AuthnRequest_NameIDPolicy (Req_Request req) = Some policy) :
  EnforceNameIDPolicy req = Ret () ↔
  ∃ nameID, asserted_name_id req = Some nameID ∧
    (∀ format, NameIDPolicy_Format policy = Some format →
      open_format format = true ∨ format ≠ encryptedNameIDFormat ∧ NameID_Format nameID = format) ∧
    (∀ q, NameIDPolicy_SPNameQualifier policy = Some q → NameID_SPNameQualifier nameID = q).
Proof.
  unfold EnforceNameIDPolicy. rewrite Hp. cbn [deref]. rewrite ret_bind, bind_ret.
  setoid_rewrite or_err_ret. setoid_rewrite bind_ret.
  assert (Hq : ∀ n, match NameIDPolicy_SPNameQualifier policy with
      | None => Ret () | Some q => raise_if (NameID_SPNameQualifier n != q)
          (Errorf "the NameID SPNameQualifier is %q and the request requires %q"
             [AStr (NameID_SPNameQualifier n); AStr q]) end = Ret () ↔
      ∀ q, NameIDPolicy_SPNameQualifier policy = Some q → NameID_SPNameQualifier n = q).
  { intros n. destruct (NameIDPolicy_SPNameQualifier policy) as [q|]; [|naive_solver].
    rewrite raise_if_ret, negb_false_iff, bool_decide_eq_true. naive_solver. }
  setoid_rewrite Hq. clear Hq.
  destruct (NameIDPolicy_Format policy) as [format|]; [|naive_solver].
  destruct (open_format format) eqn:Eo.
  { split; [intros (n & ? & _ & _ & ?); exists n; naive_solver|].
    intros (n & ? & ? & ?). exists n. split; [done|]. by exists (). }
  destruct (bool_decide_reflect (format = encryptedNameIDFormat)) as [->|Hne].
  { split; [intros (n & ? & u & ? & _); done|]. intros (n & ? & Hf & _).
    destruct (Hf _ eq_refl) as [?|[? _]]; congruence. }
  setoid_rewrite raise_if_ret. setoid_rewrite negb_false_iff. setoid_rewrite bool_decide_eq_true.
  split.
  - intros (n & ? & u & ? & ?). exists n. naive_solver.
  - intros (n & ? & Hf & ?). exists n. split; [done|]. exists ().
    split; [|done]. destruct (Hf _ eq_refl) as [Ho|[_ ?]]; [|done].
    by apply bool_decide_eq_false in Eo.
Qed.

(** ** Subjects *)

Section subjects.
Context `{NetI : NetOps}.

(** The asserted confirmation data meets the conditions of the requested. *)
Record data_satisfied (r a : SubjectConfirmationData) : Prop := {
  same_recipient : SubjectConfirmationData_Recipient r = "" ∨
    SubjectConfirmationData_Recipient r = SubjectConfirmationData_Recipient a;
  same_request : SubjectConfirmationData_InResponseTo r = "" ∨
    SubjectConfirmationData_InResponseTo r = SubjectConfirmationData_InResponseTo a;
  same_address : SubjectConfirmationData_Address r = "" ∨
    ∃ ip, ParseAddr (SubjectConfirmationData_Address r) = Ret ip ∧
      ParseAddr (SubjectConfirmationData_Address a) = Ret ip;
  within_start : SubjectConfirmationData_NotBefore r = 0 ∨
    SubjectConfirmationData_NotBefore r <= SubjectConfirmationData_NotBefore a;
  within_end : SubjectConfirmationData_NotOnOrAfter r = 0 ∨
    SubjectConfirmationData_NotOnOrAfter a ≠ 0 ∧
    SubjectConfirmationData_NotOnOrAfter a <= SubjectConfirmationData_NotOnOrAfter r
}.

Lemma sameAddress_spec a b :
  sameAddress a b = true ↔ ∃ ip, ParseAddr a = Ret ip ∧ ParseAddr b = Ret ip.
Proof.
  unfold sameAddress. destruct (ParseAddr a) as [x| |], (ParseAddr b) as [y| |];
    rewrite ?bool_decide_eq_true; naive_solver.
Qed.

Lemma satisfiesConfirmationData_spec r a :
  satisfiesConfirmationData r a = true ↔
  ∀ x, r = Some x → ∃ y, a = Some y ∧ data_satisfied x y.
Proof.
  destruct r as [x|]; [|naive_solver]. destruct a as [y|]; [|naive_solver].
  unfold satisfiesConfirmationData, Time_Before, Time_After, IsZero.
  rewrite !andb_true_iff, !orb_true_iff, !negb_true_iff, !andb_false_iff, !negb_false_iff,
    orb_false_iff, sameAddress_spec, !bool_decide_eq_true, !Z.eqb_eq, Z.eqb_neq, !Z.ltb_ge.
  split.
  - intros H z [= <-]. exists y. split; [done|]. constructor; naive_solver.
  - intros H. destruct (H x eq_refl) as (z & [= <-] & [? ? ? ? ?]). naive_solver.
Qed.

(** A bearer confirmation that [want] accepts. *)
Definition confirms (want have : SubjectConfirmation) : Prop :=
  SubjectConfirmation_Method want = bearerSubjectConfirmationMethod ∧
  SubjectConfirmation_Method have = bearerSubjectConfirmationMethod ∧
  (∀ n, SubjectConfirmation_NameID want = Some n → SubjectConfirmation_NameID have = Some n) ∧
  (∀ x, SubjectConfirmation_SubjectConfirmationData want = Some x →
    ∃ y, SubjectConfirmation_SubjectConfirmationData have = Some y ∧ data_satisfied x y).

Lemma sameNameID_spec r a : sameNameID r a = true ↔ ∀ n, r = Some n → a = Some n.
Proof.
  destruct r as [n|], a as [m|]; simpl; rewrite ?bool_decide_eq_true; naive_solver.
Qed.

Lemma confirmsSubject_spec requested asserted :
  confirmsSubject requested asserted = true ↔
  requested = [] ∨ ∃ want have, want ∈ requested ∧ have ∈ asserted ∧ confirms want have.
Proof.
  unfold confirmsSubject. destruct (bool_decide_reflect (length requested = 0%nat)) as [E|E];
    rewrite length_zero_iff_nil in E; [naive_solver|].
  rewrite existsb_elem. setoid_rewrite andb_true_iff. setoid_rewrite existsb_elem.
  setoid_rewrite andb_true_iff. setoid_rewrite andb_true_iff.
  setoid_rewrite bool_decide_eq_true. setoid_rewrite sameNameID_spec.
  setoid_rewrite satisfiesConfirmationData_spec. unfold confirms. split.
  - intros (want & ? & Hm & have & ? & ([? ?] & ?)). right. exists want, have.
    split_and!; [done..|congruence|done|done].
  - intros [?|(want & have & ? & ? & ? & ? & ? & ?)]; [done|]. exists want. split_and!; [done..|].
    exists have. split_and!; [done|congruence|done..].
Qed.

(** SAMLCore §3.3.4: the asserted identifier strongly matches the requested. *)
Record name_id_matches (r a : NameID) : Prop := {
  match_named : NameID_Value r ≠ "";
  match_value : NameID_Value a = NameID_Value r;
  match_format : open_format (NameID_Format r) = true ∨ NameID_Format a = NameID_Format r;
  match_qualifier : NameID_NameQualifier r = "" ∨ NameID_NameQualifier r = NameID_NameQualifier a;
  match_sp_qualifier : NameID_SPNameQualifier r = "" ∨
    NameID_SPNameQualifier r = NameID_SPNameQualifier a;
  match_provided : NameID_SPProvidedID r = "" ∨ NameID_SPProvidedID r = NameID_SPProvidedID a
}.

Lemma check_qualifier_ret name r a u :
  check_qualifier (name, r, a) = Ret u ↔ r = "" ∨ r = a.
Proof.
  unfold check_qualifier. rewrite raise_if_ret, andb_false_iff, !negb_false_iff, !bool_decide_eq_true.
  done.
Qed.

Lemma check_qualifiers_ret r a u :
  for_each check_qualifier
    [("NameQualifier", NameID_NameQualifier r, NameID_NameQualifier a);
     ("SPNameQualifier", NameID_SPNameQualifier r, NameID_SPNameQualifier a);
     ("SPProvidedID", NameID_SPProvidedID r, NameID_SPProvidedID a)] = Ret u ↔
  (NameID_NameQualifier r = "" ∨ NameID_NameQualifier r = NameID_NameQualifier a) ∧
  (NameID_SPNameQualifier r = "" ∨ NameID_SPNameQualifier r = NameID_SPNameQualifier a) ∧
  (NameID_SPProvidedID r = "" ∨ NameID_SPProvidedID r = NameID_SPProvidedID a).
Proof.
  rewrite for_each_ret. setoid_rewrite elem_of_cons. setoid_rewrite elem_of_cons.
  setoid_rewrite list_elem_of_singleton. split.
  - intros H. split_and!.
    + apply (check_qualifier_ret "NameQualifier" _ _ ()). auto.
    + apply (check_qualifier_ret "SPNameQualifier" _ _ ()). auto.
    + apply (check_qualifier_ret "SPProvidedID" _ _ ()). auto.
  - intros (? & ? & ?) x [->|[->| ->]]; by apply check_qualifier_ret.
Qed.

(** The assertion is accepted for the subject of the request exactly when
    its name identifier strongly matches the requested one, and it can be
    confirmed in the manner of one of the confirmations the request gives, if it
    gives any. *)
Theorem EnforceSubject_iff req subject
    (Hs : AuthnRequest_Subject (Req_Request req) = Some subject) :
  EnforceSubject req = Ret () ↔
  ∃ requested assertedSubject asserted,
    Subject_NameID subject = Some requested ∧
    asserted_subject req = Some assertedSubject ∧
    Subject_NameID assertedSubject = Some asserted ∧
    name_id_matches requested asserted ∧
    (Subject_SubjectConfirmations subject = [] ∨
     ∃ want have, want ∈ Subject_SubjectConfirmations subject ∧
       have ∈ Subject_SubjectConfirmations assertedSubject ∧ confirms want have).
Proof.
  unfold EnforceSubject. rewrite Hs. cbn [deref]. rewrite ret_bind, bind_ret.
  setoid_rewrite or_err_ret. setoid_rewrite raise_if_bind. setoid_rewrite bind_ret.
  setoid_rewrite or_err_ret. setoid_rewrite raise_if_bind. setoid_rewrite raise_if_bind.
  setoid_rewrite bind_ret. setoid_rewrite check_qualifiers_ret. setoid_rewrite bind_ret.
  setoid_rewrite deref_ret. setoid_rewrite raise_if_ret. setoid_rewrite negb_false_iff.
  setoid_rewrite confirmsSubject_spec. unfold asserted_name_id.
  split.
  - intros (r & Hr & Hne & a & Ha & Hv & Hf & u & (Hq1 & Hq2 & Hq3) & s & Hsub & Hc).
    rewrite Hsub in Ha. cbn in Ha. apply andb_false_iff in Hf. bool_prop.
    exists r, s, a. split_and!; [done..| |done]. constructor; try done.
    rewrite !negb_false_iff, bool_decide_eq_true in Hf. done.
  - intros (r & s & a & Hr & Hsub & Ha & [? ? Hf ? ? ?] & Hc).
    exists r. split; [done|]. split; [by apply bool_decide_eq_false|]. exists a.
    rewrite Hsub. split; [done|]. split; [by apply bool_decide_eq_true|].
    split; [apply andb_false_iff; by rewrite !negb_false_iff, bool_decide_eq_true|].
    exists (). split; [done|by exists s].
Qed.
End subjects.

(** ** Agreement with the service provider *)

Section agreement.
Context {W : Type} `{UrlI : UrlOps} `{VarsI : PackageVars} `{NetI : NetOps} `{WorldI : World W}.

Lemma Metadata_EntityID (idp : IdentityProvider W) s s' m :
  Metadata idp s = (s', Ret m) → EntityDescriptor_EntityID m = URL_String (IDP_MetadataURL idp).
Proof.
  unfold Metadata. intros H. apply io_bind_ret in H as (? & ? & _ & H).
  apply io_bind_ret in H as (? & ? & _ & H). unfold mret, IO_ret in H. by injection H as _ <-.
Qed.

(** The parts of the assertion that the service provider looks at. *)
Record made_for (idp : IdentityProvider W) (req : IdpAuthnRequest) (session : Session)
    (sp : EntityDescriptor) (acs : IndexedEndpoint) (a : Assertion) : Prop := {
  made_issuer : Issuer_Value (Assertion_Issuer a) = URL_String (IDP_MetadataURL idp);
  made_subject : ∃ n data, Assertion_Subject a = Some (mkSubject (Some n)
      [mkSubjectConfirmation bearerSubjectConfirmationMethod None (Some data)]) ∧
    NameID_Value n = Session_NameID session ∧ Session_NameID session ≠ "" ∧
    NameID_SPNameQualifier n = EntityDescriptor_EntityID sp ∧
    SubjectConfirmationData_Recipient data = IndexedEndpoint_Location acs ∧
    SubjectConfirmationData_InResponseTo data = AuthnRequest_ID (Req_Request req) ∧
    SubjectConfirmationData_NotOnOrAfter data = Req_Now req + MaxIssueDelay;
  made_conditions : Assertion_Conditions a = Some
    (mkConditions (Req_Now req - MaxClockSkew) (Req_Now req + MaxIssueDelay)
       [mkAudienceRestriction [mkAudience (EntityDescriptor_EntityID sp)]] None None);
  made_statements : Assertion_AttributeStatements a = [] ∨
    ∃ attributes, attributes ≠ [] ∧
      Assertion_AttributeStatements a = [mkAttributeStatement attributes]
}.

Lemma MakeAssertion_ret (idp : IdentityProvider W) req session sp acs s s' a
    (Hsp : Req_ServiceProviderMetadata req = Some sp)
    (Hacs : Req_ACSEndpoint req = Some acs)
    (Hmake : MakeAssertion idp req session s = (s', Ret a)) :
  made_for idp req session sp acs a.
Proof.
  unfold MakeAssertion in Hmake. rewrite Hsp, Hacs in Hmake.
  apply io_bind_ret in Hmake as (s1 & u & Hn & H). apply lift_ret in Hn as [-> Hn].
  apply raise_if_ret in Hn. bool_prop.
  apply io_bind_ret in H as (s2 & d & _ & H). apply io_bind_ret in H as (s3 & id & _ & H).
  apply io_bind_ret in H as (s4 & t & _ & H).
  apply io_bind_ret in H as (s5 & m1 & Hm1 & H). apply Metadata_EntityID in Hm1.
  apply io_bind_ret in H as (s6 & m2 & Hm2 & H). apply Metadata_EntityID in Hm2.
  apply io_bind_ret in H as (s7 & sp' & E & H). apply lift_ret in E as [-> [= <-]].
  apply io_bind_ret in H as (s8 & acs' & E & H). apply lift_ret in E as [-> [= <-]].
  unfold mret, IO_ret in H. injection H as _ <-. constructor; simpl.
  - done.
  - by eexists _, _.
  - done.
  - destruct (bool_decide_reflect (length (attributes d session) = 0%nat)) as [E|E]; [by left|right].
    eexists. split; [|done]. intros E'. apply E. by rewrite E'.
Qed.

(** The default assertion maker issues an assertion for the session's name
    identifier only, to the chosen endpoint, in response to the request, for the
    service provider as its only audience and within the validity window, and
    never an empty attribute statement. *)
Theorem MakeAssertion_made_for (idp : IdentityProvider W) req session sp acs s s' a
    (Hsp : Req_ServiceProviderMetadata req = Some sp)
    (Hacs : Req_ACSEndpoint req = Some acs)
    (Hmake : MakeAssertion idp req session s = (s', Ret a)) :
  made_for idp req session sp acs a.
Proof. by apply (MakeAssertion_ret idp req session sp acs s s'). Qed.

(** The service provider [sp] is configured for this identity provider, with
    [acs] as its endpoint and [md] as its metadata. *)
Record configured_for (idp : IdentityProvider W) (sp : ServiceProvider) (md : EntityDescriptor)
    (acs : IndexedEndpoint) : Prop := {
  conf_issuer : ∃ m, SP_IDPMetadata sp = Some m ∧
    EntityDescriptor_EntityID m = URL_String (IDP_MetadataURL idp);
  conf_acs : IndexedEndpoint_Location acs = URL_String (SP_AcsURL sp);
  conf_audience : EntityDescriptor_EntityID md = sp_audience sp;
  conf_default : SP_ValidateAudienceRestriction sp = None
}.

Lemma MakeAssertion_ok (idp : IdentityProvider W) req session md acs sp ids s s' a now
    (Hmd : Req_ServiceProviderMetadata req = Some md)
    (Hacs : Req_ACSEndpoint req = Some acs)
    (Hmake : MakeAssertion idp req session s = (s', Ret a))
    (Hconf : configured_for idp sp md acs)
    (Hid : AuthnRequest_ID (Req_Request req) ∈ ids)
    (Hissued : Req_Now req <= Assertion_IssueInstant a)
    (Hnow : Req_Now req - 2 * MaxClockSkew <= now <= Req_Now req + MaxIssueDelay)
    (Hskew : 0 <= MaxClockSkew) :
  assertion_ok sp ids now a.
Proof.
  destruct (MakeAssertion_ret idp req session md acs s s' a Hmd Hacs Hmake)
    as [Hi (n & data & Hs & _ & _ & _ & Hrec & Hirt & Hend) Hc _].
  destruct Hconf as [(m & Hm & Hme) Hloc Haud Hdef].
  constructor.
  - lia.
  - exists m. split; [done|congruence].
  - rewrite Hs. eexists _, _. split; [done|]. split; [left|]. constructor; [done|].
    exists data. rewrite Hirt, Hrec, Hend. split_and!; [done|by left|congruence|lia].
  - rewrite Hc. intros c [= <-]. unfold conditions_ok. simpl. lia.
  - unfold audience_ok. rewrite Hdef, Hc. eexists. split_and!; [done|done|].
    simpl. intros r [->|[]%elem_of_nil]%elem_of_cons. eexists. split; [left|done].
Qed.

(** Interoperation. The assertion that the identity provider makes passes
    [validateAssertion] of the service provider it is made for, if the request
    is one that the service provider sent, from two clock skews before the
    request was received until [MaxIssueDelay] after it. *)
Theorem MakeAssertion_accepted (idp : IdentityProvider W) req session md acs sp ids s s' a now
    (Hmd : Req_ServiceProviderMetadata req = Some md)
    (Hacs : Req_ACSEndpoint req = Some acs)
    (Hmake : MakeAssertion idp req session s = (s', Ret a))
    (Hconf : configured_for idp sp md acs)
    (Hid : AuthnRequest_ID (Req_Request req) ∈ ids)
    (Hissued : Req_Now req <= Assertion_IssueInstant a)
    (Hnow : Req_Now req - 2 * MaxClockSkew <= now <= Req_Now req + MaxIssueDelay)
    (Hskew : 0 <= MaxClockSkew) :
  validateAssertion sp a ids now = Ret ().
Proof. apply validateAssertion_ret. by apply (MakeAssertion_ok idp req session md acs sp ids s s'). Qed.
End agreement.

(** ** Witnesses *)

Module Examples.
Import IdpSpec.Examples.

#[local] Existing Instance default_vars.

(** A request with constraints: the exact name, a format and a context. *)
Definition constrained : AuthnRequest :=
  mkAuthnRequest "req1" "2.0" 1000 "https:sso" "" (Some (mkIssuer "" "" "" "" "sp")) None
    (Some (mkSubject (Some (mkNameID "" "" "" "" "alice"))
       [mkSubjectConfirmation bearerSubjectConfirmationMethod None
          (Some (mkSubjectConfirmationData 0 0 "https:acs2" "" "192.0.2.1"))]))
    (Some (mkNameIDPolicy (Some TransientNameIDFormat) (Some "sp") None)) None
    (Some (mkRequestedAuthnContext AuthnContextComparisonMinimum ["weak"] [])) None None "" "" "" "" "".

Definition idp : IdentityProvider Time := the_idp (sp_metadata true false) true.
Definition endpoint : IndexedEndpoint := mkIndexedEndpoint HTTPPostBinding "https:acs2" None 2 (Some true).

Definition request : IdpAuthnRequest :=
  set_Request constrained (Examples.accepted true (sp_metadata true false)).

(** The assertion as the run of [MakeAssertion] gives it. *)
Definition made : outcome Assertion := (MakeAssertion idp request session (1100, [])).2.

Definition the_assertion : Assertion :=
  match made with Ret a => a | _ => zero_Assertion end.

Definition answered : IdpAuthnRequest := set_Assertion the_assertion request.

Definition strengths : DefaultAuthnContextEnforcer :=
  mkDefaultAuthnContextEnforcer (<["weak" := 1]> (<[defaultAuthnContextClassRef := 2]> ∅)).

Example makes_assertion : MakeAssertion idp request session (1100, []) = ((1100, []), Ret the_assertion).
Proof. by vm_compute. Qed.

Lemma EnforceAuthnContext_iff_witness :
  EnforceAuthnContext strengths answered = Ret () ∧
  (EnforceAuthnContext strengths answered = Ret () ↔
   [] = ([] : list string) ∧
   authn_statements answered ≠ [] ∧
   ∀ statement, statement ∈ authn_statements answered →
     ∃ ref class, AuthnContext_AuthnContextClassRef (AuthnStatement_AuthnContext statement) = Some ref ∧
       class ∈ ["weak"] ∧
       context_satisfied strengths AuthnContextComparisonMinimum (AuthnContextClassRef_Value ref) class).
Proof.
  split; [by vm_compute|].
  apply (EnforceAuthnContext_iff strengths answered
    (mkRequestedAuthnContext AuthnContextComparisonMinimum ["weak"] [])). reflexivity.
Defined.

Lemma EnforceNameIDPolicy_iff_witness :
  EnforceNameIDPolicy answered = Ret () ∧
  (EnforceNameIDPolicy answered = Ret () ↔
   ∃ nameID, asserted_name_id answered = Some nameID ∧
     (∀ format, Some TransientNameIDFormat = Some format →
       open_format format = true ∨ format ≠ encryptedNameIDFormat ∧ NameID_Format nameID = format) ∧
     (∀ q, Some "sp" = Some q → NameID_SPNameQualifier nameID = q)).
Proof.
  split; [by vm_compute|].
  apply (EnforceNameIDPolicy_iff answered (mkNameIDPolicy (Some TransientNameIDFormat) (Some "sp") None)).
  reflexivity.
Defined.

Definition subject : Subject :=
  mkSubject (Some (mkNameID "" "" "" "" "alice"))
    [mkSubjectConfirmation bearerSubjectConfirmationMethod None
       (Some (mkSubjectConfirmationData 0 0 "https:acs2" "" "192.0.2.1"))].

Lemma EnforceSubject_iff_witness :
  EnforceSubject answered = Ret () ∧
  (EnforceSubject answered = Ret () ↔
   ∃ requested assertedSubject asserted,
     Subject_NameID subject = Some requested ∧
     asserted_subject answered = Some assertedSubject ∧
     Subject_NameID assertedSubject = Some asserted ∧
     name_id_matches requested asserted ∧
     (Subject_SubjectConfirmations subject = [] ∨
      ∃ want have, want ∈ Subject_SubjectConfirmations subject ∧
        have ∈ Subject_SubjectConfirmations assertedSubject ∧ confirms want have)).
Proof.
  split; [by vm_compute|]. apply (EnforceSubject_iff answered subject). reflexivity.
Defined.

Lemma MakeAssertion_made_for_witness :
  made_for idp request session (sp_metadata true false) endpoint the_assertion.
Proof.
  apply (MakeAssertion_made_for idp request session (sp_metadata true false) endpoint
    (1100, []) (1100, [])); vm_compute; reflexivity.
Defined.

Definition sp : ServiceProvider :=
  mkServiceProvider "sp" None None [] None (url_of "spmetadata") (url_of "acs2") (url_of "slo")
    (Some (entity "https:metadata" 0 0 [] [])) None None None "" 0 None None false "" None "" [] None None.

Lemma MakeAssertion_accepted_witness : validateAssertion sp the_assertion ["req1"] 1200 = Ret ().
Proof.
  apply (MakeAssertion_accepted idp request session (sp_metadata true false) endpoint sp ["req1"]
    (1100, []) (1100, [])).
  - reflexivity.
  - reflexivity.
  - vm_compute. reflexivity.
  - constructor; [eexists; split; reflexivity|reflexivity..].
  - left.
  - vm_compute. discriminate.
  - split; vm_compute; discriminate.
  - vm_compute. discriminate.
Defined.
End Examples.
