(* ===== verification/IdpResponseSpec.v ===== *)
(** * IdpResponseSpec: what the identity provider sends

    Encryption is never skipped for a service provider that asks for it; error
    responses carry no assertion; a passive request never interacts with the
    user; and every page that [ServeSSO] writes is an error response, or a
    successful one for a trusted request whose constraints the assertion meets. *)

From stdpp Require Import base option list gmap strings.
From Stdlib Require Import ZArith Lia Ascii.
From S2P Require Import Prelude Go Duration Encoding Etree C14n Schema SchemaXML Env XmlTree ServiceProvider.
From S2P Require Import DSig Redirect RedirectSpec Http Reference IdentityProvider Assertions IdpResponse IdpSpec.

Open Scope string_scope.
Open Scope Z_scope.

Section spec.
Context {W : Type} `{UrlI : UrlOps} `{VarsI : PackageVars} `{X509I : X509Ops} `{EtreeI : EtreeOps} `{XmlI : XmlOps} `{SigI : SignatureOps} `{CryptoI : CryptoOps} `{FlateI : FlateOps} `{NetI : NetOps} `{WorldI : World W} `{EncI : EncryptOps W} `{TmplI : TemplateOps}.

Implicit Types idp : IdentityProvider W.

(** ** What writes nothing *)

Lemma quiet_TimeNow : quiet (W := W) TimeNow.
Proof. apply quiet_reads. Qed.

Lemma quiet_Clock_Now : quiet (W := W) Clock_Now.
Proof. apply quiet_reads. Qed.

Lemma quiet_redirect_now : quiet (W := W) redirect_now.
Proof. unfold redirect_now. apply quiet_bind; [apply quiet_reads|]. intros. destruct Clock; auto with go. Qed.

Lemma quiet_new_id : quiet (W := W) new_id.
Proof. unfold new_id, randomBytes. auto with go. Qed.

#[local] Hint Resolve quiet_TimeNow quiet_Clock_Now quiet_redirect_now quiet_new_id : go.

Lemma quiet_NewIdpAuthnRequest r : quiet (W := W) (NewIdpAuthnRequest r).
Proof. unfold NewIdpAuthnRequest. solve_quiet. Qed.

Lemma quiet_verify_with el certs err : quiet (W := W) (verify_with el certs err).
Proof. revert el err. induction certs; intros el err; cbn [verify_with]; solve_quiet; auto. Qed.

#[local] Hint Resolve quiet_verify_with : go.

Lemma quiet_Validate idp req : quiet (Validate idp req).
Proof.
  unfold Validate, verifyAuthnRequestSignature, verifyEnvelopedSignature. solve_quiet.
Qed.

Lemma quiet_Metadata idp : quiet (Metadata idp).
Proof. unfold Metadata. solve_quiet. Qed.

#[local] Hint Resolve quiet_Metadata : go.

Lemma quiet_MakeAssertion idp req session : quiet (MakeAssertion idp req session).
Proof. unfold MakeAssertion. solve_quiet. Qed.

#[local] Hint Resolve quiet_MakeAssertion : go.

Lemma quiet_make_assertion idp req session : quiet (make_assertion idp req session).
Proof. unfold make_assertion. solve_quiet. Qed.

Lemma quiet_MakeAssertionEl idp req : quiet (MakeAssertionEl idp req).
Proof. unfold MakeAssertionEl. solve_quiet. Qed.

#[local] Hint Resolve quiet_MakeAssertionEl : go.

Lemma quiet_newResponse idp req status : quiet (newResponse idp req status).
Proof. unfold newResponse. solve_quiet. Qed.

#[local] Hint Resolve quiet_newResponse : go.

Lemma quiet_MakeResponse idp req : quiet (MakeResponse idp req).
Proof. unfold MakeResponse. solve_quiet. Qed.

#[local] Hint Resolve quiet_MakeResponse : go.

Lemma quiet_MakeErrorResponse idp req top second message :
  quiet (MakeErrorResponse idp req top second message).
Proof. unfold MakeErrorResponse. solve_quiet. Qed.

Lemma quiet_PostBinding idp req : quiet (PostBinding idp req).
Proof. unfold PostBinding. solve_quiet. Qed.

#[local] Hint Resolve quiet_NewIdpAuthnRequest quiet_Validate quiet_make_assertion
  quiet_MakeErrorResponse quiet_PostBinding : go.

(** ** The content of responses *)

(** [response] answers the request, at its endpoint, with the given status and
    without an assertion of its own. *)
Record answers (idp : IdentityProvider W) (req : IdpAuthnRequest) (acs : IndexedEndpoint) (status : Status)
    (response : Response) : Prop := {
  ans_status : Response_Status response = status;
  ans_request : Response_InResponseTo response = AuthnRequest_ID (Req_Request req);
  ans_destination : Response_Destination response = IndexedEndpoint_Location acs;
  ans_instant : Response_IssueInstant response = Req_Now req;
  ans_issuer : ∃ i, Response_Issuer response = Some i ∧
    Issuer_Value i = URL_String (IDP_MetadataURL idp);
  ans_plain : Response_Assertion response = None ∧ Response_EncryptedAssertion response = None
}.

Lemma newResponse_ret idp req status s s' response :
  newResponse idp req status s = (s', Ret response) →
  ∃ acs, Req_ACSEndpoint req = Some acs ∧ answers idp req acs status response.
Proof.
  unfold newResponse. intros H. apply io_lift_bind in H as (acs & Hacs & H). rewrite deref_ret in Hacs.
  apply io_bind_ret in H as (s2 & id & _ & H). unfold mret, IO_ret in H. injection H as _ <-.
  exists acs. split; [done|]. constructor; try done. by eexists.
Qed.

Lemma set_ResponseEl_fields o req :
  Req_ACSEndpoint (set_ResponseEl o req) = Req_ACSEndpoint req ∧
  Req_Request (set_ResponseEl o req) = Req_Request req ∧
  Req_ResponseEl (set_ResponseEl o req) = o ∧
  Req_RelayState (set_ResponseEl o req) = Req_RelayState req ∧
  Req_Now (set_ResponseEl o req) = Req_Now req.
Proof. by destruct req. Qed.

Lemma MakeErrorResponse_ret idp req top second message s s' req'
    (Hmake : MakeErrorResponse idp req top second message s = (s', Ret req')) :
  ∃ acs response el,
    Req_ACSEndpoint req = Some acs ∧ top ≠ StatusSuccess ∧
    answers idp req acs (error_status top second message) response ∧
    signResponse idp response None = Ret el ∧
    req' = set_ResponseEl (Some el) (set_ResponseEl None req).
Proof.
  unfold MakeErrorResponse in Hmake.
  apply io_bind_ret in Hmake as (s1 & u1 & Hu & H). apply lift_ret in Hu as [-> _].
  apply io_guard_bind in H as [Htop H]. bool_prop.
  apply io_bind_ret in H as (s3 & response & Hresp & H).
  apply newResponse_ret in Hresp as (acs & Hacs & Hans).
  apply io_lift_bind in H as (el & Hel & H).
  unfold mret, IO_ret in H. injection H as _ <-.
  destruct (set_ResponseEl_fields None req) as (F1 & F2 & _ & _ & F5). rewrite F1 in Hacs.
  exists acs, response, el. split_and!; try done.
  - intros ->. revert Htop. rewrite !elem_of_cons. intros [?|[?|[?|?%elem_of_nil]]]; done.
  - destruct Hans as [? Hr ? Hn ? ?]. rewrite F2 in Hr. rewrite F5 in Hn. by constructor.
Qed.

(** An error response is only made for a validated endpoint and with an error
    status at the top level; it is signed, answers the request at that endpoint
    with the given status, and carries no assertion. *)
Theorem MakeErrorResponse_sound idp req top second message s s' req'
    (Hmake : MakeErrorResponse idp req top second message s = (s', Ret req')) :
  ∃ acs response el,
    Req_ACSEndpoint req = Some acs ∧ top ≠ StatusSuccess ∧
    answers idp req acs (error_status top second message) response ∧
    signResponse idp response None = Ret el ∧
    req' = set_ResponseEl (Some el) (set_ResponseEl None req).
Proof. by apply (MakeErrorResponse_ret idp req top second message s s'). Qed.

(** The form carries the response of the request to its HTTP-POST endpoint. *)
Record form_for (req : IdpAuthnRequest) (acs : IndexedEndpoint) (el : Element)
    (form : IdpAuthnRequestForm) : Prop := {
  form_binding : IndexedEndpoint_Binding acs = HTTPPostBinding;
  form_url : Form_URL form = IndexedEndpoint_Location acs;
  form_relay : Form_RelayState form = Req_RelayState req;
  form_message : ∃ buf, WriteToBytes el = Ret buf ∧ base64_Decode (Form_SAMLResponse form) = Ret buf
}.

Lemma PostBinding_ready idp req el s s' form :
  Req_ResponseEl req = Some el → PostBinding idp req s = (s', Ret form) →
  ∃ acs, Req_ACSEndpoint req = Some acs ∧ form_for req acs el form.
Proof.
  unfold PostBinding. intros He H. rewrite He in H.
  apply io_bind_ret in H as (s1 & req1 & [= _ <-] & H).
  apply io_lift_bind in H as (el' & Hel & H). rewrite deref_ret, He in Hel. injection Hel as <-.
  apply io_lift_bind in H as (buf & Hbuf & H).
  apply io_lift_bind in H as (acs & Hacs & H). rewrite deref_ret in Hacs.
  apply io_bind_ret in H as (s5 & u & Hb & H). unfold mret, IO_ret in H. injection H as _ <-.
  exists acs. split; [done|]. constructor; [|done..|].
  - destruct (bool_decide_reflect (IndexedEndpoint_Binding acs = HTTPPostBinding)); [done|].
    apply io_bind_ret in Hb as (? & ? & _ & Hb). by apply lift_ret in Hb as [_ ?].
  - exists buf. cbn [Form_SAMLResponse]. by rewrite base64_Decode_Encode.
Qed.

Lemma MakeAssertionEl_fields idp req s s' req' :
  MakeAssertionEl idp req s = (s', Ret req') →
  Req_ACSEndpoint req' = Req_ACSEndpoint req ∧ Req_Request req' = Req_Request req ∧
  Req_RelayState req' = Req_RelayState req ∧ Req_Now req' = Req_Now req ∧
  is_Some (Req_AssertionEl req').
Proof.
  unfold MakeAssertionEl. intros H.
  do 6 (apply io_bind_ret in H as (? & ? & _ & H)).
  destruct (getSPEncryptionCert _) as [cert|e|]; [| |by apply lift_ret in H as [_ ?]].
  - do 3 (apply io_bind_ret in H as (? & ? & _ & H)).
    unfold mret, IO_ret in H. injection H as _ <-. destruct req. simpl. by eauto.
  - destruct (e == os_ErrNotExist); [|by apply lift_ret in H as [_ ?]].
    unfold mret, IO_ret in H. injection H as _ <-. destruct req. simpl. by eauto.
Qed.

Lemma PostBinding_answer idp req s s' form
    (Hnone : Req_ResponseEl req = None)
    (Hpost : PostBinding idp req s = (s', Ret form)) :
  ∃ acs response assertionEl el,
    Req_ACSEndpoint req = Some acs ∧
    answers idp req acs success_status response ∧
    (Req_AssertionEl req = Some assertionEl ∨
     ∃ s1 req1, MakeAssertionEl idp req s = (s1, Ret req1) ∧ Req_AssertionEl req1 = Some assertionEl) ∧
    signResponse idp response (Some assertionEl) = Ret el ∧
    form_for req acs el form.
Proof.
  unfold PostBinding in Hpost. rewrite Hnone in Hpost.
  apply io_bind_ret in Hpost as (s1 & req1 & Hmake & H).
  apply io_lift_bind in H as (el & Hel & H). rewrite deref_ret in Hel.
  apply io_lift_bind in H as (buf & Hbuf & H).
  apply io_lift_bind in H as (acs & Hacs & H). rewrite deref_ret in Hacs.
  apply io_bind_ret in H as (s5 & u & Hb & H). unfold mret, IO_ret in H. injection H as _ <-.
  assert (Hbinding : IndexedEndpoint_Binding acs = HTTPPostBinding).
  { destruct (bool_decide_reflect (IndexedEndpoint_Binding acs = HTTPPostBinding)); [done|].
    apply io_bind_ret in Hb as (? & ? & _ & Hb). by apply lift_ret in Hb as [_ ?]. }
  clear Hb. unfold MakeResponse in Hmake. apply io_bind_ret in Hmake as (s6 & req2 & Hreq2 & H).
  apply io_bind_ret in H as (s7 & response & Hresp & H).
  apply newResponse_ret in Hresp as (acs' & Hacs' & [Hst Hr Hd Hn Hi Hp]).
  apply io_lift_bind in H as (el' & Hsign & H).
  unfold mret at 1, IO_ret in H. injection H as _ <-.
  destruct (set_ResponseEl_fields (Some el') req2) as (F1 & F2 & F3 & F4 & F5).
  rewrite F1 in Hacs. rewrite F3 in Hel. injection Hel as ->.
  assert (acs' = acs) as -> by congruence.
  assert (Hsame : ∃ assertionEl, Req_AssertionEl req2 = Some assertionEl ∧
    (Req_AssertionEl req = Some assertionEl ∨ ∃ s1 req1,
      MakeAssertionEl idp req s = (s1, Ret req1) ∧ Req_AssertionEl req1 = Some assertionEl) ∧
    Req_ACSEndpoint req2 = Req_ACSEndpoint req ∧ Req_Request req2 = Req_Request req ∧
    Req_RelayState req2 = Req_RelayState req ∧ Req_Now req2 = Req_Now req).
  { destruct (Req_AssertionEl req) as [e|] eqn:Ee.
    - unfold mret, IO_ret in Hreq2. injection Hreq2 as _ <-. exists e. naive_solver.
    - destruct (MakeAssertionEl_fields _ _ _ _ _ Hreq2) as (? & ? & ? & ? & [e He]).
      exists e. split_and!; [done| |done..]. right. eauto. }
  destruct Hsame as (e & He & Horigin & G1 & G2 & G3 & G4). rewrite He in Hsign.
  exists acs, response, e, el. split_and!; [congruence| |done|done|].
  - constructor; [done|congruence|done|congruence|done|done].
  - constructor; simpl; [done|done|congruence|]. exists buf. by rewrite base64_Decode_Encode.
Qed.

(** The form of a request without an error response carries a signed response
    with the status Success, which answers that request and contains its
    assertion, to the location of its HTTP-POST endpoint. *)
Theorem PostBinding_success idp req s s' form
    (Hnone : Req_ResponseEl req = None)
    (Hpost : PostBinding idp req s = (s', Ret form)) :
  ∃ acs response assertionEl el,
    Req_ACSEndpoint req = Some acs ∧
    answers idp req acs success_status response ∧
    (Req_AssertionEl req = Some assertionEl ∨
     ∃ s1 req1, MakeAssertionEl idp req s = (s1, Ret req1) ∧ Req_AssertionEl req1 = Some assertionEl) ∧
    signResponse idp response (Some assertionEl) = Ret el ∧
    form_for req acs el form.
Proof. by apply (PostBinding_answer idp req s s'). Qed.

(** ** Pages *)

(** The page carries the signed response with the status and the assertion, which
    answers the request, in a form to the location of its endpoint. *)
Definition carries idp (req : IdpAuthnRequest) (acs : IndexedEndpoint) (status : Status)
    (assertionEl : option Element) (data : string) : Prop :=
  ∃ response el form, answers idp req acs status response ∧ signResponse idp response assertionEl = Ret el ∧
    form_for req acs el form ∧ response_template idp form = Ret data.

Definition no_cache : list Event :=
  [HeaderSet "Cache-Control" "no-cache, no-store"; HeaderSet "Pragma" "no-cache"].

(** The page of a request: the template applied to its form. *)
Definition page idp (req : IdpAuthnRequest) (data : string) : Prop :=
  ∃ s s' form, PostBinding idp req s = (s', Ret form) ∧ response_template idp form = Ret data.

(** The page of an error response. *)
Definition error_page idp (req : IdpAuthnRequest) (top second data : string) : Prop :=
  ∃ s s' req', MakeErrorResponse idp req top second "" s = (s', Ret req') ∧ page idp req' data.

Definition is_response (e : Event) : bool :=
  match e with BodyWrite _ | HttpError _ | HttpErrorOf _ _ | HttpNotFound | HttpRedirect _ _ | WriteHeader _ => true | _ => false end.

Lemma writes_page data :
  writes (W := W) (_ ← setNoCacheHeaders; w_Write data) (λ new o, new = (no_cache ++ [BodyWrite data])%list).
Proof.
  unfold setNoCacheHeaders, w_Write. eapply (writes_bind _ _ (λ new o, new = no_cache ∧ o = Ret ())).
  - apply writes_emit_bind. by apply writes_emit.
  - intros new [] [-> _]. apply writes_emit_bind.
    eapply writes_weaken; [apply quiet_effect|]. by intros new o ->.
  - by intros new e [_ ?].
  - by intros new [_ ?].
Qed.

Lemma writes_WriteResponse idp req :
  writes (WriteResponse idp req) (λ new o,
    (new = [] ∧ o ≠ Ret ()) ∨ ∃ data, new = (no_cache ++ [BodyWrite data])%list ∧ page idp req data).
Proof.
  unfold WriteResponse. apply writes_quiet_bind; [auto with go| |by left..]. intros form s s' Hform.
  apply writes_quiet_bind; [auto with go| |by left..]. intros data s1 s1' [_ Hdata]%lift_ret.
  eapply writes_weaken; [apply writes_page|]. intros new o ->. right. exists data. split; [done|]. by exists s, s', form.
Qed.

(** What the handlers add: at least one response, unless they panic, and no
    body but such as [P] holds of. *)
Definition serves (P : string → Prop) (new : list Event) (o : outcome ()) : Prop :=
  (∀ data, BodyWrite data ∈ new → P data) ∧
  (o = Panic ∨ o = Ret () ∧ existsb is_response new = true).

Lemma serves_weaken (P Q : string → Prop) new o :
  (∀ data, P data → Q data) → serves P new o → serves Q new o.
Proof. intros HPQ [? ?]. split; auto. Qed.

Lemma writes_log_error (P : string → Prop) format args err code :
  writes (W := W) (_ ← log format args err; http_error code) (serves P).
Proof.
  unfold log, http_error. apply writes_emit_bind, writes_emit. split; [|by right].
  intros data. rewrite !elem_of_cons. intros [?|[?|?%elem_of_nil]]; done.
Qed.

Lemma writes_or_internal_error (m : IO W ()) (P : string → Prop) :
  writes m (λ new o, (new = [] ∧ o ≠ Ret ()) ∨ ∃ data, new = (no_cache ++ [BodyWrite data])%list ∧ P data) →
  writes (or_internal_error m) (serves P).
Proof.
  assert (Hdata : ∀ data : string, P data → ∀ d l, (∀ d', BodyWrite d' ∈ l → P d') →
    BodyWrite d ∈ (no_cache ++ [BodyWrite data] ++ l)%list → P d).
  { intros data HP d l Hl. rewrite !elem_of_app, list_elem_of_singleton. unfold no_cache.
    rewrite !elem_of_cons. intros [[?|[?|?%elem_of_nil]]|[[= ->]|?]]; try done. auto. }
  assert (Hone : ∀ data : string, P data → ∀ d,
    BodyWrite d ∈ (no_cache ++ [BodyWrite data])%list → P d).
  { intros data HP d. apply (Hdata data HP d []). by intros d' ?%elem_of_nil. }
  intros Hm. eapply writes_on_result; [exact Hm|..].
  - intros new [] [[_ ?]|(data & -> & HP)]; [done|]. apply writes_ret. rewrite app_nil_r.
    split; [by apply Hone|by right].
  - intros new e Hnew. eapply writes_weaken; [apply (writes_log_error P)|].
    intros new' o [Hb Ho]. destruct Hnew as [[-> _]|(data & -> & HP)]; [by split|].
    split; [intros d; rewrite <- app_assoc; by apply (Hdata data HP)|].
    destruct Ho as [->|[-> _]]; [by left|right]. by rewrite existsb_app.
  - intros new [[-> _]|(data & -> & HP)]; (split; [|by left]).
    + by intros d ?%elem_of_nil.
    + by apply Hone.
Qed.

Lemma writes_WriteErrorResponse idp req top second :
  writes (or_internal_error (WriteErrorResponse idp req top second "")) (serves (error_page idp req top second)).
Proof.
  apply writes_or_internal_error. unfold WriteErrorResponse.
  apply writes_quiet_bind; [auto with go| |by left..]. intros req' s s' Hmake.
  eapply writes_weaken; [apply writes_WriteResponse|]. intros new o [?|(data & -> & Hp)]; [by left|].
  right. exists data. split; [done|]. by exists s, s', req'.
Qed.

(** ** ServeSSO *)

(** The contract of [GetSession] and [GetForcedSession]: if they return nil, they
    have completed the HTTP request. The bodies they write satisfy [login]. *)
Definition provider_contract (login : string → Prop) (h : St W → St W * option (option Session)) : Prop :=
  writes (handle h) (λ new o, (∀ data, BodyWrite data ∈ new → login data) ∧
    ∀ x, o = Ret x → x = None → existsb is_response new = true).

(** The error responses of [getSession] and of the enforcers. *)
Definition refusals : list (string * string) :=
  [(StatusResponder, StatusNoPassive); (StatusResponder, StatusAuthnFailed);
   (StatusRequester, StatusInvalidNameIDPolicy); (StatusResponder, StatusNoAuthnContext)].

Definition refusal_page idp (req : IdpAuthnRequest) (data : string) : Prop :=
  ∃ acs top second, (top, second) ∈ refusals ∧ Req_ACSEndpoint req = Some acs ∧
    carries idp req acs (error_status top second "") None data.

(** The enforcer of a constraint that is set accepted the assertion of the request:
    it took the state [s] to [s']. *)
Definition enforced {X} (constraint : option X) (enforcer : Enforcer W) (req : IdpAuthnRequest)
    (session : Session) (s s' : St W) : Prop :=
  if constraint then effect (enforcer req session) s = (s', Ret ()) else s' = s.

Definition constraints_met idp (req : IdpAuthnRequest) (session : Session) (s s' : St W) : Prop :=
  ∃ s1 s2,
    enforced (AuthnRequest_Subject (Req_Request req)) (subject_enforcer idp) req session s s1 ∧
    enforced (AuthnRequest_NameIDPolicy (Req_Request req)) (name_id_policy_enforcer idp) req session s1 s2 ∧
    enforced (AuthnRequest_RequestedAuthnContext (Req_Request req)) (authn_context_enforcer idp) req session s2 s'.

(** The pages of [ServeSSO] for the HTTP request [r] in the state [s]: the request is
    the one that is received and validated in this run, the session the one that the
    session provider then returns, and the assertion the one that is made for it and
    that the enforcers accept. *)
Inductive sso_page idp (r : HTTPRequest) (login : string → Prop) (s : St W) (data : string) : Prop :=
  | sso_login : login data → sso_page idp r login s data
  | sso_refused s1 received s2 req :
      NewIdpAuthnRequest r s = (s1, Ret received) → Validate idp received s1 = (s2, Ret req) →
      request_trusted idp received req → refusal_page idp req data →
      sso_page idp r login s data
  | sso_success s1 received s2 req s3 session s4 req1 s5 s6 req2 acs assertionEl :
      NewIdpAuthnRequest r s = (s1, Ret received) → Validate idp received s1 = (s2, Ret req) →
      request_trusted idp received req →
      getSession idp r req s2 = (s3, Ret (Some session)) →
      make_assertion idp req session s3 = (s4, Ret req1) →
      constraints_met idp req1 session s4 s5 →
      MakeAssertionEl idp req1 s5 = (s6, Ret req2) → Req_AssertionEl req2 = Some assertionEl →
      Req_ACSEndpoint req = Some acs →
      carries idp req acs success_status (Some assertionEl) data →
      sso_page idp r login s data.

(** What changes in a request with its assertion. *)
Record same_request (req req' : IdpAuthnRequest) : Prop := {
  same_content : Req_Request req' = Req_Request req;
  same_endpoint : Req_ACSEndpoint req' = Req_ACSEndpoint req;
  same_relay : Req_RelayState req' = Req_RelayState req;
  same_now : Req_Now req' = Req_Now req
}.

Lemma same_set_Assertion a req : same_request req (set_Assertion a req).
Proof. by destruct req. Qed.

Lemma carries_same idp req req' acs status a data :
  same_request req req' → carries idp req' acs status a data → carries idp req acs status a data.
Proof.
  intros [H1 H2 H3 H4] (response & el & form & [? Hr ? Hn ? ?] & Hs & [? ? Hrel ?] & Ht).
  exists response, el, form. split_and!; [|done| |done].
  - constructor; try done; congruence.
  - constructor; try done; congruence.
Qed.

Lemma refusal_same idp req req' data : same_request req req' → refusal_page idp req' data → refusal_page idp req data.
Proof.
  intros Hs (acs & top & second & ? & Ha & Hc). exists acs, top, second.
  split_and!; [done|by rewrite <- (same_endpoint _ _ Hs)|by eapply carries_same].
Qed.

Lemma handle_ret {A} (h : St W → St W * option A) s s' o :
  handle h s = (s', o) → o = Panic ∨ ∃ x, o = Ret x.
Proof. unfold handle. destruct (h s) as [? [a|]]; intros [= _ <-]; [right; by eexists|by left]. Qed.

Lemma refusal_intro idp req top second data :
  (top, second) ∈ refusals → error_page idp req top second data → refusal_page idp req data.
Proof.
  intros Hin (s & s' & req' & Hmake & s1 & s1' & form & Hpost & Ht).
  apply MakeErrorResponse_ret in Hmake as (acs & response & el & Hacs & _ & Hans & Hsign & ->).
  apply (PostBinding_ready _ _ el) in Hpost as (acs' & Hacs' & Hform); [|by destruct req].
  assert (acs' = acs) as -> by (destruct req; simpl in *; congruence).
  exists acs, top, second. split_and!; [done..|]. exists response, el, form. split_and!; [done..| |done].
  destruct Hform as [? ? Hrel ?]. constructor; try done. by destruct req.
Qed.

(** What [getSession] adds, and that it ends in an answer or a session. *)
Definition session_result idp req (login : string → Prop) (new : list Event)
    (o : outcome (option Session)) : Prop :=
  (∀ data, BodyWrite data ∈ new → login data ∨ refusal_page idp req data) ∧
  (o = Panic ∨ ∃ x, o = Ret x ∧ (x = None → existsb is_response new = true)).

Lemma writes_handle idp req login h :
  provider_contract login h → writes (handle h) (session_result idp req login).
Proof.
  intros Hh. eapply writes_weaken; [apply writes_run, Hh|].
  intros new o [[Hb Ho] (s & s' & [->|[x ->]]%handle_ret)]; (split; [by auto|]); [by left|right; eauto].
Qed.

Lemma writes_writeErrorStatus idp req login second :
  (StatusResponder, second) ∈ refusals →
  writes (_ ← writeErrorStatus idp req second; mret None) (session_result idp req login).
Proof.
  intros Hin. eapply writes_bind; [apply writes_WriteErrorResponse|..].
  - intros new [] [Hb Ho]. apply writes_ret. rewrite app_nil_r. split; [eauto using refusal_intro|].
    right. exists None. naive_solver.
  - intros new e [_ [?|[? _]]]; done.
  - intros new [Hb _]. split; [eauto using refusal_intro|by left].
Qed.

Lemma writes_getSession idp r req login :
  (∀ req, provider_contract login (GetSession (IDP_SessionProvider idp) r req)) →
  (∀ get req, GetForcedSession (IDP_SessionProvider idp) = Some get → provider_contract login (get r req)) →
  writes (getSession idp r req) (session_result idp req login).
Proof.
  intros Hget Hforced. unfold getSession. destruct (is_true _); [|destruct (is_true _)].
  - assert (Hx : ∀ x, writes
        (_ ← match x with None => writeErrorStatus idp req StatusNoPassive | Some _ => mret () end; mret x)
        (session_result idp req login)).
    { intros [session|]; [|apply writes_writeErrorStatus; unfold refusals; set_solver].
      apply writes_ret_bind, writes_ret. split; [by intros ? ?%elem_of_nil|]. right. by eexists. }
    destruct (GetPassiveSession _) as [get|]; [|by apply writes_ret_bind].
    apply (writes_bind _ _ (λ new o, new = [] ∧ (o = Panic ∨ ∃ x, o = Ret x))).
    + apply writes_reads_bind. intros x. apply writes_lift. split; [done|].
      destruct x; [right; by eexists|by left].
    + intros new x [-> _]. apply Hx.
    + by intros new e [_ [?|[? ?]]].
    + intros new [-> _]. split; [by intros ? ?%elem_of_nil|by left].
  - destruct (GetForcedSession _) as [get|] eqn:E.
    + apply writes_handle. eauto.
    + apply writes_writeErrorStatus. unfold refusals. set_solver.
  - by apply writes_handle.
Qed.

(** *** One run *)

(** [Q] holds of the events that [m] adds in the state [s] and of its outcome. *)
Definition ran {A} (m : IO W A) (s : St W) (Q : list Event → outcome A → Prop) : Prop :=
  ∃ new, (m s).1.2 = (s.2 ++ new)%list ∧ Q new (m s).2.

Lemma ran_quiet_on_result {A} (m : IO W A) (k : A → IO W ()) h s P :
  quiet m → (∀ s' a, m s = (s', Ret a) → ran (k a) s' (serves P)) → (∀ e, writes (h e) (serves P)) →
  ran (on_result m k h) s (serves P).
Proof.
  intros Hm Hk Hh. unfold ran, on_result. destruct (m s) as [s1 [a|e|]] eqn:E;
    pose proof (quiet_events m s s1 _ Hm E) as Hs; rewrite <- Hs.
  - by apply Hk.
  - apply Hh.
  - exists []. rewrite app_nil_r. split; [done|]. split; [by intros ? ?%elem_of_nil|by left].
Qed.

(** A part that wrote only what it may, before the rest. *)
Lemma served_more P (s s1 : St W) new (res : St W * outcome ()) :
  s1.2 = (s.2 ++ new)%list → (∀ data, BodyWrite data ∈ new → P data) →
  (∃ more, res.1.2 = (s1.2 ++ more)%list ∧ serves P more res.2) →
  ∃ new, res.1.2 = (s.2 ++ new)%list ∧ serves P new res.2.
Proof.
  intros Hs Hb (more & Hm & [Hb' Ho]). exists (new ++ more)%list. rewrite Hm, Hs, app_assoc. split; [done|]. split.
  - intros data [?|?]%elem_of_app; [by apply Hb|by apply Hb'].
  - destruct Ho as [?|[? Hr]]; [by left|right]. by rewrite existsb_app, Hr, orb_true_r.
Qed.

(** The answer of a refused request. *)
Lemma writes_refusal idp req message top second e (k : IO W ()) P :
  (top, second) ∈ refusals → (∀ data, refusal_page idp req data → P data) →
  writes (returned ← (_ ← log message [] (Some e);
      _ ← or_internal_error (WriteErrorResponse idp req top second ""); mret true); unless returned k) (serves P).
Proof.
  intros Hin Hpage.
  assert (Hsplit : ∀ data new, BodyWrite data ∈ (LogPrintf message [] (Some e) :: new) →
    BodyWrite data ∈ new) by (by intros data new [?|?]%elem_of_cons).
  eapply (writes_bind _ _ (λ new o, (o = Panic ∨ o = Ret true ∧ existsb is_response new = true) ∧
    ∀ data, BodyWrite data ∈ new → P data)).
  - apply writes_emit_bind. eapply writes_bind; [apply writes_WriteErrorResponse|..].
    + intros new [] [Hb Ho]. apply writes_ret. rewrite app_nil_r.
      split; [right; split; [done|naive_solver]|]. intros data ?%Hsplit. eauto using refusal_intro.
    + intros new e' [_ [?|[? _]]]; done.
    + intros new [Hb _]. split; [by left|]. intros data ?%Hsplit. eauto using refusal_intro.
  - intros new [|] [[?|[? Hn]] Hb]; try done. apply writes_ret. rewrite app_nil_r. split; [done|by right].
  - intros new e' [[?|[? _]] _]; done.
  - intros new [_ Hb]. split; [done|by left].
Qed.

(** The block of an enforcer: it went on because the constraint is met, or it
    answered with a refusal. *)
Lemma ran_refused {X} idp req session (constraint : option X) enforcer message top second (k : IO W ()) s P :
  (top, second) ∈ refusals → (∀ data, refusal_page idp req data → P data) →
  (∀ s', enforced constraint enforcer req session s s' → ran k s' (serves P)) →
  ran (returned ← refused idp req session (bool_decide (is_Some constraint)) enforcer message top second;
       unless returned k) s (serves P).
Proof.
  intros Hin Hpage Hk. unfold refused. destruct constraint as [x|].
  2: { rewrite (bool_decide_false (is_Some None)) by by intros [? ?]. by apply Hk. }
  rewrite (bool_decide_true (is_Some (Some x))) by by eexists.
  pose proof (writes_refusal idp req message top second) as Hw.
  unfold ran, on_result, mbind, IO_bind. cbv beta.
  destruct (effect (enforcer req session) s) as [s1 [[]|e|]] eqn:E;
    pose proof (quiet_events _ s s1 _ (quiet_effect _) E) as Hs; rewrite <- Hs.
  - by apply Hk.
  - exact (Hw e k P Hin Hpage s1).
  - exists []. rewrite app_nil_r. split; [done|]. split; [by intros ? ?%elem_of_nil|by left].
Qed.

(** The page of a run of [WriteResponse]. *)
Lemma ran_WriteResponse idp req s (P : string → Prop) :
  (∀ s' form data, PostBinding idp req s = (s', Ret form) → response_template idp form = Ret data → P data) →
  ran (or_internal_error (WriteResponse idp req)) s (serves P).
Proof.
  intros HP. unfold ran, or_internal_error, on_result, WriteResponse, mbind, IO_bind.
  destruct (PostBinding idp req s) as [s1 [form|e|]] eqn:E;
    pose proof (quiet_events _ s s1 _ (quiet_PostBinding idp req) E) as Hs; rewrite <- Hs.
  - unfold lift. destruct (response_template idp form) as [data|e|] eqn:Ht.
    + pose proof (writes_or_internal_error _ P (writes_weaken _ _ _ (writes_page data)
        (λ new o Hn, or_intror (ex_intro _ data (conj Hn (HP _ _ _ eq_refl Ht))))) s1) as H. exact H.
    + apply writes_log_error.
    + exists []. rewrite app_nil_r. split; [done|]. split; [by intros ? ?%elem_of_nil|by left].
  - apply writes_log_error.
  - exists []. rewrite app_nil_r. split; [done|]. split; [by intros ? ?%elem_of_nil|by left].
Qed.

Lemma readRedirectQuery_ret r now q req :
  readRedirectQuery r now q = Ret req →
  ∃ buf relayState signedQuery, readRedirectRequest q = Ret (buf, relayState, signedQuery) ∧
    req = empty_request r relayState buf signedQuery now.
Proof.
  unfold readRedirectQuery. intros ([[buf rs] sq] & Hr & [= <-])%bind_ret. eauto.
Qed.

(** A new request is one of the two bindings, with nothing decided about it. *)
Lemma NewIdpAuthnRequest_ret r s s' req :
  NewIdpAuthnRequest (W := W) r s = (s', Ret req) →
  ∃ relayState buf signedQuery now, req = empty_request r relayState buf signedQuery now ∧
    (signedQuery = "" ∨ ∃ q, readRedirectRequest q = Ret (buf, relayState, signedQuery)).
Proof.
  unfold NewIdpAuthnRequest. intros H.
  apply io_bind_ret in H as (s1 & now & _ & H). apply lift_ret in H as [_ H].
  destruct (HTTPRequest_Method r == "GET").
  { apply readRedirectQuery_ret in H as (buf & rs & sq & Hr & ->). eauto 8. }
  destruct (HTTPRequest_Method r == "POST"); [|done].
  apply bind_ret in H as (form & _ & H). destruct (_ != _).
  - apply readRedirectQuery_ret in H as (buf & rs & sq & Hr & ->). eauto 8.
  - apply bind_ret in H as (b & _ & [= <-]). eauto 8.
Qed.

Lemma NewIdpAuthnRequest_fresh r s s' req :
  NewIdpAuthnRequest (W := W) r s = (s', Ret req) →
  Req_AssertionEl req = None ∧ Req_ResponseEl req = None.
Proof. by intros (? & ? & ? & ? & -> & _)%NewIdpAuthnRequest_ret. Qed.

(** After the assertion is made: the enforcers, and the response. *)
Lemma ran_answer idp r login s s1 received s2 req s3 session s4 req1 :
  NewIdpAuthnRequest r s = (s1, Ret received) → Validate idp received s1 = (s2, Ret req) →
  request_trusted idp received req → getSession idp r req s2 = (s3, Ret (Some session)) →
  make_assertion idp req session s3 = (s4, Ret req1) → Req_AssertionEl req = None → Req_ResponseEl req = None →
  ran (
    let request := Req_Request req1 in
    returned ← refused idp req1 session (bool_decide (is_Some (AuthnRequest_Subject request)))
      (subject_enforcer idp) "cannot match the request subject: %s" StatusResponder StatusAuthnFailed;
    unless returned (
    returned ← refused idp req1 session (bool_decide (is_Some (AuthnRequest_NameIDPolicy request)))
      (name_id_policy_enforcer idp) "cannot satisfy name id policy: %s" StatusRequester StatusInvalidNameIDPolicy;
    unless returned (
    returned ← refused idp req1 session (bool_decide (is_Some (AuthnRequest_RequestedAuthnContext request)))
      (authn_context_enforcer idp) "cannot satisfy requested authn context: %s" StatusResponder StatusNoAuthnContext;
    unless returned (or_internal_error (WriteResponse idp req1)))))
    s4 (serves (sso_page idp r login s)).
Proof.
  intros Hnew Hval Htr Hsession Hmake Hae Hre.
  pose proof Hmake as Hsame. unfold make_assertion in Hsame. apply io_bind_ret in Hsame as (s' & a & _ & Hsame).
  unfold mret, IO_ret in Hsame. injection Hsame as _ Hreq1.
  assert (Hs : same_request req req1) by (rewrite <- Hreq1; apply same_set_Assertion).
  assert (Hnone : Req_AssertionEl req1 = None ∧ Req_ResponseEl req1 = None)
    by (rewrite <- Hreq1; clear - Hae Hre; destruct req; done).
  assert (Hpage : ∀ data, refusal_page idp req1 data → sso_page idp r login s data).
  { intros data Hd. eapply sso_refused; [done..|]. by eapply refusal_same. }
  apply ran_refused; [unfold refusals; set_solver|done|]. intros sa Hsubject.
  apply ran_refused; [unfold refusals; set_solver|done|]. intros sb Hpolicy.
  apply ran_refused; [unfold refusals; set_solver|done|]. intros s5 Hcontext.
  apply ran_WriteResponse. intros s6 form data Hpost Ht.
  destruct Hnone as [Hae1 Hre1].
  apply (PostBinding_answer idp req1 s5 s6) in Hpost as (acs & response & assertionEl & el & Hacs & Hans & Hmade & Hsign & Hform); [|done].
  destruct Hmade as [Hmade|(s7 & req2 & Hel & Hmade)]; [by rewrite Hae1 in Hmade|].
  eapply (sso_success idp r login s data s1 received s2 req s3 session s4 req1 s5 s7 req2 acs assertionEl); try done.
  - by exists sa, sb.
  - by rewrite <- (same_endpoint _ _ Hs).
  - eapply carries_same; [exact Hs|]. by exists response, el, form.
Qed.

(** C17: safety of single sign-on. Whatever request arrives, [ServeSSO] answers it, unless it
    panics; and every page it writes is a login page of the session provider or carries a
    signed message that answers the very request that was received and validated in this
    run, with its relay state, in a form to the location of the endpoint that [Validate]
    chose for it: a refusal without an assertion, or the response to a request for which each
    constraint it sets was met, with the assertion that was made for the session that
    the session provider returned, encrypted as [MakeAssertionEl] does it. *)
Theorem ServeSSO_pages idp r login s
    (Hget : ∀ req, provider_contract login (GetSession (IDP_SessionProvider idp) r req))
    (Hforced : ∀ get req, GetForcedSession (IDP_SessionProvider idp) = Some get →
      provider_contract login (get r req)) :
  ∃ new, (ServeSSO idp r s).1.2 = (s.2 ++ new)%list ∧ serves (sso_page idp r login s) new (ServeSSO idp r s).2.
Proof.
  unfold ServeSSO. apply ran_quiet_on_result; [auto with go| |intros e; apply writes_log_error].
  intros s1 received Hnew. pose proof (NewIdpAuthnRequest_fresh _ _ _ _ Hnew) as [Hfresh1 Hfresh2].
  apply ran_quiet_on_result; [auto with go| |intros e; apply writes_log_error].
  intros s2 req Hval. pose proof (Validate_ret _ _ _ _ _ Hval) as Htr.
  destruct (trusted_rest _ _ _ Htr) as (_ & _ & _ & Hae & Hre). rewrite Hfresh1 in Hae. rewrite Hfresh2 in Hre.
  destruct (writes_getSession idp r req login Hget Hforced s2) as (new & Hnew2 & Hb & Ho).
  assert (Hb' : ∀ data, BodyWrite data ∈ new → sso_page idp r login s data).
  { intros data Hd. destruct (Hb data Hd); [by apply sso_login|by eapply sso_refused]. }
  unfold ran. unfold mbind, IO_bind. cbv beta.
  destruct (getSession idp r req s2) as [s3 [[session|]|e|]] eqn:Hsession; cbn [fst snd] in Hnew2, Ho.
  - apply (served_more _ _ s3 new); [done..|].
    apply ran_quiet_on_result; [auto with go| |intros e; apply writes_log_error].
    intros s4 req1 Hmake. by eapply ran_answer.
  - exists new. split; [done|]. split; [done|]. right. destruct Ho as [?|(x & [= <-] & Hr)]; [done|by auto].
  - destruct Ho as [?|(x & ? & _)]; done.
  - exists new. split; [done|]. split; [done|by left].
Qed.

(** ** Requests signed in the query *)

(** The HTTP-Redirect binding processes what was signed. If the signature of
    the query of a new request verifies, its message is the inflated form of the
    very parameter that the signature covers, and so is its relay state, however
    the query is written. *)
Theorem redirect_request_signed r s s' req certs now
    (Hnew : NewIdpAuthnRequest (W := W) r s = (s', Ret req))
    (Hquery : Req_RedirectQuery req ≠ "")
    (Hverify : verifyRedirectSignature (Req_RedirectQuery req) "SAMLRequest" certs now = Ret ()) :
  ∃ parameters raw message compressed,
    redirectParameters (Req_RedirectQuery req) = Ret parameters ∧
    parameters !! "SAMLRequest" = Some raw ∧
    (message = "" ∨ QueryUnescape raw = Ret message) ∧
    base64_Decode message = Ret compressed ∧
    safer_ReadAll (Some (maxAuthnRequestSize + 1)) compressed = Ret (Req_RequestBuffer req) ∧
    (Req_RelayState req = "" ∨ ∃ raw', parameters !! "RelayState" = Some raw' ∧
      QueryUnescape raw' = Ret (Req_RelayState req)).
Proof.
  apply NewIdpAuthnRequest_ret in Hnew as (rs & buf & sq & t & -> & [->|(q & Hr)]); [done|].
  unfold readRedirectRequest in Hr. apply bind_ret in Hr as (compressed & Hd & Hr).
  apply bind_ret in Hr as (b & Hread & Hr). apply bind_ret in Hr as ([] & _ & [= -> <- Hsq]).
  rewrite map_err_ret in Hd. rewrite map_err_ret in Hread.
  assert (sq = q) as ->. { simpl in Hquery. destruct (_ || _); congruence. }
  unfold verifyRedirectSignature in Hverify. apply bind_ret in Hverify as (m & Hm & Hv).
  apply bind_ret in Hv as ([] & Hkeys & _). rewrite for_each_ret in Hkeys.
  specialize (Hkeys "SAMLRequest" ltac:(left)). apply raise_if_ret in Hkeys. bool_prop.
  destruct Hkeys as [raw Hraw]. simpl in Hm.
  assert (Hagree : ∀ key, key ∈ signature_keys →
    values_Get (ParseQuery q).1 key = "" ∨
    ∃ raw, m !! key = Some raw ∧ QueryUnescape raw = Ret (values_Get (ParseQuery q).1 key)).
  { intros key Hkey. unfold values_Get.
    destruct (first_that _ (ParseQuery q).1) as [[k v]|] eqn:E; [right|by left].
    apply first_that_elem in E as [Hin Hk]. bool_prop. subst k.
    by eapply redirect_loop_agrees. }
  exists m, raw, (values_Get (ParseQuery q).1 "SAMLRequest"), compressed.
  split_and!; [done..| |done|done|apply Hagree; unfold signature_keys; set_solver].
  destruct (Hagree "SAMLRequest") as [?|(raw' & ? & ?)]; [unfold signature_keys; set_solver|by left|].
  right. congruence.
Qed.

(** ** Encryption *)

(** The descriptors of the service provider that may hold an encryption key. *)
Definition sp_descriptors (d : SPSSODescriptor) (metadata : option EntityDescriptor)
    : list SPSSODescriptor :=
  d :: match metadata with None => [] | Some m => EntityDescriptor_SPSSODescriptors m end.

Lemma serviceProviderAcceptsEncryption_false d metadata :
  serviceProviderAcceptsEncryption d metadata = false ↔
  ∀ d' k, d' ∈ sp_descriptors d metadata → k ∈ sp_key_descriptors d' → KeyDescriptor_Use k = "signing".
Proof.
  unfold serviceProviderAcceptsEncryption. fold (sp_descriptors d metadata).
  rewrite existsb_false. setoid_rewrite existsb_false.
  setoid_rewrite negb_false_iff. setoid_rewrite bool_decide_eq_true. naive_solver.
Qed.

Lemma getSPEncryptionCert_none req :
  getSPEncryptionCert req = Err os_ErrNotExist →
  ∃ d, Req_SPSSODescriptor req = Some d ∧
    serviceProviderAcceptsEncryption d (Req_ServiceProviderMetadata req) = false.
Proof.
  unfold getSPEncryptionCert. intros [H|(d & Hd & H)]%bind_err.
  { by destruct (Req_SPSSODescriptor req). }
  rewrite deref_ret in Hd. exists d. split; [done|]. destruct (_ == "").
  - by destruct (serviceProviderAcceptsEncryption _ _).
  - apply bind_err in H as [H|(b & _ & H)].
    + by destruct (base64_Decode _).
    + by destruct (ParseCertificate b).
Qed.

(** C31: encryption is never skipped. The assertion is sent in plaintext only if
    every key descriptor of the service provider, in any of its roles, is for
    signing; otherwise it is sent as its signed form encrypted to a certificate that
    the selected descriptor gives for encryption, under the algorithm it prefers. *)
Theorem MakeAssertionEl_encrypts idp req s s' req'
    (Hmake : MakeAssertionEl idp req s = (s', Ret req')) :
  ∃ d a sig signedEl,
    Req_SPSSODescriptor req = Some d ∧ Req_Assertion req = Some a ∧
    Assertion_Element (set_Assertion_Signature sig a) = Ret signedEl ∧
    ((Req_AssertionEl req' = Some signedEl ∧
      ∀ d' k, d' ∈ sp_descriptors d (Req_ServiceProviderMetadata req) →
        k ∈ sp_key_descriptors d' → KeyDescriptor_Use k = "signing") ∨
     ∃ cert plaintext s1 s2 enc,
       getSPEncryptionCert req = Ret cert ∧ WriteToBytes signedEl = Ret plaintext ∧
       effect (OAEP_Encrypt (contentEncryption d) cert plaintext) s1 = (s2, Ret enc) ∧
       Req_AssertionEl req' = Some (AddChild
         (CreateAttr "Type" "http://www.w3.org/2001/04/xmlenc#Element" enc)
         (NewElement "saml:EncryptedAssertion"))).
Proof.
  unfold MakeAssertionEl in Hmake.
  apply io_bind_ret in Hmake as (s1 & ctx & Hctx & H). apply lift_ret in Hctx as [-> _].
  apply io_lift_bind in H as (a & Ha & H). rewrite deref_ret in Ha.
  apply io_lift_bind in H as (el & _ & H).
  apply io_lift_bind in H as (sel & _ & H).
  apply io_lift_bind in H as (sig & _ & H).
  apply io_lift_bind in H as (signedEl & Hs & H).
  set (req1 := set_Assertion _ req) in H.
  assert (Hfields : Req_SPSSODescriptor req1 = Req_SPSSODescriptor req ∧
    Req_ServiceProviderMetadata req1 = Req_ServiceProviderMetadata req ∧
    getSPEncryptionCert req1 = getSPEncryptionCert req) by (by destruct req).
  destruct Hfields as (F1 & F2 & F3). rewrite F3 in H.
  assert (Hael : ∀ e r, Req_AssertionEl (set_AssertionEl e r) = Some e) by (by intros e []).
  destruct (getSPEncryptionCert req) as [cert|e|] eqn:Ec; [| |by apply lift_ret in H as [_ ?]].
  - apply io_lift_bind in H as (d & Hd & H).
    rewrite deref_ret, F1 in Hd.
    apply io_lift_bind in H as (buf & Hbuf & H).
    apply io_bind_ret in H as (s9 & enc & Henc & H).
    unfold mret, IO_ret in H. injection H as _ <-.
    exists d, a, sig, signedEl. split_and!; [done..|]. right.
    exists cert, buf. eexists _, _, enc. rewrite Hael. split_and!; [done..|exact Henc|done].
  - destruct (bool_decide_reflect (e = os_ErrNotExist)) as [->|]; [|by apply lift_ret in H as [_ ?]].
    unfold mret, IO_ret in H. injection H as _ <-.
    apply getSPEncryptionCert_none in Ec as (d & Hd & Hacc).
    exists d, a, sig, signedEl. split_and!; [done..|]. left. rewrite Hael. split; [done|].
    by apply serviceProviderAcceptsEncryption_false.
Qed.

(** The content encryption algorithm is the first that the service provider's
    encryption key lists and the identity provider supports, and AES-128-CBC if
    there is none. *)
Theorem contentEncryption_spec d k
    (Hk : spEncryptionKeyDescriptor d = Some k) :
  let methods := KeyDescriptor_EncryptionMethods k in
  let supported m := ∃ c, c ∈ contentEncryptionMethods ∧ BlockCipher_Algorithm c = EncryptionMethod_Algorithm m in
  (∃ l1 m l2, methods = (l1 ++ m :: l2)%list ∧
     BlockCipher_Algorithm (contentEncryption d) = EncryptionMethod_Algorithm m ∧
     ∀ m', m' ∈ l1 → ¬ supported m') ∨
  (contentEncryption d = AES128CBC ∧ ∀ m, m ∈ methods → ¬ supported m).
Proof.
  cbv zeta. unfold contentEncryption. rewrite Hk.
  induction (KeyDescriptor_EncryptionMethods k) as [|m l IH]; [right; split; [done|by intros m ?%elem_of_nil]|].
  cbn [first_some]. destruct (first_that _ _) as [c|] eqn:E.
  - left. apply first_that_elem in E as [Hc Ha]. bool_prop.
    exists [], m, l. split_and!; [done..|]. by intros m' ?%elem_of_nil.
  - assert (Hm : ¬ ∃ c, c ∈ contentEncryptionMethods ∧ BlockCipher_Algorithm c = EncryptionMethod_Algorithm m).
    { intros (c & Hc & Ha). rewrite first_that_None, Forall_forall in E. specialize (E c Hc).
      by apply bool_decide_eq_false in E. }
    destruct IH as [(l1 & m' & l2 & -> & Ha & Hl1)|[Hd Hall]]; [left|right].
    + exists (m :: l1), m', l2. split_and!; [done..|]. intros x [->|?]%elem_of_cons; auto.
    + split; [done|]. intros x [->|?]%elem_of_cons; auto.
Qed.

(** ** Passive requests *)

(** [idp] with another session provider. *)
Definition set_SessionProvider (p : SessionProvider W) (idp : IdentityProvider W) : IdentityProvider W :=
  mkIdentityProvider W (IDP_Key idp) (IDP_Signer idp) (IDP_Certificate idp) (IDP_Intermediates idp)
    (IDP_MaxAuthnRequestAge idp) (IDP_MetadataURL idp) (IDP_SSOURL idp) (IDP_LoginURL idp)
    (IDP_LogoutURL idp) (IDP_ServiceProviderProvider idp) p (IDP_AssertionMaker idp)
    (IDP_SignatureMethod idp) (IDP_ValidDuration idp) (IDP_ResponseFormTemplate idp)
    (IDP_WantAuthnRequestsSigned idp) (IDP_NameIDPolicyEnforcer idp) (IDP_AuthnContextEnforcer idp)
    (IDP_SubjectEnforcer idp).

(** A passive request never interacts with the user, even if it also forces
    authentication: [getSession] does the same whatever [GetSession] and
    [GetForcedSession] are; and a request that forces authentication never
    uses [GetSession]. *)
Theorem getSession_noninterference idp p p' r req :
  (is_true (AuthnRequest_IsPassive (Req_Request req)) = true →
   GetPassiveSession p = GetPassiveSession p' →
   getSession (set_SessionProvider p idp) r req = getSession (set_SessionProvider p' idp) r req) ∧
  (is_true (AuthnRequest_IsPassive (Req_Request req)) = false →
   is_true (AuthnRequest_ForceAuthn (Req_Request req)) = true →
   GetForcedSession p = GetForcedSession p' →
   getSession (set_SessionProvider p idp) r req = getSession (set_SessionProvider p' idp) r req).
Proof.
  split.
  - intros Hp Heq. unfold getSession. rewrite Hp. cbn [IDP_SessionProvider set_SessionProvider].
    rewrite Heq. reflexivity.
  - intros Hp Hf Heq. unfold getSession. rewrite Hp, Hf. cbn [IDP_SessionProvider set_SessionProvider].
    rewrite Heq. reflexivity.
Qed.
End spec.

(** ** Witnesses *)

Module Examples.
Import IdpSpec.Examples.

#[local] Existing Instance default_vars.
#[local] Existing Instance ref_signature.

Definition idp : IdentityProvider Time := the_idp (sp_metadata true true) true.

Example serves_success :
  let '((_, events), o) := ServeSSO idp (http_request true) (1100, []) in
  o = Ret () ∧ existsb is_response events = true ∧ length events = 3%nat.
Proof. vm_compute. done. Qed.

Lemma ServeSSO_pages_witness :
  ∃ new, (ServeSSO idp (http_request true) (1100, [])).1.2 = ([] ++ new)%list ∧
    serves (sso_page idp (http_request true) (λ _, False) (1100, [])) new (ServeSSO idp (http_request true) (1100, [])).2.
Proof.
  apply (ServeSSO_pages idp (http_request true) (λ _, False) (1100, [])).
  - intros req s. exists []. simpl. rewrite app_nil_r. split_and!; [done|by intros ? ?%elem_of_nil|naive_solver].
  - intros get req [=].
Defined.

(** The request of [IdpSpec] at the endpoint of a provider that asks for encryption. *)
Definition endpoint : IndexedEndpoint := mkIndexedEndpoint HTTPPostBinding "https:acs2" None 2 (Some true).
Definition request : IdpAuthnRequest :=
  set_ACS (sp_descriptor true true, endpoint)
    (set_Metadata (Some (sp_metadata true true)) (set_Request authn_request (received true))).
Definition answered : IdpAuthnRequest :=
  match (make_assertion idp request session (1100, [])).2 with Ret r => r | _ => request end.

Definition with_element : IdpAuthnRequest :=
  match (MakeAssertionEl idp answered (1100, [])).2 with Ret r => r | _ => request end.

Example encrypts : option_map Tag (Req_AssertionEl with_element) = Some "EncryptedAssertion".
Proof. by vm_compute. Qed.

Lemma MakeAssertionEl_encrypts_witness :
  ∃ d a sig signedEl,
    Req_SPSSODescriptor answered = Some d ∧ Req_Assertion answered = Some a ∧
    Assertion_Element (set_Assertion_Signature sig a) = Ret signedEl ∧
    ((Req_AssertionEl with_element = Some signedEl ∧
      ∀ d' k, d' ∈ sp_descriptors d (Req_ServiceProviderMetadata answered) →
        k ∈ sp_key_descriptors d' → KeyDescriptor_Use k = "signing") ∨
     ∃ cert plaintext s1 s2 enc,
       getSPEncryptionCert answered = Ret cert ∧ WriteToBytes signedEl = Ret plaintext ∧
       effect (OAEP_Encrypt (contentEncryption d) cert plaintext) s1 = (s2, Ret enc) ∧
       Req_AssertionEl with_element = Some (AddChild
         (CreateAttr "Type" "http://www.w3.org/2001/04/xmlenc#Element" enc)
         (NewElement "saml:EncryptedAssertion"))).
Proof.
  apply (MakeAssertionEl_encrypts idp answered (1100, []) (1100, [])). vm_compute. reflexivity.
Defined.

Definition encryption_key : KeyDescriptor :=
  cert_key_descriptor "encryption" (base64_Encode "cert")
    [mkEncryptionMethod "unknown"; mkEncryptionMethod "http://www.w3.org/2001/04/xmlenc#aes256-cbc"].

Lemma contentEncryption_spec_witness :
  contentEncryption (sp_descriptor true true) = AES256CBC ∧
  let supported m := ∃ c, c ∈ contentEncryptionMethods ∧ BlockCipher_Algorithm c = EncryptionMethod_Algorithm m in
  (∃ l1 m l2, KeyDescriptor_EncryptionMethods encryption_key = (l1 ++ m :: l2)%list ∧
     BlockCipher_Algorithm (contentEncryption (sp_descriptor true true)) = EncryptionMethod_Algorithm m ∧
     ∀ m', m' ∈ l1 → ¬ supported m') ∨
  (contentEncryption (sp_descriptor true true) = AES128CBC ∧
   ∀ m, m ∈ KeyDescriptor_EncryptionMethods encryption_key → ¬ supported m).
Proof.
  split; [by vm_compute|].
  apply (contentEncryption_spec (sp_descriptor true true) encryption_key). vm_compute. reflexivity.
Defined.

Definition refused_request : IdpAuthnRequest :=
  match (MakeErrorResponse idp answered StatusResponder StatusNoPassive "" (1100, [])).2 with
  | Ret r => r
  | _ => request
  end.

Lemma MakeErrorResponse_sound_witness :
  ∃ acs response el,
    Req_ACSEndpoint answered = Some acs ∧ StatusResponder ≠ StatusSuccess ∧
    answers idp answered acs (error_status StatusResponder StatusNoPassive "") response ∧
    signResponse idp response None = Ret el ∧
    refused_request = set_ResponseEl (Some el) (set_ResponseEl None answered).
Proof.
  apply (MakeErrorResponse_sound idp answered StatusResponder StatusNoPassive "" (1100, []) (1100, [])).
  vm_compute. reflexivity.
Defined.

Lemma PostBinding_success_witness :
  ∃ s' form, PostBinding idp answered (1100, []) = (s', Ret form) ∧
  ∃ acs response assertionEl el,
    Req_ACSEndpoint answered = Some acs ∧
    answers idp answered acs success_status response ∧
    (Req_AssertionEl answered = Some assertionEl ∨
     ∃ s1 req1, MakeAssertionEl idp answered (1100, []) = (s1, Ret req1) ∧ Req_AssertionEl req1 = Some assertionEl) ∧
    signResponse idp response (Some assertionEl) = Ret el ∧
    form_for answered acs el form.
Proof.
  assert (H : is_ret (PostBinding idp answered (1100, [])).2 = true) by (vm_compute; reflexivity).
  destruct (PostBinding idp answered (1100, [])) as [s' [form|e|]] eqn:E; [|discriminate H..].
  exists s', form. split; [reflexivity|].
  apply (PostBinding_success idp answered (1100, []) s' form); [vm_compute; reflexivity|exact E].
Defined.

(** Two providers that differ in [GetSession] only. *)
Definition provider (session : option Session) : SessionProvider Time :=
  mkSessionProvider Time (λ _ _ s, (s, Some session)) None None None.

Definition passive_request : IdpAuthnRequest :=
  set_Request (mkAuthnRequest "req1" "2.0" 1000 "https:sso" "" (Some (mkIssuer "" "" "" "" "sp")) None None None None
    None (Some true) (Some true) "" "" "" "" "") request.

Lemma getSession_noninterference_witness :
  getSession (set_SessionProvider (provider (Some session)) idp) (http_request true) passive_request =
  getSession (set_SessionProvider (provider None) idp) (http_request true) passive_request.
Proof.
  apply (proj1 (getSession_noninterference idp (provider (Some session)) (provider None)
    (http_request true) passive_request)); reflexivity.
Defined.

(** A signed query: the signature of [ref_sign] with the service provider's key. *)
Definition signed_query : string :=
  let q := "SAMLRequest=" +++ QueryEscape (base64_Encode "request") +++ "&SigAlg="
             +++ QueryEscape RSASHA256SignatureMethod in
  q +++ "&Signature=" +++ QueryEscape (base64_Encode (ref_sign (RSAPublicKey "cert") (ref_hash SHA256 q))).

Definition redirect_request : HTTPRequest :=
  mkHTTPRequest "GET" (set_RawQuery signed_query (url_of "sso")) (Err (Sentinel "mime.ErrNoMediaType")) None "" [] [] [] false.

Definition redirected : IdpAuthnRequest := empty_request redirect_request "" "request" signed_query 1100.

Lemma redirect_request_signed_witness :
  ∃ parameters raw message compressed,
    redirectParameters signed_query = Ret parameters ∧
    parameters !! "SAMLRequest" = Some raw ∧
    (message = "" ∨ QueryUnescape raw = Ret message) ∧
    base64_Decode message = Ret compressed ∧
    safer_ReadAll (Some (maxAuthnRequestSize + 1)) compressed = Ret "request" ∧
    ("" = "" ∨ ∃ raw', parameters !! "RelayState" = Some raw' ∧ QueryUnescape raw' = Ret "").
Proof.
  apply (redirect_request_signed redirect_request (1100, []) (1100, []) redirected
    [mkCertificate "cert" (RSAPublicKey "cert") 0 5000] 1100).
  - vm_compute. reflexivity.
  - vm_compute. discriminate.
  - vm_compute. reflexivity.
Defined.
End Examples.
