(* ===== verification/IdpLogoutSpec.v ===== *)
(** * IdpLogoutSpec: which logout requests end a session

    [Validate] of a logout request accepts signed requests only, and
    [TerminateSession] is consulted for no other; the response goes to an
    endpoint of the service provider's metadata. *)

From stdpp Require Import base option list gmap strings.
From Stdlib Require Import ZArith Lia Ascii.
From S2P Require Import Prelude Go Duration Encoding Etree C14n Schema SchemaXML Env XmlTree ServiceProvider.
From S2P Require Import DSig Redirect Http Reference IdentityProvider Assertions IdpResponse IdpLogout.
From S2P Require Import IdpSpec IdpResponseSpec.

Open Scope string_scope.
Open Scope Z_scope.

Section spec.
Context {W : Type} `{UrlI : UrlOps} `{VarsI : PackageVars} `{X509I : X509Ops} `{EtreeI : EtreeOps} `{XmlI : XmlOps} `{SigI : SignatureOps} `{CryptoI : CryptoOps} `{FlateI : FlateOps} `{WorldI : World W} `{TmplI : TemplateOps}.

Implicit Types idp : IdentityProvider W.

Record logout_ok idp (now : Time) (r : LogoutRequest) : Prop := {
  lok_destination : LogoutRequest_Destination r = URL_String (IDP_LogoutURL idp);
  lok_fresh : now - MaxIssueDelay <= LogoutRequest_IssueInstant r <= now + MaxClockSkew;
  lok_unexpired : ∀ t, LogoutRequest_NotOnOrAfter r = Some t → now < t;
  lok_version : LogoutRequest_Version r = "2.0";
  lok_id : valid_id (LogoutRequest_ID r);
  lok_issuer : ∃ i, LogoutRequest_Issuer r = Some i ∧ Issuer_Value i ≠ ""
}.

Lemma logout_checkRequest_ret idp r now :
  logout_checkRequest idp r now = Ret () ↔ logout_ok idp now r.
Proof.
  unfold logout_checkRequest, Time_Before, Time_After, Time_Add.
  rewrite !raise_if_bind, bind_ret. setoid_rewrite raise_if_bind. setoid_rewrite raise_if_bind.
  setoid_rewrite raise_if_ret. setoid_rewrite no_issuer_false.
  assert (Hexp : ∀ u : (), match LogoutRequest_NotOnOrAfter r with
      | None => Ret ()
      | Some t => raise_if (negb (now <? t)) (Errorf "request expired at %s" [ATime t])
      end = Ret u ↔ ∀ t, LogoutRequest_NotOnOrAfter r = Some t → now < t).
  { intros []. destruct (LogoutRequest_NotOnOrAfter r) as [t|]; [|naive_solver].
    rewrite raise_if_ret, negb_false_iff, Z.ltb_lt. naive_solver. }
  setoid_rewrite Hexp. rewrite !Z.ltb_ge, !negb_false_iff, bool_decide_eq_true.
  setoid_rewrite negb_false_iff. setoid_rewrite bool_decide_eq_true.
  setoid_rewrite isValidAuthnRequestID_spec. split.
  - intros (? & ? & ? & u & ? & ? & ? & ?). constructor; try done; lia.
  - intros [? ? ? ? ? ?]. split_and!; [done|lia|lia|]. by exists ().
Qed.

(** The content of a trusted logout request is what a signature covers. *)
Definition logout_origin idp (req : IdpLogoutRequest) (metadata : EntityDescriptor)
    (request : LogoutRequest) : Prop :=
  ∃ root signature certs,
    ReadFromBytes (Logout_RequestBuffer req) = Ret (Some root) ∧
    findChild (root_cursor root) dsig_Namespace "Signature" = Ret signature ∧
    serviceProviderSigningCertificates metadata = Ret certs ∧
    (Logout_RedirectQuery req ≠ "" ∨ signature ≠ None) ∧
    (Logout_RedirectQuery req ≠ "" → ∃ now,
      verifyRedirectSignature (Logout_RedirectQuery req) "SAMLRequest" certs now = Ret ()) ∧
    match signature with
    | None => Unmarshal_LogoutRequest (Logout_RequestBuffer req) = Ret request
    | Some _ => ∃ content, verified_by certs (root_cursor root) (Some content) ∧
        unmarshalElement Unmarshal_LogoutRequest (root_cursor content) = Ret request
    end.

Lemma set_Logout_Request_fields v r :
  Logout_Request (set_Logout_Request v r) = v ∧
  Logout_ServiceProviderMetadata (set_Logout_Request v r) = Logout_ServiceProviderMetadata r ∧
  Logout_binding (set_Logout_Request v r) = Logout_binding r.
Proof. by destruct r. Qed.

Lemma set_Logout_Request_same r : set_Logout_Request (Logout_Request r) r = r.
Proof. by destruct r. Qed.

Lemma use_verified_logout_ret idp req content req' :
  use_verified_logout idp req content = Ret req' →
  ∃ e request i i', content = Some e ∧
    unmarshalElement Unmarshal_LogoutRequest (root_cursor e) = Ret request ∧
    req' = set_Logout_Request request req ∧ logout_ok idp (Logout_Now req) request ∧
    LogoutRequest_Issuer (Logout_Request req) = Some i ∧ LogoutRequest_Issuer request = Some i' ∧
    Issuer_Value i' = Issuer_Value i.
Proof.
  unfold use_verified_logout. intros Hu. apply bind_ret in Hu as (i & Hi & Hu).
  apply bind_ret in Hu as (e & He & Hu). apply bind_ret in Hu as (request & Hr & Hu).
  apply bind_ret in Hu as ([] & Hc & Hu). apply bind_ret in Hu as (i' & Hi' & Hu).
  apply raise_if_bind in Hu as [Heq [= <-]]. rewrite !deref_ret in *.
  apply logout_checkRequest_ret in Hc. bool_prop. exists e, request, i, i'. done.
Qed.

(** What [verifySignature] returns, with metadata or without. *)
Lemma logout_verifySignature_ret idp req i s s' req' :
  Unmarshal_LogoutRequest (Logout_RequestBuffer req) = Ret (Logout_Request req) →
  logout_ok idp (Logout_Now req) (Logout_Request req) →
  LogoutRequest_Issuer (Logout_Request req) = Some i →
  logout_verifySignature idp req s = (s', Ret req') →
  ∃ metadata request i', Logout_ServiceProviderMetadata req = Some metadata ∧
    req' = set_Logout_Request request req ∧ logout_ok idp (Logout_Now req) request ∧
    LogoutRequest_Issuer request = Some i' ∧ Issuer_Value i' = Issuer_Value i ∧
    logout_origin idp req metadata request.
Proof.
  intros Hu Hok Hi Hv. unfold logout_verifySignature in Hv.
  apply io_lift_bind in Hv as (o & Ho & Hv).
  apply io_lift_bind in Hv as (root & Hr & Hv).
  rewrite or_err_ret in Hr. subst o.
  apply io_lift_bind in Hv as (signature & Hs & Hv).
  apply io_guard_bind in Hv as [Hn Hv].
  apply io_lift_bind in Hv as (m & Hm & Hv). rewrite deref_ret in Hm.
  apply io_lift_bind in Hv as (certs & Hc & Hv).
  apply io_guard_bind in Hv as [Hne Hv]. bool_prop.
  apply io_bind_ret in Hv as (s8 & u'' & Hq & Hv).
  pose proof (query_signature_ret _ _ _ _ _ _ Hq) as Hquery.
  apply some_signature in Hn.
  destruct signature as [sig|].
  - rewrite (bool_decide_eq_true_2 (is_Some _)) in Hv by (by eexists).
    apply on_result_ret in Hv as [(s9 & content & Hvf & Hv)|(s9 & e & _ & Hv)];
      apply lift_ret in Hv as [_ Hv]; [|done].
    apply (verify_with_ret (root_cursor root) 0) in Hvf; [|by left].
    apply use_verified_logout_ret in Hv
      as (e & request & i1 & i2 & -> & Hun & -> & Hok' & Hi1 & Hi2 & Heq).
    exists m, request, i2. split_and!; [done..|congruence|].
    exists root, (Some sig), certs. split_and!; try done. by exists e.
  - rewrite (bool_decide_eq_false_2 (is_Some _)) in Hv by (by intros [? ?]).
    unfold mret, IO_ret in Hv. injection Hv as _ <-.
    exists m, (Logout_Request req), i. rewrite set_Logout_Request_same.
    split_and!; [done..|]. by exists root, None, certs.
Qed.

(** The endpoint for the response: one with the binding of the request, else
    with HTTP-Redirect, else with HTTP-POST. *)
Definition slo_choice (binding : string) (l : list Endpoint) (e : Endpoint) : Prop :=
  let offers b := ∃ x, x ∈ l ∧ Endpoint_Binding x = b in
  e ∈ l ∧
  (Endpoint_Binding e = binding ∨
   Endpoint_Binding e = HTTPRedirectBinding ∧ ¬ offers binding ∨
   Endpoint_Binding e = HTTPPostBinding ∧ ¬ offers binding ∧ ¬ offers HTTPRedirectBinding).

Lemma no_binding b l :
  first_that (λ e, Endpoint_Binding e == b) l = None → ¬ ∃ x, x ∈ l ∧ Endpoint_Binding x = b.
Proof.
  rewrite first_that_None, Forall_forall. intros Hall (x & Hx & Hb). specialize (Hall x Hx).
  by apply bool_decide_eq_false in Hall.
Qed.

Lemma getSLOEndpoint_ret req req' :
  getSLOEndpoint req = Ret req' →
  ∃ metadata e, Logout_ServiceProviderMetadata req = Some metadata ∧
    slo_choice (Logout_binding req) (slo_endpoints metadata) e ∧ req' = set_SLOEndpoint e req.
Proof.
  unfold getSLOEndpoint. intros H. apply bind_ret in H as (m & Hm & H). rewrite deref_ret in Hm.
  apply bind_ret in H as (e & He & [= <-]). rewrite or_err_ret in He.
  exists m, e. split_and!; [done| |done]. unfold slo_choice. cbn [first_some] in He.
  destruct (first_that _ _) as [x|] eqn:E1 in He.
  { injection He as ->. apply first_that_elem in E1 as [? ?]. bool_prop. auto. }
  destruct (first_that _ _) as [x|] eqn:E2 in He.
  { injection He as ->. apply no_binding in E1. apply first_that_elem in E2 as [? ?]. bool_prop. auto. }
  destruct (first_that _ _) as [x|] eqn:E3 in He; [|done].
  injection He as ->. apply no_binding in E1, E2. apply first_that_elem in E3 as [? ?]. bool_prop.
  split; [done|]. right. right. auto.
Qed.

(** A logout request that may end a session. *)
Record logout_trusted idp (req req' : IdpLogoutRequest) : Prop := {
  lt_size : Z.of_nat (String.length (Logout_RequestBuffer req)) <= maxAuthnRequestSize;
  lt_ok : logout_ok idp (Logout_Now req) (Logout_Request req');
  lt_name : ∃ n, LogoutRequest_NameID (Logout_Request req') = Some n ∧ NameID_Value n ≠ "";
  lt_provider : ∃ metadata issuer s s' e,
    LogoutRequest_Issuer (Logout_Request req') = Some issuer ∧
    effect (IDP_ServiceProviderProvider idp (Logout_HTTPRequest req) (Issuer_Value issuer)) s
      = (s', Ret (Some metadata)) ∧
    Logout_ServiceProviderMetadata req' = Some metadata ∧
    logout_origin idp req metadata (Logout_Request req') ∧
    slo_choice (Logout_binding req) (slo_endpoints metadata) e ∧
    Logout_SLOEndpoint req' = Some e
}.

Lemma no_name_id_false o : no_name_id o = false ↔ ∃ n, o = Some n ∧ NameID_Value n ≠ "".
Proof. destruct o as [n|]; simpl; [rewrite bool_decide_eq_false|]; naive_solver. Qed.

Lemma logout_Validate_ret idp req s s' req' :
  logout_Validate idp req s = (s', Ret req') → logout_trusted idp req req'.
Proof.
  intros Hv. unfold logout_Validate in Hv.
  apply io_guard_bind in Hv as [Hsize Hv]. bool_prop.
  apply io_lift_bind in Hv as (u2 & _ & Hv).
  apply io_lift_bind in Hv as (request & Hu & Hv).
  apply io_lift_bind in Hv as ([] & Hc & Hv).
  apply logout_checkRequest_ret in Hc.
  apply io_lift_bind in Hv as (issuer & Hi & Hv).
  rewrite deref_ret in Hi.
  apply io_bind_ret in Hv as (s6 & sp & Hsp & Hv).
  apply on_result_fail_ret in Hsp.
  apply io_bind_ret in Hv as (s8 & req1 & Hsig & Hv). apply lift_ret in Hv as [-> Hv].
  apply raise_if_bind in Hv as [Hname Hv]. apply no_name_id_false in Hname.
  apply getSLOEndpoint_ret in Hv as (m & e & Hm & He & ->).
  set (req2 := set_Logout_Metadata sp (set_Logout_Request request req)) in *.
  assert (F : Logout_Request req2 = request ∧ Logout_RequestBuffer req2 = Logout_RequestBuffer req ∧
    Logout_Now req2 = Logout_Now req ∧ Logout_RedirectQuery req2 = Logout_RedirectQuery req ∧
    Logout_ServiceProviderMetadata req2 = sp ∧ Logout_binding req2 = Logout_binding req ∧
    Logout_Now (set_Logout_Request request req) = Logout_Now req ∧
    Logout_HTTPRequest (set_Logout_Request request req) = Logout_HTTPRequest req) by (by destruct req).
  destruct F as (F1 & F2 & F3 & F4 & F5 & F6 & F7 & F8). rewrite F7 in Hc. rewrite F8 in Hsp.
  apply (logout_verifySignature_ret idp req2 issuer) in Hsig;
    rewrite ?F1, ?F2, ?F3; [|done..].
  destruct Hsig as (metadata & rq & i' & Hm2 & -> & Hok & Hi' & Heq & Horigin).
  destruct (set_Logout_Request_fields rq req2) as (G1 & G2 & G3).
  rewrite G2, Hm2 in Hm. injection Hm as <-. rewrite F5 in Hm2. subst sp.
  rewrite G3, F6 in He. rewrite F3 in Hok.
  assert (H : ∀ q : IdpLogoutRequest, Logout_Request (set_SLOEndpoint e q) = Logout_Request q ∧
    Logout_ServiceProviderMetadata (set_SLOEndpoint e q) = Logout_ServiceProviderMetadata q ∧
    Logout_SLOEndpoint (set_SLOEndpoint e q) = Some e) by (by intros []).
  destruct (H (set_Logout_Request rq req2)) as (H1 & H2 & H3). rewrite G1 in Hname.
  constructor; rewrite ?H1, ?G1; [done..|].
  exists metadata, i'. eexists _, _, e. rewrite ?H2, ?H3, ?G2, ?Heq, ?F5.
  split_and!; [done|exact Hsp|done| |done..].
  unfold logout_origin in *. by rewrite F2, F4 in Horigin.
Qed.

(** C32: soundness of the validation of logout requests. A request it accepts is at
    most 16 KiB long, fresh, addressed to the logout URL, names a principal
    and is always signed by the service provider that issued it, an embedded
    signature covering the very content that is used; the response goes to a
    logout endpoint of that provider. *)
Theorem logout_Validate_sound idp req s s' req'
    (Hv : logout_Validate idp req s = (s', Ret req')) : logout_trusted idp req req'.
Proof. by apply (logout_Validate_ret idp req s s'). Qed.

(** The session provider with another [TerminateSession]. *)
Definition with_terminate (t : HTTPRequest → IdpLogoutRequest → IO W ()) (p : SessionProvider W)
    : SessionProvider W :=
  mkSessionProvider W (GetSession p) (GetPassiveSession p) (GetForcedSession p) (Some t).

(** [ServeSLO] ends sessions for trusted requests only. Two session providers
    whose [TerminateSession] agree on the trusted forms of the request are
    indistinguishable: on any other request it is never consulted. *)
Theorem ServeSLO_terminates_trusted idp p r t t' s
    (Hagree : ∀ s1 s1' received req,
      NewIdpLogoutRequest r s1 = (s1', Ret received) →
      logout_trusted (set_SessionProvider p idp) received req → t r req = t' r req) :
  ServeSLO (set_SessionProvider (with_terminate t p) idp) r s =
  ServeSLO (set_SessionProvider (with_terminate t' p) idp) r s.
Proof.
  assert (Hsame : ∀ u, logout_Validate (set_SessionProvider (with_terminate u p) idp)
    = logout_Validate (set_SessionProvider p idp)) by (intros; reflexivity).
  unfold ServeSLO, or_http_error, on_result. rewrite !Hsame.
  destruct (NewIdpLogoutRequest r s) as [s1 [received|e|]] eqn:En; [|reflexivity..].
  destruct (logout_Validate _ received s1) as [s2 [req|e|]] eqn:Ev; [|reflexivity..].
  apply logout_Validate_ret in Ev.
  assert (Ht : terminate_session (set_SessionProvider (with_terminate t p) idp) r req
    = terminate_session (set_SessionProvider (with_terminate t' p) idp) r req).
  { unfold terminate_session. cbn. by rewrite (Hagree _ _ _ _ En Ev). }
  rewrite Ht. reflexivity.
Qed.
End spec.

(** ** Witnesses *)

Module Examples.
Import IdpSpec.Examples.

#[local] Existing Instance default_vars.
#[local] Existing Instance ref_signature.

Definition logout_request : LogoutRequest :=
  mkLogoutRequest "lo1" "2.0" 1000 None "https:slo" (Some (mkIssuer "" "" "" "" "sp"))
    (Some (mkNameID "" "" "" "" "alice")) None [mkSessionIndex "i1"].

#[local] Instance logout_xml : XmlOps := ref_idp_xml authn_request logout_request.

Definition slo : Endpoint := mkEndpoint HTTPPostBinding "https:spslo" "".

(** The metadata of [IdpSpec] with a logout endpoint. *)
Definition metadata : EntityDescriptor :=
  let d := sp_descriptor true false in
  let role := SSODescriptor_RoleDescriptor (SPSSODescriptor_SSODescriptor d) in
  entity "sp" 0 0 [] [mkSPSSODescriptor (mkSSODescriptor role [] [slo] [] []) None None [] []].

Definition idp : IdentityProvider Time := the_idp metadata false.

Definition received : IdpLogoutRequest :=
  empty_logout_request (http_request true) "" (write_element (request_el true)) "" HTTPPostBinding 1100.

Definition trusted_request : IdpLogoutRequest :=
  set_SLOEndpoint slo (set_Logout_Metadata (Some metadata) (set_Logout_Request logout_request received)).

Example reads_logout_request :
  NewIdpLogoutRequest (http_request true) (1100, []) = ((1100, []), Ret received).
Proof. by vm_compute. Qed.

Lemma logout_Validate_sound_witness : logout_trusted idp received trusted_request.
Proof. apply (logout_Validate_sound idp received (1100, []) (1100, [])). vm_compute. reflexivity. Defined.

Definition terminate (o : outcome ()) (r : HTTPRequest) (req : IdpLogoutRequest) : IO Time () := lift o.

(** A request without a body is never trusted. *)
Definition empty_http_request : HTTPRequest :=
  mkHTTPRequest "PUT" (url_of "slo") (Err (Sentinel "mime.ErrNoMediaType")) None "" [] [] [] false.

Lemma ServeSLO_terminates_trusted_witness :
  ServeSLO (set_SessionProvider (with_terminate (terminate (Ret ())) (IDP_SessionProvider idp)) idp)
    empty_http_request (1100, []) =
  ServeSLO (set_SessionProvider (with_terminate (terminate (Err ErrPartialLogout)) (IDP_SessionProvider idp)) idp)
    empty_http_request (1100, []).
Proof.
  apply ServeSLO_terminates_trusted. intros s1 s1' rec req Hn _.
  exfalso. revert Hn. unfold NewIdpLogoutRequest. intros (? & ? & _ & [_ H]%lift_ret)%io_bind_ret.
  discriminate H.
Defined.

(** The signed request ends the session and gets a page. *)
Example logs_out :
  let '((_, events), o) := ServeSLO idp (http_request true) (1100, []) in
  o = Ret () ∧ length events = 3%nat.
Proof. vm_compute. done. Qed.
End Examples.
