(* ===== verification/SPMessagesSpec.v ===== *)
(** * SPMessagesSpec: the two sides of a conversation

    What the service provider guarantees of the answers it accepts, over HTTP
    and for logout, and the agreement of the two programs: the identity provider
    accepts what the service provider sends, and the other way round. *)

From stdpp Require Import base option list gmap strings.
From Stdlib Require Import ZArith Lia Ascii.
From S2P Require Import Prelude Go Duration Encoding Etree C14n Schema SchemaXML Env XmlTree ServiceProvider.
From S2P Require Import Reference ServiceProviderSpec DSig Redirect Http IdentityProvider Assertions.
From S2P Require Import IdpResponse IdpLogout SPMessages IdpSpec IdpLogoutSpec.

Open Scope string_scope.
Open Scope Z_scope.

(** ** Answers over HTTP *)

Section artifacts.
Context {W : Type} `{UrlI : UrlOps} `{VarsI : PackageVars} `{X509I : X509Ops} `{EtreeI : EtreeOps} `{XmlI : XmlOps} `{SigI : SignatureOps} `{EncI : XmlEncOps} `{CryptoI : CryptoOps} `{WorldI : World W} `{HttpI : HttpOps W}.

Implicit Types sp : ServiceProvider.

Lemma map_io_err_ret {A} (h : error → error) (m : IO W A) s s' a :
  map_io_err h m s = (s', Ret a) ↔ m s = (s', Ret a).
Proof.
  unfold map_io_err. rewrite on_result_ret. unfold mret, IO_ret, lift. naive_solver.
Qed.

Lemma deferred_ret {A} (d : IO W ()) (m : IO W A) s s' a :
  deferred d m s = (s', Ret a) → ∃ s1, m s = (s1, Ret a).
Proof.
  unfold deferred. destruct (m s) as [s1 o]. destruct (d s1) as [s2 [| |]]; naive_solver.
Qed.

Lemma artifact_body_ret (response : ClientResponse W) s s' body :
  artifact_body response s = (s', Ret body) →
  Response_StatusCode response = 200 ∧
  Z.of_nat (String.length body) <= maxArtifactResponseSize ∧
  effect (Response_ReadAll response (maxArtifactResponseSize + 1)) s = (s', Ret body).
Proof.
  unfold artifact_body. intros Hb.
  apply io_lift_bind in Hb as (u & Hc & Hb).
  apply raise_if_ret, negb_false_iff, Z.eqb_eq in Hc.
  apply io_bind_ret in Hb as (s2 & b & Hr & Hb). apply map_io_err_ret in Hr.
  apply io_lift_bind in Hb as (u' & Hl & Hb).
  apply raise_if_ret, Z.ltb_ge in Hl.
  unfold mret, IO_ret in Hb. injection Hb as -> ->. done.
Qed.

(** The exchange with the artifact resolution service of the metadata, from the
    state [s] to [s']: one request for the artifact, made now, to the location in
    the metadata and without following redirects, and the body of the response,
    which has status 200 and a bounded size. *)
Definition exchange sp (artifactID : string) (s s' : St W) (resolve : ArtifactResolve)
    (req : ClientRequest) (body : string) : Prop :=
  ∃ s1 t s2 location response s3,
    TimeNow s = (s1, Ret t) ∧
    MakeArtifactResolveRequest sp artifactID s1 = (s2, Ret resolve) ∧
    GetArtifactBindingLocation sp SOAPBinding = Ret location ∧
    elementToBytes (root_cursor (ArtifactResolve_SoapRequest resolve)) = Ret (ClientRequest_Body req) ∧
    (∃ req0, NewRequest "POST" location (ClientRequest_Body req) = Ret req0 ∧
      ClientRequest_URL req = ClientRequest_URL req0 ∧
      ClientRequest_Method req = ClientRequest_Method req0) ∧
    Client_CheckRedirect (artifact_client sp) = UseLastResponse ∧
    effect (Client_Do (artifact_client sp) req) s2 = (s3, Ret response) ∧
    Response_StatusCode response = 200 ∧
    effect (Response_ReadAll response (maxArtifactResponseSize + 1)) s3 = (s', Ret body) ∧
    Z.of_nat (String.length body) <= maxArtifactResponseSize.

Lemma NewRequest_body m l b req : NewRequest m l b = Ret req → ClientRequest_Body req = b.
Proof. unfold NewRequest. intros (u & _ & [= <-])%bind_ret. done. Qed.

(** What a call that returns the assertion [a] did and read: the body of the
    exchange, the time, the document and its answer. *)
Definition artifact_answer sp (artifactID : string) (ids : list string) (s : St W) (a : Assertion) : Prop :=
  ∃ resolve req body s1 now s2 clock s3 root,
    exchange sp artifactID s s1 resolve req body ∧
    TimeNow s1 = (s2, Ret now) ∧ Clock_Now s2 = (s3, Ret clock) ∧
    ReadFromBytes body = Ret (Some root) ∧
    artifact_response_gives sp ids (ArtifactResolve_ID resolve) now clock (ClientRequest_URL req) root a.

Definition form_answer sp (PostForm : url_Values) (url : URL) (ids : list string) (s : St W)
    (a : Assertion) : Prop :=
  ∃ s1 t s2 now s3 clock document root,
    TimeNow s = (s1, Ret t) ∧ TimeNow s1 = (s2, Ret now) ∧ Clock_Now s2 = (s3, Ret clock) ∧
    base64_Decode (values_Get PostForm "SAMLResponse") = Ret document ∧
    ReadFromBytes document = Ret (Some root) ∧
    response_gives sp ids now clock url signatureRequired (root_cursor root) a.

Lemma handleArtifactRequest_ret sp artifactID ids s s' a :
  handleArtifactRequest sp artifactID ids s = (s', Ret a) → artifact_answer sp artifactID ids s a.
Proof.
  unfold handleArtifactRequest. intros H.
  apply io_bind_ret in H as (s1 & t0 & Ht & H).
  apply io_bind_ret in H as (s2 & resolve & Hm & H). apply map_io_err_ret in Hm.
  apply io_lift_bind in H as (requestBody & Hb & H).
  rewrite map_err_ret in Hb.
  apply io_lift_bind in H as (location & Hl & H).
  apply io_lift_bind in H as (req0 & Hr & H).
  rewrite map_err_ret in Hr. pose proof (NewRequest_body _ _ _ _ Hr) as Hbody0.
  apply io_bind_ret in H as (s6 & response & Hd & H). apply map_io_err_ret in Hd.
  apply deferred_ret in H as (s7 & H).
  apply io_bind_ret in H as (s8 & body & Hbody & H). apply map_io_err_ret in Hbody.
  apply artifact_body_ret in Hbody as (Hcode & Hsize & Hread).
  apply io_bind_ret in H as (s9 & now & Hnow & H).
  apply io_bind_ret in H as (s10 & clock & Hclock & H). apply lift_ret in H as [_ H].
  apply ParseXMLArtifactResponse_gives in H as (root & Hroot & H).
  eexists resolve, _, body, s8, now, s9, clock, s10, root.
  split; [|split_and!; [exact Hnow|exact Hclock|exact Hroot|exact H]].
  exists s1, t0, s2, location, response, s6. cbn [ClientRequest_Body ClientRequest_URL ClientRequest_Method].
  rewrite Hbody0. split_and!; [done..| |done|by rewrite <- Hbody0|done|exact Hread|done].
  by exists req0.
Qed.

Lemma ParseResponse_ret sp Form PostForm url ids s s' a :
  ParseResponse sp Form PostForm url ids s = (s', Ret a) →
  if decide (values_Get Form "SAMLart" = "") then form_answer sp PostForm url ids s a
  else artifact_answer sp (values_Get Form "SAMLart") ids s a.
Proof.
  unfold ParseResponse. intros Hparse. destruct (decide _) as [He|He].
  - rewrite He in Hparse. cbn in Hparse.
    apply io_bind_ret in Hparse as (s1 & t0 & Ht & H). apply io_bind_ret in H as (s2 & now & Hn & H).
    apply io_bind_ret in H as (s3 & clock & Hc & H). apply lift_ret in H as [_ H].
    unfold parseResponseHTTP in H. apply bind_ret in H as (raw & Hraw & H). rewrite map_err_ret in Hraw.
    apply ParseXMLResponse_gives in H as (root & Hroot & H). by exists s1, t0, s2, now, s3, clock, raw, root.
  - rewrite bool_decide_false in Hparse by done. by apply handleArtifactRequest_ret in Hparse.
Qed.

Lemma ParseResponse_accepted sp Form PostForm url ids s s' a :
  ParseResponse sp Form PostForm url ids s = (s', Ret a) → ∃ now clock, accepted sp ids now clock a.
Proof.
  intros H%ParseResponse_ret. destruct (decide _).
  - destruct H as (s1 & t & s2 & now & s3 & clock & raw & root & _ & _ & _ & _ & _ & H).
    exists now, clock. by eapply response_gives_accepted.
  - destruct H as (resolve & req & body & s1 & now & s2 & clock & s3 & root & _ & _ & _ & _ & H).
    destruct H as (? & ? & ? & ? & ? & ? & ? & ? & _ & _ & _ & _ & _ & _ & _ & _ & _ & H).
    exists now, clock. by eapply response_gives_accepted.
Qed.

(** C3: soundness of [ParseResponse], whichever way the response arrives, with
    everything it uses fixed by the state it starts from. Without an artifact,
    the assertion it returns is one of the response in the posted form: the time
    of the conditions is the second reading of the clock. With one, the document
    is the body that was fetched from the artifact resolution service of the
    identity provider's metadata, without redirects and at most 10 MiB long; its
    artifact response answers the very request that was sent for this artifact
    and is fresh by the clock read after the body, and the assertion is one of
    the response in it. Either way the response meets the conditions on
    responses, the assertion those on assertions, and it is read from content
    that a trusted signature covers. *)
Theorem ParseResponse_sound sp Form PostForm url ids s s' a
    (Hparse : ParseResponse sp Form PostForm url ids s = (s', Ret a)) :
  if decide (values_Get Form "SAMLart" = "") then form_answer sp PostForm url ids s a
  else artifact_answer sp (values_Get Form "SAMLart") ids s a.
Proof. by apply ParseResponse_ret in Hparse. Qed.
End artifacts.

(** ** Answers to logout requests *)

Section logout_responses.
Context {W : Type} `{UrlI : UrlOps} `{VarsI : PackageVars} `{X509I : X509Ops} `{EtreeI : EtreeOps} `{XmlI : XmlOps} `{SigI : SignatureOps} `{CryptoI : CryptoOps} `{FlateI : FlateOps} `{WorldI : World W}.

Implicit Types sp : ServiceProvider.

Record logout_response_ok sp (ids : list string) (now : Time) (r : LogoutResponse) : Prop := {
  lrok_destination : LogoutResponse_Destination r = URL_String (SP_SloURL sp);
  lrok_fresh : now <= LogoutResponse_IssueInstant r + MaxIssueDelay;
  lrok_issuer : ∃ m i, SP_IDPMetadata sp = Some m ∧ LogoutResponse_Issuer r = Some i ∧
    Issuer_Value i = EntityDescriptor_EntityID m;
  lrok_request : LogoutResponse_InResponseTo r ∈ ids ∧ LogoutResponse_InResponseTo r ≠ "";
  lrok_status : StatusCode_Value (Status_StatusCode (LogoutResponse_Status r)) = StatusSuccess
}.

Lemma validateLogoutResponse_ret sp r ids s u :
  (validateLogoutResponse sp r ids s).2 = Ret u ↔ logout_response_ok sp ids (TimeNow_ s.1).2 r.
Proof.
  destruct s as [w l]. unfold validateLogoutResponse, TimeNow, reads, mbind, IO_bind, lift, raise_if.
  destruct (bool_decide_reflect (LogoutResponse_Destination r = URL_String (SP_SloURL sp))) as [Hd|Hd];
    cbn [negb]; [|split; [done|by intros [? ? ? ? ?]]].
  cbn [fst]. destruct (TimeNow_ w) as [w' now]. cbn [snd].
  fold (raise_if (Time_Before (Time_Add (LogoutResponse_IssueInstant r) MaxIssueDelay) now)
    (Errorf "issueInstant expired at %s" [ATime (Time_Add (LogoutResponse_IssueInstant r) MaxIssueDelay)])).
  unfold Time_Before, Time_Add.
  change (outcome_bind ?A ?B ?f ?o) with (mbind (M := outcome) f o).
  destruct (Z.ltb_spec (LogoutResponse_IssueInstant r + MaxIssueDelay) now) as [Hf|Hf]; cbn.
  { split; [done|]. intros [? ? ? ? ?]. lia. }
  destruct (SP_IDPMetadata sp) as [m|] eqn:Em; cbn; [|split; [done|intros [_ _ (? & ? & ? & _) _ _]; congruence]].
  destruct (LogoutResponse_Issuer r) as [i|] eqn:Ei; cbn;
    [|split; [done|intros [_ _ (? & ? & _ & ? & _) _ _]; congruence]].
  destruct (bool_decide_reflect (Issuer_Value i = EntityDescriptor_EntityID m)) as [Hi|Hi]; cbn;
    [|split; [done|intros [_ _ (? & ? & ? & ? & ?) _ _]; congruence]].
  destruct (bool_decide_reflect (LogoutResponse_InResponseTo r = "")) as [Hn|Hn]; cbn;
    [split; [done|by intros [_ _ _ [_ ?] _]]|].
  destruct (bool_decide_reflect (LogoutResponse_InResponseTo r ∈ ids)) as [Hin|Hin]; cbn;
    [|split; [done|by intros [_ _ _ [? _] _]]].
  destruct (bool_decide_reflect (StatusCode_Value (Status_StatusCode (LogoutResponse_Status r))
    = StatusSuccess)) as [Hs|Hs]; cbn; [|split; [done|by intros [_ _ _ _ ?]]].
  destruct u. split; [|done]. intros _. constructor; [done..| | |done]; [|done].
  by exists m, i.
Qed.

(** A logout response is accepted exactly when it is addressed to the
    logout URL, fresh, issued by the identity provider of the metadata, a
    success and in response to one of the requests that were sent. There is no
    unsolicited form. *)
Theorem validateLogoutResponse_iff sp r ids s :
  (validateLogoutResponse sp r ids s).2 = Ret () ↔ logout_response_ok sp ids (TimeNow_ s.1).2 r.
Proof. apply validateLogoutResponse_ret. Qed.

(** The document of the query, and that of the form. *)
Definition query_document (rawQuery : string) (parameters : gmap string string) (document : string) : Prop :=
  redirectParameters rawQuery = Ret parameters ∧
  ∃ message compressed, QueryUnescape (default "" (parameters !! "SAMLResponse")) = Ret message ∧
    base64_Decode message = Ret compressed ∧ safer_ReadAll None compressed = Ret document.

Definition form_document (req : HTTPRequest) (document : string) : Prop :=
  ∃ form, ParseForm_default req = Ret form ∧
    base64_Decode (values_Get form "SAMLResponse") = Ret document.

(** The content [el] of the request that an accepted response is read from, and
    the state [s'] after the readings of the clocks that this takes in [s]: the
    whole document of a query that is signed, at the time that was read, with a
    certificate that the configuration designates, or what a signature in the
    document of the query or form covers. *)
Definition logout_content sp (req : HTTPRequest) (s s' : St W) (el : Cursor) : Prop :=
  let rawQuery := URL_RawQuery (HTTPRequest_URL req) in
  ∃ parameters t s1 document root,
  redirectParameters rawQuery = Ret parameters ∧ TimeNow s = (s1, Ret t) ∧
  ReadFromBytes document = Ret (Some root) ∧
  (if decide (default "" (parameters !! "SAMLResponse") = "") then form_document req document
   else query_document rawQuery parameters document) ∧
  if decide (default "" (parameters !! "SAMLResponse") ≠ "" ∧
      (is_Some (parameters !! "Signature") ∨ is_Some (parameters !! "SigAlg")))
  then ∃ certs now,
    redirectSigningCertificates sp = Ret certs ∧ redirect_now s1 = (s', Ret now) ∧
    verifyRedirectSignature rawQuery "SAMLResponse" certs now = Ret () ∧ el = root_cursor root
  else ∃ clock, Clock_Now s1 = (s', Ret clock) ∧ signature_verified sp clock (root_cursor root) el.

Lemma validateLogoutResponse_state sp r ids s s' :
  validateLogoutResponse sp r ids s = (s', Ret ()) →
  ∃ now, TimeNow s = (s', Ret now) ∧ logout_response_ok sp ids now r.
Proof.
  intros H. assert (Hok : (validateLogoutResponse sp r ids s).2 = Ret ()) by (by rewrite H).
  apply validateLogoutResponse_ret in Hok. unfold validateLogoutResponse in H.
  apply io_lift_bind in H as (u & _ & H). apply io_bind_ret in H as (s1 & now & Hn & H).
  apply lift_ret in H as [-> _]. exists now. split; [done|].
  destruct s as [w l]. unfold TimeNow, reads in Hn. cbn [fst] in Hok.
  destruct (TimeNow_ w). by injection Hn as _ <-.
Qed.

Lemma validateLogoutDocument_ret sp document verified retErr ids s s' :
  validateLogoutDocument sp document verified retErr ids s = (s', Ret ()) →
  ∃ root el r s1 now, ReadFromBytes document = Ret (Some root) ∧
    (if verified then el = root_cursor root ∧ s1 = s
     else ∃ clock, Clock_Now s = (s1, Ret clock) ∧ signature_verified sp clock (root_cursor root) el) ∧
    unmarshalElement Unmarshal_LogoutResponse el = Ret r ∧
    TimeNow s1 = (s', Ret now) ∧ logout_response_ok sp ids now r.
Proof.
  unfold validateLogoutDocument. intros H.
  apply io_lift_bind in H as (o & Ho & H). rewrite map_err_ret in Ho.
  apply io_lift_bind in H as (root & Hr & H).
  apply deref_ret in Hr as ->.
  apply io_bind_ret in H as (s3 & el & Hel & H).
  apply io_lift_bind in H as (r & Hr & H). rewrite map_err_ret in Hr.
  apply validateLogoutResponse_state in H as (now & Hnow & Hok).
  exists root, el, r, s3, now. split_and!; [done| |done..]. destruct verified.
  - unfold mret, IO_ret in Hel. by injection Hel as -> ->.
  - apply io_bind_ret in Hel as (s5 & clock & Hc & Hel). apply lift_ret in Hel as [-> Hel].
    rewrite map_err_ret in Hel. exists clock. split; [done|]. by apply verifySignature_ret.
Qed.

(** An accepted response, whatever it came in. *)
Definition logout_answer sp (req : HTTPRequest) (ids : list string) (s s' : St W) : Prop :=
  ∃ s1 el r now, logout_content sp req s s1 el ∧ unmarshalElement Unmarshal_LogoutResponse el = Ret r ∧
    TimeNow s1 = (s', Ret now) ∧ logout_response_ok sp ids now r.

Lemma ValidateLogoutResponseForm_ret sp req m form ids s s' :
  redirectParameters (URL_RawQuery (HTTPRequest_URL req)) = Ret m →
  default "" (m !! "SAMLResponse") = "" → ParseForm_default req = Ret form →
  ValidateLogoutResponseForm sp (values_Get form "SAMLResponse") ids s = (s', Ret ()) →
  logout_answer sp req ids s s'.
Proof.
  unfold ValidateLogoutResponseForm. intros Hm He Hf H.
  apply io_bind_ret in H as (s1 & t & Ht & H).
  apply io_lift_bind in H as (document & Hd & H). rewrite map_err_ret in Hd.
  apply io_bind_ret in H as (s3 & u & Hs3 & H). apply lift_ret in Hs3 as [-> _].
  apply validateLogoutDocument_ret in H as (root & el & r & s4 & now & Hr & Hv & Hel & Hn & Hok).
  exists s4, el, r, now. split_and!; [|done..].
  exists m, t, s1, document, root. split_and!; [done..| |].
  - rewrite decide_True by done. by exists form.
  - by rewrite decide_False by tauto.
Qed.

Lemma ValidateLogoutResponseRedirect_ret sp req m ids s s' :
  redirectParameters (URL_RawQuery (HTTPRequest_URL req)) = Ret m →
  default "" (m !! "SAMLResponse") ≠ "" →
  ValidateLogoutResponseRedirect sp (HTTPRequest_URL req) ids s = (s', Ret ()) →
  logout_answer sp req ids s s'.
Proof.
  unfold ValidateLogoutResponseRedirect. intros Hm Hne H.
  apply io_bind_ret in H as (s1 & t & Ht & H). rewrite Hm in H. cbn [map_err] in H.
  apply io_lift_bind in H as (m' & [= <-] & H).
  apply io_bind_ret in H as (s3 & u & Hsig & H).
  apply io_lift_bind in H as (message & Hq & H). rewrite map_err_ret in Hq.
  apply io_lift_bind in H as (compressed & Hb & H). rewrite map_err_ret in Hb.
  apply io_lift_bind in H as (document & Hf & H). rewrite map_err_ret in Hf.
  apply io_bind_ret in H as (s7 & u' & Hs7 & H). apply lift_ret in Hs7 as [-> _].
  apply validateLogoutDocument_ret in H as (root & el & r & s4 & now & Hroot & Hv & Hr & Hn & Hok).
  exists s4, el, r, now. split_and!; [|done..]. exists m, t, s1, document, root.
  split_and!; [done..| |].
  { rewrite decide_False by done. split; [done|]. by exists message, compressed. }
  destruct (bool_decide_reflect (is_Some (m !! "Signature"))) as [Hs|Hs];
    destruct (bool_decide_reflect (is_Some (m !! "SigAlg"))) as [Ha|Ha]; cbn [orb] in Hv, Hsig.
  4: { rewrite decide_False by tauto. unfold mret, IO_ret in Hsig. injection Hsig as <- _. done. }
  all: rewrite decide_True by tauto; destruct Hv as [-> ->];
    apply io_lift_bind in Hsig as (certs & Hc & Hsig); rewrite map_err_ret in Hc;
    apply io_bind_ret in Hsig as (s9 & t' & Ht' & Hsig); apply lift_ret in Hsig as [-> Hsig];
    rewrite map_err_ret in Hsig; destruct u; by exists certs, t'.
Qed.

(** C33: soundness of the validation of logout responses, by form or by query.
    A response that is accepted is addressed to the logout URL, issued by the
    identity provider, a success and in response to a request that was sent, and
    it is fresh by the last reading of the clock, the one that leads to the
    final state. It was read from signed content: the query it came in carries a
    signature that verifies at the time read before with a designated
    certificate, or the content is what an embedded signature covers; an
    embedded one is required exactly if the query has neither [Signature] nor
    [SigAlg]. The form is read only if the query has no [SAMLResponse]. *)
Theorem ValidateLogoutResponseRequest_sound sp req ids s s'
    (Hv : ValidateLogoutResponseRequest sp req ids s = (s', Ret ())) :
  ∃ s1 el r now, logout_content sp req s s1 el ∧ unmarshalElement Unmarshal_LogoutResponse el = Ret r ∧
    TimeNow s1 = (s', Ret now) ∧ logout_response_ok sp ids now r.
Proof.
  unfold ValidateLogoutResponseRequest in Hv.
  destruct (redirectParameters (URL_RawQuery (HTTPRequest_URL req))) as [m|e|] eqn:Em.
  - destruct (bool_decide_reflect (default "" (m !! "SAMLResponse") = "")); cbn [negb] in Hv;
      [|by eapply ValidateLogoutResponseRedirect_ret].
    apply io_lift_bind in Hv as (form & Hf & Hv). rewrite map_err_ret in Hf.
    by eapply ValidateLogoutResponseForm_ret.
  - by apply io_bind_ret in Hv as (s1 & t & _ & [_ Hv]%lift_ret).
  - by apply lift_ret in Hv as [_ Hv].
Qed.

(** A form whose document has no root element makes the call panic instead
    of returning an error; an empty [SAMLResponse] is such a form where the
    parser accepts an empty document. *)
Theorem ValidateLogoutResponseForm_panics_without_root sp data document ids s
    (Hdata : base64_Decode data = Ret document)
    (Hxml : xrv_Validate document = Ret ())
    (Hroot : ReadFromBytes document = Ret None) :
  (ValidateLogoutResponseForm sp data ids s).2 = Panic.
Proof.
  unfold ValidateLogoutResponseForm, validateLogoutDocument, TimeNow, reads, mbind, IO_bind, lift.
  destruct s as [w l]. destruct (TimeNow_ w).
  rewrite Hdata. cbn. rewrite Hxml. cbn. by rewrite Hroot.
Qed.
End logout_responses.

(** ** Agreement of the two sides *)

Lemma hex_lower_id n : (n < 16)%N → id_char (hex_lower n).
Proof.
  intros Hn. assert (H : forallb (λ n, bool_decide (id_char (hex_lower (N.of_nat n)))) (seq 0 16) = true)
    by (by vm_compute).
  rewrite forallb_forall in H. specialize (H (N.to_nat n)).
  rewrite N2Nat.id in H. apply (bool_decide_eq_true_1 _), H, in_seq. lia.
Qed.

Lemma hex_string_id s c : c ∈ String.list_ascii_of_string (hex_string s) → id_char c.
Proof.
  induction s as [|b s IH]; simpl; [by intros ?%elem_of_nil|].
  intros [->|[->|Hc]%elem_of_cons]%elem_of_cons; [apply hex_lower_id..|by apply IH].
  - pose proof (byte_lt b). apply N.Div0.div_lt_upper_bound. lia.
  - by apply N.mod_lt.
Qed.

Lemma hex_string_length s : String.length (hex_string s) = (2 * String.length s)%nat.
Proof. induction s as [|b s IH]; simpl; [done|]. rewrite IH. lia. Qed.

Lemma new_id_valid s : String.length s = 20%nat → valid_id ("id-" +++ hex_string s).
Proof.
  intros Hs. split_and!; [done| |].
  - cbn [String.append String.length]. rewrite hex_string_length, Hs. by vm_compute.
  - cbn. intros c Hc. repeat (apply elem_of_cons in Hc as [->|Hc];
      [apply (bool_decide_eq_true_1 _); by vm_compute|]). by apply (hex_string_id s).
Qed.

Section agreement.
Context {W : Type} `{UrlI : UrlOps} `{VarsI : PackageVars} `{EtreeI : EtreeOps} `{XmlI : XmlOps} `{CryptoI : CryptoOps} `{FlateI : FlateOps} `{WorldI : World W}.

Implicit Types sp : ServiceProvider.

(** What [io.ReadFull] promises of the random source. *)
Definition full_reads : Prop := ∀ n w w' b, RandReader n w = (w', Some b) → String.length b = n.

Lemma new_id_ret s s' id : full_reads → new_id s = (s', Ret id) → valid_id id.
Proof.
  intros Hrand H. unfold new_id, randomBytes in H.
  apply io_bind_ret in H as (s1 & b & Hb & H). unfold mret, IO_ret in H. injection H as _ <-.
  apply io_bind_ret in Hb as (s2 & o & Ho & Hb). apply lift_ret in Hb as [-> Hb].
  apply deref_ret in Hb as ->. apply new_id_valid. destruct s as [w l].
  unfold reads in Ho. destruct (RandReader 20 w) eqn:E. injection Ho as _ ->. by apply Hrand in E.
Qed.

Lemma MakeAuthenticationRequest_ret sp idpURL binding result s s' r :
  MakeAuthenticationRequest sp idpURL binding result s = (s', Ret r) →
  (∃ s1 s2, new_id s1 = (s2, Ret (AuthnRequest_ID r))) ∧
  AuthnRequest_Version r = "2.0" ∧ AuthnRequest_Destination r = idpURL ∧
  AuthnRequest_Issuer r = Some (sp_issuer sp) ∧
  AuthnRequest_AssertionConsumerServiceIndex r = "" ∧
  AuthnRequest_AssertionConsumerServiceURL r = URL_String (SP_AcsURL sp).
Proof.
  unfold MakeAuthenticationRequest. intros H.
  apply io_bind_ret in H as (s1 & id & Hid & H). apply io_bind_ret in H as (s2 & t & _ & H).
  destruct ((SP_SignatureMethod sp != "") && (binding == HTTPPostBinding)).
  - apply lift_ret in H as [_ H]. unfold SignAuthnRequest in H. apply bind_ret in H as (sig & _ & [= <-]).
    simpl. split; [by eauto|done].
  - unfold mret, IO_ret in H. injection H as _ <-. simpl. split; [by eauto|done].
Qed.

Lemma own_acs_endpoints sp t :
  ∃ d, acs_endpoints (sp_metadata_at sp t) =
    [(d, mkIndexedEndpoint HTTPPostBinding (URL_String (SP_AcsURL sp)) None 1 None);
     (d, mkIndexedEndpoint HTTPArtifactBinding (URL_String (SP_AcsURL sp)) None 2 None)].
Proof. by eexists. Qed.

(** The endpoint of the service provider's own metadata for a request of its
    own. *)
Lemma own_endpoint sp t req :
  Req_ServiceProviderMetadata req = Some (sp_metadata_at sp t) →
  AuthnRequest_AssertionConsumerServiceIndex (Req_Request req) = "" →
  AuthnRequest_AssertionConsumerServiceURL (Req_Request req) = URL_String (SP_AcsURL sp) →
  ∃ d e, getACSEndpoint req = Ret (set_ACS (d, e) req) ∧
    IndexedEndpoint_Binding e = HTTPPostBinding ∧
    IndexedEndpoint_Location e = URL_String (SP_AcsURL sp).
Proof.
  intros Hm Hi Hu. destruct (own_acs_endpoints sp t) as [d Hd].
  unfold getACSEndpoint, useDefaultACSEndpoint. rewrite Hi, Hu, Hm.
  cbn [deref]. rewrite !ret_bind, Hd. clear Hd Hm Hu.
  generalize (URL_String (SP_AcsURL sp)). intros url.
  exists d. eexists. destruct (decide (url = "")) as [->|Hne].
  - split_and!; reflexivity.
  - unfold acs_matches. cbn [first_some first_that is_post IndexedEndpoint_Binding IndexedEndpoint_Location].
    rewrite (bool_decide_eq_false_2 (url = "")), (bool_decide_eq_true_2 (url = url)) by done.
    split_and!; reflexivity.
Qed.

(** Interoperation of single sign-on requests. The identity provider accepts
    the requests that the service provider makes for its URL, from a clock skew
    before they are issued until they are too old, and by the service
    provider's own metadata it answers at the service provider's assertion
    consumer service. *)
Theorem MakeAuthenticationRequest_accepted (idp : IdentityProvider W) sp binding result s s' r now
    (Hrand : full_reads)
    (Hmake : MakeAuthenticationRequest sp (URL_String (IDP_SSOURL idp)) binding result s = (s', Ret r))
    (Hentity : sp_audience sp ≠ "")
    (Hnow : AuthnRequest_IssueInstant r - MaxClockSkew <= now <= AuthnRequest_IssueInstant r + max_age idp) :
  checkRequest idp r now = Ret () ∧
  ∀ req t, Req_Request req = r → Req_ServiceProviderMetadata req = Some (sp_metadata_at sp t) →
    ∃ d e, getACSEndpoint req = Ret (set_ACS (d, e) req) ∧
      IndexedEndpoint_Location e = URL_String (SP_AcsURL sp).
Proof.
  apply MakeAuthenticationRequest_ret in Hmake as ((s1 & s2 & Hid) & Hv & Hd & Hi & Hx & Hu). split.
  - apply checkRequest_ret. constructor; [by left|lia|done|by apply (new_id_ret s1 s2)|].
    by exists (sp_issuer sp).
  - intros req t <- Hm. destruct (own_endpoint sp t req Hm Hx Hu) as (d & e & ? & _ & ?). eauto.
Qed.

Lemma MakeLogoutRequest_ret sp idpURL nameID s s' r :
  MakeLogoutRequest sp idpURL nameID s = (s', Ret r) →
  (∃ s1 s2, new_id s1 = (s2, Ret (LogoutRequest_ID r))) ∧
  LogoutRequest_Version r = "2.0" ∧ LogoutRequest_Destination r = idpURL ∧
  LogoutRequest_NotOnOrAfter r = None ∧ LogoutRequest_Issuer r = Some (sp_issuer sp) ∧
  ∃ n, LogoutRequest_NameID r = Some n ∧ NameID_Value n = nameID.
Proof.
  unfold MakeLogoutRequest. intros H.
  apply io_bind_ret in H as (s1 & id & Hid & H). apply io_bind_ret in H as (s2 & t & _ & H).
  apply io_bind_ret in H as (s3 & im & _ & H). apply io_bind_ret in H as (s4 & m & _ & H).
  destruct (SP_SignatureMethod sp != "").
  - apply lift_ret in H as [_ H]. unfold SignLogoutRequest in H. apply bind_ret in H as (sig & _ & [= <-]).
    simpl. split_and!; [by eauto|done..|]. eauto.
  - unfold mret, IO_ret in H. injection H as _ <-. simpl. split_and!; [by eauto|done..|]. eauto.
Qed.
End agreement.

(** ** Witnesses *)

Module Examples.
Import IdpSpec.Examples.

#[local] Existing Instance default_vars.
#[local] Existing Instance ref_signature.

(** The identity provider of [IdpSpec], as its metadata describe it. *)
Definition the_idp : IdentityProvider Time := the_idp (sp_metadata true false) false.

Definition idp_metadata : EntityDescriptor :=
  let key := cert_key_descriptor "signing" (base64_Encode "idpcert") [] in
  entity "https:metadata" 0 0
    [mkIDPSSODescriptor (mkSSODescriptor (role "" [key] None) [] [mkEndpoint HTTPPostBinding "https:slo" ""] [] [])
       None [] [mkEndpoint SOAPBinding "https:artifact" ""] [] [] [] []] [].

Definition sp : ServiceProvider :=
  mkServiceProvider "sp" None None [] None (url_of "spmetadata") (url_of "acs") (url_of "spslo")
    (Some idp_metadata) None None None "" 0 None None false "" None "" [HTTPPostBinding] None None.

(** The identifier that the random source of [ref_world] gives. *)
Definition the_id : string := "id-" +++ hex_string (repeat_byte 20).

Definition logout_response : LogoutResponse :=
  mkLogoutResponse "r1" the_id "2.0" 1000 "https:spslo" "" (Some (mkIssuer "" "" "" "" "https:metadata"))
    None success_status.

Definition assertion : Assertion :=
  mkAssertion "a1" 1000 "2.0" (mkIssuer "" "" "" "" "https:metadata") None
    (Some (mkSubject None [mkSubjectConfirmation cmBearer None
      (Some (mkSubjectConfirmationData 0 2000 "https:acs" "req1" ""))]))
    (Some (mkConditions 900 2000 [mkAudienceRestriction [mkAudience "sp"]] None None)) [] [].

Definition response : Response :=
  mkResponse "r1" "req1" "2.0" 1000 "https:acs" "" None None success_status None None.

Definition artifact : ArtifactResponse :=
  mkArtifactResponse "ar1" the_id "2.0" 1000 None None success_status zero_Response.

#[local] Instance sp_xml : XmlOps := {|
  xrv_Validate _ := Ret ();
  Unmarshal_Response _ := Ret response;
  Unmarshal_ArtifactResponse _ := Ret artifact;
  Unmarshal_Assertion _ := Ret assertion;
  Unmarshal_LogoutResponse _ := Ret logout_response;
  Unmarshal_LogoutRequest _ := Ret zero_LogoutRequest;
  Unmarshal_AuthnRequest _ := Ret zero_AuthnRequest
|}.

Definition signature_el : Element :=
  mkElement "ds" "Signature" [mkAttr "xmlns" "ds" dsig_Namespace; mkAttr "" "key" "idpcert"] [].

(** What the artifact resolution service answers. *)
Definition soap : string :=
  write_element (mkElement "s" "Envelope" [mkAttr "xmlns" "s" nsSoap]
    [TElement (mkElement "s" "Body" []
      [TElement (mkElement "samlp" "ArtifactResponse" [mkAttr "xmlns" "samlp" nsProtocol]
        [TElement signature_el;
         TElement (mkElement "samlp" "Response" []
           [TElement (mkElement "saml" "Assertion" [mkAttr "xmlns" "saml" nsAssertion] [])])])])]).

#[local] Instance one_response : HttpOps Time := {|
  http_DefaultClient := mkHTTPClient "" DefaultRedirects 0;
  Client_Do client req t :=
    (t, Ret (mkClientResponse 200 "200 OK" (λ _ t, (t, Ret soap)) (λ t, (t, Ret ()))))
|}.

Definition artifact_form : url_Values := [("SAMLart", "artifact1")].

Lemma ParseResponse_sound_witness :
  artifact_answer sp "artifact1" ["req1"] (1500, []) assertion.
Proof.
  apply (ParseResponse_sound sp artifact_form [] (url_of "acs") ["req1"] (1500, []) (1500, [])).
  vm_compute. reflexivity.
Defined.

Definition logout_el : Element :=
  mkElement "samlp" "LogoutResponse" [mkAttr "xmlns" "samlp" nsProtocol] [TElement signature_el].

Definition logout_http : HTTPRequest :=
  mkHTTPRequest "POST" (url_of "spslo") (Ret "application/x-www-form-urlencoded")
    (Some ("SAMLResponse=" +++ QueryEscape (base64_Encode (write_element logout_el)))) "" [] [] [] false.

Lemma ValidateLogoutResponseRequest_sound_witness :
  ∃ s1 el r now, logout_content sp logout_http (1500, []) s1 el ∧
    unmarshalElement Unmarshal_LogoutResponse el = Ret r ∧
    TimeNow s1 = ((1500, []), Ret now) ∧ logout_response_ok sp [the_id] now r.
Proof.
  apply (ValidateLogoutResponseRequest_sound sp logout_http [the_id] (1500, []) (1500, [])).
  vm_compute. reflexivity.
Defined.

(** An empty form. *)
Lemma ValidateLogoutResponseForm_panics_witness :
  (ValidateLogoutResponseForm sp "" [] (1500, [])).2 = Panic.
Proof. apply (ValidateLogoutResponseForm_panics_without_root sp "" ""); vm_compute; reflexivity. Defined.

Lemma repeat_byte_length n : String.length (repeat_byte n) = n.
Proof. induction n as [|n IH]; simpl; [done|by rewrite IH]. Qed.

Lemma ref_full_reads : full_reads.
Proof. intros n w w' b [= <- <-]. apply repeat_byte_length. Qed.

Definition made_request : AuthnRequest :=
  match (MakeAuthenticationRequest sp "https:sso" HTTPRedirectBinding HTTPPostBinding (1000, [])).2 with
  | Ret r => r
  | _ => zero_AuthnRequest
  end.

Lemma MakeAuthenticationRequest_accepted_witness :
  checkRequest the_idp made_request 1100 = Ret () ∧
  ∀ req t, Req_Request req = made_request → Req_ServiceProviderMetadata req = Some (sp_metadata_at sp t) →
    ∃ d e, getACSEndpoint req = Ret (set_ACS (d, e) req) ∧
      IndexedEndpoint_Location e = URL_String (SP_AcsURL sp).
Proof.
  apply (MakeAuthenticationRequest_accepted the_idp sp HTTPRedirectBinding HTTPPostBinding
    (1000, []) (1000, [])).
  - exact ref_full_reads.
  - vm_compute. reflexivity.
  - vm_compute. discriminate.
  - vm_compute. split; discriminate.
Defined.
End Examples.
