(* ===== verification/SingleSignOn.v ===== *)
(** * SingleSignOn: the messages of single sign-on on the wire

    The request that the service provider makes, as the query of a redirect that the
    identity provider reads and accepts; and the assertion that the identity provider makes,
    as the element that the service provider reads and accepts. *)

From stdpp Require Import base option list gmap strings.
From Stdlib Require Import ZArith Lia Ascii.
From S2P Require Import Prelude Go Duration RelaxedTime Encoding Etree C14n Schema SchemaXML Env XmlTree.
From S2P Require Import XmlDecode SchemaDecode SchemaRoundtrip SchemaDecodeSpec ServiceProvider Reference.
From S2P Require Import ServiceProviderSpec DSig Redirect RedirectSpec Http IdentityProvider Assertions.
From S2P Require Import IdpResponse SPMessages IdpSpec AssertionsSpec SPMessagesSpec.

Open Scope string_scope.
Open Scope Z_scope.

(** ** Compressed data through the bounded reader *)

(** The buffers that [io.ReadAll] offers through an [io.LimitReader] with [n] bytes left are
    cut to what is left. *)
Fixpoint within (n : Z) (reads : list (Z * string)) : Prop :=
  match reads with
  | [] => True
  | (len_p, bytes) :: reads => len_p <= n ∧ within (n - Z.of_nat (String.length bytes)) reads
  end.

Fixpoint bytes_of (reads : list (Z * string)) : string :=
  match reads with [] => "" | (_, bytes) :: reads => bytes +++ bytes_of reads end.

(** What [compress/flate] and [io] promise: a decompressor gives back what was compressed,
    through a limit that is not smaller. *)
Class FlateLaws `{FlateI : FlateOps} : Prop := {
  flate_inverse n s : Z.of_nat (String.length s) <= n → ∃ reads,
    flate_reads (Some n) (flate_Compress s) = (reads, None) ∧ bytes_of reads = s ∧ within n reads
}.

Lemma saferFlateReader_within n count reads : within n reads → count + n <= flateUncompressLimit →
  saferFlateReader_ReadAll count reads None = Ret (bytes_of reads).
Proof.
  revert n count. induction reads as [|[len_p bytes] reads IH]; intros n count; [done|].
  cbn [within saferFlateReader_ReadAll bytes_of]. intros [Hl Hw] Hn.
  rewrite (proj2 (Z.ltb_ge _ _)) by lia. unfold raise_if. rewrite ret_bind, (IH _ _ Hw) by lia.
  by rewrite ret_bind.
Qed.

Lemma safer_ReadAll_inverse `{FlateL : FlateLaws} n s : Z.of_nat (String.length s) <= n →
  n <= flateUncompressLimit → safer_ReadAll (Some n) (flate_Compress s) = Ret s.
Proof.
  intros (reads & Hr & <- & Hw)%flate_inverse Hn. unfold safer_ReadAll. rewrite Hr.
  by apply (saferFlateReader_within n).
Qed.

(** What [Deflate] gives is the document, compressed. *)
Lemma LogoutRequest_Deflate_inverse `{EtreeI : EtreeOps} `{FlateL : FlateLaws} r b n :
  LogoutRequest_Deflate r = Ret b → ∃ doc, LogoutRequest_Bytes r = Ret doc ∧
    (Z.of_nat (String.length doc) <= n → n <= flateUncompressLimit → safer_ReadAll (Some n) b = Ret doc).
Proof.
  unfold LogoutRequest_Deflate. intros (doc & Hd & [= <-])%bind_ret. exists doc. split; [done|].
  intros. by apply safer_ReadAll_inverse.
Qed.

(** ** The query of a redirect *)

Lemma parse_param key value parts : query_unescape key = Some key → has_byte ";" key = false →
  has_byte "=" key = false →
  parse_pairs (param key value :: parts) = ((key, value) :: (parse_pairs parts).1, (parse_pairs parts).2).
Proof.
  intros Hk Hsemi Heq. cbn [parse_pairs]. destruct (parse_pairs parts) as [rest ok]. unfold param.
  rewrite has_byte_append, Hsemi. cbn [has_byte orb]. rewrite QueryEscape_no_byte by done.
  rewrite bool_decide_false by (by destruct key). rewrite Cut_append by done. rewrite Hk.
  pose proof (QueryUnescape_escape value) as Hv. unfold QueryUnescape in Hv. apply or_err_ret in Hv.
  by rewrite Hv.
Qed.

Lemma ParseQuery_message parameter encoded relayState : parameter ∈ ["SAMLRequest"; "SAMLResponse"] →
  ParseQuery (message_query parameter encoded relayState)
  = ((parameter, encoded) :: (if relayState != "" then [("RelayState", relayState)] else []), true)%list.
Proof.
  intros Hp. unfold ParseQuery.
  assert (Hk : query_unescape parameter = Some parameter ∧ has_byte ";" parameter = false ∧
    has_byte "=" parameter = false ∧ has_byte "&" parameter = false).
  { repeat (apply elem_of_cons in Hp as [->|Hp]; [done|]). by apply elem_of_nil in Hp. }
  destruct Hk as (H1 & H2 & H3 & H4).
  assert (Hq : Split "&" (message_query parameter encoded relayState)
    = (param parameter encoded :: if relayState != "" then [param "RelayState" relayState] else [])%list).
  { unfold message_query. destruct (relayState != "").
    - change (parameter +++ "=" +++ QueryEscape encoded +++ "&RelayState=" +++ QueryEscape relayState)
        with (parameter +++ String "=" (QueryEscape encoded +++ String "&" (param "RelayState" relayState))).
      replace (parameter +++ String "=" (QueryEscape encoded +++ String "&" (param "RelayState" relayState)))
        with (param parameter encoded +++ String "&" (param "RelayState" relayState))
        by (unfold param; by rewrite append_assoc).
      rewrite Split_append by (by apply param_no_amp). by rewrite Split_no_sep by (by apply param_no_amp).
    - rewrite append_nil_r. by rewrite Split_no_sep by (by apply (param_no_amp parameter encoded)). }
  rewrite Hq, parse_param by done. destruct (relayState != ""); [|done]. by rewrite parse_param.
Qed.

(** ** Unsigned requests *)

Lemma find_children_none `{EtreeI : EtreeOps} parentEl childNS childTag children :
  (∀ c, c ∈ children → Tag c ≠ childTag) → find_children parentEl childNS childTag children = Ret [].
Proof.
  induction children as [|c children IH]; intros H; [done|]. cbn [find_children]. unfold matches_child.
  rewrite (bool_decide_false (Tag c = childTag)) by (apply H; by left). cbn [negb].
  rewrite ret_bind, IH by (intros; apply H; by right). done.
Qed.

Lemma els_opt_tag {A} (f : A → Element) v tag c : (∀ x, Tag (f x) = tag) → c ∈ els_opt f v → Tag c = tag.
Proof. intros H. destruct v; simpl; [|by intros ?%elem_of_nil]. by intros ->%list_elem_of_singleton. Qed.

Section unsigned.
Context `{EtreeI : EtreeOps} `{EtreeB : !EtreeBuild}.

Lemma Issuer_Element_tag x : Tag (Issuer_Element x) = "Issuer".
Proof. unfold Issuer_Element. eapply built_Tag. build. Qed.
Lemma Subject_Element_tag x : Tag (Subject_Element x) = "Subject".
Proof. unfold Subject_Element. eapply built_Tag. build. Qed.
Lemma NameIDPolicy_Element_tag x : Tag (NameIDPolicy_Element x) = "NameIDPolicy".
Proof. unfold NameIDPolicy_Element. eapply built_Tag. build. Qed.
Lemma Conditions_Element_tag x : Tag (Conditions_Element x) = "Conditions".
Proof. unfold Conditions_Element. eapply built_Tag. build. Qed.
Lemma RequestedAuthnContext_Element_tag x : Tag (RequestedAuthnContext_Element x) = "RequestedAuthnContext".
Proof. unfold RequestedAuthnContext_Element. eapply built_Tag. build. Qed.

(** A request without a signature has no child of that name. *)
Lemma AuthnRequest_unsigned r : AuthnRequest_Signature r = None →
  findChild (root_cursor (AuthnRequest_Element r)) dsig_Namespace "Signature" = Ret None.
Proof.
  intros Hs. unfold findChild, findChildren.
  assert (Hels : ∃ t a x, built "samlp" t a
    (els_opt Issuer_Element (AuthnRequest_Issuer r) ++ els_opt id (AuthnRequest_Signature r) ++
     els_opt Subject_Element (AuthnRequest_Subject r) ++ els_opt NameIDPolicy_Element (AuthnRequest_NameIDPolicy r) ++
     els_opt Conditions_Element (AuthnRequest_Conditions r) ++
     els_opt RequestedAuthnContext_Element (AuthnRequest_RequestedAuthnContext r))%list x (AuthnRequest_Element r)).
  { unfold AuthnRequest_Element, declare_saml. do 3 eexists. eapply built_eq; [build|done|done|done| |done]. by groups. }
  destruct Hels as (t & a & x & Hb). rewrite find_children_none; [done|]. cbn [cur root_cursor].
  rewrite (built_els _ _ _ _ _ _ Hb), Hs. intros c. rewrite !elem_of_app.
  intros [H|[H|[H|[H|[H|H]]]]]; [|by apply elem_of_nil in H|..]; eapply els_opt_tag in H;
    [|auto using Issuer_Element_tag, Subject_Element_tag, NameIDPolicy_Element_tag, Conditions_Element_tag, RequestedAuthnContext_Element_tag ..]; by rewrite H.
Qed.
End unsigned.

Section requests.
Context {W : Type} `{UrlI : UrlOps} `{VarsI : PackageVars} `{X509I : X509Ops} `{EtreeI : EtreeOps} `{EtreeB : !EtreeBuild}.
Context `{XmlP : XmlParser} `{SigI : SignatureOps} `{CryptoI : CryptoOps} `{FlateL : FlateLaws} `{WorldI : World W}.

(** The document is what both parsers read as the element, and it is stable. *)
Record parses_as (doc : string) (el : Element) : Prop := {
  parses_written : WriteToBytes el = Ret doc;
  parses_xml : xml_Parse doc = Ret el;
  parses_etree : ReadFromBytes doc = Ret (Some el);
  parses_stable : roundtrip_Validate doc = Ret ()
}.

Lemma values_Get_first key v l : values_Get ((key, v) :: l) key = v.
Proof. unfold values_Get. cbn [first_that]. by rewrite bool_decide_true. Qed.

Lemma readRedirectQuery_message h now doc relayState : Z.of_nat (String.length doc) <= maxAuthnRequestSize →
  readRedirectQuery h now (message_query "SAMLRequest" (base64_Encode (flate_Compress doc)) relayState)
  = Ret (empty_request h relayState doc "" now).
Proof.
  intros Hsize. unfold readRedirectQuery, readRedirectRequest. rewrite ParseQuery_message by by left.
  cbn [fst]. rewrite (values_Get_first "SAMLRequest").
  rewrite base64_Decode_Encode. cbn [map_err]. rewrite !ret_bind, safer_ReadAll_inverse
    by (unfold maxAuthnRequestSize, flateUncompressLimit in *; lia). cbn [map_err]. rewrite ret_bind.
  unfold checkAuthnRequestSize. rewrite (proj2 (Z.ltb_ge _ _)) by done. unfold raise_if. rewrite !ret_bind.
  destruct (bool_decide_reflect (relayState = "")) as [->|Hne]; done.
Qed.

(** The request of an unsigned redirect, as the identity provider holds it. *)
Lemma NewIdpAuthnRequest_redirect sp r relayState u h s rv doc :
  SP_SignatureMethod sp = "" → AuthnRequest_Redirect r relayState (Some sp) = Ret u →
  url_Parse (AuthnRequest_Destination r) = Ret rv → URL_RawQuery rv = "" →
  WriteToBytes (AuthnRequest_Element r) = Ret doc → Z.of_nat (String.length doc) <= maxAuthnRequestSize →
  HTTPRequest_Method h = "GET" → URL_RawQuery (HTTPRequest_URL h) = URL_RawQuery u →
  ∃ s', NewIdpAuthnRequest h s = (s', Ret (empty_request h relayState doc "" (TimeNow_ s.1).2)).
Proof.
  intros Hsp Hu Hrv Hraw Hdoc Hsize Hget Hq.
  unfold AuthnRequest_Redirect, redirectURL, redirectURLWithContext in Hu. rewrite Hsp in Hu.
  change ("" != "") with false in Hu. cbv iota in Hu. rewrite ret_bind, Hdoc, ret_bind, Hrv, !ret_bind, Hraw in Hu.
  injection Hu as <-. destruct s as [w l].
  unfold NewIdpAuthnRequest. rewrite Hget, bool_decide_true by done. rewrite Hq.
  change (URL_RawQuery (set_RawQuery ?q ?v)) with q.
  change ("" != "") with false. cbv iota.
  unfold mbind, IO_bind, TimeNow, Http.reads, lift. cbn [fst]. destruct (TimeNow_ w) as [w' t]. cbn [snd].
  rewrite readRedirectQuery_message by done. by eexists.
Qed.

(** [Validate] of an unsigned request that its own metadata allow to be unsigned. *)
Lemma Validate_unsigned (idp : IdentityProvider W) h relayState doc now r el md s s' req :
  parses_as doc el → Z.of_nat (String.length doc) <= maxAuthnRequestSize →
  Unmarshal_AuthnRequest doc = Ret r → checkRequest idp r now = Ret () →
  findChild (root_cursor el) dsig_Namespace "Signature" = Ret None →
  IDP_WantAuthnRequestsSigned idp = false → serviceProviderSignsAuthnRequests md = false →
  (∃ i, AuthnRequest_Issuer r = Some i ∧
    effect (IDP_ServiceProviderProvider idp h (Issuer_Value i)) s = (s', Ret (Some md))) →
  getACSEndpoint (set_Metadata (Some md) (set_Request r (empty_request h relayState doc "" now))) = Ret req →
  Validate idp (empty_request h relayState doc "" now) s = (s', Ret req).
Proof.
  intros [_ _ Htree Hstable] Hsize Hr Hcheck Hsig Hwant Hmd (i & Hi & Hsp) Hacs.
  unfold Validate. apply io_lift_bind. exists (). split.
  { unfold checkAuthnRequestSize. cbn [Req_RequestBuffer empty_request]. by rewrite (proj2 (Z.ltb_ge _ _)) by lia. }
  apply io_lift_bind. exists (). split; [exact Hstable|].
  apply io_lift_bind. exists r. split; [exact Hr|].
  apply io_lift_bind. exists (). split; [exact Hcheck|].
  apply io_lift_bind. exists i. split; [by rewrite Hi|].
  apply io_bind_ret. exists s', (Some md). split; [apply on_result_ret; left; by exists s', (Some md)|].
  apply io_bind_ret. eexists s', _. split; [|apply lift_ret; split; [done|by rewrite Hacs]].
  unfold verifyAuthnRequestSignature.
  apply io_lift_bind. exists (Some el). split; [exact Htree|].
  apply io_lift_bind. exists el. split; [done|].
  apply io_lift_bind. exists None. split; [exact Hsig|].
  rewrite (bool_decide_false (is_Some None)) by (by intros [? ?]). cbn [negb]. rewrite andb_true_r.
  apply lift_ret. split; [done|]. rewrite Hwant. unfold raise_if. cbn. by rewrite Hmd.
Qed.

Lemma MakeAuthenticationRequest_plain sp idpURL binding result s s' r : SP_SignatureMethod sp = "" →
  MakeAuthenticationRequest sp idpURL binding result s = (s', Ret r) →
  AuthnRequest_Signature r = None ∧ AuthnRequest_Subject r = None ∧ AuthnRequest_Conditions r = None.
Proof.
  unfold MakeAuthenticationRequest. intros -> H.
  apply io_bind_ret in H as (s1 & id & _ & H). apply io_bind_ret in H as (s2 & t & _ & H).
  injection H as _ <-. done.
Qed.

Lemma Time_read_close t : t - Millisecond < Time_read t <= t.
Proof. unfold Time_read. pose proof (Z.mod_pos_bound t Millisecond). unfold Millisecond in *. lia. Qed.

(** C7: the request of single sign-on arrives. The redirect of a service provider that does
    not sign takes the browser to the identity provider with a query from which
    [NewIdpAuthnRequest] reads the document of the request; [Validate] accepts it if it comes
    in time and the provider of metadata knows the service provider by its own metadata, and
    what it holds is the request that was made, with its relay state, to be answered at
    the service provider's assertion consumer service. *)
Theorem sso_request_arrives (idp : IdentityProvider W) sp result relayState s s' r u rv doc h s1 t
    (Hrand : full_reads)
    (Hmake : MakeAuthenticationRequest sp (URL_String (IDP_SSOURL idp)) HTTPRedirectBinding result s = (s', Ret r))
    (Hunsigned : SP_SignatureMethod sp = "") (Hwant : IDP_WantAuthnRequestsSigned idp = false)
    (Hentity : sp_audience sp ≠ "") (Hyear : four_digit_year (AuthnRequest_IssueInstant r))
    (Hredirect : AuthnRequest_Redirect r relayState (Some sp) = Ret u)
    (Hsso : url_Parse (URL_String (IDP_SSOURL idp)) = Ret rv) (Hplain : URL_RawQuery rv = "")
    (Hdoc : parses_as doc (AuthnRequest_Element r)) (Hsize : Z.of_nat (String.length doc) <= maxAuthnRequestSize)
    (Hget : HTTPRequest_Method h = "GET") (Hquery : URL_RawQuery (HTTPRequest_URL h) = URL_RawQuery u)
    (Hintime : AuthnRequest_IssueInstant r - MaxClockSkew <= (TimeNow_ s1.1).2
               <= AuthnRequest_IssueInstant r + max_age idp - Millisecond)
    (Hknown : ∀ s2, ∃ s3, effect (IDP_ServiceProviderProvider idp h (sp_audience sp)) s2
                = (s3, Ret (Some (sp_metadata_at sp t)))) :
  ∃ s2 req e, (NewIdpAuthnRequest h ≫= Validate idp) s1 = (s2, Ret req) ∧
    Req_Request req = AuthnRequest_read r ∧ Req_RelayState req = relayState ∧
    Req_ACSEndpoint req = Some e ∧ IndexedEndpoint_Binding e = HTTPPostBinding ∧
    IndexedEndpoint_Location e = URL_String (SP_AcsURL sp).
Proof.
  pose proof (MakeAuthenticationRequest_plain _ _ _ _ _ _ _ Hunsigned Hmake) as (Hsig & Hsub & Hcond).
  apply MakeAuthenticationRequest_ret in Hmake as ((s4 & s5 & Hid) & Hv & Hd & Hi & Hx & Hu).
  assert (Hw : AuthnRequest_writable r) by (split; [done|unfold signature_ok; by rewrite Hsig|by rewrite Hsub|by rewrite Hcond]).
  set (now := (TimeNow_ s1.1).2) in *.
  destruct (NewIdpAuthnRequest_redirect sp r relayState u h s1 rv doc) as [s2 Hnew]; [congruence..|apply Hdoc| |done|done|]; [done|].
  destruct (Hknown s2) as [s3 Hs3].
  set (req0 := set_Metadata (Some (sp_metadata_at sp t))
    (set_Request (AuthnRequest_read r) (empty_request h relayState doc "" now))).
  destruct (own_endpoint sp t req0 eq_refl Hx Hu) as (d & e & Hacs & Hb & Hl).
  exists s3, (set_ACS (d, e) req0), e. split_and!; [|done..].
  apply io_bind_ret. exists s2, (empty_request h relayState doc "" now). split; [exact Hnew|].
  eapply (Validate_unsigned idp h relayState doc now (AuthnRequest_read r)); [exact Hdoc|done| | |by apply AuthnRequest_unsigned|done| | |exact Hacs].
  - eapply Unmarshal_reads; [by apply AuthnRequest_reads|apply Hdoc].
  - apply checkRequest_ret. pose proof (Time_read_close (AuthnRequest_IssueInstant r)).
    constructor; [by left|cbn [AuthnRequest_read AuthnRequest_IssueInstant]; lia|done|by apply (new_id_ret s4 s5)|].
    by exists (sp_issuer sp).
  - unfold serviceProviderSignsAuthnRequests. simpl. by rewrite Hunsigned.
  - exists (sp_issuer sp). done.
Qed.
End requests.

Section assertions.
Context {W : Type} `{UrlI : UrlOps} `{VarsI : PackageVars} `{X509I : X509Ops} `{EtreeI : EtreeOps} `{EtreeB : !EtreeBuild}.
Context `{XmlP : XmlParser} `{SigI : SignatureOps} `{CryptoI : CryptoOps} `{WorldI : World W}.

(** Whole milliseconds cost an assertion at most one. *)
Lemma assertion_ok_read sp ids now a : SP_ValidateAudienceRestriction sp = None →
  assertion_ok sp ids now a → assertion_ok sp ids (now + Millisecond) a →
  assertion_ok sp ids now (Assertion_read a).
Proof.
  intros Hdef [_ _ _ Hc _] [Hi Hm (sub & sc & Hs & Hsc & Hb) Hc' Ha]. constructor.
  - pose proof (Time_read_close (Assertion_IssueInstant a)). simpl. lia.
  - exact Hm.
  - exists (Subject_read sub), (SubjectConfirmation_read sc). simpl. rewrite Hs. split; [done|].
    split; [by apply list_elem_of_fmap_2|]. destruct Hb as [Hbm (data & Hd & Hr & Hrec & Hend)].
    constructor; [done|]. exists (SubjectConfirmationData_read data). simpl. rewrite Hd.
    pose proof (Time_read_close (SubjectConfirmationData_NotOnOrAfter data)). split_and!; [done..|lia].
  - intros c. simpl. destruct (Assertion_Conditions a) as [c0|]; [|done]. intros [= <-].
    specialize (Hc c0 eq_refl). specialize (Hc' c0 eq_refl). unfold conditions_ok in *. simpl.
    pose proof (Time_read_close (Conditions_NotBefore c0)). pose proof (Time_read_close (Conditions_NotOnOrAfter c0)). lia.
  - unfold audience_ok in *. rewrite Hdef in *. destruct Ha as (c & Hca & Hne & Hall).
    exists (Conditions_read c). simpl. by rewrite Hca.
Qed.

(** The assertion of single sign-on arrives. The assertion that the identity provider
    makes has an XML form; whatever document the parser reads as it, the service provider the
    assertion is made for decodes it to an assertion that passes [validateAssertion], up to
    a millisecond before the end of its validity, about the same subject with the same
    attributes. *)
Theorem sso_assertion_arrives (idp : IdentityProvider W) req session md acs sp ids s s' a now
    (Hmd : Req_ServiceProviderMetadata req = Some md)
    (Hacs : Req_ACSEndpoint req = Some acs)
    (Hmake : MakeAssertion idp req session s = (s', Ret a))
    (Hwritable : Assertion_writable a)
    (Hconf : configured_for idp sp md acs)
    (Hid : AuthnRequest_ID (Req_Request req) ∈ ids)
    (Hissued : Req_Now req <= Assertion_IssueInstant a)
    (Hnow : Req_Now req - 2 * MaxClockSkew <= now <= Req_Now req + MaxIssueDelay - Millisecond)
    (Hskew : 0 <= MaxClockSkew) :
  ∃ el, Assertion_Element a = Ret el ∧ ∀ doc, xml_Parse doc = Ret el →
    ∃ a', Unmarshal_Assertion doc = Ret a' ∧ validateAssertion sp a' ids now = Ret () ∧
      (Subject_NameID <$> Assertion_Subject a') = (Subject_NameID <$> Assertion_Subject a) ∧
      Assertion_AttributeStatements a' = Assertion_AttributeStatements a.
Proof.
  destruct (Assertion_Element_returns a Hwritable) as [el He]. exists el. split; [done|]. intros doc Hdoc.
  exists (Assertion_read a). split_and!; [|apply validateAssertion_ret; apply assertion_ok_read| |done].
  - apply (Unmarshal_reads _ _ _ _ _ _ _ _ (Assertion_reads ∅ a el Hwritable plain_empty_scope He) Hdoc).
  - apply Hconf.
  - apply (MakeAssertion_ok idp req session md acs sp ids s s'); [done..| |done]. unfold Millisecond in *. lia.
  - apply (MakeAssertion_ok idp req session md acs sp ids s s'); [done..| |done]. unfold Millisecond in *. lia.
  - simpl. by destruct (Assertion_Subject a).
Qed.
End assertions.

(** ** Witnesses *)

#[export] Instance ref_flate_laws : FlateLaws.
Proof.
  split. intros n s Hn. exists [(n, s)]. split_and!; [done|apply append_nil_r|]. simpl. split; [lia|done].
Qed.

Module Examples.

#[local] Existing Instance default_vars.
#[local] Existing Instance ref_signature.

#[local] Instance ref_parser : XmlParser := {|
  xml_Parse s := or_err (read_document s) (Sentinel "io.EOF");
  roundtrip_Validate _ := Ret ()
|}.

Definition sp : ServiceProvider :=
  mkServiceProvider "sp" None None [] None (url_of "spmetadata") (url_of "acs") (url_of "spslo")
    None None None None "" 0 None None false "" None "" [HTTPPostBinding] None None.

Definition idp : IdentityProvider Time := IdpSpec.Examples.the_idp (sp_metadata_at sp 900) false.

Definition made_request : AuthnRequest :=
  match (MakeAuthenticationRequest sp "https:sso" HTTPRedirectBinding HTTPPostBinding (1000, [])).2 with
  | Ret r => r
  | _ => zero_AuthnRequest
  end.

Definition document : string := write_element (AuthnRequest_Element made_request).

Definition redirect : URL :=
  match AuthnRequest_Redirect made_request "state 1" (Some sp) with Ret u => u | _ => url_of "" end.

Definition browser : HTTPRequest := mkHTTPRequest "GET" redirect (Ret "") None "192.0.2.1:4711" [] [] [] false.

Lemma sso_request_arrives_witness :
  ∃ s2 req e, (NewIdpAuthnRequest browser ≫= Validate idp) (1100, []) = (s2, Ret req) ∧
    Req_Request req = AuthnRequest_read made_request ∧ Req_RelayState req = "state 1" ∧
    Req_ACSEndpoint req = Some e ∧ IndexedEndpoint_Binding e = HTTPPostBinding ∧
    IndexedEndpoint_Location e = URL_String (SP_AcsURL sp).
Proof.
  apply (sso_request_arrives idp sp HTTPPostBinding "state 1" (1000, []) (1000, []) made_request redirect
    (mkURL "https" "" "" "" "sso" "" "" "") document browser (1100, []) 900).
  - exact SPMessagesSpec.Examples.ref_full_reads.
  - vm_compute. reflexivity.
  - reflexivity.
  - reflexivity.
  - vm_compute. discriminate.
  - split; vm_compute; [discriminate|reflexivity].
  - vm_compute. reflexivity.
  - vm_compute. reflexivity.
  - reflexivity.
  - split; vm_compute; reflexivity.
  - vm_compute. discriminate.
  - reflexivity.
  - reflexivity.
  - split; vm_compute; discriminate.
  - intros [w l]. exists (w, l). reflexivity.
Defined.

Definition endpoint : IndexedEndpoint := mkIndexedEndpoint HTTPPostBinding "https:acs" None 1 None.

(** The request as [Validate] leaves it. *)
Definition accepted : IdpAuthnRequest :=
  match (Validate idp (empty_request browser "" document "" 1100) (1100, [])).2 with
  | Ret req => req
  | _ => empty_request browser "" "" "" 0
  end.

Definition idp_metadata : EntityDescriptor := entity "https:metadata" 0 0 [] [].

Definition knows_idp : ServiceProvider :=
  mkServiceProvider "sp" None None [] None (url_of "spmetadata") (url_of "acs") (url_of "spslo")
    (Some idp_metadata) None None None "" 0 None None false "" None "" [HTTPPostBinding] None None.

Definition the_assertion : Assertion :=
  match (MakeAssertion idp accepted IdpSpec.Examples.session (1100, [])).2 with
  | Ret a => a
  | _ => zero_Assertion
  end.

Lemma the_assertion_writable : Assertion_writable the_assertion.
Proof.
  assert (Hy : ∀ l, forallb (λ t, (daysSinceEpoch 0 * Duration.day <=? t) &&
    (t <? daysSinceEpoch 10000 * Duration.day)) l = true → Forall four_digit_year l).
  { intros l Hl. apply Forall_forall. intros t Ht. rewrite forallb_elem in Hl. specialize (Hl t Ht).
    unfold four_digit_year. bool_prop. lia. }
  split.
  - split; vm_compute; [discriminate|reflexivity].
  - intros e He. vm_compute in He. discriminate He.
  - intros e He. vm_compute in He. discriminate He.
  - intros s Hs. vm_compute in Hs. injection Hs as <-. apply Hy. by vm_compute.
  - intros c Hs. vm_compute in Hs. injection Hs as <-. apply Hy. by vm_compute.
  - intros s Hs. vm_compute in Hs. apply list_elem_of_singleton in Hs as ->. apply Hy. by vm_compute.
Qed.

Lemma sso_assertion_arrives_witness :
  ∃ el, Assertion_Element the_assertion = Ret el ∧ ∀ doc, xml_Parse doc = Ret el →
    ∃ a', Unmarshal_Assertion doc = Ret a' ∧
      validateAssertion knows_idp a' [AuthnRequest_ID made_request] 1200 = Ret () ∧
      (Subject_NameID <$> Assertion_Subject a') = (Subject_NameID <$> Assertion_Subject the_assertion) ∧
      Assertion_AttributeStatements a' = Assertion_AttributeStatements the_assertion.
Proof.
  apply (sso_assertion_arrives idp accepted IdpSpec.Examples.session (sp_metadata_at sp 900) endpoint knows_idp
    [AuthnRequest_ID made_request] (1100, []) (1100, []) the_assertion).
  - vm_compute. reflexivity.
  - vm_compute. reflexivity.
  - vm_compute. reflexivity.
  - exact the_assertion_writable.
  - constructor; [eexists; split; reflexivity|reflexivity..].
  - vm_compute. left.
  - vm_compute. discriminate.
  - split; vm_compute; discriminate.
  - vm_compute. discriminate.
Defined.
End Examples.
