(* ===== verification/ResponseSigned.v ===== *)
(** * ResponseSigned: the signed response

    [verifySignature] of the service provider verifies an element with the signature that
    [SignEnveloped] makes, at whatever place among its children ([verifySignature_signed]);
    the element that [signResponse] of the identity provider signs and the one that it
    returns ([signResponse_form], [MakeAssertionEl_plain]). *)

From stdpp Require Import base option list gmap strings sets.
From Stdlib Require Import ZArith Lia Ascii.
From S2P Require Import Prelude Go Duration RelaxedTime Encoding Etree C14n Schema SchemaXML Env XmlTree.
From S2P Require Import XmlDecode SchemaDecode SchemaRoundtrip C14nReads C14nSpec C14nStable SchemaTidy SchemaDecodeSpec.
From S2P Require Import ServiceProvider Reference ServiceProviderSpec DSig DSigSpec Redirect RedirectSpec.
From S2P Require Import XmlText SignatureDecode SignElements SignSearch SignValidate C14nUnmarshal ResponseForm.
From S2P Require Import Http IdentityProvider Assertions IdpResponse SPMessages IdpSpec AssertionsSpec SPMessagesSpec.
From S2P Require Import IdpResponseSpec SingleSignOn.

Open Scope string_scope.

(** ** Detached elements *)

(** A context whose declarations a decoder does not confuse with attributes. *)
Record clean_context (S : NSContext) : Prop := {
  clean_unread_prefixes : unread_prefixes S;
  clean_url : S !! XMLNamespace = None;
  clean_default : S !! "" ≠ Some XMLNSNamespace
}.

Lemma clean_start : clean_context default_prefixes.
Proof.
  assert (H : related ∅ default_prefixes ∅ default_prefixes) by by apply related_start.
  split; [apply (related_unread _ _ _ _ H)|by vm_compute|by vm_compute].
Qed.

Lemma clean_insert S p u : clean_context S → clean_decl (declare p u) = true → clean_context (<[p := u]> S).
Proof.
  intros [H1 H2 H3] Ha. unfold clean_decl in Ha. rewrite decl_of_declare in Ha. bool_prop. split.
  - intros q Hq. destruct (decide (p = q)) as [->|]; [done|]. rewrite ns_insert_ne in Hq by done. by apply H1.
  - by rewrite ns_insert_ne.
  - destruct (decide (p = "")) as [->|]; [|by rewrite ns_insert_ne]. rewrite ns_insert_eq. intros [= ->].
    by rewrite !bool_decide_true in * by done.
Qed.

Lemma clean_declared S l : clean_context S → forallb clean_decl l = true → clean_context (foldl xml_declare S l).
Proof.
  revert S. induction l as [|a l IH]; intros S HS; [done|]. cbn [forallb foldl]. intros [Ha Hl]%andb_true_iff.
  apply IH; [|done]. rewrite xml_declare_decl. unfold clean_decl in Ha. destruct (decl_of a) as [[p u]|]; [|done].
  apply clean_insert; [done|]. unfold clean_decl. by rewrite decl_of_declare.
Qed.

Lemma context_decls_clean S : clean_context S → forallb clean_decl (context_decls S) = true.
Proof.
  intros [H1 H2 H3]. apply forallb_elem. intros a (p & u & -> & Hp & Hx & Hd)%context_decls_elem.
  unfold clean_decl. rewrite decl_of_declare, bool_decide_true by (apply H1; by eexists).
  rewrite (bool_decide_false (p = XMLNamespace)) by (intros ->; congruence). cbn [andb negb].
  destruct (bool_decide_reflect (p = "")) as [->|]; [|done]. cbn [andb].
  rewrite (bool_decide_false (u = XMLNSNamespace)) by (intros ->; congruence). rewrite bool_decide_false; [done|].
  intros ->. by destruct Hd.
Qed.

Lemma detached_signable id ns e : signable id e → clean_context ns → plain_ctx ns → signable id (detached ns e).
Proof.
  intros [Hr Hid Hp Hd Hn] Hc Hpl. apply readable_inv in Hr as (Hnd & Hcl & Hch).
  assert (Hattrs : ∀ a, a ∈ Attrs (detached ns e) ↔ a ∈ own_attrs e ∨ a ∈ context_decls ns).
  { intros a. unfold detached. cbn [set_Attrs Attrs]. rewrite detached_perm. apply elem_of_app. }
  split; [|..|done| |done].
  - apply readable_intro; [by rewrite detached_own| |intros x Hx; by apply Hch, child_elements].
    apply forallb_elem. intros a [Ha|Ha]%Hattrs.
    + rewrite forallb_elem in Hcl. apply Hcl. unfold own_attrs in Ha. by apply list_elem_of_filter in Ha as [_ Ha].
    + pose proof (context_decls_clean ns Hc) as H. rewrite forallb_elem in H. by apply H.
  - apply Hattrs. left. by apply list_elem_of_filter.
  - intros a q u [Ha|Ha]%Hattrs Hdq.
    + unfold own_attrs in Ha. apply list_elem_of_filter in Ha as [_ Ha]. by apply (Hd a).
    + apply context_decls_elem in Ha as (r & v & -> & Hv & _). rewrite decl_of_declare in Hdq. simplify_eq. by apply Hpl.
Qed.

(** ** Finding the children *)

Section find.
Context `{EtreeI : EtreeOps}.

Lemma matches_child_ret parentEl ns tag x ctx ctx' :
  NSBuildParentContext (cur parentEl :: ancestors parentEl) = Ret ctx → SubContext ctx x = Ret ctx' →
  Tag x = tag → ctx' !! Space x = Some ns → matches_child parentEl ns tag x = Ret true.
Proof.
  intros Hp Hx Ht Hs. unfold matches_child. rewrite Ht, bool_decide_true by done. cbn [negb].
  rewrite Hp, ret_bind, Hx, ret_bind. unfold LookupPrefix. rewrite Hs. cbn [or_err map_err]. rewrite ret_bind.
  by rewrite bool_decide_true.
Qed.

Lemma find_children_single parentEl ns tag l1 x l2 :
  (∀ c, c ∈ l1 → Tag c ≠ tag) → (∀ c, c ∈ l2 → Tag c ≠ tag) → matches_child parentEl ns tag x = Ret true →
  find_children parentEl ns tag (l1 ++ x :: l2) = Ret [child_cursor parentEl x].
Proof.
  intros H1 H2 Hx. induction l1 as [|c l1 IH]; cbn [find_children app].
  - by rewrite Hx, ret_bind, find_children_none.
  - unfold matches_child at 1. rewrite (bool_decide_false (Tag c = tag)) by (apply H1; by left). cbn [negb].
    rewrite ret_bind, IH; [done|]. intros d Hd. apply H1. by right.
Qed.
End find.

(** ** Verifying what was signed *)

Lemma ChildElements_around x pre post s t a : ChildElements (mkElement s t a (pre ++ TElement x :: post)%list)
  = (omap token_element pre ++ x :: omap token_element post)%list.
Proof. unfold ChildElements. cbn [Child]. by rewrite omap_app. Qed.

Lemma token_elements (c : list Token) x : x ∈ omap token_element c ↔ TElement x ∈ c.
Proof. symmetry. apply (child_elements (mkElement "" "" [] c)). Qed.

Lemma els_count_app c1 c2 : els_count (c1 ++ c2)%list = (els_count c1 + els_count c2)%nat.
Proof. induction c1 as [|[] c1 IH]; simpl; lia. Qed.

Section verify.
Context `{EtreeI : EtreeOps} `{EtreeB : !EtreeBuild} `{EtreeF : !EtreeFind} `{XmlP : XmlParser} `{XmlT : !XmlTextLaws}.
Context `{CryptoI : CryptoOps} `{X509I : X509Ops}.
#[local] Existing Instance dsig_signature | 0.
Context (ctx : SigningContext) (Hctx : exclusive_signer ctx false) (Hds : SigningContext_Prefix ctx = "ds").

Context (s t : string) (attrs : list Attr) (pre post : list Token).
Notation unsigned := (mkElement s t attrs (pre ++ post)%list).
Notation signed sig := (mkElement s t attrs (pre ++ TElement sig :: post)%list).

(** Whose declarations leave the reserved prefixes alone. *)
Definition fresh_decls (e : Element) : Prop := ∀ a q u, a ∈ Attrs e → decl_of a = Some (q, u) → default_prefixes !! q = None.

Lemma fresh_decls_extend e : fresh_decls e → extends default_prefixes (xml_scope default_prefixes e).
Proof.
  intros H p u Hp. unfold xml_scope. rewrite declare_none; [done|]. intros a v Ha Hd. rewrite (H a p v Ha Hd) in Hp. done.
Qed.

Context (id : string) (e' sig : Element) (certs : list Certificate) (cert : Certificate) (clock : Time).
Context (Hsigner : signer_of ctx (mkValidationContext certs "ID" clock) cert).
Context (He : signable id unsigned) (Hfresh : fresh_decls unsigned).
Context (Hmake : ConstructSignature ctx (root_cursor unsigned) true = Ret (e', sig)).
Context (Hpre : ∀ x, TElement x ∈ pre → SignSearch.no_signature x = true) (Hpost : ∀ x, TElement x ∈ post → Tag x ≠ "Signature").
Context (Hsize : (el_count unsigned + certs_count ctx <= 970)%nat).

Lemma sig_made : made_signature ctx sig.
Proof. eapply (ConstructSignature_signature ctx false Hctx); [exact Hsigner|apply He|exact Hmake]. Qed.

(** The scope of the root, read once and twice. *)
Notation ns1 := (xml_scope default_prefixes unsigned).
Notation ns2 := (xml_scope ns1 unsigned).

Lemma root_clean : forallb clean_decl attrs = true.
Proof. destruct (readable_inv _ (signable_readable _ _ He)) as (_ & H & _); exact H. Qed.

Lemma root_transform : TransformExcC14n unsigned "" false = Ret e'.
Proof.
  pose proof (ConstructSignature_made ctx false Hctx _ e' sig (signable_readable _ _ He) Hmake) as [Ht _]. exact Ht.
Qed.

Lemma root_proper : forallb proper_decl attrs = true.
Proof.
  pose proof root_transform as Ht. unfold TransformExcC14n in Ht. rewrite transformExcC14n_eq in Ht.
  apply bind_ret in Ht as (scope & Hs & _). exact (subContext_proper _ _ _ Hs root_clean).
Qed.

Lemma root_SubContext ns c : SubContext ns (mkElement s t attrs c) = Ret (xml_scope ns (mkElement s t attrs c)).
Proof. apply (subContext_returns ns attrs root_proper). Qed.

Lemma root_reserved : reserved ns2.
Proof. repeat apply reserved_declared; [apply reserved_default_prefixes|apply root_proper..]. Qed.

Lemma root_clean_context : clean_context ns2.
Proof. repeat apply clean_declared; [apply clean_start|apply root_clean..]. Qed.

Lemma root_plain : plain_ctx ns2.
Proof.
  apply (plain_declared ns1 unsigned); [|apply (signable_decls _ _ He)|apply root_SubContext].
  apply (plain_declared default_prefixes unsigned); [apply plain_default|apply (signable_decls _ _ He)|apply root_SubContext].
Qed.

Lemma find_signature : findChild (root_cursor (signed sig)) dsig_Namespace "Signature"
  = Ret (Some (child_cursor (root_cursor (signed sig)) sig)).
Proof.
  unfold findChild, findChildren. cbn [cur root_cursor]. rewrite ChildElements_around.
  rewrite find_children_single; [done|..].
  - intros c Hc%token_elements. specialize (Hpre c Hc). destruct c as [s0 t0 a0 c0]. apply andb_true_iff in Hpre as [Hpre _]. by bool_prop.
  - intros c Hc%token_elements. by apply Hpost.
  - eapply matches_child_ret; [|by apply (made_scope ctx false Hctx); [apply sig_made]|apply (made_Tag _ _ sig_made)|].
    + cbn [NSBuildParentContext ancestors root_cursor cur]. rewrite ret_bind. apply root_SubContext.
    + rewrite (made_Space _ _ sig_made). apply ns_insert_eq.
Qed.

Lemma keep_key_info : drop_key_info (signed sig) = signed sig.
Proof.
  unfold drop_key_info.
  destruct (FindElement_path ["Signature"; "KeyInfo"; "X509Data"; "X509Certificate"] (signed sig)) as [p Hp].
  - repeat constructor.
  - exists sig. split; [apply elem_of_app; right; by left|]. split; [apply (made_Tag _ _ sig_made)|apply (made_path _ _ sig_made)].
  - cbn in Hp. by rewrite Hp.
Qed.

Lemma detached_valid :
  (∀ content, WriteToBytes_canonical e' = Ret content → ReadFromBytes content = Ret (Some e')) →
  DSig.Validate (mkValidationContext certs "ID" clock) (detached ns2 (signed sig)) = Ret (Some e').
Proof.
  intros Hread. assert (Hd : detached ns2 unsigned = mkElement s t (Attrs (detached ns2 unsigned)) (pre ++ post)) by done.
  destruct (signature_accepted ctx false (mkValidationContext certs "ID" clock) cert id unsigned e' sig s t
    (Attrs (detached ns2 unsigned)) pre post Hctx Hsigner He Hmake) as (content & Hw & Hv).
  - rewrite <- Hd. apply detached_signable; [exact He|apply root_clean_context|apply root_plain].
  - rewrite <- Hd. eapply (TransformExcC14n_detached false unsigned e' ns1 ns2).
    + apply He.
    + apply root_transform.
    + by apply fresh_decls_extend.
    + apply root_SubContext.
    + apply root_reserved.
  - exact Hpre.
  - rewrite el_count_eq in Hsize. cbn [Child] in Hsize. rewrite els_count_app in Hsize. lia.
  - etransitivity; [exact Hv|by apply Hread].
Qed.

Lemma verifySignature_signed sp : SP_SignatureVerifier sp = None → verification_certs sp (signed sig) = Ret certs →
  (∀ content, WriteToBytes_canonical e' = Ret content → ReadFromBytes content = Ret (Some e')) →
  verifySignature sp clock (root_cursor (signed sig)) = (root_cursor (signed sig), Ret (root_cursor e')).
Proof.
  intros Hsp Hcerts Hread. unfold verifySignature. rewrite find_signature. cbn [cur root_cursor]. rewrite Hcerts.
  unfold signatureValidationContext. cbn [cur ancestors root_cursor]. rewrite keep_key_info.
  cbn [cur ancestors NSBuildParentContext map_err]. rewrite ret_bind, root_SubContext. cbn [map_err]. rewrite ret_bind.
  assert (Hn : run_default (NSDetatch (xml_scope default_prefixes (signed sig)) (signed sig)) = Ret (detached ns2 (signed sig))).
  { unfold run_default, defaultLimit. rewrite (NSDetatch_within _ _ ns2); [done|exact (root_SubContext ns1 (pre ++ TElement sig :: post))|].
    rewrite el_count_eq in *. cbn [Child] in *. rewrite els_count_app in *. cbn [els_count]. rewrite (made_count _ _ sig_made). lia. }
  rewrite Hn. cbn [map_err]. rewrite ret_bind. rewrite Hsp. cbn [fst snd]. unfold ValidationContext_Validate, dsig_signature.
  rewrite ret_bind. cbn [fst snd]. by rewrite detached_valid.
Qed.
End verify.

(** ** What the identity provider signs *)

Section idp.
Context {W : Type} `{UrlI : UrlOps} `{VarsI : PackageVars} `{X509I : X509Ops} `{EtreeI : EtreeOps} `{EtreeB : !EtreeBuild} `{EtreeF : !EtreeFind}.
Context `{XmlP : XmlParser} `{XmlT : !XmlTextLaws} `{CryptoI : CryptoOps} `{FlateI : FlateOps} `{NetI : NetOps} `{WorldI : World W}.
Context `{EncI : EncryptOps W} `{TmplI : TemplateOps}.
#[local] Existing Instance dsig_signature | 0.

Lemma signingContext_form (idp : IdentityProvider W) ctx : signingContext idp = Ret ctx →
  SigningContext_Prefix ctx = "ds" ∧ SigningContext_Canonicalizer ctx = c14N10ExclusiveCanonicalizer "" false ∧
  SigningContext_IdAttribute ctx = "ID".
Proof.
  unfold signingContext. intros (cert & _ & H)%bind_ret. apply bind_ret in H as (signer & _ & H).
  apply bind_ret in H as (ctx0 & Hnew & H). unfold NewSigningContext in Hnew. apply raise_if_bind in Hnew as [_ [= <-]].
  unfold SetSignatureMethod in H. apply bind_ret in H as (info & _ & H). apply bind_ret in H as (algo & _ & H).
  by apply raise_if_bind in H as [_ [= <-]].
Qed.

Lemma signingContext_exclusive (idp : IdentityProvider W) ctx : (∀ h s, (20 <= String.length (hash_Sum h s))%nat) →
  signingContext idp = Ret ctx → exclusive_signer ctx false.
Proof.
  intros Hhash (Hp & Hc & _)%signingContext_form. split; [|by rewrite Hp|done|apply Hhash].
  unfold prefix_ok. rewrite Hp. split; [done|]. rewrite !not_elem_of_cons. split_and!; [done..|apply not_elem_of_nil].
Qed.

Lemma SignEnveloped_ret ctx e signed : SignEnveloped ctx (root_cursor e) = Ret signed → ∃ e' sig,
  ConstructSignature ctx (root_cursor e) true = Ret (e', sig) ∧ signed = set_Child (Child e' ++ [TElement sig])%list e'.
Proof. unfold SignEnveloped. intros ([e' sig] & H & [= <-])%bind_ret. by exists e', sig. Qed.

Lemma last_element e sig : last (ChildElements (set_Child (Child e ++ [TElement sig])%list e)) = Some sig.
Proof. unfold ChildElements. cbn [set_Child Child]. rewrite omap_app. apply last_snoc. Qed.

(** The signed assertion, in plain text. *)
Lemma MakeAssertionEl_plain (idp : IdentityProvider W) req s s' req' a : Req_Assertion req = Some a →
  (∀ a', getSPEncryptionCert (set_Assertion a' req) = Err os_ErrNotExist) →
  MakeAssertionEl idp req s = (s', Ret req') → ∃ ctx el e' sig signed_el,
    signingContext idp = Ret ctx ∧ Assertion_Element a = Ret el ∧
    ConstructSignature ctx (root_cursor el) true = Ret (e', sig) ∧
    Assertion_Element (set_Assertion_Signature sig a) = Ret signed_el ∧
    req' = set_AssertionEl signed_el (set_Assertion (set_Assertion_Signature sig a) req).
Proof.
  intros Ha Hplain. unfold MakeAssertionEl. intros H. apply io_lift_bind in H as (ctx & Hctx & H).
  rewrite Ha in H. apply io_lift_bind in H as (a0 & Ha0 & H). rewrite deref_ret in Ha0. injection Ha0 as <-.
  apply io_lift_bind in H as (el & Hel & H). apply io_lift_bind in H as (signed & Hs & H).
  apply SignEnveloped_ret in Hs as (e' & sig & Hmake & ->). apply io_lift_bind in H as (sig' & Hsig & H).
  unfold last_child_element in Hsig. rewrite deref_ret in Hsig. cbn [set_Child Child] in Hsig. rewrite last_snoc in Hsig.
  injection Hsig as <-. apply io_lift_bind in H as (signed_el & Hse & H). rewrite Hplain, bool_decide_true in H by done.
  injection H as _ <-. by exists ctx, el, e', sig, signed_el.
Qed.

(** The signed response. *)
Definition unsigned_response (r : Response) (i : Issuer) (assertionEl : Element) : Element :=
  response_el r [Issuer_Element i; Status_Element (Response_Status r); assertionEl].
Definition signed_response (r : Response) (i : Issuer) (assertionEl sig : Element) : Element :=
  response_el r [Issuer_Element i; sig; Status_Element (Response_Status r); assertionEl].

Lemma signResponse_form (idp : IdentityProvider W) r i assertionEl el :
  Response_Issuer r = Some i → Response_Signature r = None → Response_EncryptedAssertion r = None → Response_Assertion r = None →
  signResponse idp r (Some assertionEl) = Ret el → ∃ ctx e' sig, signingContext idp = Ret ctx ∧
    ConstructSignature ctx (root_cursor (unsigned_response r i assertionEl)) true = Ret (e', sig) ∧
    el = signed_response r i assertionEl sig.
Proof.
  intros Hi Hs He Ha. unfold signResponse. rewrite Response_Element_shape by done. rewrite ret_bind.
  intros (ctx & Hctx & H)%bind_ret. unfold response_els in H. rewrite Hi, Hs in H. cbn [els_opt app add_assertion] in H.
  rewrite AddChild_last in H. apply bind_ret in H as (signed & Hsign & H).
  apply SignEnveloped_ret in Hsign as (e' & sig & Hmake & ->). rewrite last_element in H. cbn [deref] in H. rewrite ret_bind in H.
  rewrite Response_Element_shape in H by done. rewrite ret_bind in H. injection H as <-.
  exists ctx, e', sig. split_and!; [done..|]. rewrite AddChild_last. unfold response_els. cbn. by rewrite Hi.
Qed.
End idp.

(** ** The response as the service provider reads it *)

Section content.
Context `{EtreeI : EtreeOps} `{EtreeB : !EtreeBuild} `{EtreeF : !EtreeFind} `{XmlP : XmlParser} `{XmlT : !XmlTextLaws}.

Definition response_rest (r : Response) : list Attr :=
  (attr_of "ID" (Response_ID r) ++ attrs_text "InResponseTo" (Response_InResponseTo r) ++
   attr_of "Version" (Response_Version r) ++ attr_of "IssueInstant" (Time_Format (Response_IssueInstant r)) ++
   attrs_text "Destination" (Response_Destination r) ++ attrs_text "Consent" (Response_Consent r))%list.

Definition response_decls : list Attr :=
  [mkAttr "xmlns" "saml" assertion_space; mkAttr "xmlns" "samlp" protocol_space;
   mkAttr "xmlns" "xs" "http://www.w3.org/2001/XMLSchema"].

Lemma response_attrs_eq r : response_attrs r = (response_decls ++ response_rest r)%list.
Proof. done. Qed.

Lemma response_rest_plain r : unprefixed (response_rest r).
Proof. unfold response_rest. names_tac. Qed.

Lemma response_own r els : own_attrs (response_el r els) = response_rest r.
Proof.
  unfold own_attrs, response_el. cbn [Attrs]. rewrite response_attrs_eq, filter_app.
  rewrite (unprefixed_own _ (response_rest_plain r)). done.
Qed.

Lemma response_decl r els a q u : a ∈ Attrs (response_el r els) → decl_of a = Some (q, u) →
  (q, u) ∈ [("saml", assertion_space); ("samlp", protocol_space); ("xs", "http://www.w3.org/2001/XMLSchema")].
Proof.
  unfold response_el. cbn [Attrs]. rewrite response_attrs_eq. intros [Ha|Ha]%elem_of_app Hd.
  - repeat (apply elem_of_cons in Ha as [->|Ha]; [vm_compute in Hd; simplify_eq; set_solver|]). by apply not_elem_of_nil in Ha.
  - pose proof (response_rest_plain r) as Hp. unfold unprefixed, names_ok in Hp. rewrite Forall_forall in Hp.
    apply Hp, unprefixed_attr in Ha as (_ & _ & Hn). congruence.
Qed.

Lemma response_fresh_decls r els : fresh_decls (response_el r els).
Proof.
  intros a q u Ha Hd. pose proof (response_decl _ _ _ _ _ Ha Hd) as H.
  repeat (apply elem_of_cons in H as [[= -> ->]|H]; [by vm_compute|]). by apply not_elem_of_nil in H.
Qed.

Context (r : Response) (i : Issuer) (a : Assertion) (ael : Element).
Context (Hi : Response_Issuer r = Some i) (Hs : Response_Signature r = None).
Context (He : Response_EncryptedAssertion r = None) (Ha : Response_Assertion r = None) (Hst : plain_status (Response_Status r)).
Context (Hw : Assertion_writable a) (Hael : Assertion_Element a = Ret ael).
Context (Hsigp : ∀ e, Assertion_Signature a = Some e → prefixes_in ["saml"; "ds"; "xsi"] e = true).

Notation unsigned := (unsigned_response r i ael).

Lemma unsigned_children x : TElement x ∈ Child unsigned →
  x = Issuer_Element i ∨ x = Status_Element (Response_Status r) ∨ x = ael.
Proof.
  unfold unsigned_response, response_el. cbn [Child map]. intros H.
  apply elem_of_cons in H as [[= ->]|H]; [by left|]. apply elem_of_cons in H as [[= ->]|H]; [by right; left|].
  apply list_elem_of_singleton in H as [= ->]. by right; right.
Qed.

Lemma ael_readable : readable ael = true.
Proof. eapply Assertion_Element_readable; [apply (assertion_tidy a Hw)|exact Hael]. Qed.

Lemma ael_prefixes : prefixes_in ["saml"; "ds"; "xsi"] ael = true.
Proof. eapply Assertion_Element_prefixes; [by left|by do 2 right; left|exact Hsigp|exact Hael]. Qed.

Lemma unsigned_readable : readable unsigned = true.
Proof.
  apply readable_intro.
  - unfold unsigned_response. rewrite response_own. unfold response_rest. keys_tac.
  - unfold unsigned_response, response_el. cbn [Attrs]. rewrite response_attrs_eq, forallb_app.
    rewrite (unprefixed_clean _ (response_rest_plain r)). by vm_compute.
  - intros x [->|[->| ->]]%unsigned_children; [|by apply Status_readable|by apply ael_readable].
    by apply (Issuer_tidy (<["saml" := ""]> ∅)).
Qed.

Lemma unsigned_signable : plain_text (Response_ID r) = true → signable (Response_ID r) unsigned.
Proof.
  intros Hid. split; [apply unsigned_readable| |done| |done].
  - unfold unsigned_response, response_el. cbn [Attrs]. rewrite response_attrs_eq. apply elem_of_app. right.
    unfold response_rest. apply elem_of_app. left. by left.
  - intros b q u Hb Hd. pose proof (response_decl _ _ _ _ _ Hb Hd) as H.
    repeat (apply elem_of_cons in H as [[= -> ->]|H]; [by split; vm_compute|]). by apply not_elem_of_nil in H.
Qed.

Lemma prefixes_mono l l' e : l ⊆ l' → prefixes_in l e = true → prefixes_in l' e = true.
Proof.
  intros Hl. induction e as [s t attrs c IH] using element_tree_ind. rewrite !prefixes_in_inv. intros (H1 & H2 & H3).
  split_and!; [by apply Hl| |].
  - intros b Hb. apply H2, elem_of_cons in Hb as [Hb|Hb]; [rewrite Hb; by left|]. right. by apply Hl.
  - intros x Hx. rewrite Forall_forall in IH. apply (IH (TElement x) Hx). by apply H3.
Qed.

Lemma unsigned_prefixes : prefixes_in ["samlp"; "saml"; "ds"; "xsi"] unsigned = true.
Proof.
  apply prefixes_in_inv. split_and!; [by left| |].
  - unfold unsigned_response. rewrite response_own. intros b Hb. pose proof (response_rest_plain r) as Hp.
    unfold unprefixed, names_ok in Hp. rewrite Forall_forall in Hp. apply Hp, unprefixed_attr in Hb as (-> & _). by left.
  - intros x [->|[->| ->]]%unsigned_children; [apply Issuer_prefixes; by right; left|by apply Status_prefixes; [left|]|].
    eapply prefixes_mono; [|apply ael_prefixes]. set_solver.
Qed.
End content.
