(* ===== verification/ResponseAccepted.v ===== *)
(** * ResponseAccepted: a response is accepted

    What the service provider reads from the canonical form of a response, which is what a
    signature covers: the response, and the assertion in it; and [ParseXMLResponse] accepts
    the document of the response that [PostBinding] of the identity provider sends
    ([sso_response_accepted]). *)

From stdpp Require Import base option list gmap strings sets.
From Stdlib Require Import ZArith Lia Ascii.
From S2P Require Import Prelude Go Duration RelaxedTime Encoding Etree C14n Schema SchemaXML Env XmlTree.
From S2P Require Import XmlDecode SchemaDecode SchemaRoundtrip C14nReads C14nSpec C14nStable SchemaTidy SchemaDecodeSpec.
From S2P Require Import ServiceProvider Reference ServiceProviderSpec DSig DSigSpec Redirect RedirectSpec.
From S2P Require Import XmlText SignatureDecode SignElements SignSearch SignValidate C14nUnmarshal ResponseForm.
From S2P Require Import Http IdentityProvider Assertions IdpResponse SPMessages IdpSpec AssertionsSpec SPMessagesSpec.
From S2P Require Import IdpResponseSpec SingleSignOn ResponseSigned.

Open Scope string_scope.

(** ** Scopes *)

Lemma xml_scope_own ns e p u : xml_scope ∅ e !! p = Some u → xml_scope ns e !! p = Some u.
Proof.
  unfold xml_scope. induction (Attrs e) as [|b l IH] using rev_ind; [done|]. rewrite !foldl_app. cbn [foldl].
  rewrite !xml_declare_decl. destruct (decl_of b) as [[q v]|]; [|exact IH].
  destruct (decide (q = p)) as [->|]; [by rewrite !ns_insert_eq|]. rewrite !ns_insert_ne by done. exact IH.
Qed.

Lemma element_space_scope ns e space : Space e ∉ ["xmlns"; "xml"; ""] → Space e ≠ space →
  element_space (xml_scope ∅ e) e = space → xml_scope ns e !! Space e = Some space.
Proof.
  unfold element_space, translate, xmlnsPrefix, xmlPrefix. rewrite !not_elem_of_cons. intros (H1 & H2 & H3 & _) Hne.
  rewrite !(proj2 (String.eqb_neq (Space e) _)) by done. cbn [andb negb].
  destruct (xml_scope ∅ e !! Space e) as [u|] eqn:Hu; simpl; [|congruence]. intros <-. by apply xml_scope_own.
Qed.

(** ** The canonical form of the response *)

Section canonical.
Context `{EtreeI : EtreeOps} `{EtreeB : !EtreeBuild} `{EtreeF : !EtreeFind} `{XmlP : XmlParser} `{XmlT : !XmlTextLaws}.

Context (r : Response) (i : Issuer) (a : Assertion) (ael e' : Element).
Context (Hi : Response_Issuer r = Some i) (Hs : Response_Signature r = None).
Context (He : Response_EncryptedAssertion r = None) (Ha : Response_Assertion r = None) (Hst : plain_status (Response_Status r)).
Context (Hinstant : four_digit_year (Response_IssueInstant r)) (Hws : Status_writable (Response_Status r)).
Context (Hw : Assertion_writable a) (Hael : Assertion_Element a = Ret ael).
Context (Hsigp : ∀ e, Assertion_Signature a = Some e → prefixes_in ["saml"; "ds"; "xsi"] e = true).
Notation unsigned := (unsigned_response r i ael).
Context (Hc14n : TransformExcC14n unsigned "" false = Ret e').

Lemma response_c14n : transformExcC14n default_prefixes default_prefixes ∅ false unsigned = Ret e'.
Proof. exact Hc14n. Qed.

Notation response := (with_assertion a r).

Lemma response_reads : Response_UnmarshalXML ∅ e' zero_Response = Ret (Response_read response).
Proof.
  assert (Hwr : Response_writable response).
  { split; cbn [with_assertion Response_IssueInstant Response_Signature Response_Status Response_EncryptedAssertion Response_Assertion];
      [done|by rewrite Hs|done|by rewrite He|by intros ? [= <-]]. }
  assert (Hel : Response_Element response = Ret unsigned).
  { rewrite (with_assertion_Element r a ael) by done. unfold response_els. by rewrite Hi, Hs. }
  destruct (Response_reads ∅ response unsigned Hwr plain_empty_scope Hel) as (_ & _ & Hr).
  eapply Response_respects; [|exact Hr].
  eapply transformExcC14n_same; [by apply (related_start ∅)|by eapply unsigned_readable|exact response_c14n].
Qed.

Lemma response_unmarshalled : reads_back e' →
  unmarshalElement Unmarshal_Response (root_cursor e') = Ret (Response_read response).
Proof.
  intros Hback. eapply (unmarshalElement_transformed _ _ ["samlp"; "saml"; "ds"; "xsi"]);
    [by apply (related_start ∅)|apply reserved_default_prefixes|apply reserved_default_prefixes
    |by eapply unsigned_readable|by eapply unsigned_prefixes|exact response_c14n|done| |done|exact response_reads].
  intros p Hp. repeat (apply elem_of_cons in Hp as [->|Hp]; [by split_and!; vm_compute|]). by apply not_elem_of_nil in Hp.
Qed.

(** The children. *)
Record canonical_response (scope d : NSContext) (a' : Element) : Prop := {
  canonical_scope_of : SubContext default_prefixes unsigned = Ret scope;
  canonical_context : SubContext default_prefixes e' = Ret d;
  canonical_outside : outside ["saml"; "ds"; "xsi"] d;
  canonical_els : ∃ i' st', ChildElements e' = [i'; st'; a'] ∧ Tag i' = "Issuer" ∧ Tag st' = "Status";
  canonical_Tag : Tag a' = Tag ael ∧ Space a' = Space ael;
  canonical_assertion : transformExcC14n scope default_prefixes ∅ false ael = Ret a'
}.

Lemma transform_names S Dc x y : readable x = true → transformExcC14n S Dc ∅ false x = Ret y → Tag y = Tag x ∧ Space y = Space x.
Proof.
  intros (Hnd & _ & _)%readable_inv Ht. destruct (transformExcC14n_step_agree _ _ _ _ _ _ Hnd Ht) as (sc & d & Hstep).
  split; [apply (step_Tag _ _ _ _ _ _ _ _ Hstep)|apply (step_Space _ _ _ _ _ _ _ _ Hstep)].
Qed.

Lemma root_outside d : SubContext default_prefixes e' = Ret d → outside ["saml"; "ds"; "xsi"] d.
Proof.
  intros Hd%SubContext_scope p Hp. subst d.
  assert (Hall : has_byte ":" p = false ∧ p ≠ "" ∧ p ≠ "samlp" ∧ default_prefixes !! p = None).
  { repeat (apply elem_of_cons in Hp as [->|Hp]; [by split_and!; vm_compute|]). by apply not_elem_of_nil in Hp. }
  destruct Hall as (Hc & Hne & Hnp & Hdef). split; [done|]. split; [done|].
  destruct (xml_scope default_prefixes e' !! p) as [u|] eqn:Hu; [|done]. exfalso.
  destruct (scope_new _ _ _ _ Hdef Hu) as (b & v & Hb & Hdb).
  pose proof (transformed_decls _ _ _ _ _ _ _ _ _ response_c14n Hb Hdb) as Hv. rewrite visible_inv in Hv.
  destruct Hv as [->|[(c & Hin & Hcs & ->)|[Hv _]]]; [done| |by apply not_elem_of_empty in Hv].
  apply Hcs. unfold unsigned_response in Hin. rewrite response_own in Hin. pose proof (response_rest_plain r) as Hpl.
  unfold unprefixed, names_ok in Hpl. rewrite Forall_forall in Hpl. by apply Hpl, unprefixed_attr in Hin as (-> & _).
Qed.

Lemma response_canonical : ∃ scope d a', canonical_response scope d a'.
Proof.
  assert (Hr : readable unsigned = true) by by eapply unsigned_readable.
  pose proof (readable_inv _ Hr) as (Hnd & Hcl & _).
  destruct (transformExcC14n_step_agree _ _ _ _ _ _ Hnd response_c14n) as (scope & d & Hstep).
  destruct (step_form _ _ _ _ _ _ _ _ Hstep) as (_ & _ & Hd); [apply reserved_default_prefixes..|done|].
  pose proof (step_children _ _ _ _ _ _ _ _ Hstep) as Hch. cbn [unsigned_response response_el Child map c14n_children] in Hch.
  apply bind_ret in Hch as (i' & Hi' & Hch). apply bind_ret in Hch as (c1 & Hch & Hc1).
  apply bind_ret in Hch as (st' & Hst' & Hch). apply bind_ret in Hch as (c2 & Hch & Hc2).
  apply bind_ret in Hch as (a' & Ha' & [= <-]). injection Hc2 as <-. injection Hc1 as Hc1.
  pose proof (root_outside d Hd) as Hout. exists scope, d, a'. split; [apply (step_scope _ _ _ _ _ _ _ _ Hstep)|done|done| |..].
  - exists i', st'. split; [unfold ChildElements; by rewrite <- Hc1|]. split.
    + apply transform_names in Hi' as [-> _]; [apply Issuer_Element_tag|]. by apply (Issuer_tidy (<["saml" := ""]> ∅)).
    + apply transform_names in Hst' as [-> _]; [|by apply Status_readable]. unfold Status_Element. eapply built_Tag. build.
  - eapply transform_names; [|exact Ha']. by eapply ael_readable.
  - eapply transformExcC14n_other; [by eapply ael_prefixes| |exact Ha'].
    intros p Hp. destruct (Hout p Hp) as (_ & _ & ->).
    repeat (apply elem_of_cons in Hp as [->|Hp]; [by vm_compute|]). by apply not_elem_of_nil in Hp.
Qed.

Section assertion.
Context (scope d : NSContext) (a' : Element) (Hcan : canonical_response scope d a').

Lemma assertion_related : related (xml_scope ∅ unsigned) scope ∅ default_prefixes.
Proof.
  pose proof (unsigned_readable r i a ael Hst Hw Hael) as Hr. pose proof (readable_inv _ Hr) as (_ & Hcl & _).
  destruct (transformExcC14n_step _ _ _ _ _ _ _ _ (related_start ∅ (lookup_empty _) (lookup_empty _)) Hcl response_c14n) as (d' & [H1 _ _ H4] & _).
  pose proof (SubContext_scope _ _ _ (canonical_scope_of _ _ _ Hcan)) as Esc. rewrite Esc.
  split; [done|by apply scopes_start|done|done].
Qed.

Lemma assertion_reserved : reserved scope.
Proof.
  pose proof (unsigned_readable r i a ael Hst Hw Hael) as Hr. pose proof (readable_inv _ Hr) as (_ & Hcl & _).
  pose proof (canonical_scope_of _ _ _ Hcan) as Hsc. pose proof (subContext_proper _ _ _ Hsc Hcl) as Hp.
  apply SubContext_scope in Hsc as ->. by apply reserved_declared; [apply reserved_default_prefixes|].
Qed.

Lemma assertion_same : same_reading (xml_scope ∅ unsigned) ael ∅ a'.
Proof.
  eapply transformExcC14n_same; [apply assertion_related| |apply (canonical_assertion _ _ _ Hcan)].
  by eapply ael_readable.
Qed.

Lemma root_scope_ok : plain_scope_ok (xml_scope ∅ unsigned).
Proof.
  eapply message_scope_ok; [apply plain_empty_scope|]. intros p Hp. unfold xml_scope. apply declare_none.
  intros b u Hb Hd. pose proof (response_decl _ _ _ _ _ Hb Hd) as H. apply Hp.
  repeat (apply elem_of_cons in H as [[= -> _]|H]; [set_solver|]). by apply not_elem_of_nil in H.
Qed.

Lemma assertion_reads_in : SchemaRoundtrip.reads Assertion_UnmarshalXML zero_Assertion (xml_scope ∅ unsigned) ael assertion_space "Assertion" (Assertion_read a).
Proof. apply Assertion_reads; [done|apply root_scope_ok|done]. Qed.

Lemma ael_Space : Space ael = "saml".
Proof.
  destruct (Assertion_Element_canonical a ael Hael) as (x & Hx & Hel).
  assert (Hs' : Space x = "saml").
  { destruct (assertion_el_tidy a (assertion_tidy a Hw)) as [Hr _]. destruct (assertion_el_built a) as [Hsp _ _ _ _].
    by apply transform_names in Hx as [_ ->]. }
  destruct Hel as [->|[-> Hf]]; [done|]. unfold declare_xs. by rewrite CreateAttr_new by exact Hf.
Qed.

Lemma assertion_matches : matches_child (root_cursor e') nsAssertion "Assertion" a' = Ret true.
Proof.
  destruct assertion_reads_in as (Htag & Hspace & _). destruct assertion_same as [Ht' Hs' _ _ _ _ _ _].
  destruct (canonical_Tag _ _ _ Hcan) as [Htg Hsp].
  assert (Hproper : forallb proper_decl (Attrs a') = true).
  { eapply canonical_proper; [apply assertion_related|apply assertion_reserved|apply reserved_default_prefixes| |apply (canonical_assertion _ _ _ Hcan)].
    by eapply ael_readable. }
  eapply matches_child_ret; [|by apply subContext_returns|congruence|].
  - cbn [NSBuildParentContext ancestors root_cursor cur]. rewrite ret_bind. apply (canonical_context _ _ _ Hcan).
  - apply element_space_scope; [rewrite Hsp, ael_Space; set_solver|by rewrite Hsp, ael_Space|].
    rewrite <- Hs'. exact Hspace.
Qed.

Lemma assertion_children :
  findChildren (root_cursor e') nsAssertion "EncryptedAssertion" = Ret [] ∧
  findChildren (root_cursor e') nsAssertion "Assertion" = Ret [child_cursor (root_cursor e') a'].
Proof.
  destruct (canonical_els _ _ _ Hcan) as (i' & st' & Hels & Hi' & Hst').
  destruct assertion_reads_in as (Htag & _ & _). destruct (canonical_Tag _ _ _ Hcan) as [Htg _].
  unfold findChildren. cbn [cur root_cursor]. rewrite Hels. split.
  - apply find_children_none. intros c [->|[->|Hc]%elem_of_cons]%elem_of_cons; [by rewrite Hi'|by rewrite Hst'|].
    apply list_elem_of_singleton in Hc as ->. rewrite Htg, Htag. done.
  - apply (find_children_single _ _ _ [i'; st'] a' []); [|by intros c ?%not_elem_of_nil|apply assertion_matches].
    intros c [->|Hc]%elem_of_cons; [by rewrite Hi'|]. apply list_elem_of_singleton in Hc as ->. by rewrite Hst'.
Qed.

Lemma assertion_unmarshalled : reads_back a' →
  unmarshalElement Unmarshal_Assertion (child_cursor (root_cursor e') a') = Ret (Assertion_read a).
Proof.
  intros Hback. eapply (unmarshalElement_transformed _ _ ["saml"; "ds"; "xsi"] (child_cursor (root_cursor e') a') d);
    [apply assertion_related|apply assertion_reserved|apply reserved_default_prefixes|by eapply ael_readable|by eapply ael_prefixes
    |apply (canonical_assertion _ _ _ Hcan)| |apply (canonical_outside _ _ _ Hcan)|done|].
  - cbn [NSBuildParentContext ancestors child_cursor root_cursor cur]. rewrite ret_bind. apply (canonical_context _ _ _ Hcan).
  - destruct assertion_reads_in as (_ & _ & Hr). eapply Assertion_respects; [apply assertion_same|exact Hr].
Qed.
End assertion.
End canonical.

(** ** The response that is made *)

Section made.
Context {W : Type} `{UrlI : UrlOps} `{VarsI : PackageVars} `{X509I : X509Ops} `{EtreeI : EtreeOps} `{EtreeB : !EtreeBuild} `{EtreeF : !EtreeFind}.
Context `{XmlP : XmlParser} `{XmlT : !XmlTextLaws} `{CryptoI : CryptoOps} `{FlateI : FlateOps} `{NetI : NetOps} `{WorldI : World W}.
Context `{EncI : EncryptOps W} `{TmplI : TemplateOps}.
#[local] Existing Instance dsig_signature | 0.

Lemma hex_string_plain s : plain_text (hex_string s) = true.
Proof.
  assert (Hd : ∀ n, (n < 16)%N → printable (hex_lower n) = true).
  { intros n Hn. assert (H : forallb (λ k, printable (hex_lower (N.of_nat k))) (seq 0 16) = true) by by vm_compute.
    rewrite forallb_elem in H. specialize (H (N.to_nat n)). rewrite N2Nat.id in H. apply H, elem_of_seq. lia. }
  unfold plain_text. induction s as [|c s IH]; [done|]. cbn [hex_string all_bytes]. rewrite IH, !Hd; [done|..].
  - by apply N.mod_lt.
  - pose proof (byte_lt c). apply N.Div0.div_lt_upper_bound. lia.
Qed.

Lemma new_id_plain (s s' : St W) id : new_id s = (s', Ret id) → plain_text id = true.
Proof.
  unfold new_id. intros (s1 & rv & _ & H)%io_bind_ret. unfold mret, IO_ret in H. injection H as _ <-.
  exact (hex_string_plain rv).
Qed.

Definition idp_issuer (idp : IdentityProvider W) : Issuer :=
  mkIssuer "" "" entityNameIDFormat "" (URL_String (IDP_MetadataURL idp)).

(** The response before it is signed. *)
Definition response_to (idp : IdentityProvider W) (req : IdpAuthnRequest) (acs : IndexedEndpoint) (id : string) : Response :=
  mkResponse id (AuthnRequest_ID (Req_Request req)) "2.0" (Req_Now req) (IndexedEndpoint_Location acs) ""
    (Some (idp_issuer idp)) None success_status None None.

(** The steps of [MakeResponse] for an assertion that is not encrypted. *)
Inductive made_response (idp : IdentityProvider W) (req : IdpAuthnRequest) (a : Assertion) : Element → Prop :=
  | MadeResponse ctx x x' sig ael acs id e' rsig :
      signingContext idp = Ret ctx → Assertion_Element a = Ret x →
      ConstructSignature ctx (root_cursor x) true = Ret (x', sig) →
      Assertion_Element (set_Assertion_Signature sig a) = Ret ael →
      Req_ACSEndpoint req = Some acs → plain_text id = true →
      ConstructSignature ctx (root_cursor (unsigned_response (response_to idp req acs id) (idp_issuer idp) ael)) true = Ret (e', rsig) →
      made_response idp req a (signed_response (response_to idp req acs id) (idp_issuer idp) ael rsig).

Lemma MakeResponse_made idp req s s1 req1 a : Req_Assertion req = Some a → Req_AssertionEl req = None →
  getSPEncryptionCert req = Err os_ErrNotExist → MakeResponse idp req s = (s1, Ret req1) →
  ∃ el, Req_ResponseEl req1 = Some el ∧ Req_ACSEndpoint req1 = Req_ACSEndpoint req ∧
    Req_RelayState req1 = Req_RelayState req ∧ made_response idp req a el.
Proof.
  intros Ha Hael Hplain. unfold MakeResponse. rewrite Hael. intros H. apply io_bind_ret in H as (s2 & req2 & Hm & H).
  apply (MakeAssertionEl_plain idp req s s2 req2 a Ha) in Hm as (ctx & x & x' & sig & ael & Hctx & Hx & Hsig & Hael2 & ->);
    [|intros a'; rewrite <- Hplain; by destruct req].
  apply io_bind_ret in H as (s3 & r & Hr & H). unfold newResponse in Hr. apply io_lift_bind in Hr as (acs & Hacs & Hr).
  apply io_bind_ret in Hr as (s4 & id & Hid & Hr). unfold mret, IO_ret in Hr. injection Hr as _ <-.
  apply io_lift_bind in H as (el & Hel & H). unfold mret, IO_ret in H. injection H as _ <-. exists el. split_and!; [by destruct req..|].
  apply deref_ret in Hacs.
  assert (Hr : Req_AssertionEl (set_AssertionEl ael (set_Assertion (set_Assertion_Signature sig a) req)) = Some ael) by by destruct req.
  rewrite Hr in Hel. apply (signResponse_form idp _ (idp_issuer idp)) in Hel as (ctx' & e' & rsig & Hctx' & Hrsig & ->); [|done..].
  assert (ctx' = ctx) as -> by congruence. destruct req. cbn in *. lazymatch goal with |- made_response _ ?q _ _ =>
    refine (MadeResponse idp q a ctx x x' sig ael acs id e' rsig Hctx Hx Hsig Hael2 Hacs _ Hrsig) end. by eapply new_id_plain.
Qed.

(** [PostBinding] sends it in the form. *)
Lemma PostBinding_form idp req s s' form : Req_ResponseEl req = None → PostBinding idp req s = (s', Ret form) →
  ∃ s1 req1 el doc acs, MakeResponse idp req s = (s1, Ret req1) ∧ Req_ResponseEl req1 = Some el ∧
    WriteToBytes el = Ret doc ∧ Req_ACSEndpoint req1 = Some acs ∧ form = mkIdpAuthnRequestForm (IndexedEndpoint_Location acs) (base64_Encode doc) (Req_RelayState req1).
Proof.
  intros Hel. unfold PostBinding. rewrite Hel. intros H. apply io_bind_ret in H as (s1 & req1 & Hmake & H).
  apply io_lift_bind in H as (el & He & H). apply io_lift_bind in H as (doc & Hdoc & H). apply io_lift_bind in H as (acs & Hacs & H).
  apply io_bind_ret in H as (s2 & [] & _ & H). unfold mret, IO_ret in H. injection H as _ <-.
  exists s1, req1, el, doc, acs. apply deref_ret in He, Hacs. done.
Qed.
End made.

(** ** The response that is accepted *)

Section accepted.
Context {W : Type} `{UrlI : UrlOps} `{VarsI : PackageVars} `{X509I : X509Ops} `{EtreeI : EtreeOps} `{EtreeB : !EtreeBuild} `{EtreeF : !EtreeFind}.
Context `{XmlP : XmlParser} `{XmlT : !XmlTextLaws} `{CryptoI : CryptoOps} `{FlateI : FlateOps} `{NetI : NetOps} `{WorldI : World W}.
Context `{EncI : EncryptOps W} `{TmplI : TemplateOps} `{XmlEncI : XmlEncOps}.
#[local] Existing Instance dsig_signature | 0.

(** An element without its [Signature] children: what the enveloped-signature transform
    leaves of it. *)
Definition signature_token (t : Token) : bool := match t with TElement x => Tag x == "Signature" | _ => false end.
Definition without_signature (e : Element) : Element := set_Child (filter (λ t, signature_token t = false) (Child e)) e.

Lemma without_response_signature r i ael sig : Tag sig = "Signature" → Tag ael ≠ "Signature" →
  without_signature (signed_response r i ael sig) = unsigned_response r i ael.
Proof.
  intros Hs Ha. assert (Hst : Tag (Status_Element (Response_Status r)) = "Status") by (unfold Status_Element; eapply built_Tag; build).
  unfold without_signature, signed_response, unsigned_response, response_el, set_Child. cbn [Child map Space Attrs]. f_equal.
  rewrite filter_cons_True by (unfold signature_token; by rewrite Issuer_Element_tag).
  rewrite filter_cons_False by (unfold signature_token; by rewrite Hs, bool_decide_true).
  rewrite !filter_cons_True; [done|..]; unfold signature_token; [by rewrite bool_decide_false|by rewrite Hst].
Qed.

Lemma parseResponse_signed sp el el1 e' c r a ids now clock url :
  verifySignature sp clock (root_cursor el) = (el1, Ret (root_cursor e')) →
  unmarshalElement Unmarshal_Response (root_cursor e') = Ret r → response_ok sp true ids now url r →
  findChildren (root_cursor e') nsAssertion "EncryptedAssertion" = Ret [] →
  findChildren (root_cursor e') nsAssertion "Assertion" = Ret [c] →
  unmarshalElement Unmarshal_Assertion c = Ret a → assertion_ok sp ids now a →
  parseResponse sp (root_cursor el) ids now clock signatureRequired url = Ret a.
Proof.
  intros Hv Hr Hok Henc Hc Ha Haok. unfold parseResponse, verifyResponseSignature. rewrite Hv, ret_bind, Hr.
  cbn [map_err]. rewrite ret_bind. apply (validateResponseAttributes_ret _ _ _ _ _ _ ()) in Hok. rewrite Hok, ret_bind.
  cbn [assertionRequirement]. rewrite ret_bind, Henc, ret_bind. cbn [collect]. rewrite ret_bind, Hc, ret_bind. cbn [collect].
  unfold parseAssertion. rewrite bool_decide_false by done. rewrite ret_bind, Ha, ret_bind.
  apply (validateAssertion_ret _ _ _ _ ()) in Haok. by rewrite Haok.
Qed.

(** The service provider trusts the signing certificates of the metadata only. *)
Record trusts_metadata (sp : ServiceProvider) (certs : list Certificate) : Prop := {
  trusts_certs : getIDPSigningCerts sp = Ret certs;
  trusts_some : certs ≠ [];
  trusts_no_fingerprint : SP_IDPCertificateFingerprint sp = None ∧ SP_IDPCertificateFingerprintAlgorithm sp = None;
  trusts_no_certificate : SP_IDPCertificate sp = None;
  trusts_no_verifier : SP_SignatureVerifier sp = None
}.

Lemma trusts_verification_certs sp certs el : trusts_metadata sp certs → verification_certs sp el = Ret certs.
Proof.
  intros [Hc Hne [Hf Hfa] Hcert _]. unfold verification_certs. rewrite Hf, Hfa, Hcert.
  destruct (SP_IDPMetadata sp) as [m|] eqn:Hm; [|unfold getIDPSigningCerts in Hc; by rewrite Hm in Hc].
  repeat (rewrite (bool_decide_true (is_Some (Some _))) by by eexists).
  repeat (rewrite (bool_decide_false (is_Some None)) by by intros [? ?]). cbn [negb andb]. rewrite Hc. cbn [map_err].
  rewrite !ret_bind. rewrite bool_decide_false by done. done.
Qed.

(** The documents that are read in the course: the response, the canonical form of what is
    signed of it, and the assertion in that. *)
Record documents_read (doc : string) (el : Element) : Prop := {
  document_valid : roundtrip_Validate doc = Ret ();
  document_read : ReadFromBytes doc = Ret (Some el);
  document_signed e' : TransformExcC14n (without_signature el) "" false = Ret e' →
    reads_back e' ∧ (∀ content, WriteToBytes_canonical e' = Ret content → ReadFromBytes content = Ret (Some e')) ∧
    ∀ x, TElement x ∈ Child e' → Tag x = "Assertion" → reads_back x
}.

Lemma Issuer_no_signature x : SignSearch.no_signature (Issuer_Element x) = true.
Proof.
  assert (Hb : ∃ at_, built "saml" "Issuer" at_ [] (Issuer_Value x) (Issuer_Element x))
    by (unfold Issuer_Element; eexists; eapply built_eq; [build|done..]).
  destruct Hb as (at_ & [_ Ht _ Hl _]). destruct (Issuer_Element x) as [s t ats c] eqn:E. cbn in Ht, Hl. subst t.
  clear E. unfold ChildElements in Hl. cbn [Child] in Hl. cbn [SignSearch.no_signature].
  induction c as [|[] c IH]; simpl in Hl; [done|discriminate|by apply IH..].
Qed.

Lemma signed_writable sig a : Assertion_writable a → signature_ok (Some sig) → tidy assertion_scope sig →
  Assertion_writable (set_Assertion_Signature sig a).
Proof. intros [H1 _ _ H2 H3 H4] Hok Ht. split; [done|done|by intros ? [= <-]|done..]. Qed.

Lemma signed_assertion_ok sp ids now sig a : SP_ValidateAudienceRestriction sp = None →
  assertion_ok sp ids now a → assertion_ok sp ids now (set_Assertion_Signature sig a).
Proof. intros Hdef [H1 H2 H3 H4 H5]. split; [done..|]. unfold audience_ok in *. by rewrite Hdef in *. Qed.

(** A time at which the service provider accepts the response. *)
Definition in_time (req : IdpAuthnRequest) (now : Time) : Prop :=
  (Req_Now req - 2 * MaxClockSkew <= now <= Req_Now req + MaxIssueDelay - Millisecond)%Z.

Lemma response_to_ok (idp : IdentityProvider W) req acs id a sp md ids now url :
  configured_for idp sp md acs → SP_ValidateRequestID sp = None → AuthnRequest_ID (Req_Request req) ∈ ids →
  in_time req now →
  response_ok sp true ids now url (Response_read (with_assertion a (response_to idp req acs id))).
Proof.
  intros [(m & Hm & Hid) Hacs _ _] Hv Hin Hnow. unfold in_time in Hnow. pose proof (Time_read_close (Req_Now req)) as Hc.
  split; cbn.
  - right; right. exact Hacs.
  - unfold request_id_ok. rewrite Hv. by left.
  - lia.
  - intros i [= <-]. exists m. by split.
  - done.
Qed.

(** What is known of a response that is made, of an assertion with an XML form. *)
Section response.
Context (idp : IdentityProvider W) (req : IdpAuthnRequest) (a : Assertion) (ctx : SigningContext) (cert : Certificate).
Context (certs : list Certificate) (clock : Time) (Hhash : ∀ h s, (20 <= String.length (hash_Sum h s))%nat).
Context (Hctx : signingContext idp = Ret ctx) (Hsigner : signer_of ctx (mkValidationContext certs "ID" clock) cert).
Context (Hw : Assertion_writable a) (Hyear : four_digit_year (Req_Now req)).
Context (x x' sig ael : Element) (acs : IndexedEndpoint) (id : string) (e' rsig : Element).
Context (Hx : Assertion_Element a = Ret x) (Hsig : ConstructSignature ctx (root_cursor x) true = Ret (x', sig)).
Context (Hael : Assertion_Element (set_Assertion_Signature sig a) = Ret ael) (Hid : plain_text id = true).
Notation r := (response_to idp req acs id).
Notation a2 := (set_Assertion_Signature sig a).
Notation unsigned := (unsigned_response r (idp_issuer idp) ael).
Context (Hrsig : ConstructSignature ctx (root_cursor unsigned) true = Ret (e', rsig)).

Lemma made_prefix : SigningContext_Prefix ctx = "ds".
Proof. apply (signingContext_form idp). exact Hctx. Qed.

Lemma made_exclusive : exclusive_signer ctx false.
Proof. by apply (signingContext_exclusive idp). Qed.

Lemma assertion_signature_made : made_signature ctx sig.
Proof.
  eapply (ConstructSignature_signature ctx false made_exclusive); [exact Hsigner| |exact Hsig].
  eapply Assertion_Element_readable; [apply (assertion_tidy a Hw)|exact Hx].
Qed.

Lemma signed_assertion_writable : Assertion_writable a2.
Proof.
  pose proof assertion_signature_made as Hm. apply signed_writable; [done|by eapply made_signature_ok|].
  by eapply made_tidy; [apply made_exclusive|exact Hm|apply made_prefix].
Qed.

Lemma signed_assertion_prefixes e : Assertion_Signature a2 = Some e → prefixes_in ["saml"; "ds"; "xsi"] e = true.
Proof.
  intros [= <-]. eapply made_prefixes; [apply assertion_signature_made|apply made_prefix|]. right; by left.
Qed.

Lemma made_signable : signable id unsigned.
Proof. by apply (unsigned_signable r (idp_issuer idp) a2 ael eq_refl signed_assertion_writable Hael). Qed.

Lemma made_rsig : made_signature ctx rsig.
Proof. eapply (ConstructSignature_signature ctx false made_exclusive); [exact Hsigner|apply made_signable|exact Hrsig]. Qed.

Lemma made_transform : TransformExcC14n unsigned "" false = Ret e'.
Proof. pose proof (ConstructSignature_made ctx false made_exclusive _ e' rsig (signable_readable _ _ made_signable) Hrsig) as [Ht _]. exact Ht. Qed.

Lemma ael_Tag : Tag ael = "Assertion".
Proof. apply (Assertion_reads ∅ a2 ael signed_assertion_writable plain_empty_scope Hael). Qed.

Lemma made_without_signature : without_signature (signed_response r (idp_issuer idp) ael rsig) = unsigned.
Proof. apply without_response_signature; [apply (made_Tag _ _ made_rsig)|by rewrite ael_Tag]. Qed.

Lemma made_verified sp : trusts_metadata sp certs → (el_count unsigned + certs_count ctx <= 970)%nat →
  (∀ content, WriteToBytes_canonical e' = Ret content → ReadFromBytes content = Ret (Some e')) →
  ∃ el1, verifySignature sp clock (root_cursor (signed_response r (idp_issuer idp) ael rsig)) = (el1, Ret (root_cursor e')).
Proof.
  intros Hsp Hsize Hread. eexists.
  refine (verifySignature_signed ctx made_exclusive "samlp" "Response" (response_attrs r) [TElement (Issuer_Element (idp_issuer idp))]
    [TElement (Status_Element success_status); TElement ael] id e' rsig certs cert clock Hsigner made_signable
    (response_fresh_decls r [Issuer_Element (idp_issuer idp); Status_Element success_status; ael]) Hrsig _ _ Hsize sp (trusts_no_verifier _ _ Hsp) _ Hread).
  - intros y Hy. apply list_elem_of_singleton in Hy as [= ->]. apply Issuer_no_signature.
  - intros y [Hy|Hy]%elem_of_cons.
    + injection Hy as ->. assert (Ht : Tag (Status_Element success_status) = "Status") by (unfold Status_Element; eapply built_Tag; build). by rewrite Ht.
    + apply list_elem_of_singleton in Hy as [= ->]. by rewrite ael_Tag.
  - by apply trusts_verification_certs.
Qed.

Lemma success_writable : Status_writable success_status.
Proof. split; [by vm_compute; lia|done]. Qed.

#[local] Notation facts lemma := (lemma r (idp_issuer idp) a2 ael e' eq_refl eq_refl eq_refl eq_refl eq_refl Hyear success_writable
  signed_assertion_writable Hael signed_assertion_prefixes made_transform).

Lemma made_accepted sp md ids now url doc :
  trusts_metadata sp certs → (el_count unsigned + certs_count ctx <= 970)%nat →
  configured_for idp sp md acs → SP_ValidateRequestID sp = None → AuthnRequest_ID (Req_Request req) ∈ ids → in_time req now →
  assertion_ok sp ids now (Assertion_read a2) →
  documents_read doc (signed_response r (idp_issuer idp) ael rsig) →
  ParseXMLResponse sp doc ids url now clock = Ret (Assertion_read a2).
Proof.
  intros Hsp Hsize Hconf Hvid Hin Hnow Hok [Hvalid Hread Hdocs].
  rewrite made_without_signature in Hdocs. destruct (Hdocs e' made_transform) as (Hback & Hcontent & Hpart).
  destruct (made_verified sp Hsp Hsize Hcontent) as [el1 Hver].
  destruct (response_canonical r (idp_issuer idp) a2 ael e' eq_refl signed_assertion_writable Hael signed_assertion_prefixes
    made_transform) as (scope & d & a' & Hcan).
  destruct (facts assertion_children _ _ _ Hcan) as [Henc Hass].
  assert (Hback' : reads_back a').
  { apply Hpart; [apply child_elements|].
    - destruct (canonical_els _ _ _ _ _ _ _ Hcan) as (i' & st' & -> & _). by do 2 right; left.
    - destruct (canonical_Tag _ _ _ _ _ _ _ Hcan) as [-> _]. apply ael_Tag. }
  unfold ParseXMLResponse, xrv_Validate, xml_ops. rewrite Hvalid. cbn [map_err]. rewrite ret_bind, Hread. cbn [map_err].
  rewrite ret_bind. cbn [or_err]. rewrite ret_bind.
  rewrite (parseResponse_signed sp _ el1 e' (child_cursor (root_cursor e') a') (Response_read (with_assertion a2 r)) (Assertion_read a2));
    [done|done| |by apply (response_to_ok idp req acs id a2 sp md)|done|done| |done].
  - by apply (facts response_unmarshalled).
  - by apply (facts assertion_unmarshalled scope d a' Hcan).
Qed.
End response.

(** What changes with the assertion of a request. *)
Lemma assertion_set_fields a req :
  Req_Assertion (set_Assertion a req) = Some a ∧ Req_AssertionEl (set_Assertion a req) = Req_AssertionEl req ∧
  Req_ResponseEl (set_Assertion a req) = Req_ResponseEl req ∧ Req_ACSEndpoint (set_Assertion a req) = Req_ACSEndpoint req ∧
  Req_Request (set_Assertion a req) = Req_Request req ∧ Req_Now (set_Assertion a req) = Req_Now req ∧
  getSPEncryptionCert (set_Assertion a req) = getSPEncryptionCert req.
Proof. by destruct req. Qed.

Lemma made_assertion_ok (idp : IdentityProvider W) req session md acs sp ids s s' a now sig :
  Req_ServiceProviderMetadata req = Some md → Req_ACSEndpoint req = Some acs → MakeAssertion idp req session s = (s', Ret a) →
  configured_for idp sp md acs → AuthnRequest_ID (Req_Request req) ∈ ids → (Req_Now req <= Assertion_IssueInstant a)%Z →
  in_time req now → (0 <= MaxClockSkew)%Z → assertion_ok sp ids now (Assertion_read (set_Assertion_Signature sig a)).
Proof.
  unfold in_time. intros Hmd Hacs Hmake Hconf Hid Hissued Hnow Hskew. pose proof (conf_default _ _ _ _ Hconf) as Hdef.
  apply assertion_ok_read; [done|apply signed_assertion_ok; [done|]..];
    (apply (MakeAssertion_ok idp req session md acs sp ids s s'); [done..| |done]); unfold Millisecond in *; lia.
Qed.

(** C4: The response of single sign-on is accepted. The form that the identity provider sends
    goes to the assertion consumer service, and what it carries is a signed response with a
    signed assertion that the service provider for which it was made accepts, if it trusts the
    certificate of the signing key, knows the request, and gets the response in time, a
    millisecond before the end of its validity at the latest: what it goes on with is the
    assertion that was made, about the same subject with the same attributes. *)
Theorem sso_response_accepted (idp : IdentityProvider W) req session md acs sp ids s s' a s1 s2 s3 form req1 el doc ctx cert certs
    url now0 now clock
    (Hmd : Req_ServiceProviderMetadata req = Some md) (Hacs : Req_ACSEndpoint req = Some acs)
    (Hnew : Req_AssertionEl req = None ∧ Req_ResponseEl req = None)
    (Hmake : MakeAssertion idp req session s = (s', Ret a)) (Hwritable : Assertion_writable a)
    (Hplain : getSPEncryptionCert req = Err os_ErrNotExist)
    (Hpost : PostBinding idp (set_Assertion a req) s1 = (s2, Ret form))
    (Hsent : MakeResponse idp (set_Assertion a req) s1 = (s3, Ret req1) ∧ Req_ResponseEl req1 = Some el ∧ WriteToBytes el = Ret doc)
    (Hdocs : documents_read doc el)
    (Hhash : ∀ h s, (20 <= String.length (hash_Sum h s))%nat)
    (Hctx : signingContext idp = Ret ctx) (Hcert : signer_of ctx (mkValidationContext certs "ID" clock) cert)
    (Hsize : (el_count (without_signature el) + certs_count ctx <= 970)%nat)
    (Htrust : trusts_metadata sp certs) (Hconf : configured_for idp sp md acs) (Hdefault : SP_ValidateRequestID sp = None)
    (Hid : AuthnRequest_ID (Req_Request req) ∈ ids)
    (Hissued : (Req_Now req <= Assertion_IssueInstant a)%Z) (Hyear : four_digit_year (Req_Now req))
    (Hnow : in_time req now) (Hskew : (0 <= MaxClockSkew)%Z) :
  Form_URL form = URL_String (SP_AcsURL sp) ∧
  ∃ a', parseResponseHTTP sp (Form_SAMLResponse form) url ids now0 now clock = Ret a' ∧
    (Subject_NameID <$> Assertion_Subject a') = (Subject_NameID <$> Assertion_Subject a) ∧
    Assertion_AttributeStatements a' = Assertion_AttributeStatements a.
Proof.
  destruct (assertion_set_fields a req) as (Fa & Fae & Fre & Facs & Freq & Fnow & Fcert). destruct Hnew as [Hael Hrel].
  destruct Hsent as (Hsent & Hel & Hdoc). rewrite <- Fcert in Hplain.
  destruct (MakeResponse_made idp _ s1 s3 req1 a Fa (eq_trans Fae Hael) Hplain Hsent) as (el0 & Hel0 & Hacs1 & _ & Hmade).
  assert (el0 = el) as -> by congruence.
  destruct (PostBinding_form idp _ s1 s2 form (eq_trans Fre Hrel) Hpost) as (s4 & req2 & el2 & doc2 & acs2 & Hm2 & He2 & Hd2 & Ha2 & ->).
  assert (req2 = req1) as -> by congruence. assert (el2 = el) as -> by congruence. assert (doc2 = doc) as -> by congruence.
  rewrite Hacs1, Facs, Hacs in Ha2. injection Ha2 as <-. split; [apply (conf_acs _ _ _ _ Hconf)|]. clear Hm2 He2 Hd2.
  destruct Hmade as [ctx' x x' sig ael acs' id e' rsig Hc' Hx Hsig Hael' Hacs' Hidp Hrsig].
  assert (ctx' = ctx) as -> by congruence. assert (acs' = acs) as -> by congruence. rewrite <- Fnow in Hyear.
  pose proof (made_without_signature idp (set_Assertion a req) a ctx cert certs clock Hhash Hctx Hcert Hwritable x x' sig ael acs id e' rsig
    Hx Hsig Hael' Hidp Hrsig) as Hwithout. rewrite Hwithout in Hsize.
  exists (Assertion_read (set_Assertion_Signature sig a)). split; [|split; [simpl; by destruct (Assertion_Subject a)|done]].
  unfold parseResponseHTTP. cbn [Form_SAMLResponse]. rewrite base64_Decode_Encode. cbn [map_err]. rewrite ret_bind.
  apply (made_accepted idp (set_Assertion a req) a ctx cert certs clock Hhash Hctx Hcert Hwritable Hyear x x' sig ael acs id e' rsig
    Hx Hsig Hael' Hidp Hrsig sp md); [done..|by rewrite Freq|unfold in_time; by rewrite Fnow| |done].
  by apply (made_assertion_ok idp req session md acs sp ids s s').
Qed.
End accepted.

(** ** Witnesses *)

Lemma find_steps_path tags e : Forall (λ tag, tag ≠ ".") tags → has_path tags e → is_Some (find_steps tags e).
Proof.
  revert e. induction tags as [|tag tags IH]; intros e Ht; [by eexists|]. apply Forall_cons in Ht as [Hd Ht].
  intros (x & Hx & Htag & Hp). cbn [find_steps]. rewrite bool_decide_false by done. generalize 0%nat.
  induction (Child e) as [|k c IHc]; intros n; [by apply not_elem_of_nil in Hx|].
  apply elem_of_cons in Hx as [<-|Hx].
  - rewrite bool_decide_true by done. destruct (IH x Ht Hp) as [p ->]. by eexists.
  - destruct k as [y| | |]; [|by apply IHc..]. destruct (if Tag y == tag then find_steps tags y else None); [by eexists|by apply IHc].
Qed.

Lemma Split_path tags : Forall (λ tag, has_byte "/" tag = false) tags → Split "/" ("." +++ path_string tags) = "." :: tags.
Proof.
  intros Ht. generalize (eq_refl : has_byte "/" "." = false). generalize ".". induction Ht as [|tag tags Hs _ IH]; intros s Hd.
  - cbn [path_string]. by rewrite append_nil_r, Split_no_sep.
  - cbn [path_string]. change ("/" +++ tag +++ path_string tags) with (String "/" (tag +++ path_string tags)).
    rewrite Split_append by done. f_equal. by apply IH.
Qed.

#[export] Instance ref_etree_find : EtreeFind.
Proof.
  split.
  - done.
  - intros tags e Ht Hp. change (is_Some (find_steps (Split "/" ("." +++ path_string tags)) e)). rewrite Split_path.
    + cbn [find_steps]. rewrite bool_decide_true by done. apply find_steps_path; [|done].
      eapply Forall_impl; [exact Ht|]. by intros tag Hn ->.
    + eapply Forall_impl; [exact Ht|]. intros [|c tag] Hn; [done|]. cbn in Hn. apply andb_true_iff in Hn as [Hc Hn].
      cbn [has_byte]. rewrite (all_bytes_has_byte _ "/" _ Hn) by done. rewrite orb_false_r.
      destruct (Ascii.eqb_spec c "/") as [->|]; done.
  - intros p u e Hp Hin. change (is_Some (ref_SelectAttr ("xmlns" +++ ":" +++ p) e)). unfold ref_SelectAttr.
    rewrite (split_name_prefixed "xmlns" p) by done. apply (first_that_is_Some _ _ (mkAttr "xmlns" p u)); [done|]. by apply bool_decide_eq_true.
Qed.

Lemma ref_reads_back e : reads_back e.
Proof. split; [intros doc [= <-]; simpl; by rewrite read_document_write..|by eexists]. Qed.

(** The result of a run that returns. *)
Definition value {W A} (d : A) (run : St W * outcome A) : A := match run.2 with Ret a => a | _ => d end.

Lemma value_ret {W A} (d : A) (run : St W * outcome A) : is_ret run.2 = true → run = (run.1, Ret (value d run)).
Proof. destruct run as [s []]; [done|discriminate..]. Qed.

Lemma default_some {A} (d : A) o : bool_decide (is_Some o) = true → o = Some (default d o).
Proof. intros [x ->]%bool_decide_eq_true_1. done. Qed.

Module Examples.

#[local] Existing Instance default_vars.
#[local] Existing Instance dsig_signature | 0.

Definition cert : Certificate := mkCertificate "cert" (RSAPublicKey "cert") 0%Z (10 ^ 20)%Z.

(** The metadata of the identity provider, with its certificate. *)
Definition idp_metadata : EntityDescriptor :=
  let k := mkKeyDescriptor "signing" (mkKeyInfo (mkX509Data [mkX509Certificate (base64_Encode "cert")])) [] in
  let role := mkRoleDescriptor "" None "" "" "" None [k] None [] in
  let sso := mkSSODescriptor role [] [] [] [] in
  mkEntityDescriptor "https:metadata" "" 0 0 None [] [mkIDPSSODescriptor sso None [] [] [] [] [] []] [] [] [] []
    None None None [].

Definition sp : ServiceProvider :=
  mkServiceProvider "sp" None None [] None (url_of "spmetadata") (url_of "acs") (url_of "spslo")
    (Some idp_metadata) None None None "" 0 None None false "" None "" [HTTPPostBinding] None None.

Definition sp_entity : EntityDescriptor := sp_metadata_at sp 900%Z.

Definition idp : IdentityProvider Time :=
  mkIdentityProvider Time (Some (mkSigner (RSAPublicKey "cert"))) None (Some cert) [] 0%Z
    (url_of "metadata") (url_of "sso") (url_of "login") (url_of "slo")
    (λ _ id t, (t, if id == "sp" then Ret (Some sp_entity) else Err os_ErrNotExist))
    (mkSessionProvider Time (λ _ _ s, (s, Some (Some IdpSpec.Examples.session))) None None (Some (λ _ _, mret ())))
    None "" None None false None None None.

Definition endpoint : IndexedEndpoint := mkIndexedEndpoint HTTPPostBinding "https:acs" None 1 None.

(** The request that the identity provider has accepted. *)
Definition request : IdpAuthnRequest :=
  set_ACS (default (mkSPSSODescriptor (mkSSODescriptor (mkRoleDescriptor "" None "" "" "" None [] None []) [] [] [] []) None None [] [])
      (head (EntityDescriptor_SPSSODescriptors sp_entity)), endpoint)
    (set_Metadata (Some sp_entity)
      (set_Request IdpSpec.Examples.authn_request (empty_request SingleSignOn.Examples.browser "" "" "" 1100%Z))).

Definition assertion : Assertion := value zero_Assertion (MakeAssertion idp request IdpSpec.Examples.session (1100%Z, [])).

Definition sent : IdpAuthnRequest := value request (MakeResponse idp (set_Assertion assertion request) (1100%Z, [])).

Definition form : IdpAuthnRequestForm :=
  value (mkIdpAuthnRequestForm "" "" "") (PostBinding idp (set_Assertion assertion request) (1100%Z, [])).

Definition signed : Element := default zero_Element (Req_ResponseEl sent).

Definition signing : SigningContext :=
  match signingContext idp with Ret c => c | _ => SignValidate.Examples.ctx end.

Example signs_twice : (List.length (Child signed), Tag <$> (Child signed !! 1%nat ≫= token_element)) = (4%nat, Some "Signature").
Proof. vm_compute. reflexivity. Qed.

Lemma signing_cert : signer_of signing (mkValidationContext [cert] "ID" 1200%Z) cert.
Proof.
  split; [done| |].
  - intros certs [= <-]. split; [|by intros c ->%list_elem_of_singleton].
    split; [by eexists|done|by left|by intros r ->%list_elem_of_singleton|]. split; vm_compute; discriminate.
  - intros algo method data raw _ [= <-]. split; [done|]. unfold checkSignature. cbn. by rewrite bool_decide_true.
Qed.

Lemma assertion_is_writable : Assertion_writable assertion.
Proof.
  assert (Hy : ∀ l, forallb (λ t, (daysSinceEpoch 0 * Duration.day <=? t) &&
    (t <? daysSinceEpoch 10000 * Duration.day))%Z l = true → Forall four_digit_year l).
  { intros l Hl. apply Forall_forall. intros t Ht. rewrite forallb_elem in Hl. specialize (Hl t Ht).
    unfold four_digit_year. bool_prop. lia. }
  split.
  - split; vm_compute; [discriminate|reflexivity].
  - intros e He. vm_compute in He. discriminate He.
  - intros e He. vm_compute in He. discriminate He.
  - intros s Hs. vm_compute in Hs. injection Hs as <-. apply Hy. by vm_compute.
  - intros c Hs. vm_compute in Hs. injection Hs as <-. apply Hy. by vm_compute.
  - intros s Hs. vm_compute in Hs. apply list_elem_of_singleton in Hs as ->. apply Hy. by vm_compute.
Qed.

Lemma signed_documents : documents_read (write_element signed) signed.
Proof.
  split; [done|simpl; by rewrite read_document_write|]. intros e' _. split; [apply ref_reads_back|]. split.
  - intros content [= <-]. simpl. by rewrite read_document_write.
  - intros x _ _. apply ref_reads_back.
Qed.

Lemma sso_response_accepted_witness :
  Form_URL form = URL_String (SP_AcsURL sp) ∧
  ∃ a', parseResponseHTTP sp (Form_SAMLResponse form) (url_of "acs") ["req1"] 0%Z 1200%Z 1200%Z = Ret a' ∧
    (Subject_NameID <$> Assertion_Subject a') = (Subject_NameID <$> Assertion_Subject assertion) ∧
    Assertion_AttributeStatements a' = Assertion_AttributeStatements assertion.
Proof.
  eapply (sso_response_accepted idp request IdpSpec.Examples.session sp_entity endpoint sp ["req1"] (1100%Z, []) (1100%Z, [])
    assertion (1100%Z, []) _ _ form sent signed (write_element signed) signing cert [cert]).
  - reflexivity.
  - reflexivity.
  - split; reflexivity.
  - vm_compute. reflexivity.
  - exact assertion_is_writable.
  - vm_compute. reflexivity.
  - apply value_ret. vm_compute. reflexivity.
  - split; [apply value_ret; vm_compute; reflexivity|]. split; [apply default_some; vm_compute; reflexivity|reflexivity].
  - exact signed_documents.
  - intros h s. change (hash_Sum h s) with (ref_hash h s). unfold ref_hash. rewrite length_append. simpl. lia.
  - vm_compute. reflexivity.
  - exact signing_cert.
  - apply Nat.leb_le. vm_compute. reflexivity.
  - split; [vm_compute; reflexivity|discriminate|split; reflexivity|reflexivity|reflexivity].
  - split; [eexists; split; reflexivity|reflexivity..].
  - reflexivity.
  - vm_compute. left.
  - vm_compute. discriminate.
  - split; vm_compute; [discriminate|reflexivity].
  - split; vm_compute; discriminate.
  - vm_compute. discriminate.
Defined.
End Examples.
