(* ===== verification/SingleLogout.v ===== *)
(** * SingleLogout: single logout by redirects, from end to end

    The logout request that the service provider signs and sends by a redirect
    ends the session at the identity provider, and the service provider accepts
    the response that comes back, signed, by a redirect. *)

From stdpp Require Import base option list gmap strings sets.
From Stdlib Require Import ZArith Lia Ascii.
From S2P Require Import Prelude Go Duration RelaxedTime Encoding Etree C14n Schema SchemaXML Env XmlTree.
From S2P Require Import XmlDecode SchemaDecode SchemaRoundtrip C14nReads C14nSpec SchemaTidy SchemaDecodeSpec.
From S2P Require Import ServiceProvider Reference ServiceProviderSpec DSig Redirect RedirectSpec C14nUnmarshal ResponseForm.
From S2P Require Import DSigSpec XmlText SignatureDecode SignValidate Http IdentityProvider Assertions.
From S2P Require Import IdpResponse IdpLogout SPMessages IdpSpec IdpLogoutSpec SPMessagesSpec SingleSignOn ResponseAccepted.

Open Scope string_scope.
Open Scope Z_scope.

(** ** Signed queries *)

Definition signed_query (parameter encoded relayState method sig : string) : string :=
  message_query parameter encoded relayState +++ "&SigAlg=" +++ QueryEscape method
    +++ "&Signature=" +++ QueryEscape sig.

Lemma message_parameter parameter : parameter ∈ ["SAMLRequest"; "SAMLResponse"] →
  query_unescape parameter = Some parameter ∧ has_byte ";" parameter = false ∧
  has_byte "=" parameter = false ∧ has_byte "&" parameter = false.
Proof. intros Hp. repeat (apply elem_of_cons in Hp as [->|Hp]; [done|]). by apply elem_of_nil in Hp. Qed.

Lemma ParseQuery_signed parameter encoded relayState method sig :
  parameter ∈ ["SAMLRequest"; "SAMLResponse"] →
  ParseQuery (signed_query parameter encoded relayState method sig)
  = ((parameter, encoded) :: ((if relayState != "" then [("RelayState", relayState)] else [])
      ++ [("SigAlg", method); ("Signature", sig)]), true)%list.
Proof.
  intros Hp. destruct (message_parameter _ Hp) as (H1 & H2 & H3 & H4).
  unfold ParseQuery, signed_query. rewrite signed_query_split by done. unfold signed_params.
  rewrite parse_param by done. destruct (relayState != ""); cbn [app]; by rewrite !parse_param.
Qed.

Lemma QueryEscape_nonempty s : s ≠ "" → QueryEscape s ≠ "".
Proof.
  destruct s as [|c s]; [done|]. intros _. cbn [QueryEscape]. unfold escape_byte.
  destruct (is_unreserved c); [done|]. by destruct (Ascii.eqb c " ").
Qed.

Section redirects.
Context `{UrlI : UrlOps} `{EtreeI : EtreeOps} `{CryptoI : CryptoOps} `{FlateI : FlateOps}.

(** One of the certificates is valid at the time and verifies what the context
    signs. *)
Definition signer_trusted (ctx : SigningContext) (certs : list Certificate) (now : Time) : Prop :=
  ∃ method c, GetSignatureMethodIdentifier ctx = Ret method ∧ method ≠ "" ∧
    c ∈ certs ∧ valid_at now c = true ∧
    ∀ d sig, signDigest ctx d = Ret sig → verifyDigest c method (SigningContext_Hash ctx) d sig = true.

(** [u] is the redirect of the document to the destination, which has no query. *)
Record redirect_of (destination parameter : string) (message : Element) (relayState : string)
    (ctx : SigningContext) (u : URL) : Prop := {
  redirect_made : redirectURLWithContext destination parameter message relayState (Some ctx) = Ret u;
  redirect_destination : ∃ rv, url_Parse destination = Ret rv ∧ URL_RawQuery rv = ""
}.

Lemma redirect_query destination parameter message relayState ctx u doc :
  redirect_of destination parameter message relayState ctx u → WriteToBytes message = Ret doc →
  ∃ method sig, URL_RawQuery u = signed_query parameter (base64_Encode (flate_Compress doc)) relayState method sig.
Proof.
  intros [Hu (rv & Hrv & Hraw)] Hdoc. unfold redirectURLWithContext, sign_query in Hu.
  rewrite Hdoc, ret_bind, Hrv, ret_bind in Hu. apply bind_ret in Hu as (query & Hquery & [= <-]).
  apply bind_ret in Hquery as (method & _ & Hquery). apply bind_ret in Hquery as (sig & _ & [= <-]).
  exists method, (base64_Encode sig). rewrite Hraw. cbn [URL_RawQuery set_RawQuery].
  unfold signed_query. by rewrite !append_assoc.
Qed.

Lemma redirect_verifies destination parameter message relayState ctx u certs now :
  parameter ∈ ["SAMLRequest"; "SAMLResponse"] →
  redirect_of destination parameter message relayState ctx u → signer_trusted ctx certs now →
  verifyRedirectSignature (URL_RawQuery u) parameter certs now = Ret ().
Proof.
  intros Hp [Hu (rv & Hrv & Hraw)] (method & c & Hm & Hne & Hc & Hv & Hlaw).
  apply (redirect_url_verifies destination parameter message relayState ctx method now rv u certs c); try done.
  by rewrite Hraw.
Qed.
End redirects.

(** ** The request at the identity provider *)

Section unsigned.
Context `{EtreeI : EtreeOps} `{EtreeB : !EtreeBuild}.

Lemma NameID_Element_tag x : Tag (NameID_Element x) = "NameID".
Proof. unfold NameID_Element. eapply built_Tag. build. Qed.
Lemma SessionIndex_Element_tag x : Tag (SessionIndex_Element x) = "SessionIndex".
Proof. unfold SessionIndex_Element. eapply built_Tag. build. Qed.

Lemma LogoutRequest_unsigned r : LogoutRequest_Signature r = None →
  findChild (root_cursor (LogoutRequest_Element r)) dsig_Namespace "Signature" = Ret None.
Proof.
  intros Hs. unfold findChild, findChildren.
  assert (Hels : ∃ t a x, built "samlp" t a
    (els_opt Issuer_Element (LogoutRequest_Issuer r) ++ els_opt id (LogoutRequest_Signature r) ++
     els_opt NameID_Element (LogoutRequest_NameID r) ++ map SessionIndex_Element (LogoutRequest_SessionIndexes r))%list
    x (LogoutRequest_Element r)).
  { unfold LogoutRequest_Element, declare_saml. do 3 eexists. eapply built_eq; [build|done|done|done| |done]. by groups. }
  destruct Hels as (t & a & x & Hb). rewrite find_children_none; [done|]. cbn [cur root_cursor].
  rewrite (built_els _ _ _ _ _ _ Hb), Hs. intros c. rewrite !elem_of_app.
  intros [H|[H|[H|H]]].
  - eapply els_opt_tag in H; [|apply Issuer_Element_tag]. by rewrite H.
  - by apply elem_of_nil in H.
  - eapply els_opt_tag in H; [|apply NameID_Element_tag]. by rewrite H.
  - apply list_elem_of_fmap in H as (i & -> & _). by rewrite SessionIndex_Element_tag.
Qed.
End unsigned.

Section requests.
Context {W : Type} `{UrlI : UrlOps} `{VarsI : PackageVars} `{X509I : X509Ops} `{EtreeI : EtreeOps} `{EtreeB : !EtreeBuild}.
Context `{XmlP : XmlParser} `{SigI : SignatureOps} `{CryptoI : CryptoOps} `{FlateL : FlateLaws} `{WorldI : World W}.

Lemma NewIdpLogoutRequest_redirect h s s1 now doc relayState method sig :
  HTTPRequest_Method h = "GET" → Z.of_nat (String.length doc) <= maxAuthnRequestSize →
  URL_RawQuery (HTTPRequest_URL h)
    = signed_query "SAMLRequest" (base64_Encode (flate_Compress doc)) relayState method sig →
  TimeNow s = (s1, Ret now) →
  NewIdpLogoutRequest h s = (s1, Ret (empty_logout_request h relayState doc
    (URL_RawQuery (HTTPRequest_URL h)) HTTPRedirectBinding now)).
Proof.
  intros Hget Hsize Hq Ht. unfold NewIdpLogoutRequest, mbind, IO_bind. rewrite Ht, Hget.
  rewrite bool_decide_true by done. unfold lift. f_equal. unfold readRedirectRequest.
  rewrite Hq, ParseQuery_signed by by left. cbn [fst].
  rewrite (values_Get_first "SAMLRequest"), base64_Decode_Encode. cbn [map_err].
  rewrite ret_bind, safer_ReadAll_inverse by (unfold maxAuthnRequestSize, flateUncompressLimit in *; lia).
  cbn [map_err]. rewrite ret_bind. unfold checkAuthnRequestSize.
  rewrite (proj2 (Z.ltb_ge _ _)) by done. unfold raise_if. rewrite !ret_bind.
  by destruct (bool_decide_reflect (relayState = "")) as [->|Hne].
Qed.

(** [Validate] of a request that is signed in the query only. *)
Lemma logout_Validate_redirect (idp : IdentityProvider W) h relayState doc q now r el md certs sa sb sc clock req :
  parses_as doc el → Z.of_nat (String.length doc) <= maxAuthnRequestSize → q ≠ "" →
  Unmarshal_LogoutRequest doc = Ret r → logout_ok idp now r → no_name_id (LogoutRequest_NameID r) = false →
  findChild (root_cursor el) dsig_Namespace "Signature" = Ret None →
  (∃ i, LogoutRequest_Issuer r = Some i ∧
    effect (IDP_ServiceProviderProvider idp h (Issuer_Value i)) sa = (sb, Ret (Some md))) →
  serviceProviderSigningCertificates md = Ret certs → certs ≠ [] →
  redirect_now sb = (sc, Ret clock) → verifyRedirectSignature q "SAMLRequest" certs clock = Ret () →
  let received := empty_logout_request h relayState doc q HTTPRedirectBinding now in
  getSLOEndpoint (set_Logout_Metadata (Some md) (set_Logout_Request r received)) = Ret req →
  logout_Validate idp received sa = (sc, Ret req).
Proof.
  intros [_ _ Htree Hstable] Hsize Hq Hr Hok%logout_checkRequest_ret Hname Hsig (i & Hi & Hsp) Hcerts Hne Hclock Hver
    received Hslo.
  unfold logout_Validate. apply io_lift_bind. exists (). split.
  { unfold checkAuthnRequestSize. cbn [received Logout_RequestBuffer empty_logout_request].
    by rewrite (proj2 (Z.ltb_ge _ _)) by lia. }
  apply io_lift_bind. exists (). split; [exact Hstable|].
  apply io_lift_bind. exists r. split; [exact Hr|].
  apply io_lift_bind. exists (). split; [exact Hok|].
  apply io_lift_bind. exists i. split; [by rewrite Hi|].
  apply io_bind_ret. exists sb, (Some md). split; [apply on_result_ret; left; by exists sb, (Some md)|].
  apply io_bind_ret. exists sc, (set_Logout_Metadata (Some md) (set_Logout_Request r received)).
  split; [|apply lift_ret; split; [done|];
    cbn [received Logout_Request empty_logout_request set_Logout_Request set_Logout_Metadata]; by rewrite Hname].
  unfold logout_verifySignature.
  apply io_lift_bind. exists (Some el). split; [exact Htree|].
  apply io_lift_bind. exists el. split; [done|].
  apply io_lift_bind. exists None. split; [exact Hsig|].
  rewrite (bool_decide_false (is_Some None)) by (by intros [? ?]). cbn [negb].
  apply io_lift_bind. exists (). cbn [received Logout_RedirectQuery empty_logout_request set_Logout_Request set_Logout_Metadata].
  rewrite (bool_decide_false (q = "")) by done. split; [done|].
  apply io_lift_bind. exists md. split; [done|].
  apply io_lift_bind. exists certs. split; [exact Hcerts|].
  apply io_lift_bind. exists (). rewrite (bool_decide_false (certs = [])) by done. split; [done|].
  apply io_bind_ret. exists sc, (). split; [|done]. cbn [negb].
  apply io_bind_ret. exists sc, clock. split; [exact Hclock|]. apply lift_ret. by rewrite Hver.
Qed.

(** The service provider's own logout endpoint for redirects. *)
Lemma own_redirect_endpoint sp t req :
  HTTPRedirectBinding ∈ SP_LogoutBindings sp → Logout_binding req = HTTPRedirectBinding →
  Logout_ServiceProviderMetadata req = Some (sp_metadata_at sp t) →
  getSLOEndpoint req = Ret (set_SLOEndpoint
    (mkEndpoint HTTPRedirectBinding (URL_String (SP_SloURL sp)) (URL_String (SP_SloURL sp))) req).
Proof.
  intros Hb Hreq Hmd. unfold getSLOEndpoint. rewrite Hmd, Hreq. cbn [deref]. rewrite ret_bind.
  assert (Hslo : slo_endpoints (sp_metadata_at sp t) =
    map (λ b, mkEndpoint b (URL_String (SP_SloURL sp)) (URL_String (SP_SloURL sp))) (SP_LogoutBindings sp))
    by (unfold slo_endpoints; cbn; by rewrite app_nil_r).
  rewrite Hslo. clear Hslo Hmd. cbn [first_some].
  assert (Hfirst : first_that (λ e, Endpoint_Binding e == HTTPRedirectBinding)
    (map (λ b, mkEndpoint b (URL_String (SP_SloURL sp)) (URL_String (SP_SloURL sp))) (SP_LogoutBindings sp))
    = Some (mkEndpoint HTTPRedirectBinding (URL_String (SP_SloURL sp)) (URL_String (SP_SloURL sp)))).
  { induction (SP_LogoutBindings sp) as [|b l IH]; [by apply elem_of_nil in Hb|].
    cbn [map first_that Endpoint_Binding]. destruct (bool_decide_reflect (b = HTTPRedirectBinding)) as [->|Hn]; [done|].
    apply elem_of_cons in Hb as [Hb|Hb]; [by rewrite Hb in Hn|by apply IH]. }
  by rewrite Hfirst.
Qed.
End requests.

(** ** The content of a logout response *)

Section content.
Context `{EtreeI : EtreeOps} `{EtreeB : !EtreeBuild}.

(** An element without declarations uses its own prefix, whatever surrounds it. *)
Lemma undeclared_uses e : ∀ anc, unprefixed (Attrs e) → Space e ≠ "" →
  Space e ∈ (stripUnusedNamespaceDeclarations anc e).1.
Proof.
  intros anc Hu Hs. rewrite stripUnused_eq. destruct (strip_children _ _ _ _ _) as [used c].
  assert (H : ∀ l used el, unprefixed l → (strip_declarations l used el).1 = used).
  { clear. intros l used el H. induction H as [|a l Ha _ IH]; [done|]. apply unprefixed_attr in Ha as (Ha & _ & _).
    cbn [strip_declarations]. by rewrite Ha. }
  rewrite H by done. apply elem_of_union. left. unfold own_prefixes. rewrite bool_decide_false by done.
  apply elem_of_union. left. by apply elem_of_singleton.
Qed.

Lemma strip_children_uses strip anc el p x c : ∀ done,
  TElement x ∈ c → Tag x ≠ "Signature" → (∀ anc, p ∈ (strip anc x).1) →
  p ∈ (strip_children strip anc el done c).1.
Proof.
  induction c as [|k c IH]; intros dn Hx Ht Hp; [by apply elem_of_nil in Hx|].
  apply elem_of_cons in Hx as [<-|Hx].
  - cbn [strip_children]. specialize (Hp (set_Child (app dn (TElement x :: c)) el :: anc)).
    destruct (strip _ x) as [used x']. destruct (strip_children _ _ _ _ c) as [used' c'].
    rewrite (bool_decide_false (Tag x = "Signature")) by done. cbn [andb fst] in *. apply elem_of_union. by left.
  - destruct k as [y|t|t|t]; cbn [strip_children];
      [|specialize (IH (app dn [TCharData t]) Hx Ht Hp)|specialize (IH (app dn [TComment t]) Hx Ht Hp)
       |specialize (IH (app dn [TOther t]) Hx Ht Hp)];
      [|by destruct (strip_children _ _ _ _ c)..].
    destruct (strip _ y) as [used y']. specialize (IH (app dn [TElement y']) Hx Ht Hp).
    destruct (strip_children _ _ _ _ c). cbn [fst] in *. apply elem_of_union. by right.
Qed.

(** [removeUnusedNamespaceDeclarations] keeps declarations that the element or a
    child uses. *)
Lemma removeUnused_children e :
  NoDup (map Attr_Key (prefix_decls (Attrs e))) → (∀ x, TElement x ∈ Child e → decls_used x) →
  (∀ a, a ∈ Attrs e → Attr_Space a = "xmlns" → Attr_Key a ∈ own_prefixes e ∨
    ∃ x, TElement x ∈ Child e ∧ Tag x ≠ "Signature" ∧ unprefixed (Attrs x) ∧ Space x ≠ "" ∧ Attr_Key a = Space x) →
  removeUnusedNamespaceDeclarations e = e.
Proof.
  intros Hn Hc Hu. unfold removeUnusedNamespaceDeclarations. rewrite stripUnused_eq.
  pose proof (strip_children_keeps stripUnusedNamespaceDeclarations [] e (Child e) []
    (λ x anc Hx, stripUnused_keeps x anc (Hc x Hx))) as Hk.
  assert (Hus : ∀ x, TElement x ∈ Child e → Tag x ≠ "Signature" → unprefixed (Attrs x) → Space x ≠ "" →
    Space x ∈ (strip_children stripUnusedNamespaceDeclarations [] e [] (Child e)).1).
  { intros x Hx Ht Hux Hsx. apply strip_children_uses with x; [done..|]. intros anc. by apply undeclared_uses. }
  destruct (strip_children _ _ _ _ _) as [used c]. cbn [snd fst] in *. subst c.
  replace (set_Child (Child e) e) with e by (by destruct e).
  apply strip_declarations_keeps; [done|]. intros a Ha Hx. apply elem_of_union.
  destruct (Hu a Ha Hx) as [H|(x & H1 & H2 & H3 & H4 & ->)]; [by left|right; by apply Hus].
Qed.

Lemma decls_used_built s t a els x e : built s t a els x e → unprefixed a → Forall decls_used els → decls_used e.
Proof.
  intros [_ _ Ha Hl _] Hu Hels.
  assert (Hno : ∀ b, b ∈ Attrs e → Attr_Space b ≠ "xmlns").
  { rewrite Ha. intros b Hb Hx. unfold unprefixed, names_ok in Hu. rewrite Forall_forall in Hu.
    apply Hu, unprefixed_attr in Hb as (Hb & _). congruence. }
  constructor; [split|].
  - replace (prefix_decls (Attrs e)) with (@nil Attr); [constructor|]. symmetry. unfold prefix_decls.
    revert Hno. generalize (Attrs e). clear. intros l. induction l as [|b l IH]; intros Hno; [done|].
    rewrite filter_cons_False by (apply Hno; by left). apply IH. intros c Hc. apply Hno. by right.
  - intros b Hb Hx. by destruct (Hno b Hb).
  - intros y Hy%child_elements. rewrite Hl in Hy. rewrite Forall_forall in Hels. by apply Hels.
Qed.

Lemma Issuer_decls_used x : decls_used (Issuer_Element x).
Proof. unfold Issuer_Element. eapply decls_used_built; [build|names_tac|repeat apply Forall_app_2; constructor]. Qed.

Lemma StatusCode_decls_used : ∀ x, decls_used (StatusCode_Element x).
Proof.
  fix IH 1. intros [value [sub|]]; cbn [StatusCode_Element];
    (eapply decls_used_built; [build|names_tac|]); [by apply Forall_singleton|constructor].
Qed.

Lemma Status_decls_used s : plain_status s → decls_used (Status_Element s).
Proof.
  unfold plain_status. intros Hd. unfold Status_Element. rewrite Hd. cbn [child_opt].
  eapply decls_used_built; [build|names_tac|]. repeat apply Forall_app_2; [constructor| |].
  - apply Forall_singleton, StatusCode_decls_used.
  - destruct (Status_StatusMessage s) as [m|]; [|constructor]. apply Forall_singleton. unfold StatusMessage_Element, text_el.
    eapply decls_used_built; [build|names_tac|constructor].
Qed.
End content.

Section decoding.
Context `{EtreeI : EtreeOps} `{EtreeB : !EtreeBuild} `{XmlP : XmlParser}.

(** The attributes of a logout response after the two declarations. *)
Definition logout_response_attrs (r : LogoutResponse) : list Attr :=
  (attr_of "ID" (LogoutResponse_ID r) ++ attrs_text "InResponseTo" (LogoutResponse_InResponseTo r) ++
   attr_of "Version" (LogoutResponse_Version r) ++
   attr_of "IssueInstant" (Time_Format (LogoutResponse_IssueInstant r)) ++
   attrs_text "Destination" (LogoutResponse_Destination r) ++ attrs_text "Consent" (LogoutResponse_Consent r))%list.

Definition logout_response_els (r : LogoutResponse) : list Element :=
  (els_opt Issuer_Element (LogoutResponse_Issuer r) ++ els_opt id (LogoutResponse_Signature r) ++
   [Status_Element (LogoutResponse_Status r)])%list.

Lemma LogoutResponse_Element_built r : ∃ x, built "samlp" "LogoutResponse"
  (mkAttr "xmlns" "saml" assertion_space :: mkAttr "xmlns" "samlp" protocol_space :: logout_response_attrs r)
  (logout_response_els r) x (LogoutResponse_Element r).
Proof.
  unfold LogoutResponse_Element, declare_saml. eexists.
  eapply built_eq; [build|done|done| | |reflexivity]; by groups.
Qed.

Lemma logout_response_attrs_unprefixed r : unprefixed (logout_response_attrs r).
Proof. unfold logout_response_attrs. names_tac. Qed.

Section unsigned_response.
Context (r : LogoutResponse) (i : Issuer) (Hsig : LogoutResponse_Signature r = None)
  (Hissuer : LogoutResponse_Issuer r = Some i) (Hst : plain_status (LogoutResponse_Status r)).

Lemma logout_response_children c : TElement c ∈ Child (LogoutResponse_Element r) ↔
  c = Issuer_Element i ∨ c = Status_Element (LogoutResponse_Status r).
Proof.
  destruct (LogoutResponse_Element_built r) as [x [_ _ _ Hl _]].
  rewrite child_elements, Hl. unfold logout_response_els. rewrite Hissuer, Hsig. cbn [els_opt app].
  rewrite elem_of_cons, list_elem_of_singleton. done.
Qed.

Lemma logout_response_attr b : b ∈ logout_response_attrs r → Attr_Space b = "" ∧ decl_of b = None.
Proof.
  intros Hb. pose proof (logout_response_attrs_unprefixed r) as Hun. unfold unprefixed, names_ok in Hun.
  rewrite Forall_forall in Hun. by apply Hun, unprefixed_attr in Hb as (? & _ & ?).
Qed.

Lemma logout_response_bytes `{EtreeF : !EtreeFind} :
  elementToBytes (root_cursor (LogoutResponse_Element r)) = WriteToBytes (LogoutResponse_Element r).
Proof.
  destruct (LogoutResponse_Element_built r) as [x [Hs _ Ha _ _]].
  set (el := LogoutResponse_Element r) in *.
  assert (Hscope : SubContext default_prefixes el = Ret (xml_scope default_prefixes el)).
  { apply subContext_returns. rewrite Ha. cbn [forallb]. do 2 (apply andb_true_iff; split; [done|]).
    apply forallb_elem. intros b Hb. unfold proper_decl. by destruct (logout_response_attr b Hb) as [_ ->]. }
  apply (elementToBytes_keeps ["samlp"; "saml"] (root_cursor el) (xml_scope default_prefixes el)); [done| |].
  - cbn [cur root_cursor]. apply prefixes_in_inv. split_and!; [rewrite Hs; by left| |].
    + unfold own_attrs. rewrite Ha, !filter_cons_False by done.
      rewrite (unprefixed_own _ (logout_response_attrs_unprefixed r)).
      intros b Hb. destruct (logout_response_attr b Hb) as [-> _]. by left.
    + intros c [->| ->]%logout_response_children;
        [apply Issuer_prefixes; right; by left|apply Status_prefixes; [by left|done]].
  - apply self_contained_scope. intros p Hp.
    repeat (apply elem_of_cons in Hp as [->|Hp]; [by split_and!; vm_compute|]). by apply not_elem_of_nil in Hp.
Qed.

Lemma logout_response_decls : prefix_decls (Attrs (LogoutResponse_Element r))
  = [mkAttr "xmlns" "saml" assertion_space; mkAttr "xmlns" "samlp" protocol_space].
Proof.
  destruct (LogoutResponse_Element_built r) as [x [_ _ Ha _ _]]. rewrite Ha. unfold prefix_decls.
  rewrite !filter_cons_True by done. do 2 f_equal. pose proof logout_response_attr as H. revert H.
  generalize (logout_response_attrs r). intros l H. induction l as [|b l IH]; [done|].
  rewrite filter_cons_False by (by destruct (H b) as [-> _]; [left|]). apply IH. intros c Hc. apply H. by right.
Qed.

(** [saml] is declared on the root and used by the issuer only. *)
Lemma logout_response_kept :
  removeUnusedNamespaceDeclarations (LogoutResponse_Element r) = LogoutResponse_Element r.
Proof.
  destruct (LogoutResponse_Element_built r) as [x [Hs _ _ _ _]]. apply removeUnused_children.
  - rewrite logout_response_decls. apply (bool_decide_eq_true_1 (NoDup _)). by vm_compute.
  - intros c [->| ->]%logout_response_children; [apply Issuer_decls_used|by apply Status_decls_used].
  - intros b Hb Hsp. assert (Hin : b ∈ prefix_decls (Attrs (LogoutResponse_Element r))) by (by apply list_elem_of_filter).
    rewrite logout_response_decls in Hin. apply elem_of_cons in Hin as [->|Hin]; [right|left].
    + exists (Issuer_Element i).
      assert (Hi : ∃ a t, built "saml" "Issuer" a [] t (Issuer_Element i) ∧ unprefixed a).
      { unfold Issuer_Element. do 2 eexists. split; [build|names_tac]. }
      destruct Hi as (a & t & [H1 H2 H3 _ _] & Hua). rewrite H1, H2, H3.
      split_and!; try done. apply logout_response_children. by left.
    + apply list_elem_of_singleton in Hin as ->. unfold own_prefixes. rewrite Hs. cbn [Attr_Key]. set_solver.
Qed.

(** The service provider reads the document of an unsigned response as the
    response that was made, times in whole milliseconds. *)
Lemma LogoutResponse_unmarshalled `{EtreeF : !EtreeFind} : LogoutResponse_writable r →
  reads_back (LogoutResponse_Element r) →
  unmarshalElement Unmarshal_LogoutResponse (root_cursor (LogoutResponse_Element r)) = Ret (LogoutResponse_read r).
Proof.
  intros Hw [Hx He [doc Hdoc]]. destruct (LogoutResponse_reads ∅ r Hw) as (_ & _ & Hread).
  unfold unmarshalElement. rewrite logout_response_bytes, Hdoc, ret_bind, (He _ Hdoc), ret_bind. cbn [deref].
  rewrite ret_bind, logout_response_kept, Hdoc, ret_bind. unfold Unmarshal_LogoutResponse, xml_ops, xml_Unmarshal.
  by rewrite (Hx _ Hdoc), ret_bind.
Qed.
End unsigned_response.
End decoding.

(** ** The response at the service provider *)

Section responses.
Context {W : Type} `{UrlI : UrlOps} `{VarsI : PackageVars} `{X509I : X509Ops} `{EtreeI : EtreeOps} `{EtreeB : !EtreeBuild}.
Context `{XmlP : XmlParser} `{SigI : SignatureOps} `{CryptoI : CryptoOps} `{FlateL : FlateLaws} `{WorldI : World W}.

Lemma validateLogoutResponse_accepts sp r ids s s' now :
  TimeNow s = (s', Ret now) → logout_response_ok sp ids now r → validateLogoutResponse sp r ids s = (s', Ret ()).
Proof.
  intros Ht Hok. assert (Hv : (validateLogoutResponse sp r ids s).2 = Ret ()).
  { apply validateLogoutResponse_ret. destruct s as [w l]. unfold TimeNow, Http.reads in Ht. cbn [fst].
    destruct (TimeNow_ w). by injection Ht as _ ->. }
  destruct (validateLogoutResponse sp r ids s) as [s2 o] eqn:E. simpl in Hv. subst o.
  apply validateLogoutResponse_state in E as (now' & Ht' & _). by rewrite Ht in Ht'; injection Ht' as -> _.
Qed.

(** A response in a signed query is accepted. *)
Lemma ValidateLogoutResponseRequest_redirect sp h doc el relayState method sig r certs ids s sd t se clock sf now :
  parses_as doc el → safer_ReadAll None (flate_Compress doc) = Ret doc →
  URL_RawQuery (HTTPRequest_URL h)
    = signed_query "SAMLResponse" (base64_Encode (flate_Compress doc)) relayState method sig →
  base64_Encode (flate_Compress doc) ≠ "" →
  unmarshalElement Unmarshal_LogoutResponse (root_cursor el) = Ret r →
  redirectSigningCertificates sp = Ret certs →
  TimeNow s = (sd, Ret t) → redirect_now sd = (se, Ret clock) →
  verifyRedirectSignature (URL_RawQuery (HTTPRequest_URL h)) "SAMLResponse" certs clock = Ret () →
  TimeNow se = (sf, Ret now) → logout_response_ok sp ids now r →
  ValidateLogoutResponseRequest sp h ids s = (sf, Ret ()).
Proof.
  intros [_ _ Htree Hstable] Hread Hq Hne Hr Hcerts Ht Hclock Hver Hnow Hok.
  assert (Hp : "SAMLResponse" ∈ ["SAMLRequest"; "SAMLResponse"]) by (right; left).
  set (m := signed_map "SAMLResponse" (base64_Encode (flate_Compress doc)) relayState method sig).
  assert (Hm : redirectParameters (URL_RawQuery (HTTPRequest_URL h)) = Ret m).
  { rewrite Hq. unfold redirectParameters, signed_query. rewrite signed_query_split by done. by apply signed_query_loop. }
  destruct (signed_map_lookups "SAMLResponse" (base64_Encode (flate_Compress doc)) relayState method sig Hp)
    as (Hm1 & _ & _ & Hm2). fold m in Hm1, Hm2.
  unfold ValidateLogoutResponseRequest. rewrite Hm, Hm1. cbn [from_option default id].
  rewrite bool_decide_false by (by apply QueryEscape_nonempty). cbn [negb].
  unfold ValidateLogoutResponseRedirect. rewrite Hm. cbn [map_err].
  apply io_bind_ret. exists sd, t. split; [exact Ht|].
  apply io_lift_bind. exists m. split; [done|]. rewrite Hm2, (bool_decide_true (is_Some (Some _))) by done.
  cbn [orb]. apply io_bind_ret. exists se, (). split.
  { apply io_lift_bind. exists certs. split; [by rewrite Hcerts|].
    apply io_bind_ret. exists se, clock. split; [exact Hclock|]. apply lift_ret. by rewrite Hver. }
  rewrite Hm1. cbn [from_option default id]. rewrite QueryUnescape_escape. cbn [map_err].
  apply io_lift_bind. eexists. split; [done|]. rewrite base64_Decode_Encode. cbn [map_err].
  apply io_lift_bind. eexists. split; [done|]. rewrite Hread. cbn [map_err].
  apply io_lift_bind. eexists. split; [done|].
  apply io_bind_ret. exists se, (). split; [apply lift_ret; split; [done|exact Hstable]|].
  unfold validateLogoutDocument. rewrite Htree. cbn [map_err].
  apply io_lift_bind. eexists. split; [done|]. apply io_lift_bind. eexists. split; [done|].
  apply io_bind_ret. exists se, (root_cursor el). split; [done|]. rewrite Hr. cbn [map_err].
  apply io_lift_bind. exists r. split; [done|]. by apply validateLogoutResponse_accepts with now.
Qed.
End responses.

(** ** The conversation *)

(** What [compress/flate] and [io] promise of data that is read without a limit: the buffers
    of [io.ReadAll] start at 512 bytes and grow with what they hold, so for a message as short
    as these they stay far below the limit of [saferFlateReader]. *)
Class FlateWhole `{FlateI : FlateOps} : Prop := {
  flate_whole s : Z.of_nat (String.length s) <= maxAuthnRequestSize → ∃ reads,
    flate_reads None (flate_Compress s) = (reads, None) ∧ bytes_of reads = s ∧ within flateUncompressLimit reads;
  flate_some_bytes s : s ≠ "" → flate_Compress s ≠ ""
}.

Lemma safer_ReadAll_whole `{FlateN : FlateWhole} s : Z.of_nat (String.length s) <= maxAuthnRequestSize →
  safer_ReadAll None (flate_Compress s) = Ret s.
Proof.
  intros (reads & Hr & <- & Hw)%flate_whole. unfold safer_ReadAll. rewrite Hr.
  by apply (saferFlateReader_within flateUncompressLimit).
Qed.

Lemma base64_Encode_nonempty s : s ≠ "" → base64_Encode s ≠ "".
Proof. intros Hs He. pose proof (base64_Decode_Encode s) as Hd. rewrite He in Hd. by injection Hd. Qed.

Section conversation.
Context {W : Type} `{UrlI : UrlOps} `{VarsI : PackageVars} `{X509I : X509Ops} `{EtreeI : EtreeOps} `{EtreeB : !EtreeBuild} `{EtreeF : !EtreeFind}.
Context `{XmlP : XmlParser} `{SigI : SignatureOps} `{CryptoI : CryptoOps} `{FlateL : FlateLaws} `{FlateN : !FlateWhole}.
Context `{WorldI : World W} `{TmplI : TemplateOps}.

Implicit Types sp : ServiceProvider.

(** A document that was sent: it is what both parsers read as the element, not empty and no
    longer than the limit. *)
Record sent_document (doc : string) (el : Element) : Prop := {
  sent_parses : parses_as doc el;
  sent_some : doc ≠ "";
  sent_size : Z.of_nat (String.length doc) <= maxAuthnRequestSize
}.

Lemma reads_back_of doc el : parses_as doc el → reads_back el.
Proof.
  intros [Hw Hx He _]. split; [intros d Hd; rewrite Hw in Hd; by injection Hd as <-..|by exists doc].
Qed.

(** The browser follows the redirect. *)
Definition follows (h : HTTPRequest) (u : URL) : Prop :=
  HTTPRequest_Method h = "GET" ∧ URL_RawQuery (HTTPRequest_URL h) = URL_RawQuery u.

(** The request of the service provider, as it is written into a redirect. *)
Definition sent_request (r : LogoutRequest) : LogoutRequest := set_LogoutRequest_Signature None r.

(** The logout request arrives. *)
Lemma logout_request_accepted (idp : IdentityProvider W) sp nameID relayState s s' r u doc ctx h t
    s1 now sa sb sc clock certs :
  full_reads → MakeLogoutRequest sp (URL_String (IDP_LogoutURL idp)) nameID s = (s', Ret r) →
  sp_audience sp ≠ "" → nameID ≠ "" → HTTPRedirectBinding ∈ SP_LogoutBindings sp →
  four_digit_year (LogoutRequest_IssueInstant r) →
  sent_document doc (LogoutRequest_Element (sent_request r)) →
  redirect_of (LogoutRequest_Destination r) "SAMLRequest" (LogoutRequest_Element (sent_request r)) relayState ctx u →
  follows h u → TimeNow s1 = (sa, Ret now) →
  LogoutRequest_IssueInstant r - MaxClockSkew <= now <= LogoutRequest_IssueInstant r + MaxIssueDelay - Millisecond →
  effect (IDP_ServiceProviderProvider idp h (sp_audience sp)) sa = (sb, Ret (Some (sp_metadata_at sp t))) →
  serviceProviderSigningCertificates (sp_metadata_at sp t) = Ret certs →
  redirect_now sb = (sc, Ret clock) → signer_trusted ctx certs clock →
  let received := empty_logout_request h relayState doc (URL_RawQuery (HTTPRequest_URL h)) HTTPRedirectBinding now in
  let slo := URL_String (SP_SloURL sp) in
  NewIdpLogoutRequest h s1 = (sa, Ret received) ∧
  logout_Validate idp received sa = (sc, Ret
    (set_SLOEndpoint (mkEndpoint HTTPRedirectBinding slo slo)
      (set_Logout_Metadata (Some (sp_metadata_at sp t))
        (set_Logout_Request (LogoutRequest_read (sent_request r)) received)))).
Proof.
  intros Hrand Hmake Hentity Hname Hbind Hyear [Hdoc _ Hsize] Hu [Hget Hq] Ht Hnow Hsp Hcerts Hclock Htrust received slo.
  apply MakeLogoutRequest_ret in Hmake as ((s4 & s5 & Hid) & Hv & Hd & Hexp & Hi & n & Hn & Hnv).
  destruct (redirect_query _ _ _ _ _ _ _ Hu (parses_written _ _ Hdoc)) as (method & sig & Hquery).
  assert (F : LogoutRequest_IssueInstant (sent_request r) = LogoutRequest_IssueInstant r ∧
    LogoutRequest_ID (sent_request r) = LogoutRequest_ID r ∧ LogoutRequest_Version (sent_request r) = "2.0" ∧
    LogoutRequest_Destination (sent_request r) = LogoutRequest_Destination r ∧
    LogoutRequest_NotOnOrAfter (sent_request r) = None ∧ LogoutRequest_Issuer (sent_request r) = Some (sp_issuer sp) ∧
    LogoutRequest_NameID (sent_request r) = Some n ∧ LogoutRequest_Signature (sent_request r) = None) by (by destruct r).
  destruct F as (F1 & F2 & F3 & F4 & F5 & F6 & F7 & F8).
  assert (Hw : LogoutRequest_writable (sent_request r)).
  { split; [by rewrite F1|by rewrite F5|unfold signature_ok; by rewrite F8]. }
  split; [by apply (NewIdpLogoutRequest_redirect h s1 sa now doc relayState method sig); [| |rewrite Hq|]|].
  eapply (logout_Validate_redirect idp h relayState doc _ now _ _ (sp_metadata_at sp t) certs); [exact Hdoc|done| | | | |by apply LogoutRequest_unsigned
    | |exact Hcerts| |exact Hclock| |by apply (own_redirect_endpoint sp t)].
  - rewrite Hq, Hquery. unfold signed_query, message_query. destruct (relayState != ""); done.
  - eapply Unmarshal_reads; [by apply LogoutRequest_reads|apply Hdoc].
  - pose proof (Time_read_close (LogoutRequest_IssueInstant r)).
    constructor; cbn [LogoutRequest_read LogoutRequest_Destination LogoutRequest_IssueInstant LogoutRequest_NotOnOrAfter
      LogoutRequest_Version LogoutRequest_ID LogoutRequest_Issuer]; rewrite ?F1, ?F2, ?F4, ?F5, ?F6.
    + done.
    + lia.
    + done.
    + done.
    + by apply (new_id_ret s4 s5).
    + by exists (sp_issuer sp).
  - cbn [LogoutRequest_read LogoutRequest_NameID]. rewrite F7. apply no_name_id_false. exists n. by rewrite Hnv.
  - exists (sp_issuer sp). cbn [LogoutRequest_read LogoutRequest_Issuer]. by rewrite F6.
  - destruct Htrust as (m & c & _ & _ & Hc & _). intros ->. by apply elem_of_nil in Hc.
  - rewrite Hq. by apply (redirect_verifies (LogoutRequest_Destination r) "SAMLRequest"
      (LogoutRequest_Element (sent_request r)) relayState ctx); [left|..].
Qed.
(** What the identity provider makes of the request. *)
Definition accepted_request sp (t : Time) (r : LogoutRequest) (h : HTTPRequest) (relayState doc : string) (now : Time)
    : IdpLogoutRequest :=
  set_SLOEndpoint (mkEndpoint HTTPRedirectBinding (URL_String (SP_SloURL sp)) (URL_String (SP_SloURL sp)))
    (set_Logout_Metadata (Some (sp_metadata_at sp t))
      (set_Logout_Request (LogoutRequest_read (sent_request r))
        (empty_logout_request h relayState doc (URL_RawQuery (HTTPRequest_URL h)) HTTPRedirectBinding now))).

(** The response to it. *)
Lemma logout_response_made (idp : IdentityProvider W) sp t r h relayState doc now s s' resp :
  logout_MakeResponse idp (accepted_request sp t r h relayState doc now) success_status s = (s', Ret resp) →
  ∃ id, resp = mkLogoutResponse id (LogoutRequest_ID r) "2.0" now (URL_String (SP_SloURL sp)) ""
    (Some (mkIssuer "" "" entityNameIDFormat "" (URL_String (IDP_MetadataURL idp)))) None success_status.
Proof.
  unfold logout_MakeResponse. intros H. apply io_bind_ret in H as (s1 & id & _ & H).
  apply io_lift_bind in H as (e & [= <-] & H). injection H as _ <-. exists id.
  f_equal; [by destruct r|]. unfold responseLocation. cbn [Endpoint_ResponseLocation Endpoint_Location].
  by destruct (URL_String (SP_SloURL sp) != "").
Qed.

(** The events of a response by redirect. *)
Definition redirect_events (h : HTTPRequest) (u : URL) : list Event :=
  [HeaderSet "Cache-Control" "no-cache, no-store"; HeaderSet "Pragma" "no-cache";
   HttpRedirect (redirect_location h (URL_String u)) 302].

(** [ServeSLO] ends the session and redirects the browser. *)
Lemma ServeSLO_redirects (idp : IdentityProvider W) sp t r h relayState doc now s1 sa sc received terminate s3 w l resp ictx u :
  let req := accepted_request sp t r h relayState doc now in
  NewIdpLogoutRequest h s1 = (sa, Ret received) → logout_Validate idp received sa = (sc, Ret req) →
  TerminateSession (IDP_SessionProvider idp) = Some terminate → terminate h req sc = (s3, Ret ()) →
  logout_MakeResponse idp req success_status s3 = ((w, l), Ret resp) → signingContext idp = Ret ictx →
  redirect_of (URL_String (SP_SloURL sp)) "SAMLResponse" (LogoutResponse_Element resp) relayState ictx u →
  ServeSLO idp h s1 = ((w, (l ++ redirect_events h u)%list), Ret ()).
Proof.
  intros req Hnew Hval Hterm Hend Hmake Hctx [Hu _].
  destruct (logout_response_made _ _ _ _ _ _ _ _ _ _ _ Hmake) as [id Hresp].
  assert (Hdest : LogoutResponse_Destination resp = URL_String (SP_SloURL sp)) by (by rewrite Hresp).
  assert (Hstatus : terminate_session idp h req sc = (s3, Ret success_status)).
  { unfold terminate_session. rewrite Hterm. unfold on_result. by rewrite Hend. }
  assert (Hwrite : logout_WriteResponse idp req success_status s3 = ((w, (l ++ redirect_events h u)%list), Ret ())).
  { unfold logout_WriteResponse. apply io_bind_ret. exists (w, l), resp. split; [exact Hmake|].
    apply io_lift_bind. exists ictx. split; [exact Hctx|].
    apply io_bind_ret. eexists _, (). split; [reflexivity|]. apply io_lift_bind. eexists. split; [reflexivity|].
    cbn [Endpoint_Binding]. rewrite (bool_decide_true (HTTPRedirectBinding = _)) by done.
    apply io_lift_bind. exists u. split; [by rewrite Hdest|].
    unfold http_Redirect, emit, redirect_events. by rewrite <- !app_assoc. }
  unfold ServeSLO, or_http_error, on_result. rewrite Hnew, Hval.
  unfold mbind, IO_bind. by rewrite Hstatus, Hwrite.
Qed.

Lemma success_status_writable : Status_writable success_status.
Proof. split; [vm_compute; lia|by intros d ?]. Qed.

(** The service provider accepts the response. *)
Lemma logout_response_accepted (idp : IdentityProvider W) sp t r h relayState doc now s s' resp doc2 ictx u2 h2
    m certs ids s6 sd t6 se clock sf later :
  logout_MakeResponse idp (accepted_request sp t r h relayState doc now) success_status s = (s', Ret resp) →
  four_digit_year now → sent_document doc2 (LogoutResponse_Element resp) →
  redirect_of (URL_String (SP_SloURL sp)) "SAMLResponse" (LogoutResponse_Element resp) relayState ictx u2 →
  follows h2 u2 →
  SP_IDPMetadata sp = Some m → EntityDescriptor_EntityID m = URL_String (IDP_MetadataURL idp) →
  redirectSigningCertificates sp = Ret certs → LogoutRequest_ID r ∈ ids → LogoutRequest_ID r ≠ "" →
  TimeNow s6 = (sd, Ret t6) → redirect_now sd = (se, Ret clock) → signer_trusted ictx certs clock →
  TimeNow se = (sf, Ret later) → later <= now + MaxIssueDelay - Millisecond →
  ValidateLogoutResponseRequest sp h2 ids s6 = (sf, Ret ()).
Proof.
  intros Hmake Hyear [Hdoc Hsome Hsize] Hu [_ Hq] Hm Hissuer Hcerts Hids Hne Ht Hclock Htrust Hlater Htime.
  apply logout_response_made in Hmake as [id ->].
  set (resp := mkLogoutResponse _ _ _ _ _ _ _ _ _) in *.
  destruct (redirect_query _ _ _ _ _ _ _ Hu (parses_written _ _ Hdoc)) as (method & sig & Hquery).
  apply (ValidateLogoutResponseRequest_redirect sp h2 doc2 (LogoutResponse_Element resp) relayState method sig
    (LogoutResponse_read resp) certs ids s6 sd t6 se clock sf later); try done.
  - by apply safer_ReadAll_whole.
  - by rewrite Hq.
  - by apply base64_Encode_nonempty, flate_some_bytes.
  - eapply LogoutResponse_unmarshalled; [done|done|done|done| |by eapply reads_back_of].
    split; [done|done|apply success_status_writable].
  - rewrite Hq. by apply (redirect_verifies (URL_String (SP_SloURL sp)) "SAMLResponse"
      (LogoutResponse_Element resp) relayState ictx); [right; left|..].
  - pose proof (Time_read_close now).
    constructor; cbn [resp LogoutResponse_read LogoutResponse_Destination LogoutResponse_IssueInstant LogoutResponse_Issuer
      LogoutResponse_InResponseTo LogoutResponse_Status]; [done|lia| |done|done].
    by exists m, (mkIssuer "" "" entityNameIDFormat "" (URL_String (IDP_MetadataURL idp))).
Qed.

(** C34: single logout by redirects, from end to end. The redirect of a service provider that
    signs takes the browser to the identity provider with a logout request that the whole of
    [Validate] accepts, its signature included: what it goes on with is the request that was
    made, for the same principal. [ServeSLO] ends the session, and once
    [TerminateSession] has returned it redirects the browser to the logout URL of the
    service provider, with a signed response that [ValidateLogoutResponseRequest] accepts. Each
    side has a currently valid certificate of the other, for an algorithm that verifies
    what it signs, both messages come in time, a millisecond before the end of their
    validity at the latest, and the documents are read as they were written. *)
Theorem logout_conversation (idp : IdentityProvider W) sp nameID relayState s s' r u doc ctx h t
    s1 now sa sb sc clock certs terminate s3 w l resp doc2 ictx u2 h2 m certs2 ids s6 sd t6 se clock2 sf later
    (Hrand : full_reads)
    (Hmake : MakeLogoutRequest sp (URL_String (IDP_LogoutURL idp)) nameID s = (s', Ret r))
    (Hentity : sp_audience sp ≠ "") (Hname : nameID ≠ "") (Hbinding : HTTPRedirectBinding ∈ SP_LogoutBindings sp)
    (Hsigns : SP_SignatureMethod sp ≠ "" ∧ GetSigningContext sp = Ret ctx)
    (Hyear : four_digit_year (LogoutRequest_IssueInstant r) ∧ four_digit_year now)
    (Hdoc : sent_document doc (LogoutRequest_Element (sent_request r)))
    (Hredirect : LogoutRequest_Redirect r relayState (Some sp) = Ret u)
    (Hplain : ∃ rv, url_Parse (URL_String (IDP_LogoutURL idp)) = Ret rv ∧ URL_RawQuery rv = "")
    (Hfollow : follows h u)
    (Hnow : TimeNow s1 = (sa, Ret now))
    (Hintime : LogoutRequest_IssueInstant r - MaxClockSkew <= now
               <= LogoutRequest_IssueInstant r + MaxIssueDelay - Millisecond)
    (Hknown : effect (IDP_ServiceProviderProvider idp h (sp_audience sp)) sa = (sb, Ret (Some (sp_metadata_at sp t))))
    (Hcerts : serviceProviderSigningCertificates (sp_metadata_at sp t) = Ret certs)
    (Hclock : redirect_now sb = (sc, Ret clock)) (Htrust : signer_trusted ctx certs clock)
    (Hterminate : TerminateSession (IDP_SessionProvider idp) = Some terminate)
    (Hend : terminate h (accepted_request sp t r h relayState doc now) sc = (s3, Ret ()))
    (Hanswer : logout_MakeResponse idp (accepted_request sp t r h relayState doc now) success_status s3
               = ((w, l), Ret resp))
    (Hictx : signingContext idp = Ret ictx)
    (Hdoc2 : sent_document doc2 (LogoutResponse_Element resp))
    (Hredirect2 : redirect_of (URL_String (SP_SloURL sp)) "SAMLResponse" (LogoutResponse_Element resp) relayState ictx u2)
    (Hfollow2 : follows h2 u2)
    (Hidp : SP_IDPMetadata sp = Some m ∧ EntityDescriptor_EntityID m = URL_String (IDP_MetadataURL idp))
    (Hcerts2 : redirectSigningCertificates sp = Ret certs2) (Hids : LogoutRequest_ID r ∈ ids)
    (Hnow2 : TimeNow s6 = (sd, Ret t6)) (Hclock2 : redirect_now sd = (se, Ret clock2))
    (Htrust2 : signer_trusted ictx certs2 clock2)
    (Hlater : TimeNow se = (sf, Ret later)) (Hintime2 : later <= now + MaxIssueDelay - Millisecond) :
  (NewIdpLogoutRequest h ≫= logout_Validate idp) s1 = (sc, Ret (accepted_request sp t r h relayState doc now)) ∧
  (NameID_Value <$> LogoutRequest_NameID (Logout_Request (accepted_request sp t r h relayState doc now))) = Some nameID ∧
  ServeSLO idp h s1 = ((w, (l ++ redirect_events h u2)%list), Ret ()) ∧
  ValidateLogoutResponseRequest sp h2 ids s6 = (sf, Ret ()).
Proof.
  pose proof (MakeLogoutRequest_ret _ _ _ _ _ _ Hmake) as ((s4 & s5 & Hid) & _ & Hd & _ & _ & n & Hn & Hnv).
  apply (new_id_ret s4 s5 _ Hrand) in Hid.
  assert (Hu : redirect_of (LogoutRequest_Destination r) "SAMLRequest" (LogoutRequest_Element (sent_request r)) relayState ctx u).
  { split; [|by rewrite Hd]. unfold LogoutRequest_Redirect, redirectURL in Hredirect. destruct Hsigns as [Hne Hctx].
    rewrite (bool_decide_false (SP_SignatureMethod sp = "")) in Hredirect by done. cbn [negb] in Hredirect.
    by rewrite Hctx, !ret_bind in Hredirect. }
  destruct (logout_request_accepted idp sp nameID relayState s s' r u doc ctx h t s1 now sa sb sc clock certs) as [Hnew Hval];
    try done; [apply Hyear|].
  split_and!.
  - apply io_bind_ret. eexists sa, _. split; [exact Hnew|exact Hval].
  - replace (LogoutRequest_NameID _) with (LogoutRequest_NameID r) by (by destruct r). rewrite Hn. simpl. by rewrite Hnv.
  - by apply (ServeSLO_redirects idp sp t r h relayState doc now s1 sa sc _ terminate s3 w l resp ictx u2 Hnew Hval).
  - destruct Hyear as [_ Hyear], Hidp as [Hm Hissuer].
    eapply (logout_response_accepted idp sp t r h relayState doc now s3 (w, l) resp doc2 ictx u2 h2 m certs2 ids); try done.
    by destruct Hid.
Qed.
End conversation.

(** ** Witness *)

#[export] Instance ref_flate_whole : FlateWhole.
Proof.
  split; [|done]. intros s Hs. exists [(512, s)]. split_and!; [done|apply append_nil_r|]. by split.
Qed.

Module Examples.

#[local] Existing Instance default_vars.
#[local] Existing Instance dsig_signature | 0.

(** A service provider that signs and offers logout by redirect. *)
Definition sp : ServiceProvider :=
  mkServiceProvider "sp" (Some (mkSigner (RSAPublicKey "spcert")))
    (Some (mkCertificate "spcert" (RSAPublicKey "spcert") 0 (10 ^ 20))) [] None
    (url_of "spmetadata") (url_of "acs") (url_of "spslo") (Some ResponseAccepted.Examples.idp_metadata)
    None None None "" 0 None None false "" None RSASHA256SignatureMethod [HTTPPostBinding; HTTPRedirectBinding] None None.

Definition knows_sp : IdentityProvider Time :=
  mkIdentityProvider Time (Some (mkSigner (RSAPublicKey "cert"))) None (Some ResponseAccepted.Examples.cert) [] 0
    (url_of "metadata") (url_of "sso") (url_of "login") (url_of "slo")
    (λ _ id t, (t, if id == "sp" then Ret (Some (sp_metadata_at sp 900)) else Err os_ErrNotExist))
    (mkSessionProvider Time (λ _ _ s, (s, Some (Some IdpSpec.Examples.session))) None None (Some (λ _ _, mret ())))
    None "" None None false None None None.

Definition value {A} (d : A) (o : outcome A) : A := match o with Ret a => a | _ => d end.

Definition request : LogoutRequest :=
  value zero_LogoutRequest (MakeLogoutRequest sp "https:slo" "alice" (1000, [])).2.

Definition context : SigningContext := value SignValidate.Examples.ctx (GetSigningContext sp).
Definition idp_context : SigningContext := value SignValidate.Examples.ctx (signingContext knows_sp).

Definition url : URL := value (url_of "") (LogoutRequest_Redirect request "state" (Some sp)).

Definition browser (u : URL) : HTTPRequest := mkHTTPRequest "GET" u (Ret "") None "192.0.2.1:4711" [] [] [] false.

Definition document (el : Element) : string := write_element el.

Definition accepted : IdpLogoutRequest :=
  accepted_request sp 900 request (browser url) "state" (document (LogoutRequest_Element (sent_request request))) 1100.

Definition response : LogoutResponse :=
  value zero_LogoutResponse (logout_MakeResponse knows_sp accepted success_status (1100, [])).2.

Definition answer_url : URL :=
  value (url_of "") (redirectURLWithContext "https:spslo" "SAMLResponse" (LogoutResponse_Element response) "state"
    (Some idp_context)).

Lemma document_sent el : write_element el ≠ "" → Z.of_nat (String.length (write_element el)) <= maxAuthnRequestSize →
  sent_document (document el) el.
Proof. intros Hne Hsize. split; [|done..]. split; [done|..]; simpl; by rewrite ?read_document_write. Qed.

Lemma logout_conversation_witness :
  (NewIdpLogoutRequest (browser url) ≫= logout_Validate knows_sp) (1100, []) = ((1100, []), Ret accepted) ∧
  (NameID_Value <$> LogoutRequest_NameID (Logout_Request accepted)) = Some "alice" ∧
  ServeSLO knows_sp (browser url) (1100, [])
    = ((1100, ([] ++ redirect_events (browser url) answer_url)%list), Ret ()) ∧
  ValidateLogoutResponseRequest sp (browser answer_url) [LogoutRequest_ID request] (1200, []) = ((1200, []), Ret ()).
Proof.
  eapply (logout_conversation knows_sp sp "alice" "state" (1000, []) (1000, []) request url _ context (browser url) 900
    (1100, []) 1100 (1100, []) (1100, []) (1100, []) 1100 _ _ (1100, []) 1100 [] response _ idp_context
    answer_url (browser answer_url) _ _ _ (1200, []) (1200, []) 1200 (1200, []) 1200 (1200, []) 1200).
  - exact SPMessagesSpec.Examples.ref_full_reads.
  - vm_compute. reflexivity.
  - vm_compute. discriminate.
  - discriminate.
  - vm_compute. right; left.
  - split; [vm_compute; discriminate|vm_compute; reflexivity].
  - split; split; vm_compute; [discriminate|reflexivity|discriminate|reflexivity].
  - apply document_sent; vm_compute; discriminate.
  - vm_compute. reflexivity.
  - eexists. split; vm_compute; reflexivity.
  - split; reflexivity.
  - reflexivity.
  - split; vm_compute; discriminate.
  - vm_compute. reflexivity.
  - vm_compute. reflexivity.
  - reflexivity.
  - eexists _, (mkCertificate "spcert" (RSAPublicKey "spcert") 0 (10 ^ 20)).
    split_and!; [vm_compute; reflexivity|discriminate|left|reflexivity|].
    intros d sig [= <-]. unfold verifyDigest. simpl. apply bool_decide_eq_true. reflexivity.
  - reflexivity.
  - reflexivity.
  - vm_compute. reflexivity.
  - vm_compute. reflexivity.
  - apply document_sent; vm_compute; discriminate.
  - split; [vm_compute; reflexivity|]. eexists. split; vm_compute; reflexivity.
  - split; reflexivity.
  - split; reflexivity.
  - vm_compute. reflexivity.
  - vm_compute. left.
  - reflexivity.
  - reflexivity.
  - eexists _, ResponseAccepted.Examples.cert.
    split_and!; [vm_compute; reflexivity|discriminate|left|reflexivity|].
    intros d sig [= <-]. unfold verifyDigest. simpl. apply bool_decide_eq_true. reflexivity.
  - reflexivity.
  - vm_compute. discriminate.
Defined.
End Examples.
