(* ===== verification/MiddlewareSpec.v ===== *)
(** * MiddlewareSpec: what the middleware of [src/samlsp] guarantees

    Theorems about the middleware that [New] makes: where it redirects, for which
    assertions it starts a session, that what it protects is served with a valid
    session only, and that a login succeeds. *)

From stdpp Require Import base option list gmap strings.
From Stdlib Require Import ZArith Lia Ascii.
From S2P Require Import Prelude Go Duration Encoding Etree Schema Env Http Store XmlTree ServiceProvider.
From S2P Require Import ServiceProviderSpec DSig Redirect SPMessages SPMessagesSpec Jwt JwtSpec Middleware MiddlewareDefaults.

Open Scope string_scope.

(** ** Events of a computation *)

(** Every event that the computation adds meets [P]. *)
Definition only_events {W A} (P : Event → Prop) (m : IO W A) : Prop := writes m (λ new _, Forall P new).

Section only_events.
Context {W : Type} (P : Event → Prop).

Lemma quiet_only {A} (m : IO W A) : quiet m → only_events P m.
Proof. intros H. eapply writes_weaken; [exact H|]. by intros new o ->. Qed.

Lemma only_emit e : P e → only_events (W := W) P (emit e).
Proof. intros He. apply writes_emit. by constructor. Qed.

Lemma only_on_result {A B} (m : IO W A) (k : A → IO W B) h :
  only_events P m → (∀ a s s', m s = (s', Ret a) → only_events P (k a)) → (∀ e, only_events P (h e)) →
  only_events P (on_result m k h).
Proof.
  intros Hm Hk Hh. eapply writes_on_result; [apply writes_run, Hm|..].
  - intros new a [Hn (s & s' & E)]. eapply writes_weaken; [by eapply Hk|]. intros new' o. by apply Forall_app_2.
  - intros new e [Hn _]. eapply writes_weaken; [apply Hh|]. intros new' o. by apply Forall_app_2.
  - by intros new [? _].
Qed.

Lemma only_bind {A B} (m : IO W A) (k : A → IO W B) :
  only_events P m → (∀ a s s', m s = (s', Ret a) → only_events P (k a)) → only_events P (m ≫= k).
Proof.
  intros Hm Hk. eapply writes_bind; [apply writes_run, Hm|..].
  - intros new a [Hn (s & s' & E)]. eapply writes_weaken; [by eapply Hk|]. intros new' o. by apply Forall_app_2.
  - by intros new e [? _].
  - by intros new [? _].
Qed.

Lemma only_deferred {A} (d : IO W ()) (m : IO W A) : only_events P m → only_events P d → only_events P (deferred d m).
Proof.
  intros Hm Hd s. unfold deferred. destruct (Hm s) as (new & Hn & HP). destruct (m s) as [s1 o]. simpl in *.
  destruct (Hd s1) as (new' & Hn' & HP'). destruct (d s1) as [s2 o']. simpl in *. exists (new ++ new')%list.
  rewrite app_assoc, <- Hn, <- Hn'. destruct o'; (split; [done|by apply Forall_app_2]).
Qed.
End only_events.

(** Splits a computation and proves that its parts add nothing. *)
Ltac solve_only :=
  repeat first
    [ assumption
    | match goal with |- ∀ _, _ => intro end
    | apply quiet_only; solve [solve_quiet]
    | apply only_emit; done
    | apply only_on_result | apply only_bind | apply only_deferred
    | match goal with
      | |- only_events _ (if ?b then _ else _) => destruct b
      | |- only_events _ (match ?x with _ => _ end) => destruct x
      end ].

(** ** The parts of the middleware *)

Section middleware.
Context {W : Type}.
Context `{UrlI : UrlOps} `{ResolveI : ResolveOps} `{VarsI : PackageVars} `{EtreeI : EtreeOps} `{X509I : X509Ops} `{XmlI : XmlOps}.
Context `{SigI : SignatureOps} `{EncI : XmlEncOps} `{CryptoI : CryptoOps} `{FlateI : FlateOps} `{FormI : PostFormOps}.
Context `{MetadataI : MetadataXml} `{WorldI : World W} `{HttpI : HttpOps W} `{NetI : NetOps} `{FoldI : FoldOps}.
Context `{JwtI : JwtOps} `{TextI : TextOps}.

Implicit Types (m : Middleware W JWTSessionClaims) (opts : MiddlewareOptions W).

(** The fields that [New] sets. *)
Lemma New_ret opts m : middleware_New opts = Ret m →
  M_OnError m = DefaultOnError ∧ M_Binding m = "" ∧
  M_RequestTracker m = cookie_tracker (DefaultRequestTracker opts (M_ServiceProvider m)) ∧
  M_Session m = cookie_provider (DefaultSessionProvider opts) ∧ M_AssertionHandler m = NopAssertionHandler.
Proof. unfold middleware_New. intros (sp & _ & [= <-])%bind_ret. done. Qed.

(** *** What adds no events *)

Lemma quiet_verifyJWT {A} signed alg key audience issuer (read : list (string * json) → outcome A) claims_of :
  quiet (W := W) (verifyJWT signed alg key audience issuer read claims_of).
Proof. unfold verifyJWT, TimeNow. solve_quiet. Qed.

Lemma quiet_SessionDecode c signed : quiet (W := W) (JWTSessionCodec_Decode c signed).
Proof. unfold JWTSessionCodec_Decode. apply quiet_bind; [apply quiet_verifyJWT|solve_quiet]. Qed.

Lemma quiet_TrackedDecode c signed : quiet (W := W) (JWTTrackedRequestCodec_Decode c signed).
Proof. unfold JWTTrackedRequestCodec_Decode. apply quiet_bind; [apply quiet_verifyJWT|solve_quiet]. Qed.

Lemma quiet_tracked_requests opts sp cookies : quiet (W := W) (tracked_requests (DefaultRequestTracker opts sp) cookies).
Proof.
  induction cookies as [|[name value] cookies IH]; cbn [tracked_requests]; [solve_quiet|].
  destruct (cut_prefix _ name) as [index|]; [|done].
  apply quiet_on_result; [apply quiet_TrackedDecode|intros request|done].
  destruct (_ != _); [done|]. apply quiet_bind; [done|]. intros. solve_quiet.
Qed.

Lemma quiet_GetTrackedRequest opts sp r index :
  quiet (W := W) (cookie_GetTrackedRequest (DefaultRequestTracker opts sp) r index).
Proof.
  unfold cookie_GetTrackedRequest. apply quiet_bind; [solve_quiet|intros value].
  apply quiet_bind; [apply quiet_TrackedDecode|]. intros. solve_quiet.
Qed.

(** The log of a failure is all that parsing a response adds. *)
Lemma only_ParseResponse P sp Form PostForm url ids :
  (∀ format args err, P (LogPrintf format args err)) →
  only_events (W := W) P (ParseResponse sp Form PostForm url ids).
Proof.
  intros HP. unfold ParseResponse. destruct (_ != _); [|apply quiet_only; solve_quiet].
  unfold handleArtifactRequest, map_io_err, MakeArtifactResolveRequest, new_id, randomBytes, TimeNow.
  solve_only; unfold close_body, artifact_body, map_io_err, log; solve_only.
Qed.

Lemma only_DefaultOnError P r err :
  (∀ format args err, P (LogPrintf format args err)) → P (HttpError 403) →
  only_events (W := W) P (DefaultOnError r err).
Proof.
  intros HP H403. unfold DefaultOnError, log, http_error. apply only_bind; [|intros; by apply only_emit].
  destruct err as [[]|]; by apply only_emit.
Qed.

(** ** Tracked requests *)

(** A cookie of the request tracks an authentication request: the token in its value,
    verified with the key of the service provider and current when the clock was
    read, names it and the index in the name of the cookie. *)
Definition tracked_by_cookie (c : JWTCodec) (r : HTTPRequest) (request : TrackedRequest) : Prop :=
  ∃ value fields claims v v' now,
    ("saml_" +++ TrackedRequest_Index request, value) ∈ HTTPRequest_Cookies r ∧
    verified_payload c value fields ∧ tracked_claims_of fields = Ret claims ∧
    TrackedRequestClaims_SAMLAuthnRequest claims = true ∧
    TimeNow_ (W := W) v = (v', now) ∧ current_claims c (TrackedRequestClaims_Claims claims) now ∧
    request = mkTrackedRequest (Claims_Subject (TrackedRequestClaims_Claims claims))
      (TrackedRequest_SAMLRequestID (TrackedRequestClaims_TrackedRequest claims))
      (TrackedRequest_URI (TrackedRequestClaims_TrackedRequest claims)).

(** ** Redirects *)

(** A URL with the scheme and the host of the assertion consumer service. *)
Definition same_site m (url : string) : Prop :=
  ∃ u, url_Parse url = Ret u ∧ URL_User u = "" ∧
    EqualFold (URL_Scheme u) (URL_Scheme (SP_AcsURL (M_ServiceProvider m))) = true ∧
    EqualFold (URL_Host u) (URL_Host (SP_AcsURL (M_ServiceProvider m))) = true.

(** A path of the service provider, which a browser does not take for a host, or such a URL. *)
Definition local_redirect m (url : string) : Prop := has_control url = false ∧ (local_path url ∨ same_site m url).

(** A Location that leads a browser to such a path or URL. *)
Definition local_location m (location : string) : Prop :=
  local_path location ∨ ∃ url, same_site m url ∧ location = hexEscapeNonASCII url.

(** The assertion consumer service has an absolute URL. *)
Definition absolute_acs m : Prop :=
  EqualFold "" (URL_Scheme (SP_AcsURL (M_ServiceProvider m))) && EqualFold "" (URL_Host (SP_AcsURL (M_ServiceProvider m))) = false.

Lemma local_redirect_location m r url : absolute_acs m → has_byte "\" url = false → local_redirect m url →
  local_location m (redirect_location r url).
Proof.
  intros Hacs Hb [_ [Hp|Hs]].
  - left. unfold redirect_location.
    assert (Ht : local_path (match url_Parse url with
      | Ret u => if (URL_Scheme u == "") && (URL_Host u == "") then clean_target (URL_Path (HTTPRequest_URL r)) url else url
      | _ => url end)).
    { destruct (url_Parse url) as [u| |]; [|done..]. destruct (_ && _); [|done]. apply clean_target_local; [|done].
      destruct Hp as (rest & -> & _). apply has_prefix_spec. by exists rest. }
    destruct Ht as (rest & -> & Hrest). exists (hexEscapeNonASCII rest). split; [done|by apply no_host_hexEscape].
  - right. exists url. split; [done|]. destruct Hs as (u & Hu & _ & H1 & H2). unfold redirect_location. rewrite Hu.
    destruct (_ && _) eqn:E; [|done]. apply andb_true_iff in E as [E1%bool_decide_eq_true E2%bool_decide_eq_true].
    rewrite E1 in H1. rewrite E2 in H2. unfold absolute_acs in Hacs. by rewrite H1, H2 in Hacs.
Qed.

Lemma isLocalRedirect_local m url : isLocalRedirect m url = true → local_redirect m url.
Proof.
  unfold isLocalRedirect, local_redirect. destruct (has_control url); [done|]. intros H. split; [done|].
  destruct (has_prefix url "/") eqn:Hp.
  - left. apply has_prefix_spec in Hp as [rest ->].
    apply andb_true_iff in H as [H1%negb_true_iff H2%negb_true_iff]. by exists rest.
  - right. destruct (url_Parse url) as [u| |] eqn:Hu; [|done..]. exists u.
    rewrite !andb_true_iff, bool_decide_eq_true in H. destruct H as [[? ?] ?]. done.
Qed.

(** ** The assertion consumer service *)

Section laws.
Context `{JwtL : !JwtLaws}.

Lemma TrackedDecode_tracked opts name value index request st st' r :
  (name, value) ∈ HTTPRequest_Cookies r → name = "saml_" +++ index → TrackedRequest_Index request = index →
  JWTTrackedRequestCodec_Decode (W := W) (DefaultTrackedRequestCodec opts) value st = (st', Ret request) →
  tracked_by_cookie (DefaultTrackedRequestCodec opts) r request.
Proof.
  intros Hin -> Hi (fields & claims & Hv & Hf & Hc & Hm & Hr)%TrackedDecode_ret.
  exists value, fields, claims, st.1, (TimeNow_ st.1).1, (TimeNow_ st.1).2. rewrite Hi.
  split_and!; try done. by destruct (TimeNow_ st.1).
Qed.

Lemma tracked_requests_tracked opts sp r cookies st st' requests :
  cookies ⊆ HTTPRequest_Cookies r →
  tracked_requests (DefaultRequestTracker opts sp) cookies st = (st', Ret requests) →
  ∀ request, request ∈ requests → tracked_by_cookie (DefaultTrackedRequestCodec opts) r request.
Proof.
  revert st st' requests. induction cookies as [|[name value] cookies IH]; intros st st' requests Hsub; cbn [tracked_requests].
  { intros [= _ <-] request ?%elem_of_nil. done. }
  assert (Hsub' : cookies ⊆ HTTPRequest_Cookies r) by set_solver.
  destruct (cut_prefix _ name) as [index|] eqn:Hcut; [|by apply IH].
  apply cut_prefix_Some in Hcut. simpl in Hcut.
  intros [(s1 & request & Hd & H)|(s1 & e & _ & H)]%on_result_ret; [|by eapply IH].
  case_bool_decide as Hi; cbn [negb] in H; [|by eapply IH].
  apply io_bind_ret in H as (s2 & rest & Hrest & [= _ <-]). intros request' [->|Hin]%elem_of_cons; [|exact (IH _ _ _ Hsub' Hrest _ Hin)].
  apply (TrackedDecode_tracked opts name value index request st s1 r); [set_solver|done..].
Qed.
(** The value of the cookie is the token of a session that was made of an accepted
    assertion, one that answers a request which a cookie of the browser tracks, or
    that was not requested, if the service provider allows this. *)
Definition session_started opts m r (value : string) : Prop :=
  ∃ assertion claims ids now clock s0 s1,
    ServiceProviderSpec.accepted (M_ServiceProvider m) ids now clock assertion ∧
    (∀ id, id ∈ ids → id = "" ∧ SP_AllowIDPInitiated (M_ServiceProvider m) = true ∨
      ∃ request, TrackedRequest_SAMLRequestID request = id ∧
        tracked_by_cookie (DefaultTrackedRequestCodec opts) r request) ∧
    JWTSessionCodec_New (W := W) (DefaultSessionCodec opts) assertion s0 = (s1, Ret claims) ∧
    JWTSessionCodec_Encode (DefaultSessionCodec opts) claims = Ret value.

(** What [ServeHTTP] may do. *)
Definition acs_event opts m r (e : Event) : Prop :=
  match e with
  | SetCookie k => Cookie_Value k = "" ∨
      Cookie_Name k = Provider_Name (DefaultSessionProvider opts) ∧ session_started opts m r (Cookie_Value k)
  | HttpRedirect location code => code = 302 ∧ ∃ uri, location = redirect_location r uri ∧
      (uri = SP_DefaultRedirectURI (M_ServiceProvider m) ∨ local_redirect m uri)
  | _ => True
  end.

Section acs.
Context opts m (r : HTTPRequest) (Hm : middleware_New opts = Ret m).

Lemma only_OnError err : only_events (acs_event opts m r) (M_OnError m r err).
Proof. destruct (New_ret _ _ Hm) as (-> & _). by apply only_DefaultOnError. Qed.

Lemma only_finish assertion url ids now clock :
  ServiceProviderSpec.accepted (M_ServiceProvider m) ids now clock assertion →
  (∀ id, id ∈ ids → id = "" ∧ SP_AllowIDPInitiated (M_ServiceProvider m) = true ∨
    ∃ request, TrackedRequest_SAMLRequestID request = id ∧
      tracked_by_cookie (DefaultTrackedRequestCodec opts) r request) →
  url = SP_DefaultRedirectURI (M_ServiceProvider m) ∨ local_redirect m url →
  only_events (acs_event opts m r) (finish_session m r assertion url).
Proof.
  intros Ha Hids Hurl. unfold finish_session, or_OnError. destruct (New_ret _ _ Hm) as (_ & _ & _ & -> & _).
  simpl. unfold cookie_CreateSession. apply only_on_result; [|intros; apply only_emit; split; [done|by exists url]|intros; apply only_OnError].
  simpl. apply only_bind; [apply quiet_only; unfold JWTSessionCodec_New, TimeNow; solve_quiet|intros claims s0 s1 Hnew].
  apply only_bind; [apply quiet_only, quiet_lift|intros value s2 s3 [_ Henc]%lift_ret].
  apply only_emit. right. split; [done|]. by exists assertion, claims, ids, now, clock, s0, s1.
Qed.

Lemma only_CreateSession assertion ids now clock :
  ServiceProviderSpec.accepted (M_ServiceProvider m) ids now clock assertion →
  (∀ id, id ∈ ids → id = "" ∧ SP_AllowIDPInitiated (M_ServiceProvider m) = true ∨
    ∃ request, TrackedRequest_SAMLRequestID request = id ∧
      tracked_by_cookie (DefaultTrackedRequestCodec opts) r request) →
  only_events (acs_event opts m r)
    (CreateSessionFromAssertion m r assertion (SP_DefaultRedirectURI (M_ServiceProvider m))).
Proof.
  intros Ha Hids. unfold CreateSessionFromAssertion, or_OnError.
  assert (Hurl : ∀ url, (if isLocalRedirect m url then url else SP_DefaultRedirectURI (M_ServiceProvider m))
      = SP_DefaultRedirectURI (M_ServiceProvider m) ∨
    local_redirect m (if isLocalRedirect m url then url else SP_DefaultRedirectURI (M_ServiceProvider m))).
  { intros url. destruct (isLocalRedirect m url) eqn:E; [right; by apply isLocalRedirect_local|by left]. }
  destruct (relayState r != ""); [|by eapply only_finish; eauto].
  destruct (New_ret _ _ Hm) as (_ & _ & Ht & _). rewrite Ht. apply only_on_result.
  - apply quiet_only, quiet_GetTrackedRequest.
  - intros request _ _ _. apply only_on_result; [|intros; by eapply only_finish|intros; apply only_OnError].
    simpl. unfold cookie_StopTrackingRequest. apply only_bind; [apply quiet_only, quiet_lift|intros; apply only_emit].
    by left.
  - intros e. destruct (_ && _); [by eapply only_finish|apply only_OnError].
Qed.

Lemma only_ServeACS : only_events (acs_event opts m r) (ServeACS m r).
Proof.
  unfold ServeACS, or_OnError. destruct (New_ret _ _ Hm) as (_ & _ & Ht & _ & Hh). rewrite Ht, Hh.
  apply only_on_result; [apply quiet_only, quiet_lift|intros _ _ _ _|intros; apply only_OnError].
  apply only_bind; [apply quiet_only, quiet_tracked_requests|intros requests s0 s1 Hreq].
  apply only_on_result; [by apply only_ParseResponse|intros assertion s2 s3 Ha|intros; apply only_OnError].
  apply only_on_result; [apply quiet_only, quiet_ret|intros _ _ _ _|intros; apply only_OnError].
  apply ParseResponse_accepted in Ha as (now & clock & Ha). eapply only_CreateSession; [exact Ha|].
  intros id. unfold possible_request_ids. rewrite elem_of_app, list_elem_of_fmap. intros [Hid|(request & -> & Hin)].
  - left. destruct (SP_AllowIDPInitiated _); [|by apply elem_of_nil in Hid]. apply list_elem_of_singleton in Hid. done.
  - right. exists request. split; [done|]. eapply (tracked_requests_tracked opts); [|exact Hreq|exact Hin]. done.
Qed.

Lemma only_ServeHTTP : only_events (acs_event opts m r) (ServeHTTP m r).
Proof.
  unfold ServeHTTP. destruct (_ == _); [|destruct (_ == _); [apply only_ServeACS|by apply only_emit]].
  unfold middleware_ServeMetadata, sp_Metadata, TimeNow, or_error_500, w_Write. solve_only.
Qed.
End acs.

Lemma ServeHTTP_event opts m r w e : middleware_New opts = Ret m → e ∈ (ServeHTTP m r (w, [])).1.2 → acs_event opts m r e.
Proof.
  intros Hm He. destruct (only_ServeHTTP opts m r Hm (w, [])) as (new & Hn & HP). rewrite Hn in He.
  by eapply Forall_forall in HP.
Qed.

(** C2: safety. The middleware starts a session only for an accepted assertion, which a
    trusted signature covers and whose bearer confirmation answers a request that
    the browser itself was sent with, as one of its unexpired signed cookies tells,
    or, if the service provider allows it, no request: nobody can be logged in by
    a response that was made for another browser. *)
Theorem ACS_session_sound opts m r w k (Hm : middleware_New opts = Ret m)
    (Hcookie : SetCookie k ∈ (ServeHTTP m r (w, [])).1.2) (Hvalue : Cookie_Value k ≠ "") :
  session_started opts m r (Cookie_Value k).
Proof. by apply (ServeHTTP_event opts) in Hcookie as [?|[_ ?]]. Qed.

(** C16: safety. Wherever the RelayState or the tracked request point to, the Location of a
    redirect of the middleware is that which [http.Redirect] makes, in its own cleaning of
    paths, of the configured URI or of a URI that passed the check: a path, or a URL with the
    scheme and the host of the assertion consumer service.  If this URI has no backslash then
    the Location itself is such a path or URL, so the browser stays on the site; a
    path with a backslash may be cleaned to one that browsers take for a host, as
    [/x/../\evil.com] is to [/\evil.com]. *)
Theorem ServeHTTP_redirects_locally opts m r w location code (Hm : middleware_New opts = Ret m) (Hacs : absolute_acs m)
    (Hredirect : HttpRedirect location code ∈ (ServeHTTP m r (w, [])).1.2) :
  code = 302 ∧ ∃ uri, location = redirect_location r uri ∧
    (uri = SP_DefaultRedirectURI (M_ServiceProvider m) ∨
     local_redirect m uri ∧ (has_byte "\" uri = false → local_location m location)).
Proof.
  apply (ServeHTTP_event opts) in Hredirect as (Hc & uri & -> & Huri); [|done]. split; [done|]. exists uri. split; [done|].
  destruct Huri as [?|Hl]; [by left|right]. split; [done|]. intros Hb. by apply local_redirect_location.
Qed.
(** ** Protected handlers *)

(** The session cookie of the request has a token of the service provider, for a session
    and for itself, that is current when the clock is read. *)
Definition valid_session opts (r : HTTPRequest) (st : St W) (claims : JWTSessionClaims) : Prop :=
  ∃ value fields, request_Cookie (Provider_Name (DefaultSessionProvider opts)) r = Ret value ∧
    verified_payload (DefaultSessionCodec opts) value fields ∧ session_claims_of fields = Ret claims ∧
    SessionClaims_SAMLSession claims = true ∧
    current_claims (DefaultSessionCodec opts) (SessionClaims_Claims claims) (TimeNow_ st.1).2.

(** C15: safety. A handler behind [RequireAccount] serves a request only with a valid
    session, which it gets in the context; for any other request what happens
    does not depend on the handler at all. *)
Theorem RequireAccount_protects opts m handler context r st (Hm : middleware_New opts = Ret m) :
  (∃ claims st1, valid_session opts r st claims ∧ RequireAccount m handler context r st = handler (Some claims) r st1) ∨
  ∀ handler', RequireAccount m handler' context r st = RequireAccount m handler context r st.
Proof.
  destruct (New_ret _ _ Hm) as (_ & _ & _ & Hs & _).
  unfold RequireAccount. rewrite Hs. simpl. unfold cookie_GetSession, mbind, IO_bind.
  destruct (request_Cookie _ r) as [value|e|] eqn:Hc; [|right; intros handler'; simpl; done..].
  unfold on_result. destruct (Codec_Decode _ value st) as [s1 [claims|e|]] eqn:Hd; simpl; [|right; done..].
  left. exists claims, s1. split; [|done]. simpl in Hd.
  apply SessionDecode_ret in Hd as (fields & ? & ? & ? & ?). by exists value, fields.
Qed.

(** A handler behind [RequireAttribute] serves a request only if the session
    has the attribute with the value; for any other request the answer is 403,
    or a panic for a session without attributes. *)
Theorem RequireAttribute_protects {S} (GetAttributes : S → option Attributes) name value (handler : Handler W S) session r :
  (∃ s attributes, session = Some s ∧ GetAttributes s = Some (Some attributes) ∧
    value ∈ default [] (attributes !! name) ∧
    RequireAttribute GetAttributes name value handler session r = handler session r) ∨
  (∀ st, RequireAttribute GetAttributes name value handler session r st = http_error 403 st) ∨
  ∃ s, session = Some s ∧ GetAttributes s = None ∧
    ∀ st, RequireAttribute GetAttributes name value handler session r st = (st, Panic).
Proof.
  unfold RequireAttribute. destruct session as [s|]; [|by right; left].
  destruct (GetAttributes s) as [[attributes|]|] eqn:Hg; [..|right; right; by exists s].
  - destruct (decide (value ∈ default [] (attributes !! name))) as [Hin|Hin].
    + left. exists s, attributes. split_and!; [done..|]. unfold mbind, IO_bind, lift. simpl.
      by rewrite bool_decide_true.
    + right. left. intros st. unfold mbind, IO_bind, lift. simpl. by rewrite bool_decide_false.
  - right. left. intros st. unfold mbind, IO_bind, lift. simpl. by rewrite lookup_empty.
Qed.

(** ** Tracking a request *)

(** The clock as the tracker reads it when it signs the cookie. *)
Definition issue_time (st : St W) : Time := (TimeNow_ (RandReader 42 st.1).1).2.

(** A cookie that is sent back gives the tracked request. *)
Lemma GetTrackedRequest_works opts sp r' index request k later :
  Cookie_Name k = "saml_" +++ index → request_Cookie (Cookie_Name k) r' = Ret (Cookie_Value k) →
  TrackedRequest_Index request = index →
  (∃ s, JWTTrackedRequestCodec_Decode (W := W) (DefaultTrackedRequestCodec opts) (Cookie_Value k) later = (s, Ret request)) →
  ∃ s, cookie_GetTrackedRequest (DefaultRequestTracker opts sp) r' index later = (s, Ret request).
Proof.
  intros Hname Hcookie Hindex (s & Hdec). exists s. rewrite Hname in Hcookie.
  unfold cookie_GetTrackedRequest, mbind, IO_bind. simpl in *. rewrite Hcookie. simpl. rewrite Hdec. simpl.
  by rewrite bool_decide_true.
Qed.

(** The cookie that starts to track a request has a token that is read back until its age
    is reached. *)
Lemma TrackRequest_works opts sp r samlRequestID st st1 index :
  Opt_Key opts ≠ None → Opt_RelayStateFunc opts = None →
  let request := λ i, mkTrackedRequest i samlRequestID (URL_String (HTTPRequest_URL r)) in
  (∀ bytes, encodable (DefaultTrackedRequestCodec opts) (request (RawURLEncode bytes))) →
  cookie_TrackRequest (DefaultRequestTracker opts sp) r samlRequestID st = (st1, Ret index) →
  ∃ k, st1.2 = (st.2 ++ [SetCookie k])%list ∧ Cookie_Name k = "saml_" +++ index ∧
    ∀ later, (issue_time st <= (TimeNow_ later.1).2)%Z →
      ((TimeNow_ later.1).2 + 10 ^ 9 <= Time_Add (issue_time st) MaxIssueDelay)%Z →
      ∃ s, JWTTrackedRequestCodec_Decode (DefaultTrackedRequestCodec opts) (Cookie_Value k) later = (s, Ret (request index)).
Proof.
  intros Hkey Hrelay request Hencode Htrack. unfold cookie_TrackRequest in Htrack. simpl in Htrack. rewrite Hrelay in Htrack.
  apply io_bind_ret in Htrack as (s1 & bytes & Hrand & H). apply io_bind_ret in H as (s2 & relay & [= <- <-] & H).
  rewrite bool_decide_true in H by done. cbn [negb] in H.
  apply io_bind_ret in H as (s3 & signed & Henc & H). apply io_bind_ret in H as (s4 & [] & Hset & [= <- <-]).
  assert (Hs1 : s1 = ((RandReader 42 st.1).1, st.2)).
  { destruct st as [w ev]. unfold randomBytes, reads in Hrand. apply io_bind_ret in Hrand as (s & o & Hr & [-> _]%lift_ret).
    simpl. destruct (RandReader 42 w). by injection Hr as <- _. }
  assert (Hq : quiet (JWTTrackedRequestCodec_Encode (W := W) (DefaultTrackedRequestCodec opts) (request (RawURLEncode bytes))))
    by (unfold JWTTrackedRequestCodec_Encode, TimeNow; solve_quiet).
  unfold request in Hq. destruct (Hq s1) as (new & Hev & ->). rewrite Henc, app_nil_r, Hs1 in Hev. simpl in Hev.
  destruct s3 as [w3 ev3]. injection Hset as <-. simpl in Hev. subst ev3. eexists. split; [reflexivity|]. split; [done|].
  intros later Hl He. cbn [Cookie_Value].
  destruct (tracked_token_works (DefaultTrackedRequestCodec opts) _ _ _ _ later Hkey (Hencode _) Henc) as (st' & Hdec & _);
    [by rewrite Hs1..|]. by exists st'.
Qed.

(** Roundtrip. A request that the default tracker starts to track is found again under the
    returned index, with the SAML request ID and the URI that was asked for, when
    the browser sends the cookie back before its age is reached. *)
Theorem tracking_roundtrip opts sp r samlRequestID w st1 index r' later
    (Hkey : Opt_Key opts ≠ None) (Hrelay : Opt_RelayStateFunc opts = None)
    (Hencode : ∀ bytes, encodable (DefaultTrackedRequestCodec opts)
      (mkTrackedRequest (RawURLEncode bytes) samlRequestID (URL_String (HTTPRequest_URL r))))
    (Htrack : cookie_TrackRequest (DefaultRequestTracker opts sp) r samlRequestID (w, []) = (st1, Ret index))
    (Hsent : ∀ k, SetCookie k ∈ st1.2 → request_Cookie (Cookie_Name k) r' = Ret (Cookie_Value k))
    (Hlater : (issue_time (w, []) <= (TimeNow_ later.1).2)%Z)
    (Hage : ((TimeNow_ later.1).2 + 10 ^ 9 <= Time_Add (issue_time (w, [])) MaxIssueDelay)%Z) :
  ∃ s, cookie_GetTrackedRequest (DefaultRequestTracker opts sp) r' index later
    = (s, Ret (mkTrackedRequest index samlRequestID (URL_String (HTTPRequest_URL r)))).
Proof.
  destruct (TrackRequest_works opts sp r samlRequestID _ _ _ Hkey Hrelay Hencode Htrack) as (k & Hev & Hname & Hdec).
  apply (GetTrackedRequest_works opts sp r' index _ k later); [done| |done|by apply Hdec].
  apply Hsent. rewrite Hev. set_solver.
Qed.

(** ** Logins *)

Definition assertion_subject (a : Assertion) : string :=
  match Assertion_Subject a with
  | Some sub => match Subject_NameID sub with Some nameID => NameID_Value nameID | None => "" end
  | None => ""
  end.

(** The key signs what it is given, and the payload of a session of the assertion is
    read back. *)
Definition can_sign opts (a : Assertion) : Prop :=
  let c := DefaultSessionCodec opts in
  Codec_Key c ≠ None ∧ (∀ payload, is_ret (jwt_Serialize (Codec_SigningMethod c) (Codec_Key c) payload) = true) ∧
  ∀ expiry notBefore issuedAt, jwt_exact (session_claims_json (mkSessionClaims
    (mkClaims (Codec_Issuer c) (assertion_subject a) [Codec_Audience c] expiry notBefore issuedAt "")
    (Some (session_attributes a)) true)) = true.

(** Every request with the cookie is served by a protected handler with the claims, until
    a second before an hour has passed since they were issued. *)
Definition session_serves m (k : Cookie) (claims : JWTSessionClaims) (issued : Time) : Prop :=
  ∀ (handler : Handler W JWTSessionClaims) context r later,
    request_Cookie (Cookie_Name k) r = Ret (Cookie_Value k) →
    (issued <= (TimeNow_ later.1).2)%Z → ((TimeNow_ later.1).2 + 10 ^ 9 <= Time_Add issued defaultSessionMaxAge)%Z →
    ∃ s, RequireAccount m handler context r later = handler (Some claims) r s.

Lemma CreateSession_works opts m r assertion st : middleware_New opts = Ret m → can_sign opts assertion →
  ∃ w k claims, CreateSession (M_Session m) r assertion st = ((w, st.2 ++ [SetCookie k])%list, Ret ()) ∧
    SessionClaims_Attributes claims = Some (session_attributes assertion) ∧
    session_serves m k claims (TimeNow_ st.1).2.
Proof.
  intros Hm (Hkey & Hsign & Hx). destruct (New_ret _ _ Hm) as (_ & _ & _ & Hs & _).
  destruct (JWTSessionCodec_New (DefaultSessionCodec opts) assertion st) as [s1 o] eqn:Hnew.
  assert (Hq : quiet (W := W) (JWTSessionCodec_New (DefaultSessionCodec opts) assertion))
    by (unfold JWTSessionCodec_New, TimeNow; solve_quiet).
  destruct (Hq st) as (new & Hev & ->). rewrite Hnew, app_nil_r in Hev. simpl in Hev.
  assert (Ho : ∃ e n i, o = Ret (mkSessionClaims (mkClaims (Codec_Issuer (DefaultSessionCodec opts))
    (assertion_subject assertion) [Codec_Audience (DefaultSessionCodec opts)] e n i "")
    (Some (session_attributes assertion)) true)).
  { unfold JWTSessionCodec_New, TimeNow, reads, mbind, IO_bind in Hnew. destruct st as [w ev].
    destruct (TimeNow_ w). injection Hnew as _ <-. by eexists _, _, _. }
  destruct Ho as (e & n & i & ->). set (claims := mkSessionClaims _ _ _) in *.
  pose proof (Hsign (session_claims_json claims)) as Henc.
  destruct (jwt_Serialize _ _ (session_claims_json claims)) as [token| |] eqn:Htoken; [|done..].
  rewrite Hs. simpl. unfold cookie_CreateSession, mbind, IO_bind. simpl. rewrite Hnew.
  unfold JWTSessionCodec_Encode, signJWT, lift. simpl in Htoken. simpl. rewrite Htoken. destruct s1 as [w1 ev1].
  simpl in Hev. subst ev1. eexists w1, _, claims. split_and!; [done..|]. intros handler context r' later Hc Hl He.
  destruct (session_token_works (DefaultSessionCodec opts) assertion st _ claims token later Hkey (Hx _ _ _) Hnew Htoken Hl He)
    as (s & Hd & _).
  exists s. unfold RequireAccount, mbind, IO_bind. rewrite Hs. cbn [Provider_GetSession cookie_provider].
  unfold cookie_GetSession, on_result. change (request_Cookie (Provider_Name (DefaultSessionProvider opts)) r' = Ret token) in Hc.
  rewrite Hc. cbn [Provider_Codec DefaultSessionProvider].
  change (Codec_Decode _ token) with (JWTSessionCodec_Decode (W := W) (DefaultSessionCodec opts) token). by rewrite Hd.
Qed.

Lemma finish_works opts m r assertion url st : middleware_New opts = Ret m → can_sign opts assertion →
  ∃ w k claims, finish_session m r assertion url st
      = ((w, (st.2 ++ [SetCookie k; HttpRedirect (redirect_location r url) 302])%list), Ret ()) ∧
    SessionClaims_Attributes claims = Some (session_attributes assertion) ∧
    session_serves m k claims (TimeNow_ st.1).2.
Proof.
  intros Hm Hsign. destruct (CreateSession_works opts m r assertion st Hm Hsign) as (w & k & claims & Hc & ? & ?).
  exists w, k, claims. split; [|done]. unfold finish_session, or_OnError, on_result. rewrite Hc. simpl. by rewrite <- app_assoc.
Qed.

(** Where the browser goes after the login: where it was going to, if this is known and
    is local. *)
Definition target m (request : option TrackedRequest) : string :=
  match request with
  | Some request => if isLocalRedirect m (TrackedRequest_URI request) then TrackedRequest_URI request
                    else SP_DefaultRedirectURI (M_ServiceProvider m)
  | None => SP_DefaultRedirectURI (M_ServiceProvider m)
  end.

(** C13: liveness. A login succeeds: if the response that arrives at the assertion consumer
    service gives an assertion, and the RelayState, if any, is the index of a tracked
    request, then the answer sets a cookie and redirects to where the browser was
    going to; and with the cookie the handlers behind [RequireAccount] serve its
    requests, with the attributes of the assertion, for an hour from the time that the clock
    shows after the response and the RelayState have been read. *)
Theorem login_completes opts m r w st1 requests st2 assertion request st3
    (Hm : middleware_New opts = Ret m) (Hsign : can_sign opts assertion)
    (Hform : is_ret (ParseForm_default r) = true)
    (Htracked : GetTrackedRequests (M_RequestTracker m) r (w, []) = (st1, Ret requests))
    (Hparse : ParseResponse (M_ServiceProvider m) (request_Form r) (PostForm r) (HTTPRequest_URL r)
      (possible_request_ids m requests) st1 = (st2, Ret assertion))
    (Hindex : match request with
              | Some request => relayState r ≠ "" ∧ GetTrackedRequest (M_RequestTracker m) r (relayState r) st2 = (st3, Ret request)
              | None => relayState r = "" ∧ st3 = st2
              end) :
  ∃ st k claims, ServeACS m r (w, []) = (st, Ret ()) ∧
    SetCookie k ∈ st.2 ∧ HttpRedirect (redirect_location r (target m request)) 302 ∈ st.2 ∧
    SessionClaims_Attributes claims = Some (session_attributes assertion) ∧ session_serves m k claims (TimeNow_ st3.1).2.
Proof.
  destruct (New_ret _ _ Hm) as (_ & _ & Ht & _ & Hh).
  assert (Hend : ∃ st ev k claims,
    CreateSessionFromAssertion m r assertion (SP_DefaultRedirectURI (M_ServiceProvider m)) st2 = (st, Ret ()) ∧
    st.2 = (ev ++ [SetCookie k; HttpRedirect (redirect_location r (target m request)) 302])%list ∧
    SessionClaims_Attributes claims = Some (session_attributes assertion) ∧ session_serves m k claims (TimeNow_ st3.1).2).
  { unfold CreateSessionFromAssertion. destruct request as [request|]; simpl.
    - destruct Hindex as (Hne & Hget). rewrite bool_decide_false by done. cbn [negb].
      unfold on_result at 1. rewrite Hget. rewrite Ht in Hget |- *. simpl in Hget |- *.
      unfold cookie_GetTrackedRequest in Hget. apply io_lift_bind in Hget as (value & Hc & _). simpl in Hc.
      unfold or_OnError, on_result. unfold cookie_StopTrackingRequest at 1, mbind at 1, IO_bind at 1, lift at 1. simpl.
      rewrite Hc. destruct st3 as [w3 ev3]. simpl.
      match goal with |- context [finish_session m r assertion _ ?st] =>
        destruct (finish_works opts m r assertion (target m (Some request)) st Hm Hsign) as (w4 & k & claims & Hf & ? & ?) end.
      simpl in Hf. rewrite Hf. eexists _, _, k, claims. split_and!; [done|reflexivity|done|done].
    - destruct Hindex as [Hempty ->]. rewrite bool_decide_true by done. cbn [negb].
      destruct (finish_works opts m r assertion (SP_DefaultRedirectURI (M_ServiceProvider m)) st2 Hm Hsign)
        as (w4 & k & claims & Hf & ? & ?).
      rewrite Hf. eexists _, _, k, claims. split_and!; [done|reflexivity|done|done]. }
  destruct Hend as (st & ev & k & claims & Hc & Hev & ? & ?). exists st, k, claims.
  split; [|rewrite Hev; set_solver]. unfold ServeACS, or_OnError, on_result at 1, lift at 1.
  destruct (ParseForm_default r); [|done..]. unfold mbind, IO_bind. rewrite Htracked. unfold on_result at 1.
  rewrite Hparse, Hh. unfold on_result. simpl. exact Hc.
Qed.
End laws.
End middleware.

(** ** Cookies that are deleted *)

Section delete.
Context {W S : Type} `{NetI : NetOps}.

(** [DeleteSession] names the path "/", and a browser keeps the cookie that it has for
    another path: the session of a provider with another path is not deleted. *)
Lemma DeleteSession_other_path (c : CookieSessionProvider W S) r r' assertion k k' w w' :
  (∀ a, quiet (Codec_New (Provider_Codec c) a)) → (∀ s, quiet (Codec_Encode (Provider_Codec c) s)) →
  Provider_Path c ≠ "" → Provider_Path c ≠ "/" →
  SetCookie k ∈ (cookie_CreateSession c r assertion (w, [])).1.2 →
  SetCookie k' ∈ (cookie_DeleteSession c r' (w', [])).1.2 →
  Cookie_Name k' = Cookie_Name k ∧ Cookie_Path k' ≠ Cookie_Path k.
Proof.
  intros Hn He Hp Hp' Hk Hk'.
  assert (Hc : only_events (λ e, ∃ v d a s o m, e = SetCookie (mkCookie (Provider_Name c) v (Provider_Path c) d None a s o m))
    (cookie_CreateSession c r assertion)).
  { unfold cookie_CreateSession. apply only_bind; [by apply quiet_only|intros session _ _ _].
    apply only_bind; [by apply quiet_only|intros value _ _ _]. apply only_emit.
    rewrite bool_decide_false by done. eauto 10. }
  destruct (Hc (w, [])) as (new & Hnew & HP). rewrite Hnew in Hk.
  pose proof (proj1 (Forall_forall _ _) HP _ Hk) as (v & d & a & s & o & m & [= ->]). simpl.
  unfold cookie_DeleteSession in Hk'. destruct (request_Cookie _ r') as [value|err|].
  - apply list_elem_of_singleton in Hk'. by injection Hk' as ->.
  - destruct (err == _); by apply elem_of_nil in Hk'.
  - by apply elem_of_nil in Hk'.
Qed.
End delete.

(** ** Metadata of an identity provider *)

Section fetch.
Context {W : Type} `{UrlI : UrlOps} `{XmlI : XmlOps} `{MetadataI : MetadataXml} `{WorldI : World W} `{HttpI : HttpOps W}.

(** The entity that the text of metadata describes: its only one, or the first one with
    the role of an identity provider in a list of entities. *)
Definition describes (data : string) (entity : EntityDescriptor) : Prop :=
  Unmarshal_EntityDescriptor data = Ret entity ∨
  ∃ entities before after, Unmarshal_EntitiesDescriptor data = Ret entities ∧
    EntitiesDescriptor_EntityDescriptors entities = (before ++ entity :: after)%list ∧
    EntityDescriptor_IDPSSODescriptors entity ≠ [] ∧ Forall (λ e, EntityDescriptor_IDPSSODescriptors e = []) before.

Lemma ParseMetadata_ret data entity : ParseMetadata data = Ret entity → xrv_Validate data = Ret () ∧ describes data entity.
Proof.
  unfold ParseMetadata. intros ([] & Hv & H)%bind_ret. split; [done|].
  destruct (Unmarshal_EntityDescriptor data) as [e|e|] eqn:Hu; [left; congruence| |done].
  destruct (e == _); [|done]. apply bind_ret in H as (entities & Hes & H). right.
  destruct (first_that _ _) as [x|] eqn:Hf; [|done]. injection H as ->.
  apply first_that_Some in Hf as (before & after & Heq & Hx & Hb). exists entities, before, after.
  split_and!; [done..| |].
  - intros Hn. by rewrite Hn in Hx.
  - eapply Forall_impl; [exact Hb|]. simpl. intros e' He. by destruct (EntityDescriptor_IDPSSODescriptors e').
Qed.

Lemma metadata_body_ret resp st st' data : metadata_body (W := W) resp st = (st', Ret data) →
  (Response_StatusCode resp < 400)%Z ∧ (Z.of_nat (String.length data) <= maxMetadataSize)%Z ∧
  ∃ st1, effect (Response_ReadAll resp (maxMetadataSize + 1)%Z) st = (st1, Ret data).
Proof.
  unfold metadata_body. intros [Hs H]%io_guard_bind. apply io_bind_ret in H as (s1 & d & Hr & H).
  apply io_guard_bind in H as [Hl [= -> ->]]. apply Z.leb_gt in Hs. apply Z.ltb_ge in Hl. eauto.
Qed.

(** C38: bounds. Metadata that are fetched come from a response without an error status; they
    are read through a limit and rejected if they are longer than 256 MiB; they are
    validated before they are parsed; and the result is the entity they describe, and of
    several the first identity provider. *)
Theorem FetchMetadata_bound httpClient metadataURL (st st' : St W) entity
    (Hfetch : FetchMetadata httpClient metadataURL st = (st', Ret entity)) :
  ∃ req resp s1 s2 data, NewRequest "GET" (URL_String metadataURL) "" = Ret req ∧
    effect (Client_Do (default (mkHTTPClient "" DefaultRedirects defaultFetchMetadataTimeout) httpClient) req) st
      = (s1, Ret resp) ∧
    (Response_StatusCode resp < 400)%Z ∧
    effect (Response_ReadAll resp (maxMetadataSize + 1)%Z) s1 = (s2, Ret data) ∧
    (Z.of_nat (String.length data) <= maxMetadataSize)%Z ∧ xrv_Validate data = Ret () ∧ describes data entity.
Proof.
  unfold FetchMetadata in Hfetch. apply io_lift_bind in Hfetch as (req & Hreq & H).
  apply io_bind_ret in H as (s1 & resp & Hresp & H). unfold deferred in H.
  destruct ((data ← metadata_body resp; lift (ParseMetadata data)) s1) as [s2 o] eqn:Hb.
  assert (o = Ret entity) as -> by (destruct (close_metadata resp s2) as [s3 []]; congruence).
  apply io_bind_ret in Hb as (s3 & data & Hd & [_ Hp]%lift_ret).
  apply metadata_body_ret in Hd as (? & ? & s4 & ?). apply ParseMetadata_ret in Hp as [? ?].
  by exists req, resp, s1, s4, data.
Qed.
End fetch.
