(* ===== verification/MiddlewareFlow.v ===== *)
(** * MiddlewareFlow: the flow that the middleware of [src/samlsp] starts

    What [RequireAccount] does with a browser that has no session, and that the
    assertion consumer service will know the request when the browser returns. *)

From stdpp Require Import base option list gmap strings.
From Stdlib Require Import ZArith Lia Ascii.
From S2P Require Import Prelude Go Duration Encoding Etree Schema Env Http Store XmlTree ServiceProvider.
From S2P Require Import DSig Redirect SPMessages SPMessagesSpec Jwt JwtSpec Middleware MiddlewareDefaults MiddlewareSpec.

Open Scope string_scope.

Section flow.
Context {W : Type}.
Context `{UrlI : UrlOps} `{ResolveI : ResolveOps} `{VarsI : PackageVars} `{EtreeI : EtreeOps} `{X509I : X509Ops} `{XmlI : XmlOps}.
Context `{SigI : SignatureOps} `{EncI : XmlEncOps} `{CryptoI : CryptoOps} `{FlateI : FlateOps} `{FormI : PostFormOps}.
Context `{MetadataI : MetadataXml} `{WorldI : World W} `{HttpI : HttpOps W} `{NetI : NetOps} `{FoldI : FoldOps}.
Context `{JwtL : JwtLaws} `{TextI : TextOps}.

Implicit Types (m : Middleware W JWTSessionClaims) (opts : MiddlewareOptions W).

(** ** The request is sent with the index *)

(** How the request leaves: as the location of a redirect, or in a form, with the index
    as the RelayState. *)
Definition sent m (binding : string) (authReq : AuthnRequest) (index : string) (events : list Event) : Prop :=
  (binding = HTTPRedirectBinding ∧ ∃ u, AuthnRequest_Redirect authReq index (Some (M_ServiceProvider m)) = Ret u ∧
     HeaderAdd "Location" (URL_String u) ∈ events ∧ WriteHeader 302 ∈ events) ∨
  (binding = HTTPPostBinding ∧ ∃ form, AuthnRequest_Post authReq index = Ret form ∧
     BodyWrite ("<!DOCTYPE html><html><body>" +++ form +++ "</body></html>") ∈ events).

Definition no_error_page (events : list Event) : Prop := ∀ err code, HttpErrorOf err code ∉ events.

Lemma or_error_500_ret {A} (c : IO W A) (k : A → IO W ()) s s' :
  or_error_500 c k s = (s', Ret ()) → no_error_page s'.2 → ∃ s1 a, c s = (s1, Ret a) ∧ k a s1 = (s', Ret ()).
Proof.
  intros [H|([w1 ev1] & e & Hc & [= <-])]%on_result_ret Hno; [done|]. exfalso. eapply (Hno e 500%Z). simpl. set_solver.
Qed.

Lemma send_request_ret m binding authReq index s s' :
  send_request m binding authReq index s = (s', Ret ()) → no_error_page s'.2 →
  (∃ new, s'.2 = (s.2 ++ new)%list) ∧ sent m binding authReq index s'.2.
Proof.
  unfold send_request, sent. destruct s as [w ev]. intros H Hno.
  case_bool_decide as Hb; [|case_bool_decide as Hb'; [|done]].
  - apply or_error_500_ret in H as (s1 & u & [-> Hu]%lift_ret & H); [|done]. injection H as <-. simpl in *.
    split; [rewrite <- app_assoc; by eexists|]. left. split; [done|]. exists u. split; [done|]. set_solver.
  - simpl in H. unfold mbind, IO_bind, lift in H. simpl in H. destruct (AuthnRequest_Post _ _) as [form| |]; [|done..].
    apply or_error_500_ret in H as (s1 & [] & Hw & [= <-]); [|done]. unfold w_Write, effect, reads, mbind, IO_bind, lift in Hw.
    simpl in Hw. destruct (ResponseWrite _ _) as [w1 o]. injection Hw as <- _. simpl.
    split; [rewrite <- !app_assoc; by eexists|]. right. split; [done|]. exists form. split; [done|]. set_solver.
Qed.

(** ** The browser returns *)

(** The states of the world after readings of the clock. *)
Definition clock_readings (n : nat) (w : W) : W := Nat.iter n (λ w, (TimeNow_ w).1) w.

Lemma TrackedDecode_world c signed st : ∃ n,
  (JWTTrackedRequestCodec_Decode (W := W) c signed st).1.1 = clock_readings n st.1.
Proof.
  destruct st as [w ev]. unfold JWTTrackedRequestCodec_Decode, verifyJWT, TimeNow, reads, mbind, IO_bind, lift.
  destruct (jwt_ParseSigned _ _); [|by exists 0%nat..]. destruct (deref _); [|by exists 0%nat..].
  destruct (token_Claims _ _); [|by exists 0%nat..].
  destruct (match _ with JObject fields => tracked_claims_of fields | _ => _ end); [|by exists 0%nat..].
  exists 1%nat. simpl. destruct (TimeNow_ w) as [w' t]. simpl.
  destruct (ValidateWithLeeway _ _ _); [|done..]. simpl. by destruct (negb _).
Qed.

Lemma clock_readings_add n k w : clock_readings n (clock_readings k w) = clock_readings (n + k) w.
Proof. unfold clock_readings. by rewrite Nat.iter_add. Qed.

Lemma tracked_requests_finds opts sp k index request cookies st st' requests :
  (Cookie_Name k, Cookie_Value k) ∈ cookies → Cookie_Name k = "saml_" +++ index → TrackedRequest_Index request = index →
  (∀ n ev, ∃ s, JWTTrackedRequestCodec_Decode (W := W) (DefaultTrackedRequestCodec opts) (Cookie_Value k)
     (clock_readings n st.1, ev) = (s, Ret request)) →
  tracked_requests (DefaultRequestTracker opts sp) cookies st = (st', Ret requests) → request ∈ requests.
Proof.
  intros Hin Hname Hindex. revert st st' requests.
  induction cookies as [|[name value] cookies IH]; intros st st' requests Hdec; [by apply elem_of_nil in Hin|].
  assert (Hlater : ∀ v o s1, JWTTrackedRequestCodec_Decode (W := W) (DefaultTrackedRequestCodec opts) v st = (s1, o) →
    ∀ n ev, ∃ s, JWTTrackedRequestCodec_Decode (W := W) (DefaultTrackedRequestCodec opts) (Cookie_Value k)
      (clock_readings n s1.1, ev) = (s, Ret request)).
  { intros v o s1 Hv n ev. destruct (TrackedDecode_world (DefaultTrackedRequestCodec opts) v st) as [j Hj].
    rewrite Hv in Hj. simpl in Hj. rewrite Hj, clock_readings_add. apply Hdec. }
  cbn [tracked_requests]. apply elem_of_cons in Hin as [[= <- <-]|Hin].
  - replace (cut_prefix (Tracker_NamePrefix (DefaultRequestTracker opts sp)) (Cookie_Name k)) with (Some index)
      by (symmetry; apply cut_prefix_Some; by rewrite Hname).
    destruct st as [w ev]. destruct (Hdec 0%nat ev) as [s Hd]. intros [(s1 & r & Hr & H)|(s1 & e & He & _)]%on_result_ret.
    + simpl in Hr, Hd. unfold clock_readings in Hd. simpl in Hd. rewrite Hd in Hr. injection Hr as <- <-.
      rewrite bool_decide_true in H by done. cbn [negb] in H. apply io_bind_ret in H as (s2 & rest & _ & [= _ <-]). set_solver.
    + simpl in He, Hd. unfold clock_readings in Hd. simpl in Hd. by rewrite Hd in He.
  - destruct (cut_prefix _ name) as [i|]; [|by apply IH].
    intros [(s1 & r & Hr & H)|(s1 & e & He & H)]%on_result_ret; [|exact (IH Hin _ _ _ (Hlater _ _ _ He) H)].
    destruct (_ != _); [exact (IH Hin _ _ _ (Hlater _ _ _ Hr) H)|].
    apply io_bind_ret in H as (s2 & rest & Hrest & [= _ <-]). apply elem_of_cons. right.
    exact (IH Hin _ _ _ (Hlater _ _ _ Hr) Hrest).
Qed.

Lemma request_Cookie_sent name value (r : HTTPRequest) : request_Cookie name r = Ret value → (name, value) ∈ HTTPRequest_Cookies r.
Proof.
  unfold request_Cookie. destruct (name == ""); [done|]. destruct (first_that _ _) as [[n v]|] eqn:E; [|done].
  intros [= <-]. apply first_that_elem in E as [Hin Hn]. apply bool_decide_eq_true in Hn. simpl in Hn. by rewrite <- Hn.
Qed.

Lemma new_id_text s s' id : new_id (W := W) s = (s', Ret id) → ∃ bytes, id = "id-" +++ hex_string bytes.
Proof. intros (s1 & bytes & _ & [= _ <-])%io_bind_ret. by exists bytes. Qed.

Lemma RequireAccount_unauthenticated opts m handler context r st : middleware_New opts = Ret m →
  request_Cookie (Provider_Name (DefaultSessionProvider opts)) r = Err http_ErrNoCookie →
  RequireAccount m handler context r st = HandleStartAuthFlow m r st.
Proof.
  intros Hm Hc. destruct (New_ret opts m Hm) as (_ & _ & _ & Hs & _). unfold RequireAccount. rewrite Hs.
  cbn [Provider_GetSession cookie_provider]. unfold cookie_GetSession. rewrite Hc. unfold mbind, IO_bind. simpl.
  done.
Qed.

(** C14: liveness. A browser without a session that asks for a protected page is sent to the
    identity provider, and what comes back is expected: the cookie that it gets tracks
    the request that is sent, under the RelayState that is sent with it.  Until its age is
    reached, a browser that returns with this cookie to the assertion consumer service has
    the ID of the request among those that a response may answer, and the RelayState
    leads back to the page. *)
Theorem auth_flow_tracked opts m (handler : Handler W JWTSessionClaims) context r w st'
    (Hm : middleware_New opts = Ret m) (Hkey : Opt_Key opts ≠ None) (Hrelay : Opt_RelayStateFunc opts = None)
    (Hnone : request_Cookie (Provider_Name (DefaultSessionProvider opts)) r = Err http_ErrNoCookie)
    (Hencode : ∀ index id, encodable (DefaultTrackedRequestCodec opts)
      (mkTrackedRequest (RawURLEncode index) ("id-" +++ hex_string id) (URL_String (HTTPRequest_URL r))))
    (Hrun : RequireAccount m handler context r (w, []) = (st', Ret ())) (Hok : no_error_page st'.2) :
  ∃ binding authReq index s0 k, start_binding m = Ret binding ∧
    MakeAuthenticationRequest (M_ServiceProvider m) binding.2 binding.1 (M_ResponseBinding m) (w, []) = (s0, Ret authReq) ∧
    sent m binding.1 authReq index st'.2 ∧ SetCookie k ∈ st'.2 ∧
    ∀ r' later, request_Cookie (Cookie_Name k) r' = Ret (Cookie_Value k) →
      (∀ n, let now := (TimeNow_ (clock_readings n later.1)).2 in
         (issue_time s0 <= now)%Z ∧ (now + 10 ^ 9 <= Time_Add (issue_time s0) MaxIssueDelay)%Z) →
      (∀ s requests, GetTrackedRequests (M_RequestTracker m) r' later = (s, Ret requests) →
         AuthnRequest_ID authReq ∈ possible_request_ids m requests) ∧
      ∃ s, GetTrackedRequest (M_RequestTracker m) r' index later
        = (s, Ret (mkTrackedRequest index (AuthnRequest_ID authReq) (URL_String (HTTPRequest_URL r)))).
Proof.
  rewrite (RequireAccount_unauthenticated opts) in Hrun by done. destruct (New_ret opts m Hm) as (_ & _ & Ht & _).
  unfold HandleStartAuthFlow in Hrun. destruct (_ == _); [done|]. rewrite Ht in Hrun |- *.
  apply io_lift_bind in Hrun as (binding & Hb & H). apply or_error_500_ret in H as (s0 & authReq & Hmake & H); [|done].
  apply or_error_500_ret in H as (s1 & index & Htrack & H); [|done].
  apply send_request_ret in H as [[new Hnew] Hsent]; [|done].
  pose proof (MakeAuthenticationRequest_ret _ _ _ _ _ _ _ Hmake) as ((u & u' & Hid) & _). apply new_id_text in Hid as [id Hid].
  destruct (TrackRequest_works opts (M_ServiceProvider m) r (AuthnRequest_ID authReq) s0 s1 index Hkey Hrelay) as (k & Hk & Hname & Hdec);
    [intros bytes; rewrite Hid; apply Hencode|exact Htrack|].
  exists binding, authReq, index, s0, k. split_and!; [done..|rewrite Hnew, Hk; set_solver|].
  intros r' later Hcookie Hclock. split.
  - intros s requests Hreq. unfold possible_request_ids. apply elem_of_app. right. apply list_elem_of_fmap.
    exists (mkTrackedRequest index (AuthnRequest_ID authReq) (URL_String (HTTPRequest_URL r))). split; [done|].
    refine (tracked_requests_finds opts _ k index (mkTrackedRequest index _ _) _ later s requests
      (request_Cookie_sent _ _ _ Hcookie) Hname eq_refl _ Hreq).
    intros n ev. apply Hdec; apply Hclock.
  - apply (GetTrackedRequest_works opts _ r' index _ k later); [done..|]. by apply Hdec; apply (Hclock 0%nat).
Qed.
End flow.
