(* ===== verification/MiddlewareExamples.v ===== *)
(** * MiddlewareExamples: a middleware of [src/samlsp] that runs

    Concrete tokens, whose text is their payload with the name of their key, and a
    service provider that gets its responses from the identity provider of
    [SPMessagesSpec].  The theorems of [JwtSpec] and [MiddlewareSpec] are applied to
    what it does here. *)

From stdpp Require Import base option list gmap strings countable.
From Stdlib Require Import ZArith Lia Ascii.
From S2P Require Import Prelude Go Duration Encoding Etree Schema Env Http Store XmlTree ServiceProvider Reference.
From S2P Require Import ServiceProviderSpec DSig Redirect SPMessages SPMessagesSpec Jwt JwtSpec Middleware MiddlewareDefaults.
From S2P Require Import IdentityProvider IdpResponse IdpLogout IdpSpec IdpLogoutSpec MiddlewareSpec MiddlewareFlow.

Open Scope string_scope.

(** ** Texts of JSON values *)

Definition json_leaf : Type := string + (Z + bool).

Fixpoint json_tree (j : json) : gen_tree json_leaf :=
  match j with
  | JNull => GenNode 0 []
  | JBool b => GenLeaf (inr (inr b))
  | JNumber z => GenLeaf (inr (inl z))
  | JString s => GenLeaf (inl s)
  | JArray l => GenNode 1 (map json_tree l)
  | JObject fields => GenNode 2 (map (λ f, GenNode 3 [GenLeaf (inl f.1); json_tree f.2]) fields)
  end.

Fixpoint tree_json (t : gen_tree json_leaf) : json :=
  match t with
  | GenLeaf (inl s) => JString s
  | GenLeaf (inr (inl z)) => JNumber z
  | GenLeaf (inr (inr b)) => JBool b
  | GenNode 1 l => JArray (map tree_json l)
  | GenNode 2 l =>
      JObject (map (λ t, match t with GenNode 3 [GenLeaf (inl k); t] => (k, tree_json t) | _ => ("", JNull) end) l)
  | GenNode _ _ => JNull
  end.

Lemma tree_json_tree : ∀ j, tree_json (json_tree j) = j.
Proof.
  fix IH 1. intros [|b|z|s|l|fields]; [done..| |]; simpl; f_equal.
  - induction l as [|j l IHl]; [done|]. simpl. by rewrite IH, IHl.
  - induction fields as [|[k j] fields IHl]; [done|]. simpl. by rewrite IH, IHl.
Qed.

(** ** Tokens *)

Definition alg_text (alg : SignatureAlgorithm) : string :=
  match alg with RS256 => "RS256" | ES256 => "ES256" | ES384 => "ES384" | ES512 => "ES512" end.

Lemma alg_text_eq a b : (alg_text a == alg_text b) = true ↔ a = b.
Proof. rewrite bool_decide_eq_true. split; [by destruct a, b|by intros ->]. Qed.

Definition date_json (date : option Z) : json := match date with Some n => JNumber n | None => JNull end.

Definition ref_Claims_fields (c : jwt_Claims) : list (string * json) :=
  [("iss", JString (Claims_Issuer c)); ("sub", JString (Claims_Subject c));
   ("aud", JArray (map JString (Claims_Audience c))); ("exp", date_json (Claims_Expiry c));
   ("nbf", date_json (Claims_NotBefore c)); ("iat", date_json (Claims_IssuedAt c)); ("jti", JString (Claims_ID c))].

Definition date_field (key : string) (fields : list (string * json)) : option Z :=
  match json_field key fields with Some (JNumber n) => Some n | _ => None end.

Definition ref_Claims_of_fields (fields : list (string * json)) : outcome jwt_Claims :=
  iss ← string_field "iss" fields;
  sub ← string_field "sub" fields;
  aud ← json_strings (default JNull (json_field "aud" fields));
  id ← string_field "jti" fields;
  Ret (mkClaims iss sub aud (date_field "exp" fields) (date_field "nbf" fields) (date_field "iat" fields) id).

Definition date_ok (f : Z → bool) (date : option Z) : bool := match date with Some n => f n | None => true end.

Lemma date_ok_spec (f : Z → bool) date : date_ok f date = true ↔ ∀ n, date = Some n → f n = true.
Proof. destruct date; naive_solver. Qed.

(** What is expected with one audience. *)
Definition ref_valid (c : jwt_Claims) (e : jwt_Expected) : bool :=
  ((Expected_Issuer e == "") || (Claims_Issuer c == Expected_Issuer e)) &&
  existsb (λ a, bool_decide (a ∈ Claims_Audience c)) (Expected_AnyAudience e) &&
  date_ok (λ n, time_Unix n <=? Expected_Time e)%Z (Claims_NotBefore c) &&
  date_ok (λ n, Expected_Time e <=? time_Unix n)%Z (Claims_Expiry c) &&
  date_ok (λ n, time_Unix n <=? Expected_Time e)%Z (Claims_IssuedAt c).

(** A token is an algorithm, the name of a key and a payload. *)
#[export] Instance ref_jwt : JwtOps := {|
  JSONWebToken := string * json;
  jwt_Serialize alg key payload :=
    key ← deref key; Ret (to_digits (encode (alg_text alg, key_id (Signer_Public key), json_tree payload)));
  jwt_ParseSigned s algs :=
    token ← read_text (B := string * string * gen_tree json_leaf) s;
    let '(alg, key, payload) := token in
    if existsb (λ a, alg_text a == alg) algs then Ret (key, tree_json payload)
    else Err (Sentinel "jose.ErrUnexpectedSignatureAlgorithm");
  token_Claims token key :=
    if token.1 == key_id key then Ret token.2 else Err (Sentinel "jose.ErrCryptoFailure");
  Claims_fields := ref_Claims_fields;
  Claims_of_fields := ref_Claims_of_fields;
  NewNumericDate t := Some (t / 10 ^ 9 - 62135596800)%Z;
  ValidateWithLeeway c e _ := if ref_valid c e then Ret () else Err (Sentinel "jwt.ErrInvalid");
  jwt_exact _ := true
|}.

#[export] Instance ref_jwt_laws : JwtLaws.
Proof.
  split.
  - intros alg key payload s H _. cbn in H. injection H as <-. exists (key_id (Signer_Public key), payload).
    cbn [jwt_ParseSigned token_Claims ref_jwt]. rewrite read_text_encode. cbn. rewrite bool_decide_true by done.
    simpl. rewrite tree_json_tree. by rewrite bool_decide_true.
  - intros c f. unfold Claims_fields. simpl. unfold registered_claims. rewrite !elem_of_cons. set_solver.
  - intros c fields _. cbn. unfold ref_Claims_of_fields, ref_Claims_fields, string_field, date_field. simpl.
    pose proof (json_strings_array (Claims_Audience c)) as Ha. simpl in Ha. rewrite Ha. simpl.
    by destruct c as [? ? ? [] [] [] ?].
  - intros t n [= <-]. unfold time_Unix. pose proof (Z.div_mod t (10 ^ 9) ltac:(lia)).
    pose proof (Z.mod_pos_bound t (10 ^ 9) ltac:(lia)). lia.
  - intros c issuer audience now. simpl.
    assert (H : ref_valid c (mkExpected issuer [audience] now) = true ↔
      (issuer = "" ∨ Claims_Issuer c = issuer) ∧ audience ∈ Claims_Audience c ∧
      (∀ n, Claims_NotBefore c = Some n → (time_Unix n <= now)%Z) ∧
      (∀ n, Claims_Expiry c = Some n → (now <= time_Unix n)%Z) ∧
      (∀ n, Claims_IssuedAt c = Some n → (time_Unix n <= now)%Z)).
    { unfold ref_valid. simpl. rewrite orb_false_r, !andb_true_iff, orb_true_iff, !bool_decide_eq_true, !date_ok_spec.
      setoid_rewrite Z.leb_le. tauto. }
    rewrite <- H. by destruct (ref_valid _ _).
Qed.

(** ** A service provider *)

#[export] Instance ref_text : TextOps := {|
  error_Error e := match e with Sentinel s | Errorf s _ => s | _ => "error" end;
  strconv_Quote s := String "034" (s +++ String "034" "")
|}.

#[export] Instance ref_resolve : ResolveOps := {|
  ResolveReference base u := mkURL (URL_Scheme base) "" "" (URL_Host base) (URL_Path base +++ URL_Path u) "" "" ""
|}.

#[export] Instance ref_post_form : PostFormOps := {|
  saml_post_form param url value relay := Ret ("<form action=" +++ url +++ ">" +++ param +++ "=" +++ value +++ "</form>")
|}.

Module Examples.
Import IdpSpec.Examples SPMessagesSpec.Examples.

#[local] Existing Instance default_vars.
#[local] Existing Instance one_response.

Definition root : URL := mkURL "https" "" "" "" "/" "" "" "".

Definition sp_signer : Signer := mkSigner (RSAPublicKey "sp-key").

Definition options : MiddlewareOptions Time :=
  mkMiddlewareOptions "sp" root (Some sp_signer) None [] None false "" (Some idp_metadata) false false false None
    SameSiteLaxMode "" None [].

(** The assertion that the identity provider makes for the request "req1". *)
Definition login_assertion : Assertion :=
  mkAssertion "a1" 1000 "2.0" (mkIssuer "" "" "" "" "https:metadata") None
    (Some (mkSubject (Some (mkNameID "" "" "" "" "alice")) [mkSubjectConfirmation cmBearer None
      (Some (mkSubjectConfirmationData 0 2000 "https:/saml/acs" "req1" ""))]))
    (Some (mkConditions 900 2000 [mkAudienceRestriction [mkAudience "sp"]] None None))
    [mkAuthnStatement 1000 "s1" None None (mkAuthnContext None)]
    [mkAttributeStatement [mkAttribute "mail" "urn:mail" "" [mkAttributeValue "" "alice@example.com" None]]].

Definition login_response : Response :=
  mkResponse "r1" "req1" "2.0" 1000 "https:/saml/acs" "" None None success_status None None.

#[local] Instance middleware_xml : XmlOps := ref_xml login_response artifact login_assertion.

Definition the_middleware : Middleware Time JWTSessionClaims :=
  match middleware_New options with
  | Ret m => m
  | _ => mkMiddleware sp DefaultOnError "" "" (cookie_tracker (DefaultRequestTracker options sp))
           (cookie_provider (DefaultSessionProvider options)) NopAssertionHandler
  end.

Lemma the_middleware_New : middleware_New options = Ret the_middleware.
Proof. reflexivity. Qed.

Definition browser_request (method path body : string) (cookies : list (string * string)) : HTTPRequest :=
  mkHTTPRequest method (mkURL "https" "" "" "" path "" "" "") (Ret "application/x-www-form-urlencoded")
    (Some body) "" [] cookies [] true.

Definition first_cookie (events : list Event) : Cookie :=
  default (mkCookie "" "" "" "" None 0 false false SameSiteUnset)
    (first_some (λ e, match e with SetCookie k => Some k | _ => None end) events).

(** A browser asks for a page, and the request "req1" is tracked. *)
Definition page := browser_request "GET" "/page" "" [].
Definition tracked := cookie_TrackRequest (DefaultRequestTracker options (M_ServiceProvider the_middleware)) page "req1" (1000, []).
Definition index : string := match tracked.2 with Ret index => index | _ => "" end.
Definition tracking_cookie : Cookie := first_cookie tracked.1.2.

(** It comes back with the response. *)
Definition acs_request :=
  browser_request "POST" "/saml/acs" ("SAMLart=artifact1&RelayState=" +++ index)
    [(Cookie_Name tracking_cookie, Cookie_Value tracking_cookie)].

Definition served := ServeHTTP the_middleware acs_request (1500, []).
Definition session_cookie : Cookie :=
  first_cookie (List.filter (λ e, match e with SetCookie k => Cookie_Value k != "" | _ => false end) served.1.2).


(** The session is started, and the browser is sent back to the page. *)
Lemma served_events :
  SetCookie session_cookie ∈ (ServeHTTP the_middleware acs_request (1500%Z, [])).1.2 ∧
  HttpRedirect "https:/page" 302 ∈ (ServeHTTP the_middleware acs_request (1500%Z, [])).1.2.
Proof. vm_compute. split; repeat constructor. Qed.

Lemma ACS_session_sound_witness :
  Cookie_Name session_cookie = "token" ∧
  session_started (W := Time) options the_middleware acs_request (Cookie_Value session_cookie).
Proof.
  split; [vm_compute; reflexivity|].
  refine (ACS_session_sound options the_middleware acs_request 1500%Z session_cookie the_middleware_New
    (proj1 served_events) _).
  vm_compute. discriminate.
Defined.

Lemma ServeHTTP_redirects_locally_witness :
  302%Z = 302%Z ∧ ∃ uri, "https:/page" = redirect_location acs_request uri ∧
    (uri = SP_DefaultRedirectURI (M_ServiceProvider the_middleware) ∨
     local_redirect the_middleware uri ∧ (has_byte "\" uri = false → local_location the_middleware "https:/page")).
Proof.
  exact (ServeHTTP_redirects_locally options the_middleware acs_request 1500%Z "https:/page" 302 the_middleware_New
    eq_refl (proj2 served_events)).
Defined.

(** *** A way off the site

    A middleware that allows responses without a request takes the RelayState for a URI. The
    path [/x/../\evil.com] is local; [http.Redirect] cleans it, and browsers take what is left
    for [//evil.com]. *)
Definition initiated_options : MiddlewareOptions Time :=
  mkMiddlewareOptions "sp" root (Some sp_signer) None [] None true "" (Some idp_metadata) false false false None
    SameSiteLaxMode "" None [].

Definition lured_request :=
  browser_request "POST" "/saml/acs" "SAMLart=artifact1&RelayState=%2Fx%2F..%2F%5Cevil.com"
    [(Cookie_Name tracking_cookie, Cookie_Value tracking_cookie)].

Example backslash_redirect :
  match middleware_New initiated_options with
  | Ret m => (isLocalRedirect m "/x/../\evil.com", head (reverse (ServeHTTP m lured_request (1500%Z, [])).1.2))
  | _ => (false, None)
  end = (true, Some (HttpRedirect "/\evil.com" 302)).
Proof. vm_compute. reflexivity. Qed.

Example cleaned_paths :
  map path_Clean ["/a//b/./c/../d/"; "/../.."; "a/../../b"; ""] = ["/a/b/d"; "/"; "../b"; "."].
Proof. reflexivity. Qed.

(** The next request of the browser. *)
Definition next_page := browser_request "GET" "/page" "" [(Cookie_Name session_cookie, Cookie_Value session_cookie)].

Definition show_attributes : Handler Time JWTSessionClaims := λ session _,
  emit (BodyWrite (AttributeFromContext (λ c, Some (GetAttributes c)) session "mail")).

Example next_page_served :
  (RequireAccount the_middleware show_attributes None next_page (1600, [])).1.2 = [BodyWrite "alice@example.com"].
Proof. vm_compute. reflexivity. Qed.

Lemma RequireAccount_protects_witness :
  (∃ claims st1, valid_session options next_page (1600%Z, []) claims ∧
    RequireAccount the_middleware show_attributes None next_page (1600%Z, []) = show_attributes (Some claims) next_page st1) ∨
  ∀ handler', RequireAccount the_middleware handler' None next_page (1600%Z, [])
    = RequireAccount the_middleware show_attributes None next_page (1600%Z, []).
Proof.
  exact (RequireAccount_protects options the_middleware show_attributes None next_page (1600%Z, []) the_middleware_New).
Defined.

Lemma tracking_roundtrip_witness :
  ∃ s, cookie_GetTrackedRequest (DefaultRequestTracker options (M_ServiceProvider the_middleware)) acs_request index (1500%Z, [])
    = (s, Ret (mkTrackedRequest index "req1" (URL_String (HTTPRequest_URL page)))).
Proof.
  refine (tracking_roundtrip options (M_ServiceProvider the_middleware) page "req1" 1000%Z tracked.1 index acs_request
    (1500%Z, []) _ eq_refl (λ i e n t, eq_refl) _ _ _ _).
  - discriminate.
  - vm_compute. reflexivity.
  - intros k Hk. assert (k = tracking_cookie) as ->.
    { vm_compute in Hk. apply list_elem_of_singleton in Hk. injection Hk as ->. vm_compute. reflexivity. }
    vm_compute. reflexivity.
  - vm_compute. discriminate.
  - vm_compute. discriminate.
Defined.

(** *** Tokens *)

Definition codec : JWTCodec := DefaultSessionCodec options.
Definition tracked_request : TrackedRequest := mkTrackedRequest "i" "req1" "https:/page".

Definition login_claims : JWTSessionClaims :=
  match (JWTSessionCodec_New (W := Time) codec login_assertion (1500%Z, [])).2 with
  | Ret claims => claims
  | _ => mkSessionClaims (mkClaims "" "" [] None None None "") None false
  end.

Definition session_token : string := match JWTSessionCodec_Encode codec login_claims with Ret s => s | _ => "" end.
Definition request_token : string :=
  match (JWTTrackedRequestCodec_Encode (W := Time) codec tracked_request (1500%Z, [])).2 with Ret s => s | _ => "" end.

Lemma encoded_session : JWTSessionCodec_Encode codec login_claims = Ret session_token.
Proof. vm_compute. reflexivity. Qed.

Lemma encoded_request :
  JWTTrackedRequestCodec_Encode (W := Time) codec tracked_request (1500%Z, []) = ((1500%Z, []), Ret request_token).
Proof. vm_compute. reflexivity. Qed.

Lemma tokens_not_confused_witness :
  (∀ s s' a, JWTSessionCodec_Decode (W := Time) codec request_token s ≠ (s', Ret a)) ∧
  (∀ s s' a, JWTTrackedRequestCodec_Decode (W := Time) codec session_token s ≠ (s', Ret a)).
Proof.
  refine (tokens_not_confused codec codec tracked_request login_claims (1500%Z, []) (1500%Z, []) request_token
    session_token _ eq_refl eq_refl (λ e n t, eq_refl) eq_refl encoded_request encoded_session).
  discriminate.
Defined.

Lemma tokens_roundtrip_witness :
  (∃ st', JWTSessionCodec_Decode (W := Time) codec session_token (2500%Z, []) = (st', Ret login_claims)) ∧
  (∃ st', JWTTrackedRequestCodec_Decode (W := Time) codec request_token (2500%Z, []) = (st', Ret tracked_request)).
Proof.
  refine (tokens_roundtrip codec login_assertion login_claims tracked_request (1500%Z, []) (1500%Z, []) (1500%Z, [])
    session_token request_token (2500%Z, []) _ eq_refl (λ e n t, eq_refl) eq_refl encoded_session encoded_request _ _).
  - discriminate.
  - vm_compute. discriminate.
  - vm_compute. discriminate.
Defined.

(** *** The login *)

Definition request_at_page : TrackedRequest := mkTrackedRequest index "req1" "https:/page".

Definition after_parsing : St Time :=
  (ParseResponse (M_ServiceProvider the_middleware) (request_Form acs_request) (PostForm acs_request)
     (HTTPRequest_URL acs_request) ["req1"] (1500%Z, [])).1.

Lemma login_completes_witness :
  ∃ st k claims, ServeACS the_middleware acs_request (1500%Z, []) = (st, Ret ()) ∧
    SetCookie k ∈ st.2 ∧ HttpRedirect (redirect_location acs_request (target the_middleware (Some request_at_page))) 302 ∈ st.2 ∧
    SessionClaims_Attributes claims = Some (session_attributes login_assertion) ∧
    session_serves the_middleware k claims (TimeNow_ after_parsing.1).2.
Proof.
  refine (login_completes options the_middleware acs_request 1500%Z (1500%Z, []) [request_at_page] after_parsing
    login_assertion (Some request_at_page) after_parsing the_middleware_New _ _ _ _ _).
  - split_and!; [discriminate|by intros|by intros].
  - vm_compute. reflexivity.
  - vm_compute. reflexivity.
  - vm_compute. reflexivity.
  - split; vm_compute; [discriminate|reflexivity].
Defined.

(** *** The start of the flow *)

Definition started := RequireAccount the_middleware show_attributes None page (1000%Z, []).

Lemma started_ret : RequireAccount the_middleware show_attributes None page (1000%Z, []) = (started.1, Ret ()).
Proof. vm_compute. reflexivity. Qed.

Lemma started_without_error : no_error_page started.1.2.
Proof.
  intros err code Hin.
  assert (H : forallb (λ e, match e with HttpErrorOf _ _ => false | _ => true end) started.1.2 = true) by (vm_compute; reflexivity).
  by apply (proj1 (forallb_elem _ _) H) in Hin.
Qed.

Lemma auth_flow_tracked_witness :
  ∃ binding authReq index s0 k, start_binding the_middleware = Ret binding ∧
    MakeAuthenticationRequest (M_ServiceProvider the_middleware) binding.2 binding.1 (M_ResponseBinding the_middleware)
      (1000%Z, []) = (s0, Ret authReq) ∧
    sent the_middleware binding.1 authReq index started.1.2 ∧ SetCookie k ∈ started.1.2 ∧
    ∀ r' later, request_Cookie (Cookie_Name k) r' = Ret (Cookie_Value k) →
      (∀ n, let now := (TimeNow_ (clock_readings n later.1)).2 in
         (issue_time s0 <= now)%Z ∧ (now + 10 ^ 9 <= Time_Add (issue_time s0) MaxIssueDelay)%Z) →
      (∀ s requests, GetTrackedRequests (M_RequestTracker the_middleware) r' later = (s, Ret requests) →
         AuthnRequest_ID authReq ∈ possible_request_ids the_middleware requests) ∧
      ∃ s, GetTrackedRequest (M_RequestTracker the_middleware) r' index later
        = (s, Ret (mkTrackedRequest index (AuthnRequest_ID authReq) (URL_String (HTTPRequest_URL page)))).
Proof.
  refine (auth_flow_tracked options the_middleware show_attributes None page 1000%Z started.1 the_middleware_New _ eq_refl
    eq_refl (λ i id e n t, eq_refl) started_ret started_without_error).
  discriminate.
Defined.

(** *** Metadata *)

#[local] Instance metadata_xml : MetadataXml := {|
  Unmarshal_EntityDescriptor _ := Err unexpected_EntitiesDescriptor;
  Unmarshal_EntitiesDescriptor text :=
    Ret (mkEntitiesDescriptor None None None None None [] [plain_metadata "other"; idp_metadata]);
  MarshalIndent_EntityDescriptor := EntityDescriptor_EntityID;
  Encode_EntityDescriptor m := Ret (EntityDescriptor_EntityID m)
|}.

Lemma FetchMetadata_bound_witness :
  ∃ req resp s1 s2 data, NewRequest "GET" (URL_String (url_of "metadata")) "" = Ret req ∧
    effect (W := Time) (Client_Do (default (mkHTTPClient "" DefaultRedirects defaultFetchMetadataTimeout) None) req) (1500%Z, [])
      = (s1, Ret resp) ∧
    (Response_StatusCode resp < 400)%Z ∧
    effect (Response_ReadAll resp (maxMetadataSize + 1)%Z) s1 = (s2, Ret data) ∧
    (Z.of_nat (String.length data) <= maxMetadataSize)%Z ∧ xrv_Validate data = Ret () ∧ describes data idp_metadata.
Proof.
  refine (FetchMetadata_bound None (url_of "metadata") (1500%Z, []) (1500%Z, []) idp_metadata _).
  vm_compute. reflexivity.
Defined.
End Examples.
