(* ===== verification/MetadataSpec.v ===== *)
(** * MetadataSpec: published metadata

    What is read from metadata that is written: any metadata in general, those that an
    identity provider serves by the service provider that fetches them, and those that a service
    provider serves by the identity provider that registers them. *)

From stdpp Require Import base option list gmap strings.
From Stdlib Require Import ZArith Lia Ascii.
From S2P Require Import Prelude Go Duration RelaxedTime Encoding Etree C14n Schema Env Http XmlTree ServiceProvider.
From S2P Require Import SchemaXML XmlDecode XmlEncode SchemaDecode MetadataCodec SchemaRoundtrip MetadataRoundtrip.
From S2P Require Import IdentityProvider Assertions SPMessages Store Jwt Middleware MiddlewareDefaults IdpServer IdpServerAdmin.

Open Scope string_scope.

#[local] Existing Instance metadata_xml.

(** Structs are compared by their tags before they are written or read. *)
#[local] Strategy 1000 [marshal_struct unmarshal_struct].

(** ** Metadata in general *)

Section roundtrip.
Context `{UrlI : UrlOps} `{EtreeX : EtreeXml}.

(** The metadata as they are written: valid until the nearest millisecond. *)
Definition published (m : EntityDescriptor) : EntityDescriptor :=
  set EntityDescriptor_ValidUntil (Time_Round (EntityDescriptor_ValidUntil m) Millisecond) m.

Lemma published_written space local m :
  EntityDescriptor_MarshalXML space local m = EntityDescriptor_MarshalXML space local (published m).
Proof.
  assert (Ht : RelaxedTime_String (EntityDescriptor_ValidUntil m)
               = RelaxedTime_String (Time_Round (EntityDescriptor_ValidUntil m) Millisecond)).
  { unfold RelaxedTime_String. f_equal. symmetry.
    destruct (Time_Round_spec (EntityDescriptor_ValidUntil m) Millisecond) as (Hm & _ & _); [done|].
    by destruct (Time_Round_spec (Time_Round (EntityDescriptor_ValidUntil m) Millisecond) Millisecond) as (_ & _ & ->). }
  destruct m as [i x v d s r ip sp aa at' pd af o c ml]. unfold published. cbn in Ht |- *.
  unfold EntityDescriptor_MarshalXML, marshal_struct.
  cbn [map tag_out EntityDescriptor_tags tag_pointer tag_slice tag_attr tag_attr_ns out_attrs attr_write relaxed_attr
       metadata_name EntityDescriptor_ValidUntil].
  by rewrite Ht.
Qed.

Lemma entity_roundtrip m : entity_ok (published m) → ∃ e,
  EntityDescriptor_MarshalXML "" "EntityDescriptor" m = Ret e ∧
  ∀ ns l, scope_ok ns → EntityDescriptor_UnmarshalXML ns (laid_out l e) zero_EntityDescriptor = Ret (published m).
Proof.
  intros Hok. destruct (rt "" "EntityDescriptor" (published m)) as [e [Hw _ _ Hr]]; [by split|done|].
  exists e. split; [|exact Hr]. rewrite published_written. exact Hw.
Qed.
End roundtrip.

(** ** Metadata that are served *)

Section published.
Context {W : Type} `{UrlI : UrlOps} `{EtreeX : EtreeXml} `{XmlP : XmlParser} `{WorldI : World W}.

(** The parser reads what the encoder prints of the metadata: the tree of its element, with
    the indentation as character data; and it finds nothing in it that is unstable. *)
Definition parses (m : EntityDescriptor) : Prop :=
  ∀ e, EntityDescriptor_MarshalXML "" "EntityDescriptor" m = Ret e →
    xml_Parse (write_xml (Some 0%nat) e) = Ret (laid_out (Some 0%nat) e) ∧
    roundtrip_Validate (write_xml (Some 0%nat) e) = Ret ().

Lemma MarshalIndent_text m e : EntityDescriptor_MarshalXML "" "EntityDescriptor" m = Ret e →
  MarshalIndent_EntityDescriptor m = write_xml (Some 0%nat) e.
Proof. intros He. simpl. by rewrite He. Qed.

Lemma published_read m : parses m → entity_ok (published m) →
  xrv_Validate (MarshalIndent_EntityDescriptor m) = Ret () ∧
  Unmarshal_EntityDescriptor (MarshalIndent_EntityDescriptor m) = Ret (published m).
Proof.
  intros Hp Hok. destruct (entity_roundtrip m Hok) as (e & He & Hr). destruct (Hp e He) as [Hparse Hvalid].
  rewrite (MarshalIndent_text m e He). simpl. unfold xml_Unmarshal. rewrite Hparse. split; [done|]. by apply Hr.
Qed.

(** A location that the check of endpoints accepts. *)
Definition http_url (location : string) : Prop :=
  ∃ u, url_Parse location = Ret u ∧ URL_Scheme u ∈ ["http"; "https"].

Definition known_binding (binding : string) : Prop :=
  binding ∈ [HTTPPostBinding; HTTPRedirectBinding; HTTPArtifactBinding; SOAPBinding; SOAPBindingV1].

Lemma known_HTTPPost : known_binding HTTPPostBinding.
Proof. unfold known_binding. rewrite list_elem_of_In. simpl. tauto. Qed.
Lemma known_HTTPRedirect : known_binding HTTPRedirectBinding.
Proof. unfold known_binding. rewrite list_elem_of_In. simpl. tauto. Qed.
Lemma known_HTTPArtifact : known_binding HTTPArtifactBinding.
Proof. unfold known_binding. rewrite list_elem_of_In. simpl. tauto. Qed.

Lemma checkEndpointLocation_known binding location l : known_binding binding →
  checkEndpointLocation binding location = Ret l ↔ l = location ∧ http_url location.
Proof.
  intros Hb. unfold checkEndpointLocation. rewrite bool_decide_eq_true_2 by done. unfold http_url. split.
  - intros (u & Hu%map_err_ret & (? & Hs%raise_if_ret & [= <-])%bind_ret)%bind_ret.
    split; [done|]. exists u. split; [done|]. bool_prop. done.
  - intros [-> (u & -> & Hs)]. simpl. by rewrite bool_decide_eq_true_2.
Qed.

Lemma endpoint_http binding location : known_binding binding → http_url location →
  rt_ok (mkEndpoint binding location "").
Proof.
  intros Hb Hl. cbn [rt_ok Endpoint_rt]. unfold Endpoint_UnmarshalXML. simpl.
  by rewrite (proj2 (checkEndpointLocation_known binding location location Hb)).
Qed.

Lemma published_ValidUntil t : four_digit_year (Time_Round t Millisecond) → whole_milliseconds (Time_Round t Millisecond).
Proof. intros H. split; [done|]. by apply Time_Round_spec. Qed.

(** *** Identity provider *)

Context `{VarsI : PackageVars} `{NetI : NetOps} `{X509I : X509Ops}.

(** What the identity provider publishes can be read: its URLs are of the web, and its times
    and durations are among those that XML can express. *)
Record idp_publishable (idp : IdentityProvider W) (m : EntityDescriptor) : Prop := {
  idp_sso : http_url (URL_String (IDP_SSOURL idp));
  idp_logout : URL_String (IDP_LogoutURL idp) = "" ∨ http_url (URL_String (IDP_LogoutURL idp));
  idp_until : four_digit_year (Time_Round (EntityDescriptor_ValidUntil m) Millisecond);
  idp_duration : whole_seconds (EntityDescriptor_CacheDuration m)
}.

Definition idp_endpoints (location : string) : list Endpoint :=
  [mkEndpoint HTTPRedirectBinding location ""; mkEndpoint HTTPPostBinding location ""].

(** The metadata of an identity provider: its keys with its certificate for signatures, and
    its endpoints. *)
Lemma Metadata_ret idp st st' m : Metadata idp st = (st', Ret m) → ∃ cert keys validUntil duration wantSigned,
  IDP_Certificate idp = Some cert ∧
  mjoin (map signing_cert_strs keys) = [base64_Encode (Certificate_Raw cert)] ∧
  m = entity (URL_String (IDP_MetadataURL idp)) validUntil duration
        [mkIDPSSODescriptor
           (mkSSODescriptor (role "urn:oasis:names:tc:SAML:2.0:protocol" keys None) []
              (if URL_String (IDP_LogoutURL idp) != "" then idp_endpoints (URL_String (IDP_LogoutURL idp)) else []) []
              [TransientNameIDFormat])
           wantSigned (idp_endpoints (URL_String (IDP_SSOURL idp))) [] [] [] [] []] [].
Proof.
  unfold Metadata. intros (cert & Hc%deref_ret & (s1 & now & _ & H)%io_bind_ret)%io_lift_bind. injection H as _ <-.
  do 5 eexists. split; [exact Hc|]. split; [|reflexivity]. by destruct (is_rsa _).
Qed.

Lemma idp_endpoints_ok location : http_url location → Forall rt_ok (idp_endpoints location).
Proof.
  intros H. repeat constructor; (apply endpoint_http; [|done]); [apply known_HTTPRedirect|apply known_HTTPPost].
Qed.

Lemma role_plain_ok protocols keys validUntil : (∀ t, validUntil = Some t → four_digit_year t) →
  role_ok (role protocols keys validUntil).
Proof. intros H. split; simpl; [done|by left|done]. Qed.

Lemma entity_plain_ok id t d idps sps : four_digit_year (Time_Round t Millisecond) → whole_seconds d →
  Forall rt_ok idps → Forall rt_ok sps → entity_ok (published (entity id t d idps sps)).
Proof. intros Ht Hd Hi Hs. split; try done; by apply published_ValidUntil || constructor. Qed.

Lemma idp_metadata_ok idp st st' m : Metadata idp st = (st', Ret m) → idp_publishable idp m → entity_ok (published m).
Proof.
  intros (cert & keys & t & d & want & _ & _ & ->)%Metadata_ret [Hsso Hlo Ht Hd].
  apply entity_plain_ok; [done|done| |constructor]. constructor; [|constructor]. cbn.
  split_and!; try (by constructor).
  - by apply role_plain_ok.
  - case_bool_decide as E; simpl; [constructor|]. apply idp_endpoints_ok. by destruct Hlo.
  - by apply idp_endpoints_ok.
Qed.

(** What a service provider with the metadata uses. *)
Lemma idp_metadata_used idp st st' m cert sp : Metadata idp st = (st', Ret m) →
  IDP_Certificate idp = Some cert → ParseCertificate (Certificate_Raw cert) = Ret cert →
  SP_IDPMetadata sp = Some (published m) →
  getIDPSigningCerts sp = Ret [cert] ∧
  ∀ binding, binding ∈ [HTTPRedirectBinding; HTTPPostBinding] →
    GetSSOBindingLocation sp binding = Ret (URL_String (IDP_SSOURL idp)) ∧
    GetSLOBindingLocation sp binding = Ret (URL_String (IDP_LogoutURL idp)).
Proof.
  intros (cert' & keys & t & d & want & Hc & Hk & ->)%Metadata_ret Hcert Hparse Hsp.
  rewrite Hcert in Hc. injection Hc as <-. split.
  - unfold getIDPSigningCerts. rewrite Hsp. simpl. unfold idp_key_descriptors. simpl. rewrite app_nil_r, Hk. simpl.
    unfold parse_cert_str. rewrite base64_Encode_no_space, base64_Decode_Encode. simpl. by rewrite Hparse.
  - intros b Hb. unfold GetSSOBindingLocation, GetSLOBindingLocation, binding_location. rewrite Hsp. simpl.
    rewrite list_elem_of_In in Hb. destruct Hb as [<-|[<-|[]]]; simpl; (split; [done|]); case_bool_decide as E; simpl; congruence.
Qed.

(** *** Service provider *)

(** *** What is read was written *)

Lemma fold_each_ret {A B} (f : A → B → outcome B) l v w x :
  fold_each f l v = Ret w → x ∈ l → ∃ a b, f x a = Ret b.
Proof.
  revert v. induction l as [|y l IH]; intros v H; [by intros ?%not_elem_of_nil|]. simpl in H.
  apply bind_ret in H as (b & Hb & H). intros [->|Hx]%elem_of_cons; eauto.
Qed.

Lemma out_tokens_element {A} (fields : list (OutField A)) i f x c : out_tokens fields x = Ret c →
  fields !! i = Some (OElement f) → ∃ els, f x = Ret els ∧ ∀ y, y ∈ els → y ∈ omap token_element c.
Proof.
  revert i c. induction fields as [|g fs IH]; intros i c H Hi; [done|].
  assert (Hm : ∀ els, omap token_element (map TElement els) = els)
    by (intros els; induction els as [|e l IHl]; [done|by cbn; f_equal; apply IHl]).
  destruct g as [g|g|g]; simpl in H.
  - destruct i as [|i]; [done|]. by apply (IH i).
  - apply bind_ret in H as (els & Hg & (rest & Hrest & [= <-])%bind_ret). rewrite omap_app, Hm.
    destruct i as [|i]; [injection Hi as ->; exists els; split; [done|]; intros y Hy; apply elem_of_app; by left|].
    destruct (IH i rest Hrest Hi) as (els' & He & Hin). exists els'. split; [done|]. intros y Hy.
    apply elem_of_app. right. by apply Hin.
  - destruct i as [|i]; [done|]. apply bind_ret in H as (rest & Hrest & [= <-]).
    rewrite omap_app, text_tokens_els. by apply (IH i).
Qed.

Lemma marshal_struct_Tag {A} n (fields : list (OutField A)) space local x e : named n local →
  marshal_struct n fields space local x = Ret e → Tag e = local.
Proof.
  intros [_ Hn]. unfold marshal_struct. destruct n as [n|]; simpl in Hn; subst;
    by intros (attrs & _ & (c & _ & [= <-])%bind_ret)%bind_ret.
Qed.

(** If a struct is read from what was written of [x], so is each value of a slice. *)
Lemma slice_inversion {A C} `{XmlT : !XmlType C} n n' (tags : list (Tagged A)) i space name (proj : A → list C)
    `{!Setter proj} s local x e ns l v w y :
  marshal_struct n (map tag_out tags) s local x = Ret e →
  unmarshal_struct n' (map tag_in tags) ns (laid_out l e) v = Ret w →
  tags !! i = Some (tag_slice space name proj) → y ∈ proj x →
  (∀ e', xml_write space name y = Ret e' → Tag e' = name) →
  (∀ sp, find_field (map tag_in tags) sp name
         = Some (λ ns el v, y ← slice xml_zero xml_read ns el (proj v); Ret (set proj y v))) →
  ∃ e' ns' l' z, xml_write space name y = Ret e' ∧ xml_read ns' (laid_out l' e') xml_zero = Ret z.
Proof.
  intros Hw Hr Hi Hy Htag Hfind. unfold marshal_struct in Hw.
  destruct (match n with Some _ => _ | None => _ end) as [s' local'].
  apply bind_ret in Hw as (attrs & _ & (c & Hc & [= <-])%bind_ret).
  assert (Hi' : map tag_out tags !! i = Some (OElement (λ v, map_each (xml_write space name) (proj v))))
    by (rewrite list_lookup_fmap, Hi; done).
  destruct (out_tokens_element _ _ _ _ _ Hc Hi') as (els & Hels & Hin).
  apply map_each_ret in Hels. apply list_elem_of_lookup in Hy as [j Hj].
  destruct (Forall2_lookup_l _ _ _ _ _ Hels Hj) as (e' & He' & Hwrite).
  unfold unmarshal_struct in Hr. apply bind_ret in Hr as (_ & _ & Hr). apply bind_ret in Hr as (va & _ & Hr).
  apply bind_ret in Hr as (vl & Hr & _). rewrite read_children in Hr.
  fold (ChildElements (laid_out l (mkElement "" local' (start_attrs s' ++ attrs) c))) in Hr. rewrite laid_out_els in Hr.
  destruct (fold_each_ret _ _ _ _ (laid_out (deeper l) e') Hr) as (a & b & Hab).
  { apply list_elem_of_fmap. exists e'. split; [done|]. apply Hin. by eapply list_elem_of_lookup_2. }
  rewrite unmarshalPath_find, laid_out_Tag, (Htag e' Hwrite), Hfind in Hab.
  apply bind_ret in Hab as (ys & Hys & _). unfold slice in Hys. apply bind_ret in Hys as (z & Hz & _). eauto 10.
Qed.

Lemma endpoint_read_back space local ep e ns l :
  xml_write space local ep = Ret e → xml_read ns (laid_out l e) xml_zero = Endpoint_UnmarshalXML ep.
Proof.
  destruct ep as [b u r]. simpl. unfold marshal_struct. simpl. intros [= <-].
  unfold start_attrs, nonempty. destruct (bool_decide (space = "")), (decide (r = "")) as [->|Hr];
    [|rewrite (bool_decide_eq_false_2 _ Hr)| |rewrite (bool_decide_eq_false_2 _ Hr)]; reflexivity.
Qed.

Lemma acs_read_back space local b u (z : Z) e ns l : z = 1%Z ∨ z = 2%Z →
  xml_write space local (mkIndexedEndpoint b u None z None) = Ret e →
  xml_read ns (laid_out l e) xml_zero = IndexedEndpoint_UnmarshalXML (mkIndexedEndpoint b u None z None).
Proof.
  intros [-> | ->]; simpl; unfold marshal_struct; simpl; intros [= <-]; unfold start_attrs;
    destruct (bool_decide (space = "")); reflexivity.
Qed.

(** The bindings of the logout endpoints are those of SAML, and the times have four digits. *)
Record sp_publishable sp (now : Time) : Prop := {
  sp_bindings : Forall known_binding (SP_LogoutBindings sp);
  sp_until : four_digit_year (EntityDescriptor_ValidUntil (sp_metadata_at sp now));
  sp_until_rounded : four_digit_year (Time_Round (EntityDescriptor_ValidUntil (sp_metadata_at sp now)) Millisecond)
}.

(** The locations of the endpoints that are published are URLs of the web. *)
Definition sp_locations_ok sp : Prop :=
  http_url (URL_String (SP_AcsURL sp)) ∧ (SP_LogoutBindings sp = [] ∨ http_url (URL_String (SP_SloURL sp))).

Lemma logout_endpoint_ok binding location : known_binding binding → http_url location →
  rt_ok (mkEndpoint binding location location).
Proof.
  intros Hb Hl. cbn [rt_ok Endpoint_rt]. unfold Endpoint_UnmarshalXML. simpl.
  rewrite (proj2 (checkEndpointLocation_known binding _ _ Hb) (conj eq_refl Hl)). simpl.
  case_bool_decide as E; simpl; [by rewrite E|done].
Qed.

Lemma acs_ok binding location z : known_binding binding → http_url location → (0 <= z < 2 ^ 63)%Z →
  rt_ok (mkIndexedEndpoint binding location None z None).
Proof.
  intros Hb Hl Hz. split; [done|]. unfold IndexedEndpoint_UnmarshalXML. simpl.
  by rewrite (proj2 (checkEndpointLocation_known binding _ _ Hb) (conj eq_refl Hl)).
Qed.

Lemma sp_metadata_ok sp now : sp_publishable sp now → sp_locations_ok sp → entity_ok (published (sp_metadata_at sp now)).
Proof.
  intros [Hb Hu Hr] [Hacs Hslo]. apply entity_plain_ok; [done|done|constructor|]. constructor; [|constructor].
  cbn [rt_ok SPSSODescriptor_rt SPSSODescriptor_SSODescriptor SSODescriptor_RoleDescriptor].
  split_and!; [|constructor| |constructor| |constructor].
  - apply role_plain_ok. by intros t [= <-].
  - cbn. destruct Hslo as [->|Hslo]; [constructor|].
    induction Hb as [|b l Hb _ IH]; constructor; [by apply logout_endpoint_ok|done].
  - constructor; [|constructor; [|constructor]]; apply acs_ok; first [done|apply known_HTTPPost|apply known_HTTPArtifact].
Qed.

(** If anything is read of the metadata then their locations are of the web. *)
Lemma sp_metadata_read_locations sp now e ns l v w : sp_publishable sp now →
  EntityDescriptor_MarshalXML "" "EntityDescriptor" (sp_metadata_at sp now) = Ret e →
  EntityDescriptor_UnmarshalXML ns (laid_out l e) v = Ret w → sp_locations_ok sp.
Proof.
  intros [Hb _ _] He Hw. set (m := sp_metadata_at sp now) in *.
  destruct (slice_inversion _ _ EntityDescriptor_tags 7 "" "SPSSODescriptor" EntityDescriptor_SPSSODescriptors
              _ _ _ _ _ _ _ _ (List.hd zero_SPSSODescriptor (EntityDescriptor_SPSSODescriptors m)) He Hw)
    as (e1 & ns1 & l1 & z1 & He1 & Hz1); [reflexivity|by left| |reflexivity|].
  { intros e'. by apply marshal_struct_Tag. }
  clear He Hw. split.
  - destruct (slice_inversion _ _ SPSSODescriptor_tags 15 "" "AssertionConsumerService" SPSSODescriptor_AssertionConsumerServices
                _ _ _ _ _ _ _ _ (mkIndexedEndpoint HTTPPostBinding (URL_String (SP_AcsURL sp)) None 1 None) He1 Hz1)
      as (e2 & ns2 & l2 & z2 & He2 & Hz2); [reflexivity|by left| |reflexivity|].
    { intros e'. by apply marshal_struct_Tag. }
    rewrite (acs_read_back _ _ _ _ _ _ _ _ ltac:(by left) He2) in Hz2.
    apply bind_ret in Hz2 as (loc & Hloc & _). apply checkEndpointLocation_known in Hloc as [_ Hloc]; [done|apply known_HTTPPost].
  - destruct (SP_LogoutBindings sp) as [|b bs] eqn:Hbs; [by left|right]. apply Forall_cons in Hb as [Hb _].
    destruct (slice_inversion _ _ SPSSODescriptor_tags 10 "" "SingleLogoutService"
                (SSODescriptor_SingleLogoutServices ∘ SPSSODescriptor_SSODescriptor)
                _ _ _ _ _ _ _ _ (mkEndpoint b (URL_String (SP_SloURL sp)) (URL_String (SP_SloURL sp))) He1 Hz1)
      as (e2 & ns2 & l2 & z2 & He2 & Hz2); [reflexivity| | |reflexivity|].
    { cbn. rewrite Hbs. by left. }
    { intros e'. by apply marshal_struct_Tag. }
    rewrite (endpoint_read_back _ _ _ _ _ _ He2) in Hz2.
    apply bind_ret in Hz2 as (loc & Hloc & _). by apply checkEndpointLocation_known in Hloc as [_ Hloc].
Qed.
End published.

(** Writing does not look at the locations. *)
Definition any_url `{UrlI : UrlOps} : UrlOps := {|
  URL_String := URL_String;
  url_Parse s := Ret (mkURL "https" "" "" "" s "" "" "")
|}.

Lemma write_any_url `{UrlI : UrlOps} `{EtreeX : EtreeXml} space local m :
  EntityDescriptor_MarshalXML (UrlI := any_url) space local m = EntityDescriptor_MarshalXML space local m.
Proof.
  unfold EntityDescriptor_MarshalXML, EntityDescriptor_tags, RoleDescriptor_xml, IDPSSODescriptor_xml, SPSSODescriptor_xml,
    AuthnAuthorityDescriptor_xml, AttributeAuthorityDescriptor_xml, PDPDescriptor_xml, IDPSSODescriptor_tags,
    SPSSODescriptor_tags, AuthnAuthorityDescriptor_tags, AttributeAuthorityDescriptor_tags, PDPDescriptor_tags,
    SSODescriptor_tags_rest, struct_type, Endpoint_xml, IndexedEndpoint_xml.
  cbn [map tag_out tag_slice tag_pointer tag_value tag_attr tag_attr_ns xml_write app].
  reflexivity.
Qed.

Section registered.
Context {W : Type} `{UrlI : UrlOps} `{EtreeX : EtreeXml} `{XmlP : XmlParser} `{WorldI : World W}.

Lemma sp_metadata_written sp now : sp_publishable sp now →
  ∃ e, EntityDescriptor_MarshalXML "" "EntityDescriptor" (sp_metadata_at sp now) = Ret e.
Proof.
  intros [Hb Hu Hr]. destruct (entity_roundtrip (UrlI := any_url) (sp_metadata_at sp now)) as (e & He & _).
  - apply (sp_metadata_ok (UrlI := any_url) sp now); [by split|]. split; [|right]; eexists; (split; [reflexivity|]); apply list_elem_of_In; simpl; tauto.
  - exists e. by rewrite <- write_any_url.
Qed.

(** The text is no list of entities. *)
Lemma no_entities m : parses m → (∃ e, EntityDescriptor_MarshalXML "" "EntityDescriptor" m = Ret e) →
  ∃ err, Unmarshal_EntitiesDescriptor (MarshalIndent_EntityDescriptor m) = Err err.
Proof.
  intros Hp [e He]. destruct (Hp e He) as [Hparse _]. pose proof He as Htag. apply marshal_struct_Tag in Htag; [|done].
  rewrite (MarshalIndent_text m e He). simpl. unfold xml_Unmarshal. rewrite Hparse. simpl. unfold EntitiesDescriptor_UnmarshalXML.
  destruct (depth (laid_out (Some 0%nat) e)) as [|n]; [by eexists|]. eexists.
  cbn [EntitiesDescriptor_read]. unfold unmarshal_struct, expect_name. rewrite laid_out_Tag, Htag. reflexivity.
Qed.

(** ** Properties *)

(** C21: roundtrip. Metadata are written, and what the decoder gets from the text of their
    element, with the indentation of the printer or without, it reads as the same metadata with
    the end of their validity rounded to a millisecond: for entities, and for entities in lists
    that are nested to any depth.  The texts and attributes of the element must be valid UTF-8 of
    the characters of XML.  What [entity_ok] and [entities_ok] ask for: times of the years 0 to 9999
    (whole milliseconds for the [ValidUntil] of a list and of the entities in it), an entity's [CacheDuration] of whole seconds, a list's
    [CacheDuration] that is none or whole seconds other than 0 (0 is written as an empty text, which
    is refused), a role's [CacheDuration] that is empty or a valid duration and an affiliation's that
    is none or a valid duration, endpoints whose locations pass the check unchanged, indices from 0 to
    2^63 - 1, roles of identity providers without the [ArtifactResolutionServices] of their
    [SSODescriptor] (two fields have the name, and the decoder uses the other), attribute values
    without a [NameID], and no signatures. *)
Theorem metadata_roundtrip :
  (∀ m, entity_ok (published m) → ∃ e,
    EntityDescriptor_MarshalXML "" "EntityDescriptor" m = Ret e ∧
    reads_back EntityDescriptor_UnmarshalXML zero_EntityDescriptor (published m) e) ∧
  (∀ m, entities_ok m → ∃ e,
    EntitiesDescriptor_MarshalXML "" "EntitiesDescriptor" m = Ret e ∧
    reads_back EntitiesDescriptor_UnmarshalXML zero_EntitiesDescriptor m e).
Proof.
  split; intros m Hm.
  - destruct (entity_roundtrip m Hm) as (e & He & Hr). exists e. split; [done|by apply laid_out_reads_back].
  - destruct (entities_roundtrip m Hm) as (e & He & Hr). exists e. split; [done|by apply laid_out_reads_back].
Qed.
End registered.

Section arrives.
Context {W : Type} `{UrlI : UrlOps} `{EtreeX : EtreeXml} `{XmlP : XmlParser} `{WorldI : World W}.
Context `{VarsI : PackageVars} `{NetI : NetOps} `{X509I : X509Ops}.

(** C9: liveness. The text of the metadata that an identity provider serves is parsed by
    [ParseMetadata] to these metadata, and a service provider that uses them trusts exactly
    the certificate of the identity provider and sends its requests and its logout messages
    to the endpoints that the identity provider is configured with. *)
Theorem idp_metadata_arrives idp st st' m cert
    (Hmetadata : Metadata idp st = (st', Ret m)) (Hok : idp_publishable idp m) (Hparses : parses m)
    (Hcert : IDP_Certificate idp = Some cert) (Hparse : ParseCertificate (Certificate_Raw cert) = Ret cert) :
  ParseMetadata (MarshalIndent_EntityDescriptor m) = Ret (published m) ∧
  ∀ sp, SP_IDPMetadata sp = Some (published m) →
    getIDPSigningCerts sp = Ret [cert] ∧
    ∀ binding, binding ∈ [HTTPRedirectBinding; HTTPPostBinding] →
      GetSSOBindingLocation sp binding = Ret (URL_String (IDP_SSOURL idp)) ∧
      GetSLOBindingLocation sp binding = Ret (URL_String (IDP_LogoutURL idp)).
Proof.
  destruct (published_read m Hparses) as [Hv Hu]; [by eapply idp_metadata_ok|]. split.
  - unfold ParseMetadata. rewrite Hv, ret_bind. by rewrite Hu.
  - intros sp Hsp. by eapply idp_metadata_used.
Qed.

(** C35: error. Of the text of the metadata that a service provider serves the identity
    provider's server reads these metadata if the assertion consumer service and, where logout
    bindings are configured, the logout service have a URL of the web; otherwise it refuses
    the text.  So the metadata of a service provider with a logout binding and without a logout
    URL, which are published with an empty location, are refused. *)
Theorem sp_metadata_registered sp now (Hok : sp_publishable sp now) (Hparses : parses (sp_metadata_at sp now)) m :
  getSPMetadata (MarshalIndent_EntityDescriptor (sp_metadata_at sp now)) = Ret m ↔
  m = published (sp_metadata_at sp now) ∧ sp_locations_ok sp.
Proof.
  set (doc := sp_metadata_at sp now) in *. destruct (sp_metadata_written sp now Hok) as [e He]. fold doc in He.
  split.
  - unfold getSPMetadata. intros ([] & _ & H)%bind_ret. destruct (no_entities doc Hparses) as [err Herr]; [by eexists|].
    destruct (Hparses e He) as [Hp _]. pose proof (MarshalIndent_text doc e He) as Ht.
    destruct (Unmarshal_EntityDescriptor _) as [w|x|] eqn:Hu; [|destruct (x == _); [by rewrite Herr in H|done]|done].
    assert (Hloc : sp_locations_ok sp).
    { rewrite Ht in Hu. simpl in Hu. unfold xml_Unmarshal in Hu. rewrite Hp, ret_bind in Hu.
      by eapply sp_metadata_read_locations. }
    split; [|done]. destruct (published_read doc Hparses) as [_ Hr]; [by apply sp_metadata_ok|].
    rewrite Hr in Hu. congruence.
  - intros [-> Hloc]. destruct (published_read doc Hparses) as [Hv Hr]; [by apply sp_metadata_ok|].
    unfold getSPMetadata. rewrite Hv, ret_bind. by rewrite Hr.
Qed.
End arrives.
