(* ===== verification/MetadataExamples.v ===== *)
(** * MetadataExamples: metadata of concrete providers

    The witnesses of [MetadataSpec]: a service provider of the tests of the library with the
    golden file of its metadata, an identity provider, and entities in lists. *)

From stdpp Require Import base option list gmap strings.
From Stdlib Require Import ZArith Lia Ascii.
From S2P Require Import Prelude Go Duration RelaxedTime Encoding Etree C14n Schema Env Http XmlTree ServiceProvider Reference.
From S2P Require Import SchemaXML XmlDecode XmlEncode SchemaDecode MetadataCodec SchemaRoundtrip MetadataRoundtrip.
From S2P Require Import IdentityProvider Assertions SPMessages Store Jwt Middleware MiddlewareDefaults IdpServer IdpServerAdmin.
From S2P Require Import MetadataSpec.

Open Scope string_scope.

Module Examples.

(** URLs by their text. *)
#[local] Instance plain_url : UrlOps := {|
  URL_String := URL_Path;
  url_Parse s := Ret (mkURL (split_name s).1 "" "" "" s "" "" "")
|}.

Definition plain (text : string) : URL := mkURL "" "" "" "" text "" "" "".

#[local] Instance no_signatures : EtreeXml := {| marshal_etree _ _ _ := Err (Errorf "no signatures" []) |}.

#[local] Existing Instance default_vars.

(** A parser of one document. *)
Definition parser_of (m : EntityDescriptor) : XmlParser := {|
  xml_Parse text :=
    match EntityDescriptor_MarshalXML "" "EntityDescriptor" m with
    | Ret e => if text == write_xml (Some 0%nat) e then Ret (laid_out (Some 0%nat) e) else Err (Sentinel "io.EOF")
    | _ => Err (Sentinel "io.EOF")
    end;
  roundtrip_Validate _ := Ret ()
|}.

Lemma parser_of_parses m : parses (XmlP := parser_of m) m.
Proof.
  intros e He. unfold xml_Parse, roundtrip_Validate, parser_of. rewrite He. by rewrite bool_decide_eq_true_2.
Qed.

(** The service provider of [TestCanProduceMetadataNoCerts]: it has a logout binding and no
    logout URL, and the text of its metadata is the golden file of the test. *)
Definition trusting (idp : option EntityDescriptor) (slo : string) : ServiceProvider :=
  mkServiceProvider "spn:11111111-2222-3333-4444-555555555555" None None [] None (plain "https://example.com/saml2/metadata")
    (plain "https://example.com/saml2/acs") (plain slo) idp None None None "" 0 None None false "" None ""
    [HTTPPostBinding] None None.

Definition sp : string → ServiceProvider := trusting None.

Definition now : Time := (63584704629 * Second - 48 * Hour)%Z.

Example golden_metadata :
  MarshalIndent (EntityDescriptor_MarshalXML "" "EntityDescriptor" (sp_metadata_at (sp "") now)) = Ret (quoted
"<EntityDescriptor xmlns='urn:oasis:names:tc:SAML:2.0:metadata' validUntil='2015-12-03T01:57:09Z' entityID='spn:11111111-2222-3333-4444-555555555555'>
  <SPSSODescriptor xmlns='urn:oasis:names:tc:SAML:2.0:metadata' validUntil='2015-12-03T01:57:09Z' protocolSupportEnumeration='urn:oasis:names:tc:SAML:2.0:protocol' AuthnRequestsSigned='false' WantAssertionsSigned='true'>
    <SingleLogoutService Binding='urn:oasis:names:tc:SAML:2.0:bindings:HTTP-POST' Location=''></SingleLogoutService>
    <NameIDFormat></NameIDFormat>
    <AssertionConsumerService Binding='urn:oasis:names:tc:SAML:2.0:bindings:HTTP-POST' Location='https://example.com/saml2/acs' index='1'></AssertionConsumerService>
    <AssertionConsumerService Binding='urn:oasis:names:tc:SAML:2.0:bindings:HTTP-Artifact' Location='https://example.com/saml2/acs' index='2'></AssertionConsumerService>
  </SPSSODescriptor>
</EntityDescriptor>").
Proof. vm_compute. reflexivity. Qed.

Lemma sp_ok slo : sp_publishable (sp slo) now.
Proof. split; [constructor; [apply known_HTTPPost|constructor]|by vm_compute..]. Qed.

(** The metadata are refused without a logout URL and accepted with one. *)
Lemma sp_metadata_registered_witness :
  let text slo := MarshalIndent_EntityDescriptor (MetadataXml := metadata_xml (XmlP := parser_of (sp_metadata_at (sp slo) now)))
                    (sp_metadata_at (sp slo) now) in
  let read slo m := getSPMetadata (XmlI := xml_ops (XmlP := parser_of (sp_metadata_at (sp slo) now)))
                      (MetadataI := metadata_xml (XmlP := parser_of (sp_metadata_at (sp slo) now))) (text slo) = Ret m in
  (∀ m, ¬ read "" m) ∧
  read "https://example.com/saml2/slo" (published (sp_metadata_at (sp "https://example.com/saml2/slo") now)).
Proof.
  split.
  - intros m H. apply (sp_metadata_registered (XmlP := parser_of (sp_metadata_at (sp "") now)) (sp "") now (sp_ok "") (parser_of_parses _)) in H
      as (_ & _ & [Hb|(u & Hu & Hs)]); [discriminate Hb|]. injection Hu as <-. by apply (bool_decide_eq_true_2 _) in Hs.
  - apply (sp_metadata_registered (XmlP := parser_of (sp_metadata_at (sp "https://example.com/saml2/slo") now)) _ now (sp_ok _) (parser_of_parses _)).
    split; [done|]. split; [|right]; eexists; (split; [reflexivity|]); by apply (bool_decide_eq_true_1 _).
Defined.

(** The identity provider: its metadata have its certificate and the endpoints of single
    sign-on and of single logout. *)
Definition cert : Certificate := mkCertificate "cert" (RSAPublicKey "cert") 0%Z (10 ^ 20)%Z.

Definition idp : IdentityProvider Time :=
  mkIdentityProvider Time (Some (mkSigner (RSAPublicKey "cert"))) None (Some cert) [] 0%Z
    (plain "https://idp.example.com/metadata") (plain "https://idp.example.com/sso") (plain "https://idp.example.com/login")
    (plain "https://idp.example.com/slo")
    (λ _ _ t, (t, Err os_ErrNotExist))
    (mkSessionProvider Time (λ _ _ s, (s, None)) None None None) None "" None None false None None None.

Definition idp_metadata : EntityDescriptor :=
  match (Metadata idp (now, [])).2 with Ret m => m | _ => zero_EntityDescriptor end.

Lemma idp_made : Metadata idp (now, []) = ((Metadata idp (now, [])).1, Ret idp_metadata).
Proof. reflexivity. Qed.

Lemma idp_ok : idp_publishable idp idp_metadata.
Proof.
  split; [| |by vm_compute..].
  - eexists. split; [reflexivity|]. by apply (bool_decide_eq_true_1 _).
  - right. eexists. split; [reflexivity|]. by apply (bool_decide_eq_true_1 _).
Qed.

Lemma idp_metadata_arrives_witness :
  let text := MarshalIndent_EntityDescriptor (MetadataXml := metadata_xml (XmlP := parser_of idp_metadata)) idp_metadata in
  let sp := trusting (Some (published idp_metadata)) "" in
  ParseMetadata (XmlI := xml_ops (XmlP := parser_of idp_metadata)) (MetadataI := metadata_xml (XmlP := parser_of idp_metadata)) text
    = Ret (published idp_metadata) ∧
  getIDPSigningCerts sp = Ret [cert] ∧
  GetSSOBindingLocation sp HTTPRedirectBinding = Ret "https://idp.example.com/sso" ∧
  GetSLOBindingLocation sp HTTPPostBinding = Ret "https://idp.example.com/slo".
Proof.
  destruct (idp_metadata_arrives (X509I := ref_x509) (XmlP := parser_of idp_metadata) idp (now, []) _ idp_metadata cert
              idp_made idp_ok (parser_of_parses _) eq_refl eq_refl) as [Hp Hs].
  split; [exact Hp|]. destruct (Hs (trusting (Some (published idp_metadata)) "") eq_refl) as [Hc Hb].
  split; [exact Hc|]. split; [apply (Hb HTTPRedirectBinding)|apply (Hb HTTPPostBinding)]; rewrite list_elem_of_In; simpl; tauto.
Defined.

(** Two lists of entities, one in the other, with the metadata of the service provider. *)
Definition federation : EntitiesDescriptor :=
  mkEntitiesDescriptor (Some "outer") None (Some Hour) None None
    [mkEntitiesDescriptor None (Some (63584704629 * Second)%Z) None (Some "inner") None []
       [published (sp_metadata_at (sp "https://example.com/saml2/slo") now)]]
    [].

Lemma slo_sp_ok : entity_ok (published (sp_metadata_at (sp "https://example.com/saml2/slo") now)).
Proof.
  apply sp_metadata_ok; [apply sp_ok|]. split; [|right]; eexists; (split; [reflexivity|]); by apply (bool_decide_eq_true_1 _).
Qed.

Definition federation_el : Element :=
  match EntitiesDescriptor_MarshalXML "" "EntitiesDescriptor" federation with Ret e => e | _ => zero_Element end.

Definition prints (e : outcome Element) : bool := match e with Ret e => printable e | _ => false end.

Lemma federation_printable : prints (Ret federation_el) = true.
Proof. vm_compute. reflexivity. Qed.

Lemma federation_written : EntitiesDescriptor_MarshalXML "" "EntitiesDescriptor" federation = Ret federation_el.
Proof. vm_compute. reflexivity. Qed.

Lemma metadata_roundtrip_witness : ∃ e e',
  EntitiesDescriptor_MarshalXML "" "EntitiesDescriptor" federation = Ret e ∧
  printed (Some 0%nat) e = Some e' ∧ EntitiesDescriptor_UnmarshalXML ∅ e' zero_EntitiesDescriptor = Ret federation.
Proof.
  destruct (proj2 metadata_roundtrip federation) as (e & He & Hr).
  - split_and!; [done|intros d [= <-]; by vm_compute|done| |done]. split; [|done].
    split_and!; [intros t [= <-]; by vm_compute|done..|]. constructor; [apply slo_sp_ok|constructor].
  - assert (Hp : printable e = true).
    { pose proof (eq_trans (eq_sym He) federation_written) as E.
      change (prints (Ret e) = true). rewrite E. exact federation_printable. }
    destruct (Hr Hp (Some 0%nat)) as (e' & He' & Hread). exists e, e'. split; [exact He|]. split; [exact He'|]. by apply Hread.
Defined.

(** A duration that is zero is written as an empty attribute, which is refused. *)
Example zero_duration_refused :
  match EntitiesDescriptor_MarshalXML "" "EntitiesDescriptor" (mkEntitiesDescriptor None None (Some 0%Z) None None [] []) with
  | Ret e => (map Attr_Value (Attrs e), is_ret (EntitiesDescriptor_UnmarshalXML ∅ e zero_EntitiesDescriptor))
  | _ => ([], true)
  end = (["urn:oasis:names:tc:SAML:2.0:metadata"; ""], false).
Proof. vm_compute. reflexivity. Qed.
End Examples.
